(* ===== verification/_CoqProject ===== *)
-Q . S2P
Prelude.v
Obj.v
Io.v
Varint.v
ProtoDefs.v
ProtoEncode.v
ProtoDecode.v
ProtoTyping.v
ProtoRoundtrip.v
ProtoSpec.v
Crypto.v
Blob.v
BlobFacts.v
Flash.v
TString.v
TransSpec.v
Time.v
StrUtil.v
Transport.v
JpegState.v
JpegTables.v
JpegMcu.v
JpegDecode.v
JpegSafety.v
JpegPixels.v
JpegHuffman.v
JpegOpen.v
JpegLoop.v
JpegSpec.v
Geometry.v
GeometrySpec.v
Words.v
Wordlist.v
WordSpec.v
Component.v
Containers.v
Theme.v
Button.v
ComponentSpec.v
PageT.v
PageTSpec.v
Fonts.v
TextLayout.v
TextSpec.v
TextFrame.v
Formatted.v
Paragraphs.v
ParagraphSpec.v
Keyboard.v
Bip39.v
Slip39.v
MnemonicKeyboard.v
MnemonicSpec.v
PassphraseT.v
PassphraseSpec.v
Bip39Spec.v
Slip39Spec.v
Pin.v
PinSpec.v
MessageTypes.v
Messages.v
Client.v
Commands.v
ClientSpec.v
EthereumSpec.v
Bitcoin.v
BitcoinSpec.v
TrButton.v
Hold.v
Controller.v
ControllerSpec.v
Choice.v
TrEntry.v
TrEntrySpec.v
TrWordSpec.v
Flow.v
MercuryFlows.v
FlowSpec.v
Layout.v
LayoutSpec.v
