(* ===== verification/Prelude.v ===== *)
(** * The Rust code of the Trezor firmware and client: a verification library

    The repository holds the firmware of the Trezor hardware wallets and the
    libraries of its hosts.  The firmware is C below, MicroPython above, and
    Rust in between: [src/core/embed/rust/src/] has the protobuf codec that
    every message of the device goes through, the translations of the user
    interface, and the user interface itself.  [src/rust/trezor-tjpgdec/] is
    the JPEG decoder that the interface uses for home screens, and
    [src/rust/trezor-client/] a client that talks to the device.  This library
    models that Rust code as functions, states and steps, and proves what makes
    it correct.  Below, file names under [core/embed/rust/src/] are given
    without this prefix.

    ** How the code is modelled

    - A call that can fail or abort returns an [outcome] (this file): [Ok] and
      [Err] are Rust's [Result], [Panic] is an abort (an index out of range, an
      [unwrap!] of nothing, a slice inside of a character, a read outside of
      its buffer), [NoFuel] a loop that did not end within its bound.  Theorems
      on safety exclude the last two.
    - Integers are in [Z], with the wrap-around of the release profile written
      out at their width ([wrapu], [wraps], [i16], [i32]); [usize] has 32 bits,
      as on the devices.  Bytes, and so texts, are lists of integers.
    - State is passed along: a method on [&mut self] returns the new object,
      and one on an [EventCtx] the new context.
    - A trait is a class, with its implementations as instances, and what its
      clients rely on is a class of laws: [OutputStream] (Varint),
      [JpegInput] and [JpegOutput] (JpegState,
      JpegMcu), [Link] (Transport), [Component] (Component),
      [MnemonicInput] (Keyboard) with [MnemonicLaws] (MnemonicSpec), [Transport]
      (Client) with [Scripted] (ClientSpec), [Paginate] (Component), [FlowState] and
      [FlowStore] (Flow), [ComponentMsgObj] (Layout) with [LayoutLaws] (LayoutSpec).  The clock is [Clock] (Time): it stands still while an event is handled.
    - Code outside of [src/] or in C is a class of parameters, with laws only
      for documented behaviour: the MicroPython runtime (Obj, Layout), the blobs of
      message definitions (ProtoDefs), hashing and signatures (Crypto), the
      flash driver (Flash), fonts and icons (Fonts, TextLayout), the random
      generator (Pin), the serialization of the client's messages (Client), the
      [bitcoin] crate (Bitcoin).  The C functions behind the word lists are in the
      repository ([crypto/bip39.c], [crypto/slip39.c]) and are translated.

    Each definition that models code is preceded by a comment
    [src: file lines (symbol)].

    ** The parts

    The protobuf codec ([protobuf/], [io.rs], [micropython/]).  Obj has the
    objects and errors that cross the border to Python, Io the input stream and
    zigzag integers, Varint the output streams and variable-length integers,
    ProtoDefs the readers of the definition blobs and the layout
    that they read, ProtoEncode and ProtoDecode the two directions.
    ProtoTyping shows that decoding ends and gives well-typed objects,
    ProtoRoundtrip that it inverts encoding, ProtoSpec has the theorems.
    The objects of nested messages are limited by a nesting fuel that stands
    for the C stack; one unit more than there are bytes is enough to decode, as
    each level takes at least one byte, and the depth of the object to encode.
    The loop over fields is bounded by the bytes that are left.

    Translations ([translations/], [crypto/]).  Crypto has Merkle proofs and
    collective signatures; Blob parses, validates and searches the blob, and
    BlobFacts shows that parsing is safe and has the reference layout of
    tables; Flash is the state machine of the cached blob and of the guards that
    are lent out of it; TString the strings of the interface, which look
    translations up at each use.  TransSpec has the theorems: what is accepted is
    signed and read byte by byte from the blob, a lookup gives the string that is
    stored there if there is a valid one, and the cache is valid in each reachable
    state.

    The JPEG decoder ([trezor-tjpgdec/src/lib.rs]).  JpegState has the object,
    its input and its output function, JpegTables the quantizer and Huffman
    tables and the bit stream, JpegMcu the decoding and the
    output of a block of pixels, JpegDecode opening and decoding.  JpegSafety,
    JpegPixels, JpegOpen and JpegLoop show that no index leaves its buffer,
    JpegHuffman that the tables are the canonical code, JpegLoop also that the
    rectangles handed out tile the image; JpegSpec has the theorems.  Loops over
    the input are bounded by the bytes of the input, decoding by the number of
    blocks of the image; images larger than 65520 pixels, on which the position
    wraps around, are excluded by [ready] (JpegLoop).

    The user interface ([ui/]).  Geometry has points, rectangles, grids and rows
    of items, GeometrySpec that they are sets of pixels.  Component has events,
    the event context and the wrappers around components, Containers the
    composed ones, Theme the styles, Button buttons and swipes; ComponentSpec
    shows what comes out of buttons, timers and wrappers.
    Fonts has the measures of texts, TextLayout the breaking and the layout of
    texts, whose fuel counts the turns: one for each row of the area is enough
    for measures that fit the screen (TextSpec), and labels, texts in an area.
    Paragraphs cuts texts into pages: a page begins at an offset, and the walk
    from it to the bottom is bounded by the paragraphs that are left.  TextFrame
    shows that a text is broken alike in the area that it was fitted to and in
    the part of it that it is drawn in, ParagraphSpec that the pages end and
    show everything once.  A text in chunks takes several turns for a row, so
    the fuel of a paragraph counts its bytes as well.
    Formatted has texts with changes of their style between them and their
    pages, which begin at a byte: each takes something when there is room, so
    the bytes and the breaks bound the counting; otherwise it never ends
    ([no_room_hangs]), which is [NoFuel] here.
    Words and Wordlist are the word lists and their completion,
    WordSpec has their theorems.  Keyboard has text boxes, keys with several
    letters and the interface of an input of words, Bip39 and
    Slip39 its two implementations, MnemonicKeyboard the keyboard around either.
    MnemonicSpec has the laws of an input and what follows for the keyboard,
    Bip39Spec and Slip39Spec that both inputs have the laws and what they
    confirm, and Slip39Spec has the theorem on the whole.  Pin is the PIN keyboard,
    PinSpec its theorem.

    The model T has more around these buttons.  PageT has the loader, the scroll
    bar, the pages of a content with their buttons, swipes and hold to confirm,
    pages without buttons, and the number between two buttons; PageTSpec that a page is confirmed
    only on its last page and by its button, and that it can be confirmed at
    all.  PassphraseT is the passphrase keyboard, PassphraseSpec its invariant,
    what every event does to the text, and that every passphrase can be entered
    by touches: a tap at the middle of a key, and swipes between the pages of keys.

    The model R has two buttons.  Time has floating point numbers and values
    that change with time, TrButton the buttons on the screen with their
    layouts and actions, Hold the loader that grows while a button is held.
    Controller is the state machine that makes three virtual buttons out of two,
    with a content whose pages buttons turn.  ControllerSpec has runs of
    the controller, with the instant at which each event is handled, against an
    abstract machine of gestures (which buttons are down, and whether both have
    been), the course of a hold, and the range of a page.
    Choice has pages of choices, whose items a factory makes one by one, and the
    choices of strings and numbers; TrEntry the entries of PINs, passphrases and
    words.  TrEntrySpec shows that a page stays within its items and goes where
    it is sent, and what events do to the texts, TrWordSpec that the items for
    the beginning of a word are those that lead to words, and that taps of the
    buttons enter every word whatever is drawn.  Each event has draws of its own.  The next position of a page of letters is drawn until its
    letter is another one: a thousand draws are the fuel, and [FairDraws]
    (TrWordSpec) says that they are not all the same.

    The model mercury has flows of screens that are swiped ([ui/flow/],
    [ui/model_mercury/flow/]).  Flow has the detection of swipes, the messages and
    decisions of a flow, the store of its screens as an interface, the pages of a
    screen and the component that runs a flow; MercuryFlows the states of every
    flow with what a swipe or a message in them leads to.  FlowSpec keeps a log of
    what the screens said: whatever they are, and whatever events come, a flow
    ends with consent only after the screen that has to be tapped gave it.  It
    also ties every answer to the event that is answered: to the message of the
    screen on this event, or to a swipe that the event finishes and that a touch
    has drawn before.

    A layout ([ui/layout/obj.rs]) is a component as an object of Python.  Layout
    has its methods, the arguments and results of which are objects, and what
    the messages of the components above become; the function for timers
    belongs to Python and is an interface.  LayoutSpec has the laws of a
    component, what any session of calls replies if they hold, that the passphrase
    keyboard has them, and that all timers are told; its queue is the fuel.

    The client ([trezor-client/src/]).  Transport has both versions of the wire
    protocol over a link, and their theorems; the fuel of reading and writing is
    the number of chunks.  MessageTypes and Messages are the message types and
    the fields of the messages that it uses; Client the calls, the kinds of
    answers and the interactions on the way, Commands the commands for managing
    a device, the transport of the emulator and the calls for Ethereum, Bitcoin
    the signing of Bitcoin transactions.  ClientSpec has conversations with a device that has a
    script of answers, over any transport with the laws of [Scripted] and over
    chunks on a link, EthereumSpec and BitcoinSpec what signing sends and
    answers.  The examples have a serialization of their own.  The fuel of an
    interaction is the number of the device's questions and one more.

    Time ([time.rs]) and StrUtil ([strutil.rs]) are the smaller parts, with their
    theorems in the same file.

    ** What the theorems show

    Round trips of messages, integers, tables and packets; that decoding,
    parsing and opening end on every input, without an abort; that objects are
    well typed and translations authentic; invariants of the flash cache, of
    timers, buttons and keyboards over all sequences of events; that texts,
    pages, grids and images are cut without loss and stay inside their areas; and that
    searches agree with their definition on whole lists; and that two buttons do
    what the gestures on them mean, and that every word can be entered with them,
    as every passphrase by touches.  Where the code does
    not do what it means to, a lemma shows it on an example: [format_i64_min]
    (StrUtil), [instant_cmp_edges] (Time), [table_get_sentinel_panics]
    (TransSpec), [read_uvarint_overlong] (ProtoSpec), [prefilled_keys_enabled]
    (Slip39Spec), [ellipsis_outside] (TextSpec), [chunks_lost]
    (ParagraphSpec), [convert_signature_wraps]
    (EthereumSpec), [op_return_without_path], [op_return_keeps_push],
    [witness_utxo_any_index] (BitcoinSpec), [no_room_hangs] (Formatted),
    [hold_bypassed], [absent_button_cancels], [hold_without_button],
    [frame_at_once_ends_hold] (ControllerSpec), [cancel_deletes] (TrEntrySpec),
    [another_word_shown] (TrWordSpec), [pages_unreachable] (FlowSpec),
    [stale_press_confirms] (PageTSpec).

    ** What is not modelled

    Drawing: what components paint goes to C drivers or canvases of pixels.
    The other screens of the three models, checklists,
    the constructors of layouts, the garbage collector and the macros of the MicroPython runtime,
    the generated strings, the serialization of the generated messages and the
    messages that the client does not use, and the vendored animation library.
    Debug assertions are not modelled, as release builds do not have them. *)
From stdpp Require Export base list numbers option sets.
From Stdlib Require Export ZArith Lia.

(** ** Results of Rust computations

    [Ok] and [Err] are Rust's [Result]; [Panic] is an aborted run (an index
    out of range, [unwrap!] on nothing, an out-of-bounds raw read); [NoFuel]
    marks a bounded loop that ran out of the bound it was given, which the
    termination theorems exclude. *)
Inductive outcome (E A : Type) :=
| Ok (a : A)
| Err (e : E)
| Panic
| NoFuel.
Arguments Ok {E A} a.
Arguments Err {E A} e.
Arguments Panic {E A}.
Arguments NoFuel {E A}.

Section Outcome.
Context {E : Type}.

#[export] Instance outcome_ret : MRet (outcome E) := fun A a => Ok a.

#[export] Instance outcome_bind : MBind (outcome E) := fun A B f m =>
  match m with
  | Ok a => f a
  | Err e => Err e
  | Panic => Panic
  | NoFuel => NoFuel
  end.

#[export] Instance outcome_fmap : FMap (outcome E) := fun A B f m =>
  match m with
  | Ok a => Ok (f a)
  | Err e => Err e
  | Panic => Panic
  | NoFuel => NoFuel
  end.

(** [Option::ok_or]. *)
Definition ok_or {A} (o : option A) (e : E) : outcome E A :=
  match o with Some a => Ok a | None => Err e end.

(** [unwrap!] and checked indexing: nothing there aborts. *)
Definition or_panic {A} (o : option A) : outcome E A :=
  match o with Some a => Ok a | None => Panic end.

Definition guard_ok (b : bool) (e : E) : outcome E unit :=
  if b then Ok tt else Err e.

Lemma bind_Ok {A B} (m : outcome E A) (f : A → outcome E B) b :
  (m ≫= f) = Ok b ↔ ∃ a, m = Ok a ∧ f a = Ok b.
Proof. destruct m; simpl; split; intros; naive_solver. Qed.

Lemma ok_or_Ok {A} (o : option A) e a : ok_or o e = Ok a ↔ o = Some a.
Proof. destruct o; naive_solver. Qed.

Lemma or_panic_Ok {A} (o : option A) a : or_panic o = Ok a ↔ o = Some a.
Proof. destruct o; naive_solver. Qed.

Lemma guard_ok_Ok b e u : guard_ok b e = Ok u ↔ b = true.
Proof. destruct b, u; naive_solver. Qed.

(** [safe m]: the run neither aborts nor runs out of fuel. *)
Definition safe {A} (m : outcome E A) : Prop :=
  match m with Ok _ | Err _ => True | Panic | NoFuel => False end.

Lemma safe_bind {A B} (m : outcome E A) (f : A → outcome E B) :
  safe m → (∀ a, m = Ok a → safe (f a)) → safe (m ≫= f).
Proof. destruct m; simpl; naive_solver. Qed.

Lemma safe_ok_or {A} (o : option A) e : safe (ok_or o e).
Proof. by destruct o. Qed.

Lemma safe_guard b e : safe (guard_ok b e).
Proof. by destruct b. Qed.

Definition is_ok {A} (m : outcome E A) : bool :=
  match m with Ok _ => true | _ => false end.
End Outcome.

Create HintDb rust.
#[export] Hint Resolve safe_ok_or safe_guard : rust.

(** Turns every hypothesis [_ = Ok _] about a composed computation into the
    equations of its parts. *)
Ltac inv_ok :=
  repeat match goal with
  | H : (_ ≫= _) = Ok _ |- _ => apply bind_Ok in H as (? & ? & ?)
  | H : ok_or _ _ = Ok _ |- _ => apply ok_or_Ok in H
  | H : or_panic _ = Ok _ |- _ => apply or_panic_Ok in H
  | H : guard_ok _ _ = Ok _ |- _ => apply guard_ok_Ok in H
  | H : Ok _ = Ok _ |- _ => injection H as H
  | H : Err _ = Ok _ |- _ => discriminate H
  | H : Panic = Ok _ |- _ => discriminate H
  | H : NoFuel = Ok _ |- _ => discriminate H
  | H : mret _ = Ok _ |- _ => injection H as H
  end.

(** ** Machine integers

    A [w]-bit integer is a [Z] in range; the release profile's wrap-around is
    written out where the code can overflow. *)
Definition wrapu (w z : Z) : Z := z `mod` 2 ^ w.
Definition wraps (w z : Z) : Z := (z + 2 ^ (w - 1)) `mod` 2 ^ w - 2 ^ (w - 1).
Definition in_u (w z : Z) : Prop := (0 <= z < 2 ^ w)%Z.
Definition in_s (w z : Z) : Prop := (- 2 ^ (w - 1) <= z < 2 ^ (w - 1))%Z.
Definition fits_u (w z : Z) : bool := ((0 <=? z) && (z <? 2 ^ w))%Z.
Definition fits_s (w z : Z) : bool := ((- 2 ^ (w - 1) <=? z) && (z <? 2 ^ (w - 1)))%Z.
(** Arithmetic of the signed types. *)
Definition i32 (z : Z) : Z := wraps 32 z.
Definition i16 (z : Z) : Z := wraps 16 z.
Abbreviation byte_ok := (in_u 8).
(** [usize] on the device (and the width [usize] arithmetic is checked at). *)
Abbreviation usize_bits := 32%Z.

#[export] Instance in_u_dec w z : Decision (in_u w z).
Proof. unfold in_u; apply _. Defined.
#[export] Instance in_s_dec w z : Decision (in_s w z).
Proof. unfold in_s; apply _. Defined.

Section Words.
Local Open Scope Z_scope.

Lemma wrapu_small w z : in_u w z → wrapu w z = z.
Proof. intros H. by apply Z.mod_small. Qed.

Lemma wrapu_range w z : 0 <= w → in_u w (wrapu w z).
Proof. intros. apply Z.mod_pos_bound. lia. Qed.

Lemma wraps_range w z : 0 < w → in_s w (wraps w z).
Proof.
  intros. unfold wraps, in_s.
  pose proof (Z.mod_pos_bound (z + 2 ^ (w - 1)) (2 ^ w) ltac:(lia)).
  replace (2 ^ w) with (2 * 2 ^ (w - 1)) in *; [lia|].
  rewrite <- Z.pow_succ_r by lia. f_equal; lia.
Qed.

Lemma wraps_small w z : 0 < w → in_s w z → wraps w z = z.
Proof.
  unfold wraps, in_s. intros.
  assert (2 ^ w = 2 * 2 ^ (w - 1)) by (rewrite <- Z.pow_succ_r by lia; f_equal; lia).
  rewrite Z.mod_small; lia.
Qed.

Lemma fits_u_spec w z : fits_u w z = true ↔ in_u w z.
Proof. unfold fits_u, in_u. rewrite andb_true_iff, Z.leb_le, Z.ltb_lt. done. Qed.

Lemma fits_s_spec w z : fits_s w z = true ↔ in_s w z.
Proof. unfold fits_s, in_s. rewrite andb_true_iff, Z.leb_le, Z.ltb_lt. done. Qed.

(** Bits below a shifted number. *)
Lemma lor_add a d k : 0 <= k → 0 <= d < 2 ^ k → Z.lor (a * 2 ^ k) d = a * 2 ^ k + d.
Proof.
  intros Hk Hd. symmetry. apply Z.add_nocarry_lor.
  apply Z.bits_inj'. intros n Hn. rewrite Z.land_spec, Z.bits_0, Z.mul_pow2_bits by done.
  destruct (Z.lt_ge_cases n k); [by rewrite Z.testbit_neg_r by lia|].
  rewrite andb_comm. replace d with (d mod 2 ^ k) by (apply Z.mod_small; lia).
  by rewrite Z.mod_pow2_bits_high by lia.
Qed.

Lemma land_ones_range z k : 0 <= k → 0 <= Z.land z (Z.ones k) < 2 ^ k.
Proof. intros Hk. rewrite Z.land_ones by done. apply Z.mod_pos_bound. lia. Qed.
End Words.

(** ** Lists indexed by [Z], slices *)
Abbreviation len l := (Z.of_nat (length l)).

Definition getZ {A} (l : list A) (i : Z) : option A :=
  if (i <? 0)%Z then None else l !! Z.to_nat i.

(** [l.get(s..e)]: [None] unless [s <= e <= l.len()]. *)
Definition slice {A} (l : list A) (s e : Z) : option (list A) :=
  if ((0 <=? s) && (s <=? e) && (e <=? len l))%Z
  then Some (take (Z.to_nat (e - s)) (drop (Z.to_nat s) l))
  else None.

Section Slices.
Context {A : Type}.
Implicit Types l : list A.
Local Open Scope Z_scope.

Lemma slice_Some l s e x :
  slice l s e = Some x ↔
  0 <= s <= e ∧ e <= len l ∧ x = take (Z.to_nat (e - s)) (drop (Z.to_nat s) l).
Proof.
  unfold slice.
  destruct ((0 <=? s) && (s <=? e) && (e <=? len l)) eqn:H; [|split; [done|]].
  - rewrite !andb_true_iff, !Z.leb_le in H. naive_solver lia.
  - intros (?&?&?). exfalso.
    assert ((0 <=? s) && (s <=? e) && (e <=? len l) = true); [|congruence].
    rewrite !andb_true_iff, !Z.leb_le. lia.
Qed.

Lemma slice_length l s e x : slice l s e = Some x → len x = e - s.
Proof.
  rewrite slice_Some. intros (?&?&->).
  rewrite length_take, length_drop. lia.
Qed.

Lemma slice_Forall (P : A → Prop) l s e x :
  slice l s e = Some x → Forall P l → Forall P x.
Proof. rewrite slice_Some. intros (?&?&->) ?. by apply Forall_take, Forall_drop. Qed.

Lemma slice_app_mid l1 x l2 :
  slice (l1 ++ x ++ l2) (len l1) (len l1 + len x) = Some x.
Proof.
  apply slice_Some. rewrite !length_app. split; [lia|]. split; [lia|].
  rewrite Nat2Z.id, drop_app_length.
  replace (Z.to_nat _) with (length x) by lia. by rewrite take_app_length.
Qed.

Lemma getZ_Some l i x : getZ l i = Some x ↔ 0 <= i ∧ l !! Z.to_nat i = Some x.
Proof. unfold getZ. destruct (Z.ltb_spec i 0); naive_solver lia. Qed.

Lemma getZ_lt l i x : getZ l i = Some x → 0 <= i < len l.
Proof. rewrite getZ_Some. intros [? ?%lookup_lt_Some]. lia. Qed.

Lemma getZ_is_Some l i : is_Some (getZ l i) ↔ 0 <= i < len l.
Proof.
  split; [intros [x ?]; by eapply getZ_lt|].
  intros. unfold getZ. destruct (Z.ltb_spec i 0); [lia|].
  apply lookup_lt_is_Some. lia.
Qed.

Lemma getZ_None l i : getZ l i = None ↔ i < 0 ∨ len l <= i.
Proof.
  rewrite eq_None_not_Some, getZ_is_Some. lia.
Qed.

Lemma getZ_nat l (i : nat) : getZ l (Z.of_nat i) = l !! i.
Proof. unfold getZ. destruct (Z.ltb_spec (Z.of_nat i) 0); [lia|]. by rewrite Nat2Z.id. Qed.

Lemma getZ_Forall (P : A → Prop) l i x : getZ l i = Some x → Forall P l → P x.
Proof. rewrite getZ_Some. intros [_ H] HF. by eapply Forall_lookup_1. Qed.
End Slices.

(** Overwriting at an index, and a range; [store] is [l[i] = x]. *)
Definition splice {A} (l : list A) (p : Z) (v : list A) : list A :=
  take (Z.to_nat p) l ++ v ++ drop (Z.to_nat p + length v) l.

Definition store {E A} (l : list A) (i : Z) (x : A) : outcome E (list A) :=
  if ((0 <=? i) && (i <? len l))%Z then Ok (<[Z.to_nat i := x]> l) else Panic.

Section Splice.
Local Open Scope Z_scope.
Context {A : Type}.
Implicit Types l : list A.

Lemma splice_length l p v :
  0 <= p → p + len v <= len l → length (splice l p v) = length l.
Proof. intros. unfold splice. rewrite !length_app, length_take, length_drop. lia. Qed.

Lemma splice_nil l p : splice l p [] = l.
Proof. unfold splice. rewrite Nat.add_0_r. simpl. apply take_drop. Qed.

Lemma splice_cons l p x v :
  0 <= p → p + 1 + len v <= len l →
  splice (splice l p [x]) (p + 1) v = splice l p (x :: v).
Proof.
  intros Hp Hl. unfold splice.
  assert (length (take (Z.to_nat p) l ++ [x]) = Z.to_nat (p + 1)) as Hlen.
  { rewrite length_app, length_take. simpl. lia. }
  rewrite (app_assoc (take (Z.to_nat p) l) [x]).
  rewrite take_app_length' by (rewrite Hlen; done).
  rewrite drop_app_ge by (rewrite Hlen; lia). rewrite Hlen, drop_drop, <- app_assoc.
  simpl. do 4 f_equal. lia.
Qed.
End Splice.

Section Store.
Context {E A : Type}.
Implicit Types l : list A.
Local Open Scope Z_scope.

Lemma store_app pre x post (y : A) : store (E:=E) (pre ++ x :: post) (len pre) y = Ok (pre ++ y :: post).
Proof.
  unfold store. rewrite length_app. cbn [length].
  destruct (Z.leb_spec 0 (len pre)), (Z.ltb_spec (len pre) (Z.of_nat (length pre + S (length post))));
    try lia. cbn [andb]. rewrite Nat2Z.id.
  by rewrite insert_app_r_alt, Nat.sub_diag by lia.
Qed.

Lemma store_ok l i x : 0 <= i < len l → store (E:=E) l i x = Ok (<[Z.to_nat i := x]> l).
Proof. intros. unfold store. destruct (Z.leb_spec 0 i), (Z.ltb_spec i (len l)); try lia. done. Qed.

Lemma store_Ok l i x l' :
  store (E:=E) l i x = Ok l' → 0 <= i < len l ∧ l' = <[Z.to_nat i := x]> l ∧ length l' = length l.
Proof.
  unfold store. destruct (Z.leb_spec 0 i), (Z.ltb_spec i (len l)); try done.
  intros [= <-]. by rewrite length_insert.
Qed.

Lemma store_Forall (P : A → Prop) l i x l' :
  store (E:=E) l i x = Ok l' → Forall P l → P x → Forall P l'.
Proof. intros (_ & -> & _)%store_Ok ??. by apply Forall_insert. Qed.
End Store.

(** ** Loops in the result monad *)
Section Folds.
Context {E : Type}.

(** [for x in l { s = f(s, x)?; }] *)
Fixpoint foldM {S A} (f : S → A → outcome E S) (s : S) (l : list A) : outcome E S :=
  match l with
  | [] => Ok s
  | x :: l => f s x ≫= λ s, foldM f s l
  end.

Lemma foldM_app {S A} (f : S → A → outcome E S) s l1 l2 :
  foldM f s (l1 ++ l2) = foldM f s l1 ≫= λ s, foldM f s l2.
Proof.
  revert s; induction l1 as [|x l1 IH]; intros s; simpl; [done|].
  destruct (f s x); simpl; auto.
Qed.

Lemma foldM_ext {S A} (f g : S → A → outcome E S) s l :
  (∀ s x, x ∈ l → f s x = g s x) → foldM f s l = foldM g s l.
Proof.
  revert s; induction l as [|x l IH]; intros s H; simpl; [done|].
  rewrite H by set_solver. destruct (g s x); simpl; [|done..].
  apply IH. intros. apply H. set_solver.
Qed.

Lemma bind_assoc {A B C} (m : outcome E A) (f : A → outcome E B) (g : B → outcome E C) :
  ((m ≫= f) ≫= g) = (m ≫= λ x, f x ≫= g).
Proof. by destruct m. Qed.

Lemma foldM_inv {S A} (f : S → A → outcome E S) (P : S → Prop) s l s' :
  (∀ s x s', x ∈ l → P s → f s x = Ok s' → P s') →
  P s → foldM f s l = Ok s' → P s'.
Proof.
  revert s; induction l as [|x l IH]; intros s Hf HP; simpl; [naive_solver|].
  intros (s1 & H1 & H2)%bind_Ok. eapply (IH s1); [|eapply Hf|]; eauto; set_solver.
Qed.
End Folds.

(** ** Runs that end in a good result or in an error *)
Section Yields.
Context {E : Type}.

Definition yields {A} (m : outcome E A) (Q : A → Prop) : Prop :=
  match m with Ok a => Q a | Err _ => True | Panic | NoFuel => False end.

Lemma yields_safe {A} (m : outcome E A) Q : yields m Q → safe m.
Proof. by destruct m. Qed.

Lemma yields_Ok {A} (m : outcome E A) Q a : yields m Q → m = Ok a → Q a.
Proof. by intros ? ->. Qed.

Lemma yields_weaken {A} (m : outcome E A) (P Q : A → Prop) :
  yields m P → (∀ a, P a → Q a) → yields m Q.
Proof. destruct m; simpl; auto. Qed.

Lemma yields_bind {A B} (m : outcome E A) (f : A → outcome E B) P Q :
  yields m P → (∀ a, P a → yields (f a) Q) → yields (m ≫= f) Q.
Proof. destruct m; simpl; auto. Qed.

Lemma yields_getZ {A} (l : list A) i :
  (0 <= i < len l)%Z → yields (or_panic (E:=E) (getZ l i)) (λ x, x ∈ l).
Proof.
  intros Hi. destruct (proj2 (getZ_is_Some l i) Hi) as [x Hx]. rewrite Hx. simpl.
  apply getZ_Some in Hx as [_ Hx]. by eapply list_elem_of_lookup_2.
Qed.

Lemma yields_store {A} (l : list A) i x :
  (0 <= i < len l)%Z → yields (store (E:=E) l i x) (λ l', length l' = length l).
Proof. intros Hi. rewrite store_ok by done. simpl. by rewrite length_insert. Qed.

(** Loops: an invariant indexed by the number of turns. *)
Lemma yields_foldM_idx {S A} (f : S → A → outcome E S) (P : nat → S → Prop) l s :
  (∀ k x s, l !! k = Some x → P k s → yields (f s x) (P (Datatypes.S k))) →
  P 0%nat s → yields (foldM f s l) (P (length l)).
Proof.
  revert P s; induction l as [|x l IH]; intros P s Hf HP; [done|]. cbn [foldM length].
  apply (yields_bind _ _ (P 1%nat)).
  - by apply (Hf 0%nat).
  - intros s' Hs'. apply (IH (λ k, P (Datatypes.S k))); [|done].
    intros k y s'' Hk. by apply (Hf (Datatypes.S k)).
Qed.

Lemma yields_foldM {S A} (f : S → A → outcome E S) (P : S → Prop) l s :
  (∀ x s, x ∈ l → P s → yields (f s x) P) → P s → yields (foldM f s l) P.
Proof.
  intros Hf HP. apply (yields_foldM_idx f (λ _, P)); [|done].
  intros k x s' Hk. apply Hf. by eapply list_elem_of_lookup_2.
Qed.
End Yields.

(** A range of integers. *)
Definition range (n : Z) : list Z := Z.of_nat <$> seq 0 (Z.to_nat n).

Lemma range_lookup n k x : range n !! k = Some x ↔ x = Z.of_nat k ∧ (Z.of_nat k < n)%Z.
Proof.
  unfold range. rewrite list_lookup_fmap, fmap_Some. split.
  - intros (y & Hy & ->). apply lookup_seq in Hy as [-> ?]. simpl. split; [done|lia].
  - intros [-> Hk]. exists k. split; [|done]. apply lookup_seq. split; [done|lia].
Qed.

Lemma range_length n : length (range n) = Z.to_nat n.
Proof. unfold range. by rewrite length_fmap, length_seq. Qed.

Lemma elem_of_range n x : x ∈ range n ↔ (0 <= x < n)%Z.
Proof.
  rewrite list_elem_of_lookup. setoid_rewrite range_lookup. split.
  - intros (k & -> & ?). lia.
  - intros. exists (Z.to_nat x). lia.
Qed.

(** ** Binary search

    [slice::binary_search_by] of the standard library: the interval
    [left..right] is halved until the comparison is [Eq] or it is empty. *)
Section BinarySearch.
Context {A : Type} (cmp : A → comparison).

Fixpoint bsearch_loop (fuel : nat) (l : list A) (left right : nat) : option nat :=
  match fuel with
  | O => None
  | S fuel =>
    if (left <? right)%nat then
      let mid := (left + (right - left) / 2)%nat in
      match l !! mid with
      | None => None
      | Some x =>
        match cmp x with
        | Eq => Some mid
        | Lt => bsearch_loop fuel l (S mid) right
        | Gt => bsearch_loop fuel l left mid
        end
      end
    else None
  end.

Definition binary_search_by (l : list A) : option nat :=
  bsearch_loop (S (length l)) l 0 (length l).

Lemma bsearch_sound fuel l left right i :
  bsearch_loop fuel l left right = Some i →
  (left <= i < right)%nat ∧ ∃ x, l !! i = Some x ∧ cmp x = Eq.
Proof.
  revert left right; induction fuel as [|fuel IH]; intros left right; [done|].
  cbn [bsearch_loop]. destruct (Nat.ltb_spec left right); [|done].
  set (mid := (left + (right - left) / 2)%nat).
  assert (left <= mid < right)%nat.
  { unfold mid. pose proof (Nat.div_lt (right - left) 2). lia. }
  destruct (l !! mid) as [x|] eqn:E; [|done]. destruct (cmp x) eqn:Ec.
  - intros [= <-]. eauto.
  - intros (? & ?)%IH. split; [lia|done].
  - intros (? & ?)%IH. split; [lia|done].
Qed.

(** [l] is ordered with respect to the comparison: everything before an
    element that is not after the key is before it, and conversely. *)
Definition bsearch_sorted (l : list A) : Prop :=
  ∀ i j x y, (i < j)%nat → l !! i = Some x → l !! j = Some y →
    (cmp x = Lt ∨ cmp y = Gt).

Lemma bsearch_complete fuel l left right j y :
  bsearch_sorted l → (right <= length l)%nat → (right - left < fuel)%nat →
  (left <= j < right)%nat → l !! j = Some y → cmp y = Eq →
  bsearch_loop fuel l left right = Some j.
Proof.
  intros Hs. revert left right; induction fuel as [|fuel IH];
    intros left right Hr Hf Hj Hy Hc; [lia|]. cbn [bsearch_loop].
  destruct (Nat.ltb_spec left right); [|lia].
  set (mid := (left + (right - left) / 2)%nat).
  assert (left <= mid < right)%nat.
  { unfold mid. pose proof (Nat.div_lt (right - left) 2). lia. }
  destruct (lookup_lt_is_Some_2 l mid ltac:(lia)) as [x Hx]. rewrite Hx.
  destruct (Nat.lt_trichotomy mid j) as [Hlt|[Heq|Hlt]].
  - destruct (Hs _ _ _ _ Hlt Hx Hy) as [->|]; [|congruence]. apply IH; try done; lia.
  - rewrite Heq, Hy in Hx. injection Hx as <-. by rewrite Hc, Heq.
  - destruct (Hs _ _ _ _ Hlt Hy Hx) as [ | ->]; [congruence|]. apply IH; try done; lia.
Qed.

Lemma binary_search_Some l i :
  binary_search_by l = Some i → ∃ x, l !! i = Some x ∧ cmp x = Eq.
Proof. intros (? & ?)%bsearch_sound. done. Qed.

Lemma binary_search_found l j y :
  bsearch_sorted l → l !! j = Some y → cmp y = Eq → binary_search_by l = Some j.
Proof.
  intros ? Hy ?. pose proof (lookup_lt_Some _ _ _ Hy).
  eapply bsearch_complete; eauto; lia.
Qed.

Lemma binary_search_None l :
  bsearch_sorted l → (binary_search_by l = None ↔ ∀ y, y ∈ l → cmp y ≠ Eq).
Proof.
  intros Hs. split.
  - intros Hn y [j Hj]%list_elem_of_lookup Hc.
    pose proof (binary_search_found _ _ _ Hs Hj Hc). congruence.
  - intros Hne. destruct (binary_search_by l) as [i|] eqn:E; [|done].
    apply binary_search_Some in E as (x & Hx & Hc).
    exfalso. eapply Hne; [|done]. by eapply list_elem_of_lookup_2.
Qed.
End BinarySearch.

(** [binary_search_by_key] on integer keys. *)
Definition binary_search_by_key {A} (key : A → Z) (k : Z) (l : list A) : option nat :=
  binary_search_by (λ x, Z.compare (key x) k) l.

Definition keys_increasing {A} (key : A → Z) (l : list A) : Prop :=
  ∀ i j x y, (i < j)%nat → l !! i = Some x → l !! j = Some y → (key x < key y)%Z.

Lemma keys_increasing_sorted {A} (key : A → Z) k l :
  keys_increasing key l → bsearch_sorted (λ x, Z.compare (key x) k) l.
Proof.
  intros H i j x y Hij Hx Hy. pose proof (H _ _ _ _ Hij Hx Hy).
  destruct (Z.lt_ge_cases (key x) k); [left|right]; [by apply Z.compare_lt_iff|].
  apply Z.compare_gt_iff. lia.
Qed.

(** On strictly increasing keys the search is the partial function from keys
    to elements. *)
Lemma binary_search_by_key_spec {A} (key : A → Z) k l i :
  keys_increasing key l →
  binary_search_by_key key k l = Some i ↔ ∃ x, l !! i = Some x ∧ key x = k.
Proof.
  intros Hk. unfold binary_search_by_key. split.
  - intros (x & Hx & Hc)%binary_search_Some. exists x. split; [done|]. by apply Z.compare_eq_iff.
  - intros (x & Hx & <-). eapply binary_search_found; eauto using keys_increasing_sorted.
    apply Z.compare_refl.
Qed.

Lemma binary_search_by_key_None {A} (key : A → Z) k l :
  keys_increasing key l →
  binary_search_by_key key k l = None ↔ ∀ x, x ∈ l → key x ≠ k.
Proof.
  intros Hk. unfold binary_search_by_key.
  rewrite binary_search_None by eauto using keys_increasing_sorted.
  by setoid_rewrite Z.compare_eq_iff.
Qed.

(** ** Lexicographic order of byte strings *)
Section Lexicographic.
Local Open Scope Z_scope.

(** Byte arrays and strings are compared lexicographically. *)
Fixpoint bytes_lt (a b : list Z) : bool :=
  match a, b with
  | [], [] => false
  | [], _ => true
  | _, [] => false
  | x :: a, y :: b => (x <? y) || ((x =? y) && bytes_lt a b)
  end.

Lemma bytes_lt_asym a b : bytes_lt a b = true → bytes_lt b a = false.
Proof.
  revert b; induction a as [|x a IH]; intros [|y b]; simpl; try done.
  destruct (Z.ltb_spec x y), (Z.eqb_spec x y), (Z.ltb_spec y x), (Z.eqb_spec y x);
    simpl; try lia; auto.
Qed.

Lemma bytes_lt_total a b : length a = length b → bytes_lt a b = false → bytes_lt b a = false → a = b.
Proof.
  revert b; induction a as [|x a IH]; intros [|y b]; simpl; try done.
  intros Hl. destruct (Z.ltb_spec x y), (Z.eqb_spec x y), (Z.ltb_spec y x), (Z.eqb_spec y x);
    simpl; try lia; try done.
  intros. subst. f_equal. apply IH; [lia|done..].
Qed.

Lemma bytes_lt_trans a b c : bytes_lt a b = true → bytes_lt b c = true → bytes_lt a c = true.
Proof.
  revert b c; induction a as [|x a IH]; intros [|y b] [|z c]; cbn [bytes_lt]; try done.
  rewrite !orb_true_iff, !andb_true_iff, !Z.ltb_lt, !Z.eqb_eq.
  intros [|[-> ?]] [|[-> ?]]; [left; lia|by left|by left|right; eauto].
Qed.
End Lexicographic.
