(* ===== verification/Obj.v ===== *)
(** * MicroPython objects, errors and UTF-8

    [micropython/obj.rs], [micropython/map.rs], [micropython/buffer.rs] and
    [error.rs]: the values that the protobuf layer reads and writes, their
    conversions to and from Rust integers, and the interface of the
    MicroPython runtime (third-party C) that those files call. *)
From S2P Require Import Prelude.
Local Open Scope Z_scope.

(** An interned string is identified by its 16-bit number. *)
Abbreviation Qstr := Z (only parsing).

(* src: micropython/obj.rs 10-64 (Obj) *)
Inductive Obj :=
| ONone
| OBool (b : bool)
| OInt (z : Z)
| OBytes (bs : list Z)
| OStr (bs : list Z)
| OList (l : list Obj)
| OMsg (msg_wire_id : option Z) (msg_offset : Z) (map : list (Qstr * Obj)).

(* src: error.rs 11-27 (Error) *)
Inductive Error :=
| TypeError
| OutOfRange
| MissingKwargs
| AllocationFailed
| EOFError
| IndexError
| CaughtException
| KeyError (key : Z)
| AttributeError (attr : Qstr)
| ValueError (msg : nat)
| ValueErrorParam (msg : nat) (param : Qstr).

(** The message constants carried by [ValueError]s, by index. *)
(* src: protobuf/error.rs 6-8 (experimental_not_enabled) *)
Definition experimental_not_enabled : Error := ValueError 0.
(* src: protobuf/error.rs 10-12 (unknown_field_type) *)
Definition unknown_field_type : Error := ValueError 1.
(* src: protobuf/error.rs 14-16 (missing_required_field) *)
Definition missing_required_field (field : Qstr) : Error := ValueErrorParam 2 field.
(* src: protobuf/error.rs 18-20 (invalid_value) *)
Definition invalid_value (field : Qstr) : Error := ValueErrorParam 3 field.
(* src: protobuf/error.rs 22-24 (end_of_buffer) *)
Definition end_of_buffer : Error := ValueError 4.

Abbreviation result := (outcome Error).

(** ** The MicroPython runtime

    The functions of the C runtime that [map.rs], [iter.rs] and [obj.rs]
    call, with the documented behaviour the callers rely on. *)
Class MicroPython := {
  (** [mp_map_lookup] with [MP_MAP_LOOKUP] *)
  mp_map_lookup : list (Qstr * Obj) → Qstr → option Obj;
  (** [mp_map_lookup] with [ADD_IF_NOT_FOUND], then writing the element *)
  mp_map_store : list (Qstr * Obj) → Qstr → Obj → list (Qstr * Obj);
  (** [mp_obj_is_true] *)
  mp_obj_is_true : Obj → bool;
  (** [mp_getiter] and [mp_iternext] until the end; [None] when it raises *)
  mp_iterate : Obj → option (list Obj);
  mp_map_lookup_nil k : mp_map_lookup [] k = None;
  mp_map_lookup_store m k v k' :
    mp_map_lookup (mp_map_store m k v) k' =
    if decide (k = k') then Some v else mp_map_lookup m k';
  mp_obj_is_true_bool b : mp_obj_is_true (OBool b) = b;
  mp_iterate_list l : mp_iterate (OList l) = Some l;
}.

Section Map.
Context `{MicroPython}.

(* src: micropython/map.rs 86-105 (Map::get, Map::get_obj) *)
Definition map_get (m : list (Qstr * Obj)) (k : Qstr) : result Obj :=
  ok_or (mp_map_lookup m k) (KeyError k).

(* src: micropython/map.rs 82-84 (Map::contains_key) *)
Definition contains_key (m : list (Qstr * Obj)) (k : Qstr) : bool :=
  is_ok (map_get m k).

(* src: micropython/map.rs 119-145 (Map::set, Map::set_obj) *)
Definition map_set (m : list (Qstr * Obj)) (k : Qstr) (v : Obj) : list (Qstr * Obj) :=
  mp_map_store m k v.

Lemma contains_key_spec m k : contains_key m k = true ↔ is_Some (mp_map_lookup m k).
Proof. unfold contains_key, map_get. destruct (mp_map_lookup m k); simpl; naive_solver. Qed.
Lemma contains_key_false m k : contains_key m k = false ↔ mp_map_lookup m k = None.
Proof. unfold contains_key, map_get. destruct (mp_map_lookup m k); simpl; naive_solver. Qed.

Lemma map_set_same m k v : mp_map_lookup (map_set m k v) k = Some v.
Proof. unfold map_set. rewrite mp_map_lookup_store. by case_decide. Qed.
Lemma map_set_other m k v k' : k ≠ k' → mp_map_lookup (map_set m k v) k' = mp_map_lookup m k'.
Proof. intros. unfold map_set. rewrite mp_map_lookup_store. by case_decide. Qed.
End Map.

(** ** Conversions between objects and Rust values *)

(** [i64::try_from(Obj)]: [trezor_obj_get_ll_checked] refuses an integer whose
    magnitude does not fit in 63 bits, and anything that is not an integer. *)
(* src: micropython/obj.rs 170-188 (TryFrom<Obj> for i64) *)
Definition obj_to_i64 (o : Obj) : result Z :=
  match o with
  | OInt z => if Z.abs z <? 2 ^ 63 then Ok z else Err TypeError
  | _ => Err TypeError
  end.

(* src: micropython/obj.rs 394-403 (TryFrom<Obj> for u64) *)
Definition obj_to_u64 (o : Obj) : result Z :=
  val ← obj_to_i64 o;
  ok_or (if fits_u 64 val then Some val else None) OutOfRange.

(* src: micropython/obj.rs 136-147 (TryFrom<Obj> for bool) *)
Definition obj_to_bool `{MicroPython} (o : Obj) : result bool := Ok (mp_obj_is_true o).

(* src: micropython/obj.rs 192-200 (From<bool> for Obj) *)
Definition obj_of_bool (b : bool) : Obj := OBool b.

(** Integers of any width become MicroPython integers of the same value. *)
(* src: micropython/obj.rs 215-255 (TryFrom<i64/u32/u64> for Obj) *)
Definition obj_of_int (z : Z) : Obj := OInt z.

(* src: micropython/buffer.rs 181-223 (get_buffer_info, get_buffer) *)
Definition get_buffer (o : Obj) : result (list Z) :=
  match o with
  | OBytes bs | OStr bs => Ok bs
  | _ => Err TypeError
  end.

(* src: micropython/iter.rs 33-97 (IterBuf::try_iterate, Iter::next) *)
Definition try_iterate `{MicroPython} (o : Obj) : result (list Obj) :=
  ok_or (mp_iterate o) CaughtException.

(** [Gc::<List>::try_from(value).is_ok()]. *)
(* src: micropython/list.rs 130-143 (TryFrom<Obj> for Gc<List>) *)
Definition is_list (o : Obj) : bool :=
  match o with OList _ => true | _ => false end.

(** ** UTF-8, as [core::str::from_utf8] decides it *)
Definition cont (b : Z) : bool := (128 <=? b) && (b <=? 191).

Fixpoint utf8_valid_fuel (n : nat) (bs : list Z) : bool :=
  match n, bs with
  | _, [] => true
  | O, _ => false
  | S n, b0 :: r0 =>
    if b0 <? 128 then utf8_valid_fuel n r0 else
    match r0 with
    | b1 :: r1 =>
      if (194 <=? b0) && (b0 <=? 223) then cont b1 && utf8_valid_fuel n r1 else
      match r1 with
      | b2 :: r2 =>
        if (224 <=? b0) && (b0 <=? 239) then
          ((if b0 =? 224 then 160 <=? b1 else 128 <=? b1)
           && (if b0 =? 237 then b1 <=? 159 else b1 <=? 191)
           && cont b2 && utf8_valid_fuel n r2)
        else
        match r2 with
        | b3 :: r3 =>
          (240 <=? b0) && (b0 <=? 244)
          && (if b0 =? 240 then 144 <=? b1 else 128 <=? b1)
          && (if b0 =? 244 then b1 <=? 143 else b1 <=? 191)
          && cont b2 && cont b3 && utf8_valid_fuel n r3
        | [] => false
        end
      | [] => false
      end
    | [] => false
    end
  end.

Definition utf8_valid (bs : list Z) : bool := utf8_valid_fuel (length bs) bs.

Example utf8_ascii : utf8_valid [72; 105] = true.
Proof. reflexivity. Qed.
Example utf8_two : utf8_valid [195; 169] = true.
Proof. reflexivity. Qed.
Example utf8_overlong : utf8_valid [192; 128] = false.
Proof. reflexivity. Qed.
Example utf8_surrogate : utf8_valid [237; 160; 128] = false.
Proof. reflexivity. Qed.

Lemma obj_to_u64_int z : 0 <= z < 2 ^ 63 → obj_to_u64 (OInt z) = Ok z.
Proof.
  intros. unfold obj_to_u64, obj_to_i64. cbn -[Z.abs Z.pow fits_u].
  destruct (Z.ltb_spec (Z.abs z) (2 ^ 63)); [|lia]. cbn -[Z.pow fits_u].
  assert (fits_u 64 z = true) as ->; [|done].
  apply fits_u_spec. unfold in_u. lia.
Qed.

Lemma obj_to_i64_int z : - 2 ^ 63 < z < 2 ^ 63 → obj_to_i64 (OInt z) = Ok z.
Proof.
  intros. unfold obj_to_i64. destruct (Z.ltb_spec (Z.abs z) (2 ^ 63)); [done|lia].
Qed.

(** ** A concrete runtime

    Association lists in insertion order, with Python's truth values; it
    instantiates the interface in the witnesses. *)
Fixpoint assoc_lookup (m : list (Qstr * Obj)) (k : Qstr) : option Obj :=
  match m with
  | [] => None
  | (k', v) :: m => if decide (k' = k) then Some v else assoc_lookup m k
  end.

Fixpoint assoc_store (m : list (Qstr * Obj)) (k : Qstr) (v : Obj) : list (Qstr * Obj) :=
  match m with
  | [] => [(k, v)]
  | (k', v') :: m => if decide (k' = k) then (k, v) :: m else (k', v') :: assoc_store m k v
  end.

Definition py_truth (o : Obj) : bool :=
  match o with
  | ONone => false
  | OBool b => b
  | OInt z => negb (z =? 0)
  | OBytes l | OStr l => negb (len l =? 0)
  | OList l => negb (len l =? 0)
  | OMsg _ _ _ => true
  end.

Definition py_iterate (o : Obj) : option (list Obj) :=
  match o with
  | OList l => Some l
  | OBytes l => Some (OInt <$> l)
  | _ => None
  end.

Lemma assoc_lookup_store m k v k' :
  assoc_lookup (assoc_store m k v) k' = if decide (k = k') then Some v else assoc_lookup m k'.
Proof.
  induction m as [|[k0 v0] m IH]; simpl; [done|].
  destruct (decide (k0 = k)) as [->|]; simpl; [by repeat case_decide|].
  rewrite IH. repeat case_decide; congruence.
Qed.

Definition assoc_python : MicroPython := {|
  mp_map_lookup := assoc_lookup;
  mp_map_store := assoc_store;
  mp_obj_is_true := py_truth;
  mp_iterate := py_iterate;
  mp_map_lookup_nil k := eq_refl;
  mp_map_lookup_store := assoc_lookup_store;
  mp_obj_is_true_bool b := eq_refl;
  mp_iterate_list l := eq_refl;
|}.
