(* ===== verification/Io.v ===== *)
(** * Byte streams and zigzag integers

    [io.rs] ([InputStream]: a cursor over a byte slice) and
    [protobuf/zigzag.rs].  A stream is a buffer and a position; each reading
    operation returns its value and the advanced stream. *)
From S2P Require Import Prelude Obj.
Local Open Scope Z_scope.

(* src: io.rs 6-9 (InputStream) *)
Record InputStream := mkStream { buf : list Z; pos : Z }.

(* src: io.rs 12-14 (InputStream::new) *)
Definition new_stream (b : list Z) : InputStream := mkStream b 0.

(* src: io.rs 16-18 (InputStream::remaining) *)
Definition remaining (s : InputStream) : Z := Z.max 0 (len (buf s) - pos s).

(* src: io.rs 20-22 (InputStream::tell) *)
Definition tell (s : InputStream) : Z := pos s.

(** The end of the range is computed in [usize]; a wrapped end is below the
    start, and [get] refuses it like any range past the end. *)
(* src: io.rs 28-35 (InputStream::read) *)
Definition read (s : InputStream) (n : Z) : result (list Z * InputStream) :=
  b ← ok_or (slice (buf s) (pos s) (wrapu usize_bits (pos s + n))) EOFError;
  Ok (b, mkStream (buf s) (pos s + n)).

(* src: io.rs 24-26 (InputStream::read_stream) *)
Definition read_stream (s : InputStream) (n : Z) : result (InputStream * InputStream) :=
  '(b, s) ← read s n;
  Ok (new_stream b, s).

(* src: io.rs 37-43 (InputStream::rest) *)
Definition rest (s : InputStream) : list Z :=
  if len (buf s) <? pos s then [] else drop (Z.to_nat (pos s)) (buf s).

(* src: io.rs 45-49 (InputStream::read_byte) *)
Definition read_byte (s : InputStream) : result (Z * InputStream) :=
  val ← ok_or (getZ (buf s) (pos s)) EOFError;
  Ok (val, mkStream (buf s) (pos s + 1)).

(** [u16::from_le_bytes], [u32::from_le_bytes]. *)
Definition from_le_bytes (bs : list Z) : Z := foldr (λ b acc, b + 256 * acc) 0 bs.

(* src: io.rs 51-54 (InputStream::read_u16_le) *)
Definition read_u16_le (s : InputStream) : result (Z * InputStream) :=
  '(b, s) ← read s 2;
  Ok (from_le_bytes b, s).

(* src: io.rs 56-59 (InputStream::read_u32_le) *)
Definition read_u32_le (s : InputStream) : result (Z * InputStream) :=
  '(b, s) ← read s 4;
  Ok (from_le_bytes b, s).

(** One turn of the loop of [read_uvarint] per byte read: the shift amount is
    reduced modulo 64 and the sum wraps, as in a release build. *)
(* src: io.rs 61-73 (InputStream::read_uvarint) *)
Fixpoint read_uvarint_loop (fuel : nat) (s : InputStream) (uint shift : Z)
    : result (Z * InputStream) :=
  match fuel with
  | O => NoFuel
  | S fuel =>
    '(byte, s) ← read_byte s;
    let uint := wrapu 64 (uint + wrapu 64 (Z.shiftl (Z.land byte 127) (shift `mod` 64))) in
    let shift := shift + 7 in
    if Z.land byte 128 =? 0 then Ok (uint, s) else read_uvarint_loop fuel s uint shift
  end.

(* src: io.rs 61-73 (InputStream::read_uvarint) *)
Definition read_uvarint (s : InputStream) : result (Z * InputStream) :=
  read_uvarint_loop (S (Z.to_nat (remaining s))) s 0 0.

(** [u16::to_le_bytes]. *)
Definition u16_bytes (z : Z) : list Z := [z `mod` 256; z / 256].

Lemma from_le_u16 z : in_u 16 z → from_le_bytes (u16_bytes z) = z.
Proof.
  intros. unfold from_le_bytes, u16_bytes. cbn [foldr].
  pose proof (Z.div_mod z 256). lia.
Qed.

(** ** Zigzag *)

(* src: protobuf/zigzag.rs 3-5 (to_unsigned) *)
Definition to_unsigned (sint : Z) : Z :=
  wrapu 64 (Z.lxor (wraps 64 (Z.shiftl sint 1)) (Z.shiftr sint 63)).

(* src: protobuf/zigzag.rs 7-9 (to_signed) *)
Definition to_signed (uint : Z) : Z :=
  Z.lxor (wraps 64 (Z.shiftr uint 1)) (- wraps 64 (Z.land uint 1)).

(** ** Facts about streams *)

(** A stream inside its buffer; a slice is shorter than [isize::MAX]. *)
Record stream_ok (s : InputStream) : Prop := {
  stream_pos : 0 <= pos s <= len (buf s);
  stream_len : len (buf s) < 2 ^ 31;
}.

(** [s] advanced by [n] bytes. *)
Definition advance (s : InputStream) (n : Z) : InputStream := mkStream (buf s) (pos s + n).

Section StreamFacts.
Implicit Types s : InputStream.

Lemma new_stream_ok b : len b < 2 ^ 31 → stream_ok (new_stream b).
Proof. intros. split; simpl; [lia|done]. Qed.

Lemma rest_new b : rest (new_stream b) = b.
Proof. unfold rest. simpl. destruct (Z.ltb_spec (len b) 0); [lia|done]. Qed.

Lemma rest_ok s : stream_ok s → rest s = drop (Z.to_nat (pos s)) (buf s).
Proof. intros []. unfold rest. destruct (Z.ltb_spec (len (buf s)) (pos s)); [lia|done]. Qed.

Lemma remaining_rest s : stream_ok s → remaining s = len (rest s).
Proof.
  intros Hok. rewrite rest_ok by done. destruct Hok. unfold remaining.
  rewrite length_drop. lia.
Qed.

Lemma advance_ok s n : stream_ok s → 0 <= n <= len (rest s) → stream_ok (advance s n).
Proof.
  intros Hs Hn. rewrite <- remaining_rest in Hn by done. destruct Hs.
  unfold remaining in Hn. split; simpl; [lia|done].
Qed.

Lemma rest_advance s n :
  stream_ok s → 0 <= n <= len (rest s) → rest (advance s n) = drop (Z.to_nat n) (rest s).
Proof.
  intros Hs Hn. pose proof (advance_ok s n Hs Hn). rewrite !rest_ok by done. simpl.
  rewrite drop_drop. destruct Hs. f_equal. lia.
Qed.

Lemma advance_0 s : advance s 0 = s.
Proof. destruct s. unfold advance. simpl. by rewrite Z.add_0_r. Qed.

Lemma advance_advance s a b : advance (advance s a) b = advance s (a + b).
Proof. unfold advance. simpl. f_equal. lia. Qed.

(** [read] returns the next [n] bytes exactly when they are there. *)
Lemma read_spec s n :
  stream_ok s → in_u usize_bits n →
  read s n = if n <=? len (rest s)
             then Ok (take (Z.to_nat n) (rest s), advance s n) else Err EOFError.
Proof.
  intros Hs Hn. rewrite <- remaining_rest by done. rewrite rest_ok by done.
  destruct Hs as [Hp Hl]. unfold read, remaining, slice, wrapu, in_u in *.
  destruct (Z.leb_spec n (Z.max 0 (len (buf s) - pos s))).
  - rewrite Z.mod_small by lia.
    assert ((0 <=? pos s) && (pos s <=? pos s + n) && (pos s + n <=? len (buf s)) = true) as ->.
    { rewrite !andb_true_iff, !Z.leb_le. lia. }
    simpl. do 3 f_equal. lia.
  - assert ((0 <=? pos s) && (pos s <=? (pos s + n) `mod` 2 ^ 32)
            && ((pos s + n) `mod` 2 ^ 32 <=? len (buf s)) = false) as ->; [|done].
    rewrite !andb_false_iff, !Z.leb_gt.
    destruct (Z.lt_ge_cases (pos s + n) (2 ^ 32)).
    + rewrite Z.mod_small by lia. lia.
    + left; right.
      assert ((pos s + n) `mod` 2 ^ 32 = pos s + n - 2 ^ 32) as ->; [|lia].
      symmetry. apply (Z.mod_unique_pos _ _ 1); lia.
Qed.

Lemma read_app s b r :
  stream_ok s → rest s = b ++ r → read s (len b) = Ok (b, advance s (len b)).
Proof.
  intros Hs Hr. pose proof (remaining_rest s Hs) as Hrem. rewrite Hr in Hrem.
  rewrite length_app in Hrem. rewrite read_spec; [|done|].
  - rewrite Hr, length_app. destruct (Z.leb_spec (len b) (Z.of_nat (length b + length r))); [|lia].
    by rewrite Nat2Z.id, take_app_length.
  - destruct Hs. unfold remaining, in_u in *. lia.
Qed.

Lemma read_byte_cons s b r :
  stream_ok s → rest s = b :: r → read_byte s = Ok (b, advance s 1).
Proof.
  intros Hs Hr. unfold read_byte. rewrite rest_ok in Hr by done.
  assert (getZ (buf s) (pos s) = Some b) as ->; [|done].
  apply getZ_Some. split; [destruct Hs; lia|].
  assert (drop (Z.to_nat (pos s)) (buf s) !! 0%nat = Some b) as H by by rewrite Hr.
  rewrite lookup_drop, Nat.add_0_r in H. done.
Qed.

Lemma read_byte_nil s : stream_ok s → rest s = [] → read_byte s = Err EOFError.
Proof.
  intros Hs Hr. unfold read_byte.
  assert (getZ (buf s) (pos s) = None) as ->; [|done].
  pose proof (remaining_rest s Hs) as Hrem. rewrite Hr in Hrem. simpl in Hrem.
  apply getZ_None. destruct Hs. unfold remaining in *. lia.
Qed.

Lemma rest_advance_app s b r :
  stream_ok s → rest s = b ++ r →
  rest (advance s (len b)) = r ∧ stream_ok (advance s (len b)).
Proof.
  intros Hs Hr. assert (0 <= len b <= len (rest s)).
  { rewrite Hr, length_app. lia. }
  split; [|by apply advance_ok].
  rewrite rest_advance, Hr, Nat2Z.id, drop_app_length; done.
Qed.

Lemma rest_advance_cons s b r :
  stream_ok s → rest s = b :: r → rest (advance s 1) = r ∧ stream_ok (advance s 1).
Proof. apply (rest_advance_app s [b]). Qed.

Lemma read_byte_Ok s b s' :
  stream_ok s → read_byte s = Ok (b, s') →
  ∃ r, rest s = b :: r ∧ s' = advance s 1 ∧ stream_ok s' ∧ rest s' = r.
Proof.
  intros Hs H. destruct (rest s) as [|b' r] eqn:Hr.
  - by rewrite read_byte_nil in H.
  - rewrite (read_byte_cons _ _ _ Hs Hr) in H. injection H as -> <-.
    destruct (rest_advance_cons _ _ _ Hs Hr). eexists; split_and!; eauto.
Qed.

Lemma read_Ok s n b s' :
  stream_ok s → in_u usize_bits n → read s n = Ok (b, s') →
  ∃ r, rest s = b ++ r ∧ len b = n ∧ s' = advance s n ∧ stream_ok s' ∧ rest s' = r.
Proof.
  intros Hs Hn. rewrite read_spec by done.
  destruct (Z.leb_spec n (len (rest s))); [|done]. intros [= <- <-].
  unfold in_u in Hn.
  exists (drop (Z.to_nat n) (rest s)). rewrite take_drop, length_take.
  split; [done|]. split; [lia|]. split; [done|].
  split; [apply advance_ok; [done|lia]|]. apply rest_advance; [done|lia].
Qed.

Lemma safe_read s n : safe (read s n).
Proof. unfold read. by destruct (slice _ _ _). Qed.
Lemma safe_read_byte s : safe (read_byte s).
Proof. unfold read_byte. by destruct (getZ _ _). Qed.

(** A stream of bytes. *)
Definition input_ok s : Prop := stream_ok s ∧ Forall byte_ok (buf s).

Lemma new_input_ok b : len b < 2 ^ 31 → Forall byte_ok b → input_ok (new_stream b).
Proof. intros. split; [by apply new_stream_ok|done]. Qed.

Lemma rest_bytes s : input_ok s → Forall byte_ok (rest s).
Proof. intros [Hs Hb]. rewrite rest_ok by done. by apply Forall_drop. Qed.

Lemma rest_length s : stream_ok s → len (rest s) <= len (buf s).
Proof. intros. rewrite rest_ok by done. rewrite length_drop. lia. Qed.

Lemma input_read s n b s' :
  input_ok s → in_u usize_bits n → read s n = Ok (b, s') →
  len b = n ∧ Forall byte_ok b ∧ input_ok s' ∧ input_ok (new_stream b) ∧
  rest s = b ++ rest s' ∧ s' = advance s n.
Proof.
  intros Hi Hn H. pose proof (rest_bytes s Hi) as Hr. destruct Hi as [Hs Hb].
  pose proof (rest_length s Hs) as Hlen. pose proof (stream_len _ Hs).
  apply read_Ok in H as (r & Hb1 & Hl & -> & Hs' & <-); [|done..].
  rewrite Hb1 in Hr, Hlen. apply Forall_app in Hr as [Hr1 _]. rewrite length_app in Hlen.
  split; [done|]. split; [done|]. split; [by split|].
  split; [|done]. apply new_input_ok; [lia|done].
Qed.

Lemma input_read_stream s n sub s' :
  input_ok s → in_u usize_bits n → read_stream s n = Ok (sub, s') →
  input_ok sub ∧ input_ok s' ∧ pos sub = 0 ∧ len (buf sub) = n ∧
  rest s = buf sub ++ rest s' ∧ s' = advance s n.
Proof.
  intros Hi Hn H. unfold read_stream in H. inv_ok. destruct x as [b s1]. inv_ok. subst.
  match goal with H : read _ _ = _ |- _ => apply input_read in H as (? & ? & ? & ? & ? & ?) end;
    naive_solver.
Qed.

Lemma input_read_byte s b s' :
  input_ok s → read_byte s = Ok (b, s') → byte_ok b ∧ input_ok s' ∧ rest s = b :: rest s' ∧
  s' = advance s 1.
Proof.
  intros Hi H. pose proof (rest_bytes s Hi) as Hr. destruct Hi as [Hs Hb].
  apply read_byte_Ok in H as (r & Hb1 & -> & Hs' & <-); [|done].
  rewrite Hb1 in Hr. apply Forall_cons in Hr as [??].
  split; [done|]. split; [by split|]. done.
Qed.

Lemma input_read_u16 s v s' :
  input_ok s → read_u16_le s = Ok (v, s') → in_u 16 v ∧ input_ok s' ∧ s' = advance s 2.
Proof.
  intros Hi H. unfold read_u16_le in H. inv_ok. destruct x as [b s1]. inv_ok. subst.
  match goal with H : read _ _ = _ |- _ =>
    apply input_read in H as (Hl & Hb & ? & ? & ? & ?); [|done|unfold in_u; lia] end.
  split; [|done]. destruct b as [|b0 [|b1 [|]]]; simpl in Hl; try lia.
  unfold from_le_bytes, in_u in *. simpl. rewrite !Forall_cons in Hb. lia.
Qed.

Lemma safe_read_u16 s : safe (read_u16_le s).
Proof. apply safe_bind; [apply safe_read|]. by intros [b s1] _. Qed.
Lemma safe_read_stream s n : safe (read_stream s n).
Proof. apply safe_bind; [apply safe_read|]. by intros [b s1] _. Qed.
End StreamFacts.

#[export] Hint Resolve safe_read safe_read_byte safe_read_u16 safe_read_stream : rust.
