(* ===== verification/Varint.v ===== *)
(** * Output streams and variable-length integers

    The [OutputStream] trait of [protobuf/encode.rs] as a class, its two
    implementations ([CounterStream], [BufferStream]), the list of bytes as a
    third, and the correctness of [write_uvarint] and [read_uvarint]. *)
From S2P Require Import Prelude Obj Io.
Local Open Scope Z_scope.

(* src: protobuf/encode.rs 154-170 (OutputStream) *)
Class OutputStream (S : Type) := {
  os_write : S → list Z → result S;
  os_write_byte : S → Z → result S;
}.

(** The provided method of the trait; a [u64] has at most ten groups of seven
    bits, so ten turns are enough. *)
(* src: protobuf/encode.rs 158-169 (OutputStream::write_uvarint) *)
Fixpoint write_uvarint_loop {S} `{OutputStream S} (fuel : nat) (s : S) (num : Z) : result S :=
  match fuel with
  | O => NoFuel
  | Datatypes.S fuel =>
    let shifted := Z.shiftr num 7 in
    let byte := Z.land num 127 in
    if negb (shifted =? 0)
    then s ← os_write_byte s (Z.lor byte 128); write_uvarint_loop fuel s shifted
    else os_write_byte s byte
  end.

(* src: protobuf/encode.rs 158-169 (OutputStream::write_uvarint) *)
Definition write_uvarint {S} `{OutputStream S} (s : S) (num : Z) : result S :=
  write_uvarint_loop 10 s num.

(* src: protobuf/encode.rs 172-174 (CounterStream) *)
Record CounterStream := mkCounter { count : Z }.

(* src: protobuf/encode.rs 176-186 (OutputStream for CounterStream) *)
#[export] Instance counter_stream : OutputStream CounterStream := {
  os_write s b := Ok (mkCounter (wrapu usize_bits (count s + len b)));
  os_write_byte s _ := Ok (mkCounter (wrapu usize_bits (count s + 1)));
}.

(* src: protobuf/encode.rs 188-201 (BufferStream) *)
Record BufferStream := mkBuffer { bbuf : list Z; bpos : Z }.

(* src: protobuf/encode.rs 203-226 (OutputStream for BufferStream) *)
#[export] Instance buffer_stream : OutputStream BufferStream := {
  os_write s val :=
    match slice (bbuf s) (bpos s) (wrapu usize_bits (bpos s + len val)) with
    | Some _ => Ok (mkBuffer (splice (bbuf s) (bpos s) val) (bpos s + len val))
    | None => Err end_of_buffer
    end;
  os_write_byte s val :=
    match getZ (bbuf s) (bpos s) with
    | Some _ => Ok (mkBuffer (splice (bbuf s) (bpos s) [val]) (bpos s + 1))
    | None => Err end_of_buffer
    end;
}.

(** The specification stream: everything written, nothing refused. *)
#[export] Instance list_stream : OutputStream (list Z) := {
  os_write s b := Ok (s ++ b);
  os_write_byte s b := Ok (s ++ [b]);
}.

Definition write_bytes {S} `{OutputStream S} (s : S) (bs : list Z) : result S :=
  foldM os_write_byte s bs.

(** What the encoder needs of a stream: a block is written as its bytes, one
    after the other. [stream_good] is the implementation's invariant, and
    [stream_bound] the total length up to which it promises this. *)
Class LawfulStream (S : Type) `{OutputStream S} := {
  stream_good : S → Prop;
  stream_bound : Z → Prop;
  stream_bound_le a b : 0 <= a <= b → stream_bound b → stream_bound a;
  stream_good_write_byte s b s' :
    stream_good s → os_write_byte s b = Ok s' → stream_good s';
  os_write_bytes s bs :
    stream_good s → stream_bound (len bs) → os_write s bs = write_bytes s bs;
  os_write_byte_safe s b : safe (os_write_byte s b);
}.

Section Lawful.
Context {S : Type} `{LawfulStream S}.

Lemma write_bytes_good s bs s' :
  stream_good s → write_bytes s bs = Ok s' → stream_good s'.
Proof. intros Hs. apply foldM_inv; [|done]. intros. eapply stream_good_write_byte; eauto. Qed.

Lemma write_bytes_app s bs1 bs2 :
  write_bytes s (bs1 ++ bs2) = write_bytes s bs1 ≫= λ s, write_bytes s bs2.
Proof. apply foldM_app. Qed.
End Lawful.

(** ** The encoding of one integer *)
Fixpoint uvarint_fuel (fuel : nat) (num : Z) : list Z :=
  match fuel with
  | O => []
  | S fuel =>
    if Z.shiftr num 7 =? 0 then [Z.land num 127]
    else Z.lor (Z.land num 127) 128 :: uvarint_fuel fuel (Z.shiftr num 7)
  end.

Definition uvarint (num : Z) : list Z := uvarint_fuel 10 num.

Section UvarintFacts.
Lemma land_127 n : Z.land n 127 = n `mod` 128.
Proof. change 127 with (Z.ones 7). by rewrite Z.land_ones. Qed.
Lemma shiftr_7 n : Z.shiftr n 7 = n `div` 128.
Proof. by rewrite Z.shiftr_div_pow2. Qed.
Lemma land_127_range n : 0 <= Z.land n 127 < 128.
Proof. rewrite land_127. apply Z.mod_pos_bound. lia. Qed.

(** The continuation bit sits above the seven payload bits. *)
Lemma group_bits b :
  0 <= b < 128 →
  Z.lor b 128 = b + 128 ∧ Z.land (b + 128) 127 = b ∧ Z.land (b + 128) 128 = 128
  ∧ Z.land b 127 = b ∧ Z.land b 128 = 0.
Proof.
  intros Hb.
  assert (Z.land b 128 = 0) as H0.
  { apply Z.bits_inj'. intros i Hi. rewrite Z.land_spec, Z.bits_0.
    change 128 with (2 ^ 7). rewrite Z.pow2_bits_eqb by lia.
    destruct (Z.eqb_spec 7 i) as [<-|]; [|by rewrite andb_false_r].
    rewrite andb_true_r. destruct (Z.eq_dec b 0) as [->|]; [done|].
    apply Z.bits_above_log2; [lia|]. apply Z.log2_lt_pow2; lia. }
  assert (Z.lor b 128 = b + 128) as H1.
  { pose proof (Z.add_lor_land b 128). lia. }
  split; [done|]. split; [rewrite land_127; symmetry; apply (Z.mod_unique_pos _ _ 1); lia|].
  split; [|split; [rewrite land_127; apply Z.mod_small; lia|done]].
  rewrite <- H1, Z.land_lor_distr_l, H0. done.
Qed.

Lemma write_uvarint_loop_spec {S} `{OutputStream S} fuel (s : S) n :
  0 <= n < 2 ^ (7 * Z.of_nat fuel) → (0 < fuel)%nat →
  write_uvarint_loop fuel s n = write_bytes s (uvarint_fuel fuel n).
Proof.
  revert s n; induction fuel as [|fuel IH]; intros s n Hn Hf; [lia|].
  simpl. destruct (Z.eqb_spec (Z.shiftr n 7) 0) as [E|E]; simpl.
  - unfold write_bytes. simpl. by destruct (os_write_byte s _).
  - assert (0 < fuel)%nat as Hf'.
    { destruct fuel; [|lia]. rewrite shiftr_7, Z.div_small in E; [done|]. simpl in Hn. lia. }
    unfold write_bytes. simpl foldM.
    destruct (os_write_byte s _); simpl; try done.
    rewrite IH; [done| |done]. rewrite shiftr_7.
    split; [apply Z.div_pos; lia|]. apply Z.div_lt_upper_bound; [lia|].
    replace (128 * 2 ^ (7 * Z.of_nat fuel))
      with (2 ^ (7 * Z.of_nat (Datatypes.S fuel))); [lia|].
    change 128 with (2 ^ 7). rewrite <- Z.pow_add_r by lia. f_equal. lia.
Qed.

Lemma write_uvarint_spec {S} `{OutputStream S} (s : S) n :
  in_u 64 n → write_uvarint s n = write_bytes s (uvarint n).
Proof. intros [? ?]. apply write_uvarint_loop_spec; [|lia]. split; [done|]. simpl. lia. Qed.

Lemma uvarint_fuel_length fuel n : (length (uvarint_fuel fuel n) <= fuel)%nat.
Proof. revert n; induction fuel; intros n; simpl; [lia|]. case_match; simpl; [lia|]. by apply le_n_S. Qed.

Lemma uvarint_fuel_bytes fuel n : Forall byte_ok (uvarint_fuel fuel n).
Proof.
  revert n; induction fuel as [|fuel IH]; intros n; simpl; [constructor|].
  pose proof (land_127_range n). destruct (group_bits (Z.land n 127)) as [H1 _]; [done|].
  case_match; repeat constructor; unfold in_u; rewrite ?H1; try lia. apply IH.
Qed.

Lemma uvarint_bytes n : Forall byte_ok (uvarint n).
Proof. apply uvarint_fuel_bytes. Qed.
Lemma uvarint_length n : (length (uvarint n) <= 10)%nat.
Proof. apply uvarint_fuel_length. Qed.
Lemma uvarint_fuel_nonempty fuel n : (0 < fuel → 1 <= length (uvarint_fuel fuel n))%nat.
Proof. destruct fuel; simpl; [lia|]. case_match; simpl; lia. Qed.
Lemma uvarint_nonempty n : (1 <= length (uvarint n))%nat.
Proof. apply uvarint_fuel_nonempty. lia. Qed.

(** One turn of the reader on a group that fits below 64 bits. *)
Lemma group_accumulate acc b shift :
  0 <= acc → 0 <= b → 0 <= shift < 64 → acc + b * 2 ^ shift < 2 ^ 64 →
  wrapu 64 (acc + wrapu 64 (Z.shiftl b (shift `mod` 64))) = acc + b * 2 ^ shift.
Proof.
  intros Ha Hb Hs Hlt. rewrite (Z.mod_small shift) by lia.
  rewrite Z.shiftl_mul_pow2 by lia.
  assert (0 <= b * 2 ^ shift) by (apply Z.mul_nonneg_nonneg; lia).
  rewrite (wrapu_small 64 (b * 2 ^ shift)) by (unfold in_u; lia).
  apply wrapu_small. unfold in_u. lia.
Qed.

Lemma read_uvarint_loop_spec k fuel s n acc shift r :
  shift = 70 - 7 * Z.of_nat k →
  stream_ok s → rest s = uvarint_fuel k n ++ r →
  (0 < k <= 10)%nat → (length (uvarint_fuel k n) <= fuel)%nat →
  0 <= n < 2 ^ (7 * Z.of_nat k) → 0 <= acc →
  acc + n * 2 ^ shift < 2 ^ 64 →
  read_uvarint_loop fuel s acc shift
  = Ok (acc + n * 2 ^ shift, advance s (len (uvarint_fuel k n))).
Proof.
  revert fuel s n acc shift; induction k as [|k IH];
    intros fuel s n acc shift -> Hs Hr Hk Hf Hn Ha Hlt; [lia|].
  set (shift := 70 - 7 * Z.of_nat (S k)) in *.
  simpl uvarint_fuel in *.
  destruct fuel as [|fuel]; [case_match; simpl in Hf; lia|]. simpl read_uvarint_loop.
  pose proof (land_127_range n) as Hb.
  destruct (group_bits _ Hb) as (G1 & G2 & G3 & G4 & G5).
  assert (0 < 2 ^ shift) by (apply Z.pow_pos_nonneg; lia).
  assert (n = n `mod` 128 + 128 * (n `div` 128)) as Hsplit by (pose proof (Z.div_mod n 128); lia).
  assert (0 <= n `div` 128) by (apply Z.div_pos; lia).
  destruct (Z.eqb_spec (Z.shiftr n 7) 0) as [E|E]; rewrite shiftr_7 in E.
  - rewrite (read_byte_cons _ _ _ Hs Hr). simpl. rewrite G5, G4. simpl.
    rewrite land_127 in *. replace (n `mod` 128) with n in * by lia.
    rewrite group_accumulate by lia. done.
  - rewrite (read_byte_cons _ _ _ Hs Hr). simpl. rewrite G1, G3, G2. simpl.
    destruct (rest_advance_cons _ _ _ Hs Hr) as [Hr' Hs'].
    rewrite land_127 in *.
    assert (acc + n `mod` 128 * 2 ^ shift < 2 ^ 64).
    { assert (n `mod` 128 * 2 ^ shift <= n * 2 ^ shift); [|lia].
      apply Z.mul_le_mono_nonneg_r; lia. }
    rewrite group_accumulate by lia.
    assert (0 < k)%nat.
    { destruct k; [|lia]. simpl in Hn. rewrite Z.div_small in E; lia. }
    assert (2 ^ (shift + 7) = 128 * 2 ^ shift) as Hpow.
    { change 128 with (2 ^ 7). rewrite <- Z.pow_add_r by lia. f_equal. lia. }
    rewrite shiftr_7 in Hf, Hr'. simpl in Hf.
    rewrite (IH fuel (advance s 1) (n `div` 128)); [|lia|done|done|lia|lia| |lia|].
    + rewrite advance_advance, shiftr_7. simpl length.
      replace (1 + len (uvarint_fuel k (n `div` 128)))
        with (Z.of_nat (S (length (uvarint_fuel k (n `div` 128))))) by lia.
      do 2 f_equal. rewrite Hpow. rewrite Hsplit at 3. ring.
    + split; [done|]. apply Z.div_lt_upper_bound; [lia|].
      replace (128 * 2 ^ (7 * Z.of_nat k)) with (2 ^ (7 * Z.of_nat (S k))); [lia|].
      change 128 with (2 ^ 7). rewrite <- Z.pow_add_r by lia. f_equal. lia.
    + rewrite Hpow. rewrite Hsplit in Hlt. lia.
Qed.

Lemma read_uvarint_uvarint s n r :
  stream_ok s → rest s = uvarint n ++ r → in_u 64 n →
  read_uvarint s = Ok (n, advance s (len (uvarint n))).
Proof.
  intros Hs Hr [? ?]. unfold read_uvarint.
  pose proof (remaining_rest s Hs) as Hrem. rewrite Hr, length_app in Hrem.
  rewrite (read_uvarint_loop_spec 10 _ _ n 0 0 r); try done; fold (uvarint n); try lia.
  by rewrite Z.mul_1_r.
Qed.

(** A reader that succeeds has consumed at least one byte of what was there,
    and its value is a [u64]. *)
Lemma read_uvarint_loop_Ok fuel s acc shift v s' :
  stream_ok s → read_uvarint_loop fuel s acc shift = Ok (v, s') →
  in_u 64 v ∧ stream_ok s' ∧ ∃ b, rest s = b ++ rest s' ∧ b ≠ [] ∧ s' = advance s (len b).
Proof.
  revert s acc shift; induction fuel as [|fuel IH]; intros s acc shift Hs; simpl; [done|].
  intros ([b s1] & Hb & H)%bind_Ok.
  apply read_byte_Ok in Hb as (r & Hr & -> & Hs1 & Hr1); [|done].
  case_match.
  - injection H as <- <-. split; [apply wrapu_range; lia|]. split; [done|].
    exists [b]. by rewrite Hr1.
  - apply IH in H as (? & ? & bs & Hbs & ? & ->); [|done]. split; [done|].
    rewrite advance_advance in *. split; [done|]. exists (b :: bs).
    rewrite Hr, <- Hr1, Hbs. simpl length. split; [done|]. split; [done|]. f_equal. lia.
Qed.

Lemma read_uvarint_Ok s v s' :
  stream_ok s → read_uvarint s = Ok (v, s') →
  in_u 64 v ∧ stream_ok s' ∧ ∃ b, rest s = b ++ rest s' ∧ b ≠ [] ∧ s' = advance s (len b).
Proof. apply read_uvarint_loop_Ok. Qed.

Lemma read_uvarint_loop_safe fuel s acc shift :
  stream_ok s → (length (rest s) < fuel)%nat → safe (read_uvarint_loop fuel s acc shift).
Proof.
  revert s acc shift; induction fuel as [|fuel IH]; intros s acc shift Hs Hf; [lia|].
  simpl. apply safe_bind; [auto with rust|]. intros [b s1] Hb.
  apply read_byte_Ok in Hb as (r & Hr & -> & Hs1 & Hr1); [|done].
  case_match; [done|]. apply IH; [done|]. rewrite Hr1. rewrite Hr in Hf. simpl in Hf. lia.
Qed.

Lemma read_uvarint_safe s : stream_ok s → safe (read_uvarint s).
Proof.
  intros Hs. apply read_uvarint_loop_safe; [done|].
  rewrite remaining_rest by done. lia.
Qed.
End UvarintFacts.

(** ** The three streams are lawful *)
Definition buffer_good (s : BufferStream) : Prop :=
  0 <= bpos s <= len (bbuf s) ∧ len (bbuf s) < 2 ^ 31.

Lemma write_bytes_list (s bs : list Z) : write_bytes s bs = Ok (s ++ bs).
Proof.
  unfold write_bytes. revert s; induction bs as [|b bs IH]; intros s; simpl; [by rewrite app_nil_r|].
  rewrite IH. by rewrite <- app_assoc.
Qed.

Lemma write_bytes_counter c bs :
  in_u usize_bits (count c) →
  write_bytes c bs = Ok (mkCounter (wrapu usize_bits (count c + len bs))).
Proof.
  unfold write_bytes. revert c; induction bs as [|b bs IH]; intros [c] Hc; simpl in *.
  - rewrite Z.add_0_r, wrapu_small; done.
  - rewrite IH by (apply wrapu_range; lia). simpl. do 2 f_equal. unfold wrapu.
    rewrite Zplus_mod_idemp_l. f_equal. lia.
Qed.

Lemma write_bytes_buffer s bs :
  buffer_good s →
  write_bytes s bs =
  if bpos s + len bs <=? len (bbuf s)
  then Ok (mkBuffer (splice (bbuf s) (bpos s) bs) (bpos s + len bs))
  else Err end_of_buffer.
Proof.
  unfold write_bytes. revert s; induction bs as [|b bs IH]; intros [l p] [Hp Hl]; simpl in *.
  { rewrite splice_nil, Z.add_0_r. destruct (Z.leb_spec p (len l)); [done|lia]. }
  destruct (getZ l p) eqn:E; simpl.
  - apply getZ_lt in E. rewrite IH; simpl.
    + rewrite splice_length by (simpl; lia).
      replace (p + 1 + len bs) with (p + Z.of_nat (S (length bs))) by lia.
      destruct (Z.leb_spec (p + Z.of_nat (S (length bs))) (len l)); [|done].
      rewrite splice_cons by lia. done.
    + split; simpl; rewrite splice_length by (simpl; lia); lia.
  - apply getZ_None in E. destruct (Z.leb_spec (p + Z.of_nat (S (length bs))) (len l)); [lia|done].
Qed.

#[export] Instance list_lawful : LawfulStream (list Z).
Proof.
  refine {| stream_good := λ _, True; stream_bound := λ _, True |}; [done|done| |done].
  intros s bs _ _. by rewrite write_bytes_list.
Defined.

#[export] Instance counter_lawful : LawfulStream CounterStream.
Proof.
  refine {| stream_good := λ c, in_u usize_bits (count c); stream_bound := λ _, True |};
    [done| | |done].
  - intros s b s' _ [= <-]. apply wrapu_range. lia.
  - intros s bs Hs _. by rewrite write_bytes_counter.
Defined.

#[export] Instance buffer_lawful : LawfulStream BufferStream.
Proof.
  refine {| stream_good := buffer_good; stream_bound := λ n, n < 2 ^ 31 |}.
  - intros a b Hab Hb. lia.
  - intros [l p] b s' [Hp Hl] H. simpl in *. destruct (getZ l p) eqn:E; [|done].
    apply getZ_lt in E. injection H as <-.
    split; simpl; rewrite splice_length by (simpl; lia); lia.
  - intros [l p] bs Hg Hbs. rewrite write_bytes_buffer by done. destruct Hg as [Hp Hl]. simpl in *.
    rewrite wrapu_small by (unfold in_u; lia). unfold slice.
    destruct (Z.leb_spec 0 p), (Z.leb_spec p (p + len bs)); simpl; try lia.
    by destruct (Z.leb_spec (p + len bs) (len l)).
  - intros [l p] b. simpl. by destruct (getZ l p).
Defined.
