(* ===== verification/ProtoDefs.v ===== *)
(** * Message definitions

    [protobuf/defs.rs]: the definitions of messages, fields and enums are
    packed by the build into four byte blobs, which the code reads by offset.
    The blobs are build products and therefore parameters here ([ProtoBlobs]);
    the readers are translated, and provide the [MsgDb] interface that the
    encoder and decoder are written against. *)
From S2P Require Import Prelude Obj Io.
Local Open Scope Z_scope.

(* src: protobuf/defs.rs 33-39 (FieldDef) *)
Record FieldDef := mkField {
  tag : Z;
  flags_and_type : Z;
  enum_or_msg_offset : Z;
  name : Qstr;
}.

(* src: protobuf/defs.rs 3-9 (MsgDef) *)
Record MsgDef := mkMsg {
  fields : list FieldDef;
  defaults : list Z;
  is_experimental : bool;
  wire_id : option Z;
  offset : Z;
}.

(* src: protobuf/defs.rs 76-84 (FieldType) *)
Inductive FieldType :=
| UVarInt
| SVarInt
| TBool
| TBytes
| TString
| TEnum (values : list Z)
| TMsg (msg : MsgDef).

(* src: protobuf/defs.rs 86-86 (PRIMITIVE_TYPE_VARINT) *)
Definition PRIMITIVE_TYPE_VARINT : Z := 0.
(* src: protobuf/defs.rs 87-87 (PRIMITIVE_TYPE_LENGTH_DELIMITED) *)
Definition PRIMITIVE_TYPE_LENGTH_DELIMITED : Z := 2.

(* src: protobuf/defs.rs 90-99 (FieldType::primitive_type) *)
Definition primitive_type (t : FieldType) : Z :=
  match t with
  | UVarInt | SVarInt | TBool | TEnum _ => PRIMITIVE_TYPE_VARINT
  | TBytes | TString | TMsg _ => PRIMITIVE_TYPE_LENGTH_DELIMITED
  end.

(* src: protobuf/defs.rs 28-30 (MsgDef::field) *)
Definition field (msg : MsgDef) (t : Z) : option FieldDef :=
  snd <$> list_find (λ f, tag f = t) (fields msg).

(* src: protobuf/defs.rs 67-69 (FieldDef::flags) *)
Definition flags (f : FieldDef) : Z := Z.land (flags_and_type f) 0xF0.
(* src: protobuf/defs.rs 71-73 (FieldDef::ftype) *)
Definition ftype (f : FieldDef) : Z := Z.land (flags_and_type f) 0x0F.
(* src: protobuf/defs.rs 55-57 (FieldDef::is_required) *)
Definition is_required (f : FieldDef) : bool := negb (Z.land (flags f) 128 =? 0).
(* src: protobuf/defs.rs 59-61 (FieldDef::is_repeated) *)
Definition is_repeated (f : FieldDef) : bool := negb (Z.land (flags f) 64 =? 0).
(* src: protobuf/defs.rs 63-65 (FieldDef::is_experimental) *)
Definition field_experimental (f : FieldDef) : bool := negb (Z.land (flags f) 32 =? 0).

(** The database of definitions, by offset. *)
Class MsgDb := {
  get_msg : Z → result MsgDef;
  get_enum : Z → result (list Z);
}.

(** The unknown type numbers are [unreachable!()]. *)
(* src: protobuf/defs.rs 42-53 (FieldDef::get_type) *)
Definition get_type `{MsgDb} (f : FieldDef) : result FieldType :=
  match ftype f with
  | 0 => Ok UVarInt
  | 1 => Ok SVarInt
  | 2 => Ok TBool
  | 3 => Ok TBytes
  | 4 => Ok TString
  | 5 => TEnum <$> get_enum (enum_or_msg_offset f)
  | 6 => TMsg <$> get_msg (enum_or_msg_offset f)
  | _ => Panic
  end.

(** ** The blobs *)
Class ProtoBlobs := {
  ENUM_DEFS : list Z;
  MSG_DEFS : list Z;
  NAME_DEFS : list Z;
  WIRE_DEFS : list Z;
}.

(** [ptr.offset(i).read()]: reading past the blob is undefined. *)
Definition raw_read (blob : list Z) (i : Z) : result Z := or_panic (getZ blob i).

(** [slice::from_raw_parts] over records of [size] bytes. *)
Fixpoint raw_records {A} (size : Z) (rd : list Z → Z → result A) (blob : list Z) (p : Z)
    (count : nat) : result (list A) :=
  match count with
  | O => Ok []
  | S count =>
    x ← rd blob p;
    xs ← raw_records size rd blob (p + size) count;
    Ok (x :: xs)
  end.

Definition raw_u16 (blob : list Z) (p : Z) : result Z :=
  lo ← raw_read blob p;
  hi ← raw_read blob (p + 1);
  Ok (from_le_bytes [lo; hi]).

(* src: protobuf/defs.rs 33-39 (FieldDef) *)
Definition raw_field (blob : list Z) (p : Z) : result FieldDef :=
  t ← raw_read blob p;
  fl ← raw_read blob (p + 1);
  off ← raw_u16 blob (p + 2);
  nm ← raw_u16 blob (p + 4);
  Ok (mkField t fl off nm).

(* src: protobuf/defs.rs 183-222 (get_msg) *)
Definition blob_get_msg `{ProtoBlobs} (msg_offset : Z) : result MsgDef :=
  fields_count ← raw_read MSG_DEFS msg_offset;
  defaults_size ← raw_read MSG_DEFS (msg_offset + 1);
  flags_and_wire_id ← raw_u16 MSG_DEFS (msg_offset + 2);
  let experimental := negb (Z.land flags_and_wire_id 0x8000 =? 0) in
  let some_wire_id := Z.land flags_and_wire_id 0x7FFF in
  let wire := if some_wire_id =? 0x7FFF then None else Some some_wire_id in
  let fields_size := fields_count * 6 in
  let fields_ptr := msg_offset + 4 in
  let defaults_ptr := msg_offset + 4 + fields_size in
  fs ← raw_records 6 raw_field MSG_DEFS fields_ptr (Z.to_nat fields_count);
  ds ← raw_records 1 raw_read MSG_DEFS defaults_ptr (Z.to_nat defaults_size);
  Ok (mkMsg fs ds experimental wire msg_offset).

(* src: protobuf/defs.rs 224-242 (get_enum) *)
Definition blob_get_enum `{ProtoBlobs} (enum_offset : Z) : result (list Z) :=
  count ← raw_read ENUM_DEFS enum_offset;
  raw_records 2 raw_u16 ENUM_DEFS (enum_offset + 1) (Z.to_nat count).

#[export] Instance blob_db `{ProtoBlobs} : MsgDb := {
  get_msg := blob_get_msg;
  get_enum := blob_get_enum;
}.

(** A name or wire entry: the key and the message's offset. *)
(* src: protobuf/defs.rs 106-110 (NameDef) *)
Definition raw_entry (blob : list Z) (p : Z) : result (Z * Z) :=
  k ← raw_u16 blob p;
  o ← raw_u16 blob (p + 2);
  Ok (k, o).

Definition raw_table (blob : list Z) : result (list (Z * Z)) :=
  raw_records 4 raw_entry blob 0 (Z.to_nat (len blob / 4)).

(* src: protobuf/defs.rs 138-149 (find_name_by_msg_offset) *)
Definition find_name_by_msg_offset `{ProtoBlobs} (msg_offset : Z) : result (option Z) :=
  name_defs ← raw_table NAME_DEFS;
  Ok ((λ e, fst (snd e)) <$> list_find (λ d, snd d = msg_offset) name_defs).

Definition find_offset_by_key (blob : list Z) (k : Z) : result (option Z) :=
  defs ← raw_table blob;
  match binary_search_by_key fst k defs with
  | Some i => d ← or_panic (defs !! i); Ok (Some (snd d))
  | None => Ok None
  end.

(* src: protobuf/defs.rs 151-162 (find_msg_offset_by_name) *)
Definition find_msg_offset_by_name `{ProtoBlobs} (msg_name : Z) : result (option Z) :=
  find_offset_by_key NAME_DEFS msg_name.

(* src: protobuf/defs.rs 164-181 (find_msg_offset_by_wire) *)
Definition find_msg_offset_by_wire `{ProtoBlobs} (wire : Z) : result (option Z) :=
  find_offset_by_key WIRE_DEFS wire.

Definition msg_at_offset `{MsgDb} (o : option Z) : result (option MsgDef) :=
  match o with
  | Some off => Some <$> get_msg off
  | None => Ok None
  end.

(* src: protobuf/defs.rs 12-18 (MsgDef::for_name) *)
Definition for_name `{ProtoBlobs} (msg_name : Z) : result (option MsgDef) :=
  off ← find_msg_offset_by_name msg_name;
  msg_at_offset off.

(* src: protobuf/defs.rs 20-26 (MsgDef::for_wire_id) *)
Definition for_wire_id `{ProtoBlobs} (wire : Z) : result (option MsgDef) :=
  off ← find_msg_offset_by_wire wire;
  msg_at_offset off.

(** ** The definition blobs and their index tables

    The layout in which the build packs the definitions (the byte writers
    below are the reference), and the facts that the raw readers of
    [protobuf/defs.rs] read it back and that the binary searches of the name
    and wire tables are the partial functions that the tables list. *)
(** ** Reference layout *)
Definition field_bytes (f : FieldDef) : list Z :=
  [tag f; flags_and_type f] ++ u16_bytes (enum_or_msg_offset f) ++ u16_bytes (name f).

Definition wire_word (msg : MsgDef) : Z :=
  (if is_experimental msg then 0x8000 else 0)
  + match wire_id msg with None => 0x7FFF | Some w => w end.

Definition msg_bytes (msg : MsgDef) : list Z :=
  [len (fields msg); len (defaults msg)] ++ u16_bytes (wire_word msg)
  ++ concat (field_bytes <$> fields msg) ++ defaults msg.

Definition enum_bytes (values : list Z) : list Z :=
  len values :: concat (u16_bytes <$> values).

Definition entry_bytes (e : Z * Z) : list Z := u16_bytes (fst e) ++ u16_bytes (snd e).

(** What fits in the layout. *)
Definition field_fits (f : FieldDef) : Prop := in_u 16 (enum_or_msg_offset f) ∧ in_u 16 (name f).
Definition msg_fits (msg : MsgDef) : Prop :=
  Forall field_fits (fields msg) ∧
  match wire_id msg with None => True | Some w => 0 <= w < 0x7FFF end.
Definition entry_fits (e : Z * Z) : Prop := in_u 16 (fst e) ∧ in_u 16 (snd e).

(** ** Reading records back *)
Section Records.
Context {A : Type} (size : Z) (rd : list Z → Z → result A) (ser : A → list Z).

Definition reads_back (x : A) : Prop :=
  len (ser x) = size ∧
  ∀ pre post, rd (pre ++ ser x ++ post) (len pre) = Ok x.

Lemma raw_records_concat xs pre post p :
  Forall reads_back xs → p = len pre →
  raw_records size rd (pre ++ concat (ser <$> xs) ++ post) p (length xs) = Ok xs.
Proof.
  intros HF. revert pre p. induction HF as [|x xs [Hl Hx] _ IH]; intros pre p ->; [done|].
  cbn [raw_records length fmap list_fmap concat].
  rewrite <- (app_assoc (ser x)), Hx. simpl.
  replace (pre ++ ser x ++ concat (ser <$> xs) ++ post)
    with ((pre ++ ser x) ++ concat (ser <$> xs) ++ post) by by rewrite <- !app_assoc.
  rewrite IH; [done|]. rewrite length_app. lia.
Qed.

Lemma concat_length xs : Forall reads_back xs → len (concat (ser <$> xs)) = size * len xs.
Proof.
  induction 1 as [|x xs [Hl _] _ IH]; [simpl; lia|].
  rewrite fmap_cons. cbn [concat]. rewrite length_app. cbn [length]. lia.
Qed.
End Records.

Lemma raw_read_at pre b post p : p = len pre → raw_read (pre ++ b :: post) p = Ok b.
Proof.
  intros ->. unfold raw_read. rewrite getZ_nat.
  by rewrite lookup_app_r, Nat.sub_diag by done.
Qed.

Lemma raw_read_second pre a b post : raw_read (pre ++ a :: b :: post) (len pre + 1) = Ok b.
Proof.
  replace (pre ++ a :: b :: post) with ((pre ++ [a]) ++ b :: post) by by rewrite <- app_assoc.
  apply raw_read_at. rewrite length_app. simpl. lia.
Qed.

Lemma raw_u16_back z : in_u 16 z → reads_back 2 raw_u16 u16_bytes z.
Proof.
  intros Hz. split; [done|]. intros pre post. unfold raw_u16, u16_bytes. cbn [app].
  rewrite (raw_read_at pre _ _ (len pre)) by done. simpl.
  rewrite raw_read_second.
  simpl. f_equal. by apply from_le_u16.
Qed.

Lemma raw_u16_at z blob pre post p :
  in_u 16 z → blob = pre ++ u16_bytes z ++ post → p = len pre → raw_u16 blob p = Ok z.
Proof. intros Hz -> ->. by apply raw_u16_back. Qed.

Lemma raw_read_back z : reads_back 1 raw_read (λ b, [b]) z.
Proof. split; [done|]. intros pre post. by apply raw_read_at. Qed.

Lemma raw_field_back f : field_fits f → reads_back 6 raw_field field_bytes f.
Proof.
  intros [H1 H2]. split; [done|]. intros pre post. unfold raw_field, field_bytes.
  destruct f as [t fl o n]; cbn [tag flags_and_type enum_or_msg_offset name] in *.
  rewrite <- !app_assoc. cbn [app].
  rewrite (raw_read_at pre _ _ (len pre)) by done. simpl.
  rewrite raw_read_second.
  simpl.
  rewrite (raw_u16_at o _ (pre ++ [t; fl]) (u16_bytes n ++ post) (len pre + 2)); [|done| |].
  2: by rewrite <- !app_assoc.
  2: rewrite length_app; simpl; lia.
  simpl.
  rewrite (raw_u16_at n _ (pre ++ [t; fl] ++ u16_bytes o) post (len pre + 4)); [done|done| |].
  - by rewrite <- !app_assoc.
  - rewrite !length_app; simpl; lia.
Qed.

Lemma raw_entry_back e : entry_fits e → reads_back 4 raw_entry entry_bytes e.
Proof.
  destruct e as [k o]. intros [H1 H2]. split; [done|]. intros pre post. unfold raw_entry, entry_bytes.
  cbn [fst snd] in *. rewrite <- !app_assoc.
  rewrite (raw_u16_at k _ pre (u16_bytes o ++ post) (len pre)) by done. simpl.
  rewrite (raw_u16_at o _ (pre ++ u16_bytes k) post (len pre + 2)); [done|done| |].
  - by rewrite <- !app_assoc.
  - rewrite !length_app; simpl; lia.
Qed.

Lemma concat_singletons (l : list Z) : concat ((λ b, [b]) <$> l) = l.
Proof. induction l; [done|]. rewrite fmap_cons. simpl. by f_equal. Qed.

(** The flag and the wire id share a word. *)
Lemma wire_word_parts msg :
  msg_fits msg →
  in_u 16 (wire_word msg) ∧
  negb (Z.land (wire_word msg) 0x8000 =? 0) = is_experimental msg ∧
  Z.land (wire_word msg) 0x7FFF = match wire_id msg with None => 0x7FFF | Some w => w end.
Proof.
  intros [_ Hw]. unfold wire_word.
  set (w := match wire_id msg with None => 0x7FFF | Some w => w end).
  assert (0 <= w < 0x8000) as Hw' by (unfold w; destruct (wire_id msg); lia).
  clearbody w. clear Hw.
  assert (Z.land w 0x8000 = 0) as H0.
  { apply Z.bits_inj'. intros i Hi. rewrite Z.land_spec, Z.bits_0. change 0x8000 with (2 ^ 15).
    rewrite Z.pow2_bits_eqb by lia. destruct (Z.eqb_spec 15 i) as [<-|]; [|by rewrite andb_false_r].
    rewrite andb_true_r. destruct (Z.eq_dec w 0) as [->|]; [done|].
    apply Z.bits_above_log2; [lia|]. apply Z.log2_lt_pow2; lia. }
  assert (Z.land w 0x7FFF = w) as H1.
  { change 0x7FFF with (Z.ones 15). rewrite Z.land_ones by lia. by apply Z.mod_small. }
  destruct (is_experimental msg).
  - assert (0x8000 + w = Z.lor 0x8000 w) as ->.
    { pose proof (Z.add_lor_land 0x8000 w). rewrite (Z.land_comm 0x8000 w), H0 in *. lia. }
    rewrite !Z.land_lor_distr_l, H0, H1. split; [|done].
    pose proof (Z.add_lor_land 0x8000 w). rewrite (Z.land_comm 0x8000 w), H0 in *.
    unfold in_u. lia.
  - rewrite Z.add_0_l, H0, H1. split; [|done]. unfold in_u. lia.
Qed.

(** ** The readers on the layout *)
Lemma blob_get_msg_back `{ProtoBlobs} msg pre post :
  MSG_DEFS = pre ++ msg_bytes msg ++ post → offset msg = len pre → msg_fits msg →
  blob_get_msg (offset msg) = Ok msg.
Proof.
  intros Hblob Hoff Hfits. destruct (wire_word_parts _ Hfits) as (Hw & Hexp & Hid).
  destruct Hfits as [Hf Hwire]. unfold blob_get_msg. rewrite Hoff, Hblob. unfold msg_bytes.
  rewrite <- !app_assoc. cbn [app].
  assert (Forall (reads_back 6 raw_field field_bytes) (fields msg)) as HF.
  { eapply Forall_impl; [exact Hf|]. intros. by apply raw_field_back. }
  rewrite (raw_read_at pre _ _ (len pre)) by done. simpl.
  rewrite raw_read_second.
  cbn [mbind outcome_bind].
  erewrite (raw_u16_at (wire_word msg) _ (pre ++ [len (fields msg); len (defaults msg)]));
    [|done| |rewrite length_app; simpl; lia].
  2: { rewrite <- !app_assoc. reflexivity. }
  cbn [mbind outcome_bind].
  set (hd := pre ++ [len (fields msg); len (defaults msg)] ++ u16_bytes (wire_word msg)).
  assert (len hd = len pre + 4) as Hhd by (unfold hd; rewrite !length_app; simpl; lia).
  match goal with |- context [raw_records 6 raw_field ?b _ _] =>
    replace b with (hd ++ concat (field_bytes <$> fields msg) ++ defaults msg ++ post)
      by (unfold hd; by rewrite <- !app_assoc) end.
  rewrite !Nat2Z.id, (raw_records_concat 6 raw_field field_bytes) by (done || lia). cbn [mbind outcome_bind].
  match goal with |- context [raw_records 1 raw_read ?blob _ _] =>
    replace blob with ((hd ++ concat (field_bytes <$> fields msg))
      ++ concat ((λ b, [b]) <$> defaults msg) ++ post)
      by (by rewrite concat_singletons, <- !app_assoc) end.
  rewrite (raw_records_concat 1 raw_read (λ b, [b])).
  - cbn [mbind outcome_bind]. rewrite Hexp, Hid. destruct msg as [fs ds ex [w|] o]; simpl in *; [|by subst].
    destruct (Z.eqb_spec w 0x7FFF); [lia|]. by subst o.
  - apply Forall_forall. intros. apply raw_read_back.
  - rewrite length_app, Nat2Z.inj_add, (concat_length 6 raw_field) by done. lia.
Qed.

Lemma blob_get_enum_back `{ProtoBlobs} values pre post :
  ENUM_DEFS = pre ++ enum_bytes values ++ post → Forall (in_u 16) values →
  blob_get_enum (len pre) = Ok values.
Proof.
  intros Hblob Hv. unfold blob_get_enum. rewrite Hblob. unfold enum_bytes. cbn [app].
  rewrite (raw_read_at pre _ _ (len pre)) by done. cbn [mbind outcome_bind].
  match goal with |- context [raw_records 2 raw_u16 ?b _ _] =>
    replace b with ((pre ++ [len values]) ++ concat (u16_bytes <$> values) ++ post)
      by by rewrite <- !app_assoc end.
  rewrite Nat2Z.id. apply raw_records_concat.
  - eapply Forall_impl; [exact Hv|]. intros. by apply raw_u16_back.
  - rewrite length_app. simpl. lia.
Qed.

Lemma raw_table_back es : Forall entry_fits es → raw_table (concat (entry_bytes <$> es)) = Ok es.
Proof.
  intros Hes. unfold raw_table.
  assert (Forall (reads_back 4 raw_entry entry_bytes) es) as HF.
  { eapply Forall_impl; [exact Hes|]. intros. by apply raw_entry_back. }
  rewrite (concat_length 4 raw_entry) by done. rewrite Z.mul_comm, Z.div_mul, Nat2Z.id by lia.
  pose proof (raw_records_concat 4 raw_entry entry_bytes es [] [] 0 HF eq_refl) as Hr.
  by rewrite app_nil_r in Hr.
Qed.

Lemma find_offset_by_key_spec es k r :
  Forall entry_fits es → keys_increasing fst es →
  find_offset_by_key (concat (entry_bytes <$> es)) k = Ok r →
  ∀ o, r = Some o ↔ (k, o) ∈ es.
Proof.
  intros Hes Hinc. unfold find_offset_by_key. rewrite raw_table_back by done.
  cbn [mbind outcome_bind]. destruct (binary_search_by_key fst k es) as [i|] eqn:E.
  - apply binary_search_by_key_spec in E as ([k' o'] & Hx & Hk); [|done]. cbn [fst] in Hk. subst k'.
    rewrite Hx. cbn. intros [= <-] o. split.
    + intros [= <-]. by eapply list_elem_of_lookup_2.
    + intros (j & Hj)%list_elem_of_lookup.
      destruct (Nat.lt_trichotomy i j) as [Hlt|[->|Hlt]]; [|naive_solver|].
      * pose proof (Hinc _ _ _ _ Hlt Hx Hj). simpl in *. lia.
      * pose proof (Hinc _ _ _ _ Hlt Hj Hx). simpl in *. lia.
  - intros [= <-] o. rewrite binary_search_by_key_None in E by done.
    split; [done|]. intros Hin. by destruct (E _ Hin).
Qed.

Lemma find_offset_by_key_total es k :
  Forall entry_fits es → is_ok (find_offset_by_key (concat (entry_bytes <$> es)) k) = true.
Proof.
  intros Hes. unfold find_offset_by_key. rewrite raw_table_back by done. cbn [mbind outcome_bind].
  destruct (binary_search_by_key fst k es) as [i|] eqn:E; [|done].
  apply binary_search_Some in E as (x & -> & _). done.
Qed.
