(* ===== verification/ProtoEncode.v ===== *)
(** * The message encoder

    [protobuf/encode.rs]: an object is written field by field, in the order
    of the definition, to any output stream; a submessage is first measured
    by encoding it to a counting stream.  [encode_message] has fuel for the
    nesting of messages, which only a cyclic object exhausts. *)
From S2P Require Import Prelude Obj Io Varint ProtoDefs.
Local Open Scope Z_scope.

Section Encode.
Context `{MsgDb} `{MicroPython}.

(** An encoder of message bodies, over any stream. *)
Definition Encode := ∀ S, OutputStream S → S → MsgDef → list (Qstr * Obj) → result S.

Section WithStream.
Context (encode_message : Encode) {S : Type} {OS : OutputStream S}.

(* src: protobuf/encode.rs 86-151 (Encoder::encode_field) *)
Definition encode_field (stream : S) (fld : FieldDef) (value : Obj) : result S :=
  t ← get_type fld;
  match t with
  | UVarInt | TEnum _ =>
    uint ← obj_to_u64 value;
    write_uvarint stream uint
  | SVarInt =>
    sint ← obj_to_i64 value;
    write_uvarint stream (to_unsigned sint)
  | TBool =>
    boolean ← obj_to_bool value;
    write_uvarint stream (if (boolean : bool) then 1 else 0)
  | TBytes | TString =>
    if is_list value then
      values ← try_iterate value;
      n ← foldM (λ n v, buffer ← get_buffer v; Ok (wrapu usize_bits (n + len buffer))) 0 values;
      stream ← write_uvarint stream n;
      values ← try_iterate value;
      foldM (λ stream v, buffer ← get_buffer v; os_write stream buffer) stream values
    else
      buffer ← get_buffer value;
      stream ← write_uvarint stream (len buffer);
      os_write stream buffer
  | TMsg msg_type =>
    match value with
    | OMsg _ _ m =>
      counter ← encode_message CounterStream _ (mkCounter 0) msg_type m;
      stream ← write_uvarint stream (count counter);
      encode_message S _ stream msg_type m
    | _ => Err TypeError
    end
  end.

(* src: protobuf/encode.rs 64-69 (Encoder::encode_message) *)
Definition field_key (fld : FieldDef) : result Z :=
  t ← get_type fld;
  Ok (Z.lor (Z.shiftl (tag fld) 3) (primitive_type t)).

Definition encode_keyed (key : Z) (fld : FieldDef) (stream : S) (value : Obj) : result S :=
  stream ← write_uvarint stream key;
  encode_field stream fld value.

(** The body of the loop over the fields. *)
(* src: protobuf/encode.rs 53-81 (Encoder::encode_message) *)
Definition encode_one (m : list (Qstr * Obj)) (stream : S) (fld : FieldDef) : result S :=
  match map_get m (name fld) with
  | Ok ONone => Ok stream
  | Ok field_value =>
    key ← field_key fld;
    if is_repeated fld then
      values ← try_iterate field_value;
      foldM (encode_keyed key fld) stream values
    else encode_keyed key fld stream field_value
  | _ => Ok stream
  end.
End WithStream.

(* src: protobuf/encode.rs 47-84 (Encoder::encode_message) *)
Fixpoint encode_message (fuel : nat) : Encode := λ S OS stream msg m,
  match fuel with
  | O => NoFuel
  | Datatypes.S fuel => foldM (encode_one (encode_message fuel) m) stream (fields msg)
  end.

(* src: protobuf/encode.rs 15-23 (protobuf_len) *)
Definition protobuf_len (fuel : nat) (obj : Obj) : result Obj :=
  match obj with
  | OMsg _ off m =>
    def ← get_msg off;
    stream ← encode_message fuel CounterStream _ (mkCounter 0) def m;
    Ok (obj_of_int (count stream))
  | _ => Err TypeError
  end.

(** The result is the returned length and the contents of the buffer. *)
(* src: protobuf/encode.rs 25-42 (protobuf_encode) *)
Definition protobuf_encode (fuel : nat) (buffer : list Z) (obj : Obj) : result (Obj * list Z) :=
  match obj with
  | OMsg _ off m =>
    def ← get_msg off;
    stream ← encode_message fuel BufferStream _ (mkBuffer buffer 0) def m;
    Ok (obj_of_int (bpos stream), bbuf stream)
  | _ => Err TypeError
  end.

(** ** Every stream receives the same bytes *)

(** A writer whose run on the list stream succeeds appends some bytes, and
    writes exactly these to every lawful stream. *)
Definition Writer := ∀ S, OutputStream S → S → result S.

Definition emits (f : Writer) (bs : list Z) : Prop :=
  ∀ S (OS : OutputStream S) (L : LawfulStream S) (s : S),
    stream_good s → stream_bound (len bs) → f S OS s = write_bytes s bs.

Definition emits_ok (f : Writer) : Prop :=
  ∀ acc acc', f (list Z) _ acc = Ok acc' →
    ∃ bs, acc' = acc ++ bs ∧ emits f bs.

Lemma emits_nil : emits_ok (λ _ _ s, Ok s).
Proof. intros acc acc' [= <-]. exists []. rewrite app_nil_r. split; [done|]. by intros ?????. Qed.

Lemma emits_bind (f g : Writer) :
  emits_ok f → emits_ok g → emits_ok (λ S OS s, f S OS s ≫= g S OS).
Proof.
  intros Hf Hg acc acc' (acc1 & H1 & H2)%bind_Ok.
  apply Hf in H1 as (b1 & -> & E1). apply Hg in H2 as (b2 & -> & E2).
  exists (b1 ++ b2). split; [by rewrite app_assoc|]. intros S OS L s Hs Hb.
  rewrite length_app in Hb.
  rewrite (E1 S OS L) by (done || (eapply stream_bound_le; [|exact Hb]; lia)).
  rewrite write_bytes_app. destruct (write_bytes s b1) eqn:E; simpl; try done.
  apply (E2 S OS L); [by eapply write_bytes_good|]. eapply stream_bound_le; [|exact Hb]. lia.
Qed.

Lemma emits_value {A} (r : result A) (f : A → Writer) :
  (∀ a, r = Ok a → emits_ok (f a)) → emits_ok (λ S OS s, r ≫= λ a, f a S OS s).
Proof.
  intros Hf acc acc' (a & Ha & H1)%bind_Ok. subst r.
  destruct (Hf a eq_refl _ _ H1) as (bs & -> & E). exists bs. split; [done|]. exact E.
Qed.

Lemma emits_foldM {A} (f : A → Writer) (l : list A) :
  (∀ x, x ∈ l → emits_ok (f x)) → emits_ok (λ S OS s, foldM (λ s x, f x S OS s) s l).
Proof.
  induction l as [|x l IH]; intros Hf; [apply emits_nil|].
  apply (emits_bind (f x) (λ S OS s, foldM (λ s x, f x S OS s) s l)).
  - apply Hf. set_solver.
  - apply IH. intros. apply Hf. set_solver.
Qed.

Lemma emits_write bs : emits_ok (λ S OS s, os_write s bs).
Proof.
  intros acc acc' [= <-]. exists bs. split; [done|]. intros S OS L s Hs Hb.
  by apply os_write_bytes.
Qed.

Lemma emits_write_byte b : emits_ok (λ S OS s, os_write_byte s b).
Proof.
  intros acc acc' [= <-]. exists [b]. split; [done|]. intros S OS L s Hs Hb.
  unfold write_bytes. simpl. by destruct (os_write_byte s b).
Qed.

Lemma emits_uvarint_loop fuel n : emits_ok (λ S OS s, write_uvarint_loop fuel s n).
Proof.
  revert n; induction fuel as [|fuel IH]; intros n; [intros ?? [=]|]. simpl.
  destruct (negb _); [|apply emits_write_byte].
  apply (emits_bind (λ S OS s, os_write_byte s _)); [apply emits_write_byte|apply IH].
Qed.

Lemma emits_uvarint n : emits_ok (λ S OS s, write_uvarint s n).
Proof. apply emits_uvarint_loop. Qed.

Definition encoder_ok (rec : Encode) : Prop :=
  ∀ msg m, emits_ok (λ S OS s, rec S OS s msg m).

Lemma emits_field rec fld v : encoder_ok rec → emits_ok (λ S OS s, encode_field rec s fld v).
Proof.
  intros Hrec. unfold encode_field. apply emits_value. intros t _.
  destruct t;
    try (apply emits_value; intros ? _; apply emits_uvarint).
  1, 2: destruct (is_list v).
  1, 3: apply emits_value; intros vs _; apply emits_value; intros n _;
    apply (emits_bind (λ S OS s, write_uvarint s n)); [apply emits_uvarint|];
    apply emits_value; intros ? _; apply emits_foldM; intros; apply emits_value;
    intros; apply emits_write.
  1, 2: apply emits_value; intros b _;
    apply (emits_bind (λ S OS s, write_uvarint s (len b))); [apply emits_uvarint|apply emits_write].
  destruct v as [| | | | | |w o m]; try (by intros ?? [=]).
  apply emits_value. intros c _.
  apply (emits_bind (λ S OS s, write_uvarint s (count c))); [apply emits_uvarint|apply Hrec].
Qed.

Lemma emits_one rec m fld : encoder_ok rec → emits_ok (λ S OS s, encode_one rec m s fld).
Proof.
  intros Hrec. unfold encode_one.
  destruct (map_get m (name fld)) as [v| | |]; [|apply emits_nil..].
  assert (emits_ok (λ S OS s, key ← field_key fld;
    if is_repeated fld then values ← try_iterate v; foldM (encode_keyed rec key fld) s values
    else encode_keyed rec key fld s v)) as Hmain.
  { apply emits_value. intros key _.
    assert (∀ v, emits_ok (λ S OS s, encode_keyed rec key fld s v)).
    { intros v'. apply (emits_bind (λ S OS s, write_uvarint s key));
        [apply emits_uvarint|by apply emits_field]. }
    destruct (is_repeated fld); [|done].
    apply emits_value. intros vs _. by apply emits_foldM. }
  destruct v; (apply emits_nil || exact Hmain).
Qed.

Lemma encode_message_ok fuel : encoder_ok (encode_message fuel).
Proof.
  induction fuel as [|fuel IH]; intros msg m; [by intros ?? [=]|]. simpl.
  apply emits_foldM. intros fld _. by apply emits_one.
Qed.

Lemma emits_list f bs acc : emits f bs → f (list Z) _ acc = Ok (acc ++ bs).
Proof. intros He. rewrite (He (list Z) _ _ acc) by done. apply write_bytes_list. Qed.

Lemma emits_counter f bs :
  emits f bs → f CounterStream _ (mkCounter 0) = Ok (mkCounter (wrapu usize_bits (len bs))).
Proof.
  intros He. assert (in_u usize_bits 0) by (unfold in_u; lia).
  rewrite (He CounterStream _ _ (mkCounter 0)) by done. by rewrite write_bytes_counter.
Qed.

Lemma emits_buffer f bs buffer :
  emits f bs → len buffer < 2 ^ 31 → len bs < 2 ^ 31 →
  f BufferStream _ (mkBuffer buffer 0) =
  if len bs <=? len buffer
  then Ok (mkBuffer (bs ++ drop (length bs) buffer) (len bs)) else Err end_of_buffer.
Proof.
  intros He Hb Hl. assert (buffer_good (mkBuffer buffer 0)) by (split; simpl; lia).
  rewrite (He BufferStream _ _ (mkBuffer buffer 0)) by done.
  by rewrite write_bytes_buffer.
Qed.

(** The bytes of a body do not depend on what was written before. *)
Lemma encode_message_emits fuel msg m bs :
  encode_message fuel (list Z) _ [] msg m = Ok bs →
  emits (λ S OS s, encode_message fuel S OS s msg m) bs.
Proof. intros (bs' & -> & He)%encode_message_ok. done. Qed.
End Encode.
