(* ===== verification/ProtoDecode.v ===== *)
(** * The message decoder

    [protobuf/decode.rs]: a message is decoded field by field into the map of
    a new object, then missing defaults are filled in from the definition,
    then the required and optional fields are checked.  The decoder threads
    the input stream and the map; the fuel of [message_from_stream] bounds
    the nesting of messages. *)
From S2P Require Import Prelude Obj Io Varint ProtoDefs.
Local Open Scope Z_scope.

Abbreviation Map := (list (Qstr * Obj)) (only parsing).

Section Decode.
Context `{MsgDb} `{MicroPython}.

(* src: protobuf/decode.rs 47-49 (Decoder) *)
Record Decoder := mkDecoder { enable_experimental : bool }.

(** [num.try_into()?] to [usize], and to [u16]. *)
Definition to_usize (num : Z) : result Z :=
  ok_or (if fits_u usize_bits num then Some num else None) OutOfRange.
Definition to_u16 (num : Z) : result Z :=
  ok_or (if fits_u 16 num then Some num else None) OutOfRange.
Definition to_u8 (num : Z) : result Z :=
  ok_or (if fits_u 8 num then Some num else None) OutOfRange.

(** A decoder of a whole stream as a message. *)
Definition Decode := InputStream → MsgDef → result Obj.

(* src: protobuf/decode.rs 84-86 (Decoder::empty_message) *)
Definition empty_message (msg : MsgDef) : Map := [].

(** The object made of a finished map. *)
(* src: protobuf/obj.rs 34-41 (MsgObj::alloc_with_capacity) *)
Definition msg_obj (msg : MsgDef) (map : Map) : Obj := OMsg (wire_id msg) (offset msg) map.

Section Fields.
Context (self : Decoder) (message_from_stream : Decode).

(* src: protobuf/decode.rs 211-252 (Decoder::decode_field) *)
Definition decode_field (stream : InputStream) (fld : FieldDef)
    : result (Obj * InputStream) :=
  if field_experimental fld && negb (enable_experimental self)
  then Err experimental_not_enabled
  else
  '(num, stream) ← read_uvarint stream;
  t ← get_type fld;
  match t with
  | UVarInt => Ok (obj_of_int num, stream)
  | SVarInt => Ok (obj_of_int (to_signed num), stream)
  | TBool => Ok (obj_of_bool (negb (num =? 0)), stream)
  | TBytes =>
    buf_len ← to_usize num;
    '(b, stream) ← read stream buf_len;
    Ok (OBytes b, stream)
  | TString =>
    buf_len ← to_usize num;
    '(b, stream) ← read stream buf_len;
    if utf8_valid b then Ok (OStr b, stream) else Err (invalid_value (name fld))
  | TEnum values =>
    enum_val ← to_u16 num;
    if bool_decide (enum_val ∈ values) then Ok (obj_of_int enum_val, stream)
    else Err (invalid_value (name fld))
  | TMsg msg_type =>
    msg_len ← to_usize num;
    '(sub_stream, stream) ← read_stream stream msg_len;
    obj ← message_from_stream sub_stream msg_type;
    Ok (obj, stream)
  end.

(** Skipping a value by its primitive type. *)
(* src: protobuf/decode.rs 124-138 (Decoder::decode_fields_into) *)
Definition skip_value (prim_type : Z) (stream : InputStream) : result InputStream :=
  if prim_type =? PRIMITIVE_TYPE_VARINT then
    '(_, stream) ← read_uvarint stream; Ok stream
  else if prim_type =? PRIMITIVE_TYPE_LENGTH_DELIMITED then
    '(num, stream) ← read_uvarint stream;
    n ← to_usize num;
    '(_, stream) ← read stream n; Ok stream
  else Err unknown_field_type.

(** Storing a decoded value: a repeated field is appended to its list, a
    singular field overwrites. *)
(* src: protobuf/decode.rs 103-121 (Decoder::decode_fields_into) *)
Definition assign_value (map : Map) (fld : FieldDef) (field_value : Obj) : result Map :=
  let field_name := name fld in
  if is_repeated fld then
    match map_get map field_name with
    | Ok (OList l) => Ok (map_set map field_name (OList (l ++ [field_value])))
    | Ok _ => Err TypeError
    | _ => Ok (map_set map field_name (OList [field_value]))
    end
  else Ok (map_set map field_name field_value).

(** One turn of the loop: [None] when no key can be read. *)
(* src: protobuf/decode.rs 98-141 (Decoder::decode_fields_into) *)
Definition decode_one (stream : InputStream) (msg : MsgDef) (map : Map)
    : result (option (InputStream * Map)) :=
  match read_uvarint stream with
  | Ok (key, stream) =>
    field_tag ← to_u8 (Z.shiftr key 3);
    prim_type ← to_u8 (Z.land key 7);
    match field msg field_tag with
    | Some fld =>
      '(field_value, stream) ← decode_field stream fld;
      map ← assign_value map fld field_value;
      Ok (Some (stream, map))
    | None =>
      stream ← skip_value prim_type stream;
      Ok (Some (stream, map))
    end
  | Err _ => Ok None
  | Panic => Panic
  | NoFuel => NoFuel
  end.

(* src: protobuf/decode.rs 90-144 (Decoder::decode_fields_into) *)
Fixpoint decode_fields_loop (fuel : nat) (stream : InputStream) (msg : MsgDef) (map : Map)
    : result Map :=
  match fuel with
  | O => NoFuel
  | S fuel =>
    next ← decode_one stream msg map;
    match next with
    | Some (stream, map) => decode_fields_loop fuel stream msg map
    | None => Ok map
    end
  end.

(** Every turn consumes a byte, so one turn more than there are bytes. *)
(* src: protobuf/decode.rs 90-144 (Decoder::decode_fields_into) *)
Definition decode_fields_into (stream : InputStream) (msg : MsgDef) (map : Map) : result Map :=
  decode_fields_loop (S (length (rest stream))) stream msg map.

(* src: protobuf/decode.rs 156-181 (Decoder::decode_defaults_into) *)
Definition default_one (stream : InputStream) (msg : MsgDef) (map : Map)
    : result (option (InputStream * Map)) :=
  match read_byte stream with
  | Ok (field_tag, stream) =>
    fld ← ok_or (field msg field_tag) (KeyError field_tag);
    if contains_key map (name fld) then
      t ← get_type fld;
      stream ← skip_value (primitive_type t) stream;
      Ok (Some (stream, map))
    else
      '(field_value, stream) ← decode_field stream fld;
      Ok (Some (stream, map_set map (name fld) field_value))
  | Err _ => Ok None
  | Panic => Panic
  | NoFuel => NoFuel
  end.

(* src: protobuf/decode.rs 149-184 (Decoder::decode_defaults_into) *)
Fixpoint decode_defaults_loop (fuel : nat) (stream : InputStream) (msg : MsgDef) (map : Map)
    : result Map :=
  match fuel with
  | O => NoFuel
  | S fuel =>
    next ← default_one stream msg map;
    match next with
    | Some (stream, map) => decode_defaults_loop fuel stream msg map
    | None => Ok map
    end
  end.

(* src: protobuf/decode.rs 149-184 (Decoder::decode_defaults_into) *)
Definition decode_defaults_into (msg : MsgDef) (map : Map) : result Map :=
  decode_defaults_loop (S (length (defaults msg))) (new_stream (defaults msg)) msg map.

(* src: protobuf/decode.rs 189-206 (Decoder::assign_required_into) *)
Definition assign_one (map : Map) (fld : FieldDef) : result Map :=
  if contains_key map (name fld) then Ok map
  else if is_required fld then Err (missing_required_field (name fld))
  else if is_repeated fld then Ok (map_set map (name fld) (OList []))
  else Ok (map_set map (name fld) ONone).

(* src: protobuf/decode.rs 188-208 (Decoder::assign_required_into) *)
Definition assign_required_into (msg : MsgDef) (map : Map) : result Map :=
  foldM assign_one map (fields msg).

Definition finish (msg : MsgDef) (map : Map) : result Obj :=
  map ← decode_defaults_into msg map;
  map ← assign_required_into msg map;
  Ok (msg_obj msg map).
End Fields.

(* src: protobuf/decode.rs 54-66 (Decoder::message_from_stream) *)
Fixpoint message_from_stream (fuel : nat) (self : Decoder) : Decode := λ stream msg,
  match fuel with
  | O => NoFuel
  | S fuel =>
    map ← decode_fields_into self (message_from_stream fuel self) stream msg (empty_message msg);
    finish self (message_from_stream fuel self) msg map
  end.

(* src: protobuf/decode.rs 70-80 (Decoder::message_from_values) *)
Definition message_from_values (fuel : nat) (self : Decoder) (values : Map) (msg : MsgDef)
    : result Obj :=
  let map := foldl (λ map elem, map_set map (fst elem) (snd elem)) (empty_message msg) values in
  finish self (message_from_stream fuel self) msg map.

(* src: protobuf/decode.rs 19-45 (protobuf_decode) *)
Definition protobuf_decode (fuel : nat) (buffer : Obj) (def : MsgDef) (experimental : bool)
    : result Obj :=
  if negb experimental && is_experimental def then Err experimental_not_enabled
  else
    b ← get_buffer buffer;
    message_from_stream fuel (mkDecoder experimental) (new_stream b) def.

(** Attribute access of the finished object; [None] is the null object, with
    which MicroPython asks for a deletion. *)
(* src: protobuf/obj.rs 95-107 (MsgObj::setattr) *)
Definition setattr (map : Map) (attr : Qstr) (value : option Obj) : result Map :=
  match value with
  | None => Err TypeError
  | Some value => if contains_key map attr then Ok (map_set map attr value) else Err (AttributeError attr)
  end.
End Decode.
