(* ===== verification/ProtoTyping.v ===== *)
(** * Well-formed definitions and well-typed messages

    What the build promises about the definition blobs ([msg_wf]), the types
    of decoded objects ([msg_ok]), and two facts about the decoder on every
    input: it ends with an object or an error, and the object has the types
    its definition prescribes. *)
From S2P Require Import Prelude Obj Io Varint ProtoDefs ProtoDecode.
Local Open Scope Z_scope.

Section Typing.
Context `{MsgDb} `{MicroPython}.

(** ** The default values of a definition, as the build encodes them *)
Inductive default_value : FieldType → list Z → Obj → Prop :=
| default_uvarint n : in_u 64 n → default_value UVarInt (uvarint n) (OInt n)
| default_svarint n : in_u 64 n → default_value SVarInt (uvarint n) (OInt (to_signed n))
| default_bool n : in_u 64 n → default_value TBool (uvarint n) (OBool (negb (n =? 0)))
| default_enum vs n : in_u 16 n → n ∈ vs → default_value (TEnum vs) (uvarint n) (OInt n)
| default_bytes b :
    len b < 2 ^ 31 → default_value TBytes (uvarint (len b) ++ b) (OBytes b)
| default_string b :
    len b < 2 ^ 31 → utf8_valid b = true →
    default_value TString (uvarint (len b) ++ b) (OStr b).

Inductive default_entries (msg : MsgDef) : list Z → list FieldDef → Prop :=
| defaults_nil : default_entries msg [] []
| defaults_cons f t bs v ds fs :
    field msg (tag f) = Some f → is_repeated f = false →
    get_type f = Ok t → default_value t bs v →
    default_entries msg ds fs →
    default_entries msg (tag f :: bs ++ ds) (f :: fs).

(** What the build guarantees of a definition. *)
Record msg_wf (msg : MsgDef) : Prop := {
  wf_tags : NoDup (tag <$> fields msg);
  wf_names : NoDup (name <$> fields msg);
  wf_tag_range : Forall (λ f, in_u 8 (tag f)) (fields msg);
  wf_types : Forall (λ f, is_Some (match get_type f with Ok t => Some t | _ => None end))
                    (fields msg);
  wf_labels : Forall (λ f, is_repeated f = true → is_required f = false) (fields msg);
  wf_defaults : ∃ fs, default_entries msg (defaults msg) fs;
  wf_default_length : len (defaults msg) < 2 ^ 31;
}.

(** The definitions in use: well formed, and closed under submessages. *)
Definition db_wf (valid : MsgDef → Prop) : Prop :=
  ∀ msg, valid msg → msg_wf msg ∧
    ∀ f md, f ∈ fields msg → get_type f = Ok (TMsg md) → valid md.

(** ** The types of values *)

Definition value_ok (scalar : FieldType → Obj → Prop) (message : MsgDef → Obj → Prop)
    (t : FieldType) (v : Obj) : Prop :=
  match t with
  | TMsg msg => message msg v
  | _ => scalar t v
  end.

Definition field_ok scalar message (t : FieldType) (f : FieldDef) (v : Obj) : Prop :=
  if is_repeated f then ∃ l, v = OList l ∧ Forall (value_ok scalar message t) l
  else value_ok scalar message t v.

(** A complete object of a definition: every field of the definition and
    nothing else is assigned, [None] only where [none_ok] allows it. *)
Fixpoint msg_ok (scalar : FieldType → Obj → Prop) (none_ok : MsgDef → FieldDef → Prop)
    (n : nat) (msg : MsgDef) (o : Obj) : Prop :=
  match n with
  | O => False
  | S n =>
    ∃ m, o = msg_obj msg m ∧
      (∀ f, f ∈ fields msg → ∃ t v, get_type f = Ok t ∧ mp_map_lookup m (name f) = Some v ∧
         (v = ONone ∧ none_ok msg f
          ∨ v ≠ ONone ∧ field_ok scalar (msg_ok scalar none_ok n) t f v)) ∧
      (∀ k v, mp_map_lookup m k = Some v → k ∈ name <$> fields msg)
  end.

(** The types of decoded scalars. *)
Definition scalar_typed (t : FieldType) (v : Obj) : Prop :=
  match t, v with
  | UVarInt, OInt z => in_u 64 z
  | SVarInt, OInt z => in_s 64 z
  | TBool, OBool _ => True
  | TBytes, OBytes b => True
  | TString, OStr b => utf8_valid b = true
  | TEnum vs, OInt z => z ∈ vs ∧ in_u 16 z
  | _, _ => False
  end.

Definition optional (msg : MsgDef) (f : FieldDef) : Prop :=
  is_required f = false ∧ is_repeated f = false.

(** ** Fields of a definition *)

Lemma field_Some msg t f : field msg t = Some f → f ∈ fields msg ∧ tag f = t.
Proof.
  unfold field. intros ([i f'] & Hf & ->)%fmap_Some. simpl.
  apply list_find_Some in Hf as (Hi & ? & _). split; [|done]. by eapply list_elem_of_lookup_2.
Qed.

Lemma field_tag msg f : msg_wf msg → f ∈ fields msg → field msg (tag f) = Some f.
Proof.
  intros Hwf Hf. unfold field. apply list_elem_of_lookup in Hf as [i Hi].
  assert (list_find (λ f', tag f' = tag f) (fields msg) = Some (i, f)) as ->; [|done].
  apply list_find_Some. split; [done|]. split; [done|]. intros j f' Hj Hlt Htag.
  pose proof (wf_tags _ Hwf) as Hnd.
  assert (i = j) as ->; [|lia].
  eapply NoDup_lookup; [exact Hnd| |];
    rewrite list_lookup_fmap, ?Hi, ?Hj; simpl; [done|]. by rewrite Htag.
Qed.

Lemma name_inj msg f f' :
  msg_wf msg → f ∈ fields msg → f' ∈ fields msg → name f = name f' → f = f'.
Proof.
  intros Hwf [i Hi]%list_elem_of_lookup [j Hj]%list_elem_of_lookup Hn.
  pose proof (wf_names _ Hwf) as Hnd.
  assert (i = j) as ->; [|congruence].
  eapply NoDup_lookup; [exact Hnd| |];
    rewrite list_lookup_fmap, ?Hi, ?Hj; simpl; [done|]. by rewrite Hn.
Qed.

Lemma field_type msg f : msg_wf msg → f ∈ fields msg → ∃ t, get_type f = Ok t.
Proof.
  intros Hwf Hf. pose proof (wf_types _ Hwf) as Ht. rewrite Forall_forall in Ht.
  destruct (Ht f Hf) as [t Ht']. destruct (get_type f); naive_solver.
Qed.

(** ** Decoding one value *)

Lemma to_signed_range n : in_u 64 n → in_s 64 (to_signed n).
Proof.
  intros Hn. unfold to_signed. rewrite Z.shiftr_div_pow2 by lia.
  assert (0 <= n / 2 ^ 1 < 2 ^ 63) as Hh.
  { unfold in_u in Hn. split; [apply Z.div_pos; lia|]. apply Z.div_lt_upper_bound; lia. }
  rewrite wraps_small by (unfold in_s; simpl; lia).
  change 1 with (Z.ones 1) at 2. rewrite Z.land_ones by lia.
  pose proof (Z.mod_pos_bound n (2 ^ 1) ltac:(lia)).
  rewrite wraps_small by (unfold in_s; simpl; lia).
  assert (n mod 2 ^ 1 = 0 ∨ n mod 2 ^ 1 = 1) as [-> | ->] by lia.
  - rewrite Z.lxor_0_r. unfold in_s. simpl. lia.
  - change (- (1)) with (-1). rewrite Z.lxor_m1_r. unfold Z.lnot, in_s. simpl. lia.
Qed.

Lemma to_usize_Ok n m : to_usize n = Ok m → m = n ∧ in_u usize_bits m.
Proof.
  unfold to_usize. destruct (fits_u usize_bits n) eqn:E; [|done].
  intros [= <-]. by apply fits_u_spec in E.
Qed.

Lemma to_usize_small n : in_u usize_bits n → to_usize n = Ok n.
Proof. intros E%fits_u_spec. unfold to_usize. by rewrite E. Qed.

Lemma to_u16_Ok n m : to_u16 n = Ok m → m = n ∧ in_u 16 m.
Proof.
  unfold to_u16. destruct (fits_u 16 n) eqn:E; [|done].
  intros [= <-]. by apply fits_u_spec in E.
Qed.

Lemma stream_ok_sub s b r : stream_ok s → rest s = b ++ r → stream_ok (new_stream b).
Proof.
  intros Hs Hr. pose proof (remaining_rest s Hs) as Hl.
  rewrite Hr in Hl. rewrite length_app in Hl. apply new_stream_ok. destruct Hs. unfold remaining in Hl. lia.
Qed.

(** Bytes consumed: [s'] is [s] after some bytes. *)
Definition consumed (s s' : InputStream) : Prop :=
  stream_ok s' ∧ ∃ b, rest s = b ++ rest s' ∧ b ≠ [].

Lemma consumed_shorter s s' : consumed s s' → (length (rest s') < length (rest s))%nat.
Proof.
  intros (_ & b & -> & Hb). rewrite length_app. destruct b; [done|]. simpl. lia.
Qed.

Lemma consumed_uvarint s v s' : stream_ok s → read_uvarint s = Ok (v, s') → consumed s s'.
Proof. intros Hs (_ & ? & b & ? & ? & _)%read_uvarint_Ok; [|done]. split; eauto. Qed.

Lemma consumed_read s s1 n b s2 :
  consumed s s1 → in_u usize_bits n → read s1 n = Ok (b, s2) → consumed s s2.
Proof.
  intros (Hs1 & b1 & H1 & Hne) Hn (r & H2 & _ & _ & Hs2 & <-)%read_Ok; [|done..].
  split; [done|]. exists (b1 ++ b). rewrite H1, H2, app_assoc. split; [done|].
  by destruct b1.
Qed.

Section Value.
Context (self : Decoder) (rec : Decode) (message : MsgDef → Obj → Prop).

Lemma decode_field_typed s f t v s' :
  stream_ok s → get_type f = Ok t →
  (∀ ss msg o, t = TMsg msg → stream_ok ss → rec ss msg = Ok o → message msg o) →
  decode_field self rec s f = Ok (v, s') →
  value_ok scalar_typed message t v ∧ consumed s s'.
Proof.
  intros Hs Ht Hrec. unfold decode_field. case_match; [done|]. rewrite Ht.
  intros ([num s1] & Hnum & Hv)%bind_Ok. pose proof (consumed_uvarint _ _ _ Hs Hnum) as Hc.
  apply read_uvarint_Ok in Hnum as (Hn & Hs1 & _); [|done]. simpl in Hv.
  destruct t as [| | | | |vs|msg]; simpl in Hv.
  - by injection Hv as <- <-.
  - injection Hv as <- <-. split; [by apply to_signed_range|done].
  - by injection Hv as <- <-.
  - apply bind_Ok in Hv as (n & [-> Hn']%to_usize_Ok & ([b s2] & Hr & Hv)%bind_Ok).
    injection Hv as <- <-. split; [done|by eapply consumed_read].
  - apply bind_Ok in Hv as (n & [-> Hn']%to_usize_Ok & ([b s2] & Hr & Hv)%bind_Ok).
    destruct (utf8_valid b) eqn:Hu; [|done]. injection Hv as <- <-.
    split; [done|by eapply consumed_read].
  - apply bind_Ok in Hv as (n & [-> Hn']%to_u16_Ok & Hv).
    case_bool_decide; [|done]. by injection Hv as <- <-.
  - apply bind_Ok in Hv as (n & [-> Hn']%to_usize_Ok & ([ss s2] & Hr & Hv)%bind_Ok).
    unfold read_stream in Hr. apply bind_Ok in Hr as ([b s3] & Hr & Hss).
    injection Hss as <- <-. simpl in Hv. apply bind_Ok in Hv as (o & Ho & Hv).
    injection Hv as <- <-. split; [|by eapply consumed_read].
    apply read_Ok in Hr as (r & Hr & _); [|done..]. simpl.
    eapply Hrec; [done| |exact Ho]. by eapply stream_ok_sub.
Qed.

Lemma decode_field_safe s f t :
  stream_ok s → get_type f = Ok t →
  (∀ ss msg, t = TMsg msg → stream_ok ss →
     (length (rest ss) < length (rest s))%nat → safe (rec ss msg)) →
  safe (decode_field self rec s f).
Proof.
  intros Hs Ht Hrec. unfold decode_field. case_match; [done|]. rewrite Ht.
  apply safe_bind; [by apply read_uvarint_safe|]. intros [num s1] Hnum.
  pose proof (consumed_uvarint _ _ _ Hs Hnum) as Hc. simpl.
  destruct t as [| | | | |vs|msg]; try done.
  - apply safe_bind; [apply safe_ok_or|]. intros n _.
    apply safe_bind; [apply safe_read|]. by intros [b s2] _.
  - apply safe_bind; [apply safe_ok_or|]. intros n _.
    apply safe_bind; [apply safe_read|]. intros [b s2] _. by case_match.
  - apply safe_bind; [apply safe_ok_or|]. intros n _. by case_match.
  - apply safe_bind; [apply safe_ok_or|]. intros n [-> Hn]%to_usize_Ok. unfold read_stream.
    apply safe_bind; [apply safe_bind; [apply safe_read|by intros []]|].
    intros [ss s2] Hr. simpl. apply bind_Ok in Hr as ([b s3] & Hr & Hss).
    injection Hss as <- <-. destruct Hc as (Hs1 & b1 & Hb1 & Hne).
    apply read_Ok in Hr as (r & Hr & _); [|done..].
    apply safe_bind; [|by intros].
    apply Hrec; [done|by eapply stream_ok_sub|]. rewrite rest_new, Hb1, Hr, !length_app.
    destruct b1; [done|]. simpl. lia.
Qed.
End Value.

(** ** Skipping *)

Lemma skip_value_consumed s p s' : stream_ok s → skip_value p s = Ok s' → consumed s s'.
Proof.
  intros Hs. unfold skip_value. repeat case_match; [| |done].
  - intros ([n s1] & Hn & [= <-])%bind_Ok. by eapply consumed_uvarint.
  - intros ([n s1] & Hn & Hv)%bind_Ok.
    apply bind_Ok in Hv as (m & [-> Hm]%to_usize_Ok & ([b s2] & Hr & [= <-])%bind_Ok).
    eapply consumed_read; [by eapply consumed_uvarint|done|done].
Qed.

Lemma skip_value_safe s p : stream_ok s → safe (skip_value p s).
Proof.
  intros Hs. unfold skip_value. repeat case_match; [| |done].
  - apply safe_bind; [by apply read_uvarint_safe|]. by intros [].
  - apply safe_bind; [by apply read_uvarint_safe|]. intros [n s1] _.
    apply safe_bind; [apply safe_ok_or|]. intros m _.
    apply safe_bind; [apply safe_read|]. by intros [].
Qed.

Lemma decode_field_consumed self rec s f t v s' :
  stream_ok s → get_type f = Ok t → decode_field self rec s f = Ok (v, s') → consumed s s'.
Proof. intros Hs Ht Hd. eapply (decode_field_typed self rec (λ _ _, True)) in Hd; naive_solver. Qed.

Lemma consumed_trans s s1 s2 : consumed s s1 → consumed s1 s2 → consumed s s2.
Proof.
  intros (_ & b1 & H1 & Hne) (Hs2 & b2 & H2 & _). split; [done|].
  exists (b1 ++ b2). rewrite H1, H2, app_assoc. split; [done|]. by destruct b1.
Qed.

Lemma decode_one_consumed self rec msg s m s' m' :
  msg_wf msg → stream_ok s → decode_one self rec s msg m = Ok (Some (s', m')) → consumed s s'.
Proof.
  intros Hwf Hs. unfold decode_one.
  destruct (read_uvarint s) as [[key s1]| | |] eqn:Hkey; try done.
  pose proof (consumed_uvarint _ _ _ Hs Hkey) as Hc. destruct Hc as [Hs1 Hc].
  intros (tg & _ & (pt & _ & Hv)%bind_Ok)%bind_Ok. eapply consumed_trans; [by split|].
  destruct (field msg tg) as [f|] eqn:Hf.
  - apply field_Some in Hf as [Hf _]. destruct (field_type _ _ Hwf Hf) as [t Ht].
    apply bind_Ok in Hv as ([v s2] & Hv & (m1 & Hm1 & [= <- <-])%bind_Ok).
    by eapply decode_field_consumed.
  - apply bind_Ok in Hv as (s2 & Hv & [= <- <-]). by eapply skip_value_consumed.
Qed.

(** ** The loop over the fields of a stream *)

Section Message.
Context (self : Decoder) (rec : Decode) (message : MsgDef → Obj → Prop) (msg : MsgDef).
Context (valid : MsgDef → Prop) (Hwf : msg_wf msg).
Context (Hsub : ∀ f md, f ∈ fields msg → get_type f = Ok (TMsg md) → valid md).

Abbreviation ftyped f v t := (field_ok scalar_typed message t f v).

(** Everything assigned so far belongs to a field and has its type. *)
Definition map_typed (m : Map) : Prop :=
  ∀ k v, mp_map_lookup m k = Some v →
    ∃ f t, f ∈ fields msg ∧ name f = k ∧ get_type f = Ok t ∧ v ≠ ONone ∧ ftyped f v t.

Hypothesis message_some : ∀ md v, message md v → v ≠ ONone.

Lemma value_some t v : value_ok scalar_typed message t v → v ≠ ONone.
Proof. destruct t; simpl; [by destruct v..|apply message_some]. Qed.

Lemma map_typed_nil : map_typed [].
Proof. intros k v. by rewrite mp_map_lookup_nil. Qed.

Lemma map_typed_set m f t v :
  map_typed m → f ∈ fields msg → get_type f = Ok t → v ≠ ONone → ftyped f v t →
  map_typed (map_set m (name f) v).
Proof.
  intros Hm Hf Ht Hv Hok k v'. unfold map_set. rewrite mp_map_lookup_store.
  case_decide as Hk; [|apply Hm]. intros [= <-]. exists f, t. naive_solver.
Qed.

Lemma assign_value_typed m f t v m' :
  map_typed m → f ∈ fields msg → get_type f = Ok t →
  value_ok scalar_typed message t v → assign_value m f v = Ok m' → map_typed m'.
Proof.
  intros Hm Hf Ht Hv. unfold assign_value. destruct (is_repeated f) eqn:Hrep.
  - unfold map_get. destruct (mp_map_lookup m (name f)) as [v'|] eqn:Hl; simpl.
    + destruct v' as [| | | | |l|]; try done. intros [= <-].
      apply Hm in Hl as (f' & t' & Hf' & Hn & Ht' & _ & Hok).
      assert (f' = f) as -> by by eapply name_inj. rewrite Ht in Ht'. injection Ht' as <-.
      eapply map_typed_set; [done..|]. unfold field_ok in *. rewrite Hrep in *.
      destruct Hok as (l' & [= <-] & HF). eexists. split; [done|].
      apply Forall_app_2; [done|]. by apply Forall_singleton.
    + intros [= <-]. eapply map_typed_set; [done..|]. unfold field_ok. rewrite Hrep.
      eexists. split; [done|]. by apply Forall_singleton.
  - intros [= <-]. eapply map_typed_set; [done..|by eapply value_some|].
    unfold field_ok. by rewrite Hrep.
Qed.

Hypothesis rec_typed : ∀ ss md o,
  valid md → stream_ok ss → rec ss md = Ok o → message md o.

Lemma decode_one_typed s m s' m' :
  stream_ok s → map_typed m → decode_one self rec s msg m = Ok (Some (s', m')) →
  map_typed m'.
Proof.
  intros Hs Hm. unfold decode_one.
  destruct (read_uvarint s) as [[key s1]| | |] eqn:Hkey; try done.
  pose proof (consumed_uvarint _ _ _ Hs Hkey) as [Hs1 _].
  intros (tg & _ & (pt & _ & Hv)%bind_Ok)%bind_Ok.
  destruct (field msg tg) as [f|] eqn:Hf;
    [|by apply bind_Ok in Hv as (s2 & Hv & [= <- <-])].
  apply field_Some in Hf as [Hf _]. destruct (field_type _ _ Hwf Hf) as [t Ht].
  apply bind_Ok in Hv as ([v s2] & Hv & (m1 & Hm1 & [= <- <-])%bind_Ok).
  eapply (decode_field_typed self rec message) in Hv as [Hv _]; [|done|done|].
  - by eapply assign_value_typed.
  - intros ss md o -> Hss Ho. eapply rec_typed; [|done|done]. by eapply Hsub.
Qed.

Lemma decode_fields_loop_typed fuel s m m' :
  stream_ok s → map_typed m → decode_fields_loop self rec fuel s msg m = Ok m' → map_typed m'.
Proof.
  revert s m; induction fuel as [|fuel IH]; intros s m Hs Hm; simpl; [done|].
  intros ([[s1 m1]|] & Hone & Hv)%bind_Ok; [|by injection Hv as <-].
  pose proof (decode_one_consumed _ _ _ _ _ _ _ Hwf Hs Hone) as [Hs1 _].
  apply decode_one_typed in Hone; [|done..]. by eapply IH.
Qed.

(** ** The default values *)

Lemma default_value_typed t bs v : default_value t bs v → value_ok scalar_typed message t v.
Proof. destruct 1; simpl; try done. by apply to_signed_range. Qed.

Lemma in_usize_len {A} (l : list A) : len l < 2 ^ 31 → in_u usize_bits (len l).
Proof. unfold in_u. lia. Qed.
Lemma in_u64_len {A} (l : list A) : len l < 2 ^ 31 → in_u 64 (len l).
Proof. unfold in_u. lia. Qed.

Lemma read_block s b r :
  stream_ok s → len b < 2 ^ 31 → rest s = (uvarint (len b) ++ b) ++ r →
  read_uvarint s = Ok (len b, advance s (len (uvarint (len b)))) ∧
  read (advance s (len (uvarint (len b)))) (len b)
  = Ok (b, advance s (len (uvarint (len b) ++ b))).
Proof.
  intros Hs Hl Hr. rewrite <- app_assoc in Hr.
  destruct (rest_advance_app _ _ _ Hs Hr) as [Hr1 Hs1].
  split; [eapply read_uvarint_uvarint; [done|done|by apply in_u64_len]|].
  rewrite (read_app _ _ _ Hs1 Hr1), advance_advance, length_app. do 3 f_equal. lia.
Qed.

Lemma decode_default s f t bs v r :
  get_type f = Ok t → default_value t bs v → stream_ok s → rest s = bs ++ r →
  decode_field self rec s f =
  if field_experimental f && negb (enable_experimental self)
  then Err experimental_not_enabled else Ok (v, advance s (len bs)).
Proof.
  intros Ht Hv Hs Hr. unfold decode_field. case_match; [done|]. rewrite Ht.
  destruct Hv as [n Hn|n Hn|n Hn|vs n Hn Hin|b Hl|b Hl Hu]; simpl.
  1-4: rewrite (read_uvarint_uvarint _ _ _ Hs Hr) by (unfold in_u in *; lia); simpl; try done.
  - unfold to_u16. assert (fits_u 16 n = true) as -> by by apply fits_u_spec. simpl.
    by rewrite bool_decide_true.
  - destruct (read_block _ _ _ Hs Hl Hr) as [-> Hb]. simpl.
    rewrite to_usize_small by by apply in_usize_len. simpl. by rewrite Hb.
  - destruct (read_block _ _ _ Hs Hl Hr) as [-> Hb]. simpl.
    rewrite to_usize_small by by apply in_usize_len. simpl. rewrite Hb. simpl. by rewrite Hu.
Qed.

Lemma skip_default s t bs v r :
  default_value t bs v → stream_ok s → rest s = bs ++ r →
  skip_value (primitive_type t) s = Ok (advance s (len bs)).
Proof.
  intros Hv Hs Hr. unfold skip_value.
  destruct Hv as [n Hn|n Hn|n Hn|vs n Hn Hin|b Hl|b Hl Hu]; simpl.
  1-4: by rewrite (read_uvarint_uvarint _ _ _ Hs Hr) by (unfold in_u in *; lia).
  all: destruct (read_block _ _ _ Hs Hl Hr) as [-> Hb]; simpl;
    rewrite to_usize_small by (by apply in_usize_len); simpl; by rewrite Hb.
Qed.

(** One entry: skipped when the field is assigned, else decoded. *)
Lemma default_one_entry s m f t bs v r :
  field msg (tag f) = Some f → get_type f = Ok t → default_value t bs v →
  stream_ok s → rest s = tag f :: bs ++ r →
  default_one self rec s msg m =
  if contains_key m (name f) then Ok (Some (advance s (1 + len bs), m))
  else if field_experimental f && negb (enable_experimental self)
  then Err experimental_not_enabled
  else Ok (Some (advance s (1 + len bs), map_set m (name f) v)).
Proof.
  intros Hf Ht Hv Hs Hr. unfold default_one.
  rewrite (read_byte_cons _ _ _ Hs Hr).
  destruct (rest_advance_cons _ _ _ Hs Hr) as [Hr1 Hs1]. rewrite Hf. simpl.
  destruct (contains_key m (name f)).
  - rewrite Ht. simpl. rewrite (skip_default _ _ _ _ _ Hv Hs1 Hr1). simpl.
    by rewrite advance_advance.
  - rewrite (decode_default _ _ _ _ _ _ Ht Hv Hs1 Hr1).
    case_match; [done|]. simpl. by rewrite advance_advance.
Qed.

Lemma defaults_loop_typed ds fs :
  default_entries msg ds fs → ∀ fuel s m,
  (length ds < fuel)%nat → stream_ok s → rest s = ds → map_typed m →
  safe (decode_defaults_loop self rec fuel s msg m) ∧
  ∀ m', decode_defaults_loop self rec fuel s msg m = Ok m' → map_typed m'.
Proof.
  induction 1 as [|f t bs v ds fs Hf Hrep Ht Hv Hds IH];
    intros [|fuel] s m Hfuel Hs Hr Hm; try (simpl in Hfuel; lia); simpl.
  - unfold default_one. rewrite (read_byte_nil _ Hs Hr). naive_solver.
  - rewrite (default_one_entry _ _ _ _ _ _ _ Hf Ht Hv Hs Hr).
    apply (rest_advance_app s (tag f :: bs) ds Hs) in Hr as [Hr Hs'].
    simpl length in *. rewrite length_app in Hfuel.
    replace (Z.of_nat (S (length bs))) with (1 + len bs) in * by lia.
    destruct (contains_key m (name f)); [by apply IH; [lia|..]|].
    destruct (field_experimental f && _); [naive_solver|]. simpl.
    apply IH; [lia|done..|]. apply field_Some in Hf as [Hf _].
    pose proof (default_value_typed _ _ _ Hv) as Hok.
    eapply map_typed_set; [done..|by eapply value_some|].
    unfold field_ok. by rewrite Hrep.
Qed.

Lemma decode_defaults_typed m :
  map_typed m → safe (decode_defaults_into self rec msg m) ∧
  ∀ m', decode_defaults_into self rec msg m = Ok m' → map_typed m'.
Proof.
  intros Hm. destruct (wf_defaults _ Hwf) as [fs Hfs]. pose proof (wf_default_length _ Hwf).
  unfold decode_defaults_into. eapply defaults_loop_typed; [exact Hfs|lia| |apply rest_new|done].
  by apply new_stream_ok.
Qed.

(** ** Required and missing fields *)

Definition map_partial (m : Map) : Prop :=
  ∀ k v, mp_map_lookup m k = Some v →
    ∃ f t, f ∈ fields msg ∧ name f = k ∧ get_type f = Ok t ∧
      (v = ONone ∧ optional msg f ∨ v ≠ ONone ∧ ftyped f v t).

Lemma assign_one_partial m f m' :
  map_partial m → f ∈ fields msg → assign_one m f = Ok m' →
  map_partial m' ∧ is_Some (mp_map_lookup m' (name f)) ∧
  ∀ k, is_Some (mp_map_lookup m k) → is_Some (mp_map_lookup m' k).
Proof.
  intros Hm Hf. unfold assign_one. destruct (contains_key m (name f)) eqn:Hc.
  { intros [= <-]. apply contains_key_spec in Hc. naive_solver. }
  destruct (field_type _ _ Hwf Hf) as [t Ht].
  assert (∀ v, v = ONone ∧ optional msg f ∨ v ≠ ONone ∧ ftyped f v t →
    map_partial (map_set m (name f) v) ∧
    is_Some (mp_map_lookup (map_set m (name f) v) (name f)) ∧
    ∀ k, is_Some (mp_map_lookup m k) → is_Some (mp_map_lookup (map_set m (name f) v) k))
    as Hset.
  { intros v Hv. split_and!.
    - intros k v'. unfold map_set. rewrite mp_map_lookup_store.
      case_decide as Hk; [|apply Hm]. intros [= <-]. exists f, t. naive_solver.
    - rewrite map_set_same. eauto.
    - intros k ?. unfold map_set. rewrite mp_map_lookup_store. case_decide; eauto. }
  destruct (is_required f) eqn:Hreq; [done|]. destruct (is_repeated f) eqn:Hrep.
  - intros [= <-]. apply Hset. right. split; [done|]. unfold field_ok. rewrite Hrep. eauto.
  - intros [= <-]. apply Hset. left. done.
Qed.

Lemma assign_required_partial fs m m' :
  map_partial m → (∀ f, f ∈ fs → f ∈ fields msg) → foldM assign_one m fs = Ok m' →
  map_partial m' ∧ (∀ f, f ∈ fs → is_Some (mp_map_lookup m' (name f))) ∧
  ∀ k, is_Some (mp_map_lookup m k) → is_Some (mp_map_lookup m' k).
Proof using Hwf.
  clear valid rec_typed message_some Hsub.
  revert m; induction fs as [|f fs IH]; intros m Hm Hsub; simpl.
  { intros [= <-]. set_solver. }
  intros (m1 & H1 & H2)%bind_Ok.
  apply assign_one_partial in H1 as (Hm1 & Hf & Hmono); [|done|set_solver].
  apply IH in H2 as (Hm' & Hfs & Hmono'); [|done|set_solver].
  split; [done|]. split; [|naive_solver]. set_solver.
Qed.

Lemma assign_one_safe m f : safe (assign_one m f).
Proof. unfold assign_one. by repeat case_match. Qed.
End Message.

Lemma safe_foldM {S A} (f : S → A → result S) (s : S) (l : list A) :
  (∀ s x, safe (f s x)) → safe (foldM f s l).
Proof.
  intros Hf. revert s; induction l as [|x l IH]; intros s; simpl; [done|].
  by apply safe_bind.
Qed.

(** ** No input makes the decoder abort or run on *)

Lemma decode_one_safe valid self (rec : Decode) msg s m :
  db_wf valid → valid msg → stream_ok s →
  (∀ ss md, valid md → stream_ok ss → (length (rest ss) < length (rest s))%nat →
     safe (rec ss md)) →
  safe (decode_one self rec s msg m).
Proof.
  intros Hdb Hval Hs Hrec. destruct (Hdb _ Hval) as [Hwf Hsub]. unfold decode_one. pose proof (read_uvarint_safe s Hs) as Hsafe.
  destruct (read_uvarint s) as [[key s1]| | |] eqn:Hkey; try done.
  pose proof (consumed_uvarint _ _ _ Hs Hkey) as Hc.
  pose proof (consumed_shorter _ _ Hc). destruct Hc as [Hs1 _].
  apply safe_bind; [apply safe_ok_or|]. intros tg _.
  apply safe_bind; [apply safe_ok_or|]. intros pt _.
  destruct (field msg tg) as [f|] eqn:Hf.
  - apply field_Some in Hf as [Hf _]. destruct (field_type _ _ Hwf Hf) as [t Ht].
    apply safe_bind.
    + eapply decode_field_safe; [done|done|]. intros ss md -> Hss Hlt.
      apply Hrec; [by eapply Hsub|done|lia].
    + intros [v s2] _. apply safe_bind; [|done]. unfold assign_value. by repeat case_match.
  - apply safe_bind; [by apply skip_value_safe|done].
Qed.

Lemma decode_fields_loop_safe valid self (rec : Decode) msg fuel s m :
  db_wf valid → valid msg → stream_ok s → (length (rest s) < fuel)%nat →
  (∀ ss md, valid md → stream_ok ss → (length (rest ss) < length (rest s))%nat →
     safe (rec ss md)) →
  safe (decode_fields_loop self rec fuel s msg m).
Proof.
  intros Hdb Hval. destruct (Hdb _ Hval) as [Hwf _].
  revert s m; induction fuel as [|fuel IH]; intros s m Hs Hf Hrec; simpl; [lia|].
  apply safe_bind; [by eapply decode_one_safe|]. intros [[s1 m1]|] Hone; [|done].
  pose proof (decode_one_consumed _ _ _ _ _ _ _ Hwf Hs Hone) as Hc.
  pose proof (consumed_shorter _ _ Hc). destruct Hc as [Hs1 _].
  apply IH; [done|lia|]. intros. apply Hrec; [done|done|lia].
Qed.

Lemma msg_ok_some scalar none_ok n md v : msg_ok scalar none_ok n md v → v ≠ ONone.
Proof. destruct n; simpl; [done|]. by intros (m & -> & _). Qed.

Lemma finish_typed self rec n msg m :
  msg_wf msg → map_typed (msg_ok scalar_typed optional n) msg m →
  safe (finish self rec msg m) ∧
  ∀ o, finish self rec msg m = Ok o → msg_ok scalar_typed optional (S n) msg o.
Proof.
  intros Hwf Hm. unfold finish.
  destruct (decode_defaults_typed self rec (msg_ok scalar_typed optional n) msg Hwf
              (msg_ok_some _ _ n) m Hm) as [Hsafe Htyped]. split.
  { apply safe_bind; [done|]. intros m1 _. apply safe_bind; [|done].
    apply safe_foldM, assign_one_safe. }
  intros o (m1 & Hm1%Htyped & (m2 & Hm2 & [= <-])%bind_Ok)%bind_Ok.
  apply (assign_required_partial (msg_ok scalar_typed optional n) msg Hwf) in Hm2
    as (Hpart & Hall & _); [| |done].
  - simpl. exists m2. split; [done|]. split.
    + intros f Hf. destruct (Hall f Hf) as [v Hv].
      destruct (Hpart _ _ Hv) as (f' & t & Hf' & Hn & Ht & Hok).
      assert (f' = f) as -> by by eapply name_inj. exists t, v. naive_solver.
    + intros k v (f & t & Hf & <- & _)%Hpart. apply list_elem_of_fmap. eauto.
  - intros k v (f & t & ? & ? & ? & ? & ?)%Hm1. exists f, t. naive_solver.
Qed.

Lemma message_from_stream_typed valid n self s msg o :
  db_wf valid → valid msg → stream_ok s → message_from_stream n self s msg = Ok o →
  msg_ok scalar_typed optional n msg o.
Proof.
  intros Hdb. revert s msg o; induction n as [|n IH]; intros s msg o Hval Hs; [done|].
  destruct (Hdb _ Hval) as [Hwf Hsub].
  intros (m & Hm & Ho)%bind_Ok. eapply finish_typed; [done| |exact Ho].
  eapply (decode_fields_loop_typed self _ (msg_ok scalar_typed optional n) msg valid);
    [done|done|apply msg_ok_some| |exact Hs|apply map_typed_nil|exact Hm].
  intros. by eapply IH.
Qed.

Lemma message_from_stream_safe valid n self s msg :
  db_wf valid → valid msg → stream_ok s → (length (rest s) < n)%nat →
  safe (message_from_stream n self s msg).
Proof.
  intros Hdb. revert s msg; induction n as [|n IH]; intros s msg Hval Hs Hn; [lia|]. simpl.
  destruct (Hdb _ Hval) as [Hwf Hsub].
  assert (∀ ss md, valid md → stream_ok ss → (length (rest ss) < length (rest s))%nat →
    safe (message_from_stream n self ss md)) as Hrec.
  { intros. apply IH; [done|done|lia]. }
  apply safe_bind.
  - eapply decode_fields_loop_safe; [done..|lia|done].
  - intros m Hm. eapply finish_typed; [done|].
    eapply (decode_fields_loop_typed self _ (msg_ok scalar_typed optional n) msg valid);
      [done|done|apply msg_ok_some| |exact Hs|apply map_typed_nil|exact Hm].
    intros. by eapply message_from_stream_typed.
Qed.
End Typing.
