(* ===== verification/ProtoRoundtrip.v ===== *)
(** * Encoding then decoding

    A complete, representable object of a well-formed definition encodes
    successfully, and decoding the bytes yields the same object up to the
    layout of the maps. *)
From S2P Require Import Prelude Obj Io Varint ProtoDefs ProtoEncode ProtoDecode ProtoTyping.
Local Open Scope Z_scope.

(** ** Zigzag is a bijection between [i64] and [u64] *)
Section Zigzag.
Lemma to_unsigned_spec z :
  in_s 64 z → to_unsigned z = if z <? 0 then - 2 * z - 1 else 2 * z.
Proof.
  unfold in_s. simpl. intros Hz. unfold to_unsigned.
  rewrite Z.shiftl_mul_pow2, Z.shiftr_div_pow2 by lia. change (2 ^ 1) with 2.
  destruct (Z.ltb_spec z 0).
  - assert (z / 2 ^ 63 = -1) as ->.
    { symmetry. apply (Z.div_unique_pos _ _ _ (z + 2 ^ 63)); lia. }
    rewrite Z.lxor_m1_r. unfold Z.lnot, wrapu, wraps. change (2 ^ (64 - 1)) with (2 ^ 63).
    pose proof (Z.div_mod (z * 2 + 2 ^ 63) (2 ^ 64) ltac:(lia)) as Hdm.
    set (q := (z * 2 + 2 ^ 63) / 2 ^ 64) in *.
    symmetry. apply (Z.mod_unique_pos _ _ q); lia.
  - rewrite Z.div_small by lia. rewrite Z.lxor_0_r. unfold wrapu, wraps.
    change (2 ^ (64 - 1)) with (2 ^ 63).
    pose proof (Z.div_mod (z * 2 + 2 ^ 63) (2 ^ 64) ltac:(lia)) as Hdm.
    set (q := (z * 2 + 2 ^ 63) / 2 ^ 64) in *.
    symmetry. apply (Z.mod_unique_pos _ _ (- q)); lia.
Qed.

Lemma to_signed_spec n :
  in_u 64 n → to_signed n = if Z.even n then n / 2 else - (n / 2) - 1.
Proof.
  intros Hn. unfold to_signed. rewrite Z.shiftr_div_pow2 by lia. change (2 ^ 1) with 2.
  assert (0 <= n / 2 < 2 ^ 63).
  { unfold in_u in Hn. split; [apply Z.div_pos; lia|]. apply Z.div_lt_upper_bound; lia. }
  rewrite wraps_small by (unfold in_s; change (64 - 1) with 63; lia).
  change 1 with (Z.ones 1) at 1. rewrite Z.land_ones by lia. change (2 ^ 1) with 2.
  rewrite Zmod_even. destruct (Z.even n).
  - change (- wraps 64 0) with 0. by rewrite Z.lxor_0_r.
  - change (- wraps 64 1) with (-1). rewrite Z.lxor_m1_r. unfold Z.lnot. lia.
Qed.

Lemma to_unsigned_range z : in_s 64 z → in_u 64 (to_unsigned z).
Proof.
  intros Hz. rewrite to_unsigned_spec by done. unfold in_s, in_u in *. simpl in *.
  destruct (Z.ltb_spec z 0); lia.
Qed.

Lemma to_signed_unsigned z : in_s 64 z → to_signed (to_unsigned z) = z.
Proof.
  intros Hz. rewrite to_signed_spec by by apply to_unsigned_range.
  rewrite to_unsigned_spec by done. destruct (Z.ltb_spec z 0).
  - replace (-2 * z - 1) with (1 + 2 * (- z - 1)) by lia.
    rewrite Z.even_add_mul_2. simpl. rewrite Z.mul_comm, Z.div_add by lia.
    change (1 / 2) with 0. lia.
  - rewrite Z.even_mul. simpl. rewrite Z.mul_comm, Z.div_mul; lia.
Qed.

Lemma to_unsigned_signed n : in_u 64 n → to_unsigned (to_signed n) = n.
Proof.
  intros Hn. rewrite to_unsigned_spec by by apply to_signed_range.
  rewrite to_signed_spec by done. unfold in_u in Hn. simpl in Hn.
  pose proof (Z.div_mod n 2 ltac:(lia)) as Hdm. rewrite Zmod_even in Hdm.
  assert (0 <= n / 2) by (apply Z.div_pos; lia).
  destruct (Z.even n);
    match goal with |- context [?a <? 0] => destruct (Z.ltb_spec a 0) end; lia.
Qed.
End Zigzag.

Section Roundtrip.
Context `{MsgDb} `{MicroPython}.

(** ** Objects up to the layout of their maps *)
Inductive obj_eq : Obj → Obj → Prop :=
| obj_eq_refl v : obj_eq v v
| obj_eq_list l l' : Forall2 obj_eq l l' → obj_eq (OList l) (OList l')
| obj_eq_msg w off m m' :
    (∀ k, option_Forall2 obj_eq (mp_map_lookup m k) (mp_map_lookup m' k)) →
    obj_eq (OMsg w off m) (OMsg w off m').

(** ** What can be sent

    The conversions from objects refuse 64-bit integers of magnitude
    [2^63] and more; buffers are shorter than [isize::MAX]. *)
Definition scalar_sendable (t : FieldType) (v : Obj) : Prop :=
  match t, v with
  | UVarInt, OInt z => 0 <= z < 2 ^ 63
  | SVarInt, OInt z => - 2 ^ 63 < z < 2 ^ 63
  | TBool, OBool _ => True
  | TBytes, OBytes b => len b < 2 ^ 31
  | TString, OStr b => len b < 2 ^ 31 ∧ utf8_valid b = true
  | TEnum vs, OInt z => z ∈ vs ∧ in_u 16 z
  | _, _ => False
  end.

(** A field may be unset when it is optional and has no default value. *)
Definition unset_ok (msg : MsgDef) (f : FieldDef) : Prop :=
  optional msg f ∧ ∀ fs, default_entries msg (defaults msg) fs → f ∉ fs.

Abbreviation sendable := (msg_ok scalar_sendable unset_ok).

Abbreviation enc rec f v := (encode_field (S:=list Z) rec [] f v).

(** ** One value *)

(** The bytes [bs] decode to [v], whatever follows. *)
Definition decodes_to (drec : Decode) (f : FieldDef) (v : Obj) (bs : list Z) : Prop :=
  ∀ self s r, enable_experimental self = true → stream_ok s → rest s = bs ++ r →
    ∃ v', decode_field self drec s f = Ok (v', advance s (len bs)) ∧ obj_eq v v'.

Lemma enc_uvarint n : in_u 64 n → write_uvarint (S:=list Z) [] n = Ok (uvarint n).
Proof. intros. by rewrite write_uvarint_spec, write_bytes_list. Qed.

Lemma scalar_roundtrip erec drec f t v :
  get_type f = Ok t → scalar_sendable t v →
  ∃ bs, enc erec f v = Ok bs ∧ decodes_to drec f v bs.
Proof.
  intros Ht Hv. unfold encode_field, decodes_to, decode_field. rewrite Ht. simpl.
  destruct t as [| | | | |vs|md]; destruct v as [|b|z|b|b|l|w o m]; simpl in Hv; try done.
  - exists (uvarint z). rewrite obj_to_u64_int by done. simpl.
    rewrite enc_uvarint by (unfold in_u; lia). split; [done|].
    intros self s r -> Hs Hr. rewrite andb_false_r.
    rewrite (read_uvarint_uvarint _ _ _ Hs Hr) by (unfold in_u; lia). simpl.
    eexists. split; [done|constructor].
  - exists (uvarint (to_unsigned z)). rewrite obj_to_i64_int by done. simpl.
    assert (in_s 64 z) by (unfold in_s; simpl; lia).
    pose proof (to_unsigned_range z ltac:(done)).
    rewrite enc_uvarint by done. split; [done|].
    intros self s r -> Hs Hr. rewrite andb_false_r.
    rewrite (read_uvarint_uvarint _ _ _ Hs Hr) by done. simpl.
    rewrite to_signed_unsigned by done. eexists. split; [done|constructor].
  - exists (uvarint (if b then 1 else 0)). unfold obj_to_bool. simpl. rewrite mp_obj_is_true_bool.
    rewrite enc_uvarint by (unfold in_u; destruct b; lia). split; [done|].
    intros self s r -> Hs Hr. rewrite andb_false_r.
    rewrite (read_uvarint_uvarint _ _ _ Hs Hr) by (unfold in_u; destruct b; lia). simpl.
    eexists. split; [done|]. destruct b; constructor.
  - exists (uvarint (len b) ++ b). simpl. rewrite enc_uvarint by by apply in_u64_len.
    split; [done|]. intros self s r -> Hs Hr. rewrite andb_false_r.
    destruct (read_block _ _ _ Hs Hv Hr) as [-> Hb]. simpl.
    rewrite to_usize_small by (by apply in_usize_len). simpl. rewrite Hb. simpl.
    eexists. split; [done|constructor].
  - destruct Hv as [Hl Hu]. exists (uvarint (len b) ++ b). simpl.
    rewrite enc_uvarint by by apply in_u64_len.
    split; [done|]. intros self s r -> Hs Hr. rewrite andb_false_r.
    destruct (read_block _ _ _ Hs Hl Hr) as [-> Hb]. simpl.
    rewrite to_usize_small by (by apply in_usize_len). simpl. rewrite Hb. simpl.
    rewrite Hu. eexists. split; [done|constructor].
  - destruct Hv as [Hin Hz]. unfold in_u in Hz. exists (uvarint z).
    rewrite obj_to_u64_int by lia. simpl. rewrite enc_uvarint by (unfold in_u; lia).
    split; [done|]. intros self s r -> Hs Hr. rewrite andb_false_r.
    rewrite (read_uvarint_uvarint _ _ _ Hs Hr) by (unfold in_u; lia). simpl.
    unfold to_u16. assert (fits_u 16 z = true) as -> by by apply fits_u_spec. simpl.
    rewrite bool_decide_true by done. eexists. split; [done|constructor].
Qed.

(** A number cut off before its last byte: the reader finds the end of the
    stream, which the loop over the fields takes for the end of the message. *)
Definition truncated (tail : list Z) : Prop := Forall (λ b, Z.land b 128 ≠ 0) tail.

Lemma read_truncated_loop tail fuel s acc shift :
  stream_ok s → truncated tail → rest s = tail → (length tail < fuel)%nat →
  read_uvarint_loop fuel s acc shift = Err EOFError.
Proof.
  intros Hs Ht. revert fuel s acc shift Hs.
  induction Ht as [|b tail Hb Ht IH]; intros [|fuel] s acc shift Hs Hr Hf;
    try (simpl in Hf; lia); simpl.
  - by rewrite (read_byte_nil _ Hs Hr).
  - rewrite (read_byte_cons _ _ _ Hs Hr). simpl.
    destruct (Z.eqb_spec (Z.land b 128) 0); [done|].
    destruct (rest_advance_cons _ _ _ Hs Hr). apply IH; [done..|]. simpl in Hf. lia.
Qed.

Lemma read_truncated tail s :
  stream_ok s → truncated tail → rest s = tail → read_uvarint s = Err EOFError.
Proof.
  intros Hs Ht Hr. unfold read_uvarint. eapply read_truncated_loop; [done..|].
  rewrite remaining_rest, Hr by done. lia.
Qed.

(** A submessage whose body round-trips does so behind its length. *)
Definition body_roundtrip (erec : Encode) (drec : Decode) (md : MsgDef) (v : Obj) : Prop :=
  ∃ w o m bs, v = OMsg w o m ∧ erec (list Z) _ [] md m = Ok bs ∧
    ∀ s tail, stream_ok s → truncated tail → rest s = bs ++ tail →
      ∃ v', drec s md = Ok v' ∧ obj_eq v v'.

Lemma message_roundtrip erec drec f md v :
  encoder_ok erec → get_type f = Ok (TMsg md) → body_roundtrip erec drec md v →
  ∃ bs, enc erec f v = Ok bs ∧ decodes_to drec f v bs.
Proof.
  intros Hok Ht (w & o & m & bs & -> & He & Hd).
  destruct (Hok md m [] bs He) as (bs' & -> & Hem). simpl in *.
  set (c := wrapu usize_bits (len bs')).
  assert (in_u usize_bits c) as Hcr by (apply wrapu_range; lia).
  exists (uvarint c ++ bs'). unfold encode_field. rewrite Ht. simpl.
  pose proof (emits_counter _ _ Hem) as Hc. simpl in Hc. rewrite Hc. simpl. fold c.
  rewrite enc_uvarint by (unfold in_u in *; lia). simpl.
  pose proof (emits_list _ _ (uvarint c) Hem) as Hl. simpl in Hl. rewrite Hl.
  clear Hc Hl. split; [done|].
  intros self s r Hexp Hs Hr. unfold decode_field. rewrite Hexp, andb_false_r, Ht.
  assert (len bs' < 2 ^ 31) as Hl.
  { pose proof (remaining_rest s Hs) as Hrem. rewrite Hr, !length_app in Hrem.
    destruct Hs. unfold remaining in Hrem. lia. }
  assert (c = len bs') as Hcl by (apply wrapu_small; unfold in_u; lia).
  rewrite Hcl in Hr |- *. destruct (read_block _ _ _ Hs Hl Hr) as [-> Hb]. simpl.
  rewrite to_usize_small by (by apply in_usize_len). simpl.
  unfold read_stream. rewrite Hb. simpl.
  destruct (Hd (new_stream bs') []) as (v' & -> & Hv').
  { eapply stream_ok_sub; [exact (proj2 (rest_advance_app s (uvarint (len bs')) (bs' ++ r) Hs
      ltac:(by rewrite Hr, app_assoc)))|].
    apply (rest_advance_app s (uvarint (len bs')) (bs' ++ r) Hs). by rewrite Hr, app_assoc. }
  { constructor. }
  { by rewrite rest_new, app_nil_r. }
  eexists. split; [done|done].
Qed.

(** ** The decoding loop as a step relation *)
Inductive dsteps (self : Decoder) (drec : Decode) (msg : MsgDef) :
    InputStream → Map → InputStream → Map → nat → Prop :=
| dsteps_nil s m : dsteps self drec msg s m s m 0
| dsteps_cons s m s1 m1 s2 m2 k :
    decode_one self drec s msg m = Ok (Some (s1, m1)) →
    dsteps self drec msg s1 m1 s2 m2 k → dsteps self drec msg s m s2 m2 (S k).

Lemma dsteps_trans self drec msg s m s1 m1 s2 m2 k1 k2 :
  dsteps self drec msg s m s1 m1 k1 → dsteps self drec msg s1 m1 s2 m2 k2 →
  dsteps self drec msg s m s2 m2 (k1 + k2).
Proof. induction 1; intros; simpl; [done|]. econstructor; eauto. Qed.

Lemma dsteps_loop self drec msg s m s' m' k fuel :
  dsteps self drec msg s m s' m' k → (k <= fuel)%nat →
  decode_fields_loop self drec fuel s msg m = decode_fields_loop self drec (fuel - k) s' msg m'.
Proof.
  intros Hd. revert fuel; induction Hd as [|? ? ? ? ? ? ? Hone _ IH]; intros fuel Hf.
  - by rewrite Nat.sub_0_r.
  - destruct fuel as [|fuel]; [lia|]. simpl. rewrite Hone. simpl. apply IH. lia.
Qed.

(** The key of a field splits into the tag and the primitive type. *)
Lemma key_split f t key :
  in_u 8 (tag f) → get_type f = Ok t → field_key f = Ok key →
  in_u 64 key ∧ to_u8 (Z.shiftr key 3) = Ok (tag f) ∧
  to_u8 (Z.land key 7) = Ok (primitive_type t).
Proof.
  intros Htag Ht. unfold field_key. rewrite Ht. simpl. intros [= <-].
  assert (0 <= primitive_type t < 8) as Hp.
  { destruct t; simpl; unfold PRIMITIVE_TYPE_VARINT, PRIMITIVE_TYPE_LENGTH_DELIMITED; lia. }
  assert (Z.lor (Z.shiftl (tag f) 3) (primitive_type t) = tag f * 8 + primitive_type t) as Hkey.
  { pose proof (Z.add_lor_land (Z.shiftl (tag f) 3) (primitive_type t)) as Hadd.
    rewrite Z.shiftl_mul_pow2 in Hadd |- * by lia. change (2 ^ 3) with 8 in *.
    assert (Z.land (tag f * 8) (primitive_type t) = 0); [|lia].
    change 8 with (2 ^ 3). rewrite <- Z.shiftl_mul_pow2 by lia.
    apply Z.bits_inj'. intros i Hi. rewrite Z.land_spec, Z.bits_0.
    destruct (Z.lt_ge_cases i 3).
    - by rewrite Z.shiftl_spec_low.
    - rewrite <- (Z.mod_small (primitive_type t) (2 ^ 3)) by (change (2 ^ 3) with 8; lia).
      rewrite Z.mod_pow2_bits_high by lia. apply andb_false_r. }
  rewrite Hkey. unfold in_u in *. split; [lia|].
  rewrite Z.shiftr_div_pow2 by lia. change 7 with (Z.ones 3). rewrite Z.land_ones by lia.
  change (2 ^ 3) with 8. unfold to_u8.
  rewrite Z.add_comm, Z.div_add, Z.mod_add, Z.div_small, Z.mod_small by lia.
  assert (fits_u 8 (0 + tag f) = true) as -> by (apply fits_u_spec; unfold in_u; lia).
  assert (fits_u 8 (primitive_type t) = true) as -> by (apply fits_u_spec; unfold in_u; lia).
  by rewrite Z.add_0_l.
Qed.

(** ** The fields of one message *)
Section Body.
Context (erec : Encode) (drec : Decode) (self : Decoder) (msg : MsgDef).
Context (Herec : encoder_ok erec) (Hexp : enable_experimental self = true).
Context (Hwf : msg_wf msg) (n : nat).
Context (valid : MsgDef → Prop).
Hypothesis sub_roundtrip : ∀ md v,
  valid md → sendable n md v → body_roundtrip erec drec md v.
Context (Hsub : ∀ f md, f ∈ fields msg → get_type f = Ok (TMsg md) → valid md).

Lemma value_roundtrip f t v :
  f ∈ fields msg → get_type f = Ok t → value_ok scalar_sendable (sendable n) t v →
  ∃ bs, enc erec f v = Ok bs ∧ decodes_to drec f v bs.
Proof.
  intros Hf Ht Hv. destruct t as [| | | | |vs|md]; try by eapply scalar_roundtrip.
  eapply message_roundtrip; [done|done|]. eapply sub_roundtrip; [by eapply Hsub|done].
Qed.

(** What the loop has done after reading the bytes [bs] of some fields:
    [post] holds of the old and the new map. *)
Definition reads (bs : list Z) (pre : Map → Prop) (post : Map → Map → Prop) : Prop :=
  ∀ s r m, stream_ok s → rest s = bs ++ r → pre m →
    ∃ m1 k, dsteps self drec msg s m (advance s (len bs)) m1 k ∧
      (k <= length bs)%nat ∧ post m m1.

Lemma reads_app bs1 bs2 pre post pre2 post2 (Q : Map → Map → Prop) :
  reads bs1 pre post → reads bs2 pre2 post2 →
  (∀ m m1, pre m → post m m1 → pre2 m1) →
  (∀ m m1 m2, pre m → post m m1 → post2 m1 m2 → Q m m2) →
  reads (bs1 ++ bs2) pre Q.
Proof.
  intros R1 R2 Hpre Hpost s r m Hs Hr Hm. rewrite <- app_assoc in Hr.
  destruct (R1 s _ m Hs Hr Hm) as (m1 & k1 & Hd1 & Hk1 & Hp1).
  destruct (rest_advance_app _ _ _ Hs Hr) as [Hr1 Hs1].
  destruct (R2 _ _ m1 Hs1 Hr1 (Hpre _ _ Hm Hp1)) as (m2 & k2 & Hd2 & Hk2 & Hp2).
  exists m2, (k1 + k2)%nat. rewrite length_app. split; [|split; [lia|eauto]].
  rewrite advance_advance in Hd2. replace (Z.of_nat (length bs1 + length bs2))
    with (len bs1 + len bs2) by lia. by eapply dsteps_trans.
Qed.

Lemma reads_nil pre : reads [] pre (λ m m1, m1 = m).
Proof.
  intros s r m Hs Hr Hm. exists m, 0%nat. simpl. rewrite advance_0.
  split; [constructor|]. split; [lia|done].
Qed.

(** One keyed value. *)
Lemma reads_keyed f t key v :
  f ∈ fields msg → get_type f = Ok t → field_key f = Ok key →
  value_ok scalar_sendable (sendable n) t v →
  ∃ bs, (∀ acc, encode_keyed (S:=list Z) erec key f acc v = Ok (acc ++ bs)) ∧
    reads bs (λ m, is_ok (assign_value m f v) = true)
      (λ m m1, ∃ v', obj_eq v v' ∧ assign_value m f v' = Ok m1).
Proof.
  intros Hf Ht Hkey Hv. destruct (value_roundtrip f t v Hf Ht Hv) as (bs & Henc & Hdec).
  pose proof (wf_tag_range _ Hwf) as Htag. rewrite Forall_forall in Htag.
  destruct (key_split f t key (Htag f Hf) Ht Hkey) as (Hk64 & Hk3 & Hk7).
  destruct (emits_field erec f v Herec [] bs Henc) as (bs' & -> & Hem). simpl in *.
  exists (uvarint key ++ bs'). split.
  - intros acc. unfold encode_keyed. rewrite write_uvarint_spec by done.
    rewrite write_bytes_list. simpl. rewrite app_assoc.
    apply (emits_list _ _ (acc ++ uvarint key) Hem).
  - intros s r m Hs Hr Hm. rewrite <- app_assoc in Hr.
    destruct (rest_advance_app _ _ _ Hs Hr) as [Hr1 Hs1].
    destruct (Hdec self _ _ Hexp Hs1 Hr1) as (v' & Hd & Hv').
    assert (∃ m1, assign_value m f v' = Ok m1) as [m1 Hm1].
    { unfold assign_value in *. repeat case_match; simpl in *; try done; eauto. }
    exists m1, 1%nat. split; [|split; [|by exists v']].
    + econstructor; [|constructor]. unfold decode_one.
      rewrite (read_uvarint_uvarint _ _ _ Hs Hr) by done. simpl. rewrite Hk3. simpl.
      rewrite Hk7. simpl. rewrite (field_tag _ _ Hwf Hf), Hd. simpl. rewrite Hm1. simpl.
      rewrite advance_advance, length_app. do 4 f_equal. lia.
    + rewrite length_app. pose proof (uvarint_nonempty key). lia.
Qed.

Definition same_except (k : Qstr) (m m1 : Map) : Prop :=
  ∀ k', k' ≠ k → mp_map_lookup m1 k' = mp_map_lookup m k'.

(** The list of a repeated field while it grows. *)
Definition stored (l : list Obj) : option Obj :=
  match l with [] => None | _ => Some (OList l) end.

Lemma assign_repeated m f l v :
  is_repeated f = true → mp_map_lookup m (name f) = stored l →
  assign_value m f v = Ok (map_set m (name f) (OList (l ++ [v]))).
Proof.
  intros Hrep Hl. unfold assign_value, map_get. rewrite Hrep, Hl. by destruct l.
Qed.

Lemma reads_repeated f t key l :
  f ∈ fields msg → get_type f = Ok t → field_key f = Ok key → is_repeated f = true →
  Forall (value_ok scalar_sendable (sendable n) t) l →
  ∃ bs, (∀ acc, foldM (encode_keyed (S:=list Z) erec key f) acc l = Ok (acc ++ bs)) ∧
    ∀ l0, reads bs (λ m, mp_map_lookup m (name f) = stored l0)
      (λ m m1, same_except (name f) m m1 ∧
         ∃ l', Forall2 obj_eq l l' ∧ mp_map_lookup m1 (name f) = stored (l0 ++ l')).
Proof.
  intros Hf Ht Hkey Hrep. induction 1 as [|v l Hv _ (bs & Henc & Hrd)].
  - exists []. split; [intros; by rewrite app_nil_r|]. intros l0 s r m Hs Hr Hm.
    destruct (reads_nil (λ _, True) s r m Hs Hr I) as (m1 & k & Hd & Hk & ->).
    exists m, k. split; [done|]. split; [done|]. split; [by intros|].
    exists []. rewrite app_nil_r. split; [constructor|done].
  - destruct (reads_keyed f t key v Hf Ht Hkey Hv) as (bv & Hev & Hrv).
    exists (bv ++ bs). split.
    { intros acc. simpl. rewrite Hev. simpl. rewrite Henc. by rewrite app_assoc. }
    intros l0 s r m Hs Hr Hm. rewrite <- app_assoc in Hr.
    destruct (Hrv s _ m Hs Hr) as (m1 & k1 & Hd1 & Hk1 & v' & Hv' & Hm1).
    { by rewrite (assign_repeated _ _ _ _ Hrep Hm). }
    rewrite (assign_repeated _ _ _ _ Hrep Hm) in Hm1. injection Hm1 as <-.
    destruct (rest_advance_app _ _ _ Hs Hr) as [Hr1 Hs1].
    destruct (Hrd (l0 ++ [v']) _ _ (map_set m (name f) (OList (l0 ++ [v']))) Hs1 Hr1)
      as (m2 & k2 & Hd2 & Hk2 & Hsame & l' & Hl' & Hm2).
    { rewrite map_set_same. by destruct l0. }
    exists m2, (k1 + k2)%nat. rewrite length_app. rewrite advance_advance in Hd2.
    replace (Z.of_nat (length bv + length bs)) with (len bv + len bs) by lia.
    split; [by eapply dsteps_trans|]. split; [lia|]. split.
    + intros k' Hk'. rewrite Hsame by done. by apply map_set_other.
    + exists (v' :: l'). split; [by constructor|]. by rewrite <- app_assoc in Hm2.
Qed.

(** What the map holds of a field once its bytes have been read. *)
Definition field_out (f : FieldDef) (v : Obj) (o : option Obj) : Prop :=
  match v with
  | ONone => o = None
  | _ =>
    if is_repeated f
    then ∃ l l', v = OList l ∧ Forall2 obj_eq l l' ∧ o = stored l'
    else ∃ v', obj_eq v v' ∧ o = Some v'
  end.

Lemma field_out_some f v o :
  v ≠ ONone →
  (if is_repeated f then ∃ l l', v = OList l ∧ Forall2 obj_eq l l' ∧ o = stored l'
   else ∃ v', obj_eq v v' ∧ o = Some v') → field_out f v o.
Proof. by destruct v. Qed.

Lemma encode_one_some m f v key acc :
  mp_map_lookup m (name f) = Some v → v ≠ ONone → field_key f = Ok key →
  encode_one (S:=list Z) erec m acc f =
  if is_repeated f then values ← try_iterate v; foldM (encode_keyed erec key f) acc values
  else encode_keyed erec key f acc v.
Proof. intros Hl Hv Hk. unfold encode_one, map_get. rewrite Hl, Hk. by destruct v. Qed.

Lemma reads_field m f t v :
  f ∈ fields msg → get_type f = Ok t → mp_map_lookup m (name f) = Some v →
  (v = ONone ∨ v ≠ ONone ∧ field_ok scalar_sendable (sendable n) t f v) →
  ∃ bs, (∀ acc, encode_one (S:=list Z) erec m acc f = Ok (acc ++ bs)) ∧
    reads bs (λ m0, mp_map_lookup m0 (name f) = None)
      (λ m0 m1, same_except (name f) m0 m1 ∧ field_out f v (mp_map_lookup m1 (name f))).
Proof.
  intros Hf Ht Hl Hv. destruct Hv as [->|[Hne Hok]].
  { exists []. split.
    - intros acc. unfold encode_one, map_get. rewrite Hl. by rewrite app_nil_r.
    - intros s r m0 Hs Hr Hm0.
      destruct (reads_nil (λ _, True) s r m0 Hs Hr I) as (m1 & k & Hd & Hk & ->).
      exists m0, k. by split_and!. }
  assert (field_key f = Ok (Z.lor (Z.shiftl (tag f) 3) (primitive_type t))) as Hkey.
  { unfold field_key. by rewrite Ht. }
  unfold field_ok in Hok. destruct (is_repeated f) eqn:Hrep.
  - destruct Hok as (l & -> & HF).
    destruct (reads_repeated f t _ l Hf Ht Hkey Hrep HF) as (bs & Henc & Hrd).
    exists bs. split.
    + intros acc. rewrite (encode_one_some _ _ _ _ _ Hl Hne Hkey), Hrep.
      unfold try_iterate. rewrite mp_iterate_list. apply Henc.
    + intros s r m0 Hs Hr Hm0.
      destruct (Hrd [] s r m0 Hs Hr Hm0) as (m1 & k & Hd & Hk & Hsame & l' & Hl' & Hm1).
      exists m1, k. split_and!; [done..|]. apply field_out_some; [done|]. rewrite Hrep. eauto.
  - destruct (reads_keyed f t _ v Hf Ht Hkey Hok) as (bs & Henc & Hrd). exists bs. split.
    + intros acc. rewrite (encode_one_some _ _ _ _ _ Hl Hne Hkey), Hrep. apply Henc.
    + intros s r m0 Hs Hr Hm0.
      assert (∀ v', assign_value m0 f v' = Ok (map_set m0 (name f) v')) as Hassign.
      { intros v'. unfold assign_value. by rewrite Hrep. }
      destruct (Hrd s r m0 Hs Hr) as (m1 & k & Hd & Hk & v' & Hv' & Hm1);
        [by rewrite Hassign|].
      rewrite Hassign in Hm1. injection Hm1 as <-. eexists _, k. split_and!; [done..| |].
      * intros k' Hk'. by apply map_set_other.
      * apply field_out_some; [done|]. rewrite Hrep, map_set_same. eauto.
Qed.

(** Some of the fields, in order. *)
Lemma reads_fields m fs :
  NoDup (name <$> fs) → (∀ f, f ∈ fs → f ∈ fields msg) →
  (∀ f, f ∈ fs → ∃ t v, get_type f = Ok t ∧ mp_map_lookup m (name f) = Some v ∧
     (v = ONone ∨ v ≠ ONone ∧ field_ok scalar_sendable (sendable n) t f v)) →
  ∃ bs, (∀ acc, foldM (encode_one (S:=list Z) erec m) acc fs = Ok (acc ++ bs)) ∧
    reads bs (λ m0, ∀ f, f ∈ fs → mp_map_lookup m0 (name f) = None)
      (λ m0 m1, (∀ k, k ∉ name <$> fs → mp_map_lookup m1 k = mp_map_lookup m0 k) ∧
         ∀ f, f ∈ fs → ∃ v, mp_map_lookup m (name f) = Some v ∧
           field_out f v (mp_map_lookup m1 (name f))).
Proof.
  induction fs as [|f fs IH]; intros Hnd Hin Hall.
  - exists []. split; [intros; by rewrite app_nil_r|]. intros s r m0 Hs Hr _.
    destruct (reads_nil (λ _, True) s r m0 Hs Hr I) as (m1 & k & Hd & Hk & ->).
    exists m0, k. split_and!; [done..|]. intros f Hf. by apply elem_of_nil in Hf.
  - rewrite fmap_cons in Hnd. apply NoDup_cons in Hnd as [Hnin Hnd].
    destruct (Hall f ltac:(by left)) as (t & v & Ht & Hl & Hv).
    destruct (reads_field m f t v (Hin f ltac:(by left)) Ht Hl Hv) as (b1 & He1 & Hr1).
    destruct IH as (b2 & He2 & Hr2); [done|intros; apply Hin; by right
      |intros; apply Hall; by right|].
    exists (b1 ++ b2). split.
    { intros acc. simpl. rewrite He1. simpl. by rewrite He2, app_assoc. }
    intros s r m0 Hs Hr Hm0. revert s r m0 Hs Hr Hm0.
    eapply reads_app.
    + intros s r m0 Hs Hr Hm0. apply (Hr1 s r m0 Hs Hr). exact (Hm0 f ltac:(by left)).
    + exact Hr2.
    + intros m0 m1 Hm0 [Hsame _] f' Hf'. rewrite Hsame; [apply Hm0; by right|].
      intros Heq. apply Hnin. rewrite <- Heq. by apply list_elem_of_fmap_2.
    + intros m0 m1 m2 _ [Hsame Hout] [Hsame2 Hout2]. split.
      * intros k Hk. rewrite fmap_cons, not_elem_of_cons in Hk. destruct Hk as [Hk1 Hk2].
        rewrite Hsame2 by done. by apply Hsame.
      * intros f' [->|Hf']%elem_of_cons; [|by apply Hout2].
        exists v. split; [done|]. by rewrite Hsame2.
Qed.
End Body.

(** ** After the loop: defaults are skipped, missing fields filled in *)

Lemma defaults_loop_skip self drec msg ds fs :
  default_entries msg ds fs → ∀ fuel s m,
  (length ds < fuel)%nat → stream_ok s → rest s = ds →
  (∀ f, f ∈ fs → contains_key m (name f) = true) →
  decode_defaults_loop self drec fuel s msg m = Ok m.
Proof.
  induction 1 as [|f t bs v ds fs Hf Hrep Ht Hv Hds IH];
    intros [|fuel] s m Hfuel Hs Hr Hall; try (simpl in Hfuel; lia); simpl.
  - unfold default_one. by rewrite (read_byte_nil _ Hs Hr).
  - rewrite (default_one_entry _ _ _ _ _ _ _ _ _ _ Hf Ht Hv Hs Hr), Hall by set_solver. simpl.
    apply (rest_advance_app s (tag f :: bs) ds Hs) in Hr as [Hr Hs'].
    simpl length in *. rewrite length_app in Hfuel.
    replace (Z.of_nat (S (length bs))) with (1 + len bs) in * by lia.
    apply IH; [lia|done|done|set_solver].
Qed.

(** [assign_required_into] on a map with every required field. *)
Lemma assign_required_fills fs m :
  NoDup (name <$> fs) →
  (∀ f, f ∈ fs → mp_map_lookup m (name f) = None → is_required f = false) →
  ∃ m', foldM assign_one m fs = Ok m' ∧
    (∀ k, k ∉ name <$> fs → mp_map_lookup m' k = mp_map_lookup m k) ∧
    ∀ f, f ∈ fs → mp_map_lookup m' (name f) =
      match mp_map_lookup m (name f) with
      | Some v => Some v
      | None => Some (if is_repeated f then OList [] else ONone)
      end.
Proof.
  revert m; induction fs as [|f fs IH]; intros m Hnd Hreq.
  { exists m. split_and!; [done..|]. intros f Hf. by apply elem_of_nil in Hf. }
  rewrite fmap_cons in Hnd. apply NoDup_cons in Hnd as [Hnin Hnd].
  assert (∃ m1, assign_one m f = Ok m1 ∧ same_except (name f) m m1 ∧
    mp_map_lookup m1 (name f) =
      match mp_map_lookup m (name f) with
      | Some v => Some v | None => Some (if is_repeated f then OList [] else ONone) end)
    as (m1 & H1 & Hsame & Hf).
  { unfold assign_one. destruct (contains_key m (name f)) eqn:Hc.
    - apply contains_key_spec in Hc as [v Hv]. exists m. rewrite Hv. by split_and!.
    - apply contains_key_false in Hc. rewrite Hc, (Hreq f ltac:(by left) Hc).
      destruct (is_repeated f); eexists; (split_and!; [done| |by apply map_set_same]);
        intros k' Hk'; by apply map_set_other. }
  cbn [foldM]. rewrite H1. cbn [mbind outcome_bind].
  assert (∀ f', f' ∈ fs → name f' ≠ name f) as Hne.
  { intros f' Hf' Heq. apply Hnin. rewrite <- Heq. by apply list_elem_of_fmap_2. }
  destruct (IH m1 Hnd) as (m' & -> & Hother & Hall).
  { intros f' Hf'. rewrite Hsame by by apply Hne. apply Hreq. by right. }
  exists m'. split; [done|]. split.
  - intros k Hk. rewrite fmap_cons, not_elem_of_cons in Hk. destruct Hk as [Hk1 Hk2].
    rewrite Hother by done. by apply Hsame.
  - intros f' [->|Hf']%elem_of_cons; [by rewrite Hother|].
    rewrite Hall by done. by rewrite Hsame by by apply Hne.
Qed.

Lemma finish_fills self drec msg m m1 :
  msg_wf msg →
  (∀ f, f ∈ fields msg → ∃ v, mp_map_lookup m (name f) = Some v ∧
     (v = ONone ∧ unset_ok msg f ∨ v ≠ ONone) ∧ field_out f v (mp_map_lookup m1 (name f))) →
  (∀ k v, mp_map_lookup m k = Some v → k ∈ name <$> fields msg) →
  (∀ k, k ∉ name <$> fields msg → mp_map_lookup m1 k = None) →
  ∃ o, finish self drec msg m1 = Ok o ∧ obj_eq (msg_obj msg m) o.
Proof.
  intros Hwf Hall Hkeys Hother. unfold finish, decode_defaults_into.
  destruct (wf_defaults _ Hwf) as [fs Hfs]. pose proof (wf_default_length _ Hwf).
  pose proof (wf_labels _ Hwf) as Hlab. rewrite Forall_forall in Hlab.
  rewrite (defaults_loop_skip self drec msg _ fs Hfs); [|lia|by apply new_stream_ok|apply rest_new|].
  - simpl. destruct (assign_required_fills (fields msg) m1) as (m2 & Hm2 & Hrest & Hin).
    + apply Hwf.
    + intros f Hf Hn. destruct (Hall f Hf) as (v & _ & Hv & Hout).
      destruct Hv as [[-> [[Hreq _] _]]|Hv]; [done|].
      destruct (is_repeated f) eqn:Hrep; [by apply Hlab|].
      exfalso. unfold field_out in Hout. rewrite Hrep, Hn in Hout.
      destruct v; try done; by destruct Hout as (? & _ & ?).
    + unfold assign_required_into. rewrite Hm2. simpl. eexists. split; [done|].
      constructor. intros k. destruct (decide (k ∈ name <$> fields msg)) as [Hk|Hk].
      * apply list_elem_of_fmap in Hk as (f & -> & Hf).
        destruct (Hall f Hf) as (v & -> & Hv & Hout). rewrite Hin by done.
        destruct Hv as [[-> [[_ Hrep] _]]|Hv].
        { simpl in Hout. rewrite Hout, Hrep. repeat constructor. }
        assert (∃ o, match mp_map_lookup m1 (name f) with
                     | Some v => Some v
                     | None => Some (if is_repeated f then OList [] else ONone)
                     end = Some o ∧ obj_eq v o) as (o & -> & Ho); [|by constructor].
        unfold field_out in Hout. destruct (is_repeated f).
        -- assert (∃ l l', v = OList l ∧ Forall2 obj_eq l l' ∧
                   mp_map_lookup m1 (name f) = stored l') as (l & l' & -> & HF & ->)
             by by destruct v.
           destruct l' as [|o' l']; eexists; (split; [done|]); by constructor.
        -- assert (∃ v', obj_eq v v' ∧ mp_map_lookup m1 (name f) = Some v')
             as (v' & Hv' & ->) by by destruct v. eauto.
      * rewrite Hrest, Hother by done.
        destruct (mp_map_lookup m k) as [v|] eqn:Hk'; [by apply Hkeys in Hk'|constructor].
  - intros f Hf. apply contains_key_spec.
    assert (f ∈ fields msg ∧ is_repeated f = false) as [Hf' Hrep].
    { clear -Hfs Hf. induction Hfs as [|f' t bs v ds fs Hf' Hrep _ _ _ IH]; [set_solver|].
      apply elem_of_cons in Hf as [->|Hf]; [|by apply IH].
      apply field_Some in Hf' as [? _]. done. }
    destruct (Hall f Hf') as (v & _ & Hv & Hout).
    destruct Hv as [[_ [_ Hnd]]|Hv]; [by destruct (Hnd _ Hfs)|].
    unfold field_out in Hout. rewrite Hrep in Hout.
    destruct v; try done; destruct Hout as (? & _ & ->); eauto.
Qed.

Lemma body_roundtrip_all valid n self msg o :
  db_wf valid → valid msg → enable_experimental self = true → sendable n msg o →
  body_roundtrip (encode_message n) (message_from_stream n self) msg o.
Proof.
  intros Hdb. revert msg o; induction n as [|n IH]; intros msg o Hval Hexp; [done|].
  intros (m & -> & Hall & Hkeys). destruct (Hdb _ Hval) as [Hwf Hsub].
  destruct (reads_fields (encode_message n) (message_from_stream n self) self msg
    (encode_message_ok n) Hexp Hwf n valid ltac:(intros; by apply IH) Hsub m (fields msg))
    as (bs & Henc & Hrd).
  { apply Hwf. }
  { done. }
  { intros f Hf. destruct (Hall f Hf) as (t & v & ? & ? & ?). exists t, v. naive_solver. }
  eexists _, _, m, bs. split; [done|]. split; [apply Henc|].
  intros s tail Hs Htail Hr. simpl.
  destruct (Hrd s tail [] Hs Hr) as (m1 & k & Hd & Hk & Hother & Hout).
  { intros. apply mp_map_lookup_nil. }
  destruct (rest_advance_app _ _ _ Hs Hr) as [Hr1 Hs1].
  unfold decode_fields_into, empty_message.
  rewrite (dsteps_loop _ _ _ _ _ _ _ _ _ Hd) by (rewrite Hr, length_app; lia).
  assert (∃ j, S (length (rest s)) - k = S j)%nat as [j ->].
  { exists (length (rest s) - k)%nat. rewrite Hr, length_app. lia. }
  simpl. unfold decode_one at 1. rewrite (read_truncated tail) by done.
  simpl. apply finish_fills; [done| |done|].
  - intros f Hf. destruct (Hout f Hf) as (v & Hv & Hf1).
    destruct (Hall f Hf) as (t & v' & _ & Hv' & Hcase). rewrite Hv in Hv'. injection Hv' as <-.
    exists v. naive_solver.
  - intros k' Hk'. rewrite Hother by done. apply mp_map_lookup_nil.
Qed.
End Roundtrip.
