(* ===== verification/ProtoSpec.v ===== *)
(** * What the protobuf layer promises

    The properties of [src/core/embed/rust/src/protobuf] as theorems about the
    translated entry points, with a sample set of definition blobs on which
    the witnesses run. *)
From S2P Require Import Prelude Obj Io Varint ProtoDefs ProtoEncode ProtoDecode ProtoTyping ProtoRoundtrip.
Local Open Scope Z_scope.

(** ** Sample definitions

    A message with a required integer, repeated bytes, a signed integer, an
    enum with a default, and repeated submessages; and the submessage. *)
Definition sample_blobs : ProtoBlobs := {|
  ENUM_DEFS := [2; 0; 0; 1; 0];
  MSG_DEFS :=
    [5; 2; 5; 0;
     1; 0x80; 0; 0; 10; 0;
     2; 0x43; 0; 0; 11; 0;
     3; 0x01; 0; 0; 12; 0;
     4; 0x05; 0; 0; 13; 0;
     5; 0x46; 36; 0; 14; 0;
     4; 1;
     1; 0; 0xFF; 0x7F;
     1; 0x04; 0; 0; 15; 0];
  NAME_DEFS := [20; 0; 0; 0; 21; 0; 36; 0];
  WIRE_DEFS := [5; 0; 0; 0];
|}.

Definition sample_db : MsgDb := @blob_db sample_blobs.

Definition sample_sub : MsgDef :=
  mkMsg [mkField 1 0x04 0 15] [] false None 36.
Definition sample_msg : MsgDef :=
  mkMsg [mkField 1 0x80 0 10; mkField 2 0x43 0 11; mkField 3 0x01 0 12;
         mkField 4 0x05 0 13; mkField 5 0x46 36 14] [4; 1] false (Some 5) 0.

Example sample_get_msg : @get_msg sample_db 0 = Ok sample_msg.
Proof. reflexivity. Qed.
Example sample_get_sub : @get_msg sample_db 36 = Ok sample_sub.
Proof. reflexivity. Qed.

Definition sample_valid (msg : MsgDef) : Prop := msg = sample_msg ∨ msg = sample_sub.

Definition sample_obj : Obj :=
  OMsg (Some 5) 0
    [(10, OInt 300); (11, OList [OBytes [1; 2]; OBytes []]); (12, OInt (-7)); (13, OInt 0);
     (14, OList [OMsg None 36 [(15, OStr [72; 105])]; OMsg None 36 [(15, ONone)]])].

(** Decides a closed decidable proposition by evaluation. *)
Ltac decide_closed := apply (bool_decide_unpack _); vm_compute; exact I.

Lemma sample_defaults :
  @default_entries sample_db sample_msg [4; 1] [mkField 4 0x05 0 13].
Proof.
  apply (@defaults_cons sample_db sample_msg (mkField 4 0x05 0 13) (TEnum [0; 1])
           (uvarint 1) (OInt 1) [] []); try reflexivity.
  - constructor; [unfold in_u; lia|set_solver].
  - constructor.
Qed.

Lemma sample_db_wf : @db_wf sample_db sample_valid.
Proof.
  intros msg [-> | ->]; split.
  - split; try decide_closed. eexists. apply sample_defaults.
  - intros f md Hf Ht. simpl in Hf. rewrite !elem_of_cons in Hf.
    destruct_or! Hf; try (subst; by vm_compute in Ht); [|by apply elem_of_nil in Hf].
    subst. vm_compute in Ht. injection Ht as <-. right. reflexivity.
  - split; try decide_closed. exists []. constructor.
  - intros f md Hf Ht. simpl in Hf. apply list_elem_of_singleton in Hf. subst.
    by vm_compute in Ht.
Qed.

(** A field of a concrete object is set, by evaluation of its type and value. *)
Ltac set_to t v :=
  exists t, v; split; [vm_compute; reflexivity|];
  split; [vm_compute; reflexivity|]; right; split; [discriminate|].

Lemma sample_sub_sendable bs :
  len bs < 2 ^ 31 → utf8_valid bs = true →
  @msg_ok sample_db assoc_python scalar_sendable (@unset_ok sample_db) 1 sample_sub
    (OMsg None 36 [(15, OStr bs)]).
Proof.
  intros Hl Hu. exists [(15, OStr bs)]. split; [reflexivity|]. split.
  - intros f Hf. apply list_elem_of_singleton in Hf as ->. by set_to TString (OStr bs).
  - intros k v. simpl. case_decide; [|done]. intros _. subst. by left.
Qed.

Lemma sample_sub_unset :
  @msg_ok sample_db assoc_python scalar_sendable (@unset_ok sample_db) 1 sample_sub
    (OMsg None 36 [(15, ONone)]).
Proof.
  exists [(15, ONone)]. split; [reflexivity|]. split.
  - intros f Hf. apply list_elem_of_singleton in Hf as ->. exists TString, ONone.
    split; [reflexivity|]. split; [reflexivity|]. left. split; [done|]. split; [done|].
    intros fs Hfs. inversion Hfs. apply not_elem_of_nil.
  - intros k v. simpl. case_decide; [|done]. intros _. subst. by left.
Qed.

Lemma sample_sendable :
  @msg_ok sample_db assoc_python scalar_sendable
    (@unset_ok sample_db) 2 sample_msg sample_obj.
Proof.
  eexists. split; [reflexivity|]. split.
  - intros f Hf. simpl in Hf. rewrite !elem_of_cons in Hf.
    destruct Hf as [->|[->|[->|[->|[->|Hf]]]]]; [| | | | |by apply elem_of_nil in Hf].
    + set_to UVarInt (OInt 300). change (0 <= 300 < 2 ^ 63). lia.
    + set_to TBytes (OList [OBytes [1; 2]; OBytes []]). eexists. split; [reflexivity|].
      repeat constructor.
    + set_to SVarInt (OInt (-7)). change (- 2 ^ 63 < -7 < 2 ^ 63). lia.
    + set_to (TEnum [0; 1]) (OInt 0). change (0 ∈ [0; 1] ∧ 0 <= 0 < 2 ^ 16).
      split; [by left|lia].
    + set_to (TMsg sample_sub)
        (OList [OMsg None 36 [(15, OStr [72; 105])]; OMsg None 36 [(15, ONone)]]).
      eexists. split; [reflexivity|]. repeat apply Forall_cons_2; [| |done].
      * by apply sample_sub_sendable.
      * exact sample_sub_unset.
  - intros k v Hk. simpl in Hk. repeat case_decide; subst; try done; decide_closed.
Qed.

(** C1. Whatever complete, representable object is encoded, the encoder
    succeeds; [encoded_length] announces the exact number of bytes, [encode]
    writes them at the start of any buffer that is long enough and returns
    their number, and [decode] of these bytes returns the same object. *)
Theorem protobuf_roundtrip `{MsgDb} `{MicroPython} valid n def m :
  db_wf valid → valid def → get_msg (offset def) = Ok def →
  msg_ok scalar_sendable unset_ok n def (msg_obj def m) →
  ∃ bs, encode_message n (list Z) _ [] def m = Ok bs ∧
    (len bs < 2 ^ 31 →
     protobuf_len n (msg_obj def m) = Ok (OInt (len bs)) ∧
     (∀ buffer, len bs <= len buffer < 2 ^ 31 →
        protobuf_encode n buffer (msg_obj def m)
        = Ok (OInt (len bs), bs ++ drop (length bs) buffer)) ∧
     ∃ o, protobuf_decode n (OBytes bs) def true = Ok o ∧ obj_eq (msg_obj def m) o).
Proof.
  intros Hdb Hval Hget Hok.
  destruct (body_roundtrip_all valid n (mkDecoder true) def _ Hdb Hval eq_refl Hok)
    as (w & off & m' & bs & [= _ _ <-] & Henc & Hdec).
  exists bs. split; [done|]. intros Hl. pose proof (encode_message_emits _ _ _ _ Henc) as Hem.
  split_and!.
  - simpl. rewrite Hget. simpl.
    pose proof (emits_counter _ _ Hem) as Hc. simpl in Hc. rewrite Hc. simpl.
    rewrite wrapu_small by (unfold in_u; lia). done.
  - intros buffer Hb. simpl. rewrite Hget. simpl.
    pose proof (emits_buffer _ _ buffer Hem) as Hc. simpl in Hc. rewrite Hc by lia. simpl.
    destruct (Z.leb_spec (len bs) (len buffer)); [done|lia].
  - unfold protobuf_decode. simpl.
    apply (Hdec (new_stream bs) []); [by apply new_stream_ok|constructor|].
    by rewrite rest_new, app_nil_r.
Qed.

Lemma protobuf_roundtrip_witness :
  ∃ bs, @encode_message sample_db assoc_python 2 (list Z) _ [] sample_msg
          (match sample_obj with OMsg _ _ m => m | _ => [] end) = Ok bs ∧
    (len bs < 2 ^ 31 →
     @protobuf_len sample_db assoc_python 2 sample_obj = Ok (OInt (len bs)) ∧
     (∀ buffer, len bs <= len buffer < 2 ^ 31 →
        @protobuf_encode sample_db assoc_python 2 buffer sample_obj
        = Ok (OInt (len bs), bs ++ drop (length bs) buffer)) ∧
     ∃ o, @protobuf_decode sample_db assoc_python 2 (OBytes bs) sample_msg true = Ok o ∧
       @obj_eq assoc_python sample_obj o).
Proof.
  apply (@protobuf_roundtrip sample_db assoc_python sample_valid 2 sample_msg).
  - exact sample_db_wf.
  - left. reflexivity.
  - reflexivity.
  - exact sample_sendable.
Defined.

(** C2. Decoding ends on every input: with one unit of nesting fuel more than
    there are bytes, [decode] returns an object or an error for any bytes and
    any well-formed definition; it neither aborts, nor reads outside its
    buffers, nor loops. *)
Theorem protobuf_decode_total `{MsgDb} `{MicroPython} valid n def b experimental :
  db_wf valid → valid def → len b < 2 ^ 31 → (length b < n)%nat →
  safe (protobuf_decode n (OBytes b) def experimental).
Proof.
  intros Hdb Hval Hl Hn. unfold protobuf_decode. case_match; [done|]. simpl.
  eapply message_from_stream_safe; [done|done|by apply new_stream_ok|by rewrite rest_new].
Qed.

Lemma protobuf_decode_total_witness :
  safe (@protobuf_decode sample_db assoc_python 6 (OBytes [42; 3; 10; 9; 1]) sample_msg true).
Proof.
  apply (@protobuf_decode_total sample_db assoc_python sample_valid).
  - exact sample_db_wf.
  - left. reflexivity.
  - reflexivity.
  - simpl. lia.
Defined.

(** C3. A decoded object is complete and well typed: every field of the
    definition is assigned and nothing else is, required fields are present,
    a repeated field is a list, integers are in range, enum values are members
    of their enum, strings are valid UTF-8, and submessages are objects of
    their own definitions. *)
Theorem protobuf_decode_typed `{MsgDb} `{MicroPython} valid n def b experimental o :
  db_wf valid → valid def → len b < 2 ^ 31 →
  protobuf_decode n (OBytes b) def experimental = Ok o →
  msg_ok scalar_typed optional n def o.
Proof.
  intros Hdb Hval Hl. unfold protobuf_decode. case_match; [done|]. simpl.
  apply message_from_stream_typed with (valid := valid); [done|done|by apply new_stream_ok].
Qed.

Lemma protobuf_decode_typed_witness :
  @msg_ok sample_db assoc_python scalar_typed optional 3 sample_msg
    (OMsg (Some 5) 0 [(10, OInt 9); (13, OInt 1); (11, OList []); (12, ONone); (14, OList [])]).
Proof.
  apply (@protobuf_decode_typed sample_db assoc_python sample_valid 3 sample_msg [8; 9] false).
  - exact sample_db_wf.
  - left. reflexivity.
  - reflexivity.
  - vm_compute. reflexivity.
Defined.

(** The loop over the fields ends when no key can be read, and a key that
    is cut off counts as none: bytes that only start a number may follow an
    encoded message, and decoding ignores them. *)
Theorem protobuf_decode_truncated_key `{MsgDb} `{MicroPython} valid n def m bs tail :
  db_wf valid → valid def →
  msg_ok scalar_sendable unset_ok n def (msg_obj def m) →
  encode_message n (list Z) _ [] def m = Ok bs →
  len (bs ++ tail) < 2 ^ 31 → Forall (λ b, Z.land b 128 ≠ 0) tail →
  ∃ o, protobuf_decode n (OBytes (bs ++ tail)) def true = Ok o ∧ obj_eq (msg_obj def m) o.
Proof.
  intros Hdb Hval Hok Henc Hl Htail.
  destruct (body_roundtrip_all valid n (mkDecoder true) def _ Hdb Hval eq_refl Hok)
    as (w & off & m' & bs' & [= _ _ <-] & Henc' & Hdec).
  rewrite Henc in Henc'. injection Henc' as <-.
  apply (Hdec (new_stream (bs ++ tail)) tail); [by apply new_stream_ok|done|apply rest_new].
Qed.

Lemma protobuf_decode_truncated_key_witness :
  ∃ o, @protobuf_decode sample_db assoc_python 2 (OBytes ([10; 2; 72; 105] ++ [0x8A])) sample_sub true
       = Ok o ∧ @obj_eq assoc_python (OMsg None 36 [(15, OStr [72; 105])]) o.
Proof.
  apply (@protobuf_decode_truncated_key sample_db assoc_python sample_valid 2 sample_sub
           [(15, OStr [72; 105])]).
  - exact sample_db_wf.
  - right. reflexivity.
  - eexists. split; [reflexivity|]. split.
    + intros f Hf. apply list_elem_of_singleton in Hf. subst.
      eexists _, _. split; [reflexivity|]. split; [reflexivity|]. right.
      split; [discriminate|]. split; reflexivity.
    + intros k v. simpl. case_decide; [intros; subst; set_solver|discriminate].
  - vm_compute. reflexivity.
  - reflexivity.
  - constructor; [vm_compute; discriminate|constructor].
Defined.

(** C4. The three output streams agree: when encoding to a growing list
    succeeds with some bytes, [encoded_length] returns their number reduced
    to [usize], and [encode] writes exactly them at the start of the caller's
    buffer and returns their number, or reports [end_of_buffer] when the
    buffer is too short. *)
Theorem protobuf_streams_agree `{MsgDb} `{MicroPython} n w off def m bs buffer :
  get_msg off = Ok def → encode_message n (list Z) _ [] def m = Ok bs →
  len bs < 2 ^ 31 → len buffer < 2 ^ 31 →
  protobuf_len n (OMsg w off m) = Ok (OInt (len bs)) ∧
  protobuf_encode n buffer (OMsg w off m) =
    if len bs <=? len buffer then Ok (OInt (len bs), bs ++ drop (length bs) buffer)
    else Err end_of_buffer.
Proof.
  intros Hget Henc Hl Hb. pose proof (encode_message_emits _ _ _ _ Henc) as Hem.
  unfold protobuf_len, protobuf_encode. rewrite Hget. simpl.
  pose proof (emits_counter _ _ Hem) as Hc. pose proof (emits_buffer _ _ buffer Hem Hb Hl) as Hw.
  simpl in Hc, Hw. rewrite Hc, Hw. simpl.
  rewrite wrapu_small by (unfold in_u; lia). split; [done|]. by case_match.
Qed.

Lemma protobuf_streams_agree_witness :
  @protobuf_len sample_db assoc_python 1 (OMsg None 36 [(15, OStr [72; 105])]) = Ok (OInt 4) ∧
  @protobuf_encode sample_db assoc_python 1 [0; 0; 0] (OMsg None 36 [(15, OStr [72; 105])])
  = Err end_of_buffer.
Proof.
  apply (@protobuf_streams_agree sample_db assoc_python 1 None 36 sample_sub
           [(15, OStr [72; 105])] [10; 2; 72; 105] [0; 0; 0]);
    vm_compute; reflexivity.
Defined.

(** Zigzag coding is a bijection between the signed and the unsigned
    64-bit integers: each conversion inverts the other, within range, although
    both are computed with wrapping shifts and exclusive-or. *)
Theorem zigzag_bijection z n :
  in_s 64 z → in_u 64 n →
  in_u 64 (to_unsigned z) ∧ to_signed (to_unsigned z) = z ∧
  in_s 64 (to_signed n) ∧ to_unsigned (to_signed n) = n.
Proof.
  intros. split_and!.
  - by apply to_unsigned_range.
  - by apply to_signed_unsigned.
  - by apply to_signed_range.
  - by apply to_unsigned_signed.
Qed.

Lemma zigzag_bijection_witness :
  in_u 64 (to_unsigned (- 2 ^ 63)) ∧ to_signed (to_unsigned (- 2 ^ 63)) = - 2 ^ 63 ∧
  in_s 64 (to_signed 7) ∧ to_unsigned (to_signed 7) = 7.
Proof. apply (zigzag_bijection (- 2 ^ 63) 7); unfold in_s, in_u; lia. Defined.

(** Variable-length integers: writing a 64-bit integer takes between one
    and ten bytes, and reading from a stream that continues with these bytes
    returns the integer and consumes exactly them. *)
Theorem uvarint_roundtrip n s bs r :
  in_u 64 n → write_uvarint (S:=list Z) [] n = Ok bs → stream_ok s → Io.rest s = bs ++ r →
  1 <= len bs <= 10 ∧ Forall byte_ok bs ∧ read_uvarint s = Ok (n, advance s (len bs)).
Proof.
  intros Hn Hw Hs Hr. rewrite write_uvarint_spec, write_bytes_list in Hw by done.
  injection Hw as <-. pose proof (uvarint_nonempty n). pose proof (uvarint_length n).
  split; [lia|]. split; [apply uvarint_bytes|]. by eapply read_uvarint_uvarint.
Qed.

Lemma uvarint_roundtrip_witness :
  1 <= len [172; 2] <= 10 ∧ Forall byte_ok [172; 2] ∧
  read_uvarint (new_stream [172; 2; 9]) = Ok (300, advance (new_stream [172; 2; 9]) 2).
Proof.
  apply (uvarint_roundtrip 300 (new_stream [172; 2; 9]) [172; 2] [9]).
  - unfold in_u. lia.
  - vm_compute. reflexivity.
  - by apply new_stream_ok.
  - reflexivity.
Defined.

(** Groups of zero bits only move the shift. *)
Lemma read_uvarint_loop_zeros k fuel s shift r :
  stream_ok s → Io.rest s = repeat 128 k ++ r →
  read_uvarint_loop (k + fuel) s 0 shift
  = read_uvarint_loop fuel (advance s (Z.of_nat k)) 0 (shift + 7 * Z.of_nat k).
Proof.
  revert s shift; induction k as [|k IH]; intros s shift Hs Hr.
  { rewrite advance_0, Z.add_0_r. done. }
  cbn [repeat app] in Hr. cbn [plus read_uvarint_loop].
  rewrite (read_byte_cons _ _ _ Hs Hr). cbn [mbind outcome_bind].
  change (Z.land 128 128 =? 0) with false. change (Z.land 128 127) with 0. cbn iota.
  rewrite Z.shiftl_0_l. change (wrapu 64 (0 + wrapu 64 0)) with 0.
  destruct (rest_advance_cons _ _ _ Hs Hr) as [Hr' Hs']. rewrite IH by done.
  rewrite advance_advance. f_equal; [f_equal; lia|lia].
Qed.

(** The reader of variable-length integers has no limit on their length:
    the shift amount is taken modulo the width, so an eleventh byte is added
    in at bit six instead of being refused. *)
Theorem read_uvarint_overlong b r :
  0 <= b < 128 → len r < 2 ^ 30 →
  read_uvarint (new_stream (repeat 128 10 ++ b :: r))
  = Ok (64 * b, mkStream (repeat 128 10 ++ b :: r) 11).
Proof.
  intros Hb Hr. set (s := new_stream (repeat 128 10 ++ b :: r)).
  assert (stream_ok s) as Hs.
  { apply new_stream_ok. rewrite length_app. cbn [length repeat]. lia. }
  assert (Io.rest s = repeat 128 10 ++ b :: r) as Hrest by apply rest_new.
  unfold read_uvarint. rewrite remaining_rest, Hrest by done.
  replace (S (Z.to_nat (len (repeat 128 10 ++ b :: r)))) with (10 + S (S (length r)))%nat
    by (rewrite length_app; cbn [length repeat]; lia).
  rewrite (read_uvarint_loop_zeros 10 _ s 0 (b :: r)) by done.
  destruct (rest_advance_app _ _ _ Hs Hrest) as [Hr' Hs'].
  change (len (repeat 128 10)) with (Z.of_nat 10) in *. cbn [read_uvarint_loop].
  rewrite (read_byte_cons _ _ _ Hs' Hr'). cbn [mbind outcome_bind].
  destruct (group_bits b Hb) as (_ & _ & _ & H2 & H1). rewrite H1, H2. cbn [Z.eqb].
  change ((0 + 7 * Z.of_nat 10) `mod` 64) with 6.
  assert (wrapu 64 (0 + wrapu 64 (Z.shiftl b 6)) = 64 * b) as ->; [|done].
  rewrite Z.shiftl_mul_pow2 by lia. unfold wrapu. rewrite Z.add_0_l, Z.mod_mod by lia.
  rewrite Z.mod_small; lia.
Qed.

Lemma read_uvarint_overlong_witness :
  read_uvarint (new_stream (repeat 128 10 ++ [1])) = Ok (64, mkStream (repeat 128 10 ++ [1]) 11).
Proof. apply (read_uvarint_overlong 1 []); simpl; lia. Defined.

(** The definition blobs: a definition that the build packed into the
    message blob, at whatever place, is read back from its offset exactly,
    with its fields, default bytes, experimental flag and wire id. *)
Theorem blob_get_msg_reads `{ProtoBlobs} msg pre post :
  MSG_DEFS = pre ++ msg_bytes msg ++ post → offset msg = len pre → msg_fits msg →
  get_msg (offset msg) = Ok msg.
Proof. apply blob_get_msg_back. Qed.

Lemma blob_get_msg_reads_witness : @get_msg sample_db 36 = Ok sample_sub.
Proof.
  apply (@blob_get_msg_reads sample_blobs sample_sub (take 36 (@MSG_DEFS sample_blobs)) []).
  - reflexivity.
  - reflexivity.
  - split; [|exact I]. repeat constructor; simpl; lia.
Defined.

(** Looking a message up by its wire number: on a table sorted by the
    wire numbers, [for_wire_id] reads the definition at the offset that the
    table lists for the number, and finds nothing when it lists none; the
    search always ends with an answer. *)
Theorem for_wire_id_spec `{ProtoBlobs} es wire :
  WIRE_DEFS = concat (entry_bytes <$> es) → Forall entry_fits es → keys_increasing fst es →
  (∀ off, (wire, off) ∈ es → for_wire_id wire = Some <$> get_msg off) ∧
  ((∀ off, (wire, off) ∉ es) → for_wire_id wire = Ok None).
Proof.
  intros Hw Hes Hinc. unfold for_wire_id, find_msg_offset_by_wire. rewrite Hw.
  pose proof (find_offset_by_key_total es wire Hes) as Htot.
  destruct (find_offset_by_key _ wire) as [r| | |] eqn:E; try done.
  pose proof (find_offset_by_key_spec es wire r Hes Hinc E) as Hr. split.
  - intros off Hin. apply Hr in Hin as ->. done.
  - intros Hno. destruct r as [o|]; [|done]. exfalso. by apply (Hno o), Hr.
Qed.

Lemma for_wire_id_spec_witness :
  (∀ off, (5, off) ∈ [(5, 0)] →
     @for_wire_id sample_blobs 5 = Some <$> @get_msg sample_db off) ∧
  ((∀ off, (5, off) ∉ [(5, 0)]) → @for_wire_id sample_blobs 5 = Ok None).
Proof.
  apply (@for_wire_id_spec sample_blobs [(5, 0)] 5).
  - reflexivity.
  - repeat constructor; simpl; lia.
  - intros [|[|i]] [|[|j]] x y Hij Hx Hy; simpl in *; try done; lia.
Defined.
