(* ===== verification/Crypto.v ===== *)
(** * Merkle proofs and collective signatures

    [crypto/merkle.rs] and [crypto/cosi.rs].  The hash function and the curve
    operations are C libraries called through [crypto/sha256.rs] and
    [crypto/ed25519.rs]; they are the interface [Primitives]. *)
From S2P Require Import Prelude Obj.
Local Open Scope Z_scope.

(* src: crypto/mod.rs 9-16 (Error) *)
Inductive CryptoError :=
| SignatureVerificationFailed
| InvalidEncoding
| InvalidParams.

(** [ValueError]s with the messages of the conversion. *)
(* src: crypto/mod.rs 18-26 (From<Error> for crate::error::Error) *)
Definition of_crypto_error (e : CryptoError) : Error :=
  match e with
  | SignatureVerificationFailed => ValueError 10
  | InvalidEncoding => ValueError 11
  | InvalidParams => ValueError 12
  end.

(* src: crypto/sha256.rs 18-18 (DIGEST_SIZE) *)
Definition DIGEST_SIZE : Z := 32.
(* src: crypto/ed25519.rs 4-4 (SIGNATURE_SIZE) *)
Definition SIGNATURE_SIZE : Z := 64.

(** The C functions behind the Rust wrappers: [sha256_Final] of everything
    passed to [sha256_Update], the combination of public keys (which fails on
    a malformed key) and the verification of a signature. *)
Class Primitives := {
  sha256_Final : list Z → list Z;
  ed25519_cosi_combine_publickeys : list (list Z) → option (list Z);
  ed25519_sign_open : list Z → list Z → list Z → bool;
  sha256_Final_size m : len (sha256_Final m) = DIGEST_SIZE;
}.

(** A hashing context is the sequence of bytes it was updated with. *)
Abbreviation Sha256 := (list Z) (only parsing).

(* src: crypto/sha256.rs 26-31 (Sha256::new) *)
Definition init_ctx : Sha256 := [].
(* src: crypto/sha256.rs 33-42 (Sha256::update) *)
Definition update (ctx : Sha256) (data : list Z) : Sha256 := ctx ++ data.
(* src: crypto/sha256.rs 48-51 (Sha256::finalize_into) *)
Definition finalize `{Primitives} (ctx : Sha256) : list Z := sha256_Final ctx.
(* src: crypto/sha256.rs 74-84 (digest_into, digest) *)
Definition digest `{Primitives} (data : list Z) : list Z := finalize (update init_ctx data).

Section Merkle.
Context `{Primitives}.

(** The hash of an inner node: both children in ascending order. *)
(* src: crypto/merkle.rs 16-27 (merkle_root) *)
Definition merkle_step (out proof_elem : list Z) : list Z :=
  let '(min, max) := if bytes_lt out proof_elem then (out, proof_elem) else (proof_elem, out) in
  finalize (update (update (update init_ctx [0x01]) min) max).

(* src: crypto/merkle.rs 6-30 (merkle_root) *)
Definition merkle_root (elem : list Z) (proof : list (list Z)) : list Z :=
  let out := finalize (update (update init_ctx [0x00]) elem) in
  foldl merkle_step out proof.

(** ** Trees

    The reference: the root of a whole tree, and the proof of a leaf, which
    lists the roots of the subtrees beside its path, from the bottom. *)
Inductive Tree :=
| Leaf (elem : list Z)
| Node (l r : Tree).

Fixpoint tree_root (t : Tree) : list Z :=
  match t with
  | Leaf elem => digest (0x00 :: elem)
  | Node l r =>
    let a := tree_root l in
    let b := tree_root r in
    if bytes_lt a b then digest (0x01 :: a ++ b) else digest (0x01 :: b ++ a)
  end.

Inductive proof_of (elem : list Z) : Tree → list (list Z) → Prop :=
| proof_leaf : proof_of elem (Leaf elem) []
| proof_left l r p : proof_of elem l p → proof_of elem (Node l r) (p ++ [tree_root r])
| proof_right l r p : proof_of elem r p → proof_of elem (Node l r) (p ++ [tree_root l]).

(** Two inputs of the hash function with the same digest. *)
Definition collision : Prop := ∃ a b, a ≠ b ∧ digest a = digest b.

Lemma digest_size m : len (digest m) = DIGEST_SIZE.
Proof. apply sha256_Final_size. Qed.

(** The step, with its two children sorted. *)
Definition sorted_pair (a b : list Z) : list Z :=
  if bytes_lt a b then a ++ b else b ++ a.

Lemma merkle_step_digest a b : merkle_step a b = digest (0x01 :: sorted_pair a b).
Proof. unfold merkle_step, sorted_pair, digest, update, init_ctx. by destruct (bytes_lt a b). Qed.

Lemma tree_root_node l r : tree_root (Node l r) = digest (0x01 :: sorted_pair (tree_root l) (tree_root r)).
Proof. cbn [tree_root]. unfold sorted_pair. by destruct (bytes_lt _ _). Qed.

Lemma sorted_pair_comm a b : length a = length b → sorted_pair a b = sorted_pair b a.
Proof.
  intros Hl. unfold sorted_pair.
  destruct (bytes_lt a b) eqn:E1, (bytes_lt b a) eqn:E2; try done.
  - apply bytes_lt_asym in E1. congruence.
  - by rewrite (bytes_lt_total a b).
Qed.

Lemma sorted_pair_inj a b c d :
  length a = length b → length c = length d → length a = length c →
  sorted_pair a b = sorted_pair c d → a = c ∨ a = d.
Proof.
  unfold sorted_pair. intros H1 H2 H3.
  destruct (bytes_lt a b), (bytes_lt c d); intros [??]%app_inj_1; auto; congruence.
Qed.

Lemma tree_root_size t : len (tree_root t) = DIGEST_SIZE.
Proof. destruct t; cbn [tree_root]; [|case_match]; apply digest_size. Qed.

Lemma merkle_root_snoc elem proof p :
  merkle_root elem (proof ++ [p]) = merkle_step (merkle_root elem proof) p.
Proof. unfold merkle_root. by rewrite foldl_app. Qed.

Lemma merkle_root_size elem proof : len (merkle_root elem proof) = DIGEST_SIZE.
Proof.
  destruct proof as [|p proof _] using rev_ind; [apply sha256_Final_size|].
  rewrite merkle_root_snoc, merkle_step_digest. apply digest_size.
Qed.

Lemma merkle_root_proof elem t p : proof_of elem t p → merkle_root elem p = tree_root t.
Proof.
  induction 1 as [|l r p _ IH|l r p _ IH]; [done|..];
    rewrite merkle_root_snoc, merkle_step_digest, tree_root_node, IH; [done|].
  rewrite sorted_pair_comm; [done|].
  pose proof (tree_root_size l). pose proof (tree_root_size r). lia.
Qed.

Lemma merkle_root_authentic elem t proof :
  Forall (λ p, len p = DIGEST_SIZE) proof → merkle_root elem proof = tree_root t →
  (∃ p, proof_of elem t p) ∨ collision.
Proof.
  revert t; induction proof as [|p proof IH] using rev_ind; intros t Hp Hroot.
  - destruct t as [e|l r].
    + destruct (decide (elem = e)) as [->|]; [left; eexists; constructor|].
      right. exists (0 :: elem), (0 :: e). split; [congruence|]. exact Hroot.
    + right. eexists (0 :: elem), _. split; [|rewrite <- tree_root_node; exact Hroot]. done.
  - apply Forall_app in Hp as [Hp Hp1]. rewrite Forall_singleton in Hp1.
    rewrite merkle_root_snoc, merkle_step_digest in Hroot.
    destruct t as [e|l r]; [right; eexists _, (0 :: e); split; [|exact Hroot]; done|].
    rewrite tree_root_node in Hroot.
    destruct (decide (sorted_pair (merkle_root elem proof) p
      = sorted_pair (tree_root l) (tree_root r))) as [Heq|Hne].
    + pose proof (merkle_root_size elem proof). pose proof (tree_root_size l).
      pose proof (tree_root_size r).
      destruct (sorted_pair_inj (merkle_root elem proof) p (tree_root l) (tree_root r)
        ltac:(lia) ltac:(lia) ltac:(lia) Heq) as [E|E];
        (destruct (IH _ Hp E) as [[p' Hp']|?]; [left|by right]); eexists;
        [by apply proof_left|by apply proof_right].
    + right. eexists _, _. split; [|exact Hroot]. congruence.
Qed.
End Merkle.

(** ** Collective signatures *)

(* src: crypto/cosi.rs 5-5 (MAX_PUBKEYS) *)
Definition MAX_PUBKEYS : Z := 3.

(* src: crypto/cosi.rs 7-16 (Signature, Signature::new) *)
Record Signature := mkSignature { sigmask : Z; signature : list Z }.

Section Cosi.
Context `{Primitives}.

(** [Vec::push] on a full vector is unwrapped. *)
(* src: crypto/cosi.rs 39-45 (select_keys) *)
Fixpoint select_loop (mask : Z) (keys selected : list (list Z))
    : outcome CryptoError (Z * list (list Z)) :=
  match keys with
  | [] => Ok (mask, selected)
  | key :: keys =>
    if negb (Z.land mask 1 =? 0) then
      if len selected <? MAX_PUBKEYS
      then select_loop (Z.shiftr mask 1) keys (selected ++ [key]) else Panic
    else select_loop (Z.shiftr mask 1) keys selected
  end.

(* src: crypto/cosi.rs 35-51 (select_keys) *)
Definition select_keys (mask : Z) (keys : list (list Z)) : outcome CryptoError (list (list Z)) :=
  '(mask, selected_keys) ← select_loop mask keys [];
  if negb (mask =? 0) then Err InvalidParams else Ok selected_keys.

(* src: crypto/cosi.rs 53-63 (combine_publickeys) *)
Definition combine_publickeys (keys : list (list Z)) : outcome CryptoError (list Z) :=
  ok_or (ed25519_cosi_combine_publickeys keys) InvalidEncoding.

(* src: crypto/ed25519.rs 21-36 (verify) *)
Definition ed25519_verify (message public_key sig : list Z) : outcome CryptoError unit :=
  if ed25519_sign_open message public_key sig then Ok tt else Err SignatureVerificationFailed.

(* src: crypto/cosi.rs 18-33 (verify) *)
Definition cosi_verify (threshold : Z) (message : list Z) (public_keys : list (list Z))
    (sig : Signature) : outcome CryptoError unit :=
  if threshold <? 1 then Err InvalidParams else
  selected_keys ← select_keys (sigmask sig) public_keys;
  if len selected_keys <? threshold then Err InvalidParams else
  combined_key ← combine_publickeys selected_keys;
  ed25519_verify message combined_key (signature sig).

(** The keys whose bits are set. *)
Fixpoint masked (mask : Z) (keys : list (list Z)) : list (list Z) :=
  match keys with
  | [] => []
  | key :: keys =>
    if Z.testbit mask 0 then key :: masked (Z.shiftr mask 1) keys
    else masked (Z.shiftr mask 1) keys
  end.

Lemma land_1_testbit m : negb (Z.land m 1 =? 0) = Z.testbit m 0.
Proof.
  change 1 with (Z.ones 1). rewrite Z.land_ones by lia. change (2 ^ 1) with 2.
  rewrite Zmod_even, Z.bit0_odd, <- Z.negb_even. by destruct (Z.even m).
Qed.

Lemma masked_length mask keys : (length (masked mask keys) <= length keys)%nat.
Proof.
  revert mask; induction keys as [|k keys IH]; intros mask; simpl; [lia|].
  specialize (IH (Z.shiftr mask 1)). case_match; simpl; lia.
Qed.

Lemma select_loop_masked mask keys selected :
  len selected + len keys <= MAX_PUBKEYS →
  select_loop mask keys selected
  = Ok (Z.shiftr mask (len keys), selected ++ masked mask keys).
Proof.
  revert mask selected; induction keys as [|k keys IH];
    intros mask selected Hl; cbn [select_loop masked length] in *.
  - by rewrite Z.shiftr_0_r, app_nil_r.
  - rewrite land_1_testbit. unfold MAX_PUBKEYS in *.
    assert (Z.shiftr mask (Z.of_nat (S (length keys))) = Z.shiftr (Z.shiftr mask 1) (len keys)) as ->.
    { rewrite Z.shiftr_shiftr by lia. f_equal. lia. }
    destruct (Z.testbit mask 0).
    + destruct (Z.ltb_spec (len selected) 3); [|lia].
      rewrite IH; [by rewrite <- app_assoc|]. rewrite length_app. simpl. lia.
    + apply IH. lia.
Qed.

Lemma select_keys_masked mask keys :
  len keys <= MAX_PUBKEYS →
  select_keys mask keys
  = if Z.shiftr mask (len keys) =? 0 then Ok (masked mask keys) else Err InvalidParams.
Proof.
  intros Hl. unfold select_keys. rewrite select_loop_masked by (simpl; lia).
  cbn [mbind outcome_bind app]. by destruct (_ =? 0).
Qed.

Lemma masked_elem mask keys k :
  k ∈ masked mask keys ↔ ∃ i, keys !! i = Some k ∧ Z.testbit mask (Z.of_nat i) = true.
Proof.
  revert mask; induction keys as [|k0 keys IH]; intros mask; cbn [masked].
  - split; [by intros ?%elem_of_nil|]. intros (i & Hi & _). by rewrite lookup_nil in Hi.
  - assert ((∃ i, (k0 :: keys) !! i = Some k ∧ Z.testbit mask (Z.of_nat i) = true)
      ↔ (k0 = k ∧ Z.testbit mask 0 = true) ∨ k ∈ masked (Z.shiftr mask 1) keys) as ->.
    { rewrite IH. split.
      - intros ([|i] & Hi & Hb); [left; by injection Hi as ->|right].
        exists i. split; [done|]. rewrite Z.shiftr_spec by lia.
        by replace (Z.of_nat i + 1) with (Z.of_nat (S i)) by lia.
      - intros [[-> Hb]|(i & Hi & Hb)]; [by exists 0%nat|]. exists (S i). split; [done|].
        rewrite Z.shiftr_spec in Hb by lia.
        by replace (Z.of_nat i + 1) with (Z.of_nat (S i)) in Hb by lia. }
    destruct (Z.testbit mask 0); [rewrite elem_of_cons|]; naive_solver.
Qed.

Lemma masked_sublist mask keys : masked mask keys `sublist_of` keys.
Proof.
  revert mask; induction keys as [|k keys IH]; intros mask; cbn [masked]; [constructor|].
  case_match; by constructor.
Qed.

Lemma cosi_verify_cases threshold message keys sig :
  len keys <= MAX_PUBKEYS →
  cosi_verify threshold message keys sig =
  if (1 <=? threshold) && (Z.shiftr (sigmask sig) (len keys) =? 0)
     && (threshold <=? len (masked (sigmask sig) keys)) then
    match ed25519_cosi_combine_publickeys (masked (sigmask sig) keys) with
    | Some k => if ed25519_sign_open message k (signature sig)
                then Ok tt else Err SignatureVerificationFailed
    | None => Err InvalidEncoding
    end
  else Err InvalidParams.
Proof.
  intros Hl. unfold cosi_verify. rewrite select_keys_masked by done.
  destruct (Z.ltb_spec threshold 1), (Z.leb_spec 1 threshold); try lia; [done|].
  destruct (_ =? 0); [|done]. cbn [mbind outcome_bind andb].
  destruct (Z.ltb_spec (len (masked (sigmask sig) keys)) threshold),
    (Z.leb_spec threshold (len (masked (sigmask sig) keys))); try lia; [done|].
  unfold combine_publickeys. by destruct (ed25519_cosi_combine_publickeys _).
Qed.
End Cosi.
