(* ===== verification/Blob.v ===== *)
(** * Translation blobs

    [translations/blob.rs]: the container, header and proof of a translations
    blob are parsed and verified once; then strings are looked up by index
    and glyphs in nested tables by binary search. *)
From S2P Require Import Prelude Obj Io Crypto.
From stdpp Require Import sorting.
Local Open Scope Z_scope.

(* src: translations/blob.rs 12-12 (EMPTY_BYTE) *)
Definition EMPTY_BYTE : Z := 0xFF.
(* src: translations/blob.rs 13-13 (SENTINEL_ID) *)
Definition SENTINEL_ID : Z := 0xFFFF.
(* src: translations/blob.rs 15-15 (SIGNATURE_THRESHOLD) *)
Definition SIGNATURE_THRESHOLD : Z := 2.
(* src: translations/blob.rs 20-20 (MAX_TABLE_PADDING) *)
Definition MAX_TABLE_PADDING : Z := 3.
(* src: translations/blob.rs 22-22 (INVALID_TRANSLATIONS_BLOB) *)
Definition INVALID_TRANSLATIONS_BLOB : Error := ValueError 13.
Definition TRAILING_DATA : Error := ValueError 14.
Definition WRONG_MODEL : Error := ValueError 15.

(** The model the firmware is built for (a string of the C headers), and
    whether the build has the [debug] feature. *)
Class Build := { INTERNAL_NAME : list Z; debug : bool }.

(* src: translations/public_keys.rs 4-8 (PUBLIC_KEYS_DEVEL) *)
Definition PUBLIC_KEYS_DEVEL : list (list Z) :=
  [[0x68; 0x46; 0x0e; 0xbe; 0xf3; 0xb1; 0x38; 0x16; 0x4e; 0xc7; 0xfd; 0x86; 0x10; 0xe9; 0x58; 0x00;
    0xdf; 0x75; 0x98; 0xf7; 0x0f; 0x2f; 0x2e; 0xa7; 0xdb; 0x51; 0x72; 0xac; 0x74; 0xeb; 0xc1; 0x44];
   [0x8d; 0x4a; 0xbe; 0x07; 0x4f; 0xef; 0x92; 0x29; 0xd3; 0xb4; 0x41; 0xdf; 0xea; 0x4f; 0x98; 0xf8;
    0x05; 0xb1; 0xa2; 0xb3; 0xa0; 0x6a; 0xe6; 0x45; 0x81; 0x0e; 0xfe; 0xce; 0x77; 0xfd; 0x50; 0x44];
   [0x97; 0xf7; 0x13; 0x5a; 0x9a; 0x26; 0x90; 0xe7; 0x3b; 0xeb; 0x26; 0x55; 0x6f; 0x1c; 0xb1; 0x63;
    0xbe; 0xa2; 0x53; 0x2a; 0xff; 0xa1; 0xe7; 0x78; 0x24; 0x30; 0xbe; 0x98; 0xc0; 0xe5; 0x68; 0x12]].

(* src: translations/public_keys.rs 10-14 (PUBLIC_KEYS) *)
Definition PUBLIC_KEYS : list (list Z) :=
  [[0x62; 0xce; 0xa8; 0x25; 0x7b; 0x0b; 0xca; 0x15; 0xb3; 0x3a; 0x76; 0x40; 0x5a; 0x79; 0xc4; 0x88;
    0x1e; 0xb2; 0x0e; 0xe8; 0x23; 0x46; 0x81; 0x31; 0x81; 0xa5; 0x02; 0x91; 0xd6; 0xca; 0xec; 0x67];
   [0x59; 0x4e; 0xf0; 0x9e; 0x51; 0x13; 0x93; 0x72; 0xe5; 0x28; 0xc6; 0xc5; 0xb8; 0x74; 0x2e; 0xe1;
    0x80; 0x6f; 0x91; 0x14; 0xca; 0xea; 0xee; 0xdb; 0x04; 0xbe; 0x6a; 0x98; 0xe1; 0xce; 0x30; 0x20]].

(** ** Offset tables *)

(* src: translations/blob.rs 24-28 (OffsetEntry) *)
Record OffsetEntry := mkEntry { id : Z; entry_offset : Z }.

(* src: translations/blob.rs 30-33 (Table) *)
Record Table := mkTable { offsets : list OffsetEntry; data : list Z }.

(** [prev <= next] along a sequence, from [prev]; the last element. *)
Definition ascend_loop (bad : Z → Z → bool) (prev : Z) (iter : list Z) : result Z :=
  foldM (λ prev next, if bad prev next then Err INVALID_TRANSLATIONS_BLOB else Ok next) prev iter.

(** The subtraction wraps in [usize] when the data is shorter than the
    padding. *)
(* src: translations/blob.rs 35-59 (validate_offset_table) *)
Definition validate_offset_table (data_len : Z) (iter : list Z) : result unit :=
  prev ← ok_or (head iter) INVALID_TRANSLATIONS_BLOB;
  if negb (prev =? 0) then Err INVALID_TRANSLATIONS_BLOB else
  sentinel ← ascend_loop (λ prev next, next <? prev) prev (tail iter);
  if (sentinel <? wrapu usize_bits (data_len - MAX_TABLE_PADDING)) || (data_len <? sentinel)
  then Err INVALID_TRANSLATIONS_BLOB else Ok tt.

(** [align_to::<OffsetEntry>]: the packed entries have alignment one, so every
    four bytes are one. *)
Fixpoint to_entries (bytes : list Z) : list OffsetEntry :=
  match bytes with
  | a :: b :: c :: d :: bytes =>
    mkEntry (from_le_bytes [a; b]) (from_le_bytes [c; d]) :: to_entries bytes
  | _ => []
  end.

(* src: translations/blob.rs 62-77 (Table::new) *)
Definition Table_new (reader : InputStream) : result Table :=
  '(count, reader) ← read_u16_le reader;
  '(offsets_data, reader) ← read reader (wrapu 16 (count + 1) * 4);
  Ok (mkTable (to_entries offsets_data) (rest reader)).

(* src: translations/blob.rs 79-100 (Table::validate) *)
Definition Table_validate (self : Table) : result unit :=
  _ ← validate_offset_table (len (data self)) (entry_offset <$> offsets self);
  if negb (bool_decide (id <$> last (offsets self) = Some SENTINEL_ID))
  then Err INVALID_TRANSLATIONS_BLOB else
  match offsets self with
  | [] => Ok tt
  | first_entry :: entries =>
    _ ← ascend_loop (λ prev next, next <=? prev) (id first_entry) (id <$> entries);
    Ok tt
  end.

(* src: translations/blob.rs 102-111 (Table::get) *)
Definition Table_get (self : Table) (i : Z) : result (option (list Z)) :=
  match binary_search_by_key id i (offsets self) with
  | None => Ok None
  | Some idx =>
    e ← or_panic (offsets self !! idx);
    next ← or_panic (offsets self !! S idx);
    Ok (slice (data self) (entry_offset e) (entry_offset next))
  end.

(** The iterator computes an item when asked for it; [None] is an item whose
    slice is out of range, which aborts the consumer that reaches it. *)
Fixpoint iter_from (bytes : list Z) (prev_offset : Z) (entries : list OffsetEntry)
    : list (Z * option (list Z)) :=
  match entries with
  | [] => []
  | entry :: entries =>
    (id entry, slice bytes prev_offset (entry_offset entry))
    :: iter_from bytes (entry_offset entry) entries
  end.

(* src: translations/blob.rs 113-121 (Table::iter) *)
Definition Table_iter (self : Table) : list (Z * option (list Z)) :=
  iter_from (data self) 0 (tail (offsets self)).

(** ** The header *)

(* src: translations/blob.rs 263-280 (TranslationsHeader) *)
Record TranslationsHeader := mkHeader {
  header_bytes : list Z;
  language : list Z;
  version : list Z;
  data_len : Z;
  data_hash : list Z;
  merkle_proof : list (list Z);
  header_signature : Signature;
  total_len : Z;
}.

(* src: translations/blob.rs 131-134 (read_u16_prefixed_block) *)
Definition read_u16_prefixed_block (reader : InputStream) : result (InputStream * InputStream) :=
  '(n, reader) ← read_u16_le reader;
  read_stream reader n.

(* src: translations/blob.rs 282-287 (read_fixedsize_str) *)
Definition read_fixedsize_str (reader : InputStream) (n : Z) : result (list Z * InputStream) :=
  '(bytes, reader) ← read reader n;
  let find_zero := match list_find (λ b, b = 0) bytes with
                   | Some (i, _) => Z.of_nat i | None => n end in
  bytes_trimmed ← or_panic (slice bytes 0 find_zero);
  if utf8_valid bytes_trimmed then Ok (bytes_trimmed, reader) else Err INVALID_TRANSLATIONS_BLOB.

(** [unwrap!(bytes.try_into())] to an array of [n] bytes. *)
Definition to_array (n : Z) (bytes : list Z) : result (list Z) :=
  or_panic (if len bytes =? n then Some bytes else None).

(** [align_to::<Digest>]: digests have alignment one. *)
Fixpoint to_digests (count : nat) (bytes : list Z) : list (list Z) :=
  match count with
  | O => []
  | S count => take 32 bytes :: to_digests count (drop 32 bytes)
  end.

Section Header.
Context `{Primitives} `{Build}.

(* src: translations/blob.rs 397-405 (TranslationsHeader::verify_with_keys) *)
Definition verify_with_keys (self : TranslationsHeader) (public_keys : list (list Z))
    : result unit :=
  let root := merkle_root (header_bytes self) (merkle_proof self) in
  match cosi_verify SIGNATURE_THRESHOLD root public_keys (header_signature self) with
  | Ok _ => Ok tt
  | Err e => Err (of_crypto_error e)
  | Panic => Panic
  | NoFuel => NoFuel
  end.

(* src: translations/blob.rs 407-415 (TranslationsHeader::verify) *)
Definition header_verify (self : TranslationsHeader) : result unit :=
  match verify_with_keys self PUBLIC_KEYS with
  | Err e => if debug then verify_with_keys self PUBLIC_KEYS_DEVEL else Err e
  | r => r
  end.

(* src: translations/blob.rs 290-290 (TranslationsHeader::BLOB_MAGIC) *)
Definition BLOB_MAGIC : list Z := [84; 82; 84; 82; 48; 48].
(* src: translations/blob.rs 291-291 (TranslationsHeader::HEADER_MAGIC) *)
Definition HEADER_MAGIC : list Z := [84; 82].
(* src: translations/blob.rs 292-292 (TranslationsHeader::LANGUAGE_TAG_LEN) *)
Definition LANGUAGE_TAG_LEN : Z := 8.

(** The header section: language, version, length and hash of the payload. *)
(* src: translations/blob.rs 326-354 (TranslationsHeader::parse_from) *)
Definition parse_header (bytes : list Z)
    : result (list Z * list Z * Z * list Z) :=
  '(magic, reader) ← read (new_stream bytes) (len HEADER_MAGIC);
  if negb (bool_decide (magic = HEADER_MAGIC)) then Err INVALID_TRANSLATIONS_BLOB else
  '(lang, reader) ← read_fixedsize_str reader LANGUAGE_TAG_LEN;
  if len lang =? 0 then Err INVALID_TRANSLATIONS_BLOB else
  '(model, reader) ← read_fixedsize_str reader 4;
  if negb (bool_decide (model = INTERNAL_NAME)) then Err WRONG_MODEL else
  '(version_bytes, reader) ← read reader 4;
  ver ← to_array 4 version_bytes;
  '(dlen, reader) ← read_u16_le reader;
  '(hash_bytes, reader) ← read reader DIGEST_SIZE;
  hash ← to_array DIGEST_SIZE hash_bytes;
  Ok (lang, ver, dlen, hash).

(** The proof section. *)
(* src: translations/blob.rs 359-377 (TranslationsHeader::parse_from) *)
Definition parse_proof (proof_reader : InputStream) : result (list (list Z) * Signature) :=
  '(proof_count, proof_reader) ← read_byte proof_reader;
  '(proof_bytes, proof_reader) ← read proof_reader (proof_count * DIGEST_SIZE);
  '(mask, proof_reader) ← read_byte proof_reader;
  '(sig_bytes, proof_reader) ← read proof_reader SIGNATURE_SIZE;
  sig ← to_array SIGNATURE_SIZE sig_bytes;
  if 0 <? remaining proof_reader then Err INVALID_TRANSLATIONS_BLOB
  else Ok (to_digests (Z.to_nat proof_count) proof_bytes, mkSignature mask sig).

(** The results are the header, the reader of the payload and the caller's
    reader after the blob. *)
(* src: translations/blob.rs 306-395 (TranslationsHeader::parse_from) *)
Definition parse_from (reader0 : InputStream)
    : result (TranslationsHeader * InputStream * InputStream) :=
  '(magic, reader0) ← read reader0 (len BLOB_MAGIC);
  if negb (bool_decide (magic = BLOB_MAGIC)) then Err INVALID_TRANSLATIONS_BLOB else
  '(container_length, reader0) ← read_u16_le reader0;
  '(reader, reader0) ← read_stream reader0 (Z.min container_length (remaining reader0));
  '(header_reader, reader) ← read_u16_prefixed_block reader;
  let hbytes := rest header_reader in
  '(lang, ver, dlen, hash) ← parse_header hbytes;
  '(proof_reader, reader) ← read_u16_prefixed_block reader;
  '(proof, sig) ← parse_proof proof_reader;
  if negb (wrapu usize_bits (container_length - tell reader) =? dlen)
  then Err INVALID_TRANSLATIONS_BLOB else
  let new := mkHeader hbytes lang ver dlen hash proof sig
               (container_length + len BLOB_MAGIC + 2) in
  _ ← header_verify new;
  Ok (new, reader, reader0).

(** ** Translations *)

(* src: translations/blob.rs 124-129 (Translations) *)
Record Translations := mkTranslations {
  header : TranslationsHeader;
  translations : list Z;
  translations_offsets : list Z;
  fonts : Table;
}.

Fixpoint to_u16s (bytes : list Z) : list Z :=
  match bytes with
  | a :: b :: bytes => from_le_bytes [a; b] :: to_u16s bytes
  | _ => []
  end.

(** [align_to::<u16>] at an address: at an odd one there is a prefix. *)
Definition align_to_u16 (addr : Z) (bytes : list Z) : result (list Z) :=
  if Z.odd addr then Err INVALID_TRANSLATIONS_BLOB else Ok (to_u16s bytes).

(* src: translations/blob.rs 180-186 (Translations::new) *)
Definition validate_fonts (fonts_reader : InputStream) : result Table :=
  tbl ← Table_new fonts_reader;
  _ ← Table_validate tbl;
  _ ← foldM (λ (_ : unit) '(_, font_data),
        d ← or_panic font_data;
        font_table ← Table_new (new_stream d);
        Table_validate font_table) tt (Table_iter tbl);
  Ok tbl.

(** [addr] is the address of the blob: the container starts eight bytes into
    it, and the offsets four bytes into the payload. *)
(* src: translations/blob.rs 139-196 (Translations::new) *)
Definition Translations_new (addr : Z) (blob : list Z) : result Translations :=
  '(hdr, payload_reader, blob_reader) ← parse_from (new_stream blob);
  if negb (forallb (λ b, b =? EMPTY_BYTE) (rest blob_reader)) then Err TRAILING_DATA else
  let payload_bytes := rest payload_reader in
  if negb (bool_decide (digest payload_bytes = data_hash hdr))
  then Err INVALID_TRANSLATIONS_BLOB else
  let payload_addr := addr + 8 + tell payload_reader in
  '(translations_reader, payload_reader) ← read_u16_prefixed_block (new_stream payload_bytes);
  '(fonts_reader, payload_reader) ← read_u16_prefixed_block payload_reader;
  if 0 <? remaining payload_reader then Err INVALID_TRANSLATIONS_BLOB else
  '(translations_count, translations_reader) ← read_u16_le translations_reader;
  '(bytes, translations_reader) ← read translations_reader ((translations_count + 1) * 2);
  offs ← align_to_u16 (payload_addr + 4) bytes;
  let strings := rest translations_reader in
  _ ← validate_offset_table (len strings) offs;
  fonts ← validate_fonts fonts_reader;
  Ok (mkTranslations hdr strings offs fonts).

(* src: translations/blob.rs 207-232 (Translations::translation) *)
Definition translation (self : Translations) (index : Z) : result (option (list Z)) :=
  if len (translations_offsets self) <=? index + 1 then Ok None else
  start_offset ← or_panic (getZ (translations_offsets self) index);
  end_offset ← or_panic (getZ (translations_offsets self) (index + 1));
  string ← or_panic (slice (translations self) start_offset end_offset);
  if len string =? 0 then Ok None
  else Ok (if utf8_valid string then Some string else None).

(* src: translations/blob.rs 243-247 (Translations::font) *)
Definition font (self : Translations) (index : Z) : result (option Table) :=
  found ← Table_get (fonts self) index;
  match found with
  | None => Ok None
  | Some d =>
    match Table_new (new_stream d) with
    | Ok t => Ok (Some t)
    | Err _ => Ok None
    | Panic => Panic
    | NoFuel => NoFuel
    end
  end.

(* src: translations/translated_string.rs 7-11 (TranslatedString::translate) *)
Definition translate (untranslated : list Z) (index : Z) (source : option Translations)
    : result (list Z) :=
  match source with
  | None => Ok untranslated
  | Some s => t ← translation s index; Ok (default untranslated t)
  end.

End Header.
