(* ===== verification/BlobFacts.v ===== *)
(** * Facts about translation blobs

    What the validation of tables establishes, and that parsing is safe: no
    blob makes the parser abort; and the reference layout of tables. *)
From stdpp Require Import sorting.
From S2P Require Import Prelude Obj Io Crypto Blob.
Local Open Scope Z_scope.

(** ** Ascending sequences *)
Section Ascend.
Context (bad : Z → Z → bool) (R : Z → Z → Prop) `{!Transitive R}.
Context (bad_spec : ∀ a b, bad a b = false ↔ R a b).

Lemma ascend_loop_Ok prev l q :
  ascend_loop bad prev l = Ok q ↔ StronglySorted R (prev :: l) ∧ last (prev :: l) = Some q.
Proof.
  unfold ascend_loop. revert prev; induction l as [|x l IH]; intros prev.
  - simpl. split; [intros [= ->]; split; [repeat constructor|done]|]. by intros [_ [= ->]].
  - cbn [foldM]. rewrite StronglySorted_cons. destruct (bad prev x) eqn:E; cbn [mbind outcome_bind].
    + split; [done|]. intros [[HF _] _]. apply Forall_cons in HF as [HF _].
      apply bad_spec in HF. congruence.
    + rewrite IH. apply bad_spec in E. change (last (prev :: x :: l)) with (last (x :: l)).
      split; intros [Hs Hl]; (split; [|done]).
      * split; [|done]. constructor; [done|]. apply StronglySorted_cons in Hs as [HF _].
        eapply Forall_impl; [exact HF|]. intros y Hy. by trans x.
      * apply Hs.
Qed.

Lemma ascend_loop_safe prev l : safe (ascend_loop bad prev l).
Proof.
  unfold ascend_loop. revert prev; induction l as [|x l IH]; intros prev; [done|].
  cbn [foldM]. destruct (bad prev x); [done|]. apply IH.
Qed.
End Ascend.

Lemma sorted_lookup (R : Z → Z → Prop) l i j x y :
  StronglySorted R l → (i < j)%nat → l !! i = Some x → l !! j = Some y → R x y.
Proof.
  intros Hs. revert i j; induction Hs as [|z l Hs IH HF]; intros i j Hij Hx Hy; [done|].
  destruct j as [|j]; [lia|]. cbn in Hy. destruct i as [|i]; cbn in Hx.
  - injection Hx as ->. rewrite Forall_forall in HF. apply HF. by eapply list_elem_of_lookup_2.
  - apply (IH i j); [lia|done..].
Qed.

Lemma last_lookup_lt {A} (l : list A) i x y :
  l !! i = Some x → last l = Some y → x ≠ y → ∃ z, l !! S i = Some z.
Proof.
  intros Hx Hy Hne. apply lookup_lt_is_Some. rewrite last_lookup in Hy.
  pose proof (lookup_lt_Some _ _ _ Hx).
  destruct (decide (S i = length l)) as [E|]; [|lia].
  rewrite <- E in Hy. simpl in Hy. congruence.
Qed.

(** ** Validated tables *)
Definition offsets_ok (n : Z) (l : list Z) : Prop :=
  head l = Some 0 ∧ StronglySorted Z.le l ∧
  ∃ q, last l = Some q ∧ wrapu usize_bits (n - MAX_TABLE_PADDING) <= q <= n.

Lemma validate_offset_table_spec n l : validate_offset_table n l = Ok () ↔ offsets_ok n l.
Proof.
  unfold validate_offset_table, offsets_ok. destruct l as [|x l]; [simpl; naive_solver|].
  cbn [head tail ok_or mbind outcome_bind].
  destruct (Z.eqb_spec x 0) as [->|]; cbn [negb]; [|naive_solver].
  pose proof (ascend_loop_Ok (λ prev next, next <? prev) Z.le (λ a b, Z.ltb_ge b a) 0 l) as Hasc.
  destruct (ascend_loop _ 0 l) as [q| | |] eqn:E; cbn [mbind outcome_bind].
  - destruct (proj1 (Hasc q) eq_refl) as [Hs Hl].
    destruct (Z.ltb_spec q (wrapu usize_bits (n - MAX_TABLE_PADDING))); cbn [orb];
      [|destruct (Z.ltb_spec n q)].
    + split; [done|]. intros (_ & _ & q' & Hq & ?). rewrite Hl in Hq. injection Hq as <-. lia.
    + split; [done|]. intros (_ & _ & q' & Hq & ?). rewrite Hl in Hq. injection Hq as <-. lia.
    + split; [|done]. intros _. split; [done|]. split; [done|]. exists q. split; [done|]. lia.
  - split; [done|]. intros (_ & Hs & q & Hq & _). by pose proof (proj2 (Hasc q) (conj Hs Hq)).
  - by pose proof (ascend_loop_safe (λ prev next, next <? prev) 0 l) as Hs; rewrite E in Hs.
  - by pose proof (ascend_loop_safe (λ prev next, next <? prev) 0 l) as Hs; rewrite E in Hs.
Qed.

Lemma validate_offset_table_safe n l : safe (validate_offset_table n l).
Proof.
  apply safe_bind; [apply safe_ok_or|]. intros prev _. destruct (negb _); [done|].
  apply safe_bind; [apply ascend_loop_safe|]. intros. by destruct (_ || _).
Qed.

Record table_ok (t : Table) : Prop := {
  table_offsets : offsets_ok (len (data t)) (entry_offset <$> offsets t);
  table_sentinel : id <$> last (offsets t) = Some SENTINEL_ID;
  table_ids : StronglySorted Z.lt (id <$> offsets t);
}.

Lemma Table_validate_spec t : Table_validate t = Ok () ↔ table_ok t.
Proof.
  unfold Table_validate.
  destruct (validate_offset_table _ _) as [[]| | |] eqn:E; cbn [mbind outcome_bind].
  2-4: split; [done|]; intros [Ho _ _]; apply validate_offset_table_spec in Ho; congruence.
  apply validate_offset_table_spec in E. case_bool_decide as Hl; cbn [negb].
  2: { split; [done|]. by intros [_ ? _]. }
  destruct (offsets t) as [|e es] eqn:Ht.
  { split; [|done]. intros _. split; rewrite ?Ht; [done|done|constructor]. }
  pose proof (ascend_loop_Ok (λ prev next, next <=? prev) Z.lt (λ a b, Z.leb_gt b a) (id e) (id <$> es)) as Hasc.
  destruct (ascend_loop _ (id e) _) as [q| | |] eqn:Ea; cbn [mbind outcome_bind].
  - split; [|done]. intros _. destruct (proj1 (Hasc q) eq_refl) as [Hs _].
    split; rewrite Ht; done.
  - split; [done|]. intros [_ _ Hs]. rewrite Ht, fmap_cons in Hs.
    destruct (last (id e :: (id <$> es))) eqn:El; [|by apply last_None in El].
    by pose proof (proj2 (Hasc _) (conj Hs eq_refl)).
  - by pose proof (ascend_loop_safe (λ prev next, next <=? prev) (id e) (id <$> es)) as Hs; rewrite Ea in Hs.
  - by pose proof (ascend_loop_safe (λ prev next, next <=? prev) (id e) (id <$> es)) as Hs; rewrite Ea in Hs.
Qed.

Lemma Table_validate_safe t : safe (Table_validate t).
Proof.
  apply safe_bind; [apply validate_offset_table_safe|]. intros _ _. destruct (negb _); [done|].
  destruct (offsets t); [done|]. apply safe_bind; [apply ascend_loop_safe|done].
Qed.

Lemma offsets_ok_slice n l i a b :
  offsets_ok n l → l !! i = Some a → l !! S i = Some b → 0 <= a <= b ∧ b <= n.
Proof.
  intros (Hh & Hs & q & Hq & Hr) Ha Hb.
  pose proof (sorted_lookup _ _ i (S i) a b Hs ltac:(lia) Ha Hb).
  assert (0 <= a).
  { destruct i as [|i]; [destruct l; naive_solver lia|].
    apply (sorted_lookup _ _ 0 (S i) 0 a Hs); [lia| |done]. by destruct l. }
  assert (b <= q); [|lia]. rewrite last_lookup in Hq.
  pose proof (lookup_lt_Some _ _ _ Hb).
  destruct (decide (S i = pred (length l))) as [E|]; [rewrite E in Hb; simplify_eq; lia|].
  apply (sorted_lookup _ _ (S i) (pred (length l)) b q Hs); [lia|done..].
Qed.

Section Lookup.
Context (t : Table) (Hok : table_ok t).

Lemma table_keys : keys_increasing id (offsets t).
Proof.
  intros i j x y Hij Hx Hy. apply (sorted_lookup _ _ i j _ _ (table_ids t Hok) Hij);
    rewrite list_lookup_fmap; [by rewrite Hx|by rewrite Hy].
Qed.

(** An entry before the sentinel has a successor, and its data are there. *)
Lemma table_entry i e :
  offsets t !! i = Some e → id e ≠ SENTINEL_ID →
  ∃ next d, offsets t !! S i = Some next ∧
    slice (data t) (entry_offset e) (entry_offset next) = Some d.
Proof.
  intros He Hid. pose proof (table_sentinel t Hok) as Hl.
  destruct (last (offsets t)) as [s|] eqn:El; [|done]. injection Hl as Hl.
  destruct (last_lookup_lt _ _ _ _ He El) as [next Hn]; [congruence|].
  exists next. eexists. split; [done|]. apply slice_Some. split_and!; [..|done];
    edestruct (offsets_ok_slice _ _ i (entry_offset e) (entry_offset next) (table_offsets t Hok));
    rewrite ?list_lookup_fmap, ?He, ?Hn; try done; lia.
Qed.

Lemma Table_get_entry i e next :
  offsets t !! i = Some e → offsets t !! S i = Some next →
  Table_get t (id e) = Ok (slice (data t) (entry_offset e) (entry_offset next)).
Proof.
  intros He Hn. unfold Table_get.
  assert (binary_search_by_key id (id e) (offsets t) = Some i) as ->.
  { apply binary_search_by_key_spec; [apply table_keys|]. eauto. }
  rewrite He, Hn. done.
Qed.

Lemma Table_get_absent i : (∀ e, e ∈ offsets t → id e ≠ i) → Table_get t i = Ok None.
Proof.
  intros Hno. unfold Table_get.
  assert (binary_search_by_key id i (offsets t) = None) as ->; [|done].
  apply binary_search_by_key_None; [apply table_keys|done].
Qed.

Lemma Table_get_safe i : i ≠ SENTINEL_ID → safe (Table_get t i).
Proof.
  intros Hi. destruct (decide (Exists (λ e, id e = i) (offsets t))) as [Hex|Hno].
  - apply Exists_exists in Hex as (e & (k & He)%list_elem_of_lookup & <-).
    destruct (table_entry k e He Hi) as (next & d & Hn & _). by erewrite Table_get_entry.
  - rewrite Table_get_absent; [done|]. intros e He Hid. apply Hno, Exists_exists. eauto.
Qed.

Lemma Table_get_sentinel : Table_get t SENTINEL_ID = Panic.
Proof.
  pose proof (table_sentinel t Hok) as Hl. rewrite last_lookup in Hl.
  destruct (offsets t !! pred (length (offsets t))) as [s|] eqn:Es; [|done].
  injection Hl as Hs. unfold Table_get.
  assert (binary_search_by_key id SENTINEL_ID (offsets t) = Some (pred (length (offsets t)))) as ->.
  { apply binary_search_by_key_spec; [apply table_keys|]. eauto. }
  rewrite Es. cbn [or_panic mbind outcome_bind].
  assert (offsets t !! S (pred (length (offsets t))) = None) as ->; [|done].
  apply lookup_ge_None. lia.
Qed.
End Lookup.

(** ** Iteration *)
Lemma iter_from_some n bytes prev entries :
  n = len bytes → 0 <= prev → StronglySorted Z.le (prev :: (entry_offset <$> entries)) →
  (∀ q, last (prev :: (entry_offset <$> entries)) = Some q → q <= n) →
  Forall (λ it, ∃ d, snd it = Some d) (iter_from bytes prev entries).
Proof.
  intros ->. revert prev; induction entries as [|e es IH]; intros prev Hp Hs Hl; [constructor|].
  rewrite fmap_cons in Hs, Hl. pose proof Hs as [HF Hs']%StronglySorted_cons.
  apply Forall_cons in HF as [Hle _].
  assert (∃ q, last (entry_offset e :: (entry_offset <$> es)) = Some q) as [q Hq].
  { destruct (last (entry_offset e :: (entry_offset <$> es))) eqn:E; [eauto|]. by apply last_None in E. }
  assert (entry_offset e <= q).
  { rewrite last_lookup in Hq. destruct (pred _) as [|k] eqn:E; [cbn in Hq; simplify_eq; lia|].
    apply (sorted_lookup _ _ 0 (S k) _ _ Hs'); [lia|done..]. }
  pose proof (Hl q Hq). cbn [iter_from]. constructor.
  - cbn [snd]. eexists. apply slice_Some. split; [lia|]. split; [lia|done].
  - apply IH; [lia|done|]. intros. by apply Hl.
Qed.

Lemma Table_iter_some t : table_ok t → Forall (λ it, ∃ d, snd it = Some d) (Table_iter t).
Proof.
  intros [(Hh & Hs & q & Hq & Hr) _ _]. unfold Table_iter.
  destruct (offsets t) as [|e es]; [done|]. rewrite fmap_cons in *. cbn [tail]. injection Hh as Hh.
  rewrite Hh in Hs, Hq. apply (iter_from_some (len (data t))); [done|lia|done|].
  intros q' Hq'. rewrite Hq in Hq'. injection Hq' as <-. lia.
Qed.

(** ** Safety of parsing *)
Section Safety.
Context `{Primitives} `{Build}.

Lemma Table_new_safe s : safe (Table_new s).
Proof.
  apply safe_bind; [auto with rust|]. intros [c r] _.
  apply safe_bind; [auto with rust|]. by intros [o r'] _.
Qed.

Lemma validate_fonts_safe s : safe (validate_fonts s).
Proof.
  apply safe_bind; [apply Table_new_safe|]. intros tbl _.
  apply safe_bind; [apply Table_validate_safe|]. intros [] Hv.
  apply Table_validate_spec, Table_iter_some in Hv.
  apply safe_bind; [|done]. induction Hv as [|[i o] l [d Hd] _ IH]; [done|]. cbn in Hd. subst o.
  cbn [foldM or_panic mbind outcome_bind].
  apply safe_bind; [|intros []; auto].
  apply safe_bind; [apply Table_new_safe|]. intros. apply Table_validate_safe.
Qed.

(** Every font of a validated set has a validated table. *)
Lemma validate_fonts_ok s t :
  validate_fonts s = Ok t →
  table_ok t ∧
  ∀ i d, (i, Some d) ∈ Table_iter t → ∃ ft, Table_new (new_stream d) = Ok ft ∧ table_ok ft.
Proof.
  unfold validate_fonts. intros Hv. inv_ok. subst. destruct x0, x1.
  split; [by apply Table_validate_spec|]. intros i d Hin.
  match goal with H : foldM _ _ _ = _ |- _ => rename H into Hfold end.
  clear -Hfold Hin. induction (Table_iter t) as [|[j o] l IH]; [by apply elem_of_nil in Hin|].
  cbn [foldM] in Hfold. inv_ok. subst. destruct x. apply elem_of_cons in Hin as [Heq|Hin]; [|auto].
  injection Heq as <- <-. eexists. split; [done|]. by apply Table_validate_spec.
Qed.

Lemma safe_map_error (r : outcome CryptoError unit) :
  safe r → safe (match r with Ok _ => Ok tt | Err e => Err (of_crypto_error e)
                 | Panic => Panic | NoFuel => NoFuel end).
Proof. by destruct r. Qed.

Lemma verify_with_keys_safe h keys : len keys <= MAX_PUBKEYS → safe (verify_with_keys h keys).
Proof.
  intros Hl. unfold verify_with_keys. apply safe_map_error. rewrite cosi_verify_cases by done.
  repeat case_match; done.
Qed.

Lemma header_verify_safe h : safe (header_verify h).
Proof.
  unfold header_verify. pose proof (verify_with_keys_safe h PUBLIC_KEYS ltac:(done)).
  destruct (verify_with_keys h PUBLIC_KEYS); try done. destruct debug; [|done].
  by apply verify_with_keys_safe.
Qed.

Lemma read_fixedsize_str_safe s n :
  input_ok s → in_u usize_bits n → safe (read_fixedsize_str s n).
Proof.
  intros Hs Hn. apply safe_bind; [auto with rust|]. intros [b r] Hr.
  apply input_read in Hr as (Hl & _); [|done..].
  apply safe_bind; [|intros x _; by destruct (utf8_valid x)].
  unfold in_u in Hn.
  destruct (list_find _ b) as [[i y]|] eqn:E.
  - apply list_find_Some in E as (E & _). apply lookup_lt_Some in E.
    assert (∃ x, slice b 0 (Z.of_nat i) = Some x) as [x ->]; [|done].
    eexists. apply slice_Some. split; [lia|]. split; [lia|reflexivity].
  - assert (∃ x, slice b 0 n = Some x) as [x ->]; [|done].
    eexists. apply slice_Some. split; [lia|]. split; [lia|reflexivity].
Qed.

Lemma read_fixedsize_str_ok s n b s' :
  input_ok s → in_u usize_bits n → read_fixedsize_str s n = Ok (b, s') → input_ok s'.
Proof.
  intros Hs Hn Hr. unfold read_fixedsize_str in Hr. inv_ok. destruct x as [b1 s1]. inv_ok.
  destruct (utf8_valid _); inv_ok. subst.
  match goal with H : read _ _ = _ |- _ => apply input_read in H as (_ & _ & ? & _) end; done.
Qed.

Lemma to_array_safe n b : len b = n → safe (to_array n b).
Proof. intros <-. unfold to_array. by rewrite Z.eqb_refl. Qed.

(** One reading step of a parser: the result is safe and the reader good. *)
Ltac read_step r :=
  let b := fresh "b" in let H := fresh "Hrd" in
  apply safe_bind; [auto with rust|]; intros [b r] H;
  first [ apply input_read in H as (? & ? & ? & ? & ? & ?); [|done|done]
        | apply input_read_byte in H as (? & ? & ? & ?); [|done]
        | apply input_read_u16 in H as (? & ? & ?); [|done] ].

Lemma parse_header_safe bytes :
  len bytes < 2 ^ 31 → Forall byte_ok bytes → safe (parse_header bytes).
Proof.
  intros Hl Hb. pose proof (new_input_ok _ Hl Hb). unfold parse_header.
  read_step r1. destruct (negb _); [done|].
  apply safe_bind; [by apply read_fixedsize_str_safe|]. intros [lang r2] Hr2.
  apply read_fixedsize_str_ok in Hr2; [|done..]. destruct (_ =? 0); [done|].
  apply safe_bind; [by apply read_fixedsize_str_safe|]. intros [model r3] Hr3.
  apply read_fixedsize_str_ok in Hr3; [|done..]. destruct (negb _); [done|].
  read_step r4. apply safe_bind; [by apply to_array_safe|]. intros ver _.
  read_step r5. read_step r6. apply safe_bind; [by apply to_array_safe|]. done.
Qed.

Lemma parse_proof_safe s : input_ok s → safe (parse_proof s).
Proof.
  intros Hs. unfold parse_proof. apply safe_bind; [auto with rust|]. intros [c r1] H1.
  apply input_read_byte in H1 as (Hc & Hr1 & _); [|done].
  assert (in_u usize_bits (c * DIGEST_SIZE)) as Hcs by (unfold in_u, DIGEST_SIZE in *; lia).
  apply safe_bind; [auto with rust|]. intros [p r2] H2.
  apply input_read in H2 as (_ & _ & Hr2 & _); [|done..].
  read_step r3. read_step r4. apply safe_bind; [by apply to_array_safe|]. intros.
  by destruct (0 <? remaining r4).
Qed.

Lemma prefixed_block_safe s : safe (read_u16_prefixed_block s).
Proof. apply safe_bind; [auto with rust|]. intros [n r] _. auto with rust. Qed.

Lemma in_u16_usize n : in_u 16 n → in_u usize_bits n.
Proof. unfold in_u. lia. Qed.

Lemma prefixed_block_ok s b s' :
  input_ok s → read_u16_prefixed_block s = Ok (b, s') →
  input_ok b ∧ input_ok s' ∧ len (rest b) < 2 ^ 16 ∧ Forall byte_ok (rest b) ∧
  rest (advance s 2) = rest b ++ rest s' ∧ pos s' = pos s + 2 + len (rest b).
Proof.
  intros Hs H1. unfold read_u16_prefixed_block in H1. inv_ok. destruct x as [n r].
  match goal with H : read_u16_le _ = _ |- _ => apply input_read_u16 in H as (Hn & Hr & ->); [|done] end.
  match goal with H : read_stream _ _ = _ |- _ => rename H into Hrd end.
  pose proof (in_u16_usize _ Hn).
  apply input_read_stream in Hrd as (Hb & Hs' & Hp & Hl & Hrest & ->); [|done..].
  assert (rest b = buf b) as Hrb by (destruct b; simpl in *; subst; apply rest_new).
  split; [done|]. split; [done|]. rewrite Hrb. unfold in_u in Hn. split; [lia|].
  split; [apply Hb|]. split; [done|]. simpl. lia.
Qed.

Lemma parse_from_safe s : input_ok s → safe (parse_from s).
Proof.
  intros Hs. unfold parse_from. read_step r1. destruct (negb _); [done|].
  read_step r2. apply safe_bind; [auto with rust|]. intros [r r3] Hr3'.
  apply input_read_stream in Hr3' as (Hr & Hr3 & _); [|done|].
  2: { unfold in_u, remaining in *. lia. }
  apply safe_bind; [apply prefixed_block_safe|]. intros [hr r4] Hb4.
  apply prefixed_block_ok in Hb4 as (Hhr & Hr4 & Hlen & Hbytes & _); [|done].
  apply safe_bind; [apply parse_header_safe; [lia|done]|]. intros [[[lang ver] dl] hash] _.
  apply safe_bind; [apply prefixed_block_safe|]. intros [pr r5] Hb5.
  apply prefixed_block_ok in Hb5 as (Hpr & Hr5 & _); [|done].
  apply safe_bind; [by apply parse_proof_safe|]. intros [proof sig] _.
  destruct (negb _); [done|]. apply safe_bind; [apply header_verify_safe|]. done.
Qed.
End Safety.

(** ** The layout of a blob *)

(** A text in a field of fixed size: what follows it starts with a zero. *)
Definition zero_padded (text field : list Z) : Prop :=
  ∃ pad, field = text ++ pad ∧ Forall (λ b, b ≠ 0) text ∧ ∀ b, head pad = Some b → b = 0.

(** A block behind its length. *)
Definition u16_block (bytes : list Z) : list Z := u16_bytes (len bytes) ++ bytes.

(** The bytes of the header, and what they say: newer headers may have more
    behind the hash. *)
Definition header_layout `{Build} (bytes language version : list Z) (data_len : Z)
    (data_hash : list Z) : Prop :=
  ∃ lang model added,
    bytes = HEADER_MAGIC ++ lang ++ model ++ version ++ u16_bytes data_len ++ data_hash ++ added ∧
    len lang = LANGUAGE_TAG_LEN ∧ zero_padded language lang ∧ language ≠ [] ∧
    len model = 4 ∧ zero_padded INTERNAL_NAME model ∧
    len version = 4 ∧ in_u 16 data_len ∧ len data_hash = DIGEST_SIZE.

(** The bytes of the proof: the hashes, the mask of the signers and the
    signature. *)
Definition proof_layout (bytes : list Z) (proof : list (list Z)) (sig : Signature) : Prop :=
  bytes = len proof :: concat proof ++ sigmask sig :: signature sig ∧
  Forall (λ d, len d = DIGEST_SIZE) proof ∧ len (signature sig) = SIGNATURE_SIZE.

(** A blob, from its first byte to its last: the parsed header is the first
    block, the proof the second, and the payload has the length the header
    says when anything follows it. *)
Definition blob_layout `{Build} (blob : list Z) (h : TranslationsHeader)
    (payload post : list Z) : Prop :=
  ∃ proof,
    blob = BLOB_MAGIC
      ++ u16_bytes (len (u16_block (header_bytes h) ++ u16_block proof) + data_len h)
      ++ u16_block (header_bytes h) ++ u16_block proof ++ payload ++ post ∧
    header_layout (header_bytes h) (language h) (version h) (data_len h) (data_hash h) ∧
    proof_layout proof (merkle_proof h) (header_signature h) ∧
    (post ≠ [] → len payload = data_len h).

(** The payload: the number of strings, their offsets and the strings in the
    first block, the table of the fonts in the second. *)
Definition payload_layout (payload : list Z) (t : Translations) : Prop :=
  ∃ count offs fonts_block,
    payload = u16_block (u16_bytes count ++ offs ++ translations t) ++ u16_block fonts_block ∧
    len offs = (count + 1) * 2 ∧ translations_offsets t = to_u16s offs ∧
    Table_new (new_stream fonts_block) = Ok (fonts t).

(** ** What an accepted translation blob guarantees

    Acceptance is authenticated, lookups in accepted translations are safe,
    and a table holds what was serialized into it. *)
Section Accept.
Context `{Primitives} `{Build}.

Lemma u16_rest s v s' :
  input_ok s → read_u16_le s = Ok (v, s') →
  in_u 16 v ∧ input_ok s' ∧ s' = advance s 2 ∧ rest s = u16_bytes v ++ rest s'.
Proof.
  intros Hs Hr. pose proof Hr as (Hv & Hs' & ->)%input_read_u16; [|done].
  unfold read_u16_le in Hr. apply bind_Ok in Hr as ([b s1] & Hb & [= <- ->]).
  apply input_read in Hb as (Hl & Hok & _ & _ & E & _); [|done|unfold in_u; lia].
  split; [done|]. split; [done|]. split; [done|]. rewrite E. f_equal.
  destruct b as [|b0 [|b1 [|]]]; simpl in Hl; try lia.
  rewrite !Forall_cons in Hok. destruct Hok as (? & ? & _). unfold u16_bytes, from_le_bytes. simpl.
  unfold byte_ok in *. rewrite Z.mul_0_r, Z.add_0_r, (Z.mul_comm 256), Z.mod_add, Z.div_add by lia.
  by rewrite Z.mod_small, Z.div_small by lia.
Qed.

Lemma rest_fresh s : pos s = 0 → rest s = buf s.
Proof. destruct s. simpl. intros ->. apply rest_new. Qed.

Lemma prefixed_block_layout s b s' :
  input_ok s → read_u16_prefixed_block s = Ok (b, s') →
  rest s = u16_block (rest b) ++ rest s' ∧ pos b = 0.
Proof.
  intros Hs Hr. apply bind_Ok in Hr as ([n r] & Hn & Hr).
  apply u16_rest in Hn as (Hn & Hr1 & _ & E); [|done].
  apply input_read_stream in Hr as (_ & _ & Hp & Hl & Hrest & _); [|done|by apply in_u16_usize].
  rewrite E, Hrest, (rest_fresh b), <- Hl, app_assoc by done. done.
Qed.

Lemma fixedsize_str_layout s n b s' :
  input_ok s → in_u usize_bits n → read_fixedsize_str s n = Ok (b, s') →
  input_ok s' ∧ ∃ field, rest s = field ++ rest s' ∧ len field = n ∧ zero_padded b field.
Proof.
  intros Hs Hn Hr. split; [by eapply read_fixedsize_str_ok|]. unfold read_fixedsize_str in Hr.
  apply bind_Ok in Hr as ([f s1] & Hf & Hr). apply bind_Ok in Hr as (x & Hx & Hr).
  destruct (utf8_valid x); [|done]. injection Hr as -> ->.
  apply input_read in Hf as (Hl & _ & _ & _ & E & _); [|done..]. exists f. split; [done|].
  split; [done|]. destruct (slice f 0 _) as [x|] eqn:Es; [|done]. injection Hx as ->.
  apply slice_Some in Es as (_ & _ & ->). rewrite Z.sub_0_r.
  destruct (list_find (λ b, b = 0) f) as [[i y]|] eqn:Ef.
  - apply list_find_Some in Ef as (Hi & -> & Hno). exists (drop i f). rewrite Nat2Z.id. change (drop (Z.to_nat 0) f) with f.
    split; [by rewrite take_drop|]. split.
    + apply Forall_forall. intros z [j Hj]%list_elem_of_lookup.
      apply lookup_take_Some in Hj as [Hj ?]. by eapply Hno.
    + intros z. rewrite head_lookup, lookup_drop, Nat.add_0_r, Hi. by intros [= <-].
  - apply list_find_None in Ef. exists []. change (drop (Z.to_nat 0) f) with f. rewrite take_ge by lia. by rewrite app_nil_r.
Qed.

Lemma to_array_Ok n b x : to_array n b = Ok x → x = b ∧ len b = n.
Proof. unfold to_array. destruct (Z.eqb_spec (len b) n); [|done]. by intros [= <-]. Qed.

(** What the parser of the header has read. *)
Lemma parse_header_layout bytes lang ver dl hash :
  len bytes < 2 ^ 31 → Forall byte_ok bytes → parse_header bytes = Ok (lang, ver, dl, hash) →
  header_layout bytes lang ver dl hash.
Proof.
  intros Hl Hb Hp. pose proof (new_input_ok _ Hl Hb) as Hs. unfold parse_header in Hp.
  apply bind_Ok in Hp as ([m r1] & H1 & Hp).
  apply input_read in H1 as (_ & _ & Hr1 & _ & E1 & _); [|done..]. rewrite rest_new in E1.
  case_bool_decide as Hm; cbn [negb] in Hp; [|done].
  apply bind_Ok in Hp as ([la r2] & H2 & Hp).
  apply fixedsize_str_layout in H2 as (Hr2 & fl & E2 & Hfl & Hzl); [|done..].
  destruct (Z.eqb_spec (len la) 0) as [|Hne]; [done|].
  apply bind_Ok in Hp as ([mo r3] & H3 & Hp).
  apply fixedsize_str_layout in H3 as (Hr3 & fm & E3 & Hfm & Hzm); [|done..].
  case_bool_decide as Hmo; cbn [negb] in Hp; [|done].
  apply bind_Ok in Hp as ([vb r4] & H4 & Hp).
  apply input_read in H4 as (Hlv & _ & Hr4 & _ & E4 & _); [|done..].
  apply bind_Ok in Hp as (v & [-> _]%to_array_Ok & Hp).
  apply bind_Ok in Hp as ([d r5] & H5 & Hp). apply u16_rest in H5 as (Hd & Hr5 & _ & E5); [|done].
  apply bind_Ok in Hp as ([hb r6] & H6 & Hp).
  apply input_read in H6 as (Hlh & _ & _ & _ & E6 & _); [|done..].
  apply bind_Ok in Hp as (h & [-> _]%to_array_Ok & [= <- <- <- <-]). subst m mo.
  exists fl, fm, (rest r6). split; [by rewrite E1, E2, E3, E4, E5, E6|].
  split; [done|]. split; [done|]. split; [by destruct la|done].
Qed.

Lemma to_digests_concat n bytes :
  len bytes = Z.of_nat n * DIGEST_SIZE →
  concat (to_digests n bytes) = bytes ∧ length (to_digests n bytes) = n ∧
  Forall (λ d, len d = DIGEST_SIZE) (to_digests n bytes).
Proof.
  unfold DIGEST_SIZE. revert bytes; induction n as [|n IH]; intros bytes Hl.
  { destruct bytes; [done|simpl in Hl; lia]. }
  destruct (IH (drop 32 bytes)) as (Ec & El & Hf); [rewrite length_drop; lia|].
  cbn [to_digests concat length]. rewrite Ec, El, take_drop. split; [done|]. split; [done|].
  constructor; [rewrite length_take; lia|done].
Qed.

(** What the parser of the proof has read. *)
Lemma parse_proof_layout s proof sig :
  input_ok s → parse_proof s = Ok (proof, sig) → proof_layout (rest s) proof sig.
Proof.
  intros Hs Hp. unfold parse_proof in Hp.
  apply bind_Ok in Hp as ([c r1] & H1 & Hp).
  apply input_read_byte in H1 as (Hc & Hr1 & E1 & _); [|done].
  assert (in_u usize_bits (c * DIGEST_SIZE)) as Hcs by (unfold in_u, DIGEST_SIZE in *; lia).
  apply bind_Ok in Hp as ([pb r2] & H2 & Hp).
  apply input_read in H2 as (Hlp & _ & Hr2 & _ & E2 & _); [|done..].
  apply bind_Ok in Hp as ([k r3] & H3 & Hp).
  apply input_read_byte in H3 as (_ & Hr3 & E3 & _); [|done].
  apply bind_Ok in Hp as ([sb r4] & H4 & Hp).
  apply input_read in H4 as (Hls & _ & Hr4 & _ & E4 & _); [|done..].
  apply bind_Ok in Hp as (b & [-> _]%to_array_Ok & Hp).
  destruct (Z.ltb_spec 0 (remaining r4)) as [|Hrem]; [done|]. injection Hp as <- <-.
  rewrite remaining_rest in Hrem by apply Hr4.
  destruct (to_digests_concat (Z.to_nat c) pb) as (Ec & El & Hf); [unfold in_u, DIGEST_SIZE in *; lia|].
  split; [|split; [done|done]].
  rewrite E1, E2, E3, E4, Ec, El. destruct (rest r4); [|simpl in Hrem; lia].
  rewrite app_nil_r, Z2Nat.id by (unfold in_u in *; lia). done.
Qed.

Lemma parse_from_ok s h payload s' :
  input_ok s → parse_from s = Ok (h, payload, s') →
  input_ok payload ∧ header_verify h = Ok () ∧
  blob_layout (rest s) h (rest payload) (rest s').
Proof.
  intros Hs Hp. unfold parse_from in Hp.
  apply bind_Ok in Hp as ([m r1] & H1 & Hp).
  apply input_read in H1 as (_ & _ & Hr1 & _ & E1 & _); [|done..].
  case_bool_decide as Hm; cbn [negb] in Hp; [|done]. subst m.
  apply bind_Ok in Hp as ([cl r2] & H2 & Hp).
  apply u16_rest in H2 as (Hcl & Hr2 & _ & E2); [|done].
  apply bind_Ok in Hp as ([r r3] & H3 & Hp).
  apply input_read_stream in H3 as (Hr & _ & Hp0 & Hlr & E3 & _); [|done|].
  2: { unfold in_u, remaining in *. lia. }
  apply bind_Ok in Hp as ([hr r4] & H4 & Hp).
  pose proof H4 as (_ & Hr4 & Hlh & Hbh & _ & Hp4)%prefixed_block_ok; [|done].
  apply prefixed_block_layout in H4 as [E4 _]; [|done].
  apply bind_Ok in Hp as ([[[lang ver] dl] hash] & Hh & Hp).
  apply parse_header_layout in Hh; [|lia|done].
  apply bind_Ok in Hp as ([pr r5] & H5 & Hp).
  pose proof H5 as (Hpr & Hr5 & Hlp & _ & _ & Hp5)%prefixed_block_ok; [|done].
  apply prefixed_block_layout in H5 as [E5 _]; [|done].
  apply bind_Ok in Hp as ([proof sig] & Hpf & Hp).
  apply parse_proof_layout in Hpf; [|done].
  destruct (Z.eqb_spec (wrapu usize_bits (cl - tell r5)) dl) as [Hdl|]; cbn [negb] in Hp; [|done].
  apply bind_Ok in Hp as ([] & Hv & [= <- <- <-]).
  split; [done|]. split; [done|].
  assert (in_u 16 dl) as Hdl16 by (destruct Hh as (?&?&?&?&?&?&?&?&?&?&?&?); done).
  assert (cl = tell r5 + dl) as Ecl.
  { unfold tell in *. rewrite Hp5, Hp4, Hp0 in *. clear -Hdl Hdl16 Hcl Hlh Hlp.
    unfold in_u, wrapu in *. destruct (Z.le_gt_cases 0 (cl - (0 + 2 + len (rest hr) + 2 + len (rest pr)))).
    - rewrite Z.mod_small in Hdl by lia. lia.
    - rewrite <- (Z_mod_plus_full _ 1), Z.mod_small in Hdl by lia. lia. }
  assert (tell r5 = len (u16_block (rest hr) ++ u16_block (rest pr))) as Etell.
  { unfold tell, u16_block. rewrite Hp5, Hp4, Hp0. rewrite !length_app. cbn [length u16_bytes]. lia. }
  exists (rest pr). cbn [header_bytes language version data_len data_hash merkle_proof header_signature].
  rewrite (rest_fresh r) in E4 by done. split; [|split; [done|split; [done|]]].
  - rewrite E1, E2, E3, E4, E5, Ecl, Etell. by rewrite <- !app_assoc.
  - intros Hpost. rewrite remaining_rest in Hlr by apply Hr2.
    rewrite E3, length_app in Hlr. destruct (rest r3) as [|x l]; [done|]. cbn [length] in Hlr.
    assert (len (buf r) = cl) as Hcl' by lia. rewrite E4, E5, app_assoc, length_app in Hcl'. lia.
Qed.

(** Acceptance, step by step. *)
Lemma Translations_new_ok addr blob t :
  len blob < 2 ^ 31 → Forall byte_ok blob → Translations_new addr blob = Ok t →
  header_verify (header t) = Ok () ∧
  offsets_ok (len (translations t)) (translations_offsets t) ∧
  (∃ s, validate_fonts s = Ok (fonts t)) ∧
  ∃ payload post, blob_layout blob (header t) payload post ∧
    Forall (λ b, b = EMPTY_BYTE) post ∧ data_hash (header t) = digest payload ∧
    payload_layout payload t.
Proof.
  intros Hl Hb Hn. unfold Translations_new in Hn.
  apply bind_Ok in Hn as ([[hdr pr] br] & Hp & Hn).
  apply parse_from_ok in Hp as (Hpr & Hv & Erest); [|by apply new_input_ok].
  rewrite rest_new in Erest.
  destruct (forallb _ _) eqn:Hpad; cbn [negb] in Hn; [|done].
  case_bool_decide as Hd; cbn [negb] in Hn; [|done].
  apply bind_Ok in Hn as ([tr p1] & H1 & Hn). apply bind_Ok in Hn as ([fr p2] & H2 & Hn).
  assert (input_ok (new_stream (rest pr))) as Hpr'.
  { apply new_input_ok; [|by apply rest_bytes]. destruct Hpr as [Hpr _].
    pose proof (rest_length _ Hpr). pose proof (stream_len _ Hpr). lia. }
  pose proof H1 as (Htr & Hp1 & _)%prefixed_block_ok; [|done].
  pose proof H2 as (Hfr & Hp2 & _)%prefixed_block_ok; [|done].
  apply prefixed_block_layout in H1 as [E1 _], H2 as [E2 Hfr0]; [|done..]. rewrite rest_new in E1.
  destruct (Z.ltb_spec 0 (remaining p2)) as [|Hrem]; [done|].
  rewrite remaining_rest in Hrem by apply Hp2.
  apply bind_Ok in Hn as ([c tr1] & H3 & Hn). apply u16_rest in H3 as (Hc & Htr1 & _ & E3); [|done].
  apply bind_Ok in Hn as ([bytes tr2] & H4 & Hn).
  apply input_read in H4 as (Hlb & _ & _ & _ & E4 & _); [|done|unfold in_u in *; lia].
  apply bind_Ok in Hn as (offs & Ho & Hn). unfold align_to_u16 in Ho.
  destruct (Z.odd _); [done|]. injection Ho as <-.
  apply bind_Ok in Hn as ([] & Hoffs & Hn). apply bind_Ok in Hn as (f & Hf & [= <-]).
  split; [done|]. split; [by apply validate_offset_table_spec|]. split; [by exists fr|].
  exists (rest pr), (rest br). split; [done|]. split; [|split; [done|]].
  { apply Forall_forall. intros x Hx.
    rewrite forallb_forall in Hpad. apply Z.eqb_eq, Hpad. by apply list_elem_of_In. }
  exists c, bytes, (rest fr). cbn [translations translations_offsets fonts].
  split; [|split; [done|split; [done|]]].
  - rewrite E1, E2, E3, E4. destruct (rest p2); [|simpl in Hrem; lia]. by rewrite app_nil_r.
  - apply bind_Ok in Hf as (tbl & Ht & Hf). apply bind_Ok in Hf as (_ & _ & Hf).
    apply bind_Ok in Hf as (_ & _ & [= <-]). rewrite (rest_fresh fr) by done.
    destruct fr; simpl in *; by subst.
Qed.

Lemma Translations_new_safe addr blob :
  len blob < 2 ^ 31 → Forall byte_ok blob → safe (Translations_new addr blob).
Proof.
  intros Hl Hb. unfold Translations_new. pose proof (new_input_ok _ Hl Hb) as Hs.
  apply safe_bind; [by apply parse_from_safe|]. intros [[hdr pr] br] Hp.
  apply parse_from_ok in Hp as (Hpr & _ & _); [|done].
  destruct (negb _); [done|]. destruct (negb _); [done|].
  apply safe_bind; [apply prefixed_block_safe|]. intros [tr p1] _.
  apply safe_bind; [apply prefixed_block_safe|]. intros [fr p2] _.
  destruct (_ <? _); [done|]. apply safe_bind; [auto with rust|]. intros [c tr1] _.
  apply safe_bind; [auto with rust|]. intros [bytes tr2] _.
  apply safe_bind; [unfold align_to_u16; by destruct (Z.odd _)|]. intros offs _.
  apply safe_bind; [apply validate_offset_table_safe|]. intros [] _.
  apply safe_bind; [apply validate_fonts_safe|]. done.
Qed.

(** ** Lookups *)

(** The items of the iterator are the data of the entries before the
    sentinel. *)
Lemma iter_from_data bytes prev entries i e d :
  entries !! i = Some e →
  slice bytes (default prev (entry_offset <$> (if i is S j then entries !! j else None)))
    (entry_offset e) = Some d →
  (id e, Some d) ∈ iter_from bytes prev entries.
Proof.
  revert prev i; induction entries as [|e0 es IH]; intros prev i; [done|].
  destruct i as [|i]; cbn [lookup list_lookup iter_from].
  - intros [= ->]. simpl. intros ->. by left.
  - intros He Hd. right. apply (IH _ i); [done|].
    destruct i as [|i]; [done|].
    destruct (lookup_lt_is_Some_2 es i) as [x Hx]; [apply lookup_lt_Some in He; lia|].
    rewrite Hx. assert ((e0 :: es) !! S i = Some x) as Hx' by done. by rewrite Hx' in Hd.
Qed.

Lemma Table_get_iter t i e next d :
  table_ok t → offsets t !! i = Some e → offsets t !! S i = Some next →
  slice (data t) (entry_offset e) (entry_offset next) = Some d →
  (id next, Some d) ∈ Table_iter t.
Proof.
  intros [(Hh & _) _ _] He Hn Hd. unfold Table_iter. destruct (offsets t) as [|e0 es]; [done|].
  cbn in Hh. injection Hh as Hh. apply (iter_from_data _ _ _ i); [done|].
  destruct i as [|i]; simpl in He |- *; [|by rewrite He].
  injection He as ->. by rewrite Hh in Hd.
Qed.

Lemma font_ok t index ft s :
  validate_fonts s = Ok (fonts t) → index ≠ SENTINEL_ID → font t index = Ok (Some ft) → table_ok ft.
Proof.
  intros [Hok Hall]%validate_fonts_ok Hi. unfold font.
  destruct (decide (Exists (λ e, id e = index) (offsets (fonts t)))) as [Hex|Hno].
  - apply Exists_exists in Hex as (e & (k & He)%list_elem_of_lookup & <-).
    destruct (table_entry _ Hok k e He Hi) as (next & d & Hn & Hd).
    rewrite (Table_get_entry _ Hok _ _ _ He Hn), Hd. cbn [mbind outcome_bind].
    destruct (Hall _ _ (Table_get_iter _ _ _ _ _ Hok He Hn Hd)) as (ft' & -> & Hft).
    by intros [= <-].
  - rewrite Table_get_absent; [done..|]. intros e He Hid. apply Hno, Exists_exists. eauto.
Qed.

Lemma font_safe t index s :
  validate_fonts s = Ok (fonts t) → index ≠ SENTINEL_ID → safe (font t index).
Proof.
  intros [Hok _]%validate_fonts_ok Hi. apply safe_bind; [by apply Table_get_safe|].
  intros [d|] _; [|done]. pose proof (Table_new_safe (new_stream d)).
  by destruct (Table_new _).
Qed.

(** The bytes stored between an index's offset and the next one. *)
Definition stored_string (t : Translations) (index : Z) (string : list Z) : Prop :=
  ∃ a b, translations_offsets t !! Z.to_nat index = Some a ∧
    translations_offsets t !! S (Z.to_nat index) = Some b ∧
    slice (translations t) a b = Some string.

Lemma translation_stored t index string :
  0 <= index → stored_string t index string →
  translation t index =
    Ok (if decide (string ≠ [] ∧ utf8_valid string = true) then Some string else None).
Proof.
  intros Hi (a & b & Ha & Hb & Hs). pose proof (lookup_lt_Some _ _ _ Hb). unfold translation.
  destruct (Z.leb_spec (len (translations_offsets t)) (index + 1)); [lia|].
  assert (getZ (translations_offsets t) index = Some a) as -> by by apply getZ_Some.
  assert (getZ (translations_offsets t) (index + 1) = Some b) as ->.
  { apply getZ_Some. split; [lia|]. by replace (Z.to_nat (index + 1)) with (S (Z.to_nat index)) by lia. }
  cbn [or_panic mbind outcome_bind]. rewrite Hs. cbn [or_panic mbind outcome_bind].
  destruct string as [|x l]; [done|]. cbn [length]. destruct (Z.eqb_spec (Z.of_nat (S (length l))) 0); [lia|].
  destruct (utf8_valid _) eqn:E; case_decide; naive_solver.
Qed.

(** Validated translations have the bytes of every index, but for those past
    the last offset. *)
Lemma stored_string_cases t index :
  offsets_ok (len (translations t)) (translations_offsets t) → 0 <= index →
  (∃ string, stored_string t index string) ∨
  (∀ string, ¬ stored_string t index string) ∧ translation t index = Ok None.
Proof.
  intros Hok Hi. destruct (Z.le_gt_cases (len (translations_offsets t)) (index + 1)) as [Hge|Hlt].
  - right. split.
    + intros s (a & b & _ & Hb%lookup_lt_Some & _). lia.
    + unfold translation. by destruct (Z.leb_spec (len (translations_offsets t)) (index + 1)); [|lia].
  - left. destruct (lookup_lt_is_Some_2 (translations_offsets t) (Z.to_nat index)) as [a Ha]; [lia|].
    destruct (lookup_lt_is_Some_2 (translations_offsets t) (S (Z.to_nat index))) as [b Hb]; [lia|].
    destruct (offsets_ok_slice _ _ _ _ _ Hok Ha Hb).
    eexists _, a, b. split; [done|]. split; [done|]. apply slice_Some. split; [lia|]. split; [lia|done].
Qed.

(** A safe result of the key check comes from enough signers. *)
Lemma verify_with_keys_ok h keys :
  len keys <= MAX_PUBKEYS → verify_with_keys h keys = Ok () →
  let signers := masked (sigmask (header_signature h)) keys in
  SIGNATURE_THRESHOLD <= len signers ∧
  ∃ k, ed25519_cosi_combine_publickeys signers = Some k ∧
    ed25519_sign_open (merkle_root (header_bytes h) (merkle_proof h)) k
      (signature (header_signature h)) = true.
Proof.
  intros Hl. unfold verify_with_keys. rewrite cosi_verify_cases by done.
  destruct (Z.leb_spec 1 SIGNATURE_THRESHOLD); [|done].
  destruct (_ =? 0); [|done].
  destruct (Z.leb_spec SIGNATURE_THRESHOLD (len (masked (sigmask (header_signature h)) keys)));
    [|done]. cbn [andb].
  destruct (ed25519_cosi_combine_publickeys _) as [k|] eqn:Ek; [|done].
  destruct (ed25519_sign_open _ k _) eqn:Es; [|done]. split; [done|]. exists k. done.
Qed.
End Accept.

(** ** Serialized tables *)

(** The reference layout of a table: the number of entries, each entry's id
    and the offset of its data, the sentinel, the data and the padding. *)
Fixpoint layout (es : list (Z * list Z)) (off : Z) : list OffsetEntry :=
  match es with
  | [] => [mkEntry SENTINEL_ID off]
  | (i, d) :: es => mkEntry i off :: layout es (off + len d)
  end.

Definition offset_entry_bytes (e : OffsetEntry) : list Z :=
  u16_bytes (id e) ++ u16_bytes (entry_offset e).

Definition table_bytes (es : list (Z * list Z)) (pad : list Z) : list Z :=
  u16_bytes (len es) ++ concat (offset_entry_bytes <$> layout es 0) ++ concat es.*2 ++ pad.

Lemma to_entries_bytes l :
  Forall (λ e, in_u 16 (id e) ∧ in_u 16 (entry_offset e)) l →
  to_entries (concat (offset_entry_bytes <$> l)) = l.
Proof.
  induction 1 as [|e l [H1 H2] _ IH]; [done|]. rewrite fmap_cons.
  unfold offset_entry_bytes at 1. cbn [concat app u16_bytes to_entries].
  rewrite IH. change [id e `mod` 256; id e / 256] with (u16_bytes (id e)).
  change [entry_offset e `mod` 256; entry_offset e / 256] with (u16_bytes (entry_offset e)).
  rewrite !from_le_u16 by done. by destruct e.
Qed.

Lemma entries_bytes_length l : len (concat (offset_entry_bytes <$> l)) = len l * 4.
Proof. induction l as [|e l IH]; [done|]. rewrite fmap_cons. cbn [concat app length offset_entry_bytes u16_bytes]. lia. Qed.

Lemma layout_length es off : length (layout es off) = S (length es).
Proof. revert off; induction es as [|[i d] es IH]; intros off; simpl; [done|]. by rewrite IH. Qed.

Lemma layout_ids es off : id <$> layout es off = es.*1 ++ [SENTINEL_ID].
Proof. revert off; induction es as [|[i d] es IH]; intros off; [done|]. simpl. by rewrite IH. Qed.

Lemma layout_last es off :
  last (layout es off) = Some (mkEntry SENTINEL_ID (off + len (concat es.*2))).
Proof.
  revert off; induction es as [|[i d] es IH]; intros off; [simpl; by rewrite Z.add_0_r|].
  cbn [layout]. specialize (IH (off + len d)).
  destruct (layout es (off + len d)) as [|e l] eqn:E; [by rewrite last_nil in IH|].
  change (last (mkEntry i off :: e :: l)) with (last (e :: l)). rewrite IH.
  rewrite fmap_cons. cbn [concat snd]. rewrite length_app. do 2 f_equal. lia.
Qed.

Lemma layout_offsets es off :
  StronglySorted Z.le (entry_offset <$> layout es off) ∧
  Forall (λ o, off <= o <= off + len (concat es.*2)) (entry_offset <$> layout es off).
Proof.
  revert off; induction es as [|[i d] es IH]; intros off.
  { simpl. repeat constructor; lia. }
  cbn [layout]. rewrite !fmap_cons. cbn [entry_offset snd concat].
  destruct (IH (off + len d)) as [Hs HF]. rewrite length_app. split.
  - constructor; [done|]. eapply Forall_impl; [exact HF|]. intros x. cbn beta. lia.
  - constructor; [lia|]. eapply Forall_impl; [exact HF|]. intros x. cbn beta. lia.
Qed.

Lemma layout_lookup es off k i d :
  es !! k = Some (i, d) →
  ∃ e next rest, layout es off !! k = Some e ∧ layout es off !! S k = Some next ∧ id e = i ∧
    concat es.*2 = concat (take k es).*2 ++ d ++ rest ∧
    entry_offset e = off + len (concat (take k es).*2) ∧
    entry_offset next = entry_offset e + len d.
Proof.
  revert off k; induction es as [|[i0 d0] es IH]; intros off k; [done|].
  destruct k as [|k]; cbn [lookup list_lookup].
  - intros [= -> ->]. exists (mkEntry i off), (default (mkEntry 0 0) (head (layout es (off + len d)))), (concat es.*2).
    simpl. split; [done|]. destruct es as [|[i1 d1] es]; simpl; split_and!; try done; lia.
  - intros Hk. destruct (IH (off + len d0) k Hk) as (e & next & r & H1 & H2 & H3 & H4 & H5 & H6).
    exists e, next, r. cbn [layout]. split; [done|]. split; [done|]. split; [done|].
    cbn [take]. rewrite !fmap_cons. cbn [concat snd].
    rewrite H4, <- app_assoc. split; [done|]. rewrite length_app. split; [lia|done].
Qed.

Lemma table_bytes_new es pad :
  Forall (λ e, in_u 16 (fst e)) es → len es < 0xFFFF → len (concat es.*2) < 2 ^ 16 →
  len pad <= 3 →
  Table_new (new_stream (table_bytes es pad)) = Ok (mkTable (layout es 0) (concat es.*2 ++ pad)).
Proof.
  intros Hi He Hd Hp. unfold Table_new, table_bytes.
  assert (Forall (λ e, in_u 16 (id e) ∧ in_u 16 (entry_offset e)) (layout es 0)) as HF.
  { apply Forall_forall. intros e Hin. split.
    - assert (id e ∈ id <$> layout es 0) as Hid by by apply list_elem_of_fmap_2.
      rewrite layout_ids in Hid. apply elem_of_app in Hid as [Hid|Hid].
      + apply list_elem_of_fmap in Hid as (x & -> & Hx). rewrite Forall_forall in Hi. by apply Hi.
      + apply list_elem_of_singleton in Hid as ->. unfold in_u, SENTINEL_ID. lia.
    - destruct (layout_offsets es 0) as [_ Ho]. rewrite Forall_forall in Ho.
      specialize (Ho (entry_offset e) ltac:(by apply list_elem_of_fmap_2)).
      unfold in_u. lia. }
  set (blk := concat (offset_entry_bytes <$> layout es 0)).
  assert (len blk = (len es + 1) * 4) as Hblk.
  { unfold blk. rewrite entries_bytes_length, layout_length. lia. }
  set (r1 := blk ++ concat es.*2 ++ pad).
  assert (stream_ok (new_stream (u16_bytes (len es) ++ r1))) as Hs.
  { apply new_stream_ok. unfold r1. rewrite !length_app. simpl length. lia. }
  unfold read_u16_le.
  pose proof (read_app _ _ _ Hs (rest_new _)) as Hrd. change (len (u16_bytes (len es))) with 2 in Hrd.
  rewrite Hrd. cbn [mbind outcome_bind]. rewrite from_le_u16 by (unfold in_u; lia).
  destruct (rest_advance_app _ _ _ Hs (rest_new _)) as [Hr2 Hs2].
  change (len (u16_bytes (len es))) with 2 in Hr2, Hs2.
  rewrite wrapu_small by (unfold in_u; lia). rewrite <- Hblk.
  rewrite (read_app _ blk (concat es.*2 ++ pad) Hs2 Hr2). cbn [mbind outcome_bind].
  destruct (rest_advance_app _ blk (concat es.*2 ++ pad) Hs2 Hr2) as [-> _].
  unfold blk. by rewrite to_entries_bytes.
Qed.

Lemma table_bytes_valid es pad :
  StronglySorted Z.lt es.*1 → Forall (λ i, 0 <= i < SENTINEL_ID) es.*1 →
  len pad <= 3 → 3 <= len (concat es.*2) + len pad → len (concat es.*2) < 2 ^ 16 →
  table_ok (mkTable (layout es 0) (concat es.*2 ++ pad)).
Proof.
  intros Hs Hi Hp Hd Hl. split; simpl.
  - destruct (layout_offsets es 0) as [Hso _]. split; [by destruct es as [|[i d] es]|].
    split; [done|]. exists (len (concat es.*2)). rewrite fmap_last, layout_last. split; [done|].
    rewrite length_app. unfold wrapu, MAX_TABLE_PADDING. rewrite Z.mod_small; lia.
  - by rewrite layout_last.
  - rewrite layout_ids. apply StronglySorted_app. split; [|split; [done|repeat constructor]].
    intros x y Hx ->%list_elem_of_singleton. rewrite Forall_forall in Hi. by apply Hi.
Qed.

Lemma table_bytes_get es pad i d :
  StronglySorted Z.lt es.*1 → Forall (λ i, 0 <= i < SENTINEL_ID) es.*1 →
  len pad <= 3 → 3 <= len (concat es.*2) + len pad → len (concat es.*2) < 2 ^ 16 →
  i ≠ SENTINEL_ID →
  Table_get (mkTable (layout es 0) (concat es.*2 ++ pad)) i = Ok (Some d) ↔ (i, d) ∈ es.
Proof.
  intros Hs Hi Hp Hd Hl Hne. pose proof (table_bytes_valid es pad Hs Hi Hp Hd Hl) as Hok.
  assert (∀ d, (i, d) ∈ es →
    Table_get (mkTable (layout es 0) (concat es.*2 ++ pad)) i = Ok (Some d)) as Hfwd.
  { intros d' [k Hk]%list_elem_of_lookup.
    destruct (layout_lookup es 0 k i d' Hk) as (e & next & r & H1 & H2 & H3 & H4 & H5 & H6).
    subst i. rewrite (Table_get_entry _ Hok k e next H1 H2). f_equal. simpl.
    rewrite H4, H6, H5, Z.add_0_l, <- !app_assoc. apply slice_app_mid. }
  split; [|apply Hfwd]. intros Hg.
  destruct (decide (i ∈ es.*1)) as [Hin|Hnin].
  - apply list_elem_of_fmap in Hin as ([i' d'] & -> & Hin). simpl in *.
    rewrite (Hfwd _ Hin) in Hg. by injection Hg as <-.
  - rewrite Table_get_absent in Hg; [done..|]. simpl. intros e He Hid.
    assert (id e ∈ id <$> layout es 0) as Hx by by apply list_elem_of_fmap_2.
    rewrite layout_ids in Hx. apply elem_of_app in Hx as [Hx|Hx]; [by rewrite Hid in Hx|].
    apply list_elem_of_singleton in Hx. congruence.
Qed.
