(* ===== verification/Flash.v ===== *)
(** * The translations area of the flash

    [translations/flash.rs] and its callers in [translations/mod.rs] and
    [translated_string.rs]: a lock around the parsed blob, whose tables point
    into the flash.  The firmware is single-threaded, so between two calls
    the lock is either free or held by the guards that [get] returned. *)
From S2P Require Import Prelude Obj Io Crypto Blob BlobFacts.
Local Open Scope Z_scope.

(** The flash driver (C): its area, and what erasing and writing do to it. *)
Class FlashDriver := {
  translations_erase : list Z → list Z;
  translations_write : list Z → list Z → Z → bool * list Z;
  area_address : Z;
  translations_erase_empty a : translations_erase a = repeat EMPTY_BYTE (length a);
}.

Definition BLOB_ALREADY_SET : Error := ValueError 16.
Definition WRITE_FAILED : Error := ValueError 17.
Definition IN_USE : Error := ValueError 18.

Section Flash.
Context `{Primitives} `{Build} `{FlashDriver}.

(* src: translations/flash.rs 10-10 (TRANSLATIONS_ON_FLASH) *)
Record FlashState := mkFlash {
  blob : option Translations;
  readers : nat;
  area : list Z;
}.

Definition set_blob (s : FlashState) (b : option Translations) : FlashState :=
  mkFlash b (readers s) (area s).
Definition set_area (s : FlashState) (a : list Z) : FlashState := mkFlash (blob s) (readers s) a.

(** [RwLock::try_write] fails while a reader holds the lock. *)
Definition try_write (s : FlashState) : bool := Nat.eqb (readers s) 0.

(* src: translations/flash.rs 15-28 (erase) *)
Definition erase (s : FlashState) : result unit * FlashState :=
  if negb (try_write s) then (Panic, s) else
  if bool_decide (is_Some (blob s)) then (Err BLOB_ALREADY_SET, s)
  else (Ok tt, set_area s (translations_erase (area s))).

(* src: translations/flash.rs 33-50 (write) *)
Definition write (s : FlashState) (bytes : list Z) (offset : Z) : result unit * FlashState :=
  if negb (try_write s) then (Panic, s) else
  if bool_decide (is_Some (blob s)) then (Err BLOB_ALREADY_SET, s)
  else
    let '(ok, a) := translations_write (area s) bytes offset in
    (if ok then Ok tt else Err WRITE_FAILED, set_area s a).

(* src: translations/flash.rs 57-67 (try_init) *)
Definition try_init (s : FlashState) : result (option Translations) :=
  let flash_data := area s in
  first ← or_panic (slice flash_data 0 16);
  if bool_decide (first = repeat EMPTY_BYTE 16) then Ok None
  else Some <$> Translations_new area_address flash_data.

(** Upgrading the lock spins until the readers are gone, which in a single
    thread is forever: [NoFuel]. *)
(* src: translations/flash.rs 76-91 (init) *)
Definition init (s : FlashState) : result unit * FlashState :=
  if bool_decide (is_Some (blob s)) then (Ok tt, s)
  else if negb (Nat.eqb (readers s) 0) then (NoFuel, s)
  else match try_init s with
       | Ok (Some t) => (Ok tt, set_blob s (Some t))
       | Ok None => (Ok tt, s)
       | Err _ => (Ok tt, set_area s (translations_erase (area s)))
       | Panic => (Panic, s)
       | NoFuel => (NoFuel, s)
       end.

(* src: translations/flash.rs 96-102 (deinit) *)
Definition deinit (s : FlashState) : result unit * FlashState :=
  if negb (try_write s) then (Err IN_USE, s) else (Ok tt, set_blob s None).

(** A guard is a reader and the value it sees; no writer is ever active
    between two calls. *)
(* src: translations/flash.rs 119-123 (get) *)
Definition get (s : FlashState) : result (option Translations) * FlashState :=
  (Ok (blob s), mkFlash (blob s) (S (readers s)) (area s)).

Definition drop_guard (s : FlashState) : FlashState :=
  mkFlash (blob s) (pred (readers s)) (area s).

(** C passes the font as a negative number; the guard is dropped at the end. *)
(* src: translations/mod.rs 18-36 (get_utf8_glyph) *)
Definition get_utf8_glyph (s : FlashState) (codepoint font_id : Z) : result (option (list Z)) :=
  let font_abs := wrapu 16 (Z.abs font_id) in
  match get s with
  | (Ok None, _) => Ok None
  | (Ok (Some tr), _) =>
    t ← font tr font_abs;
    match t with None => Ok None | Some t => Table_get t codepoint end
  | (Err _, _) => Ok None
  | (Panic, _) => Panic
  | (NoFuel, _) => NoFuel
  end.

(** The closure runs while the guard is held. *)
(* src: translations/translated_string.rs 24-34 (TranslatedString::map_translated) *)
Definition map_translated {T} (s : FlashState) (untranslated : list Z) (index : Z)
    (fun_ : list Z → FlashState → T * FlashState) : result T * FlashState :=
  match get s with
  | (Ok translations, s1) =>
    match translate untranslated index translations with
    | Ok text => let '(t, s2) := fun_ text s1 in (Ok t, drop_guard s2)
    | Err e => (Err e, drop_guard s1)
    | Panic => (Panic, s1)
    | NoFuel => (NoFuel, s1)
    end
  | (Err _, s1) => (Panic, s1)
  | (Panic, s1) => (Panic, s1)
  | (NoFuel, s1) => (NoFuel, s1)
  end.

(** ** The state machine *)
Inductive FlashOp :=
| OpErase
| OpWrite (bytes : list Z) (offset : Z)
| OpInit
| OpDeinit
| OpGet
| OpDrop.

Definition run (o : FlashOp) (s : FlashState) : result unit * FlashState :=
  match o with
  | OpErase => erase s
  | OpWrite b off => write s b off
  | OpInit => init s
  | OpDeinit => deinit s
  | OpGet => let '(r, s) := get s in ((λ _, tt) <$> r, s)
  | OpDrop => (if Nat.eqb (readers s) 0 then Err IN_USE else Ok tt, drop_guard s)
  end.

(** A call that returns, with or without an error. *)
Inductive step : FlashState → FlashState → Prop :=
| step_run o s r s' : run o s = (r, s') → safe r → step s s'.

Inductive reachable : FlashState → Prop :=
| reachable_start a : reachable (mkFlash None 0 a)
| reachable_step s s' : reachable s → step s s' → reachable s'.

(** The cached tables are those of the current contents of the flash. *)
Definition cache_ok (s : FlashState) : Prop :=
  ∀ t, blob s = Some t → Translations_new area_address (area s) = Ok t.

Lemma step_guarded s s' : step s s' → (0 < readers s)%nat → blob s' = blob s ∧ area s' = area s.
Proof.
  intros [o s0 r s0' Hrun Hsafe] Hr. assert (Nat.eqb (readers s0) 0 = false) as E by (apply Nat.eqb_neq; lia).
  destruct o; simpl in Hrun; unfold erase, write, init, deinit, try_write in Hrun;
    rewrite ?E in Hrun; cbn [negb] in Hrun; repeat case_match; simplify_eq; done.
Qed.

Lemma try_init_cache s t : try_init s = Ok (Some t) → Translations_new area_address (area s) = Ok t.
Proof.
  unfold try_init. intros Ht. apply bind_Ok in Ht as (f & _ & Ht). case_bool_decide; [done|].
  destruct (Translations_new _ _); simpl in Ht; congruence.
Qed.

Lemma cache_unset s a : bool_decide (is_Some (blob s)) = false → cache_ok (set_area s a).
Proof.
  intros Hb t Ht. simpl in Ht. rewrite Ht in Hb. by rewrite bool_decide_true in Hb by eauto.
Qed.

Lemma step_cache s s' : cache_ok s → step s s' → cache_ok s'.
Proof.
  intros Hc Hst. revert Hc. destruct Hst as [o s0 r s0' Hrun Hsafe]. intros Hc.
  destruct o; simpl in Hrun; unfold erase, write, init, deinit in Hrun;
    repeat case_match; simplify_eq;
    first [exact Hc | by apply cache_unset | by intros t' [= <-]; apply try_init_cache | by intros t' [=]].
Qed.

Lemma reachable_cache s : reachable s → cache_ok s.
Proof. induction 1; [done|]. by eapply step_cache. Qed.
End Flash.
