(* ===== verification/TString.v ===== *)
(** * Strings of the user interface

    [TString] of [strutil.rs] over [StrBuffer] of [micropython/buffer.rs] and
    the translations: a string is a static text, an allocated buffer, or a
    translation with an offset, looked up again at every use. *)
From S2P Require Import Prelude Obj Io Crypto Blob Flash.
Local Open Scope Z_scope.

(** [str::is_char_boundary]. *)
Definition is_char_boundary (s : list Z) (i : Z) : bool :=
  (i =? 0) || (i =? len s) ||
  match getZ s i with Some b => (b <? 128) || (192 <=? b) | None => false end.

(** [&s[from..]] of a [str]. *)
Definition str_from (s : list Z) (from : Z) : result (list Z) :=
  if (from <=? len s) && is_char_boundary s from then Ok (drop (Z.to_nat from) s) else Panic.

(** The memory at the pointer, or the null pointer. *)
(* src: micropython/buffer.rs 24-28 (StrBuffer) *)
Record StrBuffer := mkStr { sb_ptr : option (list Z); sb_len : Z; sb_off : Z }.

(* src: micropython/buffer.rs 40-46 (StrBuffer::from_ptr_and_len) *)
Definition from_ptr_and_len (mem : list Z) : result StrBuffer :=
  n ← or_panic (if fits_u 16 (len mem) then Some (len mem) else None);
  Ok (mkStr (Some mem) n 0).

(* src: micropython/buffer.rs 85-91 (StrBuffer::as_bytes) *)
Definition sb_as_bytes (s : StrBuffer) : result (list Z) :=
  match sb_ptr s with
  | None => Ok []
  | Some mem => or_panic (slice mem (sb_off s) (sb_off s + sb_len s))
  end.

(* src: micropython/buffer.rs 93-106 (StrBuffer::skip_prefix) *)
Definition sb_skip_prefix (s : StrBuffer) (skip_bytes : Z) : result StrBuffer :=
  off ← or_panic (if fits_u 16 skip_bytes then Some skip_bytes else None);
  if negb (off <=? sb_len s) then Panic else
  text ← sb_as_bytes s;
  if negb (is_char_boundary text skip_bytes) then Panic else
  Ok (mkStr (sb_ptr s) (sb_len s - off) (wrapu 16 (sb_off s + off))).

(* src: strutil.rs 58-68 (TString) *)
Inductive TString :=
| Allocated (buf : StrBuffer)
| Translation (tr : Z) (offset : Z)
| Str (s : list Z).

Section TString.
Context `{Primitives} `{Build} `{FlashDriver}.

(** The built-in (generated) English texts. *)
Context (untranslated : Z → list Z).

(* src: strutil.rs 87-98 (TString::map) *)
Definition tstring_map {T} (st : FlashState) (self : TString) (fun_ : list Z → result T) : result T :=
  match self with
  | Allocated buf => s ← sb_as_bytes buf; fun_ s
  | Translation tr offset =>
    r ← fst (map_translated st (untranslated tr) tr
               (λ s st, (t ← str_from s offset; fun_ t, st)));
    r
  | Str s => fun_ s
  end.

(** The text of a string. *)
Definition text (st : FlashState) (self : TString) : result (list Z) := tstring_map st self Ok.

(* src: strutil.rs 71-77 (TString::len, TString::is_empty) *)
Definition tstring_len (st : FlashState) (self : TString) : result Z :=
  tstring_map st self (λ s, Ok (len s)).

(* src: strutil.rs 178-182 (PartialEq for TString) *)
Definition tstring_eq (st : FlashState) (self other : TString) : result bool :=
  tstring_map st self (λ s, tstring_map st other (λ o, Ok (bool_decide (s = o)))).

(* src: strutil.rs 100-115 (TString::skip_prefix) *)
Definition skip_prefix (st : FlashState) (self : TString) (skip_bytes : Z) : result TString :=
  _ ← tstring_map st self (λ s,
        if negb (skip_bytes <=? len s) then Panic
        else if negb (is_char_boundary s skip_bytes) then Panic else Ok tt);
  match self with
  | Allocated s => Allocated <$> sb_skip_prefix s skip_bytes
  | Translation tr offset =>
    Ok (Translation tr (wrapu 16 (offset + wrapu 16 skip_bytes)))
  | Str s => Str <$> str_from s skip_bytes
  end.

(** Offsets and lengths that are in range of their fields. *)
Definition tstring_ok (st : FlashState) (self : TString) : Prop :=
  match self with
  | Allocated buf =>
    0 <= sb_off buf ∧ 0 <= sb_len buf ∧ sb_off buf + sb_len buf < 2 ^ 16 ∧ is_Some (sb_ptr buf)
  | Translation tr offset =>
    0 <= offset ∧ ∀ s, translate (untranslated tr) tr (blob st) = Ok s → len s < 2 ^ 16
  | Str s => True
  end.

Lemma map_text {T} st self (f : list Z → result T) :
  tstring_map st self f = (t ← text st self; f t).
Proof.
  unfold text, tstring_map. destruct self as [buf|tr off|s]; [by destruct (sb_as_bytes buf)| |done].
  unfold map_translated, get. destruct (translate _ _ _) as [s| | |]; simpl; [|done..].
  by destruct (str_from s off).
Qed.

Lemma boundary_range s i : is_char_boundary s i = true → 0 <= i <= len s.
Proof.
  unfold is_char_boundary. destruct (Z.eqb_spec i 0), (Z.eqb_spec i (len s)); simpl; try lia.
  destruct (getZ s i) eqn:E; [|done]. apply getZ_lt in E. lia.
Qed.

Lemma boundary_drop s off i :
  0 <= off <= len s → 0 <= i →
  is_char_boundary s off = true → is_char_boundary (drop (Z.to_nat off) s) i = true →
  is_char_boundary s (off + i) = true.
Proof.
  intros Ho Hi Hb Hd. destruct (Z.eq_dec i 0) as [->|]; [by rewrite Z.add_0_r|].
  unfold is_char_boundary in Hd |- *. rewrite length_drop in Hd.
  destruct (Z.eqb_spec i 0); [lia|]. cbn [orb] in Hd.
  destruct (Z.eqb_spec (off + i) (len s)); [by rewrite orb_true_r|].
  destruct (Z.eqb_spec i (Z.of_nat (length s - Z.to_nat off))); [lia|]. cbn [orb] in Hd.
  rewrite orb_comm. apply orb_true_intro. left.
  assert (getZ s (off + i) = getZ (drop (Z.to_nat off) s) i) as ->; [|exact Hd].
  unfold getZ. destruct (Z.ltb_spec (off + i) 0), (Z.ltb_spec i 0); try lia.
  rewrite lookup_drop. f_equal. lia.
Qed.

Lemma str_from_Ok s from t :
  str_from s from = Ok t → 0 <= from <= len s ∧ is_char_boundary s from = true ∧
  t = drop (Z.to_nat from) s.
Proof.
  unfold str_from. destruct (_ && _) eqn:E; [|done]. intros [= <-].
  apply andb_true_iff in E as [_ E]. pose proof (boundary_range _ _ E). done.
Qed.

Lemma skip_prefix_text st self t n :
  tstring_ok st self → text st self = Ok t → is_char_boundary t n = true →
  ∃ self', skip_prefix st self n = Ok self' ∧ tstring_ok st self' ∧
    text st self' = Ok (drop (Z.to_nat n) t).
Proof.
  intros Hok Ht Hb. pose proof (boundary_range _ _ Hb) as Hn.
  unfold skip_prefix. rewrite map_text, Ht. cbn [mbind outcome_bind].
  destruct (Z.leb_spec n (len t)); [|lia]. rewrite Hb. cbn [negb mbind outcome_bind].
  destruct self as [[ptr sl off]|tr off|s]; simpl in Hok.
  - destruct Hok as (Hs1 & Hs2 & Hs3 & [mem ->]). unfold text, tstring_map in Ht. simpl in Ht.
    unfold sb_skip_prefix, sb_as_bytes in *. simpl in *.
    destruct (slice mem off (off + sl)) as [t'|] eqn:E; [|done]. simpl in Ht. injection Ht as ->.
    pose proof (slice_length _ _ _ _ E). apply slice_Some in E as (Hr1 & Hr2 & E).
    assert (fits_u 16 n = true) as -> by (apply fits_u_spec; unfold in_u; lia). simpl.
    destruct (Z.leb_spec n sl); [|lia]. simpl. rewrite Hb. simpl. eexists. split; [done|].
    rewrite wrapu_small by (unfold in_u; lia). unfold tstring_ok, text, tstring_map, sb_as_bytes. simpl.
    split; [split_and!; try lia; eauto|].
    assert (slice mem (off + n) (off + n + (sl - n)) = Some (drop (Z.to_nat n) t)) as ->; [|done].
    apply slice_Some. split; [lia|]. split; [lia|]. rewrite E, skipn_firstn_comm, drop_drop.
    f_equal; [|f_equal]; lia.
  - destruct Hok as [Hoff Hlen]. unfold text, tstring_map, map_translated, get in Ht |- *.
    destruct (translate _ _ _) as [s| | |] eqn:E; try done. simpl in Ht.
    destruct (str_from s off) as [t'| | |] eqn:Es; try done. simpl in Ht. injection Ht as ->.
    apply str_from_Ok in Es as (Ho & Hbo & ->). specialize (Hlen s eq_refl).
    rewrite length_drop in Hn.
    rewrite (wrapu_small 16 n) by (unfold in_u; lia).
    rewrite wrapu_small by (unfold in_u; lia). eexists. split; [done|]. split.
    + split; [lia|]. intros s' Hs'. congruence.
    + rewrite E. simpl.
      assert (str_from s (off + n) = Ok (drop (Z.to_nat n) (drop (Z.to_nat off) s))) as ->; [|done].
      unfold str_from. rewrite boundary_drop by (done || lia).
      destruct (Z.leb_spec (off + n) (len s)); [|lia]. simpl. rewrite drop_drop. do 2 f_equal. lia.
  - unfold text in Ht. simpl in Ht. injection Ht as ->. unfold str_from.
    destruct (Z.leb_spec n (len t)); [|lia]. rewrite Hb. simpl. eexists. done.
Qed.
End TString.
