(* ===== verification/TransSpec.v ===== *)
(** * What the translations subsystem promises

    The properties of [crypto/] and [translations/], with a sample blob and
    toy primitives on which the witnesses run. *)
From S2P Require Import Prelude Obj Io Crypto Blob BlobFacts Flash TString.
From stdpp Require Import sorting.
Local Open Scope Z_scope.

(** ** A sample: a sum as hash, and keys and signatures that always pass *)
Definition toy_hash (m : list Z) : list Z := repeat (foldr Z.add 0 m `mod` 256) 32.

Definition toy : Primitives := {|
  sha256_Final := toy_hash;
  ed25519_cosi_combine_publickeys := head;
  ed25519_sign_open m k s := len m =? 32;
  sha256_Final_size m := eq_refl;
|}.

Definition toy_build : Build := {| INTERNAL_NAME := [84; 50; 84; 49]; debug := false |}.

Definition sample_payload : list Z :=
  let tr := u16_bytes 2 ++ u16_bytes 0 ++ u16_bytes 2 ++ u16_bytes 5 ++ [72; 105; 66; 121; 101] in
  let fonts := table_bytes [(1, table_bytes [(65, [1; 2; 3])] [])] [] in
  u16_bytes (len tr) ++ tr ++ u16_bytes (len fonts) ++ fonts.

Definition sample_header : list Z :=
  [84; 82] ++ [101; 110; 45; 85; 83; 0; 0; 0] ++ [84; 50; 84; 49] ++ [2; 8; 0; 0]
  ++ u16_bytes (len sample_payload) ++ toy_hash sample_payload.

Definition sample_blob : list Z :=
  let proof := [0; 3] ++ repeat 0 64 in
  let container := u16_bytes (len sample_header) ++ sample_header
    ++ u16_bytes (len proof) ++ proof ++ sample_payload in
  [84; 82; 84; 82; 48; 48] ++ u16_bytes (len container) ++ container ++ repeat 0xFF 20.

Definition sample_translations : Translations :=
  match @Translations_new toy toy_build 0 sample_blob with
  | Ok t => t
  | _ => mkTranslations (mkHeader [] [] [] 0 [] [] (mkSignature 0 []) 0) [] [] (mkTable [] [])
  end.

Example sample_accepted : @Translations_new toy toy_build 0 sample_blob = Ok sample_translations.
Proof. vm_compute. reflexivity. Qed.
Example sample_string : translation sample_translations 1 = Ok (Some [66; 121; 101]).
Proof. vm_compute. reflexivity. Qed.

Definition toy_flash : FlashDriver := {|
  translations_erase a := repeat EMPTY_BYTE (length a);
  translations_write a b off := (true, a);
  area_address := 0;
  translations_erase_empty a := eq_refl;
|}.

Lemma sample_bytes : Forall byte_ok sample_blob.
Proof. apply (bool_decide_unpack _). vm_compute. exact I. Qed.

(** ** Merkle proofs and collective signatures *)

(** C9. Merkle proofs: the computed root of a leaf with the sibling hashes on
    its path is the root of the tree; and an element whose computed root is
    the root of some tree is a leaf of that tree, whatever the proof, unless
    the hash function has a collision. *)
Theorem merkle_root_correct `{Primitives} elem t proof :
  (proof_of elem t proof → merkle_root elem proof = tree_root t) ∧
  (Forall (λ p, len p = DIGEST_SIZE) proof → merkle_root elem proof = tree_root t →
   (∃ p, proof_of elem t p) ∨ collision).
Proof. split; [apply merkle_root_proof|apply merkle_root_authentic]. Qed.

Lemma merkle_root_correct_witness :
  @merkle_root toy [7] [@tree_root toy (Leaf [9])] = @tree_root toy (Node (Leaf [7]) (Leaf [9])).
Proof.
  apply (@merkle_root_correct toy [7] (Node (Leaf [7]) (Leaf [9])) ([] ++ [@tree_root toy (Leaf [9])])).
  apply proof_left. apply proof_leaf.
Defined.

(** A collective signature is accepted exactly when the threshold is
    positive, the mask names only existing keys, at least the threshold of
    them, these keys combine, and the signature verifies under the combined
    key; the check never aborts for up to three keys. *)
Theorem cosi_verify_accepts `{Primitives} threshold message keys sig :
  len keys <= MAX_PUBKEYS →
  safe (cosi_verify threshold message keys sig) ∧
  (cosi_verify threshold message keys sig = Ok () ↔
   1 <= threshold ∧ Z.shiftr (sigmask sig) (len keys) = 0 ∧
   threshold <= len (masked (sigmask sig) keys) ∧
   ∃ k, ed25519_cosi_combine_publickeys (masked (sigmask sig) keys) = Some k ∧
     ed25519_sign_open message k (signature sig) = true).
Proof.
  intros Hl. rewrite cosi_verify_cases by done.
  destruct (Z.leb_spec 1 threshold); cbn [andb]; [|split; [done|]; split; [done|lia]].
  destruct (Z.eqb_spec (Z.shiftr (sigmask sig) (len keys)) 0) as [E|E]; cbn [andb];
    [|split; [done|]; split; [done|]; intros (_ & ? & _); lia].
  destruct (Z.leb_spec threshold (len (masked (sigmask sig) keys)));
    [|split; [done|]; split; [done|lia]].
  destruct (ed25519_cosi_combine_publickeys _) as [k|] eqn:Ek.
  - destruct (ed25519_sign_open _ _ _) eqn:Es; (split; [done|]); split; [eauto 10|done|done|].
    intros (_ & _ & _ & k' & [= <-] & Hk). congruence.
  - split; [done|]. split; [done|]. by intros (_ & _ & _ & k' & [=] & _).
Qed.

Lemma cosi_verify_accepts_witness :
  safe (@cosi_verify toy 2 (repeat 0 32) PUBLIC_KEYS (mkSignature 3 [])) ∧
  (@cosi_verify toy 2 (repeat 0 32) PUBLIC_KEYS (mkSignature 3 []) = Ok () ↔
   1 <= 2 ∧ Z.shiftr 3 2 = 0 ∧ 2 <= len (masked 3 PUBLIC_KEYS) ∧
   ∃ k, @ed25519_cosi_combine_publickeys toy (masked 3 PUBLIC_KEYS) = Some k ∧
     @ed25519_sign_open toy (repeat 0 32) k [] = true).
Proof. apply (@cosi_verify_accepts toy). vm_compute. discriminate. Defined.

(** ** Blobs *)

(** C6. Whatever bytes are presented as a translation blob, at any address,
    parsing and verifying them returns translations or an error: it never
    aborts, indexes out of range or loops. *)
Theorem translations_new_total `{Primitives} `{Build} addr blob :
  len blob < 2 ^ 31 → Forall byte_ok blob → safe (Translations_new addr blob).
Proof. apply Translations_new_safe. Qed.

Lemma translations_new_total_witness : safe (@Translations_new toy toy_build 4 sample_blob).
Proof.
  apply (@translations_new_total toy toy_build); [vm_compute; reflexivity|exact sample_bytes].
Defined.

(** C5. An accepted blob is authentic: from its first byte to its last it is
    the header, the proof, the payload and filler, each in its block; at least
    two of the built-in keys (in a debug build, possibly of the development
    keys) signed the Merkle root of exactly these bytes of the header; the
    bytes of the header, so signed, hold the language, the model of this
    firmware and the hash of exactly these bytes of the payload; and the
    strings, their offsets and the fonts are read from this payload. *)
Theorem translations_authentic `{Primitives} `{Build} addr blob t :
  len blob < 2 ^ 31 → Forall byte_ok blob → Translations_new addr blob = Ok t →
  let h := header t in
  (∃ keys, (keys = PUBLIC_KEYS ∨ debug = true ∧ keys = PUBLIC_KEYS_DEVEL) ∧
     2 <= len (masked (sigmask (header_signature h)) keys) ∧
     ∃ k, ed25519_cosi_combine_publickeys (masked (sigmask (header_signature h)) keys) = Some k ∧
       ed25519_sign_open (merkle_root (header_bytes h) (merkle_proof h)) k
         (signature (header_signature h)) = true) ∧
  ∃ payload post, blob_layout blob h payload post ∧
    data_hash h = digest payload ∧ Forall (λ b, b = EMPTY_BYTE) post ∧ payload_layout payload t.
Proof.
  intros Hl Hb Hn h. apply Translations_new_ok in Hn as (Hv & _ & _ & p & post & ? & ? & ? & ?); [|done..].
  split; [|eauto 10]. unfold header_verify in Hv.
  destruct (verify_with_keys (header t) PUBLIC_KEYS) as [[]| | |] eqn:E; try done.
  - exists PUBLIC_KEYS. split; [by left|]. by apply verify_with_keys_ok in E.
  - destruct debug; [|done]. exists PUBLIC_KEYS_DEVEL. split; [by right|].
    by apply verify_with_keys_ok in Hv.
Qed.

Lemma translations_authentic_witness :
  let h := header sample_translations in
  (∃ keys, (keys = PUBLIC_KEYS ∨ @debug toy_build = true ∧ keys = PUBLIC_KEYS_DEVEL) ∧
     2 <= len (masked (sigmask (header_signature h)) keys) ∧
     ∃ k, @ed25519_cosi_combine_publickeys toy (masked (sigmask (header_signature h)) keys) = Some k ∧
       @ed25519_sign_open toy (@merkle_root toy (header_bytes h) (merkle_proof h)) k
         (signature (header_signature h)) = true) ∧
  ∃ payload post, @blob_layout toy_build sample_blob h payload post ∧
    data_hash h = @digest toy payload ∧ Forall (λ b, b = EMPTY_BYTE) post ∧
    payload_layout payload sample_translations.
Proof.
  apply (@translations_authentic toy toy_build 0 sample_blob);
    [vm_compute; reflexivity|exact sample_bytes|exact sample_accepted].
Defined.

(** A table serialized in the reference layout is read back, passes
    validation, and looking an id up returns exactly the data stored under
    it, if any. *)
Theorem table_roundtrip es pad :
  StronglySorted Z.lt es.*1 → Forall (λ i, 0 <= i < SENTINEL_ID) es.*1 →
  len es < 0xFFFF → len (concat es.*2) < 2 ^ 16 →
  len pad <= 3 → 3 <= len (concat es.*2) + len pad →
  ∃ t, Table_new (new_stream (table_bytes es pad)) = Ok t ∧ Table_validate t = Ok () ∧
    ∀ i d, i ≠ SENTINEL_ID → (Table_get t i = Ok (Some d) ↔ (i, d) ∈ es).
Proof.
  intros Hs Hi He Hd Hp Hmin. eexists. split; [apply table_bytes_new; try done|split].
  - apply Forall_forall. intros e Hin. rewrite Forall_forall in Hi.
    specialize (Hi (fst e) ltac:(by apply list_elem_of_fmap_2)). unfold in_u, SENTINEL_ID in *. lia.
  - by apply Table_validate_spec, table_bytes_valid.
  - intros. by apply table_bytes_get.
Qed.

Lemma table_roundtrip_witness :
  ∃ t, Table_new (new_stream (table_bytes [(65, [1; 2; 3]); (70, [])] [])) = Ok t ∧
    Table_validate t = Ok () ∧
    ∀ i d, i ≠ SENTINEL_ID → (Table_get t i = Ok (Some d) ↔ (i, d) ∈ [(65, [1; 2; 3]); (70, [])]).
Proof.
  apply table_roundtrip.
  - simpl. repeat constructor.
  - apply (bool_decide_unpack _). vm_compute. exact I.
  - simpl. lia.
  - simpl. lia.
  - simpl. lia.
  - simpl. lia.
Defined.

(** The sentinel at the end of a validated table is found by the binary
    search like any entry, but has no successor: looking up the id 0xFFFF
    aborts. *)
Theorem table_get_sentinel_panics t : Table_validate t = Ok () → Table_get t SENTINEL_ID = Panic.
Proof. intros Hv. apply Table_get_sentinel. by apply Table_validate_spec. Qed.

Lemma table_get_sentinel_panics_witness : Table_get (fonts sample_translations) SENTINEL_ID = Panic.
Proof. apply table_get_sentinel_panics. vm_compute. reflexivity. Defined.

(** ** The flash *)

(** C7. In every reachable state of the flash, the cached translations are
    what parsing the current contents gives; and while somebody holds a guard
    no step changes the cache or the flash, so what the guard lends stays
    valid until it is dropped. *)
Theorem flash_cache_valid `{Primitives} `{Build} `{FlashDriver} s :
  reachable s →
  (∀ t, Flash.blob s = Some t → Translations_new area_address (area s) = Ok t) ∧
  (∀ s', step s s' → (0 < readers s)%nat → Flash.blob s' = Flash.blob s ∧ area s' = area s).
Proof. intros Hr. split; [by apply reachable_cache|]. intros s' Hst. by apply step_guarded. Qed.

Lemma flash_reach_sample :
  @reachable toy toy_build toy_flash (mkFlash (Some sample_translations) 1 sample_blob).
Proof.
  eapply reachable_step; [eapply reachable_step; [apply (reachable_start sample_blob)|]|].
  - apply (@step_run toy toy_build toy_flash OpInit _ (Ok tt)
             (mkFlash (Some sample_translations) 0 sample_blob)); [vm_compute; reflexivity|exact I].
  - by apply (@step_run toy toy_build toy_flash OpGet _ (Ok tt)).
Qed.

Lemma flash_cache_valid_witness :
  (∀ t, Some sample_translations = Some t → @Translations_new toy toy_build 0 sample_blob = Ok t) ∧
  (∀ s', @step toy toy_build toy_flash (mkFlash (Some sample_translations) 1 sample_blob) s' →
     (0 < 1)%nat → Flash.blob s' = Some sample_translations ∧ area s' = sample_blob).
Proof.
  apply (@flash_cache_valid toy toy_build toy_flash
           (mkFlash (Some sample_translations) 1 sample_blob)).
  exact flash_reach_sample.
Defined.

(** C8. Once the flash holds translations, in any reachable state: looking up
    a string gives exactly the bytes stored under its index when these are not
    empty and valid UTF-8, and the built-in string when there are none, when
    they are empty, and when they are not valid; and every glyph lookup, other
    than of the id 0xFFFF, is safe. *)
Theorem flash_lookups_safe `{Primitives} `{Build} `{FlashDriver} s t index untranslated cp font_id :
  reachable s → len (area s) < 2 ^ 31 → Forall byte_ok (area s) → Flash.blob s = Some t →
  0 <= index → cp ≠ SENTINEL_ID → wrapu 16 (Z.abs font_id) ≠ SENTINEL_ID →
  (∀ string, stored_string t index string → string ≠ [] → utf8_valid string = true →
     translate untranslated index (Some t) = Ok string) ∧
  ((∀ string, stored_string t index string → string = [] ∨ utf8_valid string = false) →
     translate untranslated index (Some t) = Ok untranslated) ∧
  safe (get_utf8_glyph s cp font_id).
Proof.
  intros Hr Hl Hb Ht Hi Hcp Hf. pose proof (reachable_cache s Hr t Ht) as Hn.
  apply Translations_new_ok in Hn as (_ & Ho & [fs Hfs] & _); [|done..].
  unfold translate. split; [|split].
  - intros str Hs Hne Hv. rewrite (translation_stored _ _ _ Hi Hs). by rewrite decide_True.
  - intros Hno. destruct (stored_string_cases t index Ho Hi) as [[str Hs]|[_ ->]]; [|done].
    rewrite (translation_stored _ _ _ Hi Hs), decide_False; [done|].
    intros [Hne Hv]. destruct (Hno _ Hs); congruence.
  - unfold get_utf8_glyph, get. rewrite Ht. apply safe_bind; [by eapply font_safe|].
    intros [ft|] Hft; [|done]. apply Table_get_safe; [|done]. by eapply font_ok.
Qed.

Lemma flash_lookups_safe_witness :
  stored_string sample_translations 1 [66; 121; 101] ∧
  (∀ string, stored_string sample_translations 1 string → string ≠ [] → utf8_valid string = true →
     translate [63] 1 (Some sample_translations) = Ok string) ∧
  ((∀ string, stored_string sample_translations 1 string → string = [] ∨ utf8_valid string = false) →
     translate [63] 1 (Some sample_translations) = Ok [63]) ∧
  safe (get_utf8_glyph (mkFlash (Some sample_translations) 1 sample_blob) 65 (-1)).
Proof.
  split; [exists 2, 5; vm_compute; done|].
  apply (@flash_lookups_safe toy toy_build toy_flash
           (mkFlash (Some sample_translations) 1 sample_blob)).
  - exact flash_reach_sample.
  - vm_compute. reflexivity.
  - exact sample_bytes.
  - reflexivity.
  - lia.
  - discriminate.
  - discriminate.
Defined.

(** Initialization always ends well when nobody holds a guard: the cache
    then holds the translations of the flash, or the flash has been found
    empty and left alone, or its contents were invalid and it was erased. *)
Theorem flash_init_outcome `{Primitives} `{Build} `{FlashDriver} s :
  Flash.blob s = None → readers s = 0%nat →
  16 <= len (area s) < 2 ^ 31 → Forall byte_ok (area s) →
  ∃ s', init s = (Ok (), s') ∧
    ((∃ t, Translations_new area_address (area s) = Ok t ∧ s' = mkFlash (Some t) 0 (area s)) ∨
     (take 16 (area s) = repeat EMPTY_BYTE 16 ∧ s' = s) ∨
     ((∃ e, Translations_new area_address (area s) = Err e) ∧
      s' = mkFlash None 0 (repeat EMPTY_BYTE (length (area s))))).
Proof.
  destruct s as [b r a]. simpl. intros -> -> Hl Hb. unfold init, try_init. simpl.
  assert (slice a 0 16 = Some (take 16 a)) as ->.
  { apply slice_Some. split; [lia|]. split; [lia|reflexivity]. }
  cbn [or_panic mbind outcome_bind]. case_bool_decide as He; [eauto 10|].
  pose proof (Translations_new_safe area_address a ltac:(lia) Hb) as Hs.
  destruct (Translations_new area_address a) as [t|e| |] eqn:E; try done; simpl.
  - eexists. split; [done|]. left. eauto.
  - rewrite translations_erase_empty. eexists. split; [done|]. right. right. eauto.
Qed.

Lemma flash_init_outcome_witness :
  ∃ s', @init toy toy_build toy_flash (mkFlash None 0 sample_blob) = (Ok (), s') ∧
    ((∃ t, @Translations_new toy toy_build 0 sample_blob = Ok t ∧ s' = mkFlash (Some t) 0 sample_blob) ∨
     (take 16 sample_blob = repeat EMPTY_BYTE 16 ∧ s' = mkFlash None 0 sample_blob) ∨
     ((∃ e, @Translations_new toy toy_build 0 sample_blob = Err e) ∧
      s' = mkFlash None 0 (repeat EMPTY_BYTE (length sample_blob)))).
Proof.
  apply (@flash_init_outcome toy toy_build toy_flash (mkFlash None 0 sample_blob)).
  - reflexivity.
  - reflexivity.
  - split; [vm_compute; discriminate|vm_compute; reflexivity].
  - exact sample_bytes.
Defined.

(** ** Strings *)

(** Cutting a prefix off a string, whichever kind it is: at a character
    boundary of its text it succeeds, and the result's text is the rest of the
    text; it stays well formed, so this can be repeated. *)
Theorem tstring_skip_prefix `{Primitives} `{Build} `{FlashDriver} untranslated st self t n :
  tstring_ok untranslated st self → text untranslated st self = Ok t →
  is_char_boundary t n = true →
  ∃ self', skip_prefix untranslated st self n = Ok self' ∧ tstring_ok untranslated st self' ∧
    text untranslated st self' = Ok (drop (Z.to_nat n) t).
Proof. apply skip_prefix_text. Qed.

Lemma tstring_skip_prefix_witness :
  ∃ self', skip_prefix (λ _, [63]) (mkFlash (Some sample_translations) 0 []) (Translation 1 1) 1
    = Ok self' ∧
    tstring_ok (λ _, [63]) (mkFlash (Some sample_translations) 0 []) self' ∧
    text (λ _, [63]) (mkFlash (Some sample_translations) 0 []) self' = Ok (drop 1 [121; 101]).
Proof.
  apply (@tstring_skip_prefix toy toy_build toy_flash (λ _, [63]) (mkFlash (Some sample_translations) 0 []) (Translation 1 1)
           [121; 101] 1).
  - split; [lia|]. intros s Hs. vm_compute in Hs. injection Hs as <-. vm_compute. reflexivity.
  - vm_compute. reflexivity.
  - reflexivity.
Defined.
