(* ===== verification/Time.v ===== *)
(** * Durations, instants and stopwatches

    [time.rs]: instants are 32-bit millisecond counters that wrap around, and
    compare as long as they are less than half the range apart.  Below them are
    the values that change with time ([ui/animation.rs], [ui/lerp.rs]). *)
From Stdlib Require Export Floats.SpecFloat.
From S2P Require Import Prelude.
Local Open Scope Z_scope.

(* src: time.rs 8-8 (MILLIS_PER_SEC) *)
Definition MILLIS_PER_SEC : Z := 1000.

(** A [Duration] is its number of milliseconds. *)
(* src: time.rs 10-13 (Duration) *)
Definition Duration : Type := Z.

(* src: time.rs 18-26 (Duration::from_millis, Duration::from_secs) *)
Definition from_secs (secs : Z) : Duration := wrapu 32 (secs * MILLIS_PER_SEC).
(* src: time.rs 32-34 (Duration::checked_add) *)
Definition duration_checked_add (a b : Duration) : option Duration :=
  if fits_u 32 (a + b) then Some (a + b) else None.
(* src: time.rs 36-38 (Duration::checked_sub) *)
Definition duration_checked_sub (a b : Duration) : option Duration :=
  if fits_u 32 (a - b) then Some (a - b) else None.
(* src: time.rs 52-59 (Div<u32> for Duration) *)
Definition duration_div (a : Duration) (rhs : Z) : outcome unit Duration :=
  if rhs =? 0 then Panic else Ok (a / rhs).

(* src: time.rs 77-77 (MAX_DIFFERENCE_IN_MILLIS) *)
Definition MAX_DIFFERENCE_IN_MILLIS : Z := (2 ^ 32 - 1) / 2.

(** An [Instant] is its counter. *)
(* src: time.rs 79-82 (Instant) *)
Definition Instant : Type := Z.

(* src: time.rs 135-149 (Ord for Instant) *)
Definition instant_cmp (self rhs : Instant) : comparison :=
  if self =? rhs then Eq
  else CompOpp (Z.compare (wrapu 32 (self - rhs)) MAX_DIFFERENCE_IN_MILLIS).

(** [self >= earlier], through [partial_cmp]. *)
(* src: time.rs 129-133 (PartialOrd for Instant) *)
Definition instant_ge (self rhs : Instant) : bool :=
  match instant_cmp self rhs with Lt => false | _ => true end.

(* src: time.rs 96-104 (Instant::checked_duration_since) *)
Definition checked_duration_since (self earlier : Instant) : option Duration :=
  if instant_ge self earlier then Some (wrapu 32 (self - earlier)) else None.

(* src: time.rs 91-94 (Instant::saturating_duration_since) *)
Definition saturating_duration_since (self earlier : Instant) : Duration :=
  match checked_duration_since self earlier with Some d => d | None => 0 end.

(* src: time.rs 106-115 (Instant::checked_add) *)
Definition instant_checked_add (self : Instant) (d : Duration) : option Instant :=
  if d <=? MAX_DIFFERENCE_IN_MILLIS then Some (wrapu 32 (self + d)) else None.

(* src: time.rs 117-126 (Instant::checked_sub) *)
Definition instant_checked_sub (self : Instant) (d : Duration) : option Instant :=
  if d <=? MAX_DIFFERENCE_IN_MILLIS then Some (wrapu 32 (self - d)) else None.

(** ** Stopwatches; [now] is the reading of the clock *)

(* src: time.rs 154-165 (Stopwatch) *)
Inductive Stopwatch :=
| Stopped (d : Duration)
| Running (t : Instant).

(* src: time.rs 169-171 (Stopwatch::new_stopped) *)
Definition new_stopped : Stopwatch := Stopped 0.
(* src: time.rs 175-185 (Stopwatch::new_started, Stopwatch::start) *)
Definition stopwatch_start (now : Instant) : Stopwatch := Running now.

(* src: time.rs 199-204 (Stopwatch::elapsed) *)
Definition elapsed (now : Instant) (s : Stopwatch) : outcome unit Duration :=
  match s with
  | Stopped d => Ok d
  | Running t => or_panic (checked_duration_since now t)
  end.

(* src: time.rs 191-193 (Stopwatch::stop) *)
Definition stopwatch_stop (now : Instant) (s : Stopwatch) : outcome unit Stopwatch :=
  d ← elapsed now s; Ok (Stopped d).

(* src: time.rs 207-209 (Stopwatch::is_running) *)
Definition is_running (s : Stopwatch) : bool :=
  match s with Running _ => true | Stopped _ => false end.

(* src: time.rs 213-218 (Stopwatch::is_running_within) *)
Definition is_running_within (now : Instant) (s : Stopwatch) (limit : Duration)
    : outcome unit bool :=
  match s with
  | Stopped _ => Ok false
  | Running _ => d ← elapsed now s; Ok (d <=? limit)
  end.

(** ** Facts *)
Lemma max_difference : MAX_DIFFERENCE_IN_MILLIS = 2 ^ 31 - 1.
Proof. reflexivity. Qed.

Lemma wrap_difference a d : in_u 32 d → wrapu 32 (wrapu 32 (a + d) - a) = d.
Proof.
  intros. unfold wrapu. rewrite Zminus_mod_idemp_l. replace (a + d - a) with d by lia.
  by apply Z.mod_small.
Qed.

Lemma wrap_difference_back a d :
  in_u 32 a → 0 < d < 2 ^ 32 → wrapu 32 (a - wrapu 32 (a + d)) = 2 ^ 32 - d.
Proof.
  unfold in_u, wrapu. intros Ha Hd. rewrite Zminus_mod_idemp_r.
  replace (a - (a + d)) with ((2 ^ 32 - d) + (-1) * 2 ^ 32) by lia.
  rewrite Z.mod_add by lia. apply Z.mod_small. lia.
Qed.

Lemma wrap_neq a d : in_u 32 a → 0 < d < 2 ^ 32 → wrapu 32 (a + d) ≠ a.
Proof.
  intros Ha Hd Heq. pose proof (wrap_difference a d ltac:(unfold in_u; lia)) as H.
  rewrite Heq, Z.sub_diag in H. by change (wrapu 32 0) with 0 in H; lia.
Qed.

(** Comparison of an instant with a later one. *)
Lemma instant_cmp_later a d :
  in_u 32 a → 0 < d < 2 ^ 32 →
  instant_cmp (wrapu 32 (a + d)) a = CompOpp (Z.compare d MAX_DIFFERENCE_IN_MILLIS) ∧
  instant_cmp a (wrapu 32 (a + d)) = CompOpp (Z.compare (2 ^ 32 - d) MAX_DIFFERENCE_IN_MILLIS).
Proof.
  intros Ha Hd. pose proof (wrap_neq a d Ha Hd). unfold instant_cmp.
  destruct (Z.eqb_spec (wrapu 32 (a + d)) a); [done|].
  destruct (Z.eqb_spec a (wrapu 32 (a + d))); [congruence|].
  rewrite wrap_difference by (unfold in_u; lia). by rewrite wrap_difference_back.
Qed.

(** The elapsed time is known exactly for half the range of the counter. *)
Lemma checked_duration_since_later a d :
  in_u 32 a → in_u 32 d →
  checked_duration_since (wrapu 32 (a + d)) a
  = if d <=? MAX_DIFFERENCE_IN_MILLIS then Some d else None.
Proof.
  intros Ha Hd. unfold checked_duration_since, instant_ge.
  destruct (Z.eq_dec d 0) as [->|Hd0].
  { rewrite Z.add_0_r, (wrapu_small _ _ Ha). unfold instant_cmp. rewrite Z.eqb_refl.
    by rewrite Z.sub_diag. }
  destruct (instant_cmp_later a d Ha) as [-> _]; [unfold in_u in Hd; lia|].
  rewrite wrap_difference by done.
  destruct (Z.compare_spec d MAX_DIFFERENCE_IN_MILLIS), (Z.leb_spec d MAX_DIFFERENCE_IN_MILLIS);
    simpl; try done; lia.
Qed.

(** ** Properties *)

(** Instants up to the maximum difference apart: adding a duration is
    refused beyond it, and otherwise the time since the original instant is
    exactly the duration, whether or not the counter wrapped around, and
    subtracting the duration gives the original instant back; strictly below
    it the later instant compares as greater. *)
Theorem instant_arithmetic a d :
  in_u 32 a → in_u 32 d →
  (MAX_DIFFERENCE_IN_MILLIS < d → instant_checked_add a d = None) ∧
  (d <= MAX_DIFFERENCE_IN_MILLIS →
   ∃ b, instant_checked_add a d = Some b ∧ in_u 32 b ∧
     checked_duration_since b a = Some d ∧ instant_checked_sub b d = Some a ∧
     (0 < d < MAX_DIFFERENCE_IN_MILLIS → instant_cmp b a = Gt ∧ instant_cmp a b = Lt)).
Proof.
  intros Ha Hd. unfold instant_checked_add, instant_checked_sub.
  split; intros Hle; destruct (Z.leb_spec d MAX_DIFFERENCE_IN_MILLIS); try lia; [done|].
  eexists. split; [done|]. split; [apply wrapu_range; lia|].
  rewrite checked_duration_since_later by done.
  destruct (Z.leb_spec d MAX_DIFFERENCE_IN_MILLIS); [|lia]. split; [done|]. split.
  - f_equal. unfold wrapu. rewrite Zminus_mod_idemp_l. replace (a + d - d) with a by lia.
    by apply Z.mod_small.
  - intros Hd'. rewrite max_difference in *.
    destruct (instant_cmp_later a d Ha) as [-> ->]; [lia|]. rewrite max_difference.
    destruct (Z.compare_spec d (2 ^ 31 - 1)), (Z.compare_spec (2 ^ 32 - d) (2 ^ 31 - 1)); try lia.
    done.
Qed.

Lemma instant_arithmetic_witness :
  (MAX_DIFFERENCE_IN_MILLIS < 5 → instant_checked_add (2 ^ 32 - 1) 5 = None) ∧
  (5 <= MAX_DIFFERENCE_IN_MILLIS →
   ∃ b, instant_checked_add (2 ^ 32 - 1) 5 = Some b ∧ in_u 32 b ∧
     checked_duration_since b (2 ^ 32 - 1) = Some 5 ∧
     instant_checked_sub b 5 = Some (2 ^ 32 - 1) ∧
     (0 < 5 < MAX_DIFFERENCE_IN_MILLIS →
      instant_cmp b (2 ^ 32 - 1) = Gt ∧ instant_cmp (2 ^ 32 - 1) b = Lt)).
Proof. apply instant_arithmetic; unfold in_u; lia. Defined.

(** The order of instants is not antisymmetric at its edges: exactly the
    maximum difference apart, an instant compares as equal to an earlier one
    that is smaller than it; half the range apart, each of two instants is
    smaller than the other. *)
Theorem instant_cmp_edges a :
  in_u 32 a →
  (let b := wrapu 32 (a + MAX_DIFFERENCE_IN_MILLIS) in
   instant_cmp b a = Eq ∧ instant_cmp a b = Lt ∧ a ≠ b) ∧
  (let c := wrapu 32 (a + 2 ^ 31) in instant_cmp c a = Lt ∧ instant_cmp a c = Lt).
Proof.
  intros Ha. cbn zeta. split.
  - destruct (instant_cmp_later a MAX_DIFFERENCE_IN_MILLIS Ha) as [-> ->];
      [rewrite max_difference; lia|]. split; [done|]. split; [done|].
    apply not_eq_sym, wrap_neq; [done|]. rewrite max_difference. lia.
  - by destruct (instant_cmp_later a (2 ^ 31) Ha) as [-> ->]; [lia|].
Qed.

Lemma instant_cmp_edges_witness :
  (let b := wrapu 32 (7 + MAX_DIFFERENCE_IN_MILLIS) in
   instant_cmp b 7 = Eq ∧ instant_cmp 7 b = Lt ∧ 7 ≠ b) ∧
  (let c := wrapu 32 (7 + 2 ^ 31) in instant_cmp c 7 = Lt ∧ instant_cmp 7 c = Lt).
Proof. apply instant_cmp_edges. unfold in_u. lia. Defined.

(** A stopwatch measures: started at an instant and read a duration later,
    it shows the duration, is within exactly the limits that are not shorter,
    and once stopped keeps showing it at any later time; if it runs for more
    than the maximum difference, reading or stopping it aborts. *)
Theorem stopwatch_measures a d limit later :
  in_u 32 a → in_u 32 d →
  let now := wrapu 32 (a + d) in
  let s := stopwatch_start a in
  (d <= MAX_DIFFERENCE_IN_MILLIS →
   elapsed now s = Ok d ∧ is_running_within now s limit = Ok (d <=? limit) ∧
   ∃ s', stopwatch_stop now s = Ok s' ∧ is_running s' = false ∧ elapsed later s' = Ok d) ∧
  (MAX_DIFFERENCE_IN_MILLIS < d → elapsed now s = Panic ∧ stopwatch_stop now s = Panic).
Proof.
  intros Ha Hd now s. unfold s, stopwatch_stop, stopwatch_start, is_running_within, elapsed, now.
  rewrite checked_duration_since_later by done.
  destruct (Z.leb_spec d MAX_DIFFERENCE_IN_MILLIS); (split; [|intros; try lia]); intros; try lia;
    simpl; eauto 10.
Qed.

Lemma stopwatch_measures_witness :
  let now := wrapu 32 (2 ^ 32 - 10 + 500) in
  let s := stopwatch_start (2 ^ 32 - 10) in
  (500 <= MAX_DIFFERENCE_IN_MILLIS →
   elapsed now s = Ok 500 ∧ is_running_within now s 600 = Ok (500 <=? 600) ∧
   ∃ s', stopwatch_stop now s = Ok s' ∧ is_running s' = false ∧ elapsed 3 s' = Ok 500) ∧
  (MAX_DIFFERENCE_IN_MILLIS < 500 → elapsed now s = Panic ∧ stopwatch_stop now s = Panic).
Proof. apply stopwatch_measures; unfold in_u; lia. Defined.

(** ** Animated values

    Floating point numbers, [ui/lerp.rs], [ui/animation.rs] and the operations of
    [time.rs] on them. *)
(** ** Floating point numbers

    An [f32] is a number of IEEE 754 with 24 bits, on which Rust's arithmetic
    rounds to the nearest one. *)
Abbreviation f32 := spec_float.

(** [z as f32]. *)
Definition f32_of (z : Z) : f32 := binary_normalize 24 128 z 0 false.
Definition f32_add : f32 → f32 → f32 := SFadd 24 128.
Definition f32_sub : f32 → f32 → f32 := SFsub 24 128.
Definition f32_mul : f32 → f32 → f32 := SFmul 24 128.
Definition f32_div : f32 → f32 → f32 := SFdiv 24 128.
Definition f32_min (a b : f32) : f32 := if SFltb a b then a else b.

(** [f as u16] and [f as u32]: the integer towards zero, as near as it gets, and
    zero for what is not a number. *)
Definition f32_to_u (w : Z) (f : f32) : Z :=
  match f with
  | S754_finite false m e => Z.min (Z.shiftl (Zpos m) e) (2 ^ w - 1)
  | S754_infinity false => 2 ^ w - 1
  | _ => 0
  end.

(** ** Scaling of durations *)

(* src: time.rs 41-50 (Mul<f32> for Duration) *)
Definition duration_mul_f32 (self : Duration) (rhs : f32) : Duration := f32_to_u 32 (f32_mul (f32_of self) rhs).

(* src: time.rs 61-68 (Div<Duration> for Duration) *)
Definition duration_ratio (self rhs : Duration) : f32 := f32_div (f32_of self) (f32_of rhs).

(** ** Linear interpolation of [u16] *)

(* src: ui/lerp.rs 46-54 (lerp) *)
Definition lerp (a b : Z) (t : f32) : Z :=
  if a <=? b then f32_to_u 16 (f32_add (f32_of a) (f32_mul t (f32_of (b - a))))
  else f32_to_u 16 (f32_sub (f32_of a) (f32_mul t (f32_of (a - b)))).

(* src: ui/lerp.rs 7-18 (Lerp::lerp_bounded) *)
Definition lerp_bounded (a b : Z) (t : f32) : Z :=
  if SFltb t (f32_of 0) then a
  else if SFltb (f32_of 1) t then b
  else lerp a b t.

(* src: ui/lerp.rs 56-65 (inv_lerp) *)
Definition inv_lerp (min max value : Z) : f32 :=
  if min <=? max then f32_div (f32_of (wrapu 16 (value - min))) (f32_of (max - min))
  else f32_div (f32_of (wrapu 16 (value - max))) (f32_of (min - max)).

(** ** Animations *)

(* src: ui/animation.rs 6-18 (Animation) *)
Record Animation := mkAnimation {
  from : Z;
  to : Z;
  duration : Duration;
  started : Instant
}.

Section Animation.
Context (self : Animation) (now : Instant).

(* src: ui/animation.rs 29-32 (Animation::elapsed) *)
Definition anim_elapsed : Duration := saturating_duration_since now (started self).

(* src: ui/animation.rs 34-41 (Animation::value) *)
Definition anim_value : Z := lerp_bounded (from self) (to self) (duration_ratio anim_elapsed (duration self)).

(* src: ui/animation.rs 64-66 (Animation::finished) *)
Definition anim_finished : bool := duration self <=? anim_elapsed.
End Animation.

(** An offset that is too large is ignored. *)
(* src: ui/animation.rs 53-62 (Animation::seek_forward) *)
Definition seek_forward (self : Animation) (offset : Duration) : Animation :=
  match instant_checked_sub (started self) offset with
  | Some started => mkAnimation (from self) (to self) (duration self) started
  | None => self
  end.

(* src: ui/animation.rs 43-51 (Animation::seek_to_value) *)
Definition seek_to_value (self : Animation) (value : Z) : Animation :=
  let factor := inv_lerp (from self) (to self) value in
  seek_forward self (duration_mul_f32 (duration self) factor).

(** ** The clock *)

(** [Instant::now]; the clock stands still while an event is handled. *)
Class Clock := { now : Instant }.

(** The range of the values of loaders. *)
(* src: ui/display/loader/mod.rs 29-30 (LOADER_MIN, LOADER_MAX) *)
Definition LOADER_MIN : Z := 0.
Definition LOADER_MAX : Z := 1000.
