(* ===== verification/StrUtil.v ===== *)
(** * Strings

    [strutil.rs] and the string buffers of [micropython/buffer.rs]:
    hexadecimal and decimal formatting into a caller's buffer, and strings
    that are static, allocated, or looked up in the translations; characters, and
    the strings with room for fifty bytes. *)
From S2P Require Import Prelude.
Local Open Scope Z_scope.

(** ** Hexadecimal *)

(* src: strutil.rs 16-16 (HEX_LOWER) *)
Definition HEX_LOWER : list Z := [48; 49; 50; 51; 52; 53; 54; 55; 56; 57; 97; 98; 99; 100; 101; 102].

(* src: strutil.rs 17-24 (hexlify) *)
Fixpoint hexlify_loop (data : list Z) (buffer : list Z) (i : Z) : outcome unit (list Z) :=
  match data with
  | [] => Ok buffer
  | b :: data =>
    hi ← or_panic (getZ HEX_LOWER (Z.shiftr (Z.land b 0xf0) 4));
    lo ← or_panic (getZ HEX_LOWER (Z.land b 0x0f));
    buffer ← store buffer i hi;
    buffer ← store buffer (i + 1) lo;
    hexlify_loop data buffer (i + 2)
  end.

(* src: strutil.rs 15-25 (hexlify) *)
Definition hexlify (data buffer : list Z) : outcome unit (list Z) :=
  hexlify_loop (take (Z.to_nat (len buffer / 2)) data) buffer 0.

(** The value of a lower-case digit, and of a string of pairs of digits. *)
Definition hex_value (c : Z) : Z := if c <? 58 then c - 48 else c - 87.
Fixpoint unhex (s : list Z) : list Z :=
  match s with
  | h :: l :: s => 16 * hex_value h + hex_value l :: unhex s
  | _ => []
  end.

(** The two digits of a byte. *)
Definition hex_digit (d : Z) : Z := if d <? 10 then 48 + d else 87 + d.

Lemma hex_lower_digit d : 0 <= d < 16 → getZ HEX_LOWER d = Some (hex_digit d).
Proof.
  intros Hd.
  assert (d ∈ [0; 1; 2; 3; 4; 5; 6; 7; 8; 9; 10; 11; 12; 13; 14; 15]) as Hin.
  { rewrite !elem_of_cons. lia. }
  repeat (apply elem_of_cons in Hin as [->|Hin]; [reflexivity|]). by apply elem_of_nil in Hin.
Qed.

Lemma hex_digit_value d : 0 <= d < 16 → hex_value (hex_digit d) = d.
Proof.
  intros. unfold hex_value, hex_digit. destruct (Z.ltb_spec d 10).
  - destruct (Z.ltb_spec (48 + d) 58); lia.
  - destruct (Z.ltb_spec (87 + d) 58); lia.
Qed.

Lemma nibbles b : byte_ok b →
  Z.shiftr (Z.land b 0xf0) 4 = b / 16 ∧ Z.land b 0x0f = b `mod` 16 ∧
  0 <= b / 16 < 16 ∧ 0 <= b `mod` 16 < 16.
Proof.
  unfold in_u. intros Hb. split; [|split].
  - rewrite Z.shiftr_land. change (Z.shiftr 0xf0 4) with (Z.ones 4).
    rewrite Z.shiftr_div_pow2, Z.land_ones by lia. change (2 ^ 4) with 16.
    apply Z.mod_small. split; [apply Z.div_pos; lia|]. apply Z.div_lt_upper_bound; lia.
  - change 0x0f with (Z.ones 4). by rewrite Z.land_ones by lia.
  - split; [split; [apply Z.div_pos; lia|apply Z.div_lt_upper_bound; lia]|].
    apply Z.mod_pos_bound. lia.
Qed.

Definition hex_of (bs : list Z) : list Z :=
  concat ((λ b, [hex_digit (b / 16); hex_digit (b `mod` 16)]) <$> bs).

Lemma hex_of_length bs : length (hex_of bs) = (2 * length bs)%nat.
Proof. unfold hex_of. induction bs as [|b bs IH]; [done|]. rewrite fmap_cons. cbn [concat app length]. rewrite IH. lia. Qed.

Lemma unhex_hex_of bs : Forall byte_ok bs → unhex (hex_of bs) = bs.
Proof.
  induction 1 as [|b bs Hb _ IH]; [done|]. unfold hex_of. rewrite fmap_cons. cbn [concat app unhex].
  fold (hex_of bs). rewrite IH. destruct (nibbles b Hb) as (_ & _ & H1 & H2).
  rewrite !hex_digit_value by done. pose proof (Z.div_mod b 16). f_equal. lia.
Qed.

Lemma hexlify_loop_spec data pre buffer :
  Forall byte_ok data → 2 * len data <= len buffer →
  hexlify_loop data (pre ++ buffer) (len pre)
  = Ok (pre ++ hex_of data ++ drop (2 * length data) buffer).
Proof.
  intros Hd. revert pre buffer; induction Hd as [|b data Hb Hd IH]; intros pre buffer Hl; [done|].
  cbn [hexlify_loop length] in *. destruct (nibbles b Hb) as (-> & -> & H1 & H2).
  rewrite !hex_lower_digit by done. cbn [or_panic mbind outcome_bind].
  destruct buffer as [|x [|y buffer]]; [simpl in Hl; lia..|]. rewrite store_app.
  cbn [mbind outcome_bind].
  set (h := hex_digit (b / 16)). set (l := hex_digit (b `mod` 16)).
  replace (pre ++ h :: y :: buffer) with ((pre ++ [h]) ++ y :: buffer) by by rewrite <- app_assoc.
  replace (len pre + 1) with (len (pre ++ [h])) by (rewrite length_app; simpl; lia).
  rewrite store_app. cbn [mbind outcome_bind].
  replace ((pre ++ [h]) ++ l :: buffer) with ((pre ++ [h; l]) ++ buffer) by by rewrite <- !app_assoc.
  replace (len pre + 2) with (len (pre ++ [h; l])) by (rewrite length_app; simpl; lia).
  cbn [length] in Hl. rewrite IH by lia. rewrite <- !app_assoc. unfold hex_of at 2. rewrite fmap_cons.
  cbn [concat app]. fold (hex_of data). do 3 f_equal.
  by replace (2 * S (length data))%nat with (S (S (2 * length data))) by lia.
Qed.

(** ** Decimal *)

(** Digits are written from the least significant one; the minus sign of the
    smallest number wraps. *)
(* src: strutil.rs 37-41 (format_i64) *)
Fixpoint digits_loop (fuel : nat) (num : Z) (buffer : list Z) (i : Z)
    : outcome unit (Z * list Z * Z) :=
  match fuel with
  | O => NoFuel
  | S fuel =>
    if (0 <? num) && (i <? len buffer) then
      buffer ← store buffer i (48 + num `mod` 10);
      digits_loop fuel (num / 10) buffer (i + 1)
    else Ok (num, buffer, i)
  end.

(** Every turn uses up a place of the buffer. *)
(* src: strutil.rs 27-56 (format_i64) *)
Definition format_i64 (num : Z) (buffer : list Z) : outcome unit (option (list Z)) :=
  let negative := num <? 0 in
  let num := if negative then wraps 64 (- num) else num in
  '(num, buffer, i) ← digits_loop (S (length buffer)) num buffer 0;
  if i =? 0 then Ok (Some [48])
  else if 0 <? num then Ok None
  else if negative && (i =? len buffer) then Ok None
  else
    '(buffer, i) ← (if negative then b ← store buffer i 45; Ok (b, i + 1) else Ok (buffer, i));
    Ok (Some (rev (take (Z.to_nat i) buffer))).

(** The value of a decimal text. *)
Definition decimal_value (s : list Z) : Z := foldl (λ acc c, acc * 10 + (c - 48)) 0 s.
Definition parse_i64 (s : list Z) : Z :=
  match s with
  | c :: s' => if c =? 45 then - decimal_value s' else decimal_value s
  | [] => 0
  end.

(** The digits of a number, the least significant first. *)
Fixpoint digits (fuel : nat) (n : Z) : list Z :=
  match fuel with
  | O => []
  | S fuel => if 0 <? n then (48 + n `mod` 10) :: digits fuel (n / 10) else []
  end.

Lemma div_pow10 n k : 0 <= n < 10 ^ (Z.of_nat (S k)) → 0 <= n / 10 < 10 ^ Z.of_nat k.
Proof.
  rewrite Nat2Z.inj_succ, Z.pow_succ_r by lia. intros. split; [apply Z.div_pos; lia|].
  apply Z.div_lt_upper_bound; lia.
Qed.

Lemma digits_loop_spec fuel n pre buffer :
  0 <= n → (length buffer < fuel)%nat →
  ∃ buffer',
  digits_loop fuel n (pre ++ buffer) (len pre)
  = Ok (n / 10 ^ Z.of_nat (length (digits (length buffer) n)),
        pre ++ digits (length buffer) n ++ buffer',
        len pre + Z.of_nat (length (digits (length buffer) n))) ∧
  (length (digits (length buffer) n) + length buffer' = length buffer)%nat.
Proof.
  revert n pre buffer; induction fuel as [|fuel IH]; intros n pre buffer Hn Hf; [lia|].
  cbn [digits_loop]. destruct buffer as [|x buffer]; cbn [length digits] in *.
  - exists []. rewrite app_nil_r. destruct (Z.ltb_spec (len pre) (len pre)); [lia|].
    rewrite andb_false_r. cbn [length]. rewrite Z.div_1_r, Z.add_0_r. by rewrite !app_nil_r.
  - rewrite length_app. cbn [length].
    destruct (Z.ltb_spec (len pre) (Z.of_nat (length pre + S (length buffer)))); [|lia].
    rewrite andb_true_r. destruct (Z.ltb_spec 0 n).
    + rewrite store_app. cbn [mbind outcome_bind].
      set (c := 48 + n `mod` 10).
      replace (pre ++ c :: buffer) with ((pre ++ [c]) ++ buffer) by by rewrite <- app_assoc.
      replace (len pre + 1) with (len (pre ++ [c])) by (rewrite length_app; simpl; lia).
      destruct (IH (n / 10) (pre ++ [c]) buffer) as (buffer' & -> & Hb'); [apply Z.div_pos; lia|lia|].
      exists buffer'. rewrite <- !app_assoc, length_app. cbn [app length]. split; [|lia].
      rewrite Nat2Z.inj_succ, Z.pow_succ_r, <- Z.div_div by lia. do 2 f_equal. lia.
    + exists (x :: buffer). cbn [length app]. rewrite Z.div_1_r, Z.add_0_r. done.
Qed.

Lemma digits_spec k n :
  0 <= n →
  n / 10 ^ Z.of_nat (length (digits k n)) = n / 10 ^ Z.of_nat k ∧
  (length (digits k n) <= k)%nat ∧
  (n < 10 ^ Z.of_nat k → decimal_value (rev (digits k n)) = n) ∧
  Forall (λ c, 48 <= c < 58) (digits k n).
Proof.
  revert n; induction k as [|k IH]; intros n Hn; cbn [digits].
  { split_and!; try done. intros. simpl in *. unfold decimal_value. simpl. lia. }
  assert (0 < 10 ^ Z.of_nat k) by (apply Z.pow_pos_nonneg; lia).
  destruct (Z.ltb_spec 0 n) as [Hlt|Hge].
  - destruct (IH (n / 10) (Z.div_pos n 10 Hn ltac:(lia))) as (I1 & I2 & I3 & I4).
    cbn [length]. rewrite !Nat2Z.inj_succ, !Z.pow_succ_r, <- !Z.div_div by lia.
    split; [done|]. split; [lia|]. pose proof (Z.mod_pos_bound n 10). split; [|constructor; [lia|done]].
    intros Hb. cbn [rev]. unfold decimal_value. rewrite foldl_app. fold (decimal_value (rev (digits k (n / 10)))).
    rewrite I3 by (apply Z.div_lt_upper_bound; lia). cbn [foldl]. pose proof (Z.div_mod n 10). lia.
  - assert (n = 0) as -> by lia. cbn [length]. rewrite Z.div_1_r, Z.div_0_l by lia.
    split_and!; try done; lia.
Qed.

Lemma digits_nonempty k n : 0 < n → (0 < k)%nat → ∃ c l, digits k n = c :: l.
Proof. intros. destruct k; [lia|]. simpl. destruct (Z.ltb_spec 0 n); [eauto|lia]. Qed.

(** How many digits a number takes. *)
Lemma digits_lower k n : 0 <= n < 10 ^ Z.of_nat k → n < 10 ^ len (digits k n).
Proof.
  revert n; induction k as [|k IH]; intros n Hn; cbn [digits]; [simpl in *; lia|].
  destruct (Z.ltb_spec 0 n); [|simpl; lia]. pose proof (IH _ (div_pow10 _ _ Hn)) as Hlt.
  cbn [length]. rewrite Nat2Z.inj_succ, Z.pow_succ_r by lia. pose proof (Z.div_mod n 10).
  pose proof (Z.mod_pos_bound n 10). lia.
Qed.

Lemma digits_upper k j n : 0 <= n < 10 ^ Z.of_nat j → (length (digits k n) <= j)%nat.
Proof.
  revert j n; induction k as [|k IH]; intros j n Hn; cbn [digits]; [simpl; lia|].
  destruct (Z.ltb_spec 0 n); [|simpl; lia]. destruct j as [|j]; [simpl in Hn; lia|].
  cbn [length]. apply le_n_S, IH, div_pow10, Hn.
Qed.

Lemma digits_full k n :
  0 <= n < 10 ^ Z.of_nat (S k) → length (digits (S k) n) = S k ↔ 10 ^ Z.of_nat k <= n.
Proof.
  intros Hn. pose proof (digits_lower (S k) n Hn) as Hlt. split.
  - intros E. destruct (Z.lt_ge_cases n (10 ^ Z.of_nat k)); [|done].
    pose proof (digits_upper (S k) k n ltac:(lia)). lia.
  - intros Hge. pose proof (digits_upper (S k) (S k) n Hn).
    destruct (decide (length (digits (S k) n) = S k)); [done|].
    assert (10 ^ len (digits (S k) n) <= 10 ^ Z.of_nat k) by (apply Z.pow_le_mono_r; lia). lia.
Qed.

(** Hexadecimal formatting never leaves its buffer: it writes the digits of
    as many bytes as fit, which decode to those bytes, and leaves the rest of
    the buffer alone. *)
Theorem hexlify_spec data buffer :
  Forall byte_ok data →
  let n := Nat.min (length data) (length buffer / 2) in
  ∃ hex, hexlify data buffer = Ok (hex ++ drop (2 * n) buffer) ∧
    length hex = (2 * n)%nat ∧ unhex hex = take n data.
Proof.
  intros Hd n. exists (hex_of (take n data)). unfold hexlify.
  assert (take (Z.to_nat (len buffer / 2)) data = take n data) as ->.
  { rewrite <- (Nat2Z.inj_div _ 2), Nat2Z.id. unfold n.
    destruct (Nat.min_spec (length data) (length buffer / 2)) as [[? ->]|[? ->]]; [|done].
    rewrite !take_ge; [done|lia..]. }
  assert (length (take n data) = n) as Hlen by (rewrite length_take; unfold n; lia).
  assert (2 * n <= length buffer)%nat.
  { unfold n. pose proof (Nat.div_mod (length buffer) 2). lia. }
  pose proof (hexlify_loop_spec (take n data) [] buffer) as Hs. cbn [app] in Hs.
  change (len (@nil Z)) with 0 in Hs. rewrite Hs, Hlen; [|by apply Forall_take|lia]. split; [done|].
  rewrite hex_of_length, Hlen. split; [done|]. by apply unhex_hex_of, Forall_take.
Qed.

Lemma hexlify_spec_witness :
  ∃ hex, hexlify [0xAB; 7; 9] [0; 0; 0; 0; 1] = Ok (hex ++ drop 4 [0; 0; 0; 0; 1]) ∧
    length hex = 4%nat ∧ unhex hex = take 2 [0xAB; 7; 9].
Proof. apply (hexlify_spec [0xAB; 7; 9] [0; 0; 0; 0; 1]). repeat constructor; lia. Defined.

(** Decimal formatting: for every 64-bit number but the smallest one, and a
    buffer of at least one byte, the result is a text that fits the buffer,
    is made of digits after an optional minus sign and parses to the number;
    and there is no result exactly when the digits and the sign do not fit. *)
Theorem format_i64_spec num buffer :
  - 2 ^ 63 < num < 2 ^ 63 → (0 < length buffer)%nat →
  (Z.abs num < 10 ^ (len buffer - (if num <? 0 then 1 else 0)) →
   ∃ text, format_i64 num buffer = Ok (Some text) ∧ parse_i64 text = num ∧
     (length text <= length buffer)%nat ∧
     Forall (λ c, 48 <= c < 58) (if num <? 0 then tail text else text)) ∧
  (10 ^ (len buffer - (if num <? 0 then 1 else 0)) <= Z.abs num →
   format_i64 num buffer = Ok None).
Proof.
  intros Hn Hb. unfold format_i64.
  assert ((if num <? 0 then wraps 64 (- num) else num) = Z.abs num) as ->.
  { destruct (Z.ltb_spec num 0); [|lia]. rewrite wraps_small; [lia|lia|unfold in_s; simpl; lia]. }
  destruct (digits_loop_spec (S (length buffer)) (Z.abs num) [] buffer) as (b' & Hd & Hb');
    [lia|lia|]. cbn [app length] in Hd. change (Z.of_nat 0) with 0 in Hd. rewrite Hd. clear Hd.
  cbn [mbind outcome_bind]. rewrite Z.add_0_l.
  destruct (digits_spec (length buffer) (Z.abs num)) as (D1 & D2 & D3 & D4); [lia|].
  rewrite D1. set (ds := digits (length buffer) (Z.abs num)) in *.
  assert (0 < 10 ^ len buffer) by (apply Z.pow_pos_nonneg; lia).
  destruct (Z.eq_dec num 0) as [->|Hnz].
  { assert (ds = []) as -> by (unfold ds; by destruct (length buffer)). split; [intros _|].
    - exists [48]. split; [done|]. split; [done|]. split; [cbn; lia|]. constructor; [lia|done].
    - intros Hle. change (Z.abs 0) with 0 in Hle. cbn [Z.ltb Z.compare] in Hle.
      rewrite Z.sub_0_r in Hle. lia. }
  assert (∃ c l, ds = c :: l) as (c & l & Hds) by (apply digits_nonempty; lia).
  assert (0 < len ds) by (rewrite Hds; simpl; lia).
  destruct (Z.eqb_spec (len ds) 0); [lia|].
  destruct (Z.lt_ge_cases (Z.abs num) (10 ^ len buffer)) as [Hfit|Hbig].
  2: { assert (1 <= Z.abs num / 10 ^ len buffer) by (apply Z.div_le_lower_bound; lia).
       destruct (Z.ltb_spec 0 (Z.abs num / 10 ^ len buffer)); [|lia]. split; [|done].
       intros Hlt. exfalso. revert Hlt. destruct (num <? 0); [|rewrite Z.sub_0_r; lia].
       assert (10 ^ (len buffer - 1) <= 10 ^ len buffer) by (apply Z.pow_le_mono_r; lia). lia. }
  rewrite (Z.div_small (Z.abs num)) by lia. cbn [Z.ltb Z.compare].
  specialize (D3 Hfit). destruct (length buffer) as [|k] eqn:Hk; [lia|].
  destruct (Z.ltb_spec num 0) as [Hneg|Hpos]; cbn [andb].
  - pose proof (digits_full k (Z.abs num) ltac:(lia)) as Hfull. fold ds in Hfull.
    replace (Z.of_nat (S k) - 1) with (Z.of_nat k) by lia.
    replace (len (ds ++ b')) with (Z.of_nat (S k)) by (rewrite length_app; lia).
    destruct (Z.eqb_spec (len ds) (Z.of_nat (S k))) as [E|E].
    { apply Nat2Z.inj in E. apply Hfull in E. split; [lia|done]. }
    split; [intros _|intros Hge; apply Hfull in Hge; lia].
    destruct b' as [|x b']; [simpl in Hb'; lia|]. rewrite store_app. cbn [mbind outcome_bind].
    eexists. split; [reflexivity|].
    replace (Z.to_nat (len ds + 1)) with (length (ds ++ [45])) by (rewrite length_app; simpl; lia).
    replace (ds ++ 45 :: b') with ((ds ++ [45]) ++ b') by by rewrite <- app_assoc.
    rewrite take_app_length, rev_app_distr. cbn [rev app parse_i64 Z.eqb Pos.eqb length tail].
    rewrite D3, length_rev. split; [lia|]. split; [lia|]. by apply Forall_rev.
  - split; [intros _|rewrite Z.sub_0_r; lia].
    cbn [mbind outcome_bind]. rewrite Nat2Z.id, take_app_length.
    eexists. split; [reflexivity|]. rewrite length_rev. split_and!; [|lia|by apply Forall_rev].
    transitivity (decimal_value (rev ds)); [|lia].
    assert (Forall (λ c, 48 <= c < 58) (rev ds)) as HF by by apply Forall_rev.
    unfold parse_i64. destruct (rev ds) as [|c' l']; [done|].
    apply Forall_cons in HF as [Hc _]. destruct (Z.eqb_spec c' 45); [lia|done].
Qed.

Lemma format_i64_spec_witness :
  (Z.abs (-705) < 10 ^ (len [0; 0; 0; 0] - 1) →
   ∃ text, format_i64 (-705) [0; 0; 0; 0] = Ok (Some text) ∧ parse_i64 text = -705 ∧
     (length text <= 4)%nat ∧ Forall (λ c, 48 <= c < 58) (tail text)) ∧
  (10 ^ (len [0; 0; 0; 0] - 1) <= Z.abs (-705) → format_i64 (-705) [0; 0; 0; 0] = Ok None).
Proof. apply (format_i64_spec (-705) [0; 0; 0; 0]); simpl; lia. Defined.

(** The smallest 64-bit number is formatted as zero: its negation wraps
    around to itself, so no digit is written; and into an empty buffer every
    number is formatted as zero. *)
Theorem format_i64_min num buffer :
  num = - 2 ^ 63 ∨ buffer = [] → format_i64 num buffer = Ok (Some [48]).
Proof.
  intros [-> | ->].
  - unfold format_i64. change (- 2 ^ 63 <? 0) with true. cbn iota.
    change (wraps 64 (- - 2 ^ 63)) with (- 2 ^ 63). cbn [digits_loop].
    change (0 <? - 2 ^ 63) with false. done.
  - unfold format_i64. cbn [digits_loop length]. by rewrite andb_false_r.
Qed.

Lemma format_i64_min_witness : format_i64 (- 2 ^ 63) (repeat 0 30) = Ok (Some [48]).
Proof. apply format_i64_min. left. reflexivity. Defined.

(** ** Characters and short strings

    A [str] is the list of its bytes and a [char] the list of the bytes that
    encode it.  [ShortString] ([strutil.rs]) is a string with room for fifty
    bytes; its operations are those of the standard string type, refused when
    the bytes do not fit. *)
(** A byte that continues a character. *)
Definition is_continuation (b : Z) : bool := (128 <=? b) && (b <? 192).

(** [str::chars]: a character is a byte with the continuation bytes after it. *)
Fixpoint chars (s : list Z) : list (list Z) :=
  match s with
  | [] => []
  | b :: s =>
    match chars s with
    | (c :: cs) :: rest => if is_continuation c then (b :: c :: cs) :: rest else [b] :: (c :: cs) :: rest
    | rest => [b] :: rest
    end
  end.

(* src: strutil.rs 13-13 (ShortString) *)
Definition ShortString : Type := list Z.
Definition CAPACITY : Z := 50.

(** [String::push] and [String::push_str]: nothing is added when there is no
    room for all of it. *)
Definition push_str (s text : ShortString) : option ShortString :=
  if len s + len text <=? CAPACITY then Some (s ++ text) else None.

(** [String::pop]. *)
Definition pop (s : ShortString) : option (list Z) * ShortString :=
  match last (chars s) with
  | Some c => (Some c, take (length s - length c) s)
  | None => (None, s)
  end.

(** [char::from_digit(d, 10)]. *)
Definition from_digit (d : Z) : option (list Z) := if (0 <=? d) && (d <? 10) then Some [48 + d] else None.

(** [str::parse::<u16>]: an optional plus sign and at least one digit, as long
    as the number fits. *)
Fixpoint parse_digits (acc : Z) (s : list Z) : option Z :=
  match s with
  | [] => Some acc
  | b :: s =>
    if (48 <=? b) && (b <=? 57) then
      let acc := acc * 10 + (b - 48) in
      if fits_u 16 acc then parse_digits acc s else None
    else None
  end.
Definition parse_u16 (s : list Z) : option Z :=
  match s with
  | [] => None
  | [b] => if b =? 43 then None else parse_digits 0 s
  | b :: s' => if b =? 43 then parse_digits 0 s' else parse_digits 0 s
  end.

(** [str::starts_with]. *)
Definition starts_with (s prefix : list Z) : bool := bool_decide (prefix `prefix_of` s).

Definition ascii (s : list Z) : Prop := Forall (λ b, 0 < b < 128) s.

#[export] Instance ascii_dec s : Decision (ascii s).
Proof. unfold ascii. apply _. Defined.

Lemma chars_ascii s : ascii s → chars s = (λ b, [b]) <$> s.
Proof.
  induction 1 as [|b s Hb Hs IH]; [done|]. cbn [chars]. rewrite IH, fmap_cons.
  destruct Hs as [|b' s Hb' Hs]; [done|]. rewrite fmap_cons. cbn [list_fmap fmap].
  unfold is_continuation. destruct (Z.leb_spec 128 b'); [lia|done].
Qed.

Lemma chars_concat s : concat (chars s) = s.
Proof.
  induction s as [|b s IH]; [done|]. cbn [chars].
  destruct (chars s) as [|[|c cs] rest]; simpl in *; [by subst|by rewrite IH|].
  destruct (is_continuation c); simpl; by rewrite IH.
Qed.

Lemma chars_nil s : chars s = [] ↔ s = [].
Proof.
  split; [|by intros ->]. destruct s as [|b s]; [done|]. cbn [chars].
  destruct (chars s) as [|[|c cs] rest]; try done. by destruct (is_continuation c).
Qed.

Lemma chars_cycle s (n : Z) : s ≠ [] → 0 <= n → ∃ c, chars s !! Z.to_nat (n `mod` len (chars s)) = Some c.
Proof.
  intros Hs Hn. apply lookup_lt_is_Some_2.
  destruct (chars s) eqn:E; [by apply chars_nil in E|].
  pose proof (Z.mod_pos_bound n (len (l :: l0)) ltac:(simpl; lia)). simpl in *. lia.
Qed.

(** Popping a string of one-byte characters. *)
Lemma pop_snoc s b : ascii (s ++ [b]) → pop (s ++ [b]) = (Some [b], s).
Proof.
  intros Ha. unfold pop. rewrite chars_ascii by done. rewrite fmap_app, last_app. cbn [fmap list_fmap last].
  rewrite length_app. cbn [length]. by rewrite Nat.add_sub, take_app_length.
Qed.

Lemma pop_nil : pop [] = (None, []).
Proof. done. Qed.

Lemma pop_ascii s : ascii s → snd (pop s) = removelast s ∧ (fst (pop s) = None ↔ s = []).
Proof.
  destruct s as [|b s _] using rev_ind; intros Ha; [done|].
  rewrite pop_snoc, removelast_last by done. cbn. split; [done|]. split; [done|]. by intros []%app_nil.
Qed.

Lemma push_str_Some s t s' : push_str s t = Some s' ↔ len s + len t <= CAPACITY ∧ s' = s ++ t.
Proof. unfold push_str. destruct (Z.leb_spec (len s + len t) CAPACITY); naive_solver lia. Qed.
