(* ===== verification/Transport.v ===== *)
(** * The client's wire protocols

    [trezor-client/src/transport/protocol.rs]: messages are cut into chunks
    of 64 bytes that are sent over a link, and reassembled from chunks. *)
From S2P Require Import Prelude.
Local Open Scope Z_scope.

(* src: rust/trezor-client/src/transport/error.rs 5-49 (Error) *)
Inductive TransportError :=
| IO
| DeviceNotFound
| DeviceDisconnected
| UnexpectedChunkSizeFromDevice (size : Z)
| DeviceReadTimeout
| DeviceBadMagic
| DeviceBadSessionId
| DeviceUnexpectedSequenceNumber
| InvalidMessageType (id : Z)
| NoDeviceSerial.

Abbreviation tresult := (outcome TransportError).

(** The generated enumeration of message types and its conversions. *)
Class MessageTypes := {
  MessageType : Type;
  message_value : MessageType → Z;
  from_i32 : Z → option MessageType;
  from_i32_value m : from_i32 (message_value m) = Some m;
}.

(* src: rust/trezor-client/src/transport/protocol.rs 9-13 (Link) *)
Class Link (L : Type) := {
  write_chunk : L → list Z → tresult L;
  read_chunk : L → tresult (list Z * L);
}.

(* src: rust/trezor-client/src/transport/mod.rs 26-43 (ProtoMessage) *)
Record ProtoMessage `{MessageTypes} := mkMessage { message_type : MessageType; payload : list Z }.
Arguments mkMessage {_} _ _.
Arguments message_type {_} _.
Arguments payload {_} _.

(* src: rust/trezor-client/src/transport/protocol.rs 24-25 (REPLEN) *)
Definition REPLEN : Z := 64.

(** [byteorder::BigEndian]. *)
Definition be_u16 (z : Z) : list Z := [(z / 256) `mod` 256; z `mod` 256].
Definition be_u32 (z : Z) : list Z :=
  [(z / 2 ^ 24) `mod` 256; (z / 2 ^ 16) `mod` 256; (z / 256) `mod` 256; z `mod` 256].
Definition from_be_bytes (bs : list Z) : Z := foldl (λ acc b, acc * 256 + b) 0 bs.

(** [read_uN(&chunk[s..e])] and [chunk[from..]]. *)
Definition be_at (chunk : list Z) (s e : Z) : tresult Z :=
  b ← or_panic (slice chunk s e); Ok (from_be_bytes b).
Definition tail_from (chunk : list Z) (from : Z) : tresult (list Z) :=
  or_panic (slice chunk from (len chunk)).

Section Protocols.
Context `{MessageTypes} {L : Type} `{Link L}.

(** ** Version 1 *)

(* src: rust/trezor-client/src/transport/protocol.rs 158-164 (ProtocolV1::write) *)
Definition v1_data (message : ProtoMessage) : list Z :=
  [0x23; 0x23] ++ be_u16 (message_value (message_type message))
  ++ be_u32 (len (payload message)) ++ payload message.

(* src: rust/trezor-client/src/transport/protocol.rs 166-176 (ProtocolV1::write) *)
Fixpoint v1_write_loop (fuel : nat) (link : L) (data : list Z) (cur : Z) : tresult L :=
  match fuel with
  | O => NoFuel
  | S fuel =>
    if cur <? len data then
      let end_ := Z.min (cur + (REPLEN - 1)) (len data) in
      part ← or_panic (slice data cur end_);
      link ← write_chunk link (resize 64 0 (0x3f :: part));
      v1_write_loop fuel link data end_
    else Ok link
  end.

(** Every chunk takes at least a byte of the data. *)
(* src: rust/trezor-client/src/transport/protocol.rs 157-179 (ProtocolV1::write) *)
Definition v1_write (link : L) (message : ProtoMessage) : tresult L :=
  let data := v1_data message in
  v1_write_loop (S (length data)) link data 0.

(* src: rust/trezor-client/src/transport/protocol.rs 196-204 (ProtocolV1::read) *)
Fixpoint v1_read_loop (fuel : nat) (link : L) (data : list Z) (data_length : Z)
    : tresult (list Z * L) :=
  match fuel with
  | O => NoFuel
  | S fuel =>
    if len data <? data_length then
      '(chunk, link) ← read_chunk link;
      magic ← or_panic (getZ chunk 0);
      if negb (magic =? 0x3f) then Err DeviceBadMagic else
      more ← tail_from chunk 1;
      v1_read_loop fuel link (data ++ more) data_length
    else Ok (data, link)
  end.

(** The fuel suffices for chunks of at least two bytes. *)
(* src: rust/trezor-client/src/transport/protocol.rs 181-207 (ProtocolV1::read) *)
Definition v1_read (link : L) : tresult (ProtoMessage * L) :=
  '(chunk, link) ← read_chunk link;
  c0 ← or_panic (getZ chunk 0);
  bad ← (if negb (c0 =? 0x3f) then Ok true else
         c1 ← or_panic (getZ chunk 1);
         if negb (c1 =? 0x23) then Ok true else
         c2 ← or_panic (getZ chunk 2);
         Ok (negb (c2 =? 0x23)));
  if (bad : bool) then Err DeviceBadMagic else
  message_type_id ← be_at chunk 3 5;
  mtype ← ok_or (from_i32 message_type_id) (InvalidMessageType message_type_id);
  data_length ← be_at chunk 5 9;
  data ← tail_from chunk 9;
  '(data, link) ← v1_read_loop (S (Z.to_nat data_length)) link data data_length;
  body ← or_panic (slice data 0 data_length);
  Ok (mkMessage mtype body, link).

(** ** Version 2 *)

(* src: rust/trezor-client/src/transport/protocol.rs 36-47 (ProtocolV2::session_begin) *)
Definition v2_session_begin (link : L) : tresult (Z * L) :=
  link ← write_chunk link (resize 64 0 [0x03]);
  '(resp, link) ← read_chunk link;
  magic ← or_panic (getZ resp 0);
  if negb (magic =? 0x03) then Err DeviceBadMagic else
  session_id ← be_at resp 1 5;
  Ok (session_id, link).

(* src: rust/trezor-client/src/transport/protocol.rs 49-62 (ProtocolV2::session_end) *)
Definition v2_session_end (session_id : Z) (link : L) : tresult (Z * L) :=
  if session_id =? 0 then Panic else
  link ← write_chunk link (resize 64 0 (0x04 :: be_u32 session_id));
  '(resp, link) ← read_chunk link;
  magic ← or_panic (getZ resp 0);
  if negb (magic =? 0x04) then Err DeviceBadMagic else Ok (0, link).

(* src: rust/trezor-client/src/transport/protocol.rs 67-71 (ProtocolV2::write) *)
Definition v2_data (message : ProtoMessage) : list Z :=
  be_u32 (message_value (message_type message)) ++ be_u32 (len (payload message))
  ++ payload message.

(* src: rust/trezor-client/src/transport/protocol.rs 76-88 (ProtocolV2::write) *)
Definition v2_header (session_id seq : Z) : list Z :=
  if seq <? 0 then 0x01 :: be_u32 session_id
  else 0x01 :: be_u32 session_id ++ be_u32 seq.

(* src: rust/trezor-client/src/transport/protocol.rs 73-99 (ProtocolV2::write) *)
Fixpoint v2_write_loop (fuel : nat) (session_id : Z) (link : L) (data : list Z) (cur seq : Z)
    : tresult L :=
  match fuel with
  | O => NoFuel
  | S fuel =>
    if cur <? len data then
      let chunk := v2_header session_id seq in
      let end_ := Z.min (cur + (REPLEN - len chunk)) (len data) in
      part ← or_panic (slice data cur end_);
      link ← write_chunk link (resize 64 0 (chunk ++ part));
      v2_write_loop fuel session_id link data end_ (seq + 1)
    else Ok link
  end.

(* src: rust/trezor-client/src/transport/protocol.rs 64-102 (ProtocolV2::write) *)
Definition v2_write (session_id : Z) (link : L) (message : ProtoMessage) : tresult L :=
  if session_id =? 0 then Panic else
  let data := v2_data message in
  v2_write_loop (S (length data)) session_id link data 0 (-1).

(* src: rust/trezor-client/src/transport/protocol.rs 120-137 (ProtocolV2::read) *)
Fixpoint v2_read_loop (fuel : nat) (session_id : Z) (link : L) (data : list Z)
    (data_length seq : Z) : tresult (list Z * L) :=
  match fuel with
  | O => NoFuel
  | S fuel =>
    if len data <? data_length then
      '(chunk, link) ← read_chunk link;
      magic ← or_panic (getZ chunk 0);
      if negb (magic =? 0x02) then Err DeviceBadMagic else
      sid ← be_at chunk 1 5;
      if negb (sid =? session_id) then Err DeviceBadSessionId else
      n ← be_at chunk 5 9;
      if negb (n =? wrapu 32 seq) then Err DeviceUnexpectedSequenceNumber else
      more ← tail_from chunk 9;
      v2_read_loop fuel session_id link (data ++ more) data_length (seq + 1)
    else Ok (data, link)
  end.

(* src: rust/trezor-client/src/transport/protocol.rs 104-140 (ProtocolV2::read) *)
Definition v2_read (session_id : Z) (link : L) : tresult (ProtoMessage * L) :=
  '(chunk, link) ← read_chunk link;
  magic ← or_panic (getZ chunk 0);
  if negb (magic =? 0x01) then Err DeviceBadMagic else
  sid ← be_at chunk 1 5;
  if negb (sid =? session_id) then Err DeviceBadSessionId else
  message_type_id ← be_at chunk 5 9;
  mtype ← ok_or (from_i32 message_type_id) (InvalidMessageType message_type_id);
  data_length ← be_at chunk 9 13;
  data ← tail_from chunk 13;
  '(data, link) ← v2_read_loop (S (Z.to_nat data_length)) session_id link data data_length 0;
  body ← or_panic (slice data 0 data_length);
  Ok (mkMessage mtype body, link).
End Protocols.

(** ** A link that queues chunks *)
Record Wire := mkWire { outgoing : list (list Z); incoming : list (list Z) }.

#[export] Instance wire_link : Link Wire := {
  write_chunk w c := Ok (mkWire (outgoing w ++ [c]) (incoming w));
  read_chunk w := match incoming w with
                  | c :: cs => Ok (c, mkWire (outgoing w) cs)
                  | [] => Err DeviceReadTimeout
                  end;
}.

(** ** Facts *)
Section Facts.
Context `{MessageTypes}.

Lemma from_be_u16 z : in_u 16 z → from_be_bytes (be_u16 z) = z.
Proof.
  unfold in_u, from_be_bytes, be_u16. intros. cbn [foldl].
  assert (0 <= z / 256 < 256) by (split; [apply Z.div_pos; lia|apply Z.div_lt_upper_bound; lia]).
  rewrite (Z.mod_small (z / 256)) by done. pose proof (Z.div_mod z 256). lia.
Qed.

Lemma from_be_u32 z : in_u 32 z → from_be_bytes (be_u32 z) = z.
Proof.
  unfold in_u, from_be_bytes, be_u32. intros Hz. cbn [foldl].
  change (2 ^ 24) with (256 * (256 * 256)). change (2 ^ 16) with (256 * 256).
  rewrite <- !Z.div_div by lia.
  pose proof (Z.div_mod z 256 ltac:(lia)). pose proof (Z.div_mod (z / 256) 256 ltac:(lia)).
  pose proof (Z.div_mod (z / 256 / 256) 256 ltac:(lia)).
  assert (0 <= z / 256 / 256 / 256 < 256).
  { rewrite !Z.div_div by lia. split; [apply Z.div_pos; lia|apply Z.div_lt_upper_bound; lia]. }
  rewrite (Z.mod_small (z / 256 / 256 / 256)) by done. lia.
Qed.

(** The chunks of some data: full pieces of 63 bytes, the last one padded. *)
Fixpoint frames (fuel : nat) (d : list Z) : list (list Z) :=
  match fuel with
  | O => []
  | S fuel =>
    match d with
    | [] => []
    | _ => resize 64 0 (0x3f :: take 63 d) :: frames fuel (drop 63 d)
    end
  end.

Lemma frames_size fuel d : Forall (λ c, len c = 64) (frames fuel d).
Proof.
  revert d; induction fuel as [|fuel IH]; intros d; cbn [frames]; [constructor|].
  destruct d as [|x d]; constructor; [|apply IH]. by rewrite length_resize.
Qed.

Lemma frames_count fuel d : (length d <= fuel)%nat → len (frames fuel d) = (len d + 62) / 63.
Proof.
  revert d; induction fuel as [|fuel IH]; intros d Hd.
  { destruct d; [done|simpl in Hd; lia]. }
  destruct d as [|x d]; [done|]. cbn [frames length]. rewrite Nat2Z.inj_succ.
  rewrite IH by (rewrite length_drop; cbn [length] in *; lia). rewrite length_drop. cbn [length].
  destruct (decide (S (length d) <= 63)%nat).
  - replace (S (length d) - 63)%nat with 0%nat by lia. change ((Z.of_nat 0 + 62) / 63) with 0.
    apply (Z.div_unique _ _ _ (Z.of_nat (S (length d)) - 1)); lia.
  - replace (Z.of_nat (S (length d)) + 62) with (Z.of_nat (S (length d) - 63) + 62 + 1 * 63) by lia.
    rewrite Z.div_add by lia. lia.
Qed.

Lemma v1_write_frames fuel (w : Wire) d cur :
  0 <= cur <= len d → (Z.to_nat (len d - cur) < fuel)%nat →
  v1_write_loop fuel w d cur
  = Ok (mkWire (outgoing w ++ frames (pred fuel) (drop (Z.to_nat cur) d)) (incoming w)).
Proof.
  revert w cur; induction fuel as [|fuel IH]; intros w cur Hc Hf; [lia|].
  cbn [v1_write_loop pred]. destruct (Z.ltb_spec cur (len d)) as [Hlt|Hge].
  - set (e := Z.min (cur + (REPLEN - 1)) (len d)).
    assert (slice d cur e = Some (take 63 (drop (Z.to_nat cur) d))) as ->.
    { apply slice_Some. unfold e, REPLEN. split; [lia|]. split; [lia|].
      destruct (Z.min_spec (cur + (64 - 1)) (len d)) as [[? ->]|[? ->]].
      - do 2 f_equal. lia.
      - rewrite take_ge by (rewrite length_drop; lia). symmetry. apply take_ge. rewrite length_drop. lia. }
    cbn [or_panic mbind outcome_bind write_chunk wire_link]. unfold e at 1, REPLEN.
    rewrite IH by lia. destruct fuel as [|fuel]; [lia|]. cbn [pred outgoing incoming frames].
    destruct (drop (Z.to_nat cur) d) as [|x d'] eqn:Ed.
    { apply (f_equal length) in Ed. rewrite length_drop in Ed. simpl in Ed. lia. }
    rewrite <- app_assoc. cbn [app]. do 4 f_equal. f_equal. rewrite <- Ed, drop_drop.
    destruct (Z.min_spec (cur + (64 - 1)) (len d)) as [[? ->]|[? ->]]; [f_equal; lia|].
    rewrite !drop_ge by lia. done.
  - assert (cur = len d) as -> by lia. rewrite Nat2Z.id, drop_all.
    assert (frames fuel [] = []) as -> by by destruct fuel. rewrite app_nil_r. by destruct w.
Qed.

Lemma slice_full (l : list Z) (n : Z) : 0 <= n <= len l → slice l n (len l) = Some (drop (Z.to_nat n) l).
Proof.
  intros. apply slice_Some. split; [lia|]. split; [lia|].
  rewrite take_ge; [done|]. rewrite length_drop. lia.
Qed.

Lemma slice_take (l : list Z) (n : Z) : 0 <= n <= len l → slice l 0 n = Some (take (Z.to_nat n) l).
Proof. intros. apply slice_Some. split; [lia|]. split; [lia|]. by rewrite Z.sub_0_r. Qed.

Lemma resize_short (l : list Z) : (length l <= 64)%nat → resize 64 0 l = l ++ replicate (64 - length l) 0.
Proof. intros. by apply resize_ge. Qed.

(** A number at a place of a chunk. *)
Lemma be_at_ok chunk (s e v : Z) (bs : list Z) :
  0 <= s <= e → e <= len chunk → take (Z.to_nat (e - s)) (drop (Z.to_nat s) chunk) = bs →
  from_be_bytes bs = v → be_at chunk s e = Ok v.
Proof.
  intros Hse He Hbs Hv. unfold be_at. assert (slice chunk s e = Some bs) as ->.
  { by apply slice_Some. }
  cbn [or_panic mbind outcome_bind]. by rewrite Hv.
Qed.

Lemma v1_read_frames fuel k (w : Wire) acc rem rest n :
  incoming w = frames k rem ++ rest → n = len acc + len rem →
  (length rem <= k)%nat → (Z.to_nat (n - len acc) < fuel)%nat →
  ∃ pad, v1_read_loop fuel w acc n = Ok (acc ++ rem ++ pad, mkWire (outgoing w) rest).
Proof.
  revert k w acc rem; induction fuel as [|fuel IH]; intros k w acc rem Hin Hn Hk Hf; [lia|].
  cbn [v1_read_loop]. destruct rem as [|x rem].
  { exists []. rewrite !app_nil_r. simpl in Hn. destruct (Z.ltb_spec (len acc) n); [lia|].
    assert (frames k [] = []) as Hk0 by by destruct k. rewrite Hk0 in Hin. simpl in Hin. subst.
    by destruct w. }
  destruct (Z.ltb_spec (len acc) n) as [Hlt|]; [|simpl in Hn; lia].
  destruct k as [|k]; [simpl in Hk; lia|]. cbn [frames app] in Hin.
  cbn [read_chunk wire_link]. rewrite Hin. cbn [mbind outcome_bind].
  set (d := x :: rem) in *.
  rewrite resize_short by (cbn [length]; rewrite length_take; lia).
  cbn [app getZ Z.ltb Z.compare lookup list_lookup]. change (Z.to_nat 0) with 0%nat. cbn [list_lookup].
  cbn [or_panic mbind outcome_bind Z.eqb Pos.eqb negb]. unfold tail_from.
  set (padding := replicate (64 - length (0x3f :: take 63 d)) 0).
  rewrite slice_full by (cbn [length]; lia). change (Z.to_nat 1) with 1%nat.
  cbn [drop or_panic mbind outcome_bind]. rewrite drop_0.
  destruct (decide (length d <= 63)%nat) as [Hs|Hs].
  - rewrite (take_ge d) by done. rewrite (drop_ge d) in Hin by done.
    assert (frames k [] = []) as Hk0 by by destruct k. rewrite Hk0 in Hin.
    exists padding. destruct fuel as [|fuel]; [lia|]. cbn [v1_read_loop].
    rewrite !length_app. destruct (Z.ltb_spec (Z.of_nat (length acc + (length d + length padding))) n); [lia|].
    rewrite (drop_ge d), Hk0 by done. done.
  - assert (padding = []) as Hpad.
    { unfold padding. cbn [length]. rewrite length_take.
      by replace (64 - S (63 `min` length d))%nat with 0%nat by lia. }
    rewrite Hpad, app_nil_r.
    destruct (IH k (mkWire (outgoing w) (frames k (drop 63 d) ++ rest)) (acc ++ take 63 d) (drop 63 d))
      as [pad Hpad'].
    + done.
    + rewrite length_app, length_take, length_drop. lia.
    + rewrite length_drop. cbn [length] in *. lia.
    + rewrite length_app, length_take. lia.
    + exists pad. rewrite Hpad'. cbn [outgoing]. do 2 f_equal.
      by rewrite <- app_assoc, (app_assoc (take 63 d)), take_drop.
Qed.

(** What the first chunk of a message says, and what is left to read. *)
Lemma v1_read_first {L} `{Link L} (link link' : L) (mt : MessageType) (n : Z) body :
  read_chunk link = Ok (0x3f :: 0x23 :: 0x23 :: be_u16 (message_value mt) ++ be_u32 n ++ body, link') →
  in_u 16 (message_value mt) → in_u 32 n →
  v1_read link = ('(data, link) ← v1_read_loop (S (Z.to_nat n)) link' body n;
                  b ← or_panic (slice data 0 n);
                  Ok (mkMessage mt b, link)).
Proof.
  intros Hread Ht Hn. unfold v1_read. rewrite Hread. cbn [mbind outcome_bind app be_u16 be_u32].
  set (chunk := 0x3f :: _ :: _).
  assert (getZ chunk 0 = Some 0x3f) as -> by done. assert (getZ chunk 1 = Some 0x23) as -> by done.
  assert (getZ chunk 2 = Some 0x23) as -> by done. cbn [or_panic mbind outcome_bind Z.eqb Pos.eqb negb].
  assert (9 <= len chunk) by (unfold chunk; cbn [length]; lia).
  rewrite (be_at_ok chunk 3 5 (message_value mt) (be_u16 (message_value mt)))
    by (lia || done || by apply from_be_u16).
  cbn [mbind outcome_bind]. rewrite from_i32_value. cbn [ok_or mbind outcome_bind].
  rewrite (be_at_ok chunk 5 9 n (be_u32 n)) by (lia || done || by apply from_be_u32).
  cbn [mbind outcome_bind]. unfold tail_from. rewrite slice_full by lia. done.
Qed.

(** The chunks of a message. *)
Definition v1_chunks (message : ProtoMessage) : list (list Z) :=
  frames (length (v1_data message)) (v1_data message).

Lemma v1_data_length message : length (v1_data message) = (8 + length (payload message))%nat.
Proof. unfold v1_data. rewrite !length_app. done. Qed.

Lemma v1_write_chunks (w : Wire) message :
  v1_write w message = Ok (mkWire (outgoing w ++ v1_chunks message) (incoming w)).
Proof. unfold v1_write. rewrite v1_write_frames by lia. done. Qed.

Lemma v1_read_chunks message out rest :
  in_u 16 (message_value (message_type message)) → len (payload message) < 2 ^ 32 →
  v1_read (mkWire out (v1_chunks message ++ rest)) = Ok (message, mkWire out rest).
Proof.
  intros Ht Hl. destruct message as [mt body]. cbn [payload message_type] in *.
  unfold v1_chunks. rewrite v1_data_length. cbn [payload]. set (d := v1_data _).
  assert (d = [0x23; 0x23] ++ be_u16 (message_value mt) ++ be_u32 (len body) ++ body) as Ed by done.
  set (k := (7 + length body)%nat). change (8 + length body)%nat with (S k).
  assert (frames (S k) d = resize 64 0 (0x3f :: take 63 d) :: frames k (drop 63 d)) as ->
    by by rewrite Ed.
  assert (take 63 d = [0x23; 0x23] ++ be_u16 (message_value mt) ++ be_u32 (len body) ++ take 55 body)
    as Htake by by rewrite Ed.
  assert (drop 63 d = drop 55 body) as -> by by rewrite Ed.
  rewrite Htake, resize_short by (cbn [app be_u16 be_u32 length]; rewrite length_take; lia).
  set (padding := replicate _ 0).
  assert (len padding = 55 - len (take 55 body)) as Hpad.
  { unfold padding. rewrite length_replicate. cbn [length app be_u16 be_u32]. rewrite length_take. lia. }
  clearbody padding.
  rewrite (v1_read_first _ (mkWire out (frames k (drop 55 body) ++ rest)) mt (len body)
    (take 55 body ++ padding)).
  2:{ cbn [read_chunk wire_link incoming app]. by rewrite <- !app_assoc. }
  2:{ done. }
  2:{ unfold in_u. lia. }
  destruct (decide (length body <= 55)%nat) as [Hs|Hs].
  - rewrite take_ge, drop_ge by done. assert (frames k [] = []) as -> by by destruct k.
    cbn [v1_read_loop]. rewrite length_app.
    destruct (Z.ltb_spec (Z.of_nat (length body + length padding)) (len body)); [lia|].
    cbn [mbind outcome_bind]. rewrite slice_take by (rewrite length_app; lia).
    by rewrite Nat2Z.id, take_app_length.
  - assert (padding = []) as ->.
    { destruct padding; [done|]. rewrite length_take in Hpad. cbn [length] in Hpad. lia. }
    rewrite app_nil_r.
    destruct (v1_read_frames (S (Z.to_nat (len body))) k (mkWire out (frames k (drop 55 body) ++ rest))
      (take 55 body) (drop 55 body) rest (len body)) as [pad ->];
      [done|rewrite length_take, length_drop; lia|rewrite length_drop; lia|lia|].
    cbn [mbind outcome_bind outgoing]. rewrite app_assoc, take_drop.
    rewrite slice_take by (rewrite length_app; lia). by rewrite Nat2Z.id, take_app_length.
Qed.
End Facts.

(** ** Properties *)

(** C10. Version 1 of the wire protocol: writing a message sends chunks of 64
    bytes, one for each 63 bytes of header and payload, and reading from a
    link that delivers these chunks returns the message and leaves whatever
    follows them. *)
Theorem v1_roundtrip `{MessageTypes} (w : Wire) message :
  in_u 16 (message_value (message_type message)) → len (payload message) < 2 ^ 32 →
  ∃ chunks, v1_write w message = Ok (mkWire (outgoing w ++ chunks) (incoming w)) ∧
    Forall (λ c, len c = 64) chunks ∧ len chunks = (8 + len (payload message) + 62) / 63 ∧
    ∀ out rest, v1_read (mkWire out (chunks ++ rest)) = Ok (message, mkWire out rest).
Proof.
  intros Ht Hl. exists (v1_chunks message).
  split; [apply v1_write_chunks|]. split; [apply frames_size|]. split.
  - unfold v1_chunks. rewrite frames_count, v1_data_length by lia. f_equal. lia.
  - intros. by apply v1_read_chunks.
Qed.

(** Writing with version 2 only adds chunks. *)
Lemma v2_header_size sid seq : 5 <= len (v2_header sid seq) <= 9.
Proof. unfold v2_header. destruct (seq <? 0); cbn; lia. Qed.

Lemma v2_write_extends fuel sid (w : Wire) d cur seq :
  0 <= cur <= len d → (Z.to_nat (len d - cur) < fuel)%nat →
  ∃ cs, v2_write_loop fuel sid w d cur seq = Ok (mkWire (outgoing w ++ cs) (incoming w)).
Proof.
  revert w cur seq; induction fuel as [|fuel IH]; intros w cur seq Hc Hf; [lia|].
  cbn [v2_write_loop]. destruct (Z.ltb_spec cur (len d)).
  - pose proof (v2_header_size sid seq). set (e := Z.min _ _).
    assert (cur < e <= len d) as He by (unfold e, REPLEN; lia).
    assert (is_Some (slice d cur e)) as [part ->].
    { eexists. apply slice_Some. split; [lia|]. split; [lia|reflexivity]. }
    cbn [or_panic mbind outcome_bind write_chunk wire_link].
    destruct (IH (mkWire (outgoing w ++ [resize 64 0 (v2_header sid seq ++ part)]) (incoming w)) e (seq + 1))
      as [cs ->]; [lia|lia|]. cbn [outgoing incoming]. eexists. by rewrite <- app_assoc.
  - exists []. rewrite app_nil_r. by destruct w.
Qed.

(** The first chunk carries 59 bytes of the data, and the next chunk starts
    with the same byte as the first one. *)
Lemma v2_write_first sid (w : Wire) d :
  (8 <= length d)%nat →
  ∃ cs, v2_write_loop (S (length d)) sid w d 0 (-1)
    = Ok (mkWire (outgoing w ++ resize 64 0 (0x01 :: be_u32 sid ++ take 59 d) :: cs) (incoming w)) ∧
  ((length d <= 59)%nat → cs = []) ∧
  ((59 < length d)%nat → ∃ c cs', cs = c :: cs' ∧ getZ c 0 = Some 0x01).
Proof.
  intros Hd. cbn [v2_write_loop]. destruct (Z.ltb_spec 0 (len d)); [|lia].
  change (v2_header sid (-1)) with (0x01 :: be_u32 sid).
  change (REPLEN - len (0x01 :: be_u32 sid)) with 59. rewrite Z.add_0_l.
  assert (slice d 0 (Z.min 59 (len d)) = Some (take 59 d)) as ->.
  { rewrite slice_take by lia. f_equal.
    destruct (Z.min_spec 59 (len d)) as [[? ->]|[? ->]]; [done|]. rewrite Nat2Z.id, !take_ge; [done|lia..]. }
  cbn [or_panic mbind outcome_bind write_chunk wire_link app]. set (w1 := mkWire _ _).
  destruct (decide (length d <= 59)%nat).
  - rewrite Z.min_r by lia. destruct (length d) as [|k] eqn:Ek; [lia|]. cbn [v2_write_loop].
    rewrite Ek. destruct (Z.ltb_spec (Z.of_nat (S k)) (Z.of_nat (S k))); [lia|].
    exists []. split; [done|]. split; [done|lia].
  - rewrite Z.min_l by lia. destruct (length d) as [|k] eqn:Ek; [lia|]. cbn [v2_write_loop].
    rewrite Ek. destruct (Z.ltb_spec 59 (Z.of_nat (S k))); [|lia].
    change (v2_header sid (-1 + 1)) with (0x01 :: be_u32 sid ++ be_u32 0). set (e := Z.min _ _).
    assert (59 < e <= len d) as He by (unfold e, REPLEN; cbn [length app be_u32]; lia).
    assert (is_Some (slice d 59 e)) as [part ->].
    { eexists. apply slice_Some. split; [lia|]. split; [lia|reflexivity]. }
    cbn [or_panic mbind outcome_bind write_chunk wire_link].
    edestruct v2_write_extends as [cs Hcs]; [| |rewrite Hcs]; [lia|lia|].
    exists (resize 64 0 ((0x01 :: be_u32 sid ++ be_u32 0) ++ part) :: cs).
    split; [unfold w1; cbn [outgoing incoming]; by rewrite <- !app_assoc|]. split; [lia|].
    intros _. eexists _, _. split; [done|]. unfold resize. cbn [app take getZ Z.ltb Z.compare]. done.
Qed.

(** Version 2 of the wire protocol does not read what it writes: a message
    of at most 51 bytes of payload comes back, but the continuation chunks of
    a longer one are written with the magic byte of a first chunk, and reading
    them reports a bad magic value. *)
Theorem v2_roundtrip_short `{MessageTypes} sid (w : Wire) message :
  in_u 32 sid → sid ≠ 0 →
  in_u 32 (message_value (message_type message)) → len (payload message) < 2 ^ 32 →
  ∃ chunks, v2_write sid w message = Ok (mkWire (outgoing w ++ chunks) (incoming w)) ∧
    (len (payload message) <= 51 → ∀ out rest,
       v2_read sid (mkWire out (chunks ++ rest)) = Ok (message, mkWire out rest)) ∧
    (51 < len (payload message) → ∀ out rest,
       v2_read sid (mkWire out (chunks ++ rest)) = Err DeviceBadMagic).
Proof.
  intros Hsid Hne Ht Hl. set (d := v2_data message).
  assert (d = be_u32 (message_value (message_type message)) ++ be_u32 (len (payload message))
    ++ payload message) as Ed by done.
  assert (length d = 8 + length (payload message))%nat as Hd by by rewrite Ed.
  destruct (v2_write_first sid w d) as (cs & Hw & Hs & Hb); [lia|].
  exists (resize 64 0 (0x01 :: be_u32 sid ++ take 59 d) :: cs). split.
  { unfold v2_write. destruct (Z.eqb_spec sid 0); [done|]. exact Hw. }
  assert (∀ out rest, v2_read sid (mkWire out ((resize 64 0 (0x01 :: be_u32 sid ++ take 59 d) :: cs) ++ rest))
    = ('(data, link) ← v2_read_loop (S (length (payload message))) sid (mkWire out (cs ++ rest))
         (take 51 (payload message) ++ replicate (51 - length (payload message)) 0)
         (len (payload message)) 0;
       body ← or_panic (slice data 0 (len (payload message)));
       Ok (mkMessage (message_type message) body, link))) as Hread.
  { intros out rest. unfold v2_read. cbn [read_chunk wire_link incoming app mbind outcome_bind outgoing].
    rewrite resize_short by (cbn [length app be_u32]; rewrite length_take; lia).
    assert (take 59 d = be_u32 (message_value (message_type message))
      ++ be_u32 (len (payload message)) ++ take 51 (payload message)) as -> by by rewrite Ed.
    set (padding := replicate _ 0).
    assert (padding = replicate (51 - length (payload message)) 0) as ->.
    { unfold padding. cbn [length app be_u32]. rewrite length_take. f_equal. lia. }
    set (padding := replicate _ 0).
    set (chunk := (_ :: _) ++ padding).
    assert (chunk = 0x01 :: be_u32 sid ++ be_u32 (message_value (message_type message))
      ++ be_u32 (len (payload message)) ++ take 51 (payload message) ++ padding) as Ec
      by (unfold chunk; cbn [app]; by rewrite <- !app_assoc).
    clearbody chunk. cbn [app be_u32] in Ec.
    assert (getZ chunk 0 = Some 0x01) as -> by by rewrite Ec.
    cbn [or_panic mbind outcome_bind Z.eqb Pos.eqb negb].
    assert (13 <= len chunk) by (rewrite Ec; cbn [length]; lia).
    rewrite (be_at_ok chunk 1 5 sid (be_u32 sid)),
      (be_at_ok chunk 5 9 (message_value (message_type message))
         (be_u32 (message_value (message_type message)))),
      (be_at_ok chunk 9 13 (len (payload message)) (be_u32 (len (payload message))));
      try lia; try (by rewrite Ec); try (apply from_be_u32; unfold in_u in *; lia).
    cbn [mbind outcome_bind]. rewrite Z.eqb_refl, from_i32_value. cbn [negb ok_or mbind outcome_bind].
    unfold tail_from. rewrite slice_full by (rewrite Ec; cbn [length]; lia).
    rewrite Ec. change (drop (Z.to_nat 13) _) with (take 51 (payload message) ++ padding).
    cbn [or_panic mbind outcome_bind]. by rewrite Nat2Z.id. }
  split; intros Hsz out rest; rewrite Hread.
  - rewrite (Hs ltac:(lia)). rewrite take_ge by lia. cbn [v2_read_loop app].
    rewrite length_app.
    destruct (Z.ltb_spec (Z.of_nat (length (payload message) + length (replicate (51 - length (payload message)) 0)))
      (len (payload message))); [lia|]. cbn [mbind outcome_bind].
    rewrite slice_take by (rewrite length_app; lia). rewrite Nat2Z.id, take_app_length. by destruct message.
  - destruct (Hb ltac:(lia)) as (c & cs' & -> & Hc). cbn [v2_read_loop].
    rewrite length_app, length_take, length_replicate.
    match goal with |- context [?a <? ?b] => destruct (Z.ltb_spec a b); [|lia] end.
    cbn [read_chunk wire_link incoming app mbind outcome_bind]. rewrite Hc. done.
Qed.

(** A sample enumeration of message types. *)
Definition sample_types : MessageTypes := {|
  MessageType := bool;
  message_value b := if b then 55 else 17;
  from_i32 z := if z =? 55 then Some true else if z =? 17 then Some false else None;
  from_i32_value b := match b with true => eq_refl | false => eq_refl end;
|}.

Lemma v1_roundtrip_witness :
  ∃ chunks, @v1_write sample_types Wire _ (mkWire [] []) (@mkMessage sample_types true (repeat 7 100))
    = Ok (mkWire ([] ++ chunks) []) ∧
    Forall (λ c, len c = 64) chunks ∧ len chunks = (8 + len (repeat 7 100) + 62) / 63 ∧
    ∀ out rest, @v1_read sample_types Wire _ (mkWire out (chunks ++ rest))
      = Ok (@mkMessage sample_types true (repeat 7 100), mkWire out rest).
Proof.
  apply (@v1_roundtrip sample_types (mkWire [] []) (@mkMessage sample_types true (repeat 7 100)));
    [split; [discriminate|reflexivity]|reflexivity].
Defined.

Lemma v2_roundtrip_short_witness :
  ∃ chunks, @v2_write sample_types Wire _ 5 (mkWire [] []) (@mkMessage sample_types true (repeat 7 100))
    = Ok (mkWire ([] ++ chunks) []) ∧
    (len (repeat 7 100) <= 51 → ∀ out rest, @v2_read sample_types Wire _ 5 (mkWire out (chunks ++ rest))
       = Ok (@mkMessage sample_types true (repeat 7 100), mkWire out rest)) ∧
    (51 < len (repeat 7 100) → ∀ out rest, @v2_read sample_types Wire _ 5 (mkWire out (chunks ++ rest))
       = Err DeviceBadMagic).
Proof.
  apply (@v2_roundtrip_short sample_types 5 (mkWire [] []) (@mkMessage sample_types true (repeat 7 100))).
  - unfold in_u. lia.
  - discriminate.
  - split; [discriminate|reflexivity].
  - reflexivity.
Defined.
