(* ===== verification/JpegState.v ===== *)
(** * The JPEG decoder: its state and input

    [trezor-tjpgdec/src/lib.rs]: the fields of the decompressor object, its
    memory pool and its input.  The slices that the decoder allocates from
    the pool are disjoint, so each is a list of its own; the tables indexed by
    table number and class are lists of four, at [2 * num + cls]. *)
From S2P Require Import Prelude Io.
Local Open Scope Z_scope.

(* src: rust/trezor-tjpgdec/src/lib.rs 64-64 (JD_SZBUF) *)
Definition JD_SZBUF : Z := 512.
(* src: rust/trezor-tjpgdec/src/lib.rs 66-66 (HUFF_BIT) *)
Definition HUFF_BIT : Z := 10.
(* src: rust/trezor-tjpgdec/src/lib.rs 67-67 (HUFF_LEN) *)
Definition HUFF_LEN : Z := 1024.
(* src: rust/trezor-tjpgdec/src/lib.rs 68-68 (HUFF_MASK) *)
Definition HUFF_MASK : Z := 1023.
(* src: rust/trezor-tjpgdec/src/lib.rs 70-70 (NUM_DEQUANTIZER_TABLES) *)
Definition NUM_DEQUANTIZER_TABLES : Z := 4.

(* src: rust/trezor-tjpgdec/src/lib.rs 72-88 (Error) *)
Inductive JError :=
| Interrupted
| Input
| MemoryPool
| MemoryInput
| Parameter_
| InvalidData
| UnsupportedJpeg.

Abbreviation jresult := (outcome JError).

(* src: rust/trezor-tjpgdec/src/lib.rs 90-121 (JDEC) *)
Record JDEC := mkJDEC {
  dctr : Z;
  dptr : Z;
  inbuf : list Z;
  dbit : Z;
  scale : Z;
  msx : Z;
  msy : Z;
  qtid : list Z;
  ncomp : Z;
  dcv : list Z;
  nrst : Z;
  rst : Z;
  rsc : Z;
  width : Z;
  height : Z;
  huffbits : list (list Z);
  huffcode : list (list Z);
  huffcode_len : list Z;
  huffdata : list (list Z);
  qttbl : list (list Z);
  wreg : Z;
  marker : Z;
  longofs : list Z;
  hufflut_ac : list (list Z);
  hufflut_dc : list (list Z);
  workbuf : list Z;
  mcubuf : list Z;
  mcu_x : Z;
  mcu_y : Z;
  pool : list Z;
}.

(** Assignments to the fields. *)
Definition set_dctr (s : JDEC) (v : Z) : JDEC :=
  mkJDEC v (dptr s) (inbuf s) (dbit s) (scale s) (msx s) (msy s) (qtid s) (ncomp s) (dcv s)
    (nrst s) (rst s) (rsc s) (width s) (height s) (huffbits s) (huffcode s) (huffcode_len s)
    (huffdata s) (qttbl s) (wreg s) (marker s) (longofs s) (hufflut_ac s) (hufflut_dc s)
    (workbuf s) (mcubuf s) (mcu_x s) (mcu_y s) (pool s).
Definition set_dptr (s : JDEC) (v : Z) : JDEC :=
  mkJDEC (dctr s) v (inbuf s) (dbit s) (scale s) (msx s) (msy s) (qtid s) (ncomp s) (dcv s)
    (nrst s) (rst s) (rsc s) (width s) (height s) (huffbits s) (huffcode s) (huffcode_len s)
    (huffdata s) (qttbl s) (wreg s) (marker s) (longofs s) (hufflut_ac s) (hufflut_dc s)
    (workbuf s) (mcubuf s) (mcu_x s) (mcu_y s) (pool s).
Definition set_inbuf (s : JDEC) (v : list Z) : JDEC :=
  mkJDEC (dctr s) (dptr s) v (dbit s) (scale s) (msx s) (msy s) (qtid s) (ncomp s) (dcv s)
    (nrst s) (rst s) (rsc s) (width s) (height s) (huffbits s) (huffcode s) (huffcode_len s)
    (huffdata s) (qttbl s) (wreg s) (marker s) (longofs s) (hufflut_ac s) (hufflut_dc s)
    (workbuf s) (mcubuf s) (mcu_x s) (mcu_y s) (pool s).
Definition set_dbit (s : JDEC) (v : Z) : JDEC :=
  mkJDEC (dctr s) (dptr s) (inbuf s) v (scale s) (msx s) (msy s) (qtid s) (ncomp s) (dcv s)
    (nrst s) (rst s) (rsc s) (width s) (height s) (huffbits s) (huffcode s) (huffcode_len s)
    (huffdata s) (qttbl s) (wreg s) (marker s) (longofs s) (hufflut_ac s) (hufflut_dc s)
    (workbuf s) (mcubuf s) (mcu_x s) (mcu_y s) (pool s).
Definition set_scale (s : JDEC) (v : Z) : JDEC :=
  mkJDEC (dctr s) (dptr s) (inbuf s) (dbit s) v (msx s) (msy s) (qtid s) (ncomp s) (dcv s)
    (nrst s) (rst s) (rsc s) (width s) (height s) (huffbits s) (huffcode s) (huffcode_len s)
    (huffdata s) (qttbl s) (wreg s) (marker s) (longofs s) (hufflut_ac s) (hufflut_dc s)
    (workbuf s) (mcubuf s) (mcu_x s) (mcu_y s) (pool s).
Definition set_msx (s : JDEC) (v : Z) : JDEC :=
  mkJDEC (dctr s) (dptr s) (inbuf s) (dbit s) (scale s) v (msy s) (qtid s) (ncomp s) (dcv s)
    (nrst s) (rst s) (rsc s) (width s) (height s) (huffbits s) (huffcode s) (huffcode_len s)
    (huffdata s) (qttbl s) (wreg s) (marker s) (longofs s) (hufflut_ac s) (hufflut_dc s)
    (workbuf s) (mcubuf s) (mcu_x s) (mcu_y s) (pool s).
Definition set_msy (s : JDEC) (v : Z) : JDEC :=
  mkJDEC (dctr s) (dptr s) (inbuf s) (dbit s) (scale s) (msx s) v (qtid s) (ncomp s) (dcv s)
    (nrst s) (rst s) (rsc s) (width s) (height s) (huffbits s) (huffcode s) (huffcode_len s)
    (huffdata s) (qttbl s) (wreg s) (marker s) (longofs s) (hufflut_ac s) (hufflut_dc s)
    (workbuf s) (mcubuf s) (mcu_x s) (mcu_y s) (pool s).
Definition set_qtid (s : JDEC) (v : list Z) : JDEC :=
  mkJDEC (dctr s) (dptr s) (inbuf s) (dbit s) (scale s) (msx s) (msy s) v (ncomp s) (dcv s)
    (nrst s) (rst s) (rsc s) (width s) (height s) (huffbits s) (huffcode s) (huffcode_len s)
    (huffdata s) (qttbl s) (wreg s) (marker s) (longofs s) (hufflut_ac s) (hufflut_dc s)
    (workbuf s) (mcubuf s) (mcu_x s) (mcu_y s) (pool s).
Definition set_ncomp (s : JDEC) (v : Z) : JDEC :=
  mkJDEC (dctr s) (dptr s) (inbuf s) (dbit s) (scale s) (msx s) (msy s) (qtid s) v (dcv s)
    (nrst s) (rst s) (rsc s) (width s) (height s) (huffbits s) (huffcode s) (huffcode_len s)
    (huffdata s) (qttbl s) (wreg s) (marker s) (longofs s) (hufflut_ac s) (hufflut_dc s)
    (workbuf s) (mcubuf s) (mcu_x s) (mcu_y s) (pool s).
Definition set_dcv (s : JDEC) (v : list Z) : JDEC :=
  mkJDEC (dctr s) (dptr s) (inbuf s) (dbit s) (scale s) (msx s) (msy s) (qtid s) (ncomp s) v
    (nrst s) (rst s) (rsc s) (width s) (height s) (huffbits s) (huffcode s) (huffcode_len s)
    (huffdata s) (qttbl s) (wreg s) (marker s) (longofs s) (hufflut_ac s) (hufflut_dc s)
    (workbuf s) (mcubuf s) (mcu_x s) (mcu_y s) (pool s).
Definition set_nrst (s : JDEC) (v : Z) : JDEC :=
  mkJDEC (dctr s) (dptr s) (inbuf s) (dbit s) (scale s) (msx s) (msy s) (qtid s) (ncomp s)
    (dcv s) v (rst s) (rsc s) (width s) (height s) (huffbits s) (huffcode s)
    (huffcode_len s) (huffdata s) (qttbl s) (wreg s) (marker s) (longofs s) (hufflut_ac s)
    (hufflut_dc s) (workbuf s) (mcubuf s) (mcu_x s) (mcu_y s) (pool s).
Definition set_rst (s : JDEC) (v : Z) : JDEC :=
  mkJDEC (dctr s) (dptr s) (inbuf s) (dbit s) (scale s) (msx s) (msy s) (qtid s) (ncomp s)
    (dcv s) (nrst s) v (rsc s) (width s) (height s) (huffbits s) (huffcode s)
    (huffcode_len s) (huffdata s) (qttbl s) (wreg s) (marker s) (longofs s) (hufflut_ac s)
    (hufflut_dc s) (workbuf s) (mcubuf s) (mcu_x s) (mcu_y s) (pool s).
Definition set_rsc (s : JDEC) (v : Z) : JDEC :=
  mkJDEC (dctr s) (dptr s) (inbuf s) (dbit s) (scale s) (msx s) (msy s) (qtid s) (ncomp s)
    (dcv s) (nrst s) (rst s) v (width s) (height s) (huffbits s) (huffcode s)
    (huffcode_len s) (huffdata s) (qttbl s) (wreg s) (marker s) (longofs s) (hufflut_ac s)
    (hufflut_dc s) (workbuf s) (mcubuf s) (mcu_x s) (mcu_y s) (pool s).
Definition set_width (s : JDEC) (v : Z) : JDEC :=
  mkJDEC (dctr s) (dptr s) (inbuf s) (dbit s) (scale s) (msx s) (msy s) (qtid s) (ncomp s)
    (dcv s) (nrst s) (rst s) (rsc s) v (height s) (huffbits s) (huffcode s) (huffcode_len s)
    (huffdata s) (qttbl s) (wreg s) (marker s) (longofs s) (hufflut_ac s) (hufflut_dc s)
    (workbuf s) (mcubuf s) (mcu_x s) (mcu_y s) (pool s).
Definition set_height (s : JDEC) (v : Z) : JDEC :=
  mkJDEC (dctr s) (dptr s) (inbuf s) (dbit s) (scale s) (msx s) (msy s) (qtid s) (ncomp s)
    (dcv s) (nrst s) (rst s) (rsc s) (width s) v (huffbits s) (huffcode s) (huffcode_len s)
    (huffdata s) (qttbl s) (wreg s) (marker s) (longofs s) (hufflut_ac s) (hufflut_dc s)
    (workbuf s) (mcubuf s) (mcu_x s) (mcu_y s) (pool s).
Definition set_huffbits (s : JDEC) (v : list (list Z)) : JDEC :=
  mkJDEC (dctr s) (dptr s) (inbuf s) (dbit s) (scale s) (msx s) (msy s) (qtid s) (ncomp s)
    (dcv s) (nrst s) (rst s) (rsc s) (width s) (height s) v (huffcode s) (huffcode_len s)
    (huffdata s) (qttbl s) (wreg s) (marker s) (longofs s) (hufflut_ac s) (hufflut_dc s)
    (workbuf s) (mcubuf s) (mcu_x s) (mcu_y s) (pool s).
Definition set_huffcode (s : JDEC) (v : list (list Z)) : JDEC :=
  mkJDEC (dctr s) (dptr s) (inbuf s) (dbit s) (scale s) (msx s) (msy s) (qtid s) (ncomp s)
    (dcv s) (nrst s) (rst s) (rsc s) (width s) (height s) (huffbits s) v (huffcode_len s)
    (huffdata s) (qttbl s) (wreg s) (marker s) (longofs s) (hufflut_ac s) (hufflut_dc s)
    (workbuf s) (mcubuf s) (mcu_x s) (mcu_y s) (pool s).
Definition set_huffcode_len (s : JDEC) (v : list Z) : JDEC :=
  mkJDEC (dctr s) (dptr s) (inbuf s) (dbit s) (scale s) (msx s) (msy s) (qtid s) (ncomp s)
    (dcv s) (nrst s) (rst s) (rsc s) (width s) (height s) (huffbits s) (huffcode s) v
    (huffdata s) (qttbl s) (wreg s) (marker s) (longofs s) (hufflut_ac s) (hufflut_dc s)
    (workbuf s) (mcubuf s) (mcu_x s) (mcu_y s) (pool s).
Definition set_huffdata (s : JDEC) (v : list (list Z)) : JDEC :=
  mkJDEC (dctr s) (dptr s) (inbuf s) (dbit s) (scale s) (msx s) (msy s) (qtid s) (ncomp s)
    (dcv s) (nrst s) (rst s) (rsc s) (width s) (height s) (huffbits s) (huffcode s)
    (huffcode_len s) v (qttbl s) (wreg s) (marker s) (longofs s) (hufflut_ac s)
    (hufflut_dc s) (workbuf s) (mcubuf s) (mcu_x s) (mcu_y s) (pool s).
Definition set_qttbl (s : JDEC) (v : list (list Z)) : JDEC :=
  mkJDEC (dctr s) (dptr s) (inbuf s) (dbit s) (scale s) (msx s) (msy s) (qtid s) (ncomp s)
    (dcv s) (nrst s) (rst s) (rsc s) (width s) (height s) (huffbits s) (huffcode s)
    (huffcode_len s) (huffdata s) v (wreg s) (marker s) (longofs s) (hufflut_ac s)
    (hufflut_dc s) (workbuf s) (mcubuf s) (mcu_x s) (mcu_y s) (pool s).
Definition set_wreg (s : JDEC) (v : Z) : JDEC :=
  mkJDEC (dctr s) (dptr s) (inbuf s) (dbit s) (scale s) (msx s) (msy s) (qtid s) (ncomp s)
    (dcv s) (nrst s) (rst s) (rsc s) (width s) (height s) (huffbits s) (huffcode s)
    (huffcode_len s) (huffdata s) (qttbl s) v (marker s) (longofs s) (hufflut_ac s)
    (hufflut_dc s) (workbuf s) (mcubuf s) (mcu_x s) (mcu_y s) (pool s).
Definition set_marker (s : JDEC) (v : Z) : JDEC :=
  mkJDEC (dctr s) (dptr s) (inbuf s) (dbit s) (scale s) (msx s) (msy s) (qtid s) (ncomp s)
    (dcv s) (nrst s) (rst s) (rsc s) (width s) (height s) (huffbits s) (huffcode s)
    (huffcode_len s) (huffdata s) (qttbl s) (wreg s) v (longofs s) (hufflut_ac s)
    (hufflut_dc s) (workbuf s) (mcubuf s) (mcu_x s) (mcu_y s) (pool s).
Definition set_longofs (s : JDEC) (v : list Z) : JDEC :=
  mkJDEC (dctr s) (dptr s) (inbuf s) (dbit s) (scale s) (msx s) (msy s) (qtid s) (ncomp s)
    (dcv s) (nrst s) (rst s) (rsc s) (width s) (height s) (huffbits s) (huffcode s)
    (huffcode_len s) (huffdata s) (qttbl s) (wreg s) (marker s) v (hufflut_ac s)
    (hufflut_dc s) (workbuf s) (mcubuf s) (mcu_x s) (mcu_y s) (pool s).
Definition set_hufflut_ac (s : JDEC) (v : list (list Z)) : JDEC :=
  mkJDEC (dctr s) (dptr s) (inbuf s) (dbit s) (scale s) (msx s) (msy s) (qtid s) (ncomp s)
    (dcv s) (nrst s) (rst s) (rsc s) (width s) (height s) (huffbits s) (huffcode s)
    (huffcode_len s) (huffdata s) (qttbl s) (wreg s) (marker s) (longofs s) v (hufflut_dc s)
    (workbuf s) (mcubuf s) (mcu_x s) (mcu_y s) (pool s).
Definition set_hufflut_dc (s : JDEC) (v : list (list Z)) : JDEC :=
  mkJDEC (dctr s) (dptr s) (inbuf s) (dbit s) (scale s) (msx s) (msy s) (qtid s) (ncomp s)
    (dcv s) (nrst s) (rst s) (rsc s) (width s) (height s) (huffbits s) (huffcode s)
    (huffcode_len s) (huffdata s) (qttbl s) (wreg s) (marker s) (longofs s) (hufflut_ac s) v
    (workbuf s) (mcubuf s) (mcu_x s) (mcu_y s) (pool s).
Definition set_workbuf (s : JDEC) (v : list Z) : JDEC :=
  mkJDEC (dctr s) (dptr s) (inbuf s) (dbit s) (scale s) (msx s) (msy s) (qtid s) (ncomp s)
    (dcv s) (nrst s) (rst s) (rsc s) (width s) (height s) (huffbits s) (huffcode s)
    (huffcode_len s) (huffdata s) (qttbl s) (wreg s) (marker s) (longofs s) (hufflut_ac s)
    (hufflut_dc s) v (mcubuf s) (mcu_x s) (mcu_y s) (pool s).
Definition set_mcubuf (s : JDEC) (v : list Z) : JDEC :=
  mkJDEC (dctr s) (dptr s) (inbuf s) (dbit s) (scale s) (msx s) (msy s) (qtid s) (ncomp s)
    (dcv s) (nrst s) (rst s) (rsc s) (width s) (height s) (huffbits s) (huffcode s)
    (huffcode_len s) (huffdata s) (qttbl s) (wreg s) (marker s) (longofs s) (hufflut_ac s)
    (hufflut_dc s) (workbuf s) v (mcu_x s) (mcu_y s) (pool s).
Definition set_mcu_x (s : JDEC) (v : Z) : JDEC :=
  mkJDEC (dctr s) (dptr s) (inbuf s) (dbit s) (scale s) (msx s) (msy s) (qtid s) (ncomp s)
    (dcv s) (nrst s) (rst s) (rsc s) (width s) (height s) (huffbits s) (huffcode s)
    (huffcode_len s) (huffdata s) (qttbl s) (wreg s) (marker s) (longofs s) (hufflut_ac s)
    (hufflut_dc s) (workbuf s) (mcubuf s) v (mcu_y s) (pool s).
Definition set_mcu_y (s : JDEC) (v : Z) : JDEC :=
  mkJDEC (dctr s) (dptr s) (inbuf s) (dbit s) (scale s) (msx s) (msy s) (qtid s) (ncomp s)
    (dcv s) (nrst s) (rst s) (rsc s) (width s) (height s) (huffbits s) (huffcode s)
    (huffcode_len s) (huffdata s) (qttbl s) (wreg s) (marker s) (longofs s) (hufflut_ac s)
    (hufflut_dc s) (workbuf s) (mcubuf s) (mcu_x s) v (pool s).
Definition set_pool (s : JDEC) (v : list Z) : JDEC :=
  mkJDEC (dctr s) (dptr s) (inbuf s) (dbit s) (scale s) (msx s) (msy s) (qtid s) (ncomp s)
    (dcv s) (nrst s) (rst s) (rsc s) (width s) (height s) (huffbits s) (huffcode s)
    (huffcode_len s) (huffdata s) (qttbl s) (wreg s) (marker s) (longofs s) (hufflut_ac s)
    (hufflut_dc s) (workbuf s) (mcubuf s) (mcu_x s) (mcu_y s) v.

(** The index of a table by number and class. *)
Definition ix (num cls : Z) : Z := 2 * num + cls.

(** [t[i]], out of range an abort; and assignment to an element. *)
Definition at_ {A} (t : list A) (i : Z) : jresult A := or_panic (getZ t i).

(** ** The memory pool *)

(** Bytes read back as 16-bit and 32-bit integers. *)
Fixpoint as_u16 (n : nat) (bytes : list Z) : list Z :=
  match n with
  | O => []
  | S n => from_le_bytes (take 2 bytes) :: as_u16 n (drop 2 bytes)
  end.
Fixpoint as_u32 (n : nat) (bytes : list Z) : list Z :=
  match n with
  | O => []
  | S n => from_le_bytes (take 4 bytes) :: as_u32 n (drop 4 bytes)
  end.
Definition as_i16 (n : nat) (bytes : list Z) : list Z := wraps 16 <$> as_u16 n bytes.
Definition as_i32 (n : nat) (bytes : list Z) : list Z := wraps 32 <$> as_u32 n bytes.

(** [alloc_slice::<T>(ndata)] for a [T] of [size] bytes: the contents are
    what the pool held, rounded up to four bytes. *)
(* src: rust/trezor-tjpgdec/src/lib.rs 156-179 (JDEC::alloc_slice) *)
Definition alloc_slice (size : Z) (of_bytes : nat → list Z → list Z) (ndata : Z) (self : JDEC)
    : jresult (list Z * JDEC) :=
  let ndata_bytes := wrapu usize_bits (ndata * size) in
  let ndata_aligned := Z.land (wrapu usize_bits (ndata_bytes + 3)) (wrapu usize_bits (Z.lnot 3)) in
  if len (pool self) <? ndata_aligned then Err MemoryPool
  else Ok (of_bytes (Z.to_nat ndata) (pool self),
           set_pool self (drop (Z.to_nat ndata_aligned) (pool self))).

Definition alloc_u8 := alloc_slice 1 take.
Definition alloc_u16 := alloc_slice 2 as_u16.
Definition alloc_i16 := alloc_slice 2 as_i16.
Definition alloc_i32 := alloc_slice 4 as_i32.

(** ** Input

    A source of bytes: reading returns the bytes it delivers, at most as many
    as asked for; [input_left] bounds what it can still deliver. *)
(* src: rust/trezor-tjpgdec/src/lib.rs 1404-1406 (JpegInput) *)
Class JpegInput (I : Type) := {
  jread : I → Z → list Z * I;
  input_left : I → nat;
  jread_length i n : 0 <= n → len (fst (jread i n)) <= n;
  jread_bytes i n : Forall byte_ok (fst (jread i n));
  jread_left i n : (input_left (snd (jread i n)) + length (fst (jread i n)) = input_left i)%nat;
}.

(** A slice in memory. *)
(* src: rust/trezor-tjpgdec/src/lib.rs 1408-1408 (BufferInput) *)
Record BufferInput := mkInput { input_bytes : list Z; input_bytes_ok : Forall byte_ok input_bytes }.

(* src: rust/trezor-tjpgdec/src/lib.rs 1410-1420 (BufferInput::read) *)
Definition buffer_read (i : BufferInput) (n_data : Z) : list Z * BufferInput :=
  let l := Z.to_nat (Z.min n_data (len (input_bytes i))) in
  (take l (input_bytes i),
   mkInput (drop l (input_bytes i)) (Forall_drop _ _ _ (input_bytes_ok i))).

#[export] Instance buffer_input : JpegInput BufferInput.
Proof.
  refine {| jread := buffer_read; input_left i := length (input_bytes i) |}.
  - intros i n Hn. simpl. rewrite length_take. lia.
  - intros [b Hb] n. simpl. by apply Forall_take.
  - intros i n. simpl. rewrite length_drop, length_take. lia.
Defined.

(** ** Computations of the decoder

    State and errors: the decoder and its input survive an error, since the
    caller may resume after an interruption. *)
Definition M (I A : Type) : Type := JDEC → I → jresult A * JDEC * I.

Section Monad.
Context {I : Type}.

#[export] Instance m_ret : MRet (M I) := fun A a jd i => (Ok a, jd, i).

#[export] Instance m_bind : MBind (M I) := fun A B f m jd i =>
  match m jd i with
  | (Ok a, jd, i) => f a jd i
  | (Err e, jd, i) => (Err e, jd, i)
  | (Panic, jd, i) => (Panic, jd, i)
  | (NoFuel, jd, i) => (NoFuel, jd, i)
  end.

Definition self_ : M I JDEC := fun jd i => (Ok jd, jd, i).
Definition update (f : JDEC → JDEC) : M I unit := fun jd i => (Ok tt, f jd, i).
Definition lift {A} (r : jresult A) : M I A := fun jd i => (r, jd, i).
Definition raise {A} (e : JError) : M I A := lift (Err e).

(** [for x in l { s = f(s, x)?; }] *)
Fixpoint forM {S A} (f : S → A → M I S) (s : S) (l : list A) : M I S :=
  match l with
  | [] => mret s
  | x :: l => s ← f s x; forM f s l
  end.
End Monad.

(** The bytes delivered are stored at [offset] of the input buffer. *)
(* src: rust/trezor-tjpgdec/src/lib.rs 181-188 (JDEC::jpeg_in) *)
Definition jpeg_in {IN : Type} `{JpegInput IN} (inbuf_offset : option Z) (n_data : Z) : M IN Z := fun jd i =>
  match inbuf_offset with
  | Some offset =>
    match slice (inbuf jd) offset (offset + n_data) with
    | None => (Panic, jd, i)
    | Some _ =>
      let '(b, i) := jread i n_data in
      (Ok (len b), set_inbuf jd (splice (inbuf jd) offset b), i)
    end
  | None => let '(b, i) := jread i n_data in (Ok (len b), jd, i)
  end.
