(* ===== verification/JpegTables.v ===== *)
(** * JPEG tables

    The quantizer and Huffman tables of [trezor-tjpgdec/src/lib.rs], built
    from the segment in the input buffer.  An error here makes [JDEC::new]
    drop the object, so no state is returned with it. *)
From S2P Require Import Prelude Io JpegState.
Local Open Scope Z_scope.

(* src: rust/trezor-tjpgdec/src/lib.rs 123-130 (ZIG) *)
Definition ZIG : list Z :=
  [0; 1; 8; 16; 9; 2; 3; 10; 17; 24; 32; 25; 18; 11; 4; 5;
   12; 19; 26; 33; 40; 48; 41; 34; 27; 20; 13; 6; 7; 14; 21; 28;
   35; 42; 49; 56; 57; 50; 43; 36; 29; 22; 15; 23; 30; 37; 44; 51;
   58; 59; 52; 45; 38; 31; 39; 46; 53; 60; 61; 54; 47; 55; 62; 63].

(** The factors times 8192, truncated. *)
(* src: rust/trezor-tjpgdec/src/lib.rs 132-150 (IPSF) *)
Definition IPSF : list Z :=
  [8192; 11362; 10703; 9632; 8192; 6436; 4433; 2260;
   11362; 15760; 14846; 13361; 11362; 8927; 6149; 3134;
   10703; 14846; 13984; 12585; 10703; 8409; 5792; 2953;
   9632; 13361; 12585; 11326; 9632; 7568; 5213; 2657;
   8192; 11362; 10703; 9632; 8192; 6436; 4433; 2260;
   6436; 8927; 8409; 7568; 6436; 5057; 3483; 1775;
   4433; 6149; 5792; 5213; 4433; 3483; 2399; 1223;
   2260; 3134; 2953; 2657; 2260; 1775; 1223; 623].

(** One table: its 64 entries, de-zigzagged and scaled. *)
(* src: rust/trezor-tjpgdec/src/lib.rs 216-222 (JDEC::create_qt_tbl) *)
Definition load_qt (inbuf_ : list Z) (data_idx : Z) (tbl : list Z) : jresult (list Z * Z) :=
  foldM (λ '(tbl, data_idx) zi,
    q ← at_ inbuf_ data_idx;
    f ← at_ IPSF zi;
    tbl ← store tbl zi (i32 (wrapu 32 (q * f)));
    Ok (tbl, data_idx + 1)) (tbl, data_idx) ZIG.

(* src: rust/trezor-tjpgdec/src/lib.rs 193-225 (JDEC::create_qt_tbl) *)
Fixpoint create_qt_loop (fuel : nat) (self : JDEC) (ndata data_idx : Z) : jresult JDEC :=
  match fuel with
  | O => NoFuel
  | S fuel =>
    if ndata =? 0 then Ok self
    else if ndata <? 65 then Err InvalidData
    else
      let ndata := ndata - 65 in
      d ← at_ (inbuf self) data_idx;
      let data_idx := data_idx + 1 in
      if negb (Z.land d 0xf0 =? 0) then Err InvalidData else
      let i := Z.land d 3 in
      '(tbl, self) ← alloc_i32 64 self;
      '(tbl, data_idx) ← load_qt (inbuf self) data_idx tbl;
      qttbl ← store (qttbl self) i tbl;
      create_qt_loop fuel (set_qttbl self qttbl) ndata data_idx
  end.

(** Every table takes 65 bytes. *)
(* src: rust/trezor-tjpgdec/src/lib.rs 193-225 (JDEC::create_qt_tbl) *)
Definition create_qt_tbl (self : JDEC) (ndata : Z) : jresult JDEC :=
  create_qt_loop (S (Z.to_nat ndata)) self ndata 0.

(** ** Huffman tables *)

(** The number of codes of each length, and their sum. *)
(* src: rust/trezor-tjpgdec/src/lib.rs 257-264 (JDEC::create_huffman_tbl) *)
Definition load_bits (inbuf_ : list Z) (data_idx : Z) (bits : list Z) : jresult (list Z * Z * Z) :=
  foldM (λ '(bits, np, data_idx) i,
    b ← at_ inbuf_ data_idx;
    bits ← store bits i b;
    Ok (bits, np + b, data_idx + 1)) (bits, 0, data_idx) (range 16).

(** The codes of one length. *)
(* src: rust/trezor-tjpgdec/src/lib.rs 273-279 (JDEC::create_huffman_tbl) *)
Fixpoint codes_of_length (b : nat) (codes : list Z) (hc j : Z) : jresult (list Z * Z * Z) :=
  match b with
  | O => Ok (codes, hc, j)
  | S b =>
    codes ← store codes j hc;
    codes_of_length b codes (wrapu 16 (hc + 1)) (j + 1)
  end.

(** Codes of one length count up; the first code of the next length is the
    next number, doubled. *)
(* src: rust/trezor-tjpgdec/src/lib.rs 269-281 (JDEC::create_huffman_tbl) *)
Definition build_codes (bits codes : list Z) : jresult (list Z) :=
  '(codes, _, _) ← foldM (λ '(codes, hc, j) b,
    '(codes, hc, j) ← codes_of_length (Z.to_nat b) codes hc j;
    Ok (codes, wrapu 16 (Z.shiftl hc 1), j)) (codes, 0, 0) bits;
  Ok codes.

(* src: rust/trezor-tjpgdec/src/lib.rs 291-299 (JDEC::create_huffman_tbl) *)
Definition load_data (inbuf_ : list Z) (cls np data_idx : Z) (vals : list Z)
    : jresult (list Z * Z) :=
  foldM (λ '(vals, data_idx) i,
    d ← at_ inbuf_ data_idx;
    if (cls =? 0) && (11 <? d) then Err InvalidData else
    vals ← store vals i d;
    Ok (vals, data_idx + 1)) (vals, data_idx) (range np).

(** The same value at [span] consecutive places. *)
(* src: rust/trezor-tjpgdec/src/lib.rs 331-335 (JDEC::create_huffman_tbl) *)
Fixpoint fill_span (span : nat) (lut : list Z) (ti td : Z) : jresult (list Z) :=
  match span with
  | O => Ok lut
  | S span =>
    lut ← store lut ti td;
    fill_span span lut (ti + 1) td
  end.

(** The entries of the codes of [b + 1] bits: the length and the value, packed
    with [shift] bits for the value. *)
(* src: rust/trezor-tjpgdec/src/lib.rs 320-348 (JDEC::create_huffman_tbl) *)
Fixpoint lut_of_length (j : nat) (codes vals lut : list Z) (cls b i : Z) : jresult (list Z * Z) :=
  match j with
  | O => Ok (lut, i)
  | S j =>
    code ← at_ codes i;
    let ti := Z.land (wrapu 16 (Z.shiftl code (HUFF_BIT - 1 - b))) HUFF_MASK in
    v ← at_ vals i;
    let td := if negb (cls =? 0) then wrapu 16 (Z.lor v (Z.shiftl (b + 1) 8))
              else wrapu 8 (Z.lor v (Z.shiftl (b + 1) 4)) in
    lut ← fill_span (Z.to_nat (Z.shiftl 1 (HUFF_BIT - 1 - b))) lut ti td;
    lut_of_length j codes vals lut cls b (i + 1)
  end.

(* src: rust/trezor-tjpgdec/src/lib.rs 300-352 (JDEC::create_huffman_tbl) *)
Definition build_lut (bits codes vals lut : list Z) (cls : Z) : jresult (list Z * Z) :=
  foldM (λ '(lut, i) b,
    j ← at_ bits b;
    lut_of_length (Z.to_nat j) codes vals lut cls b i) (lut, 0) (range HUFF_BIT).

(** One table of the segment, whose class and number are in [d]. *)
(* src: rust/trezor-tjpgdec/src/lib.rs 252-352 (JDEC::create_huffman_tbl) *)
Definition create_one_huffman (self : JDEC) (d ndata data_idx : Z) : jresult (JDEC * Z * Z) :=
  let cls := Z.shiftr d 4 in
  let num := Z.land d 0xf in
  let k := ix num cls in
  '(bits, self) ← alloc_u8 16 self;
  '(bits, np, data_idx) ← load_bits (inbuf self) data_idx bits;
  '(codes, self) ← alloc_u16 np self;
  codes ← build_codes bits codes;
  if ndata <? np then Err InvalidData else
  let ndata := ndata - np in
  '(vals, self) ← alloc_u8 np self;
  '(vals, data_idx) ← load_data (inbuf self) cls np data_idx vals;
  '(lut, self) ← (if negb (cls =? 0) then alloc_u16 HUFF_LEN self else alloc_u8 HUFF_LEN self);
  let lut := (λ _, if negb (cls =? 0) then 0xffff else 0xff) <$> lut in
  '(lut, i) ← build_lut bits codes vals lut cls;
  huffbits' ← store (huffbits self) k bits;
  huffcode' ← store (huffcode self) k codes;
  huffcode_len' ← store (huffcode_len self) k np;
  huffdata' ← store (huffdata self) k vals;
  longofs' ← store (longofs self) k (wrapu 8 i);
  let self := set_longofs (set_huffdata (set_huffcode_len (set_huffcode
                (set_huffbits self huffbits') huffcode') huffcode_len') huffdata') longofs' in
  self ← (if negb (cls =? 0)
          then t ← store (hufflut_ac self) num lut; Ok (set_hufflut_ac self t)
          else t ← store (hufflut_dc self) num lut; Ok (set_hufflut_dc self t));
  Ok (self, ndata, data_idx).

(* src: rust/trezor-tjpgdec/src/lib.rs 230-355 (JDEC::create_huffman_tbl) *)
Fixpoint create_huffman_loop (fuel : nat) (self : JDEC) (ndata data_idx : Z) : jresult JDEC :=
  match fuel with
  | O => NoFuel
  | S fuel =>
    if ndata =? 0 then Ok self
    else if ndata <? 17 then Err InvalidData
    else
      d ← at_ (inbuf self) data_idx;
      if negb (Z.land d 0xee =? 0) then Err InvalidData else
      '(self, ndata, data_idx) ← create_one_huffman self d (ndata - 17) (data_idx + 1);
      create_huffman_loop fuel self ndata data_idx
  end.

(** Every table takes at least 17 bytes. *)
(* src: rust/trezor-tjpgdec/src/lib.rs 230-355 (JDEC::create_huffman_tbl) *)
Definition create_huffman_tbl (self : JDEC) (ndata : Z) : jresult JDEC :=
  create_huffman_loop (S (Z.to_nat ndata)) self ndata 0.

(** ** The JPEG bit stream

    Huffman codes and raw bits are taken from a working register that is
    refilled byte by byte from the input buffer, where 0xFF is escaped and
    markers stall the stream; restart markers resynchronize it. *)
Section Bits.
Context {IN : Type} `{JpegInput IN}.

(** Refills the input buffer when no bytes are left in it. *)
(* src: rust/trezor-tjpgdec/src/lib.rs 376-384 (JDEC::huffext) *)
Definition refill (dc dp : Z) : M IN (Z * Z) :=
  if dc =? 0 then
    dc ← jpeg_in (Some 0) JD_SZBUF;
    if dc =? 0 then raise Input else mret (dc, 0)
  else mret (dc, dp).

(** The working register [w] of [wbit] bits, brought to [target] bits. *)
(* src: rust/trezor-tjpgdec/src/lib.rs 370-407 (JDEC::huffext) *)
Fixpoint fill_loop (fuel : nat) (target dc dp : Z) (flg : bool) (wbit w : Z)
    : M IN (Z * Z * Z * Z) :=
  match fuel with
  | O => lift NoFuel
  | S fuel =>
    if wbit <? target then
      jd ← self_;
      if negb (marker jd =? 0) then
        fill_loop fuel target dc dp flg (wbit + 8) (Z.lor (wrapu 32 (Z.shiftl w 8)) 0xff)
      else
        '(dc, dp) ← refill dc dp;
        jd ← self_;
        d ← lift (at_ (inbuf jd) dp);
        let dp := dp + 1 in
        let dc := dc - 1 in
        if flg then
          _ ← (if negb (d =? 0) then update (λ jd, set_marker jd d) else mret tt);
          fill_loop fuel target dc dp false (wbit + 8) (Z.lor (wrapu 32 (Z.shiftl w 8)) 0xff)
        else if d =? 0xff then
          fill_loop fuel target dc dp true wbit w
        else
          fill_loop fuel target dc dp false (wbit + 8) (Z.lor (wrapu 32 (Z.shiftl w 8)) d)
    else mret (dc, dp, wbit, w)
  end.

(** At most two bytes of input per byte of the register, which holds four. *)
(* src: rust/trezor-tjpgdec/src/lib.rs 362-407 (JDEC::huffext) *)
Definition fill (target : Z) : M IN (Z * Z * Z * Z) :=
  jd ← self_;
  let wbit := (dbit jd) `mod` 32 in
  fill_loop 9 target (dctr jd) (dptr jd) false wbit (Z.land (wreg jd) (Z.shiftl 1 wbit - 1)).

(** The search among the [nc] codes of one length: the matching value, or the
    index after them (an unsigned byte). *)
(* src: rust/trezor-tjpgdec/src/lib.rs 455-473 (JDEC::huffext) *)
Fixpoint search_codes (nc : nat) (d hc_idx codes_len : Z) (codes vals : list Z)
    : jresult (Z + Z) :=
  match nc with
  | O => Ok (inr hc_idx)
  | S nc =>
    if codes_len <=? hc_idx then Err InvalidData else
    val ← at_ codes hc_idx;
    if d =? val then v ← at_ vals hc_idx; Ok (inl v)
    else search_codes nc d (wrapu 8 (hc_idx + 1)) codes_len codes vals
  end.

(** The search over the code lengths from [bl] to 16; the result is the value
    and the length of its code. *)
(* src: rust/trezor-tjpgdec/src/lib.rs 449-479 (JDEC::huffext) *)
Fixpoint search_lengths (fuel : nat) (bl hb_idx hc_idx w wbit codes_len : Z)
    (bits codes vals : list Z) : jresult (Z * Z) :=
  match fuel with
  | O => Err InvalidData
  | S fuel =>
    nc ← at_ bits hb_idx;
    let d := Z.shiftr w (wbit - bl) in
    r ← search_codes (Z.to_nat nc) d hc_idx codes_len codes vals;
    match r with
    | inl v => Ok (v, bl)
    | inr hc_idx => search_lengths fuel (bl + 1) (hb_idx + 1) hc_idx w wbit codes_len bits codes vals
    end
  end.

(** The code at the top of the register: a short one by table lookup, a long
    one by search; the value and the length of the code. *)
(* src: rust/trezor-tjpgdec/src/lib.rs 412-480 (JDEC::huffext) *)
Definition huff_decode (self : JDEC) (id cls w wbit : Z) : jresult (Z * Z) :=
  let k := ix id cls in
  let short := Z.shiftr w (wbit - HUFF_BIT) in
  lut ← at_ (if negb (cls =? 0) then hufflut_ac self else hufflut_dc self) id;
  d ← at_ lut short;
  if negb (cls =? 0) && negb (d =? 0xffff) then Ok (Z.land d 0xff, Z.shiftr d 8)
  else if (cls =? 0) && negb (d =? 0xff) then Ok (Z.land d 0xf, Z.shiftr d 4)
  else
    hc_idx ← at_ (longofs self) k;
    bits ← at_ (huffbits self) k;
    codes ← at_ (huffcode self) k;
    codes_len ← at_ (huffcode_len self) k;
    vals ← at_ (huffdata self) k;
    search_lengths 6 (HUFF_BIT + 1) HUFF_BIT hc_idx w wbit codes_len bits codes vals.

(* src: rust/trezor-tjpgdec/src/lib.rs 361-480 (JDEC::huffext) *)
Definition huffext (id cls : Z) : M IN Z :=
  '(dc, dp, wbit, w) ← fill 16;
  _ ← update (λ jd, set_wreg (set_dptr (set_dctr jd dc) dp) w);
  jd ← self_;
  '(v, code_len) ← lift (huff_decode jd id cls w wbit);
  _ ← update (λ jd, set_dbit jd (wrapu 8 (wbit - code_len)));
  mret v.

(* src: rust/trezor-tjpgdec/src/lib.rs 485-532 (JDEC::bitext) *)
Definition bitext (nbit : Z) : M IN Z :=
  '(dc, dp, wbit, w) ← fill nbit;
  _ ← update (λ jd, set_dptr (set_dctr (set_dbit (set_wreg jd w) (wrapu 8 (wbit - nbit))) dc) dp);
  mret (i32 (Z.shiftr w ((wbit - nbit) `mod` 32))).

(** Two bytes, refilling the buffer as needed. *)
(* src: rust/trezor-tjpgdec/src/lib.rs 546-562 (JDEC::restart) *)
Definition read_marker (dc dp : Z) : M IN (Z * Z * Z) :=
  forM (λ '(marker, dc, dp) (_ : Z),
    '(dc, dp) ← refill dc dp;
    jd ← self_;
    b ← lift (at_ (inbuf jd) dp);
    mret (Z.lor (wrapu 16 (Z.shiftl marker 8)) b, dc - 1, dp + 1)) (0, dc, dp) (range 2).

(* src: rust/trezor-tjpgdec/src/lib.rs 537-578 (JDEC::restart) *)
Definition restart (rstn : Z) : M IN unit :=
  jd ← self_;
  m ← (if negb (marker jd =? 0) then
         _ ← update (λ jd, set_marker jd 0);
         mret (Z.lor 0xff00 (marker jd))
       else
         '(m, dc, dp) ← read_marker (dctr jd) (dptr jd);
         _ ← update (λ jd, set_dctr (set_dptr jd dp) dc);
         mret m);
  if negb (Z.land m 0xffd8 =? 0xffd0) || negb (Z.land m 7 =? Z.land rstn 7)
  then raise InvalidData
  else
    _ ← update (λ jd, set_dbit jd 0);
    jd ← self_;
    dcv ← lift (d ← store (dcv jd) 0 0; d ← store d 1 0; store d 2 0);
    update (λ jd, set_dcv jd dcv).
End Bits.
