(* ===== verification/JpegMcu.v ===== *)
(** * Loading an MCU

    The inverse cosine transform and the decoding of the blocks of one
    minimum coded unit into the working buffers, and the conversion of the unit
    to the pixels of a rectangle. *)
From S2P Require Import Prelude Io JpegState JpegTables.
Local Open Scope Z_scope.

(** ** The inverse transform

    The constants are the fractions times 4096, truncated; all arithmetic
    wraps in 32 bits. *)
(* src: rust/trezor-tjpgdec/src/lib.rs 584-584 (JDEC::block_idct) *)
Definition m13 : Z := 5792.
(* src: rust/trezor-tjpgdec/src/lib.rs 585-585 (JDEC::block_idct) *)
Definition m2 : Z := 4433.
(* src: rust/trezor-tjpgdec/src/lib.rs 586-586 (JDEC::block_idct) *)
Definition m4 : Z := 10703.
(* src: rust/trezor-tjpgdec/src/lib.rs 587-587 (JDEC::block_idct) *)
Definition m5 : Z := 7568.

Definition addw (a b : Z) : Z := i32 (a + b).
Definition subw (a b : Z) : Z := i32 (a - b).
Definition mulsh (a b : Z) : Z := Z.shiftr (i32 (a * b)) 12.

(** One dimension of the transform on eight values in order; the sources of
    the even part are at 0, 2, 4, 6 and of the odd part at 7, 1, 5, 3. *)
(* src: rust/trezor-tjpgdec/src/lib.rs 603-647 (JDEC::block_idct) *)
Definition idct_8 (s0 s1 s2 s3 s4 s5 s6 s7 : Z) : Z * Z * Z * Z * Z * Z * Z * Z :=
  let v0 := s0 in let v1 := s2 in let v2 := s4 in let v3 := s6 in
  let t10 := addw v0 v2 in
  let t12 := subw v0 v2 in
  let t11 := mulsh (subw v1 v3) m13 in
  let v3 := addw v3 v1 in
  let t11 := subw t11 v3 in
  let v0 := addw t10 v3 in
  let v3 := subw t10 v3 in
  let v1 := addw t11 t12 in
  let v2 := subw t12 t11 in
  let v4 := s7 in let v5 := s1 in let v6 := s5 in let v7 := s3 in
  let t10 := subw v5 v4 in
  let t11 := addw v5 v4 in
  let t12 := subw v6 v7 in
  let v7 := addw v7 v6 in
  let v5 := mulsh (subw t11 v7) m13 in
  let v7 := addw v7 t11 in
  let t13 := mulsh (addw t10 t12) m5 in
  let v4 := subw t13 (mulsh t10 m2) in
  let v6 := subw (subw t13 (mulsh t12 m4)) v7 in
  let v5 := subw v5 v6 in
  let v4 := subw v4 v5 in
  (addw v0 v7, addw v1 v6, addw v2 v5, addw v3 v4,
   subw v3 v4, subw v2 v5, subw v1 v6, subw v0 v7).

(** A column, read and written back in place. *)
(* src: rust/trezor-tjpgdec/src/lib.rs 601-648 (JDEC::block_idct) *)
Definition idct_column (src : list Z) (idx : Z) : jresult (list Z) :=
  s0 ← at_ src idx; s1 ← at_ src (idx + 8); s2 ← at_ src (idx + 16); s3 ← at_ src (idx + 24);
  s4 ← at_ src (idx + 32); s5 ← at_ src (idx + 40); s6 ← at_ src (idx + 48);
  s7 ← at_ src (idx + 56);
  let '(o0, o1, o2, o3, o4, o5, o6, o7) := idct_8 s0 s1 s2 s3 s4 s5 s6 s7 in
  src ← store src idx o0; src ← store src (idx + 56) o7;
  src ← store src (idx + 8) o1; src ← store src (idx + 48) o6;
  src ← store src (idx + 16) o2; src ← store src (idx + 40) o5;
  src ← store src (idx + 24) o3; store src (idx + 32) o4.

(** A row, descaled into the destination. *)
(* src: rust/trezor-tjpgdec/src/lib.rs 650-697 (JDEC::block_idct) *)
Definition idct_row (src dst : list Z) (idx : Z) : jresult (list Z) :=
  s0 ← at_ src idx; s1 ← at_ src (idx + 1); s2 ← at_ src (idx + 2); s3 ← at_ src (idx + 3);
  s4 ← at_ src (idx + 4); s5 ← at_ src (idx + 5); s6 ← at_ src (idx + 6);
  s7 ← at_ src (idx + 7);
  let '(o0, o1, o2, o3, o4, o5, o6, o7) :=
    idct_8 (addw s0 (Z.shiftl 128 8)) s1 s2 s3 s4 s5 s6 s7 in
  let out v := i16 (Z.shiftr v 8) in
  dst ← store dst idx (out o0); dst ← store dst (idx + 7) (out o7);
  dst ← store dst (idx + 1) (out o1); dst ← store dst (idx + 6) (out o6);
  dst ← store dst (idx + 2) (out o2); dst ← store dst (idx + 5) (out o5);
  dst ← store dst (idx + 3) (out o3); store dst (idx + 4) (out o4).

(** The block ends up at [base] of the destination. *)
(* src: rust/trezor-tjpgdec/src/lib.rs 583-698 (JDEC::block_idct) *)
Definition block_idct (src dst : list Z) (base : Z) : jresult (list Z * list Z) :=
  src ← foldM idct_column src (range 8);
  out ← or_panic (slice dst base (len dst));
  out ← foldM (idct_row src) out ((λ r, r * 8) <$> range 8);
  Ok (src, take (Z.to_nat base) dst ++ out).

(** [bits] extracted bits as a signed value: with the top bit clear they stand
    for a negative number. *)
(* src: rust/trezor-tjpgdec/src/lib.rs 732-737 (JDEC::mcu_load) *)
Definition restore_sign (bits bc : Z) : Z :=
  let msb := wrapu 32 (Z.shiftl 1 (bc - 1)) in
  if Z.land (wrapu 32 bits) msb =? 0 then i32 (bits - i32 (wrapu 32 (wrapu 32 (Z.shiftl msb 1) - 1)))
  else bits.

Section Mcu.
Context {IN : Type} `{JpegInput IN}.

(* src: rust/trezor-tjpgdec/src/lib.rs 744-750 (JDEC::mcu_load) *)
Definition dequantizer (cmp : Z) : M IN (list Z) :=
  jd ← self_;
  dqidx ← lift (at_ (qtid jd) cmp);
  if NUM_DEQUANTIZER_TABLES <=? dqidx then raise InvalidData
  else lift (at_ (qttbl jd) dqidx).

Definition set_work (i v : Z) : M IN unit :=
  jd ← self_;
  w ← lift (store (workbuf jd) i v);
  update (λ jd, set_workbuf jd w).

(** The DC element: the difference to the previous block of the component. *)
(* src: rust/trezor-tjpgdec/src/lib.rs 725-750 (JDEC::mcu_load) *)
Definition load_dc (id cmp : Z) : M IN unit :=
  bc ← huffext id 0;
  jd ← self_;
  d ← lift (at_ (dcv jd) cmp);
  d ← (if negb (bc =? 0) then
         e ← bitext bc;
         let d := i32 (d + restore_sign e bc) in
         jd ← self_;
         dcv ← lift (store (dcv jd) cmp (i16 d));
         _ ← update (λ jd, set_dcv jd dcv);
         mret d
       else mret d);
  dfq ← dequantizer cmp;
  q ← lift (at_ dfq 0);
  set_work 0 (Z.shiftr (i32 (d * q)) 8).

(** The AC elements from [z] on, up to the end of the block; the result is the
    final [z]. *)
(* src: rust/trezor-tjpgdec/src/lib.rs 755-790 (JDEC::mcu_load) *)
Fixpoint load_ac (fuel : nat) (id cmp z : Z) : M IN Z :=
  match fuel with
  | O => lift NoFuel
  | S fuel =>
    d ← huffext id 1;
    if d =? 0 then mret z else
    let z := z + Z.shiftr d 4 in
    if 64 <=? z then raise InvalidData else
    let bc := Z.land d 0xf in
    _ ← (if negb (bc =? 0) then
           d ← bitext bc;
           let d := restore_sign d bc in
           i ← lift (at_ ZIG z);
           dfq ← dequantizer cmp;
           q ← lift (at_ dfq i);
           set_work i (Z.shiftr (i32 (d * q)) 8)
         else mret tt);
    let z := z + 1 in
    if 64 <=? z then mret z else load_ac fuel id cmp z
  end.

(** The same value in the 64 places of a block. *)
(* src: rust/trezor-tjpgdec/src/lib.rs 799-801 (JDEC::mcu_load) *)
Definition fill_block (base v : Z) : M IN unit :=
  jd ← self_;
  b ← lift (foldM (λ b i, store b (base + i) v) (mcubuf jd) (range 64));
  update (λ jd, set_mcubuf jd b).

(** [workbuf[1..64].fill(0)]. *)
Definition clear_ac : M IN unit :=
  jd ← self_;
  match slice (workbuf jd) 1 64 with
  | None => lift Panic
  | Some _ => update (λ jd, set_workbuf jd (splice (workbuf jd) 1 (repeat 0 63)))
  end.

(** One block of component [cmp] at [mcu_buf_idx]. *)
(* src: rust/trezor-tjpgdec/src/lib.rs 716-810 (JDEC::mcu_load) *)
Definition load_block (cmp mcu_buf_idx : Z) : M IN unit :=
  jd ← self_;
  if negb (cmp =? 0) && negb (ncomp jd =? 3) then fill_block mcu_buf_idx 128
  else
    let id := if negb (cmp =? 0) then 1 else 0 in
    _ ← load_dc id cmp;
    _ ← clear_ac;
    z ← load_ac 64 id cmp 1;
    jd ← self_;
    if (z =? 1) || (scale jd =? 3) then
      w0 ← lift (at_ (workbuf jd) 0);
      fill_block mcu_buf_idx (i16 (Z.quot w0 256 + 128))
    else
      '(w, b) ← lift (block_idct (workbuf jd) (mcubuf jd) mcu_buf_idx);
      update (λ jd, set_mcubuf (set_workbuf jd w) b).

(** The luminance blocks, then one block of each chrominance component. *)
(* src: rust/trezor-tjpgdec/src/lib.rs 702-815 (JDEC::mcu_load) *)
Definition mcu_load : M IN unit :=
  jd ← self_;
  let nby := msx jd * msy jd in
  forM (λ (_ : unit) blk,
    load_block (if blk <? nby then 0 else blk - nby + 1) (blk * 64)) tt (range (nby + 2)).
End Mcu.

(** ** Output of an MCU

    Conversion of the blocks to RGB pixels in the working buffer, averaging
    for the scale, clipping at the edges of the image, packing to 16 bits, and
    the call of the output function. *)
(** The working buffer seen as bytes, as 32-bit and as 16-bit integers. *)
Definition u32_bytes (z : Z) : list Z :=
  [z `mod` 256; (z / 256) `mod` 256; (z / 2 ^ 16) `mod` 256; (z / 2 ^ 24) `mod` 256].
Definition work_bytes (w : list Z) : list Z := concat ((λ v, u32_bytes (wrapu 32 v)) <$> w).
Definition bytes_work (b : list Z) : list Z := as_i32 (Nat.div (length b) 4) b.
Definition bytes_u16 (b : list Z) : list Z := as_u16 (Nat.div (length b) 2) b.

Definition clamp (v lo hi : Z) : Z := if v <? lo then lo else if hi <? v then hi else v.

(** One pixel of the YCbCr colour space; the factors are the fractions times
    [cvacc], truncated. *)
(* src: rust/trezor-tjpgdec/src/lib.rs 827-828 (JDEC::mcu_output) *)
Definition cvacc : Z := 1024.
(* src: rust/trezor-tjpgdec/src/lib.rs 909-923 (JDEC::mcu_output) *)
Definition ycc_rgb (yy cb cr : Z) : list Z :=
  [clamp (i32 (yy + Z.quot (i32 (1435 * cr)) cvacc)) 0 255;
   clamp (i32 (yy - Z.quot (i32 (i32 (352 * cb) + i32 (731 * cr))) cvacc)) 0 255;
   clamp (i32 (yy + Z.quot (i32 (1814 * cb)) cvacc)) 0 255].

(** [workbuf[i] = ...; i += 1] for each value. *)
Definition put_all (work : list Z) (i : Z) (vs : list Z) : jresult (list Z * Z) :=
  foldM (λ '(work, i) v, work ← store work i v; Ok (work, i + 1)) (work, i) vs.

(** A pixel of a row: the luminance and chrominance indices advance along the
    blocks. *)
(* src: rust/trezor-tjpgdec/src/lib.rs 890-924 (JDEC::mcu_output) *)
Definition rgb_pixel (mcubuf : list Z) (mx : Z) (st : Z * Z * Z * list Z) (ix : Z)
    : jresult (Z * Z * Z * list Z) :=
  let '(py_idx, pc_idx, pix_idx, work) := st in
  cb ← at_ mcubuf pc_idx;
  cr ← at_ mcubuf (pc_idx + 64);
  let cb := cb - 128 in
  let cr := cr - 128 in
  let py_idx := if mx =? 16 then if ix =? 8 then py_idx + 56 else py_idx else py_idx in
  let pc_idx := if mx =? 16 then pc_idx + Z.land ix 1 else pc_idx + 1 in
  yy ← at_ mcubuf py_idx;
  '(work, pix_idx) ← put_all work pix_idx (ycc_rgb yy cb cr);
  Ok (py_idx + 1, pc_idx, pix_idx, work).

(* src: rust/trezor-tjpgdec/src/lib.rs 876-925 (JDEC::mcu_output) *)
Definition rgb_row (mcubuf : list Z) (mx my : Z) (st : Z * list Z) (iy : Z)
    : jresult (Z * list Z) :=
  let '(pix_idx, work) := st in
  let pc_idx := if my =? 16 then 64 * 4 + Z.shiftr iy 1 * 8 else mx * 8 + iy * 8 in
  let py_idx := (if my =? 16 then if 8 <=? iy then 64 else 0 else 0) + iy * 8 in
  '(_, _, pix_idx, work) ← foldM (rgb_pixel mcubuf mx) (py_idx, pc_idx, pix_idx, work) (range mx);
  Ok (pix_idx, work).

(** The sums over a square of pixels. *)
(* src: rust/trezor-tjpgdec/src/lib.rs 961-977 (JDEC::mcu_output) *)
Definition sum_square (w a : Z) (work : list Z) (pix_idx : Z) : jresult (Z * Z * Z) :=
  '(_, r, g, b) ← foldM (λ '(pix_idx, r, g, b) (_ : Z),
    '(pix_idx, r, g, b) ← foldM (λ '(pix_idx, r, g, b) (_ : Z),
      x ← at_ work pix_idx;
      y ← at_ work (pix_idx + 1);
      z ← at_ work (pix_idx + 2);
      Ok (pix_idx + 3, r + x, g + y, b + z)) (pix_idx, r, g, b) (range w);
    Ok (pix_idx + a, r, g, b)) (pix_idx, 0, 0, 0) (range w);
  Ok (r, g, b).

(** Every square of [w] by [w] pixels becomes its average, in place. *)
(* src: rust/trezor-tjpgdec/src/lib.rs 948-993 (JDEC::mcu_output) *)
Definition descale (scale mx my : Z) (work : list Z) : jresult (list Z) :=
  let s := wrapu 8 (scale * 2) in
  let w := Z.shiftl 1 scale in
  let a := (mx - w) * 3 in
  '(work, _) ← foldM (λ '(work, op_idx) iy,
    foldM (λ '(work, op_idx) ix,
      '(r, g, b) ← sum_square w a work ((iy * mx + ix) * 3);
      put_all work op_idx [wrapu 8 (Z.shiftr r s); wrapu 8 (Z.shiftr g s); wrapu 8 (Z.shiftr b s)])
      (work, op_idx) ((λ k, k * w) <$> range ((mx + w - 1) / w)))
    (work, 0) ((λ k, k * w) <$> range ((my + w - 1) / w));
  Ok work.

(** For the scale of one eighth: one pixel per block, from its first sample. *)
(* src: rust/trezor-tjpgdec/src/lib.rs 994-1033 (JDEC::mcu_output) *)
Definition eighth (mcubuf : list Z) (mx my : Z) (work : list Z) : jresult (list Z) :=
  let pc_idx := mx * my in
  cb ← at_ mcubuf pc_idx;
  cr ← at_ mcubuf (pc_idx + 64);
  let cb := cb - 128 in
  let cr := cr - 128 in
  '(work, _) ← foldM (λ '(work, pix_idx) iy,
    '(work, pix_idx, _) ← foldM (λ '(work, pix_idx, py_idx) (_ : Z),
      yy ← at_ mcubuf py_idx;
      '(work, pix_idx) ← put_all work pix_idx (ycc_rgb yy cb cr);
      Ok (work, pix_idx, py_idx + 64))
      (work, pix_idx, if iy =? 8 then 64 * 2 else 0) (range (mx / 8));
    Ok (work, pix_idx))
    (work, 0) ((λ k, k * 8) <$> range (my / 8));
  Ok work.

(** Removes the pixels beyond the right edge, in place. *)
(* src: rust/trezor-tjpgdec/src/lib.rs 1035-1059 (JDEC::mcu_output) *)
Definition squeeze (rx ry mx : Z) (work : list Z) : jresult (list Z) :=
  if rx <? mx then
    '(work, _, _) ← foldM (λ '(work, s_0_idx, d_idx) (_ : Z),
      '(work, s_0_idx, d_idx) ← foldM (λ '(work, s_0_idx, d_idx) (_ : Z),
        v ← at_ work s_0_idx;
        work ← store work d_idx v;
        Ok (work, s_0_idx + 1, d_idx + 1)) (work, s_0_idx, d_idx) (range (rx * 3));
      Ok (work, s_0_idx + (mx - rx) * 3, d_idx)) (work, 0, 0) (range ry);
    Ok work
  else Ok work.

(** RGB888 to RGB565. *)
(* src: rust/trezor-tjpgdec/src/lib.rs 1067-1074 (JDEC::mcu_output) *)
Definition rgb565 (r g b : Z) : Z :=
  wrapu 16 (Z.lor (wrapu 16 (Z.lor (wrapu 16 (Z.shiftl (Z.land r 0xf8) 8))
                               (Z.shiftl (Z.land g 0xfc) 3))) (Z.shiftr b 3)).

(* src: rust/trezor-tjpgdec/src/lib.rs 1061-1081 (JDEC::mcu_output) *)
Definition pack (rx ry : Z) (work : list Z) : jresult (list Z) :=
  foldM (λ work k,
    r ← at_ work (3 * k);
    g ← at_ work (3 * k + 1);
    b ← at_ work (3 * k + 2);
    let w_0 := rgb565 r g b in
    work ← store work (2 * k) (Z.land w_0 0xff);
    store work (2 * k + 1) (Z.shiftr w_0 8)) work (range (rx * ry)).

(** Where the results go: the state of the output function, which may read the
    decoder and interrupts it by returning [false]. *)
(* src: rust/trezor-tjpgdec/src/lib.rs 1422-1431 (JpegOutput) *)
Class JpegOutput (O : Type) := {
  owrite : O → JDEC → Z * Z → Z * Z → list Z → bool * O;
}.

(* src: rust/trezor-tjpgdec/src/lib.rs 1433-1445 (BlackHoleOutput) *)
#[export] Instance black_hole : JpegOutput unit := { owrite o jd origin size pixels := (true, o) }.

(** The rectangle of the MCU at [x], [y] in the scaled image: origin and size,
    or nothing when it is rounded off. *)
(* src: rust/trezor-tjpgdec/src/lib.rs 835-861 (JDEC::mcu_output) *)
Definition output_rect (jd : JDEC) (x y : Z) : option (Z * Z * (Z * Z)) :=
  let mx := msx jd * 8 in
  let my := msy jd * 8 in
  let rx := if x + mx <=? width jd then mx else wrapu 32 (width jd - x) in
  let ry := if y + my <=? height jd then my else wrapu 32 (height jd - y) in
  let rx := Z.shiftr rx (scale jd) in
  let ry := Z.shiftr ry (scale jd) in
  if (rx =? 0) || (ry =? 0) then None
  else Some (Z.shiftr x (scale jd), Z.shiftr y (scale jd), (rx, ry)).

(** The pixels of the MCU in the bytes of the working buffer. *)
(* src: rust/trezor-tjpgdec/src/lib.rs 869-1081 (JDEC::mcu_output) *)
Definition mcu_pixels (jd : JDEC) (rx ry : Z) (work : list Z) : jresult (list Z) :=
  let mx := msx jd * 8 in
  let my := msy jd * 8 in
  work ← (if negb (scale jd =? 3) then
            '(_, work) ← foldM (rgb_row (mcubuf jd) mx my) (0, work) (range my);
            if negb (scale jd =? 0) then descale (scale jd) mx my work else Ok work
          else eighth (mcubuf jd) mx my work);
  work ← squeeze rx ry (Z.shiftr mx (scale jd)) work;
  pack rx ry work.

(** The new state of the decoder and of the output, and whether to go on. *)
(* src: rust/trezor-tjpgdec/src/lib.rs 821-1095 (JDEC::mcu_output) *)
Definition mcu_output {O} `{JpegOutput O} (jd : JDEC) (o : O) (x y : Z) : jresult unit * JDEC * O :=
  match output_rect jd x y with
  | None => (Ok tt, jd, o)
  | Some (ox, oy, (rx, ry)) =>
    match mcu_pixels jd rx ry (work_bytes (workbuf jd)) with
    | Ok work =>
      let jd := set_workbuf jd (bytes_work work) in
      match slice (bytes_u16 work) 0 (rx * ry) with
      | None => (Panic, jd, o)
      | Some bitmap =>
        let '(go_on, o) := owrite o jd (ox, oy) (rx, ry) bitmap in
        (if go_on then Ok tt else Err Interrupted, jd, o)
      end
    | Err e => (Err e, jd, o)
    | Panic => (Panic, jd, o)
    | NoFuel => (NoFuel, jd, o)
    end
  end.
