(* ===== verification/JpegDecode.v ===== *)
(** * Opening and decoding a JPEG image

    [JDEC::new] parses the segments up to the start of the scan;
    [JDEC::decomp] decodes and outputs one MCU after another, and resumes where
    it was interrupted. *)
From S2P Require Import Prelude Io JpegState JpegTables JpegMcu.
Local Open Scope Z_scope.

(* src: rust/trezor-tjpgdec/src/lib.rs 1119-1150 (JDEC::new) *)
Definition empty_jdec (pool : list Z) : JDEC :=
  mkJDEC 0 0 [] 0 0 0 0 [0; 0; 0] 0 [0; 0; 0] 0 0 0 0 0
    [[]; []; []; []] [[]; []; []; []] [0; 0; 0; 0] [[]; []; []; []] [[]; []; []; []]
    0 0 [0; 0; 0; 0] [[]; []] [[]; []] [] [] 0 0 pool.

(** Big-endian 16 bits at an index of the input buffer. *)
Definition inbuf_u16 (jd : JDEC) (i : Z) : jresult Z :=
  hi ← at_ (inbuf jd) i;
  lo ← at_ (inbuf jd) (i + 1);
  Ok (Z.lor (Z.shiftl hi 8) lo).

(* src: rust/trezor-tjpgdec/src/lib.rs 1109-1115 (JDEC::set_scale) *)
Definition set_scale_ (self : JDEC) (scale : Z) : jresult JDEC :=
  if 3 <? scale then Err Parameter_ else Ok (set_scale self scale).

(** A component of the frame header. *)
(* src: rust/trezor-tjpgdec/src/lib.rs 1210-1234 (JDEC::new) *)
Definition sof_component (jd : JDEC) (i : Z) : jresult JDEC :=
  b ← at_ (inbuf jd) (7 + 3 * i);
  jd ← (if i =? 0 then
          if negb (b =? 0x11) && negb (b =? 0x22) && negb (b =? 0x21) then Err UnsupportedJpeg
          else Ok (set_msy (set_msx jd (Z.shiftr b 4)) (Z.land b 15))
        else if negb (b =? 0x11) then Err UnsupportedJpeg else Ok jd);
  q ← at_ (inbuf jd) (8 + 3 * i);
  qtid' ← store (qtid jd) i q;
  let jd := set_qtid jd qtid' in
  if 3 <? q then Err UnsupportedJpeg else Ok jd.

(* src: rust/trezor-tjpgdec/src/lib.rs 1190-1235 (JDEC::new) *)
Definition segment_sof (jd : JDEC) : jresult JDEC :=
  w ← inbuf_u16 jd 3;
  h ← inbuf_u16 jd 1;
  n ← at_ (inbuf jd) 5;
  let jd := set_ncomp (set_height (set_width jd w) h) n in
  if negb (n =? 3) && negb (n =? 1) then Err UnsupportedJpeg
  else foldM sof_component jd (range n).

(* src: rust/trezor-tjpgdec/src/lib.rs 1236-1247 (JDEC::new) *)
Definition segment_dri (jd : JDEC) : jresult JDEC :=
  n ← inbuf_u16 jd 0;
  Ok (set_nrst jd n).

Definition is_empty_table (t : list Z) : bool := len t =? 0.

(* src: rust/trezor-tjpgdec/src/lib.rs 1290-1309 (JDEC::new) *)
Definition sos_component (jd : JDEC) (_ : unit) (i : Z) : jresult unit :=
  b ← at_ (inbuf jd) (2 + 2 * i);
  if negb (b =? 0) && negb (b =? 0x11) then Err UnsupportedJpeg else
  let n := if negb (i =? 0) then 1 else 0 in
  dc ← at_ (huffbits jd) (ix n 0);
  ac ← at_ (huffbits jd) (ix n 1);
  if is_empty_table dc || is_empty_table ac then Err InvalidData else
  q ← at_ (qtid jd) i;
  t ← at_ (qttbl jd) q;
  if is_empty_table t then Err InvalidData else Ok tt.

(** The checks and allocations at the start of the scan. *)
(* src: rust/trezor-tjpgdec/src/lib.rs 1281-1325 (JDEC::new) *)
Definition segment_sos (jd : JDEC) : jresult JDEC :=
  if (width jd =? 0) || (height jd =? 0) then Err InvalidData else
  c ← at_ (inbuf jd) 0;
  if negb (c =? ncomp jd) then Err UnsupportedJpeg else
  _ ← foldM (sos_component jd) tt (range (ncomp jd));
  let n := msy jd * msx jd in
  if n =? 0 then Err InvalidData else
  let len_ := n * 64 * 3 + 64 in
  let len_ := if len_ <? 256 then 256 else len_ in
  '(w, jd) ← alloc_i32 (len_ / 4) jd;
  let jd := set_workbuf jd w in
  '(b, jd) ← alloc_i16 ((n + 2) * 64) jd;
  Ok (set_mcubuf jd b).

Section Decode.
Context {IN : Type} `{JpegInput IN}.

(* src: rust/trezor-tjpgdec/src/lib.rs 1159-1172 (JDEC::new) *)
Fixpoint find_soi (fuel : nat) (mark ofs : Z) : M IN Z :=
  match fuel with
  | O => lift NoFuel
  | S fuel =>
    n ← jpeg_in (Some 0) 1;
    if negb (n =? 1) then raise Input else
    jd ← self_;
    b ← lift (at_ (inbuf jd) 0);
    let ofs := ofs + 1 in
    let mark := wrapu 16 (Z.lor (Z.shiftl mark 8) b) in
    if mark =? 0xffd8 then mret ofs else find_soi fuel mark ofs
  end.

(** Loads a segment into the input buffer. *)
(* src: rust/trezor-tjpgdec/src/lib.rs 1192-1198 (JDEC::new) *)
Definition load_segment (n : Z) : M IN unit :=
  if JD_SZBUF <? n then raise MemoryInput else
  r ← jpeg_in (Some 0) n;
  if negb (r =? n) then raise Input else mret tt.

(** A segment whose contents change the decoder. *)
Definition with_segment (n : Z) (f : JDEC → jresult JDEC) : M IN unit :=
  _ ← load_segment n;
  jd ← self_;
  jd ← lift (f jd);
  update (λ _, jd).

(** The start of the scan: the rest of the buffer is read ahead. *)
(* src: rust/trezor-tjpgdec/src/lib.rs 1272-1335 (JDEC::new) *)
Definition start_scan (n ofs : Z) : M IN unit :=
  _ ← with_segment n segment_sos;
  let ofs := ofs `mod` JD_SZBUF in
  _ ← (if negb (ofs =? 0) then
         dc ← jpeg_in (Some ofs) (JD_SZBUF - ofs);
         update (λ jd, set_dctr jd dc)
       else mret tt);
  update (λ jd, set_dptr jd ofs).

(** The segments up to the start of the scan. *)
(* src: rust/trezor-tjpgdec/src/lib.rs 1173-1350 (JDEC::new) *)
Fixpoint segments (fuel : nat) (ofs : Z) : M IN unit :=
  match fuel with
  | O => lift NoFuel
  | S fuel =>
    n ← jpeg_in (Some 0) 4;
    if negb (n =? 4) then raise Input else
    jd ← self_;
    mark ← lift (inbuf_u16 jd 0);
    l ← lift (inbuf_u16 jd 2);
    if (l <=? 2) || negb (Z.shiftr mark 8 =? 0xff) then raise InvalidData else
    let l := l - 2 in
    let ofs := wrapu 32 (ofs + (4 + l)) in
    let m := Z.land mark 0xff in
    if m =? 0xC0 then _ ← with_segment l segment_sof; segments fuel ofs
    else if m =? 0xDD then _ ← with_segment l segment_dri; segments fuel ofs
    else if m =? 0xC4 then _ ← with_segment l (λ jd, create_huffman_tbl jd l); segments fuel ofs
    else if m =? 0xDB then _ ← with_segment l (λ jd, create_qt_tbl jd l); segments fuel ofs
    else if m =? 0xDA then start_scan l ofs
    else if bool_decide (m ∈ [0xC1; 0xC2; 0xC3; 0xC5; 0xC6; 0xC7; 0xC9; 0xCA; 0xCB; 0xCD; 0xCF;
                              0xCE; 0xD9])
    then raise UnsupportedJpeg
    else
      n ← jpeg_in None l;
      if negb (n =? l) then raise Input else segments fuel ofs
  end.

(** Every turn of the loops takes a byte of the input. *)
(* src: rust/trezor-tjpgdec/src/lib.rs 1117-1351 (JDEC::new) *)
Definition jdec_new (i : IN) (pool_ : list Z) : jresult JDEC * IN :=
  match alloc_u8 JD_SZBUF (empty_jdec pool_) with
  | Ok (b, jd) =>
    let fuel := S (input_left i) in
    let '(r, jd, i) := (ofs ← find_soi fuel 0 0; segments fuel ofs) (set_inbuf jd b) i in
    match r with
    | Ok _ => (Ok jd, i)
    | Err e => (Err e, i)
    | Panic => (Panic, i)
    | NoFuel => (NoFuel, i)
    end
  | Err e => (Err e, i)
  | Panic => (Panic, i)
  | NoFuel => (NoFuel, i)
  end.

(** The restart interval: the counter of MCUs since the last restart. *)
(* src: rust/trezor-tjpgdec/src/lib.rs 1364-1374 (JDEC::decomp) *)
Definition check_restart : M IN unit :=
  jd ← self_;
  if negb (nrst jd =? 0) then
    let val := rst jd in
    _ ← update (λ jd, set_rst jd (wrapu 16 (rst jd + 1)));
    if val =? nrst jd then
      let v := rsc jd in
      _ ← update (λ jd, set_rsc jd (wrapu 16 (rsc jd + 1)));
      _ ← restart v;
      update (λ jd, set_rst jd 1)
    else mret tt
  else mret tt.

(** The position advances before the output, so that an interrupted decoding
    resumes after this MCU. *)
(* src: rust/trezor-tjpgdec/src/lib.rs 1382-1386 (JDEC::decomp) *)
Definition advance_mcu (jd : JDEC) : JDEC :=
  let mx := msx jd * 8 in
  let my := msy jd * 8 in
  let jd := set_mcu_x jd (wrapu 16 (mcu_x jd + mx)) in
  if width jd <=? mcu_x jd
  then set_mcu_y (set_mcu_x jd 0) (wrapu 16 (mcu_y jd + my)) else jd.

(** One turn: restart, load, advance. *)
(* src: rust/trezor-tjpgdec/src/lib.rs 1364-1386 (JDEC::decomp) *)
Definition next_block : M IN unit :=
  _ ← check_restart;
  _ ← mcu_load;
  update advance_mcu.

(* src: rust/trezor-tjpgdec/src/lib.rs 1360-1392 (JDEC::decomp) *)
Fixpoint decomp_loop {O} `{JpegOutput O} (fuel : nat) (jd : JDEC) (i : IN) (o : O)
    : jresult unit * JDEC * IN * O :=
  match fuel with
  | O => (NoFuel, jd, i, o)
  | S fuel =>
    if mcu_y jd <? height jd then
      match next_block jd i with
      | (Ok _, jd', i') =>
        match mcu_output jd' o (mcu_x jd) (mcu_y jd) with
        | (Ok _, jd'', o') => decomp_loop fuel jd'' i' o'
        | (r, jd'', o') => (r, jd'', i', o')
        end
      | (Err e, jd', i') => (Err e, jd', i', o)
      | (Panic, jd', i') => (Panic, jd', i', o)
      | (NoFuel, jd', i') => (NoFuel, jd', i', o)
      end
    else (Ok tt, jd, i, o)
  end.

(** One turn for each MCU of the image, and one to see the end. *)
(* src: rust/trezor-tjpgdec/src/lib.rs 1360-1392 (JDEC::decomp) *)
Definition decomp {O} `{JpegOutput O} (jd : JDEC) (i : IN) (o : O) : jresult unit * JDEC * IN * O :=
  decomp_loop (S (Z.to_nat (width jd * height jd))) jd i o.

(* src: rust/trezor-tjpgdec/src/lib.rs 1398-1400 (JDEC::next_mcu) *)
Definition next_mcu (jd : JDEC) : Z * Z := (mcu_x jd, mcu_y jd).
End Decode.
