(* ===== verification/JpegSafety.v ===== *)
(** * The JPEG decoder stays within its buffers

    An invariant of the decoder object, and that every operation of decoding
    preserves it and neither aborts nor runs out of its bound, whatever the
    input delivers. *)
From S2P Require Import Prelude Io JpegState JpegTables JpegMcu JpegDecode.
Local Open Scope Z_scope.

(** ** The invariant *)

(** The bit stream: the unread bytes lie in the input buffer. *)
Definition window_ok (dc dp : Z) : Prop := 0 <= dp ∧ 0 <= dc ∧ dp + dc <= JD_SZBUF.
Definition bits_ok (jd : JDEC) : Prop :=
  len (inbuf jd) = JD_SZBUF ∧ Forall byte_ok (inbuf jd) ∧ window_ok (dctr jd) (dptr jd).

(** The values a Huffman table of class [cls] may hold: for DC the number of
    bits of a difference, for AC any byte. *)
Definition huff_value (cls v : Z) : Prop := 0 <= v <= (if cls =? 0 then 11 else 255).

(** A Huffman table of class [cls]. *)
Record huff_ok (cls : Z) (bits codes vals lut : list Z) (codes_len : Z) : Prop := {
  huff_bits : length bits = 16%nat;
  huff_codes : len codes = codes_len;
  huff_vals : len vals = codes_len;
  huff_vals_ok : Forall (huff_value cls) vals;
  huff_lut : len lut = HUFF_LEN;
  huff_lut_ok : Forall (λ d,
    if cls =? 0 then d = 0xff ∨ 1 <= Z.shiftr d 4 <= 10 ∧ huff_value 0 (Z.land d 0xf)
    else d = 0xffff ∨ 1 <= Z.shiftr d 8 <= 10 ∧ huff_value 1 (Z.land d 0xff)) lut;
}.

Definition table_loaded (jd : JDEC) (id cls : Z) : Prop :=
  ∃ bits codes vals lut codes_len lo,
    getZ (huffbits jd) (ix id cls) = Some bits ∧ getZ (huffcode jd) (ix id cls) = Some codes ∧
    getZ (huffdata jd) (ix id cls) = Some vals ∧
    getZ (huffcode_len jd) (ix id cls) = Some codes_len ∧
    getZ (longofs jd) (ix id cls) = Some lo ∧ 0 <= lo ∧
    getZ (if negb (cls =? 0) then hufflut_ac jd else hufflut_dc jd) id = Some lut ∧
    huff_ok cls bits codes vals lut codes_len.

Definition sampling_ok (jd : JDEC) : Prop :=
  (msx jd = 1 ∧ msy jd = 1) ∨ (msx jd = 2 ∧ msy jd = 2) ∨ (msx jd = 2 ∧ msy jd = 1).

(** The number of luminance blocks. *)
Definition blocks (jd : JDEC) : Z := msx jd * msy jd.

(** The tables that a component and a block need are there. *)
Definition frame_ok (jd : JDEC) : Prop :=
  sampling_ok jd ∧ (ncomp jd = 1 ∨ ncomp jd = 3) ∧
  (∀ i, 0 <= i < ncomp jd → ∃ q t, getZ (qtid jd) i = Some q ∧ 0 <= q <= 3 ∧
     getZ (qttbl jd) q = Some t ∧ len t = 64) ∧
  (∀ id cls, id = 0 ∨ id = 1 ∧ ncomp jd = 3 → cls = 0 ∨ cls = 1 → table_loaded jd id cls).

Definition bufs_ok (jd : JDEC) : Prop :=
  len (dcv jd) = 3 ∧ len (workbuf jd) = 48 * blocks jd + 16 ∧
  len (mcubuf jd) = 64 * (blocks jd + 2).

Definition jd_ok (jd : JDEC) : Prop := bits_ok jd ∧ frame_ok jd ∧ bufs_ok jd.

(** What decoding a block never changes. *)
Definition statics (jd : JDEC) :=
  (scale jd, msx jd, msy jd, ncomp jd, nrst jd, width jd, height jd, mcu_x jd, mcu_y jd).

(** ** Computations that keep an invariant *)
Section Keeps.
Context {IN : Type} (Inv : JDEC → Prop).

(** The invariant holds after every run, with or without an error, and the
    result satisfies [Q]. *)
Definition keeps {A} (m : M IN A) (Q : A → Prop) : Prop :=
  ∀ jd i, Inv jd → let '(r, jd', _) := m jd i in Inv jd' ∧ yields r Q.

Lemma keeps_ret {A} (a : A) (Q : A → Prop) : Q a → keeps (mret a) Q.
Proof. intros HQ jd i Hi. by split. Qed.

Lemma keeps_bind {A B} (m : M IN A) (f : A → M IN B) P Q :
  keeps m P → (∀ a, P a → keeps (f a) Q) → keeps (m ≫= f) Q.
Proof.
  intros Hm Hf jd i Hi. specialize (Hm jd i Hi). unfold mbind, m_bind.
  destruct (m jd i) as [[[a| e | |] jd'] i']; destruct Hm as [Hi' HP]; simpl in HP; try done.
  by apply Hf.
Qed.

Lemma keeps_weaken {A} (m : M IN A) (P Q : A → Prop) :
  keeps m P → (∀ a, P a → Q a) → keeps m Q.
Proof.
  intros Hm HPQ jd i Hi. specialize (Hm jd i Hi).
  destruct (m jd i) as [[r jd'] i']. destruct Hm. split; [done|]. by eapply yields_weaken.
Qed.

Lemma keeps_self : keeps self_ Inv.
Proof. intros jd i Hi. by split. Qed.

Lemma keeps_update f : (∀ jd, Inv jd → Inv (f jd)) → keeps (update f) (λ _, True).
Proof. intros Hf jd i Hi. split; [by apply Hf|done]. Qed.

Lemma keeps_lift {A} (r : jresult A) Q : yields r Q → keeps (lift r) Q.
Proof. intros Hr jd i Hi. by split. Qed.

Lemma keeps_raise {A} e (Q : A → Prop) : keeps (raise e) Q.
Proof. intros jd i Hi. by split. Qed.

Lemma keeps_forM {S A} (f : S → A → M IN S) (P : S → Prop) l s :
  (∀ x s, x ∈ l → P s → keeps (f s x) P) → P s → keeps (forM f s l) P.
Proof.
  revert s; induction l as [|x l IH]; intros s Hf HP; [by apply keeps_ret|].
  eapply keeps_bind; [apply Hf; [set_solver|done]|].
  intros s' Hs'. apply IH; [|done]. intros y s'' Hy. apply Hf. set_solver.
Qed.
End Keeps.

(** One step through a computation: the state is read, a pure result is
    lifted, a condition is tested. *)
Ltac keeps_step :=
  match goal with
  | |- keeps _ (self_ ≫= _) _ => eapply keeps_bind; [apply keeps_self|]; intros ? ?
  | |- keeps _ (mret _) _ => apply keeps_ret
  | |- keeps _ (raise _) _ => apply keeps_raise
  | |- keeps _ (lift _ ≫= _) _ => eapply keeps_bind; [apply keeps_lift|]
  | |- keeps _ (update _ ≫= _) _ => eapply keeps_bind; [apply keeps_update|intros ? _]
  | |- keeps _ (update _) _ => apply keeps_update
  | |- keeps _ (if ?b then _ else _) _ => destruct b eqn:?
  end.

Lemma yields_at {A} (l : list A) i : 0 <= i < len l → yields (at_ l i) (λ x, x ∈ l).
Proof. apply (yields_getZ (E:=JError)). Qed.

Lemma yields_at_eq {A} (l : list A) i x : getZ l i = Some x → yields (at_ l i) (λ y, y = x).
Proof. intros Hx. unfold at_, or_panic. by rewrite Hx. Qed.

(** A chain of reads and stores at indices in range. *)
Ltac yields_step :=
  match goal with
  | |- yields (at_ _ _ ≫= _) _ => eapply yields_bind; [apply yields_at; lia|intros ? _]
  | |- yields (store _ _ _ ≫= _) _ =>
      eapply yields_bind; [apply yields_store; lia|let H := fresh "Hstore" in intros ? H; cbn beta in H]
  | |- yields (store _ _ _) _ =>
      eapply yields_weaken; [apply yields_store; lia|let H := fresh "Hstore" in intros ? H; cbn beta in H]
  end.

(** ** The bit stream *)

(** [s] is the frame being decoded. *)
Definition decoding (s : JDEC) (jd : JDEC) : Prop := jd_ok jd ∧ statics jd = statics s.

Lemma decoding_blocks s jd : decoding s jd → blocks jd = blocks s.
Proof. intros [_ Hs]. unfold statics, blocks in *. congruence. Qed.

Lemma decoding_ncomp s jd : decoding s jd → ncomp jd = ncomp s.
Proof. intros [_ Hs]. unfold statics in *. congruence. Qed.

Lemma decoding_sampling s jd : decoding s jd → sampling_ok s.
Proof. intros [(_ & (Hs & _) & _) Heq]. unfold statics, sampling_ok in *. intuition congruence. Qed.

(** Appending a byte to a register of [wbit] bits. *)
Lemma push_byte w wbit d :
  0 <= wbit <= 24 → 0 <= w < 2 ^ wbit → byte_ok d →
  Z.lor (wrapu 32 (Z.shiftl w 8)) d = w * 256 + d ∧ 0 <= w * 256 + d < 2 ^ (wbit + 8).
Proof.
  intros Hb Hw Hd. unfold in_u in Hd.
  assert (2 ^ (wbit + 8) = 2 ^ wbit * 256) as Hp by (rewrite Z.pow_add_r; lia).
  assert (2 ^ (wbit + 8) <= 2 ^ 32) by (apply Z.pow_le_mono_r; lia).
  rewrite Z.shiftl_mul_pow2 by lia. change (2 ^ 8) with 256 in *.
  rewrite wrapu_small by (unfold in_u; lia). split; [|lia].
  by apply (lor_add w d 8).
Qed.

Section Decoding.
Context {IN : Type} `{JpegInput IN} (s : JDEC).

Lemma refill_keeps dc dp :
  window_ok dc dp → keeps (decoding s) (refill dc dp) (λ '(dc, dp), window_ok dc dp ∧ 0 < dc).
Proof.
  intros Hw. unfold refill. destruct (Z.eqb_spec dc 0).
  2:{ apply keeps_ret. unfold window_ok in *. split; [done|lia]. }
  eapply (keeps_bind _ _ _ (λ dc, 0 <= dc <= JD_SZBUF)).
  - intros jd i Hi. unfold jpeg_in.
    destruct Hi as [((Hlen & Hb & Hwin) & Hf & Hbufs) Hs].
    destruct (slice (inbuf jd) 0 (0 + JD_SZBUF)) as [x|] eqn:E.
    2:{ exfalso. unfold slice in E. rewrite Hlen in E. discriminate. }
    pose proof (jread_length i JD_SZBUF ltac:(done)) as Hl.
    pose proof (jread_bytes i JD_SZBUF) as Hbs.
    destruct (jread i JD_SZBUF) as [b i'] eqn:Er. simpl in Hl, Hbs.
    split; [|simpl; lia]. split; [|done]. split; [|done]. repeat split; try apply Hwin; simpl.
    + rewrite splice_length; [done|lia|lia].
    + unfold splice. apply Forall_app_2; [|apply Forall_app_2]; auto using Forall_take, Forall_drop.
  - intros d Hd. destruct (Z.eqb_spec d 0); [apply keeps_raise|].
    apply keeps_ret. unfold window_ok, JD_SZBUF in *. lia.
Qed.

Lemma fill_loop_keeps fuel target dc dp (flg : bool) wbit w :
  window_ok dc dp → 0 <= wbit → target <= 16 → 0 <= w < 2 ^ wbit →
  (1 <= fuel)%nat → target - wbit + (if flg then 7 else 11) <= 4 * Z.of_nat fuel →
  keeps (decoding s) (fill_loop fuel target dc dp flg wbit w)
    (λ '(dc, dp, wbit', w'), window_ok dc dp ∧ target <= wbit' ∧
       wbit <= wbit' <= Z.max wbit (target + 7) ∧ 0 <= w' < 2 ^ wbit').
Proof.
  revert dc dp flg wbit w; induction fuel as [|fuel IH];
    intros dc dp flg wbit w Hwin Hwb Ht Hw Hf1 Hf; [lia|]. cbn [fill_loop].
  destruct (Z.ltb_spec wbit target) as [Hlt|]; [|apply keeps_ret; split; [done|lia]].
  assert (∀ dc dp flg' d, window_ok dc dp → byte_ok d → keeps (decoding s)
    (fill_loop fuel target dc dp flg' (wbit + 8) (Z.lor (wrapu 32 (Z.shiftl w 8)) d))
    (λ '(dc, dp, wbit', w'), window_ok dc dp ∧ target <= wbit' ∧
       wbit <= wbit' <= Z.max wbit (target + 7) ∧ 0 <= w' < 2 ^ wbit')) as Hpush.
  { intros dc' dp' flg' d Hwin' Hd. destruct (push_byte w wbit d) as [-> ?]; [lia|done|done|].
    eapply keeps_weaken; [apply IH; try done; destruct flg, flg'; lia|].
    intros [[[??]?]?]. simpl. intros (?&?&?&?). split_and!; try done; lia. }
  keeps_step. destruct (negb _) eqn:Em; [by apply Hpush|].
  eapply keeps_bind; [by apply refill_keeps|]. intros [dc' dp'] [Hwin' Hdc]. keeps_step.
  destruct H1 as [((Hlen & Hb & _) & _) _].
  keeps_step. { apply yields_at. rewrite Hlen. unfold window_ok in *. lia. }
  intros d Hd. rewrite Forall_forall in Hb. specialize (Hb d Hd).
  assert (window_ok (dc' - 1) (dp' + 1)) by (unfold window_ok in *; lia).
  destruct flg.
  - eapply (keeps_bind _ _ _ (λ _, True)); [|intros _ _; by apply Hpush].
    destruct (negb (d =? 0)); [|by apply keeps_ret]. apply keeps_update. intros jd Hjd. exact Hjd.
  - destruct (Z.eqb_spec d 0xff); [|by apply Hpush].
    apply IH; try done; lia.
Qed.

Lemma fill_keeps target :
  0 <= target <= 16 →
  keeps (decoding s) (fill target) (λ '(dc, dp, wbit, w), window_ok dc dp ∧
    target <= wbit < 32 ∧ 0 <= w < 2 ^ wbit).
Proof.
  intros Ht. unfold fill. keeps_step.
  pose proof (Z.mod_pos_bound (dbit a) 32 ltac:(lia)).
  eapply keeps_weaken; [apply fill_loop_keeps|].
  - apply H0.
  - lia.
  - lia.
  - replace (_ - 1) with (Z.ones (dbit a `mod` 32)) by (unfold Z.ones; lia).
    apply land_ones_range. lia.
  - lia.
  - lia.
  - intros [[[??]?]?]. intros (?&?&?&?). split_and!; try done; lia.
Qed.

(** ** Huffman codes *)
Lemma search_codes_yields nc d idx codes_len codes vals cls :
  len codes = codes_len → len vals = codes_len → Forall (huff_value cls) vals → 0 <= idx →
  yields (search_codes nc d idx codes_len codes vals)
    (λ r, match r with inl v => huff_value cls v | inr idx => 0 <= idx end).
Proof.
  intros Hc Hv Hok. revert idx; induction nc as [|nc IH]; intros idx Hi; [done|].
  cbn [search_codes]. destruct (Z.leb_spec codes_len idx); [done|].
  eapply yields_bind; [apply yields_at; lia|]. intros val _. destruct (d =? val).
  - eapply yields_bind; [apply yields_at; lia|]. intros v Hin. simpl. by eapply Forall_forall in Hin.
  - apply IH. apply (wrapu_range 8). lia.
Qed.

Lemma search_lengths_yields fuel bl idx w wbit codes_len bits codes vals cls :
  len bits = 16 → 1 <= bl → bl + Z.of_nat fuel = 17 →
  len codes = codes_len → len vals = codes_len → Forall (huff_value cls) vals → 0 <= idx →
  yields (search_lengths fuel bl (bl - 1) idx w wbit codes_len bits codes vals)
    (λ '(v, n), huff_value cls v ∧ 1 <= n <= 16).
Proof.
  intros Hb Hbl Hf Hc Hv Hok. revert bl idx Hbl Hf; induction fuel as [|fuel IH];
    intros bl idx Hbl Hf Hi; [done|]. cbn [search_lengths].
  eapply yields_bind; [apply yields_at; lia|]. intros nc _.
  eapply yields_bind; [by apply search_codes_yields|]. intros [v|idx'] Hr.
  - simpl. split; [done|lia].
  - replace (bl - 1 + 1) with (bl + 1 - 1) by lia. apply IH; try done; lia.
Qed.

Lemma huff_decode_yields jd id cls w wbit :
  table_loaded jd id cls → cls = 0 ∨ cls = 1 → 16 <= wbit < 32 → 0 <= w < 2 ^ wbit →
  yields (huff_decode jd id cls w wbit) (λ '(v, n), huff_value cls v ∧ 1 <= n <= 16).
Proof.
  intros (bits & codes & vals & lut & codes_len & lo & Hb & Hc & Hv & Hl & Hlo & Hlo0 & Hlut & Hok)
    Hcls Hwb Hw. unfold huff_decode.
  assert (0 <= Z.shiftr w (wbit - HUFF_BIT) < HUFF_LEN) as Hshort.
  { change HUFF_BIT with 10. change HUFF_LEN with (2 ^ 10).
    rewrite Z.shiftr_div_pow2 by lia. split; [apply Z.div_pos; lia|].
    apply Z.div_lt_upper_bound; [lia|].
    rewrite <- Z.pow_add_r by lia. replace (wbit - 10 + 10) with wbit by lia. apply Hw. }
  eapply yields_bind; [by apply yields_at_eq|]. intros ? ->.
  eapply yields_bind; [apply yields_at; by rewrite (huff_lut _ _ _ _ _ _ Hok)|]. intros d Hd.
  pose proof (huff_lut_ok _ _ _ _ _ _ Hok) as Hall. rewrite Forall_forall in Hall.
  specialize (Hall d Hd). simpl in Hall.
  assert (yields (hc_idx ← at_ (longofs jd) (ix id cls);
     bits ← at_ (huffbits jd) (ix id cls); codes ← at_ (huffcode jd) (ix id cls);
     codes_len ← at_ (huffcode_len jd) (ix id cls); vals ← at_ (huffdata jd) (ix id cls);
     search_lengths 6 (HUFF_BIT + 1) HUFF_BIT hc_idx w wbit codes_len bits codes vals)
     (λ '(v, n), huff_value cls v ∧ 1 <= n <= 16)) as Hlong.
  { do 5 (eapply yields_bind; [by apply yields_at_eq|]; intros ? ->).
    apply (search_lengths_yields 6 (HUFF_BIT + 1)); try apply Hok; try done.
    by rewrite (huff_bits _ _ _ _ _ _ Hok). }
  destruct Hcls as [-> | ->]; cbn [Z.eqb negb andb] in *.
  - destruct (Z.eqb_spec d 0xff); [exact Hlong|]. simpl. destruct Hall as [|[? ?]]; [done|].
    split; [done|lia].
  - destruct (Z.eqb_spec d 0xffff); [exact Hlong|]. simpl. destruct Hall as [|[? ?]]; [done|].
    split; [done|lia].
Qed.

(** The component whose block is decoded has its tables. *)
Definition component_ok (id : Z) : Prop := id = 0 ∨ id = 1 ∧ ncomp s = 3.

Lemma decoding_table jd id cls :
  decoding s jd → component_ok id → cls = 0 ∨ cls = 1 → table_loaded jd id cls.
Proof.
  intros Hd Hid Hcls. pose proof (decoding_ncomp _ _ Hd). destruct Hd as [(_ & (_ & _ & _ & Ht) & _) _].
  apply Ht; [|done]. unfold component_ok in Hid. intuition congruence.
Qed.

Lemma set_stream_decoding jd dc dp :
  decoding s jd → window_ok dc dp → decoding s (set_dptr (set_dctr jd dc) dp).
Proof.
  intros [((Hl & Hb & _) & Hf & Hu) Hs] Hw.
  exact (conj (conj (conj Hl (conj Hb Hw)) (conj Hf Hu)) Hs).
Qed.

Lemma huffext_keeps id cls :
  component_ok id → cls = 0 ∨ cls = 1 → keeps (decoding s) (huffext id cls) (huff_value cls).
Proof.
  intros Hid Hcls. unfold huffext.
  eapply keeps_bind; [by apply fill_keeps|]. intros [[[dc dp] wbit] w] (Hwin & Hwb & Hw).
  keeps_step. { intros jd Hjd. exact (set_stream_decoding jd dc dp Hjd Hwin). }
  keeps_step. keeps_step. { apply huff_decode_yields; try done. by apply decoding_table. }
  intros [v n] [Hv Hn]. keeps_step; [|by keeps_step]. intros jd Hjd. exact Hjd.
Qed.

Lemma bitext_keeps nbit :
  0 <= nbit <= 16 → keeps (decoding s) (bitext nbit) (λ _, True).
Proof.
  intros Hn. unfold bitext.
  eapply keeps_bind; [by apply fill_keeps|]. intros [[[dc dp] wbit] w] (Hwin & Hwb & Hw).
  keeps_step; [|by keeps_step]. intros jd Hjd. exact (set_stream_decoding jd dc dp Hjd Hwin).
Qed.

(** ** Restart markers *)
Lemma decoding_dcv jd dcv' : decoding s jd → len dcv' = 3 → decoding s (set_dcv jd dcv').
Proof.
  intros [(Hb & Hf & _ & Hu) Hs] Hl. exact (conj (conj Hb (conj Hf (conj Hl Hu))) Hs).
Qed.

Lemma read_marker_keeps dc dp :
  window_ok dc dp →
  keeps (decoding s) (read_marker dc dp) (λ '(_, dc, dp), window_ok dc dp).
Proof.
  intros Hw. unfold read_marker. apply keeps_forM; [|done].
  intros x [[m dc'] dp'] _ Hw'.
  eapply keeps_bind; [by apply refill_keeps|]. intros [dc'' dp''] [Hwin Hdc].
  keeps_step. destruct H0 as [((Hlen & _) & _) _].
  keeps_step. { apply yields_at. rewrite Hlen. unfold window_ok in *. lia. }
  intros b _. keeps_step. unfold window_ok in *. lia.
Qed.

Lemma restart_keeps rstn : keeps (decoding s) (restart rstn) (λ _, True).
Proof.
  unfold restart. keeps_step. eapply (keeps_bind _ _ _ (λ _, True)).
  - keeps_step.
    + keeps_step; [|by keeps_step]. intros jd Hjd. exact Hjd.
    + eapply keeps_bind; [apply read_marker_keeps; apply H0|]. intros [[m dc] dp] Hw.
      keeps_step; [|by keeps_step]. intros jd Hjd. exact (set_stream_decoding jd dc dp Hjd Hw).
  - intros m _. keeps_step; [keeps_step|]. keeps_step. { intros jd Hjd. exact Hjd. }
    keeps_step. keeps_step.
    { pose proof (proj1 (proj2 (proj2 (proj1 H1)))) as Hd.
      eapply yields_bind; [apply yields_store; lia|]. intros d1 H1'; cbn beta in H1'.
      eapply yields_bind; [apply yields_store; lia|]. intros d2 H2'; cbn beta in H2'.
      eapply yields_weaken; [apply yields_store; lia|]. intros d3 H3'; cbn beta in H3'.
      assert (len d3 = 3) as H3 by lia. exact H3. }
    intros dcv' Hd. keeps_step. intros jd Hjd. by apply decoding_dcv.
Qed.

(** ** Blocks *)
Lemma dequantizer_keeps cmp :
  0 <= cmp < ncomp s → keeps (decoding s) (dequantizer (IN:=IN) cmp) (λ t, len t = 64).
Proof.
  intros Hc. unfold dequantizer. keeps_step.
  pose proof (decoding_ncomp _ _ H0) as Hn. destruct H0 as [(_ & (_ & _ & Hq & _) & _) _].
  destruct (Hq cmp) as (q & t & Hgq & Hr & Hgt & Hl); [lia|].
  keeps_step. { by apply yields_at_eq. }
  intros ? ->. keeps_step; [keeps_step|]. apply keeps_lift.
  eapply yields_weaken; [by apply yields_at_eq|]. by intros ? ->.
Qed.

Lemma decoding_work jd w :
  decoding s jd → len w = 48 * blocks s + 16 → decoding s (set_workbuf jd w).
Proof.
  intros Hd Hl. rewrite <- (decoding_blocks _ _ Hd) in Hl. destruct Hd as [(Hb & Hf & H1 & _ & H3) Hs].
  exact (conj (conj Hb (conj Hf (conj H1 (conj Hl H3)))) Hs).
Qed.

Lemma decoding_mcubuf jd b :
  decoding s jd → len b = 64 * (blocks s + 2) → decoding s (set_mcubuf jd b).
Proof.
  intros Hd Hl. rewrite <- (decoding_blocks _ _ Hd) in Hl. destruct Hd as [(Hb & Hf & H1 & H2 & _) Hs].
  exact (conj (conj Hb (conj Hf (conj H1 (conj H2 Hl)))) Hs).
Qed.

Lemma decoding_lens jd :
  decoding s jd → len (dcv jd) = 3 ∧ len (workbuf jd) = 48 * blocks s + 16 ∧
    len (mcubuf jd) = 64 * (blocks s + 2) ∧ 1 <= blocks s <= 4.
Proof.
  intros Hd. pose proof (decoding_sampling _ _ Hd) as Hsm. rewrite <- !(decoding_blocks _ _ Hd).
  destruct Hd as [(_ & _ & H1 & H2 & H3) Hs]. split_and!; try done;
    unfold statics, blocks, sampling_ok in *; injection Hs; intros; nia.
Qed.

Lemma set_work_keeps i v : 0 <= i < 64 → keeps (decoding s) (set_work (IN:=IN) i v) (λ _, True).
Proof.
  intros Hi. unfold set_work. keeps_step. apply decoding_lens in H0 as (_ & Hw & _ & Hb).
  keeps_step. { yields_step. assert (len a0 = 48 * blocks s + 16) as Ha by lia. exact Ha. }
  intros w Hl. keeps_step. intros jd Hjd. by apply decoding_work.
Qed.

Lemma load_dc_keeps id cmp :
  component_ok id → 0 <= cmp < ncomp s → cmp < 3 → keeps (decoding s) (load_dc id cmp) (λ _, True).
Proof.
  intros Hid Hc Hc3. unfold load_dc. eapply keeps_bind; [apply huffext_keeps; auto|]. intros bc Hbc.
  keeps_step. apply decoding_lens in H0 as Hl. keeps_step. { apply yields_at. lia. } intros d _.
  eapply (keeps_bind _ _ _ (λ _, True)).
  - keeps_step; [|by keeps_step]. unfold huff_value in Hbc. cbn [Z.eqb] in Hbc.
    eapply keeps_bind; [apply bitext_keeps; lia|]. intros e _. keeps_step.
    apply decoding_lens in H1 as Hl1. keeps_step.
    { yields_step. assert (len a1 = 3) as Ha by lia. exact Ha. }
    intros dcv' Hd. keeps_step; [|by keeps_step]. intros jd Hjd. by apply decoding_dcv.
  - intros d' _. eapply keeps_bind; [by apply dequantizer_keeps|]. intros t Ht. cbn beta in Ht.
    keeps_step. { apply yields_at. lia. } intros q _. apply set_work_keeps. lia.
Qed.

Lemma zig_range i : i ∈ ZIG → 0 <= i < 64.
Proof.
  intros Hi. pose proof (proj1 (Forall_forall (λ i, 0 <= i < 64) ZIG)) as HF. apply HF; [|done].
  apply (bool_decide_unpack _). vm_compute. exact Logic.I.
Qed.

Lemma load_ac_keeps fuel id cmp z :
  component_ok id → 0 <= cmp < ncomp s → 0 <= z → 65 - z <= Z.of_nat fuel → z < 64 →
  keeps (decoding s) (load_ac fuel id cmp z) (λ _, True).
Proof.
  intros Hid Hc. revert z; induction fuel as [|fuel IH]; intros z Hz Hf Hz64; [lia|]. cbn [load_ac].
  eapply keeps_bind; [apply huffext_keeps; auto|]. intros d Hd. unfold huff_value in Hd.
  cbn [Z.eqb] in Hd. keeps_step; [by keeps_step|].
  assert (0 <= Z.shiftr d 4) by (apply Z.shiftr_nonneg; lia).
  destruct (Z.leb_spec 64 (z + Z.shiftr d 4)); [keeps_step|].
  eapply (keeps_bind _ _ _ (λ _, True)).
  - keeps_step; [|by keeps_step].
    assert (0 <= Z.land d 0xf < 2 ^ 4) by (apply (land_ones_range d 4); lia).
    eapply keeps_bind; [apply bitext_keeps; lia|]. intros e _. keeps_step.
    { apply yields_at. change (len ZIG) with 64. lia. }
    intros i Hi%zig_range. eapply keeps_bind; [by apply dequantizer_keeps|]. intros t Ht. cbn beta in Ht.
    keeps_step. { apply yields_at. lia. } intros q _. by apply set_work_keeps.
  - intros _ _. destruct (Z.leb_spec 64 (z + Z.shiftr d 4 + 1)); [by keeps_step|]. apply IH; lia.
Qed.

Lemma fill_block_keeps base v :
  0 <= base → base + 64 <= 64 * (blocks s + 2) → keeps (decoding s) (fill_block (IN:=IN) base v) (λ _, True).
Proof.
  intros Hb Hbl. unfold fill_block. keeps_step. apply decoding_lens in H0 as (_ & _ & Hm & _).
  keeps_step.
  { eapply (yields_foldM _ (λ b, len b = 64 * (blocks s + 2))); [|done].
    intros i b Hi%elem_of_range Hlb. yields_step. lia. }
  intros b Hl. keeps_step. intros jd Hjd. by apply decoding_mcubuf.
Qed.

Lemma clear_ac_keeps : keeps (decoding s) (clear_ac (IN:=IN)) (λ _, True).
Proof.
  unfold clear_ac. keeps_step. apply decoding_lens in H0 as (_ & Hw & _ & Hb).
  destruct (slice (workbuf a) 1 64) eqn:E.
  - keeps_step. intros jd Hjd. apply decoding_work; [done|].
    apply decoding_lens in Hjd as (_ & Hw' & _). rewrite splice_length; [done|lia|].
    rewrite repeat_length. lia.
  - exfalso. unfold slice in E. destruct (Z.leb_spec 64 (len (workbuf a))); [discriminate|lia].
Qed.

Lemma idct_column_yields L src idx :
  length src = L → 0 <= idx → idx + 56 < Z.of_nat L → yields (idct_column src idx) (λ src', length src' = L).
Proof.
  intros Hl Hi Hi56. unfold idct_column. do 8 yields_step.
  destruct (idct_8 _ _ _ _ _ _ _ _) as [[[[[[[o0 o1] o2] o3] o4] o5] o6] o7].
  do 8 yields_step. lia.
Qed.

Lemma idct_row_yields L src dst idx :
  64 <= len src → length dst = L → 64 <= Z.of_nat L → 0 <= idx <= 56 →
  yields (idct_row src dst idx) (λ dst', length dst' = L).
Proof.
  intros Hl Hd HL Hi. unfold idct_row. do 8 yields_step.
  destruct (idct_8 _ _ _ _ _ _ _ _) as [[[[[[[o0 o1] o2] o3] o4] o5] o6] o7].
  do 8 yields_step. lia.
Qed.

Lemma block_idct_yields src dst base :
  64 <= len src → 0 <= base → base + 64 <= len dst →
  yields (block_idct src dst base) (λ '(src', dst'), length src' = length src ∧ length dst' = length dst).
Proof.
  intros Hs Hb Hd. unfold block_idct.
  eapply yields_bind.
  { apply (yields_foldM _ (λ src', length src' = length src)); [|done].
    intros x src' Hx%elem_of_range Hl. apply idct_column_yields; lia. }
  intros src' Hl. cbn beta in Hl. destruct (slice dst base (len dst)) as [out|] eqn:E.
  2:{ exfalso. assert (slice dst base (len dst) = Some (take (Z.to_nat (len dst - base)) (drop (Z.to_nat base) dst))).
      - apply slice_Some. split; [lia|]. split; [lia|done].
      - congruence. }
  apply slice_length in E. cbn [or_panic mbind outcome_bind]. eapply yields_bind.
  { apply (yields_foldM _ (λ o, length o = length out)); [|done].
    intros r o (x & -> & Hx%elem_of_range)%list_elem_of_fmap Ho. apply idct_row_yields; try done; lia. }
  intros out' Ho. cbn beta in Ho. simpl. rewrite length_app, length_take. split; [done|lia].
Qed.

Lemma load_block_keeps cmp idx :
  0 <= cmp < 3 → 0 <= idx → idx + 64 <= 64 * (blocks s + 2) →
  keeps (decoding s) (load_block cmp idx) (λ _, True).
Proof.
  intros Hc Hi Hl. unfold load_block. keeps_step. keeps_step; [by apply fill_block_keeps|].
  pose proof (decoding_ncomp _ _ H0) as Hn.
  assert (cmp = 0 ∨ ncomp s = 3) as Hcase.
  { destruct (Z.eqb_spec cmp 0), (Z.eqb_spec (ncomp a) 3); try discriminate; try lia. }
  assert (cmp < ncomp s) as Hcn.
  { destruct H0 as [(_ & (_ & [|] & _) & _) _]; lia. }
  assert (component_ok (if negb (cmp =? 0) then 1 else 0)) as Hid.
  { unfold component_ok. destruct (Z.eqb_spec cmp 0); simpl; lia. }
  eapply keeps_bind; [apply load_dc_keeps; [done|lia|lia]|]. intros _ _.
  eapply keeps_bind; [apply clear_ac_keeps|]. intros _ _.
  eapply keeps_bind; [apply load_ac_keeps; [done|lia..]|]. intros z _.
  keeps_step. apply decoding_lens in H1 as (_ & Hw & Hm & Hb). keeps_step.
  - keeps_step. { apply yields_at. lia. } intros w0 _. by apply fill_block_keeps.
  - keeps_step. { apply block_idct_yields; lia. } intros [w b] [Hlw Hlb].
    keeps_step. intros jd Hjd. apply decoding_mcubuf; [apply decoding_work; [done|lia]|lia].
Qed.

Lemma mcu_load_keeps : keeps (decoding s) (mcu_load (IN:=IN)) (λ _, True).
Proof.
  unfold mcu_load. keeps_step. rename a into jd.
  pose proof (decoding_blocks _ _ H0) as Hb. unfold blocks at 1 in Hb. rewrite Hb.
  apply decoding_lens in H0 as (_ & _ & _ & Hn).
  apply keeps_forM; [|done]. intros blk _ Hblk%elem_of_range _.
  apply load_block_keeps; [|lia..]. destruct (Z.ltb_spec blk (blocks s)); lia.
Qed.

Lemma check_restart_keeps : keeps (decoding s) (check_restart (IN:=IN)) (λ _, True).
Proof.
  unfold check_restart. keeps_step. keeps_step; [|by keeps_step].
  keeps_step. { intros jd Hjd. exact Hjd. }
  keeps_step; [|by keeps_step]. keeps_step. { intros jd Hjd. exact Hjd. }
  eapply keeps_bind; [apply restart_keeps|]. intros _ _. keeps_step. intros jd Hjd. exact Hjd.
Qed.
End Decoding.
