(* ===== verification/JpegPixels.v ===== *)
(** * The output of an MCU stays within its buffers

    Every index that [mcu_output] computes lies in the block buffer or in the
    working buffer, for every sampling, scale and clipping; the working buffer
    keeps its length, and the rectangle handed out is filled. *)
From S2P Require Import Prelude Io JpegState JpegMcu JpegSafety.
Local Open Scope Z_scope.

(** The sizes of an MCU in pixels. *)
Definition mcu_size (mx my : Z) : Prop :=
  (mx = 8 ∧ my = 8) ∨ (mx = 16 ∧ my = 16) ∨ (mx = 16 ∧ my = 8).

(** A fold over a range of integers with an indexed invariant. *)
Lemma yields_range {E S} (f : S → Z → outcome E S) (P : Z → S → Prop) n s :
  0 <= n → (∀ k s, 0 <= k < n → P k s → yields (f s k) (P (k + 1))) →
  P 0 s → yields (foldM f s (range n)) (P n).
Proof.
  intros Hn Hf HP.
  eapply yields_weaken; [apply (yields_foldM_idx f (λ k s, P (Z.of_nat k) s)); [|done]|].
  - intros k x s' [-> Hk]%range_lookup Hs. cbn beta in *. rewrite Nat2Z.inj_succ. apply Hf; [lia|done].
  - cbn beta. rewrite range_length, Z2Nat.id by done. auto.
Qed.

(** The same over the multiples of [w]. *)
Lemma yields_steps {E S} (f : S → Z → outcome E S) (P : Z → S → Prop) w n s :
  0 <= n → (∀ k s, 0 <= k < n → P k s → yields (f s (k * w)) (P (k + 1))) →
  P 0 s → yields (foldM f s ((λ k, k * w) <$> range n)) (P n).
Proof.
  intros Hn Hf HP.
  eapply yields_weaken; [apply (yields_foldM_idx f (λ k s, P (Z.of_nat k) s)); [|done]|].
  - intros k x s' Hk Hs. cbn beta in *. rewrite list_lookup_fmap in Hk.
    apply fmap_Some in Hk as (y & [-> Hk]%range_lookup & ->).
    rewrite Nat2Z.inj_succ. apply Hf; [lia|done].
  - cbn beta. rewrite length_fmap, range_length, Z2Nat.id by done. auto.
Qed.

Lemma put_all_yields work i vs :
  0 <= i → i + len vs <= len work →
  yields (put_all work i vs) (λ '(w', i'), length w' = length work ∧ i' = i + len vs).
Proof.
  intros Hi Hl.
  apply (yields_foldM_idx _ (λ k '(w', i'), length w' = length work ∧ i' = i + Z.of_nat k)); [|split; [done|lia]].
  intros k x [w' i'] Hk%lookup_lt_Some [Hw ->]. yields_step. simpl. split; lia.
Qed.

(** ** Pixels *)
Lemma rgb_pixel_yields mb mx py0 pc0 pix0 L k st :
  (mx = 8 ∨ mx = 16) → 0 <= k < mx → 0 <= py0 → 0 <= pc0 → 0 <= pix0 →
  py0 + (if mx =? 16 then 71 else 7) < len mb → pc0 + 71 < len mb → pix0 + 3 * mx <= Z.of_nat L →
  let P k '(py, pc, pix, work) :=
    py = py0 + k + (if (mx =? 16) && (8 <? k) then 56 else 0) ∧
    pc = pc0 + (if mx =? 16 then k / 2 else k) ∧ pix = pix0 + 3 * k ∧ length work = L in
  P k st → yields (rgb_pixel mb mx st k) (P (k + 1)).
Proof.
  intros Hmx Hk Hpy0 Hpc0 Hpix0 Hpy Hpc Hpix P. destruct st as [[[py pc] pix] work].
  intros (-> & -> & -> & Hw). unfold rgb_pixel.
  change (Z.land k 1) with (Z.land k (Z.ones 1)). rewrite Z.land_ones by lia. change (2 ^ 1) with 2.
  destruct Hmx as [-> | ->]; cbn [Z.eqb Pos.eqb andb] in *.
  - do 3 yields_step. eapply yields_bind; [apply put_all_yields; [lia|simpl; lia]|].
    intros [w' i'] [Hw' ->]. simpl. split_and!; lia.
  - pose proof (Z.mod_pos_bound k 2 ltac:(lia)). pose proof (Z.div_mod k 2 ltac:(lia)).
    do 2 yields_step.
    destruct (Z.ltb_spec 8 k), (Z.eqb_spec k 8); try lia; yields_step;
      (eapply yields_bind; [apply put_all_yields; [lia|simpl; lia]|]);
      intros [w' i'] [Hw' ->]; simpl;
      (split_and!; [destruct (Z.ltb_spec 8 (k + 1)); lia|..|lia|lia]);
      pose proof (Z.div_mod (k + 1) 2 ltac:(lia));
      pose proof (Z.mod_pos_bound (k + 1) 2 ltac:(lia)); lia.
Qed.

Lemma rgb_row_yields mb mx my L pix work iy :
  mcu_size mx my → len mb = mx * my + 128 → 0 <= iy < my → length work = L →
  0 <= pix → pix + 3 * mx <= Z.of_nat L →
  yields (rgb_row mb mx my (pix, work) iy) (λ '(pix', w'), pix' = pix + 3 * mx ∧ length w' = L).
Proof.
  intros Hm Hmb Hiy HL Hp HpL. unfold rgb_row.
  assert (0 <= Z.shiftr iy 1 ∧ 2 * Z.shiftr iy 1 <= iy) as [Hs0 Hs].
  { rewrite Z.shiftr_div_pow2 by lia. change (2 ^ 1) with 2.
    pose proof (Z.div_mod iy 2 ltac:(lia)). pose proof (Z.mod_pos_bound iy 2 ltac:(lia)). lia. }
  set (py := _ + iy * 8). set (pc := if my =? 16 then _ else _).
  assert (0 <= py ∧ 0 <= pc ∧ py + (if mx =? 16 then 71 else 7) < len mb ∧ pc + 71 < len mb)
    as (Hpy0 & Hpc0 & Hpy & Hpc).
  { unfold py, pc. destruct Hm as [[-> ->]|[[-> ->]|[-> ->]]]; cbn [Z.eqb Pos.eqb];
      destruct (Z.leb_spec 8 iy); lia. }
  assert (mx = 8 ∨ mx = 16) as Hmx by (unfold mcu_size in Hm; lia).
  eapply yields_bind.
  { apply (yields_range _ (λ k '(py', pc', pix', work'),
      py' = py + k + (if (mx =? 16) && (8 <? k) then 56 else 0) ∧
      pc' = pc + (if mx =? 16 then k / 2 else k) ∧ pix' = pix + 3 * k ∧ length work' = L)).
    - lia.
    - intros k st Hk. by apply rgb_pixel_yields.
    - change (8 <? 0) with false. change (0 / 2) with 0. rewrite andb_false_r.
      destruct (mx =? 16); split_and!; try done; lia. }
  intros [[[py' pc'] pix'] w'] (_ & _ & -> & Hw'). simpl. split; [lia|done].
Qed.

(** ** Scaling *)
Lemma sum_square_yields w mx work pix0 :
  0 <= w <= mx → 0 <= pix0 → pix0 + 3 * mx * (w - 1) + 3 * w <= len work →
  yields (sum_square w ((mx - w) * 3) work pix0) (λ _, True).
Proof.
  intros Hw Hp Hl. unfold sum_square. eapply yields_bind; [|intros [[[??]?]?] _; exact Logic.I].
  apply (yields_range _ (λ r '(pix, _, _, _), pix = pix0 + 3 * mx * r)); [lia| |lia].
  intros r [[[pix x] y] z] Hr ->. eapply yields_bind.
  { apply (yields_range _ (λ c '(pix, _, _, _), pix = pix0 + 3 * mx * r + 3 * c)); [lia| |lia].
    intros c [[[pix' x'] y'] z'] Hc ->.
    assert (3 * mx * r <= 3 * mx * (w - 1)) by nia.
    assert (0 <= 3 * mx * r) by nia. do 3 yields_step. simpl. lia. }
  intros [[[pix' x'] y'] z'] ->. simpl. lia.
Qed.

Lemma descale_yields scale mx my work :
  mcu_size mx my → scale = 1 ∨ scale = 2 → 3 * (mx * my) <= len work →
  yields (descale scale mx my work) (λ w', length w' = length work).
Proof.
  intros Hm Hsc Hl. unfold descale.
  set (w := Z.shiftl 1 scale). set (nx := (mx + w - 1) / w). set (ny := (my + w - 1) / w).
  assert (0 < w ∧ nx * w = mx ∧ ny * w = my ∧ 0 <= nx ∧ 0 <= ny ∧ 1 <= w) as (Hw & Hnx & Hny & Hx0 & Hy0 & Hw1).
  { unfold nx, ny, w. destruct Hsc as [-> | ->], Hm as [[-> ->]|[[-> ->]|[-> ->]]]; vm_compute; intuition discriminate. }
  clearbody w nx ny.
  apply (yields_bind _ _ (λ '(w', op), length w' = length work ∧ op = 3 * (nx * ny))); [|intros [??] [??]; done].
  apply (yields_steps _ (λ ky '(w', op), length w' = length work ∧ op = 3 * (nx * ky))); [done| |split; [done|lia]].
  intros ky [w1 op] Hky [Hl1 ->].
  eapply yields_weaken.
  { apply (yields_steps _ (λ kx '(w', op), length w' = length work ∧ op = 3 * (nx * ky) + 3 * kx)); [done| |split; [done|lia]].
    intros kx [w2 op] Hkx [Hl2 ->].
    assert ((ky + 1) * w <= my) by nia. assert ((kx + 1) * w <= mx) by nia.
    assert (0 <= ky * w) by nia. assert (0 <= kx * w) by nia.
    assert ((ky * w + w) * mx <= my * mx) by nia.
    eapply yields_bind; [apply sum_square_yields; nia|]. intros [[r g] b] _.
    assert (nx * ky + kx + 1 <= nx * ny) by nia. assert (nx <= mx) by nia. assert (ny <= my) by nia.
    assert (nx * ny <= mx * my) by (apply Z.mul_le_mono_nonneg; done).
    eapply yields_weaken; [apply put_all_yields; [nia|simpl; nia]|].
    intros [w' i'] [? ->]. simpl. split; [lia|nia]. }
  intros [w' op] [? ->]. split; [done|nia].
Qed.

Lemma eighth_yields mb mx my work :
  mcu_size mx my → len mb = mx * my + 128 → 12 <= len work →
  yields (eighth mb mx my work) (λ w', length w' = length work).
Proof.
  intros Hm Hmb Hl. unfold eighth. do 2 (eapply yields_bind; [apply yields_at; unfold mcu_size in Hm; nia|intros ? _]).
  apply (yields_bind _ _ (λ '(w', i), length w' = length work ∧ i = 3 * (mx / 8) * (my / 8))); [|intros [??] [??]; done].
  assert (∃ cx cy, mx = 8 * cx ∧ my = 8 * cy ∧ mx / 8 = cx ∧ my / 8 = cy ∧ 1 <= cx <= 2 ∧ 1 <= cy <= 2 ∧ cy <= cx)
    as (cx & cy & -> & -> & -> & -> & Hcx & Hcy & Hcc).
  { destruct Hm as [[-> ->]|[[-> ->]|[-> ->]]]; [exists 1, 1|exists 2, 2|exists 2, 1]; vm_compute; intuition discriminate. }
  apply (yields_steps _ (λ ky '(w', i), length w' = length work ∧ i = 3 * cx * ky)); [lia| |split; [done|lia]].
  intros ky [w1 i] Hky [Hl1 ->].
  set (py0 := if ky * 8 =? 8 then _ else _).
  eapply yields_bind.
  { apply (yields_range _ (λ k '(w', i, py), length w' = length work ∧ i = 3 * cx * ky + 3 * k ∧ py = py0 + 64 * k));
      [lia| |split_and!; [done|lia..]].
    intros k [[w2 i] py] Hk (Hl2 & -> & ->).
    assert (0 <= py0 + 64 * k < len mb).
    { unfold py0. destruct (Z.eqb_spec (ky * 8) 8); nia. }
    yields_step. eapply yields_bind; [apply put_all_yields; [nia|simpl; nia]|].
    intros [w' i'] [? ->]. simpl. split_and!; lia. }
  intros [[w' i'] py'] (? & -> & _). simpl. split; [done|lia].
Qed.

Lemma squeeze_yields rx ry mx work :
  0 <= rx → 0 <= ry → 3 * (mx * ry) <= len work →
  yields (squeeze rx ry mx work) (λ w', length w' = length work).
Proof.
  intros Hrx Hry Hl. unfold squeeze. destruct (Z.ltb_spec rx mx); [|done].
  apply (yields_bind _ _ (λ '(w', s0, d), length w' = length work ∧ s0 = 3 * mx * ry ∧ 0 <= d <= s0)); [|intros [[??]?] [??]; done].
  apply (yields_range _ (λ k '(w', s0, d), length w' = length work ∧ s0 = 3 * mx * k ∧ 0 <= d <= s0)); [done| |split_and!; [done|lia..]].
  intros k [[w1 s0] d] Hk (Hl1 & -> & Hd). assert (3 * mx * k + 3 * mx <= 3 * (mx * ry)) by nia.
  eapply yields_bind.
  { apply (yields_range _ (λ j '(w', s1, d1), length w' = length work ∧ s1 = 3 * mx * k + j ∧ d1 = d + j));
      [lia| |split_and!; [done|lia..]].
    intros j [[w2 s1] d1] Hj (Hl2 & -> & ->). do 2 yields_step. simpl. split_and!; lia. }
  intros [[w' s1] d1] (? & -> & ->). simpl. split_and!; [done|lia..].
Qed.

Lemma pack_yields rx ry work :
  0 <= rx * ry → 3 * (rx * ry) <= len work → yields (pack rx ry work) (λ w', length w' = length work).
Proof.
  intros Hr Hl. unfold pack.
  apply (yields_range _ (λ _ w', length w' = length work)); [done| |done].
  intros k w' Hk Hw'. do 3 yields_step. do 2 yields_step. lia.
Qed.

(** ** The whole MCU *)
Lemma mcu_pixels_yields jd rx ry work mx my :
  mcu_size mx my → msx jd * 8 = mx → msy jd * 8 = my → len (mcubuf jd) = mx * my + 128 →
  0 <= scale jd <= 3 → 3 * (mx * my) + 64 <= len work →
  0 <= rx <= Z.shiftr mx (scale jd) → 0 <= ry <= Z.shiftr my (scale jd) →
  yields (mcu_pixels jd rx ry work) (λ w', length w' = length work).
Proof.
  intros Hm Hmx Hmy Hmb Hsc Hl Hrx Hry. unfold mcu_pixels. rewrite Hmx, Hmy.
  assert (0 <= mx ∧ 0 <= my ∧ 64 <= mx * my) as (Hx0 & Hy0 & Hxy) by (unfold mcu_size in Hm; nia).
  apply (yields_bind _ _ (λ w', length w' = length work)).
  - destruct (Z.eqb_spec (scale jd) 3); cbn [negb]; [apply eighth_yields; try done; lia|].
    apply (yields_bind _ _ (λ '(_, w'), length w' = length work)).
    + eapply (yields_weaken _ (λ '(pix, w'), pix = 3 * mx * my ∧ length w' = length work));
        [|intros [??] [??]; done].
      apply (yields_range _ (λ k '(pix, w'), pix = 3 * mx * k ∧ length w' = length work)); [lia| |split; [lia|done]].
      intros k [pix w1] Hk [-> Hl1]. assert (3 * mx * k + 3 * mx <= 3 * (mx * my)) by nia.
      eapply yields_weaken; [apply (rgb_row_yields _ mx my (length work)); try done; nia|].
      intros [pix' w'] [-> ?]. split; [lia|done].
    + intros [pix w'] Hw'. destruct (Z.eqb_spec (scale jd) 0); cbn [negb]; [done|].
      eapply yields_weaken; [apply descale_yields; [done|lia|lia]|]. cbn beta. lia.
  - intros w1 Hw1. cbn beta in Hw1.
    assert (3 * (Z.shiftr mx (scale jd) * ry) <= len work ∧ rx * ry <= Z.shiftr mx (scale jd) * ry) as [? ?].
    { rewrite !Z.shiftr_div_pow2 in * by lia.
      assert (1 <= 2 ^ scale jd) by (apply (Z.pow_le_mono_r 2 0); lia).
      assert (mx / 2 ^ scale jd <= mx) by (apply Z.div_le_upper_bound; nia).
      assert (my / 2 ^ scale jd <= my) by (apply Z.div_le_upper_bound; nia).
      assert (0 <= mx / 2 ^ scale jd) by (apply Z.div_pos; lia).
      split; [|nia]. assert (mx / 2 ^ scale jd * ry <= mx * my) by (apply Z.mul_le_mono_nonneg; lia). lia. }
    apply (yields_bind _ _ (λ w', length w' = length work)).
    + eapply yields_weaken; [apply squeeze_yields; lia|]. cbn beta. lia.
    + intros w2 Hw2. cbn beta in Hw2.
      eapply yields_weaken; [apply pack_yields; nia|]. cbn beta. lia.
Qed.

(** The computation of the pixels has no errors of its own. *)
Definition no_error {E A} (m : outcome E A) : Prop := match m with Err _ => False | _ => True end.

Lemma no_error_bind {E A B} (m : outcome E A) (f : A → outcome E B) :
  no_error m → (∀ a, no_error (f a)) → no_error (m ≫= f).
Proof. destruct m; simpl; auto. Qed.

Lemma no_error_at {A} (l : list A) i : no_error (at_ l i).
Proof. unfold at_, or_panic. by destruct (getZ l i). Qed.

Lemma no_error_store {E A} (l : list A) i x : no_error (store (E:=E) l i x).
Proof. unfold store. by destruct (_ && _). Qed.

Lemma no_error_foldM {E S A} (f : S → A → outcome E S) s l :
  (∀ s x, no_error (f s x)) → no_error (foldM f s l).
Proof.
  intros Hf. revert s; induction l as [|x l IH]; intros s; [done|].
  apply no_error_bind; [apply Hf|apply IH].
Qed.

Ltac no_error_tac :=
  repeat match goal with
  | |- no_error (_ ≫= _) => apply no_error_bind; [|intros]
  | |- no_error (at_ _ _) => apply no_error_at
  | |- no_error (store _ _ _) => apply no_error_store
  | |- no_error (foldM _ _ _) => apply no_error_foldM; intros
  | |- no_error (or_panic ?o) => destruct o; exact Logic.I
  | |- no_error (Ok _) => exact Logic.I
  | |- no_error Panic => exact Logic.I
  | |- no_error NoFuel => exact Logic.I
  | |- no_error (put_all _ _ _) => unfold put_all
  | |- no_error (if ?b then _ else _) => destruct b
  | |- no_error (match ?x with (_, _) => _ end) => destruct x
  | |- no_error (match ?x with (_, _) => _ end _) => destruct x
  end.

Lemma mcu_pixels_no_error jd rx ry work : no_error (mcu_pixels jd rx ry work).
Proof.
  unfold mcu_pixels, rgb_row, rgb_pixel, descale, sum_square, eighth, squeeze, pack. no_error_tac.
Qed.

(** The views of the working buffer. *)
Lemma work_bytes_length w : length (work_bytes w) = (4 * length w)%nat.
Proof.
  unfold work_bytes. induction w as [|v w IH]; [done|]. rewrite fmap_cons.
  cbn [concat length app u32_bytes]. rewrite IH. lia.
Qed.

Lemma as_u16_length n b : length (as_u16 n b) = n.
Proof. revert b; induction n as [|n IH]; intros b; [done|]. cbn [as_u16 length]. by rewrite IH. Qed.

Lemma as_u32_length n b : length (as_u32 n b) = n.
Proof. revert b; induction n as [|n IH]; intros b; [done|]. cbn [as_u32 length]. by rewrite IH. Qed.

Lemma bytes_work_length b n : length b = (4 * n)%nat → length (bytes_work b) = n.
Proof.
  intros Hb. unfold bytes_work, as_i32. rewrite length_fmap, as_u32_length, Hb.
  rewrite Nat.mul_comm. apply Nat.div_mul. lia.
Qed.

(** The part of the MCU at [x], [y] inside an image of at most 16 bits. *)
Definition tile_side (m size x : Z) : Z := Z.min m (size - x).

Lemma clip_side m size x :
  0 <= x < size → size < 2 ^ 32 → (if x + m <=? size then m else wrapu 32 (size - x)) = tile_side m size x.
Proof.
  intros Hx Hs. unfold tile_side. destruct (Z.leb_spec (x + m) size).
  - by rewrite Z.min_l by lia.
  - rewrite wrapu_small by (unfold in_u; lia). by rewrite Z.min_r by lia.
Qed.

Lemma output_rect_spec jd x y :
  0 <= x < width jd → 0 <= y < height jd → width jd < 2 ^ 32 → height jd < 2 ^ 32 →
  let rx := Z.shiftr (tile_side (msx jd * 8) (width jd) x) (scale jd) in
  let ry := Z.shiftr (tile_side (msy jd * 8) (height jd) y) (scale jd) in
  output_rect jd x y = if (rx =? 0) || (ry =? 0) then None
    else Some (Z.shiftr x (scale jd), Z.shiftr y (scale jd), (rx, ry)).
Proof.
  intros Hx Hy Hw Hh. unfold output_rect. rewrite !clip_side by lia. done.
Qed.

Lemma tile_side_range m size x s :
  0 <= m → 0 <= x < size → 0 <= s →
  0 <= Z.shiftr (tile_side m size x) s <= Z.shiftr m s.
Proof.
  intros. unfold tile_side. rewrite !Z.shiftr_div_pow2 by done. split.
  - apply Z.div_pos; [lia|]. apply Z.pow_pos_nonneg; lia.
  - apply Z.div_le_mono; [|lia]. apply Z.pow_pos_nonneg; lia.
Qed.

(** The MCU is output: nothing but the working buffer of the decoder changes,
    and the output function is called with a filled rectangle, unless the
    scaling rounds it off. *)
Lemma mcu_output_spec {O} `{JpegOutput O} s jd (o : O) x y :
  decoding s jd → 0 <= scale jd <= 3 →
  0 <= x < width jd → 0 <= y < height jd → width jd < 2 ^ 32 → height jd < 2 ^ 32 →
  match output_rect jd x y with
  | None => mcu_output jd o x y = (Ok tt, jd, o)
  | Some (ox, oy, (rx, ry)) => ∃ w bitmap, len bitmap = rx * ry ∧
      decoding s (set_workbuf jd w) ∧
      mcu_output jd o x y =
        let '(go_on, o') := owrite o (set_workbuf jd w) (ox, oy) (rx, ry) bitmap in
        (if go_on then Ok tt else Err Interrupted, set_workbuf jd w, o')
  end.
Proof.
  intros Hd Hsc Hx Hy Hw Hh. unfold mcu_output. rewrite output_rect_spec by done.
  destruct ((_ =? 0) || _) eqn:E; [done|].
  set (rx := Z.shiftr (tile_side (msx jd * 8) _ _) _) in *. set (ry := Z.shiftr (tile_side (msy jd * 8) _ _) _) in *.
  pose proof (decoding_lens _ _ Hd) as (_ & Hwl & Hml & Hb). pose proof (decoding_blocks _ _ Hd) as Hbl.
  assert (mcu_size (msx jd * 8) (msy jd * 8)) as Hm.
  { destruct Hd as [(_ & (Hs & _) & _) _]. unfold sampling_ok, mcu_size in *. lia. }
  assert (msx jd * 8 * (msy jd * 8) = 64 * blocks s) as Hprod by (rewrite <- Hbl; unfold blocks; lia).
  assert (0 <= rx <= Z.shiftr (msx jd * 8) (scale jd)) as Hrx
    by (apply tile_side_range; unfold mcu_size in Hm; lia).
  assert (0 <= ry <= Z.shiftr (msy jd * 8) (scale jd)) as Hry
    by (apply tile_side_range; unfold mcu_size in Hm; lia).
  assert (rx <= msx jd * 8 ∧ ry <= msy jd * 8) as [Hrx8 Hry8].
  { unfold rx, ry, tile_side. rewrite !Z.shiftr_div_pow2 by lia.
    assert (1 <= 2 ^ scale jd) by (apply (Z.pow_le_mono_r 2 0); lia).
    unfold mcu_size in Hm. split; apply Z.div_le_upper_bound; nia. }
  pose proof (work_bytes_length (workbuf jd)) as Hwb.
  pose proof (mcu_pixels_yields jd rx ry (work_bytes (workbuf jd)) _ _ Hm eq_refl eq_refl) as Hy4.
  pose proof (mcu_pixels_no_error jd rx ry (work_bytes (workbuf jd))) as Hne.
  destruct (mcu_pixels _ _ _ _) as [work| e | |]; [|done|exfalso; apply Hy4; lia..].
  specialize (Hy4 ltac:(lia) ltac:(lia) ltac:(lia) ltac:(lia) ltac:(lia)). simpl in Hy4.
  assert (rx * ry <= 64 * blocks s) as Hr by (rewrite <- Hprod; apply Z.mul_le_mono_nonneg; lia).
  assert (len (bytes_u16 work) = 96 * blocks s + 32) as Hu.
  { unfold bytes_u16. rewrite as_u16_length, Hy4, Hwb.
    replace (4 * length (workbuf jd))%nat with (2 * length (workbuf jd) * 2)%nat by lia.
    rewrite Nat.div_mul by lia. lia. }
  destruct (slice (bytes_u16 work) 0 (rx * ry)) as [bitmap|] eqn:Es.
  - exists (bytes_work work), bitmap. split; [apply slice_length in Es; lia|]. split; [|done].
    apply decoding_work; [done|]. rewrite (bytes_work_length _ (length (workbuf jd))); [done|lia].
  - exfalso. assert (slice (bytes_u16 work) 0 (rx * ry) = Some (take (Z.to_nat (rx * ry - 0)) (drop (Z.to_nat 0) (bytes_u16 work)))).
    + apply slice_Some. split; [nia|]. split; [lia|done].
    + congruence.
Qed.
