(* ===== verification/JpegHuffman.v ===== *)
(** * Huffman tables of the JPEG decoder against canonical Huffman codes

    The reference is the list of canonical codes that the counts of the
    segment describe; the arrays that the decoder builds hold these codes, and
    its lookup table the short ones. *)
From S2P Require Import Prelude Io JpegState JpegTables JpegSafety JpegPixels.
Local Open Scope Z_scope.

(** ** Canonical codes

    [canon bits l c]: the codes of [l] bits and more, when the first is [c];
    each is a pair of its length and its number. *)
Fixpoint canon (bits : list Z) (l c : Z) : list (Z * Z) :=
  match bits with
  | [] => []
  | b :: bits => ((λ k, (l, c + k)) <$> range b) ++ canon bits (l + 1) ((c + b) * 2)
  end.

Fixpoint zsum (l : list Z) : Z := match l with [] => 0 | x :: l => x + zsum l end.

Lemma zsum_app l1 l2 : zsum (l1 ++ l2) = zsum l1 + zsum l2.
Proof. induction l1 as [|x l1 IH]; simpl; lia. Qed.

Lemma zsum_nonneg l : Forall byte_ok l → 0 <= zsum l <= 255 * len l.
Proof. induction 1 as [|x l Hx _ IH]; [done|]. unfold in_u in *. cbn [zsum length]. lia. Qed.

Lemma canon_length bits l c : Forall byte_ok bits → len (canon bits l c) = zsum bits.
Proof.
  intros Hb. revert l c; induction Hb as [|b bits Hb _ IH]; intros l c; [done|].
  cbn [canon zsum]. rewrite length_app, length_fmap, range_length, Nat2Z.inj_add, IH.
  unfold in_u in Hb. lia.
Qed.

(** The codes of one length. *)
Lemma canon_group bits l c b n k :
  Forall byte_ok bits → bits !! b = Some n → zsum (take b bits) <= k < zsum (take b bits) + n →
  ∃ c', canon bits l c !! Z.to_nat k = Some (l + Z.of_nat b, c').
Proof.
  intros Hb. revert l c b k; induction Hb as [|x bits Hx Hbits IH]; intros l c b k Hn Hk; [done|].
  unfold in_u in Hx. cbn [canon]. destruct b as [|b].
  - injection Hn as ->. cbn [take zsum] in Hk. rewrite Z.add_0_r. exists (c + k).
    rewrite lookup_app_l by (rewrite length_fmap, range_length; lia).
    rewrite list_lookup_fmap, (proj2 (range_lookup n (Z.to_nat k) k)); [done|lia].
  - cbn [take zsum] in Hk. simpl in Hn.
    rewrite lookup_app_r by (rewrite length_fmap, range_length; pose proof (zsum_nonneg (take b bits) (Forall_take _ _ _ Hbits)); lia).
    rewrite length_fmap, range_length.
    destruct (IH (l + 1) ((c + x) * 2) b (k - x) Hn ltac:(lia)) as [c' Hc].
    exists c'. replace (Z.to_nat k - Z.to_nat x)%nat with (Z.to_nat (k - x)).
    + rewrite Hc. do 2 f_equal. lia.
    + pose proof (zsum_nonneg (take b bits) (Forall_take _ _ _ Hbits)). lia.
Qed.

(** The first fields of the codes: [l] at least, and every number is at least
    what [c] becomes. *)
Lemma canon_bound bits l c e :
  Forall byte_ok bits → e ∈ canon bits l c → l <= e.1 ∧ c * 2 ^ (e.1 - l) <= e.2.
Proof.
  intros Hb. revert l c; induction Hb as [|b bits Hb Hbits IH]; intros l c He; [by apply not_elem_of_nil in He|].
  unfold in_u in Hb. cbn [canon] in He. apply elem_of_app in He as [He|He].
  - apply list_elem_of_fmap in He as (k & -> & Hk%elem_of_range). cbn [fst snd].
    rewrite Z.sub_diag. lia.
  - apply IH in He as [Hl Hc]. split; [lia|].
    replace (e.1 - l) with (1 + (e.1 - (l + 1))) by lia. rewrite Z.pow_add_r by lia. nia.
Qed.

(** Later codes are no prefixes or extensions of earlier ones. *)
Definition code_lt (e1 e2 : Z * Z) : Prop :=
  e1.1 <= e2.1 ∧ (e1.2 + 1) * 2 ^ (e2.1 - e1.1) <= e2.2.

Lemma canon_ordered bits l c i j e1 e2 :
  Forall byte_ok bits → (i < j)%nat →
  canon bits l c !! i = Some e1 → canon bits l c !! j = Some e2 → code_lt e1 e2.
Proof.
  intros Hb. revert l c i j; induction Hb as [|b bits Hb Hbits IH]; intros l c i j Hij Hi Hj; [done|].
  cbn [canon] in Hi, Hj. unfold in_u in Hb.
  apply lookup_app_Some in Hi as [Hi|[Hil Hi]]; apply lookup_app_Some in Hj as [Hj|[Hjl Hj]].
  - rewrite list_lookup_fmap in Hi, Hj.
    apply fmap_Some in Hi as (x & [-> _]%range_lookup & ->).
    apply fmap_Some in Hj as (y & [-> _]%range_lookup & ->).
    unfold code_lt. cbn [fst snd]. rewrite Z.sub_diag. lia.
  - rewrite list_lookup_fmap in Hi. apply fmap_Some in Hi as (x & [-> Hx]%range_lookup & ->).
    apply list_elem_of_lookup_2, canon_bound in Hj as [Hl Hc]; [|done]. unfold code_lt. cbn [fst snd].
    split; [lia|]. replace (e2.1 - l) with (1 + (e2.1 - (l + 1))) by lia.
    rewrite Z.pow_add_r by lia. pose proof (Z.pow_nonneg 2 (e2.1 - (l + 1)) ltac:(lia)). nia.
  - apply lookup_lt_Some in Hj. lia.
  - eapply IH; [|exact Hi|exact Hj]. lia.
Qed.

(** The counts describe a prefix code: the codes of every length fit. *)
Fixpoint kraft (bits : list Z) (l c : Z) : Prop :=
  match bits with
  | [] => True
  | b :: bits => c + b <= 2 ^ l ∧ kraft bits (l + 1) ((c + b) * 2)
  end.

Lemma kraft_code bits l c e :
  Forall byte_ok bits → 0 <= l → 0 <= c → kraft bits l c → e ∈ canon bits l c →
  0 <= e.2 < 2 ^ e.1.
Proof.
  intros Hb. revert l c; induction Hb as [|b bits Hb Hbits IH]; intros l c Hl Hc Hk He; [by apply not_elem_of_nil in He|].
  unfold in_u in Hb. cbn [canon kraft] in *. destruct Hk as [Hk1 Hk2].
  apply elem_of_app in He as [He|He].
  - apply list_elem_of_fmap in He as (k & -> & Hk%elem_of_range). cbn [fst snd]. lia.
  - by eapply IH; [..|exact He]; [lia|lia|].
Qed.

Lemma canon_lengths bits l c e :
  Forall byte_ok bits → e ∈ canon bits l c → l <= e.1 < l + len bits.
Proof.
  intros Hb. revert l c; induction Hb as [|b bits Hb Hbits IH]; intros l c He; [by apply not_elem_of_nil in He|].
  cbn [canon length] in *. apply elem_of_app in He as [He|He].
  - apply list_elem_of_fmap in He as (k & -> & Hk%elem_of_range). cbn [fst]. lia.
  - apply IH in He. lia.
Qed.

(** ** The array of codes *)
Lemma take_store {E A} (l l' : list A) k x :
  store (E:=E) l (Z.of_nat k) x = Ok l' → take (S k) l' = take k l ++ [x].
Proof.
  intros (Hk & -> & _)%store_Ok. rewrite Nat2Z.id.
  rewrite (take_S_r _ _ x) by (apply list_lookup_insert_eq; lia). by rewrite take_insert_ge by lia.
Qed.

Lemma codes_of_length_spec b codes hc done_ :
  len done_ + Z.of_nat b <= len codes → take (length done_) codes = done_ →
  ∃ codes', codes_of_length b codes (wrapu 16 hc) (len done_) =
      Ok (codes', wrapu 16 (hc + Z.of_nat b), len done_ + Z.of_nat b) ∧
    length codes' = length codes ∧
    take (length done_ + b) codes' = done_ ++ ((λ k, wrapu 16 (hc + k)) <$> range (Z.of_nat b)).
Proof.
  revert codes hc done_; induction b as [|b IH]; intros codes hc done_ Hl Ht.
  - exists codes. cbn [codes_of_length]. rewrite !Z.add_0_r, Nat.add_0_r, app_nil_r. done.
  - cbn [codes_of_length]. rewrite store_ok by lia. cbn [mbind outcome_bind].
    assert (store (E:=JError) codes (len done_) (wrapu 16 hc) =
      Ok (<[Z.to_nat (len done_):=wrapu 16 hc]> codes)) as Hst by (apply store_ok; lia).
    apply take_store in Hst. rewrite Ht in Hst.
    destruct (IH (<[Z.to_nat (len done_):=wrapu 16 hc]> codes) (hc + 1) (done_ ++ [wrapu 16 hc]))
      as (codes' & He & Hl' & Ht').
    + rewrite length_app, length_insert. simpl. lia.
    + rewrite length_app. simpl. by rewrite Nat.add_1_r.
    + replace (wrapu 16 (wrapu 16 hc + 1)) with (wrapu 16 (hc + 1)).
      2:{ unfold wrapu. by rewrite Zplus_mod_idemp_l. }
      rewrite length_app, Nat2Z.inj_add in He. cbn [length] in He. change (Z.of_nat 1) with 1 in He.
      exists codes'. rewrite He. split; [f_equal; f_equal; [f_equal; f_equal; lia|lia]|].
      split; [by rewrite Hl', length_insert|].
      rewrite length_app in Ht'. cbn [length] in Ht'.
      replace (length done_ + S b)%nat with (length done_ + 1 + b)%nat by lia. rewrite Ht'.
      rewrite <- app_assoc. f_equal. cbn [app]. unfold range. rewrite !Nat2Z.id. cbn [seq].
      rewrite <- fmap_S_seq, !fmap_cons, Z.add_0_r. f_equal. rewrite <- !list_fmap_compose.
      apply list_fmap_ext. intros i x _. unfold compose. f_equal. lia.
Qed.

(** [build_codes] writes the canonical codes, modulo the width of a code. *)
Lemma build_codes_loop bits codes hc done_ :
  Forall byte_ok bits → len done_ + zsum bits = len codes → take (length done_) codes = done_ →
  ∀ l, ∃ hc' j,
  foldM (λ '(codes, hc, j) b,
    '(codes, hc, j) ← codes_of_length (Z.to_nat b) codes hc j;
    Ok (codes, wrapu 16 (Z.shiftl hc 1), j)) (codes, wrapu 16 hc, len done_) bits =
  Ok (E:=JError) (done_ ++ ((λ e, wrapu 16 e.2) <$> canon bits l hc), hc', j).
Proof.
  intros Hb. revert codes hc done_; induction Hb as [|b bits Hb Hbits IH]; intros codes hc done_ Hl Ht l.
  - cbn [zsum] in Hl. cbn [foldM canon]. exists (wrapu 16 hc), (len done_). rewrite fmap_nil, app_nil_r.
    rewrite take_ge in Ht by lia. by rewrite Ht.
  - unfold in_u in Hb. cbn [zsum] in Hl. pose proof (zsum_nonneg _ Hbits). cbn [foldM canon].
    destruct (codes_of_length_spec (Z.to_nat b) codes hc done_) as (codes' & -> & Hl' & Ht'); [lia|done|].
    cbn [mbind outcome_bind]. rewrite Z2Nat.id in * by lia.
    replace (wrapu 16 (Z.shiftl (wrapu 16 (hc + b)) 1)) with (wrapu 16 ((hc + b) * 2)).
    2:{ rewrite Z.shiftl_mul_pow2 by lia. unfold wrapu. by rewrite Zmult_mod_idemp_l. }
    set (done' := done_ ++ ((λ k, wrapu 16 (hc + k)) <$> range b)) in *.
    assert (length done' = length done_ + Z.to_nat b)%nat as Hd'
      by (unfold done'; rewrite length_app, length_fmap, range_length; lia).
    destruct (IH codes' ((hc + b) * 2) done') with (l := l + 1) as (hc' & j & He).
    + rewrite Hd', Hl'. lia.
    + by rewrite Hd'.
    + replace (len done_ + b) with (len done') by lia. exists hc', j. rewrite He.
      unfold done'. rewrite fmap_app, <- list_fmap_compose, <- app_assoc. done.
Qed.

Lemma build_codes_spec bits codes :
  Forall byte_ok bits → len codes = zsum bits →
  build_codes bits codes = Ok ((λ e, wrapu 16 e.2) <$> canon bits 1 0).
Proof.
  intros Hb Hl. unfold build_codes.
  destruct (build_codes_loop bits codes 0 [] Hb ltac:(simpl; lia) eq_refl 1) as (hc' & j & He).
  change (wrapu 16 0) with 0 in He. change (len []) with 0 in He. by rewrite He.
Qed.

(** ** The lookup table *)

(** The codes with their values: length, number, value. *)
Definition entries (bits vals : list Z) : list (Z * Z * Z) :=
  zip_with (λ e v, (e.1, e.2, v)) (canon bits 1 0) vals.

(** What the table holds for a code of [l] bits and value [v], and where there
    is no code. *)
Definition lut_entry (cls l v : Z) : Z :=
  if negb (cls =? 0) then wrapu 16 (Z.lor v (Z.shiftl l 8)) else wrapu 8 (Z.lor v (Z.shiftl l 4)).
Definition lut_none (cls : Z) : Z := if negb (cls =? 0) then 0xffff else 0xff.

(** The ten bits [s] begin with the code of [e] (as far as it fits). *)
Definition begins (s : Z) (e : Z * Z * Z) : Prop :=
  Z.shiftr s (HUFF_BIT - e.1.1) = e.1.2 `mod` 2 ^ e.1.1.

(** The table covers the entries [es]. *)
Definition lut_holds (cls : Z) (es : list (Z * Z * Z)) (lut : list Z) : Prop :=
  len lut = HUFF_LEN ∧ ∀ s, 0 <= s < HUFF_LEN → ∃ d, getZ lut s = Some d ∧
    ((d = lut_none cls ∧ ∀ e, e ∈ es → ¬ begins s e) ∨
     ∃ e, e ∈ es ∧ begins s e ∧ d = lut_entry cls e.1.1 e.2).

Lemma getZ_insert {A} (l : list A) i j (x : A) :
  0 <= i < len l → getZ (<[Z.to_nat i := x]> l) j = if j =? i then Some x else getZ l j.
Proof.
  intros Hi. unfold getZ. destruct (Z.eqb_spec j i) as [->|Hne].
  - destruct (Z.ltb_spec i 0); [lia|]. apply list_lookup_insert_eq. lia.
  - destruct (Z.ltb_spec j 0); [done|]. apply list_lookup_insert_ne. lia.
Qed.

Lemma fill_span_spec n lut ti td :
  0 <= ti → ti + Z.of_nat n <= len lut →
  ∃ lut', fill_span n lut ti td = Ok lut' ∧ length lut' = length lut ∧
    ∀ s, getZ lut' s = if (ti <=? s) && (s <? ti + Z.of_nat n) then Some td else getZ lut s.
Proof.
  revert lut ti; induction n as [|n IH]; intros lut ti Hti Hl.
  - exists lut. split; [done|]. split; [done|]. intros s.
    destruct (Z.leb_spec ti s), (Z.ltb_spec s (ti + Z.of_nat 0)); try lia; done.
  - cbn [fill_span]. rewrite store_ok by lia. cbn [mbind outcome_bind].
    destruct (IH (<[Z.to_nat ti:=td]> lut) (ti + 1)) as (lut' & -> & Hl' & Hg);
      [lia|rewrite length_insert; lia|].
    exists lut'. split; [done|]. rewrite length_insert in Hl'. split; [done|]. intros s.
    rewrite Hg, getZ_insert by lia.
    destruct (Z.leb_spec (ti + 1) s), (Z.ltb_spec s (ti + 1 + Z.of_nat n)),
      (Z.leb_spec ti s), (Z.ltb_spec s (ti + Z.of_nat (S n))), (Z.eqb_spec s ti); try lia; done.
Qed.

Lemma lut_index c l :
  1 <= l <= 10 →
  Z.land (wrapu 16 (Z.shiftl (wrapu 16 c) (HUFF_BIT - 1 - (l - 1)))) HUFF_MASK =
  (c `mod` 2 ^ l) * 2 ^ (10 - l).
Proof.
  intros Hl. change HUFF_BIT with 10. replace (10 - 1 - (l - 1)) with (10 - l) by lia.
  change HUFF_MASK with (Z.ones 10). rewrite Z.land_ones, Z.shiftl_mul_pow2 by lia. unfold wrapu.
  assert (∀ x, (x `mod` 2 ^ 16) `mod` 2 ^ 10 = x `mod` 2 ^ 10) as Hmm.
  { intros x. apply Z.mod_mod_divide. by exists (2 ^ 6). }
  rewrite Hmm, <- Zmult_mod_idemp_l, Hmm, Zmult_mod_idemp_l.
  replace (2 ^ 10) with (2 ^ l * 2 ^ (10 - l)) by (rewrite <- Z.pow_add_r by lia; f_equal; lia).
  rewrite Zmult_mod_distr_r. done.
Qed.

Lemma begins_range s l c v :
  1 <= l <= 10 → let ti := (c `mod` 2 ^ l) * 2 ^ (10 - l) in
  0 <= ti ∧ ti + 2 ^ (10 - l) <= HUFF_LEN ∧
  (begins s (l, c, v) ↔ ti <= s < ti + 2 ^ (10 - l)).
Proof.
  intros Hl ti. pose proof (Z.mod_pos_bound c (2 ^ l) ltac:(apply Z.pow_pos_nonneg; lia)) as Hc.
  assert (0 < 2 ^ (10 - l)) as Hp by (apply Z.pow_pos_nonneg; lia).
  assert (HUFF_LEN = 2 ^ l * 2 ^ (10 - l)) as ->.
  { rewrite <- Z.pow_add_r by lia. by replace (l + (10 - l)) with 10 by lia. }
  unfold ti. split; [nia|]. split; [nia|]. unfold begins. cbn [fst snd]. change HUFF_BIT with 10.
  rewrite Z.shiftr_div_pow2 by lia. set (q := c `mod` 2 ^ l) in *. set (p := 2 ^ (10 - l)) in *.
  pose proof (Z.div_mod s p ltac:(lia)). pose proof (Z.mod_pos_bound s p Hp). split; intros; nia.
Qed.

(** Storing one more code. *)
Lemma lut_holds_fill cls es lut l c v :
  1 <= l <= 10 → lut_holds cls es lut →
  ∃ lut', fill_span (Z.to_nat (Z.shiftl 1 (HUFF_BIT - 1 - (l - 1)))) lut
      ((c `mod` 2 ^ l) * 2 ^ (10 - l)) (lut_entry cls l v) = Ok lut' ∧
    lut_holds cls (es ++ [(l, c, v)]) lut'.
Proof.
  intros Hl [Hlen Hh]. change HUFF_BIT with 10. replace (10 - 1 - (l - 1)) with (10 - l) by lia.
  rewrite Z.shiftl_1_l. assert (0 < 2 ^ (10 - l)) as Hp by (apply Z.pow_pos_nonneg; lia).
  destruct (begins_range 0 l c v Hl) as (Hti & Htl & _).
  destruct (fill_span_spec (Z.to_nat (2 ^ (10 - l))) lut ((c `mod` 2 ^ l) * 2 ^ (10 - l))
    (lut_entry cls l v)) as (lut' & -> & Hl' & Hg); [lia|rewrite Z2Nat.id, Hlen by lia; exact Htl|].
  exists lut'. split; [done|]. split; [lia|]. intros s Hs. rewrite Hg, Z2Nat.id by lia.
  destruct (begins_range s l c v Hl) as (_ & _ & Hb).
  destruct ((_ <=? s) && _) eqn:E.
  - apply andb_true_iff in E as [E1%Z.leb_le E2%Z.ltb_lt]. eexists. split; [done|]. right.
    exists (l, c, v). split; [set_solver|]. split; [|done]. apply Hb. lia.
  - destruct (Hh s Hs) as (d & Hd & Hcase). exists d. split; [done|]. destruct Hcase as [[-> Hn]|(e & He & ?)].
    + left. split; [done|]. intros e [He|He%list_elem_of_singleton]%elem_of_app; [by apply Hn|].
      subst e. rewrite Hb. apply andb_false_iff in E as [E%Z.leb_gt|E%Z.ltb_ge]; lia.
    + right. exists e. split; [set_solver|done].
Qed.

Lemma entries_lookup bits vals k l c :
  canon bits 1 0 !! k = Some (l, c) → ∀ v, vals !! k = Some v →
  entries bits vals !! k = Some (l, c, v).
Proof. intros Hc v Hv. unfold entries. rewrite lookup_zip_with, Hc. simpl. by rewrite Hv. Qed.

Lemma at_Some {A} (l : list A) i x : getZ l i = Some x → at_ l i = Ok x.
Proof. intros Hx. unfold at_. by rewrite Hx. Qed.

(** The codes of one length. *)
Lemma lut_of_length_spec j bits vals lut cls b i :
  Forall byte_ok bits → len vals = zsum bits → 0 <= b < 10 → 0 <= i →
  (∀ k, i <= k < i + Z.of_nat j → ∃ c, canon bits 1 0 !! Z.to_nat k = Some (b + 1, c)) →
  lut_holds cls (take (Z.to_nat i) (entries bits vals)) lut →
  ∃ lut', lut_of_length j ((λ e, wrapu 16 e.2) <$> canon bits 1 0) vals lut cls b i =
      Ok (lut', i + Z.of_nat j) ∧
    lut_holds cls (take (Z.to_nat (i + Z.of_nat j)) (entries bits vals)) lut'.
Proof.
  intros Hb Hv Hb10. revert lut i; induction j as [|j IH]; intros lut i Hi Hg Hh.
  - exists lut. cbn [lut_of_length]. by rewrite Z.add_0_r.
  - cbn [lut_of_length]. destruct (Hg i ltac:(lia)) as [c Hc].
    assert (i < len vals) as Hiv.
    { apply lookup_lt_Some in Hc. pose proof (canon_length bits 1 0 Hb). lia. }
    destruct (lookup_lt_is_Some_2 vals (Z.to_nat i) ltac:(lia)) as [v Hvi].
    rewrite (at_Some (_ <$> _) i (wrapu 16 c)) by (apply getZ_Some; split; [lia|by rewrite list_lookup_fmap, Hc]).
    cbn [mbind outcome_bind]. rewrite (at_Some vals i v) by (apply getZ_Some; split; [lia|done]).
    cbn [mbind outcome_bind].
    replace (HUFF_BIT - 1 - b) with (HUFF_BIT - 1 - (b + 1 - 1)) by lia. rewrite lut_index by lia.
    destruct (lut_holds_fill cls _ lut (b + 1) c v ltac:(lia) Hh) as (lut' & Hf & Hh').
    unfold lut_entry in Hf. rewrite Hf.
    cbn [mbind outcome_bind].
    destruct (IH lut' (i + 1)) as (lut'' & He & Hh'').
    + lia.
    + intros k Hk. apply Hg. lia.
    + replace (Z.to_nat (i + 1)) with (S (Z.to_nat i)) by lia.
      by rewrite (take_S_r _ _ (b + 1, c, v)) by (by apply entries_lookup).
    + exists lut''. rewrite He. replace (i + 1 + Z.of_nat j) with (i + Z.of_nat (S j)) in * by lia. done.
Qed.

(** [build_lut] covers the codes of up to ten bits, and counts them. *)
Lemma build_lut_spec bits vals lut cls :
  Forall byte_ok bits → length bits = 16%nat → len vals = zsum bits → len lut = HUFF_LEN →
  Forall (λ d, d = lut_none cls) lut →
  ∃ lut', build_lut bits ((λ e, wrapu 16 e.2) <$> canon bits 1 0) vals lut cls =
      Ok (lut', zsum (take 10 bits)) ∧
    lut_holds cls (take (Z.to_nat (zsum (take 10 bits))) (entries bits vals)) lut'.
Proof.
  intros Hb Hb16 Hv Hl Hn. unfold build_lut. change HUFF_BIT with (Z.of_nat 10).
  assert (∀ n, (n <= 10)%nat → ∃ lut',
    foldM (λ '(lut, i) b, j ← at_ bits b;
      lut_of_length (Z.to_nat j) ((λ e, wrapu 16 e.2) <$> canon bits 1 0) vals lut cls b i)
      (lut, 0) (range (Z.of_nat n)) = Ok (lut', zsum (take n bits)) ∧
    lut_holds cls (take (Z.to_nat (zsum (take n bits))) (entries bits vals)) lut') as Hloop; [|apply (Hloop 10%nat); lia].
  induction n as [|n IH]; intros Hn10.
  - exists lut. split; [done|]. split; [done|]. intros s Hs. cbn [take zsum Z.to_nat].
    destruct (proj2 (getZ_is_Some lut s)) as [d Hd]; [lia|]. exists d. split; [done|]. left.
    split; [by apply (getZ_Forall _ _ _ _ Hd Hn)|]. intros e He. by apply not_elem_of_nil in He.
  - destruct IH as (lut1 & He1 & Hh1); [lia|].
    replace (range (Z.of_nat (S n))) with (range (Z.of_nat n) ++ [Z.of_nat n]).
    2:{ unfold range. rewrite !Nat2Z.id, seq_S, fmap_app. done. }
    rewrite foldM_app, He1. cbn [mbind outcome_bind foldM].
    destruct (lookup_lt_is_Some_2 bits n ltac:(lia)) as [j Hj].
    unfold at_. rewrite getZ_nat, Hj. cbn [or_panic mbind outcome_bind].
    pose proof (Forall_lookup_1 _ _ _ _ Hb Hj) as Hjr. unfold in_u in Hjr.
    pose proof (zsum_nonneg _ (Forall_take byte_ok n bits Hb)) as Hz.
    destruct (lut_of_length_spec (Z.to_nat j) bits vals lut1 cls (Z.of_nat n) (zsum (take n bits)))
      as (lut2 & He2 & Hh2); [done|done|lia|lia| |done|].
    + intros k Hk. rewrite Z2Nat.id in Hk by lia.
      destruct (canon_group bits 1 0 n j k Hb Hj Hk) as [c Hc]. exists c. rewrite Hc. do 2 f_equal. lia.
    + rewrite Z2Nat.id in * by lia. exists lut2. rewrite He2. cbn [mbind outcome_bind].
      rewrite (take_S_r _ _ _ Hj), zsum_app. cbn [zsum]. rewrite Z.add_0_r. done.
Qed.

(** ** Decoding against the canonical code

    The reference takes the first code that the register begins with. *)
Definition begins_with (w wbit : Z) (e : Z * Z * Z) : bool := Z.shiftr w (wbit - e.1.1) =? e.1.2.

Fixpoint first_code (es : list (Z * Z * Z)) (w wbit : Z) : option (Z * Z) :=
  match es with
  | [] => None
  | e :: es => if begins_with w wbit e then Some (e.2, e.1.1) else first_code es w wbit
  end.

Lemma first_code_app es1 es2 w wbit :
  first_code (es1 ++ es2) w wbit =
  match first_code es1 w wbit with Some r => Some r | None => first_code es2 w wbit end.
Proof. induction es1 as [|e es1 IH]; [done|]. cbn [first_code app]. by destruct (begins_with w wbit e). Qed.

Lemma first_code_none es w wbit :
  (∀ e, e ∈ es → begins_with w wbit e = false) → first_code es w wbit = None.
Proof.
  induction es as [|e es IH]; intros Hn; [done|]. cbn [first_code].
  rewrite Hn by set_solver. apply IH. intros e' He'. apply Hn. set_solver.
Qed.

Lemma first_code_Some es w wbit v l :
  first_code es w wbit = Some (v, l) → ∃ c, (l, c, v) ∈ es ∧ begins_with w wbit (l, c, v) = true.
Proof.
  induction es as [|[[l' c'] v'] es IH]; [done|]. cbn [first_code].
  destruct (begins_with w wbit (l', c', v')) eqn:E.
  - intros [= -> ->]. exists c'. set_solver.
  - intros (c & ? & ?)%IH. exists c. set_solver.
Qed.

(** A register begins with at most one code of a prefix code. *)
Lemma begins_with_exclusive w wbit e1 e2 :
  0 <= w → e2.1.1 <= wbit → 0 <= e1.1.1 → code_lt e1.1 e2.1 →
  begins_with w wbit e1 = true → begins_with w wbit e2 = false.
Proof.
  destruct e1 as [[l1 c1] v1], e2 as [[l2 c2] v2]. unfold begins_with, code_lt. cbn [fst snd].
  intros Hw Hwb Hl1 [Hl Hc] H1%Z.eqb_eq. apply Z.eqb_neq. intros H2.
  rewrite Z.shiftr_div_pow2 in H1, H2 by lia.
  replace (wbit - l1) with ((wbit - l2) + (l2 - l1)) in H1 by lia.
  rewrite Z.pow_add_r in H1 by lia.
  assert (0 < 2 ^ (wbit - l2)) by (apply Z.pow_pos_nonneg; lia).
  assert (0 < 2 ^ (l2 - l1)) as Hp by (apply Z.pow_pos_nonneg; lia).
  rewrite <- Z.div_div, H2 in H1 by lia.
  pose proof (Z.div_mod c2 (2 ^ (l2 - l1)) ltac:(lia)). pose proof (Z.mod_pos_bound c2 _ Hp). nia.
Qed.

Lemma entries_canon bits vals k e :
  entries bits vals !! k = Some e → canon bits 1 0 !! k = Some e.1 ∧ vals !! k = Some e.2.
Proof.
  unfold entries. rewrite lookup_zip_with. destruct (canon bits 1 0 !! k) as [[l c]|]; [|done]. simpl.
  destruct (vals !! k); [|done]. by intros [= <-].
Qed.

Section Tables.
Context (bits vals : list Z).
Context (Hb : Forall byte_ok bits) (Hb16 : length bits = 16%nat) (Hv : len vals = zsum bits)
  (Hk : kraft bits 1 0).

Lemma entry_ok e : e ∈ entries bits vals → 1 <= e.1.1 <= 16 ∧ 0 <= e.1.2 < 2 ^ e.1.1 ∧ e.2 ∈ vals.
Proof.
  intros [k He]%list_elem_of_lookup. apply entries_canon in He as [Hc%list_elem_of_lookup_2 Hvk].
  pose proof (canon_lengths bits 1 0 e.1 Hb Hc). pose proof (kraft_code bits 1 0 e.1 Hb ltac:(lia) ltac:(lia) Hk Hc).
  split; [lia|]. split; [done|]. by eapply list_elem_of_lookup_2.
Qed.

Lemma first_code_entry w wbit e :
  0 <= w → 16 <= wbit → e ∈ entries bits vals → begins_with w wbit e = true →
  first_code (entries bits vals) w wbit = Some (e.2, e.1.1).
Proof.
  intros Hw Hwb [k He]%list_elem_of_lookup Hm. rewrite <- (take_drop_middle _ _ _ He).
  rewrite first_code_app, first_code_none; [cbn [first_code]; by rewrite Hm|].
  intros e' [j Hj]%list_elem_of_lookup. apply lookup_take_Some in Hj as [Hj Hjk].
  destruct (begins_with w wbit e') eqn:Hm'; [|done]. rewrite <- Hm.
  pose proof (entry_ok _ (list_elem_of_lookup_2 _ _ _ He)).
  pose proof (entry_ok _ (list_elem_of_lookup_2 _ _ _ Hj)).
  eapply begins_with_exclusive; [done| | |eapply (canon_ordered bits 1 0 j k)|exact Hm']; try lia; try done.
  - by apply entries_canon in Hj as [? _].
  - by apply entries_canon in He as [? _].
Qed.

(** The search among the codes of one length. *)
Lemma search_codes_spec nc bl idx w wbit :
  0 <= idx → 16 <= wbit → idx + Z.of_nat nc <= zsum bits → zsum bits <= 255 →
  (∀ k, idx <= k < idx + Z.of_nat nc → ∃ c, canon bits 1 0 !! Z.to_nat k = Some (bl, c)) →
  search_codes nc (Z.shiftr w (wbit - bl)) idx (zsum bits)
    ((λ e, wrapu 16 e.2) <$> canon bits 1 0) vals =
  Ok match first_code (take nc (drop (Z.to_nat idx) (entries bits vals))) w wbit with
     | Some (v, _) => inl v
     | None => inr (idx + Z.of_nat nc)
     end.
Proof.
  revert idx; induction nc as [|nc IH]; intros idx Hi Hwb Hn H255 Hg.
  - cbn [search_codes take first_code]. by rewrite Z.add_0_r.
  - cbn [search_codes]. destruct (Z.leb_spec (zsum bits) idx); [lia|].
    destruct (Hg idx ltac:(lia)) as [c Hc].
    destruct (lookup_lt_is_Some_2 vals (Z.to_nat idx) ltac:(lia)) as [v Hvi].
    pose proof (entries_lookup _ vals _ _ _ Hc _ Hvi) as He.
    pose proof (entry_ok _ (list_elem_of_lookup_2 _ _ _ He)) as (Hl & Hcr & _). cbn [fst snd] in *.
    rewrite (drop_S _ _ _ He). cbn [take first_code]. unfold begins_with at 1. cbn [fst snd].
    rewrite (at_Some (_ <$> _) idx c).
    2:{ apply getZ_Some. split; [lia|]. rewrite list_lookup_fmap, Hc. simpl. f_equal.
        apply wrapu_small. unfold in_u.
        assert (2 ^ bl <= 2 ^ 16) by (apply Z.pow_le_mono_r; lia). lia. }
    cbn [mbind outcome_bind]. destruct (_ =? c).
    + rewrite (at_Some vals idx v) by (apply getZ_Some; split; [lia|done]). done.
    + rewrite wrapu_small by (unfold in_u; lia). rewrite IH; [|lia..|].
      * replace (Z.to_nat (idx + 1)) with (S (Z.to_nat idx)) by lia.
        replace (idx + 1 + Z.of_nat nc) with (idx + Z.of_nat (S nc)) by lia. done.
      * intros k Hkk. apply Hg. lia.
Qed.

(** The search over the lengths. *)
Lemma search_lengths_spec fuel b w wbit :
  (b + fuel = 16)%nat → 16 <= wbit → zsum bits <= 255 →
  search_lengths fuel (Z.of_nat b + 1) (Z.of_nat b) (zsum (take b bits)) w wbit (zsum bits) bits
    ((λ e, wrapu 16 e.2) <$> canon bits 1 0) vals =
  ok_or (first_code (drop (Z.to_nat (zsum (take b bits))) (entries bits vals)) w wbit) InvalidData.
Proof.
  revert b; induction fuel as [|fuel IH]; intros b Hf Hwb H255.
  - cbn [search_lengths]. rewrite take_ge by lia. rewrite drop_ge; [done|].
    unfold entries. rewrite length_zip_with. lia.
  - cbn [search_lengths]. destruct (lookup_lt_is_Some_2 bits b ltac:(lia)) as [n Hn].
    pose proof (Forall_lookup_1 _ _ _ _ Hb Hn) as Hnr. unfold in_u in Hnr.
    pose proof (zsum_nonneg _ (Forall_take byte_ok b bits Hb)) as Hz.
    assert (zsum (take (S b) bits) = zsum (take b bits) + n) as HS
      by (rewrite (take_S_r _ _ _ Hn), zsum_app; cbn [zsum]; lia).
    assert (zsum (take b bits) + n <= zsum bits) as Hle.
    { rewrite <- HS. rewrite <- (take_drop (S b) bits) at 2. rewrite zsum_app.
      pose proof (zsum_nonneg _ (Forall_drop byte_ok (S b) bits Hb)). lia. }
    rewrite (at_Some bits _ n) by (by rewrite getZ_nat). cbn [mbind outcome_bind].
    replace (wbit - (Z.of_nat b + 1)) with (wbit - (1 + Z.of_nat b)) by lia.
    rewrite search_codes_spec; [|lia..|].
    2:{ intros k Hkk. rewrite Z2Nat.id in Hkk by lia. by apply (canon_group bits 1 0 b n). }
    cbn [mbind outcome_bind]. rewrite Z2Nat.id by lia.
    rewrite <- (take_drop (Z.to_nat n) (drop _ (entries bits vals))) at 2.
    rewrite first_code_app, drop_drop. destruct (first_code (take _ _) w wbit) as [[v l]|] eqn:E.
    + apply first_code_Some in E as (c & [k Hin]%list_elem_of_lookup & _).
      apply lookup_take_Some in Hin as [Hin Hkn]. rewrite lookup_drop in Hin.
      apply entries_canon in Hin as [Hc _]. cbn [fst] in Hc.
      destruct (canon_group bits 1 0 b n (zsum (take b bits) + Z.of_nat k) Hb Hn ltac:(lia)) as [c' Hc'].
      replace (Z.to_nat _) with (Z.to_nat (zsum (take b bits)) + k)%nat in Hc' by lia.
      rewrite Hc in Hc'. injection Hc' as -> _. simpl. do 2 f_equal. lia.
    + replace (Z.of_nat b + 1 + 1) with (Z.of_nat (S b) + 1) by lia.
      replace (Z.of_nat b + 1) with (Z.of_nat (S b)) by lia. rewrite <- HS, IH by lia.
      do 2 f_equal. f_equal. lia.
Qed.
End Tables.

(** The entries of the lookup table can be taken apart. *)
Lemma lut_entry_parts cls l v :
  cls = 0 ∨ cls = 1 → 1 <= l <= 10 → huff_value cls v →
  let d := lut_entry cls l v in
  d ≠ lut_none cls ∧
  (if cls =? 0 then Z.land d 0xf = v ∧ Z.shiftr d 4 = l else Z.land d 0xff = v ∧ Z.shiftr d 8 = l).
Proof.
  intros Hcls Hl Hv. unfold huff_value in Hv.
  assert (∀ k, 0 <= k → 0 <= v < 2 ^ k → Z.lor v (Z.shiftl l k) = l * 2 ^ k + v ∧
    Z.land (l * 2 ^ k + v) (Z.ones k) = v ∧ Z.shiftr (l * 2 ^ k + v) k = l) as Hparts.
  { intros k Hk Hvk. rewrite Z.lor_comm, Z.shiftl_mul_pow2, lor_add by done. split; [done|].
    rewrite Z.land_ones, Z.shiftr_div_pow2 by done. rewrite Z.add_comm.
    rewrite Z.mod_add, Z.div_add by lia. rewrite Z.mod_small, Z.div_small by done. lia. }
  unfold lut_entry, lut_none. destruct Hcls as [-> | ->]; cbn [Z.eqb negb] in *.
  - destruct (Hparts 4) as (-> & Hp); [lia|lia|]. rewrite wrapu_small by (unfold in_u; lia).
    split; [lia|exact Hp].
  - destruct (Hparts 8) as (-> & Hp); [lia|lia|]. rewrite wrapu_small by (unfold in_u; lia).
    split; [lia|exact Hp].
Qed.

(** ** Tables in the decoder *)

(** The table of class [cls] and number [id] is the one that the counts and
    the values describe. *)
Definition table_of (jd : JDEC) (id cls : Z) (bits vals : list Z) : Prop :=
  Forall byte_ok bits ∧ length bits = 16%nat ∧ len vals = zsum bits ∧
  Forall (huff_value cls) vals ∧ ∃ lut,
    getZ (huffbits jd) (ix id cls) = Some bits ∧
    getZ (huffcode jd) (ix id cls) = Some ((λ e, wrapu 16 e.2) <$> canon bits 1 0) ∧
    getZ (huffdata jd) (ix id cls) = Some vals ∧
    getZ (huffcode_len jd) (ix id cls) = Some (zsum bits) ∧
    getZ (longofs jd) (ix id cls) = Some (wrapu 8 (zsum (take 10 bits))) ∧
    getZ (if negb (cls =? 0) then hufflut_ac jd else hufflut_dc jd) id = Some lut ∧
    lut_holds cls (take (Z.to_nat (zsum (take 10 bits))) (entries bits vals)) lut.

(** The short codes are those of at most ten bits. *)
Lemma short_entry bits vals e :
  Forall byte_ok bits → length bits = 16%nat →
  e ∈ take (Z.to_nat (zsum (take 10 bits))) (entries bits vals) → 1 <= e.1.1 <= 10.
Proof.
  intros Hb Hb16 [k Hk]%list_elem_of_lookup. apply lookup_take_Some in Hk as [Hk Hlt].
  apply entries_canon in Hk as [Hc _].
  pose proof (canon_lengths bits 1 0 e.1 Hb (list_elem_of_lookup_2 _ _ _ Hc)). split; [lia|].
  destruct (Z.le_gt_cases e.1.1 10); [done|]. exfalso.
  rewrite <- (take_drop 10 bits) in Hc.
  assert (∀ b1 b2 l c, Forall byte_ok b1 → ∃ c', canon (b1 ++ b2) l c = canon b1 l c ++ canon b2 (l + len b1) c') as Happ.
  { intros b1 b2 l c Hb1. revert l c; induction Hb1 as [|x b1 Hx _ IH]; intros l c.
    - exists c. by rewrite Z.add_0_r.
    - cbn [app canon length]. destruct (IH (l + 1) ((c + x) * 2)) as [c' ->]. exists c'.
      rewrite <- app_assoc. do 3 f_equal. lia. }
  destruct (Happ (take 10 bits) (drop 10 bits) 1 0) as [c' Heq]; [by apply Forall_take|].
  pose proof (canon_length (take 10 bits) 1 0 (Forall_take _ _ _ Hb)) as Hl.
  rewrite Heq, lookup_app_l in Hc by lia.
  pose proof (canon_lengths _ 1 0 e.1 (Forall_take _ 10 _ Hb) (list_elem_of_lookup_2 _ _ _ Hc)) as Hr.
  rewrite length_take in Hr. lia.
Qed.

Lemma entry_value bits vals cls n e :
  Forall (huff_value cls) vals → e ∈ take n (entries bits vals) → huff_value cls e.2.
Proof.
  intros Hv [k Hk]%list_elem_of_lookup. apply lookup_take_Some in Hk as [Hk _].
  apply entries_canon in Hk as [_ Hk]. by eapply Forall_lookup_1.
Qed.

(** Such a table is one that decoding can use, *)
Lemma table_of_loaded jd id cls bits vals :
  cls = 0 ∨ cls = 1 → table_of jd id cls bits vals → table_loaded jd id cls.
Proof.
  intros Hcls (Hb & Hb16 & Hv & Hval & lut & H1 & H2 & H3 & H4 & H5 & H6 & Hl & Hh).
  exists bits, ((λ e, wrapu 16 e.2) <$> canon bits 1 0), vals, lut, (zsum bits), (wrapu 8 (zsum (take 10 bits))).
  pose proof (wrapu_range 8 (zsum (take 10 bits)) ltac:(lia)) as Hlo. unfold in_u in Hlo.
  split_and!; try done; [lia|]. constructor; try done.
  - by rewrite length_fmap, canon_length.
  - apply Forall_forall. intros d [s Hs]%list_elem_of_lookup. pose proof (lookup_lt_Some _ _ _ Hs).
    destruct (Hh (Z.of_nat s) ltac:(lia)) as (d' & Hd' & Hcase). rewrite getZ_nat, Hs in Hd'.
    injection Hd' as <-. destruct Hcase as [[-> _]|(e & He & _ & ->)].
    + destruct Hcls as [-> | ->]; by left.
    + pose proof (short_entry _ _ _ Hb Hb16 He) as Hl10.
      pose proof (entry_value _ _ cls _ _ Hval He) as Hev.
      destruct (lut_entry_parts cls e.1.1 e.2 Hcls Hl10 Hev) as [_ Hp].
      destruct Hcls as [-> | ->]; cbn [Z.eqb] in *; destruct Hp as [-> ->]; by right.
Qed.

(** and decoding with it follows the canonical code. *)
Lemma huff_decode_spec jd id cls bits vals w wbit :
  cls = 0 ∨ cls = 1 → table_of jd id cls bits vals → kraft bits 1 0 → zsum bits <= 255 →
  16 <= wbit → 0 <= w < 2 ^ wbit →
  huff_decode jd id cls w wbit = ok_or (first_code (entries bits vals) w wbit) InvalidData.
Proof.
  intros Hcls (Hb & Hb16 & Hv & Hval & lut & H1 & H2 & H3 & H4 & H5 & H6 & Hl & Hh) Hk H255 Hwb Hw.
  unfold huff_decode. rewrite (at_Some _ _ lut H6). cbn [mbind outcome_bind].
  assert (∀ l, l <= 10 → Z.shiftr (Z.shiftr w (wbit - HUFF_BIT)) (HUFF_BIT - l) = Z.shiftr w (wbit - l)) as Hsh.
  { intros l Hl'. change HUFF_BIT with 10. rewrite Z.shiftr_shiftr by lia. f_equal. lia. }
  assert (0 <= Z.shiftr w (wbit - HUFF_BIT) < HUFF_LEN) as Hs.
  { change HUFF_BIT with 10. change HUFF_LEN with (2 ^ 10).
    rewrite Z.shiftr_div_pow2 by lia. split; [apply Z.div_pos; lia|].
    apply Z.div_lt_upper_bound; [lia|].
    rewrite <- Z.pow_add_r by lia. replace (wbit - 10 + 10) with wbit by lia. apply Hw. }
  assert (∀ e, e ∈ take (Z.to_nat (zsum (take 10 bits))) (entries bits vals) →
    (begins (Z.shiftr w (wbit - HUFF_BIT)) e ↔ begins_with w wbit e = true)) as Hbe.
  { intros e He. pose proof (short_entry _ _ _ Hb Hb16 He).
    pose proof (entry_ok bits vals Hb Hb16 Hk e ltac:(eapply elem_of_subseteq; [|exact He]; apply subseteq_take)) as (_ & Hc & _).
    unfold begins, begins_with. rewrite Hsh, Z.mod_small by lia. by rewrite Z.eqb_eq. }
  destruct (Hh _ Hs) as (d & Hd & Hcase). rewrite (at_Some _ _ d Hd). cbn [mbind outcome_bind].
  destruct Hcase as [[-> Hnone]|(e & He & Hbg & ->)].
  - assert (zsum (take 10 bits) <= 255) as H10.
    { rewrite <- (take_drop 10 bits), zsum_app in H255.
      pose proof (zsum_nonneg _ (Forall_drop byte_ok 10 bits Hb)). lia. }
    pose proof (zsum_nonneg _ (Forall_take byte_ok 10 bits Hb)).
    rewrite wrapu_small in H5 by (unfold in_u; lia).
    rewrite (at_Some _ _ _ H5), (at_Some _ _ _ H1), (at_Some _ _ _ H2), (at_Some _ _ _ H4), (at_Some _ _ _ H3).
    cbn [mbind outcome_bind].
    pose proof (search_lengths_spec bits vals Hb Hb16 Hv Hk 6 10 w wbit eq_refl Hwb H255) as Hsl.
    change (Z.of_nat 10) with HUFF_BIT in Hsl. rewrite Hsl.
    rewrite <- (take_drop (Z.to_nat (zsum (take 10 bits))) (entries bits vals)) at 2.
    rewrite first_code_app, (first_code_none (take _ _)); [by destruct Hcls as [-> | ->]|].
    intros e He. specialize (Hnone e He). rewrite Hbe in Hnone by done. by destruct (begins_with w wbit e).
  - pose proof (short_entry _ _ _ Hb Hb16 He) as Hl10.
    pose proof (entry_value _ _ cls _ _ Hval He) as Hev.
    apply Hbe in Hbg; [|done].
    rewrite (first_code_entry bits vals Hb Hb16 Hk w wbit e); [|lia|done| |done].
    2:{ eapply elem_of_subseteq; [|exact He]. apply subseteq_take. }
    destruct (lut_entry_parts cls e.1.1 e.2 Hcls Hl10 Hev) as [Hne Hp].
    destruct Hcls as [-> | ->]; cbn [Z.eqb negb andb] in *; destruct Hp as [-> ->];
      [change (lut_none 0) with 0xff in Hne|change (lut_none 1) with 0xffff in Hne];
      apply Z.eqb_neq in Hne; rewrite Hne; done.
Qed.
