(* ===== verification/JpegOpen.v ===== *)
(** * Opening a JPEG image

    Parsing the segments always ends and never leaves the buffers, and the
    tables it builds are well formed, so the decoder it returns is ready. *)
From S2P Require Import Prelude Io JpegState JpegTables JpegMcu JpegDecode JpegSafety JpegPixels JpegHuffman.
Local Open Scope Z_scope.

(** ** The pool *)
Lemma alloc_aligned n : 0 <= n < 2 ^ 31 →
  n <= Z.land (wrapu usize_bits (n + 3)) (wrapu usize_bits (Z.lnot 3)).
Proof.
  intros Hn. rewrite (wrapu_small _ (n + 3)) by (unfold in_u; lia).
  change (wrapu usize_bits (Z.lnot 3)) with (Z.ldiff (Z.ones 32) (Z.ones 2)).
  rewrite Z.ldiff_land, Z.land_assoc, (Z.land_ones _ 32), Z.mod_small by lia.
  rewrite <- Z.ldiff_land, Z.ldiff_ones_r by lia. rewrite Z.shiftl_mul_pow2, Z.shiftr_div_pow2 by lia.
  change (2 ^ 2) with 4. pose proof (Z.div_mod (n + 3) 4 ltac:(lia)).
  pose proof (Z.mod_pos_bound (n + 3) 4 ltac:(lia)). lia.
Qed.

(** What allocation leaves alone: everything but the pool. *)
Lemma alloc_slice_yields size of_bytes n jd (P : list Z → Prop) :
  (∀ l, P (of_bytes (Z.to_nat n) l) ∨ len l < n * size) → 0 <= n * size < 2 ^ 31 → 0 < size →
  yields (alloc_slice size of_bytes n jd) (λ '(l, jd'), P l ∧ ∃ p, jd' = set_pool jd p).
Proof.
  intros HP Hn Hs. unfold alloc_slice. rewrite (wrapu_small _ (n * size)) by (unfold in_u; lia).
  destruct (Z.ltb_spec (len (pool jd)) (Z.land (wrapu usize_bits (n * size + 3)) (wrapu usize_bits (Z.lnot 3))));
    [done|]. pose proof (alloc_aligned (n * size) Hn). simpl. split; [|eauto].
  destruct (HP (pool jd)); [done|lia].
Qed.

Lemma alloc_u8_yields n jd :
  0 <= n < 2 ^ 31 → yields (alloc_u8 n jd) (λ '(l, jd'), len l = n ∧ ∃ p, jd' = set_pool jd p).
Proof.
  intros Hn. apply (alloc_slice_yields _ _ _ _ (λ l, len l = n)); [|lia..].
  intros l. rewrite length_take. lia.
Qed.

Lemma alloc_u16_yields n jd :
  0 <= n < 2 ^ 30 → yields (alloc_u16 n jd) (λ '(l, jd'), len l = n ∧ ∃ p, jd' = set_pool jd p).
Proof.
  intros Hn. apply (alloc_slice_yields _ _ _ _ (λ l, len l = n)); [|lia..].
  intros l. rewrite as_u16_length. lia.
Qed.

Lemma alloc_i16_yields n jd :
  0 <= n < 2 ^ 30 → yields (alloc_i16 n jd) (λ '(l, jd'), len l = n ∧ ∃ p, jd' = set_pool jd p).
Proof.
  intros Hn. apply (alloc_slice_yields _ _ _ _ (λ l, len l = n)); [|lia..].
  intros l. unfold as_i16. rewrite length_fmap, as_u16_length. lia.
Qed.

Lemma alloc_i32_yields n jd :
  0 <= n < 2 ^ 29 → yields (alloc_i32 n jd) (λ '(l, jd'), len l = n ∧ ∃ p, jd' = set_pool jd p).
Proof.
  intros Hn. apply (alloc_slice_yields _ _ _ _ (λ l, len l = n)); [|lia..].
  intros l. unfold as_i32. rewrite length_fmap, as_u32_length. lia.
Qed.

(** ** The state while the segments are parsed *)

(** Slot [k] of the tables is empty or holds a table. *)
Definition slot_ok (jd : JDEC) (id cls : Z) : Prop :=
  getZ (huffbits jd) (ix id cls) = Some [] ∨ table_loaded jd id cls.

Record opening (jd : JDEC) : Prop := {
  op_inbuf : len (inbuf jd) = JD_SZBUF;
  op_bytes : Forall byte_ok (inbuf jd);
  op_start : (dctr jd, dptr jd, scale jd, mcu_x jd, mcu_y jd) = (0, 0, 0, 0, 0);
  op_size : 0 <= width jd < 2 ^ 16 ∧ 0 <= height jd < 2 ^ 16;
  op_frame : (width jd = 0 ∧ msx jd = 0) ∨ (sampling_ok jd ∧ (ncomp jd = 1 ∨ ncomp jd = 3));
  op_dcv : len (dcv jd) = 3;
  op_qtid : len (qtid jd) = 3 ∧ Forall (λ q, 0 <= q <= 3) (qtid jd);
  op_qttbl : len (qttbl jd) = 4 ∧ Forall (λ t, t = [] ∨ len t = 64) (qttbl jd);
  op_lens : len (huffbits jd) = 4 ∧ len (huffcode jd) = 4 ∧ len (huffcode_len jd) = 4 ∧
    len (huffdata jd) = 4 ∧ len (longofs jd) = 4 ∧ len (hufflut_ac jd) = 2 ∧ len (hufflut_dc jd) = 2;
  op_slots : ∀ id cls, 0 <= id <= 1 → 0 <= cls <= 1 → slot_ok jd id cls;
}.

Lemma opening_pool jd p : opening jd → opening (set_pool jd p).
Proof. intros []. by constructor. Qed.

Lemma opening_inbuf jd b :
  opening jd → len b = JD_SZBUF → Forall byte_ok b → opening (set_inbuf jd b).
Proof. intros [] ??. by constructor. Qed.

Lemma opening_at jd i : opening jd → 0 <= i < 512 → yields (at_ (inbuf jd) i) byte_ok.
Proof.
  intros Ho Hi. eapply yields_weaken; [apply yields_at; rewrite (op_inbuf _ Ho); exact Hi|].
  intros x Hx. pose proof (op_bytes _ Ho) as Hb. rewrite Forall_forall in Hb. by apply Hb.
Qed.

Lemma opening_u16 jd i : opening jd → 0 <= i < 511 → yields (inbuf_u16 jd i) (in_u 16).
Proof.
  intros Ho Hi. unfold inbuf_u16. eapply yields_bind; [by apply opening_at; [|lia]|]. intros hi Hhi.
  eapply yields_bind; [apply opening_at; [done|lia]|]. intros lo Hlo. unfold in_u in *. cbn [yields].
  rewrite Z.shiftl_mul_pow2, lor_add by lia. lia.
Qed.

(** ** Quantizer tables *)
Lemma load_qt_yields b i tbl :
  len b = JD_SZBUF → 0 <= i → i + 64 <= 512 → len tbl = 64 →
  yields (load_qt b i tbl) (λ '(t, j), len t = 64 ∧ j = i + 64).
Proof.
  intros Hb Hi Hi64 Ht. unfold load_qt.
  apply (yields_foldM_idx _ (λ k '(t, j), len t = 64 ∧ j = i + Z.of_nat k)); [|split; [done|lia]].
  intros k zi [t j] Hk [Hl ->]. pose proof (lookup_lt_Some _ _ _ Hk) as Hlt. change (length ZIG) with 64%nat in Hlt.
  apply list_elem_of_lookup_2, zig_range in Hk. unfold JD_SZBUF in Hb.
  yields_step. eapply yields_bind; [apply yields_at; change (len IPSF) with 64; lia|]. intros f _.
  yields_step. simpl. lia.
Qed.

Lemma create_qt_loop_yields fuel jd ndata i :
  opening jd → 0 <= ndata < Z.of_nat fuel → 0 <= i → i + ndata <= 512 →
  yields (create_qt_loop fuel jd ndata i) opening.
Proof.
  revert jd ndata i; induction fuel as [|fuel IH]; intros jd ndata i Ho Hn Hi Hin; [lia|].
  cbn [create_qt_loop]. destruct (Z.eqb_spec ndata 0); [done|]. destruct (Z.ltb_spec ndata 65); [done|].
  eapply yields_bind; [apply opening_at; [done|lia]|]. intros d Hd. destruct (negb _); [done|].
  eapply yields_bind; [apply alloc_i32_yields; lia|]. intros [tbl jd'] [Ht [p ->]].
  apply (opening_pool _ p) in Ho.
  eapply yields_bind; [apply load_qt_yields; [apply Ho|lia..]|]. intros [t j] [Hl ->].
  assert (0 <= Z.land d 3 < 2 ^ 2) as Hk by (apply (land_ones_range d 2); lia).
  destruct (op_qttbl _ Ho) as [Hq4 Hqs]. unfold yields at 1.
  rewrite store_ok by (rewrite Hq4; lia). cbn [mbind outcome_bind]. fold (yields (E:=JError) (A:=JDEC)).
  apply IH; [|lia..]. destruct Ho. constructor; try done. split; simpl.
  - by rewrite length_insert.
  - apply Forall_insert; auto.
Qed.

Lemma create_qt_tbl_yields jd n : opening jd → 0 <= n <= 512 → yields (create_qt_tbl jd n) opening.
Proof. intros Ho Hn. apply create_qt_loop_yields; try done; lia. Qed.

(** ** Huffman tables *)

(** [n] bytes of the segment from index [i]. *)
Definition segment_bytes (b : list Z) (i n : Z) : list Z := take (Z.to_nat n) (drop (Z.to_nat i) b).

Lemma segment_bytes_length b i n : 0 <= i → 0 <= n → i + n <= len b → len (segment_bytes b i n) = n.
Proof. intros. unfold segment_bytes. rewrite length_take, length_drop. lia. Qed.

Lemma segment_bytes_ok b i n : Forall byte_ok b → Forall byte_ok (segment_bytes b i n).
Proof. intros. by apply Forall_take, Forall_drop. Qed.

(** The byte that the loop reads in turn [k]. *)
Lemma segment_bytes_step (b : list Z) i k :
  0 <= i → i + Z.of_nat k < len b → ∃ x, at_ b (i + Z.of_nat k) = Ok x ∧
    take (S k) (drop (Z.to_nat i) b) = take k (drop (Z.to_nat i) b) ++ [x].
Proof.
  intros Hi Hk. destruct (lookup_lt_is_Some_2 b (Z.to_nat i + k) ltac:(lia)) as [x Hx].
  exists x. split.
  - apply at_Some, getZ_Some. split; [lia|]. replace (Z.to_nat (i + Z.of_nat k)) with (Z.to_nat i + k)%nat by lia. done.
  - apply take_S_r. by rewrite lookup_drop.
Qed.

Lemma load_bits_yields b i bits0 :
  len b = JD_SZBUF → 0 <= i → i + 16 <= 512 → len bits0 = 16 →
  yields (load_bits b i bits0) (λ '(bits, np, j), bits = segment_bytes b i 16 ∧ np = zsum bits ∧ j = i + 16).
Proof.
  intros Hb Hi Hi16 Hl. unfold load_bits, JD_SZBUF in *.
  eapply yields_weaken.
  { apply (yields_range _ (λ k '(bits, np, j), len bits = 16 ∧ j = i + k ∧
      take (Z.to_nat k) bits = take (Z.to_nat k) (drop (Z.to_nat i) b) ∧
      np = zsum (take (Z.to_nat k) bits))); [lia| |split_and!; [done|lia|done|done]].
    intros k [[bits np] j] Hk (Hlb & -> & Ht & ->).
    destruct (segment_bytes_step b i (Z.to_nat k)) as (x & Hx & Hs); [lia|lia|].
    rewrite Z2Nat.id in Hx by lia. rewrite Hx. cbn [mbind outcome_bind].
    destruct (store bits k x) as [bits'| | |] eqn:E; [|by rewrite store_ok in E by lia..].
    pose proof (store_Ok _ _ _ _ E) as (_ & _ & Hl').
    replace k with (Z.of_nat (Z.to_nat k)) in E by lia. apply take_store in E.
    replace (Z.to_nat (k + 1)) with (S (Z.to_nat k)) by lia. cbn [mbind outcome_bind yields].
    rewrite E, Hs, Ht, zsum_app. cbn [zsum]. split_and!; try done; lia. }
  intros [[bits np] j] (Hlb & -> & Ht & ->). change (Z.to_nat 16) with 16%nat in Ht.
  rewrite (take_ge bits) in * by lia. unfold segment_bytes. done.
Qed.

Lemma load_data_yields b cls np i vals0 :
  len b = JD_SZBUF → Forall byte_ok b → cls = 0 ∨ cls = 1 → 0 <= i → 0 <= np → i + np <= 512 → len vals0 = np →
  yields (load_data b cls np i vals0)
    (λ '(vals, j), vals = segment_bytes b i np ∧ Forall (huff_value cls) vals ∧ j = i + np).
Proof.
  intros Hb Hby Hcls Hi Hnp Hin Hl. unfold load_data, JD_SZBUF in *.
  eapply yields_weaken.
  { apply (yields_range _ (λ k '(vals, j), len vals = np ∧ j = i + k ∧
      take (Z.to_nat k) vals = take (Z.to_nat k) (drop (Z.to_nat i) b) ∧
      Forall (huff_value cls) (take (Z.to_nat k) vals))); [lia| |split_and!; [done|lia|done|constructor]].
    intros k [vals j] Hk (Hlb & -> & Ht & Hok).
    destruct (segment_bytes_step b i (Z.to_nat k)) as (x & Hx & Hs); [lia|lia|].
    rewrite Z2Nat.id in Hx by lia.
    assert (byte_ok x) as Hxb.
    { unfold at_, or_panic in Hx. destruct (getZ b (i + k)) eqn:Eg; [|done].
      injection Hx as ->. by apply (getZ_Forall _ _ _ _ Eg). }
    rewrite Hx. cbn [mbind outcome_bind].
    destruct ((cls =? 0) && (11 <? x)) eqn:Ec; [done|].
    destruct (store vals k x) as [vals'| | |] eqn:E; [|by rewrite store_ok in E by lia..].
    pose proof (store_Ok _ _ _ _ E) as (_ & _ & Hl').
    replace k with (Z.of_nat (Z.to_nat k)) in E by lia. apply take_store in E.
    replace (Z.to_nat (k + 1)) with (S (Z.to_nat k)) by lia. cbn [mbind outcome_bind yields].
    rewrite E. split_and!; [lia|lia|by rewrite Hs, Ht|]. apply Forall_app. split; [done|].
    constructor; [|done]. unfold huff_value, in_u in *.
    destruct Hcls as [-> | ->]; cbn [Z.eqb andb] in *; [apply Z.ltb_ge in Ec|]; lia. }
  intros [vals j] (Hlb & -> & Ht & Hok). rewrite (take_ge vals) in * by lia. unfold segment_bytes. done.
Qed.

(** The class and the number in the first byte of a table. *)
Lemma table_byte d :
  byte_ok d → negb (Z.land d 0xee =? 0) = false →
  (Z.shiftr d 4 = 0 ∨ Z.shiftr d 4 = 1) ∧ (Z.land d 0xf = 0 ∨ Z.land d 0xf = 1).
Proof.
  intros Hd Hm. assert (Forall (λ d, negb (Z.land d 0xee =? 0) = false →
    (Z.shiftr d 4 = 0 ∨ Z.shiftr d 4 = 1) ∧ (Z.land d 0xf = 0 ∨ Z.land d 0xf = 1)) (range 256)) as HF.
  { apply (bool_decide_unpack _). vm_compute. exact Logic.I. }
  rewrite Forall_forall in HF. apply HF; [|done]. apply elem_of_range. unfold in_u in Hd. lia.
Qed.

Lemma slot_frame jd jd' id cls k num :
  opening jd → 0 <= id <= 1 → 0 <= cls <= 1 → ix id cls ≠ k → 0 <= k < 4 →
  (∃ b c l v o, huffbits jd' = <[Z.to_nat k := b]> (huffbits jd) ∧
    huffcode jd' = <[Z.to_nat k := c]> (huffcode jd) ∧
    huffcode_len jd' = <[Z.to_nat k := l]> (huffcode_len jd) ∧
    huffdata jd' = <[Z.to_nat k := v]> (huffdata jd) ∧
    longofs jd' = <[Z.to_nat k := o]> (longofs jd)) →
  (cls = 0 → hufflut_dc jd' = hufflut_dc jd ∨
     num ≠ id ∧ 0 <= num <= 1 ∧ ∃ t, hufflut_dc jd' = <[Z.to_nat num := t]> (hufflut_dc jd)) →
  (cls = 1 → hufflut_ac jd' = hufflut_ac jd ∨
     num ≠ id ∧ 0 <= num <= 1 ∧ ∃ t, hufflut_ac jd' = <[Z.to_nat num := t]> (hufflut_ac jd)) →
  slot_ok jd' id cls.
Proof.
  intros Ho Hid Hcls Hk Hk4 (b & c & l & v & o & E1 & E2 & E3 & E4 & E5) Hdc Hac.
  destruct (op_lens _ Ho) as (L1 & L2 & L3 & L4 & L5 & L6 & L7).
  assert ((ix id cls =? k) = false) as Hneq by (by apply Z.eqb_neq).
  destruct (op_slots _ Ho id cls Hid Hcls) as [He|(bits & codes & vals & lut & np & lo & H1 & H2 & H3 & H4 & H5 & H6 & H7 & H8)].
  - left. rewrite E1, getZ_insert by lia. by rewrite Hneq.
  - right. exists bits, codes, vals, lut, np, lo.
    rewrite E1, E2, E3, E4, E5, !getZ_insert by lia. rewrite Hneq. split_and!; try done.
    assert (cls = 0 ∨ cls = 1) as [-> | ->] by lia; cbn [Z.eqb negb] in *.
    + destruct (Hdc eq_refl) as [->|(Hn & Hnr & t & ->)]; [done|]. rewrite getZ_insert by lia.
      by destruct (Z.eqb_spec id num).
    + destruct (Hac eq_refl) as [->|(Hn & Hnr & t & ->)]; [done|]. rewrite getZ_insert by lia.
      by destruct (Z.eqb_spec id num).
Qed.

(** The table that the segment at [i] describes is built, and the rest of the
    decoder is left well formed. *)
Lemma create_one_huffman_yields jd d ndata i :
  opening jd → byte_ok d → negb (Z.land d 0xee =? 0) = false →
  0 <= i → 0 <= ndata → i + 16 + ndata <= 512 →
  let bits := segment_bytes (inbuf jd) i 16 in
  let vals := segment_bytes (inbuf jd) (i + 16) (zsum bits) in
  yields (create_one_huffman jd d ndata i) (λ '(jd', ndata', i'),
    opening jd' ∧ table_of jd' (Z.land d 0xf) (Z.shiftr d 4) bits vals ∧
    0 <= ndata' <= ndata ∧ i <= i' ∧ i' + ndata' = i + 16 + ndata).
Proof.
  intros Ho Hd Hm Hi Hn Hin bits vals. destruct (table_byte d Hd Hm) as [Hcls Hnum].
  unfold create_one_huffman. set (cls := Z.shiftr d 4) in *. set (num := Z.land d 0xf) in *.
  clearbody cls num. pose proof (op_inbuf _ Ho) as Hib. pose proof (op_bytes _ Ho) as Hby.
  assert (Forall byte_ok bits) as Hbits by (by apply segment_bytes_ok).
  assert (len bits = 16) as Hb16 by (unfold bits; apply segment_bytes_length; unfold JD_SZBUF in Hib; lia).
  pose proof (zsum_nonneg _ Hbits) as Hz. rewrite Hb16 in Hz.
  eapply yields_bind; [apply alloc_u8_yields; lia|]. intros [bits0 jd1] [Hl0 [p1 ->]]. cbn [set_pool inbuf].
  eapply yields_bind; [apply load_bits_yields; try done; lia|]. intros [[bits' np] i1] (-> & -> & ->).
  fold bits. eapply yields_bind; [apply alloc_u16_yields; lia|]. intros [codes0 jd2] [Hlc [p2 ->]].
  rewrite build_codes_spec by done. cbn [mbind outcome_bind].
  destruct (Z.ltb_spec ndata (zsum bits)); [done|].
  eapply yields_bind; [apply alloc_u8_yields; lia|]. intros [vals0 jd3] [Hlv [p3 ->]]. cbn [inbuf].
  eapply yields_bind; [apply load_data_yields; try done; lia|]. intros [vals' i2] (-> & Hval & ->).
  change (inbuf (set_pool (set_pool (set_pool jd p1) p2) p3)) with (inbuf jd) in *. fold vals in Hval |- *.
  assert (len vals = zsum bits) as Hvl by (unfold vals; apply segment_bytes_length; unfold JD_SZBUF in Hib; lia).
  apply (yields_bind _ _ (λ '(l, jd'), len l = HUFF_LEN ∧ ∃ p, jd' = set_pool jd p)).
  { destruct (negb (cls =? 0)).
    - eapply yields_weaken; [apply alloc_u16_yields; unfold HUFF_LEN; lia|]. intros [l jd'] [? [p ->]].
      split; [done|]. by exists p.
    - eapply yields_weaken; [apply alloc_u8_yields; unfold HUFF_LEN; lia|]. intros [l jd'] [? [p ->]].
      split; [done|]. by exists p. }
  intros [lut0 jd4] [Hll [p4 ->]]. cbn beta iota zeta.
  set (lut1 := (λ _, if negb (cls =? 0) then 0xffff else 0xff) <$> lut0).
  destruct (build_lut_spec bits vals lut1 cls) as (lut & -> & Hh); [done|lia|done|unfold lut1; by rewrite length_fmap| |].
  { unfold lut1. apply Forall_fmap, Forall_true. intros x. by destruct cls. }
  cbn [mbind outcome_bind]. destruct (op_lens _ Ho) as (L1 & L2 & L3 & L4 & L5 & L6 & L7).
  assert (0 <= ix num cls < 4) as Hk by (unfold ix; lia).
  cbn [huffbits huffcode huffcode_len huffdata longofs set_pool].
  rewrite !store_ok by lia. cbn [mbind outcome_bind].
  cbn [hufflut_ac hufflut_dc set_longofs set_huffdata set_huffcode_len set_huffcode set_huffbits set_pool].
  set (jd5 := set_longofs _ _).
  assert (∀ jd', (if negb (cls =? 0) then ∃ t, t = <[Z.to_nat num := lut]> (hufflut_ac jd) ∧ jd' = set_hufflut_ac jd5 t
      else ∃ t, t = <[Z.to_nat num := lut]> (hufflut_dc jd) ∧ jd' = set_hufflut_dc jd5 t) →
      opening jd' ∧ table_of jd' num cls bits vals) as Hfinal.
  { intros jd' Hjd'.
    assert (table_of jd' num cls bits vals) as Ht.
    { split_and!; try done; [lia|]. exists lut.
      destruct Hcls as [-> | ->], Hjd' as (t & -> & ->);
        cbn [huffbits huffcode huffcode_len huffdata longofs hufflut_ac hufflut_dc set_hufflut_ac set_hufflut_dc jd5
          set_longofs set_huffdata set_huffcode_len set_huffcode set_huffbits Z.eqb negb];
        rewrite !getZ_insert by lia; by rewrite !Z.eqb_refl. }
    split; [|exact Ht].
    assert (∀ id cls', 0 <= id <= 1 → 0 <= cls' <= 1 → slot_ok jd' id cls') as Hslots.
    { intros id cls' Hid Hc'. destruct (decide (ix id cls' = ix num cls)) as [He|Hne].
      - assert (id = num ∧ cls' = cls) as [-> ->] by (unfold ix in He; lia). right.
        by eapply table_of_loaded.
      - eapply (slot_frame jd jd' id cls' (ix num cls) num Ho Hid Hc' Hne Hk); unfold ix in Hne;
          destruct Hcls as [-> | ->], Hjd' as (t & -> & ->).
        1, 2: by eexists _, _, _, _, _. 1, 4: intros ->; right; split; [lia|]; split; [lia|]; by eexists.
        all: intros _; by left. }
    destruct Ho, Hcls as [-> | ->], Hjd' as (t & -> & ->);
      (constructor; try done; cbn; rewrite ?length_insert; split_and!; done). }
  destruct (negb (cls =? 0)); rewrite store_ok by lia; cbn [mbind outcome_bind yields];
    (split; [|split; [|split_and!; try lia]]); apply Hfinal; by eexists.
Qed.

Lemma create_huffman_loop_yields fuel jd ndata i :
  opening jd → 0 <= ndata < Z.of_nat fuel → 0 <= i → i + ndata <= 512 →
  yields (create_huffman_loop fuel jd ndata i) opening.
Proof.
  revert jd ndata i; induction fuel as [|fuel IH]; intros jd ndata i Ho Hn Hi Hin; [lia|].
  cbn [create_huffman_loop]. destruct (Z.eqb_spec ndata 0); [done|]. destruct (Z.ltb_spec ndata 17); [done|].
  eapply yields_bind; [apply opening_at; [done|lia]|]. intros d Hd. destruct (negb _) eqn:Em; [done|].
  eapply yields_bind; [apply create_one_huffman_yields; try done; lia|].
  intros [[jd' ndata'] i'] (Ho' & _ & Hn' & Hi' & Hin'). apply IH; try done; lia.
Qed.

Lemma create_huffman_tbl_yields jd n : opening jd → 0 <= n <= 512 → yields (create_huffman_tbl jd n) opening.
Proof. intros Ho Hn. apply create_huffman_loop_yields; try done; lia. Qed.

(** ** The frame header *)
Lemma insert_range (P : Z → Prop) l i x : Forall P l → P x → Forall P (<[i := x]> l).
Proof. intros. by apply Forall_insert. Qed.

(** A component other than the first. *)
Lemma sof_component_yields jd i :
  opening jd → 0 < i < 3 → sampling_ok jd → (ncomp jd = 1 ∨ ncomp jd = 3) →
  yields (sof_component jd i) (λ jd', opening jd' ∧ sampling_ok jd' ∧ ncomp jd' = ncomp jd).
Proof.
  intros Ho Hi Hs Hn. unfold sof_component.
  eapply yields_bind; [apply opening_at; [done|lia]|]. intros b Hb.
  destruct (Z.eqb_spec i 0); [lia|]. destruct (negb _); [done|]. cbn [mbind outcome_bind].
  eapply yields_bind; [apply opening_at; [done|lia]|]. intros q Hq.
  destruct (op_qtid _ Ho) as [Hq3 Hqr]. rewrite store_ok by lia. cbn [mbind outcome_bind].
  destruct (Z.ltb_spec 3 q); [done|]. cbn [yields]. split; [|done]. unfold in_u in Hq.
  destruct Ho. constructor; try done. cbn. rewrite length_insert. split; [done|].
  apply insert_range; [done|lia].
Qed.

Lemma segment_sof_yields jd : opening jd → yields (segment_sof jd) opening.
Proof.
  intros Ho. unfold segment_sof.
  eapply yields_bind; [apply opening_u16; [done|lia]|]. intros w Hw.
  eapply yields_bind; [apply opening_u16; [done|lia]|]. intros h Hh.
  eapply yields_bind; [apply opening_at; [done|lia]|]. intros n Hn.
  destruct (negb (n =? 3) && negb (n =? 1)) eqn:E; [done|].
  assert (n = 1 ∨ n = 3) as Hn13 by (destruct (Z.eqb_spec n 3), (Z.eqb_spec n 1); auto; done).
  set (jd1 := set_ncomp _ _). unfold in_u in *.
  assert (range n = 0 :: tail (range n)) as -> by (destruct Hn13 as [-> | ->]; done).
  cbn [foldM]. apply (yields_bind _ _ (λ jd', opening jd' ∧ sampling_ok jd' ∧ (ncomp jd' = 1 ∨ ncomp jd' = 3))).
  - unfold sof_component.
    assert (∀ k, 0 <= k < 512 → yields (at_ (inbuf jd1) k) byte_ok) as Hat by (intros; by apply (opening_at jd)).
    eapply yields_bind; [apply Hat; lia|]. intros b Hb. cbn [Z.eqb].
    destruct (negb (b =? 0x11) && _ && _) eqn:E'; [done|]. cbn [mbind outcome_bind].
    assert (sampling_ok (set_msy (set_msx jd1 (Z.shiftr b 4)) (Z.land b 15))) as Hsm.
    { destruct (Z.eqb_spec b 0x11) as [->|]; [by left|].
      destruct (Z.eqb_spec b 0x22) as [->|]; [by right; left|].
      destruct (Z.eqb_spec b 0x21) as [->|]; [by right; right|]. done. }
    eapply yields_bind; [apply Hat; lia|]. intros q Hq. cbn [qtid set_msy set_msx jd1 set_ncomp set_height set_width].
    destruct (op_qtid _ Ho) as [Hq3 Hqr]. rewrite store_ok by lia. cbn [mbind outcome_bind].
    destruct (Z.ltb_spec 3 q); [done|]. cbn [yields]. unfold in_u in Hq. split; [|by split].
    destruct Ho. constructor; try done.
    + by right.
    + cbn. rewrite length_insert. split; [done|]. apply insert_range; [done|lia].
  - intros jd2 (Ho2 & Hs2 & Hn2).
    eapply yields_weaken; [apply (yields_foldM _ (λ jd', opening jd' ∧ sampling_ok jd' ∧ (ncomp jd' = 1 ∨ ncomp jd' = 3)))|].
    + intros i jd3 Hi (Ho3 & Hs3 & Hn3).
      assert (0 < i < 3) as Hi3.
      { destruct Hn13 as [-> | ->]; cbn in Hi; set_unfold in Hi; lia. }
      eapply yields_weaken; [by apply sof_component_yields|].
      intros jd4 (? & ? & Heq). split_and!; try done. by rewrite Heq.
    + done.
    + by intros jd3 [? _].
Qed.

Lemma segment_dri_yields jd : opening jd → yields (segment_dri jd) opening.
Proof.
  intros Ho. unfold segment_dri. eapply yields_bind; [apply opening_u16; [done|lia]|].
  intros n Hn. cbn [yields]. destruct Ho. by constructor.
Qed.

(** ** The start of the scan *)

(** A decoder that [new] may return: ready, but for the size of the image. *)
Definition opened (jd : JDEC) : Prop :=
  jd_ok jd ∧ scale jd = 0 ∧ next_mcu jd = (0, 0) ∧
  0 < width jd < 2 ^ 16 ∧ 0 < height jd < 2 ^ 16.

Lemma sos_component_yields jd i :
  opening jd → 0 <= i < 3 →
  yields (sos_component jd () i) (λ _,
    (∃ q t, getZ (qtid jd) i = Some q ∧ 0 <= q <= 3 ∧ getZ (qttbl jd) q = Some t ∧ len t = 64) ∧
    ∀ cls, cls = 0 ∨ cls = 1 → table_loaded jd (if negb (i =? 0) then 1 else 0) cls).
Proof.
  intros Ho Hi. unfold sos_component. eapply yields_bind; [apply opening_at; [done|lia]|]. intros b _.
  destruct (_ && _); [done|]. set (n := if negb (i =? 0) then 1 else 0).
  assert (0 <= n <= 1) as Hn by (unfold n; destruct (negb _); lia).
  assert (∀ cls t, 0 <= cls <= 1 → getZ (huffbits jd) (ix n cls) = Some t → is_empty_table t = false →
    table_loaded jd n cls) as Hload.
  { intros cls t Hc Hg He. destruct (op_slots _ Ho n cls Hn Hc) as [Hs|]; [|done].
    rewrite Hg in Hs. injection Hs as ->. discriminate. }
  destruct (op_lens _ Ho) as (L1 & _). destruct (op_qtid _ Ho) as [Lq Hqr]. destruct (op_qttbl _ Ho) as [Lt Htr].
  destruct (proj2 (getZ_is_Some (huffbits jd) (ix n 0))) as [dc Hdc]; [unfold ix; lia|].
  destruct (proj2 (getZ_is_Some (huffbits jd) (ix n 1))) as [ac Hac]; [unfold ix; lia|].
  rewrite (at_Some _ _ _ Hdc), (at_Some _ _ _ Hac). cbn [mbind outcome_bind].
  destruct (is_empty_table dc) eqn:Edc, (is_empty_table ac) eqn:Eac; try done. cbn [orb].
  destruct (proj2 (getZ_is_Some (qtid jd) i)) as [q Hq]; [lia|].
  rewrite (at_Some _ _ _ Hq). cbn [mbind outcome_bind].
  pose proof (getZ_Forall _ _ _ _ Hq Hqr) as Hq3. cbn beta in Hq3.
  destruct (proj2 (getZ_is_Some (qttbl jd) q)) as [t Ht]; [lia|].
  rewrite (at_Some _ _ _ Ht). cbn [mbind outcome_bind].
  destruct (is_empty_table t) eqn:Et; [done|]. cbn [yields]. split.
  - exists q, t. split_and!; try done; try lia.
    destruct (getZ_Forall _ _ _ _ Ht Htr) as [->|]; [discriminate|done].
  - intros cls [-> | ->]; eapply Hload; eauto; lia.
Qed.

Lemma segment_sos_yields jd : opening jd → yields (segment_sos jd) opened.
Proof.
  intros Ho. unfold segment_sos. destruct (Z.eqb_spec (width jd) 0) as [|Hw0], (Z.eqb_spec (height jd) 0) as [|Hh0]; try done.
  cbn [orb]. eapply yields_bind; [apply opening_at; [done|lia]|]. intros c _. destruct (negb _); [done|].
  destruct (op_frame _ Ho) as [[? _]|[Hs Hn]]; [done|].
  assert (0 <= ncomp jd <= 3) as Hn3 by lia.
  eapply yields_bind.
  { apply (yields_range _ (λ k _, ∀ i, 0 <= i < k →
      (∃ q t, getZ (qtid jd) i = Some q ∧ 0 <= q <= 3 ∧ getZ (qttbl jd) q = Some t ∧ len t = 64) ∧
      ∀ cls, cls = 0 ∨ cls = 1 → table_loaded jd (if negb (i =? 0) then 1 else 0) cls)); [lia| |intros; lia].
    intros k [] Hk IH. eapply yields_weaken; [apply sos_component_yields; [done|lia]|].
    intros [] Hc i Hi. destruct (decide (i = k)) as [->|]; [done|]. apply IH. lia. }
  intros [] Hcomp. cbn beta in Hcomp.
  set (n := msy jd * msx jd). assert (1 <= n <= 4) as Hn4 by (unfold n, sampling_ok in *; lia).
  destruct (Z.eqb_spec n 0); [lia|].
  assert ((if n * 64 * 3 + 64 <? 256 then 256 else n * 64 * 3 + 64) / 4 = 48 * n + 16) as ->.
  { destruct (Z.ltb_spec (n * 64 * 3 + 64) 256); [lia|].
    replace (n * 64 * 3 + 64) with ((48 * n + 16) * 4) by lia. apply Z.div_mul. lia. }
  eapply yields_bind; [apply alloc_i32_yields; lia|]. intros [w jd1] [Hw [p1 ->]].
  eapply yields_bind; [apply alloc_i16_yields; lia|]. intros [b jd2] [Hb [p2 ->]]. cbn [yields].
  destruct Ho as [o1 o2 o3 o4 o5 o6 o7 o8 o9 o10]. injection o3 as E1 E2 E3 E4 E5. unfold opened, next_mcu.
  cbn [mcu_x mcu_y scale width height set_mcubuf set_pool set_workbuf].
  split; [|split; [done|]; split; [by rewrite E4, E5|lia]].
  split; [|split].
  - split; [exact o1|]. split; [exact o2|]. unfold window_ok. cbn. rewrite E1, E2. unfold JD_SZBUF. lia.
  - split; [exact Hs|]. split; [exact Hn|]. split.
    + intros i Hi. exact (proj1 (Hcomp i Hi)).
    + intros id cls Hid Hcls. destruct Hid as [->|[-> Hn']].
      * apply (Hcomp 0); [lia|done].
      * apply (Hcomp 1); [simpl in Hn'; lia|done].
  - unfold bufs_ok, blocks. cbn. rewrite Hw, Hb. fold n. unfold n. lia.
Qed.

(** ** The segments *)
Section Open.
Context {IN : Type} `{JpegInput IN}.

(** A computation while the segments are parsed: it consumes at least [n]
    bytes of the input when it succeeds. *)
Definition parses {A} (m : M IN A) (n : nat) (Q : A → JDEC → Prop) : Prop :=
  ∀ jd i, opening jd → let '(r, jd', i') := m jd i in
    (input_left i' <= input_left i)%nat ∧
    yields r (λ a, (input_left i' + n <= input_left i)%nat ∧ Q a jd').

Lemma parses_bind {A B} (m : M IN A) (f : A → M IN B) n P Q :
  parses m n (λ a jd, opening jd ∧ P a) → (∀ a, P a → parses (f a) 0 Q) →
  parses (m ≫= f) n Q.
Proof.
  intros Hm Hf jd i Ho. specialize (Hm jd i Ho). unfold mbind, m_bind.
  destruct (m jd i) as [[[a|e| |] jd1] i1]; destruct Hm as [Hi1 Hy]; try done.
  destruct Hy as (Hn & Ho1 & HP). specialize (Hf a HP jd1 i1 Ho1).
  destruct (f a jd1 i1) as [[r jd2] i2]. destruct Hf as [Hi2 Hy2]. split; [lia|].
  eapply yields_weaken; [exact Hy2|]. intros b [? ?]. split; [lia|done].
Qed.

Lemma parses_ret {A} (a : A) (Q : A → JDEC → Prop) : (∀ jd, opening jd → Q a jd) → parses (mret a) 0 Q.
Proof. intros HQ jd i Ho. simpl. split; [done|]. split; [lia|auto]. Qed.

Lemma parses_raise {A} e n (Q : A → JDEC → Prop) : parses (raise e) n Q.
Proof. by intros jd i Ho. Qed.

Lemma parses_lift {A} (r : jresult A) P : yields r P → parses (lift r) 0 (λ a jd, opening jd ∧ P a).
Proof.
  intros Hr jd i Ho. simpl. split; [done|]. eapply yields_weaken; [exact Hr|]. intros a Ha. split; [lia|done].
Qed.

Lemma parses_self : parses self_ 0 (λ a jd, opening jd ∧ opening a).
Proof. intros jd i Ho. simpl. split; [done|]. split; [lia|done]. Qed.

Lemma jpeg_in_parses ofs n :
  0 <= ofs → 0 <= n → ofs + n <= 512 →
  ∀ jd i, opening jd → ∃ l b i', jpeg_in (Some ofs) n jd i = (Ok l, set_inbuf jd b, i') ∧
    0 <= l <= n ∧ opening (set_inbuf jd b) ∧ (input_left i' + Z.to_nat l = input_left i)%nat.
Proof.
  intros Hofs Hn Hle jd i Ho. unfold jpeg_in. pose proof (op_inbuf _ Ho) as Hb. unfold JD_SZBUF in Hb.
  destruct (slice (inbuf jd) ofs (ofs + n)) as [x|] eqn:E.
  2:{ exfalso. assert (slice (inbuf jd) ofs (ofs + n) = Some (take (Z.to_nat (ofs + n - ofs)) (drop (Z.to_nat ofs) (inbuf jd)))).
      - apply slice_Some. split; [lia|]. split; [lia|done].
      - congruence. }
  pose proof (jread_length i n Hn) as Hl. pose proof (jread_bytes i n) as Hbs. pose proof (jread_left i n) as Hlf.
  destruct (jread i n) as [b i']. simpl in Hl, Hbs, Hlf.
  exists (len b), (splice (inbuf jd) ofs b), i'. split; [done|]. split; [lia|]. split; [|lia].
  apply opening_inbuf; [done| |].
  - unfold JD_SZBUF. rewrite splice_length by lia. done.
  - unfold splice. pose proof (op_bytes _ Ho).
    apply Forall_app_2; [|apply Forall_app_2]; auto using Forall_take, Forall_drop.
Qed.

(** Reading exactly [n] bytes or failing. *)
Lemma jpeg_in_exact n :
  0 <= n <= 512 →
  parses (r ← jpeg_in (Some 0) n; if negb (r =? n) then raise Input else mret tt) (Z.to_nat n)
    (λ _ jd, opening jd ∧ True).
Proof.
  intros Hn jd i Ho.
  destruct (jpeg_in_parses 0 n ltac:(lia) ltac:(lia) ltac:(lia) jd i Ho) as (l & b & i' & Hj & Hl & Ho' & Hi).
  unfold mbind, m_bind. rewrite Hj. destruct (Z.eqb_spec l n) as [->|]; simpl; (split; [lia|]); [|done].
  split; [lia|done].
Qed.

Lemma find_soi_parses fuel mark ofs jd i :
  opening jd → (input_left i < fuel)%nat →
  let '(r, jd', i') := find_soi fuel mark ofs jd i in
  (input_left i' <= input_left i)%nat ∧ yields r (λ _, opening jd').
Proof.
  revert mark ofs jd i; induction fuel as [|fuel IH]; intros mark ofs jd i Ho Hf; [lia|].
  cbn [find_soi]. unfold mbind, m_bind.
  destruct (jpeg_in_parses 0 1 ltac:(lia) ltac:(lia) ltac:(lia) jd i Ho) as (l & b & i1 & -> & Hl & Ho1 & Hi1).
  destruct (Z.eqb_spec l 1) as [->|]; cbn [negb]; [|by split; [lia|]].
  unfold self_, lift. pose proof (opening_at _ 0 Ho1 ltac:(lia)) as Hat.
  destruct (at_ (inbuf (set_inbuf jd b)) 0) as [x| | |]; try done; [|by split; [lia|]].
  destruct (_ =? 0xffd8); [split; [simpl; lia|exact Ho1]|].
  specialize (IH (wrapu 16 (Z.lor (Z.shiftl mark 8) x)) (ofs + 1) _ i1 Ho1 ltac:(lia)).
  destruct (find_soi _ _ _ _ _) as [[r jd'] i']. destruct IH as [? ?]. split; [lia|done].
Qed.

Lemma load_segment_parses n :
  0 <= n → parses (load_segment (IN:=IN) n) 0 (λ _ jd, opening jd ∧ n <= 512).
Proof.
  intros Hn jd i Ho. unfold load_segment, JD_SZBUF. destruct (Z.ltb_spec 512 n); [done|].
  pose proof (jpeg_in_exact n ltac:(lia) jd i Ho) as Hj.
  destruct ((r ← jpeg_in (Some 0) n; if negb (r =? n) then raise Input else mret ()) jd i) as [[r jd'] i'].
  destruct Hj as [? Hy]. split; [done|]. eapply yields_weaken; [exact Hy|]. intros a (? & ? & _).
  split; [lia|done].
Qed.

Lemma with_segment_parses n f (Q : JDEC → Prop) :
  0 <= n → (∀ jd, opening jd → n <= 512 → yields (f jd) Q) →
  parses (with_segment (IN:=IN) n f) 0 (λ _ jd, Q jd).
Proof.
  intros Hn Hf. unfold with_segment.
  eapply (parses_bind _ _ _ (λ _, n <= 512)); [by apply load_segment_parses|]. intros _ Hle.
  eapply parses_bind; [apply parses_self|]. intros jd Ho.
  eapply parses_bind; [apply parses_lift, Hf; done|]. intros jd1 HQ jd2 i Ho2. simpl.
  split; [done|]. split; [lia|exact HQ].
Qed.

Lemma start_scan_parses n ofs : 0 <= n → parses (start_scan (IN:=IN) n ofs) 0 (λ _ jd, opened jd).
Proof.
  intros Hn jd i Ho. unfold start_scan.
  pose proof (with_segment_parses n segment_sos opened Hn (λ jd Ho _, segment_sos_yields jd Ho) jd i Ho) as Hw.
  unfold mbind, m_bind. destruct (with_segment n segment_sos jd i) as [[[[]|e| |] jd1] i1]; destruct Hw as [Hi1 Hy]; try done.
  destruct Hy as (_ & (((Hl & Hb & Hwin) & Hf & Hu) & Hrest)).
  pose proof (Z.mod_pos_bound ofs JD_SZBUF ltac:(done)) as Ho2. set (o := ofs `mod` JD_SZBUF) in *.
  unfold JD_SZBUF in Ho2, Hl. destruct (Z.eqb_spec o 0) as [->|Hne]; cbn [negb].
  - unfold mret, m_ret, update. simpl. split; [done|]. split; [lia|]. split; [|exact Hrest].
    split; [|exact (conj Hf Hu)]. split; [exact Hl|]. split; [exact Hb|].
    unfold window_ok in *. simpl. lia.
  - unfold jpeg_in. destruct (slice (inbuf jd1) o (o + (JD_SZBUF - o))) as [x|] eqn:E.
    2:{ exfalso. assert (slice (inbuf jd1) o (o + (JD_SZBUF - o)) = Some (take (Z.to_nat (o + (JD_SZBUF - o) - o)) (drop (Z.to_nat o) (inbuf jd1)))).
        - apply slice_Some. unfold JD_SZBUF. split; [lia|]. split; [lia|done].
        - congruence. }
    unfold JD_SZBUF. pose proof (jread_length i1 (512 - o) ltac:(lia)) as Hjl.
    pose proof (jread_bytes i1 (512 - o)) as Hbs. pose proof (jread_left i1 (512 - o)) as Hlf.
    destruct (jread i1 (512 - o)) as [b i2]. simpl in Hjl, Hbs, Hlf. unfold update. simpl.
    split; [lia|]. split; [lia|]. split; [|exact Hrest].
    split; [|exact (conj Hf Hu)]. split; [|split].
    + simpl. unfold JD_SZBUF. rewrite splice_length by lia. done.
    + simpl. unfold splice. apply Forall_app_2; [|apply Forall_app_2]; auto using Forall_take, Forall_drop.
    + unfold window_ok, JD_SZBUF. simpl. lia.
Qed.

(** Skipping a segment changes nothing but the input. *)
Lemma jpeg_in_skip l jd i :
  0 <= l → ∃ n i', jpeg_in None l jd i = (Ok n, jd, i') ∧ (input_left i' <= input_left i)%nat.
Proof.
  intros Hl. unfold jpeg_in. pose proof (jread_left i l) as Hlf. destruct (jread i l) as [b i']. simpl in Hlf.
  exists (len b), i'. split; [done|lia].
Qed.

Lemma segments_parses fuel ofs jd i :
  opening jd → (input_left i < fuel)%nat →
  let '(r, jd', i') := segments fuel ofs jd i in
  (input_left i' <= input_left i)%nat ∧ yields r (λ _, opened jd').
Proof.
  revert ofs jd i; induction fuel as [|fuel IH]; intros ofs jd i Ho Hf; [lia|].
  cbn [segments]. unfold mbind at 1, m_bind at 1.
  destruct (jpeg_in_parses 0 4 ltac:(lia) ltac:(lia) ltac:(lia) jd i Ho) as (n & b & i1 & -> & Hl & Ho1 & Hi1).
  destruct (Z.eqb_spec n 4) as [->|]; cbn [negb]; [|by split; [lia|]].
  unfold mbind at 1, m_bind at 1, self_ at 1. set (jd1 := set_inbuf jd b) in *.
  unfold mbind at 1, m_bind at 1, lift at 1.
  pose proof (opening_u16 jd1 0 Ho1 ltac:(lia)) as Hm.
  destruct (inbuf_u16 jd1 0) as [mark| | |]; try done; [|by split; [lia|]].
  unfold mbind at 1, m_bind at 1, lift at 1.
  pose proof (opening_u16 jd1 2 Ho1 ltac:(lia)) as Hlen.
  destruct (inbuf_u16 jd1 2) as [l| | |]; try done; [|by split; [lia|]].
  destruct (Z.leb_spec l 2); cbn [orb]; [by split; [lia|]|].
  destruct (negb (Z.shiftr mark 8 =? 0xff)); [by split; [lia|]|].
  set (m := Z.land mark 0xff). set (ofs1 := wrapu 32 _). clearbody m ofs1.
  assert (∀ f, (∀ jd, opening jd → l - 2 <= 512 → yields (f jd) opening) →
    let '(r, jd', i') := (_ ← with_segment (l - 2) f; segments fuel ofs1) jd1 i1 in
    (input_left i' <= input_left i)%nat ∧ yields r (λ _, opened jd')) as Hseg.
  { intros f Hff. pose proof (with_segment_parses (l - 2) f opening ltac:(lia) Hff jd1 i1 Ho1) as Hw.
    unfold mbind, m_bind. destruct (with_segment (l - 2) f jd1 i1) as [[[[]|e| |] jd2] i2];
      destruct Hw as [Hi2 Hy]; try done; [|by split; [lia|]].
    specialize (IH ofs1 jd2 i2 (proj2 Hy) ltac:(lia)). destruct (segments fuel ofs1 jd2 i2) as [[r jd3] i3].
    destruct IH. split; [lia|done]. }
  destruct (m =? 0xC0); [apply Hseg; intros; by apply segment_sof_yields|].
  destruct (m =? 0xDD); [apply Hseg; intros; by apply segment_dri_yields|].
  destruct (m =? 0xC4); [apply Hseg; intros; apply create_huffman_tbl_yields; [done|lia]|].
  destruct (m =? 0xDB); [apply Hseg; intros; apply create_qt_tbl_yields; [done|lia]|].
  destruct (m =? 0xDA).
  { pose proof (start_scan_parses (l - 2) ofs1 ltac:(lia) jd1 i1 Ho1) as Hs.
    destruct (start_scan (l - 2) ofs1 jd1 i1) as [[r jd2] i2]. destruct Hs as [? Hy]. split; [lia|].
    eapply yields_weaken; [exact Hy|]. by intros a [_ ?]. }
  destruct (bool_decide _); [by split; [lia|]|].
  unfold mbind, m_bind. destruct (jpeg_in_skip (l - 2) jd1 i1 ltac:(lia)) as (n & i2 & -> & Hi2).
  destruct (negb (n =? l - 2)); [by split; [simpl; lia|]|].
  specialize (IH ofs1 jd1 i2 Ho1 ltac:(lia)). destruct (segments fuel ofs1 jd1 i2) as [[r jd3] i3].
  destruct IH. split; [lia|done].
Qed.

(** The empty decoder. *)
Lemma empty_opening b p : len b = JD_SZBUF → Forall byte_ok b → opening (set_inbuf (empty_jdec p) b).
Proof.
  intros Hb Hby. constructor; try done.
  - by left.
  - simpl. split; [done|]. repeat constructor; lia.
  - simpl. split; [done|]. repeat constructor; by left.
  - intros id cls Hid Hcls. left. simpl.
    assert (ix id cls = 0 ∨ ix id cls = 1 ∨ ix id cls = 2 ∨ ix id cls = 3) as [-> |[->|[->| ->]]]
      by (unfold ix; lia); done.
Qed.

Lemma jdec_new_yields (i : IN) p : Forall byte_ok p → yields (jdec_new i p).1 opened.
Proof.
  intros Hp. unfold jdec_new, alloc_u8, alloc_slice.
  pose proof (alloc_aligned JD_SZBUF ltac:(done)) as Ha.
  change (wrapu usize_bits (JD_SZBUF * 1)) with JD_SZBUF.
  change (pool (empty_jdec p)) with p.
  set (n := Z.land _ _) in *. destruct (Z.ltb_spec (len p) n); [done|].
  set (b := take _ p). set (jd0 := set_pool _ _).
  assert (len b = JD_SZBUF) as Hl by (unfold b, JD_SZBUF in *; rewrite length_take; lia).
  assert (opening (set_inbuf jd0 b)) as Ho
    by (apply (opening_pool (set_inbuf (empty_jdec p) b)), empty_opening; [done|by apply Forall_take]).
  unfold mbind, m_bind.
  pose proof (find_soi_parses (S (input_left i)) 0 0 _ i Ho ltac:(lia)) as Hf.
  destruct (find_soi _ _ _ _ _) as [[[ofs|e| |] jd1] i1]; destruct Hf as [Hi1 Ho1]; try done.
  pose proof (segments_parses (S (input_left i)) ofs jd1 i1 Ho1 ltac:(lia)) as Hs.
  destruct (segments _ _ _ _) as [[[[]|e| |] jd2] i2]; by destruct Hs.
Qed.
End Open.
