(* ===== verification/JpegLoop.v ===== *)
(** * The decoding loop of the JPEG decoder

    From any valid position the loop ends, stays within its buffers, and
    visits the MCUs of the image in raster order; their rectangles tile it. *)
From S2P Require Import Prelude Io JpegState JpegTables JpegMcu JpegDecode JpegSafety JpegPixels.
Local Open Scope Z_scope.

(** A decoder that can go on: a valid position in an image small enough for
    the 16-bit position not to wrap around. *)
Record ready (jd : JDEC) : Prop := {
  ready_jd : jd_ok jd;
  ready_scale : 0 <= scale jd <= 3;
  ready_x : 0 <= mcu_x jd < width jd;
  ready_y : 0 <= mcu_y jd;
  ready_width : width jd <= 65520;
  ready_height : height jd <= 65520;
}.

(** The position after [p]. *)
Definition next_pos (jd : JDEC) (p : Z * Z) : Z * Z :=
  if width jd <=? p.1 + msx jd * 8 then (0, p.2 + msy jd * 8) else (p.1 + msx jd * 8, p.2).

Lemma sampling_values jd : sampling_ok jd → 1 <= msx jd <= 2 ∧ 1 <= msy jd <= 2.
Proof. unfold sampling_ok. lia. Qed.

Lemma advance_mcu_spec s jd :
  ready s → mcu_y s < height s → decoding s jd →
  ready (advance_mcu jd) ∧ next_mcu (advance_mcu jd) = next_pos s (next_mcu s) ∧
  ∃ x y, advance_mcu jd = set_mcu_y (set_mcu_x jd x) y.
Proof.
  intros [Hok Hsc Hx Hy Hw Hh] Hlt [Hjd Hs].
  pose proof (sampling_values _ (proj1 (proj1 (proj2 Hjd)))) as [Hmx Hmy].
  unfold statics in Hs. injection Hs as E1 E2 E3 E4 E5 E6 E7 E8 E9.
  assert (wrapu 16 (mcu_x jd + msx jd * 8) = mcu_x jd + msx jd * 8) as Wx
    by (apply wrapu_small; unfold in_u; lia).
  assert (wrapu 16 (mcu_y jd + msy jd * 8) = mcu_y jd + msy jd * 8) as Wy
    by (apply wrapu_small; unfold in_u; lia).
  assert (jd_ok (advance_mcu jd)) as Hok'.
  { unfold advance_mcu. destruct (_ <=? _); exact Hjd. }
  unfold advance_mcu, next_pos, next_mcu in *.
  cbn [mcu_x mcu_y width height msx msy scale set_mcu_x set_mcu_y fst snd] in *.
  rewrite Wx in *. rewrite <- E2, <- E3, <- E6, <- E8, <- E9.
  destruct (Z.leb_spec (width jd) (mcu_x jd + msx jd * 8)).
  - split; [|split; [cbn; by rewrite Wy|eauto]].
    constructor; cbn [mcu_x mcu_y width height scale set_mcu_x set_mcu_y]; rewrite ?Wy; try done; lia.
  - split; [|split; [done|]].
    + constructor; cbn [mcu_x mcu_y width height scale set_mcu_x set_mcu_y]; try done; lia.
    + exists (mcu_x jd + msx jd * 8), (mcu_y jd). by destruct jd.
Qed.

Section Loop.
Context {IN : Type} `{JpegInput IN}.

(** One turn up to the output. *)
Lemma next_block_spec jd i :
  ready jd →
  match next_block jd i with
  | (Ok _, jd', _) => ∃ jd1, decoding jd jd1 ∧ jd' = advance_mcu jd1
  | (Err _, jd', _) => decoding jd jd'
  | _ => False
  end.
Proof.
  intros Hr. assert (decoding jd jd) as Hd by (split; [apply (ready_jd _ Hr)|done]).
  unfold next_block, mbind, m_bind, update.
  pose proof (check_restart_keeps jd jd i Hd) as Hc.
  destruct (check_restart jd i) as [[[[]| | |] jd1] i1]; destruct Hc as [Hd1 Hy1]; try done.
  pose proof (mcu_load_keeps jd jd1 i1 Hd1) as Hm.
  destruct (mcu_load jd1 i1) as [[[[]| | |] jd2] i2]; destruct Hm as [Hd2 Hy2]; try done. eauto.
Qed.

Section Output.
Context {O : Type} `{JpegOutput O}.

(** One turn of the loop: the position advances, and the output function is
    called with the rectangle of the old position in the new state. *)
Definition turn (jd : JDEC) (i : IN) (o : O) : jresult unit * JDEC * IN * O :=
  match next_block jd i with
  | (Ok _, jd', i') =>
    match mcu_output jd' o (mcu_x jd) (mcu_y jd) with (r, jd'', o') => (r, jd'', i', o') end
  | (Err e, jd', i') => (Err e, jd', i', o)
  | (Panic, jd', i') => (Panic, jd', i', o)
  | (NoFuel, jd', i') => (NoFuel, jd', i', o)
  end.

Lemma decomp_loop_turn fuel jd i o :
  decomp_loop (S fuel) jd i o =
  if mcu_y jd <? height jd then
    match turn jd i o with
    | (Ok _, jd', i', o') => decomp_loop fuel jd' i' o'
    | r => r
    end
  else (Ok tt, jd, i, o).
Proof.
  cbn [decomp_loop]. destruct (_ <? _); [|done]. unfold turn.
  destruct (next_block jd i) as [[[[]| e | |] jd'] i']; try done.
  destruct (mcu_output jd' o (mcu_x jd) (mcu_y jd)) as [[[[]| e | |] jd''] o']; done.
Qed.

(** What never changes while decoding: the picture and its tables. *)
Definition same_frame (jd jd' : JDEC) : Prop :=
  (scale jd', msx jd', msy jd', width jd', height jd') =
  (scale jd, msx jd, msy jd, width jd, height jd).

(** Where the output goes: what the output function makes of the rectangle at
    [p], or nothing when it is rounded off. *)
Definition emits (jd : JDEC) (p : Z * Z) (o : O) (r : jresult unit) (o' : O) : Prop :=
  match output_rect jd p.1 p.2 with
  | None => r = Ok tt ∧ o' = o
  | Some (origin, (rx, ry)) => ∃ jd' bitmap, len bitmap = rx * ry ∧
      owrite o jd' origin (rx, ry) bitmap = (is_ok r, o') ∧ (r = Ok tt ∨ r = Err Interrupted)
  end.

Lemma turn_spec jd i o :
  ready jd → mcu_y jd < height jd →
  match turn jd i o with
  | (r, jd', i', o') => jd_ok jd' ∧ same_frame jd jd' ∧ safe r ∧
      ((∃ e i1, next_block jd i = (Err e, jd', i1) ∧ r = Err e ∧ i' = i1) ∨
       ready jd' ∧ next_mcu jd' = next_pos jd (next_mcu jd) ∧ emits jd (next_mcu jd) o r o')
  end.
Proof.
  intros Hr Hlt. pose proof (next_block_spec jd i Hr) as Hn. unfold turn.
  destruct (next_block jd i) as [[[[]| e | |] jd'] i'] eqn:En; try done.
  2:{ destruct Hn as [Hok Hs]. split; [done|]. split; [unfold statics, same_frame in *; congruence|].
      split; [done|]. left. eauto. }
  destruct Hn as (jd1 & Hd & ->).
  destruct (advance_mcu_spec jd jd1 Hr Hlt Hd) as (Hr' & Hp & x & y & Heq).
  assert (same_frame jd (advance_mcu jd1)) as Hsf.
  { rewrite Heq. destruct Hd as [_ Hs]. unfold statics, same_frame in *. cbn. congruence. }
  assert (output_rect (advance_mcu jd1) (mcu_x jd) (mcu_y jd) = output_rect jd (mcu_x jd) (mcu_y jd)) as Ho.
  { unfold same_frame in Hsf. injection Hsf as F1 F2 F3 F4 F5.
    unfold output_rect. by rewrite F1, F2, F3, F4, F5. }
  assert (decoding (advance_mcu jd1) (advance_mcu jd1)) as Hda by (split; [apply Hr'|done]).
  pose proof Hsf as Hsf'. unfold same_frame in Hsf'. injection Hsf' as F1 F2 F3 F4 F5.
  pose proof (mcu_output_spec (advance_mcu jd1) (advance_mcu jd1) o (mcu_x jd) (mcu_y jd) Hda) as Hm.
  destruct Hr as [Hok Hsc Hx Hy Hw Hh].
  rewrite F1, F4, F5, Ho in Hm. specialize (Hm ltac:(lia) ltac:(lia) ltac:(lia) ltac:(lia) ltac:(lia)).
  unfold emits. change (next_mcu jd).1 with (mcu_x jd). change (next_mcu jd).2 with (mcu_y jd).
  destruct (output_rect jd (mcu_x jd) (mcu_y jd)) as [[[ox oy] [rx ry]]|].
  - destruct Hm as (w & bitmap & Hl & Hdw & ->).
    destruct (owrite o _ _ _ bitmap) as [go_on o'] eqn:Ew.
    split; [apply Hdw|]. split; [exact Hsf|]. split; [by destruct go_on|]. right.
    split; [|split; [exact Hp|]].
    + constructor; [apply Hdw|apply Hr'..].
    + exists (set_workbuf (advance_mcu jd1) w), bitmap. rewrite Ew. destruct go_on; eauto.
  - rewrite Hm. split; [apply Hr'|]. split; [exact Hsf|]. split; [done|]. right. eauto.
Qed.

(** The remaining way, which every turn shortens. *)
Definition way (jd : JDEC) : Z := width jd * (height jd - mcu_y jd) - mcu_x jd.

Lemma way_decreases jd jd' :
  ready jd → same_frame jd jd' → next_mcu jd' = next_pos jd (next_mcu jd) → way jd' < way jd.
Proof.
  intros [Hok Hsc Hx Hy Hw Hh] Hsf Hp.
  pose proof (sampling_values _ (proj1 (proj1 (proj2 Hok)))) as [Hmx Hmy].
  unfold same_frame in Hsf. injection Hsf as F1 F2 F3 F4 F5.
  unfold way, next_mcu, next_pos in *. cbn [fst snd] in Hp. rewrite F4, F5.
  destruct (_ <=? _); injection Hp as -> ->; nia.
Qed.

Lemma way_positive jd : ready jd → mcu_y jd < height jd → 0 < way jd.
Proof. intros [Hok Hsc Hx Hy Hw Hh] Hlt. unfold way. nia. Qed.

(** From any valid position: the loop ends, without an abort. *)
Lemma decomp_loop_safe fuel jd i o :
  ready jd → (1 <= fuel)%nat → way jd < Z.of_nat fuel →
  let '(r, jd', _, _) := decomp_loop fuel jd i o in
  safe r ∧ jd_ok jd' ∧ same_frame jd jd' ∧ (r = Ok tt → height jd' <= mcu_y jd').
Proof.
  revert jd i o; induction fuel as [|fuel IH]; intros jd i o Hr Hf Hway; [lia|].
  rewrite decomp_loop_turn. destruct (Z.ltb_spec (mcu_y jd) (height jd)) as [Hlt|Hge].
  2:{ split; [done|]. split; [apply Hr|]. done. }
  pose proof (way_positive _ Hr Hlt). pose proof (turn_spec jd i o Hr Hlt) as Ht.
  destruct (turn jd i o) as [[[r jd'] i'] o']. destruct Ht as (Hok & Hsf & Hs & Hcase).
  destruct r as [[]| e | |]; try done.
  destruct Hcase as [(? & ? & ? & ? & ?)|(Hr' & Hp & He)]; [done|].
  pose proof (way_decreases _ _ Hr Hsf Hp). specialize (IH jd' i' o' Hr' ltac:(lia) ltac:(lia)).
  destruct (decomp_loop fuel jd' i' o') as [[[r jd''] i''] o''].
  destruct IH as (? & ? & Hsf' & ?). split_and!; try done. unfold same_frame in *. congruence.
Qed.
End Output.
End Loop.

(** ** The decoder covers the image

    The positions that the decoding loop visits, and the rectangles it hands
    out: they tile the scaled image. *)
(** ** Positions *)
Fixpoint positions (fuel : nat) (jd : JDEC) (p : Z * Z) : list (Z * Z) :=
  match fuel with
  | O => []
  | S fuel => if p.2 <? height jd then p :: positions fuel jd (next_pos jd p) else []
  end.

(** A position on the grid of the MCUs. *)
Definition on_grid (jd : JDEC) (p : Z * Z) : Prop :=
  ∃ a b, 0 <= a ∧ 0 <= b ∧ p = (a * (msx jd * 8), b * (msy jd * 8)) ∧ p.1 < width jd.

Lemma on_grid_next jd p :
  sampling_ok jd → 0 < width jd → on_grid jd p → on_grid jd (next_pos jd p).
Proof.
  intros Hs%sampling_values Hw (a & b & Ha & Hb & -> & Hlt). unfold next_pos. cbn [fst snd] in *.
  destruct (Z.leb_spec (width jd) (a * (msx jd * 8) + msx jd * 8)).
  - exists 0, (b + 1). cbn [fst]. split_and!; try lia. f_equal; lia.
  - exists (a + 1), b. cbn [fst]. split_and!; try lia. f_equal; lia.
Qed.

Lemma positions_grid fuel jd p q :
  sampling_ok jd → 0 < width jd → on_grid jd p → q ∈ positions fuel jd p →
  on_grid jd q ∧ q.2 < height jd.
Proof.
  intros Hs Hw. revert p; induction fuel as [|fuel IH]; intros p Hp Hq; [by apply not_elem_of_nil in Hq|].
  cbn [positions] in Hq. destruct (Z.ltb_spec p.2 (height jd)); [|by apply not_elem_of_nil in Hq].
  apply elem_of_cons in Hq as [->|Hq]; [done|]. eapply IH; [|exact Hq]. by apply on_grid_next.
Qed.

(** Positions are visited in order of their rows, then of their columns. *)
Definition before (p q : Z * Z) : Prop := p.2 < q.2 ∨ p.2 = q.2 ∧ p.1 < q.1.

Lemma positions_before fuel jd p q :
  sampling_ok jd → 0 < width jd → on_grid jd p →
  q ∈ positions fuel jd (next_pos jd p) → before p q.
Proof.
  intros Hs Hw. pose proof (sampling_values _ Hs) as Hsv. revert p; induction fuel as [|fuel IH]; intros p Hp Hq;
    [by apply not_elem_of_nil in Hq|].
  cbn [positions] in Hq. destruct (_ <? _); [|by apply not_elem_of_nil in Hq].
  assert (before p (next_pos jd p)) as Hb.
  { destruct Hp as (a & b & Ha & Hb & -> & Hlt). unfold before, next_pos. cbn [fst snd] in *.
    destruct (_ <=? _); cbn [fst snd]; lia. }
  apply elem_of_cons in Hq as [->|Hq]; [done|].
  apply IH in Hq; [|by apply on_grid_next]. unfold before in *. lia.
Qed.

Lemma positions_nodup fuel jd p :
  sampling_ok jd → 0 < width jd → on_grid jd p → NoDup (positions fuel jd p).
Proof.
  intros Hs Hw. revert p; induction fuel as [|fuel IH]; intros p Hp; [constructor|].
  cbn [positions]. destruct (_ <? _); [|constructor]. constructor; [|by apply IH, on_grid_next].
  intros Hin. apply positions_before in Hin; [|done..]. unfold before in Hin. lia.
Qed.

Lemma positions_complete fuel jd p q :
  sampling_ok jd → 0 < width jd → 0 <= height jd → on_grid jd p → on_grid jd q → q.2 < height jd →
  (p = q ∨ before p q) → width jd * (height jd - p.2) - p.1 < Z.of_nat fuel → q ∈ positions fuel jd p.
Proof.
  intros Hs Hw Hh0 Hp Hq Hqh Hpq. pose proof (sampling_values _ Hs) as Hsv.
  revert p Hp Hpq; induction fuel as [|fuel IH]; intros p Hp Hpq Hf.
  { exfalso. destruct Hp as (a & b & Ha & Hb & -> & Hlt), Hpq as [<-|Hpq]; [|destruct Hpq]; cbn [fst snd] in *; nia. }
  cbn [positions]. assert (p.2 < height jd) as Hph by (destruct Hpq as [->|Hb]; [done|unfold before in Hb; lia]).
  destruct (Z.ltb_spec p.2 (height jd)); [|lia].
  destruct Hpq as [->|Hpq]; [set_solver|]. apply list_elem_of_further.
  pose proof (on_grid_next _ _ Hs Hw Hp) as Hp'.
  apply IH; [done| |].
  - destruct Hp as (a & b & Ha & Hb & -> & Hlt), Hq as (c & d & Hc & Hd & -> & Hqlt).
    unfold before, next_pos in *. cbn [fst snd] in *.
    destruct (Z.leb_spec (width jd) (a * (msx jd * 8) + msx jd * 8)); cbn [fst snd].
    + assert (b < d).
      { destruct Hpq as [?|[? ?]]; [nia|]. assert (a + 1 <= c) by nia.
        assert ((a + 1) * (msx jd * 8) <= c * (msx jd * 8)) by (apply Z.mul_le_mono_nonneg_r; lia). lia. }
      assert ((b + 1) * (msy jd * 8) <= d * (msy jd * 8)) by nia.
      destruct (decide (0 = c * (msx jd * 8) ∧ (b + 1) * (msy jd * 8) = d * (msy jd * 8))) as [[E1 E2]|];
        [left; f_equal; lia|right; nia].
    + destruct Hpq as [Hlt2|[E2 Hlt2]]; [right; left; lia|].
      assert (a + 1 <= c) by nia.
      destruct (decide (a + 1 = c)) as [<-|]; [left; f_equal; lia|right; right; split; [lia|nia]].
  - destruct Hp as (a & b & Ha & Hb & -> & Hlt). unfold next_pos. cbn [fst snd] in *.
    destruct (_ <=? _); cbn [fst snd]; nia.
Qed.

(** ** The recorded rectangles *)

(** An output that remembers the rectangles. *)
Definition recorder : JpegOutput (list (Z * Z * (Z * Z))) :=
  {| owrite o jd origin size pixels := (true, o ++ [(origin, size)]) |}.

Lemma positions_same fuel jd jd' p : same_frame jd jd' → positions fuel jd' p = positions fuel jd p.
Proof.
  intros Hsf. unfold same_frame in Hsf. injection Hsf as F1 F2 F3 F4 F5.
  revert p; induction fuel as [|fuel IH]; intros p; [done|]. cbn [positions]. unfold next_pos at 1.
  rewrite F5, IH. unfold next_pos. by rewrite F2, F3, F4.
Qed.

Lemma output_rect_same jd jd' x y : same_frame jd jd' → output_rect jd' x y = output_rect jd x y.
Proof.
  intros Hsf. unfold same_frame in Hsf. injection Hsf as F1 F2 F3 F4 F5.
  unfold output_rect. by rewrite F1, F2, F3, F4, F5.
Qed.

Lemma decomp_loop_recorded {IN} `{JpegInput IN} fuel jd (i : IN) log :
  ready jd →
  let '(r, _, _, log') := @decomp_loop IN _ _ recorder fuel jd i log in
  r = Ok tt → log' = log ++ omap (λ p, output_rect jd p.1 p.2) (positions fuel jd (next_mcu jd)).
Proof.
  revert jd i log; induction fuel as [|fuel IH]; intros jd i log Hr; [done|].
  rewrite decomp_loop_turn. cbn [positions]. change (next_mcu jd).2 with (mcu_y jd).
  destruct (Z.ltb_spec (mcu_y jd) (height jd)) as [Hlt|]; [|intros _; simpl; by rewrite app_nil_r].
  pose proof (@turn_spec IN _ _ recorder jd i log Hr Hlt) as Ht.
  destruct (turn jd i log) as [[[[[]|e| |] jd'] i'] log1]; try done.
  destruct Ht as (_ & Hsf & _ & [(? & ? & ? & ? & ?)|(Hr' & Hp & He)]); [done|].
  specialize (IH jd' i' log1 Hr'). destruct (decomp_loop fuel jd' i' log1) as [[[r jd2] i2] log2].
  intros Hok. rewrite (IH Hok), (positions_same _ _ _ _ Hsf), Hp. cbn [omap list_omap].
  assert (log1 = log ++ option_list (output_rect jd (next_mcu jd).1 (next_mcu jd).2)) as ->.
  { unfold emits in He. destruct (output_rect jd _ _) as [[origin [rx ry]]|].
    - destruct He as (jd'' & bitmap & _ & Hw & _). by injection Hw as <-.
    - destruct He as [_ ->]. by rewrite app_nil_r. }
  assert (∀ l, omap (λ p, output_rect jd' p.1 p.2) l = omap (λ p, output_rect jd p.1 p.2) l) as ->.
  { intros l. apply list_omap_ext. induction l; constructor; [|done]. by apply output_rect_same. }
  destruct (output_rect jd _ _); simpl; by rewrite <- ?app_assoc, ?app_nil_r.
Qed.

(** ** The tiles *)

(** The pixel at [px], [py] lies in a rectangle. *)
Definition covers (r : Z * Z * (Z * Z)) (px py : Z) : Prop :=
  r.1.1 <= px < r.1.1 + r.2.1 ∧ r.1.2 <= py < r.1.2 + r.2.2.

(** One axis: MCUs of [m] pixels, [t] after scaling. *)
Lemma axis_tile m s t k size :
  0 <= s → m = t * 2 ^ s → 0 < t → 0 <= k →
  Z.shiftr (k * m) s = k * t ∧
  Z.shiftr (tile_side m size (k * m)) s = Z.min t (Z.shiftr size s - k * t).
Proof.
  intros Hs -> Ht Hk. assert (0 < 2 ^ s) as Hp by (apply Z.pow_pos_nonneg; lia).
  unfold tile_side. rewrite !Z.shiftr_div_pow2 by done. split; [rewrite Z.mul_assoc; apply Z.div_mul; lia|].
  replace (size - k * (t * 2 ^ s)) with (size + (- (k * t)) * 2 ^ s) by lia.
  assert (∀ a b, Z.min a b / 2 ^ s = Z.min (a / 2 ^ s) (b / 2 ^ s)) as Hmin.
  { intros a b. destruct (Z.le_ge_cases a b).
    - rewrite !Z.min_l; [done|by apply Z.div_le_mono|done].
    - rewrite !Z.min_r; [done|by apply Z.div_le_mono|done]. }
  rewrite Hmin, Z.div_mul, Z.div_add by lia. by f_equal.
Qed.

(** A pixel of the scaled axis lies in exactly one tile. *)
Lemma axis_covers t size k px :
  0 < t → 0 <= k → 0 <= px →
  (k * t <= px < k * t + Z.min t (size - k * t) ↔ px < size ∧ k = px / t).
Proof.
  intros Ht Hk Hpx. pose proof (Z.div_mod px t ltac:(lia)). pose proof (Z.mod_pos_bound px t Ht).
  split.
  - intros [H1 H2]. split; [lia|]. apply (Z.div_unique px t k (px - k * t)); lia.
  - intros [H1 ->]. lia.
Qed.

Lemma axis_inside m s t size px :
  0 <= s → m = t * 2 ^ s → 0 < t → 0 <= px < Z.shiftr size s → px / t * m < size.
Proof.
  intros Hs -> Ht Hpx. assert (0 < 2 ^ s) as Hp by (apply Z.pow_pos_nonneg; lia).
  rewrite Z.shiftr_div_pow2 in Hpx by done.
  pose proof (Z.div_mod px t ltac:(lia)). pose proof (Z.mod_pos_bound px t Ht).
  pose proof (Z.mul_div_le size (2 ^ s) Hp). nia.
Qed.

Lemma scaled_mcu m s : m = 8 ∨ m = 16 → 0 <= s <= 3 → ∃ t, m = t * 2 ^ s ∧ 0 < t.
Proof.
  intros Hm Hs. exists (Z.shiftr m s).
  assert (s = 0 ∨ s = 1 ∨ s = 2 ∨ s = 3) as [-> |[->|[->| ->]]] by lia;
    destruct Hm as [-> | ->]; done.
Qed.

(** The rectangle of an MCU covers exactly the pixels of its cell. *)
Lemma output_rect_covers jd p px py tx ty :
  sampling_ok jd → 0 <= scale jd <= 3 → width jd < 2 ^ 32 → height jd < 2 ^ 32 →
  on_grid jd p → p.2 < height jd → 0 <= px → 0 <= py →
  msx jd * 8 = tx * 2 ^ scale jd → 0 < tx → msy jd * 8 = ty * 2 ^ scale jd → 0 < ty →
  ((∃ r, output_rect jd p.1 p.2 = Some r ∧ covers r px py) ↔
   px < Z.shiftr (width jd) (scale jd) ∧ py < Z.shiftr (height jd) (scale jd) ∧
   p = (px / tx * (msx jd * 8), py / ty * (msy jd * 8))).
Proof.
  intros Hs%sampling_values Hsc Hw Hh (a & b & Ha & Hb & -> & Hlt) Hph Hpx Hpy Ex Htx Ey Hty.
  cbn [fst snd] in *. rewrite output_rect_spec; [|split; [nia|done]..|done|done].
  destruct (axis_tile _ _ tx a (width jd) (proj1 Hsc) Ex Htx Ha) as [Ox Sx].
  destruct (axis_tile _ _ ty b (height jd) (proj1 Hsc) Ey Hty Hb) as [Oy Sy].
  rewrite Ox, Sx, Oy, Sy.
  assert ((a * (msx jd * 8), b * (msy jd * 8)) = (px / tx * (msx jd * 8), py / ty * (msy jd * 8)) ↔
    a = px / tx ∧ b = py / ty) as ->.
  { split; [intros [= E1 E2]; split; nia|by intros [<- <-]]. }
  pose proof (axis_covers tx (Z.shiftr (width jd) (scale jd)) a px Htx Ha Hpx) as Cx.
  pose proof (axis_covers ty (Z.shiftr (height jd) (scale jd)) b py Hty Hb Hpy) as Cy.
  set (sx := Z.min tx _) in *. set (sy := Z.min ty _) in *. split.
  - intros (r & Hr & Hc). destruct (_ || _); [done|]. injection Hr as <-.
    unfold covers in Hc. cbn [fst snd] in Hc. tauto.
  - intros (H1 & H2 & H3 & H4). destruct (proj2 Cx (conj H1 H3)), (proj2 Cy (conj H2 H4)).
    destruct (Z.eqb_spec sx 0), (Z.eqb_spec sy 0); try lia. cbn [orb].
    eexists. split; [done|]. unfold covers. cbn [fst snd]. lia.
Qed.

Lemma nodup_omap {A B} (f : A → option B) l :
  (∀ x y z, x ∈ l → y ∈ l → f x = Some z → f y = Some z → x = y) → NoDup l → NoDup (omap f l).
Proof.
  intros Hf Hn. induction Hn as [|x l Hx Hn IH]; [constructor|]. cbn [omap list_omap].
  assert (NoDup (omap f l)) as Hl by (apply IH; intros; eapply Hf; eauto; set_solver).
  destruct (f x) as [z|] eqn:E; [|done]. constructor; [|done].
  intros (y & Hy & Hfy)%list_elem_of_omap. rewrite (Hf x y z) in Hx; [done|set_solver..|done].
Qed.

(** The rectangles of all positions tile the scaled image. *)
Lemma tiles_cover fuel jd :
  sampling_ok jd → 0 <= scale jd <= 3 → 0 < width jd < 2 ^ 32 → 0 <= height jd < 2 ^ 32 →
  width jd * height jd < Z.of_nat fuel →
  let tiles := omap (λ p, output_rect jd p.1 p.2) (positions fuel jd (0, 0)) in
  NoDup tiles ∧ ∀ px py, 0 <= px → 0 <= py →
    (px < Z.shiftr (width jd) (scale jd) ∧ py < Z.shiftr (height jd) (scale jd) ↔
     ∃ r, r ∈ tiles ∧ covers r px py ∧ ∀ r', r' ∈ tiles → covers r' px py → r' = r).
Proof.
  intros Hs Hsc Hw Hh Hf tiles. pose proof (sampling_values _ Hs) as [Hmx Hmy].
  destruct (scaled_mcu (msx jd * 8) (scale jd)) as (tx & Ex & Htx); [lia|done|].
  destruct (scaled_mcu (msy jd * 8) (scale jd)) as (ty & Ey & Hty); [lia|done|].
  assert (on_grid jd (0, 0)) as H0 by (exists 0, 0; split_and!; try done; cbn; lia).
  assert (∀ p, p ∈ positions fuel jd (0, 0) → on_grid jd p ∧ p.2 < height jd) as Hpos.
  { intros p Hp. eapply (positions_grid fuel jd (0, 0)); try done. lia. }
  assert (∀ p px py r, p ∈ positions fuel jd (0, 0) → 0 <= px → 0 <= py →
    output_rect jd p.1 p.2 = Some r → covers r px py →
    px < Z.shiftr (width jd) (scale jd) ∧ py < Z.shiftr (height jd) (scale jd) ∧
    p = (px / tx * (msx jd * 8), py / ty * (msy jd * 8))) as Hcov.
  { intros p px py r Hp Hpx Hpy Hr Hc. destruct (Hpos p Hp) as [Hg Hph].
    apply (output_rect_covers jd p px py tx ty); try done; try lia. eauto. }
  split.
  - apply nodup_omap.
    + intros p q r Hp Hq Hrp Hrq. destruct (Hpos p Hp) as [Hgp Hhp].
      assert (∃ px py, 0 <= px ∧ 0 <= py ∧ covers r px py) as (px & py & Hpx & Hpy & Hc).
      { destruct Hgp as (a & b & Ha & Hb & -> & Hlt). cbn [fst snd] in *.
        rewrite output_rect_spec in Hrp; [|split; [nia|done]..|lia|lia].
        destruct ((_ =? 0) || _) eqn:E; [done|]. injection Hrp as <-.
        apply orb_false_iff in E as [E1%Z.eqb_neq E2%Z.eqb_neq].
        pose proof (tile_side_range (msx jd * 8) (width jd) (a * (msx jd * 8)) (scale jd) ltac:(lia) ltac:(nia) ltac:(lia)).
        pose proof (tile_side_range (msy jd * 8) (height jd) (b * (msy jd * 8)) (scale jd) ltac:(lia) ltac:(nia) ltac:(lia)).
        exists (Z.shiftr (a * (msx jd * 8)) (scale jd)), (Z.shiftr (b * (msy jd * 8)) (scale jd)).
        split; [apply Z.shiftr_nonneg; nia|]. split; [apply Z.shiftr_nonneg; nia|].
        unfold covers. cbn [fst snd]. lia. }
      destruct (Hcov p px py r Hp Hpx Hpy Hrp Hc) as (_ & _ & ->).
      by destruct (Hcov q px py r Hq Hpx Hpy Hrq Hc) as (_ & _ & ->).
    + apply positions_nodup; [done|lia|done].
  - intros px py Hpx Hpy. split.
    + intros [Hxw Hyh]. set (p := (px / tx * (msx jd * 8), py / ty * (msy jd * 8))).
      pose proof (axis_inside _ _ tx (width jd) px (proj1 Hsc) Ex Htx ltac:(lia)) as Ix.
      pose proof (axis_inside _ _ ty (height jd) py (proj1 Hsc) Ey Hty ltac:(lia)) as Iy.
      assert (on_grid jd p) as Hg.
      { exists (px / tx), (py / ty). split_and!; try done; apply Z.div_pos; lia. }
      assert (p ∈ positions fuel jd (0, 0)) as Hp.
      { apply positions_complete; try done; try lia; [|cbn [fst snd]; lia].
        destruct Hg as (a & b & Ha & Hb & -> & _). unfold before. cbn [fst snd].
        destruct (decide (0 = a * (msx jd * 8) ∧ 0 = b * (msy jd * 8))) as [[<- <-]|]; [by left|right; nia]. }
      destruct (proj2 (output_rect_covers jd p px py tx ty Hs Hsc ltac:(lia) ltac:(lia) Hg Iy Hpx Hpy Ex Htx Ey Hty))
        as (r & Hr & Hc); [done|].
      exists r. split; [apply list_elem_of_omap; eauto|]. split; [done|].
      intros r' (q & Hq & Hrq)%list_elem_of_omap Hc'.
      destruct (Hcov q px py r' Hq Hpx Hpy Hrq Hc') as (_ & _ & ->). fold p in Hrq. congruence.
    + intros (r & (q & Hq & Hrq)%list_elem_of_omap & Hc & _).
      destruct (Hcov q px py r Hq Hpx Hpy Hrq Hc) as (? & ? & _). done.
Qed.
