(* ===== verification/JpegSpec.v ===== *)
(** * Properties of the JPEG decoder

    Decoding is safe, ends, covers the image, and can be interrupted and
    resumed. *)
From S2P Require Import Prelude Io JpegState JpegTables JpegMcu JpegDecode JpegSafety JpegPixels JpegHuffman JpegOpen JpegLoop.
Local Open Scope Z_scope.

(** ** Only the output function interrupts *)
Section Interrupted.
Context {IN : Type} `{JpegInput IN}.

Definition not_interrupted {A} (r : jresult A) : Prop := r ≠ Err Interrupted.
Definition goes_on {A} (m : M IN A) : Prop := ∀ jd i, not_interrupted (m jd i).1.1.

Lemma goes_on_bind {A B} (m : M IN A) (f : A → M IN B) :
  goes_on m → (∀ a, goes_on (f a)) → goes_on (m ≫= f).
Proof.
  intros Hm Hf jd i. specialize (Hm jd i). unfold mbind, m_bind, not_interrupted in *.
  destruct (m jd i) as [[[a|[]| |] jd'] i']; simpl in *; try done. apply Hf.
Qed.

Lemma goes_on_forM {S A} (f : S → A → M IN S) s l :
  (∀ s x, goes_on (f s x)) → goes_on (forM f s l).
Proof.
  intros Hf. revert s; induction l as [|x l IH]; intros s; [done|].
  apply goes_on_bind; [apply Hf|apply IH].
Qed.

Lemma goes_on_lift {A} (r : jresult A) : not_interrupted r → goes_on (lift r).
Proof. by intros Hr jd i. Qed.

Lemma not_interrupted_bind {A B} (m : jresult A) (f : A → jresult B) :
  not_interrupted m → (∀ a, not_interrupted (f a)) → not_interrupted (m ≫= f).
Proof. destruct m as [a|[]| |]; simpl; auto; done. Qed.

Lemma not_interrupted_no_error {A} (m : jresult A) : no_error m → not_interrupted m.
Proof. by destruct m. Qed.

Lemma search_codes_on nc d idx l codes vals : not_interrupted (search_codes nc d idx l codes vals).
Proof.
  revert idx; induction nc as [|nc IH]; intros idx; [done|]. cbn [search_codes].
  destruct (_ <=? _); [done|]. apply not_interrupted_bind; [apply not_interrupted_no_error, no_error_at|].
  intros val. destruct (_ =? _); [|apply IH].
  apply not_interrupted_bind; [apply not_interrupted_no_error, no_error_at|done].
Qed.

Lemma search_lengths_on fuel bl hb idx w wbit l bits codes vals :
  not_interrupted (search_lengths fuel bl hb idx w wbit l bits codes vals).
Proof.
  revert bl hb idx; induction fuel as [|fuel IH]; intros bl hb idx; [done|]. cbn [search_lengths].
  apply not_interrupted_bind; [apply not_interrupted_no_error, no_error_at|]. intros nc.
  apply not_interrupted_bind; [apply search_codes_on|]. intros [v|idx']; [done|apply IH].
Qed.

Lemma huff_decode_on jd id cls w wbit : not_interrupted (huff_decode jd id cls w wbit).
Proof.
  unfold huff_decode. do 2 (apply not_interrupted_bind; [apply not_interrupted_no_error, no_error_at|intros ?]).
  destruct (_ && _); [done|]. destruct (_ && _); [done|].
  do 5 (apply not_interrupted_bind; [apply not_interrupted_no_error, no_error_at|intros ?]).
  apply search_lengths_on.
Qed.

Ltac goes_on_tac :=
  repeat match goal with
  | |- goes_on (_ ≫= _) => apply goes_on_bind; [|intros]
  | |- goes_on (forM _ _ _) => apply goes_on_forM; intros
  | |- goes_on (lift (huff_decode _ _ _ _ _)) => apply goes_on_lift, huff_decode_on
  | |- goes_on (lift _) => apply goes_on_lift, not_interrupted_no_error; solve [no_error_tac]
  | |- goes_on (mret _) => done
  | |- goes_on (update _) => done
  | |- goes_on self_ => done
  | |- goes_on (raise _) => done
  | |- goes_on (if ?b then _ else _) => destruct b
  | |- goes_on (match ?x with (_, _) => _ end) => destruct x
  | |- goes_on (match ?x with (_, _) => _ end _) => destruct x
  | |- goes_on (match ?x with Some _ => _ | None => _ end) => destruct x
  end.

Lemma refill_on dc dp : goes_on (refill dc dp).
Proof.
  unfold refill. goes_on_tac. intros jd i. unfold jpeg_in.
  destruct (slice _ _ _); [|done]. by destruct (jread i JD_SZBUF).
Qed.

Lemma fill_on target : goes_on (fill target).
Proof.
  unfold fill. apply goes_on_bind; [done|]. intros jd. generalize 9%nat as fuel.
  generalize (Z.land (wreg jd) (Z.shiftl 1 (dbit jd `mod` 32) - 1)) as w.
  generalize (dbit jd `mod` 32) as wbit. generalize (dctr jd) as dc. generalize (dptr jd) as dp.
  generalize false as flg. clear jd. intros flg dp dc wbit w fuel. revert flg dp dc wbit w.
  induction fuel as [|fuel IH]; intros flg dp dc wbit w; [done|]. cbn [fill_loop].
  goes_on_tac; try apply IH. apply refill_on.
Qed.

Lemma load_ac_on fuel id cmp z : goes_on (load_ac fuel id cmp z).
Proof.
  revert z; induction fuel as [|fuel IH]; intros z; [done|]. cbn [load_ac].
  unfold huffext, bitext, dequantizer, set_work. goes_on_tac; try apply fill_on. apply IH.
Qed.

Lemma next_block_on : goes_on (next_block (IN:=IN)).
Proof.
  unfold next_block, check_restart, restart, read_marker, mcu_load, load_block, load_dc, fill_block,
    clear_ac, huffext, bitext, dequantizer, set_work, block_idct, idct_column, idct_row.
  goes_on_tac; try apply fill_on; try apply refill_on; try apply load_ac_on.
Qed.
End Interrupted.

(** ** Interruption and resumption *)
Section Resume.
Context {IN O : Type} `{JpegInput IN} {HO : JpegOutput O}.

(** The same output function with the request to stop ignored. *)
Definition uninterrupted : JpegOutput O :=
  {| owrite o jd origin size pixels := (true, snd (owrite o jd origin size pixels)) |}.

Lemma mcu_output_uninterrupted jd (o : O) x y :
  @mcu_output O uninterrupted jd o x y =
  match mcu_output jd o x y with
  | (Err Interrupted, jd', o') => (Ok tt, jd', o')
  | r => r
  end.
Proof.
  unfold mcu_output. destruct (output_rect jd x y) as [[[ox oy] [rx ry]]|]; [|done].
  pose proof (mcu_pixels_no_error jd rx ry (work_bytes (workbuf jd))).
  destruct (mcu_pixels _ _ _ _); try done. destruct (slice _ _ _); [|done]. cbn [owrite uninterrupted].
  by destruct (owrite o _ _ _ _) as [[] o'].
Qed.

Lemma turn_uninterrupted jd (i : IN) (o : O) :
  @turn IN _ O uninterrupted jd i o =
  match turn jd i o with
  | (Err Interrupted, jd', i', o') => (Ok tt, jd', i', o')
  | r => r
  end.
Proof.
  unfold turn. pose proof (next_block_on jd i) as Hn. destruct (next_block jd i) as [[[[]|[]| |] jd'] i']; try done.
  rewrite mcu_output_uninterrupted.
  by destruct (mcu_output jd' o _ _) as [[[[]|[]| |] jd''] o'].
Qed.
End Resume.

(** More turns than the remaining way make no difference. *)
Lemma decomp_loop_fuel {IN O} `{JpegInput IN} `{JpegOutput O} f1 f2 jd (i : IN) (o : O) :
  ready jd → (1 <= f1)%nat → (1 <= f2)%nat → way jd < Z.of_nat f1 → way jd < Z.of_nat f2 →
  decomp_loop f1 jd i o = decomp_loop f2 jd i o.
Proof.
  revert f2 jd i o; induction f1 as [|f1 IH]; intros [|f2] jd i o Hr H1 H2 Hw1 Hw2; try lia.
  rewrite !decomp_loop_turn. destruct (Z.ltb_spec (mcu_y jd) (height jd)) as [Hlt|]; [|done].
  pose proof (way_positive _ Hr Hlt). pose proof (turn_spec jd i o Hr Hlt) as Ht.
  destruct (turn jd i o) as [[[[[]| e | |] jd'] i'] o']; try done.
  destruct Ht as (_ & Hsf & _ & [(? & ? & ? & ? & ?)|(Hr' & Hp & _)]); [done|].
  pose proof (way_decreases _ _ Hr Hsf Hp). apply IH; try done; lia.
Qed.

Lemma decomp_fuel jd : ready jd → (1 <= S (Z.to_nat (width jd * height jd)))%nat ∧
  way jd < Z.of_nat (S (Z.to_nat (width jd * height jd))).
Proof.
  intros [Hok Hsc Hx Hy Hw Hh]. split; [lia|]. unfold way.
  destruct (Z.lt_ge_cases (height jd) 0); [|nia].
  assert (width jd * height jd < 0) by nia. nia.
Qed.

(** ** A sample: one block, grey *)
Definition sample_jpeg : list Z :=
  [0xff; 0xd8;
   0xff; 0xdb; 0; 67; 0] ++ repeat 1 64 ++
  [0xff; 0xc0; 0; 11; 8; 0; 8; 0; 8; 1; 1; 0x11; 0;
   0xff; 0xc4; 0; 20; 0x00; 1; 0; 0; 0; 0; 0; 0; 0; 0; 0; 0; 0; 0; 0; 0; 0; 0;
   0xff; 0xc4; 0; 20; 0x10; 1; 0; 0; 0; 0; 0; 0; 0; 0; 0; 0; 0; 0; 0; 0; 0; 0;
   0xff; 0xda; 0; 8; 1; 1; 0; 0; 63; 0;
   0x3f; 0xff; 0xd9].

Lemma sample_jpeg_bytes : Forall byte_ok sample_jpeg.
Proof. apply (bool_decide_unpack _). vm_compute. exact Logic.I. Qed.

Definition sample_input : BufferInput := mkInput sample_jpeg sample_jpeg_bytes.
Definition sample_pool : list Z := repeat 0 (Z.to_nat 6000).

Lemma sample_pool_bytes : Forall byte_ok sample_pool.
Proof. apply Forall_forall. intros x Hx%list_elem_of_In%repeat_spec. subst x. unfold in_u. lia. Qed.

Abbreviation sample_open := (jdec_new sample_input sample_pool).

Definition opened_jdec (r : jresult JDEC) : JDEC := match r with Ok jd => jd | _ => empty_jdec [] end.

Lemma opened_ready r :
  yields r opened → is_ok r = true → width (opened_jdec r) <= 65520 → height (opened_jdec r) <= 65520 →
  ready (opened_jdec r).
Proof.
  destruct r as [jd| | |]; try done. cbn [yields opened_jdec].
  intros (Hj & Hs & [= Hx Hy] & ? & ?) _ Hw Hh. constructor; try done; lia.
Qed.

Abbreviation sample_jdec := (opened_jdec sample_open.1).

Lemma sample_ready : ready sample_jdec.
Proof.
  apply opened_ready.
  - apply jdec_new_yields, sample_pool_bytes.
  - vm_compute. reflexivity.
  - vm_compute. discriminate.
  - vm_compute. discriminate.
Qed.

(** C16. Opening an image is total: whatever the bytes of the input and of the
    memory pool, [new] returns a decoder or an error, without an index out of
    range and after finitely many reads; and the decoder it returns is well
    formed, at the start of a nonempty image. *)
Theorem jpeg_new_total {IN} `{JpegInput IN} (i : IN) p :
  Forall byte_ok p →
  safe (jdec_new i p).1 ∧ ∀ jd, (jdec_new i p).1 = Ok jd → opened jd.
Proof.
  intros Hp. pose proof (jdec_new_yields i p Hp) as Hy. split; [by eapply yields_safe|].
  intros jd Hjd. by rewrite Hjd in Hy.
Qed.

Lemma jpeg_new_total_witness :
  safe (jdec_new sample_input sample_pool).1 ∧
  ∀ jd, (jdec_new sample_input sample_pool).1 = Ok jd → opened jd.
Proof. exact (jpeg_new_total sample_input sample_pool sample_pool_bytes). Defined.

(** C17. Huffman decoding follows the canonical code: with the table that
    [create_huffman_tbl] builds from the counts and the values of a segment,
    when the counts describe a prefix code of at most 255 values, the code at
    the top of the register, short or long, is decoded to the value and the
    length of the first canonical code that the register begins with, and
    anything else is refused. *)
Theorem jpeg_huffman_canonical jd jd' d ndata ndata' i i' w wbit :
  opening jd → byte_ok d → Z.land d 0xee = 0 → 0 <= i → 0 <= ndata → i + 16 + ndata <= 512 →
  create_one_huffman jd d ndata i = Ok (jd', ndata', i') →
  let bits := segment_bytes (inbuf jd) i 16 in
  let vals := segment_bytes (inbuf jd) (i + 16) (zsum bits) in
  kraft bits 1 0 → zsum bits <= 255 → 16 <= wbit → 0 <= w < 2 ^ wbit →
  huff_decode jd' (Z.land d 0xf) (Z.shiftr d 4) w wbit =
  ok_or (first_code (entries bits vals) w wbit) InvalidData.
Proof.
  intros Ho Hd Hm Hi Hn Hin Hc bits vals Hk H255 Hwb Hw.
  assert (negb (Z.land d 0xee =? 0) = false) as Hm' by (by rewrite Hm).
  pose proof (create_one_huffman_yields jd d ndata i Ho Hd Hm' Hi Hn Hin) as Hy.
  rewrite Hc in Hy. destruct Hy as (_ & Ht & _).
  eapply huff_decode_spec; try done. by apply table_byte.
Qed.

(** The usual table for the luminance DC differences. *)
Definition dc_segment : list Z :=
  [0; 1; 5; 1; 1; 1; 1; 1; 1; 0; 0; 0; 0; 0; 0; 0; 0; 1; 2; 3; 4; 5; 6; 7; 8; 9; 10; 11].
Definition dc_jdec : JDEC :=
  set_inbuf (empty_jdec (repeat 0 (Z.to_nat 2000))) (dc_segment ++ repeat 0 (Z.to_nat 484)).

Lemma dc_opening : opening dc_jdec.
Proof.
  apply empty_opening; [vm_compute; reflexivity|].
  apply (bool_decide_unpack _). vm_compute. exact Logic.I.
Qed.

Lemma jpeg_huffman_canonical_witness :
  ∃ jd' n i', create_one_huffman dc_jdec 0 12 0 = Ok (jd', n, i') ∧
    huff_decode jd' 0 0 0xe000 16 = Ok (6, 4).
Proof.
  destruct (create_one_huffman dc_jdec 0 12 0) as [[[jd' n] i']| | |] eqn:E;
    [|exfalso; apply (f_equal is_ok) in E; vm_compute in E; discriminate E..].
  exists jd', n, i'. split; [reflexivity|].
  change (huff_decode jd' (Z.land 0 0xf) (Z.shiftr 0 4) 0xe000 16 = Ok (6, 4)).
  rewrite (jpeg_huffman_canonical dc_jdec jd' 0 12 n 0 i' 0xe000 16 dc_opening);
    [vm_compute; reflexivity|unfold in_u; lia|reflexivity|lia|lia|lia|exact E| | |lia|lia].
  - vm_compute. repeat (split; [discriminate|]). exact Logic.I.
  - vm_compute. discriminate.
Defined.

(** C15. Decoding is safe and ends: from any valid position, whatever the input
    delivers and whenever the output function interrupts, it returns without
    an index out of range, leaves the decoder well formed, and reports success
    only when the last row of the image is done. *)
Theorem jpeg_decomp_safe {IN O} `{JpegInput IN} `{JpegOutput O} jd (i : IN) (o : O) :
  ready jd →
  let r := (decomp jd i o).1.1.1 in
  let jd' := (decomp jd i o).1.1.2 in
  safe r ∧ jd_ok jd' ∧ (r = Ok tt → height jd' <= mcu_y jd').
Proof.
  intros Hr r jd'. unfold r, jd'. clear r jd'. destruct (decomp_fuel _ Hr) as [Hf Hw].
  pose proof (decomp_loop_safe _ jd i o Hr Hf Hw) as Hs. unfold decomp.
  destruct (decomp_loop _ jd i o) as [[[r jd'] i'] o']. destruct Hs as (? & ? & ? & ?). done.
Qed.

Lemma jpeg_decomp_safe_witness :
  let r := (decomp sample_jdec sample_open.2 ()).1.1.1 in
  let jd' := (decomp sample_jdec sample_open.2 ()).1.1.2 in
  safe r ∧ jd_ok jd' ∧ (r = Ok tt → height jd' <= mcu_y jd').
Proof. exact (@jpeg_decomp_safe BufferInput unit buffer_input black_hole sample_jdec sample_open.2 tt sample_ready). Defined.

(** C19. An interrupted decoding can be resumed: decoding on from the state
    and the input it returned with gives what decoding without the
    interruption would have given. *)
Theorem jpeg_decomp_resume {IN O} `{JpegInput IN} {HO : JpegOutput O} jd jd1 (i i1 : IN) (o o1 : O) :
  ready jd → decomp jd i o = (Err Interrupted, jd1, i1, o1) →
  ready jd1 ∧ @decomp IN _ O uninterrupted jd i o = @decomp IN _ O uninterrupted jd1 i1 o1.
Proof.
  set (R := @decomp IN _ O uninterrupted jd1 i1 o1).
  unfold decomp. intros Hr. destruct (decomp_fuel _ Hr) as [Hf Hw]. revert Hf Hw.
  generalize (S (Z.to_nat (width jd * height jd))) as fuel. intros fuel. revert jd i o Hr.
  induction fuel as [|fuel IH]; intros jd i o Hr Hf Hw; [lia|]. rewrite !decomp_loop_turn.
  destruct (Z.ltb_spec (mcu_y jd) (height jd)) as [Hlt|]; [|done].
  pose proof (way_positive _ Hr Hlt). pose proof (turn_spec jd i o Hr Hlt) as Ht.
  rewrite turn_uninterrupted.
  destruct (turn jd i o) as [[[[[]| e | |] jd'] i'] o']; try done.
  - destruct Ht as (_ & Hsf & _ & [(? & ? & ? & ? & ?)|(Hr' & Hp & _)]); [done|].
    pose proof (way_decreases _ _ Hr Hsf Hp). intros Hd. apply IH; try done; lia.
  - intros [= -> -> -> ->]. pose proof (next_block_on jd i) as Hn.
    destruct Ht as (_ & Hsf & _ & [(e & i2 & Hnb & [= <-] & _)|(Hr' & Hp & _)]).
    { unfold not_interrupted in Hn. by rewrite Hnb in Hn. }
    pose proof (way_decreases _ _ Hr Hsf Hp). destruct (decomp_fuel _ Hr') as [Hf1 Hw1].
    split; [done|]. apply decomp_loop_fuel; try done; lia.
Qed.

(** An output that stops at once. *)
Definition stopper : JpegOutput nat :=
  {| owrite o jd origin size pixels := (false, S o) |}.

Lemma jpeg_decomp_resume_witness :
  ∃ jd1 i1 o1, @decomp _ _ _ stopper sample_jdec sample_open.2 0%nat = (Err Interrupted, jd1, i1, o1) ∧
    ready jd1 ∧
    @decomp _ _ _ (@uninterrupted _ stopper) sample_jdec sample_open.2 0%nat =
    @decomp _ _ _ (@uninterrupted _ stopper) jd1 i1 o1.
Proof.
  destruct (@decomp _ _ _ stopper sample_jdec sample_open.2 0%nat) as [[[r jd1] i1] o1] eqn:E.
  assert (r = Err Interrupted) as Hr.
  { change r with (r, jd1, i1, o1).1.1.1. rewrite <- E. vm_compute. reflexivity. }
  exists jd1, i1, o1. split; [by rewrite Hr|].
  apply (@jpeg_decomp_resume _ _ _ stopper sample_jdec jd1 sample_open.2 i1 0%nat o1 sample_ready).
  rewrite E, Hr. reflexivity.
Defined.

(** C18. A successful decoding from the start hands out a tiling of the scaled
    image: no rectangle twice, and the pixels that belong to the image are
    exactly those that lie in one rectangle, and in no other. *)
Theorem jpeg_decomp_tiles {IN} `{JpegInput IN} jd (i : IN) :
  ready jd → next_mcu jd = (0, 0) → 0 <= height jd →
  (@decomp IN _ _ recorder jd i []).1.1.1 = Ok tt →
  let tiles := (@decomp IN _ _ recorder jd i []).2 in
  NoDup tiles ∧ ∀ px py, 0 <= px → 0 <= py →
    (px < Z.shiftr (width jd) (scale jd) ∧ py < Z.shiftr (height jd) (scale jd) ↔
     ∃ r, r ∈ tiles ∧ covers r px py ∧ ∀ r', r' ∈ tiles → covers r' px py → r' = r).
Proof.
  intros Hr Hp Hh Hok tiles. pose proof Hr as [Hj Hsc Hx Hy Hw Hh'].
  pose proof (decomp_loop_recorded (S (Z.to_nat (width jd * height jd))) jd i [] Hr) as Hl.
  fold (@decomp IN _ _ recorder jd i []) in Hl.
  destruct (@decomp IN _ _ recorder jd i []) as [[[r jd'] i'] log] eqn:E. cbn [fst snd] in Hok.
  unfold tiles. cbn [snd]. rewrite (Hl Hok), Hp. cbn [app].
  apply tiles_cover; [apply Hj|done|lia|lia|lia].
Qed.

Lemma jpeg_decomp_tiles_witness :
  let tiles := (@decomp _ _ _ recorder sample_jdec sample_open.2 []).2 in
  NoDup tiles ∧ ∀ px py, 0 <= px → 0 <= py →
    (px < Z.shiftr (width sample_jdec) (scale sample_jdec) ∧
     py < Z.shiftr (height sample_jdec) (scale sample_jdec) ↔
     ∃ r, r ∈ tiles ∧ covers r px py ∧ ∀ r', r' ∈ tiles → covers r' px py → r' = r).
Proof.
  apply (jpeg_decomp_tiles sample_jdec sample_open.2 sample_ready); vm_compute; [reflexivity|discriminate|reflexivity].
Defined.
