(* ===== verification/Geometry.v ===== *)
(** * Geometry

    [ui/geometry.rs]: offsets, points, rectangles and the arrangements built
    on them.  Coordinates are [i16] and all arithmetic wraps around, as in a
    release build; conversions to and from [f32] are not modelled. *)
From S2P Require Import Prelude.
Local Open Scope Z_scope.

(** [a / b] and [a % b] on [i16]: dividing by zero aborts, and so does the one
    quotient that does not fit. *)
Definition div16 {E} (a b : Z) : outcome E Z :=
  if (b =? 0) || ((b =? -1) && (a =? -32768)) then Panic else Ok (Z.quot a b).
Definition rem16 {E} (a b : Z) : outcome E Z :=
  if (b =? 0) || ((b =? -1) && (a =? -32768)) then Panic else Ok (Z.rem a b).

(* src: ui/geometry.rs 4-10 (min) *)
Definition min (a b : Z) : Z := if a <? b then a else b.

(* src: ui/geometry.rs 12-18 (max) *)
Definition max (a b : Z) : Z := if b <? a then a else b.

(* src: ui/geometry.rs 20-28 (clamp) *)
Definition clamp (x lo hi : Z) : Z := if x <? lo then lo else if hi <? x then hi else x.

(** ** Axes and alignments *)

(* src: ui/geometry.rs 581-585 (Axis) *)
Inductive Axis := Horizontal | Vertical.

(* src: ui/geometry.rs 588-593 (Axis::main) *)
Definition axis_main {A} (self : Axis) (x y : A) : A :=
  match self with Horizontal => x | Vertical => y end.

(* src: ui/geometry.rs 595-600 (Axis::cross) *)
Definition cross (self : Axis) : Axis :=
  match self with Horizontal => Vertical | Vertical => Horizontal end.

(* src: ui/geometry.rs 559-564 (Alignment) *)
Inductive Alignment := Start | Center | End_.

(* src: ui/geometry.rs 566-567 (Alignment2D) *)
Definition Alignment2D : Type := Alignment * Alignment.

(** ** Offsets *)

(* src: ui/geometry.rs 33-37 (Offset) *)
Record Offset := mkOffset { ox : Z; oy : Z }.

(* src: ui/geometry.rs 44-46 (Offset::uniform) *)
Definition offset_uniform (a : Z) : Offset := mkOffset a a.

(* src: ui/geometry.rs 48-50 (Offset::zero) *)
Definition offset_zero : Offset := mkOffset 0 0.

(* src: ui/geometry.rs 52-54 (Offset::x) *)
Definition offset_x (x : Z) : Offset := mkOffset x 0.

(* src: ui/geometry.rs 56-58 (Offset::y) *)
Definition offset_y (y : Z) : Offset := mkOffset 0 y.

(* src: ui/geometry.rs 60-65 (Offset::on_axis) *)
Definition on_axis (axis : Axis) (a : Z) : Offset :=
  match axis with Horizontal => mkOffset a 0 | Vertical => mkOffset 0 a end.

(* src: ui/geometry.rs 67-72 (Offset::axis) *)
Definition offset_axis (self : Offset) (axis : Axis) : Z :=
  match axis with Horizontal => ox self | Vertical => oy self end.

(* src: ui/geometry.rs 74-76 (Offset::abs) *)
Definition offset_abs (self : Offset) : Offset := mkOffset (i16 (Z.abs (ox self))) (i16 (Z.abs (oy self))).

(* src: ui/geometry.rs 94-96 (Offset::neg) *)
Definition offset_neg (self : Offset) : Offset := mkOffset (i16 (- ox self)) (i16 (- oy self)).

(* src: ui/geometry.rs 98-100 (Offset::add) *)
Definition offset_add (self rhs : Offset) : Offset :=
  mkOffset (i16 (ox self + ox rhs)) (i16 (oy self + oy rhs)).

(* src: ui/geometry.rs 102-104 (Offset::sub) *)
Definition offset_sub (self rhs : Offset) : Offset := offset_add self (offset_neg rhs).

(** ** Points *)

(* src: ui/geometry.rs 157-161 (Point) *)
Record Point := mkPoint { px : Z; py : Z }.

(* src: ui/geometry.rs 168-170 (Point::zero) *)
Definition point_zero : Point := mkPoint 0 0.

(* src: ui/geometry.rs 172-174 (Point::center) *)
Definition point_center (self rhs : Point) : Point :=
  mkPoint (Z.quot (i16 (px self + px rhs)) 2) (Z.quot (i16 (py self + py rhs)) 2).

(* src: ui/geometry.rs 176-178 (Point::ofs) *)
Definition ofs (self : Point) (rhs : Offset) : Point :=
  mkPoint (i16 (px self + ox rhs)) (i16 (py self + oy rhs)).

(* src: ui/geometry.rs 180-182 (Point::sub) *)
Definition point_sub (self rhs : Point) : Offset :=
  mkOffset (i16 (px self - px rhs)) (i16 (py self - py rhs)).

(* src: ui/geometry.rs 193-199 (Sub<Offset> for Point) *)
Definition point_sub_offset (self : Point) (rhs : Offset) : Point := ofs self (offset_neg rhs).

(* src: ui/geometry.rs 209-218 (Neg for Point) *)
Definition point_neg (self : Point) : Point := mkPoint (i16 (- px self)) (i16 (- py self)).

(** How far the aligned corner is from the point. *)
Definition align_off (a : Alignment) (size : Z) : Z :=
  match a with Start => 0 | Center => Z.quot size 2 | End_ => size end.

(* src: ui/geometry.rs 80-92 (Offset::snap) *)
Definition offset_snap (self : Offset) (point : Point) (alignment : Alignment2D) : Point :=
  let x_off := align_off (fst alignment) (ox self) in
  let y_off := align_off (snd alignment) (oy self) in
  ofs point (mkOffset (i16 (- x_off)) (i16 (- y_off))).

(** ** Rectangles *)

(* src: ui/geometry.rs 236-242 (Rect) *)
Record Rect := mkRect { x0 : Z; y0 : Z; x1 : Z; y1 : Z }.

(* src: ui/geometry.rs 516-522 (Insets) *)
Record Insets := mkInsets { top : Z; right : Z; bottom : Z; left : Z }.

(* src: ui/geometry.rs 534-536 (Insets::uniform) *)
Definition insets_uniform (d : Z) : Insets := mkInsets d d d d.

(* src: ui/geometry.rs 538-540 (Insets::top) *)
Definition insets_top (d : Z) : Insets := mkInsets d 0 0 0.

(* src: ui/geometry.rs 542-544 (Insets::right) *)
Definition insets_right (d : Z) : Insets := mkInsets 0 d 0 0.

(* src: ui/geometry.rs 546-548 (Insets::bottom) *)
Definition insets_bottom (d : Z) : Insets := mkInsets 0 0 d 0.

(* src: ui/geometry.rs 550-552 (Insets::left) *)
Definition insets_left (d : Z) : Insets := mkInsets 0 0 0 d.

(* src: ui/geometry.rs 554-556 (Insets::sides) *)
Definition insets_sides (d : Z) : Insets := mkInsets 0 d 0 d.

(* src: ui/geometry.rs 245-252 (Rect::new) *)
Definition rect_new (p0 p1 : Point) : Rect := mkRect (px p0) (py p0) (px p1) (py p1).

(* src: ui/geometry.rs 254-256 (Rect::zero) *)
Definition rect_zero : Rect := rect_new point_zero point_zero.

(* src: ui/geometry.rs 264-271 (Rect::from_top_left_and_size) *)
Definition from_top_left_and_size (p0 : Point) (size : Offset) : Rect :=
  mkRect (px p0) (py p0) (i16 (px p0 + ox size)) (i16 (py p0 + oy size)).

(* src: ui/geometry.rs 260-262 (Rect::snap) *)
Definition rect_snap (point : Point) (size : Offset) (alignment : Alignment2D) : Rect :=
  from_top_left_and_size (offset_snap size point alignment) size.

(* src: ui/geometry.rs 273-275 (Rect::from_size) *)
Definition from_size (size : Offset) : Rect := from_top_left_and_size point_zero size.

(* src: ui/geometry.rs 277-280 (Rect::from_top_right_and_size) *)
Definition from_top_right_and_size (p0 : Point) (size : Offset) : Rect :=
  from_top_left_and_size (mkPoint (i16 (px p0 - ox size)) (py p0)) size.

(* src: ui/geometry.rs 282-285 (Rect::from_bottom_left_and_size) *)
Definition from_bottom_left_and_size (p0 : Point) (size : Offset) : Rect :=
  from_top_left_and_size (mkPoint (px p0) (i16 (py p0 - oy size))) size.

(* src: ui/geometry.rs 287-290 (Rect::from_bottom_right_and_size) *)
Definition from_bottom_right_and_size (p0 : Point) (size : Offset) : Rect :=
  from_top_left_and_size (mkPoint (i16 (px p0 - ox size)) (i16 (py p0 - oy size))) size.

(* src: ui/geometry.rs 292-299 (Rect::from_center_and_size) *)
Definition from_center_and_size (p : Point) (size : Offset) : Rect :=
  let x0 := i16 (px p - Z.quot (ox size) 2) in
  let y0 := i16 (py p - Z.quot (oy size) 2) in
  mkRect x0 y0 (i16 (x0 + ox size)) (i16 (y0 + oy size)).

(* src: ui/geometry.rs 317-319 (Rect::width) *)
Definition rect_width (self : Rect) : Z := i16 (x1 self - x0 self).

(* src: ui/geometry.rs 321-323 (Rect::height) *)
Definition rect_height (self : Rect) : Z := i16 (y1 self - y0 self).

(* src: ui/geometry.rs 325-327 (Rect::size) *)
Definition rect_size (self : Rect) : Offset := mkOffset (rect_width self) (rect_height self).

(* src: ui/geometry.rs 329-331 (Rect::top_left) *)
Definition top_left (self : Rect) : Point := mkPoint (x0 self) (y0 self).

(* src: ui/geometry.rs 333-335 (Rect::top_right) *)
Definition top_right (self : Rect) : Point := mkPoint (x1 self) (y0 self).

(* src: ui/geometry.rs 337-339 (Rect::bottom_left) *)
Definition bottom_left (self : Rect) : Point := mkPoint (x0 self) (y1 self).

(* src: ui/geometry.rs 341-343 (Rect::bottom_right) *)
Definition bottom_right (self : Rect) : Point := mkPoint (x1 self) (y1 self).

(* src: ui/geometry.rs 301-303 (Rect::with_top_left) *)
Definition with_top_left (self : Rect) (p0 : Point) : Rect := from_top_left_and_size p0 (rect_size self).

(* src: ui/geometry.rs 305-307 (Rect::with_size) *)
Definition with_size (self : Rect) (size : Offset) : Rect := from_top_left_and_size (top_left self) size.

(* src: ui/geometry.rs 309-311 (Rect::with_width) *)
Definition with_width (self : Rect) (width : Z) : Rect := with_size self (mkOffset width (rect_height self)).

(* src: ui/geometry.rs 313-315 (Rect::with_height) *)
Definition with_height (self : Rect) (height : Z) : Rect := with_size self (mkOffset (rect_width self) height).

(* src: ui/geometry.rs 345-347 (Rect::center) *)
Definition rect_center (self : Rect) : Point := point_center (top_left self) (bottom_right self).

(* src: ui/geometry.rs 349-351 (Rect::top_center) *)
Definition top_center (self : Rect) : Point := point_center (top_left self) (top_right self).

(* src: ui/geometry.rs 353-355 (Rect::bottom_center) *)
Definition bottom_center (self : Rect) : Point := point_center (bottom_left self) (bottom_right self).

(* src: ui/geometry.rs 357-359 (Rect::left_center) *)
Definition left_center (self : Rect) : Point := point_center (bottom_left self) (top_left self).

(* src: ui/geometry.rs 361-363 (Rect::right_center) *)
Definition right_center (self : Rect) : Point := point_center (bottom_right self) (top_right self).

(* src: ui/geometry.rs 369-371 (Rect::is_empty) *)
Definition is_empty (self : Rect) : bool := (x1 self <=? x0 self) || (y1 self <=? y0 self).

(* src: ui/geometry.rs 374-376 (Rect::contains) *)
Definition contains (self : Rect) (point : Point) : bool :=
  (x0 self <=? px point) && (px point <? x1 self) && (y0 self <=? py point) && (py point <? y1 self).

(* src: ui/geometry.rs 379-386 (Rect::union) *)
Definition rect_union (self other : Rect) : Rect :=
  mkRect (min (x0 self) (x0 other)) (min (y0 self) (y0 other))
    (max (x1 self) (x1 other)) (max (y1 self) (y1 other)).

(* src: ui/geometry.rs 390-397 (Rect::inset) *)
Definition inset (self : Rect) (insets : Insets) : Rect :=
  mkRect (i16 (x0 self + left insets)) (i16 (y0 self + top insets))
    (i16 (x1 self - right insets)) (i16 (y1 self - bottom insets)).

(* src: ui/geometry.rs 399-406 (Rect::outset) *)
Definition outset (self : Rect) (insets : Insets) : Rect :=
  mkRect (i16 (x0 self - left insets)) (i16 (y0 self - top insets))
    (i16 (x1 self + right insets)) (i16 (y1 self + bottom insets)).

(* src: ui/geometry.rs 409-411 (Rect::expand) *)
Definition expand (self : Rect) (size : Z) : Rect := outset self (insets_uniform size).

(* src: ui/geometry.rs 414-416 (Rect::shrink) *)
Definition shrink (self : Rect) (size : Z) : Rect := inset self (insets_uniform size).

(* src: ui/geometry.rs 419-431 (Rect::split_top) *)
Definition split_top (self : Rect) (height : Z) : Rect * Rect :=
  let height := clamp height 0 (rect_height self) in
  (mkRect (x0 self) (y0 self) (x1 self) (i16 (y0 self + height)),
   mkRect (x0 self) (i16 (y0 self + height)) (x1 self) (y1 self)).

(* src: ui/geometry.rs 434-436 (Rect::split_bottom) *)
Definition split_bottom (self : Rect) (height : Z) : Rect * Rect :=
  split_top self (i16 (rect_height self - height)).

(* src: ui/geometry.rs 439-451 (Rect::split_left) *)
Definition split_left (self : Rect) (width : Z) : Rect * Rect :=
  let width := clamp width 0 (rect_width self) in
  (mkRect (x0 self) (y0 self) (i16 (x0 self + width)) (y1 self),
   mkRect (i16 (x0 self + width)) (y0 self) (x1 self) (y1 self)).

(* src: ui/geometry.rs 454-456 (Rect::split_right) *)
Definition split_right (self : Rect) (width : Z) : Rect * Rect :=
  split_left self (i16 (rect_width self - width)).

(* src: ui/geometry.rs 462-467 (Rect::split_center) *)
Definition split_center (self : Rect) (width : Z) : Rect * Rect * Rect :=
  let left_right_width := Z.quot (i16 (rect_width self - width)) 2 in
  let '(left, center_right) := split_left self left_right_width in
  let '(center, right) := split_left center_right width in
  (left, center, right).

(* src: ui/geometry.rs 478-485 (Rect::clamp) *)
Definition rect_clamp (self limit : Rect) : Rect :=
  mkRect (max (x0 self) (x0 limit)) (max (y0 self) (y0 limit))
    (min (x1 self) (x1 limit)) (min (y1 self) (y1 limit)).

(* src: ui/geometry.rs 487-493 (Rect::ensure_even_width) *)
Definition ensure_even_width (self : Rect) : Rect :=
  if Z.rem (rect_width self) 2 =? 0 then self
  else with_size self (mkOffset (i16 (ox (rect_size self) - 1)) (oy (rect_size self))).

(* src: ui/geometry.rs 496-503 (Rect::translate) *)
Definition translate (self : Rect) (offset : Offset) : Rect :=
  mkRect (i16 (x0 self + ox offset)) (i16 (y0 self + oy offset))
    (i16 (x1 self + ox offset)) (i16 (y1 self + oy offset)).

(* src: ui/geometry.rs 506-513 (Rect::corner_points) *)
Definition corner_points (self : Rect) : list Point :=
  [top_left self; point_sub_offset (top_right self) (offset_x 1);
   point_sub_offset (bottom_right self) (offset_uniform 1);
   point_sub_offset (bottom_left self) (offset_y 1)].

(** ** Grids *)

(* src: ui/geometry.rs 603-612 (Grid) *)
Record Grid := mkGrid { rows : Z; cols : Z; grid_spacing : Z; grid_area : Rect }.

(* src: ui/geometry.rs 615-622 (Grid::new) *)
Definition grid_new (area : Rect) (rows cols : Z) : Grid := mkGrid rows cols 0 area.

(* src: ui/geometry.rs 624-626 (Grid::with_spacing) *)
Definition grid_with_spacing (self : Grid) (spacing : Z) : Grid :=
  mkGrid (rows self) (cols self) spacing (grid_area self).

(** One axis of [row_col]: the start and the size of cell [k] of [n] on an axis
    of the given size from [origin]; the pixels left over go to the first
    cells. *)
Definition grid_axis (spacing origin size n k : Z) : outcome Empty_set (Z * Z) :=
  let k := min k (i16 (n - 1)) in
  let spacing_sum := i16 (spacing * i16 (n - 1)) in
  cell ← div16 (i16 (size - spacing_sum)) n;
  leftover ← rem16 (i16 (size - spacing_sum)) n;
  let start := i16 (origin + i16 (k * i16 (cell + spacing))) in
  let start := i16 (start + min leftover k) in
  Ok (start, if k <? leftover then i16 (cell + 1) else cell).

(* src: ui/geometry.rs 628-666 (Grid::row_col) *)
Definition row_col (self : Grid) (row col : Z) : outcome Empty_set Rect :=
  let area := grid_area self in
  '(x, w) ← grid_axis (grid_spacing self) (x0 area) (rect_width area) (i16 (cols self)) (i16 col);
  '(y, h) ← grid_axis (grid_spacing self) (y0 area) (rect_height area) (i16 (rows self)) (i16 row);
  Ok (from_top_left_and_size (mkPoint x y) (mkOffset w h)).

(* src: ui/geometry.rs 668-670 (Grid::cell) *)
Definition cell (self : Grid) (index : Z) : outcome Empty_set Rect :=
  if cols self =? 0 then Panic
  else row_col self (index / cols self) (index `mod` cols self).

(* src: ui/geometry.rs 679-683 (GridCellSpan) *)
Record GridCellSpan := mkSpan { span_from : Z * Z; span_to : Z * Z }.

(* src: ui/geometry.rs 672-676 (Grid::cells) *)
Definition cells (self : Grid) (span : GridCellSpan) : outcome Empty_set Rect :=
  from ← row_col self (fst (span_from span)) (snd (span_from span));
  to ← row_col self (fst (span_to span)) (snd (span_to span));
  Ok (rect_union from to).

(** ** Linear placement *)

(* src: ui/geometry.rs 685-690 (LinearPlacement) *)
Record LinearPlacement := mkPlacement { axis : Axis; align : Alignment; spacing : Z }.

(* src: ui/geometry.rs 693-699 (LinearPlacement::new) *)
Definition placement_new (axis : Axis) : LinearPlacement := mkPlacement axis Start 0.

(* src: ui/geometry.rs 701-703 (LinearPlacement::horizontal) *)
Definition horizontal : LinearPlacement := placement_new Horizontal.

(* src: ui/geometry.rs 705-707 (LinearPlacement::vertical) *)
Definition vertical : LinearPlacement := placement_new Vertical.

(* src: ui/geometry.rs 709-714 (LinearPlacement::align_at_start) *)
Definition align_at_start (self : LinearPlacement) : LinearPlacement :=
  mkPlacement (axis self) Start (spacing self).

(* src: ui/geometry.rs 716-721 (LinearPlacement::align_at_center) *)
Definition align_at_center (self : LinearPlacement) : LinearPlacement :=
  mkPlacement (axis self) Center (spacing self).

(* src: ui/geometry.rs 723-728 (LinearPlacement::align_at_end) *)
Definition align_at_end (self : LinearPlacement) : LinearPlacement :=
  mkPlacement (axis self) End_ (spacing self).

(* src: ui/geometry.rs 730-732 (LinearPlacement::with_spacing) *)
Definition with_spacing (self : LinearPlacement) (spacing : Z) : LinearPlacement :=
  mkPlacement (axis self) (align self) spacing.

(** The first cursor and the spacing. *)

(* src: ui/geometry.rs 777-799 (LinearPlacement::compute_spacing) *)
Definition compute_spacing (self : LinearPlacement) (area : Rect) (count size_sum : Z) : Z * Z :=
  let spacing_count := i16 (Z.max 0 (count - 1)) in
  let spacing_sum := i16 (spacing_count * spacing self) in
  let naive_size := i16 (size_sum + spacing_sum) in
  let available_space := offset_axis (rect_size area) (axis self) in
  let '(total_size, spacing) :=
    if available_space <? naive_size then
      let scaled_space := Z.quot (i16 (available_space - size_sum)) (max spacing_count 1) in
      (available_space, max scaled_space 0)
    else (naive_size, spacing self) in
  let initial_cursor := match align self with
    | Start => 0
    | Center => i16 (Z.quot available_space 2 - Z.quot total_size 2)
    | End_ => i16 (available_space - total_size)
    end in
  (initial_cursor, spacing).

(** Components that are moved into an area. *)

(* src: ui/geometry.rs 802-806 (Dimensions) *)
Class Dimensions (I : Type) := {
  fit : I → Rect → I;
  area : I → Rect;
}.

Section Arrange.
Context {I : Type} `{Dimensions I}.

(** The items in turn, from the cursor. *)

(* src: ui/geometry.rs 743-749 (LinearPlacement::arrange) *)
Fixpoint arrange_loop (axis : Axis) (origin : Point) (spacing cursor : Z) (items : list I) : list I :=
  match items with
  | [] => []
  | item :: items =>
    let item_origin := ofs origin (on_axis axis cursor) in
    let item_area := with_top_left (area item) item_origin in
    let cursor := i16 (i16 (cursor + offset_axis (rect_size item_area) axis) + spacing) in
    fit item item_area :: arrange_loop axis origin spacing cursor items
  end.

(* src: ui/geometry.rs 736-750 (LinearPlacement::arrange) *)
Definition arrange (self : LinearPlacement) (bounds : Rect) (items : list I) : list I :=
  let size_sum := foldl (λ s item, i16 (s + offset_axis (rect_size (area item)) (axis self))) 0 items in
  let '(cursor, spacing) := compute_spacing self bounds (len items) size_sum in
  arrange_loop (axis self) (top_left bounds) spacing cursor items.

End Arrange.

(** The points that the closure gets. *)

(* src: ui/geometry.rs 766-774 (LinearPlacement::arrange_uniform) *)
Fixpoint uniform_loop (n : nat) (axis : Axis) (origin : Point) (cross_coord item_size spacing cursor : Z)
    : list Point :=
  match n with
  | O => []
  | S n =>
    ofs (ofs origin (on_axis axis cursor)) (on_axis (cross axis) cross_coord) ::
    uniform_loop n axis origin cross_coord item_size spacing (i16 (i16 (cursor + item_size) + spacing))
  end.

(* src: ui/geometry.rs 755-775 (LinearPlacement::arrange_uniform) *)
Definition arrange_uniform (self : LinearPlacement) (bounds : Rect) (count : Z) (size : Offset) : list Point :=
  let item_size := offset_axis size (axis self) in
  let '(cursor, spacing) := compute_spacing self bounds count (i16 (i16 count * item_size)) in
  let cross_coord := i16 (Z.quot (offset_axis (rect_size bounds) (cross (axis self))) 2
                          - Z.quot (offset_axis size (cross (axis self))) 2) in
  uniform_loop (Z.to_nat count) (axis self) (top_left bounds) cross_coord item_size spacing cursor.
