(* ===== verification/GeometrySpec.v ===== *)
(** * Properties of the geometry

    Rectangles as sets of pixels: intersection, union and splitting; grids and
    linear placement keep their parts apart and inside the area. *)
From S2P Require Import Prelude Geometry.
Local Open Scope Z_scope.

(** A rectangle whose size is not negative and does not wrap around. *)
Definition rect_fits (r : Rect) : Prop :=
  in_s 16 (x0 r) ∧ in_s 16 (y0 r) ∧ in_s 16 (x1 r) ∧ in_s 16 (y1 r) ∧
  0 <= x1 r - x0 r < 2 ^ 15 ∧ 0 <= y1 r - y0 r < 2 ^ 15.

#[export] Instance rect_fits_dec r : Decision (rect_fits r).
Proof. unfold rect_fits. apply _. Defined.

Lemma i16_small z : - 32768 <= z < 32768 → i16 z = z.
Proof. intros Hz. apply wraps_small; [lia|]. unfold in_s. lia. Qed.

Lemma i16_range z : - 32768 <= i16 z < 32768.
Proof. pose proof (wraps_range 16 z ltac:(lia)). unfold in_s, i16 in *. lia. Qed.

Lemma rect_fits_size r :
  rect_fits r → rect_width r = x1 r - x0 r ∧ rect_height r = y1 r - y0 r.
Proof. intros (?&?&?&?&?&?). unfold rect_width, rect_height. rewrite !i16_small by lia. done. Qed.

Lemma min_spec a b : min a b = Z.min a b.
Proof. unfold min. destruct (Z.ltb_spec a b); lia. Qed.

Lemma max_spec a b : max a b = Z.max a b.
Proof. unfold max. destruct (Z.ltb_spec b a); lia. Qed.

Lemma clamp_range x hi : 0 <= hi → 0 <= clamp x 0 hi <= hi.
Proof. unfold clamp. destruct (Z.ltb_spec x 0), (Z.ltb_spec hi x); lia. Qed.

Lemma contains_spec r p : contains r p = true ↔ x0 r <= px p < x1 r ∧ y0 r <= py p < y1 r.
Proof. unfold contains. rewrite !andb_true_iff, !Z.leb_le, !Z.ltb_lt. lia. Qed.

Lemma is_empty_spec r : is_empty r = true ↔ x1 r <= x0 r ∨ y1 r <= y0 r.
Proof. unfold is_empty. rewrite orb_true_iff, !Z.leb_le. done. Qed.

Ltac pixels := repeat (rewrite ?andb_true_iff, ?orb_true_iff in *; rewrite contains_spec in *).

(** ** Rectangles as sets of pixels *)

(** Rectangles behave as sets of pixels, with empty ones of any negative
    size: a rectangle is empty when no pixel is in it; [clamp] is the
    intersection; [union] is the smallest rectangle around two nonempty ones;
    and moving a rectangle moves its pixels, as long as no coordinate wraps
    around. *)
Theorem rect_regions a b :
  (is_empty a = true ↔ ∀ p, contains a p = false) ∧
  (∀ p, contains (rect_clamp a b) p = contains a p && contains b p) ∧
  (∀ p, contains a p = true ∨ contains b p = true → contains (rect_union a b) p = true) ∧
  (∀ c, is_empty a = false → is_empty b = false →
     (∀ p, contains a p = true ∨ contains b p = true → contains c p = true) →
     ∀ p, contains (rect_union a b) p = true → contains c p = true) ∧
  (∀ o p, let moved := mkRect (x0 a + ox o) (y0 a + oy o) (x1 a + ox o) (y1 a + oy o) in
     rect_fits moved → in_s 16 (px p + ox o) → in_s 16 (py p + oy o) →
     contains (translate a o) (ofs p o) = contains a p).
Proof.
  split_and!.
  - rewrite is_empty_spec. split.
    + intros He p. apply not_true_iff_false. rewrite contains_spec. lia.
    + intros Hn. specialize (Hn (mkPoint (x0 a) (y0 a))). apply not_true_iff_false in Hn.
      rewrite contains_spec in Hn. simpl in Hn. lia.
  - intros p. apply eq_bool_prop_intro. rewrite !Is_true_true, andb_true_iff, !contains_spec.
    unfold rect_clamp. cbn [x0 y0 x1 y1]. rewrite !min_spec, !max_spec. lia.
  - intros p. rewrite !contains_spec. unfold rect_union. cbn [x0 y0 x1 y1]. rewrite !min_spec, !max_spec. lia.
  - intros c Ha Hb Hc p. apply not_true_iff_false in Ha, Hb. rewrite is_empty_spec in Ha, Hb.
    assert (∀ r, (∀ q, contains r q = true → contains c q = true) → ¬ (x1 r <= x0 r ∨ y1 r <= y0 r) →
      x0 c <= x0 r ∧ x1 r <= x1 c ∧ y0 c <= y0 r ∧ y1 r <= y1 c) as Hbox.
    { intros r Hr Hne. pose proof (Hr (mkPoint (x0 r) (y0 r))) as H1.
      pose proof (Hr (mkPoint (x1 r - 1) (y1 r - 1))) as H2. rewrite !contains_spec in H1, H2.
      cbn [px py] in *. lia. }
    pose proof (Hbox a ltac:(auto) Ha). pose proof (Hbox b ltac:(auto) Hb).
    rewrite !contains_spec. unfold rect_union. cbn [x0 y0 x1 y1]. rewrite !min_spec, !max_spec. lia.
  - intros o p moved (?&?&?&?&_) Hx Hy. unfold in_s in *. cbn [x0 y0 x1 y1 moved] in *.
    apply eq_bool_prop_intro. rewrite !Is_true_true, !contains_spec. unfold translate, ofs.
    cbn [x0 y0 x1 y1 px py]. rewrite !i16_small by lia. lia.
Qed.

Lemma rect_regions_witness :
  contains (rect_clamp (mkRect 0 0 10 10) (mkRect 5 5 20 20)) (mkPoint 7 8) = true.
Proof.
  rewrite (proj1 (proj2 (rect_regions (mkRect 0 0 10 10) (mkRect 5 5 20 20))) (mkPoint 7 8)).
  reflexivity.
Defined.

(** ** Splitting *)

(** Every pixel of the rectangle is in exactly one part, and no other pixel is
    in any. *)
Definition partition_of (r : Rect) (parts : list Rect) : Prop :=
  ∀ p, foldr (λ q n, (if contains q p then 1 else 0) + n) 0 parts = if contains r p then 1 else 0.

Lemma contains_if r p (a b : Z) : (if contains r p then a else b) =
  if decide (x0 r <= px p < x1 r ∧ y0 r <= py p < y1 r) then a else b.
Proof.
  destruct (contains r p) eqn:E; destruct (decide _) as [Hd|Hd]; try done.
  - by apply contains_spec in E.
  - apply contains_spec in Hd. congruence.
Qed.

Lemma split_left_partition r w : rect_fits r →
  let '(a, b) := split_left r w in partition_of r [a; b] ∧ rect_fits a ∧ rect_fits b ∧
    rect_width a = clamp w 0 (x1 r - x0 r) ∧ rect_width b = x1 r - x0 r - clamp w 0 (x1 r - x0 r).
Proof.
  intros Hr. pose proof (rect_fits_size r Hr) as [Hw Hh]. unfold split_left. rewrite Hw.
  destruct Hr as (?&?&?&?&?&?). unfold in_s in *.
  pose proof (clamp_range w (x1 r - x0 r) ltac:(lia)). set (c := clamp _ _ _) in *. clearbody c.
  rewrite i16_small by lia.
  assert (rect_fits (mkRect (x0 r) (y0 r) (x0 r + c) (y1 r)) ∧ rect_fits (mkRect (x0 r + c) (y0 r) (x1 r) (y1 r)))
    as [Ha Hb] by (unfold rect_fits, in_s; simpl; lia).
  split; [|split; [done|]; split; [done|];
    rewrite (proj1 (rect_fits_size _ Ha)), (proj1 (rect_fits_size _ Hb)); simpl; lia].
  intros p. cbn [foldr]. rewrite !contains_if. cbn [x0 y0 x1 y1]. repeat case_decide; lia.
Qed.

Lemma split_top_partition r h : rect_fits r →
  let '(a, b) := split_top r h in partition_of r [a; b] ∧ rect_fits a ∧ rect_fits b ∧
    rect_height a = clamp h 0 (y1 r - y0 r) ∧ rect_height b = y1 r - y0 r - clamp h 0 (y1 r - y0 r).
Proof.
  intros Hr. pose proof (rect_fits_size r Hr) as [Hw Hh]. unfold split_top. rewrite Hh.
  destruct Hr as (?&?&?&?&?&?). unfold in_s in *.
  pose proof (clamp_range h (y1 r - y0 r) ltac:(lia)). set (c := clamp _ _ _) in *. clearbody c.
  rewrite i16_small by lia.
  assert (rect_fits (mkRect (x0 r) (y0 r) (x1 r) (y0 r + c)) ∧ rect_fits (mkRect (x0 r) (y0 r + c) (x1 r) (y1 r)))
    as [Ha Hb] by (unfold rect_fits, in_s; simpl; lia).
  split; [|split; [done|]; split; [done|];
    rewrite (proj2 (rect_fits_size _ Ha)), (proj2 (rect_fits_size _ Hb)); simpl; lia].
  intros p. cbn [foldr]. rewrite !contains_if. cbn [x0 y0 x1 y1]. repeat case_decide; lia.
Qed.

Lemma partition_cons r a b b1 b2 :
  partition_of r [a; b] → partition_of b [b1; b2] → partition_of r [a; b1; b2].
Proof. intros H1 H2 p. specialize (H1 p). specialize (H2 p). cbn [foldr] in *. lia. Qed.

(** Splitting a rectangle is a partition of its pixels, whatever size is
    asked for: from the left, the right, the top, the bottom, and in three
    with a centre; the parts have the sizes asked for when these fit, and the
    right part of three is at most one pixel wider than the left one. *)
Theorem rect_splits r n :
  rect_fits r → in_s 16 n →
  (let '(a, b) := split_left r n in partition_of r [a; b] ∧ (0 <= n <= rect_width r → rect_width a = n)) ∧
  (let '(a, b) := split_right r n in partition_of r [a; b] ∧ (0 <= n <= rect_width r → rect_width b = n)) ∧
  (let '(a, b) := split_top r n in partition_of r [a; b] ∧ (0 <= n <= rect_height r → rect_height a = n)) ∧
  (let '(a, b) := split_bottom r n in partition_of r [a; b] ∧ (0 <= n <= rect_height r → rect_height b = n)) ∧
  (let '(a, b, c) := split_center r n in partition_of r [a; b; c] ∧
     (0 <= n <= rect_width r → rect_width b = n ∧ rect_width a <= rect_width c <= rect_width a + 1)).
Proof.
  intros Hr Hn. pose proof (rect_fits_size r Hr) as [Hw Hh]. unfold split_right, split_bottom, split_center.
  assert (∀ m hi, 0 <= m <= hi → clamp m 0 hi = m) as Hc.
  { intros m hi Hm. unfold clamp. destruct (Z.ltb_spec m 0), (Z.ltb_spec hi m); lia. }
  rewrite Hw, Hh. pose proof Hr as (_&_&_&_&?&?).
  split_and!.
  - pose proof (split_left_partition r n Hr) as Hs. destruct (split_left r n) as [a b].
    destruct Hs as (Hp & _ & _ & Ha & _). split; [done|]. intros. rewrite Ha. by apply Hc.
  - pose proof (split_left_partition r (i16 (x1 r - x0 r - n)) Hr) as Hs.
    destruct (split_left r _) as [a b]. destruct Hs as (Hp & _ & _ & _ & Hb). split; [done|].
    intros. rewrite Hb, i16_small, Hc by lia. lia.
  - pose proof (split_top_partition r n Hr) as Hs. destruct (split_top r n) as [a b].
    destruct Hs as (Hp & _ & _ & Ha & _). split; [done|]. intros. rewrite Ha. by apply Hc.
  - pose proof (split_top_partition r (i16 (y1 r - y0 r - n)) Hr) as Hs.
    destruct (split_top r _) as [a b]. destruct Hs as (Hp & _ & _ & _ & Hb). split; [done|].
    intros. rewrite Hb, i16_small, Hc by lia. lia.
  - set (m := Z.quot _ 2). pose proof (split_left_partition r m Hr) as Hs.
    destruct (split_left r m) as [a b]. destruct Hs as (Hp & Ha & Hb & Hwa & Hwb).
    pose proof (split_left_partition b n Hb) as Hs'. destruct (split_left b n) as [b1 b2].
    destruct Hs' as (Hp' & _ & _ & Hw1 & Hw2). split; [by eapply partition_cons|]. intros Hnr.
    assert (m = (x1 r - x0 r - n) / 2) as Hm.
    { unfold m. rewrite i16_small by lia. apply Z.quot_div_nonneg; lia. }
    pose proof (Z.div_mod (x1 r - x0 r - n) 2 ltac:(lia)). pose proof (Z.mod_pos_bound (x1 r - x0 r - n) 2 ltac:(lia)).
    rewrite <- (proj1 (rect_fits_size b Hb)), Hwb in Hw1, Hw2.
    rewrite (Hc m) in * by lia. rewrite (Hc n) in Hw1, Hw2 by lia. lia.
Qed.

Lemma rect_splits_witness :
  let '(a, b, c) := split_center (mkRect 10 20 111 60) 40 in
  partition_of (mkRect 10 20 111 60) [a; b; c] ∧
  (0 <= 40 <= 101 → rect_width b = 40 ∧ rect_width a <= rect_width c <= rect_width a + 1).
Proof.
  apply (rect_splits (mkRect 10 20 111 60) 40);
    apply (bool_decide_unpack _); vm_compute; exact Logic.I.
Defined.

(** ** Grids *)

(** The cells of one axis: where cell [k] starts and how big it is, without
    wrap-around. *)
Definition axis_start (spacing origin size n k : Z) : Z :=
  let free := size - spacing * (n - 1) in
  origin + k * (free / n + spacing) + Z.min (free `mod` n) k.
Definition axis_size (spacing size n k : Z) : Z :=
  let free := size - spacing * (n - 1) in
  free / n + if k <? free `mod` n then 1 else 0.

Section GridAxis.
Context (spacing origin size n : Z).
Context (Hs : 0 <= spacing) (Hn : 1 <= n < 2 ^ 15) (Ho : in_s 16 origin) (Hz : 0 <= size < 2 ^ 15)
  (He : origin + size < 2 ^ 15) (Hfree : spacing * (n - 1) <= size).

Abbreviation free := (size - spacing * (n - 1)).

Lemma axis_next k : 0 <= k →
  axis_start spacing origin size n (k + 1) =
  axis_start spacing origin size n k + axis_size spacing size n k + spacing.
Proof.
  intros Hk. unfold axis_start, axis_size. set (q := free / n). set (r := free `mod` n).
  destruct (Z.ltb_spec k r); lia.
Qed.

Lemma axis_first : axis_start spacing origin size n 0 = origin.
Proof.
  unfold axis_start. pose proof (Z.mod_pos_bound free n ltac:(lia)). lia.
Qed.

Lemma axis_last :
  axis_start spacing origin size n (n - 1) + axis_size spacing size n (n - 1) = origin + size.
Proof.
  unfold axis_start, axis_size. pose proof (Z.mod_pos_bound free n ltac:(lia)).
  pose proof (Z.div_mod free n ltac:(lia)). set (q := free / n) in *. set (r := free `mod` n) in *.
  destruct (Z.ltb_spec (n - 1) r); [lia|]. rewrite Z.min_l by lia. nia.
Qed.

Lemma axis_size_nonneg k : 0 <= axis_size spacing size n k.
Proof.
  unfold axis_size. pose proof (Z.div_pos free n ltac:(lia) ltac:(lia)). destruct (_ <? _); lia.
Qed.

Lemma axis_ordered k j : 0 <= k → k < j →
  axis_start spacing origin size n k + axis_size spacing size n k + spacing <=
  axis_start spacing origin size n j.
Proof.
  intros Hk Hkj. replace j with (k + 1 + Z.of_nat (Z.to_nat (j - k - 1))) by lia.
  generalize (Z.to_nat (j - k - 1)) as m. induction m as [|m IH].
  - rewrite Z.add_0_r, axis_next by lia. lia.
  - replace (k + 1 + Z.of_nat (S m)) with (k + 1 + Z.of_nat m + 1) by lia.
    rewrite axis_next by lia. pose proof (axis_size_nonneg (k + 1 + Z.of_nat m)). lia.
Qed.

Lemma grid_axis_inside k : 0 <= k < n →
  origin <= axis_start spacing origin size n k ∧
  axis_start spacing origin size n k + axis_size spacing size n k <= origin + size.
Proof.
  intros Hk. rewrite <- axis_last. split.
  - rewrite <- axis_first at 1. destruct (decide (k = 0)) as [->|]; [lia|].
    pose proof (axis_ordered 0 k ltac:(lia) ltac:(lia)). pose proof (axis_size_nonneg 0). lia.
  - destruct (decide (k = n - 1)) as [->|]; [lia|].
    pose proof (axis_ordered k (n - 1) ltac:(lia) ltac:(lia)).
    pose proof (axis_size_nonneg (n - 1)). lia.
Qed.

(** The computation of the code, cell by cell. *)
Lemma grid_axis_spec k : 0 <= k < n →
  grid_axis spacing origin size n k =
  Ok (axis_start spacing origin size n k, axis_size spacing size n k).
Proof.
  intros Hk. pose proof (grid_axis_inside k Hk) as [Hlo Hhi]. pose proof (axis_size_nonneg k) as Hsz.
  unfold in_s in Ho. unfold grid_axis, div16, rem16.
  assert (0 <= spacing * (n - 1)) by nia.
  rewrite (i16_small (n - 1)), (i16_small (spacing * (n - 1))), (i16_small free) by lia.
  destruct (Z.eqb_spec n 0), (Z.eqb_spec n (-1)); try lia. cbn [orb andb mbind outcome_bind].
  rewrite Z.quot_div_nonneg, Z.rem_mod_nonneg by lia.
  rewrite (min_spec k), (Z.min_l k) by lia. rewrite min_spec.
  unfold axis_start, axis_size in *. pose proof (Z.mod_pos_bound free n ltac:(lia)) as Hr.
  pose proof (Z.div_mod free n ltac:(lia)) as Hdm.
  pose proof (Z.div_pos free n ltac:(lia) ltac:(lia)) as Hq.
  set (q := free / n) in *. set (r := free `mod` n) in *.
  assert (0 <= k * (q + spacing) <= size) as Hks by (split; [nia|]; destruct (k <? r); lia).
  assert (q + spacing <= size ∨ k = 0) as Hqs by nia.
  assert (k * i16 (q + spacing) = k * (q + spacing)) as Hkq.
  { destruct Hqs as [| ->]; [by rewrite i16_small by lia|done]. }
  rewrite Hkq, (i16_small (k * (q + spacing))), (i16_small (origin + _)), i16_small by lia.
  destruct (k <? r); [rewrite i16_small by lia; done|]. do 2 f_equal. lia.
Qed.
End GridAxis.

(** A grid whose spacing leaves room for the cells. *)
Definition grid_fits (g : Grid) : Prop :=
  rect_fits (grid_area g) ∧ 0 <= grid_spacing g ∧ 1 <= rows g < 2 ^ 15 ∧ 1 <= cols g < 2 ^ 15 ∧
  grid_spacing g * (cols g - 1) <= x1 (grid_area g) - x0 (grid_area g) ∧
  grid_spacing g * (rows g - 1) <= y1 (grid_area g) - y0 (grid_area g).

#[export] Instance grid_fits_dec g : Decision (grid_fits g).
Proof. unfold grid_fits. apply _. Defined.

Lemma row_col_spec g row col :
  grid_fits g → 0 <= row < rows g → 0 <= col < cols g →
  let a := grid_area g in
  let x := axis_start (grid_spacing g) (x0 a) (x1 a - x0 a) (cols g) col in
  let y := axis_start (grid_spacing g) (y0 a) (y1 a - y0 a) (rows g) row in
  row_col g row col = Ok (mkRect x y
    (x + axis_size (grid_spacing g) (x1 a - x0 a) (cols g) col)
    (y + axis_size (grid_spacing g) (y1 a - y0 a) (rows g) row)).
Proof.
  intros (Ha & Hs & Hr & Hc & Hfx & Hfy) Hrow Hcol a x y. pose proof (rect_fits_size _ Ha) as [Hw Hh].
  destruct Ha as (Hx0 & Hy0 & Hx1 & Hy1 & Hw' & Hh'). unfold row_col. fold a in Hw, Hh, Hx0, Hy0, Hx1, Hy1, Hw', Hh', Hfx, Hfy |- *.
  rewrite Hw, Hh, !(i16_small col), !(i16_small row), (i16_small (cols g)), (i16_small (rows g)) by lia.
  pose proof Hx1 as Hx1'. pose proof Hy1 as Hy1'. unfold in_s in Hx1', Hy1'.
  rewrite grid_axis_spec; try done; [|lia]. cbn [mbind outcome_bind].
  rewrite grid_axis_spec; try done; [|lia]. cbn [mbind outcome_bind].
  pose proof (grid_axis_inside (grid_spacing g) (x0 a) (x1 a - x0 a) (cols g) Hs Hc Hfx col Hcol) as [X1 X2].
  pose proof (grid_axis_inside (grid_spacing g) (y0 a) (y1 a - y0 a) (rows g) Hs Hr Hfy row Hrow) as [Y1 Y2].
  pose proof (axis_size_nonneg (grid_spacing g) (x1 a - x0 a) (cols g) Hc Hfx col).
  pose proof (axis_size_nonneg (grid_spacing g) (y1 a - y0 a) (rows g) Hr Hfy row).
  unfold in_s in Hx0, Hy0. unfold from_top_left_and_size. cbn [px py ox oy].
  fold x in X1, X2 |- *. fold y in Y1, Y2 |- *. rewrite !i16_small by lia. done.
Qed.

(** A position on an axis lies in some cell when there is no spacing. *)
Lemma axis_cover origin size n p :
  1 <= n < 2 ^ 15 → 0 <= size < 2 ^ 15 → origin <= p < origin + size →
  ∃ k, 0 <= k < n ∧
    axis_start 0 origin size n k <= p < axis_start 0 origin size n k + axis_size 0 size n k.
Proof.
  intros Hn Hz Hp.
  assert (∀ m, (Z.of_nat m < n)%Z → p < axis_start 0 origin size n (Z.of_nat m) + axis_size 0 size n (Z.of_nat m) →
    ∃ k, 0 <= k < n ∧ axis_start 0 origin size n k <= p < axis_start 0 origin size n k + axis_size 0 size n k) as Hm.
  { induction m as [|m IH]; intros Hmn Hlt.
    - exists 0. change (Z.of_nat 0) with 0 in *. rewrite (axis_first 0 origin size n Hn) in *. lia.
    - destruct (Z.le_gt_cases (axis_start 0 origin size n (Z.of_nat (S m))) p) as [Hle|Hgt].
      + exists (Z.of_nat (S m)). lia.
      + apply IH; [lia|]. replace (Z.of_nat (S m)) with (Z.of_nat m + 1) in Hgt by lia.
        rewrite axis_next in Hgt by lia. lia. }
  apply (Hm (Z.to_nat (n - 1))); [lia|].
  rewrite Z2Nat.id, (axis_last 0 origin size n Hn) by lia. lia.
Qed.

(** The cells of a grid with room for its spacing: every cell is inside the
    area; cells of different rows or columns share no pixel; all cells have
    the same size up to one pixel in each direction, the bigger ones first;
    and without spacing every pixel of the area is in some cell. *)
Theorem grid_cells g :
  grid_fits g →
  let cell_at row col r := 0 <= row < rows g ∧ 0 <= col < cols g ∧ row_col g row col = Ok r in
  (∀ row col, 0 <= row < rows g → 0 <= col < cols g → ∃ r, cell_at row col r) ∧
  (∀ row col r p, cell_at row col r → contains r p = true → contains (grid_area g) p = true) ∧
  (∀ row col r row' col' r' p, cell_at row col r → cell_at row' col' r' →
     contains r p = true → contains r' p = true → row = row' ∧ col = col') ∧
  (∀ row col r row' col' r', cell_at row col r → cell_at row' col' r' → row <= row' → col <= col' →
     x1 r' - x0 r' <= x1 r - x0 r <= x1 r' - x0 r' + 1 ∧ y1 r' - y0 r' <= y1 r - y0 r <= y1 r' - y0 r' + 1) ∧
  (∀ p, grid_spacing g = 0 → contains (grid_area g) p = true →
     ∃ row col r, cell_at row col r ∧ contains r p = true).
Proof.
  intros Hg cell_at. pose proof (λ row col, row_col_spec g row col Hg) as Hrc. cbn zeta in Hrc.
  destruct Hg as (Ha & Hs & Hr & Hc & Hfx & Hfy).
  destruct Ha as (_ & _ & _ & _ & Hw & Hh).
  assert (∀ row col r, cell_at row col r → 0 <= row < rows g ∧ 0 <= col < cols g ∧ r =
    mkRect (axis_start (grid_spacing g) (x0 (grid_area g)) (x1 (grid_area g) - x0 (grid_area g)) (cols g) col)
      (axis_start (grid_spacing g) (y0 (grid_area g)) (y1 (grid_area g) - y0 (grid_area g)) (rows g) row)
      (axis_start (grid_spacing g) (x0 (grid_area g)) (x1 (grid_area g) - x0 (grid_area g)) (cols g) col +
       axis_size (grid_spacing g) (x1 (grid_area g) - x0 (grid_area g)) (cols g) col)
      (axis_start (grid_spacing g) (y0 (grid_area g)) (y1 (grid_area g) - y0 (grid_area g)) (rows g) row +
       axis_size (grid_spacing g) (y1 (grid_area g) - y0 (grid_area g)) (rows g) row)) as Hcell.
  { intros row col r (Hrow & Hcol & Hok). rewrite Hrc in Hok by done. by injection Hok as <-. }
  pose proof (grid_axis_inside (grid_spacing g) (x0 (grid_area g)) _ (cols g) Hs Hc Hfx) as Xin.
  pose proof (grid_axis_inside (grid_spacing g) (y0 (grid_area g)) _ (rows g) Hs Hr Hfy) as Yin.
  pose proof (axis_ordered (grid_spacing g) (x0 (grid_area g)) _ (cols g) Hs Hc Hfx) as Xord.
  pose proof (axis_ordered (grid_spacing g) (y0 (grid_area g)) _ (rows g) Hs Hr Hfy) as Yord.
  split_and!.
  - intros row col Hrow Hcol. eexists. split; [done|]. split; [done|]. by apply Hrc.
  - intros row col r p (Hrow & Hcol & ->)%Hcell. rewrite !contains_spec. cbn [x0 y0 x1 y1].
    pose proof (Xin col Hcol). pose proof (Yin row Hrow). lia.
  - intros row col r row' col' r' p (Hrow & Hcol & ->)%Hcell (Hrow' & Hcol' & ->)%Hcell.
    rewrite !contains_spec. cbn [x0 y0 x1 y1]. intros [HX HY] [HX' HY']. split.
    + destruct (Z.lt_trichotomy row row') as [Hlt|[|Hlt]]; [|done|];
        [pose proof (Yord row row' ltac:(lia) Hlt)|pose proof (Yord row' row ltac:(lia) Hlt)]; lia.
    + destruct (Z.lt_trichotomy col col') as [Hlt|[|Hlt]]; [|done|];
        [pose proof (Xord col col' ltac:(lia) Hlt)|pose proof (Xord col' col ltac:(lia) Hlt)]; lia.
  - intros row col r row' col' r' (Hrow & Hcol & ->)%Hcell (Hrow' & Hcol' & ->)%Hcell Hrr Hcc.
    cbn [x0 y0 x1 y1]. rewrite !Z.add_simpl_l. unfold axis_size.
    set (qx := _ / cols g). set (mx := _ `mod` cols g). set (qy := _ / rows g). set (my := _ `mod` rows g).
    destruct (Z.ltb_spec col mx), (Z.ltb_spec col' mx), (Z.ltb_spec row my), (Z.ltb_spec row' my); lia.
  - intros p H0 [HX HY]%contains_spec.
    destruct (axis_cover (x0 (grid_area g)) (x1 (grid_area g) - x0 (grid_area g)) (cols g) (px p) Hc ltac:(lia) ltac:(lia))
      as (col & Hcol & HX').
    destruct (axis_cover (y0 (grid_area g)) (y1 (grid_area g) - y0 (grid_area g)) (rows g) (py p) Hr ltac:(lia) ltac:(lia))
      as (row & Hrow & HY').
    eexists row, col, _. split; [split; [done|]; split; [done|by apply Hrc]|].
    rewrite contains_spec, H0. done.
Qed.

Lemma grid_cells_witness :
  ∃ row col r, (0 <= row < 3 ∧ 0 <= col < 3 ∧ row_col (mkGrid 3 3 0 (mkRect 0 0 128 64)) row col = Ok r) ∧
    contains r (mkPoint 127 63) = true.
Proof.
  apply (grid_cells (mkGrid 3 3 0 (mkRect 0 0 128 64)));
    [apply (bool_decide_unpack _); vm_compute; exact Logic.I|reflexivity|reflexivity].
Defined.

(** ** Linear placement *)

(** The simplest component: a rectangle that goes where it is put. *)
#[export] Instance rect_dimensions : Dimensions Rect := { fit _ bounds := bounds; area r := r }.

(** The interval of a rectangle on an axis. *)
Definition lo (axis : Axis) (r : Rect) : Z := axis_main axis (x0 r) (y0 r).
Definition hi (axis : Axis) (r : Rect) : Z := axis_main axis (x1 r) (y1 r).

(** The positions of consecutive items. *)
Fixpoint slots (spacing cursor : Z) (sizes : list Z) : list (Z * Z) :=
  match sizes with
  | [] => []
  | s :: sizes => (cursor, s) :: slots spacing (cursor + s + spacing) sizes
  end.

Definition total (l : list Z) : Z := foldr Z.add 0 l.

Lemma total_nonneg l : Forall (Z.le 0) l → 0 <= total l.
Proof. induction 1; simpl; lia. Qed.

Lemma slots_bounds spacing cursor sizes c s :
  0 <= spacing → Forall (Z.le 0) sizes → (c, s) ∈ slots spacing cursor sizes →
  cursor <= c ∧ c + s <= cursor + total sizes + spacing * (len sizes - 1) ∧ 0 <= s.
Proof.
  intros Hs Hsz. revert cursor; induction Hsz as [|s' sizes Hs' Hsz IH]; intros cursor Hin; [by apply not_elem_of_nil in Hin|].
  cbn [slots] in Hin. cbn [total foldr length]. fold (total sizes). pose proof (total_nonneg _ Hsz).
  apply elem_of_cons in Hin as [[= -> ->]|Hin]; [nia|].
  pose proof (IH _ Hin). destruct sizes; [by apply not_elem_of_nil in Hin|]. cbn [length] in *. nia.
Qed.

Lemma slots_ordered spacing cursor sizes i j c s c' s' :
  0 <= spacing → Forall (Z.le 0) sizes → (i < j)%nat →
  slots spacing cursor sizes !! i = Some (c, s) → slots spacing cursor sizes !! j = Some (c', s') →
  c + s + spacing <= c'.
Proof.
  intros Hs Hsz. revert cursor i j; induction Hsz as [|s0 sizes Hs0 Hsz IH]; intros cursor i j Hij Hi Hj; [done|].
  destruct j as [|j]; [lia|]. destruct i as [|i]; simpl in *.
  - injection Hi as <- <-. apply list_elem_of_lookup_2 in Hj.
    apply (slots_bounds _ _ _ _ _ Hs Hsz) in Hj. lia.
  - eapply (IH _ i j); try done. lia.
Qed.

Lemma slots_sizes spacing cursor sizes : snd <$> slots spacing cursor sizes = sizes.
Proof. revert cursor. induction sizes as [|s l IH]; intros c; [done|]. cbn [slots]. by rewrite fmap_cons, IH. Qed.

Lemma slots_length spacing cursor sizes : length (slots spacing cursor sizes) = length sizes.
Proof. revert cursor; induction sizes as [|s sizes IH]; intros cursor; simpl; auto. Qed.

(** The size of an item on an axis. *)
Definition size_on (axis : Axis) (r : Rect) : Z := hi axis r - lo axis r.

Lemma size_on_axis axis r : rect_fits r → offset_axis (rect_size r) axis = size_on axis r ∧ 0 <= size_on axis r.
Proof.
  intros Hr. destruct (rect_fits_size r Hr) as [Hw Hh]. destruct Hr as (_&_&_&_&?&?).
  unfold size_on, lo, hi. destruct axis; simpl; lia.
Qed.

Lemma size_on_bound axis r : rect_fits r → size_on axis r < 2 ^ 15.
Proof. intros (_&_&_&_&?&?). unfold size_on, lo, hi. destruct axis; simpl; lia. Qed.

(** An item at a place of the main axis, which it keeps its size at. *)
Lemma placed_item axis bounds item c :
  rect_fits bounds → rect_fits item → 0 <= c → c + size_on axis item <= size_on axis bounds →
  lo (cross axis) bounds + size_on (cross axis) item < 2 ^ 15 →
  let r := with_top_left item (ofs (top_left bounds) (on_axis axis c)) in
  rect_fits r ∧ lo axis r = lo axis bounds + c ∧ lo (cross axis) r = lo (cross axis) bounds ∧
  size_on axis r = size_on axis item ∧ size_on (cross axis) r = size_on (cross axis) item.
Proof.
  intros Hb Hi Hc Hfit Hcross. destruct (rect_fits_size item Hi) as [Hw Hh].
  destruct Hb as (?&?&?&?&?&?), Hi as (?&?&?&?&?&?).
  unfold with_top_left, rect_size. rewrite Hw, Hh.
  unfold from_top_left_and_size, rect_fits, size_on, lo, hi, in_s in *.
  destruct axis; cbn [cross axis_main on_axis ofs top_left px py ox oy x0 y0 x1 y1] in *;
    rewrite !i16_small by (rewrite ?i16_small by lia; lia); lia.
Qed.

Lemma arrange_loop_slots axis bounds spacing cursor items :
  rect_fits bounds → Forall rect_fits items → 0 <= spacing → 0 <= cursor →
  Forall (λ r, lo (cross axis) bounds + size_on (cross axis) r < 2 ^ 15) items →
  cursor + total (size_on axis <$> items) + spacing * (len items - 1) <= size_on axis bounds →
  (λ r, (lo axis r - lo axis bounds, size_on axis r)) <$>
    arrange_loop axis (top_left bounds) spacing cursor items = slots spacing cursor (size_on axis <$> items) ∧
  Forall rect_fits (arrange_loop axis (top_left bounds) spacing cursor items).
Proof.
  intros Hb Hi Hs Hc Hcr Hfit. revert cursor Hc Hfit; induction Hi as [|item items Hitem Hi IH];
    intros cursor Hc Hfit; [by split|].
  apply Forall_cons in Hcr as [Hcr1 Hcr]. cbn [arrange_loop area fit rect_dimensions].
  rewrite !fmap_cons in Hfit. cbn [total foldr length] in Hfit. fold (total (size_on axis <$> items)) in Hfit.
  destruct (size_on_axis axis item Hitem) as [_ Hnn].
  assert (0 <= total (size_on axis <$> items)) as Htot.
  { apply total_nonneg, Forall_fmap. eapply Forall_impl; [exact Hi|]. intros r Hr. by apply size_on_axis. }
  destruct (placed_item axis bounds item cursor Hb Hitem Hc) as (Hr & Hlo & _ & Hsz & _);
    [nia|done|]. set (r := with_top_left _ _) in *.
  rewrite !fmap_cons. cbn [slots].
  destruct items as [|item2 items].
  { cbn [arrange_loop]. split; [|constructor; [exact Hr|constructor]]. cbn. rewrite Hsz. do 2 f_equal. lia. }
  destruct (size_on_axis axis r Hr) as [-> _]. rewrite Hsz.
  pose proof (size_on_bound axis bounds Hb).
  cbn [length] in Hfit.
  rewrite (i16_small (cursor + size_on axis item)), i16_small by nia.
  destruct (IH Hcr (cursor + size_on axis item + spacing)) as [-> Hall]; [lia|cbn [length]; nia|].
  split; [do 2 f_equal; lia|by constructor].
Qed.

Lemma foldl_sizes axis items s0 :
  Forall rect_fits items → 0 <= s0 → s0 + total (size_on axis <$> items) < 2 ^ 15 →
  foldl (λ s r, i16 (s + offset_axis (rect_size (area r)) axis)) s0 items =
  s0 + total (size_on axis <$> items).
Proof.
  intros Hi. revert s0; induction Hi as [|item items Hitem Hi IH]; intros s0 Hs0 Hlt; [simpl; lia|].
  cbn [foldl area rect_dimensions]. destruct (size_on_axis axis item Hitem) as [-> Hnn].
  rewrite fmap_cons in *. cbn [total foldr] in *. fold (total (size_on axis <$> items)) in *.
  assert (0 <= total (size_on axis <$> items)) as Htot.
  { apply total_nonneg, Forall_fmap. eapply Forall_impl; [exact Hi|]. intros r Hr. by apply size_on_axis. }
  rewrite i16_small by lia. rewrite IH by lia. lia.
Qed.

(** The spacing is scaled down until everything fits. *)
Lemma compute_spacing_spec self bounds n sum :
  rect_fits bounds → 1 <= n < 2 ^ 15 → 0 <= spacing self → 0 <= sum <= size_on (axis self) bounds →
  sum + spacing self * (n - 1) < 2 ^ 15 →
  let '(cursor, sp) := compute_spacing self bounds n sum in
  0 <= cursor ∧ 0 <= sp <= spacing self ∧ cursor + sum + sp * (n - 1) <= size_on (axis self) bounds ∧
  (sum + spacing self * (n - 1) <= size_on (axis self) bounds → sp = spacing self ∧
    match align self with
    | Start => cursor = 0
    | Center => cursor = size_on (axis self) bounds / 2 - (sum + sp * (n - 1)) / 2
    | End_ => cursor + sum + sp * (n - 1) = size_on (axis self) bounds
    end).
Proof.
  intros Hb Hn Hs Hsum Hno. destruct (size_on_axis (axis self) bounds Hb) as [Hav _].
  pose proof (size_on_bound (axis self) bounds Hb) as HA.
  unfold compute_spacing. rewrite Hav. set (A := size_on (axis self) bounds) in *. clearbody A.
  rewrite (Z.max_r 0 (n - 1)), (i16_small (n - 1)) by lia. assert (0 <= (n - 1) * spacing self) by nia.
  rewrite (i16_small ((n - 1) * spacing self)), (i16_small (sum + _)) by nia.
  destruct (Z.ltb_spec A (sum + (n - 1) * spacing self)) as [Hbig|Hfit].
  - rewrite (i16_small (A - sum)), !max_spec by lia. assert (2 <= n) by nia. rewrite (Z.max_l (n - 1)) by lia.
    rewrite (Z.quot_div_nonneg (A - sum)) by lia. pose proof (Z.div_pos (A - sum) (n - 1) ltac:(lia) ltac:(lia)) as Hd0.
    pose proof (Z.mul_div_le (A - sum) (n - 1) ltac:(lia)) as Hd1.
    assert ((A - sum) / (n - 1) <= spacing self) by (apply Z.div_le_upper_bound; nia).
    rewrite (Z.max_l ((A - sum) / (n - 1)) 0 Hd0). rewrite !Z.quot_div_nonneg by lia.
    rewrite !Z.sub_diag. change (i16 0) with 0.
    destruct (align self); (split; [lia|]; split; [lia|]; split; [nia|nia]).
  - pose proof (Z.div_mod A 2 ltac:(lia)). pose proof (Z.mod_pos_bound A 2 ltac:(lia)).
    set (T := sum + (n - 1) * spacing self) in *. assert (T = sum + spacing self * (n - 1)) as HT by (unfold T; lia).
    clearbody T. pose proof (Z.div_mod T 2 ltac:(lia)). pose proof (Z.mod_pos_bound T 2 ltac:(lia)).
    rewrite !Z.quot_div_nonneg by lia.
    destruct (align self).
    + split_and!; lia.
    + rewrite i16_small by lia. split; [lia|]. split; [lia|]. split; [lia|]. intros _. split; [done|]. by rewrite <- HT.
    + rewrite i16_small by lia. split_and!; lia.
Qed.

(** Items that fit are arranged in order without overlapping, all inside
    the area on the main axis and with their sizes unchanged, with at most the
    spacing asked for; and when the spacing fits as well, it is kept between
    neighbours, and the row of items touches the edge it is aligned to. *)
Theorem arrange_in_order self bounds items :
  rect_fits bounds → Forall rect_fits items → 0 <= spacing self → len items < 2 ^ 15 →
  Forall (λ r, lo (cross (axis self)) bounds + size_on (cross (axis self)) r < 2 ^ 15) items →
  total (size_on (axis self) <$> items) <= size_on (axis self) bounds →
  total (size_on (axis self) <$> items) + spacing self * (len items - 1) < 2 ^ 15 →
  let placed := arrange self bounds items in
  (size_on (axis self) <$> placed = size_on (axis self) <$> items) ∧
  Forall (λ r, lo (axis self) bounds <= lo (axis self) r ∧ hi (axis self) r <= hi (axis self) bounds) placed ∧
  (∀ i j r r', (i < j)%nat → placed !! i = Some r → placed !! j = Some r' →
     hi (axis self) r <= lo (axis self) r') ∧
  (∃ cursor sp, (λ r, (lo (axis self) r - lo (axis self) bounds, size_on (axis self) r)) <$> placed =
       slots sp cursor (size_on (axis self) <$> items) ∧
     (total (size_on (axis self) <$> items) + spacing self * (len items - 1) <= size_on (axis self) bounds →
      items ≠ [] → sp = spacing self ∧
      match align self with
      | Start => cursor = 0
      | Center => cursor = size_on (axis self) bounds / 2 -
          (total (size_on (axis self) <$> items) + sp * (len items - 1)) / 2
      | End_ => cursor + total (size_on (axis self) <$> items) + sp * (len items - 1) = size_on (axis self) bounds
      end)).
Proof.
  intros Hb Hi Hs Hn Hcr Hfit Hno placed. unfold placed, arrange.
  assert (Forall (Z.le 0) (size_on (axis self) <$> items)) as Hnn.
  { apply Forall_fmap. eapply Forall_impl; [exact Hi|]. intros r Hr. by apply size_on_axis. }
  destruct items as [|item items'] eqn:Ei.
  { destruct (compute_spacing _ _ _ _) as [cursor sp]. split_and!; try done. by exists 0, 0. }
  rewrite <- Ei in *. assert (1 <= len items) by (rewrite Ei; simpl; lia).
  pose proof (total_nonneg _ Hnn) as Htot. pose proof (size_on_bound (axis self) bounds Hb).
  rewrite foldl_sizes by (done || lia). rewrite Z.add_0_l.
  pose proof (compute_spacing_spec self bounds (len items) _ Hb ltac:(lia) Hs (conj Htot Hfit) Hno) as Hc.
  destruct (compute_spacing _ _ _ _) as [cursor sp]. destruct Hc as (Hc0 & Hsp & Hin & Hal).
  destruct (arrange_loop_slots (axis self) bounds sp cursor items) as [Hslots Hok]; [done|done|lia|lia|done|done|].
  set (pl := arrange_loop _ _ _ _ _) in *.
  assert (∀ i r, pl !! i = Some r →
    slots sp cursor (size_on (axis self) <$> items) !! i = Some (lo (axis self) r - lo (axis self) bounds, size_on (axis self) r)) as Hl.
  { intros i r Hr. by rewrite <- Hslots, list_lookup_fmap, Hr. }
  split_and!.
  - rewrite <- (slots_sizes sp cursor (size_on (axis self) <$> items)), <- Hslots.
    by rewrite <- list_fmap_compose.
  - apply Forall_forall. intros r [i Hr]%list_elem_of_lookup. apply Hl in Hr as Hr'.
    apply list_elem_of_lookup_2, slots_bounds in Hr'; [|lia|done]. rewrite length_fmap in Hr'.
    unfold size_on in *. lia.
  - intros i j r r' Hij Hr Hr'. apply Hl in Hr, Hr'.
    pose proof (slots_ordered _ _ _ i j _ _ _ _ (proj1 Hsp) Hnn Hij Hr Hr'). unfold size_on in *. lia.
  - exists cursor, sp. split; [done|]. intros Hall _. by apply Hal.
Qed.

Lemma arrange_in_order_witness :
  size_on Horizontal <$> arrange (mkPlacement Horizontal Center 4) (mkRect 0 0 100 20)
    [mkRect 0 0 10 10; mkRect 0 0 30 10] = [10; 30].
Proof.
  apply (arrange_in_order (mkPlacement Horizontal Center 4) (mkRect 0 0 100 20) [mkRect 0 0 10 10; mkRect 0 0 30 10]);
    try (vm_compute; congruence); apply (bool_decide_unpack _); vm_compute; exact Logic.I.
Defined.
