(* ===== verification/Wordlist.v ===== *)
(** * Word lists

    [trezorhal/wordlist.rs], [trezorhal/bip39.rs] and [trezorhal/slip39.rs]:
    completion of the words of a recovery phrase, by their letters or by the
    keys of a keyboard with several letters on each key.  The C functions
    behind [bip39.rs] and [slip39.rs] are translated with them.  A word is the
    list of its bytes, without the terminating zero. *)
From S2P Require Import Prelude StrUtil Words.
Local Open Scope Z_scope.

(** [slice::partition_point]: the first index whose element does not satisfy
    the predicate, by halving an interval. *)
Fixpoint partition_loop {A} (pred : A → bool) (l : list A) (fuel left right : nat) : nat :=
  match fuel with
  | O => left
  | S fuel =>
    if (left <? right)%nat then
      let mid := (left + (right - left) / 2)%nat in
      match l !! mid with
      | Some x => if pred x then partition_loop pred l fuel (S mid) right else partition_loop pred l fuel left mid
      | None => left
      end
    else left
  end.
Definition partition_point {A} (pred : A → bool) (l : list A) : nat :=
  partition_loop pred l (S (length l)) 0 (length l).

(** ** [wordlist.rs] *)

(* src: trezorhal/wordlist.rs 4-11 (Wordlist) *)
Record Wordlist := mkWordlist { words : list (list Z); prefix_len : Z }.

(** Reading past the end of a word reads its terminator. *)
(* src: trezorhal/wordlist.rs 85-102 (prefix_cmp) *)
Fixpoint prefix_cmp (prefix word : list Z) : comparison :=
  match prefix with
  | [] => Eq
  | prefix_char :: prefix =>
    let word_char := default 0 (head word) in
    if word_char =? 0 then Lt
    else if negb (prefix_char =? word_char) then word_char ?= prefix_char
    else prefix_cmp prefix (tail word)
  end.

(* src: trezorhal/wordlist.rs 14-16 (Wordlist::new) *)
Definition wordlist_new (words : list (list Z)) (prefix_len : Z) : Wordlist := mkWordlist words prefix_len.

(* src: trezorhal/wordlist.rs 18-21 (Wordlist::bip39) *)
Definition wordlist_bip39 : Wordlist := wordlist_new BIP39_WORDLIST_ENGLISH 0.

(* src: trezorhal/wordlist.rs 23-26 (Wordlist::slip39) *)
Definition wordlist_slip39 : Wordlist := wordlist_new SLIP39_WORDLIST 0.

(** [prev_char] is the letter found last, the zero character at first. *)
(* src: trezorhal/wordlist.rs 28-46 (Wordlist::get_available_letters) *)
Fixpoint letters_loop (prefix_len : Z) (prev_char : list Z) (words : list (list Z))
  : outcome Empty_set (list (list Z)) :=
  match words with
  | [] => Ok []
  | word :: words =>
    if len word <=? prefix_len then letters_loop prefix_len prev_char words
    else
      following_char ← or_panic (getZ (chars word) prefix_len);
      if bool_decide (following_char ≠ prev_char) then
        rest ← letters_loop prefix_len following_char words; Ok (following_char :: rest)
      else letters_loop prefix_len prev_char words
  end.
Definition get_available_letters (self : Wordlist) : outcome Empty_set (list (list Z)) :=
  letters_loop (prefix_len self) [0] (words self).

(* src: trezorhal/wordlist.rs 48-58 (Wordlist::filter_prefix) *)
Definition filter_prefix (self : Wordlist) (prefix : list Z) : outcome Empty_set Wordlist :=
  let start := partition_point (λ word, match prefix_cmp prefix word with Lt => true | _ => false end) (words self) in
  let end_ := partition_point (λ word, match prefix_cmp prefix word with Gt => false | _ => true end) (words self) in
  ws ← or_panic (slice (words self) (Z.of_nat start) (Z.of_nat end_));
  Ok (wordlist_new ws (len prefix)).

(* src: trezorhal/wordlist.rs 60-67 (Wordlist::get) *)
Definition wordlist_get (self : Wordlist) (index : Z) : option (list Z) := getZ (words self) index.

(* src: trezorhal/wordlist.rs 69-72 (Wordlist::len) *)
Definition wordlist_len (self : Wordlist) : Z := len (words self).

(** ** [bip39.rs]; the list of words is [BIP39_WORDLIST_ENGLISH] *)
Section Bip39.
Context (bip39 : list (list Z)).

(* src: trezorhal/bip39.rs 3-9 (complete_word) *)
Definition complete_word (prefix : list Z) : outcome Empty_set (option (list Z)) :=
  if bool_decide (prefix = []) then Ok None
  else ws ← filter_prefix (wordlist_new bip39 0) prefix; Ok (head (words ws)).

(* src: trezorhal/bip39.rs 11-17 (options_num) *)
Definition options_num (prefix : list Z) : outcome Empty_set (option Z) :=
  if bool_decide (prefix = []) then Ok None
  else ws ← filter_prefix (wordlist_new bip39 0) prefix; Ok (Some (wordlist_len ws)).

(** [strncmp(word, prefix, len) == 0]: both end together or agree on [len]
    characters. *)
Definition same_prefix (word prefix : list Z) : bool :=
  match prefix_cmp prefix word with Eq => true | _ => false end.

(** The letter after the prefix, in the mask of the letters a to z. *)
Definition letter_bit (c : Z) : Z := if (97 <=? c) && (c <=? 122) then Z.shiftl 1 (c - 97) else 0.

(** [mnemonic_word_completion_mask] of [crypto/bip39.c]. *)
Definition mnemonic_word_completion_mask (prefix : list Z) (len_ : Z) : Z :=
  if len_ <=? 0 then 0x3ffffff
  else foldl (λ res word,
         if same_prefix word prefix then Z.lor res (letter_bit (default 0 (getZ word len_))) else res) 0 bip39.

(* src: trezorhal/bip39.rs 19-23 (word_completion_mask) *)
Definition word_completion_mask (prefix : list Z) : Z := mnemonic_word_completion_mask prefix (len prefix).
End Bip39.

(** ** [slip39.rs] *)
Section Slip39.
Context (slip39 : list (list Z)) (seqs : list (Z * Z)).

(** The loop of [find_sequence] of [crypto/slip39.c]. *)
Fixpoint sequence_loop (fuel lo hi : nat) (sequence : Z) : outcome Empty_set nat :=
  match fuel with
  | O => NoFuel
  | S fuel =>
    if (1 <? hi - lo)%nat then
      let mid := ((hi + lo) / 2)%nat in
      e ← or_panic (seqs !! mid);
      if sequence <=? fst e then sequence_loop fuel lo mid sequence else sequence_loop fuel mid hi sequence
    else Ok hi
  end.
Definition find_sequence (sequence : Z) : outcome Empty_set nat :=
  e ← or_panic (seqs !! 0%nat);
  if sequence <=? fst e then Ok 0%nat else sequence_loop (length seqs) 0 (length seqs) sequence.

(** The loop that appends zeros to a sequence of at most four digits. *)
Fixpoint pad_sequence (fuel : nat) (sequence multiplier : Z) : Z * Z :=
  match fuel with
  | O => (sequence, multiplier)
  | S fuel =>
    if sequence <? 1000 then pad_sequence fuel (wrapu 16 (sequence * 10)) (wrapu 16 (multiplier * 10))
    else (sequence, multiplier)
  end.

(** [button_sequence_to_word] of [crypto/slip39.c]. *)
Definition c_button_sequence_to_word (sequence : Z) : outcome Empty_set (option (list Z)) :=
  if sequence =? 0 then
    e ← or_panic (seqs !! 0%nat); Some <$> or_panic (getZ slip39 (snd e))
  else
    let '(sequence, multiplier) := pad_sequence 4 sequence 1 in
    i ← find_sequence sequence;
    if (length seqs <=? i)%nat then Ok None else
    e ← or_panic (seqs !! i);
    if multiplier <=? fst e - sequence then Ok None
    else Some <$> or_panic (getZ slip39 (snd e)).

(** The loop that widens the prefix to the range of its sequences. *)
Fixpoint widen (fuel : nat) (min max divider : Z) : Z * Z * Z :=
  match fuel with
  | O => (min, max, divider)
  | S fuel =>
    if max <=? 1000 then widen fuel (wrapu 16 (min * 10)) (wrapu 16 (max * 10)) (wrapu 16 (divider * 10))
    else (min, max, divider)
  end.

(** The bit of the key that comes next in a sequence. *)
Definition key_bit (divider sequence : Z) : Z :=
  let digit := (sequence / divider) `mod` 10 in
  wrapu 16 (Z.shiftl 1 (digit - 1)).

(** [slip39_word_completion_mask] of [crypto/slip39.c]. *)
Definition slip39_word_completion_mask (prefix : Z) : outcome Empty_set Z :=
  if 1000 <=? prefix then Ok 0
  else
    let '(min, max, divider) := widen 4 prefix (wrapu 16 (prefix + 1)) 1 in
    let divider := divider / 10 in
    min ← find_sequence min;
    max ← find_sequence max;
    foldM (λ bitmap i,
      e ← or_panic (seqs !! i);
      Ok (Z.lor bitmap (key_bit divider (fst e)))) 0 (seq min (max - min)).

(* src: trezorhal/slip39.rs 5-18 (word_completion_mask) *)
Definition slip39_completion_mask (prefix : Z) : outcome Empty_set (option Z) :=
  if negb ((1 <=? prefix) && (prefix <=? 9999)) then Ok None
  else Some <$> slip39_word_completion_mask prefix.

(* src: trezorhal/slip39.rs 20-30 (button_sequence_to_word) *)
Definition button_sequence_to_word (prefix : Z) : outcome Empty_set (option (list Z)) :=
  c_button_sequence_to_word prefix.
End Slip39.
