(* ===== verification/WordSpec.v ===== *)
(** * Properties of the word lists

    The binary searches of [Wordlist.v] are filters on sorted lists, the
    letters and masks offered are exactly the ones that continue towards a
    word; the tables of the firmware satisfy what is assumed of them.  The second
    part is on the words of SLIP-39, which are entered by keys. *)
From Stdlib Require Import Sorted.
From S2P Require Import Prelude StrUtil Words Wordlist.
Local Open Scope Z_scope.

(** ** Searching where a predicate changes *)
Section Partition.
Context {A : Type} (pred : A → bool).

Lemma partition_loop_spec l1 l2 fuel left right :
  Forall (λ x, pred x = true) l1 → Forall (λ x, pred x = false) l2 →
  (left <= length l1 <= right)%nat → (right <= length (l1 ++ l2))%nat → (right - left < fuel)%nat →
  partition_loop pred (l1 ++ l2) fuel left right = length l1.
Proof.
  intros H1 H2. revert left right. induction fuel as [|fuel IH]; intros left right Hl Hr Hf; [lia|].
  cbn [partition_loop]. destruct (Nat.ltb_spec left right); [|lia].
  set (mid := (left + (right - left) / 2)%nat).
  assert (left <= mid < right)%nat.
  { unfold mid. pose proof (Nat.div_lt (right - left) 2). lia. }
  destruct (lookup_lt_is_Some_2 (l1 ++ l2) mid ltac:(lia)) as [x Hx]. rewrite Hx.
  apply lookup_app_Some in Hx as [Hx|[Hm Hx]].
  - pose proof (lookup_lt_Some _ _ _ Hx). rewrite (Forall_lookup_1 _ _ _ _ H1 Hx). apply IH; lia.
  - rewrite (Forall_lookup_1 _ _ _ _ H2 Hx). apply IH; lia.
Qed.

Lemma partition_point_spec l1 l2 :
  Forall (λ x, pred x = true) l1 → Forall (λ x, pred x = false) l2 →
  partition_point pred (l1 ++ l2) = length l1.
Proof. intros. apply partition_loop_spec; try done; rewrite ?length_app; lia. Qed.

End Partition.

(** ** Prefixes *)

(** The words of a list are in order and made of ASCII characters. *)
Definition in_order (ws : list (list Z)) : Prop := StronglySorted (λ a b, bytes_lt a b = true) ws.

Definition rank (c : comparison) : Z := match c with Lt => 0 | Eq => 1 | Gt => 2 end.

Lemma filter_none {A} (P : A → Prop) `{∀ x, Decision (P x)} (l : list A) : Forall (λ x, ¬ P x) l → filter P l = [].
Proof.
  intros Hl. apply elem_of_nil_inv. intros x [HP Hx]%list_elem_of_filter. by eapply Forall_forall in Hl.
Qed.

Lemma filter_elem_iff {A} (P Q : A → Prop) `{∀ x, Decision (P x)} `{∀ x, Decision (Q x)} (l : list A) :
  (∀ x, x ∈ l → P x ↔ Q x) → filter P l = filter Q l.
Proof.
  induction l as [|x l IH]; intros Hl; [done|]. rewrite !filter_cons, IH by (intros; apply Hl; by right).
  pose proof (Hl x (list_elem_of_here _ _)). by repeat case_decide; try tauto.
Qed.

(** A sorted list, cut where a monotone comparison changes. *)
Lemma sorted_ranks {A} (R : A → A → Prop) (f : A → comparison) l :
  (∀ x y, R x y → rank (f x) <= rank (f y)) → StronglySorted R l →
  l = filter (λ x, f x = Lt) l ++ filter (λ x, f x = Eq) l ++ filter (λ x, f x = Gt) l.
Proof.
  intros Hmon. induction 1 as [|x l Hl IH Hx]; [done|].
  assert (∀ c, rank c < rank (f x) → filter (λ x, f x = c) l = []) as Hn.
  { intros c Hc. apply filter_none. eapply Forall_impl; [exact Hx|].
    intros y ?%Hmon Hy. rewrite Hy in *. lia. }
  rewrite !filter_cons.
  destruct (f x) eqn:E; simpl; (repeat rewrite decide_False by done); rewrite ?decide_True by done;
    rewrite ?(Hn Lt), ?(Hn Eq) in * by (simpl; lia); simpl in *; by f_equal.
Qed.

Lemma rank_nonneg c : 0 <= rank c.
Proof. by destruct c. Qed.

Lemma ascii_head b s : ascii (b :: s) ↔ 0 < b < 128 ∧ ascii s.
Proof. unfold ascii. by rewrite Forall_cons. Qed.

Lemma prefix_cmp_Eq p w : ascii p → ascii w → prefix_cmp p w = Eq ↔ p `prefix_of` w.
Proof.
  revert w. induction p as [|c p IH]; intros w Hp Hw; [split; [intros; apply prefix_nil|done]|].
  apply ascii_head in Hp as [Hc Hp]. cbn [prefix_cmp].
  destruct w as [|b w]; simpl; [split; [done|by intros ?%prefix_nil_not]|].
  apply ascii_head in Hw as [Hb Hw]. destruct (Z.eqb_spec b 0); [lia|].
  destruct (Z.eqb_spec c b) as [->|Hne]; simpl.
  - rewrite IH by done. split; [by apply prefix_cons|]. by intros ?%prefix_cons_inv_2.
  - split; [intros ?%Z.compare_eq_iff; congruence|]. by intros ?%prefix_cons_inv_1.
Qed.

Lemma prefix_cmp_monotone p w1 w2 : ascii w1 → ascii w2 → bytes_lt w1 w2 = true →
  rank (prefix_cmp p w1) <= rank (prefix_cmp p w2).
Proof.
  revert w1 w2. induction p as [|c p IH]; intros w1 w2 H1 H2 Hlt; [done|]. cbn [prefix_cmp].
  destruct w1 as [|b1 w1]; cbn [head tail default].
  { rewrite Z.eqb_refl. apply rank_nonneg. }
  destruct w2 as [|b2 w2]; [done|]. cbn [head tail default bytes_lt id] in *.
  apply ascii_head in H1 as [? ?], H2 as [? ?].
  destruct (Z.eqb_spec b1 0), (Z.eqb_spec b2 0); try lia.
  apply orb_true_iff in Hlt as [Hlt%Z.ltb_lt|[->%Z.eqb_eq Hlt]%andb_true_iff];
    [|destruct (c =? b2); simpl; [auto|lia]].
  destruct (Z.eqb_spec c b1), (Z.eqb_spec c b2); simpl; try lia.
  - assert ((b2 ?= c) = Gt) as -> by (apply Z.compare_gt_iff; lia). destruct (prefix_cmp p w1); simpl; lia.
  - assert ((b1 ?= c) = Lt) as -> by (apply Z.compare_lt_iff; lia). destruct (prefix_cmp p w2); simpl; lia.
  - destruct (Z.compare_spec b1 c), (Z.compare_spec b2 c); simpl; lia.
Qed.

(** ** Filtering by a prefix *)
Section Filter.
Context (ws : list (list Z)) (Hord : in_order ws) (Hasc : Forall ascii ws).

Abbreviation with_prefix p := (filter (λ w, p `prefix_of` w) ws).

Lemma in_order_ascii : StronglySorted (λ a b, ascii a ∧ ascii b ∧ bytes_lt a b = true) ws.
Proof.
  clear -Hord Hasc. induction Hord as [|w ws Hs IH Hw]; constructor; inversion Hasc; subst; [auto|].
  rewrite Forall_forall in Hw |- *. intros v Hv. split_and!; [done| |auto]. by eapply Forall_forall in Hv.
Qed.

Lemma filter_prefix_spec n p : ascii p →
  filter_prefix (mkWordlist ws n) p = Ok (mkWordlist (with_prefix p) (len p)).
Proof.
  intros Hp. unfold filter_prefix. cbn [words].
  assert (with_prefix p = filter (λ w, prefix_cmp p w = Eq) ws) as ->.
  { apply filter_elem_iff. intros w Hw. symmetry. apply prefix_cmp_Eq; [done|]. by eapply Forall_forall in Hasc. }
  pose proof (sorted_ranks _ (prefix_cmp p) ws (λ x y H, prefix_cmp_monotone p x y (proj1 H) (proj1 (proj2 H)) (proj2 (proj2 H)))
    in_order_ascii) as Hcut.
  set (A := filter (λ w, prefix_cmp p w = Lt) ws) in *. set (B := filter (λ w, prefix_cmp p w = Eq) ws) in *.
  set (C := filter (λ w, prefix_cmp p w = Gt) ws) in *.
  assert (∀ c w, w ∈ filter (λ w, prefix_cmp p w = c) ws → prefix_cmp p w = c) as Hf.
  { by intros c w [? ?]%list_elem_of_filter. }
  rewrite Hcut. rewrite (partition_point_spec _ A (B ++ C)), (app_assoc A), (partition_point_spec _ (A ++ B) C).
  - rewrite length_app, Nat2Z.inj_add, <- app_assoc. by rewrite slice_app_mid.
  - apply Forall_app. split; apply Forall_forall; intros w Hw; by rewrite (Hf _ w Hw).
  - apply Forall_forall. intros w Hw. by rewrite (Hf _ w Hw).
  - apply Forall_forall. intros w Hw. by rewrite (Hf _ w Hw).
  - apply Forall_app. split; apply Forall_forall; intros w Hw; by rewrite (Hf _ w Hw).
Qed.
End Filter.

(** ** The letters that can follow *)

(** [c] continues [p] towards a word of the list. *)
Definition continues (ws : list (list Z)) (p : list Z) (c : Z) : Prop :=
  ∃ w, w ∈ ws ∧ (p ++ [c]) `prefix_of` w.

Lemma prefix_snoc_not (p : list Z) c : ¬ (p ++ [c]) `prefix_of` p.
Proof. intros [k Hk%(f_equal length)]. rewrite !length_app in Hk. simpl in Hk. lia. Qed.

Lemma prefix_next (p w : list Z) : p `prefix_of` w → w = p ∨ ∃ c, (p ++ [c]) `prefix_of` w.
Proof.
  intros [[|c k] ->]; [left; by rewrite app_nil_r|right]. exists c. exists k. by rewrite <- app_assoc.
Qed.

Lemma next_letter p w c : ascii w → (p ++ [c]) `prefix_of` w →
  len p < len w ∧ getZ (chars w) (len p) = Some [c] ∧ 0 < c < 128.
Proof.
  intros Ha [k ->]. rewrite chars_ascii by done. rewrite !length_app. split; [simpl; lia|].
  rewrite getZ_nat, list_lookup_fmap, <- app_assoc, lookup_app_r, Nat.sub_diag by lia. split; [done|].
  unfold ascii in Ha. rewrite !Forall_app in Ha. destruct Ha as [[_ Hc] _]. by inversion Hc.
Qed.

Lemma next_in_order (p : list Z) w1 w2 c1 c2 :
  bytes_lt w1 w2 = true → (p ++ [c1]) `prefix_of` w1 → (p ++ [c2]) `prefix_of` w2 → c1 <= c2.
Proof.
  intros Hlt [k1 ->] [k2 ->]. rewrite <- !app_assoc in Hlt. simpl in Hlt.
  induction p as [|x p IH]; simpl in Hlt.
  - apply orb_true_iff in Hlt as [?%Z.ltb_lt|[?%Z.eqb_eq _]%andb_true_iff]; lia.
  - rewrite Z.ltb_irrefl, Z.eqb_refl in Hlt. auto.
Qed.

(** A list whose words all start with [p]: the letters found are exactly those
    that continue [p], each once, in alphabetical order. *)
Lemma letters_loop_spec p ws prev :
  in_order ws → Forall ascii ws → Forall (λ w, p `prefix_of` w) ws →
  0 <= prev → (∀ c, continues ws p c → prev <= c) →
  ∃ cs, letters_loop (len p) [prev] ws = Ok ((λ c, [c]) <$> cs) ∧
    StronglySorted Z.lt (prev :: cs) ∧ ∀ c, c ∈ cs ↔ continues ws p c ∧ c ≠ prev.
Proof.
  intros Ho. revert prev. induction Ho as [|w ws Ho IH Hw]; intros prev Ha Hp H0 Hprev.
  { exists []. split_and!; [done|by repeat constructor|]. intros c. split; [by intros ?%not_elem_of_nil|].
    intros [(w & []%not_elem_of_nil & _) _]. }
  inversion Ha as [|?? Haw Haws]; subst. inversion Hp as [|?? Hpw Hpws]; subst. cbn [letters_loop].
  assert (∀ c, continues ws p c → continues (w :: ws) p c) as Hsub.
  { intros c (v & Hv & Hc). exists v. split; [by right|done]. }
  destruct (prefix_next p w Hpw) as [->|[c Hc]].
  - rewrite Z.leb_refl. destruct (IH prev) as (cs & Heq & Hs & Hin); [done|done|done|auto|].
    exists cs. split_and!; [done|done|]. intros c. rewrite Hin. split; [by intros [? ?]; auto|].
    intros [(v & [->|Hv]%elem_of_cons & Hc) Hne]; [|split; [by exists v|done]].
    by destruct (prefix_snoc_not _ _ Hc).
  - destruct (next_letter p w c Haw Hc) as (Hlen & Hget & Hrange).
    destruct (Z.leb_spec (len w) (len p)); [lia|]. rewrite Hget. cbn [or_panic mbind outcome_bind].
    assert (∀ c', continues ws p c' → c <= c') as Hle.
    { intros c' (v & Hv & Hc'). eapply next_in_order; [|exact Hc|exact Hc'].
      rewrite Forall_forall in Hw. by apply Hw. }
    assert (∀ c', continues (w :: ws) p c' ↔ c' = c ∨ continues ws p c') as Hcont.
    { intros c'. split; [|by intros [->|?]; [exists w; split; [by left|done]|auto]].
      intros (v & [->|Hv]%elem_of_cons & Hc'); [left|right; by exists v].
      pose proof (next_letter p w c' Haw Hc') as (_ & Hget' & _). congruence. }
    assert (prev <= c) by (apply Hprev; exists w; split; [by left|done]).
    case_bool_decide as Hne.
    + assert (c ≠ prev) as Hcp by (by intros ->). destruct (IH c) as (cs & -> & Hs & Hin); [done|done|lia|done|]. cbn.
      exists (c :: cs). split; [done|split].
      * constructor; [done|]. constructor; [lia|].
        inversion Hs as [|?? _ Hf]; subst. eapply Forall_impl; [exact Hf|]. intros; simpl in *; lia.
      * intros c'. rewrite elem_of_cons, Hin, Hcont.
        split; [|intros [[?|?] ?]; destruct (decide (c' = c)); tauto].
        intros [->|[Hc' ?]]; [by split; [left|]|]. split; [by right|]. specialize (Hle _ Hc'). lia.
    + assert (c = prev) as -> by congruence.
      destruct (IH prev) as (cs & -> & Hs & Hin); [done|done|done|done|]. exists cs. split_and!; [done|done|].
      intros c'. rewrite Hin, Hcont. split; [by intros [? ?]; auto|]. by intros [[->|?] ?].
Qed.

(** ** Completion masks *)
Lemma foldl_lor {A} (f : A → bool) (g : A → Z) l a k :
  Z.testbit (foldl (λ r x, if f x then Z.lor r (g x) else r) a l) k =
  Z.testbit a k || existsb (λ x, f x && Z.testbit (g x) k) l.
Proof.
  revert a. induction l as [|x l IH]; intros a; simpl; [by rewrite orb_false_r|].
  rewrite IH. destruct (f x); simpl; [by rewrite Z.lor_spec, orb_assoc|done].
Qed.

Lemma shiftl_1_testbit n k : 0 <= n → Z.testbit (Z.shiftl 1 n) k = (k =? n).
Proof.
  intros Hn. rewrite Z.shiftl_1_l. destruct (Z.eqb_spec k n) as [->|]; [by apply Z.pow2_bits_true|].
  by apply Z.pow2_bits_false.
Qed.

Lemma letter_bit_testbit c k : 0 <= k < 26 → Z.testbit (letter_bit c) k = (c =? 97 + k).
Proof.
  intros Hk. unfold letter_bit.
  destruct (Z.leb_spec 97 c), (Z.leb_spec c 122); cbn [andb];
    try (rewrite Z.bits_0; symmetry; apply Z.eqb_neq; lia).
  rewrite shiftl_1_testbit by lia. destruct (Z.eqb_spec k (c - 97)), (Z.eqb_spec c (97 + k)); lia || done.
Qed.

Lemma prefix_snoc_get (p w : list Z) c : p `prefix_of` w → (p ++ [c]) `prefix_of` w ↔ getZ w (len p) = Some c.
Proof.
  intros [k ->]. rewrite getZ_nat, lookup_app_r, Nat.sub_diag by lia. split.
  - intros [k' Hk]. rewrite <- app_assoc in Hk. apply app_inv_head in Hk as ->. done.
  - destruct k as [|x k]; [done|]. intros [= ->]. exists k. by rewrite <- app_assoc.
Qed.

Lemma completion_mask_spec ws p k :
  Forall ascii ws → ascii p → p ≠ [] → 0 <= k < 26 →
  Z.testbit (word_completion_mask ws p) k = true ↔ continues ws p (97 + k).
Proof.
  intros Ha Hp Hne Hk. unfold word_completion_mask, mnemonic_word_completion_mask.
  destruct p as [|b p']; [done|]. set (p := b :: p') in *.
  destruct (Z.leb_spec (len p) 0); [unfold p in *; simpl in *; lia|].
  rewrite foldl_lor, Z.bits_0, orb_false_l, existsb_exists. unfold continues.
  apply exist_proper. intros w. rewrite <- list_elem_of_In. split.
  - intros [Hw [Hs Hb]%andb_true_iff]. split; [done|]. unfold same_prefix in Hs.
    destruct (prefix_cmp p w) eqn:E; try done. apply prefix_cmp_Eq in E; [|done|by eapply Forall_forall in Ha].
    rewrite letter_bit_testbit in Hb by done. apply Z.eqb_eq in Hb.
    apply prefix_snoc_get; [done|]. destruct (getZ w (len p)) eqn:E'; simpl in *; [by f_equal|lia].
  - intros [Hw Hc]. split; [done|]. assert (p `prefix_of` w) as Hpw by (by eapply prefix_app_l).
    apply (prefix_snoc_get _ _ _ Hpw) in Hc. rewrite Hc. apply andb_true_iff. split.
    + unfold same_prefix. by rewrite (proj2 (prefix_cmp_Eq p w Hp ltac:(by eapply Forall_forall in Ha)) Hpw).
    + rewrite letter_bit_testbit by done. apply Z.eqb_refl.
Qed.

(** ** The words of BIP-39 *)

(** The checks of the tables, by computation. *)
Fixpoint ascending (ws : list (list Z)) : bool :=
  match ws with
  | a :: (b :: _) as rest => bytes_lt a b && ascending rest
  | _ => true
  end.

Lemma ascending_in_order ws : ascending ws = true → in_order ws.
Proof.
  intros Hws. apply Sorted_StronglySorted; [intros a b c; apply bytes_lt_trans|].
  induction ws as [|a [|b ws] IH]; [constructor|by repeat constructor|].
  apply andb_true_iff in Hws as [Hab Hws]. constructor; [by apply IH|by constructor].
Qed.

Lemma bip39_in_order : in_order BIP39_WORDLIST_ENGLISH.
Proof. apply ascending_in_order. vm_compute. reflexivity. Qed.

Lemma bip39_ascii : Forall ascii BIP39_WORDLIST_ENGLISH.
Proof. apply (bool_decide_unpack _). vm_compute. exact Logic.I. Qed.

Lemma in_order_filter P `{∀ w, Decision (P w)} (ws : list (list Z)) : in_order ws → in_order (filter P ws).
Proof.
  induction 1 as [|w ws Hs IH Hw]; [constructor|]. rewrite filter_cons. case_decide; [|done].
  constructor; [done|]. apply Forall_forall. intros v [_ Hv]%list_elem_of_filter. by eapply Forall_forall in Hw.
Qed.

(** The words with a prefix, and the letters that can follow it. *)
Section Found.
Context (ws : list (list Z)) (p : list Z) (Hord : in_order ws) (Hasc : Forall ascii ws).
Abbreviation found := (filter (λ w, p `prefix_of` w) ws).

Lemma found_ascii : Forall ascii found.
Proof. apply Forall_forall. intros w [_ Hw]%list_elem_of_filter. by eapply Forall_forall in Hasc. Qed.

Lemma found_continues c : continues found p c ↔ continues ws p c.
Proof.
  apply exist_proper. intros w. rewrite list_elem_of_filter.
  split; [naive_solver|]. intros [? Hw]. split_and!; [by eapply prefix_app_l|done..].
Qed.

Lemma available_letters_spec : ∃ cs, get_available_letters (mkWordlist found (len p)) = Ok ((λ c, [c]) <$> cs) ∧
  StronglySorted Z.lt cs ∧ ∀ c, c ∈ cs ↔ continues ws p c.
Proof.
  assert (∀ c, continues found p c → 0 < c) as Hpos.
  { intros c (w & Hw & Hcw). pose proof found_ascii as Haf. eapply Forall_forall in Haf; [|exact Hw].
    apply next_letter in Hcw; [lia|done]. }
  destruct (letters_loop_spec p found 0) as (cs & Heq & Hs & Hin).
  - by apply in_order_filter.
  - apply found_ascii.
  - apply Forall_forall. by intros w [? ?]%list_elem_of_filter.
  - done.
  - intros c Hc%Hpos. lia.
  - exists cs. split_and!; [exact Heq|by inversion Hs|]. intros c. rewrite Hin, found_continues.
    split; [by intros [? _]|]. intros Hc. split; [done|]. apply found_continues, Hpos in Hc. lia.
Qed.
End Found.

(** C40. Completion of a word: on a list of words in alphabetical order, as the
    one of the firmware, filtering keeps exactly the words with the prefix and
    filtering further gives the same as filtering the whole list; the letters
    offered are exactly those that continue the prefix towards a word, in
    order and once each; the word suggested for a prefix is its first word, the
    number of options is the number of its words, and the bits of the
    completion mask are the letters that can follow. *)
Theorem word_completion ws p :
  in_order ws → Forall ascii ws → ascii p →
  let found := filter (λ w, p `prefix_of` w) ws in
  (∀ n, filter_prefix (mkWordlist ws n) p = Ok (mkWordlist found (len p))) ∧
  (∀ q, ascii q → p `prefix_of` q →
     filter_prefix (mkWordlist found (len p)) q = filter_prefix (mkWordlist ws 0) q) ∧
  (∃ cs, get_available_letters (mkWordlist found (len p)) = Ok ((λ c, [c]) <$> cs) ∧
     StronglySorted Z.lt cs ∧ ∀ c, c ∈ cs ↔ continues ws p c) ∧
  (p ≠ [] → complete_word ws p = Ok (head found) ∧ options_num ws p = Ok (Some (len found)) ∧
     ∀ k, 0 <= k < 26 → (Z.testbit (word_completion_mask ws p) k = true ↔ continues ws p (97 + k))).
Proof.
  intros Ho Ha Hp found. split_and!.
  - intros n. by apply filter_prefix_spec.
  - intros q Hq Hpq. rewrite !filter_prefix_spec by (done || by apply in_order_filter || by apply found_ascii).
    do 2 f_equal. unfold found.
    rewrite list_filter_filter. apply filter_elem_iff. intros w _. split; [naive_solver|].
    intros. split; [done|]. by etrans.
  - by apply available_letters_spec.
  - intros Hne. unfold complete_word, options_num, wordlist_new. rewrite filter_prefix_spec by done.
    rewrite !bool_decide_eq_false_2 by done. split_and!; [done|done|]. intros. by apply completion_mask_spec.
Qed.

(** The words zone and zoo start with zo. *)
Lemma word_completion_witness :
  filter_prefix (mkWordlist BIP39_WORDLIST_ENGLISH 0) [122; 111] =
    Ok (mkWordlist [[122; 111; 110; 101]; [122; 111; 111]] (len [122; 111])).
Proof.
  assert (ascii [122; 111]) as Hp by (apply (bool_decide_unpack _); vm_compute; exact Logic.I).
  destruct (word_completion BIP39_WORDLIST_ENGLISH [122; 111] bip39_in_order bip39_ascii Hp) as [Hf _].
  rewrite (Hf 0). vm_compute. reflexivity.
Defined.

(** ** Properties of the SLIP-39 words

    Words are entered by the keys of a keyboard with several letters on each
    key; the searches in the table of key sequences find exactly the words
    with the keys entered so far. *)
(** [p], read as keys, is what has been entered of the sequence [s] of four. *)
Definition entered (p s : Z) : Prop := p = s ∨ p = s / 10 ∨ p = s / 100 ∨ p = s / 1000.

#[export] Instance entered_dec p s : Decision (entered p s).
Proof. unfold entered. apply _. Defined.

(** Four keys, from 1 to 9. *)
Definition four_keys (s : Z) : Prop :=
  1000 <= s <= 9999 ∧ 1 <= s `mod` 10 ∧ 1 <= (s / 10) `mod` 10 ∧ 1 <= (s / 100) `mod` 10.

#[export] Instance four_keys_dec s : Decision (four_keys s).
Proof. unfold four_keys. apply _. Defined.

(** A number of [k] digits. *)
Definition digits_of (k p : Z) : Prop := 1 <= k <= 4 ∧ 10 ^ (k - 1) <= p < 10 ^ k.

Lemma digits_cases p : 1 <= p <= 9999 → ∃ k, digits_of k p.
Proof.
  intros Hp. unfold digits_of.
  destruct (Z.lt_ge_cases p 10); [exists 1; cbn; lia|]. destruct (Z.lt_ge_cases p 100); [exists 2; cbn; lia|].
  destruct (Z.lt_ge_cases p 1000); [exists 3; cbn; lia|]. exists 4. cbn. lia.
Qed.

Lemma digits_values k p : digits_of k p →
  (k = 1 ∧ 1 <= p < 10) ∨ (k = 2 ∧ 10 <= p < 100) ∨ (k = 3 ∧ 100 <= p < 1000) ∨ (k = 4 ∧ 1000 <= p < 10000).
Proof.
  intros [Hk Hp]. assert (k = 1 ∨ k = 2 ∨ k = 3 ∨ k = 4) as [->|[->|[->| ->]]] by lia; cbn in Hp; lia.
Qed.

(** What is entered is a range of sequences. *)
Lemma entered_range k p s : digits_of k p → 1000 <= s <= 9999 →
  entered p s ↔ p * 10 ^ (4 - k) <= s < (p + 1) * 10 ^ (4 - k).
Proof.
  intros Hk Hs. unfold entered.
  destruct (digits_values k p Hk) as [[-> Hp]|[[-> Hp]|[[-> Hp]|[-> Hp]]]]; cbn; Z.to_euclidean_division_equations; lia.
Qed.

Lemma entered_next k p s d : digits_of k p → 1000 <= s <= 9999 → 1 <= d <= 9 → k <= 3 →
  entered (10 * p + d) s ↔ s / 10 ^ (3 - k) = 10 * p + d.
Proof.
  intros Hk Hs Hd Hk3. unfold entered.
  destruct (digits_values k p Hk) as [[-> Hp]|[[-> Hp]|[[-> Hp]|[-> Hp]]]]; cbn; Z.to_euclidean_division_equations; lia.
Qed.

(** Computes a loop on small numbers: no arithmetic wraps around. *)
Ltac small_loop :=
  repeat match goal with
  | |- context [wrapu 16 ?z] => rewrite (wrapu_small 16 z) by (unfold in_u; lia)
  | |- context [?a <? 1000] => destruct (Z.ltb_spec a 1000); [|try lia]
  | |- context [?a <=? 1000] => destruct (Z.leb_spec a 1000); [|try lia]
  end; try lia.

Lemma pad_sequence_spec k p : digits_of k p → pad_sequence 4 p 1 = (p * 10 ^ (4 - k), 10 ^ (4 - k)).
Proof.
  intros Hk. destruct (digits_values k p Hk) as [[-> Hp]|[[-> Hp]|[[-> Hp]|[-> Hp]]]]; cbn [pad_sequence];
    small_loop; rewrite !pair_equal_spec; lia.
Qed.

Lemma widen_spec k p : digits_of k p → k <= 3 →
  widen 4 p (wrapu 16 (p + 1)) 1 = (p * 10 ^ (4 - k), (p + 1) * 10 ^ (4 - k), 10 ^ (4 - k)).
Proof.
  intros Hk Hk3. rewrite wrapu_small by (unfold in_u; destruct (digits_values k p Hk); lia).
  destruct (digits_values k p Hk) as [[-> Hp]|[[-> Hp]|[[-> Hp]|[-> Hp]]]]; cbn [widen]; [| | |lia];
    small_loop; rewrite !pair_equal_spec; lia.
Qed.

Section Table.
Context (slip39 : list (list Z)) (seqs : list (Z * Z)).
Context (Hinc : keys_increasing fst seqs) (Hfour : Forall (λ e, four_keys (fst e)) seqs).
Context (Hidx : Forall (λ e, 0 <= snd e < len slip39) seqs) (Hne : seqs ≠ []).

Lemma sequence_loop_spec s fuel lo hi :
  (lo < hi <= length seqs)%nat → (hi - lo <= fuel)%nat →
  (∀ j e, (j <= lo)%nat → seqs !! j = Some e → fst e < s) →
  (∀ j e, (hi <= j)%nat → seqs !! j = Some e → s <= fst e) →
  ∃ i, sequence_loop seqs fuel lo hi s = Ok i ∧ (i <= length seqs)%nat ∧
    ∀ j e, seqs !! j = Some e → (j < i)%nat ↔ fst e < s.
Proof.
  revert lo hi. induction fuel as [|fuel IH]; intros lo hi Hlh Hf Hlo Hhi; [lia|]. cbn [sequence_loop].
  destruct (Nat.ltb_spec 1 (hi - lo)).
  - set (mid := ((hi + lo) / 2)%nat).
    assert (lo < mid < hi)%nat.
    { unfold mid. pose proof (Nat.div_mod (hi + lo) 2 ltac:(lia)). pose proof (Nat.mod_upper_bound (hi + lo) 2). lia. }
    destruct (lookup_lt_is_Some_2 seqs mid ltac:(lia)) as [e He]. rewrite He. cbn [or_panic mbind outcome_bind].
    assert (∀ j e', (j < mid)%nat → seqs !! j = Some e' → fst e' < fst e) as Hb by (intros; by eapply Hinc).
    assert (∀ j e', (mid < j)%nat → seqs !! j = Some e' → fst e < fst e') as Ha by (intros; by eapply Hinc).
    destruct (Z.leb_spec s (fst e)); apply IH; try lia; try done.
    + intros j e' Hj Hj'. destruct (decide (j = mid)) as [->|]; [congruence|]. specialize (Ha j e' ltac:(lia) Hj'). lia.
    + intros j e' Hj Hj'. destruct (decide (j = mid)) as [->|]; [congruence|]. specialize (Hb j e' ltac:(lia) Hj'). lia.
  - exists hi. split_and!; [done|lia|]. intros j e Hj. split; intros Hlt; [apply (Hlo j e); [lia|done]|].
    destruct (Nat.lt_ge_cases j hi); [done|]. specialize (Hhi j e ltac:(lia) Hj). lia.
Qed.

Lemma find_sequence_spec s :
  ∃ i, find_sequence seqs s = Ok i ∧ (i <= length seqs)%nat ∧ ∀ j e, seqs !! j = Some e → (j < i)%nat ↔ fst e < s.
Proof.
  unfold find_sequence. assert (0 < length seqs)%nat by (destruct seqs; [done|simpl; lia]).
  destruct (lookup_lt_is_Some_2 seqs 0 ltac:(lia)) as [e He]. rewrite He. cbn [or_panic mbind outcome_bind].
  destruct (Z.leb_spec s (fst e)).
  - exists 0%nat. split_and!; [done|lia|]. intros j e' Hj. split; [lia|].
    destruct (decide (j = 0%nat)) as [->|]; [intros; congruence || (assert (e = e') by congruence; subst; lia)|].
    pose proof (Hinc 0%nat j e e' ltac:(lia) He Hj). lia.
  - apply sequence_loop_spec; try lia.
    + intros j e' Hj Hj'. assert (j = 0%nat) as -> by lia. assert (e = e') by congruence. subst. lia.
    + intros j e' Hj Hj'%lookup_lt_Some. lia.
Qed.

(** *** The word of a sequence *)

(** The words with the keys entered. *)
Abbreviation matching p := (filter (λ e, entered p (fst e)) seqs).

Lemma four_keys_at j e : seqs !! j = Some e → four_keys (fst e) ∧ 0 <= snd e < len slip39.
Proof. intros Hj. split; [by eapply Forall_lookup_1 in Hfour|by eapply Forall_lookup_1 in Hidx]. Qed.

Lemma head_filter_at {A} (P : A → Prop) `{∀ x, Decision (P x)} (l : list A) i x :
  l !! i = Some x → P x → (∀ j y, (j < i)%nat → l !! j = Some y → ¬ P y) → head (filter P l) = Some x.
Proof.
  revert i. induction l as [|y l IH]; intros [|i] Hx HP Hj; try done.
  - injection Hx as ->. by rewrite filter_cons_True.
  - rewrite filter_cons_False by (apply (Hj 0%nat); [lia|done]). apply (IH i); [done|done|].
    intros j z Hji Hz. apply (Hj (S j)); [lia|done].
Qed.

Lemma matching_at k p j e : digits_of k p → seqs !! j = Some e →
  entered p (fst e) ↔ p * 10 ^ (4 - k) <= fst e < (p + 1) * 10 ^ (4 - k).
Proof. intros Hk Hj. apply entered_range; [done|]. by apply four_keys_at in Hj as [[? _] _]. Qed.

Lemma button_sequence_spec p : 1 <= p <= 9999 →
  button_sequence_to_word slip39 seqs p = Ok (head (matching p) ≫= λ e, getZ slip39 (snd e)).
Proof.
  intros Hp. destruct (digits_cases p Hp) as [k Hk]. unfold button_sequence_to_word, c_button_sequence_to_word.
  destruct (Z.eqb_spec p 0); [lia|]. rewrite (pad_sequence_spec k p Hk).
  destruct (find_sequence_spec (p * 10 ^ (4 - k))) as (i & -> & Hi & Hlt). cbn [mbind outcome_bind].
  assert (0 < 10 ^ (4 - k)) by (destruct Hk; apply Z.pow_pos_nonneg; lia).
  assert ((∀ e, e ∈ seqs → ¬ entered p (fst e)) → head (matching p) = None) as Hnone.
  { intros Hn. rewrite filter_none; [done|]. by apply Forall_forall. }
  destruct (Nat.leb_spec (length seqs) i).
  - rewrite Hnone; [done|]. intros e [j Hj]%list_elem_of_lookup Hin. apply (matching_at k p j e Hk Hj) in Hin.
    pose proof (lookup_lt_Some _ _ _ Hj). apply Hlt in Hj. lia.
  - destruct (lookup_lt_is_Some_2 seqs i ltac:(lia)) as [e He]. rewrite He. cbn [or_panic mbind outcome_bind].
    pose proof (Hlt i e He) as Hge. destruct (Z.leb_spec (10 ^ (4 - k)) (fst e - p * 10 ^ (4 - k))).
    + rewrite Hnone; [done|]. intros e' [j Hj]%list_elem_of_lookup Hin. apply (matching_at k p j e' Hk Hj) in Hin.
      pose proof (Hlt j e' Hj). destruct (decide (j = i)) as [->|]; [assert (e' = e) by congruence; subst; lia|].
      pose proof (Hinc i j e e' ltac:(lia) He Hj). lia.
    + rewrite (head_filter_at _ seqs i e He).
      * cbn [mbind option_bind]. destruct (four_keys_at i e He) as [_ Hin].
        apply getZ_is_Some in Hin as [w Hw]. by rewrite Hw.
      * apply (matching_at k p i e Hk He). lia.
      * intros j e' Hji Hj Hin. apply (matching_at k p j e' Hk Hj) in Hin. apply Hlt in Hj. lia.
Qed.

(** *** The keys that can follow *)

Lemma key_bit_testbit s m d : four_keys s → m = 1 ∨ m = 10 ∨ m = 100 → 0 <= d →
  Z.testbit (key_bit m s) d = (d + 1 =? (s / m) `mod` 10).
Proof.
  intros Hs Hm Hd. unfold key_bit. set (digit := (s / m) `mod` 10).
  assert (1 <= digit <= 9).
  { unfold digit. destruct Hs as (? & ? & ? & ?).
    assert ((s / m) `mod` 10 < 10) by (apply Z.mod_pos_bound; lia).
    destruct Hm as [->|[->| ->]]; [rewrite Z.div_1_r in *|..]; lia. }
  rewrite wrapu_small.
  - rewrite shiftl_1_testbit by lia. destruct (Z.eqb_spec d (digit - 1)), (Z.eqb_spec (d + 1) digit); lia || done.
  - unfold in_u. rewrite Z.shiftl_1_l. split; [lia|]. apply Z.pow_lt_mono_r; lia.
Qed.

Lemma foldM_bits m a l :
  (∀ i, i ∈ l → is_Some (seqs !! i)) → m = 1 ∨ m = 10 ∨ m = 100 →
  ∃ r, foldM (λ bitmap i, e ← or_panic (seqs !! i); Ok (Z.lor bitmap (key_bit m (fst e)))) a l
         = (Ok r : outcome Empty_set Z) ∧
    ∀ d, 0 <= d → Z.testbit r d = true ↔
      Z.testbit a d = true ∨ ∃ i e, i ∈ l ∧ seqs !! i = Some e ∧ d + 1 = (fst e / m) `mod` 10.
Proof.
  intros Hl Hm. revert a. induction l as [|i l IH]; intros a.
  { exists a. split; [done|]. intros d Hd. split; [by left|]. intros [?|(i & e & []%not_elem_of_nil & _)]; done. }
  destruct (Hl i (list_elem_of_here _ _)) as [e He]. cbn [foldM]. rewrite He. cbn [or_panic mbind outcome_bind].
  destruct (IH ltac:(intros; apply Hl; by right) (Z.lor a (key_bit m (fst e)))) as (r & -> & Hr).
  exists r. split; [done|]. intros d Hd. rewrite Hr, Z.lor_spec, orb_true_iff by done.
  rewrite key_bit_testbit, Z.eqb_eq by (done || apply (four_keys_at i e He)). split.
  - intros [[?|?]|(j & e' & ? & ? & ?)]; [by left| |]; right; [exists i, e|exists j, e']; split_and!; try done; by constructor.
  - intros [?|(j & e' & [->|?]%elem_of_cons & Hj & ?)]; [by left; left|left; right; congruence|].
    right. by exists j, e'.
Qed.

Lemma completion_mask_keys p : 1 <= p <= 9999 →
  ∃ mask, slip39_completion_mask seqs p = Ok (Some mask) ∧
    ∀ d, 1 <= d → Z.testbit mask (d - 1) = true ↔ d <= 9 ∧ ∃ e, e ∈ seqs ∧ entered (10 * p + d) (fst e).
Proof.
  intros Hp. destruct (digits_cases p Hp) as [k Hk]. unfold slip39_completion_mask, slip39_word_completion_mask.
  destruct (Z.leb_spec 1 p), (Z.leb_spec p 9999); try lia. cbn [andb negb].
  destruct (Z.leb_spec 1000 p).
  { exists 0. split; [done|]. intros d Hd. rewrite Z.bits_0. split; [done|].
    intros (_ & e & Hin & He). eapply Forall_forall in Hin; [|exact Hfour]. destruct Hin as [? _].
    unfold entered in He. exfalso. revert He. Z.to_euclidean_division_equations. lia. }
  assert (k <= 3) as Hk3 by (destruct (digits_values k p Hk); lia).
  rewrite (widen_spec k p Hk Hk3). set (m := 10 ^ (4 - k) / 10).
  assert ((m = 1 ∨ m = 10 ∨ m = 100) ∧ m = 10 ^ (3 - k)) as [Hm Hmk].
  { unfold m. destruct (digits_values k p Hk) as [[-> ?]|[[-> ?]|[[-> ?]|[-> ?]]]]; try lia; (split; [vm_compute; auto|reflexivity]). }
  destruct (find_sequence_spec (p * 10 ^ (4 - k))) as (i & -> & Hi & Hlt).
  destruct (find_sequence_spec ((p + 1) * 10 ^ (4 - k))) as (i' & -> & Hi' & Hlt'). cbn [mbind outcome_bind].
  destruct (foldM_bits m 0 (seq i (i' - i))) as (r & -> & Hr); [|done|].
  { intros j Hj%elem_of_seq. apply lookup_lt_is_Some_2. lia. }
  exists r. split; [done|]. intros d Hd. rewrite Hr by lia. rewrite Z.bits_0.
  replace (d - 1 + 1) with d by lia. split.
  - intros [?|(j & e & Hj%elem_of_seq & He & Hdig)]; [done|]. destruct (four_keys_at j e He) as [[Hs _] _].
    assert (d <= 9) by (pose proof (Z.mod_pos_bound (fst e / m) 10); lia). split; [done|].
    exists e. split; [by eapply list_elem_of_lookup_2|]. apply (entered_next k p); [done|done|lia|done|].
    pose proof (Hlt j e He). pose proof (Hlt' j e He). rewrite <- Hmk.
    assert (fst e / m / 10 = p); [|pose proof (Z.div_mod (fst e / m) 10); lia].
    destruct (digits_values k p Hk) as [[-> ?]|[[-> ?]|[[-> ?]|[-> ?]]]]; rewrite Hmk; cbn in *; try lia;
      Z.to_euclidean_division_equations; lia.
  - intros (Hd9 & e & [j Hj]%list_elem_of_lookup & He). right. destruct (four_keys_at j e Hj) as [[Hs _] _].
    apply (entered_next k p) in He; [|done|done|lia|done]. rewrite <- Hmk in He. exists j, e.
    split; [|split; [done|rewrite He; Z.to_euclidean_division_equations; lia]].
    apply elem_of_seq. pose proof (Hlt j e Hj). pose proof (Hlt' j e Hj).
    assert (p * 10 ^ (4 - k) <= fst e < (p + 1) * 10 ^ (4 - k)); [|lia].
    destruct (digits_values k p Hk) as [[-> ?]|[[-> ?]|[[-> ?]|[-> ?]]]]; rewrite Hmk in He; cbn in *; try lia;
      revert He; Z.to_euclidean_division_equations; lia.
Qed.
End Table.

(** ** One key left means one word left

    When two words have the same keys so far, two different keys can follow:
    a table is checked for it by looking at its neighbours only. *)
Definition distinguishing (seqs : list (Z * Z)) : Prop :=
  ∀ p e1 e2, e1 ∈ seqs → e2 ∈ seqs → fst e1 < fst e2 → entered p (fst e1) → entered p (fst e2) →
  ∃ d1 d2 a b, d1 ≠ d2 ∧ (1 <= d1 <= 9) ∧ (1 <= d2 <= 9) ∧ a ∈ seqs ∧ b ∈ seqs ∧
    entered (10 * p + d1) (fst a) ∧ entered (10 * p + d2) (fst b).

Fixpoint dedup (l : list Z) : list Z :=
  match l with
  | a :: (b :: _) as rest => if a =? b then dedup rest else a :: dedup rest
  | _ => l
  end.

Definition pair_ok (m : Z) (D : list Z) (a b : Z) : bool :=
  if negb (a / m =? b / m) then true
  else if negb (a / (m / 10) =? b / (m / 10)) then true
  else match find (λ v, if v / 10 =? a / m then negb (v =? a / (m / 10)) else false) D with
       | Some _ => true
       | None => false
       end.

Fixpoint neighbours_ok (m : Z) (D : list Z) (l : list Z) : bool :=
  match l with
  | a :: (b :: _) as rest => pair_ok m D a b && neighbours_ok m D rest
  | _ => true
  end.

Definition table_ok (seqs : list (Z * Z)) : bool :=
  forallb (λ m, neighbours_ok m (dedup ((λ e, fst e / (m / 10)) <$> seqs)) (fst <$> seqs)) [10; 100; 1000].

Fixpoint increasing (l : list Z) : bool :=
  match l with
  | a :: (b :: _) as rest => (a <? b) && increasing rest
  | _ => true
  end.

Lemma increasing_lookup l i j x y : increasing l = true → (i < j)%nat → l !! i = Some x → l !! j = Some y → x < y.
Proof.
  intros Hl. assert (StronglySorted Z.lt l) as Hs.
  { apply Sorted_StronglySorted; [intros ???; lia|].
    induction l as [|a [|b l] IH]; [constructor|by repeat constructor|].
    apply andb_true_iff in Hl as [Hab%Z.ltb_lt Hl]. constructor; [by apply IH|by constructor]. }
  clear Hl. revert i j. induction Hs as [|a l Hs IH Ha]; intros [|i] [|j] Hij Hi Hj; try done; try lia.
  - injection Hi as ->. by eapply Forall_lookup_1 in Ha.
  - apply (IH i j); [lia|done..].
Qed.

Lemma dedup_elem v l : v ∈ dedup l → v ∈ l.
Proof.
  induction l as [|a [|b l] IH]; [done|done|]. cbn [dedup]. destruct (a =? b).
  - intros ?%IH. by right.
  - intros [->|?%IH]%elem_of_cons; [by left|by right].
Qed.

Lemma neighbours_at m D l i a b :
  neighbours_ok m D l = true → l !! i = Some a → l !! S i = Some b → pair_ok m D a b = true.
Proof.
  revert i. induction l as [|x [|y l] IH]; intros i Hn Ha Hb; [done|by destruct i|].
  apply andb_true_iff in Hn as [Hp Hn]. destruct i as [|i]; [simplify_eq/=; done|]. by apply (IH i).
Qed.

Lemma next_key p s k : digits_of k p → k <= 3 → four_keys s → entered p s →
  let m := 10 ^ (3 - k) in
  s / m / 10 = p ∧ 1 <= (s / m) `mod` 10 <= 9 ∧ entered (10 * p + (s / m) `mod` 10) s.
Proof.
  intros Hk Hk3 Hs He m. pose proof Hs as (Hr & H0 & H1 & H2).
  assert (s / m / 10 = p ∧ 1 <= (s / m) `mod` 10) as [Hp Hd].
  { apply (entered_range k) in He; [|done|done]. unfold m.
    destruct (digits_values k p Hk) as [[-> ?]|[[-> ?]|[[-> ?]|[-> ?]]]]; try lia; cbn in He |- *;
      [split; [|done]..|rewrite Z.div_1_r; split; [|done]]; Z.to_euclidean_division_equations; lia. }
  pose proof (Z.mod_pos_bound (s / m) 10 ltac:(lia)). split_and!; [done|done|lia|].
  apply (entered_next k); [done|done|lia|done|]. fold m. pose proof (Z.div_mod (s / m) 10 ltac:(lia)). lia.
Qed.

Lemma entered_div k p s : digits_of k p → k <= 3 → 1000 <= s <= 9999 → s / 10 ^ (3 - k) / 10 = p → entered p s.
Proof.
  intros Hk Hk3 Hs Hp. apply (entered_range k); [done|done|]. revert Hp.
  destruct (digits_values k p Hk) as [[-> ?]|[[-> ?]|[[-> ?]|[-> ?]]]]; try lia; cbn;
    Z.to_euclidean_division_equations; lia.
Qed.

Lemma table_distinguishing seqs :
  increasing (fst <$> seqs) = true → Forall (λ e, four_keys (fst e)) seqs → table_ok seqs = true → distinguishing seqs.
Proof.
  intros Hinc Hfour Hok p e1 e2 [i Hi]%list_elem_of_lookup [j Hj]%list_elem_of_lookup Hlt He1 He2.
  assert (∀ i e, seqs !! i = Some e → (fst <$> seqs) !! i = Some (fst e)) as Hfst.
  { intros ? ? He. by rewrite list_lookup_fmap, He. }
  assert (∀ i e, seqs !! i = Some e → four_keys (fst e)) as Hf by (intros ?? He; by eapply Forall_lookup_1 in Hfour).
  pose proof (Hf i e1 Hi) as Hf1. pose proof (Hf j e2 Hj) as Hf2.
  assert (1 <= p <= 9999) as Hp.
  { destruct Hf1 as [? _]. revert He1. unfold entered. Z.to_euclidean_division_equations. lia. }
  destruct (digits_cases p Hp) as [k Hk].
  assert (k <= 3) as Hk3.
  { destruct (Z.le_gt_cases k 3); [done|]. apply (entered_range k) in He1, He2; try done; try apply Hf1; try apply Hf2.
    assert (k = 4) as -> by (destruct Hk; lia). cbn in *. lia. }
  assert (i < j)%nat as Hij.
  { destruct (Nat.lt_trichotomy i j) as [?|[->|?]]; [done|assert (e1 = e2) by congruence; subst; lia|].
    pose proof (increasing_lookup _ j i _ _ Hinc ltac:(lia) (Hfst _ _ Hj) (Hfst _ _ Hi)). lia. }
  pose proof (lookup_lt_Some _ _ _ Hj). destruct (lookup_lt_is_Some_2 seqs (S i) ltac:(lia)) as [b Hb].
  assert (fst e1 < fst b <= fst e2) as Hbr.
  { split; [by eapply (increasing_lookup _ i (S i)); eauto|]. destruct (decide (S i = j)) as [<-|]; [assert (b = e2) by congruence; subst; lia|].
    pose proof (increasing_lookup _ (S i) j _ _ Hinc ltac:(lia) (Hfst _ _ Hb) (Hfst _ _ Hj)). lia. }
  pose proof (Hf _ b Hb) as Hfb.
  assert (entered p (fst b)) as Heb.
  { pose proof (proj1 (entered_range k p _ Hk (proj1 Hf1)) He1). pose proof (proj1 (entered_range k p _ Hk (proj1 Hf2)) He2).
    apply (entered_range k); [done|apply Hfb|lia]. }
  destruct (next_key p (fst e1) k Hk Hk3 Hf1 He1) as (Hq1 & Hd1 & Hn1).
  destruct (next_key p (fst b) k Hk Hk3 Hfb Heb) as (Hqb & Hdb & Hnb).
  set (n := 10 ^ (3 - k)) in *.
  assert (∃ c, c ∈ seqs ∧ fst c / n / 10 = p ∧ fst c / n ≠ fst e1 / n) as (c & Hc & Hqc & Hne).
  { assert (pair_ok (10 * n) (dedup ((λ e, fst e / n) <$> seqs)) (fst e1) (fst b) = true) as Hpair.
    { apply (neighbours_at _ _ (fst <$> seqs) i); [|by apply Hfst|by apply Hfst].
      unfold table_ok in Hok. cbn [forallb] in Hok. rewrite !andb_true_iff in Hok. destruct Hok as (H10 & H100 & H1000 & _).
      unfold n. destruct (digits_values k p Hk) as [[-> ?]|[[-> ?]|[[-> ?]|[-> ?]]]]; try lia; assumption. }
    assert (0 < n) by (apply Z.pow_pos_nonneg; lia).
    unfold pair_ok in Hpair. replace (10 * n / 10) with n in Hpair by (rewrite Z.mul_comm, Z.div_mul; lia).
    rewrite !(Z.mul_comm 10 n), <- !Z.div_div in Hpair by lia. rewrite Hq1, Hqb, Z.eqb_refl in Hpair. cbn [negb] in Hpair.
    destruct (Z.eqb_spec (fst e1 / n) (fst b / n)) as [_|Hne]; cbn [negb] in Hpair.
    2: { exists b. split; [by eapply list_elem_of_lookup_2|]. split; [done|lia]. }
    - destruct (find _ _) as [v|] eqn:Hfind; [|done].
      apply find_some in Hfind as [Hv%list_elem_of_In%dedup_elem Hvn].
      destruct (Z.eqb_spec (v / 10) p) as [Hv10|]; [|done]. apply negb_true_iff in Hvn.
      apply list_elem_of_fmap in Hv as (c & -> & Hc). apply Z.eqb_neq in Hvn. by exists c. }
  apply list_elem_of_lookup in Hc as [l Hl]. pose proof (Hf l c Hl) as Hfc.
  assert (entered p (fst c)) as Hec.
  { apply (entered_div k); [done|done|apply Hfc|done]. }
  destruct (next_key p (fst c) k Hk Hk3 Hfc Hec) as (_ & Hdc & Hnc). fold n in Hdc, Hnc.
  eexists _, _, e1, c. split_and!; [|apply Hd1|apply Hd1|apply Hdc|apply Hdc|by eapply list_elem_of_lookup_2..|exact Hn1|exact Hnc].
  intros Heq. pose proof (Z.div_mod (fst e1 / n) 10). pose proof (Z.div_mod (fst c / n) 10). lia.
Qed.

(** ** The table of the firmware *)
Lemma slip39_increasing : increasing (fst <$> words_button_seq) = true.
Proof. vm_compute. reflexivity. Qed.

Lemma slip39_four_keys : Forall (λ e, four_keys (fst e)) words_button_seq.
Proof. apply (bool_decide_unpack _). vm_compute. exact Logic.I. Qed.

Lemma slip39_indices : Forall (λ e, 0 <= snd e < len SLIP39_WORDLIST) words_button_seq.
Proof. apply (bool_decide_unpack _). vm_compute. exact Logic.I. Qed.

Lemma slip39_distinguishing : distinguishing words_button_seq.
Proof. apply table_distinguishing; [exact slip39_increasing|exact slip39_four_keys|]. vm_compute. reflexivity. Qed.

Lemma slip39_keys : keys_increasing fst words_button_seq.
Proof.
  intros i j x y Hij Hx Hy. apply (increasing_lookup (fst <$> words_button_seq) i j); [exact slip39_increasing|done|..];
    by rewrite list_lookup_fmap, ?Hx, ?Hy.
Qed.

(** Two words with the keys entered leave two bits in the mask. *)
Lemma mask_distinguishes seqs p mask e1 e2 :
  keys_increasing fst seqs → distinguishing seqs →
  (∀ d, 1 <= d → Z.testbit mask (d - 1) = true ↔ d <= 9 ∧ ∃ e, e ∈ seqs ∧ entered (10 * p + d) (fst e)) →
  (∀ i j, Z.testbit mask i = true → Z.testbit mask j = true → i = j) →
  e1 ∈ seqs → e2 ∈ seqs → entered p (fst e1) → entered p (fst e2) → e1 = e2.
Proof.
  intros Hinc Hdist Hmask Hone H1 H2 He1 He2.
  assert (∀ e1 e2, e1 ∈ seqs → e2 ∈ seqs → entered p (fst e1) → entered p (fst e2) → ¬ fst e1 < fst e2) as Hno.
  { clear e1 e2 H1 H2 He1 He2. intros e1 e2 H1 H2 He1 He2 Hlt.
    destruct (Hdist p e1 e2) as (d1 & d2 & a & b & Hne & Hd1 & Hd2 & Ha & Hb & Hea & Heb); try done.
    assert (Z.testbit mask (d1 - 1) = true) as Hb1 by (apply Hmask; [lia|split; [lia|by exists a]]).
    assert (Z.testbit mask (d2 - 1) = true) as Hb2 by (apply Hmask; [lia|split; [lia|by exists b]]).
    specialize (Hone _ _ Hb1 Hb2). lia. }
  pose proof (Hno _ _ H1 H2 He1 He2). pose proof (Hno _ _ H2 H1 He2 He1).
  apply list_elem_of_lookup in H1 as [i Hi], H2 as [j Hj].
  destruct (Nat.lt_trichotomy i j) as [Hij|[->|Hij]]; [|congruence|].
  - pose proof (Hinc _ _ _ _ Hij Hi Hj). lia.
  - pose proof (Hinc _ _ _ _ Hij Hj Hi). lia.
Qed.

(** Entering words by keys: with a sorted table of four-key sequences, as
    the one of the firmware, the word found for the keys entered so far is the
    first one whose keys start with them, nothing when there is none; the mask
    has exactly the keys that continue towards a word; and when it leaves at
    most one key, there is at most one such word. *)
Theorem slip39_completion slip39 seqs p :
  keys_increasing fst seqs → Forall (λ e, four_keys (fst e)) seqs →
  Forall (λ e, 0 <= snd e < len slip39) seqs → seqs ≠ [] → distinguishing seqs → 1 <= p <= 9999 →
  button_sequence_to_word slip39 seqs p =
    Ok (head (filter (λ e, entered p (fst e)) seqs) ≫= λ e, getZ slip39 (snd e)) ∧
  ∃ mask, slip39_completion_mask seqs p = Ok (Some mask) ∧
    (∀ d, 1 <= d → Z.testbit mask (d - 1) = true ↔ d <= 9 ∧ ∃ e, e ∈ seqs ∧ entered (10 * p + d) (fst e)) ∧
    ((∀ i j, Z.testbit mask i = true → Z.testbit mask j = true → i = j) →
     ∀ e1 e2, e1 ∈ seqs → e2 ∈ seqs → entered p (fst e1) → entered p (fst e2) → e1 = e2).
Proof.
  intros Hinc Hfour Hidx Hne Hdist Hp. split; [by apply button_sequence_spec|].
  destruct (completion_mask_keys slip39 seqs Hinc Hfour Hidx Hne p Hp) as (mask & Hm & Hbits).
  exists mask. split_and!; [done|done|]. intros Hone e1 e2. by apply (mask_distinguishes seqs p mask).
Qed.

(** The first word entered by the keys 9 and 1. *)
Lemma slip39_completion_witness :
  button_sequence_to_word SLIP39_WORDLIST words_button_seq 91 = Ok (getZ SLIP39_WORDLIST 992).
Proof.
  destruct (slip39_completion SLIP39_WORDLIST words_button_seq 91 slip39_keys slip39_four_keys slip39_indices) as [-> _];
    [discriminate|exact slip39_distinguishing|lia|]. vm_compute. reflexivity.
Defined.
