(* ===== verification/Component.v ===== *)
(** * User interface components

    [ui/event.rs] and [ui/component/base.rs], [pad.rs], [maybe.rs]: the events,
    the context that components report to, and the wrappers [Child], [Root] and
    [Maybe].  A method that changes [self] and the context returns both.
    Painting itself (pixels) is not modelled, the requests for it are. *)
From S2P Require Import Prelude TString Time Geometry.
Local Open Scope Z_scope.

(** Results of component methods: they have no errors but can abort. *)
Abbreviation ui := (outcome Empty_set).

(** ** Events ([ui/event.rs]) *)

(* src: ui/event.rs 7-12 (PhysicalButton) *)
Inductive PhysicalButton := LeftButton | RightButton.

(* src: ui/event.rs 14-25 (ButtonEvent) *)
Inductive ButtonEvent :=
| ButtonPressed (b : PhysicalButton)
| ButtonReleased (b : PhysicalButton)
| HoldStarted
| HoldEnded.

(** [error::Error], as far as the constructors of events use it. *)
Inductive EventError := OutOfRange | IntConversion.

(* src: ui/event.rs 28-40 (ButtonEvent::new) *)
Definition button_event_new (event button : Z) : outcome EventError ButtonEvent :=
  button ← (if button =? 0 then Ok LeftButton
            else if button =? 1 then Ok RightButton
            else Err OutOfRange);
  if event =? 1 then Ok (ButtonPressed button)
  else if event =? 2 then Ok (ButtonReleased button)
  else Err OutOfRange.

(* src: ui/event.rs 43-56 (TouchEvent) *)
Inductive TouchEvent :=
| TouchStart (pos : Point)
| TouchMove (pos : Point)
| TouchEnd (pos : Point)
| TouchAbort.

(** Coordinates come as [u32] and have to fit an [i16]. *)
Definition try_i16 (x : Z) : outcome EventError Z := if x <? 2 ^ 15 then Ok x else Err IntConversion.

(* src: ui/event.rs 58-69 (TouchEvent::new) *)
Definition touch_event_new (event x y : Z) : outcome EventError TouchEvent :=
  x ← try_i16 x;
  y ← try_i16 y;
  let point := mkPoint x y in
  if event =? 1 then Ok (TouchStart point)
  else if event =? 2 then Ok (TouchMove point)
  else if event =? 4 then Ok (TouchEnd point)
  else Err OutOfRange.

(* src: ui/event.rs 71-76 (USBEvent) *)
Inductive USBEvent := Connected (b : bool).

(* src: ui/component/swipe.rs 8-15 (SwipeDirection) *)
Inductive SwipeDirection := SwipeUp | SwipeDown | SwipeLeft | SwipeRight.

#[export] Instance swipe_direction_eq_dec : EqDecision SwipeDirection.
Proof. solve_decision. Defined.

(* src: ui/event.rs 78-84 (SwipeEvent) *)
Inductive SwipeEvent := MoveSwipe (d : SwipeDirection) (progress : Z) | EndSwipe (d : SwipeDirection).

(* src: ui/component/base.rs 482-488 (AttachType) *)
Inductive AttachType := Initial | AttachSwipe (d : SwipeDirection).

(** A [TimerToken] is its number. *)
(* src: ui/component/base.rs 514-529 (TimerToken) *)
Definition TimerToken : Type := Z.
Definition INVALID : TimerToken := 0.

(* src: ui/component/base.rs 490-512 (Event) *)
Inductive Event :=
| Button_ (e : ButtonEvent)
| Touch (e : TouchEvent)
| USB (e : USBEvent)
| Timer (token : TimerToken)
| Progress (value : Z) (description : TString)
| Attach (t : AttachType)
| RequestPaint
| Swipe_ (e : SwipeEvent).

(** ** The event context *)

(* src: ui/button_request.rs 39-43 (ButtonRequest) *)
Record ButtonRequest := mkButtonRequest { code : Z; br_type : TString }.

(* src: ui/component/base.rs 531-543 (EventCtx) *)
Record EventCtx := mkCtx {
  timers : list (TimerToken * Duration);
  next_token : Z;
  place_requested : bool;
  paint_requested : bool;
  anim_frame_scheduled : bool;
  page_count : option Z;
  button_request : option ButtonRequest;
  root_repaint_requested : bool;
  swipe_disable_req : bool;
  swipe_enable_req : bool;
  transition_out : option AttachType
}.

(* src: ui/component/base.rs 547-550 (ANIM_FRAME_TIMER, ANIM_FRAME_DEADLINE) *)
Definition ANIM_FRAME_TIMER : TimerToken := 1.
Definition ANIM_FRAME_DEADLINE : Duration := 1.
(* src: ui/component/base.rs 552-554 (STARTING_TIMER_TOKEN) *)
Definition STARTING_TIMER_TOKEN : Z := 2.
(* src: ui/component/base.rs 556-557 (MAX_TIMERS) *)
Definition MAX_TIMERS : Z := 4.

(* src: ui/component/base.rs 559-574 (EventCtx::new) *)
Definition ctx_new : EventCtx :=
  mkCtx [] STARTING_TIMER_TOKEN true false false None None false false false None.

Section Setters.
Context (ctx : EventCtx).

Definition set_timers (v : list (TimerToken * Duration)) : EventCtx :=
  mkCtx v (next_token ctx) (place_requested ctx) (paint_requested ctx) (anim_frame_scheduled ctx) (page_count ctx)
    (button_request ctx) (root_repaint_requested ctx) (swipe_disable_req ctx) (swipe_enable_req ctx) (transition_out ctx).
Definition set_next_token (v : Z) : EventCtx :=
  mkCtx (timers ctx) v (place_requested ctx) (paint_requested ctx) (anim_frame_scheduled ctx) (page_count ctx)
    (button_request ctx) (root_repaint_requested ctx) (swipe_disable_req ctx) (swipe_enable_req ctx) (transition_out ctx).
Definition set_paint (v : bool) : EventCtx :=
  mkCtx (timers ctx) (next_token ctx) (place_requested ctx) v (anim_frame_scheduled ctx) (page_count ctx)
    (button_request ctx) (root_repaint_requested ctx) (swipe_disable_req ctx) (swipe_enable_req ctx) (transition_out ctx).
Definition set_anim (v : bool) : EventCtx :=
  mkCtx (timers ctx) (next_token ctx) (place_requested ctx) (paint_requested ctx) v (page_count ctx)
    (button_request ctx) (root_repaint_requested ctx) (swipe_disable_req ctx) (swipe_enable_req ctx) (transition_out ctx).
Definition set_pages (v : option Z) : EventCtx :=
  mkCtx (timers ctx) (next_token ctx) (place_requested ctx) (paint_requested ctx) (anim_frame_scheduled ctx) v
    (button_request ctx) (root_repaint_requested ctx) (swipe_disable_req ctx) (swipe_enable_req ctx) (transition_out ctx).
Definition set_request (v : option ButtonRequest) : EventCtx :=
  mkCtx (timers ctx) (next_token ctx) (place_requested ctx) (paint_requested ctx) (anim_frame_scheduled ctx)
    (page_count ctx) v (root_repaint_requested ctx) (swipe_disable_req ctx) (swipe_enable_req ctx) (transition_out ctx).

(* src: ui/component/base.rs 576-581 (EventCtx::request_place) *)
Definition request_place : EventCtx :=
  mkCtx (timers ctx) (next_token ctx) true (paint_requested ctx) (anim_frame_scheduled ctx) (page_count ctx)
    (button_request ctx) (root_repaint_requested ctx) (swipe_disable_req ctx) (swipe_enable_req ctx) (transition_out ctx).

(* src: ui/component/base.rs 589-594 (EventCtx::request_paint) *)
Definition request_paint : EventCtx := set_paint true.

(* src: ui/component/base.rs 611-613 (EventCtx::request_repaint_root) *)
Definition request_repaint_root : EventCtx :=
  mkCtx (timers ctx) (next_token ctx) (place_requested ctx) (paint_requested ctx) (anim_frame_scheduled ctx)
    (page_count ctx) (button_request ctx) true (swipe_disable_req ctx) (swipe_enable_req ctx) (transition_out ctx).

(* src: ui/component/base.rs 647-649 (EventCtx::disable_swipe) *)
Definition disable_swipe : EventCtx :=
  mkCtx (timers ctx) (next_token ctx) (place_requested ctx) (paint_requested ctx) (anim_frame_scheduled ctx)
    (page_count ctx) (button_request ctx) (root_repaint_requested ctx) true (swipe_enable_req ctx) (transition_out ctx).

(* src: ui/component/base.rs 655-657 (EventCtx::enable_swipe) *)
Definition enable_swipe : EventCtx :=
  mkCtx (timers ctx) (next_token ctx) (place_requested ctx) (paint_requested ctx) (anim_frame_scheduled ctx)
    (page_count ctx) (button_request ctx) (root_repaint_requested ctx) (swipe_disable_req ctx) true (transition_out ctx).

(* src: ui/component/base.rs 698-700 (EventCtx::set_transition_out) *)
Definition set_transition_out (attach_type : AttachType) : EventCtx :=
  mkCtx (timers ctx) (next_token ctx) (place_requested ctx) (paint_requested ctx) (anim_frame_scheduled ctx)
    (page_count ctx) (button_request ctx) (root_repaint_requested ctx) (swipe_disable_req ctx) (swipe_enable_req ctx)
    (Some attach_type).

(* src: ui/component/base.rs 663-675 (EventCtx::clear) *)
Definition ctx_clear : EventCtx :=
  mkCtx (timers ctx) (next_token ctx) false false false None None false false false None.

(** The queue has room for four timers; in a release build a timer that does
    not fit is dropped. *)
(* src: ui/component/base.rs 677-684 (EventCtx::register_timer) *)
Definition register_timer (token : TimerToken) (deadline : Duration) : EventCtx :=
  if len (timers ctx) <? MAX_TIMERS then set_timers (timers ctx ++ [(token, deadline)]) else ctx.

(* src: ui/component/base.rs 686-696 (EventCtx::next_timer_token) *)
Definition next_timer_token : TimerToken * EventCtx :=
  (next_token ctx,
   set_next_token (if fits_u 32 (next_token ctx + 1) then next_token ctx + 1 else STARTING_TIMER_TOKEN)).

(* src: ui/component/base.rs 619-623 (EventCtx::set_page_count) *)
Definition set_page_count (count : Z) : EventCtx := set_pages (Some count).

(* src: ui/component/base.rs 625-627 (EventCtx::map_page_count) *)
Definition map_page_count (func : Z → Z) : EventCtx := set_pages (Some (func (default 1 (page_count ctx)))).

(* src: ui/component/base.rs 633-637 (EventCtx::send_button_request) *)
Definition send_button_request (code : Z) (br_type : TString) : EventCtx :=
  set_request (Some (mkButtonRequest code br_type)).

(* src: ui/component/base.rs 639-641 (EventCtx::button_request) *)
Definition take_button_request : option ButtonRequest * EventCtx := (button_request ctx, set_request None).

(* src: ui/component/base.rs 643-645 (EventCtx::pop_timer) *)
Definition pop_timer : option (TimerToken * Duration) * EventCtx :=
  (last (timers ctx), set_timers (removelast (timers ctx))).
End Setters.

(* src: ui/component/base.rs 596-601 (EventCtx::request_timer) *)
Definition request_timer (ctx : EventCtx) (deadline : Duration) : TimerToken * EventCtx :=
  let '(token, ctx) := next_timer_token ctx in
  (token, register_timer ctx token deadline).

(* src: ui/component/base.rs 603-609 (EventCtx::request_anim_frame) *)
Definition request_anim_frame (ctx : EventCtx) : EventCtx :=
  if negb (anim_frame_scheduled ctx) then
    register_timer (set_anim ctx true) ANIM_FRAME_TIMER ANIM_FRAME_DEADLINE
  else ctx.

(** ** The component interface and its wrappers *)

(** [place] positions the component and returns the area it takes, [event]
    returns a message. *)
(* src: ui/component/base.rs 32-73 (Component) *)
Class Component (T Msg : Type) := {
  place : T → Rect → ui (T * Rect);
  event : T → EventCtx → Event → ui (T * EventCtx * option Msg)
}.

(* src: ui/component/base.rs 75-84 (Child) *)
Record Child (T : Type) := mkChild { inner : T; marked_for_paint : bool }.
Arguments mkChild {T} inner marked_for_paint.
Arguments inner {T} c.
Arguments marked_for_paint {T} c.

(* src: ui/component/base.rs 86-92 (Child::new) *)
Definition child_new {T} (component : T) : Child T := mkChild component true.

(* src: ui/component/base.rs 102-124 (Child::mutate) *)
Definition mutate {T U} (self : Child T) (ctx : EventCtx) (component_func : EventCtx → T → ui (T * EventCtx * U))
  : ui (Child T * EventCtx * U) :=
  let prev_requested := paint_requested ctx in
  '(component, ctx, result) ← component_func (set_paint ctx false) (inner self);
  if paint_requested ctx then Ok (mkChild component true, ctx, result)
  else Ok (mkChild component (marked_for_paint self), set_paint ctx prev_requested, result).

(* src: ui/component/base.rs 126-130 (Child::skip_paint) *)
Definition skip_paint {T} (self : Child T) : Child T := mkChild (inner self) false.

Section Wrappers.
Context `{Component T Msg}.

(* src: ui/component/base.rs 135-155 (Child::place, Child::event) *)
#[export] Instance child_component : Component (Child T) Msg := {
  place self bounds :=
    '(c, area) ← place (inner self) bounds;
    Ok (mkChild c (marked_for_paint self), area);
  event self ctx ev :=
    mutate self ctx (λ ctx c,
      let ctx := match ev with RequestPaint => request_paint ctx | _ => ctx end in
      event c ctx ev)
}.

(** Messages raised by the repaint request are not propagated. *)
(* src: ui/component/base.rs 468-479 (ComponentExt::request_complete_repaint) *)
Definition request_complete_repaint (self : T) (ctx : EventCtx) : ui (T * EventCtx) :=
  '(self, ctx, _) ← event self ctx RequestPaint;
  Ok (self, request_paint ctx).
End Wrappers.

(* src: ui/component/base.rs 405-435 (Option::event, Option::place) *)
#[export] Instance option_component `{Component T Msg} : Component (option T) Msg := {
  place self bounds :=
    match self with
    | Some c => '(c, area) ← place c bounds; Ok (Some c, area)
    | None => Ok (None, with_size bounds offset_zero)
    end;
  event self ctx ev :=
    match self with
    | Some c => '(c, ctx, msg) ← event c ctx ev; Ok (Some c, ctx, msg)
    | None => Ok (None, ctx, None)
    end
}.

(** [pad.rs]: an area that is cleared before it is painted on. *)
(* src: ui/component/pad.rs 8-12 (Pad) *)
Record Pad := mkPad { pad_area : Rect; pad_color : Z; pad_clear : bool }.

(* src: ui/component/pad.rs 15-21 (Pad::with_background) *)
Definition with_background (color : Z) : Pad := mkPad rect_zero color false.

(* src: ui/component/pad.rs 23-28 (Pad::with_clear) *)
Definition with_clear (self : Pad) : Pad := mkPad (pad_area self) (pad_color self) true.

(* src: ui/component/pad.rs 30-32 (Pad::place) *)
Definition pad_place (self : Pad) (area : Rect) : Pad := mkPad area (pad_color self) (pad_clear self).

(* src: ui/component/pad.rs 34-36 (Pad::clear) *)
Definition clear_pad (self : Pad) : Pad := mkPad (pad_area self) (pad_color self) true.

(** [maybe.rs]: a component that can be hidden. *)
(* src: ui/component/maybe.rs 8-12 (Maybe) *)
Record Maybe (T : Type) := mkMaybe { maybe_inner : T; pad : Pad; visible : bool }.
Arguments mkMaybe {T} maybe_inner pad visible.
Arguments maybe_inner {T} m.
Arguments pad {T} m.
Arguments visible {T} m.

(* src: ui/component/maybe.rs 15-22 (Maybe::new) *)
Definition maybe_new {T} (bg_color : Z) (inner : T) (visible : bool) : Maybe T :=
  mkMaybe inner (with_background bg_color) visible.

(** [f] applied to the component inside. *)
Definition with_inner {T U} (self : Maybe T) (f : T → ui (T * EventCtx * U)) : ui (Maybe T * EventCtx * U) :=
  '(c, ctx, u) ← f (maybe_inner self); Ok (mkMaybe c (pad self) (visible self), ctx, u).

Section Maybe.
Context `{Component T Msg}.

(* src: ui/component/maybe.rs 37-52 (Maybe::show_if) *)
Definition show_if (self : Maybe T) (ctx : EventCtx) (show : bool) : ui (Maybe T * EventCtx * unit) :=
  if bool_decide (visible self ≠ show) then
    let pad := clear_pad (pad self) in
    if show then
      '(c, ctx) ← request_complete_repaint (maybe_inner self) ctx;
      Ok (mkMaybe c pad show, ctx, tt)
    else Ok (mkMaybe (maybe_inner self) pad show, request_paint ctx, tt)
  else Ok (self, ctx, tt).

(* src: ui/component/maybe.rs 77-89 (Maybe::place, Maybe::event) *)
#[export] Instance maybe_component : Component (Maybe T) Msg := {
  place self bounds :=
    '(c, area) ← place (maybe_inner self) bounds;
    Ok (mkMaybe c (pad_place (pad self) area) (visible self), area);
  event self ctx ev :=
    if visible self then with_inner self (λ c, event c ctx ev) else Ok (self, ctx, None)
}.
End Maybe.

(** The component behind its wrappers. *)
Abbreviation inside c := (maybe_inner (inner c)).
Abbreviation shown c := (visible (inner c)).

(** A method on the component in a [Child], which returns the context only. *)
Definition mutate_ {A} (self : Child A) (ctx : EventCtx) (f : EventCtx → A → A * EventCtx) : ui (Child A * EventCtx) :=
  '(c, ctx, _) ← mutate self ctx (λ ctx c, let '(c, ctx) := f ctx c in Ok (c, ctx, tt));
  Ok (c, ctx).

(** ** Contents in pages *)

(** The operations can change the content, counting the pages included. *)
(* src: ui/component/paginated.rs 19-24 (Paginate) *)
Class Paginate (T : Type) := {
  content_page_count : T → ui (T * Z);
  content_change_page : T → Z → ui T
}.

(** ** The display *)

(** The size of the display. *)
Class Screen := { screen_width : Z; screen_height : Z }.
