(* ===== verification/Containers.v ===== *)
(** * Components made of components

    [ui/component/base.rs] (tuples and [Root]), [map.rs], [placed.rs] and
    [timeout.rs]. *)
From S2P Require Import Prelude TString Time Geometry Component.
Local Open Scope Z_scope.

(** [Option::or_else]: the second component sees the event only when the first
    has no message. *)
Definition event_or {A B Msg} (first : ui (A * EventCtx * option Msg)) (other : EventCtx → ui (B * EventCtx * option Msg))
  (b : B) : ui (A * B * EventCtx * option Msg) :=
  '(a, ctx, msg) ← first;
  match msg with
  | Some _ => Ok (a, b, ctx, msg)
  | None => '(b, ctx, msg) ← other ctx; Ok (a, b, ctx, msg)
  end.

(* src: ui/component/base.rs 315-330 (Component for (T, U)) *)
#[export] Instance pair_component {T U Msg} `{Component T Msg} `{Component U Msg} : Component (T * U) Msg := {
  place self bounds :=
    '(a, area0) ← place (fst self) bounds;
    '(b, area1) ← place (snd self) bounds;
    Ok ((a, b), rect_union area0 area1);
  event self ctx ev :=
    '(a, b, ctx, msg) ← event_or (event (fst self) ctx ev) (λ ctx, event (snd self) ctx ev) (snd self);
    Ok ((a, b), ctx, msg)
}.

(** ** The root of a layout *)

(* src: ui/component/base.rs 210-216 (Root) *)
Record Root (T : Type) := mkRoot { root_inner : option (Child T); marked_for_clear : bool; root_transition_out : option AttachType }.
Arguments mkRoot {T} root_inner marked_for_clear root_transition_out.
Arguments root_inner {T} r.
Arguments marked_for_clear {T} r.
Arguments root_transition_out {T} r.

(* src: ui/component/base.rs 219-225 (Root::new) *)
Definition root_new {T} (component : T) : Root T := mkRoot (Some (child_new component)) true None.

(* src: ui/component/base.rs 255-257 (Root::delete) *)
Definition root_delete {T} (self : Root T) : Root T := mkRoot None (marked_for_clear self) (root_transition_out self).

(** A complete repaint is asked for through a context of its own, and must
    neither give a message nor ask for timers. *)
(* src: ui/component/base.rs 260-285 (Component for Root) *)
#[export] Instance root_component {T Msg} `{Component T Msg} : Component (Root T) Msg := {
  place self bounds :=
    c ← or_panic (root_inner self);
    '(c, area) ← place c bounds;
    Ok (mkRoot (Some c) (marked_for_clear self) (root_transition_out self), area);
  event self ctx ev :=
    c ← or_panic (root_inner self);
    '(c, ctx, msg) ← event c ctx ev;
    '(c, clear) ←
      (if root_repaint_requested ctx then
         '(c, dummy_ctx, paint_msg) ← event c ctx_new RequestPaint;
         match paint_msg, timers dummy_ctx with
         | None, [] => Ok (c, true)
         | _, _ => Panic
         end
       else Ok (c, marked_for_clear self));
    let transition_out := match transition_out ctx with Some t => Some t | None => root_transition_out self end in
    Ok (mkRoot (Some c) clear transition_out, ctx, msg)
}.

(** ** Mapped messages and pages *)

(* src: ui/component/map.rs 7-10 (MsgMap) *)
Record MsgMap (T Msg U : Type) := mkMsgMap { mapped : T; msg_func : Msg → option U }.
Arguments mkMsgMap {T Msg U} mapped msg_func.
Arguments mapped {T Msg U} m.
Arguments msg_func {T Msg U} m.

(* src: ui/component/map.rs 18-31 (Component for MsgMap) *)
#[export] Instance msg_map_component {T Msg U} `{Component T Msg} : Component (MsgMap T Msg U) U := {
  place self bounds :=
    '(c, area) ← place (mapped self) bounds; Ok (mkMsgMap c (msg_func self), area);
  event self ctx ev :=
    '(c, ctx, msg) ← event (mapped self) ctx ev;
    Ok (mkMsgMap c (msg_func self), ctx, msg ≫= msg_func self)
}.

(* src: ui/component/map.rs 70-73 (PageMap) *)
Record PageMap (T : Type) := mkPageMap { paged : T; page_func : Z → Z }.
Arguments mkPageMap {T} paged page_func.
Arguments paged {T} p.
Arguments page_func {T} p.

(* src: ui/component/map.rs 81-96 (Component for PageMap) *)
#[export] Instance page_map_component {T Msg} `{Component T Msg} : Component (PageMap T) Msg := {
  place self bounds :=
    '(c, area) ← place (paged self) bounds; Ok (mkPageMap c (page_func self), area);
  event self ctx ev :=
    '(c, ctx, res) ← event (paged self) ctx ev;
    Ok (mkPageMap c (page_func self), map_page_count ctx (page_func self), res)
}.

(** ** Timeouts *)

(* src: ui/component/timeout.rs 11-14 (Timeout) *)
Record Timeout := mkTimeout { time_ms : Z; timer : option TimerToken }.

(* src: ui/component/timeout.rs 17-22 (Timeout::new) *)
Definition timeout_new (time_ms : Z) : Timeout := mkTimeout time_ms None.

(* src: ui/component/timeout.rs 25-46 (Component for Timeout) *)
#[export] Instance timeout_component : Component Timeout unit := {
  place self _bounds := Ok (self, rect_zero);
  event self ctx ev :=
    match ev with
    | Attach _ =>
      let '(token, ctx) := request_timer ctx (time_ms self) in
      Ok (mkTimeout (time_ms self) (Some token), ctx, None)
    | Timer token =>
      if bool_decide (Some token = timer self) then Ok (mkTimeout (time_ms self) None, ctx, Some tt)
      else Ok (self, ctx, None)
    | _ => Ok (self, ctx, None)
    end
}.

(** ** Placed components *)

(* src: ui/component/placed.rs 7-11 (GridPlaced) *)
Record GridPlaced (T : Type) := mkGridPlaced { grid_inner : T; grid : Grid; grid_cells_ : GridCellSpan }.
Arguments mkGridPlaced {T} grid_inner grid grid_cells_.
Arguments grid_inner {T} g.
Arguments grid {T} g.
Arguments grid_cells_ {T} g.

(* src: ui/component/placed.rs 14-23 (GridPlaced::new) *)
Definition grid_placed_new {T} (inner : T) : GridPlaced T :=
  mkGridPlaced inner (grid_new rect_zero 0 0) (mkSpan (0, 0) (0, 0)).

(* src: ui/component/placed.rs 25-29 (GridPlaced::with_grid) *)
Definition with_grid {T} (self : GridPlaced T) (rows cols : Z) : GridPlaced T :=
  mkGridPlaced (grid_inner self) (mkGrid rows cols (grid_spacing (grid self)) (grid_area (grid self))) (grid_cells_ self).

(* src: ui/component/placed.rs 36-40 (GridPlaced::with_row_col) *)
Definition with_row_col {T} (self : GridPlaced T) (row col : Z) : GridPlaced T :=
  mkGridPlaced (grid_inner self) (grid self) (mkSpan (row, col) (row, col)).

(* src: ui/component/placed.rs 42-46 (GridPlaced::with_from_to) *)
Definition with_from_to {T} (self : GridPlaced T) (from to : Z * Z) : GridPlaced T :=
  mkGridPlaced (grid_inner self) (grid self) (mkSpan from to).

(* src: ui/component/placed.rs 49-62 (Component for GridPlaced) *)
#[export] Instance grid_placed_component {T Msg} `{Component T Msg} : Component (GridPlaced T) Msg := {
  place self bounds :=
    let g := mkGrid (rows (grid self)) (cols (grid self)) (grid_spacing (grid self)) bounds in
    area ← cells g (grid_cells_ self);
    '(c, area) ← place (grid_inner self) area;
    Ok (mkGridPlaced c g (grid_cells_ self), area);
  event self ctx ev :=
    '(c, ctx, msg) ← event (grid_inner self) ctx ev;
    Ok (mkGridPlaced c (grid self) (grid_cells_ self), ctx, msg)
}.

(* src: ui/component/placed.rs 85-94 (FixedHeightBar) *)
Record FixedHeightBar (T : Type) := mkBar { bar_inner : T; bar_height : Z }.
Arguments mkBar {T} bar_inner bar_height.
Arguments bar_inner {T} f.
Arguments bar_height {T} f.

(* src: ui/component/placed.rs 96-109 (Component for FixedHeightBar) *)
#[export] Instance bar_component {T Msg} `{Component T Msg} : Component (FixedHeightBar T) Msg := {
  place self bounds :=
    let '(_, bar) := split_bottom bounds (bar_height self) in
    '(c, area) ← place (bar_inner self) bar;
    Ok (mkBar c (bar_height self), area);
  event self ctx ev :=
    '(c, ctx, msg) ← event (bar_inner self) ctx ev; Ok (mkBar c (bar_height self), ctx, msg)
}.

(* src: ui/component/placed.rs 132-147 (Floating) *)
Record Floating (T : Type) := mkFloating { float_inner : T; float_size : Offset; float_border : Offset; float_align : Alignment2D }.
Arguments mkFloating {T} float_inner float_size float_border float_align.
Arguments float_inner {T} f.
Arguments float_size {T} f.
Arguments float_border {T} f.
Arguments float_align {T} f.

(** Where a floating component goes; it cannot be centered. *)
(* src: ui/component/placed.rs 162-181 (Floating::place) *)
Definition float_area (size border : Offset) (align : Alignment2D) (bounds : Rect) : ui Rect :=
  '(area, bx) ← match fst align with
    | Start => Ok (fst (split_left bounds (ox size)), ox border)
    | Center => Panic
    | End_ => Ok (snd (split_right bounds (ox size)), i16 (- ox border))
    end;
  '(area, by_) ← match snd align with
    | Start => Ok (fst (split_top area (oy size)), oy border)
    | Center => Panic
    | End_ => Ok (snd (split_bottom area (oy size)), i16 (- oy border))
    end;
  Ok (translate area (mkOffset bx by_)).

#[export] Instance floating_component {T Msg} `{Component T Msg} : Component (Floating T) Msg := {
  place self bounds :=
    area ← float_area (float_size self) (float_border self) (float_align self) bounds;
    '(c, area) ← place (float_inner self) area;
    Ok (mkFloating c (float_size self) (float_border self) (float_align self), area);
  event self ctx ev :=
    '(c, ctx, msg) ← event (float_inner self) ctx ev;
    Ok (mkFloating c (float_size self) (float_border self) (float_align self), ctx, msg)
}.

(* src: ui/component/placed.rs 208-225 (Split) *)
Record Split (T U : Type) := mkSplit { split_first : T; split_second : U; split_axis : Axis; split_size : Z; split_spacing : Z }.
Arguments mkSplit {T U} split_first split_second split_axis split_size split_spacing.
Arguments split_first {T U} s.
Arguments split_second {T U} s.
Arguments split_axis {T U} s.
Arguments split_size {T U} s.
Arguments split_spacing {T U} s.

(** The two areas of a split: a positive size is that of the first part, a
    negative one of the second, zero splits in halves. *)
(* src: ui/component/placed.rs 251-273 (Split::place) *)
Definition split_areas (axis : Axis) (size spacing : Z) (bounds : Rect) : Rect * Rect :=
  let size := if size =? 0 then Z.quot (i16 (offset_axis (rect_size bounds) (cross axis) - spacing)) 2 else size in
  let '(first, second) :=
    match axis with
    | Vertical => if 0 <? size then split_left bounds size else split_right bounds (i16 (- size))
    | Horizontal => if 0 <? size then split_top bounds size else split_bottom bounds (i16 (- size))
    end in
  match axis with
  | Vertical => if 0 <? size then (first, inset second (insets_left spacing)) else (inset first (insets_right spacing), second)
  | Horizontal => if 0 <? size then (first, inset second (insets_top spacing)) else (inset first (insets_bottom spacing), second)
  end.

(* src: ui/component/placed.rs 275-279 (Component for Split) *)
#[export] Instance split_component {T U Msg} `{Component T Msg} `{Component U Msg} : Component (Split T U) Msg := {
  place self bounds :=
    let '(first, second) := split_areas (split_axis self) (split_size self) (split_spacing self) bounds in
    '(a, _) ← place (split_first self) first;
    '(b, _) ← place (split_second self) second;
    Ok (mkSplit a b (split_axis self) (split_size self) (split_spacing self), bounds);
  event self ctx ev :=
    '(a, b, ctx, msg) ← event_or (event (split_first self) ctx ev) (λ ctx, event (split_second self) ctx ev) (split_second self);
    Ok (mkSplit a b (split_axis self) (split_size self) (split_spacing self), ctx, msg)
}.
