(* ===== verification/Theme.v ===== *)
(** * The theme of the model T

    [ui/model_tt/theme/mod.rs]: the colors, icons and styles of the buttons
    that the keyboards use.  An icon is the name of its resource file. *)
From S2P Require Import Prelude Time Geometry.
Local Open Scope Z_scope.

(** ** Colors: 5, 6 and 5 bits of red, green and blue *)

(* src: ui/display/color.rs 18-23 (Color::rgb) *)
Definition rgb (r g b : Z) : Z :=
  Z.lor (Z.lor (Z.shiftl (Z.land r 0xF8) 8) (Z.shiftl (Z.land g 0xFC) 3)) (Z.shiftr (Z.land b 0xF8) 3).

(* src: ui/model_tt/theme/mod.rs 24-24 (WHITE) *)
Definition WHITE : Z := rgb 0xFF 0xFF 0xFF.
(* src: ui/model_tt/theme/mod.rs 25-25 (BLACK) *)
Definition BLACK : Z := rgb 0 0 0.
(* src: ui/model_tt/theme/mod.rs 26-26 (FG) *)
Definition FG : Z := WHITE.
(* src: ui/model_tt/theme/mod.rs 27-27 (BG) *)
Definition BG : Z := BLACK.
(* src: ui/model_tt/theme/mod.rs 28-28 (RED) *)
Definition RED : Z := rgb 0xE7 0x0E 0x0E.
(* src: ui/model_tt/theme/mod.rs 29-29 (RED_DARK) *)
Definition RED_DARK : Z := rgb 0xAE 0x09 0x09.
(* src: ui/model_tt/theme/mod.rs 30-30 (YELLOW) *)
Definition YELLOW : Z := rgb 0xD9 0x9E 0x00.
(* src: ui/model_tt/theme/mod.rs 31-31 (YELLOW_DARK) *)
Definition YELLOW_DARK : Z := rgb 0x7A 0x58 0x00.
(* src: ui/model_tt/theme/mod.rs 32-32 (GREEN) *)
Definition GREEN : Z := rgb 0x00 0xAA 0x35.
(* src: ui/model_tt/theme/mod.rs 33-33 (GREEN_DARK) *)
Definition GREEN_DARK : Z := rgb 0x00 0x55 0x1D.
(* src: ui/model_tt/theme/mod.rs 37-37 (GREY_LIGHT) *)
Definition GREY_LIGHT : Z := rgb 0x90 0x90 0x90.
(* src: ui/model_tt/theme/mod.rs 38-38 (GREY_MEDIUM) *)
Definition GREY_MEDIUM : Z := rgb 0x4F 0x4F 0x4F.
(* src: ui/model_tt/theme/mod.rs 39-39 (GREY_DARK) *)
Definition GREY_DARK : Z := rgb 0x35 0x35 0x35.

(* src: ui/model_tt/theme/mod.rs 22-22 (ERASE_HOLD_DURATION) *)
Definition ERASE_HOLD_DURATION : Duration := 1500.

(* src: ui/model_tt/theme/mod.rs 46-46 (RADIUS) *)
Definition RADIUS : Z := 2.

(** ** Sizes *)

(* src: ui/model_tt/theme/mod.rs 645-646 (BUTTON_SPACING, KEYBOARD_SPACING) *)
Definition KEYBOARD_SPACING : Z := 6.
(* src: ui/model_tt/theme/mod.rs 652-652 (PIN_BUTTON_HEIGHT) *)
Definition PIN_BUTTON_HEIGHT : Z := 40.
(* src: ui/model_tt/theme/mod.rs 653-653 (MNEMONIC_BUTTON_HEIGHT) *)
Definition MNEMONIC_BUTTON_HEIGHT : Z := 52.
(* src: ui/model_tt/theme/mod.rs 674-676 (borders) *)
Definition borders : Insets := insets_uniform 6.
(* src: ui/model_tt/theme/mod.rs 642-645 (CONTENT_BORDER, BUTTON_HEIGHT, BUTTON_WIDTH, BUTTON_SPACING) *)
Definition CONTENT_BORDER : Z := 0.
Definition BUTTON_HEIGHT : Z := 50.
Definition BUTTON_WIDTH : Z := 56.
Definition BUTTON_SPACING : Z := 6.

(** ** Icons *)
Inductive Icon :=
| ICON_CANCEL
| ICON_CONFIRM
| ICON_SPACE
| ICON_BACK
| ICON_CLICK
| ICON_LIST_CHECK
| ICON_UP
| ICON_DOWN
| ICON_CORNER_CANCEL
| ICON_CORNER_INFO
| ICON_LOCK_BIG
| IMAGE_BG_BACK_BTN_TALL
| IMAGE_BG_BACK_BTN.

#[export] Instance icon_eq_dec : EqDecision Icon.
Proof. solve_decision. Defined.

(** ** Button styles *)

(* src: ui/display/font.rs 147-159 (Font) *)
Inductive Font := NORMAL | BOLD | MONO | BIG | DEMIBOLD | NORMAL_UPPER | BOLD_UPPER | SUB.

#[export] Instance font_eq_dec : EqDecision Font.
Proof. solve_decision. Defined.

(* src: ui/model_tt/component/button.rs 433-442 (ButtonStyle) *)
Record ButtonStyle := mkStyle {
  font : Font;
  text_color : Z;
  button_color : Z;
  background_color : Z;
  border_color : Z;
  border_radius : Z;
  border_width : Z
}.

#[export] Instance button_style_eq_dec : EqDecision ButtonStyle.
Proof. solve_decision. Defined.

(* src: ui/model_tt/component/button.rs 426-431 (ButtonStyleSheet) *)
Record ButtonStyleSheet := mkSheet { normal : ButtonStyle; active : ButtonStyle; disabled : ButtonStyle }.

#[export] Instance button_sheet_eq_dec : EqDecision ButtonStyleSheet.
Proof. solve_decision. Defined.

(* src: ui/model_tt/theme/mod.rs 167-197 (button_default) *)
Definition button_default : ButtonStyleSheet :=
  mkSheet
    (mkStyle BOLD_UPPER FG GREY_DARK BG BG RADIUS 0)
    (mkStyle BOLD_UPPER FG GREY_MEDIUM BG FG RADIUS 0)
    (mkStyle BOLD_UPPER GREY_LIGHT GREY_DARK BG BG RADIUS 0).

(* src: ui/model_tt/theme/mod.rs 199-229 (button_confirm) *)
Definition button_confirm : ButtonStyleSheet :=
  mkSheet
    (mkStyle BOLD_UPPER FG GREEN BG BG RADIUS 0)
    (mkStyle BOLD_UPPER FG GREEN_DARK BG FG RADIUS 0)
    (mkStyle BOLD_UPPER GREY_LIGHT GREEN_DARK BG BG RADIUS 0).

(* src: ui/model_tt/theme/mod.rs 231-261 (button_cancel) *)
Definition button_cancel : ButtonStyleSheet :=
  mkSheet
    (mkStyle BOLD_UPPER FG RED BG BG RADIUS 0)
    (mkStyle BOLD_UPPER FG RED_DARK BG FG RADIUS 0)
    (mkStyle BOLD_UPPER GREY_LIGHT RED BG BG RADIUS 0).

(* src: ui/model_tt/theme/mod.rs 267-297 (button_reset) *)
Definition button_reset : ButtonStyleSheet :=
  mkSheet
    (mkStyle BOLD_UPPER FG YELLOW BG BG RADIUS 0)
    (mkStyle BOLD_UPPER FG YELLOW_DARK BG FG RADIUS 0)
    (mkStyle BOLD_UPPER FG YELLOW BG BG RADIUS 0).

(* src: ui/model_tt/theme/mod.rs 363-393 (button_pin) *)
Definition button_pin : ButtonStyleSheet :=
  mkSheet
    (mkStyle MONO FG GREY_DARK BG BG RADIUS 0)
    (mkStyle MONO FG GREY_MEDIUM BG FG RADIUS 0)
    (mkStyle MONO GREY_LIGHT BG BG BG RADIUS 0).

(* src: ui/model_tt/theme/mod.rs 395-425 (button_pin_confirm) *)
Definition button_pin_confirm : ButtonStyleSheet :=
  mkSheet
    (mkStyle MONO FG GREEN BG BG RADIUS 0)
    (mkStyle MONO FG GREEN_DARK BG FG RADIUS 0)
    (mkStyle MONO GREY_LIGHT GREY_DARK BG BG RADIUS 0).

(* src: ui/model_tt/theme/mod.rs 427-457 (button_pin_autocomplete) *)
Definition button_pin_autocomplete : ButtonStyleSheet :=
  mkSheet
    (mkStyle MONO FG GREY_DARK BG BG RADIUS 0)
    (mkStyle MONO FG GREEN_DARK BG FG RADIUS 0)
    (mkStyle MONO GREY_LIGHT BG BG BG RADIUS 0).

(* src: ui/model_tt/theme/mod.rs 459-489 (button_suggestion_confirm) *)
Definition button_suggestion_confirm : ButtonStyleSheet :=
  mkSheet
    (mkStyle MONO GREEN_DARK GREEN BG BG RADIUS 0)
    (mkStyle MONO FG GREEN_DARK BG FG RADIUS 0)
    (mkStyle MONO GREY_LIGHT GREY_DARK BG BG RADIUS 0).

(* src: ui/model_tt/theme/mod.rs 491-521 (button_suggestion_autocomplete) *)
Definition button_suggestion_autocomplete : ButtonStyleSheet :=
  mkSheet
    (mkStyle MONO GREY_LIGHT GREY_DARK BG BG RADIUS 0)
    (mkStyle MONO FG GREEN_DARK BG FG RADIUS 0)
    (mkStyle MONO GREY_LIGHT BG BG BG RADIUS 0).
