(* ===== verification/Button.v ===== *)
(** * Buttons and swipes of the model T

    [ui/model_tt/component/button.rs] and [swipe.rs]. *)
From S2P Require Import Prelude TString Time Geometry Component Theme.
Local Open Scope Z_scope.

(** ** Buttons *)

(* src: ui/model_tt/component/button.rs 20-25 (ButtonMsg) *)
Inductive ButtonMsg := Pressed_ | Released_ | Clicked | LongPressed.

#[export] Instance button_msg_eq_dec : EqDecision ButtonMsg.
Proof. solve_decision. Defined.

(* src: ui/model_tt/component/button.rs 409-415 (State) *)
Inductive State := Initial_ | Pressed | Released | Disabled.

#[export] Instance state_eq_dec : EqDecision State.
Proof. solve_decision. Defined.

(** The texts of the keys are static strings. *)
(* src: ui/model_tt/component/button.rs 417-424 (ButtonContent) *)
Inductive ButtonContent :=
| Empty
| Text (text : list Z)
| Icon_ (icon : Icon)
| IconAndText (text : list Z) (icon : Icon)
| IconBlend (bg fg : Icon) (offset : Offset).

#[export] Instance offset_eq_dec : EqDecision Offset.
Proof. solve_decision. Defined.
#[export] Instance button_content_eq_dec : EqDecision ButtonContent.
Proof. solve_decision. Defined.

(* src: ui/model_tt/component/button.rs 27-36 (Button) *)
Record Button := mkButton {
  area : Rect;
  touch_expand : option Insets;
  content : ButtonContent;
  styles : ButtonStyleSheet;
  state : State;
  long_press : option Duration;
  long_timer : option TimerToken;
  haptics : bool
}.

(* src: ui/model_tt/component/button.rs 43-54 (Button::new) *)
Definition button_new (content : ButtonContent) : Button :=
  mkButton rect_zero None content button_default Initial_ None None true.

(* src: ui/model_tt/component/button.rs 56-58 (Button::with_text) *)
Definition with_text (text : list Z) : Button := button_new (Text text).

(* src: ui/model_tt/component/button.rs 60-62 (Button::with_icon) *)
Definition with_icon (icon : Icon) : Button := button_new (Icon_ icon).

(* src: ui/model_tt/component/button.rs 68-70 (Button::with_icon_blend) *)
Definition with_icon_blend (bg fg : Icon) (fg_offset : Offset) : Button := button_new (IconBlend bg fg fg_offset).

(* src: ui/model_tt/component/button.rs 72-74 (Button::empty) *)
Definition button_empty : Button := button_new Empty.

Section Methods.
Context (self : Button).

Definition with_state (s : State) : Button :=
  mkButton (area self) (touch_expand self) (content self) (styles self) s (long_press self) (long_timer self) (haptics self).
Definition with_timer (t : option TimerToken) : Button :=
  mkButton (area self) (touch_expand self) (content self) (styles self) (state self) (long_press self) t (haptics self).

(* src: ui/model_tt/component/button.rs 76-79 (Button::styled) *)
Definition styled (styles : ButtonStyleSheet) : Button :=
  mkButton (area self) (touch_expand self) (content self) styles (state self) (long_press self) (long_timer self) (haptics self).

(* src: ui/model_tt/component/button.rs 81-84 (Button::with_expanded_touch_area) *)
Definition with_expanded_touch_area (expand : Insets) : Button :=
  mkButton (area self) (Some expand) (content self) (styles self) (state self) (long_press self) (long_timer self) (haptics self).

(* src: ui/model_tt/component/button.rs 86-89 (Button::with_long_press) *)
Definition with_long_press (duration : Duration) : Button :=
  mkButton (area self) (touch_expand self) (content self) (styles self) (state self) (Some duration) (long_timer self) (haptics self).

(* src: ui/model_tt/component/button.rs 91-94 (Button::without_haptics) *)
Definition without_haptics : Button :=
  mkButton (area self) (touch_expand self) (content self) (styles self) (state self) (long_press self) (long_timer self) false.

(* src: ui/model_tt/component/button.rs 104-109 (Button::initially_enabled) *)
Definition initially_enabled (enabled : bool) : Button := if negb enabled then with_state Disabled else self.

(* src: ui/model_tt/component/button.rs 160-165 (Button::set) *)
Definition set (ctx : EventCtx) (s : State) : Button * EventCtx :=
  if bool_decide (state self ≠ s) then (with_state s, request_paint ctx) else (self, ctx).

(* src: ui/model_tt/component/button.rs 111-113 (Button::enable) *)
Definition enable (ctx : EventCtx) : Button * EventCtx := set ctx Initial_.

(* src: ui/model_tt/component/button.rs 115-117 (Button::disable) *)
Definition disable (ctx : EventCtx) : Button * EventCtx := set ctx Disabled.

(* src: ui/model_tt/component/button.rs 96-102 (Button::enable_if) *)
Definition enable_if (ctx : EventCtx) (enabled : bool) : Button * EventCtx :=
  if enabled then enable ctx else disable ctx.

(* src: ui/model_tt/component/button.rs 119-124 (Button::is_enabled) *)
Definition is_enabled : bool := match state self with Initial_ | Pressed | Released => true | Disabled => false end.

(* src: ui/model_tt/component/button.rs 126-128 (Button::is_disabled) *)
Definition is_disabled : bool := match state self with Disabled => true | _ => false end.

(* src: ui/model_tt/component/button.rs 130-135 (Button::set_content) *)
Definition set_content (ctx : EventCtx) (c : ButtonContent) : Button * EventCtx :=
  if bool_decide (content self ≠ c) then
    (mkButton (area self) (touch_expand self) c (styles self) (state self) (long_press self) (long_timer self) (haptics self),
     request_paint ctx)
  else (self, ctx).

(* src: ui/model_tt/component/button.rs 141-146 (Button::set_stylesheet) *)
Definition set_stylesheet (ctx : EventCtx) (s : ButtonStyleSheet) : Button * EventCtx :=
  if bool_decide (styles self ≠ s) then (styled s, request_paint ctx) else (self, ctx).

(* src: ui/model_tt/component/button.rs 148-154 (Button::style) *)
Definition style : ButtonStyle :=
  match state self with
  | Initial_ | Released => normal (styles self)
  | Pressed => active (styles self)
  | Disabled => disabled (styles self)
  end.

(* src: ui/model_tt/component/button.rs 293-296 (Button::place) *)
Definition button_place (bounds : Rect) : Button :=
  mkButton bounds (touch_expand self) (content self) (styles self) (state self) (long_press self) (long_timer self) (haptics self).

(** The area that reacts to touches. *)
Definition touch_area : Rect :=
  match touch_expand self with Some expand => outset (area self) expand | None => area self end.
End Methods.

(* src: ui/model_tt/component/button.rs 298-372 (Button::event) *)
Definition button_event (self : Button) (ctx : EventCtx) (event : Event) : Button * EventCtx * option ButtonMsg :=
  let touch_area := touch_area self in
  match event with
  | Touch (TouchStart pos) =>
    match state self with
    | Disabled => (self, ctx, None)
    | _ =>
      if contains touch_area pos then
        let '(self, ctx) := set self ctx Pressed in
        match long_press self with
        | Some duration =>
          let '(token, ctx) := request_timer ctx duration in
          (with_timer self (Some token), ctx, Some Pressed_)
        | None => (self, ctx, Some Pressed_)
        end
      else (self, ctx, None)
    end
  | Touch (TouchMove pos) =>
    match state self with
    | Pressed =>
      if negb (contains touch_area pos) then
        let '(self, ctx) := set self ctx Released in (self, ctx, Some Released_)
      else (self, ctx, None)
    | _ => (self, ctx, None)
    end
  | Touch (TouchEnd pos) =>
    match state self with
    | Initial_ | Disabled => (self, ctx, None)
    | s =>
      let '(self, ctx) := set self ctx Initial_ in
      if bool_decide (s = Pressed) && contains touch_area pos then (self, ctx, Some Clicked)
      else (with_timer self None, ctx, None)
    end
  | Timer token =>
    if bool_decide (long_timer self = Some token) then
      let self := with_timer self None in
      if bool_decide (state self = Pressed) then
        let '(self, ctx) := set self ctx Initial_ in (self, ctx, Some LongPressed)
      else (self, ctx, None)
    else (self, ctx, None)
  | _ => (self, ctx, None)
  end.

#[export] Instance button_component : Component Button ButtonMsg := {
  place self bounds := Ok (button_place self bounds, bounds);
  event self ctx ev := Ok (button_event self ctx ev)
}.

(** ** Swipes *)

(* src: ui/model_tt/component/swipe.rs 17-26 (Swipe) *)
Record Swipe := mkSwipe {
  swipe_area : Rect;
  allow_up : bool;
  allow_down : bool;
  allow_left : bool;
  allow_right : bool;
  origin : option Point
}.

(* src: ui/model_tt/component/swipe.rs 29-30 (DISTANCE, THRESHOLD) *)
Definition DISTANCE : Z := 120.
Definition THRESHOLD : spec_float := f32_div (f32_of 3) (f32_of 10).

(* src: ui/model_tt/component/swipe.rs 32-43 (Swipe::new) *)
Definition swipe_new : Swipe := mkSwipe rect_zero false false false false None.

(* src: ui/model_tt/component/swipe.rs 63-66 (Swipe::left) *)
Definition allow_swipe_left (self : Swipe) : Swipe :=
  mkSwipe (swipe_area self) (allow_up self) (allow_down self) true (allow_right self) (origin self).

(* src: ui/model_tt/component/swipe.rs 68-71 (Swipe::right) *)
Definition allow_swipe_right (self : Swipe) : Swipe :=
  mkSwipe (swipe_area self) (allow_up self) (allow_down self) (allow_left self) true (origin self).

(* src: ui/model_tt/component/swipe.rs 49-51 (Swipe::horizontal) *)
Definition swipe_horizontal : Swipe := allow_swipe_right (allow_swipe_left swipe_new).

(* src: ui/model_tt/component/swipe.rs 73-75 (Swipe::is_active) *)
Definition is_active (self : Swipe) : bool := allow_up self || allow_down self || allow_left self || allow_right self.

(* src: ui/model_tt/component/swipe.rs 77-79 (Swipe::ratio) *)
Definition ratio (dist : Z) : spec_float := f32_min (f32_div (f32_of dist) (f32_of DISTANCE)) (f32_of 1).

Definition with_origin (self : Swipe) (o : option Point) : Swipe :=
  mkSwipe (swipe_area self) (allow_up self) (allow_down self) (allow_left self) (allow_right self) o.

(** The direction of a movement that is long enough, among the allowed ones. *)
Definition swipe_direction (self : Swipe) (movement : Offset) : option SwipeDirection :=
  let abs := offset_abs movement in
  if (oy abs <? ox abs) && (allow_left self || allow_right self) then
    if SFleb THRESHOLD (ratio (ox abs)) then
      if (ox movement <? 0) && allow_left self then Some SwipeLeft
      else if (0 <? ox movement) && allow_right self then Some SwipeRight
      else None
    else None
  else if (ox abs <? oy abs) && (allow_up self || allow_down self) then
    if SFleb THRESHOLD (ratio (oy abs)) then
      if (oy movement <? 0) && allow_up self then Some SwipeUp
      else if (0 <? oy movement) && allow_down self then Some SwipeDown
      else None
    else None
  else None.

(** While the finger moves only the backlight of the display is changed. *)
(* src: ui/model_tt/component/swipe.rs 97-159 (Swipe::event) *)
Definition swipe_event (self : Swipe) (ev : Event) : Swipe * option SwipeDirection :=
  if negb (is_active self) then (self, None)
  else
    match ev, origin self with
    | Touch (TouchStart pos), _ =>
      if contains (swipe_area self) pos then (with_origin self (Some pos), None) else (self, None)
    | Touch (TouchEnd pos), Some origin =>
      (with_origin self None, swipe_direction self (point_sub pos origin))
    | _, _ => (self, None)
    end.

(* src: ui/model_tt/component/swipe.rs 89-95 (Component for Swipe) *)
#[export] Instance swipe_component : Component Swipe SwipeDirection := {
  place self bounds :=
    Ok (mkSwipe bounds (allow_up self) (allow_down self) (allow_left self) (allow_right self) (origin self), bounds);
  event self ctx ev := let '(self, msg) := swipe_event self ev in Ok (self, ctx, msg)
}.
