(* ===== verification/ComponentSpec.v ===== *)
(** * Properties of the user interface components

    Timers of the event context, propagation of paint requests, and the life of
    a button press; and facts about components for the theorems on keyboards. *)
From S2P Require Import Prelude TString Time Geometry Component Containers Theme Button.
Local Open Scope Z_scope.

(** ** Timers *)

(** What components and the layout do to a context. *)
Inductive CtxOp :=
| OpRequestTimer (deadline : Duration)
| OpRequestAnimFrame
| OpPopTimer
| OpRequestPaint
| OpRequestPlace
| OpRepaintRoot
| OpMapPages (func : Z → Z)
| OpButtonRequest (code : Z) (br_type : TString)
| OpTakeButtonRequest
| OpDisableSwipe
| OpEnableSwipe
| OpTransition (t : AttachType)
| OpClear.

(** The operation, with the token of a requested timer. *)
Definition run_op (ctx : EventCtx) (op : CtxOp) : EventCtx * option (TimerToken * Duration) :=
  match op with
  | OpRequestTimer d => let '(token, ctx) := request_timer ctx d in (ctx, Some (token, d))
  | OpRequestAnimFrame => (request_anim_frame ctx, None)
  | OpPopTimer => (snd (pop_timer ctx), None)
  | OpRequestPaint => (request_paint ctx, None)
  | OpRequestPlace => (request_place ctx, None)
  | OpRepaintRoot => (request_repaint_root ctx, None)
  | OpMapPages f => (map_page_count ctx f, None)
  | OpButtonRequest c t => (send_button_request ctx c t, None)
  | OpTakeButtonRequest => (snd (take_button_request ctx), None)
  | OpDisableSwipe => (disable_swipe ctx, None)
  | OpEnableSwipe => (enable_swipe ctx, None)
  | OpTransition t => (set_transition_out ctx t, None)
  | OpClear => (ctx_clear ctx, None)
  end.

(** A run of operations, with the timers requested so far, in order. *)
Definition run_ops (ctx : EventCtx) (ops : list CtxOp) : EventCtx * list (TimerToken * Duration) :=
  foldl (λ '(ctx, issued) op,
    let '(ctx, new) := run_op ctx op in (ctx, issued ++ option_list new)) (ctx, []) ops.

(** How many tokens there are before they repeat. *)
Abbreviation TOKENS := (2 ^ 32 - 2).

(** The tokens are numbers from 2 up, starting again after the last one. *)
Definition nth_token (n : Z) : TimerToken := STARTING_TIMER_TOKEN + n `mod` TOKENS.

Record ctx_ok (ctx : EventCtx) (issued : list (TimerToken * Duration)) : Prop := {
  ok_room : len (timers ctx) <= MAX_TIMERS;
  ok_next : next_token ctx = nth_token (len issued);
  ok_tokens : ∀ i t d, issued !! i = Some (t, d) → t = nth_token (Z.of_nat i);
  ok_queue : ∀ t d, (t, d) ∈ timers ctx → (t, d) ∈ issued ∨ (t, d) = (ANIM_FRAME_TIMER, ANIM_FRAME_DEADLINE)
}.

Lemma nth_token_next n : 0 <= n →
  (if fits_u 32 (nth_token n + 1) then nth_token n + 1 else STARTING_TIMER_TOKEN) = nth_token (n + 1).
Proof.
  intros Hn. unfold nth_token, STARTING_TIMER_TOKEN.
  pose proof (Z.mod_pos_bound n TOKENS ltac:(lia)) as Hb.
  destruct (fits_u 32 (2 + n `mod` TOKENS + 1)) eqn:Hf.
  - apply fits_u_spec in Hf. unfold in_u in Hf. rewrite (Z.add_mod n 1) by lia.
    rewrite (Z.mod_small 1) by lia. rewrite (Z.mod_small (n `mod` TOKENS + 1)); lia.
  - assert (¬ in_u 32 (2 + n `mod` TOKENS + 1)) as Hr by (rewrite <- fits_u_spec; congruence).
    unfold in_u in Hr. assert (n `mod` TOKENS = TOKENS - 1) as Hm by lia.
    rewrite (Z.add_mod n 1), Hm by lia. reflexivity.
Qed.

Lemma register_timer_queue ctx t d x :
  x ∈ timers (register_timer ctx t d) → x ∈ timers ctx ∨ x = (t, d).
Proof.
  unfold register_timer. destruct (len (timers ctx) <? MAX_TIMERS); [|by left].
  cbn. rewrite elem_of_app, list_elem_of_singleton. done.
Qed.

Lemma register_timer_room ctx t d : len (timers ctx) <= MAX_TIMERS →
  len (timers (register_timer ctx t d)) <= MAX_TIMERS ∧ next_token (register_timer ctx t d) = next_token ctx.
Proof.
  intros. unfold register_timer. destruct (Z.ltb_spec (len (timers ctx)) MAX_TIMERS); [|done].
  cbn. rewrite length_app. simpl. split; [lia|done].
Qed.

Lemma removelast_elem {A} (x : A) l : x ∈ removelast l → x ∈ l.
Proof.
  destruct l as [|y l _] using rev_ind; [done|]. rewrite removelast_last, elem_of_app. by left.
Qed.

Lemma run_op_ok ctx issued op :
  ctx_ok ctx issued → let '(ctx', new) := run_op ctx op in ctx_ok ctx' (issued ++ option_list new).
Proof.
  intros [Hr Hn Ht Hq]. destruct op as [d| | | | | | | | | | | |]; cbn [run_op option_list];
    rewrite ?app_nil_r; try (by split).
  - unfold request_timer, next_timer_token. cbn [option_list].
    set (ctx1 := set_next_token ctx _).
    destruct (register_timer_room ctx1 (next_token ctx) d Hr) as [Hr' Hn']. split; [done| | |].
    + rewrite Hn', length_app. cbn. rewrite Hn, nth_token_next by lia. f_equal. lia.
    + intros i t d' [Hi|[Hi Hi']]%lookup_app_Some; [by eapply Ht|].
      pose proof (lookup_lt_Some _ _ _ Hi'). apply list_lookup_singleton_Some in Hi' as [? [= <- <-]].
      rewrite Hn. f_equal. simpl in *. lia.
    + intros t d' [Hx|[= -> ->]]%register_timer_queue; [|left; apply elem_of_app; right; by left].
      destruct (Hq t d' Hx); [left; apply elem_of_app; by left|by right].
  - unfold request_anim_frame. destruct (anim_frame_scheduled ctx); [by split|]. cbn [negb].
    destruct (register_timer_room (set_anim ctx true) ANIM_FRAME_TIMER ANIM_FRAME_DEADLINE Hr) as [Hr' Hn'].
    split; [done|by rewrite Hn'|done|]. intros t d [Hx|?]%register_timer_queue; [by apply Hq|by right].
  - cbn. split; [|done|done|].
    + cbn. destruct (timers ctx) as [|x l _] using rev_ind; [done|].
      rewrite length_app in Hr. rewrite removelast_last. simpl in *. lia.
    + cbn. intros t d Hx%removelast_elem. by apply Hq.
Qed.

(** Timers: whatever is done to a context from its creation on, its queue
    holds at most four timers, each of them requested before or the animation
    frame; the tokens handed out are all valid, none is that of the animation
    frame, and they are distinct as long as fewer than 2^32 - 2 were asked for. *)
Theorem ctx_timers ops :
  let '(ctx, issued) := run_ops ctx_new ops in
  len (timers ctx) <= MAX_TIMERS ∧
  (∀ t d, (t, d) ∈ timers ctx → (t, d) ∈ issued ∨ (t, d) = (ANIM_FRAME_TIMER, ANIM_FRAME_DEADLINE)) ∧
  (∀ t d, (t, d) ∈ issued → t ≠ INVALID ∧ t ≠ ANIM_FRAME_TIMER ∧ 0 <= t < 2 ^ 32) ∧
  (len issued < TOKENS → ∀ i j t d d', issued !! i = Some (t, d) → issued !! j = Some (t, d') → i = j).
Proof.
  assert (let '(ctx, issued) := run_ops ctx_new ops in ctx_ok ctx issued) as Hok.
  { induction ops as [|op ops IH] using rev_ind.
    - split; [done|done|by intros ??? ?|by intros ?? ?%not_elem_of_nil].
    - unfold run_ops in *. rewrite foldl_app. cbn [foldl]. destruct (foldl _ _ ops) as [ctx issued].
      pose proof (run_op_ok ctx issued op IH) as H. by destruct (run_op ctx op). }
  destruct (run_ops ctx_new ops) as [ctx issued]. destruct Hok as [Hr Hn Ht Hq]. split_and!; [done|done| |].
  - intros t d [i Hi]%list_elem_of_lookup. apply Ht in Hi as ->.
    pose proof (Z.mod_pos_bound (Z.of_nat i) TOKENS ltac:(lia)).
    unfold nth_token, STARTING_TIMER_TOKEN, INVALID, ANIM_FRAME_TIMER. lia.
  - intros Hlen i j t d d' Hi Hj. pose proof (lookup_lt_Some _ _ _ Hi). pose proof (lookup_lt_Some _ _ _ Hj).
    apply Ht in Hi, Hj. unfold nth_token in *. rewrite !Z.mod_small in * by lia. lia.
Qed.

(** Five timers and the animation frame: the queue is full after four. *)
Lemma ctx_timers_witness :
  let '(ctx, issued) := run_ops ctx_new [OpRequestTimer 10; OpRequestAnimFrame; OpRequestTimer 20; OpRequestTimer 30;
    OpRequestTimer 40] in
  len (timers ctx) <= MAX_TIMERS ∧ issued = [(2, 10); (3, 20); (4, 30); (5, 40)].
Proof.
  pose proof (ctx_timers [OpRequestTimer 10; OpRequestAnimFrame; OpRequestTimer 20; OpRequestTimer 30;
    OpRequestTimer 40]) as H. cbn in H |- *. split; [apply H|reflexivity].
Defined.

(** ** The life of a button press *)

(** What happens to a button: an event, in whatever context, or its owner
    enabling or disabling it. *)
Inductive ButtonInput :=
| Deliver (ctx : EventCtx) (e : Event)
| SetEnabled (ctx : EventCtx) (enabled : bool).

Definition button_input (self : Button) (i : ButtonInput) : Button * option ButtonMsg :=
  match i with
  | Deliver ctx e => let '(self, _, msg) := button_event self ctx e in (self, msg)
  | SetEnabled ctx enabled => (fst (enable_if self ctx enabled), None)
  end.

(** The button after some inputs, and the messages it gave. *)
Definition button_run (self : Button) (inputs : list ButtonInput) : Button * list (option ButtonMsg) :=
  foldl (λ '(self, msgs) i, let '(self, msg) := button_input self i in (self, msgs ++ [msg])) (self, []) inputs.

(** The finger is not lifted, does not leave the area, and the owner leaves the
    button alone. *)
Definition keeps_pressed (touch_area : Rect) (i : ButtonInput) : Prop :=
  match i with
  | Deliver _ (Touch (TouchEnd _)) => False
  | Deliver _ (Touch (TouchMove p)) => contains touch_area p = true
  | Deliver _ _ => True
  | SetEnabled _ _ => False
  end.

(** Pressed at input [j], with the token of the timer for a long press. *)
Definition pressed_at (self : Button) (inputs : list ButtonInput) (j : nat) (timer : option TimerToken) : Prop :=
  ∃ ctx p, inputs !! j = Some (Deliver ctx (Touch (TouchStart p))) ∧ contains (touch_area self) p = true ∧
    timer = (_ ← long_press self; Some (next_token ctx)).

(** Pressed without a break since input [j]. *)
Definition pressed_since (self : Button) (inputs : list ButtonInput) (j : nat) (timer : option TimerToken) : Prop :=
  pressed_at self inputs j timer ∧
  ∀ k i, (j < k)%nat → inputs !! k = Some i → keeps_pressed (touch_area self) i.

Record same_button (a b : Button) : Prop := {
  same_area : touch_area a = touch_area b;
  same_long : long_press a = long_press b
}.

Lemma pressed_at_lookup self inputs x j t :
  pressed_at self inputs j t → pressed_at self (inputs ++ [x]) j t.
Proof. intros (ctx & p & Hj & ?). exists ctx, p. split; [by apply lookup_app_l_Some|done]. Qed.

Lemma pressed_since_snoc self inputs x j t :
  pressed_since self inputs j t → keeps_pressed (touch_area self) x → pressed_since self (inputs ++ [x]) j t.
Proof.
  intros [Hj Hk] Hx. split; [by apply pressed_at_lookup|].
  intros k i Hjk [Hi|[_ Hi]]%lookup_app_Some; [by eapply Hk|]. by apply list_lookup_singleton_Some in Hi as [_ <-].
Qed.

Lemma pressed_since_last self inputs x t :
  pressed_at self (inputs ++ [x]) (length inputs) t → pressed_since self (inputs ++ [x]) (length inputs) t.
Proof.
  intros Hp. split; [done|]. intros k i Hk Hi%lookup_lt_Some. rewrite length_app in Hi. simpl in Hi. lia.
Qed.

(** What is known after one input to a button: being pressed has a beginning,
    and the messages say how it ended. *)
Record press_step (self b : Button) (inputs : list ButtonInput) (x : ButtonInput)
  (r : Button * option ButtonMsg) : Prop := {
  ps_same : same_button (fst r) self;
  ps_none : long_press self = None → long_timer (fst r) = None;
  ps_pressed : state (fst r) = Pressed → ∃ j, pressed_since self (inputs ++ [x]) j (long_timer (fst r));
  ps_click : snd r = Some Clicked →
    ∃ ctx p, x = Deliver ctx (Touch (TouchEnd p)) ∧ contains (touch_area self) p = true ∧ state b = Pressed;
  ps_long : snd r = Some LongPressed →
    ∃ ctx t, x = Deliver ctx (Timer t) ∧ long_timer b = Some t ∧ state b = Pressed;
  ps_enabled : snd r ≠ None → state b ≠ Disabled
}.

Section Press.
Context (self b : Button) (inputs : list ButtonInput).
Context (Hsame : same_button b self) (Hnone : long_press self = None → long_timer b = None).
Context (Hpressed : state b = Pressed → ∃ j, pressed_since self inputs j (long_timer b)).

Lemma press_idle x : (state b = Pressed → keeps_pressed (touch_area self) x) → press_step self b inputs x (b, None).
Proof.
  intros Hk. split; cbn; try done. intros Hs. destruct (Hpressed Hs) as [j Hj].
  exists j. by apply pressed_since_snoc; auto.
Qed.

Lemma press_start ctx p : state b ≠ Disabled → contains (touch_area self) p = true →
  press_step self b inputs (Deliver ctx (Touch (TouchStart p)))
    (let '(b, _, msg) := button_event b ctx (Touch (TouchStart p)) in (b, msg)).
Proof.
  intros Hs Hc. destruct Hsame as [Ha Hl]. unfold button_event. rewrite Ha, Hc.
  assert (∀ t, t = (_ ← long_press self; Some (next_token ctx)) →
    ∃ j, pressed_since self (inputs ++ [Deliver ctx (Touch (TouchStart p))]) j t) as Hlast.
  { intros t Ht. exists (length inputs). apply pressed_since_last. exists ctx, p.
    split; [by apply list_lookup_middle|done]. }
  destruct (state b) eqn:Es; try done; unfold set; case_bool_decide; cbn;
    destruct (long_press b) as [d|] eqn:El; cbn; split; cbn; try done;
    try (by split; cbn; (done || congruence)); try (intros; congruence); intros _; apply Hlast; rewrite <- Hl; rewrite ?El; cbn; try done; by apply Hnone.
Qed.

Lemma press_end x s t msg :
  s ≠ Pressed → (long_press self = None → t = None) →
  (msg = Some Clicked → ∃ ctx p, x = Deliver ctx (Touch (TouchEnd p)) ∧ contains (touch_area self) p = true ∧ state b = Pressed) →
  (msg = Some LongPressed → ∃ ctx t, x = Deliver ctx (Timer t) ∧ long_timer b = Some t ∧ state b = Pressed) →
  (msg ≠ None → state b ≠ Disabled) →
  press_step self b inputs x (with_timer (with_state b s) t, msg).
Proof. intros. destruct Hsame. by split. Qed.

Lemma with_same_timer s : with_state b s = with_timer (with_state b s) (long_timer b).
Proof. done. Qed.

Lemma button_input_press x : press_step self b inputs x (button_input b x).
Proof.
  pose proof press_idle as Hidle. pose proof press_start as Hstart. clear Hpressed.
  destruct x as [ctx e|ctx en].
  2: { cbn [button_input]. unfold enable_if, enable, disable, set.
    destruct en; case_bool_decide as Hs; cbn [fst]; try (rewrite with_same_timer; by apply press_end);
      apply Hidle; congruence. }
  destruct Hsame as [Ha Hl]. destruct e as [| [p|p|p|] | |token| | | |]; try (by apply Hidle).
  - destruct (decide (state b = Disabled)) as [Hd|Hd].
    { unfold button_input, button_event. rewrite Hd. by apply Hidle. }
    destruct (contains (touch_area self) p) eqn:Hc; [by apply Hstart|].
    unfold button_input, button_event. rewrite Ha, Hc. destruct (state b) eqn:Es; by apply Hidle.
  - unfold button_input, button_event. rewrite Ha. destruct (state b) eqn:Es; try (by apply Hidle; congruence).
    destruct (contains (touch_area self) p) eqn:Hc; cbn [negb]; [by apply Hidle|].
    unfold set. rewrite Es, bool_decide_eq_true_2, with_same_timer by done. apply press_end; try done; congruence.
  - unfold button_input, button_event. rewrite Ha. destruct (state b) eqn:Es; try (by apply Hidle; congruence);
      unfold set; rewrite Es, bool_decide_eq_true_2 by done.
    + rewrite bool_decide_eq_true_2 by done. cbn [andb].
      destruct (contains (touch_area self) p) eqn:Hc; [rewrite with_same_timer|]; apply press_end; try done; try congruence.
      intros _. by exists ctx, p.
    + rewrite bool_decide_eq_false_2 by done. cbn [andb]. by apply press_end.
  - unfold button_input, button_event. case_bool_decide as Ht; [|by apply Hidle]. case_bool_decide as Es.
    + unfold set. rewrite bool_decide_eq_true_2 by (cbn in *; congruence).
      apply (press_end (Deliver ctx (Timer token)) Initial_ None); try done; [by exists ctx, token|cbn in *; congruence].
    + apply (press_end (Deliver ctx (Timer token)) (state b) None); done.
Qed.
End Press.

Lemma button_run_snoc self inputs x :
  button_run self (inputs ++ [x]) =
    (fst (button_input (fst (button_run self inputs)) x),
     snd (button_run self inputs) ++ [snd (button_input (fst (button_run self inputs)) x)]).
Proof.
  unfold button_run at 1. rewrite foldl_app. fold (button_run self inputs). cbn [foldl].
  destruct (button_run self inputs) as [b msgs]. cbn [fst snd]. by destruct (button_input b x).
Qed.

Lemma button_run_msgs self inputs :
  length (snd (button_run self inputs)) = length inputs ∧
  ∀ i x, inputs !! i = Some x →
    snd (button_run self inputs) !! i = Some (snd (button_input (fst (button_run self (take i inputs))) x)).
Proof.
  induction inputs as [|x inputs [IHl IH]] using rev_ind; [done|]. rewrite button_run_snoc. cbn [snd].
  rewrite !length_app, IHl. split; [done|]. intros i y [Hi|[Hi Hy]]%lookup_app_Some.
  - pose proof (lookup_lt_Some _ _ _ Hi). rewrite lookup_app_l, take_app_le by lia. by apply IH.
  - pose proof (lookup_lt_Some _ _ _ Hy). simpl in *. assert (i = length inputs) as -> by lia.
    rewrite Nat.sub_diag in Hy. injection Hy as ->.
    by rewrite <- IHl at 1; rewrite list_lookup_middle, take_app_length.
Qed.

Lemma button_run_pressed self inputs :
  state self ≠ Pressed → (long_press self = None → long_timer self = None) →
  let b := fst (button_run self inputs) in
  same_button b self ∧ (long_press self = None → long_timer b = None) ∧
  (state b = Pressed → ∃ j, pressed_since self inputs j (long_timer b)).
Proof.
  intros Hs Hn. induction inputs as [|x inputs IH] using rev_ind; [by split_and!|].
  cbv zeta in *. destruct IH as (Hsame & Hnone & Hp). rewrite button_run_snoc. cbn [fst].
  destruct (button_input_press self _ inputs Hsame Hnone Hp x). by split_and!.
Qed.

(** C20. The messages of a button: whatever events come and however its owner
    enables and disables it, a click means that a touch started inside the
    button, was never lifted, left the area or interrupted by the owner, and
    ended inside; a long press means that such a touch was going on when the
    very timer requested at its start fired; and a disabled button says
    nothing. *)
Theorem button_presses self inputs i :
  state self ≠ Pressed → (long_press self = None → long_timer self = None) →
  let msgs := snd (button_run self inputs) in
  (msgs !! i = Some (Some Clicked) → ∃ ctx p j t,
     inputs !! i = Some (Deliver ctx (Touch (TouchEnd p))) ∧ contains (touch_area self) p = true ∧
     (j < i)%nat ∧ pressed_since self (take i inputs) j t) ∧
  (msgs !! i = Some (Some LongPressed) → ∃ ctx t j,
     inputs !! i = Some (Deliver ctx (Timer t)) ∧ (j < i)%nat ∧ pressed_since self (take i inputs) j (Some t)) ∧
  (state (fst (button_run self (take i inputs))) = Disabled → i < length inputs → msgs !! i = Some None)%nat.
Proof.
  intros Hs Hn msgs. destruct (button_run_msgs self inputs) as [Hlen Hmsg]. fold msgs in Hlen, Hmsg.
  destruct (button_run_pressed self (take i inputs) Hs Hn) as (Hsame & Hnone & Hp).
  assert (∀ m, msgs !! i = Some m → ∃ x, inputs !! i = Some x ∧ m = snd (button_input (fst (button_run self (take i inputs))) x)) as Hat.
  { intros m Hm. pose proof (lookup_lt_Some _ _ _ Hm) as Hi. rewrite Hlen in Hi.
    apply lookup_lt_is_Some in Hi as [x Hx]. exists x. split; [done|]. rewrite (Hmsg i x Hx) in Hm. congruence. }
  assert (∀ j t, pressed_since self (take i inputs) j t → (j < i)%nat) as Hji.
  { intros j t [(ctx & p & Hj & _) _]. apply lookup_lt_Some in Hj. rewrite length_take in Hj. lia. }
  split_and!.
  - intros (x & Hx & Hm)%Hat. destruct (button_input_press self _ _ Hsame Hnone Hp x) as [_ _ _ Hc _ _].
    destruct (Hc (eq_sym Hm)) as (ctx & p & -> & Hcp & Hst). destruct (Hp Hst) as [j Hj].
    exists ctx, p, j, (long_timer (fst (button_run self (take i inputs)))). split_and!; try done. by eapply Hji.
  - intros (x & Hx & Hm)%Hat. destruct (button_input_press self _ _ Hsame Hnone Hp x) as [_ _ _ _ Hc _].
    destruct (Hc (eq_sym Hm)) as (ctx & t & -> & Ht & Hst). destruct (Hp Hst) as [j Hj]. rewrite Ht in Hj.
    exists ctx, t, j. split_and!; try done. by eapply Hji.
  - intros Hd Hi. apply lookup_lt_is_Some in Hi as [x Hx]. rewrite (Hmsg i x Hx). f_equal.
    destruct (button_input_press self _ _ Hsame Hnone Hp x) as [_ _ _ _ _ He].
    destruct (snd (button_input _ x)); [|done]. by destruct He.
Qed.

(** A touch that starts and ends inside clicks. *)
Lemma button_presses_witness :
  let b := button_place (with_text [65]) (mkRect 0 0 10 10) in
  let ev e := Deliver ctx_new (Touch e) in
  let inputs := [ev (TouchStart (mkPoint 5 5)); ev (TouchMove (mkPoint 6 6)); ev (TouchEnd (mkPoint 6 6))] in
  snd (button_run b inputs) = [Some Pressed_; None; Some Clicked] ∧
  ∃ ctx p j t, inputs !! 2%nat = Some (Deliver ctx (Touch (TouchEnd p))) ∧ contains (touch_area b) p = true ∧
     (j < 2)%nat ∧ pressed_since b (take 2 inputs) j t.
Proof.
  intros b ev inputs. split; [vm_compute; reflexivity|].
  apply (button_presses b inputs 2 ltac:(discriminate) ltac:(reflexivity)). vm_compute. reflexivity.
Defined.

(** ** Facts about components

    Buttons and the wrappers around components, for the proofs about the
    keyboards. *)
(** ** Buttons *)

Lemma button_event_enabled b ctx ev : is_enabled (fst (fst (button_event b ctx ev))) = is_enabled b.
Proof.
  unfold button_event, is_enabled, set.
  destruct ev as [| [p|p|p|] | |token| | | |]; try done; destruct (state b) eqn:E; try done;
    repeat (case_match || case_bool_decide); simplify_eq/=; try done; try congruence.
Qed.

Lemma button_event_clicked b ctx ev : snd (button_event b ctx ev) = Some Clicked → is_enabled b = true.
Proof.
  unfold button_event, is_enabled, set.
  destruct ev as [| [p|p|p|] | |token| | | |]; try done; destruct (state b) eqn:E; try done.
  case_bool_decide; [|done]. case_bool_decide; cbn in *; congruence.
Qed.

Lemma enable_enabled b ctx : is_enabled (fst (enable b ctx)) = true.
Proof. unfold enable, set, is_enabled. case_bool_decide as Hs; [done|]. cbn. destruct (state b); try done. Qed.

Lemma disable_enabled b ctx : is_enabled (fst (disable b ctx)) = false.
Proof. unfold disable, set, is_enabled. case_bool_decide as Hs; [done|]. cbn. by destruct (state b). Qed.

Lemma enable_if_enabled b ctx en : is_enabled (fst (enable_if b ctx en)) = en.
Proof. destruct en; [apply enable_enabled|apply disable_enabled]. Qed.

Lemma set_content_enabled b ctx c : is_enabled (fst (set_content b ctx c)) = is_enabled b.
Proof. unfold set_content. by case_bool_decide. Qed.

Lemma set_stylesheet_enabled b ctx s : is_enabled (fst (set_stylesheet b ctx s)) = is_enabled b.
Proof. unfold set_stylesheet. by case_bool_decide. Qed.

(** ** Methods that end *)

(** The method ends, with its component and result as described. *)
Definition runs {A U} (m : ui (A * EventCtx * U)) (Q : A → U → Prop) : Prop := ∃ a ctx u, m = Ok (a, ctx, u) ∧ Q a u.

Lemma runs_weaken {A U} (m : ui (A * EventCtx * U)) (P Q : A → U → Prop) :
  runs m P → (∀ a u, P a u → Q a u) → runs m Q.
Proof. intros (a & ctx & u & Hm & HP) HPQ. exists a, ctx, u. auto. Qed.

Lemma mutate_runs {A U} (c : Child A) ctx (f : EventCtx → A → ui (A * EventCtx * U)) (Q : A → U → Prop) :
  (∀ ctx, runs (f ctx (inner c)) Q) → runs (mutate c ctx f) (λ c' u, Q (inner c') u).
Proof.
  intros Hf. unfold mutate. destruct (Hf (set_paint ctx false)) as (a & ctx1 & u & -> & HQ). cbn [mbind outcome_bind].
  destruct (paint_requested ctx1); eexists _, _, _; by split.
Qed.

Lemma with_inner_runs {A U} (m : Maybe A) (f : A → ui (A * EventCtx * U)) (Q : A → U → Prop) :
  runs (f (maybe_inner m)) Q → runs (with_inner m f) (λ m' u, visible m' = visible m ∧ Q (maybe_inner m') u).
Proof.
  intros (a & ctx & u & Hf & HQ). unfold with_inner. rewrite Hf. cbn [mbind outcome_bind]. eexists _, _, _. by split.
Qed.

(** A component that takes a repaint without a change. *)
Definition repaints {A Msg} `{Component A Msg} (a : A) : Prop :=
  ∀ ctx, ∃ ctx', event a ctx RequestPaint = Ok (a, ctx', None).

Lemma show_if_runs {A Msg} `{Component A Msg} (m : Maybe A) ctx s :
  repaints (maybe_inner m) →
  runs (show_if m ctx s) (λ m' _, maybe_inner m' = maybe_inner m ∧ visible m' = s).
Proof.
  intros Hr. unfold show_if. case_bool_decide as Hv; [|exists m, ctx, tt; split; [done|split; [done|]]].
  - destruct s; [|eexists _, _, _; by split]. unfold request_complete_repaint.
    destruct (Hr ctx) as [ctx' ->]. cbn [mbind outcome_bind]. eexists _, _, _. by split.
  - by destruct (visible m), s.
Qed.

Lemma child_show_if {A Msg} `{Component A Msg} (c : Child (Maybe A)) ctx s :
  repaints (inside c) →
  ∃ c' ctx', mutate c ctx (λ ctx p, show_if p ctx s) = Ok (c', ctx', tt) ∧ inside c' = inside c ∧ shown c' = s.
Proof.
  intros Hr. destruct (mutate_runs c ctx (λ ctx p, show_if p ctx s) _ (λ ctx, show_if_runs (inner c) ctx s Hr))
    as (c' & ctx' & [] & ? & ? & ?). by exists c', ctx'.
Qed.

Lemma button_repaints (b : Button) : repaints b.
Proof. intros ctx. by exists ctx. Qed.

(** An event through the wrappers: it is dropped when the component is hidden. *)
Lemma wrapped_event_runs {A Msg} `{Component A Msg} (c : Child (Maybe A)) ctx ev (Q : A → option Msg → Prop) :
  (∀ ctx, runs (event (inside c) ctx ev) Q) → Q (inside c) None →
  runs (event c ctx ev) (λ m' msg, shown m' = shown c ∧ Q (inside m') msg).
Proof.
  intros He Hn. cbn [event child_component].
  apply (mutate_runs c ctx _ (λ m' msg, visible m' = shown c ∧ Q (maybe_inner m') msg)). intros ctx'. cbn [event maybe_component].
  destruct (visible (inner c)) eqn:Hv; [|eexists _, _, _; by split].
  eapply runs_weaken; [by apply with_inner_runs|]. intros m' u [? ?]. split; [congruence|done].
Qed.

(** Nothing comes from a hidden component. *)
Lemma wrapped_event_hidden {A Msg} `{Component A Msg} (c : Child (Maybe A)) ctx ev : shown c = false →
  runs (event c ctx ev) (λ m' msg, shown m' = false ∧ inside m' = inside c ∧ msg = None).
Proof.
  intros Hs. cbn [event child_component].
  apply (mutate_runs c ctx _ (λ m' msg, visible m' = false ∧ maybe_inner m' = inside c ∧ msg = None)). intros ctx'.
  cbn [event maybe_component]. rewrite Hs. eexists _, _, _. by split.
Qed.

Lemma child_event_runs {A Msg} `{Component A Msg} (c : Child A) ctx ev (Q : A → option Msg → Prop) :
  (∀ ctx, runs (event (inner c) ctx ev) Q) → runs (event c ctx ev) (λ c' msg, Q (inner c') msg).
Proof. intros He. cbn [event child_component]. apply mutate_runs. intros ctx'. apply He. Qed.

(** A method that only returns the context. *)
Lemma mutate_ends {A} (c : Child A) ctx (f : EventCtx → A → A * EventCtx) (Q : A → Prop) :
  (∀ ctx, Q (fst (f ctx (inner c)))) → ∃ c' ctx', mutate_ c ctx f = Ok (c', ctx') ∧ Q (inner c').
Proof.
  intros Hf. unfold mutate_.
  destruct (mutate_runs c ctx (λ ctx c, let '(c, ctx) := f ctx c in Ok (c, ctx, tt)) (λ c _, Q c)) as (c' & ctx' & [] & -> & HQ).
  - intros ctx1. specialize (Hf ctx1). destruct (f ctx1 (inner c)) as [a ctx2]. by exists a, ctx2, tt.
  - by exists c', ctx'.
Qed.

Lemma child_repaint {A Msg} `{Component A Msg} (c : Child A) ctx : repaints (inner c) →
  ∃ c' ctx', request_complete_repaint c ctx = Ok (c', ctx') ∧ inner c' = inner c.
Proof.
  intros Hr. unfold request_complete_repaint.
  destruct (child_event_runs c ctx RequestPaint (λ a _, a = inner c)) as (c' & ctx' & msg & -> & Hc).
  - intros ctx'. destruct (Hr ctx') as [ctx1 Hev]. exists (inner c), ctx1, None. by split.
  - cbn [mbind outcome_bind]. eexists _, _. by split.
Qed.

(** What an event leaves of a button. *)
Lemma button_event_content b ctx ev : Button.content (fst (fst (button_event b ctx ev))) = Button.content b.
Proof.
  unfold button_event, set.
  destruct ev as [| [p|p|p|] | |token| | | |]; try done; destruct (state b) eqn:E; try done;
    repeat (case_match || case_bool_decide); simplify_eq/=; try done; try congruence.
Qed.

Lemma enable_if_content b ctx en : Button.content (fst (enable_if b ctx en)) = Button.content b.
Proof. unfold enable_if, enable, disable, set. destruct en; by case_bool_decide. Qed.

Lemma button_event_runs b ctx ev :
  runs (event b ctx ev) (λ b' msg, is_enabled b' = is_enabled b ∧ Button.content b' = Button.content b ∧
    (msg = Some Clicked → is_enabled b = true)).
Proof.
  pose proof (button_event_enabled b ctx ev). pose proof (button_event_content b ctx ev).
  pose proof (button_event_clicked b ctx ev). cbn [event button_component].
  destruct (button_event b ctx ev) as [[b' ctx'] msg]. by eexists _, _, _.
Qed.
