(* ===== verification/PageT.v ===== *)
(** * Pages of the model T

    [ui/model_tt/component/page.rs], [simple_page.rs], [scroll.rs] and
    [loader.rs]: a content in pages that buttons and swipes turn, with a button
    to confirm on the last one, which may have to be held.  The backlight, the
    haptic feedback and painting are not modelled. *)
From S2P Require Import Prelude Time Geometry Component Theme Button.
Local Open Scope Z_scope.

(** Without debugging of the interface, animations are on. *)
(* src: ui/util.rs 89-91 (animation_disabled) *)
Definition animation_disabled : bool := false.

(* src: ui/model_tt/constant.rs 19-26 (size, screen) *)
Definition screen `{Screen} : Rect := from_top_left_and_size point_zero (mkOffset screen_width screen_height).

(** ** Loaders *)

(* src: ui/model_tt/component/loader.rs 18-19 (GROWING_DURATION_MS, SHRINKING_DURATION_MS) *)
Definition GROWING_DURATION_MS : Duration := 1000.
Definition SHRINKING_DURATION_MS : Duration := 500.

(* src: ui/model_tt/component/loader.rs 24-27 (LoaderMsg) *)
Inductive LoaderMsg := GrownCompletely | ShrunkCompletely.

(* src: ui/model_tt/component/loader.rs 29-33 (State) *)
Inductive LoaderState := Initially | Growing (a : Animation) | Shrinking (a : Animation).

(* src: ui/model_tt/component/loader.rs 279-283 (LoaderStyle) *)
Record LoaderStyle := mkLoaderStyle { loader_icon : option (Icon * Z); loader_color : Z; loader_background : Z }.
(* src: ui/model_tt/component/loader.rs 274-277 (LoaderStyleSheet) *)
Record LoaderStyleSheet := mkLoaderSheet { loader_normal : LoaderStyle; loader_active : LoaderStyle }.

(* src: ui/model_tt/theme/mod.rs 559-572 (loader_default) *)
Definition loader_default : LoaderStyleSheet := mkLoaderSheet (mkLoaderStyle None FG BG) (mkLoaderStyle None GREEN BG).

(* src: ui/model_tt/theme/mod.rs 574-587 (loader_lock_icon) *)
Definition loader_lock_icon : LoaderStyleSheet :=
  mkLoaderSheet (mkLoaderStyle (Some (ICON_LOCK_BIG, FG)) FG BG) (mkLoaderStyle (Some (ICON_LOCK_BIG, FG)) GREEN BG).

(* src: ui/model_tt/component/loader.rs 35-42 (Loader) *)
Record Loader := mkLoader {
  ld_pad : Pad;
  ld_state : LoaderState;
  growing_duration : Duration;
  shrinking_duration : Duration;
  ld_styles : LoaderStyleSheet;
  offset_y : Z
}.

(* src: ui/model_tt/component/loader.rs 57-66 (Loader::with_styles) *)
Definition loader_with_styles (styles : LoaderStyleSheet) : Loader :=
  mkLoader (with_background (loader_background (loader_normal styles))) Initially GROWING_DURATION_MS SHRINKING_DURATION_MS
    styles 0.

(* src: ui/model_tt/component/loader.rs 47-50 (Loader::new) *)
Definition loader_new : Loader := loader_with_styles loader_default.

(* src: ui/model_tt/component/loader.rs 52-55 (Loader::with_lock_icon) *)
Definition loader_with_lock_icon : Loader := loader_with_styles loader_lock_icon.

Section Loader.
Context `{Clock} `{Screen} (self : Loader).

Definition set_ld_state (s : LoaderState) : Loader :=
  mkLoader (ld_pad self) s (growing_duration self) (shrinking_duration self) (ld_styles self) (offset_y self).
Definition set_ld_pad (p : Pad) : Loader :=
  mkLoader p (ld_state self) (growing_duration self) (shrinking_duration self) (ld_styles self) (offset_y self).

(* src: ui/model_tt/component/loader.rs 68-76 (Loader::with_durations) *)
Definition with_durations (growing shrinking : Duration) : Loader :=
  mkLoader (ld_pad self) (ld_state self) growing shrinking (ld_styles self) (offset_y self).

(* src: ui/model_tt/component/loader.rs 78-96 (Loader::start_growing) *)
Definition start_growing (ctx : EventCtx) : Loader * EventCtx :=
  let anim := mkAnimation LOADER_MIN LOADER_MAX (growing_duration self) now in
  let anim := match ld_state self with
              | Shrinking shrinking => seek_to_value anim (anim_value shrinking now)
              | _ => anim
              end in
  (set_ld_state (Growing anim), request_paint (request_anim_frame ctx)).

(* src: ui/model_tt/component/loader.rs 98-117 (Loader::start_shrinking) *)
Definition start_shrinking (ctx : EventCtx) : Loader * EventCtx :=
  let anim := mkAnimation LOADER_MAX LOADER_MIN (shrinking_duration self) now in
  let anim := match ld_state self with
              | Growing growing => seek_to_value anim (Z.max 0 (LOADER_MAX - anim_value growing now))
              | _ => anim
              end in
  (set_ld_state (Shrinking anim), request_paint (request_anim_frame ctx)).

(* src: ui/model_tt/component/loader.rs 119-121 (Loader::reset) *)
Definition loader_reset : Loader := set_ld_state Initially.

(* src: ui/model_tt/component/loader.rs 123-128 (Loader::animation) *)
Definition animation : option Animation :=
  match ld_state self with Initially => None | Growing a | Shrinking a => Some a end.

(* src: ui/model_tt/component/loader.rs 130-132 (Loader::progress) *)
Definition progress : option Z := (λ a, anim_value a now) <$> animation.

(* src: ui/model_tt/component/loader.rs 134-136 (Loader::is_animating) *)
Definition is_animating : bool := bool_decide (is_Some animation).

(* src: ui/model_tt/component/loader.rs 138-140 (Loader::is_completely_grown) *)
Definition is_completely_grown : bool := bool_decide (progress = Some LOADER_MAX).

(* src: ui/model_tt/component/loader.rs 142-144 (Loader::is_completely_shrunk) *)
Definition is_completely_shrunk : bool := bool_decide (progress = Some LOADER_MIN).

(* src: ui/model_tt/component/loader.rs 163-198 (Loader::event) *)
Definition loader_event (ctx : EventCtx) (ev : Event) : EventCtx * option LoaderMsg :=
  match ev with
  | Timer token =>
    if bool_decide (token = ANIM_FRAME_TIMER) && is_animating then
      let ctx := if negb animation_disabled then request_paint ctx else ctx in
      if is_completely_grown then (ctx, Some GrownCompletely)
      else if is_completely_shrunk then (ctx, Some ShrunkCompletely)
      else (request_anim_frame ctx, None)
    else (ctx, None)
  | _ => (ctx, None)
  end.

(* src: ui/model_tt/component/loader.rs 45-45 (Loader::SIZE) *)
Definition LOADER_SIZE : Offset := mkOffset 120 120.

(* src: ui/model_tt/component/loader.rs 150-161 (Loader::place) *)
Definition loader_place (bounds : Rect) : Loader * Rect :=
  let offset_y := i16 (py (rect_center bounds) - py (rect_center screen)) in
  let up_to_top := mkRect (x0 bounds) 0 (x1 bounds) (y1 bounds) in
  (mkLoader (pad_place (ld_pad self) up_to_top) (ld_state self) (growing_duration self) (shrinking_duration self)
     (ld_styles self) offset_y,
   from_center_and_size (rect_center bounds) LOADER_SIZE).
End Loader.

(** ** Scroll bars *)

(* src: ui/model_tt/component/scroll.rs 11-16 (ScrollBar) *)
Record ScrollBar := mkScroll { sb_area : Rect; sb_layout : LinearPlacement; sb_page_count : Z; active_page : Z }.

(* src: ui/model_tt/component/scroll.rs 19-24 (ScrollBar::DOT_SIZE, MAX_DOTS, DOT_INTERVAL) *)
Definition DOT_SIZE : Z := 8.
Definition MAX_DOTS : Z := 7.
Definition DOT_INTERVAL : Z := 18.

(* src: ui/model_tt/component/scroll.rs 26-34 (ScrollBar::new) *)
Definition scrollbar_new (axis : Axis) : ScrollBar :=
  mkScroll rect_zero (with_spacing (align_at_center (placement_new axis)) DOT_INTERVAL) 0 0.

(* src: ui/model_tt/component/scroll.rs 36-38 (ScrollBar::vertical) *)
Definition scrollbar_vertical : ScrollBar := scrollbar_new Vertical.

(* src: ui/model_tt/component/scroll.rs 40-42 (ScrollBar::horizontal) *)
Definition scrollbar_horizontal : ScrollBar := scrollbar_new Horizontal.

Section ScrollBar.
Context (self : ScrollBar).

(* src: ui/model_tt/component/scroll.rs 44-47 (ScrollBar::set_count_and_active_page) *)
Definition set_count_and_active_page (page_count active : Z) : ScrollBar :=
  mkScroll (sb_area self) (sb_layout self) page_count active.

(* src: ui/model_tt/component/scroll.rs 49-51 (ScrollBar::has_pages) *)
Definition has_pages : bool := 1 <? sb_page_count self.

(* src: ui/model_tt/component/scroll.rs 53-55 (ScrollBar::has_next_page) *)
Definition has_next_page : bool := active_page self <? wrapu usize_bits (sb_page_count self - 1).

(* src: ui/model_tt/component/scroll.rs 57-59 (ScrollBar::has_previous_page) *)
Definition has_previous_page : bool := 0 <? active_page self.

(* src: ui/model_tt/component/scroll.rs 75-77 (ScrollBar::go_to) *)
Definition go_to (active : Z) : ScrollBar := mkScroll (sb_area self) (sb_layout self) (sb_page_count self) active.

(** [clamp] aborts on an empty range. *)
(* src: ui/model_tt/component/scroll.rs 69-73 (ScrollBar::go_to_relative) *)
Definition go_to_relative (step : Z) : ui ScrollBar :=
  let last := wraps usize_bits (wraps usize_bits (sb_page_count self) - 1) in
  if last <? 0 then Panic
  else Ok (go_to (Z.max 0 (Z.min last (wraps usize_bits (wraps usize_bits (active_page self) + step))))).

(* src: ui/model_tt/component/scroll.rs 61-63 (ScrollBar::go_to_next_page) *)
Definition go_to_next_page : ui ScrollBar := go_to_relative 1.

(* src: ui/model_tt/component/scroll.rs 65-67 (ScrollBar::go_to_previous_page) *)
Definition go_to_previous_page : ui ScrollBar := go_to_relative (-1).

(* src: ui/model_tt/component/scroll.rs 171-174 (ScrollBar::place) *)
Definition scrollbar_place (bounds : Rect) : ScrollBar := mkScroll bounds (sb_layout self) (sb_page_count self) (active_page self).
End ScrollBar.

(** Which pages the dots stand for. *)
(* src: ui/model_tt/component/scroll.rs 96-103 (ScrollBar::paint) *)
Definition shown_dots (self : ScrollBar) : Z * Z :=
  let num_shown := Z.min (sb_page_count self) MAX_DOTS in
  let first_shown := Z.min (Z.max 0 (active_page self - MAX_DOTS / 2)) (Z.max 0 (sb_page_count self - MAX_DOTS)) in
  (first_shown, wrapu usize_bits (first_shown + num_shown - 1)).

(** ** The areas of a page *)

(* src: ui/model_tt/component/page.rs 475-486 (PageLayout) *)
Record PageLayout := mkPageLayout {
  content_single_page : Rect;
  content_area : Rect;
  scrollbar_area : Rect;
  button_left : Rect;
  button_right : Rect;
  button_both : Rect
}.

(* src: ui/model_tt/component/page.rs 489-490 (PageLayout::SCROLLBAR_WIDTH, SCROLLBAR_SPACE) *)
Definition SCROLLBAR_WIDTH : Z := 8.
Definition SCROLLBAR_SPACE : Z := 5.

(* src: ui/model_tt/component/page.rs 492-517 (PageLayout::new) *)
Definition page_layout_new (area : Rect) (small_left_button : bool) : PageLayout :=
  let '(area, button_both) := split_bottom area BUTTON_HEIGHT in
  let area := inset area (insets_bottom BUTTON_SPACING) in
  let '(_, content) := split_left area CONTENT_BORDER in
  let '(content_single_page, _) := split_right content CONTENT_BORDER in
  let '(content, scrollbar) := split_right content (SCROLLBAR_SPACE + SCROLLBAR_WIDTH) in
  let '(_, scrollbar) := split_left scrollbar SCROLLBAR_SPACE in
  let width := if small_left_button then BUTTON_WIDTH else Z.quot (i16 (rect_width button_both - BUTTON_SPACING)) 2 in
  let '(button_left, button_right) := split_left button_both width in
  let button_right := inset button_right (insets_left BUTTON_SPACING) in
  mkPageLayout content_single_page content scrollbar button_left button_right button_both.

(** ** Pages with buttons *)

(* src: ui/component/paginated.rs 1-17 (PageMsg) *)
Inductive PageMsg (T : Type) := Content (m : T) | PageConfirmed | PageCancelled | PageSwipeLeft | PageSwipeRight.
Arguments Content {T} m.
Arguments PageConfirmed {T}.
Arguments PageCancelled {T}.
Arguments PageSwipeLeft {T}.
Arguments PageSwipeRight {T}.

(* src: ui/model_tt/component/page.rs 25-47 (ButtonPage) *)
Record ButtonPage (T : Type) := mkButtonPage {
  pg_content : T;
  pg_pad : Pad;
  pg_swipe : Swipe;
  scrollbar : ScrollBar;
  loader : option Loader;
  cancel_button : option Button;
  confirm_button : Button;
  prev_button : Button;
  next_button : Button;
  cancel_from_any_page : bool;
  swipe_left : bool;
  swipe_right : bool
}.
Arguments mkButtonPage {T}.
Arguments pg_content {T} b.
Arguments pg_pad {T} b.
Arguments pg_swipe {T} b.
Arguments scrollbar {T} b.
Arguments loader {T} b.
Arguments cancel_button {T} b.
Arguments confirm_button {T} b.
Arguments prev_button {T} b.
Arguments next_button {T} b.
Arguments cancel_from_any_page {T} b.
Arguments swipe_left {T} b.
Arguments swipe_right {T} b.

(* src: ui/model_tt/component/page.rs 286-291 (HandleResult) *)
Inductive HandleResult (T : Type) := Return (r : T) | PrevPage | NextPage | Continue.
Arguments Return {T} r.
Arguments PrevPage {T}.
Arguments NextPage {T}.
Arguments Continue {T}.

Section ButtonPage.
Context {T Msg : Type} `{Component T Msg} `{Paginate T} `{Screen} `{Clock}.
Implicit Types self : ButtonPage T.

Definition set_content_ self (c : T) : ButtonPage T :=
  mkButtonPage c (pg_pad self) (pg_swipe self) (scrollbar self) (loader self) (cancel_button self) (confirm_button self)
    (prev_button self) (next_button self) (cancel_from_any_page self) (swipe_left self) (swipe_right self).
Definition set_pad_ self (p : Pad) : ButtonPage T :=
  mkButtonPage (pg_content self) p (pg_swipe self) (scrollbar self) (loader self) (cancel_button self) (confirm_button self)
    (prev_button self) (next_button self) (cancel_from_any_page self) (swipe_left self) (swipe_right self).
Definition set_swipe_ self (s : Swipe) : ButtonPage T :=
  mkButtonPage (pg_content self) (pg_pad self) s (scrollbar self) (loader self) (cancel_button self) (confirm_button self)
    (prev_button self) (next_button self) (cancel_from_any_page self) (swipe_left self) (swipe_right self).
Definition set_scrollbar self (s : ScrollBar) : ButtonPage T :=
  mkButtonPage (pg_content self) (pg_pad self) (pg_swipe self) s (loader self) (cancel_button self) (confirm_button self)
    (prev_button self) (next_button self) (cancel_from_any_page self) (swipe_left self) (swipe_right self).
Definition set_loader self (l : option Loader) : ButtonPage T :=
  mkButtonPage (pg_content self) (pg_pad self) (pg_swipe self) (scrollbar self) l (cancel_button self) (confirm_button self)
    (prev_button self) (next_button self) (cancel_from_any_page self) (swipe_left self) (swipe_right self).
Definition set_cancel self (b : option Button) : ButtonPage T :=
  mkButtonPage (pg_content self) (pg_pad self) (pg_swipe self) (scrollbar self) (loader self) b (confirm_button self)
    (prev_button self) (next_button self) (cancel_from_any_page self) (swipe_left self) (swipe_right self).
Definition set_confirm self (b : Button) : ButtonPage T :=
  mkButtonPage (pg_content self) (pg_pad self) (pg_swipe self) (scrollbar self) (loader self) (cancel_button self) b
    (prev_button self) (next_button self) (cancel_from_any_page self) (swipe_left self) (swipe_right self).
Definition set_prev self (b : Button) : ButtonPage T :=
  mkButtonPage (pg_content self) (pg_pad self) (pg_swipe self) (scrollbar self) (loader self) (cancel_button self)
    (confirm_button self) b (next_button self) (cancel_from_any_page self) (swipe_left self) (swipe_right self).
Definition set_next self (b : Button) : ButtonPage T :=
  mkButtonPage (pg_content self) (pg_pad self) (pg_swipe self) (scrollbar self) (loader self) (cancel_button self)
    (confirm_button self) (prev_button self) b (cancel_from_any_page self) (swipe_left self) (swipe_right self).

(* src: ui/model_tt/component/page.rs 68-84 (ButtonPage::new) *)
Definition button_page_new (c : T) (background : Z) : ButtonPage T :=
  mkButtonPage c (with_background background) swipe_new scrollbar_vertical None (Some (with_icon ICON_CANCEL))
    (styled (with_icon ICON_CONFIRM) button_confirm) (initially_enabled (with_icon ICON_UP) false) (with_icon ICON_DOWN)
    false false false.

(** [hold_to_confirm] is the text of the translation [buttons__hold_to_confirm]. *)
(* src: ui/model_tt/component/page.rs 54-60 (ButtonPage::with_hold) *)
Definition with_hold self (hold_to_confirm : list Z) : ButtonPage T :=
  let confirm := without_haptics (styled (with_text hold_to_confirm) button_confirm) in
  set_loader (set_confirm self confirm) (Some loader_new).

(* src: ui/model_tt/component/page.rs 86-89 (ButtonPage::without_cancel) *)
Definition without_cancel self : ButtonPage T := set_cancel self None.

(* src: ui/model_tt/component/page.rs 91-111 (ButtonPage::with_cancel_confirm) *)
Definition with_cancel_confirm self (left right : option (list Z)) : ButtonPage T :=
  let cancel := match left with
                | Some verb =>
                  if bool_decide (verb = [94]) then with_icon ICON_UP
                  else if bool_decide (verb = [60]) then with_icon ICON_BACK
                  else with_text verb
                | None => with_icon ICON_CANCEL
                end in
  let confirm := match right with
                 | Some verb => styled (with_text verb) button_confirm
                 | None => styled (with_icon ICON_CONFIRM) button_confirm
                 end in
  set_confirm (set_cancel self (Some cancel)) confirm.

(* src: ui/model_tt/component/page.rs 113-118 (ButtonPage::with_back_button) *)
Definition with_back_button self : ButtonPage T :=
  mkButtonPage (pg_content self) (pg_pad self) (pg_swipe self) (scrollbar self) (loader self) (Some (with_icon ICON_BACK))
    (confirm_button self) (initially_enabled (with_icon ICON_BACK) false) (next_button self) true (swipe_left self)
    (swipe_right self).

(* src: ui/model_tt/component/page.rs 120-123 (ButtonPage::with_cancel_arrow) *)
Definition with_cancel_arrow self : ButtonPage T := set_cancel self (Some (with_icon ICON_UP)).

(* src: ui/model_tt/component/page.rs 125-128 (ButtonPage::with_confirm_style) *)
Definition with_confirm_style self (style : ButtonStyleSheet) : ButtonPage T :=
  set_confirm self (styled (confirm_button self) style).

(* src: ui/model_tt/component/page.rs 130-133 (ButtonPage::with_swipe_left) *)
Definition with_swipe_left self : ButtonPage T :=
  mkButtonPage (pg_content self) (pg_pad self) (pg_swipe self) (scrollbar self) (loader self) (cancel_button self)
    (confirm_button self) (prev_button self) (next_button self) (cancel_from_any_page self) true (swipe_right self).

(* src: ui/model_tt/component/page.rs 135-138 (ButtonPage::with_swipe_right) *)
Definition with_swipe_right self : ButtonPage T :=
  mkButtonPage (pg_content self) (pg_pad self) (pg_swipe self) (scrollbar self) (loader self) (cancel_button self)
    (confirm_button self) (prev_button self) (next_button self) (cancel_from_any_page self) (swipe_left self) true.

(* src: ui/model_tt/component/page.rs 140-145 (ButtonPage::setup_swipe) *)
Definition setup_swipe self : ButtonPage T :=
  let s := pg_swipe self in
  set_swipe_ self (mkSwipe (swipe_area s) (has_next_page (scrollbar self)) (has_previous_page (scrollbar self))
                     (swipe_left self) (swipe_right self) (origin s)).

(* src: ui/model_tt/component/page.rs 147-168 (ButtonPage::change_page) *)
Definition change_page self (ctx : EventCtx) (step : Z) : ui (ButtonPage T * EventCtx) :=
  sb ← go_to_relative (scrollbar self) step;
  let self := setup_swipe (set_scrollbar self sb) in
  let '(prev, ctx) := enable_if (prev_button self) ctx (has_previous_page sb) in
  let self := set_prev self prev in
  c ← content_change_page (pg_content self) (active_page sb);
  '(c, ctx) ← request_complete_repaint c ctx;
  Ok (set_pad_ (set_content_ self c) (clear_pad (pg_pad self)), ctx).

(* src: ui/model_tt/component/page.rs 170-172 (ButtonPage::is_cancel_visible) *)
Definition is_cancel_visible self : bool := cancel_from_any_page self || negb (has_previous_page (scrollbar self)).

(* src: ui/model_tt/component/page.rs 174-180 (ButtonPage::loader_area) *)
Definition loader_area : Rect := inset (inset screen borders) (insets_bottom (i16 (BUTTON_HEIGHT + BUTTON_SPACING))).

(* src: ui/model_tt/component/page.rs 182-210 (ButtonPage::handle_swipe) *)
Definition handle_swipe self (ev : Event) : ButtonPage T * HandleResult (PageMsg Msg) :=
  let '(s, msg) := swipe_event (pg_swipe self) ev in
  let self := set_swipe_ self s in
  (self,
   match msg with
   | Some SwipeUp => NextPage
   | Some SwipeDown => PrevPage
   | Some SwipeLeft => if swipe_left self then Return PageSwipeLeft else Continue
   | Some SwipeRight => if swipe_right self then Return PageSwipeRight else Continue
   | None => Continue
   end).

(** Buttons below the one on the right. *)
(* src: ui/model_tt/component/page.rs 231-239 (ButtonPage::handle_button) *)
Definition handle_left_button self (ctx : EventCtx) (ev : Event)
    : ui (ButtonPage T * EventCtx * HandleResult (option (PageMsg Msg) * option ButtonMsg)) :=
  if is_cancel_visible self then
    '(b, ctx, msg) ← event (cancel_button self) ctx ev;
    Ok (set_cancel self b, ctx,
        match msg with Some Clicked => Return (Some PageCancelled, None) | _ => Continue end)
  else
    let '(b, ctx, msg) := button_event (prev_button self) ctx ev in
    Ok (set_prev self b, ctx, match msg with Some Clicked => PrevPage | _ => Continue end).

(* src: ui/model_tt/component/page.rs 212-240 (ButtonPage::handle_button) *)
Definition handle_button self (ctx : EventCtx) (ev : Event)
    : ui (ButtonPage T * EventCtx * HandleResult (option (PageMsg Msg) * option ButtonMsg)) :=
  if has_next_page (scrollbar self) then
    let '(b, ctx, msg) := button_event (next_button self) ctx ev in
    let self := set_next self b in
    match msg with Some Clicked => Ok (self, ctx, NextPage) | _ => handle_left_button self ctx ev end
  else
    let '(b, ctx, msg) := button_event (confirm_button self) ctx ev in
    let self := set_confirm self b in
    match msg with
    | Some Clicked => Ok (self, ctx, Return (Some PageConfirmed, msg))
    | Some _ => Ok (self, ctx, Return (None, msg))
    | None => handle_left_button self ctx ev
    end.

(* src: ui/model_tt/component/page.rs 242-283 (ButtonPage::handle_hold) *)
Definition handle_hold self (ctx : EventCtx) (ev : Event) (button_msg : option ButtonMsg)
    : ui (ButtonPage T * EventCtx * HandleResult (PageMsg Msg)) :=
  match loader self with
  | None => Ok (self, ctx, Continue)
  | Some loader =>
    let '(ctx, loader_msg) := loader_event loader ctx ev in
    '(self, ctx, loader) ←
      (match loader_msg with
       | Some ShrunkCompletely =>
         '(c, ctx) ← request_complete_repaint (pg_content self) ctx;
         Ok (set_content_ self c, request_repaint_root ctx, loader_reset loader)
       | _ => Ok (self, ctx, loader)
       end);
    let '(loader, ctx, result) :=
      match button_msg with
      | Some Pressed_ =>
        let '(l, ctx) := start_growing loader ctx in (set_ld_pad l (clear_pad (ld_pad l)), ctx, Continue)
      | Some Released_ => let '(l, ctx) := start_shrinking loader ctx in (l, ctx, Continue)
      | Some Clicked =>
        if is_completely_grown loader || animation_disabled then (loader, ctx, Return PageConfirmed)
        else let '(l, ctx) := start_shrinking loader ctx in (l, ctx, Continue)
      | _ => (loader, ctx, Continue)
      end in
    Ok (set_loader self (Some loader), ctx, result)
  end.

(** The width of the button on the left. *)
(* src: ui/model_tt/component/page.rs 301-308 (ButtonPage::place) *)
Definition small_left_button self : bool :=
  match cancel_button self with
  | None => true
  | Some cancel =>
    match content cancel, content (confirm_button self) with
    | Text t, _ => len t <=? 4
    | Icon_ _, Icon_ _ => false
    | _, _ => true
    end
  end.

(** The content gets the whole width when it fits there on a page. *)
(* src: ui/model_tt/component/page.rs 318-332 (ButtonPage::place) *)
Definition place_content (c : T) (layout : PageLayout) : ui (T * Z) :=
  '(c, _) ← place c (content_single_page layout);
  '(c, count) ← content_page_count c;
  if 1 <? count then
    '(c, _) ← place c (content_area layout);
    content_page_count c
  else Ok (c, count).

(* src: ui/model_tt/component/page.rs 300-343 (ButtonPage::place) *)
Definition button_page_place self (bounds : Rect) : ui (ButtonPage T * Rect) :=
  let layout := page_layout_new bounds (small_left_button self) in
  let s := pg_swipe self in
  '(cancel, _) ← place (cancel_button self) (button_left layout);
  '(c, page_count) ← place_content (pg_content self) layout;
  let confirm := button_place (confirm_button self) (button_right layout) in
  let confirm :=
    if (page_count =? 1) && bool_decide (cancel = None) then button_place confirm (button_both layout) else confirm in
  let self :=
    mkButtonPage c (pad_place (pg_pad self) bounds)
      (mkSwipe bounds (allow_up s) (allow_down s) (allow_left s) (allow_right s) (origin s))
      (set_count_and_active_page (scrollbar_place (scrollbar self) (scrollbar_area layout)) page_count 0)
      (loader self) cancel confirm (button_place (prev_button self) (button_left layout))
      (button_place (next_button self) (button_right layout)) (cancel_from_any_page self) (swipe_left self)
      (swipe_right self) in
  let self := setup_swipe self in
  Ok (set_loader self ((λ l, (loader_place l loader_area).1) <$> loader self), bounds).

(** What follows when no page was turned by the buttons. *)
(* src: ui/model_tt/component/page.rs 385-392 (ButtonPage::event) *)
Definition finish_event self (ctx : EventCtx) (ev : Event) (button_result : option (PageMsg Msg)) (button_msg : option ButtonMsg)
    : ui (ButtonPage T * EventCtx * option (PageMsg Msg)) :=
  match loader self with
  | Some _ =>
    '(self, ctx, result) ← handle_hold self ctx ev button_msg;
    match result with
    | Return r => Ok (self, ctx, Some r)
    | Continue => Ok (self, ctx, None)
    | _ => Panic
    end
  | None => Ok (self, ctx, button_result)
  end.

(** A page is turned and nothing is answered. *)
Definition turn_page self (ctx : EventCtx) (step : Z) : ui (ButtonPage T * EventCtx * option (PageMsg Msg)) :=
  '(self, ctx) ← change_page self ctx step; Ok (self, ctx, None).

(* src: ui/model_tt/component/page.rs 345-393 (ButtonPage::event) *)
Definition button_page_event self (ctx : EventCtx) (ev : Event) : ui (ButtonPage T * EventCtx * option (PageMsg Msg)) :=
  let ctx := set_page_count ctx (sb_page_count (scrollbar self)) in
  let '(self, swiped) := handle_swipe self ev in
  match swiped with
  | Return r => Ok (self, ctx, Some r)
  | PrevPage => turn_page self ctx (-1)
  | NextPage => turn_page self ctx 1
  | Continue =>
    '(c, ctx, msg) ← event (pg_content self) ctx ev;
    let self := set_content_ self c in
    match msg with
    | Some m => Ok (self, ctx, Some (Content m))
    | None =>
      '(self, ctx, result) ← handle_button self ctx ev;
      match result with
      | Return (Some r, None) => Ok (self, ctx, Some r)
      | Return (r, m) => finish_event self ctx ev r m
      | PrevPage => turn_page self ctx (-1)
      | NextPage => turn_page self ctx 1
      | Continue => finish_event self ctx ev None None
      end
    end
  end.

#[export] Instance button_page_component : Component (ButtonPage T) (PageMsg Msg) := {
  place := button_page_place;
  event := button_page_event
}.
End ButtonPage.

(** ** Pages without buttons *)

(* src: ui/model_tt/component/simple_page.rs 11-12 (SCROLLBAR_HEIGHT, SCROLLBAR_BORDER) *)
Definition SCROLLBAR_HEIGHT : Z := 18.
Definition SCROLLBAR_BORDER : Z := 4.

(* src: ui/model_tt/component/simple_page.rs 14-22 (SimplePage) *)
Record SimplePage (T : Type) := mkSimplePage {
  sp_content : T;
  sp_pad : Pad;
  sp_swipe : Swipe;
  sp_scrollbar : ScrollBar;
  sp_axis : Axis;
  swipe_right_to_go_back : bool
}.
Arguments mkSimplePage {T}.
Arguments sp_content {T} s.
Arguments sp_pad {T} s.
Arguments sp_swipe {T} s.
Arguments sp_scrollbar {T} s.
Arguments sp_axis {T} s.
Arguments swipe_right_to_go_back {T} s.

Section SimplePage.
Context {T Msg : Type} `{Component T Msg} `{Paginate T}.
Implicit Types self : SimplePage T.

(* src: ui/model_tt/component/simple_page.rs 29-39 (SimplePage::new) *)
Definition simple_page_new (c : T) (axis : Axis) (background : Z) : SimplePage T :=
  mkSimplePage c (with_background background) swipe_new (scrollbar_new axis) axis false.

(* src: ui/model_tt/component/simple_page.rs 41-43 (SimplePage::horizontal) *)
Definition simple_horizontal (c : T) (background : Z) : SimplePage T := simple_page_new c Horizontal background.

(* src: ui/model_tt/component/simple_page.rs 45-47 (SimplePage::vertical) *)
Definition simple_vertical (c : T) (background : Z) : SimplePage T := simple_page_new c Vertical background.

(* src: ui/model_tt/component/simple_page.rs 49-52 (SimplePage::with_swipe_right_to_go_back) *)
Definition with_swipe_right_to_go_back self : SimplePage T :=
  mkSimplePage (sp_content self) (sp_pad self) (sp_swipe self) (sp_scrollbar self) (sp_axis self) true.

(* src: ui/model_tt/component/simple_page.rs 88-90 (SimplePage::is_horizontal) *)
Definition is_horizontal self : bool := match sp_axis self with Horizontal => true | Vertical => false end.

(* src: ui/model_tt/component/simple_page.rs 58-68 (SimplePage::setup_swipe) *)
Definition simple_setup_swipe self : SimplePage T :=
  let s := sp_swipe self in
  let next := has_next_page (sp_scrollbar self) in
  let previous := has_previous_page (sp_scrollbar self) in
  let back := swipe_right_to_go_back self in
  let s :=
    if is_horizontal self then mkSwipe (swipe_area s) (allow_up s) (allow_down s) next (previous || back) (origin s)
    else mkSwipe (swipe_area s) next previous (allow_left s) back (origin s) in
  mkSimplePage (sp_content self) (sp_pad self) s (sp_scrollbar self) (sp_axis self) (swipe_right_to_go_back self).

(* src: ui/model_tt/component/simple_page.rs 70-86 (SimplePage::change_page) *)
Definition simple_change_page self (ctx : EventCtx) (step : Z) : ui (SimplePage T * EventCtx) :=
  sb ← go_to_relative (sp_scrollbar self) step;
  let self := simple_setup_swipe
                (mkSimplePage (sp_content self) (sp_pad self) (sp_swipe self) sb (sp_axis self) (swipe_right_to_go_back self)) in
  c ← content_change_page (sp_content self) (active_page sb);
  '(c, ctx) ← request_complete_repaint c ctx;
  Ok (mkSimplePage c (clear_pad (sp_pad self)) (sp_swipe self) (sp_scrollbar self) (sp_axis self)
        (swipe_right_to_go_back self), ctx).

(* src: ui/model_tt/component/simple_page.rs 100-130 (SimplePage::place) *)
Definition simple_page_place self (bounds : Rect) : ui (SimplePage T * Rect) :=
  let s := sp_swipe self in
  let extent := i16 (SCROLLBAR_HEIGHT + SCROLLBAR_BORDER) in
  let '(content, scrollbar) := if is_horizontal self then split_bottom bounds extent else split_right bounds extent in
  '(c, _) ← place (sp_content self) bounds;
  '(c, count) ← content_page_count c;
  '(c, pad) ←
    (if 1 <? count then '(c, _) ← place c content; Ok (c, pad_place (sp_pad self) content)
     else Ok (c, pad_place (sp_pad self) bounds));
  let border := if is_horizontal self then insets_bottom SCROLLBAR_BORDER else insets_right SCROLLBAR_BORDER in
  let sb := scrollbar_place (sp_scrollbar self) (inset scrollbar border) in
  '(c, count) ← content_page_count c;
  Ok (simple_setup_swipe
        (mkSimplePage c pad (mkSwipe bounds (allow_up s) (allow_down s) (allow_left s) (allow_right s) (origin s))
           (set_count_and_active_page sb count 0) (sp_axis self) (swipe_right_to_go_back self)), bounds).

(** What a swipe leads to: a step, or the way back. *)
(* src: ui/model_tt/component/simple_page.rs 135-153 (SimplePage::event) *)
Definition swipe_step self (swipe : SwipeDirection) : option (HandleResult (PageMsg Msg)) :=
  match swipe, sp_axis self with
  | SwipeLeft, Horizontal | SwipeUp, Vertical => Some NextPage
  | SwipeRight, axis =>
    if swipe_right_to_go_back self && (active_page (sp_scrollbar self) =? 0) then Some (Return PageCancelled)
    else match axis with Horizontal => Some PrevPage | Vertical => None end
  | SwipeDown, Vertical => Some PrevPage
  | _, _ => None
  end.

(* src: ui/model_tt/component/simple_page.rs 132-156 (SimplePage::event) *)
Definition simple_page_event self (ctx : EventCtx) (ev : Event) : ui (SimplePage T * EventCtx * option (PageMsg Msg)) :=
  let ctx := set_page_count ctx (sb_page_count (sp_scrollbar self)) in
  let '(s, swipe) := swipe_event (sp_swipe self) ev in
  let self := mkSimplePage (sp_content self) (sp_pad self) s (sp_scrollbar self) (sp_axis self) (swipe_right_to_go_back self) in
  match swipe ≫= swipe_step self : option (HandleResult (PageMsg Msg)) with
  | Some NextPage => '(self, ctx) ← simple_change_page self ctx 1; Ok (self, ctx, None)
  | Some PrevPage => '(self, ctx) ← simple_change_page self ctx (-1); Ok (self, ctx, None)
  | Some (Return r) => Ok (self, ctx, Some r)
  | _ =>
    '(c, ctx, msg) ← (event (sp_content self) ctx ev : ui (T * EventCtx * option Msg));
    Ok (mkSimplePage c (sp_pad self) (sp_swipe self) (sp_scrollbar self) (sp_axis self) (swipe_right_to_go_back self), ctx,
        match msg with Some m => Some (Content m) | None => None end)
  end.

#[export] Instance simple_page_component : Component (SimplePage T) (PageMsg Msg) := {
  place := simple_page_place;
  event := simple_page_event
}.
End SimplePage.

(** ** Numbers *)

(* src: ui/model_tt/component/number_input.rs 156-158 (NumberInputMsg) *)
Inductive NumberInputMsg := Changed (value : Z).

(* src: ui/model_tt/component/number_input.rs 160-167 (NumberInput) *)
Record NumberInput := mkNumberInput {
  ni_area : Rect;
  dec : Child Button;
  inc : Child Button;
  ni_min : Z;
  ni_max : Z;
  ni_value : Z
}.

(* src: ui/model_tt/theme/mod.rs 523-553 (button_counter) *)
Definition button_counter : ButtonStyleSheet :=
  mkSheet
    (mkStyle DEMIBOLD FG GREY_DARK BG BG RADIUS 0)
    (mkStyle DEMIBOLD FG GREY_MEDIUM BG FG RADIUS 0)
    (mkStyle DEMIBOLD GREY_LIGHT GREY_DARK BG BG RADIUS 0).

(** [clamp] aborts on an empty range. *)
(* src: ui/model_tt/component/number_input.rs 170-186 (NumberInput::new) *)
Definition number_input_new (min max value : Z) : ui NumberInput :=
  if max <? min then Panic
  else Ok (mkNumberInput rect_zero (child_new (styled (with_text [45]) button_counter))
             (child_new (styled (with_text [43]) button_counter)) min max (Z.max min (Z.min max value))).

(* src: ui/model_tt/component/number_input.rs 192-198 (NumberInput::place) *)
Definition number_input_place (self : NumberInput) (bounds : Rect) : ui (NumberInput * Rect) :=
  let grid := grid_with_spacing (grid_new bounds 1 3) KEYBOARD_SPACING in
  a ← row_col grid 0 0;
  '(dec, _) ← place (dec self) a;
  a ← row_col grid 0 2;
  '(inc, _) ← place (inc self) a;
  area ← row_col grid 0 1;
  Ok (mkNumberInput area dec inc (ni_min self) (ni_max self) (ni_value self), bounds).

(** The buttons at the ends of the range, after a change. *)
(* src: ui/model_tt/component/number_input.rs 210-217 (NumberInput::event) *)
Definition number_changed (self : NumberInput) (ctx : EventCtx) : ui (NumberInput * EventCtx * option NumberInputMsg) :=
  let value := ni_value self in
  '(d, ctx) ← mutate_ (dec self) ctx (λ ctx b, enable_if b ctx (ni_min self <? value));
  '(i, ctx) ← mutate_ (inc self) ctx (λ ctx b, enable_if b ctx (value <? ni_max self));
  Ok (mkNumberInput (ni_area self) d i (ni_min self) (ni_max self) value, request_paint ctx, Some (Changed value)).

(* src: ui/model_tt/component/number_input.rs 200-219 (NumberInput::event) *)
Definition number_input_event (self : NumberInput) (ctx : EventCtx) (ev : Event)
    : ui (NumberInput * EventCtx * option NumberInputMsg) :=
  '(d, ctx, dec_msg) ← event (dec self) ctx ev;
  let decreased := bool_decide (dec_msg = Some Clicked) in
  let value := if decreased then Z.max (ni_min self) (Z.max 0 (ni_value self - 1)) else ni_value self in
  '(i, ctx, inc_msg) ← event (inc self) ctx ev;
  let increased := bool_decide (inc_msg = Some Clicked) in
  let value := if increased then Z.min (ni_max self) (Z.min (2 ^ 32 - 1) (value + 1)) else value in
  let self := mkNumberInput (ni_area self) d i (ni_min self) (ni_max self) value in
  if decreased || increased then number_changed self ctx else Ok (self, ctx, None).

#[export] Instance number_input_component : Component NumberInput NumberInputMsg := {
  place := number_input_place;
  event := number_input_event
}.
