(* ===== verification/PageTSpec.v ===== *)
(** * What pages with buttons answer

    A page is only confirmed on its last page, when every page has been shown,
    by the end of a touch on the pressed button that is shown there, and with a
    loader only when it has grown.  And it can be confirmed, by one tap for each
    page, the last of which is held where that is asked for. *)
From S2P Require Import Prelude Time Geometry Component Theme Button PageT.
Local Open Scope Z_scope.

(** A touch ends on a button that is pressed. *)
Definition clicked (b : Button) (ev : Event) : Prop :=
  ∃ pos, ev = Touch (TouchEnd pos) ∧ contains (touch_area b) pos = true ∧ state b = Pressed.

Lemma button_event_click b ctx ev b' ctx' : button_event b ctx ev = (b', ctx', Some Clicked) → clicked b ev.
Proof.
  unfold button_event. intros He.
  destruct ev as [|[pos|pos|pos|]| |token| | | |]; try discriminate He.
  - destruct (state b); try discriminate He; destruct (contains _ pos); try discriminate He;
      destruct (set b ctx Pressed); destruct (long_press _); try destruct (request_timer _ _); discriminate He.
  - destruct (state b); try discriminate He. destruct (negb _); [|discriminate He]. destruct (set b ctx Released); discriminate He.
  - exists pos. destruct (state b) eqn:Hs; try discriminate He; destruct (set b ctx Initial_) as [b1 ctx1];
      destruct (contains _ pos) eqn:Hc; cbn [bool_decide andb] in He; try discriminate He; done.
  - destruct (bool_decide _); [|discriminate He]. destruct (bool_decide _); [|discriminate He].
    destruct (set _ ctx Initial_); discriminate He.
Qed.

(** A touch that began on the button is one of the events. *)
Definition begun (b : Button) (events : list Event) : Prop :=
  ∃ pos, Touch (TouchStart pos) ∈ events ∧ contains (touch_area b) pos = true.

(** A button that an event may have reached. *)
Definition button_step (b : Button) (ev : Event) (b' : Button) : Prop :=
  b' = b ∨ ∃ ctx, b' = (button_event b ctx ev).1.1.

(** Events leave a button where it is, and it is pressed by the beginning of a
    touch on it alone. *)
Lemma button_event_pressed b ctx ev b' ctx' msg : button_event b ctx ev = (b', ctx', msg) →
  touch_area b' = touch_area b ∧
  (state b' = Pressed → state b = Pressed ∨ ∃ pos, ev = Touch (TouchStart pos) ∧ contains (touch_area b) pos = true).
Proof.
  assert (∀ x c s b1 c1, set x c s = (b1, c1) → touch_area b1 = touch_area x ∧ state b1 = s) as Hset.
  { unfold set. intros x c s b1 c1. case_bool_decide as Hs; intros [= <- _]; [done|]. split; [done|].
    by destruct (decide (state x = s)). }
  unfold button_event. intros He.
  destruct ev as [|[pos|pos|pos|]| |token| | | |]; repeat case_match; simplify_eq;
    repeat match goal with H : set _ _ _ = _ |- _ => destruct (Hset _ _ _ _ _ H); clear H end; (split; [done|]); intros Hp;
    cbn in Hp; try (left; congruence); right; by exists pos.
Qed.

Lemma button_step_pressed b ev b' events : button_step b ev b' → (state b = Pressed → begun b events) →
  (state b' = Pressed → begun b' (ev :: events)).
Proof.
  intros [->|[ctx ->]] Hb.
  - intros (pos & Hin & Hc)%Hb. exists pos. split; [by right|done].
  - destruct (button_event b ctx ev) as [[b1 ctx1] msg] eqn:E. cbn [fst].
    apply button_event_pressed in E as [Ha Hs]. unfold begun. rewrite Ha.
    intros [(pos & Hin & Hc)%Hb|(pos & -> & Hc)]%Hs; exists pos; (split; [|done]); [by right|by left].
Qed.

(** [inv_ok], with results that are tuples. *)
Ltac inv_ui := repeat (progress (inv_ok; repeat match goal with x : (_ * _)%type |- _ => destruct x end;
                                 cbn beta iota in *; simplify_eq)).

Section ButtonPage.
Context {T Msg : Type} `{Component T Msg} `{Paginate T} `{Screen}.
Implicit Types p q : ButtonPage T.

(** The pages that were shown and the events that came, from the placement of a
    page on. *)
Inductive reached (p0 : ButtonPage T) (bounds : Rect) : list Z → list Event → ButtonPage T → Prop :=
| reached_start p r : button_page_place p0 bounds = Ok (p, r) → reached p0 bounds [active_page (scrollbar p)] [] p
| reached_step seen events p (t : Instant) ctx ev p' ctx' msg :
    reached p0 bounds seen events p → button_page_event (H2 := {| now := t |}) p ctx ev = Ok (p', ctx', msg) →
    reached p0 bounds (active_page (scrollbar p') :: seen) (ev :: events) p'.

(** The buttons to confirm and to cancel, before and after an event. *)
Definition buttons_step p (ev : Event) q : Prop :=
  button_step (confirm_button p) ev (confirm_button q) ∧
  match cancel_button p, cancel_button q with
  | Some b, Some b' => button_step b ev b'
  | None, None => True
  | _, _ => False
  end.

Definition same_buttons p q : Prop := confirm_button q = confirm_button p ∧ cancel_button q = cancel_button p.

Lemma buttons_step_same p q ev : same_buttons p q → buttons_step p ev q.
Proof. intros [Hc Hx]. unfold buttons_step. rewrite Hc, Hx. split; [by left|]. destruct (cancel_button p); [by left|done]. Qed.

Lemma buttons_step_after p q q' ev : buttons_step p ev q → same_buttons q q' → buttons_step p ev q'.
Proof. intros Hp [Hc Hx]. unfold buttons_step in *. by rewrite Hc, Hx. Qed.

Lemma buttons_step_before p q q' ev : same_buttons p q → buttons_step q ev q' → buttons_step p ev q'.
Proof. intros [Hc Hx] Hp. unfold buttons_step in *. by rewrite <- Hc, <- Hx. Qed.

(** The number of pages and the one that is shown. *)
Definition position p : Z * Z := (sb_page_count (scrollbar p), active_page (scrollbar p)).

(** A page is turned. *)
Definition turned p (step : Z) p' : Prop :=
  sb_page_count (scrollbar p') = sb_page_count (scrollbar p) ∧
  go_to_relative (scrollbar p) step = Ok (scrollbar p').

Section Steps.
Context `{Clock}.

Lemma change_page_turned p ctx step p' ctx' :
  change_page p ctx step = Ok (p', ctx') → turned p step p' ∧ same_buttons p p'.
Proof.
  unfold change_page. intros (sb & Hsb & Hc)%bind_Ok.
  destruct (enable_if _ ctx _) as [b ctx1]. inv_ui. split; [|done]. split; [|done].
  unfold go_to_relative in Hsb. destruct (_ <? 0); [discriminate Hsb|]. injection Hsb as <-. done.
Qed.

Lemma turn_page_turned p ctx step p' ctx' (msg : option (PageMsg Msg)) :
  turn_page p ctx step = Ok (p', ctx', msg) → turned p step p' ∧ msg = None ∧ same_buttons p p'.
Proof.
  unfold turn_page. intros ([q ctx1] & [Ht Hs]%change_page_turned & Hq)%bind_Ok. by injection Hq as <- _ <-.
Qed.

Lemma handle_left_position p ctx ev p' ctx' (r : HandleResult (option (PageMsg Msg) * option ButtonMsg)) :
  handle_left_button p ctx ev = Ok (p', ctx', r) →
  scrollbar p' = scrollbar p ∧ loader p' = loader p ∧ confirm_button p' = confirm_button p ∧ buttons_step p ev p' ∧
  match r with
  | Return (m, bm) => m = Some PageCancelled ∧ bm = None ∧ is_cancel_visible p = true ∧
                      ∃ b, cancel_button p = Some b ∧ clicked b ev
  | NextPage => False
  | _ => True
  end.
Proof.
  unfold handle_left_button. destruct (is_cancel_visible p) eqn:Hv; intros Hh.
  - destruct (cancel_button p) as [b|] eqn:Hb; cbn in Hh.
    2: { inv_ui. split_and!; try done. unfold buttons_step. cbn. rewrite Hb. by split; [left|]. }
    destruct (button_event b ctx ev) as [[b1 ctx1] m] eqn:Hev. cbn in Hh. simplify_eq.
    split; [done|]. split; [done|]. split; [done|]. split.
    { unfold buttons_step. cbn. rewrite Hb. split; [by left|]. right. exists ctx. by rewrite Hev. }
    destruct m as [[]|]; try done. split_and!; try done. exists b. split; [done|]. by eapply button_event_click.
  - destruct (button_event (prev_button p) ctx ev) as [[b1 ctx1] m]. inv_ui.
    split; [done|]. split; [done|]. split; [done|]. split; [by apply buttons_step_same|]. by destruct m as [[]|].
Qed.

Lemma handle_button_position p ctx ev p' ctx' (r : HandleResult (option (PageMsg Msg) * option ButtonMsg)) :
  handle_button p ctx ev = Ok (p', ctx', r) →
  scrollbar p' = scrollbar p ∧ loader p' = loader p ∧ buttons_step p ev p' ∧
  match r with
  | Return (Some m, None) => m = PageCancelled ∧ is_cancel_visible p = true ∧ ∃ b, cancel_button p = Some b ∧ clicked b ev
  | Return (m, Some bm) =>
    has_next_page (scrollbar p) = false ∧ (m = Some PageConfirmed ↔ bm = Clicked) ∧ (m = None ∨ m = Some PageConfirmed) ∧
    (bm = Clicked → clicked (confirm_button p) ev)
  | Return (None, None) => False
  | _ => True
  end.
Proof.
  unfold handle_button. destruct (has_next_page (scrollbar p)) eqn:Hn.
  - destruct (button_event (next_button p) ctx ev) as [[b1 ctx1] m]. intros Hh.
    assert (same_buttons p (set_next p b1)) as Hsame by done.
    destruct m as [[]|]; try (inv_ui; split_and!; [done|done| |done]; by apply buttons_step_same);
      apply handle_left_position in Hh as (-> & -> & _ & Hb & Hr); (split; [done|split; [done|split]]);
      try (by eapply buttons_step_before);
      destruct r as [[m bm]| | |]; try done; by destruct Hr as (-> & -> & ? & ?).
  - destruct (button_event (confirm_button p) ctx ev) as [[b1 ctx1] m] eqn:Hev. intros Hh.
    assert (buttons_step p ev (set_confirm p b1)) as Hstep.
    { split; [right; exists ctx; by rewrite Hev|]. cbn. destruct (cancel_button p); [by left|done]. }
    destruct m as [bm|].
    + assert (bm = Clicked → clicked (confirm_button p) ev) as Hck by (intros ->; by eapply button_event_click).
      destruct bm; inv_ui; split_and!; try done; naive_solver.
    + apply handle_left_position in Hh as (-> & -> & Hc & Hb & Hr). split; [done|split; [done|split]].
      { split; [rewrite Hc; apply Hstep|]. apply Hb. }
      destruct r as [[m bm]| | |]; try done. by destruct Hr as (-> & -> & ? & ?).
Qed.

Lemma loader_event_touch l ctx e : loader_event l ctx (Touch e) = (ctx, None).
Proof. done. Qed.

Lemma handle_hold_position p ctx ev bm p' ctx' (r : HandleResult (PageMsg Msg)) :
  handle_hold p ctx ev bm = Ok (p', ctx', r) →
  scrollbar p' = scrollbar p ∧
  match r with
  | Return m => m = PageConfirmed ∧ bm = Some Clicked ∧ ∀ l, loader p = Some l → is_completely_grown l = true
  | Continue => True
  | _ => False
  end.
Proof.
  unfold handle_hold. destruct (loader p) as [l|]; [|by intros [= <- <- <-]].
  destruct (loader_event l ctx ev) as [ctx1 lm] eqn:Hl. intros (((p1 & ctx2) & l1) & Hp1 & Hh)%bind_Ok.
  assert (scrollbar p1 = scrollbar p ∧ (is_completely_grown l1 = true → is_completely_grown l = true)) as [Hs Hg].
  { destruct lm as [[]|]; inv_ui; split; done. }
  destruct bm as [bm|]; [|inv_ui; done].
  destruct bm; try destruct (start_growing l1 ctx2); try destruct (start_shrinking l1 ctx2); try (inv_ui; done).
  destruct (is_completely_grown l1) eqn:Hg1; cbn in Hh; [|inv_ui; done].
  inv_ui. split; [done|]. split_and!; try done. intros l' [= <-]. by apply Hg.
Qed.

(** What an event does to the pages, and when it is answered. *)
Record stepped p (ev : Event) p' (msg : option (PageMsg Msg)) : Prop := {
  st_pages : scrollbar p' = scrollbar p ∨ msg = None ∧ ∃ step, (step = 1 ∨ step = -1) ∧ turned p step p';
  st_confirmed : msg = Some PageConfirmed →
    has_next_page (scrollbar p) = false ∧ clicked (confirm_button p) ev ∧
    ∀ l, loader p = Some l → is_completely_grown l = true;
  st_cancelled : msg = Some PageCancelled →
    is_cancel_visible p = true ∧ ∃ b, cancel_button p = Some b ∧ clicked b ev
}.

Lemma finish_event_stepped p q ctx ev r bm p' ctx' msg :
  scrollbar q = scrollbar p → loader q = loader p →
  (r = Some PageConfirmed ↔ bm = Some Clicked) → (r = None ∨ r = Some PageConfirmed) →
  (bm = Some Clicked → has_next_page (scrollbar p) = false ∧ clicked (confirm_button p) ev) →
  finish_event q ctx ev r bm = Ok (p', ctx', msg) → stepped p ev p' msg.
Proof.
  intros Hs Hl Hr Hrn Hbm Hf. unfold finish_event in Hf. destruct (loader q) as [l|] eqn:Hlq.
  - apply bind_Ok in Hf as (((q1 & ctx1) & hr) & Hh & Hf). apply handle_hold_position in Hh as [Hs1 Hh].
    destruct hr as [m| | |]; try discriminate Hf; injection Hf as <- _ <-.
    + destruct Hh as (-> & Hc & Hg). split; [left; congruence| |done]. intros _.
      destruct (Hbm Hc) as [Hn Hcl]. split_and!; try done. intros l' Hl'. apply Hg. congruence.
    + split; [left; congruence|done..].
  - injection Hf as <- _ <-. split; [by left| |by destruct Hrn as [->| ->]].
    intros Hm. apply Hr in Hm. destruct (Hbm Hm). split_and!; try done. congruence.
Qed.

(** Neither the swipe nor the content change what the page answers to. *)
Definition same_page p q : Prop :=
  scrollbar q = scrollbar p ∧ loader q = loader p ∧ confirm_button q = confirm_button p ∧ cancel_button q = cancel_button p ∧
  is_cancel_visible q = is_cancel_visible p.

Lemma handle_swipe_page p ev q (r : HandleResult (PageMsg Msg)) : handle_swipe p ev = (q, r) →
  same_page p q ∧ ∀ m, r = Return m → m = PageSwipeLeft ∨ m = PageSwipeRight.
Proof.
  unfold handle_swipe. destruct (swipe_event (pg_swipe p) ev) as [s m]. intros [= <- <-]. split; [done|].
  intros m' Hm. destruct m as [[]|]; repeat case_match; naive_solver.
Qed.

Lemma stepped_same p q ev p' msg : same_page p q → stepped q ev p' msg → stepped p ev p' msg.
Proof.
  unfold turned. intros (Hs & Hl & Hc & Hx & Hv) [Hp Hcf Hcc]. unfold turned in Hp. rewrite Hs, ?Hl, ?Hc, ?Hx, ?Hv in *.
  split; [exact Hp|exact Hcf|exact Hcc].
Qed.

Lemma buttons_stepped p ctx ev p' ctx' msg :
  ('(p, ctx, result) ← handle_button p ctx ev;
   match result with
   | Return (Some r, None) => Ok (p, ctx, Some r)
   | Return (r, m) => finish_event p ctx ev r m
   | PrevPage => turn_page p ctx (-1)
   | NextPage => turn_page p ctx 1
   | Continue => finish_event p ctx ev None None
   end) = Ok (p', ctx', msg) → stepped p ev p' msg.
Proof.
  intros (((q & ctx1) & r) & Hh & Hf)%bind_Ok. apply handle_button_position in Hh as (Hs & Hl & _ & Hr).
  assert (∀ step, turn_page q ctx1 step = Ok (p', ctx', msg) → (step = 1 ∨ step = -1) → stepped p ev p' msg) as Hturn.
  { intros step Ht Hstep. apply turn_page_turned in Ht as ([Hc Ht] & -> & _). split; [|done..].
    right. split; [done|]. exists step. split; [done|]. split; congruence. }
  destruct r as [[[m|] [bm|]]| | |]; try done.
  - destruct Hr as (Hn & Hm & Hm' & Hck). eapply finish_event_stepped; [done..| | | |exact Hf]; [naive_solver|naive_solver|].
    intros [= ->]. by split; [|apply Hck].
  - injection Hf as <- _ <-. destruct Hr as (-> & Hv & Hb). by split; [left|done|].
  - destruct Hr as (Hn & Hm & Hm' & Hck). eapply finish_event_stepped; [done..| | | |exact Hf]; [naive_solver|naive_solver|].
    intros [= ->]. by split; [|apply Hck].
  - apply (Hturn (-1)); auto.
  - apply (Hturn 1); auto.
  - eapply finish_event_stepped; [done..| | | |exact Hf]; [done|by left|done].
Qed.

Lemma event_stepped p ctx ev p' ctx' msg : button_page_event p ctx ev = Ok (p', ctx', msg) → stepped p ev p' msg.
Proof.
  unfold button_page_event. destruct (handle_swipe p ev) as [q r] eqn:Hq. apply handle_swipe_page in Hq as [Hsame Hr].
  assert (∀ step ctx0, turn_page q ctx0 step = Ok (p', ctx', msg) → (step = 1 ∨ step = -1) → stepped p ev p' msg) as Hturn.
  { intros step ctx0 Ht Hstep. apply turn_page_turned in Ht as (Ht & -> & _). apply (stepped_same p q); [done|].
    split; [|done..]. right. eauto. }
  destruct r as [m| | |]; [|intros ?%Hturn; auto..|].
  - intros [= <- _ <-]. apply (stepped_same p q); [done|]. by split; [left|destruct (Hr m) as [->| ->]..].
  - intros (((c & ctx1) & [m|]) & Hc & He)%bind_Ok; cbn beta iota zeta in He.
    + injection He as <- _ <-. apply (stepped_same p q); [done|]. by split; [left| |].
    + apply buttons_stepped in He. by apply (stepped_same p (set_content_ q c)).
Qed.

(** What an event does to the buttons. *)
Lemma handle_hold_buttons p ctx ev bm p' ctx' (r : HandleResult (PageMsg Msg)) :
  handle_hold p ctx ev bm = Ok (p', ctx', r) → same_buttons p p'.
Proof.
  unfold handle_hold. destruct (loader p) as [l|]; [|by intros [= <- <- <-]].
  destruct (loader_event l ctx ev) as [ctx1 lm]. intros (((p1 & ctx2) & l1) & Hp1 & Hh)%bind_Ok.
  assert (same_buttons p p1) as Hs by (destruct lm as [[]|]; inv_ui; done).
  destruct bm as [bm|]; [|inv_ui; done].
  destruct bm; try destruct (start_growing l1 ctx2); try destruct (start_shrinking l1 ctx2);
    try destruct (is_completely_grown l1 || _); by inv_ui.
Qed.

Lemma finish_event_buttons p ctx ev r bm p' ctx' (msg : option (PageMsg Msg)) :
  finish_event p ctx ev r bm = Ok (p', ctx', msg) → same_buttons p p'.
Proof.
  unfold finish_event. destruct (loader p); [|by intros [= <- _ _]].
  intros (((q & ctx1) & hr) & Hh%handle_hold_buttons & Hf)%bind_Ok.
  destruct hr; try discriminate Hf; by injection Hf as <- _ _.
Qed.

Lemma event_buttons p ctx ev p' ctx' (msg : option (PageMsg Msg)) :
  button_page_event p ctx ev = Ok (p', ctx', msg) → buttons_step p ev p'.
Proof.
  unfold button_page_event. destruct (handle_swipe p ev) as [q r] eqn:Hq.
  apply handle_swipe_page in Hq as [(_ & _ & Hc & Hx & _) _].
  assert (same_buttons p q) as Hsame by done.
  assert (∀ step ctx0, turn_page q ctx0 step = Ok (p', ctx', msg) → buttons_step p ev p') as Hturn.
  { intros step ctx0 (_ & _ & Ht)%turn_page_turned. eapply buttons_step_after; [by apply buttons_step_same|done]. }
  destruct r as [m| | |]; [intros [= <- _ _]; by apply buttons_step_same|eauto..|].
  intros (((c & ctx1) & [m|]) & _ & He)%bind_Ok; cbn beta iota zeta in He.
  { injection He as <- _ _. by apply buttons_step_same. }
  apply bind_Ok in He as (((q1 & ctx2) & hr) & (_ & _ & Hb & _)%handle_button_position & Hf).
  assert (buttons_step p ev q1) as Hp by (by eapply buttons_step_before; [|exact Hb]). clear Hb.
  assert (∀ step ctx0, turn_page q1 ctx0 step = Ok (p', ctx', msg) → buttons_step p ev p') as Hturn1.
  { intros step ctx0 (_ & _ & Ht)%turn_page_turned. by eapply buttons_step_after. }
  assert (∀ r bm, finish_event q1 ctx2 ev r bm = Ok (p', ctx', msg) → buttons_step p ev p') as Hfin.
  { intros r bm Ht%finish_event_buttons. by eapply buttons_step_after. }
  destruct hr as [[[m|] [bm|]]| | |]; eauto. by injection Hf as <- _ _.
Qed.
End Steps.

(** ** Reached pages *)

Lemma go_to_relative_Ok (sb : ScrollBar) step : 0 <= active_page sb < sb_page_count sb → sb_page_count sb < 2 ^ 31 →
  step = 1 ∨ step = -1 →
  go_to_relative sb step = Ok (go_to sb (Z.max 0 (Z.min (sb_page_count sb - 1) (active_page sb + step)))).
Proof.
  intros Ha Hc Hstep. unfold go_to_relative. assert (∀ z, - 2 ^ 31 <= z < 2 ^ 31 → wraps 32 z = z) as Hw.
  { intros z Hz. apply wraps_small; unfold in_s; lia. }
  rewrite !Hw by (rewrite ?Hw; lia). by destruct (Z.ltb_spec (sb_page_count sb - 1) 0); [lia|].
Qed.

(** All pages up to the one that is shown were shown. *)
Lemma reached_pages p0 bounds seen events p : reached p0 bounds seen events p → 1 <= sb_page_count (scrollbar p) < 2 ^ 31 →
  0 <= active_page (scrollbar p) < sb_page_count (scrollbar p) ∧ ∀ i, 0 <= i <= active_page (scrollbar p) → i ∈ seen.
Proof.
  induction 1 as [p r Hp|seen events p t ctx ev p' ctx' msg Hr IH He]; intros Hc.
  - assert (active_page (scrollbar p) = 0) as Ha.
    { apply bind_Ok in Hp as ([cancel r1] & _ & Hp). apply bind_Ok in Hp as ([c n] & _ & Hp). 
      apply (f_equal (λ o : ui (ButtonPage T * Rect), match o with Ok (q, _) => active_page (scrollbar q) | _ => 0 end)) in Hp.
      exact (eq_sym Hp). }
    rewrite Ha. split; [lia|]. intros i Hi. assert (i = 0) as -> by lia. set_solver.
  - apply event_stepped in He as [Hpages _ _]. destruct Hpages as [Hs|(_ & step & Hstep & Hcount & Hgo)].
    + rewrite Hs in *. destruct (IH Hc). split; [done|]. set_solver.
    + rewrite Hcount in Hc. destruct (IH Hc) as [Ha Hseen].
      rewrite go_to_relative_Ok in Hgo by (done || lia). injection Hgo as Hsb.
      assert (active_page (scrollbar p') = Z.max 0 (Z.min (sb_page_count (scrollbar p) - 1) (active_page (scrollbar p) + step))) as Ha'
        by by rewrite <- Hsb.
      rewrite Hcount. split; [lia|].
      intros i Hi. destruct (decide (i = active_page (scrollbar p'))) as [->|Hne]; [set_solver|].
      apply elem_of_cons. right. apply Hseen. lia.
Qed.

(** No button of a page is pressed, as in every page that was made. *)
Definition unpressed p : Prop :=
  state (confirm_button p) ≠ Pressed ∧ ∀ b, cancel_button p = Some b → state b ≠ Pressed.

Lemma place_unpressed p0 bounds p r : button_page_place p0 bounds = Ok (p, r) → unpressed p0 → unpressed p.
Proof.
  intros Hp [Hc Hx]. apply bind_Ok in Hp as ([cancel r1] & Hcancel & Hp). apply bind_Ok in Hp as ([c n] & _ & Hp).
  assert (state (confirm_button p) = state (confirm_button p0)) as Hs.
  { apply (f_equal (λ o : ui (ButtonPage T * Rect), match o with Ok (q, _) => state (confirm_button q) | _ => Disabled end)) in Hp.
    rewrite <- Hp. cbn beta iota delta [confirm_button set_loader setup_swipe set_swipe_]. by destruct (_ && _). }
  assert (cancel_button p = cancel) as Hcan.
  { apply (f_equal (λ o : ui (ButtonPage T * Rect), match o with Ok (q, _) => cancel_button q | _ => None end)) in Hp.
    exact (eq_sym Hp). }
  split; [congruence|]. intros b Hb. rewrite Hcan in Hb. rewrite Hb in Hcancel.
  destruct (cancel_button p0) as [b0|] eqn:E; cbn in Hcancel; [|discriminate Hcancel].
  injection Hcancel as <- _. by apply (Hx b0).
Qed.

(** A button that is pressed was touched. *)
Lemma reached_begun p0 bounds seen events p : reached p0 bounds seen events p → unpressed p0 →
  (state (confirm_button p) = Pressed → begun (confirm_button p) events) ∧
  ∀ b, cancel_button p = Some b → state b = Pressed → begun b events.
Proof.
  intros Hr Hu. induction Hr as [p r Hp|seen events p t ctx ev p' ctx' msg Hr IH He].
  - apply place_unpressed in Hp as [Hc Hx]; [|done]. split; [done|]. intros b Hb Hs. by destruct (Hx b).
  - destruct IH as [IHc IHx]. apply event_buttons in He as [Hc Hx].
    split; [by eapply button_step_pressed|]. intros b' Hb'. rewrite Hb' in Hx.
    destruct (cancel_button p) as [b|]; [|done]. eapply button_step_pressed; [done|]. by apply IHx.
Qed.

Lemma last_page_shown p : 0 <= active_page (scrollbar p) < sb_page_count (scrollbar p) → sb_page_count (scrollbar p) < 2 ^ 31 →
  has_next_page (scrollbar p) = false → active_page (scrollbar p) = sb_page_count (scrollbar p) - 1.
Proof.
  unfold has_next_page. intros Ha Hc Hn%Z.ltb_ge. rewrite wrapu_small in Hn by (unfold in_u; lia). lia.
Qed.

(** C26. What a page with buttons answers, whatever its content is and whatever
    events come: it is confirmed only when a touch ends on the button to confirm
    while this button is pressed, on the last page, when every page has been
    shown, and, where the button has to be held, when its loader has grown; and
    it is cancelled only when a touch ends on the pressed button to cancel, on
    the first page or if that can be done from any page. A button is only
    pressed when a touch began on it before, though that need not be the touch
    that ends: a swipe that turns the page leaves the button pressed on which it
    began. *)
Theorem button_page_consent p0 bounds seen events p (t : Instant) ctx ev p' ctx' (msg : PageMsg Msg) :
  reached p0 bounds seen events p → unpressed p0 → 1 <= sb_page_count (scrollbar p) < 2 ^ 31 →
  button_page_event (H2 := {| now := t |}) p ctx ev = Ok (p', ctx', Some msg) →
  (msg = PageConfirmed →
     (∀ i, 0 <= i < sb_page_count (scrollbar p) → i ∈ seen) ∧
     active_page (scrollbar p) = sb_page_count (scrollbar p) - 1 ∧
     clicked (confirm_button p) ev ∧ begun (confirm_button p) events ∧
     ∀ l, loader p = Some l → is_completely_grown (H := {| now := t |}) l = true) ∧
  (msg = PageCancelled →
     (cancel_from_any_page p = true ∨ active_page (scrollbar p) = 0) ∧
     ∃ b, cancel_button p = Some b ∧ clicked b ev ∧ begun b events).
Proof.
  intros Hr Hu Hc He. apply event_stepped in He as [_ Hcf Hcc]. destruct (reached_pages _ _ _ _ _ Hr Hc) as [Ha Hseen].
  destruct (reached_begun _ _ _ _ _ Hr Hu) as [Hbc Hbx]. split; intros ->.
  - destruct (Hcf eq_refl) as (Hn & Hck & Hg). apply last_page_shown in Hn; [|lia..].
    split; [intros i Hi; apply Hseen; lia|]. split; [done|]. split; [done|]. split; [|done].
    destruct Hck as (pos & _ & _ & Hs). by apply Hbc.
  - destruct (Hcc eq_refl) as (Hv & b & Hb & Hck). split.
    + unfold is_cancel_visible, has_previous_page in Hv.
      apply orb_true_iff in Hv as [Hv|Hv]; [by left|]. right. apply negb_true_iff, Z.ltb_ge in Hv. lia.
    + exists b. split; [done|]. split; [done|]. destruct Hck as (pos & _ & _ & Hs). by apply Hbx.
Qed.
End ButtonPage.

(** ** A way to confirm *)

(** The display of the model T, and the part of it that pages take. *)
#[export] Instance model_t_screen : Screen := {| screen_width := 240; screen_height := 240 |}.
Definition page_area : Rect := inset screen borders.

(** The answer to a sequence of events, each at its instant. *)
Fixpoint page_run {T Msg} `{Component T Msg} `{Paginate T} (p : ButtonPage T) (events : list (Instant * EventCtx * Event))
    : ui (ButtonPage T * option (PageMsg Msg)) :=
  match events with
  | [] => Ok (p, None)
  | (t, ctx, ev) :: events =>
    '(p, _, msg) ← button_page_event (H2 := {| now := t |}) p ctx ev;
    match msg with Some m => Ok (p, Some m) | None => page_run p events end
  end.

(** A tap on the button on the right. *)
Definition tap_point : Point := mkPoint 180 210.
Definition tap (t : Instant) (ctx : EventCtx) : list (Instant * EventCtx * Event) :=
  [(t, ctx, Touch (TouchStart tap_point)); (t, ctx, Touch (TouchEnd tap_point))].

Section Confirming.
Context {T Msg : Type} `{Component T Msg} `{Paginate T}.

(** A content that leaves events to the page, and keeps its number of pages. *)
Context (calm : T → Prop) (n : Z).
Class Calm : Prop := {
  calm_place c area : calm c → ∃ c' r, place c area = Ok (c', r) ∧ calm c';
  calm_event c ctx ev : calm c → ∃ c' ctx', event c ctx ev = Ok (c', ctx', None) ∧ calm c';
  calm_count c : calm c → ∃ c', content_page_count c = Ok (c', n) ∧ calm c';
  calm_change c i : calm c → 0 <= i < n → ∃ c', content_change_page c i = Ok c' ∧ calm c'
}.
Context `{Calm} (Hn : 1 <= n < 2 ^ 31).

(** Whether the page has to be held to confirm it, with the text of the button. *)
Context (hold : option (list Z)).

Definition page_of (c : T) (bg : Z) : ButtonPage T :=
  match hold with Some text => with_hold (button_page_new c bg) text | None => button_page_new c bg end.
Definition is_hold : bool := bool_decide (is_Some hold).
Definition confirm_base : Button :=
  match hold with
  | Some text => without_haptics (styled (with_text text) button_confirm)
  | None => styled (with_icon ICON_CONFIRM) button_confirm
  end.

(** The loader of a page, at rest or growing. *)
Definition loader_of (since : option Instant) : option Loader :=
  if is_hold then
    let l := (loader_place loader_new loader_area).1 in
    Some (match since with
          | Some t => let l := set_ld_state l (Growing (mkAnimation LOADER_MIN LOADER_MAX GROWING_DURATION_MS t)) in
                      set_ld_pad l (clear_pad (ld_pad l))
          | None => l
          end)
  else None.

(** The buttons of a placed page, which leave taps on the right to each other. *)
Definition right_area : Rect := button_right (page_layout_new page_area is_hold).
Definition left_area : Rect := button_left (page_layout_new page_area is_hold).

Lemma tap_areas : contains right_area tap_point = true ∧ contains left_area tap_point = false.
Proof. unfold right_area, left_area. by destruct is_hold. Qed.

Definition pressed_if (b : Button) (down : bool) : Button := with_state b (if down then Pressed else Initial_).

(** A page on its page [k]; [down] tells whether a tap on it was begun, and
    [since] when its loader began to grow. *)
Record resting (p : ButtonPage T) (k : Z) (down : bool) (since : option Instant) : Prop := {
  re_calm : calm (pg_content p);
  re_count : sb_page_count (scrollbar p) = n;
  re_active : active_page (scrollbar p) = k;
  re_next : next_button p = pressed_if (button_place (with_icon ICON_DOWN) right_area) (down && (k <? n - 1));
  re_confirm : confirm_button p =
    pressed_if (button_place confirm_base right_area) (down && negb (k <? n - 1));
  re_cancel : cancel_button p = Some (button_place (with_icon ICON_CANCEL) left_area);
  re_prev : ∃ s, (s = Initial_ ∨ s = Disabled) ∧ prev_button p = with_state (button_place (with_icon ICON_UP) left_area) s;
  re_any : cancel_from_any_page p = false;
  re_loader : loader p = loader_of since;
  re_swipe : ∃ up dn, pg_swipe p = mkSwipe page_area up dn false false (if down && (up || dn) then Some tap_point else None);
  re_left : swipe_left p = false;
  re_right : swipe_right p = false
}.

Lemma page_small c bg : small_left_button (page_of c bg) = is_hold.
Proof. unfold page_of, is_hold. by destruct hold. Qed.

Lemma place_resting c bg : calm c →
  ∃ p, button_page_place (page_of c bg) page_area = Ok (p, page_area) ∧ resting p 0 false None.
Proof.
  intros Hc. unfold button_page_place, place_content. rewrite page_small.
  destruct (calm_place c (content_single_page (page_layout_new page_area is_hold)) Hc) as (c1 & r1 & Hp1 & Hc1).
  destruct (calm_count c1 Hc1) as (c2 & Hn2 & Hc2).
  destruct (calm_place c2 (content_area (page_layout_new page_area is_hold)) Hc2) as (c3 & r3 & Hp3 & Hc3).
  destruct (calm_count c3 Hc3) as (c4 & Hn4 & Hc4).
  assert (pg_content (page_of c bg) = c) as -> by (unfold page_of; by destruct hold).
  assert (cancel_button (page_of c bg) = Some (with_icon ICON_CANCEL)) as -> by (unfold page_of; by destruct hold).
  cbn [place option_component button_component mbind outcome_bind].
  rewrite Hp1. cbn [mbind outcome_bind]. rewrite Hn2. cbn [mbind outcome_bind].
  assert (∃ c', (if 1 <? n then '(c, _) ← place c2 (content_area (page_layout_new page_area is_hold)); content_page_count c
                else Ok (c2, n)) = Ok (c', n) ∧ calm c') as (c' & -> & Hc').
  { destruct (1 <? n); [|by eauto]. rewrite Hp3. cbn [mbind outcome_bind]. by eauto. }
  cbn [mbind outcome_bind]. eexists. split; [reflexivity|].
  rewrite bool_decide_eq_false_2, andb_false_r by done.
  split; unfold page_of, loader_of, right_area, left_area, confirm_base, is_hold; destruct hold; try done; cbn;
    first [by eexists; split; [right|]|by eexists _, _].
Qed.

Lemma tap_swipe (up dn : bool) down e : e = (if down : bool then TouchEnd else TouchStart) tap_point →
  swipe_event (mkSwipe page_area up dn false false (if down && (up || dn) then Some tap_point else None)) (Touch e) =
  (mkSwipe page_area up dn false false (if negb down && (up || dn) then Some tap_point else None), None).
Proof. intros ->. by destruct up, dn, down. Qed.

Lemma tap_left (b : Button) s ctx down e : e = (if down : bool then TouchEnd else TouchStart) tap_point →
  s = Initial_ ∨ s = Disabled → area b = left_area → touch_expand b = None → state b = s →
  button_event b ctx (Touch e) = (b, ctx, None).
Proof.
  intros -> Hs Ha Ht Hst. unfold button_event, touch_area. rewrite Ht, Ha, Hst.
  destruct down; cbn iota beta; rewrite ?(proj2 tap_areas); by destruct Hs as [->| ->].
Qed.

(** Taps on a button of the right side. *)
Definition right_button (b : Button) : Prop := area b = right_area ∧ touch_expand b = None ∧ long_press b = None.

Lemma tap_right_start b ctx : right_button b → ∃ ctx',
  button_event (pressed_if b false) ctx (Touch (TouchStart tap_point)) = (pressed_if b true, ctx', Some Pressed_).
Proof.
  intros (Ha & Ht & Hl). unfold button_event, touch_area, pressed_if.
  cbn [touch_expand with_state area state]. rewrite Ht, Ha, (proj1 tap_areas). unfold set.
  rewrite bool_decide_eq_true_2 by done. cbn. rewrite Hl. by eexists.
Qed.

Lemma tap_right_end b ctx : right_button b → ∃ ctx',
  button_event (pressed_if b true) ctx (Touch (TouchEnd tap_point)) = (pressed_if b false, ctx', Some Clicked).
Proof.
  intros (Ha & Ht & Hl). unfold button_event, touch_area, pressed_if.
  cbn [touch_expand with_state area state]. rewrite Ht, Ha, (proj1 tap_areas). unfold set.
  rewrite bool_decide_eq_true_2 by done. by eexists.
Qed.

Section At.
Context `{Clock}.

Lemma resting_next p k down since : resting p k down since → 0 <= k < n → has_next_page (scrollbar p) = (k <? n - 1).
Proof. intros [] Hk. unfold has_next_page. rewrite wrapu_small by (unfold in_u; lia). congruence. Qed.

(** The button on the left leaves taps on the right alone. *)
Lemma tap_left_button p k down since d ctx e : resting p k down since → e = (if d : bool then TouchEnd else TouchStart) tap_point →
  handle_left_button p ctx (Touch e) = Ok (p, ctx, Continue (T := option (PageMsg Msg) * option ButtonMsg)).
Proof.
  intros [Hc Hcount Hact Hnx Hcf Hcan (s & Hs & Hprev) Hany Hld Hsw Hl Hr] He.
  unfold handle_left_button. destruct (is_cancel_visible p).
  - rewrite Hcan. cbn [event option_component button_component mbind outcome_bind].
    rewrite (tap_left _ Initial_ ctx d e He) by (done || by left). cbn [mbind outcome_bind].
    rewrite <- Hcan. by destruct p.
  - rewrite (tap_left (prev_button p) s ctx d e He) by (done || by rewrite Hprev). by destruct p.
Qed.

Lemma enable_if_state b ctx e : ∃ ctx', enable_if b ctx e = (with_state b (if e then Initial_ else Disabled), ctx').
Proof.
  unfold enable_if, enable, disable, set. by destruct b as [a t c st [] lp lt hp], e; cbn; eexists.
Qed.

(** What the loader does about a touch. *)
Lemma finish_idle p ctx e since : loader p = loader_of since →
  finish_event p ctx (Touch e) None None = Ok (p, ctx, None (A := PageMsg Msg)).
Proof. intros Hl. unfold finish_event, handle_hold. destruct p. cbn in *. subst. by destruct (loader_of since). Qed.

Lemma finish_press p ctx e : loader p = loader_of None → ∃ ctx',
  finish_event p ctx (Touch e) None (Some Pressed_) = Ok (set_loader p (loader_of (Some now)), ctx', None (A := PageMsg Msg)).
Proof.
  intros Hl. unfold finish_event, handle_hold. rewrite Hl. destruct p. cbn in Hl. subst. unfold loader_of.
  destruct is_hold; cbn; by eexists.
Qed.

Definition held (since : Instant) : Prop :=
  is_hold = true → anim_value (mkAnimation LOADER_MIN LOADER_MAX GROWING_DURATION_MS since) now = LOADER_MAX.

Lemma finish_click p ctx e since : loader p = loader_of (Some since) → held since → ∃ p' ctx',
  finish_event p ctx (Touch e) (Some PageConfirmed) (Some Clicked) = Ok (p', ctx', Some (PageConfirmed (T := Msg))).
Proof.
  intros Hl Hh. unfold finish_event, handle_hold. rewrite Hl. unfold loader_of, held in *.
  destruct is_hold; [|by eexists _, _]. cbn [loader_event mbind outcome_bind].
  unfold is_completely_grown, progress, animation. cbn [ld_state set_ld_pad set_ld_state fmap option_fmap option_map].
  rewrite Hh, bool_decide_eq_true_2 by done. cbn. by eexists _, _.
Qed.

(** The beginning of a tap. *)
Lemma tap_start p k ctx : resting p k false None → 0 <= k < n → ∃ p' ctx',
  button_page_event p ctx (Touch (TouchStart tap_point)) = Ok (p', ctx', None) ∧
  resting p' k true (if k <? n - 1 then None else Some now).
Proof.
  intros Hp Hk. pose proof Hp as [Hc Hcount Hact Hnx Hcf Hcan Hprev Hany Hld (up & dn & Hsw) Hl Hr].
  unfold button_page_event, handle_swipe. rewrite Hsw. rewrite (tap_swipe up dn false) by done.
  set (q := set_swipe_ p _).
  destruct (calm_event (pg_content q) (set_page_count ctx (sb_page_count (scrollbar p))) (Touch (TouchStart tap_point)))
    as (c' & ctx1 & Hev & Hc'); [done|].
  rewrite Hev. cbn [mbind outcome_bind]. unfold handle_button.
  change (scrollbar (set_content_ q c')) with (scrollbar p). rewrite (resting_next _ _ _ _ Hp Hk).
  change (next_button (set_content_ q c')) with (next_button p).
  change (confirm_button (set_content_ q c')) with (confirm_button p). rewrite Hnx, Hcf.
  destruct (Z.ltb_spec k (n - 1)) as [Hlt|Hge]; cbn [andb negb].
  - destruct (tap_right_start (button_place (with_icon ICON_DOWN) right_area) ctx1) as [ctx2 ->]; [done|].
    match goal with |- context [handle_left_button ?q ctx2 _] => assert (resting q k true None) as Hp1 end.
    { split; try done; cbn; rewrite ?(proj2 (Z.ltb_lt _ _) Hlt); eauto. }
    rewrite (tap_left_button _ k true None false ctx2 _ Hp1) by done. cbn [mbind outcome_bind].
    rewrite (finish_idle _ _ _ None) by apply Hp1. by eexists _, _.
  - destruct (tap_right_start (button_place confirm_base right_area) ctx1) as [ctx2 ->].
    { unfold confirm_base. by destruct hold. }
    cbn [mbind outcome_bind].
    match goal with |- context [finish_event ?q ctx2 _ _ _] => destruct (finish_press q ctx2 (TouchStart tap_point)) as [ctx3 ->] end;
      [done|].
    eexists _, _. split; [reflexivity|]. split; try done; cbn; rewrite ?(proj2 (Z.ltb_ge _ _) Hge); eauto.
Qed.

(** The end of a tap turns the page. *)
Lemma tap_end p k ctx : resting p k true None → 0 <= k < n - 1 → ∃ p' ctx',
  button_page_event p ctx (Touch (TouchEnd tap_point)) = Ok (p', ctx', None) ∧ resting p' (k + 1) false None.
Proof.
  intros Hp Hk. pose proof Hp as [Hc Hcount Hact Hnx Hcf Hcan Hprev Hany Hld (up & dn & Hsw) Hl Hr].
  unfold button_page_event, handle_swipe. rewrite Hsw. rewrite (tap_swipe up dn true) by done.
  set (q := set_swipe_ p _).
  destruct (calm_event (pg_content q) (set_page_count ctx (sb_page_count (scrollbar p))) (Touch (TouchEnd tap_point)))
    as (c' & ctx1 & Hev & Hc'); [done|].
  rewrite Hev. cbn [mbind outcome_bind]. unfold handle_button.
  change (scrollbar (set_content_ q c')) with (scrollbar p). rewrite (resting_next _ _ _ _ Hp) by lia.
  change (next_button (set_content_ q c')) with (next_button p). rewrite Hnx, (proj2 (Z.ltb_lt _ _) (proj2 Hk)). cbn [andb].
  destruct (tap_right_end (button_place (with_icon ICON_DOWN) right_area) ctx1) as [ctx2 ->]; [done|].
  cbn [mbind outcome_bind]. unfold turn_page, change_page.
  cbn [scrollbar set_next set_content_]. change (scrollbar q) with (scrollbar p).
  rewrite go_to_relative_Ok, Hcount, Hact by (rewrite ?Hcount, ?Hact; auto; lia). cbn [mbind outcome_bind].
  replace (Z.max 0 (Z.min (n - 1) (k + 1))) with (k + 1) by lia.
  cbn [prev_button setup_swipe set_swipe_ set_scrollbar set_next set_content_].
  change (prev_button q) with (prev_button p). destruct Hprev as (s & Hs & ->).
  destruct (enable_if_state (with_state (button_place (with_icon ICON_UP) left_area) s) ctx2
              (has_previous_page (go_to (scrollbar p) (k + 1)))) as [ctx3 ->].
  cbn [pg_content set_prev setup_swipe set_swipe_ set_scrollbar set_next set_content_ active_page go_to].
  destruct (calm_change c' (k + 1)) as (c2 & -> & Hc2); [done|lia|]. cbn [mbind outcome_bind].
  unfold request_complete_repaint. destruct (calm_event c2 ctx3 RequestPaint) as (c3 & ctx4 & -> & Hc3); [done|].
  cbn [mbind outcome_bind]. eexists _, _. split; [reflexivity|].
  split; try done; cbn; rewrite ?Hcf, ?(proj2 (Z.ltb_lt _ _) (proj2 Hk)); try done.
  - eexists. split; [|reflexivity]. destruct (has_previous_page _); auto.
  - rewrite Hl, Hr. by eexists _, _.
Qed.

(** The end of a tap on the last page confirms, when it was long enough. *)
Lemma tap_last p since ctx : resting p (n - 1) true (Some since) → held since → ∃ p' ctx',
  button_page_event p ctx (Touch (TouchEnd tap_point)) = Ok (p', ctx', Some PageConfirmed).
Proof.
  intros Hp Hheld. pose proof Hp as [Hc Hcount Hact Hnx Hcf Hcan Hprev Hany Hld (up & dn & Hsw) Hl Hr].
  unfold button_page_event, handle_swipe. rewrite Hsw. rewrite (tap_swipe up dn true) by done.
  set (q := set_swipe_ p _).
  destruct (calm_event (pg_content q) (set_page_count ctx (sb_page_count (scrollbar p))) (Touch (TouchEnd tap_point)))
    as (c' & ctx1 & Hev & Hc'); [done|].
  rewrite Hev. cbn [mbind outcome_bind]. unfold handle_button.
  change (scrollbar (set_content_ q c')) with (scrollbar p). rewrite (resting_next _ _ _ _ Hp) by lia.
  change (confirm_button (set_content_ q c')) with (confirm_button p). rewrite Hcf, Z.ltb_irrefl. cbn [andb negb].
  destruct (tap_right_end (button_place confirm_base right_area) ctx1) as [ctx2 ->].
  { unfold confirm_base. by destruct hold. }
  cbn [mbind outcome_bind]. by apply (finish_click _ _ _ since).
Qed.
End At.

(** Taps from page [k] on, each at an instant of its own, and a last one that may
    take its time. *)
Definition taps (times : list (Instant * EventCtx)) (press release : Instant * EventCtx) : list (Instant * EventCtx * Event) :=
  concat ((λ x, tap x.1 x.2) <$> times)
  ++ [(press, Touch (TouchStart tap_point)); (release, Touch (TouchEnd tap_point))].

(** What comes of them: before the last event, nothing but the pages, of which
    the end of each tap brings the next; and then the page is confirmed. *)
Definition turned_and_confirmed (k : Z) (p : ButtonPage T) (events : list (Instant * EventCtx * Event)) : Prop :=
  (∀ i, (i < length events)%nat →
     ∃ q, page_run p (take i events) = Ok (q, None) ∧ active_page (scrollbar q) = k + Z.of_nat i / 2) ∧
  ∃ p', page_run p events = Ok (p', Some PageConfirmed).

Lemma taps_confirm k times press release p : resting p k false None → 0 <= k < n → k + len times = n - 1 →
  held (H2 := {| now := release.1 |}) press.1 → turned_and_confirmed k p (taps times press release).
Proof.
  intros Hp Hk Hlen Hheld. revert k p Hp Hk Hlen. induction times as [|[t ctx] times IH]; intros k p Hp Hk Hlen.
  - assert (k = n - 1) as -> by (cbn [length] in Hlen; lia). destruct press as [t ctx], release as [t' ctx'].
    destruct (tap_start (H2 := {| now := t |}) p (n - 1) ctx Hp Hk) as (p1 & ctx1 & Hev1 & Hp1).
    rewrite Z.ltb_irrefl in Hp1. cbn [now] in Hp1. unfold taps. cbn [fmap list_fmap concat app]. split.
    + intros [|[|i]] Hi; cbn [take page_run]; [..|cbn in Hi; lia].
      * exists p. split; [done|]. destruct Hp. change (Z.of_nat 0 / 2) with 0. lia.
      * rewrite Hev1. cbn [mbind outcome_bind]. exists p1. split; [done|]. destruct Hp1. change (Z.of_nat 1 / 2) with 0. lia.
    + cbn [page_run]. rewrite Hev1. cbn [mbind outcome_bind].
      destruct (tap_last (H2 := {| now := t' |}) p1 t ctx' Hp1 Hheld) as (p2 & ctx2 & ->). cbn [mbind outcome_bind]. by eexists.
  - assert (len ((t, ctx) :: times) = 1 + len times) as Hl by (cbn [length]; lia). rewrite Hl in Hlen.
    destruct (tap_start (H2 := {| now := t |}) p k ctx Hp Hk) as (p1 & ctx1 & Hev1 & Hp1).
    rewrite (proj2 (Z.ltb_lt _ _)) in Hp1 by lia.
    destruct (tap_end (H2 := {| now := t |}) p1 k ctx Hp1) as (p2 & ctx2 & Hev2 & Hp2); [lia|].
    destruct (IH (k + 1) p2 Hp2) as [Hpages [p' Hrun]]; [lia..|]. unfold taps in *.
    cbn [fmap list_fmap concat tap app fst snd]. split.
    + intros [|[|i]] Hi; cbn [take page_run].
      * exists p. split; [done|]. destruct Hp. change (Z.of_nat 0 / 2) with 0. lia.
      * rewrite Hev1. cbn [mbind outcome_bind]. exists p1. split; [done|]. destruct Hp1. change (Z.of_nat 1 / 2) with 0. lia.
      * rewrite Hev1. cbn [mbind outcome_bind]. rewrite Hev2. cbn [mbind outcome_bind].
        destruct (Hpages i) as (q & Hq & Ha); [cbn in Hi; lia|]. exists q. split; [done|]. rewrite Ha.
        replace (Z.of_nat (S (S i))) with (Z.of_nat i + 1 * 2) by lia. rewrite Z.div_add by lia. lia.
    + exists p'. cbn [page_run]. rewrite Hev1. cbn [mbind outcome_bind]. rewrite Hev2. by cbn [mbind outcome_bind].
Qed.
End Confirming.

(** The bar is full from one second on. *)
Lemma loader_grown : forallb (λ d, lerp_bounded LOADER_MIN LOADER_MAX (duration_ratio d GROWING_DURATION_MS) =? LOADER_MAX)
                       (seqZ 1000 9000) = true.
Proof. vm_compute. reflexivity. Qed.

Lemma grown_value t d : in_u 32 t → 1000 <= d < 10000 →
  anim_value (mkAnimation LOADER_MIN LOADER_MAX GROWING_DURATION_MS t) (wrapu 32 (t + d)) = LOADER_MAX.
Proof.
  intros Ht Hd. unfold anim_value, anim_elapsed, saturating_duration_since. cbn [started from to duration].
  rewrite checked_duration_since_later by (unfold in_u in *; lia). rewrite max_difference.
  destruct (Z.leb_spec d (2 ^ 31 - 1)); [|lia]. pose proof loader_grown as H'.
  rewrite forallb_forall in H'. specialize (H' d). cbn beta in H'. apply Z.eqb_eq, H'.
  apply list_elem_of_In, elem_of_seqZ. lia.
Qed.

(** ** Properties *)

(** C27. A page can be confirmed, and is not confirmed too early: with a content
    of [n] pages that leaves its events to the page, as many taps on the right,
    at whatever instants, turn one page after the other, each when it ends, and
    nothing is answered before the end of the last tap, on the last page, which
    confirms. The same holds for a page that has to be held, when the last tap
    takes one to ten seconds. *)
Theorem button_page_confirms {T Msg} `{Component T Msg} `{Paginate T} (calm : T → Prop) n `{!Calm calm n}
    (hold : option (list Z)) c bg times press release :
  1 <= n < 2 ^ 31 → calm c → len times = n - 1 →
  (is_Some hold → in_u 32 press.1 ∧ ∃ d, 1000 <= d < 10000 ∧ release.1 = wrapu 32 (press.1 + d)) →
  let events := taps times press release in
  ∃ p, button_page_place (page_of hold c bg) page_area = Ok (p, page_area) ∧
    (∀ i, (i < length events)%nat →
       ∃ q, page_run p (take i events) = Ok (q, None) ∧ active_page (scrollbar q) = Z.of_nat i / 2) ∧
    ∃ p', page_run p events = Ok (p', Some PageConfirmed).
Proof.
  intros Hn Hc Hlen Hhold events. destruct (place_resting calm n hold c bg Hc) as (p & Hp & Hr). exists p.
  split; [done|]. destruct (taps_confirm calm n Hn hold 0 times press release p Hr) as [Hpages Hend]; [lia..| |by split].
  unfold held, is_hold. intros Hs%bool_decide_eq_true. destruct (Hhold Hs) as (Ht & d & Hd & E).
  pose proof (grown_value press.1 d Ht Hd) as Hg. rewrite <- E in Hg. exact Hg.
Qed.

(** ** Examples *)

(** A content of some pages. *)
Record Pages := mkPages { pages : Z }.

#[export] Instance pages_component : Component Pages Empty_set := {
  place self bounds := Ok (self, bounds);
  event self ctx ev := Ok (self, ctx, None)
}.
#[export] Instance pages_paginate : Paginate Pages := {
  content_page_count self := Ok (self, pages self);
  content_change_page self i := Ok self
}.

#[export] Instance pages_calm n : Calm (λ c : Pages, pages c = n) n.
Proof. split; intros; subst; cbn; eauto. Qed.

(** A single page is confirmed by a tap. *)
Lemma button_page_consent_witness :
  match button_page_place (button_page_new (mkPages 1) BG) page_area with
  | Ok (p, _) =>
    match button_page_event (H2 := {| now := 0 |}) p ctx_new (Touch (TouchStart tap_point)) with
    | Ok (p1, _, None) =>
      (∃ p2 ctx2, button_page_event (H2 := {| now := 0 |}) p1 ctx_new (Touch (TouchEnd tap_point)) = Ok (p2, ctx2, Some PageConfirmed)) ∧
      (∀ i, 0 <= i < 1 → i ∈ [0; 0]) ∧ clicked (confirm_button p1) (Touch (TouchEnd tap_point)) ∧
      begun (confirm_button p1) [Touch (TouchStart tap_point)]
    | _ => False
    end
  | _ => False
  end.
Proof.
  destruct (button_page_place _ _) as [[p r]| | |] eqn:Hp; [|by vm_compute in Hp..].
  destruct (button_page_event p _ _) as [[[p1 ctx1] [m|]]| | |] eqn:Hev;
    try (vm_compute in Hp; injection Hp as <- <-; vm_compute in Hev; discriminate Hev).
  assert (reached (button_page_new (mkPages 1) BG) page_area [0; 0]
    [Touch (TouchStart tap_point)] p1) as Hr.
  { assert (active_page (scrollbar p) = 0 ∧ active_page (scrollbar p1) = 0) as [H0 H1].
    { vm_compute in Hp. injection Hp as <- <-. vm_compute in Hev. by injection Hev as <- <-. }
    pose proof (reached_step _ _ _ _ _ 0 _ _ _ _ _ (reached_start _ _ _ _ Hp) Hev) as Hr. by rewrite H0, H1 in Hr. }
  assert (sb_page_count (scrollbar p1) = 1) as Hcount.
  { vm_compute in Hp. injection Hp as <- <-. vm_compute in Hev. by injection Hev as <- <-. }
  assert (∃ p2 ctx2, button_page_event (H2 := {| now := 0 |}) p1 ctx_new (Touch (TouchEnd tap_point)) = Ok (p2, ctx2, Some PageConfirmed)) as Hend.
  { vm_compute in Hp. injection Hp as <- <-. vm_compute in Hev. injection Hev as <- <-. eexists _, _. by vm_compute. }
  split; [exact Hend|]. destruct Hend as (p2 & ctx2 & Hend).
  assert (unpressed (button_page_new (mkPages 1) BG)) as Hu.
  { split; [done|]. intros b Hb. by injection Hb as <-. }
  destruct (button_page_consent _ _ _ _ _ _ _ _ _ _ _ Hr Hu ltac:(rewrite Hcount; lia) Hend) as [Hc _].
  destruct (Hc eq_refl) as (Hseen & _ & Hck & Hb & _). rewrite Hcount in Hseen. exact (conj Hseen (conj Hck Hb)).
Defined.

(** Three pages that are turned and confirmed, the last one by a hold. *)
Lemma button_page_confirms_witness :
  let events := taps (replicate 2 (0, ctx_new)) (500, ctx_new) (1500, ctx_new) in
  ∃ p, button_page_place (page_of (Some [72]) (mkPages 3) BG) page_area = Ok (p, page_area) ∧
    (∀ i, (i < length events)%nat →
       ∃ q, page_run p (take i events) = Ok (q, None) ∧ active_page (scrollbar q) = Z.of_nat i / 2) ∧
    ∃ p', page_run p events = Ok (p', Some PageConfirmed).
Proof.
  apply (button_page_confirms (λ c : Pages, pages c = 3) 3 (Some [72]) (mkPages 3) BG (replicate 2 (0, ctx_new))
           (500, ctx_new) (1500, ctx_new)); [lia|done|done|].
  intros _. split; [unfold in_u; cbn; lia|]. exists 1000. split; [lia|done].
Defined.

(** ** A press that is left behind *)

(** Two pages with a button to hold. *)
Definition hold_page : ui (ButtonPage Pages * Rect) :=
  button_page_place (with_hold (button_page_new (mkPages 2) BG) [72; 111; 108; 100]) page_area.

Definition touch (t : Instant) (e : TouchEvent) : Instant * EventCtx * Event := (t, ctx_new, Touch e).

(** On the last page the finger goes down on the button, and up as a swipe to
    the page before, still on the button. *)
Definition swipe_from_button : list (Instant * EventCtx * Event) :=
  tap 0 ctx_new ++ [touch 1000 (TouchStart (mkPoint 180 190)); touch 1100 (TouchEnd (mkPoint 180 230))].

(** A swipe back, and a touch that begins above the button and ends on it. *)
Definition touch_over_button : list (Instant * EventCtx * Event) :=
  [touch 2500 (TouchStart (mkPoint 20 100)); touch 2600 (TouchEnd (mkPoint 20 40));
   touch 2900 (TouchStart (mkPoint 100 180)); touch 3000 (TouchEnd (mkPoint 100 190))].

(** The button stays pressed and its loader grows on, with no finger on the
    display; it covers the first page and then the last.  The touch confirms
    without a hold. *)
Lemma stale_press_confirms :
  ∃ p r p', hold_page = Ok (p, r) ∧ page_run p swipe_from_button = Ok (p', None) ∧
    active_page (scrollbar p') = 0 ∧ state (confirm_button p') = Pressed ∧
    (∃ l, loader p' = Some l ∧ is_completely_grown (H := {| now := 2400 |}) l = true) ∧
    ∃ p'', page_run p' touch_over_button = Ok (p'', Some PageConfirmed).
Proof.
  eexists _, _, _. split; [by vm_compute|]. split; [by vm_compute|]. split; [done|]. split; [done|].
  split; [eexists; split; [reflexivity|by vm_compute]|]. eexists. by vm_compute.
Qed.

(** ** Numbers *)

(** A number stays in its range, and is told when it changed. *)
Lemma number_in_range self ctx ev self' ctx' msg :
  ni_min self <= ni_value self <= ni_max self → 0 <= ni_min self → ni_max self < 2 ^ 32 →
  number_input_event self ctx ev = Ok (self', ctx', msg) →
  ni_min self' = ni_min self ∧ ni_max self' = ni_max self ∧ ni_min self <= ni_value self' <= ni_max self ∧
  (msg = None → ni_value self' = ni_value self) ∧ (∀ v, msg = Some (Changed v) → v = ni_value self').
Proof.
  intros Hr Hlo Hhi. unfold number_input_event.
  intros (((d & ctx1) & dm) & _ & He)%bind_Ok. cbn beta iota in He.
  apply bind_Ok in He as (((i & ctx2) & im) & _ & He). cbn beta iota zeta in He.
  destruct (bool_decide (dm = Some Clicked)), (bool_decide (im = Some Clicked)); cbn [orb] in He;
    try (unfold number_changed in He; apply bind_Ok in He as ((d1 & ctx3) & _ & He); cbn beta iota in He;
         apply bind_Ok in He as ((i1 & ctx4) & _ & He)); injection He as <- _ <-; cbn; split_and!; try done; try lia; naive_solver.
Qed.
