(* ===== verification/Fonts.v ===== *)
(** * Fonts

    [ui/display/font.rs] and the text measures of [trezorhal/display.rs].  The
    C fonts are the interface [FontDriver]. *)
From S2P Require Import Prelude StrUtil Geometry Theme.
Local Open Scope Z_scope.

(** The C functions, whose results are [int], and the bytes of a glyph. *)
Class FontDriver := {
  font_text_width : Z → list Z → Z;
  font_height : Z → Z;
  font_max_height : Z → Z;
  font_baseline : Z → Z;
  font_get_glyph : Z → Z → option (list Z)
}.

(** The properties of a device. *)
Class DisplayConstants := { LINE_SPACE : Z; FONT_BPP : Z }.

(** [try_into().unwrap_or(i16::MAX)]. *)
Definition i16_or_max (z : Z) : Z := if (- 2 ^ 15 <=? z) && (z <? 2 ^ 15) then z else 2 ^ 15 - 1.

(* src: ui/display/font.rs 332-336 (GlyphMetrics) *)
Class GlyphMetrics := {
  char_width : list Z → Z;
  text_width : list Z → Z;
  line_height : Z
}.

(** ** Glyphs *)

(* src: ui/display/font.rs 16-28 (Glyph) *)
Record Glyph := mkGlyph {
  glyph_width : Z;
  glyph_height : Z;
  adv : Z;
  bearing_x : Z;
  bearing_y : Z;
  glyph_data : list Z
}.

Section Font.
Context `{FontDriver} `{DisplayConstants}.

(** The number of bytes of a glyph, [None] for a format that is not supported. *)
Definition data_bytes (width height : Z) : option Z :=
  if FONT_BPP =? 1 then Some (Z.quot (i16 (i16 (width * height) + 7)) 8)
  else if FONT_BPP =? 2 then Some (Z.quot (i16 (i16 (width * height) + 3)) 4)
  else if FONT_BPP =? 4 then Some (i16 (Z.quot (i16 (width + 1)) 2 * height))
  else if FONT_BPP =? 8 then Some (i16 (width * height))
  else None.

(** A read outside the bytes of the glyph is undefined. *)
(* src: ui/display/font.rs 40-61 (Glyph::load) *)
Definition glyph_load (data : list Z) : outcome Empty_set Glyph :=
  width ← or_panic (getZ data 0);
  height ← or_panic (getZ data 1);
  n ← or_panic (data_bytes width height);
  a ← or_panic (getZ data 2);
  bx ← or_panic (getZ data 3);
  by_ ← or_panic (getZ data 4);
  let n := wrapu usize_bits n in
  if 5 + n <=? len data then Ok (mkGlyph width height a bx by_ (take (Z.to_nat n) (drop 5 data))) else Panic.

(* src: ui/display/font.rs 65-67 (Glyph::right_side_bearing) *)
Definition right_side_bearing (self : Glyph) : Z := i16 (i16 (adv self - glyph_width self) - bearing_x self).

(** The index as [usize], which refuses what is negative. *)
Definition data_at (self : Glyph) (i : Z) : outcome Empty_set Z := or_panic (getZ (glyph_data self) (wrapu usize_bits i)).

(* src: ui/display/font.rs 91-94 (Glyph::unpack_bpp1) *)
Definition unpack_bpp1 (self : Glyph) (a : Z) : outcome Empty_set Z :=
  c_data ← data_at self (Z.quot a 8);
  Ok (wrapu 8 (Z.land (Z.shiftr c_data ((7 - Z.rem a 8) `mod` 8)) 0x01 * 15)).

(* src: ui/display/font.rs 96-99 (Glyph::unpack_bpp2) *)
Definition unpack_bpp2 (self : Glyph) (a : Z) : outcome Empty_set Z :=
  c_data ← data_at self (Z.quot a 4);
  Ok (wrapu 8 (Z.land (Z.shiftr c_data ((6 - Z.rem a 4 * 2) `mod` 8)) 0x03 * 5)).

(* src: ui/display/font.rs 101-104 (Glyph::unpack_bpp4) *)
Definition unpack_bpp4 (self : Glyph) (a : Z) : outcome Empty_set Z :=
  c_data ← data_at self (Z.quot a 2);
  Ok (Z.land (Z.shiftr c_data ((4 - Z.rem a 2 * 4) `mod` 8)) 0x0F).

(* src: ui/display/font.rs 106-109 (Glyph::unpack_bpp8) *)
Definition unpack_bpp8 (self : Glyph) (a : Z) : outcome Empty_set Z :=
  c_data ← data_at self a; Ok (Z.shiftr c_data 4).

(* src: ui/display/font.rs 111-121 (Glyph::get_pixel_data) *)
Definition get_pixel_data (self : Glyph) (p : Offset) : outcome Empty_set Z :=
  let a := i16 (ox p + i16 (oy p * glyph_width self)) in
  if FONT_BPP =? 1 then unpack_bpp1 self a
  else if FONT_BPP =? 2 then unpack_bpp2 self a
  else if FONT_BPP =? 4 then unpack_bpp4 self a
  else if FONT_BPP =? 8 then unpack_bpp8 self a
  else Ok 0.

(** ** Measures of texts *)
Context (self : Font).

(* src: ui/display/font.rs 150-159 (Font) *)
Definition font_number (font : Font) : Z :=
  match font with
  | NORMAL => 1 | BOLD => 2 | MONO => 3 | BIG => 4 | DEMIBOLD => 5 | NORMAL_UPPER => 6 | BOLD_UPPER => 7 | SUB => 8
  end.

(* src: ui/display/font.rs 161-165 (From<Font> for i32) *)
Definition font_id : Z := - font_number self.

(* src: trezorhal/display.rs 52-58 (text_width) *)
Definition font_width (text : list Z) : Z := i16_or_max (font_text_width font_id text).

(* src: trezorhal/display.rs 60-64 (char_width) *)
Definition font_char_width (ch : list Z) : Z := font_width ch.

(* src: trezorhal/display.rs 70-72 (text_height) *)
Definition text_height : Z := i16_or_max (font_height font_id).

(* src: trezorhal/display.rs 74-76 (text_max_height) *)
Definition text_max_height : Z := i16_or_max (font_max_height font_id).

(* src: trezorhal/display.rs 78-80 (text_baseline) *)
Definition text_baseline : Z := i16_or_max (font_baseline font_id).

(* src: ui/display/font.rs 263-265 (Font::line_height) *)
Definition font_line_height : Z := i16 (LINE_SPACE + text_height).

(** The number of the character that a sequence of bytes encodes. *)
Definition char_code (ch : list Z) : Z :=
  match ch with
  | [a; b] => Z.lor (Z.shiftl (Z.land a 0x1F) 6) (Z.land b 0x3F)
  | [a; b; c] => Z.lor (Z.lor (Z.shiftl (Z.land a 0x0F) 12) (Z.shiftl (Z.land b 0x3F) 6)) (Z.land c 0x3F)
  | [a; b; c; d] =>
    Z.lor (Z.lor (Z.shiftl (Z.land a 0x07) 18) (Z.shiftl (Z.land b 0x3F) 12))
      (Z.lor (Z.shiftl (Z.land c 0x3F) 6) (Z.land d 0x3F))
  | a :: _ => a
  | [] => 0
  end.

(* src: ui/display/font.rs 287-293 (Font::get_glyph) *)
Definition get_glyph (ch : list Z) : outcome Empty_set Glyph :=
  gl_data ← or_panic (font_get_glyph font_id (wrapu 16 (char_code ch)));
  glyph_load gl_data.

(** A measure of the glyph of a character, zero if there is no character. *)
Definition glyph_measure (ch : option (list Z)) (measure : Glyph → Z) : outcome Empty_set Z :=
  match ch with
  | Some ch => glyph ← get_glyph ch; Ok (measure glyph)
  | None => Ok 0
  end.

(* src: ui/display/font.rs 172-204 (Font::visible_text_width) *)
Definition visible_text_width (text : list Z) : outcome Empty_set Z :=
  match text with
  | [] => Ok 0
  | _ :: _ =>
    first_char_bearing ← glyph_measure (head (chars text)) bearing_x;
    last_char_bearing ← glyph_measure (last (chars text)) right_side_bearing;
    Ok (i16 (i16 (font_width text - first_char_bearing) - last_char_bearing))
  end.

(** The highest ascent and the lowest descent of the characters. *)
Fixpoint extents (cs : list (list Z)) (ascent descent : Z) : outcome Empty_set (Z * Z) :=
  match cs with
  | [] => Ok (ascent, descent)
  | c :: cs =>
    glyph ← get_glyph c;
    extents cs (Z.max ascent (bearing_y glyph)) (Z.max descent (i16 (glyph_height glyph - bearing_y glyph)))
  end.

(* src: ui/display/font.rs 321-330 (Font::visible_text_height_ex) *)
Definition visible_text_height_ex (text : list Z) : outcome Empty_set (Z * Z) := extents (chars text) 0 0.

(* src: ui/display/font.rs 211-219 (Font::visible_text_height) *)
Definition visible_text_height (text : list Z) : outcome Empty_set Z :=
  '(ascent, descent) ← extents (chars text) 0 0; Ok (i16 (ascent + descent)).

(* src: ui/display/font.rs 226-228 (Font::allcase_text_height) *)
Definition allcase_text_height : outcome Empty_set Z := visible_text_height [65; 121].

(* src: ui/display/font.rs 232-242 (Font::start_x_bearing) *)
Definition start_x_bearing (text : list Z) : outcome Empty_set Z := glyph_measure (head (chars text)) bearing_x.

(* src: ui/display/font.rs 273-275 (Font::horz_center) *)
Definition horz_center (start end_ : Z) (text : list Z) : outcome Empty_set Z :=
  width ← visible_text_width text;
  bearing ← start_x_bearing text;
  Ok (i16 (Z.quot (i16 (i16 (start + end_) - width)) 2 - bearing)).

(* src: ui/display/font.rs 283-285 (Font::vert_center) *)
Definition vert_center (start end_ : Z) (text : list Z) : outcome Empty_set Z :=
  height ← visible_text_height text;
  Ok (Z.quot (i16 (i16 (start + end_) + height)) 2).

(** The characters come from the right; [n] of them are counted. *)
Fixpoint suffix_loop (cs : list (list Z)) (width text_width n : Z) : option Z :=
  match cs with
  | [] => None
  | c :: cs =>
    let c_width := font_char_width c in
    if i16 (text_width + c_width) >? width then Some n
    else suffix_loop cs width (i16 (text_width + c_width)) (n + 1)
  end.

(* src: ui/display/font.rs 306-319 (Font::longest_suffix) *)
Definition longest_suffix (width : Z) (text : list Z) : Z :=
  match suffix_loop (rev (chars text)) width 0 0 with Some n => n | None => len text end.

(* src: ui/display/font.rs 338-350 (GlyphMetrics for Font) *)
Definition font_metrics : GlyphMetrics := {|
  char_width := font_char_width;
  text_width := font_width;
  line_height := font_line_height
|}.
End Font.
