(* ===== verification/TextLayout.v ===== *)
(** * The layout of texts

    [ui/component/text/layout.rs]: breaking a text into spans and placing them
    on lines.  What a [LayoutSink] is told is the list of its events. *)
From S2P Require Import Prelude StrUtil Geometry Component Theme Fonts.
Local Open Scope Z_scope.

Abbreviation txt := (outcome Empty_set).

(** ** Texts *)

(** [str::is_char_boundary] and slices at a byte, which abort elsewhere. *)
Definition is_char_boundary (s : list Z) (n : Z) : bool :=
  if n =? 0 then true
  else if n =? len s then true
  else match getZ s n with Some b => negb (is_continuation b) | None => false end.
Definition str_to (s : list Z) (n : Z) : txt (list Z) :=
  if is_char_boundary s n then Ok (take (Z.to_nat n) s) else Panic.
Definition str_from (s : list Z) (n : Z) : txt (list Z) :=
  if is_char_boundary s n then Ok (drop (Z.to_nat n) s) else Panic.

(** [char::is_whitespace], on the bytes of the character. *)
Definition char_is_whitespace (ch : list Z) : bool :=
  match ch with
  | [a] => ((9 <=? a) && (a <=? 13)) || (a =? 32)
  | [a; b] => (a =? 0xC2) && ((b =? 0x85) || (b =? 0xA0))
  | [a; b; c] =>
    ((a =? 0xE1) && (b =? 0x9A) && (c =? 0x80)) ||
    ((a =? 0xE2) && (b =? 0x80) && (((0x80 <=? c) && (c <=? 0x8A)) || (c =? 0xA8) || (c =? 0xA9) || (c =? 0xAF))) ||
    ((a =? 0xE2) && (b =? 0x81) && (c =? 0x9F)) ||
    ((a =? 0xE3) && (b =? 0x80) && (c =? 0x80))
  | _ => false
  end.

(** [str::trim_end]. *)
Fixpoint trim_chars (cs : list (list Z)) : list (list Z) :=
  match cs with
  | [] => []
  | ch :: cs => match trim_chars cs with [] => if char_is_whitespace ch then [] else [ch] | cs => ch :: cs end
  end.
Definition trim_end (s : list Z) : list Z := concat (trim_chars (chars s)).

(** ** Styles *)

(* src: ui/component/text/layout.rs 11-21 (LineBreaking) *)
Inductive LineBreaking := BreakAtWhitespace | BreakWordsAndInsertHyphen | BreakWordsNoHyphen.

(* src: ui/component/text/layout.rs 23-33 (PageBreaking) *)
Inductive PageBreaking := Cut | CutAndInsertEllipsis | CutAndInsertEllipsisBoth.

#[export] Instance line_breaking_eq_dec : EqDecision LineBreaking.
Proof. solve_decision. Defined.
#[export] Instance page_breaking_eq_dec : EqDecision PageBreaking.
Proof. solve_decision. Defined.

(* src: ui/component/text/layout.rs 58-66 (Chunks) *)
Record Chunks := mkChunks { chunk_size : Z; x_offset : Z; max_rows : option Z }.

(* src: ui/component/text/layout.rs 69-75 (Chunks::new) *)
Definition chunks_new (chunk_size x_offset : Z) : Chunks := mkChunks chunk_size x_offset None.

(* src: ui/component/text/layout.rs 77-80 (Chunks::with_max_rows) *)
Definition with_max_rows (self : Chunks) (max_rows : Z) : Chunks := mkChunks (chunk_size self) (x_offset self) (Some max_rows).

(* src: ui/component/text/layout.rs 84-115 (TextStyle) *)
Record TextStyle := mkTextStyle {
  text_font : Font;
  style_text_color : Z;
  style_background_color : Z;
  hyphen_color : Z;
  ellipsis_color : Z;
  ellipsis_icon : option (Icon * Z);
  prev_page_ellipsis_icon : option (Icon * Z);
  line_breaking : LineBreaking;
  page_breaking : PageBreaking;
  chunks : option Chunks;
  line_spacing : Z
}.

(* src: ui/component/text/layout.rs 118-138 (TextStyle::new) *)
Definition text_style_new (text_font : Font) (text_color background_color hyphen_color ellipsis_color : Z) : TextStyle :=
  mkTextStyle text_font text_color background_color hyphen_color ellipsis_color None None BreakAtWhitespace
    CutAndInsertEllipsis None 0.

Section Style.
Context (self : TextStyle).

Definition with_breaks (lb : LineBreaking) (pb : PageBreaking) : TextStyle :=
  mkTextStyle (text_font self) (style_text_color self) (style_background_color self) (hyphen_color self)
    (ellipsis_color self) (ellipsis_icon self) (prev_page_ellipsis_icon self) lb pb (chunks self) (line_spacing self).

(* src: ui/component/text/layout.rs 140-143 (TextStyle::with_line_breaking) *)
Definition with_line_breaking (lb : LineBreaking) : TextStyle := with_breaks lb (page_breaking self).

(* src: ui/component/text/layout.rs 145-148 (TextStyle::with_page_breaking) *)
Definition with_page_breaking (pb : PageBreaking) : TextStyle := with_breaks (line_breaking self) pb.

(* src: ui/component/text/layout.rs 151-160 (TextStyle::with_ellipsis_icon, TextStyle::with_prev_page_icon) *)
Definition with_icons (ellipsis prev : option (Icon * Z)) : TextStyle :=
  mkTextStyle (text_font self) (style_text_color self) (style_background_color self) (hyphen_color self)
    (ellipsis_color self) ellipsis prev (line_breaking self) (page_breaking self) (chunks self) (line_spacing self).

(* src: ui/component/text/layout.rs 163-166 (TextStyle::with_chunks) *)
Definition with_chunks (c : Chunks) : TextStyle :=
  mkTextStyle (text_font self) (style_text_color self) (style_background_color self) (hyphen_color self)
    (ellipsis_color self) (ellipsis_icon self) (prev_page_ellipsis_icon self) (line_breaking self) (page_breaking self)
    (Some c) (line_spacing self).

(* src: ui/component/text/layout.rs 169-172 (TextStyle::with_line_spacing) *)
Definition with_line_spacing (spacing : Z) : TextStyle :=
  mkTextStyle (text_font self) (style_text_color self) (style_background_color self) (hyphen_color self)
    (ellipsis_color self) (ellipsis_icon self) (prev_page_ellipsis_icon self) (line_breaking self) (page_breaking self)
    (chunks self) spacing.
End Style.

(** ** Spans *)

(* src: ui/component/text/layout.rs 668-680 (Span) *)
Record Span := mkSpan {
  span_length : Z;
  skip_next_chars : Z;
  advance : Offset;
  insert_hyphen_before_line_break : bool
}.

Definition ASCII_LF : list Z := [10].
Definition ASCII_CR : list Z := [13].
Definition ASCII_SPACE : list Z := [32].
Definition ASCII_HYPHEN : list Z := [45].

(* src: ui/component/text/layout.rs 696-698 (is_whitespace) *)
Definition is_whitespace (ch : list Z) : bool :=
  bool_decide (ch = ASCII_SPACE) || bool_decide (ch = ASCII_LF) || bool_decide (ch = ASCII_CR).

Section Fit.
Context `{GlyphMetrics}.
Context (max_width : Z) (breaking : LineBreaking) (chunk_config : option Chunks).
Context (use_hyphens : bool) (incomplete_word_end_width complete_word_end_width : Z).

(** The loop over the characters: the span where the line breaks, or the width
    of the whole text. *)
(* src: ui/component/text/layout.rs 739-794 (Span::fit_horizontally) *)
Fixpoint fit_loop (cs : list (list Z)) (i : Z) (line : Span) (span_width : Z) (found_any_whitespace : bool) : Span + Z :=
  match cs with
  | [] => inr span_width
  | ch :: cs =>
    let width := i16 (span_width + char_width ch) in
    if bool_decide (chunk_size <$> chunk_config = Some i) then
      inl (mkSpan (span_length line) (skip_next_chars line)
             (mkOffset (i16 (ox (advance line) + default 0 (x_offset <$> chunk_config))) 0)
             (insert_hyphen_before_line_break line))
    else if is_whitespace ch && (i16 (span_width + complete_word_end_width) <=? max_width) then
      let y := if bool_decide (ch = ASCII_CR) then Z.quot line_height 2 else oy (advance line) in
      let line := mkSpan i 1 (mkOffset span_width y) false in
      if bool_decide (ch = ASCII_LF) || bool_decide (ch = ASCII_CR) then inl line
      else fit_loop cs (i + len ch) line width true
    else if max_width <? width then inl line
    else
      let have_space_for_break := i16 (width + incomplete_word_end_width) <=? max_width in
      let can_break_word := bool_decide (breaking ≠ BreakAtWhitespace) || negb found_any_whitespace in
      let line :=
        if have_space_for_break && can_break_word then
          mkSpan (i + len ch) 0 (mkOffset width (oy (advance line))) use_hyphens
        else line in
      fit_loop cs (i + len ch) line width found_any_whitespace
  end.
End Fit.

(* src: ui/component/text/layout.rs 683-803 (Span::fit_horizontally) *)
Definition fit_horizontally `{GlyphMetrics} (text : list Z) (max_width : Z) (breaking : LineBreaking)
    (line_ending_space : Z) (chunk_config : option Chunks) : Span :=
  let fits_completely := text_width (trim_end text) <=? max_width in
  let use_hyphens := bool_decide (breaking ≠ BreakWordsNoHyphen) in
  let '(incomplete_word_end_width, use_hyphens) :=
    if fits_completely then (0, false)
    else if 0 <? line_ending_space then (line_ending_space, false)
    else if use_hyphens then (char_width ASCII_HYPHEN, use_hyphens)
    else (0, use_hyphens) in
  let complete_word_end_width := if fits_completely then 0 else line_ending_space in
  let line := mkSpan 0 0 (offset_y line_height) false in
  match fit_loop max_width breaking chunk_config use_hyphens incomplete_word_end_width complete_word_end_width
          (StrUtil.chars text) 0 line 0 false with
  | inl line => line
  | inr span_width => mkSpan (len text) 0 (offset_x span_width) false
  end.

(** ** The layout *)

(** The widths of icons, which are read from their resource files. *)
Class Icons := { icon_width : Icon → Z }.

(* src: ui/component/text/layout.rs 9-9 (ELLIPSIS) *)
Definition ELLIPSIS : list Z := [46; 46; 46].

(* src: ui/component/text/layout.rs 35-55 (TextLayout) *)
Record TextLayout := mkTextLayout {
  bounds : Rect;
  padding_top : Z;
  padding_bottom : Z;
  style : TextStyle;
  align : Alignment;
  continues_from_prev_page : bool
}.

(* src: ui/component/text/layout.rs 202-211 (TextLayout::new) *)
Definition layout_new (style : TextStyle) : TextLayout := mkTextLayout rect_zero 0 0 style Start false.

(* src: ui/component/text/layout.rs 213-216 (TextLayout::with_bounds) *)
Definition with_bounds (self : TextLayout) (bounds : Rect) : TextLayout :=
  mkTextLayout bounds (padding_top self) (padding_bottom self) (style self) (align self) (continues_from_prev_page self).

(* src: ui/component/text/layout.rs 218-221 (TextLayout::with_align) *)
Definition with_align (self : TextLayout) (align : Alignment) : TextLayout :=
  mkTextLayout (bounds self) (padding_top self) (padding_bottom self) (style self) align (continues_from_prev_page self).

(* src: ui/component/text/layout.rs 444-452 (LayoutFit) *)
Inductive LayoutFit :=
| Fitting (processed_chars height : Z)
| OutOfBounds (processed_chars height : Z).

(* src: ui/component/text/layout.rs 456-461 (LayoutFit::height) *)
Definition fit_height (self : LayoutFit) : Z := match self with Fitting _ h | OutOfBounds _ h => h end.

(** What a sink is told. *)
(* src: ui/component/text/layout.rs 467-480 (LayoutSink) *)
Inductive SinkEvent :=
| SText (cursor : Point) (text : list Z)
| SHyphen (cursor : Point)
| SEllipsis (cursor : Point)
| SPrevPageEllipsis (cursor : Point)
| SLineBreak (cursor : Point)
| SOutOfBounds.

Section Layout.
Context `{FontDriver} `{DisplayConstants} `{Icons}.

(* src: ui/component/text/layout.rs 174-180 (TextStyle::ellipsis_width) *)
Definition ellipsis_width (self : TextStyle) : Z :=
  match ellipsis_icon self with
  | Some (icon, margin) => i16 (icon_width icon + margin)
  | None => font_width (text_font self) ELLIPSIS
  end.

(* src: ui/component/text/layout.rs 182-188 (TextStyle::prev_page_ellipsis_width) *)
Definition prev_page_ellipsis_width (self : TextStyle) : Z :=
  match prev_page_ellipsis_icon self with
  | Some (icon, margin) => i16 (icon_width icon + margin)
  | None => font_width (text_font self) ELLIPSIS
  end.

(* src: ui/component/text/layout.rs 190-196 (TextStyle::prev_page_ellipsis_icon_width) *)
Definition prev_page_ellipsis_icon_width (self : TextStyle) : Z :=
  match prev_page_ellipsis_icon self with Some (icon, _) => icon_width icon | None => 0 end.

Context (self : TextLayout).
Abbreviation style := (style self).
Abbreviation font := (text_font style).

(* src: ui/component/text/layout.rs 224-228 (TextLayout::initial_cursor) *)
Definition initial_cursor : Point :=
  ofs (top_left (bounds self))
    (offset_y (i16 (i16 (text_max_height font - text_baseline font) + padding_top self))).

(* src: ui/component/text/layout.rs 421-426 (TextLayout::layout_height) *)
Definition layout_height (init_cursor end_cursor : Point) : Z :=
  i16 (i16 (i16 (padding_top self + text_height font) + i16 (py end_cursor - py init_cursor)) + padding_bottom self).

(* src: ui/component/text/layout.rs 429-431 (TextLayout::bottom_y) *)
Definition bottom_y : Z := Z.max (i16 (y1 (bounds self) - padding_bottom self)) (y0 (bounds self)).

(** The cursor moved to the right. *)
Definition move_x (cursor : Point) (dx : Z) : Point := mkPoint (i16 (px cursor + dx)) (py cursor).

(** The cursor after the sign that the text goes on from another page. *)
(* src: ui/component/text/layout.rs 280-301 (TextLayout::layout_text) *)
Definition skip_prev_page (cursor : Point) : list SinkEvent * Point :=
  if bool_decide (page_breaking style = CutAndInsertEllipsisBoth) && continues_from_prev_page self then
    match chunks style with
    | Some c =>
      let letter_size := font_width font [97] in
      let icon_offset := i16 (prev_page_ellipsis_icon_width style + 2) in
      let cursor := move_x cursor (i16 (i16 (wraps 16 (chunk_size c) * letter_size) - icon_offset)) in
      ([SPrevPageEllipsis cursor], move_x cursor (i16 (icon_offset + x_offset c)))
    | None => ([SPrevPageEllipsis cursor], move_x cursor (prev_page_ellipsis_width style))
    end
  else ([], cursor).

(** The span at the cursor. *)
(* src: ui/component/text/layout.rs 304-342 (TextLayout::layout_text) *)
Definition next_span (remaining_text : list Z) (cursor : Point) : Span :=
  let is_last_line := bottom_y <? i16 (py cursor + font_line_height font) in
  let line_ending_space := if is_last_line then ellipsis_width style else 0 in
  let remaining_width := i16 (x1 (bounds self) - px cursor) in
  let span := fit_horizontally (H := font_metrics font) remaining_text remaining_width (line_breaking style)
                line_ending_space (chunks style) in
  match chunks style with
  | Some c =>
    let is_last_chunk := remaining_width <? i16 (i16 (2 * ox (advance span)) - x_offset c) in
    if is_last_line && is_last_chunk && (chunk_size c <? len remaining_text) then
      mkSpan 0 0 (mkOffset 2 (y1 (bounds self))) false
    else span
  | None => span
  end.

(** How far the span is moved from the cursor to be aligned. *)
(* src: ui/component/text/layout.rs 344-348 (TextLayout::layout_text) *)
Definition align_span (cursor : Point) (span : Span) : Z :=
  let remaining_width := i16 (x1 (bounds self) - px cursor) in
  match align self with
  | Start => 0
  | Center => Z.quot (i16 (remaining_width - ox (advance span))) 2
  | End_ => i16 (remaining_width - ox (advance span))
  end.

(** The events of the end of a page. *)
(* src: ui/component/text/layout.rs 378-396 (TextLayout::layout_text) *)
Definition page_end (remaining_text : list Z) (cursor : Point) (span : Span) : list SinkEvent :=
  (if bool_decide (remaining_text ≠ []) && bool_decide (page_breaking style ≠ Cut) &&
      negb (insert_hyphen_before_line_break span)
   then [SEllipsis cursor] else []) ++ [SOutOfBounds].

(** The loop over the spans. *)
(* src: ui/component/text/layout.rs 303-418 (TextLayout::layout_text) *)
Fixpoint layout_loop (fuel : nat) (init_cursor : Point) (text_len : Z) (remaining_text : list Z) (cursor : Point)
    (num_lines : Z) : txt (list SinkEvent * Point * LayoutFit) :=
  match remaining_text, fuel with
  | [], _ => Ok ([], cursor, Fitting text_len (layout_height init_cursor cursor))
  | _, O => NoFuel
  | _, S fuel =>
    let force_next_page := match chunks style ≫= max_rows with Some m => m <=? num_lines | None => false end in
    let span := next_span remaining_text cursor in
    let cursor := move_x cursor (align_span cursor span) in
    drawn ← (if 0 <? span_length span then
               text ← str_to remaining_text (span_length span); Ok [SText cursor text]
             else Ok []);
    remaining_text ← str_from remaining_text (wrapu usize_bits (span_length span + skip_next_chars span));
    let cursor := move_x cursor (ox (advance span)) in
    if 0 <? oy (advance span) then
      let num_lines := wrapu usize_bits (num_lines + 1) in
      let dy := i16 (oy (advance span) + line_spacing style) in
      let hyphen := if insert_hyphen_before_line_break span then [SHyphen cursor] else [] in
      if force_next_page || (bottom_y <? i16 (py cursor + dy)) then
        Ok (drawn ++ hyphen ++ page_end remaining_text cursor span, cursor,
            OutOfBounds (wrapu usize_bits (text_len - len remaining_text)) (layout_height init_cursor cursor))
      else
        let cursor := mkPoint (x0 (bounds self)) (i16 (py cursor + dy)) in
        '(events, cursor', fit) ← layout_loop fuel init_cursor text_len remaining_text cursor num_lines;
        Ok (drawn ++ hyphen ++ SLineBreak cursor :: events, cursor', fit)
    else
      '(events, cursor', fit) ← layout_loop fuel init_cursor text_len remaining_text cursor num_lines;
      Ok (drawn ++ events, cursor', fit)
  end.

(* src: ui/component/text/layout.rs 261-418 (TextLayout::layout_text) *)
Definition layout_text (fuel : nat) (text : list Z) (cursor : Point) : txt (list SinkEvent * Point * LayoutFit) :=
  let init_cursor := cursor in
  if bottom_y <? py cursor then Ok ([SOutOfBounds], cursor, OutOfBounds 0 0)
  else
    let '(first, cursor) := skip_prev_page cursor in
    '(events, cursor, fit) ← layout_loop fuel init_cursor (len text) text cursor 1;
    Ok (first ++ events, cursor, fit).

(* src: ui/component/text/layout.rs 231-238 (TextLayout::fit_text, TextLayout::render_text) *)
Definition render_text (fuel : nat) (text : list Z) : txt (list SinkEvent * LayoutFit) :=
  '(events, _, fit) ← layout_text fuel text initial_cursor; Ok (events, fit).
Definition fit_text (fuel : nat) (text : list Z) : txt LayoutFit := snd <$> render_text fuel text.
End Layout.

(** ** Labels

    [ui/component/label.rs]: a text in an area, aligned both ways, and the
    text styles of the labels of the keyboards
    ([ui/model_tt/theme/mod.rs]). *)
(** ** Text styles of the model T *)

(* src: ui/model_tt/theme/mod.rs 36-36 (OFF_WHITE) *)
Definition OFF_WHITE : Z := rgb 0xDE 0xDE 0xDE.
(* src: ui/model_tt/theme/mod.rs 589-589 (TEXT_NORMAL) *)
Definition TEXT_NORMAL : TextStyle := text_style_new NORMAL FG BG GREY_LIGHT GREY_LIGHT.
(* src: ui/model_tt/theme/mod.rs 115-117 (label_default) *)
Definition label_default : TextStyle := TEXT_NORMAL.
(* src: ui/model_tt/theme/mod.rs 119-121 (label_keyboard) *)
Definition label_keyboard : TextStyle := text_style_new DEMIBOLD OFF_WHITE BG GREY_LIGHT GREY_LIGHT.
(* src: ui/model_tt/theme/mod.rs 123-125 (label_keyboard_prompt) *)
Definition label_keyboard_prompt : TextStyle := text_style_new DEMIBOLD GREY_LIGHT BG GREY_LIGHT GREY_LIGHT.
(* src: ui/model_tt/theme/mod.rs 127-129 (label_keyboard_warning) *)
Definition label_keyboard_warning : TextStyle := text_style_new DEMIBOLD RED BG GREY_LIGHT GREY_LIGHT.
(* src: ui/model_tt/theme/mod.rs 131-133 (label_keyboard_minor) *)
Definition label_keyboard_minor : TextStyle := text_style_new NORMAL OFF_WHITE BG GREY_LIGHT GREY_LIGHT.

(** ** Labels *)

(* src: ui/component/label.rs 13-18 (Label) *)
Record Label := mkLabel { label_text : list Z; layout : TextLayout; vertical : Alignment }.

(* src: ui/component/label.rs 21-27 (Label::new) *)
Definition label_new (text : list Z) (align : Alignment) (style : TextStyle) : Label :=
  mkLabel text (with_align (layout_new style) align) Start.

(* src: ui/component/label.rs 29-31 (Label::left_aligned) *)
Definition left_aligned (text : list Z) (style : TextStyle) : Label := label_new text Start style.

(* src: ui/component/label.rs 33-35 (Label::right_aligned) *)
Definition right_aligned (text : list Z) (style : TextStyle) : Label := label_new text End_ style.

(* src: ui/component/label.rs 37-39 (Label::centered) *)
Definition centered (text : list Z) (style : TextStyle) : Label := label_new text Center style.

Section Methods.
Context (self : Label).

Definition with_vertical (a : Alignment) : Label := mkLabel (label_text self) (layout self) a.

(* src: ui/component/label.rs 41-44 (Label::top_aligned) *)
Definition top_aligned : Label := with_vertical Start.

(* src: ui/component/label.rs 46-49 (Label::vertically_centered) *)
Definition vertically_centered : Label := with_vertical Center.

(* src: ui/component/label.rs 51-54 (Label::bottom_aligned) *)
Definition bottom_aligned : Label := with_vertical End_.

Definition with_style (style : TextStyle) : Label :=
  let l := layout self in
  mkLabel (label_text self)
    (mkTextLayout (bounds l) (padding_top l) (padding_bottom l) style (align l) (continues_from_prev_page l)) (vertical self).

(* src: ui/component/label.rs 56-71 (Label::styled, Label::set_style) *)
Definition label_styled (style : TextStyle) : Label := with_style style.

(* src: ui/component/label.rs 65-67 (Label::set_text) *)
Definition set_text (text : list Z) : Label := mkLabel text (layout self) (vertical self).

(* src: ui/component/label.rs 73-75 (Label::font) *)
Definition label_font : Font := text_font (style (layout self)).

(* src: ui/component/label.rs 77-79 (Label::area) *)
Definition label_area : Rect := bounds (layout self).
End Methods.

Section Label.
Context `{FontDriver} `{DisplayConstants} `{Icons}.

(* src: ui/component/label.rs 85-89 (Label::max_size) *)
Definition max_size (self : Label) : Offset :=
  mkOffset (font_width (label_font self) (label_text self)) (text_max_height (label_font self)).

(** Turns of the layout: one for each byte and each row. *)
Definition turns (L : TextLayout) (text : list Z) : nat :=
  Z.to_nat (bottom_y L - py (initial_cursor L) + 1) + length text.

(** The height of the text in the area. *)
Definition height_in (self : Label) (area : Rect) : ui Z :=
  let L := with_bounds (layout self) area in
  fit_height <$> fit_text L (turns L (label_text self)) (label_text self).

(* src: ui/component/label.rs 91-96 (Label::text_height) *)
Definition label_text_height (self : Label) (width : Z) : ui Z :=
  height_in self (from_top_left_and_size point_zero (mkOffset width (2 ^ 15 - 1))).

(* src: ui/component/label.rs 98-110 (Label::text_area) *)
Definition text_area (self : Label) : Rect :=
  let available_width := rect_width (bounds (layout self)) in
  let w := font_width (label_font self) (label_text self) in
  let cursor := initial_cursor (layout self) in
  let baseline :=
    match align (layout self) with
    | Start => cursor
    | Center => point_sub_offset (ofs cursor (offset_x (Z.quot available_width 2))) (offset_x (Z.quot w 2))
    | End_ => point_sub_offset (ofs cursor (offset_x available_width)) (offset_x w)
    end in
  from_bottom_left_and_size baseline (mkOffset w (text_height (label_font self))).

(* src: ui/component/label.rs 118-137 (Component for Label) *)
#[export] Instance label_component : Component Label Empty_set := {
  place self bounds :=
    height ← height_in self bounds;
    let diff := i16 (rect_height bounds - height) in
    let insets :=
      match vertical self with
      | Start => mkInsets 0 0 diff 0
      | Center => mkInsets (Z.quot diff 2) 0 (i16 (Z.quot diff 2 + Z.rem diff 2)) 0
      | End_ => mkInsets diff 0 0 0
      end in
    let area := inset bounds insets in
    Ok (mkLabel (label_text self) (with_bounds (layout self) area) (vertical self), area);
  event self ctx ev := Ok (self, ctx, None)
}.
End Label.
