(* ===== verification/TextSpec.v ===== *)
(** * Properties of the layout of texts

    Every layout cuts a text between its characters and drops nothing but
    blanks at the ends of lines; with measures that fit the screen it ends, and
    what it draws is between the cursor and the bottom, and within the width but
    for the ends that are named there. *)
From S2P Require Import Prelude StrUtil Geometry GeometrySpec Theme Fonts TextLayout.
Local Open Scope Z_scope.

(** ** Characters of a text *)

(** The bytes of some characters. *)
Abbreviation bytes cs := (concat cs).

Definition starts_char (c : list Z) : Prop := match c with b :: _ => is_continuation b = false | [] => False end.

Lemma chars_tail s c cs : StrUtil.chars s = c :: cs → Forall starts_char cs ∧ StrUtil.chars (bytes cs) = cs ∧ c ≠ [].
Proof.
  revert c cs. induction s as [|b s IH]; intros c cs Hs; [done|]. cbn [StrUtil.chars] in Hs.
  destruct (StrUtil.chars s) as [|[|c' cs'] rest] eqn:E.
  - by injection Hs as <- <-.
  - by destruct (IH _ _ eq_refl) as (_ & _ & []).
  - destruct (IH _ _ eq_refl) as (Hst & Hch & _). destruct (is_continuation c') eqn:Hc; injection Hs as <- <-; [done|].
    split; [by constructor|]. split; [|done]. rewrite <- E, chars_concat. done.
Qed.

Lemma chars_split s a b : StrUtil.chars s = a ++ b →
  StrUtil.chars (bytes b) = b ∧ (a = [] ∨ Forall starts_char b).
Proof.
  revert s. induction a as [|c a IH]; intros s Hs.
  - cbn in Hs. rewrite <- Hs, chars_concat. by split; [|left].
  - cbn in Hs. apply chars_tail in Hs as (Hst & Hch & _). apply Forall_app in Hst as [_ Hst]. split; [|by right].
    by destruct (IH _ Hch).
Qed.

Lemma chars_prefix s a b : StrUtil.chars s = a ++ b → StrUtil.chars (bytes a) = a.
Proof.
  revert a b. induction s as [|x s IH]; intros a b Hs; [by destruct a|].
  destruct a as [|c0 a]; [done|]. cbn [StrUtil.chars] in Hs.
  destruct (StrUtil.chars s) as [|[|c cs] rest] eqn:E.
  - injection Hs as <- Ha. symmetry in Ha. apply app_nil in Ha as [-> _]. done.
  - by destruct (chars_tail _ _ _ E) as (_ & _ & []).
  - destruct (is_continuation c) eqn:Hc; injection Hs as <- Hrest.
    + specialize (IH ((c :: cs) :: a) b). cbn in IH |- *. rewrite IH by by rewrite Hrest. cbn. by rewrite Hc.
    + specialize (IH a b Hrest). cbn. rewrite IH. destruct a as [|c' a]; [done|]. injection Hrest as <- _. by rewrite Hc.
Qed.

Lemma chars_not_empty s : Forall (λ c, c ≠ []) (StrUtil.chars s).
Proof.
  induction s as [|b s IH]; [constructor|]. cbn [StrUtil.chars].
  destruct (StrUtil.chars s) as [|[|c cs] rest]; [by repeat constructor|by constructor|].
  apply Forall_cons in IH as [? ?]. destruct (is_continuation c); by repeat constructor.
Qed.

(** The bytes of one character. *)
Definition single (ch : list Z) : Prop := StrUtil.chars ch = [ch].

Lemma chars_single s : Forall single (StrUtil.chars s).
Proof.
  apply Forall_forall. intros c (a & b & Hs)%list_elem_of_split. apply chars_split in Hs as [Hs _].
  pose proof (chars_prefix _ [c] b Hs) as Hc. cbn in Hc. by rewrite app_nil_r in Hc.
Qed.

Lemma split_single s a b : StrUtil.chars s = a ++ b → Forall single a.
Proof. intros Hs. pose proof (chars_single s) as Ha. rewrite Hs in Ha. by apply Forall_app in Ha as [? _]. Qed.

Lemma boundary_at s a b : StrUtil.chars s = a ++ b → is_char_boundary s (len (bytes a)) = true.
Proof.
  intros Hs. assert (s = bytes a ++ bytes b) as -> by (rewrite <- concat_app, <- Hs; symmetry; apply chars_concat).
  unfold is_char_boundary. destruct (Z.eqb_spec (len (bytes a)) 0) as [|Hz]; [done|].
  destruct (Z.eqb_spec (len (bytes a)) (len (bytes a ++ bytes b))) as [|Hl]; [done|].
  rewrite length_app in Hl. apply chars_split in Hs as [_ [->|Hst]]; [done|].
  destruct b as [|[|x c] b]; [cbn in Hl; lia|by apply Forall_cons in Hst as [? _]|].
  apply Forall_cons in Hst as [Hx _]. cbn in Hx. unfold getZ. destruct (Z.ltb_spec (len (bytes a)) 0); [lia|].
  rewrite Nat2Z.id, lookup_app_r, Nat.sub_diag by lia. cbn. by rewrite Hx.
Qed.

Lemma str_to_at s a b : StrUtil.chars s = a ++ b → str_to s (len (bytes a)) = Ok (bytes a).
Proof.
  intros Hs. unfold str_to. rewrite (boundary_at s a b Hs). f_equal. rewrite Nat2Z.id, <- (chars_concat s), Hs, concat_app.
  apply take_app_length.
Qed.

Lemma str_from_at s a b : StrUtil.chars s = a ++ b → str_from s (len (bytes a)) = Ok (bytes b).
Proof.
  intros Hs. unfold str_from. rewrite (boundary_at s a b Hs). f_equal.
  rewrite Nat2Z.id, <- (chars_concat s) at 1. rewrite Hs, concat_app. apply drop_app_length.
Qed.

(** ** Spans *)

(** A blank that is dropped at the end of a line. *)
Definition dropped (skipped : list (list Z)) : Prop := skipped = [] ∨ ∃ ws, skipped = [ws] ∧ is_whitespace ws = true.

(** The span takes these characters and drops those. *)
Record cuts (span : Span) (taken skipped : list (list Z)) : Prop := {
  cut_length : span_length span = len (bytes taken);
  cut_skip : skip_next_chars span = len (bytes skipped);
  cut_dropped : dropped skipped
}.

Section Fit.
Context `{GlyphMetrics}.

(** The width of some characters. *)
Fixpoint widths (cs : list (list Z)) : Z :=
  match cs with [] => 0 | ch :: cs => char_width ch + widths cs end.

Lemma widths_app a b : widths (a ++ b) = widths a + widths b.
Proof. induction a as [|c a IH]; cbn; [done|]. rewrite IH. lia. Qed.

Lemma is_whitespace_len ch : is_whitespace ch = true → len ch = 1.
Proof. unfold is_whitespace. intros Hw. repeat (case_bool_decide; [by subst|]). done. Qed.

Section Loop.
Context (max_width : Z) (breaking : LineBreaking) (chunk_config : option Chunks).
Context (use_hyphens : bool) (incomplete complete : Z).
Abbreviation loop := (fit_loop max_width breaking chunk_config use_hyphens incomplete complete).

(** Where the loop breaks. *)
Lemma fit_loop_cuts cs : ∀ pre line w found span,
  (∃ taken skipped rest, pre = taken ++ skipped ++ rest ∧ cuts line taken skipped) →
  loop cs (len (bytes pre)) line w found = inl span →
  ∃ taken skipped rest, pre ++ cs = taken ++ skipped ++ rest ∧ cuts span taken skipped.
Proof.
  induction cs as [|ch cs IH]; intros pre line w found span Hline Hloop; [done|]. cbn [fit_loop] in Hloop.
  assert (∀ span', (∃ taken skipped rest, pre = taken ++ skipped ++ rest ∧ cuts span' taken skipped) →
    ∃ taken skipped rest, pre ++ ch :: cs = taken ++ skipped ++ rest ∧ cuts span' taken skipped) as Hmore.
  { intros span' (taken & skipped & rest & -> & ?). exists taken, skipped, (rest ++ ch :: cs). by rewrite <- !app_assoc. }
  assert (∀ l w f, (∃ taken skipped rest, pre ++ [ch] = taken ++ skipped ++ rest ∧ cuts l taken skipped) →
    loop cs (len (bytes pre) + len ch) l w f = inl span →
    ∃ taken skipped rest, pre ++ ch :: cs = taken ++ skipped ++ rest ∧ cuts span taken skipped) as Hnext.
  { intros l w' f Hl Hlo. replace (pre ++ ch :: cs) with ((pre ++ [ch]) ++ cs) by by rewrite <- app_assoc.
    apply (IH (pre ++ [ch]) l w' f span Hl). rewrite concat_app, length_app. cbn. rewrite app_nil_r.
    by replace (Z.of_nat (length (bytes pre) + length ch)) with (len (bytes pre) + len ch) by lia. }
  assert (∃ taken skipped rest, pre ++ [ch] = taken ++ skipped ++ rest ∧ cuts line taken skipped) as Hkeep.
  { destruct Hline as (taken & skipped & rest & -> & ?). exists taken, skipped, (rest ++ [ch]). by rewrite <- !app_assoc. }
  case_bool_decide.
  { injection Hloop as <-. apply Hmore. destruct Hline as (taken & skipped & rest & ? & []). by exists taken, skipped, rest. }
  destruct (is_whitespace ch && _) eqn:Hws.
  - apply andb_true_iff in Hws as [Hws _]. pose proof (is_whitespace_len ch Hws) as Hl1.
    set (line' := mkSpan _ _ _ _) in *.
    assert (cuts line' pre [ch]) as Hcut by (split; cbn; [done|rewrite app_nil_r; lia|right; by exists ch]).
    destruct (_ || _).
    + injection Hloop as <-. exists pre, [ch], cs. by split.
    + apply (Hnext _ _ _ ltac:(by exists pre, [ch], []) Hloop).
  - destruct (Z.ltb_spec max_width (i16 (w + char_width ch))); [injection Hloop as <-; by apply Hmore|].
    refine (Hnext _ _ _ _ Hloop). clear Hloop. match goal with |- context [if ?c then _ else _] => destruct c end; [|done].
    exists (pre ++ [ch]), [], []. split; [by rewrite app_nil_r|]. split; cbn; [|done|by left].
    rewrite concat_app, length_app. cbn. rewrite app_nil_r. lia.
Qed.
End Loop.

(** A span ends between two characters. *)
Lemma fit_horizontally_cuts text max_width breaking space chunk_config :
  ∃ taken skipped rest, StrUtil.chars text = taken ++ skipped ++ rest ∧
    cuts (fit_horizontally text max_width breaking space chunk_config) taken skipped.
Proof.
  unfold fit_horizontally. destruct (if text_width _ <=? _ then _ else _) as [incomplete hyphens].
  match goal with |- context [fit_loop ?m ?b ?c ?u ?i ?e ?cs 0 ?l 0 false] =>
    destruct (fit_loop m b c u i e cs 0 l 0 false) as [span|w] eqn:Hloop end.
  - apply (fit_loop_cuts _ _ _ _ _ _ _ [] _ _ _ _) in Hloop; [done|]. exists [], [], []. split; [done|]. by split; [..|left].
  - exists (StrUtil.chars text), [], []. rewrite !app_nil_r. split; [done|]. split; cbn; [by rewrite chars_concat|done|by left].
Qed.

(** *** Widths

    The characters fit in the width, except for a blank at their end. *)
Definition fits (max_width : Z) (cs : list (list Z)) : Prop :=
  cs = [] ∨ widths cs <= max_width ∨
  ∃ cs' ws, cs = cs' ++ [ws] ∧ is_whitespace ws = true ∧ widths cs' <= max_width.

Section Widths.
Context (max_width : Z) (breaking : LineBreaking) (use_hyphens : bool) (incomplete complete : Z).
Context (Hchars : ∀ ch, single ch → 0 <= char_width ch <= 1024) (Hmax : max_width <= 16384).
Context (Hincomplete : 0 <= incomplete <= 1024) (Hcomplete : 0 <= complete <= 1024).

Lemma widths_nonneg cs : Forall single cs → 0 <= widths cs.
Proof. induction 1 as [|ch cs Hch _ IH]; cbn; [lia|]. pose proof (Hchars ch Hch). lia. Qed.

Lemma whitespace_single ws : is_whitespace ws = true → single ws.
Proof. unfold is_whitespace. intros Hw. repeat (case_bool_decide; [by subst|]). done. Qed.

Lemma fits_bound cs : fits max_width cs → widths cs <= 16384 + 1024.
Proof.
  intros [->|[?|(cs' & ws & -> & Hws & ?)]]; cbn; try lia. rewrite widths_app. cbn.
  pose proof (Hchars ws (whitespace_single ws Hws)). lia.
Qed.

(** A line of the characters before some place. *)
Definition line_fits (pre : list (list Z)) (line : Span) : Prop :=
  ∃ taken skipped rest, pre = taken ++ skipped ++ rest ∧ cuts line taken skipped ∧
    ox (advance line) = widths taken ∧ (taken = [] ∨ widths taken <= max_width) ∧
    (oy (advance line) = line_height ∨ oy (advance line) = Z.quot line_height 2 ∧ skipped = [ASCII_CR]) ∧
    (insert_hyphen_before_line_break line = true → use_hyphens = true ∧ widths taken + incomplete <= max_width).

Lemma line_fits_more pre line more : line_fits pre line → line_fits (pre ++ more) line.
Proof.
  intros (taken & skipped & rest & -> & ?). exists taken, skipped, (rest ++ more). by rewrite <- !app_assoc.
Qed.

Lemma line_fits_start : line_fits [] (mkSpan 0 0 (offset_y line_height) false).
Proof.
  exists [], [], []. split; [done|]. split; [by split; [..|left]|]. cbn. split; [done|]. split; [by left|]. by split; [left|].
Qed.

(** Where the loop breaks, or the width of the whole. *)
Definition loop_outcome (cs : list (list Z)) (result : Span + Z) : Prop :=
  match result with
  | inl span => line_fits cs span
  | inr w => w = widths cs ∧ fits max_width cs
  end.

Lemma fit_loop_widths cs : ∀ pre line found,
  Forall single (pre ++ cs) → line_fits pre line → oy (advance line) = line_height → fits max_width pre →
  loop_outcome (pre ++ cs)
    (fit_loop max_width breaking None use_hyphens incomplete complete cs (len (bytes pre)) line (widths pre) found).
Proof.
  induction cs as [|ch cs IH]; intros pre line found Hsingle Hline Hy Hpre; [by rewrite app_nil_r|]. cbn [fit_loop].
  rewrite bool_decide_eq_false_2 by done. pose proof Hsingle as [Hs1 [Hs2 _]%Forall_cons]%Forall_app.
  pose proof (Hchars ch Hs2) as Hch. pose proof (widths_nonneg pre Hs1). pose proof (fits_bound pre Hpre) as Hb.
  rewrite !(i16_small (widths pre + _)) by lia.
  assert (len (bytes pre) + len ch = len (bytes (pre ++ [ch]))) as Hi.
  { rewrite concat_app, length_app. cbn. rewrite app_nil_r. lia. }
  assert (widths pre + char_width ch = widths (pre ++ [ch])) as Hw by (rewrite widths_app; cbn; lia).
  rewrite Hi, Hw. assert (∀ l f, line_fits (pre ++ [ch]) l → oy (advance l) = line_height → fits max_width (pre ++ [ch]) →
    loop_outcome (pre ++ ch :: cs) (fit_loop max_width breaking None use_hyphens incomplete complete cs
      (len (bytes (pre ++ [ch]))) l (widths (pre ++ [ch])) f)) as Hnext.
  { intros l f ???. replace (pre ++ ch :: cs) with ((pre ++ [ch]) ++ cs) in * by by rewrite <- app_assoc. by apply IH. }
  destruct (is_whitespace ch && _) eqn:Hws.
  - apply andb_true_iff in Hws as [Hws Hfit%Z.leb_le]. pose proof (is_whitespace_len ch Hws).
    assert (∀ y, y = line_height ∨ y = Z.quot line_height 2 ∧ ch = ASCII_CR →
      line_fits (pre ++ [ch]) (mkSpan (len (bytes pre)) 1 (mkOffset (widths pre) y) false)) as Hbreak.
    { intros y Hy'. exists pre, [ch], []. split; [done|]. split.
      - split; cbn; [done|rewrite app_nil_r; lia|right; by exists ch].
      - cbn. split; [done|]. split; [right; lia|]. split; [destruct Hy' as [?|[? ->]]; auto|done]. }
    destruct (bool_decide (ch = ASCII_LF) || _) eqn:Hend.
    + cbn [loop_outcome]. replace (pre ++ ch :: cs) with ((pre ++ [ch]) ++ cs) by by rewrite <- app_assoc.
      apply line_fits_more, Hbreak. clear Hend. case_bool_decide; [by right|by left].
    + apply orb_false_iff in Hend as [_ Hcr]. rewrite Hcr. apply Hnext; [by apply Hbreak; left|done|].
      right. right. exists pre, ch. split; [done|]. split; [done|lia].
  - destruct (Z.ltb_spec max_width (widths (pre ++ [ch]))).
    { cbn [loop_outcome]. by apply line_fits_more. }
    assert (fits max_width (pre ++ [ch])) as Hfits by (right; by left).
    assert (line_fits (pre ++ [ch]) line) as Hkeep by by apply line_fits_more.
    match goal with |- context [if ?c then _ else _] => destruct c eqn:Hc end; apply Hnext; try done.
    apply andb_true_iff in Hc as [Hc%Z.leb_le _]. rewrite i16_small in Hc by (rewrite widths_app in *; cbn in *; lia).
    exists (pre ++ [ch]), [], []. split; [by rewrite !app_nil_r|]. split; [split; cbn; [done|done|by left]|].
    cbn. split; [done|]. split; [by right|]. split; [by left|]. done.
Qed.

(** A line that has something keeps something. *)
Lemma fit_loop_keeps cs i line w found span :
  Forall (λ c, c ≠ []) cs → 0 <= i → 0 <= span_length line → 0 < span_length line + skip_next_chars line →
  fit_loop max_width breaking None use_hyphens incomplete complete cs i line w found = inl span →
  0 < span_length span + skip_next_chars span.
Proof.
  intros Hcs. revert i line w found. induction Hcs as [|ch cs Hch Hcs IH]; intros i line w found Hi Hl0 Hl Hloop; [done|].
  cbn [fit_loop] in Hloop. rewrite bool_decide_eq_false_2 in Hloop by done.
  assert (0 < len ch) by (destruct ch; [done|simpl; lia]).
  destruct (is_whitespace ch && _).
  - destruct (_ || _); [injection Hloop as <-; cbn; lia|]. eapply IH; [..|exact Hloop]; cbn; lia.
  - destruct (max_width <? _); [by injection Hloop as <-|].
    eapply IH; [..|exact Hloop]; [lia|..]; destruct (_ && _); cbn [span_length skip_next_chars]; lia.
Qed.

Lemma fit_loop_progress cs line span :
  Forall single cs → cs ≠ [] → (∀ ch, single ch → char_width ch + incomplete <= max_width) → complete <= max_width →
  fit_loop max_width breaking None use_hyphens incomplete complete cs 0 line 0 false = inl span →
  0 < span_length span + skip_next_chars span.
Proof.
  intros Hcs Hne Hroom Hroom' Hloop. destruct Hcs as [|ch cs Hch Hcs]; [done|]. cbn [fit_loop] in Hloop.
  rewrite bool_decide_eq_false_2 in Hloop by done. pose proof (Hchars ch Hch). pose proof (Hroom ch Hch).
  assert (Forall (λ c, c ≠ []) cs) as Hne' by (eapply Forall_impl; [exact Hcs|]; by intros ? ? ->).
  assert (0 < len ch) by (destruct ch; [done|simpl; lia]). rewrite !(i16_small (0 + _)) in Hloop by lia.
  rewrite (i16_small (_ + incomplete)) in Hloop by lia.
  rewrite (proj2 (Z.leb_le (0 + complete) _)), (proj2 (Z.leb_le (0 + _ + _) _)), orb_true_r, andb_true_r in Hloop by lia.
  rewrite (proj2 (Z.ltb_ge _ _)) in Hloop by lia. cbn [andb] in Hloop. destruct (is_whitespace ch).
  - destruct (_ || _); [injection Hloop as <-; cbn; lia|]. eapply fit_loop_keeps; [exact Hne'|..|exact Hloop]; cbn; lia.
  - eapply fit_loop_keeps; [exact Hne'|..|exact Hloop]; cbn; lia.
Qed.
End Widths.

(** What a span is, for a text whose measures fit the screen. *)
Definition span_outcome (text : list Z) (max_width : Z) (breaking : LineBreaking) (span : Span) : Prop :=
  ∃ taken skipped rest, StrUtil.chars text = taken ++ skipped ++ rest ∧ cuts span taken skipped ∧
    ox (advance span) = widths taken ∧
    (oy (advance span) = 0 ∧ skipped = [] ∧ rest = [] ∧ insert_hyphen_before_line_break span = false ∧ fits max_width taken
     ∨ (oy (advance span) = line_height ∨ oy (advance span) = Z.quot line_height 2 ∧ skipped = [ASCII_CR]) ∧
       (taken = [] ∨ widths taken <= max_width) ∧
       (insert_hyphen_before_line_break span = true →
         breaking ≠ BreakWordsNoHyphen ∧ widths taken + char_width ASCII_HYPHEN <= max_width)).

Lemma fit_horizontally_outcome text max_width breaking space :
  (∀ ch, single ch → 0 <= char_width ch <= 1024) → max_width <= 16384 → 0 <= space <= 1024 →
  let span := fit_horizontally text max_width breaking space None in
  span_outcome text max_width breaking span ∧
  (text ≠ [] → (∀ ch, single ch → char_width ch + Z.max space (char_width ASCII_HYPHEN) <= max_width) →
    0 < span_length span + skip_next_chars span).
Proof.
  intros Hchars Hmax Hspace. cbv zeta. unfold fit_horizontally. pose proof (Hchars ASCII_HYPHEN eq_refl) as Hh.
  pose proof (chars_single text) as Hsingle.
  set (completely := text_width _ <=? _).
  assert (∃ incomplete hyphens, (if completely then (0, false) else if 0 <? space then (space, false)
      else if bool_decide (breaking ≠ BreakWordsNoHyphen) then (char_width ASCII_HYPHEN, bool_decide (breaking ≠ BreakWordsNoHyphen))
      else (0, bool_decide (breaking ≠ BreakWordsNoHyphen))) = (incomplete, hyphens) ∧
      0 <= incomplete <= Z.max space (char_width ASCII_HYPHEN) ∧
      (hyphens = true → breaking ≠ BreakWordsNoHyphen ∧ incomplete = char_width ASCII_HYPHEN)) as (incomplete & hyphens & -> & Hi & Hhy).
  { destruct completely; [eexists _, _; split; [done|]; by split; [lia|]|]. destruct (Z.ltb_spec 0 space); [eexists _, _; split; [done|]; by split; [lia|]|].
    case_bool_decide; (eexists _, _; split; [done|]; split; [lia|done]). }
  set (complete := if completely then 0 else space). assert (0 <= complete <= space) by (unfold complete; destruct completely; lia).
  pose proof (fit_loop_widths max_width breaking hyphens incomplete complete Hchars Hmax ltac:(lia) ltac:(lia)
    (StrUtil.chars text) [] _ false Hsingle (line_fits_start _ _ _) eq_refl (or_introl eq_refl)) as Hw.
  pose proof (fit_loop_progress max_width breaking hyphens incomplete complete Hchars ltac:(lia) ltac:(lia)
    (StrUtil.chars text) (mkSpan 0 0 (offset_y line_height) false)) as Hp. cbn [app widths concat length] in Hw. change (Z.of_nat 0) with 0 in Hw.
  destruct (fit_loop _ _ _ _ _ _ _ 0 _ 0 false) as [span|w]; cbn [loop_outcome] in Hw.
  - destruct Hw as (taken & skipped & rest & Hcs & Hcut & Hx & Hfit & Hy & Hhyp).
    split.
    + exists taken, skipped, rest. split; [done|]. split; [done|]. split; [done|]. right. split; [done|]. split; [done|].
      intros [Hu Hle]%Hhyp. destruct (Hhy Hu) as [? <-]. done.
    + intros Hne Hroom. apply (Hp span); [done|by rewrite chars_nil| | |done].
      * intros ch Hch. pose proof (Hroom ch Hch). lia.
      * pose proof (Hroom ASCII_HYPHEN eq_refl). lia.
  - destruct Hw as [-> Hfit].
    split.
    + exists (StrUtil.chars text), [], []. rewrite !app_nil_r. split; [done|].
      split; [split; cbn; [by rewrite chars_concat|done|by left]|]. cbn. split; [done|]. by left.
    + intros Hne _. cbn. destruct text; [done|simpl; lia].
Qed.
End Fit.

(** ** The layout *)

(** What is drawn. *)
Definition texts (events : list SinkEvent) : list (list Z) :=
  omap (λ e, match e with SText _ t => Some t | _ => None end) events.

(** The text is the segments that are drawn, each with the blank that is
    dropped after it, and the rest that goes to the next page. *)
Definition kept (text_len : Z) (text : list Z) (events : list SinkEvent) (fit : LayoutFit) : Prop :=
  ∃ (segments : list (list (list Z) * list (list Z))) rest,
    StrUtil.chars text = concat ((λ seg, fst seg ++ snd seg) <$> segments) ++ rest ∧
    Forall (λ seg, dropped (snd seg)) segments ∧
    texts events = filter (λ t, t ≠ []) ((λ seg, bytes (fst seg)) <$> segments) ∧
    match fit with
    | Fitting n _ => rest = [] ∧ n = text_len
    | OutOfBounds n _ => n = text_len - len (bytes rest)
    end.

(** One more segment in front. *)
Lemma kept_more text_len text taken skipped rest cursor evs evs' fit :
  StrUtil.chars text = taken ++ skipped ++ rest → dropped skipped → StrUtil.chars (bytes rest) = rest →
  kept text_len (bytes rest) evs fit →
  texts evs' = texts (if 0 <? len (bytes taken) then [SText cursor (bytes taken)] else []) ++ texts evs →
  kept text_len text evs' fit.
Proof.
  intros Hcs Hd Hrest (segs & rest' & Hr & Hds & Hevs & Hfit) Hev. rewrite Hrest in Hr.
  exists ((taken, skipped) :: segs), rest'. split; [cbn; rewrite Hcs, Hr; by rewrite <- !app_assoc|].
  split; [by constructor|]. split; [|done]. rewrite Hev, Hevs, fmap_cons. cbn [fst].
  destruct (bytes taken) as [|b l]; [by rewrite filter_cons_False by auto|by rewrite filter_cons_True].
Qed.

Lemma texts_app e1 e2 : texts (e1 ++ e2) = texts e1 ++ texts e2.
Proof. apply omap_app. Qed.

(** The events show a text: its bytes in order, but for at most one blank at
    each line break and at the end of a page. Where gaps are allowed a blank can
    be missing elsewhere. *)
Inductive shown (gaps : bool) : list Z → list SinkEvent → Prop :=
| shown_nil : shown gaps [] []
| shown_text c t s es : shown gaps s es → shown gaps (t ++ s) (SText c t :: es)
| shown_sign e c s es : e = SHyphen c ∨ e = SEllipsis c ∨ e = SPrevPageEllipsis c → shown gaps s es → shown gaps s (e :: es)
| shown_break e skipped s es : e = SOutOfBounds ∨ (∃ c, e = SLineBreak c) → dropped skipped → shown gaps s es →
    shown gaps (bytes skipped ++ s) (e :: es)
| shown_gap skipped s es : gaps = true → dropped skipped → shown gaps s es → shown gaps (bytes skipped ++ s) es.

Lemma shown_app gaps s1 es1 s2 es2 : shown gaps s1 es1 → shown gaps s2 es2 → shown gaps (s1 ++ s2) (es1 ++ es2).
Proof.
  intros Hs Hs2. induction Hs; [done|..]; cbn [app]; rewrite <- ?app_assoc; [by constructor|..].
  - by eapply shown_sign.
  - by apply shown_break.
  - by apply shown_gap.
Qed.

Lemma shown_weaken (gaps gaps' : bool) s es : (gaps = true → gaps' = true) → shown gaps s es → shown gaps' s es.
Proof.
  intros Hg. induction 1; [constructor|by constructor|by eapply shown_sign|by apply shown_break|apply shown_gap; auto].
Qed.

(** A break without a blank. *)
Lemma shown_plain_break gaps e s es : e = SOutOfBounds ∨ (∃ c, e = SLineBreak c) → shown gaps s es → shown gaps s (e :: es).
Proof. intros He Hs. apply (shown_break gaps e [] s es He (or_introl eq_refl) Hs). Qed.

(** The number of bytes that are processed. *)
Definition processed (fit : LayoutFit) : Z := match fit with Fitting n _ | OutOfBounds n _ => n end.

Section Layout.
Context `{FontDriver} `{DisplayConstants} `{Icons} (L : TextLayout).

(** No chunks, and lines that are not too low to be halved. *)
Definition plain : bool := bool_decide (chunks (style L) = None) && (2 <=? font_line_height (text_font (style L))).

Lemma next_span_cuts text cursor :
  ∃ taken skipped rest, StrUtil.chars text = taken ++ skipped ++ rest ∧ cuts (next_span L text cursor) taken skipped.
Proof.
  unfold next_span. set (span := fit_horizontally _ _ _ _ _).
  assert (∃ taken skipped rest, StrUtil.chars text = taken ++ skipped ++ rest ∧ cuts span taken skipped) as Hspan
    by apply fit_horizontally_cuts.
  destruct (chunks _); [|done]. destruct (_ && _); [|done].
  exists [], [], (StrUtil.chars text). split; [done|]. by split; [..|left].
Qed.

Lemma page_end_texts text cursor span : texts (page_end L text cursor span) = [].
Proof. unfold page_end. rewrite texts_app. by destruct (_ && _). Qed.

(** One turn of the loop. *)
Lemma layout_loop_turn fuel init text_len text cursor n taken skipped rest :
  text ≠ [] → StrUtil.chars text = taken ++ skipped ++ rest → cuts (next_span L text cursor) taken skipped →
  len text < 2 ^ usize_bits →
  layout_loop L (S fuel) init text_len text cursor n =
    let span := next_span L text cursor in
    let cursor := move_x cursor (align_span L cursor span) in
    let drawn := if 0 <? len (bytes taken) then [SText cursor (bytes taken)] else [] in
    let cursor := move_x cursor (ox (advance span)) in
    let hyphen := if insert_hyphen_before_line_break span then [SHyphen cursor] else [] in
    if 0 <? oy (advance span) then
      let dy := i16 (oy (advance span) + line_spacing (style L)) in
      if match chunks (style L) ≫= max_rows with Some m => m <=? n | None => false end ||
         (bottom_y L <? i16 (py cursor + dy)) then
        Ok (drawn ++ hyphen ++ page_end L (bytes rest) cursor span, cursor,
            OutOfBounds (wrapu usize_bits (text_len - len (bytes rest))) (layout_height L init cursor))
      else
        let cursor := mkPoint (x0 (bounds L)) (i16 (py cursor + dy)) in
        '(events, cursor', fit) ← layout_loop L fuel init text_len (bytes rest) cursor (wrapu usize_bits (n + 1));
        Ok (drawn ++ hyphen ++ SLineBreak cursor :: events, cursor', fit)
    else
      '(events, cursor', fit) ← layout_loop L fuel init text_len (bytes rest) cursor n;
      Ok (drawn ++ events, cursor', fit).
Proof.
  intros Hne Hcs [Hl Hs Hd] Hlen. destruct text as [|b text']; [done|]. set (text := b :: text') in *.
  cbn [layout_loop]. fold text. set (span := next_span L text cursor) in *. rewrite Hl, Hs.
  assert (len text = len (bytes taken) + len (bytes skipped) + len (bytes rest)) as Hsum.
  { rewrite <- (chars_concat text), Hcs, !concat_app, !length_app. lia. }
  rewrite (wrapu_small usize_bits (len (bytes taken) + len (bytes skipped))) by (unfold in_u; lia).
  rewrite (str_to_at text taken (skipped ++ rest) Hcs).
  assert (str_from text (len (bytes taken) + len (bytes skipped)) = Ok (bytes rest)) as ->.
  { rewrite <- Nat2Z.inj_add, <- length_app, <- concat_app. apply str_from_at. by rewrite Hcs, app_assoc. }
  by destruct (0 <? len (bytes taken)).
Qed.

Lemma split_length text taken skipped rest : StrUtil.chars text = taken ++ skipped ++ rest →
  len text = len (bytes taken) + len (bytes skipped) + len (bytes rest).
Proof. intros Hcs. rewrite <- (chars_concat text), Hcs, !concat_app, !length_app. lia. Qed.

Lemma layout_loop_keeps fuel init text_len text cursor n :
  len text <= text_len → text_len < 2 ^ usize_bits →
  layout_loop L fuel init text_len text cursor n = NoFuel ∨
  ∃ events cursor' fit, layout_loop L fuel init text_len text cursor n = Ok (events, cursor', fit) ∧
    kept text_len text events fit.
Proof.
  intros Hlen Htl. revert text cursor n Hlen. induction fuel as [|fuel IH]; intros text cursor n Hlen.
  { destruct text; [|by left]. right. eexists _, _, _. split; [done|]. by exists [], []. }
  destruct text as [|b text']; [right; eexists _, _, _; split; [done|]; by exists [], []|].
  set (text := b :: text') in *.
  destruct (next_span_cuts text cursor) as (taken & skipped & rest & Hcs & Hcut). pose proof (cut_dropped _ _ _ Hcut) as Hd.
  rewrite (layout_loop_turn _ _ _ _ _ _ taken skipped rest) by (done || lia). cbv zeta.
  pose proof (split_length _ _ _ _ Hcs) as Hsum.
  assert (StrUtil.chars (bytes rest) = rest) as Hrest.
  { rewrite app_assoc in Hcs. by apply chars_split in Hcs as [? _]. }
  set (drawn := if 0 <? len (bytes taken) then _ else _).
  assert (∀ evs evs' fit, kept text_len (bytes rest) evs fit → texts evs' = texts drawn ++ texts evs →
    kept text_len text evs' fit) as Hstep by (intros; by eapply kept_more).
  clearbody drawn. destruct (0 <? oy _); [destruct (_ || _)|].
  - right. eexists _, _, _. split; [done|]. apply (Hstep []).
    + exists [], rest. split; [done|]. split; [constructor|]. split; [done|]. apply wrapu_small. unfold in_u. lia.
    + rewrite !texts_app, page_end_texts, app_nil_r. by destruct (insert_hyphen_before_line_break _).
  - edestruct (IH (bytes rest)) as [Hnf|(evs & c' & fit & Hloop & Hkept)]; [lia|left; by rewrite Hnf|right].
    rewrite Hloop. cbn [mbind outcome_bind]. eexists _, _, _. split; [done|]. apply (Hstep evs); [done|].
    rewrite !texts_app. by destruct (insert_hyphen_before_line_break _).
  - edestruct (IH (bytes rest)) as [Hnf|(evs & c' & fit & Hloop & Hkept)]; [lia|left; by rewrite Hnf|right].
    rewrite Hloop. cbn [mbind outcome_bind]. eexists _, _, _. split; [done|]. apply (Hstep evs); [done|]. by rewrite texts_app.
Qed.

(** A span that drops something breaks the line, if there are no chunks. *)
Lemma fit_loop_breaks `{GlyphMetrics} max_width breaking hyphens incomplete complete cs :
  2 <= line_height → ∀ i line w found span, 0 < oy (advance line) →
  fit_loop max_width breaking None hyphens incomplete complete cs i line w found = inl span → 0 < oy (advance span).
Proof.
  intros Hlh. assert (0 < Z.quot line_height 2) by (Z.to_euclidean_division_equations; lia).
  induction cs as [|ch cs IH]; intros i line w found span Hline; cbn [fit_loop]; [done|].
  rewrite bool_decide_eq_false_2 by done.
  destruct (_ && (i16 (w + complete) <=? _)).
  - assert (0 < (if bool_decide (ch = ASCII_CR) then Z.quot line_height 2 else oy (advance line))) by by destruct (bool_decide _).
    destruct (_ || _); [by intros [= <-]|]. by apply IH.
  - destruct (_ <? _); [by intros [= <-]|]. apply IH. by destruct (_ && _).
Qed.

Lemma next_span_breaks text cursor : plain = true →
  0 < oy (advance (next_span L text cursor)) ∨ skip_next_chars (next_span L text cursor) = 0.
Proof.
  unfold plain. rewrite andb_true_iff, bool_decide_eq_true, Z.leb_le. intros [Hc Hlh]. unfold next_span. rewrite Hc.
  unfold fit_horizontally. match goal with |- context [match ?m with pair _ _ => _ end] => destruct m as [inc hy] end.
  match goal with |- context [match ?m with inl _ => _ | inr _ => _ end] => destruct m as [span|w] eqn:E end; [left|by right].
  eapply (fit_loop_breaks (H2 := font_metrics (text_font (style L)))); [exact Hlh| |exact E]. cbn. lia.
Qed.

Lemma layout_loop_shown fuel init text_len text cursor n events cursor' fit :
  len text <= text_len → text_len < 2 ^ usize_bits →
  layout_loop L fuel init text_len text cursor n = Ok (events, cursor', fit) →
  text_len - len text <= processed fit <= text_len ∧
  shown (negb plain) (take (Z.to_nat (processed fit - (text_len - len text))) text) events.
Proof.
  intros Hlen Htl. revert text cursor n events cursor' fit Hlen. induction fuel as [|fuel IH]; intros text cursor n events cursor' fit Hlen.
  { destruct text; [|done]. intros [= <- _ <-]. cbn [processed]. split; [cbn; lia|]. rewrite take_nil. constructor. }
  destruct text as [|b text']; [intros [= <- _ <-]; cbn [processed]; split; [cbn; lia|]; rewrite take_nil; constructor|].
  set (text := b :: text') in *. pose proof (next_span_breaks text cursor) as Hbr.
  destruct (next_span_cuts text cursor) as (taken & skipped & rest & Hcs & Hcut). pose proof (cut_dropped _ _ _ Hcut) as Hd.
  rewrite (layout_loop_turn _ _ _ _ _ _ taken skipped rest) by (done || lia). cbv zeta.
  pose proof (split_length _ _ _ _ Hcs) as Hsum.
  assert (text = bytes taken ++ bytes skipped ++ bytes rest) as Htext
    by (rewrite <- (chars_concat text), Hcs, !concat_app; done).
  set (span := next_span L text cursor) in *.
  set (c1 := move_x cursor _). set (drawn := if 0 <? len (bytes taken) then [SText c1 (bytes taken)] else []).
  assert (∀ s es, shown (negb plain) s es → shown (negb plain) (bytes taken ++ s) (drawn ++ es)) as Hdrawn.
  { intros s es Hs. unfold drawn. destruct (Z.ltb_spec 0 (len (bytes taken))); [by apply shown_text|].
    by destruct (bytes taken); [|simpl in *; lia]. }
  clearbody drawn. destruct (Z.ltb_spec 0 (oy (advance span))) as [Hoy|Hoy].
  - set (hyphen := if insert_hyphen_before_line_break span then _ else _).
    assert (∀ s es, shown (negb plain) s es → shown (negb plain) s (hyphen ++ es)) as Hhyphen.
    { intros s es Hs. unfold hyphen. destruct (insert_hyphen_before_line_break span); [|done]. eapply shown_sign; [by left|done]. }
    clearbody hyphen. destruct (_ || _).
    + intros [= <- _ <-]. cbn [processed]. rewrite wrapu_small by (unfold in_u; lia). split; [lia|].
      assert (take (Z.to_nat (text_len - len (bytes rest) - (text_len - len text))) text = bytes taken ++ bytes skipped ++ []) as ->.
      { replace (Z.to_nat _) with (length (bytes taken ++ bytes skipped)) by (rewrite length_app; lia).
        rewrite Htext at 1. by rewrite app_assoc, take_app_length, app_nil_r. }
      apply Hdrawn, Hhyphen. unfold page_end. destruct (_ && _); cbn [app].
      * eapply shown_sign; [by right; left|]. apply shown_break; [by left|done|constructor].
      * apply shown_break; [by left|done|constructor].
    + intros ([[evs c2] fit2] & Hrec & [= <- _ <-])%bind_Ok. apply IH in Hrec as [Hp Hs]; [|lia]. split; [lia|].
      assert (take (Z.to_nat (processed fit2 - (text_len - len text))) text =
        bytes taken ++ bytes skipped ++ take (Z.to_nat (processed fit2 - (text_len - len (bytes rest)))) (bytes rest)) as ->.
      { rewrite Htext at 2. rewrite take_app_ge by lia. f_equal. rewrite take_app_ge by lia. do 2 f_equal. lia. }
      apply Hdrawn, Hhyphen. apply shown_break; [right; by eexists|done|done].
  - intros ([[evs c2] fit2] & Hrec & [= <- _ <-])%bind_Ok. apply IH in Hrec as [Hp Hs]; [|lia]. split; [lia|].
    assert (take (Z.to_nat (processed fit2 - (text_len - len text))) text =
      bytes taken ++ bytes skipped ++ take (Z.to_nat (processed fit2 - (text_len - len (bytes rest)))) (bytes rest)) as ->.
    { rewrite Htext at 2. rewrite take_app_ge by lia. f_equal. rewrite take_app_ge by lia. do 2 f_equal. lia. }
    apply Hdrawn. destruct plain eqn:Hpl; [|by apply shown_gap].
    destruct (Hbr eq_refl) as [?|Hz]; [lia|]. rewrite (cut_skip _ _ _ Hcut) in Hz.
    by destruct (bytes skipped) eqn:Hsk; [|simpl in Hz; lia].
Qed.

(** What is drawn of a text. *)
Lemma layout_text_shown fuel text cursor events cursor' fit : len text < 2 ^ usize_bits →
  layout_text L fuel text cursor = Ok (events, cursor', fit) →
  0 <= processed fit <= len text ∧ shown (negb plain) (take (Z.to_nat (processed fit)) text) events.
Proof.
  intros Hlen. unfold layout_text. destruct (_ <? _).
  { intros [= <- _ <-]. cbn [processed]. split; [lia|]. rewrite take_0. apply shown_plain_break; [by left|constructor]. }
  assert (∃ first c1, skip_prev_page L cursor = (first, c1) ∧ ∀ s es, shown (negb plain) s es → shown (negb plain) s (first ++ es))
    as (first & c1 & -> & Hfirst).
  { unfold skip_prev_page. destruct (_ && _); [|by eexists _, _]. destruct (chunks _); eexists _, _; (split; [done|]);
      intros; (eapply shown_sign; [by right; right|done]). }
  intros ([[evs c2] fit2] & Hrec & [= <- _ <-])%bind_Ok. apply layout_loop_shown in Hrec as [Hp Hs]; [|lia|done].
  rewrite Z.sub_diag, Z.sub_0_r in *. split; [lia|]. by apply Hfirst.
Qed.

(** *** Measures that fit the screen *)
Abbreviation font := (text_font (style L)).
Abbreviation area := (bounds L).

Record measures_ok : Prop := {
  no_chunks : chunks (style L) = None;
  chars_ok ch : single ch → 0 <= font_char_width font ch <= 1024;
  ellipsis_ok : 0 <= ellipsis_width (style L) <= 1024;
  prev_ok : 0 <= prev_page_ellipsis_width (style L) <= 1024;
  area_ok : 0 <= x0 area <= x1 area ∧ x1 area <= 8192;
  bottom_ok : bottom_y L <= 8192;
  lines_ok : 2 <= font_line_height font <= 1024;
  spacing_ok : 1 <= Z.quot (font_line_height font) 2 + line_spacing (style L) ∧ line_spacing (style L) <= 1024
}.

(** The width of a text. *)
Definition width_of (t : list Z) : Z := widths (H := font_metrics font) (StrUtil.chars t).

(** What is drawn is between the top and the bottom. Of a text only a blank at
    its end can be out of the area. A hyphen and the sign of more text begin
    between the left of the area and [right], and a hyphen ends inside of the
    area when lines start on the left; nothing is said of the end of the sign. *)
Definition inside (top right : Z) (e : SinkEvent) : Prop :=
  match e with
  | SText c t => top <= py c <= bottom_y L ∧
      (x0 area <= px c ∧ px c + width_of t <= x1 area ∨
       ∃ cs ws, StrUtil.chars t = cs ++ [ws] ∧ is_whitespace ws = true ∧
         widths (H := font_metrics font) cs <= x1 area - x0 area)
  | SHyphen c => top <= py c <= bottom_y L ∧ x0 area <= px c <= right ∧
      (align L = Start → px c + font_char_width font ASCII_HYPHEN <= x1 area)
  | SEllipsis c => top <= py c <= bottom_y L ∧ x0 area <= px c <= right
  | SPrevPageEllipsis c => top <= py c <= bottom_y L ∧ x0 area <= px c <= x1 area
  | SLineBreak c => px c = x0 area ∧ top <= py c <= bottom_y L
  | SOutOfBounds => True
  end.

Lemma layout_loop_nil fuel init text_len cursor n :
  layout_loop L fuel init text_len [] cursor n = Ok ([], cursor, Fitting text_len (layout_height L init cursor)).
Proof. by destruct fuel. Qed.

Section Inside.
Context (Hok : measures_ok).

Lemma next_span_outcome text cursor : x0 area <= px cursor <= x1 area + 1024 →
  span_outcome (H := font_metrics font) text (x1 area - px cursor) (line_breaking (style L)) (next_span L text cursor).
Proof.
  intros Hx. destruct Hok as [Hn Hc He _ Ha _ _ _]. unfold next_span. rewrite Hn, (i16_small (x1 _ - px _)) by lia.
  refine (proj1 (fit_horizontally_outcome (H := font_metrics font) _ _ _ _ Hc _ _)); [lia|].
  destruct (bottom_y L <? _); lia.
Qed.

(** Where the span goes. *)
Lemma align_span_inside cursor span w : x0 area <= px cursor <= x1 area + 1024 → ox (advance span) = w → 0 <= w <= 16384 →
  align_span L cursor span = 0 ∧ align L = Start ∨
  (w <= x1 area - px cursor → 0 <= align_span L cursor span <= x1 area - px cursor - w) ∧ -16384 - 8192 <= align_span L cursor span <= 8192.
Proof.
  intros Hx <- Hw. destruct Hok as [_ _ _ _ Ha _ _ _]. unfold align_span.
  rewrite (i16_small (x1 _ - px _)), (i16_small (_ - ox _)) by lia.
  destruct (align L); [by left|right|right]; [|lia].
  Z.to_euclidean_division_equations. lia.
Qed.

(** A text at its place. *)
Lemma drawn_inside top right cursor span taken text :
  x0 area <= px cursor <= x1 area + 1024 → top <= py cursor <= bottom_y L →
  StrUtil.chars text = taken → text ≠ [] → ox (advance span) = widths (H := font_metrics font) taken →
  fits (H := font_metrics font) (x1 area - px cursor) taken →
  inside top right (SText (move_x cursor (align_span L cursor span)) text).
Proof.
  intros Hx Hy Ht Hne Hadv Hf. pose proof Hok as [_ Hc _ _ Ha _ _ _]. cbn [inside py move_x px]. split; [done|].
  assert (0 <= widths (H := font_metrics font) taken) as Hw0.
  { apply (widths_nonneg (H := font_metrics font)); [done|]. rewrite <- Ht. apply chars_single. }
  destruct Hf as [->|[Hle|(cs & ws & -> & Hws & Hle)]]; [by apply chars_nil in Ht| |].
  - left. unfold width_of. rewrite Ht.
    destruct (align_span_inside cursor span _ Hx Hadv ltac:(lia)) as [[-> _]|[Hal _]];
      [rewrite Z.add_0_r, i16_small by lia; lia|]. specialize (Hal Hle). rewrite i16_small by lia. lia.
  - right. exists cs, ws. split; [done|]. split; [done|]. lia.
Qed.

(** Where a cursor can be: only a blank at the end of a text is out of the area. *)
Definition cursor_in (top : Z) (c : Point) : Prop := x0 area <= px c <= x1 area + 1024 ∧ top <= py c <= bottom_y L.

Lemma span_end_in cursor span taken : x0 area <= px cursor <= x1 area + 1024 → Forall single taken →
  ox (advance span) = widths (H := font_metrics font) taken → fits (H := font_metrics font) (x1 area - px cursor) taken →
  x0 area <= px (move_x (move_x cursor (align_span L cursor span)) (ox (advance span))) <= x1 area + 1024.
Proof.
  intros Hx Hs Hadv Hf. pose proof Hok as [_ Hc _ _ Ha _ _ _].
  pose proof (widths_nonneg (H := font_metrics font) Hc taken Hs) as Hw.
  assert (ox (advance span) = 0 ∨ 0 <= ox (advance span) <= x1 area - px cursor + 1024 ∧ px cursor <= x1 area) as Hb.
  { destruct Hf as [->|[?|(cs & ws & -> & Hws & ?)]]; [by left|right; lia|right].
    rewrite widths_app in Hadv, Hw. cbn in Hadv, Hw. apply Forall_app in Hs as [Hs _].
    pose proof (widths_nonneg (H := font_metrics font) Hc cs Hs). pose proof (Hc ws (whitespace_single ws Hws)) as Hcw.
    cbn in Hcw. lia. }
  unfold align_span, move_x. cbn [px]. rewrite (i16_small (x1 _ - px _)), (i16_small (_ - ox _)) by lia.
  destruct (align L); rewrite ?(i16_small (px cursor + _)), i16_small by (Z.to_euclidean_division_equations; lia);
    Z.to_euclidean_division_equations; lia.
Qed.

(** Where a span before a line break ends. *)
Lemma span_end_right cursor span taken : x0 area <= px cursor <= x1 area + 1024 → Forall single taken →
  ox (advance span) = widths (H := font_metrics font) taken →
  (taken = [] ∨ widths (H := font_metrics font) taken <= x1 area - px cursor) →
  x0 area <= px (move_x (move_x cursor (align_span L cursor span)) (ox (advance span))) <= Z.max (x1 area) (px cursor).
Proof.
  intros Hx Hs Hadv Hf. pose proof Hok as [_ Hc _ _ Ha _ _ _].
  pose proof (widths_nonneg (H := font_metrics font) Hc taken Hs) as Hw.
  assert (ox (advance span) = 0 ∨ 0 <= ox (advance span) <= x1 area - px cursor) as Hb.
  { destruct Hf as [->|?]; [by left|right; lia]. }
  unfold align_span, move_x. cbn [px]. rewrite (i16_small (x1 _ - px _)), (i16_small (_ - ox _)) by lia.
  destruct (align L); rewrite ?(i16_small (px cursor + _)), i16_small by (Z.to_euclidean_division_equations; lia);
    Z.to_euclidean_division_equations; lia.
Qed.

Lemma layout_loop_inside top right fuel init text_len text cursor n :
  x0 area <= px cursor <= x1 area + 1024 → Z.max (x1 area) (px cursor) <= right →
  -8192 <= top <= py cursor → py cursor <= bottom_y L →
  bottom_y L - py cursor + 1 <= Z.of_nat fuel →
  len text <= text_len → text_len < 2 ^ usize_bits →
  ∃ events cursor' fit, layout_loop L fuel init text_len text cursor n = Ok (events, cursor', fit) ∧
    Forall (inside top right) events ∧ cursor_in (py cursor) cursor'.
Proof.
  revert text cursor n. induction fuel as [|fuel IH]; intros text cursor n Hx Hright Htop Hy Hfuel Hlen Htl; [lia|].
  destruct text as [|b text']; [eexists _, _, _; by repeat split; try lia|]. set (text := b :: text') in *.
  destruct (next_span_outcome text cursor Hx) as (taken & skipped & rest & Hcs & Hcut & Hadv & Hspan).
  rewrite (layout_loop_turn _ _ _ _ _ _ taken skipped rest) by (done || lia). cbv zeta.
  pose proof (drawn_inside top right cursor (next_span L text cursor) taken (bytes taken) Hx (conj (proj2 Htop) Hy)
    (chars_prefix _ _ _ Hcs)) as Hdrawn.
  set (span := next_span L text cursor) in *. pose proof (split_length _ _ _ _ Hcs) as Hsum.
  pose proof Hok as [Hn Hc _ _ Ha Hbot Hlh Hls].
  assert (fits (H := font_metrics font) (x1 area - px cursor) taken →
    x0 area <= px (move_x (move_x cursor (align_span L cursor span)) (ox (advance span))) <= x1 area + 1024) as Hend.
  { intros Hf. by apply (span_end_in _ _ taken); [done|eapply split_single|..]. }
  set (c1 := move_x cursor (align_span L cursor span)) in *. set (drawn := if 0 <? len (bytes taken) then [_] else []).
  assert (fits (H := font_metrics font) (x1 area - px cursor) taken → Forall (inside top right) drawn) as Hdr.
  { intros Hf. unfold drawn. destruct (Z.ltb_spec 0 (len (bytes taken))); [|done]. apply Forall_singleton.
    apply Hdrawn; [|done|done]. destruct (bytes taken); [simpl in *; lia|done]. }
  clearbody drawn. destruct Hspan as [(-> & -> & -> & _ & Hf)|(Hyy & Hf & Hhy)].
  { cbn [Z.ltb Z.compare concat]. rewrite layout_loop_nil. cbn [mbind outcome_bind].
    eexists _, _, _. split; [done|]. rewrite app_nil_r. split; [by apply Hdr|]. split; [by apply Hend|cbn; lia]. }
  assert (fits (H := font_metrics font) (x1 area - px cursor) taken) as Hfits by (destruct Hf; [by left|right; by left]).
  assert (0 < oy (advance span) <= 1024 ∧ 1 <= oy (advance span) + line_spacing (style L) <= 2048) as Hoy.
  { cbn [line_height font_metrics] in Hyy. destruct Hyy as [->|[-> _]]; Z.to_euclidean_division_equations; lia. }
  pose proof (span_end_right cursor span taken Hx (split_single _ _ _ Hcs) Hadv Hf) as Hsr. fold c1 in Hsr.
  rewrite (proj2 (Z.ltb_lt _ _)) by lia. rewrite Hn. cbn [mbind option_bind orb].
  rewrite (i16_small (oy (advance span) + _)) by lia.
  set (c2 := move_x c1 (ox (advance span))) in *.
  assert (py c2 = py cursor) as Hpy by done. rewrite Hpy, (i16_small (py cursor + _)) by lia.
  set (hyphen := if insert_hyphen_before_line_break span then [SHyphen c2] else []).
  assert (Forall (inside top right) hyphen) as Hhyphen.
  { unfold hyphen. destruct (insert_hyphen_before_line_break span); [|done]. apply Forall_singleton. cbn [inside].
    split; [rewrite Hpy; lia|]. split; [lia|]. intros Hs. destruct (Hhy eq_refl) as [_ Hroom].
    pose proof (Hc ASCII_HYPHEN eq_refl). cbn [char_width font_metrics] in Hroom.
    pose proof (widths_nonneg (H := font_metrics font) Hc taken (split_single _ _ _ Hcs)).
    assert (align_span L cursor span = 0) as Hz by (unfold align_span; by rewrite Hs).
    unfold c2, c1. cbn [move_x px]. rewrite Hz, Z.add_0_r, Hadv, (i16_small (px cursor)), i16_small by lia. lia. }
  destruct (Z.ltb_spec (bottom_y L) (py cursor + (oy (advance span) + line_spacing (style L)))).
  - eexists _, _, _. split; [done|]. split; [|split; [by apply Hend|cbn; lia]]. rewrite !Forall_app. split; [by apply Hdr|]. split; [done|].
    unfold page_end. rewrite Forall_app. split; [|by repeat constructor].
    destruct (_ && _); [|done]. apply Forall_singleton. cbn [inside]. rewrite Hpy. lia.
  - destruct (IH (bytes rest) (mkPoint (x0 area) (py cursor + (oy (advance span) + line_spacing (style L))))
      (wrapu usize_bits (n + 1))) as (evs & c & fit & -> & Hevs & Hcx & Hcy); cbn [px py] in *; try lia.
    cbn [mbind outcome_bind]. eexists _, _, _. split; [done|]. split; [|split; [done|lia]]. rewrite !Forall_app. split; [by apply Hdr|]. split; [done|].
    constructor; [|done]. cbn [inside px py]. lia.
Qed.
End Inside.

Lemma skip_prev_page_texts cursor : texts (fst (skip_prev_page L cursor)) = [].
Proof. unfold skip_prev_page. destruct (_ && _); [|done]. by destruct (chunks _). Qed.

Lemma kept_out_of_bounds text : kept (len text) text [SOutOfBounds] (OutOfBounds 0 0).
Proof.
  exists [], (StrUtil.chars text). split; [done|]. split; [constructor|]. split; [done|]. rewrite chars_concat. lia.
Qed.

Lemma layout_text_keeps fuel text cursor : len text < 2 ^ usize_bits →
  layout_text L fuel text cursor = NoFuel ∨
  ∃ events cursor' fit, layout_text L fuel text cursor = Ok (events, cursor', fit) ∧ kept (len text) text events fit.
Proof.
  intros Hlen. unfold layout_text. destruct (_ <? _).
  { right. eexists _, _, _. split; [done|]. apply kept_out_of_bounds. }
  pose proof (skip_prev_page_texts cursor) as Hf. destruct (skip_prev_page L cursor) as [first c1].
  destruct (layout_loop_keeps fuel cursor (len text) text c1 1) as [->|(evs & c & fit & -> & Hk)]; [lia|done|by left|right].
  cbn [mbind outcome_bind]. eexists _, _, _. split; [done|]. destruct Hk as (segs & rest & ? & ? & Hev & ?).
  exists segs, rest. split; [done|]. split; [done|]. split; [|done]. by cbn [fst] in Hf; rewrite texts_app, Hf, <- Hev.
Qed.

(** How far to the right hyphens and signs of more text can begin: at the right
    of the area, or where the sign that begins a page ends, or at the cursor. *)
Definition right_of (cursor : Point) : Z := Z.max (x1 area) (px (skip_prev_page L cursor).2).

Lemma layout_text_inside fuel text cursor :
  measures_ok → x0 (bounds L) <= px cursor <= x1 (bounds L) + (if continues_from_prev_page L then 0 else 1024) →
  -8192 <= py cursor → bottom_y L - py cursor + 1 <= Z.of_nat fuel → len text < 2 ^ usize_bits →
  ∃ events cursor' fit, layout_text L fuel text cursor = Ok (events, cursor', fit) ∧
    Forall (inside (py cursor) (right_of cursor)) events ∧
    (py cursor <= bottom_y L → cursor_in (py cursor) cursor').
Proof.
  intros Hok Hx Hy Hfuel Hlen. unfold layout_text. destruct (Z.ltb_spec (bottom_y L) (py cursor)).
  { eexists _, _, _. split; [done|]. split; [by repeat constructor|lia]. }
  assert (∃ first c1, skip_prev_page L cursor = (first, c1) ∧ Forall (inside (py cursor) (right_of cursor)) first ∧
    x0 (bounds L) <= px c1 <= x1 (bounds L) + 1024 ∧ py c1 = py cursor) as (first & c1 & Hskip & Hf & Hx1 & Hy1).
  { pose proof Hok as [Hn _ _ Hp Ha _ _ _]. unfold skip_prev_page. rewrite Hn. generalize (right_of cursor). intros right.
    destruct (continues_from_prev_page L); [|rewrite andb_false_r]; [rewrite andb_true_r; destruct (bool_decide _)|].
    - eexists _, _. split; [done|]. split; [apply Forall_singleton; cbn [inside]; lia|].
      cbn [move_x px py]. rewrite i16_small by lia. lia.
    - eexists _, _. split; [done|]. split; [constructor|]. lia.
    - eexists _, _. split; [done|]. split; [constructor|]. lia. }
  assert (right_of cursor = Z.max (x1 area) (px c1)) as Hright by (unfold right_of; by rewrite Hskip). rewrite Hskip.
  destruct (layout_loop_inside Hok (py cursor) (right_of cursor) fuel cursor (len text) text c1 1) as (evs & c & fit & -> & Hevs & Hc);
    try lia. cbn [mbind outcome_bind]. eexists _, _, _. split; [done|]. split; [by apply Forall_app|]. by rewrite Hy1 in Hc.
Qed.
End Layout.

(** Breaking a text: a span ends between two characters and drops at most
    one blank after it. For measures that fit the screen and no chunks, the
    span is either the rest of the text, which fits except for a blank at its
    end, or the characters it takes fit in the width, with a hyphen after them
    when one is asked for, before a line break; and when every character fits
    with what has to follow it, the span makes progress. *)
Theorem span_fits `{GlyphMetrics} text max_width breaking space chunk_config :
  let span := fit_horizontally text max_width breaking space chunk_config in
  (∃ taken skipped rest, StrUtil.chars text = taken ++ skipped ++ rest ∧ cuts span taken skipped) ∧
  (chunk_config = None → (∀ ch, single ch → 0 <= char_width ch <= 1024) → max_width <= 16384 → 0 <= space <= 1024 →
   span_outcome text max_width breaking span ∧
   (text ≠ [] → (∀ ch, single ch → char_width ch + Z.max space (char_width ASCII_HYPHEN) <= max_width) →
     0 < span_length span + skip_next_chars span)).
Proof.
  split; [apply fit_horizontally_cuts|]. intros ->. apply fit_horizontally_outcome.
Qed.

(** The measures of the tests: all characters are one pixel wide and high. *)
#[local] Instance fixed_font : GlyphMetrics := {| char_width _ := 1; text_width t := len t; line_height := 1 |}.

(** "hello world" in five pixels: the first word, and the blank is dropped. *)
Lemma span_fits_witness :
  let span := fit_horizontally [104; 101; 108; 108; 111; 32; 119; 111; 114; 108; 100] 5 BreakAtWhitespace 0 None in
  span = mkSpan 5 1 (mkOffset 5 1) false ∧ 0 < span_length span + skip_next_chars span.
Proof.
  split; [vm_compute; reflexivity|].
  apply (span_fits [104; 101; 108; 108; 111; 32; 119; 111; 114; 108; 100] 5 BreakAtWhitespace 0 None);
    [reflexivity|intros; cbn; lia|lia|lia|discriminate|intros; cbn; lia].
Defined.


(** A font of the tests: eight pixels for each character, twelve rows. *)
#[local] Instance test_font : FontDriver := {|
  font_text_width _ t := 8 * len (StrUtil.chars t);
  font_height _ := 12;
  font_max_height _ := 12;
  font_baseline _ := 2;
  font_get_glyph _ _ := None
|}.
#[local] Instance test_display : DisplayConstants := {| LINE_SPACE := 4; FONT_BPP := 4 |}.
#[local] Instance test_icons : Icons := {| icon_width _ := 10 |}.


(** The space for the sign of more text is not kept free on a line that is the
    last one because of the line spacing only. *)
Lemma ellipsis_outside :
  let L := with_bounds (layout_new (with_line_spacing (text_style_new NORMAL 0 0 0 0) 5)) (mkRect 0 0 64 28) in
  let text := [97; 98; 99; 100; 101; 102; 103; 104; 32; 105] in
  ∃ cursor' fit, layout_text L 50 text (mkPoint 0 10) =
    Ok ([SText (mkPoint 0 10) (take 8 text); SEllipsis (mkPoint 64 10); SOutOfBounds], cursor', fit) ∧
  x1 (bounds L) < 64 + ellipsis_width (style L).
Proof. intros L text. eexists _, _. split; [vm_compute; reflexivity|]. vm_compute. reflexivity. Qed.
