(* ===== verification/TextFrame.v ===== *)
(** * A text in another frame

    A text that has been fitted into an area is drawn in a part of it that ends
    below its last row, moved to another height.  The last row then keeps a
    space for an ellipsis that it had no need for; it is broken at the same
    places all the same. *)
From S2P Require Import Prelude StrUtil Geometry GeometrySpec Theme Fonts TextLayout TextSpec.
Local Open Scope Z_scope.

(** ** The rest of a text that fits *)

Lemma trim_chars_prefix cs : ∃ tail, cs = trim_chars cs ++ tail.
Proof.
  induction cs as [|ch cs [tail IH]]; [by exists []|]. cbn [trim_chars].
  destruct (trim_chars cs) as [|c l]; [|exists tail; cbn; by f_equal].
  destruct (char_is_whitespace ch); [by exists (ch :: cs)|]. exists tail. cbn. by f_equal.
Qed.

Lemma trim_chars_snoc cs ws : char_is_whitespace ws = true → trim_chars (cs ++ [ws]) = trim_chars cs.
Proof. intros Hw. induction cs as [|ch cs IH]; cbn; [by rewrite Hw|by rewrite IH]. Qed.

Lemma whitespace_trimmed ws : is_whitespace ws = true → char_is_whitespace ws = true.
Proof. unfold is_whitespace. intros Hw. repeat (case_bool_decide; [by subst|]). done. Qed.

Section Complete.
Context `{GlyphMetrics}.
Context (Hchars : ∀ ch, single ch → 0 <= char_width ch <= 1024).
Context (Hlaw : ∀ t, text_width t <= widths (StrUtil.chars t)).

Lemma widths_prefix a b : Forall single (a ++ b) → widths a <= widths (a ++ b).
Proof. intros [_ Hb]%Forall_app. rewrite widths_app. pose proof (widths_nonneg Hchars b Hb). lia. Qed.

(** Characters that fit, but for a blank, fit without the blanks at the end. *)
Lemma trimmed_fits text max_width : 0 <= max_width → fits max_width (StrUtil.chars text) →
  text_width (trim_end text) <= max_width.
Proof.
  intros H0 Hf. set (cs := StrUtil.chars text) in *. destruct (trim_chars_prefix cs) as [tail Htail].
  pose proof (chars_single text) as Hs. fold cs in Hs.
  pose proof (chars_prefix text (trim_chars cs) tail Htail) as Hch.
  pose proof (Hlaw (trim_end text)) as Hl. unfold trim_end in Hl |- *. fold cs in Hl |- *. rewrite Hch in Hl.
  enough (widths (trim_chars cs) <= max_width) by lia.
  destruct Hf as [->|[Hle|(cs' & ws & Hcs & Hws & Hle)]]; [by cbn| |].
  - pose proof (widths_prefix (trim_chars cs) tail) as Hp. rewrite <- Htail in Hp. specialize (Hp Hs). lia.
  - rewrite Hcs, trim_chars_snoc by by apply whitespace_trimmed. destruct (trim_chars_prefix cs') as [tail' Htail'].
    pose proof (widths_prefix (trim_chars cs') tail') as Hp. rewrite <- Htail' in Hp.
    rewrite Hcs in Hs. apply Forall_app in Hs as [Hs _]. specialize (Hp Hs). lia.
Qed.

(** The space for the sign of more text only matters for a line that breaks. *)
Lemma complete_span text max_width breaking space space' :
  max_width <= 16384 → 0 <= max_width → 0 <= space <= 1024 → 2 <= line_height →
  oy (advance (fit_horizontally text max_width breaking space None)) = 0 →
  fit_horizontally text max_width breaking space' None = fit_horizontally text max_width breaking space None.
Proof.
  intros Hmax H0 Hspace Hlh Hoy.
  destruct (text_width (trim_end text) <=? max_width) eqn:Hfit.
  { unfold fit_horizontally. by rewrite Hfit. }
  apply Z.leb_gt in Hfit. pose proof (fit_horizontally_outcome text max_width breaking space Hchars Hmax Hspace)
    as [(taken & skipped & rest & Hcs & _ & _ & Hspan) _].
  destruct Hspan as [(_ & -> & -> & _ & Hf)|(Hy & _)].
  - rewrite !app_nil_r in Hcs. rewrite <- Hcs in Hf. pose proof (trimmed_fits text max_width H0 Hf). lia.
  - rewrite Hoy in Hy. destruct Hy as [|[Hy _]]; [lia|]. Z.to_euclidean_division_equations. lia.
Qed.
End Complete.

(** ** Rows *)

(** No half line. *)
Definition no_return (text : list Z) : Prop := 13 ∉ text.

Lemma no_return_rest text taken skipped rest : StrUtil.chars text = taken ++ skipped ++ rest → no_return text →
  ASCII_CR ∉ skipped ∧ no_return (bytes rest).
Proof.
  unfold no_return. intros Hcs. rewrite <- (chars_concat text), Hcs, !concat_app, !elem_of_app. intros Hn. split; [|naive_solver].
  intros Hin. apply Hn. right. left. apply list_elem_of_In, in_concat. exists ASCII_CR. split; [by apply list_elem_of_In|by left].
Qed.

Section Rows.
Context `{FontDriver} `{DisplayConstants} `{Icons}.

Definition line_of (L : TextLayout) : Z := font_line_height (text_font (style L)).

(** The texts at a cursor, and where it goes. *)
Definition drawn_at (L : TextLayout) (cursor : Point) (span : Span) (taken : list (list Z)) : list SinkEvent :=
  if 0 <? len (bytes taken) then [SText (move_x cursor (align_span L cursor span)) (bytes taken)] else [].
Definition span_end (L : TextLayout) (cursor : Point) (span : Span) : Point :=
  move_x (move_x cursor (align_span L cursor span)) (ox (advance span)).
Definition hyphen_at (cursor : Point) (span : Span) : list SinkEvent :=
  if insert_hyphen_before_line_break span then [SHyphen cursor] else [].

(** A span is the rest of the text, or a whole row of it. *)
Record row (L : TextLayout) (text : list Z) (span : Span) (taken skipped rest : list (list Z)) : Prop := {
  row_split : StrUtil.chars text = taken ++ skipped ++ rest;
  row_cuts : cuts span taken skipped;
  row_rest : no_return (bytes rest);
  row_height : oy (advance span) = line_of L ∨ oy (advance span) = 0 ∧ skipped = [] ∧ rest = []
}.

(** The layouts in which a text is rows of one height. *)
Record rows_ok (L : TextLayout) : Prop := {
  rows_measures : measures_ok L;
  rows_spacing : line_spacing (style L) = 0
}.

Section Loop.
Context (L : TextLayout) (Hrows : rows_ok L).

Lemma next_row text cursor : no_return text → x0 (bounds L) <= px cursor <= x1 (bounds L) →
  ∃ taken skipped rest, row L text (next_span L text cursor) taken skipped rest.
Proof.
  intros Hret Hx. destruct Hrows as [Hok _].
  destruct (next_span_outcome L Hok text cursor ltac:(lia)) as (taken & skipped & rest & Hcs & Hcut & _ & Hspan).
  pose proof (no_return_rest _ _ _ _ Hcs Hret) as [Hcr Hrest]. exists taken, skipped, rest. split; [done..|].
  destruct Hspan as [(Hoy & -> & -> & _)|([|[_ ->]] & _)]; [by right|by left|].
  by destruct Hcr; apply list_elem_of_singleton.
Qed.

Section Turn.
Context (init : Point) (text_len : Z) (text : list Z) (cursor : Point) (taken skipped rest : list (list Z)).
Context (span : Span) (Hspan : next_span L text cursor = span).
Abbreviation cursor' := (span_end L cursor span).
Context (Hrow : row L text span taken skipped rest).
Context (Hlen : len text <= text_len) (Htl : text_len < 2 ^ usize_bits) (Hne : text ≠ []).
Context (Hy : -16384 <= py cursor <= bottom_y L).

Lemma row_turn fuel n :
  layout_loop L (S fuel) init text_len text cursor n =
    if oy (advance span) =? 0 then
      Ok (drawn_at L cursor span taken, cursor', Fitting text_len (layout_height L init cursor'))
    else if bottom_y L <? py cursor + line_of L then
      Ok (drawn_at L cursor span taken ++ hyphen_at cursor' span ++ page_end L (bytes rest) cursor' span, cursor',
          OutOfBounds (text_len - len (bytes rest)) (layout_height L init cursor'))
    else
      let next := mkPoint (x0 (bounds L)) (py cursor + line_of L) in
      '(events, cursor'', fit) ← layout_loop L fuel init text_len (bytes rest) next (wrapu usize_bits (n + 1));
      Ok (drawn_at L cursor span taken ++ hyphen_at cursor' span ++ SLineBreak next :: events, cursor'', fit).
Proof.
  destruct Hrows as [Hok Hls], Hrow as [Hcs Hcut _ Hoy]. pose proof (split_length _ _ _ _ Hcs) as Hsum.
  destruct Hok as [Hn _ _ _ _ Hbot Hlh _].
  rewrite (layout_loop_turn _ _ _ _ _ _ _ taken skipped rest) by ((by rewrite ?Hspan) || lia).
  cbv zeta. rewrite Hspan. fold (line_of L) in Hlh. destruct Hoy as [Hoy|(Hoy & -> & ->)]; rewrite Hoy.
  - rewrite Hls, Z.add_0_r, (i16_small (line_of L)), (proj2 (Z.ltb_lt 0 _)), (proj2 (Z.eqb_neq _ _)) by lia.
    rewrite Hn. cbn [mbind option_bind orb move_x py]. rewrite (i16_small (py cursor + _)) by lia.
    destruct (_ <? _); [|done]. by rewrite (wrapu_small usize_bits) by (unfold in_u; lia).
  - cbn [Z.ltb Z.eqb Z.compare concat]. rewrite layout_loop_nil. cbn [mbind outcome_bind]. by rewrite app_nil_r.
Qed.
End Turn.
End Loop.

Lemma drawn_texts L cursor span taken : texts (drawn_at L cursor span taken) = if 0 <? len (bytes taken) then [bytes taken] else [].
Proof. unfold drawn_at. by destruct (_ <? _). Qed.

Lemma hyphen_texts cursor span : texts (hyphen_at cursor span) = [].
Proof. unfold hyphen_at. by destruct (insert_hyphen_before_line_break _). Qed.

(** ** Two frames *)

(** Another frame for the same texts, [k] rows below. *)
Record moved (k : Z) (L L' : TextLayout) : Prop := {
  moved_style : style L' = style L;
  moved_align : align L' = align L;
  moved_x0 : x0 (bounds L') = x0 (bounds L);
  moved_x1 : x1 (bounds L') = x1 (bounds L)
}.
Definition below (k : Z) (cursor : Point) : Point := mkPoint (px cursor) (py cursor + k).

(** The same outcome, but for the height. *)
Definition same_fit (fit fit' : LayoutFit) : Prop :=
  match fit, fit' with
  | Fitting n _, Fitting n' _ | OutOfBounds n _, OutOfBounds n' _ => n = n'
  | _, _ => False
  end.

Section Moved.
Context (L L' : TextLayout) (k : Z) (Hrows : rows_ok L) (Hrows' : rows_ok L') (Hmoved : moved k L L').
Context (Hlaw : ∀ t, font_width (text_font (style L)) t <= widths (H := font_metrics (text_font (style L))) (StrUtil.chars t)).
Context (Hk : -8192 <= k <= 8192).

Lemma line_moved : line_of L' = line_of L.
Proof. unfold line_of. by rewrite (moved_style _ _ _ Hmoved). Qed.

Lemma next_span_moved text cursor : x0 (bounds L) <= px cursor <= x1 (bounds L) → -8192 <= py cursor <= bottom_y L →
  (bottom_y L' <? py cursor + k + line_of L) = (bottom_y L <? py cursor + line_of L) ∨
    oy (advance (next_span L text cursor)) = 0 →
  next_span L' text (below k cursor) = next_span L text cursor.
Proof.
  intros Hx Hy Hlast. destruct Hmoved as [Hs Ha Hx0 Hx1], Hrows as [[Hn Hc He _ Har Hbot Hlh _] _].
  unfold next_span in *. rewrite Hs, Hx1, Hn in *. cbn [below px py] in *. fold (line_of L) in *.
  rewrite (i16_small (py cursor + k + _)), (i16_small (py cursor + line_of L)) in * by lia.
  rewrite (i16_small (x1 _ - px _)) in * by lia. destruct Hlast as [->|Hoy]; [done|].
  apply (complete_span (H := font_metrics (text_font (style L))) Hc Hlaw); [lia|lia| |exact (proj1 Hlh)|done].
  destruct (_ <? _); lia.
Qed.

Lemma row_moved text span taken skipped rest : row L text span taken skipped rest → row L' text span taken skipped rest.
Proof. intros [? ? ? Hh]. split; [done..|]. by rewrite line_moved. Qed.

(** Where a layout ends, and what it draws in the other frame when that ends
    below the same row. *)
Lemma layout_loop_moved fuel init init' text_len : ∀ text cursor n events cursor' fit,
  no_return text → len text <= text_len → text_len < 2 ^ usize_bits →
  x0 (bounds L) <= px cursor <= x1 (bounds L) → -8192 <= py cursor <= bottom_y L →
  layout_loop L fuel init text_len text cursor n = Ok (events, cursor', fit) →
  py cursor <= py cursor' <= bottom_y L ∧ fit_height fit = layout_height L init cursor' ∧
  ∀ fuel' n', py cursor' + k <= bottom_y L' < py cursor' + k + line_of L →
    bottom_y L' - (py cursor + k) + 1 <= Z.of_nat fuel' →
    ∃ events' cursor'' fit', layout_loop L' fuel' init' text_len text (below k cursor) n' = Ok (events', cursor'', fit') ∧
      texts events' = texts events ∧ same_fit fit fit'.
Proof.
  pose proof (spacing_ok L (rows_measures L Hrows)) as Hlh. pose proof (lines_ok L (rows_measures L Hrows)) as Hln.
  fold (line_of L) in Hln. clear Hlh. pose proof (area_ok L (rows_measures L Hrows)) as Har.
  induction fuel as [|fuel IH]; intros text cursor n events cursor' fit Hret Hlen Htl Hx Hy Hloop.
  { destruct text; [|done]. injection Hloop as <- <- <-. split; [lia|]. split; [done|]. intros fuel' n' _ _.
    rewrite layout_loop_nil. by eexists _, _, _. }
  destruct text as [|b text']; [injection Hloop as <- <- <-; split; [lia|]; split; [done|]; intros fuel' n' _ _;
    rewrite layout_loop_nil; by eexists _, _, _|]. set (text := b :: text') in *.
  destruct (next_row L Hrows text cursor Hret Hx) as (taken & skipped & rest & Hrow).
  rewrite (row_turn L Hrows _ _ _ _ taken skipped rest _ eq_refl) in Hloop by (done || lia).
  set (span := next_span L text cursor) in *. pose proof (row_split _ _ _ _ _ _ Hrow) as Hsum%split_length.
  assert (text ≠ []) as Hne by done.
  pose proof (λ Hspan Hy', row_turn L' Hrows' init' text_len text (below k cursor) taken skipped rest span Hspan
    (row_moved _ _ _ _ _ Hrow) Hlen Htl Hne Hy') as Hturn.
  rewrite !line_moved, !(moved_x0 _ _ _ Hmoved) in Hturn. cbn [below py] in Hturn.
  destruct (Z.eqb_spec (oy (advance span)) 0) as [Hoy|Hoy].
  - injection Hloop as <- <- <-. split; [cbn; lia|]. split; [done|]. intros [|fuel'] n' Hb Hf; cbn in Hb; [lia|].
    rewrite Hturn; [|apply next_span_moved; by auto|lia].
    eexists _, _, _. split; [done|]. by rewrite !drawn_texts.
  - destruct (Z.ltb_spec (bottom_y L) (py cursor + line_of L)) as [Hlast|Hlast].
    + injection Hloop as <- <- <-. split; [cbn; lia|]. split; [done|]. intros [|fuel'] n' Hb Hf; cbn in Hb; [lia|].
      rewrite Hturn; [|apply next_span_moved; [done|lia|left; by rewrite !(proj2 (Z.ltb_lt _ _)) by lia]|lia].
      rewrite (proj2 (Z.ltb_lt _ _)) by lia.
      eexists _, _, _. split; [done|]. by rewrite !texts_app, !drawn_texts, !hyphen_texts, !page_end_texts.
    + cbv zeta in Hloop. apply bind_Ok in Hloop as ([[events0 c0] fit0] & Hloop & [= <- <- <-]).
      apply IH in Hloop as (Hc & Hfit & Hother); [|by apply Hrow|lia|done|cbn; lia|cbn; lia]. cbn [py] in Hc.
      split; [lia|]. split; [done|]. intros [|fuel'] n' Hb Hf; [lia|].
      rewrite Hturn; [|apply next_span_moved; [done|lia|left; by rewrite !(proj2 (Z.ltb_ge _ _)) by lia]|lia].
      rewrite (proj2 (Z.ltb_ge _ _)) by lia.
      destruct (Hother fuel' (wrapu usize_bits (n' + 1)) Hb) as (events' & c' & fit' & Heq & Ht & Hsame); [cbn; lia|].
      unfold below in Heq. cbn [px py] in Heq. replace (py cursor + line_of L + k) with (py cursor + k + line_of L) in Heq by lia.
      cbv zeta. rewrite Heq. eexists _, _, _. split; [done|]. split; [|done].
      rewrite !texts_app, !drawn_texts, !hyphen_texts. by refine (f_equal (app _) _).
Qed.
End Moved.

(** *** Progress *)

(** Every character fits beside the sign of another page, with what has to
    follow it. *)
Definition roomy (L : TextLayout) : Prop :=
  ∀ ch, single ch →
    prev_page_ellipsis_width (style L) + font_char_width (text_font (style L)) ch
    + Z.max (ellipsis_width (style L)) (font_char_width (text_font (style L)) ASCII_HYPHEN)
    <= x1 (bounds L) - x0 (bounds L).

Section Progress.
Context (L : TextLayout) (Hok : measures_ok L) (Hroom : roomy L).

Lemma next_span_progress text cursor : text ≠ [] →
  x0 (bounds L) <= px cursor <= x0 (bounds L) + prev_page_ellipsis_width (style L) →
  0 < span_length (next_span L text cursor) + skip_next_chars (next_span L text cursor).
Proof.
  intros Hne Hx. destruct Hok as [Hn Hc He Hp Har _ _ _]. unfold next_span. rewrite Hn, (i16_small (x1 _ - px _)) by lia.
  apply (fit_horizontally_outcome (H := font_metrics (text_font (style L)))); [done|lia|destruct (_ <? _); lia|done|].
  intros ch Hch. pose proof (Hroom ch Hch). cbn [char_width font_metrics]. destruct (_ <? _); lia.
Qed.

Lemma layout_loop_progress fuel init text_len text cursor n events cursor' p h :
  text ≠ [] → len text <= text_len → text_len < 2 ^ usize_bits →
  x0 (bounds L) <= px cursor <= x0 (bounds L) + prev_page_ellipsis_width (style L) →
  layout_loop L fuel init text_len text cursor n = Ok (events, cursor', OutOfBounds p h) → text_len - len text < p.
Proof.
  intros Hne Hlen Htl Hx Hloop. destruct fuel as [|fuel]; [by destruct text|].
  destruct (next_span_cuts L text cursor) as (taken & skipped & rest & Hcs & Hcut).
  pose proof (next_span_progress text cursor Hne Hx) as Hpos. rewrite (cut_length _ _ _ Hcut), (cut_skip _ _ _ Hcut) in Hpos.
  pose proof (split_length _ _ _ _ Hcs) as Hsum. rewrite (layout_loop_turn _ _ _ _ _ _ _ taken skipped rest) in Hloop by (done || lia).
  assert (∀ c m events1 c1, layout_loop L fuel init text_len (bytes rest) c m = Ok (events1, c1, OutOfBounds p h) →
    text_len - len text < p) as Hmore.
  { intros c m events1 c1 Hl. destruct (layout_loop_keeps L fuel init text_len (bytes rest) c m)
      as [Hnf|(events2 & c2 & fit & Hk & segments & rest' & Hcs' & _ & _ & Hfit)]; [lia|done|congruence|].
    rewrite Hl in Hk. injection Hk as <- <- <-. rewrite <- (chars_concat (bytes rest)), Hcs', concat_app, length_app in Hsum. lia. }
  cbv zeta in Hloop. destruct (0 <? oy _); [destruct (_ || _)|].
  - injection Hloop as _ _ <- _. rewrite wrapu_small by (unfold in_u; lia). lia.
  - apply bind_Ok in Hloop as ([[events0 c0] fit0] & Hloop & [= _ _ ->]). by eapply Hmore.
  - apply bind_Ok in Hloop as ([[events0 c0] fit0] & Hloop & [= _ _ ->]). by eapply Hmore.
Qed.

(** The first text at the left takes something. *)
Lemma layout_text_progress fuel text cursor events cursor' p h : text ≠ [] → len text < 2 ^ usize_bits →
  px cursor = x0 (bounds L) → py cursor <= bottom_y L → 
  layout_text L fuel text cursor = Ok (events, cursor', OutOfBounds p h) → 0 < p.
Proof.
  intros Hne Hlen Hx Hy. destruct Hok as [Hn Hc He Hp Har _ _ _]. unfold layout_text, skip_prev_page.
  rewrite (proj2 (Z.ltb_ge _ _)), Hn by done. intros Hl. replace 0 with (len text - len text) by lia.
  destruct (_ && _); cbn in Hl; apply bind_Ok in Hl as ([[events0 c0] fit0] & Hl & [= _ _ ->]);
    eapply layout_loop_progress in Hl; try done || lia. cbn. 
  pose proof (Hroom ASCII_SPACE eq_refl). pose proof (Hc ASCII_SPACE eq_refl). rewrite i16_small by lia. lia.
Qed.
End Progress.

(** ** Frames *)

(** The height of the first row over the base line. *)
Definition rise (L : TextLayout) : Z := text_max_height (text_font (style L)) - text_baseline (text_font (style L)).

(** The measures of a font whose rows do not meet, and of paddings around it. *)
Record frame_ok (L : TextLayout) : Prop := {
  frame_rows : rows_ok L;
  frame_law t : font_width (text_font (style L)) t <= widths (H := font_metrics (text_font (style L))) (StrUtil.chars t);
  frame_descent : 0 <= text_height (text_font (style L)) - rise L < line_of L;
  frame_top : 0 < rise L + padding_top L <= 1024;
  frame_padding : -1024 <= padding_top L <= 1024 ∧ 0 <= padding_bottom L <= 1024;
  frame_height : 0 < padding_top L + text_height (text_font (style L)) + padding_bottom L;
  frame_area : 0 <= y0 (bounds L) <= y1 (bounds L) ∧ y1 (bounds L) <= 8192;
  frame_prev : prev_page_ellipsis_width (style L) <= x1 (bounds L) - x0 (bounds L)
}.

(** The same width, at some height of the screen. *)
Definition same_width (R R' : Rect) : Prop := x0 R' = x0 R ∧ x1 R' = x1 R ∧ 0 <= y0 R' <= y1 R' ∧ y1 R' <= 8192.

Section Frame.
Context (L : TextLayout) (Hframe : frame_ok L).

Lemma bottom_frame : bottom_y L = Z.max (y1 (bounds L) - padding_bottom L) (y0 (bounds L)).
Proof. destruct Hframe. unfold bottom_y. by rewrite i16_small by lia. Qed.

Lemma initial_frame : initial_cursor L = mkPoint (x0 (bounds L)) (y0 (bounds L) + rise L + padding_top L).
Proof.
  destruct Hframe as [[[_ _ _ _ Har _ _ _] _] _ _ ? ? _ ? _]. unfold initial_cursor, ofs, rise in *. cbn.
  rewrite (i16_small (text_max_height _ - _)), !i16_small by (rewrite ?i16_small by lia; lia). f_equal; lia.
Qed.

Lemma frame_moved R : same_width (bounds L) R → frame_ok (with_bounds L R).
Proof.
  intros (Hx0 & Hx1 & Hy). destruct Hframe as [[[? ? ? ? Har ? ? ?] ?] ? ? ? Hpad ? ? ?].
  split; cbn; try done; [|lia]. split; [|done]. split; cbn; try done; [lia|].
  unfold bottom_y. cbn. rewrite i16_small by lia. lia.
Qed.

Lemma height_frame init cursor : -8192 <= py init <= py cursor → py cursor <= 8192 → 
  layout_height L init cursor = padding_top L + text_height (text_font (style L)) + (py cursor - py init) + padding_bottom L.
Proof.
  intros Hi Hc. pose proof (lines_ok L (rows_measures L (frame_rows L Hframe))) as Hl. fold (line_of L) in Hl.
  destruct Hframe as [_ _ ? ? ? _ _ _]. unfold layout_height.
  rewrite (i16_small (padding_top L + _)), (i16_small (py cursor - _)), (i16_small (_ + (py cursor - _))), i16_small by lia. done.
Qed.

Lemma skip_frame cursor : px cursor = x0 (bounds L) →
  ∃ first w, skip_prev_page L cursor = (first, mkPoint (x0 (bounds L) + w) (py cursor)) ∧
    0 <= w <= prev_page_ellipsis_width (style L) ∧ texts first = [] ∧
    ∀ R c, same_width (bounds L) R → px c = x0 (bounds L) →
      ∃ first', skip_prev_page (with_bounds L R) c = (first', mkPoint (x0 (bounds L) + w) (py c)) ∧ texts first' = [].
Proof.
  destruct Hframe as [[[Hn _ _ Hp Har _ _ _] _] _ _ _ _ _ _ Hpw]. intros Hx. unfold skip_prev_page. cbn. rewrite Hn.
  destruct (_ && _).
  - exists [SPrevPageEllipsis cursor], (prev_page_ellipsis_width (style L)). unfold move_x. rewrite Hx, i16_small by lia.
    split; [done|]. split; [lia|]. split; [done|]. intros R c _ Hc. rewrite Hc, i16_small by lia. by eexists.
  - exists [], 0. rewrite Z.add_0_r. split; [rewrite <- Hx; by destruct cursor|]. split; [lia|]. split; [done|].
    intros R c _ Hc. exists []. split; [|done]. rewrite <- Hc. by destruct c.
Qed.

End Frame.

(** *** A text in two frames *)
Section Fits.
Context (L : TextLayout) (Hframe : frame_ok L).
Abbreviation start := (initial_cursor L).
Context (text : list Z) (Hret : no_return text) (Hlen : len text < 2 ^ usize_bits).
Context (Hstart : py start <= bottom_y L).

Lemma frame_fits fuel : bottom_y L - py start + 1 <= Z.of_nat fuel →
  ∃ events cursor fit, layout_text L fuel text start = Ok (events, cursor, fit) ∧ kept (len text) text events fit ∧
    (text ≠ [] → roomy L → match fit with OutOfBounds n _ => 0 < n | Fitting _ _ => True end) ∧
    py start <= py cursor <= bottom_y L ∧
    fit_height fit = padding_top L + text_height (text_font (style L)) + (py cursor - py start) + padding_bottom L ∧
    ∀ R fuel', let L' := with_bounds L R in let k := y0 R - y0 (bounds L) in
      same_width (bounds L) R → py cursor + k <= bottom_y L' < py cursor + k + line_of L →
      bottom_y L' - py (initial_cursor L') + 1 <= Z.of_nat fuel' →
      ∃ events' cursor' fit', layout_text L' fuel' text (initial_cursor L') = Ok (events', cursor', fit') ∧
        texts events' = texts events ∧ same_fit fit fit'.
Proof.
  intros Hfuel. pose proof (frame_rows L Hframe) as Hrows. pose proof (rows_measures L Hrows) as Hok.
  pose proof (lines_ok L Hok) as Hl. fold (line_of L) in Hl. pose proof (bottom_ok L Hok) as Hbot.
  pose proof (area_ok L Hok) as Har. pose proof Hframe as [_ Hlaw Hd Ht Hpad Hh Ha Hpw].
  unfold layout_text. rewrite (proj2 (Z.ltb_ge _ _)) by lia.
  rewrite (initial_frame L Hframe) in *. set (init := mkPoint _ _) in *.
  destruct (skip_frame L Hframe init eq_refl) as (first & w & -> & Hw & Hfirst & Hother). set (c1 := mkPoint (x0 (bounds L) + w) (py init)) in *.
  assert (px init = x0 (bounds L) ∧ py init = y0 (bounds L) + rise L + padding_top L) as [Hi0 Hi] by done.
  assert (px c1 = x0 (bounds L) + w ∧ py c1 = py init) as [Hc1 Hc1'] by done. clearbody c1 init.
  destruct (layout_loop_inside L Hok (py c1) (Z.max (x1 (bounds L)) (px c1)) fuel init (len text) text c1 1) as (events & cursor & fit & Hloop & _ & _); try lia.
  destruct (layout_loop_keeps L fuel init (len text) text c1 1) as [Hnf|(ev & cu & ft & Hk & Hkept)]; [lia|done|congruence|].
  assert ((ev, cu, ft) = (events, cursor, fit)) as [= -> -> ->] by congruence.
  destruct (layout_loop_moved L L 0 Hrows Hrows ltac:(done) Hlaw ltac:(lia) fuel init init (len text) text c1 1 events cursor fit)
    as (Hcur & Hheight & _); try done; try lia.
  rewrite Hloop. cbn [mbind outcome_bind]. eexists _, _, _. split; [done|].
  split. { destruct Hkept as (segs & rest & ? & ? & He & ?). exists segs, rest. by rewrite texts_app, Hfirst. }
  split. { intros Hne Hroom. destruct fit as [|n h]; [done|].
    enough (len text - len text < n) by lia.
    apply (layout_loop_progress L Hok Hroom fuel init (len text) text c1 1 events cursor n h); done || lia. }
  split; [lia|]. split. { rewrite Hheight. apply (height_frame L Hframe); lia. }
  intros R fuel' HR. set (L' := with_bounds L R). set (k := y0 R - y0 (bounds L)). intros Hb Hf.
  pose proof (frame_moved L Hframe R HR) as Hframe'. fold L' in Hframe'.
  pose proof HR as (Hx0 & Hx1 & Hy0 & Hy1). rewrite (initial_frame L' Hframe') in *.
  assert (mkPoint (x0 (bounds L')) (y0 (bounds L') + rise L' + padding_top L') = below k init) as Hinit.
  { unfold below. rewrite Hi0, Hi. change (rise L') with (rise L). cbn. f_equal; [done|]. unfold k. lia. }
  rewrite Hinit in *. cbn [below py] in Hf. rewrite (proj2 (Z.ltb_ge _ _)) by (cbn; lia).
  destruct (Hother R (below k init) HR Hi0) as (first' & Hskip & Hfirst'). fold L' in Hskip. rewrite Hskip.
  replace (mkPoint (x0 (bounds L) + w) (py (below k init))) with (below k c1) by (unfold below; by rewrite Hc1, Hc1').
  destruct (layout_loop_moved L L' k Hrows (frame_rows L' Hframe') ltac:(done) Hlaw ltac:(lia) fuel init (below k init)
    (len text) text c1 1 events cursor fit) as (_ & _ & Hmove); try done; try lia.
  destruct (Hmove fuel' 1) as (events' & cursor' & fit' & -> & Htexts & Hsame); [lia|lia|].
  cbn [mbind outcome_bind]. eexists _, _, _. split; [done|]. by rewrite !texts_app, Hfirst, Hfirst', Htexts.
Qed.

(** Drawing it again in a frame as high as the text, or as what there is of the
    first. *)
Lemma frame_shown fuel : bottom_y L - py start + 1 <= Z.of_nat fuel →
  ∃ events fit, render_text L fuel text = Ok (events, fit) ∧ kept (len text) text events fit ∧
    (text ≠ [] → roomy L → match fit with OutOfBounds n _ => 0 < n | Fitting _ _ => True end) ∧
    padding_top L + text_height (text_font (style L)) + padding_bottom L <= fit_height fit < 2 ^ 15 ∧
    ∀ R fuel', same_width (bounds L) R →
      y1 R - y0 R = Z.min (fit_height fit) (y1 (bounds L) - y0 (bounds L)) →
      bottom_y (with_bounds L R) - py (initial_cursor (with_bounds L R)) + 1 <= Z.of_nat fuel' →
      ∃ events' fit', render_text (with_bounds L R) fuel' text = Ok (events', fit') ∧
        texts events' = texts events ∧ same_fit fit fit'.
Proof.
  intros Hfuel. destruct (frame_fits fuel Hfuel) as (events & cursor & fit & Hl & Hk & Hp & Hc & Hh & Hmove).
  pose proof Hframe as [_ _ Hd Ht Hpad Hm Ha _]. pose proof (bottom_frame L Hframe) as Hb.
  pose proof (bottom_ok L (rows_measures L (frame_rows L Hframe))) as Hbot.
  pose proof (lines_ok L (rows_measures L (frame_rows L Hframe))) as Hline. fold (line_of L) in Hline.
  pose proof (initial_frame L Hframe) as Hi. rewrite Hi in Hc, Hh, Hstart. cbn [py] in *.
  unfold render_text. rewrite Hl. cbn [mbind outcome_bind]. eexists _, _. split; [done|]. split; [done|]. split; [done|].
  split; [lia|]. intros R fuel' HR Hsize Hf. pose proof (frame_moved L Hframe R HR) as Hframe'.
  pose proof (bottom_frame _ Hframe') as Hb'. pose proof (initial_frame _ Hframe') as Hi'.
  destruct (Hmove R fuel' HR) as (events' & cursor' & fit' & -> & Htexts & Hsame).
  - rewrite Hb'. cbn. destruct HR as (_ & _ & HR). lia.
  - done.
  - cbn [mbind outcome_bind]. by eexists _, _.
Qed.
End Fits.
End Rows.
