(* ===== verification/Formatted.v ===== *)
(** * Formatted texts

    [ui/component/text/op.rs] and [formatted.rs]: texts with changes of their
    style between them, cut into pages, and what is on the pages.  Drawing, and
    the tracing of what is drawn, are not modelled; texts are those that a
    [TString] stands for. *)
From S2P Require Import Prelude StrUtil Geometry GeometrySpec Component Theme Fonts TextLayout TextSpec TextFrame.
Local Open Scope Z_scope.

(* src: ui/component/text/op.rs 19-25 (MAX_OPS, PROCESSED_CHARS_ONE) *)
Definition MAX_OPS : Z := 20.
Definition PROCESSED_CHARS_ONE : Z := 1.

(* src: ui/component/text/op.rs 273-295 (Op) *)
Inductive Op :=
| OpText (text : list Z) (continued : bool)
| OpColor (color : Z)
| OpFont (font : Font)
| OpAlignment (line_alignment : Alignment)
| OpLineBreaking (line_breaking : LineBreaking)
| OpCursorOffset (offset : Offset)
| OpNextPage
| OpChunkify (chunks : option Chunks)
| OpLineSpacing (line_spacing : Z).

(* src: ui/component/text/op.rs 27-32 (OpTextLayout) *)
Record OpTextLayout := mkOpLayout { op_layout : TextLayout; ops : list Op }.

Section Building.
Context (self : OpTextLayout).

(* src: ui/component/text/op.rs 42-44 (OpTextLayout::is_empty) *)
Definition op_is_empty : bool := len (ops self) =? 0.

(* src: ui/component/text/op.rs 46-49 (OpTextLayout::place) *)
Definition op_place (bounds : Rect) : OpTextLayout := mkOpLayout (with_bounds (op_layout self) bounds) (ops self).

(** An operation for which there is no room is dropped. *)
(* src: ui/component/text/op.rs 194-199 (OpTextLayout::with_new_item) *)
Definition with_new_item (item : Op) : OpTextLayout :=
  if len (ops self) <? MAX_OPS then mkOpLayout (op_layout self) (ops self ++ [item]) else self.
End Building.

(* src: ui/component/text/op.rs 35-40 (OpTextLayout::new) *)
Definition op_layout_new (style : TextStyle) : OpTextLayout := mkOpLayout (layout_new style) [].

(* src: ui/component/text/op.rs 201-203 (OpTextLayout::text) *)
Definition op_text (self : OpTextLayout) (text : list Z) : OpTextLayout := with_new_item self (OpText text false).
(* src: ui/component/text/op.rs 205-207 (OpTextLayout::newline) *)
Definition newline (self : OpTextLayout) : OpTextLayout := op_text self ASCII_LF.
(* src: ui/component/text/op.rs 209-211 (OpTextLayout::newline_half) *)
Definition newline_half (self : OpTextLayout) : OpTextLayout := op_text self ASCII_CR.
(* src: ui/component/text/op.rs 213-215 (OpTextLayout::next_page) *)
Definition next_page (self : OpTextLayout) : OpTextLayout := with_new_item self OpNextPage.
(* src: ui/component/text/op.rs 217-219 (OpTextLayout::font) *)
Definition op_font (self : OpTextLayout) (font : Font) : OpTextLayout := with_new_item self (OpFont font).
(* src: ui/component/text/op.rs 221-223 (OpTextLayout::offset) *)
Definition op_offset (self : OpTextLayout) (offset : Offset) : OpTextLayout := with_new_item self (OpCursorOffset offset).
(* src: ui/component/text/op.rs 225-227 (OpTextLayout::alignment) *)
Definition op_alignment (self : OpTextLayout) (a : Alignment) : OpTextLayout := with_new_item self (OpAlignment a).
(* src: ui/component/text/op.rs 229-231 (OpTextLayout::line_breaking) *)
Definition op_line_breaking (self : OpTextLayout) (b : LineBreaking) : OpTextLayout := with_new_item self (OpLineBreaking b).
(* src: ui/component/text/op.rs 233-235 (OpTextLayout::chunks) *)
Definition op_chunks (self : OpTextLayout) (c : option Chunks) : OpTextLayout := with_new_item self (OpChunkify c).
(* src: ui/component/text/op.rs 237-239 (OpTextLayout::line_spacing) *)
Definition op_line_spacing (self : OpTextLayout) (spacing : Z) : OpTextLayout := with_new_item self (OpLineSpacing spacing).
(* src: ui/component/text/op.rs 244-262 (OpTextLayout::text_normal and others) *)
Definition text_in (font : Font) (self : OpTextLayout) (text : list Z) : OpTextLayout := op_text (op_font self font) text.
(* src: ui/component/text/op.rs 264-270 (OpTextLayout::chunkify_text) *)
Definition chunkify_text (self : OpTextLayout) (chunks : option (Chunks * Z)) : OpTextLayout :=
  match chunks with
  | Some (c, spacing) => op_line_spacing (op_chunks self (Some c)) spacing
  | None => op_line_spacing (op_chunks self None) 0
  end.

(** ** Layout *)

(** Texts before the first byte to show are dropped, the one with that byte
    loses its beginning; changes of the style stay. *)
(* src: ui/component/text/op.rs 148-189 (OpTextLayout::filter_skipped_ops) *)
Fixpoint filter_skipped_ops (ops : list Op) (skipped skip_bytes : Z) : txt (list Op) :=
  match ops with
  | [] => Ok []
  | op :: ops =>
    match op with
    | OpText text _ =>
      if skipped <? skip_bytes then
        let skip_text_bytes_if_fits_partially := skip_bytes - skipped in
        let skipped := Z.min (skipped + len text) (2 ^ usize_bits - 1) in
        if skip_bytes <? skipped then
          text ← str_from text skip_text_bytes_if_fits_partially;
          rest ← filter_skipped_ops ops skipped skip_bytes;
          Ok (OpText text true :: rest)
        else filter_skipped_ops ops skipped skip_bytes
      else rest ← filter_skipped_ops ops skipped skip_bytes; Ok (op :: rest)
    | OpNextPage =>
      if skipped <? skip_bytes then filter_skipped_ops ops (Z.min (skipped + PROCESSED_CHARS_ONE) (2 ^ usize_bits - 1)) skip_bytes
      else rest ← filter_skipped_ops ops skipped skip_bytes; Ok (op :: rest)
    | OpCursorOffset _ =>
      if skipped <? skip_bytes then filter_skipped_ops ops skipped skip_bytes
      else rest ← filter_skipped_ops ops skipped skip_bytes; Ok (op :: rest)
    | _ => rest ← filter_skipped_ops ops skipped skip_bytes; Ok (op :: rest)
    end
  end.

Section Layout.
Context `{FontDriver} `{DisplayConstants} `{Icons}.

(** The style of the layout changed by an operation. *)
(* src: ui/component/text/op.rs 73-97 (OpTextLayout::layout_ops) *)
Definition with_op (L : TextLayout) (op : Op) : TextLayout :=
  let st := style L in
  let with_style s := mkTextLayout (bounds L) (padding_top L) (padding_bottom L) s (align L) (continues_from_prev_page L) in
  let with_all font color lb ch sp :=
    with_style (mkTextStyle font color (style_background_color st) (hyphen_color st) (ellipsis_color st) (ellipsis_icon st)
      (prev_page_ellipsis_icon st) lb (page_breaking st) ch sp) in
  match op with
  | OpColor color => with_all (text_font st) color (line_breaking st) (chunks st) (line_spacing st)
  | OpFont font => with_all font (style_text_color st) (line_breaking st) (chunks st) (line_spacing st)
  | OpAlignment a => with_align L a
  | OpLineBreaking lb => with_all (text_font st) (style_text_color st) lb (chunks st) (line_spacing st)
  | OpChunkify ch => with_all (text_font st) (style_text_color st) (line_breaking st) ch (line_spacing st)
  | OpLineSpacing sp => with_all (text_font st) (style_text_color st) (line_breaking st) (chunks st) sp
  | OpText _ continued => mkTextLayout (bounds L) (padding_top L) (padding_bottom L) st (align L) continued
  | OpCursorOffset _ | OpNextPage => L
  end.

(** Turns of the layout from the cursor on: one for each byte and each row. *)
Definition turns_at (L : TextLayout) (text : list Z) (cursor : Point) : nat :=
  Z.to_nat (bottom_y L - py cursor + 1) + length text.

(** The operations one by one, with the number of bytes processed. *)
(* src: ui/component/text/op.rs 71-145 (OpTextLayout::layout_ops) *)
Fixpoint ops_loop (init_cursor : Point) (ops : list Op) (layout : TextLayout) (cursor : Point) (total_processed_chars : Z)
    : txt (list SinkEvent * LayoutFit) :=
  match ops with
  | [] => Ok ([], Fitting total_processed_chars (layout_height layout init_cursor cursor))
  | op :: ops =>
    let layout := with_op layout op in
    match op with
    | OpText text _ =>
      '(events, cursor, fit) ← layout_text layout (turns_at layout text cursor) text cursor;
      match fit with
      | Fitting processed_chars _ =>
        '(events', fit) ← ops_loop init_cursor ops layout cursor (wrapu usize_bits (total_processed_chars + processed_chars));
        Ok (events ++ events', fit)
      | OutOfBounds processed_chars _ =>
        Ok (events, OutOfBounds (wrapu usize_bits (total_processed_chars + processed_chars)) (layout_height layout init_cursor cursor))
      end
    | OpNextPage =>
      Ok ([], OutOfBounds (wrapu usize_bits (total_processed_chars + PROCESSED_CHARS_ONE)) (layout_height layout init_cursor cursor))
    | OpCursorOffset offset =>
      ops_loop init_cursor ops layout (mkPoint (i16 (px cursor + ox offset)) (i16 (py cursor + oy offset))) total_processed_chars
    | _ => ops_loop init_cursor ops layout cursor total_processed_chars
    end
  end.

(* src: ui/component/text/op.rs 58-146 (OpTextLayout::layout_ops) *)
Definition layout_ops (self : OpTextLayout) (skip_bytes : Z) (offset : Offset) : txt (list SinkEvent * LayoutFit) :=
  let cursor := ofs (initial_cursor (op_layout self)) offset in
  kept ← filter_skipped_ops (ops self) 0 skip_bytes;
  ops_loop cursor kept (op_layout self) cursor 0.

(** ** The component *)

(* src: ui/component/text/formatted.rs 13-18 (FormattedText) *)
Record FormattedText := mkFormatted { op_text_layout : OpTextLayout; ft_vertical : Alignment; char_offset : Z; y_offset : Z }.

(* src: ui/component/text/formatted.rs 21-28 (FormattedText::new) *)
Definition formatted_new (op_layout : OpTextLayout) : FormattedText := mkFormatted op_layout Start 0 0.

Implicit Types self : FormattedText.

(* src: ui/component/text/formatted.rs 30-33 (FormattedText::vertically_centered) *)
Definition formatted_centered self : FormattedText := mkFormatted (op_text_layout self) Center (char_offset self) (y_offset self).

(* src: ui/component/text/formatted.rs 35-38 (FormattedText::layout_content) *)
Definition layout_content self : txt (list SinkEvent * LayoutFit) :=
  layout_ops (op_text_layout self) (char_offset self) (offset_y (y_offset self)).

Definition with_offsets self (chars y : Z) : FormattedText := mkFormatted (op_text_layout self) (ft_vertical self) chars y.

(* src: ui/component/text/formatted.rs 40-51 (FormattedText::align_vertically) *)
Definition align_vertically self (content_height : Z) : FormattedText :=
  let bounds_height := rect_height (bounds (op_layout (op_text_layout self))) in
  if bounds_height <=? content_height then with_offsets self (char_offset self) 0
  else
    with_offsets self (char_offset self)
      (match ft_vertical self with
       | Start => 0
       | Center => Z.quot (i16 (bounds_height - content_height)) 2
       | End_ => i16 (bounds_height - content_height)
       end).

(** The pages from the offset on; the fuel is the number of pages. *)
(* src: ui/component/text/formatted.rs 66-81 (FormattedText::page_count) *)
Fixpoint count_pages (fuel : nat) self (page_count : Z) : txt Z :=
  '(_, fit) ← layout_content self;
  match fit with
  | Fitting _ _ => Ok page_count
  | OutOfBounds processed_chars _ =>
    match fuel with
    | O => NoFuel
    | S fuel =>
      count_pages fuel (with_offsets self (wrapu usize_bits (char_offset self + processed_chars)) (y_offset self))
        (wrapu usize_bits (page_count + 1))
    end
  end.

(** The bytes and breaks of a text, which bound its pages. *)
Definition op_len (op : Op) : Z := match op with OpText text _ => len text | OpNextPage => PROCESSED_CHARS_ONE | _ => 0 end.
Definition total (ops : list Op) : Z := foldr (λ op n, op_len op + n) 0 ops.

(* src: ui/component/text/formatted.rs 56-88 (FormattedText::page_count) *)
Definition formatted_page_count self : txt Z :=
  count_pages (Z.to_nat (total (ops (op_text_layout self)))) (with_offsets self 0 0) 1.

(** The walk to a page ends early at the last one. *)
(* src: ui/component/text/formatted.rs 97-113 (FormattedText::change_page) *)
Fixpoint walk_to_page (to_page : nat) self : txt (FormattedText * LayoutFit) :=
  '(_, fit) ← layout_content self;
  match to_page with
  | O => Ok (self, fit)
  | S to_page =>
    match fit with
    | Fitting _ _ => Ok (self, fit)
    | OutOfBounds processed_chars _ =>
      walk_to_page to_page (with_offsets self (wrapu usize_bits (char_offset self + processed_chars)) (y_offset self))
    end
  end.

(* src: ui/component/text/formatted.rs 90-116 (FormattedText::change_page) *)
Definition formatted_change_page self (to_page : Z) : txt FormattedText :=
  '(self, fit) ← walk_to_page (Z.to_nat to_page) (with_offsets self 0 0);
  Ok (align_vertically self (fit_height fit)).

(* src: ui/component/text/formatted.rs 55-117 (Paginate for FormattedText) *)
#[export] Instance formatted_paginate : Paginate FormattedText := {
  content_page_count self := n ← formatted_page_count self; Ok (self, n);
  content_change_page := formatted_change_page
}.

(* src: ui/component/text/formatted.rs 119-131 (Component for FormattedText) *)
#[export] Instance formatted_component : Component FormattedText Empty_set := {
  place self bounds :=
    let self := mkFormatted (op_place (op_text_layout self) bounds) (ft_vertical self) (char_offset self) (y_offset self) in
    '(_, fit) ← layout_content self;
    Ok (align_vertically self (fit_height fit), bounds);
  event self ctx ev := Ok (self, ctx, None)
}.
End Layout.

(** ** What is on the pages *)

(** The bytes of the texts and the breaks between pages. *)
Inductive Piece := PByte (b : Z) | PBreak.
Definition pieces (op : Op) : list Piece := match op with OpText text _ => PByte <$> text | OpNextPage => [PBreak] | _ => [] end.
Definition all (ops : list Op) : list Piece := concat (pieces <$> ops).
Definition bytes_of (ps : list Piece) : list Z := omap (λ p, match p with PByte b => Some b | PBreak => None end) ps.

Lemma bytes_of_app a b : bytes_of (a ++ b) = bytes_of a ++ bytes_of b.
Proof. apply omap_app. Qed.

Lemma bytes_of_text text : bytes_of (PByte <$> text) = text.
Proof. induction text as [|b text IH]; [done|]. cbn. by f_equal. Qed.

Lemma len_pieces op : len (pieces op) = op_len op.
Proof. destruct op; cbn; rewrite ?length_fmap; done. Qed.

Lemma len_all ops : len (all ops) = total ops.
Proof. induction ops as [|op ops IH]; [done|]. unfold all in *. cbn. rewrite length_app, Nat2Z.inj_add, len_pieces, IH. done. Qed.

(** Where a text can be cut, and what is drawn of it. *)
Lemma kept_shown gaps t evs fit : kept (len t) t evs fit → shown gaps (take (Z.to_nat (processed fit)) t) evs →
  match fit with
  | Fitting n _ => n = len t ∧ shown gaps t evs
  | OutOfBounds n _ => 0 <= n <= len t ∧ is_char_boundary t n = true ∧ shown gaps (take (Z.to_nat n) t) evs
  end.
Proof.
  intros (segs & rest & Hcs & _ & _ & Hfit) Hs.
  set (taken := concat ((λ seg, fst seg ++ snd seg) <$> segs)) in *. assert (t = bytes taken ++ bytes rest) as Ht.
  { rewrite <- (chars_concat t), Hcs. apply concat_app. }
  destruct fit as [n h|n h]; cbn [processed] in Hs.
  - destruct Hfit as [-> ->]. split; [done|]. by rewrite take_ge in Hs by lia.
  - rewrite Hfit in *. assert (len t = len (bytes taken) + len (bytes rest)) as Hl by (rewrite Ht at 1; rewrite length_app; lia).
    replace (len t - len (bytes rest)) with (len (bytes taken)) in * by lia. split; [lia|]. split; [by eapply boundary_at|done].
Qed.

(** *** Where a page can begin *)

(** No text is cut inside of a character. *)
Fixpoint cut_ok (ops : list Op) (n : Z) : Prop :=
  match ops with
  | [] => True
  | op :: ops =>
    match op with
    | OpText text _ => if n <=? 0 then True else if n <? len text then is_char_boundary text n = true else cut_ok ops (n - len text)
    | OpNextPage => cut_ok ops (n - 1)
    | _ => cut_ok ops n
    end
  end.

Lemma cut_ok_zero ops n : n <= 0 → cut_ok ops n.
Proof.
  revert n. induction ops as [|op ops IH]; intros n Hn; [done|]. cbn. destruct op; try (apply IH; lia).
  by rewrite (proj2 (Z.leb_le n 0)).
Qed.

Lemma ops_total_nonneg ops : 0 <= total ops.
Proof. rewrite <- len_all. lia. Qed.

Lemma boundary_later t k n : 0 <= k -> 0 <= n → is_char_boundary t k = true → is_char_boundary (drop (Z.to_nat k) t) n = true →
  is_char_boundary t (k + n) = true.
Proof.
  intros Hk Hn Hb. unfold is_char_boundary. destruct (Z.eqb_spec n 0) as [->|Hn0]; [by rewrite Z.add_0_r|].
  rewrite length_drop. destruct (Z.eqb_spec (k + n) 0); [lia|]. destruct (Z.eqb_spec (k + n) (len t)) as [|Hl]; [done|].
  destruct (Z.eqb_spec n (Z.of_nat (length t - Z.to_nat k))) as [->|]; [lia|].
  unfold getZ. destruct (Z.ltb_spec n 0); [lia|]. destruct (Z.ltb_spec (k + n) 0); [lia|].
  rewrite lookup_drop. by replace (Z.to_nat (k + n)) with (Z.to_nat k + Z.to_nat n)%nat by lia.
Qed.

(** What the filter leaves are the pieces after the ones to skip, and a page
    that can begin later on can begin there in the whole. *)
Definition filtered (ops : list Op) (skip : Z) (m : txt (list Op)) : Prop :=
  ∃ ops', m = Ok ops' ∧ all ops' = drop (Z.to_nat skip) (all ops) ∧ ∀ n, 0 <= n → cut_ok ops' n → cut_ok ops (Z.max 0 skip + n).

Lemma all_cons op ops : all (op :: ops) = pieces op ++ all ops.
Proof. done. Qed.

Lemma cut_tail op ops n : op_len op < n → cut_ok (op :: ops) n ↔ cut_ok ops (n - op_len op).
Proof.
  destruct op; cbn; unfold PROCESSED_CHARS_ONE; intros Hn; rewrite ?Z.sub_0_r; try done.
  rewrite (proj2 (Z.leb_gt n 0)), (proj2 (Z.ltb_ge n (len text))) by lia. done.
Qed.

Lemma filter_keeps op ops skip m : skip <= 0 → filtered ops skip m → filtered (op :: ops) skip (rest ← m; Ok (op :: rest)).
Proof.
  intros Hle (rest & -> & Hall & Hc). exists (op :: rest). split; [done|]. rewrite (Z2Nat.nonpos skip), drop_0 in * by done.
  rewrite !all_cons, Hall. split; [done|]. intros n Hn. rewrite (Z.max_l 0) in * by lia. rewrite Z.add_0_l.
  assert (∀ m, cut_ok rest m → cut_ok ops m) as Hm.
  { intros m Hm. destruct (Z.leb_spec m 0); [by apply cut_ok_zero|]. exact (Hc m ltac:(lia) Hm). }
  cbn. destruct op; try apply Hm. destruct (n <=? 0); [done|]. destruct (n <? len text); [done|apply Hm].
Qed.

Lemma filter_drops op ops skip m : 0 < skip → op_len op <= skip → filtered ops (skip - op_len op) m → filtered (op :: ops) skip m.
Proof.
  intros Hs Hle (ops' & -> & Hall & Hc). exists ops'. split; [done|]. split.
  - rewrite Hall, all_cons, drop_app, (drop_ge (pieces op)) by (pose proof (len_pieces op); lia).
    cbn. f_equal. pose proof (len_pieces op). lia.
  - intros n Hn Hn'. specialize (Hc n Hn Hn'). rewrite Z.max_r in Hc |- * by lia.
    destruct (Z.eq_dec (skip + n) (op_len op)) as [He|He]; [|apply cut_tail; [lia|]; by replace (skip + n - op_len op) with (skip - op_len op + n) by lia].
    replace (skip - op_len op + n) with 0 in Hc by lia. rewrite He. destruct op; cbn in *; unfold PROCESSED_CHARS_ONE in *; try (apply cut_ok_zero; lia).
    rewrite Z.ltb_irrefl. destruct (len text <=? 0); [done|]. by apply cut_ok_zero; lia.
Qed.

(** A change of the style stays. *)
Lemma filter_style op ops skip m : pieces op = [] → (∀ ops n, cut_ok (op :: ops) n ↔ cut_ok ops n) → filtered ops skip m →
  filtered (op :: ops) skip (rest ← m; Ok (op :: rest)).
Proof.
  intros Hp Hcut (rest & -> & Hall & Hc). exists (op :: rest). split; [done|]. rewrite !all_cons, Hp. split; [done|].
  intros n Hn. rewrite !Hcut. by apply Hc.
Qed.

Lemma filter_part text c ops skip m : 0 < skip < len text → is_char_boundary text skip = true → filtered ops (skip - len text) m →
  filtered (OpText text c :: ops) skip (text ← str_from text skip; rest ← m; Ok (OpText text true :: rest)).
Proof.
  intros Hs Hb (rest & -> & Hr & Hc). unfold str_from. rewrite Hb. cbn [mbind outcome_bind]. eexists. split; [done|].
  rewrite (Z2Nat.nonpos (skip - len text)), drop_0 in Hr by lia. split.
  - rewrite !all_cons, Hr. cbn [pieces]. rewrite drop_app, fmap_drop, length_fmap.
    by replace (Z.to_nat skip - length text)%nat with 0%nat by lia.
  - intros n Hn. rewrite (Z.max_r 0) by lia. cbn [cut_ok]. rewrite length_drop. destruct (Z.leb_spec n 0) as [Hz|Hz].
    { intros _. replace (skip + n) with skip by lia. rewrite (proj2 (Z.leb_gt _ 0)) by lia. by rewrite (proj2 (Z.ltb_lt _ (len text))) by lia. }
    rewrite (proj2 (Z.leb_gt (skip + n) 0)) by lia. destruct (Z.ltb_spec n (Z.of_nat (length text - Z.to_nat skip))).
    { intros Hb'. rewrite (proj2 (Z.ltb_lt (skip + n) _)) by lia. apply boundary_later; [lia|lia|done|done]. }
    intros Hn'. rewrite (proj2 (Z.ltb_ge (skip + n) _)) by lia.
    specialize (Hc (n - Z.of_nat (length text - Z.to_nat skip)) ltac:(lia) Hn'). rewrite Z.max_l in Hc by lia.
    by replace (skip + n - len text) with (0 + (n - Z.of_nat (length text - Z.to_nat skip))) by lia.
Qed.

(** The filter never aborts where a page can begin. *)
Lemma filter_pieces ops skipped skip : 0 <= skipped → skipped + total ops < 2 ^ usize_bits → cut_ok ops (skip - skipped) →
  filtered ops (skip - skipped) (filter_skipped_ops ops skipped skip).
Proof.
  revert skipped. induction ops as [|op ops IH]; intros skipped Hs Htot Hcut.
  { exists []. split; [done|]. split; [by destruct (Z.to_nat _)|done]. }
  cbn [total foldr] in Htot. fold (total ops) in Htot. pose proof (ops_total_nonneg ops) as Hnn.
  assert (0 <= op_len op) as Hop by (destruct op; cbn; unfold PROCESSED_CHARS_ONE; lia).
  assert (skip <= skipped → filtered (op :: ops) (skip - skipped) (rest ← filter_skipped_ops ops skipped skip; Ok (op :: rest))) as Hkeep.
  { intros Hle. apply filter_keeps; [lia|]. apply IH; [done|lia|apply cut_ok_zero; lia]. }
  assert (skipped < skip → skipped + op_len op <= skip →
    filtered (op :: ops) (skip - skipped) (filter_skipped_ops ops (skipped + op_len op) skip)) as Hdrop.
  { intros Hlt Hle. apply filter_drops; [lia|lia|]. replace (skip - skipped - op_len op) with (skip - (skipped + op_len op)) by lia.
    apply IH; [lia|lia|]. destruct (Z.eq_dec (skipped + op_len op) skip); [apply cut_ok_zero; lia|].
    apply cut_tail in Hcut; [|lia]. by replace (skip - (skipped + op_len op)) with (skip - skipped - op_len op) by lia. }
  assert (skipped < skip → op_len op = 0 → cut_ok ops (skip - skipped)) as Hnext.
  { intros Hlt Hz. apply cut_tail in Hcut; [|lia]. by rewrite Hz, Z.sub_0_r in Hcut. }
  cbn [filter_skipped_ops]. destruct (Z.ltb_spec skipped skip) as [Hlt|Hle];
    [|destruct op; try by apply Hkeep].
  destruct op as [text c|color|f|a|lb|o| |ch|sp];
    try (apply filter_style; [done|done|]; apply IH; [done|cbn in Htot; lia|by apply Hnext]).
  - cbn in Hop, Htot. rewrite (Z.min_l (skipped + len text)) by lia.
    destruct (Z.ltb_spec skip (skipped + len text)) as [Hpart|Hall]; [|by apply Hdrop].
    cbn in Hcut. rewrite (proj2 (Z.leb_gt (skip - skipped) 0)), (proj2 (Z.ltb_lt (skip - skipped) (len text))) in Hcut by lia.
    apply filter_part; [lia|done|]. replace (skip - skipped - len text) with (skip - (skipped + len text)) by lia.
    apply IH; [lia|lia|apply cut_ok_zero; lia].
  - specialize (Hdrop Hlt). cbn in Hdrop. rewrite Z.add_0_r in Hdrop. apply Hdrop. lia.
  - cbn in Htot. unfold PROCESSED_CHARS_ONE in *. rewrite Z.min_l by lia. apply Hdrop; [done|cbn; unfold PROCESSED_CHARS_ONE; lia].
Qed.

(** *** Pages *)
Section Pages.
Context `{FontDriver} `{DisplayConstants} `{Icons}.

(** No text is laid out in chunks or with lines that are too low. *)
Fixpoint all_plain (L : TextLayout) (ops : list Op) : bool :=
  match ops with
  | [] => true
  | op :: ops =>
    let L := with_op L op in (match op with OpText _ _ => plain L | _ => true end) && all_plain L ops
  end.

(** A page shows the next pieces, but for blanks at the ends of lines, up to
    where another page can begin; all of them when they fit. *)
Definition page_shown (gaps : bool) (ops : list Op) (start : Z) (m : txt (list SinkEvent * LayoutFit)) : Prop :=
  m = NoFuel ∨ ∃ events fit n, m = Ok (events, fit) ∧ 0 <= n <= total ops ∧ cut_ok ops n ∧
    shown gaps (bytes_of (take (Z.to_nat n) (all ops))) events ∧
    match fit with Fitting p _ => p = start + n ∧ n = total ops | OutOfBounds p _ => p = start + n end.

Lemma page_style gaps op ops start m : pieces op = [] → (∀ ops n, cut_ok (op :: ops) n ↔ cut_ok ops n) →
  page_shown gaps ops start m → page_shown gaps (op :: ops) start m.
Proof.
  intros Hp Hc [->|(events & fit & n & -> & Hn & Hcut & Hb & Hfit)]; [by left|right]. exists events, fit, n.
  assert (total (op :: ops) = total ops) as -> by by rewrite <- !len_all, all_cons, Hp.
  rewrite Hc, all_cons, Hp. done.
Qed.

Lemma page_weaken (gaps gaps' : bool) ops start m : (gaps = true → gaps' = true) → page_shown gaps ops start m → page_shown gaps' ops start m.
Proof.
  intros Hg [->|(events & fit & n & -> & Hn & Hcut & Hs & Hfit)]; [by left|right]. exists events, fit, n.
  split; [done|]. split; [done|]. split; [done|]. split; [by eapply shown_weaken|done].
Qed.

Lemma ops_loop_shows init ops L cursor start : 0 <= start → start + total ops < 2 ^ usize_bits →
  page_shown (negb (all_plain L ops)) ops start (ops_loop init ops L cursor start).
Proof.
  revert L cursor start. induction ops as [|op ops IH]; intros L cursor start Hs Ht.
  { right. eexists _, _, 0. split; [done|]. split; [done|]. split; [done|]. split; [constructor|]. split; [lia|done]. }
  cbn [total foldr] in Ht. fold (total ops) in Ht. pose proof (ops_total_nonneg ops).
  cbn [ops_loop]. destruct op as [text c|color|f|a|lb|o| |ch|sp]; cbn [op_len] in Ht;
    try (apply page_style; [done|done|apply IH; [done|lia]]).
  - cbn [all_plain]. set (L' := with_op L (OpText text c)).
    destruct (layout_text_keeps L' (turns_at L' text cursor) text cursor)
      as [->|(events & cursor' & fit & Heq & Hk)]; [lia|by left|].
    destruct (layout_text_shown L' _ text cursor events cursor' fit ltac:(lia) Heq) as [_ Hsh]. rewrite Heq. cbn [mbind outcome_bind].
    apply (shown_weaken _ (negb (plain L' && all_plain L' ops))) in Hsh; [|by destruct (plain L')].
    apply (kept_shown _ _ _ _ Hk) in Hsh. destruct fit as [p h|p h].
    + destruct Hsh as [-> Hb]. rewrite wrapu_small by (unfold in_u; lia).
      pose proof (IH L' cursor' (start + len text) ltac:(lia) ltac:(lia)) as Hrest.
      apply (page_weaken _ (negb (plain L' && all_plain L' ops))) in Hrest; [|by destruct (plain L')].
      destruct Hrest as [->|(events' & fit & n & -> & Hn & Hcut & Hb' & Hfit)]; [by left|right]. cbn [mbind outcome_bind]. exists (events ++ events'), fit, (len text + n).
      split; [done|]. cbn [total foldr op_len]. fold (total ops). split; [lia|]. split.
      { destruct (Z.eq_dec n 0) as [->|]; [|apply cut_tail; [cbn; lia|]; cbn; by replace (len text + n - len text) with n by lia].
        cbn. destruct (_ <=? 0); [done|]. rewrite (proj2 (Z.ltb_ge _ _)) by lia. apply cut_ok_zero. lia. }
      split.
      { rewrite all_cons, take_app_ge by (cbn; rewrite length_fmap; lia). cbn [pieces]. rewrite bytes_of_app, bytes_of_text.
        apply shown_app; [done|]. rewrite length_fmap. by replace (Z.to_nat (len text + n) - length text)%nat with (Z.to_nat n) by lia. }
      destruct fit; lia.
    + destruct Hsh as (Hp & Hbd & Hb). right. rewrite wrapu_small by (unfold in_u; lia). eexists _, _, p. split; [done|].
      cbn [total foldr op_len]. fold (total ops). split; [lia|]. split.
      { cbn. destruct (p <=? 0); [done|]. destruct (p <? len text); [done|]. apply cut_ok_zero. lia. }
      split; [|done]. rewrite all_cons, take_app_le by (cbn; rewrite length_fmap; lia). cbn [pieces].
      by rewrite <- fmap_take, bytes_of_text.
  - right. unfold PROCESSED_CHARS_ONE in *. rewrite wrapu_small by (unfold in_u; lia). eexists _, _, 1. split; [done|].
    cbn [total foldr op_len]. fold (total ops). unfold PROCESSED_CHARS_ONE. split; [lia|]. split; [apply (cut_ok_zero ops 0); lia|].
    split; [constructor|done].
Qed.

Definition with_continued (L : TextLayout) (c : bool) : TextLayout :=
  mkTextLayout (bounds L) (padding_top L) (padding_bottom L) (style L) (align L) c.

Lemma with_op_continued L c op : with_op (with_continued L c) op =
  with_continued (with_op L op) (match op with OpText _ c' => c' | _ => c end).
Proof. by destruct op. Qed.

Lemma all_plain_continued L c c' ops : all_plain (with_continued L c) ops = all_plain (with_continued L c') ops.
Proof.
  revert L c c'. induction ops as [|op ops IH]; intros L c c'; [done|]. cbn [all_plain]. rewrite !with_op_continued.
  rewrite (IH _ _ (match op with OpText _ x => x | _ => c' end)). by destruct op.
Qed.

Lemma all_plain_cons L c op ops : all_plain (with_continued L c) (op :: ops) =
  (match op with OpText _ _ => plain (with_op L op) | _ => true end) && all_plain (with_continued (with_op L op) c) ops.
Proof. cbn [all_plain]. rewrite with_op_continued, (all_plain_continued _ _ c). by destruct op. Qed.

(** What is left of the operations for a page is as plain. *)
Lemma filter_plain ops skipped skip ops' L c : filter_skipped_ops ops skipped skip = Ok ops' →
  all_plain (with_continued L c) ops = true → all_plain (with_continued L c) ops' = true.
Proof.
  revert skipped ops' L. induction ops as [|op ops IH]; intros skipped ops' L; [by intros [= <-]|].
  rewrite all_plain_cons, andb_true_iff. cbn [filter_skipped_ops]. intros Hf [Hop Hops].
  assert (∀ sk op', (∀ L, with_op L op' = with_continued (with_op L op) (continues_from_prev_page (with_op L op'))) →
    (if op' is OpText _ _ then if op is OpText _ _ then true else false else true) = true →
    (rest ← filter_skipped_ops ops sk skip; Ok (op' :: rest)) = Ok ops' → all_plain (with_continued L c) ops' = true) as Hkeep.
  { intros sk op' Hw Hk (rest & Hr & [= <-])%bind_Ok. rewrite all_plain_cons, Hw, andb_true_iff. split.
    - destruct op'; try done. by destruct op.
    - exact (IH _ _ (with_op L op) Hr Hops). }
  assert (∀ sk, filter_skipped_ops ops sk skip = Ok ops' → with_op L op = with_continued L (continues_from_prev_page (with_op L op)) →
    all_plain (with_continued L c) ops' = true) as Hdrop.
  { intros sk Hr Hw. rewrite Hw in Hops. exact (IH _ _ L Hr Hops). }
  assert (∀ op', with_op L op' = with_continued (with_op L op') (continues_from_prev_page (with_op L op'))) as Hsame
    by (intros []; by destruct L).
  destruct op as [text c'|color|f|a|lb|o| |ch|sp];
    try (eapply Hkeep; [| |exact Hf]; [intros L0; by destruct L0|done]).
  all: destruct (skipped <? skip); [|eapply Hkeep; [| |exact Hf]; [intros L0; by destruct L0|done]].
  - destruct (skip <? _); [|by apply (Hdrop _ Hf)]. apply bind_Ok in Hf as (t & _ & Hf).
    eapply Hkeep; [| |exact Hf]; [intros L0; by destruct L0|done].
  - apply (Hdrop _ Hf). by destruct L.
  - apply (Hdrop _ Hf). by destruct L.
Qed.

(** Blanks can be dropped elsewhere than at the ends of lines. *)
Definition gaps_in (self : OpTextLayout) : bool := negb (all_plain (op_layout self) (ops self)).

(** The page that begins at an offset. *)
Lemma layout_ops_shows self skip o : 0 <= skip <= total (ops self) → total (ops self) < 2 ^ usize_bits → cut_ok (ops self) skip →
  layout_ops self skip o = NoFuel ∨ ∃ events fit n, layout_ops self skip o = Ok (events, fit) ∧ 0 <= n ∧ skip + n <= total (ops self) ∧
    cut_ok (ops self) (skip + n) ∧
    shown (gaps_in self) (bytes_of (take (Z.to_nat n) (drop (Z.to_nat skip) (all (ops self))))) events ∧
    match fit with Fitting p _ => p = n ∧ skip + n = total (ops self) | OutOfBounds p _ => p = n end.
Proof.
  intros Hs Ht Hcut. unfold layout_ops. rewrite <- (Z.sub_0_r skip) in Hcut.
  destruct (filter_pieces (ops self) 0 skip ltac:(lia) ltac:(lia) Hcut) as (ops' & Hfilter & Hall & Hc).
  rewrite Hfilter. cbn [mbind outcome_bind].
  rewrite Z.sub_0_r in *. rewrite Z.max_r in Hc by lia.
  assert (total ops' = total (ops self) - skip) as Htot by (rewrite <- !len_all, Hall, length_drop; pose proof (len_all (ops self)); lia).
  destruct (ops_loop_shows (ofs (initial_cursor (op_layout self)) o) ops' (op_layout self) (ofs (initial_cursor (op_layout self)) o) 0)
    as [->|(events & fit & n & -> & Hn & Hcn & Hb & Hfit)]; [lia|lia|by left|right].
  exists events, fit, n. split; [done|]. split; [lia|]. split; [lia|]. split; [apply Hc; [lia|done]|].
  rewrite <- Hall. split; [|destruct fit; lia]. eapply shown_weaken; [|exact Hb]. unfold gaps_in.
  pose proof (filter_plain _ _ _ _ (op_layout self) (continues_from_prev_page (op_layout self)) Hfilter) as Hp.
  assert (with_continued (op_layout self) (continues_from_prev_page (op_layout self)) = op_layout self) as E by by destruct (op_layout self).
  rewrite E in Hp. destruct (all_plain (op_layout self) (ops self)); [by rewrite Hp|done].
Qed.

Implicit Types self : FormattedText.

(** The events of the pages from an offset on. *)
Inductive paged self : Z → list (list SinkEvent) → Prop :=
| paged_last o events p h : layout_content (with_offsets self o 0) = Ok (events, Fitting p h) → paged self o [events]
| paged_more o events p h pages : layout_content (with_offsets self o 0) = Ok (events, OutOfBounds p h) →
    paged self (wrapu usize_bits (o + p)) pages → paged self o (events :: pages).

Lemma count_paged fuel self o c k : count_pages fuel (with_offsets self o 0) c = Ok k → 1 <= c → c + Z.of_nat fuel < 2 ^ usize_bits →
  ∃ pages, paged self o pages ∧ k = c + len pages - 1.
Proof.
  revert o c. induction fuel as [|fuel IH]; intros o c; cbn [count_pages]; intros ([events [p h|p h]] & Hc & Hk)%bind_Ok Hc1 Hc2.
  - injection Hk as <-. exists [events]. split; [by eapply paged_last|]. cbn. lia.
  - done.
  - injection Hk as <-. exists [events]. split; [by eapply paged_last|]. cbn. lia.
  - rewrite (wrapu_small _ (c + 1)) in Hk by (unfold in_u; lia). cbn [char_offset y_offset with_offsets] in Hk.
    destruct (IH (wrapu usize_bits (o + p)) (c + 1) Hk) as (pages & Hp & ->); [lia|lia|].
    exists (events :: pages). split; [by eapply paged_more|]. cbn [length]. lia.
Qed.

Lemma count_bound fuel self o c k : count_pages fuel (with_offsets self o 0) c = Ok k → 1 <= c → c + Z.of_nat fuel < 2 ^ usize_bits →
  c <= k <= c + Z.of_nat fuel.
Proof.
  revert o c. induction fuel as [|fuel IH]; intros o c; cbn [count_pages]; intros ([events [p h|p h]] & Hc & Hk)%bind_Ok Hc1 Hc2.
  - injection Hk as <-. lia.
  - done.
  - injection Hk as <-. lia.
  - rewrite (wrapu_small _ (c + 1)) in Hk by (unfold in_u; lia). apply IH in Hk; lia.
Qed.

Lemma paged_walk self o pages : paged self o pages → ∀ i events, pages !! i = Some events → ∃ o' fit,
  walk_to_page i (with_offsets self o 0) = Ok (with_offsets self o' 0, fit) ∧
  layout_content (with_offsets self o' 0) = Ok (events, fit).
Proof.
  induction 1 as [o evs p h Hl|o evs p h pages Hl Hp IH]; intros i events Hi.
  - destruct i as [|i]; [|done]. injection Hi as <-. cbn [walk_to_page]. rewrite Hl. cbn [mbind outcome_bind]. by eexists _, _.
  - destruct i as [|i]; cbn [walk_to_page]; rewrite Hl; cbn [mbind outcome_bind].
    + injection Hi as <-. by eexists _, _.
    + apply (IH i events Hi).
Qed.

Lemma paged_shows self o pages : paged self o pages → let all_ops := ops (op_text_layout self) in
  0 <= o <= total all_ops → total all_ops < 2 ^ usize_bits → cut_ok all_ops o →
  shown (gaps_in (op_text_layout self)) (bytes_of (drop (Z.to_nat o) (all all_ops))) (concat pages).
Proof.
  intros Hp all_ops. induction Hp as [o evs p h Hl|o evs p h pages Hl Hp IH]; intros Ho Ht Hc;
    (destruct (layout_ops_shows (op_text_layout self) o (offset_y 0) Ho Ht Hc) as [Hn|(events & fit & n & Hev & Hn & Hle & Hcn & Hb & Hfit)];
      [unfold layout_content in Hl; cbn in Hl; congruence|]);
    (assert (Ok (events, fit) = Ok (evs, _)) as Heq by (rewrite <- Hev; exact Hl)); injection Heq as -> ->.
  - destruct Hfit as [-> Hend]. cbn [concat]. rewrite app_nil_r. rewrite take_ge in Hb; [done|].
    rewrite length_drop. pose proof (len_all all_ops). subst all_ops. lia.
  - subst p. rewrite wrapu_small in IH by (unfold in_u; subst all_ops; lia). cbn [concat].
    rewrite <- (take_drop (Z.to_nat n) (drop (Z.to_nat o) (all all_ops))), bytes_of_app, drop_drop.
    apply shown_app; [done|]. replace (Z.to_nat o + Z.to_nat n)%nat with (Z.to_nat (o + n)) by lia.
    apply IH; [subst all_ops; lia|done|done].
Qed.

(** The counting never aborts. *)
Lemma count_safe self fuel o c : let all_ops := ops (op_text_layout self) in
  0 <= o <= total all_ops → total all_ops < 2 ^ usize_bits → cut_ok all_ops o →
  count_pages fuel (with_offsets self o 0) c = NoFuel ∨ ∃ k, count_pages fuel (with_offsets self o 0) c = Ok k.
Proof.
  intros all_ops. revert o c. induction fuel as [|fuel IH]; intros o c Ho Ht Hc; cbn [count_pages];
    (destruct (layout_ops_shows (op_text_layout self) o (offset_y 0) Ho Ht Hc) as [Hn|(events & fit & n & Hev & Hn & Hle & Hcn & Hb & Hfit)];
      [left; change (layout_content (with_offsets self o 0)) with (layout_ops (op_text_layout self) o (offset_y 0)); by rewrite Hn|]);
    (assert (layout_content (with_offsets self o 0) = Ok (events, fit)) as -> by exact Hev); cbn [mbind outcome_bind];
    (destruct fit as [p h|p h]; [right; by eexists|]); [by left|].
  subst p. fold all_ops in Hle. cbn [char_offset y_offset with_offsets]. rewrite !(wrapu_small _ (o + n)) by (unfold in_u; lia).
  apply IH; [lia|done|done].
Qed.

(** Every page that can begin somewhere is laid out and takes something. *)
Definition advances self : Prop :=
  let all_ops := ops (op_text_layout self) in
  ∀ o, 0 <= o <= total all_ops → cut_ok all_ops o →
  match layout_content (with_offsets self o 0) with Ok (_, Fitting _ _) => True | Ok (_, OutOfBounds p _) => 0 < p | _ => False end.

Lemma count_ends self fuel o c : let all_ops := ops (op_text_layout self) in advances self →
  0 <= o <= total all_ops → total all_ops < 2 ^ usize_bits → cut_ok all_ops o → total all_ops - o <= Z.of_nat fuel →
  1 <= c → c + Z.of_nat fuel < 2 ^ usize_bits → ∃ k, count_pages fuel (with_offsets self o 0) c = Ok k ∧ c <= k <= c + Z.of_nat fuel.
Proof.
  intros all_ops Hadv. revert o c. induction fuel as [|fuel IH]; intros o c Ho Ht Hc Hf Hc1 Hc2; cbn [count_pages];
    pose proof (Hadv o Ho Hc) as Ha;
    (destruct (layout_ops_shows (op_text_layout self) o (offset_y 0) Ho Ht Hc) as [Hn|(events & fit & n & Hev & Hn & Hle & Hcn & Hb & Hfit)];
      [unfold layout_content in Ha; cbn in Ha; by rewrite Hn in Ha|]);
    (assert (layout_content (with_offsets self o 0) = Ok (events, fit)) as Hl by exact Hev); rewrite Hl in *; cbn [mbind outcome_bind];
    fold all_ops in Hle; (destruct fit as [p h|p h]; [exists c; split; [done|lia]|]); [lia|].
  subst p. cbn [char_offset y_offset with_offsets]. rewrite !wrapu_small by (unfold in_u; lia).
  destruct (IH (o + n) (c + 1)) as (k & Hk & ?); [lia|done|done|lia|lia|lia|]. exists k. split; [exact Hk|lia].
Qed.

(** *** Room for the texts *)

(** Measures that fit the screen, whatever the style is changed to, with room
    for each character; no cursor is moved and no text is said to go on. *)
Fixpoint steady (L : TextLayout) (ops : list Op) : Prop :=
  match ops with
  | [] => True
  | op :: ops =>
    let L := with_op L op in
    measures_ok L ∧ roomy L ∧ match op with OpText _ c => c = false | OpCursorOffset _ => False | _ => True end ∧ steady L ops
  end.

(** What is left of them for a page: its first text can go on. *)
Fixpoint laid (first : bool) (L : TextLayout) (ops : list Op) : Prop :=
  match ops with
  | [] => True
  | op :: ops =>
    let L := with_op L op in
    measures_ok L ∧ roomy L ∧
    match op with
    | OpText t c => (c = true → first = true ∧ t ≠ []) ∧ laid false L ops
    | OpCursorOffset _ => False
    | _ => laid first L ops
    end
  end.

Lemma measures_continued L c : measures_ok L → measures_ok (with_continued L c).
Proof. intros []. by split. Qed.

Lemma steady_laid first L c ops : steady L ops → laid first (with_continued L c) ops.
Proof.
  revert first L c. induction ops as [|op ops IH]; intros first L c; [done|]. cbn [steady laid].
  intros (Hm & Hr & Hop & Hs). rewrite with_op_continued. split; [by apply measures_continued|]. split; [exact Hr|].
  destruct op; try (by apply IH); [|done]. split; [by rewrite Hop|]. by apply IH.
Qed.

Lemma filter_rest ops skipped skip : skip <= skipped → filter_skipped_ops ops skipped skip = Ok ops.
Proof.
  intros Hle. induction ops as [|op ops IH]; [done|]. cbn. rewrite (proj2 (Z.ltb_ge skipped skip)), IH by done.
  by destruct op.
Qed.

Lemma steady_filter ops skipped skip ops' L c : steady L ops → 0 <= skipped → skipped + total ops < 2 ^ usize_bits →
  filter_skipped_ops ops skipped skip = Ok ops' → laid true (with_continued L c) ops'.
Proof.
  revert skipped ops' L c. induction ops as [|op ops IH]; intros skipped ops' L c; [by intros _ _ _ [= <-]|].
  intros Hst Hs Ht. destruct (Z.leb_spec skip skipped) as [Hle|Hlt].
  { rewrite filter_rest by done. intros [= <-]. by apply steady_laid. }
  destruct Hst as (Hm & Hr & Hop & Hst). cbn [total foldr] in Ht. fold (total ops) in Ht. pose proof (ops_total_nonneg ops).
  cbn [filter_skipped_ops]. rewrite (proj2 (Z.ltb_lt skipped skip)) by done.
  assert (match op with OpText _ _ | OpNextPage | OpCursorOffset _ => True | _ =>
    (rest ← filter_skipped_ops ops skipped skip; Ok (op :: rest)) = Ok ops' → laid true (with_continued L c) ops' end) as Hstyle.
  { destruct op; try done; intros (rest & Hf & [= <-])%bind_Ok; cbn [laid op_len] in *; rewrite with_op_continued;
      (split; [by apply measures_continued|]); (split; [exact Hr|]); by apply (IH skipped). }
  destruct op as [text c'|color|f|a|lb|o| |ch|sp]; try done; cbn [op_len] in Ht; unfold PROCESSED_CHARS_ONE in *;
    rewrite Z.min_l by lia; [|by apply (IH _ _ L c); [done|lia|lia]].
  destruct (Z.ltb_spec skip (skipped + len text)) as [Hpart|Hall].
  - rewrite filter_rest by lia. intros (t & Hf & [= <-])%bind_Ok. cbn [laid]. rewrite with_op_continued.
    split; [exact (measures_continued _ true Hm)|]. split; [exact Hr|]. split; [|exact (steady_laid false (with_op L (OpText text c')) true ops Hst)].
    intros _. split; [done|]. unfold str_from in Hf. destruct (is_char_boundary _ _); [|done]. injection Hf as <-.
    intros Hnil. apply (f_equal length) in Hnil. rewrite length_drop in Hnil. cbn in Hnil. lia.
  - intros Hf. apply (IH (skipped + len text) _ (with_op L (OpText text c')) c); [done|lia|lia|done].
Qed.

Lemma layout_text_empty L fuel cursor : continues_from_prev_page L = false → py cursor <= bottom_y L →
  layout_text L fuel [] cursor = Ok ([], cursor, Fitting 0 (layout_height L cursor cursor)).
Proof.
  intros Hc Hy. unfold layout_text, skip_prev_page. rewrite (proj2 (Z.ltb_ge _ _)), Hc, andb_false_r by done.
  by rewrite layout_loop_nil.
Qed.

(** A page from the left on takes something. *)
Lemma ops_loop_goes init first ops L cursor start : laid first L ops →
  x0 (bounds L) <= px cursor <= x1 (bounds L) + (if first then 0 else 1024) → -8192 <= py cursor <= bottom_y L →
  0 <= start → start + total ops < 2 ^ usize_bits → 0 < start ∨ px cursor = x0 (bounds L) →
  ∃ events fit, ops_loop init ops L cursor start = Ok (events, fit) ∧ match fit with OutOfBounds p _ => 0 < p | _ => True end.
Proof.
  revert first L cursor start. induction ops as [|op ops IH]; intros first L cursor start Hl Hx Hy Hs Ht Hp.
  { by eexists _, _. }
  cbn [total foldr] in Ht. fold (total ops) in Ht. pose proof (ops_total_nonneg ops). destruct Hl as (Hm & Hr & Hop).
  cbn [ops_loop]. destruct op as [text c|color|f|a|lb|o| |ch|sp]; cbn [op_len] in Ht; try done;
    try (refine (IH first _ _ _ Hop _ _ _ _ _); done || lia).
  - set (L' := with_op L (OpText text c)) in *. destruct Hop as [Hc Hop].
    assert (bounds L' = bounds L ∧ bottom_y L' = bottom_y L) as [Hb Hbot] by done.
    destruct (layout_text_inside L' (turns_at L' text cursor) text cursor Hm) as (events & cursor' & fit & Heq & _ & Hin).
    { rewrite Hb. destruct c; cbn; [destruct (Hc eq_refl) as [-> _]; lia|destruct first; lia]. }
    { lia. } { unfold turns_at. lia. } { lia. }
    destruct (layout_text_keeps L' (turns_at L' text cursor) text cursor) as [Hn|(e & cu & ft & Heq' & Hk)]; [lia|congruence|].
    assert ((e, cu, ft) = (events, cursor', fit)) as [= -> -> ->] by congruence. destruct (layout_text_shown L' _ text cursor events cursor' fit ltac:(lia) Heq) as [_ Hsh].
    apply (kept_shown _ _ _ _ Hk) in Hsh. clear Hk. rename Hsh into Hk. rewrite Heq. cbn [mbind outcome_bind].
    destruct (Hin ltac:(lia)) as [Hcx Hcy]. destruct fit as [p h|p h].
    + destruct Hk as [-> _]. rewrite wrapu_small by (unfold in_u; lia).
      destruct (IH false L' cursor' (start + len text) Hop) as (events' & fit & -> & Hfit); try done; try lia.
      { destruct Hp as [Hp|Hp]; [left; lia|]. destruct text as [|b text]; [|left; cbn; lia]. right. rewrite Hb, <- Hp.
        destruct c; [by destruct (Hc eq_refl)|]. rewrite layout_text_empty in Heq by (done || lia). by injection Heq as _ <- _. }
      cbn [mbind outcome_bind]. by eexists _, _.
    + destruct Hk as (Hp0 & _). rewrite wrapu_small by (unfold in_u; lia). eexists _, _. split; [done|].
      destruct Hp as [Hp|Hp]; [lia|]. enough (0 < p) by lia. destruct text as [|b text].
      { destruct c; [by destruct (Hc eq_refl)|]. by rewrite layout_text_empty in Heq by (done || lia). }
      eapply (layout_text_progress L' Hm Hr); [| | | |exact Heq]; [done|lia|done|lia].
  - unfold PROCESSED_CHARS_ONE in *. rewrite wrapu_small by (unfold in_u; lia). eexists _, _. split; [done|]. cbn. lia.
Qed.

(** The first line is in the area. *)
Definition laid_out self : Prop :=
  let L := op_layout (op_text_layout self) in
  measures_ok L ∧ -8192 <= py (initial_cursor L) <= bottom_y L ∧ steady L (ops (op_text_layout self)).

Lemma laid_out_advances self : laid_out self → total (ops (op_text_layout self)) < 2 ^ usize_bits → advances self.
Proof.
  intros (Hm & Hy & Hst) Ht o Ho Hc. unfold layout_content, layout_ops. cbn [op_text_layout with_offsets char_offset y_offset].
  set (L := op_layout (op_text_layout self)) in *. destruct Hm as [_ _ _ _ Ha Hbot _ _].
  assert (ofs (initial_cursor L) (offset_y 0) = mkPoint (x0 (bounds L)) (py (initial_cursor L))) as ->.
  { unfold ofs at 1. cbn [px py ox oy offset_y]. rewrite !Z.add_0_r, (i16_small (py _)) by lia. f_equal.
    unfold initial_cursor, ofs. cbn. rewrite Z.add_0_r, i16_small by (rewrite i16_small; lia). apply i16_small; lia. }
  pose proof Hc as Hcut. rewrite <- (Z.sub_0_r o) in Hcut.
  destruct (filter_pieces (ops (op_text_layout self)) 0 o ltac:(lia) ltac:(lia) Hcut) as (ops' & Hf & Hall & _).
  rewrite Hf. cbn [mbind outcome_bind].
  pose proof (steady_filter _ 0 o ops' L (continues_from_prev_page L) Hst ltac:(lia) ltac:(lia) Hf) as Hl.
  assert (with_continued L (continues_from_prev_page L) = L) as HL by by destruct L. rewrite HL in Hl.
  destruct (ops_loop_goes (mkPoint (x0 (bounds L)) (py (initial_cursor L))) true ops' L
    (mkPoint (x0 (bounds L)) (py (initial_cursor L))) 0 Hl) as (events & fit & -> & Hfit); cbn [px py]; try lia; [|by destruct fit].
  rewrite <- !len_all in *. rewrite Hall, length_drop. lia.
Qed.

Lemma align_start self h : ft_vertical self = Start → align_vertically self h = with_offsets self (char_offset self) 0.
Proof. intros Hv. unfold align_vertically. rewrite Hv. by destruct (_ <=? _). Qed.
End Pages.


Section Example.
#[local] Instance example_font : FontDriver := {|
  font_text_width _ t := 8 * len (StrUtil.chars t);
  font_height _ := 12;
  font_max_height _ := 12;
  font_baseline _ := 2;
  font_get_glyph _ _ := None
|}.
#[local] Instance example_display : DisplayConstants := {| LINE_SPACE := 4; FONT_BPP := 4 |}.
#[local] Instance example_icons : Icons := {| icon_width _ := 10 |}.

(** "hello world", a break and "ab" in bold, on an area. *)
Definition example_text (area : Rect) : FormattedText :=
  formatted_new (op_place (text_in BOLD (next_page (op_text (op_layout_new (text_style_new NORMAL 0 0 0 0))
    [104; 101; 108; 108; 111; 32; 119; 111; 114; 108; 100])) [97; 98]) area).


(** On an area that is lower than a line no page takes anything, and the
    counting of the pages never ends. *)
Lemma no_room_hangs fuel count : count_pages fuel (example_text (mkRect 0 0 64 8)) count = NoFuel.
Proof.
  assert (∃ events h, layout_content (example_text (mkRect 0 0 64 8)) = Ok (events, OutOfBounds 0 h)) as (events & h & Hl)
    by (eexists _, _; vm_compute; reflexivity).
  revert count. induction fuel as [|fuel IH]; intros count; cbn [count_pages]; rewrite Hl; cbn [mbind outcome_bind]; [done|].
  exact (IH _).
Qed.
End Example.
