(* ===== verification/Paragraphs.v ===== *)
(** * Paragraphs on pages

    [ui/component/text/paragraphs.rs]: texts one below the other, cut into
    pages.  A page begins at an offset, a paragraph and a byte of it; the same
    walk from there tells what is visible and where the next page begins. *)
From S2P Require Import Prelude Geometry Fonts TextLayout.
Local Open Scope Z_scope.

(* src: ui/component/text/paragraphs.rs 18-20 (MAX_LINES) *)
Definition MAX_LINES : Z := 10.
(* src: ui/component/text/paragraphs.rs 21-23 (DEFAULT_SPACING) *)
Definition DEFAULT_SPACING : Z := 0.
(* src: ui/component/text/paragraphs.rs 24-27 (PARAGRAPH_TOP_SPACE) *)
Definition PARAGRAPH_TOP_SPACE : Z := -1.
(* src: ui/component/text/paragraphs.rs 28-29 (PARAGRAPH_BOTTOM_SPACE) *)
Definition PARAGRAPH_BOTTOM_SPACE : Z := 5.

(** ** Paragraphs *)

(* src: ui/component/text/paragraphs.rs 260-275 (Paragraph) *)
Record Paragraph := mkParagraph {
  content : list Z;
  par_style : TextStyle;
  par_align : Alignment;
  break_after : bool;
  no_break : bool;
  par_padding_top : Z;
  par_padding_bottom : Z;
}.

(* src: ui/component/text/paragraphs.rs 278-288 (Paragraph::new) *)
Definition paragraph_new (style : TextStyle) (content : list Z) : Paragraph :=
  mkParagraph content style Start false false PARAGRAPH_TOP_SPACE PARAGRAPH_BOTTOM_SPACE.

Section Paragraph.
Context (self : Paragraph).

(* src: ui/component/text/paragraphs.rs 290-293 (Paragraph::centered) *)
Definition centered : Paragraph :=
  mkParagraph (content self) (par_style self) Center (break_after self) (no_break self)
    (par_padding_top self) (par_padding_bottom self).

(* src: ui/component/text/paragraphs.rs 295-298 (Paragraph::break_after) *)
Definition with_break_after : Paragraph :=
  mkParagraph (content self) (par_style self) (par_align self) true (no_break self)
    (par_padding_top self) (par_padding_bottom self).

(* src: ui/component/text/paragraphs.rs 300-303 (Paragraph::no_break) *)
Definition with_no_break : Paragraph :=
  mkParagraph (content self) (par_style self) (par_align self) (break_after self) true
    (par_padding_top self) (par_padding_bottom self).

(* src: ui/component/text/paragraphs.rs 305-308 (Paragraph::with_top_padding) *)
Definition with_top_padding (padding : Z) : Paragraph :=
  mkParagraph (content self) (par_style self) (par_align self) (break_after self) (no_break self)
    padding (par_padding_bottom self).

(* src: ui/component/text/paragraphs.rs 310-313 (Paragraph::with_bottom_padding) *)
Definition with_bottom_padding (padding : Z) : Paragraph :=
  mkParagraph (content self) (par_style self) (par_align self) (break_after self) (no_break self)
    (par_padding_top self) padding.

Definition with_content (content : list Z) : Paragraph :=
  mkParagraph content (par_style self) (par_align self) (break_after self) (no_break self)
    (par_padding_top self) (par_padding_bottom self).

(* src: ui/component/text/paragraphs.rs 319-321 (Paragraph::update) *)
Definition update (content : list Z) : Paragraph := with_content content.

(** A prefix that does not end between two characters aborts, as one that is
    too long ([TString::skip_prefix]). *)
(* src: ui/component/text/paragraphs.rs 323-326 (Paragraph::skip_prefix) *)
Definition skip_prefix (offset : Z) : txt Paragraph :=
  content ← str_from (content self) offset; Ok (with_content content).

(* src: ui/component/text/paragraphs.rs 328-336 (Paragraph::layout) *)
Definition paragraph_layout (area : Rect) : TextLayout :=
  mkTextLayout area (par_padding_top self) (par_padding_bottom self) (par_style self) (par_align self) false.
End Paragraph.

(* src: ui/component/text/paragraphs.rs 34-48 (ParagraphSource) *)
Class ParagraphSource (T : Type) := {
  source_at : T → Z → Z → txt Paragraph;
  source_size : T → Z;
}.

(* src: ui/component/text/paragraphs.rs 774-783 (Vec as ParagraphSource) *)
#[export] Instance vec_source : ParagraphSource (list Paragraph) := {
  source_at self index offset := para ← or_panic (getZ self index); skip_prefix para offset;
  source_size self := len self;
}.

(* src: ui/component/text/paragraphs.rs 796-805 (Paragraph as ParagraphSource) *)
#[export] Instance paragraph_source : ParagraphSource Paragraph := {
  source_at self index offset := if negb (index =? 0) then Panic else skip_prefix self offset;
  source_size _ := 1;
}.

(* src: ui/component/text/paragraphs.rs 761-772 (VecExt::add) *)
Definition add (capacity : Z) (self : list Paragraph) (paragraph : Paragraph) : list Paragraph :=
  if bool_decide (content paragraph = []) then self
  else if capacity <=? len self then self
  else self ++ [paragraph].

(** ** Offsets *)

(* src: ui/component/text/paragraphs.rs 369-376 (PageOffset) *)
Record PageOffset := mkPageOffset { par : Z; chr : Z }.
Definition offset_default : PageOffset := mkPageOffset 0 0.

#[export] Instance page_offset_eq_dec : EqDecision PageOffset.
Proof. solve_decision. Defined.

(* src: ui/component/text/paragraphs.rs 339-343 (TextLayoutProxy) *)
Record TextLayoutProxy := mkProxy { proxy_offset : PageOffset; proxy_bounds : Rect }.

(* src: ui/component/text/paragraphs.rs 359-367 (TextLayoutProxy as Dimensions) *)
#[export] Instance proxy_dimensions : Dimensions TextLayoutProxy := {
  fit self area := mkProxy (proxy_offset self) area;
  area self := proxy_bounds self;
}.

(** The text continues from another page. *)
Definition continuing (l : TextLayout) (b : bool) : TextLayout :=
  mkTextLayout (bounds l) (padding_top l) (padding_bottom l) (style l) (TextLayout.align l) b.

Section Pages.
Context `{FontDriver} `{DisplayConstants} `{Icons}.

(** Every turn of the layout goes to the next row or takes a part of the
    text. *)
Definition text_fuel (l : TextLayout) (text : list Z) : nat :=
  Z.to_nat (bottom_y l - py (initial_cursor l) + 1) + length text.

Definition paragraph_fit (l : TextLayout) (text : list Z) : txt LayoutFit := fit_text l (text_fuel l text) text.

(* src: ui/component/text/paragraphs.rs 454-491 (PageOffset::should_place_pair_on_next_page) *)
Definition should_place_pair_on_next_page (this_paragraph next_paragraph : Paragraph) (area : Rect)
    (full_height : Z) : txt bool :=
  let remaining_height := rect_height area in
  if full_height <=? remaining_height then Ok false else
  let full_area := with_height area full_height in
  key_height ← fit_height <$> paragraph_fit (paragraph_layout this_paragraph full_area) (content this_paragraph);
  val_height ← fit_height <$> paragraph_fit (paragraph_layout next_paragraph full_area) (content next_paragraph);
  let screen_full_threshold :=
    i16 (font_line_height (text_font (par_style this_paragraph))
         + font_line_height (text_font (par_style next_paragraph))) in
  let both := i16 (key_height + val_height) in
  if remaining_height <? both then
    Ok ((remaining_height <=? screen_full_threshold)
        || ((0 <? val_height) && (remaining_height <? key_height))
        || (both <=? full_height))
  else Ok false.

Context {T : Type} `{!ParagraphSource T} (source : T).

(* src: ui/component/text/paragraphs.rs 350-356 (TextLayoutProxy::layout) *)
Definition proxy_layout (self : TextLayoutProxy) : txt TextLayout :=
  content ← source_at source (par (proxy_offset self)) (chr (proxy_offset self));
  Ok (continuing (paragraph_layout content (proxy_bounds self)) (0 <? chr (proxy_offset self))).

(** Whether a pair of paragraphs goes to the next page. *)
(* src: ui/component/text/paragraphs.rs 403-418 (PageOffset::advance) *)
Definition pair_breaks (self : PageOffset) (paragraph : Paragraph) (area : Rect) (full_height : Z) : txt bool :=
  if no_break paragraph && (chr self =? 0) then
    if par self + 1 <? source_size source then
      next_paragraph ← source_at source (par self + 1) 0;
      should_place_pair_on_next_page paragraph next_paragraph area full_height
    else Ok false
  else Ok false.

(* src: ui/component/text/paragraphs.rs 378-452 (PageOffset::advance) *)
Definition advance (self : PageOffset) (area : Rect) (full_height : Z)
    : txt (PageOffset * option Rect * option TextLayoutProxy) :=
  paragraph ← source_at source (par self) (chr self);
  if bool_decide (content paragraph = []) then
    Ok (mkPageOffset (wrapu usize_bits (par self + 1)) 0, Some area, None)
  else
    breaks ← pair_breaks self paragraph area full_height;
    if (breaks : bool) then Ok (self, None, None) else
    let layout := continuing (paragraph_layout paragraph area) (0 <? chr self) in
    fit ← paragraph_fit layout (content paragraph);
    let '(used, remaining_area) := split_top area (fit_height fit) in
    let layout := mkProxy self used in
    let '(next, page_full) :=
      match fit with
      | Fitting _ _ => (mkPageOffset (wrapu usize_bits (par self + 1)) 0, break_after paragraph)
      | OutOfBounds processed_chars _ =>
        (mkPageOffset (par self) (wrapu usize_bits (chr self + processed_chars)), true)
      end in
    Ok (next, if (page_full : bool) then None else Some remaining_area,
        if 0 <? fit_height fit then Some layout else None).

(** The walk from an offset to the end of the page: a full list of visible
    paragraphs aborts. *)
(* src: ui/component/text/paragraphs.rs 102-127 (Paragraphs::dyn_change_offset) *)
Fixpoint change_offset_loop (fuel : nat) (area : Rect) (offset : PageOffset) (full_height : Z)
    (visible : list TextLayoutProxy) : txt (list TextLayoutProxy) :=
  match fuel with
  | O => NoFuel
  | S fuel =>
    if par offset <? source_size source then
      '(next_offset, remaining_area, layout) ← advance offset area full_height;
      visible ← (match layout with
                 | Some layout => if len visible <? MAX_LINES then Ok (visible ++ [layout]) else Panic
                 | None => Ok visible
                 end);
      match remaining_area with
      | Some remaining_area => change_offset_loop fuel remaining_area next_offset full_height visible
      | None => Ok visible
      end
    else Ok visible
  end.

(** Each turn goes to the next paragraph. *)
(* src: ui/component/text/paragraphs.rs 102-127 (Paragraphs::dyn_change_offset) *)
Definition dyn_change_offset (area : Rect) (offset : PageOffset) : txt (list TextLayoutProxy) :=
  change_offset_loop (S (Z.to_nat (source_size source))) area offset (rect_height area) [].

(* src: ui/component/text/paragraphs.rs 503-527 (PageBreakIterator::dyn_next) *)
Fixpoint dyn_next_loop (fuel : nat) (area : Rect) (offset : PageOffset) (full_height : Z)
    : txt (option PageOffset) :=
  match fuel with
  | O => NoFuel
  | S fuel =>
    if par offset <? source_size source then
      '(next_offset, remaining_area, _) ← advance offset area full_height;
      if source_size source <=? par next_offset then Ok None else
      match remaining_area with
      | Some remaining_area => dyn_next_loop fuel remaining_area next_offset full_height
      | None => Ok (Some next_offset)
      end
    else Ok None
  end.

(* src: ui/component/text/paragraphs.rs 503-527 (PageBreakIterator::dyn_next) *)
Definition dyn_next (area : Rect) (offset : PageOffset) : txt (option PageOffset) :=
  dyn_next_loop (S (Z.to_nat (source_size source))) area offset (rect_height area).

(** The state of the iterator is its [current] offset; a page that does not go
    on aborts. *)
(* src: ui/component/text/paragraphs.rs 537-551 (PageBreakIterator::next) *)
Definition break_next (area : Rect) (current : option PageOffset)
    : txt (option PageOffset * option PageOffset) :=
  match current with
  | None => Ok (Some offset_default, Some offset_default)
  | Some offset =>
    next ← dyn_next area offset;
    match next with
    | Some n => if bool_decide (n = offset) then Panic else Ok (Some n, Some n)
    | None => Ok (None, Some offset)
    end
  end.

(** [Iterator::count] and [Iterator::nth]. *)
Fixpoint count_pages (fuel : nat) (area : Rect) (current : option PageOffset) : txt Z :=
  match fuel with
  | O => NoFuel
  | S fuel =>
    '(item, current) ← break_next area current;
    match item with
    | Some _ => n ← count_pages fuel area current; Ok (n + 1)
    | None => Ok 0
    end
  end.

Fixpoint nth_page (n : nat) (area : Rect) (current : option PageOffset) : txt (option PageOffset) :=
  '(item, current) ← break_next area current;
  match item, n with
  | Some offset, O => Ok (Some offset)
  | Some _, S n => nth_page n area current
  | None, _ => Ok None
  end.
End Pages.

(** ** The component *)

(* src: ui/component/text/paragraphs.rs 50-57 (Paragraphs) *)
Record Paragraphs (T : Type) := mkParagraphs {
  par_area : Rect;
  placement : LinearPlacement;
  page_offset : PageOffset;
  visible : list TextLayoutProxy;
  source : T;
}.
Arguments mkParagraphs {T} _ _ _ _ _.
Arguments par_area {T} _.
Arguments placement {T} _.
Arguments page_offset {T} _.
Arguments visible {T} _.
Arguments source {T} _.

Section Component.
Context `{FontDriver} `{DisplayConstants} `{Icons}.
Context {T : Type} `{!ParagraphSource T}.
Implicit Types self : Paragraphs T.

(* src: ui/component/text/paragraphs.rs 63-73 (Paragraphs::new) *)
Definition paragraphs_new (source : T) : Paragraphs T :=
  mkParagraphs rect_zero (Geometry.with_spacing (align_at_center Geometry.vertical) DEFAULT_SPACING) offset_default [] source.

(* src: ui/component/text/paragraphs.rs 75-78 (Paragraphs::with_placement) *)
Definition with_placement self (placement : LinearPlacement) : Paragraphs T :=
  mkParagraphs (par_area self) placement (page_offset self) (visible self) (source self).

(* src: ui/component/text/paragraphs.rs 80-83 (Paragraphs::with_spacing) *)
Definition with_spacing self (spacing : Z) : Paragraphs T :=
  with_placement self (Geometry.with_spacing (placement self) spacing).

(* src: ui/component/text/paragraphs.rs 93-100 (Paragraphs::change_offset) *)
Definition change_offset self (offset : PageOffset) : txt (Paragraphs T) :=
  visible ← dyn_change_offset (source self) (par_area self) offset;
  Ok (mkParagraphs (par_area self) (placement self) offset
        (arrange (placement self) (par_area self) visible) (source self)).

(** What is drawn: the layout and the text of each visible paragraph. *)
(* src: ui/component/text/paragraphs.rs 136-161 (Paragraphs::foreach_visible) *)
Fixpoint foreach_loop (fuel : nat) (source : T) (visible : list TextLayoutProxy) (p chr : Z)
    : txt (list (TextLayout * list Z)) :=
  match fuel with
  | O => NoFuel
  | S fuel =>
    if p <? source_size source then
      s ← content <$> source_at source p chr;
      if bool_decide (s = []) then foreach_loop fuel source visible (p + 1) 0
      else match visible with
           | proxy :: visible =>
             layout ← proxy_layout source proxy;
             rest ← foreach_loop fuel source visible (p + 1) 0;
             Ok ((layout, s) :: rest)
           | [] => Ok []
           end
    else Ok []
  end.

(* src: ui/component/text/paragraphs.rs 136-161 (Paragraphs::foreach_visible) *)
Definition foreach_visible self : txt (list (TextLayout * list Z)) :=
  foreach_loop (S (Z.to_nat (source_size (source self)))) (source self) (visible self)
    (par (page_offset self)) (chr (page_offset self)).

(* src: ui/component/text/paragraphs.rs 170-174 (Paragraphs::place) *)
Definition place self (bounds : Rect) : txt (Paragraphs T) :=
  change_offset (mkParagraphs bounds (placement self) (page_offset self) (visible self) (source self))
    (page_offset self).

(** What is told to the sink of each text. *)
(* src: ui/component/text/paragraphs.rs 191-200 (Paragraphs::render) *)
Definition render self : txt (list (list SinkEvent)) :=
  shown ← foreach_visible self;
  mapM (λ '(layout, text), fst <$> render_text layout (text_fuel layout text) text) shown.

(* src: ui/component/text/paragraphs.rs 215-218 (Paragraphs::page_count) *)
Definition page_count (fuel : nat) self : txt Z :=
  n ← count_pages (source self) fuel (par_area self) None; Ok (Z.max n 1).

(* src: ui/component/text/paragraphs.rs 220-228 (Paragraphs::change_page) *)
Definition change_page self (to_page : nat) : txt (Paragraphs T) :=
  found ← nth_page (source self) to_page (par_area self) None;
  match found with
  | Some offset => change_offset self offset
  | None => Ok (mkParagraphs (par_area self) (placement self) offset_default [] (source self))
  end.
End Component.
