(* ===== verification/ParagraphSpec.v ===== *)
(** * Properties of paragraphs on pages

    The pages of a list of paragraphs show every character of them once, in
    order, but for the blanks dropped at the ends of lines. *)
From S2P Require Import Prelude StrUtil Geometry GeometrySpec Theme Fonts TextLayout TextSpec TextFrame Paragraphs.
Local Open Scope Z_scope.

(** Characters in segments, each with a blank that is dropped after it, and
    the texts of those that are drawn. *)
Abbreviation shown_chars segments := (concat ((λ seg : list (list Z) * list (list Z), fst seg ++ snd seg) <$> segments)).
Abbreviation shown_texts segments :=
  (filter (λ t, t ≠ []) ((λ seg : list (list Z) * list (list Z), bytes (fst seg)) <$> segments)).

Section Pages.
Context `{FontDriver} `{DisplayConstants} `{Icons}.

(** ** Measures *)

(** A paragraph whose first row fits on an empty page, and of which at most ten
    do. *)
Record par_ok (area : Rect) (p : Paragraph) : Prop := {
  par_return : no_return (content p);
  par_len : len (content p) < 2 ^ usize_bits;
  par_frame : frame_ok (paragraph_layout p area);
  par_room : roomy (paragraph_layout p area);
  par_first : rise (paragraph_layout p area) + par_padding_top p + par_padding_bottom p <= y1 area - y0 area;
  par_many : y1 area - y0 area <=
    MAX_LINES * (par_padding_top p + text_height (text_font (par_style p)) + par_padding_bottom p)
}.

Lemma par_ok_suffix area p t : par_ok area p → t `suffix_of` content p → par_ok area (with_content p t).
Proof.
  intros [Hr Hl ? ? ? ?] [pre Ht]. split; try done; cbn.
  - unfold no_return in *. rewrite Ht in Hr. set_solver.
  - rewrite Ht, length_app in Hl. lia.
Qed.

(** A part of the page. *)
Definition part_of (area A : Rect) : Prop := same_width area A ∧ y1 A = y1 area.

Section Paragraph.
Context (area : Rect) (p : Paragraph) (Hp : par_ok area p) (A : Rect) (HA : same_width area A) (cont : bool).
Abbreviation L := (continuing (paragraph_layout p A) cont).

Lemma layout_frame : frame_ok L.
Proof. pose proof (frame_moved _ (par_frame area p Hp) A HA) as [[[] ?]]. by split; [split; [split|]|..]. Qed.

Lemma layout_room : roomy L.
Proof. destruct HA as (Hx0 & Hx1 & _). intros ch Hch. cbn. rewrite Hx0, Hx1. by apply (par_room area p Hp). Qed.

Lemma text_fuel_enough : bottom_y L - py (initial_cursor L) + 1 <= Z.of_nat (text_fuel L (content p)).
Proof. unfold text_fuel. lia. Qed.

(** Below the bottom there is nothing. *)
Lemma fit_below : bottom_y L < py (initial_cursor L) → paragraph_fit L (content p) = Ok (OutOfBounds 0 0).
Proof. intros Hb. unfold paragraph_fit, fit_text, render_text, layout_text. by rewrite (proj2 (Z.ltb_lt _ _)). Qed.

Lemma start_below : bottom_y L < py (initial_cursor L) ↔ y1 A - y0 A < rise L + par_padding_top p + par_padding_bottom p.
Proof.
  pose proof layout_frame as Hf. rewrite (bottom_frame L Hf), (initial_frame L Hf). cbn. destruct Hf as [_ _ _ Ht Hpad _ _ _].
  cbn in Ht, Hpad. lia.
Qed.

Lemma fit_total : ∃ fit, paragraph_fit L (content p) = Ok fit.
Proof.
  destruct (Z.lt_ge_cases (bottom_y L) (py (initial_cursor L))) as [Hb|Hb]; [by eexists; apply fit_below|].
  destruct (frame_shown L layout_frame (content p) (par_return _ _ Hp) (par_len _ _ Hp) Hb _ text_fuel_enough)
    as (events & fit & Hr & _). exists fit. unfold paragraph_fit, fit_text. by rewrite Hr.
Qed.
End Paragraph.

(** ** Offsets *)

Definition all_chars (ps : list Paragraph) : list (list Z) := concat ((λ p, StrUtil.chars (content p)) <$> ps).

(** The characters that remain at an offset, which is between two of them. *)
Inductive remaining (ps : list Paragraph) : PageOffset → list (list Z) → Prop :=
| remaining_end : remaining ps (mkPageOffset (len ps) 0) []
| remaining_at before p later a b :
    ps = before ++ p :: later → StrUtil.chars (content p) = a ++ b →
    remaining ps (mkPageOffset (len before) (len (bytes a))) (b ++ all_chars later).

(** The order of the offsets. *)
Definition precedes (o o' : PageOffset) : Prop := par o < par o' ∨ par o = par o' ∧ chr o < chr o'.

Lemma remaining_start ps : remaining ps offset_default (all_chars ps).
Proof. destruct ps as [|p ps]; [constructor|]. by apply (remaining_at _ [] p ps [] (StrUtil.chars (content p))). Qed.

Section Source.
Context (ps : list Paragraph) (Hcount : len ps < 2 ^ usize_bits).

(** The next paragraph. *)
Lemma remaining_next before p later : ps = before ++ p :: later →
  remaining ps (mkPageOffset (len before + 1) 0) (all_chars later).
Proof.
  intros ->. replace (len before + 1) with (len (before ++ [p])) by (rewrite length_app; simpl; lia).
  destruct later as [|q later]; [apply remaining_end|].
  by apply (remaining_at _ (before ++ [p]) q later [] (StrUtil.chars (content q))); [rewrite <- app_assoc|].
Qed.

Lemma source_remaining before p later a b : ps = before ++ p :: later → StrUtil.chars (content p) = a ++ b →
  source_at ps (len before) (len (bytes a)) = Ok (with_content p (bytes b)).
Proof.
  intros -> Hcs. cbn. rewrite getZ_nat, list_lookup_middle by done. cbn [or_panic mbind outcome_bind].
  unfold skip_prefix. by rewrite (str_from_at _ a b Hcs).
Qed.

Lemma par_next before p later : ps = before ++ p :: later → wrapu usize_bits (len before + 1) = len before + 1 ∧ len before < len ps.
Proof. intros ->. rewrite length_app in *. cbn [length] in *. split; [apply wrapu_small; unfold in_u|]; lia. Qed.
End Source.

(** ** A turn of the walk *)
Section Walk.
Context (ps : list Paragraph) (area : Rect) (Hcount : len ps < 2 ^ usize_bits) (Hps : Forall (par_ok area) ps).
Context (Hx : 0 <= x0 area <= x1 area ∧ x1 area <= 4096) (Hy : 0 <= y0 area <= y1 area ∧ y1 area <= 4096).
Abbreviation full := (y1 area - y0 area).

(** A part of the page above its bottom. *)
Definition part (A : Rect) : Prop := same_width area A ∧ y0 area <= y0 A ∧ y1 A = y1 area.

Lemma part_height A : part A → rect_height A = y1 A - y0 A ∧ 0 <= rect_height A <= full.
Proof. intros [(Hx0 & Hx1 & Hy0 & _) Hy1]. unfold rect_height. rewrite i16_small by lia. lia. Qed.

Lemma full_frame A : part A → same_width area (with_height A full).
Proof.
  intros HA. pose proof (part_height A HA) as [_ ?]. destruct HA as [(Hx0 & Hx1 & Hy0 & _) Hy1].
  unfold with_height, with_size, from_top_left_and_size, rect_width, same_width. cbn.
  rewrite !i16_small by (rewrite ?i16_small by lia; lia). lia.
Qed.

Lemma source_start i : 0 <= i < len ps → ∃ p, source_at ps i 0 = Ok p ∧ par_ok area p.
Proof.
  intros Hi. destruct (proj2 (getZ_is_Some ps i) Hi) as [p Hp]. pose proof (getZ_Forall _ _ _ _ Hp Hps) as Hok.
  exists p. split; [|done]. cbn. rewrite Hp. cbn. by destruct p.
Qed.

(** A pair of paragraphs is never put off at the beginning of a page. *)
Lemma pair_total self q A : 0 <= par self → par_ok area q → part A →
  ∃ b, pair_breaks ps self q A full = Ok b ∧ (b = true → y1 A - y0 A < full).
Proof.
  intros Hpar Hq HA. unfold pair_breaks. destruct (_ && _); [|by exists false].
  cbn [source_size vec_source]. destruct (Z.ltb_spec (par self + 1) (len ps)); [|by exists false].
  destruct (source_start (par self + 1)) as (p & -> & Hp); [lia|]. cbn [mbind outcome_bind].
  unfold should_place_pair_on_next_page. pose proof (part_height A HA) as [Hh ?].
  destruct (Z.leb_spec full (rect_height A)); [by exists false|].
  destruct (fit_total area q Hq _ (full_frame A HA) false) as [f1 Hf1].
  destruct (fit_total area p Hp _ (full_frame A HA) false) as [f2 Hf2].
  change (continuing ?l false) with l in Hf1, Hf2. rewrite Hf1, Hf2. cbn [mbind outcome_bind fmap outcome_fmap].
  destruct (_ <? i16 _); (eexists; split; [done|lia]).
Qed.

(** The two parts of an area, one with the text. *)
Definition used_part (A : Rect) (h : Z) : Rect := mkRect (x0 A) (y0 A) (x1 A) (y0 A + h).
Definition free_part (A : Rect) (h : Z) : Rect := mkRect (x0 A) (y0 A + h) (x1 A) (y1 A).

Lemma split_part A h : part A → 0 < h →
  split_top A h = (used_part A (Z.min h (y1 A - y0 A)), free_part A (Z.min h (y1 A - y0 A))).
Proof.
  intros HA Hh. pose proof (part_height A HA) as [Hrh ?]. destruct HA as [(_ & _ & Hy0 & _) Hy1].
  unfold split_top. rewrite Hrh. assert (clamp h 0 (y1 A - y0 A) = Z.min h (y1 A - y0 A)) as ->.
  { unfold clamp. destruct (Z.ltb_spec h 0), (Z.ltb_spec (y1 A - y0 A) h); lia. }
  by rewrite i16_small by lia.
Qed.

(** The characters shown, with the blanks dropped after them, are a beginning
    of the text; so many bytes have been processed. *)
Lemma kept_cut b events fit : StrUtil.chars (bytes b) = b → kept (len (bytes b)) (bytes b) events fit →
  ∃ segments rest, b = shown_chars segments ++ rest ∧ Forall (λ seg, dropped (snd seg)) segments ∧
    texts events = shown_texts segments ∧
    match fit with Fitting _ _ => rest = [] | OutOfBounds n _ => n = len (bytes (shown_chars segments)) end.
Proof.
  intros Hb (segments & rest & Hcs & Hd & He & Hfit). rewrite Hb in Hcs. exists segments, rest. split; [done|].
  split; [done|]. split; [done|]. destruct fit as [n h|n h]; [by destruct Hfit|].
  rewrite Hcs, concat_app, length_app in Hfit. lia.
Qed.

(** What a text takes of a page, and where the walk goes on. *)
Record taken_part (o : PageOffset) (p : Paragraph) (A : Rect) (b : list (list Z)) (events : list SinkEvent) (fit : LayoutFit)
    : Prop := {
  part_kept : kept (len (bytes b)) (bytes b) events fit;
  part_progress : match fit with OutOfBounds n _ => 0 < n | Fitting _ _ => True end;
  part_many : full <= MAX_LINES * fit_height fit;
  part_room : 0 < y1 A - y0 A;
  part_shown R : same_width area R → y1 R - y0 R = Z.min (fit_height fit) (y1 A - y0 A) →
    let layout := continuing (paragraph_layout p R) (0 <? chr o) in
    ∃ events' fit', render_text layout (text_fuel layout (bytes b)) (bytes b) = Ok (events', fit') ∧ texts events' = texts events
}.

Definition next_offset (o : PageOffset) (fit : LayoutFit) : PageOffset :=
  match fit with
  | Fitting _ _ => mkPageOffset (par o + 1) 0
  | OutOfBounds n _ => mkPageOffset (par o) (chr o + n)
  end.
Definition page_ends (p : Paragraph) (fit : LayoutFit) : bool :=
  match fit with Fitting _ _ => break_after p | OutOfBounds _ _ => true end.

Lemma advance_empty before p later a A : ps = before ++ p :: later → StrUtil.chars (content p) = a →
  advance ps (mkPageOffset (len before) (len (bytes a))) A full = Ok (mkPageOffset (len before + 1) 0, Some A, None).
Proof.
  intros Hsplit Hcs. unfold advance. cbn [par chr]. rewrite (source_remaining ps Hcount before p later a []) by by rewrite ?app_nil_r.
  cbn [mbind outcome_bind content with_content]. rewrite bool_decide_eq_true_2 by done.
  by destruct (par_next ps Hcount before p later Hsplit) as [-> _].
Qed.

Lemma advance_text before p later a b A : ps = before ++ p :: later → StrUtil.chars (content p) = a ++ b → b ≠ [] →
  part A → let o := mkPageOffset (len before) (len (bytes a)) in
  (advance ps o A full = Ok (o, None, None) ∧ y1 A - y0 A < full) ∨
  ∃ events fit, taken_part o (with_content p (bytes b)) A b events fit ∧
    advance ps o A full = Ok (next_offset o fit,
      if page_ends p fit then None else Some (free_part A (Z.min (fit_height fit) (y1 A - y0 A))),
      Some (mkProxy o (used_part A (Z.min (fit_height fit) (y1 A - y0 A))))).
Proof.
  intros Hsplit Hcs Hb HA o. unfold advance. cbn [par chr o]. rewrite (source_remaining ps Hcount before p later a b) by done.
  cbn [mbind outcome_bind]. set (q := with_content p (bytes b)).
  assert (par_ok area q) as Hq.
  { apply par_ok_suffix; [by rewrite Hsplit in Hps; apply Forall_app in Hps as [_ [? _]%Forall_cons]|].
    exists (bytes a). by rewrite <- (chars_concat (content p)), Hcs, concat_app. }
  assert (bytes b ≠ []) as Hne.
  { rewrite <- chars_nil. by rewrite (proj1 (chars_split _ _ _ Hcs)). }
  rewrite bool_decide_eq_false_2 by done.
  destruct (pair_total o q A) as (breaks & Hbr & Hfull); [cbn; lia|done|done|]. rewrite Hbr. cbn [mbind outcome_bind].
  destruct breaks; [left; by split; [|apply Hfull]|].
  set (cont := 0 <? len (bytes a)). set (L := continuing _ _). pose proof (proj1 HA) as Hw.
  pose proof (layout_frame area q Hq A Hw cont) as HL. pose proof (start_below area q Hq A Hw cont) as Hbelow.
  pose proof (layout_room area q Hq A Hw cont) as Hroom. pose proof (text_fuel_enough q A cont) as Hfuel. change (content q) with (bytes b) in Hfuel.
  pose proof (par_first area q Hq) as Hfirst. fold L in HL, Hbelow, Hroom, Hfuel.
  assert (len (bytes a) + len (bytes b) < 2 ^ usize_bits) as Hlen.
  { rewrite Hsplit in Hps. apply Forall_app in Hps as [_ [Hp _]%Forall_cons].
    rewrite <- Nat2Z.inj_add, <- length_app, <- concat_app, <- Hcs, chars_concat. by apply (par_len area). }
  destruct (par_next ps Hcount before p later Hsplit) as [Hnext _].
  destruct (Z.lt_ge_cases (bottom_y L) (py (initial_cursor L))) as [Hb'|Hb'].
  - left. assert (paragraph_fit L (content q) = Ok (OutOfBounds 0 0)) as -> by by apply fit_below.
    cbn [mbind outcome_bind fit_height]. destruct (split_top A 0) as [u f].
    rewrite Z.add_0_r, wrapu_small by (unfold in_u; cbn; lia). split; [done|]. apply Hbelow in Hb'.
    change (rise (paragraph_layout q area)) with (rise L) in Hfirst. lia.
  - right. destruct (frame_shown L HL (bytes b) (par_return _ _ Hq) (par_len _ _ Hq) Hb' _ Hfuel)
      as (events & fit & Hr & Hk & Hp & Hh & Hshown). unfold paragraph_fit, fit_text. cbn [content q with_content]. rewrite Hr.
    cbn [fmap outcome_fmap mbind outcome_bind snd].
    pose proof (frame_height L HL) as Hm. pose proof (par_many area q Hq) as Hmany.
    change (par_padding_top q) with (padding_top L) in *. change (par_padding_bottom q) with (padding_bottom L) in *.
    change (par_style q) with (TextLayout.style L) in *. unfold MAX_LINES in Hmany.
    exists events, fit. split.
    + split; [done| |unfold MAX_LINES; lia| |].
      * specialize (Hp Hne Hroom). by destruct fit.
      * pose proof (frame_top L HL). pose proof (frame_padding L HL). destruct Hbelow as [_ Hbelow]. lia.
      * intros R HR Hsize layout.
        destruct (Hshown R (text_fuel layout (bytes b))) as (events' & fit' & ? & ? & _); [|done|exact (text_fuel_enough q R cont)|by eexists _, _].
        destruct Hw as (? & ? & ?), HR as (? & ? & ?). cbn. unfold same_width. lia.
    + rewrite split_part by (done || lia). rewrite (proj2 (Z.ltb_lt 0 _)) by lia. destruct fit as [n h|n h]; cbn [next_offset page_ends fit_height].
      * cbn [par o]. rewrite Hnext. change (break_after q) with (break_after p). by destruct (break_after p).
      * cbn [par chr o]. rewrite wrapu_small; [done|].
        destruct (kept_cut b events _ (proj1 (chars_split _ _ _ Hcs)) Hk) as (segs & rest & Hcs' & _ & _ & ->).
        rewrite Hcs', concat_app, length_app in Hlen. unfold in_u. lia.
Qed.

(** ** What is drawn *)

(** The visible paragraphs from an offset. *)
Definition draw (fuel : nat) (vis : list TextLayoutProxy) (o : PageOffset) : txt (list (list SinkEvent)) :=
  shown ← foreach_loop fuel ps vis (par o) (chr o);
  mapM (λ '(layout, text), fst <$> render_text layout (text_fuel layout text) text) shown.

(** A paragraph that has been moved. *)
Definition moved_to (v v' : TextLayoutProxy) : Prop :=
  proxy_offset v' = proxy_offset v ∧ same_width area (proxy_bounds v') ∧
  y1 (proxy_bounds v') - y0 (proxy_bounds v') = y1 (proxy_bounds v) - y0 (proxy_bounds v).

Definition enough (fuel : nat) (o : PageOffset) : Prop := (Z.to_nat (len ps - par o) < fuel)%nat.

Lemma enough_next fuel before p later c : ps = before ++ p :: later → enough (S fuel) (mkPageOffset (len before) c) →
  enough fuel (mkPageOffset (len before + 1) 0).
Proof. intros Hs. destruct (par_next ps Hcount before p later Hs). unfold enough. cbn. lia. Qed.

Lemma draw_end fuel vis : enough fuel (mkPageOffset (len ps) 0) → draw fuel vis (mkPageOffset (len ps) 0) = Ok [].
Proof. destruct fuel; [unfold enough; lia|]. intros _. unfold draw. cbn. by rewrite Z.ltb_irrefl. Qed.

Section At.
Context (before : list Paragraph) (p : Paragraph) (later : list Paragraph) (a b : list (list Z)).
Context (Hsplit : ps = before ++ p :: later) (Hcs : StrUtil.chars (content p) = a ++ b).
Abbreviation o := (mkPageOffset (len before) (len (bytes a))).

Lemma draw_empty fuel vis : b = [] → draw (S fuel) vis o = draw fuel vis (mkPageOffset (len before + 1) 0).
Proof.
  intros ->. destruct (par_next ps Hcount before p later Hsplit) as [_ Hlt]. unfold draw. cbn [foreach_loop par chr].
  cbn [source_size vec_source]. rewrite (proj2 (Z.ltb_lt _ _)), (source_remaining ps Hcount before p later a []) by done. done.
Qed.

Lemma bytes_not_empty : b ≠ [] → bytes b ≠ [].
Proof. intros Hb. rewrite <- chars_nil. by rewrite (proj1 (chars_split _ _ _ Hcs)). Qed.

Lemma draw_text fuel vis : b ≠ [] →
  draw (S fuel) vis o =
    match vis with
    | v :: vis =>
      layout ← proxy_layout ps v;
      rest ← foreach_loop fuel ps vis (len before + 1) 0;
      mapM (λ '(layout, text), fst <$> render_text layout (text_fuel layout text) text) ((layout, bytes b) :: rest)
    | [] => Ok []
    end.
Proof.
  intros Hb%bytes_not_empty. destruct (par_next ps Hcount before p later Hsplit) as [_ Hlt]. unfold draw. cbn [foreach_loop par chr].
  cbn [source_size vec_source]. rewrite (proj2 (Z.ltb_lt _ _)), (source_remaining ps Hcount before p later a b) by done.
  cbn [fmap outcome_fmap mbind outcome_bind content with_content]. rewrite bool_decide_eq_false_2 by done.
  destruct vis as [|v vis]; [done|].
  destruct (proxy_layout ps v); [cbn [mbind outcome_bind]|done..]. by destruct (foreach_loop _ _ _ _ _).
Qed.

(** A visible text in front of others. *)
Lemma draw_cons fuel v vis evs events fit : b ≠ [] → proxy_offset v = o →
  (let layout := continuing (paragraph_layout (with_content p (bytes b)) (proxy_bounds v)) (0 <? chr o) in
   render_text layout (text_fuel layout (bytes b)) (bytes b) = Ok (events, fit)) →
  draw fuel vis (mkPageOffset (len before + 1) 0) = Ok evs → draw (S fuel) (v :: vis) o = Ok (events :: evs).
Proof.
  intros Hb Ho Hr Hrest. rewrite draw_text by done. unfold proxy_layout. rewrite Ho. cbn [par chr].
  rewrite (source_remaining ps Hcount before p later a b) by done. cbn [mbind outcome_bind].
  unfold draw in Hrest. cbn [par chr] in Hrest. apply bind_Ok in Hrest as (shown & -> & Hshown). cbn [mbind outcome_bind mapM].
  cbn [chr] in Hr. cbv zeta in Hr. rewrite Hr. cbn [fmap outcome_fmap mbind outcome_bind fst].
  change (mapM _ shown) with (mapM (λ '(layout, text), fst <$> render_text layout (text_fuel layout text) text) shown).
  by rewrite Hshown.
Qed.
End At.

Lemma draw_nil fuel o todo : remaining ps o todo → enough fuel o → draw fuel [] o = Ok [].
Proof.
  revert o todo. induction fuel as [|fuel IH]; intros o todo Ho Hf; [unfold enough in Hf; lia|].
  destruct Ho as [|before p later a b Hsplit Hcs]; [by apply draw_end|].
  destruct b as [|c b]; [|by rewrite (draw_text before p later a (c :: b))].
  rewrite (draw_empty before p later a []) by done. eapply IH; [by eapply remaining_next|by eapply enough_next].
Qed.

(** ** A page *)

(** The height of some visible paragraphs. *)
Definition heights (vis : list TextLayoutProxy) : list Z := (λ v, y1 (proxy_bounds v) - y0 (proxy_bounds v)) <$> vis.

(** The rest of a page from an offset: what is drawn is a beginning of what
    remains, and the next page, if any, goes on from there. *)
Record page_of (A : Rect) (o : PageOffset) (todo : list (list Z)) (vis : list TextLayoutProxy) (next : option PageOffset)
    (shown : list (list Z)) : Prop := {
  page_cut : ∃ segments todo', todo = shown_chars segments ++ todo' ∧ Forall (λ seg, dropped (snd seg)) segments ∧
    shown = shown_texts segments ∧
    match next with
    | Some o' => remaining ps o' todo' ∧ (precedes o o' ∨ o' = o ∧ y1 A - y0 A < full)
    | None => todo' = []
    end;
  page_draw fuel vis' : Forall2 moved_to vis vis' → enough fuel o →
    ∃ evs, draw fuel vis' o = Ok evs ∧ concat (texts <$> evs) = shown;
  page_size : Forall (λ v, same_width area (proxy_bounds v)) vis ∧ total (heights vis) <= y1 A - y0 A
}.

Lemma page_end A : part A → page_of A (mkPageOffset (len ps) 0) [] [] None [].
Proof.
  intros HA. destruct (part_height A HA). split.
  - by exists [], [].
  - intros fuel vis' _ Hf. exists []. by rewrite draw_end.
  - split; [done|]. cbn. lia.
Qed.

(** Nothing goes on a page that is not empty. *)
Lemma page_stop A o todo : part A → remaining ps o todo → y1 A - y0 A < full → page_of A o todo [] (Some o) [].
Proof.
  intros HA Ho Hfull. destruct (part_height A HA). split.
  - exists [], todo. split; [done|]. split; [done|]. split; [done|]. split; [done|]. by right.
  - intros fuel vis' Hvis Hf. apply Forall2_nil_inv_l in Hvis as ->. exists []. by rewrite (draw_nil fuel o todo).
  - split; [done|]. cbn. lia.
Qed.

Lemma next_precedes A o' (before : list Paragraph) c c' : (precedes (mkPageOffset (len before + 1) 0) o' ∨ o' = mkPageOffset (len before + 1) 0 ∧ y1 A - y0 A < full) →
  c' = len before → precedes (mkPageOffset c' c) o'.
Proof. unfold precedes. intros [?|[-> _]] ->; cbn in *; lia. Qed.

Section Cons.
Context (before : list Paragraph) (p : Paragraph) (later : list Paragraph) (a b : list (list Z)).
Context (Hsplit : ps = before ++ p :: later) (Hcs : StrUtil.chars (content p) = a ++ b).
Context (A : Rect) (HA : part A).
Abbreviation o := (mkPageOffset (len before) (len (bytes a))).
Abbreviation q := (with_content p (bytes b)).

Lemma page_skip vis next shown : b = [] →
  page_of A (mkPageOffset (len before + 1) 0) (all_chars later) vis next shown →
  page_of A o (all_chars later) vis next shown.
Proof.
  intros Hb [(segments & todo' & ? & ? & ? & Hnext) Hdraw Hsize]. split; [|intros [|fuel] vis' Hvis Hf|done].
  - exists segments, todo'. split; [done|]. split; [done|]. split; [done|].
    destruct next as [o'|]; [|done]. destruct Hnext as [? Hpre]. split; [done|]. left. by eapply next_precedes.
  - unfold enough in Hf. lia.
  - rewrite (draw_empty before p later a b) by done. apply Hdraw; [done|]. by eapply enough_next.
Qed.

Lemma used_width h : 0 <= h <= y1 A - y0 A → same_width area (used_part A h).
Proof. destruct HA as [(? & ? & ? & ?) [? ?]]. intros ?. unfold same_width, used_part. cbn. lia. Qed.

Lemma free_width h : 0 <= h <= y1 A - y0 A → part (free_part A h).
Proof. destruct HA as [(? & ? & ? & ?) [? ?]]. intros ?. unfold part, same_width, free_part. cbn. lia. Qed.

Lemma page_cons events fit vis next shown segments rest h :
  b ≠ [] → taken_part o q A b events fit → h = Z.min (fit_height fit) (y1 A - y0 A) →
  b = shown_chars segments ++ rest → Forall (λ seg, dropped (snd seg)) segments → texts events = shown_texts segments →
  (∃ segments' todo', rest ++ all_chars later = shown_chars segments' ++ todo' ∧ Forall (λ seg, dropped (snd seg)) segments' ∧
     shown = shown_texts segments' ∧
     match next with Some o' => remaining ps o' todo' ∧ precedes o o' | None => todo' = [] end) →
  (∀ fuel vis', Forall2 moved_to vis vis' → enough fuel (mkPageOffset (len before + 1) 0) →
     ∃ evs, draw fuel vis' (mkPageOffset (len before + 1) 0) = Ok evs ∧ concat (texts <$> evs) = shown) →
  Forall (λ v, same_width area (proxy_bounds v)) vis ∧ total (heights vis) <= y1 A - y0 A - h →
  page_of A o (b ++ all_chars later) (mkProxy o (used_part A h) :: vis) next (texts events ++ shown).
Proof.
  intros Hb Hpart Hh' Hcut Hd Hev (segments' & todo' & Hcut' & Hd' & Hsh & Hnext) Hdraw [Hw Hsize].
  pose proof (part_many _ _ _ _ _ _ Hpart) as Hm. pose proof (part_room _ _ _ _ _ _ Hpart).
  assert (0 <= h <= y1 A - y0 A) as Hh by (unfold MAX_LINES in Hm; lia). split.
  - exists (segments ++ segments'), todo'. rewrite !fmap_app, concat_app, filter_app, <- app_assoc, <- Hcut', Hev, Hsh.
    split; [by rewrite Hcut at 1; rewrite <- app_assoc|]. split; [by apply Forall_app|]. split; [done|].
    destruct next; [|done]. destruct Hnext. auto.
  - intros [|fuel] vis' Hvis Hf; [unfold enough in Hf; lia|].
    apply Forall2_cons_inv_l in Hvis as (v' & vis'' & (Ho & Hw' & Hy') & Hvis & ->). cbn in Ho, Hy'.
    destruct (Hdraw fuel vis'' Hvis) as (evs & Hevs & Hshown); [by eapply enough_next|].
    destruct (part_shown _ _ _ _ _ _ Hpart (proxy_bounds v') Hw') as (events' & fit' & Hr & Ht); [lia|].
    exists (events' :: evs). rewrite fmap_cons. cbn [concat]. rewrite Ht, Hshown. split; [|done].
    by eapply (draw_cons before p later a b).
  - split; [constructor; [by apply used_width|done]|].
    change (y0 A + h - y0 A + total (heights vis) <= y1 A - y0 A). lia.
Qed.
End Cons.

(** The walk to the end of the page gives it, for the next offset as for what
    is visible, of which there is never too much. *)
Definition room_for (A : Rect) (visible : list TextLayoutProxy) : Prop :=
  len visible <= MAX_LINES ∧ MAX_LINES * (y1 A - y0 A) <= (MAX_LINES - len visible) * full.

Definition walks (fuel : nat) (A : Rect) (o : PageOffset) (todo : list (list Z)) : Prop :=
  ∃ vis next shown, page_of A o todo vis next shown ∧ dyn_next_loop ps fuel A o full = Ok next ∧
    ∀ visible, room_for A visible →
      change_offset_loop ps fuel A o full visible = Ok (visible ++ vis) ∧ len visible + len vis <= MAX_LINES.

Lemma next_or_end fuel before p later A : ps = before ++ p :: later → enough fuel (mkPageOffset (len before + 1) 0) →
  (if len ps <=? len before + 1 then Ok None else dyn_next_loop ps fuel A (mkPageOffset (len before + 1) 0) full) =
  dyn_next_loop ps fuel A (mkPageOffset (len before + 1) 0) full.
Proof.
  intros Hs Hf. destruct (par_next ps Hcount before p later Hs) as [_ Hlt].
  destruct (Z.leb_spec (len ps) (len before + 1)); [|done]. destruct fuel; [unfold enough in Hf; lia|]. cbn.
  by rewrite (proj2 (Z.ltb_ge _ _)) by lia.
Qed.

(** A full list of visible texts leaves no room for another. *)
Lemma room_push A visible v fit o q b events : part A → room_for A visible → taken_part o q A b events fit →
  len visible < MAX_LINES ∧ room_for (free_part A (Z.min (fit_height fit) (y1 A - y0 A))) (visible ++ [v]).
Proof.
  intros HA [Hlen Hroom] [_ _ Hm Hr _]. unfold room_for, MAX_LINES in *. destruct (part_height A HA).
  assert (len visible ≠ 10) by (intros E; rewrite E in Hroom; lia). split; [lia|].
  rewrite length_app. cbn [length free_part y0 y1]. rewrite Nat2Z.inj_add. nia.
Qed.

Section Step.
Context (before : list Paragraph) (p : Paragraph) (later : list Paragraph) (a b : list (list Z)).
Context (Hsplit : ps = before ++ p :: later) (Hcs : StrUtil.chars (content p) = a ++ b).
Context (fuel : nat) (A : Rect) (HA : part A) (Hf : enough (S fuel) (mkPageOffset (len before) (len (bytes a)))).
Abbreviation o := (mkPageOffset (len before) (len (bytes a))).
Abbreviation next_par := (mkPageOffset (len before + 1) 0).

Lemma walk_empty : b = [] → walks fuel A next_par (all_chars later) → walks (S fuel) A o (all_chars later).
Proof.
  intros Hb (vis & next & shown & Hpage & Hnext & Hvis). exists vis, next, shown. split; [by eapply page_skip|].
  destruct (par_next ps Hcount before p later Hsplit) as [_ Hlt].
  pose proof (advance_empty before p later a A Hsplit) as Hadv. rewrite Hb, app_nil_r in Hcs. specialize (Hadv Hcs).
  cbn [dyn_next_loop change_offset_loop par]. cbn [source_size vec_source]. rewrite (proj2 (Z.ltb_lt _ _)) by done.
  rewrite Hadv. cbn [mbind outcome_bind par]. split; [|done].
  by rewrite (next_or_end fuel before p later A Hsplit ltac:(by eapply enough_next)).
Qed.

Lemma walk_stop : advance ps o A full = Ok (o, None, None) → y1 A - y0 A < full → walks (S fuel) A o (b ++ all_chars later).
Proof.
  intros Hadv Hfull. destruct (par_next ps Hcount before p later Hsplit) as [_ Hlt]. exists [], (Some o), [].
  split; [apply page_stop; [done|by eapply remaining_at|done]|].
  cbn [dyn_next_loop change_offset_loop par]. cbn [source_size vec_source]. rewrite (proj2 (Z.ltb_lt _ _)) by done.
  rewrite Hadv. cbn [mbind outcome_bind par]. rewrite (proj2 (Z.leb_gt _ _)) by done. split; [done|].
  intros visible [? _]. rewrite app_nil_r. split; [done|]. cbn. lia.
Qed.

(** The text goes on another page. *)
Lemma walk_full n h0 events : b ≠ [] → let fit := OutOfBounds n h0 in let h := Z.min h0 (y1 A - y0 A) in
  taken_part o (with_content p (bytes b)) A b events fit →
  advance ps o A full = Ok (next_offset o fit, None, Some (mkProxy o (used_part A h))) →
  walks (S fuel) A o (b ++ all_chars later).
Proof.
  intros Hb fit h Hpart Hadv. destruct (par_next ps Hcount before p later Hsplit) as [_ Hlt].
  destruct (kept_cut b events fit (proj1 (chars_split _ _ _ Hcs)) (part_kept _ _ _ _ _ _ Hpart))
    as (segments & rest & Hcut & Hd & Hev & Hn). cbn [fit] in Hn.
  pose proof (part_progress _ _ _ _ _ _ Hpart) as Hn0. cbn in Hn0.
  exists [mkProxy o (used_part A h)], (Some (next_offset o fit)), (texts events ++ []). split.
  - eapply (page_cons before p later a b Hsplit Hcs A HA events fit); try done.
    + exists [], (rest ++ all_chars later). split; [done|]. split; [done|]. split; [done|]. split; [|right; cbn; lia].
      cbn. rewrite Hn, <- Nat2Z.inj_add, <- length_app, <- concat_app. eapply remaining_at; [done|].
      by rewrite <- app_assoc, <- Hcut.
    + intros fuel0 vis' Hvis Hf0. apply Forall2_nil_inv_l in Hvis as ->. exists [].
      by rewrite (draw_nil _ _ _ (remaining_next ps Hcount before p later Hsplit)).
    + split; [done|]. cbn. unfold h. lia.
  - cbn [dyn_next_loop change_offset_loop par]. cbn [source_size vec_source]. rewrite (proj2 (Z.ltb_lt _ _)) by done.
    rewrite Hadv. cbn [mbind outcome_bind par next_offset fit]. rewrite (proj2 (Z.leb_gt _ _)) by done. split; [done|].
    intros visible Hroom. destruct (room_push A visible (mkProxy o (used_part A h)) _ _ _ _ _ HA Hroom Hpart) as [Hlen _].
    rewrite (proj2 (Z.ltb_lt _ _)) by done. split; [done|]. cbn [length]. lia.
Qed.

(** The text fits, and the page ends after it. *)
Lemma walk_break n h0 events : b ≠ [] → let fit := Fitting n h0 in let h := Z.min h0 (y1 A - y0 A) in
  taken_part o (with_content p (bytes b)) A b events fit →
  advance ps o A full = Ok (next_offset o fit, None, Some (mkProxy o (used_part A h))) →
  walks (S fuel) A o (b ++ all_chars later).
Proof.
  intros Hb fit h Hpart Hadv. destruct (par_next ps Hcount before p later Hsplit) as [_ Hlt].
  destruct (kept_cut b events fit (proj1 (chars_split _ _ _ Hcs)) (part_kept _ _ _ _ _ _ Hpart))
    as (segments & rest & Hcut & Hd & Hev & Hn). cbn [fit] in Hn. subst rest.
  exists [mkProxy o (used_part A h)], (if len ps <=? len before + 1 then None else Some next_par), (texts events ++ []). split.
  - eapply (page_cons before p later a b Hsplit Hcs A HA events fit); try done.
    + exists [], (all_chars later). split; [done|]. split; [done|]. split; [done|].
      destruct (Z.leb_spec (len ps) (len before + 1)) as [Hend|_].
      * rewrite Hsplit, length_app in Hend. destruct later; [done|]. cbn in Hend. lia.
      * split; [by eapply remaining_next|]. left. cbn. lia.
    + intros fuel0 vis' Hvis Hf0. apply Forall2_nil_inv_l in Hvis as ->. exists [].
      by rewrite (draw_nil _ _ _ (remaining_next ps Hcount before p later Hsplit)).
    + split; [done|]. cbn. unfold h. lia.
  - cbn [dyn_next_loop change_offset_loop par]. cbn [source_size vec_source]. rewrite (proj2 (Z.ltb_lt _ _)) by done.
    rewrite Hadv. cbn [mbind outcome_bind par next_offset fit]. split; [by destruct (_ <=? _)|].
    intros visible Hroom. destruct (room_push A visible (mkProxy o (used_part A h)) _ _ _ _ _ HA Hroom Hpart) as [Hlen _].
    rewrite (proj2 (Z.ltb_lt _ _)) by done. split; [done|]. cbn [length]. lia.
Qed.

(** The text fits, and others may follow it. *)
Lemma walk_more n h0 events : b ≠ [] → let fit := Fitting n h0 in let h := Z.min h0 (y1 A - y0 A) in
  taken_part o (with_content p (bytes b)) A b events fit →
  advance ps o A full = Ok (next_offset o fit, Some (free_part A h), Some (mkProxy o (used_part A h))) →
  walks fuel (free_part A h) next_par (all_chars later) →
  walks (S fuel) A o (b ++ all_chars later).
Proof.
  intros Hb fit h Hpart Hadv (vis & next & shown & Hpage & Hnext & Hvis).
  destruct (par_next ps Hcount before p later Hsplit) as [_ Hlt].
  destruct (kept_cut b events fit (proj1 (chars_split _ _ _ Hcs)) (part_kept _ _ _ _ _ _ Hpart))
    as (segments & rest & Hcut & Hd & Hev & Hn). cbn [fit] in Hn. subst rest.
  destruct Hpage as [(segments' & todo' & ? & ? & ? & Hto) Hdraw Hsize].
  exists (mkProxy o (used_part A h) :: vis), next, (texts events ++ shown). split.
  - eapply (page_cons before p later a b Hsplit Hcs A HA events fit); try done.
    + exists segments', todo'. split; [done|]. split; [done|]. split; [done|]. destruct next; [|done].
      destruct Hto as [? Hpre]. split; [done|]. by eapply next_precedes.
    + cbn [free_part y0 y1] in Hsize. destruct Hsize as [? Hsize]. split; [done|]. lia.
  - cbn [dyn_next_loop change_offset_loop par]. cbn [source_size vec_source]. rewrite (proj2 (Z.ltb_lt _ _)) by done.
    rewrite Hadv. cbn [mbind outcome_bind par next_offset fit].
    rewrite (next_or_end fuel before p later) by (done || by eapply enough_next). split; [done|].
    intros visible Hroom. destruct (room_push A visible (mkProxy o (used_part A h)) _ _ _ _ _ HA Hroom Hpart) as [Hlen Hroom'].
    rewrite (proj2 (Z.ltb_lt _ _)) by done. cbn [mbind outcome_bind]. destruct (Hvis _ Hroom') as [-> Hmax].
    rewrite <- app_assoc. split; [done|]. rewrite length_app in Hmax. cbn [length] in *. lia.
Qed.
End Step.

Lemma walk_total fuel : ∀ A o todo, remaining ps o todo → part A → enough fuel o → walks fuel A o todo.
Proof.
  induction fuel as [|fuel IH]; intros A o todo Ho HA Hf; [unfold enough in Hf; lia|].
  destruct Ho as [|before p later a b Hsplit Hcs].
  { exists [], None, []. split; [by apply page_end|]. cbn. rewrite Z.ltb_irrefl. split; [done|].
    intros visible [? _]. rewrite app_nil_r. split; [done|]. cbn. lia. }
  pose proof (remaining_next ps Hcount before p later Hsplit) as Hnext.
  pose proof (enough_next fuel before p later _ Hsplit Hf) as Hf'.
  destruct (decide (b = [])) as [->|Hb]; [by eapply walk_empty, IH|].
  destruct (advance_text before p later a b A Hsplit Hcs Hb HA) as [[Hadv Hfull]|(events & fit & Hpart & Hadv)];
    [by eapply walk_stop|]. pose proof (part_many _ _ _ _ _ _ Hpart). pose proof (part_room _ _ _ _ _ _ Hpart).
  destruct fit as [n h|n h]; cbn [page_ends fit_height] in Hadv; [destruct (break_after p)|].
  - by eapply walk_break.
  - eapply walk_more; try done. apply IH; [done| |done]. apply free_width; [done|]. unfold MAX_LINES in *. cbn in *. lia.
  - by eapply walk_full.
Qed.

(** ** Placing what is visible *)

Lemma heights_nonneg vis : Forall (λ v, same_width area (proxy_bounds v)) vis → 0 <= total (heights vis).
Proof.
  intros Hvis. apply total_nonneg, Forall_fmap. eapply Forall_impl; [exact Hvis|]. intros v (_ & _ & ? & _). cbn. lia.
Qed.

Lemma arrange_moved sp cursor vis : 0 <= sp → 0 <= cursor →
  Forall (λ v, same_width area (proxy_bounds v)) vis → cursor + total (heights vis) + sp * (len vis - 1) <= full →
  Forall2 moved_to vis (arrange_loop Vertical (top_left area) sp cursor vis).
Proof.
  intros Hsp Hc Hvis. revert cursor Hc. induction Hvis as [|v vis Hv Hvis IH]; intros cursor Hc Hfit; [done|].
  pose proof (heights_nonneg vis Hvis).
  change (total (heights (v :: vis))) with (y1 (proxy_bounds v) - y0 (proxy_bounds v) + total (heights vis)) in Hfit.
  destruct Hv as (Hx0 & Hx1 & Hy0 & Hy1). cbn [length] in Hfit. assert (0 <= sp * Z.of_nat (length vis)) by lia.
  cbn [arrange_loop Geometry.area proxy_dimensions]. set (item := with_top_left _ _).
  assert (item = mkRect (x0 area) (y0 area + cursor) (x1 area) (y0 area + cursor + (y1 (proxy_bounds v) - y0 (proxy_bounds v)))) as ->.
  { unfold item, with_top_left, from_top_left_and_size, ofs, rect_size, rect_width, rect_height, top_left. cbn.
    rewrite !i16_small by (rewrite ?i16_small by (rewrite ?i16_small by lia; lia); rewrite ?i16_small by lia; lia). f_equal; lia. }
  constructor; [split; [done|]; unfold same_width; cbn; lia|]. destruct Hvis as [|v2 vis Hv2 Hvis]; [done|].
  unfold rect_size, rect_height, offset_axis. cbn [oy y0 y1 ox].
  cbn [length] in Hfit. rewrite !i16_small by (rewrite ?i16_small by (rewrite ?i16_small by lia; lia); nia).
  apply IH; [lia|]. cbn [length]. nia.
Qed.

(** The placement of what is visible keeps the order and the sizes. *)
Lemma arrange_visible pl vis : axis pl = Vertical → 0 <= spacing pl <= 1024 → len vis <= MAX_LINES →
  Forall (λ v, same_width area (proxy_bounds v)) vis → total (heights vis) <= full →
  Forall2 moved_to vis (arrange pl area vis).
Proof.
  intros Hax Hsp Hlen Hvis Hfit. unfold arrange, MAX_LINES in *. rewrite Hax.
  assert (∀ s0, 0 <= s0 → s0 + total (heights vis) <= 8192 →
    0 <= total (heights vis) ∧
    foldl (λ s item, i16 (s + offset_axis (rect_size (Geometry.area item)) Vertical)) s0 vis = s0 + total (heights vis)) as Hsum.
  { clear Hfit Hlen. induction Hvis as [|v vis (_ & _ & Hy0 & Hy1) Hvis IH]; intros s0 Hs0 Hs; [cbn; lia|].
    change (total (heights (v :: vis))) with (y1 (proxy_bounds v) - y0 (proxy_bounds v) + total (heights vis)) in *.
    pose proof (heights_nonneg vis Hvis).
    change (foldl ?f s0 (v :: vis)) with (foldl f (i16 (s0 + rect_height (proxy_bounds v))) vis). cbv beta.
    unfold rect_height. rewrite !i16_small by (rewrite ?i16_small by lia; lia). destruct (IH (s0 + (y1 (proxy_bounds v) - y0 (proxy_bounds v)))) as [_ ->]; lia. }
  destruct (Hsum 0) as [Htot ->]; [lia|lia|]. rewrite Z.add_0_l.
  destruct vis as [|v vis]; [by destruct (compute_spacing _ _ _ _)|].
  pose proof (compute_spacing_spec pl area (len (v :: vis)) (total (heights (v :: vis)))) as Hc. rewrite Hax in Hc.
  destruct (compute_spacing _ _ _ _) as [cursor sp]. destruct Hc as (? & ? & ? & _).
  - unfold rect_fits, in_s. lia.
  - cbn [length] in *. lia.
  - lia.
  - unfold size_on, lo, hi. cbn [axis_main]. lia.
  - cbn [length] in *. nia.
  - apply arrange_moved; [lia|lia|done|]. unfold size_on, lo, hi in *. cbn [axis_main] in *. lia.
Qed.

(** ** All pages *)

Lemma part_full : part area.
Proof. unfold part, same_width. lia. Qed.

Lemma enough_first o : 0 <= par o → enough (S (Z.to_nat (len ps))) o.
Proof. unfold enough. lia. Qed.

Lemma remaining_par o todo : remaining ps o todo → 0 <= par o.
Proof. destruct 1; cbn; lia. Qed.

Section Placed.
Context (pl : LinearPlacement) (Hax : axis pl = Vertical) (Hsp : 0 <= spacing pl <= 1024).

(** The page at an offset, and the texts on it. *)
Definition shows (self : Paragraphs (list Paragraph)) (o : PageOffset) (events : list (list SinkEvent)) : Prop :=
  ∃ self', change_offset self o = Ok self' ∧ page_offset self' = o ∧ len (visible self') <= MAX_LINES ∧ render self' = Ok events.

Lemma page_total old vis o todo : remaining ps o todo →
  ∃ events next segments todo', shows (mkParagraphs area pl old vis ps) o events ∧ dyn_next ps area o = Ok next ∧
    todo = shown_chars segments ++ todo' ∧ Forall (λ seg, dropped (snd seg)) segments ∧
    concat (texts <$> events) = shown_texts segments ∧
    match next with Some o' => remaining ps o' todo' ∧ precedes o o' | None => todo' = [] end.
Proof.
  intros Ho. pose proof (remaining_par _ _ Ho) as Hpar. destruct (part_height area part_full) as [Hh _].
  destruct (walk_total _ area o todo Ho part_full (enough_first o Hpar)) as
    (shown_vis & next & shown & [(segments & todo' & Hcut & Hd & -> & Hto) Hdraw [Hw Hsize]] & Hnext & Hvis).
  destruct (Hvis []) as [Hchange Hmax]; [unfold room_for, MAX_LINES; cbn; lia|]. cbn [app length] in *.
  pose proof (arrange_visible pl shown_vis Hax Hsp ltac:(lia) Hw Hsize) as Hmoved.
  destruct (Hdraw _ _ Hmoved (enough_first o Hpar)) as (events & Hevents & Htexts).
  exists events, next, segments, todo'. split; [|].
  - unfold shows, change_offset, dyn_change_offset. cbn [par_area source]. rewrite Hh. cbn [source_size vec_source].
    rewrite Hchange. cbn [mbind outcome_bind]. eexists. split; [done|]. cbn [page_offset visible placement]. split; [done|].
    rewrite <- (Forall2_length _ _ _ Hmoved). split; [lia|]. exact Hevents.
  - unfold dyn_next. rewrite Hh. split; [exact Hnext|]. split; [done|]. split; [done|]. split; [done|].
    destruct next as [o'|]; [|done]. destruct Hto as [? [?|[_ ?]]]; [done|lia].
Qed.

(** The pages from an offset to the end. *)
Inductive pages_from (self : Paragraphs (list Paragraph)) : PageOffset → list (list Z) → list PageOffset → list (list (list SinkEvent)) → Prop :=
| pages_last o todo events segments :
    shows self o events → dyn_next ps area o = Ok None →
    todo = shown_chars segments → Forall (λ seg, dropped (snd seg)) segments → concat (texts <$> events) = shown_texts segments →
    pages_from self o todo [] [events]
| pages_more o o' todo todo' events segments offsets pages :
    shows self o events → dyn_next ps area o = Ok (Some o') → precedes o o' →
    todo = shown_chars segments ++ todo' → Forall (λ seg, dropped (snd seg)) segments →
    concat (texts <$> events) = shown_texts segments →
    pages_from self o' todo' offsets pages → pages_from self o todo (o' :: offsets) (events :: pages).

(** Every page takes a paragraph or a character from what remains. *)
Definition left (o : PageOffset) (todo : list (list Z)) : nat := Z.to_nat (len ps - par o) + length (bytes todo).

Lemma remaining_shrinks o todo o' segments todo' : remaining ps o todo → remaining ps o' todo' → precedes o o' →
  todo = shown_chars segments ++ todo' → (left o' todo' < left o todo)%nat.
Proof.
  intros Ho Ho' [Hpar|[Hpar Hchr]] Hcut; unfold left.
  - rewrite Hcut, concat_app, length_app. enough (par o < len ps) by lia.
    destruct Ho' as [|before p later]; cbn in *; [lia|]. subst ps. rewrite length_app in *. cbn in *. lia.
  - destruct Ho' as [|before' p' later' a' b' Hs' Hcs'], Ho as [|before p later a b Hs Hcs]; cbn [par chr] in Hpar, Hchr;
      [lia|rewrite Hs, length_app in Hpar; cbn in Hpar; lia|rewrite Hs', length_app in Hpar; cbn in Hpar; lia|].
    rewrite Hs in Hs'. apply app_inj_1 in Hs' as [-> [= -> ->]]; [|lia]. cbn [par].
    pose proof (chars_concat (content p')) as Hlen. rewrite Hcs in Hcs'.
    pose proof (f_equal (λ l, length (bytes l)) Hcs') as Heq. cbn in Heq. rewrite !concat_app, !length_app in *. lia.
Qed.

Lemma pages_total old vis o todo : remaining ps o todo →
  ∃ offsets pages, pages_from (mkParagraphs area pl old vis ps) o todo offsets pages.
Proof.
  remember (left o todo) as n eqn:Hn. revert o todo Hn. induction n as [n IH] using lt_wf_ind. intros o todo -> Ho.
  destruct (page_total old vis o todo Ho) as (events & next & segments & todo' & Hshows & Hnext & Hcut & Hd & Ht & Hto).
  destruct next as [o'|].
  - destruct Hto as [Ho' Hpre]. destruct (IH _ (remaining_shrinks _ _ _ _ _ Ho Ho' Hpre Hcut) o' todo' eq_refl Ho')
      as (offsets & pages & Hpages). exists (o' :: offsets), (events :: pages). by eapply pages_more.
  - subst todo'. rewrite app_nil_r in Hcut. exists [], [events]. by eapply pages_last.
Qed.
End Placed.

Section Counted.
Context (self : Paragraphs (list Paragraph)).

Lemma break_last o : dyn_next ps area o = Ok None → break_next ps area (Some o) = Ok (None, Some o).
Proof. intros Hn. unfold break_next. by rewrite Hn. Qed.

Lemma break_more o o' : dyn_next ps area o = Ok (Some o') → precedes o o' → break_next ps area (Some o) = Ok (Some o', Some o').
Proof.
  intros Hn Hpre. unfold break_next. rewrite Hn. cbn [mbind outcome_bind]. rewrite bool_decide_eq_false_2; [done|].
  intros ->. unfold precedes in Hpre. lia.
Qed.

Lemma pages_count o todo offsets pages : pages_from self o todo offsets pages →
  ∀ fuel, (length offsets < fuel)%nat → count_pages ps fuel area (Some o) = Ok (len offsets).
Proof.
  induction 1 as [o todo events segments _ Hn|o o' todo todo' events segments offsets pages _ Hn Hpre _ _ _ _ IH];
    intros [|fuel] Hf; cbn [length] in Hf; try lia; cbn [count_pages].
  - by rewrite break_last.
  - rewrite (break_more o o') by done. cbn [mbind outcome_bind]. rewrite IH by lia. cbn [mbind outcome_bind length]. f_equal. lia.
Qed.

Lemma pages_nth o todo offsets pages : pages_from self o todo offsets pages →
  ∀ n, nth_page ps n area (Some o) = Ok (offsets !! n).
Proof.
  induction 1 as [o todo events segments _ Hn|o o' todo todo' events segments offsets pages _ Hn Hpre _ _ _ _ IH]; intros n.
  - destruct n; cbn [nth_page]; by rewrite break_last.
  - destruct n; cbn [nth_page]; rewrite (break_more o o') by done; [done|]. apply IH.
Qed.

(** All texts, page after page. *)
Lemma pages_texts o todo offsets pages : pages_from self o todo offsets pages →
  length pages = S (length offsets) ∧
  (∀ n o0 events, (o :: offsets) !! n = Some o0 → pages !! n = Some events → shows self o0 events) ∧
  (∀ n o1 o2, (o :: offsets) !! n = Some o1 → offsets !! n = Some o2 → precedes o1 o2) ∧
  ∃ segments, todo = shown_chars segments ∧ Forall (λ seg, dropped (snd seg)) segments ∧
    concat (texts <$> concat pages) = shown_texts segments.
Proof.
  induction 1 as [o todo events segments Hs _ Hcut Hd Ht
    |o o' todo todo' events segments offsets pages Hs _ Hpre Hcut Hd Ht _ (Hl & Hall & Hord & segments' & Hcut' & Hd' & Ht')].
  - split; [done|]. split; [|split; [done|]].
    + intros [|n] o0 ev; cbn; [by intros [= <-] [= <-]|done].
    + exists segments. split; [done|]. split; [done|]. cbn. by rewrite app_nil_r.
  - split; [cbn; by rewrite Hl|]. split; [|split].
    + intros [|n] o0 ev; cbn; [by intros [= <-] [= <-]|apply Hall].
    + intros [|n] o1 o2; cbn; [by intros [= <-] [= <-]|apply Hord].
    + exists (segments ++ segments'). rewrite Hcut, Hcut', !fmap_app, concat_app, filter_app, <- Ht, <- Ht'. split; [done|].
      split; [by apply Forall_app|]. cbn [concat]. by rewrite fmap_app, concat_app.
Qed.
End Counted.
End Walk.
End Pages.

(** C32. Texts on pages: for paragraphs whose first row fits on an empty page and
    of which at most ten do, cut at rows of one height, counting the pages and
    going to any of them ends without an abort; every page begins after the one
    before it, shows at most ten texts, and the texts drawn on all pages
    together are all paragraphs in order, without the blanks dropped at the ends
    of lines: although a page is drawn in smaller areas than those it was cut
    for, nothing is lost between two pages and nothing is shown twice. *)
Theorem paragraphs_on_pages `{FontDriver} `{DisplayConstants} `{Icons} (self : Paragraphs (list Paragraph)) :
  let area := par_area self in
  0 <= x0 area <= x1 area ∧ x1 area <= 4096 → 0 <= y0 area <= y1 area ∧ y1 area <= 4096 →
  len (source self) < 2 ^ usize_bits → Forall (par_ok area) (source self) →
  axis (placement self) = Vertical → 0 <= spacing (placement self) <= 1024 →
  ∃ (offsets : list PageOffset) (pages : list (list (list SinkEvent))),
    head offsets = Some offset_default ∧ length pages = length offsets ∧
    (∀ fuel, (length offsets < fuel)%nat → page_count fuel self = Ok (len offsets)) ∧
    (∀ n o o', offsets !! n = Some o → offsets !! S n = Some o' → precedes o o') ∧
    (∀ n events, pages !! n = Some events → ∃ self', change_page self n = Ok self' ∧
       offsets !! n = Some (page_offset self') ∧ len (visible self') <= MAX_LINES ∧ render self' = Ok events) ∧
    ∃ segments, all_chars (source self) = shown_chars segments ∧ Forall (λ seg, dropped (snd seg)) segments ∧
      concat (texts <$> concat pages) = shown_texts segments.
Proof.
  destruct self as [area pl old vis ps]. cbn [par_area source placement]. intros Hx Hy Hcount Hps Hax Hsp.
  destruct (pages_total ps area Hcount Hps Hx Hy pl Hax Hsp old vis _ _ (remaining_start ps)) as (offsets & pages & Hpages).
  pose proof (pages_count ps area _ _ _ _ _ Hpages) as Hn. pose proof (pages_nth ps area _ _ _ _ _ Hpages) as Hnth.
  destruct (pages_texts ps area _ _ _ _ _ Hpages) as (Hl & Hall & Hord & Htexts).
  exists (offset_default :: offsets), pages. split; [done|]. split; [done|]. split; [|split; [|split; [|done]]].
  - intros [|fuel] Hf; cbn [length] in Hf; [lia|]. unfold page_count. cbn [source par_area count_pages break_next mbind outcome_bind].
    rewrite Hn by lia. cbn [mbind outcome_bind length]. f_equal. lia.
  - intros n o o' Ho Ho'. by eapply Hord.
  - intros n events Hev. destruct ((offset_default :: offsets) !! n) as [o|] eqn:Ho.
    + destruct (Hall n o events Ho Hev) as (self' & Hch & Hoff & Hmax & Hr). exists self'.
      split; [|by rewrite Hoff]. unfold change_page. cbn [source par_area].
      assert (nth_page ps n area None = Ok (Some o)) as ->; [|done].
      destruct n as [|n]; cbn [nth_page break_next mbind outcome_bind]; [by rewrite <- Ho|]. by rewrite Hnth, <- Ho.
    + apply lookup_lt_Some in Hev. apply lookup_ge_None in Ho. cbn [length] in Ho. lia.
Qed.

(** A font of the tests: eight pixels for each character, twelve rows. *)
#[local] Instance test_font : FontDriver := {|
  font_text_width _ t := 8 * len (StrUtil.chars t);
  font_height _ := 12;
  font_max_height _ := 12;
  font_baseline _ := 2;
  font_get_glyph _ _ := None
|}.
#[local] Instance test_display : DisplayConstants := {| LINE_SPACE := 4; FONT_BPP := 4 |}.
#[local] Instance test_icons : Icons := {| icon_width _ := 10 |}.

Definition test_area : Rect := mkRect 0 0 64 40.
Definition test_paragraph (text : list Z) : Paragraph := paragraph_new (text_style_new NORMAL 0 0 0 0) text.

Lemma test_width f ch : single ch → font_char_width f ch = 8.
Proof. intros Hch. unfold font_char_width, font_width. cbn [font_text_width test_font]. by rewrite Hch. Qed.

Lemma test_law f t : font_width f t <= widths (H := font_metrics f) (StrUtil.chars t).
Proof.
  assert (widths (H := font_metrics f) (StrUtil.chars t) = 8 * len (StrUtil.chars t)) as ->.
  { pose proof (chars_single t) as Hs. induction Hs as [|ch cs Hch _ IH]; [done|]. cbn [widths char_width font_metrics].
    rewrite (test_width f ch Hch), IH. cbn [length]. lia. }
  unfold font_width. cbn [font_text_width test_font]. unfold i16_or_max.
  destruct (_ && _) eqn:Hin; [lia|]. apply andb_false_iff in Hin as [?%Z.leb_gt|?%Z.ltb_ge]; lia.
Qed.

Lemma test_par_ok text : no_return text → len text < 2 ^ usize_bits → par_ok test_area (test_paragraph text).
Proof.
  intros Hr Hl. split; [done|done| |intros ch Hch; change (24 + font_char_width NORMAL ch + Z.max 24 8 <= 64 - 0); rewrite (test_width _ ch Hch); lia|vm_compute; discriminate..].
  split; [|intros t; apply test_law|vm_compute; intuition congruence..]. split; [|reflexivity].
  split; [reflexivity| |vm_compute; intuition congruence..]. intros ch Hch. cbn. rewrite (test_width _ ch Hch). lia.
Qed.

(** "hello world abc" and "de" on pages of two rows. *)
Definition test_texts : list (list Z) :=
  [[104; 101; 108; 108; 111; 32; 119; 111; 114; 108; 100; 32; 97; 98; 99]; [100; 101]].
Definition test_paragraphs : Paragraphs (list Paragraph) :=
  mkParagraphs test_area Geometry.vertical offset_default [] (test_paragraph <$> test_texts).

Lemma paragraphs_on_pages_witness :
  page_count 10 test_paragraphs = Ok 2 ∧
  ∃ offsets pages, head offsets = Some offset_default ∧ length pages = length offsets ∧
    (∀ fuel, (length offsets < fuel)%nat → page_count fuel test_paragraphs = Ok (len offsets)) ∧
    (∀ n events, pages !! n = Some events → ∃ self', change_page test_paragraphs n = Ok self' ∧
       offsets !! n = Some (page_offset self') ∧ len (visible self') <= MAX_LINES ∧ render self' = Ok events).
Proof.
  split; [vm_compute; reflexivity|].
  destruct (paragraphs_on_pages test_paragraphs) as (offsets & pages & Hh & Hl & Hc & _ & Hp & _).
  - vm_compute. intuition congruence.
  - vm_compute. intuition congruence.
  - vm_compute. reflexivity.
  - apply Forall_fmap. constructor; [|constructor; [|constructor]]; (apply test_par_ok; [|vm_compute; reflexivity]);
      apply (bool_decide_unpack _); vm_compute; exact Logic.I.
  - reflexivity.
  - vm_compute. intuition congruence.
  - by exists offsets, pages.
Defined.

(** Chunks: a row that is the last one only because no more rows are wanted
    keeps no space for the sign of more text when the page is cut, but does when
    it is drawn: two characters of the third chunk are on no page. *)
Definition chunked_paragraphs : Paragraphs (list Paragraph) :=
  mkParagraphs (mkRect 0 0 120 60) Geometry.vertical offset_default []
    [paragraph_new (with_line_spacing (with_chunks (text_style_new NORMAL 0 0 0 0) (with_max_rows (chunks_new 4 8) 1)) 5)
       (concat (replicate 6 [97; 98; 99; 100]))].

Lemma chunks_lost :
  match change_page chunked_paragraphs 0, change_page chunked_paragraphs 1 with
  | Ok first, Ok second =>
    ((λ events : list (list SinkEvent), texts <$> events) <$> render first) = Ok [[[97; 98; 99; 100]; [97; 98; 99; 100]; [97; 98]]] ∧
    page_offset second = mkPageOffset 0 12
  | _, _ => False
  end.
Proof. vm_compute. by split. Qed.
