(* ===== verification/Keyboard.v ===== *)
(** * Text boxes, multi-tap keys and inputs of words

    [ui/component/text/common.rs] and
    [ui/model_tt/component/keyboard/common.rs]. *)
From S2P Require Import Prelude Time StrUtil Geometry Component.
Local Open Scope Z_scope.

(** ** Text boxes *)

(* src: ui/component/text/common.rs 6-13 (TextEdit) *)
Inductive TextEdit := ReplaceLast (ch : list Z) | Append (ch : list Z).

(* src: ui/component/text/common.rs 15-20 (TextBox) *)
Record TextBox := mkTextBox { content : ShortString }.

(* src: ui/component/text/common.rs 24-28 (TextBox::new) *)
Definition textbox_new (text : list Z) : ui TextBox := mkTextBox <$> or_panic (push_str [] text).

(* src: ui/component/text/common.rs 31-33 (TextBox::empty) *)
Definition textbox_empty : TextBox := mkTextBox [].

(* src: ui/component/text/common.rs 43-45 (TextBox::is_empty) *)
Definition textbox_is_empty (self : TextBox) : bool := bool_decide (content self = []).

(** What does not fit is dropped in a release build. *)
Definition push_or_drop (s text : ShortString) : ShortString := default s (push_str s text).

(* src: ui/component/text/common.rs 48-53 (TextBox::delete_last) *)
Definition delete_last (self : TextBox) (ctx : EventCtx) : TextBox * EventCtx :=
  let '(popped, s) := pop (content self) in
  (mkTextBox s, match popped with Some _ => request_paint ctx | None => ctx end).

(* src: ui/component/text/common.rs 57-66 (TextBox::replace_last) *)
Definition replace_last (self : TextBox) (ctx : EventCtx) (ch : list Z) : TextBox * EventCtx :=
  let '(previous, s) := pop (content self) in
  (mkTextBox (push_or_drop s ch), if bool_decide (previous ≠ Some ch) then request_paint ctx else ctx).

(* src: ui/component/text/common.rs 69-72 (TextBox::append) *)
Definition append (self : TextBox) (ctx : EventCtx) (ch : list Z) : TextBox * EventCtx :=
  (mkTextBox (push_or_drop (content self) ch), request_paint ctx).

(* src: ui/component/text/common.rs 75-80 (TextBox::append_slice) *)
Definition append_slice (self : TextBox) (ctx : EventCtx) (slice : list Z) : TextBox * EventCtx :=
  (mkTextBox (push_or_drop (content self) slice), request_paint ctx).

(* src: ui/component/text/common.rs 83-91 (TextBox::replace) *)
Definition replace (self : TextBox) (ctx : EventCtx) (text : list Z) : TextBox * EventCtx :=
  if bool_decide (content self ≠ text) then (mkTextBox (push_or_drop [] text), request_paint ctx) else (self, ctx).

(* src: ui/component/text/common.rs 94-96 (TextBox::clear) *)
Definition clear (self : TextBox) (ctx : EventCtx) : TextBox * EventCtx := replace self ctx [].

(* src: ui/component/text/common.rs 99-104 (TextBox::apply) *)
Definition apply_edit (self : TextBox) (ctx : EventCtx) (edit : TextEdit) : TextBox * EventCtx :=
  match edit with ReplaceLast ch => replace_last self ctx ch | Append ch => append self ctx ch end.

(** ** Multi-tap keys: the same key again goes through its characters *)

(* src: ui/model_tt/component/keyboard/common.rs 20-28 (Pending) *)
Record Pending := mkPending { pkey : Z; press : Z; ptimer : TimerToken }.

(* src: ui/model_tt/component/keyboard/common.rs 12-18 (MultiTapKeyboard) *)
Record MultiTapKeyboard := mkMultiTap { timeout : Duration; pending : option Pending }.

(* src: ui/model_tt/component/keyboard/common.rs 32-37 (MultiTapKeyboard::new) *)
Definition multi_tap_new : MultiTapKeyboard := mkMultiTap (from_secs 1) None.

(* src: ui/model_tt/component/keyboard/common.rs 40-42 (MultiTapKeyboard::pending_key) *)
Definition pending_key (self : MultiTapKeyboard) : option Z := pkey <$> pending self.

(* src: ui/model_tt/component/keyboard/common.rs 45-47 (MultiTapKeyboard::pending_press) *)
Definition pending_press (self : MultiTapKeyboard) : option Z := press <$> pending self.

(* src: ui/model_tt/component/keyboard/common.rs 50-52 (MultiTapKeyboard::pending_timer) *)
Definition pending_timer (self : MultiTapKeyboard) : option TimerToken := ptimer <$> pending self.

(* src: ui/model_tt/component/keyboard/common.rs 56-58 (MultiTapKeyboard::is_timeout_event) *)
Definition is_timeout_event (self : MultiTapKeyboard) (ev : Event) : bool :=
  match ev, pending_timer self with Timer t, Some pt => pt =? t | _, _ => false end.

(* src: ui/model_tt/component/keyboard/common.rs 63-68 (MultiTapKeyboard::clear_pending_state) *)
Definition clear_pending_state (self : MultiTapKeyboard) (ctx : EventCtx) : MultiTapKeyboard * EventCtx :=
  match pending self with
  | Some _ => (mkMultiTap (timeout self) None, request_paint ctx)
  | None => (self, ctx)
  end.

(** [key_text.chars().cycle().nth(n)]. *)
Definition cycle_nth (key_text : list Z) (n : Z) : option (list Z) :=
  let cs := chars key_text in getZ cs (n `mod` len cs).

(* src: ui/model_tt/component/keyboard/common.rs 76-115 (MultiTapKeyboard::click_key) *)
Definition click_key (self : MultiTapKeyboard) (ctx : EventCtx) (key : Z) (key_text : list Z)
  : ui (MultiTapKeyboard * EventCtx * TextEdit) :=
  let '(is_pending, press_) :=
    match pending self with
    | Some p => if pkey p =? key then (true, wrapu usize_bits (press p + 1)) else (false, 0)
    | None => (false, 0)
    end in
  let '(pending_, ctx) :=
    if 1 <? len key_text then
      let '(token, ctx) := request_timer ctx (timeout self) in
      (Some (mkPending key press_ token), ctx)
    else (None, ctx) in
  if bool_decide (key_text = []) then Panic
  else
    ch ← or_panic (cycle_nth key_text press_);
    Ok (mkMultiTap (timeout self) pending_, ctx, if is_pending then ReplaceLast ch else Append ch).

(** ** The interface of an input of words

    [MnemonicInput] of [ui/model_tt/component/keyboard/mnemonic.rs], which the
    inputs of BIP-39 and SLIP-39 words implement. *)
(* src: ui/model_tt/component/keyboard/mnemonic.rs 14-14 (MNEMONIC_KEY_COUNT) *)
Definition MNEMONIC_KEY_COUNT : Z := 9.

(* src: ui/model_tt/component/keyboard/mnemonic.rs 221-225 (MnemonicInputMsg) *)
Inductive MnemonicInputMsg := Confirmed | Completed | TimedOut.

#[export] Instance mnemonic_input_msg_eq_dec : EqDecision MnemonicInputMsg.
Proof. solve_decision. Defined.

(* src: ui/model_tt/component/keyboard/mnemonic.rs 211-219 (MnemonicInput) *)
Class MnemonicInput (T : Type) := {
  input_component :: Component T MnemonicInputMsg;
  keys_of : list (list Z);
  can_key_press_lead_to_a_valid_word : T → Z → ui bool;
  on_key_click : T → EventCtx → Z → ui (T * EventCtx);
  on_backspace_click : T → EventCtx → ui (T * EventCtx);
  on_backspace_long_press : T → EventCtx → ui (T * EventCtx);
  is_empty : T → bool;
  mnemonic : T → option (list Z)
}.
