(* ===== verification/Bip39.v ===== *)
(** * Words of BIP-39, entered by their letters

    [ui/model_tt/component/keyboard/bip39.rs]. *)
From S2P Require Import Prelude Time StrUtil Geometry Words Wordlist Component Theme Button Keyboard.
Local Open Scope Z_scope.

(* src: ui/model_tt/component/keyboard/bip39.rs 24-32 (Bip39Input) *)
Record Bip39Input := mkBip39 {
  button : Button;
  button_suggestion : Button;
  textbox : TextBox;
  multi_tap : MultiTapKeyboard;
  options : option Z;
  suggested_word : option (list Z)
}.

(** The letters of the keys: "abc", "def", "ghi", "jkl", "mno", "pqr", "stu",
    "vwx" and "yz". *)
(* src: ui/model_tt/component/keyboard/bip39.rs 37-39 (Bip39Input::keys) *)
Definition keys : list (list Z) :=
  [[97; 98; 99]; [100; 101; 102]; [103; 104; 105]; [106; 107; 108]; [109; 110; 111]; [112; 113; 114];
   [115; 116; 117]; [118; 119; 120]; [121; 122]].

(** A bit for each letter. *)
Definition letters_mask (text : list Z) : Z :=
  foldl (λ mask ch, Z.lor mask (wrapu 32 (Z.shiftl 1 (wrapu 8 (ch - 97) `mod` 32)))) 0 text.

(* src: ui/model_tt/component/keyboard/bip39.rs 240-248 (Bip39Input::key_mask) *)
Definition key_mask (key : Z) : ui Z := letters_mask <$> or_panic (getZ keys key).

Definition with_textbox (self : Bip39Input) (t : TextBox) : Bip39Input :=
  mkBip39 (button self) (button_suggestion self) t (multi_tap self) (options self) (suggested_word self).
Definition with_multi_tap (self : Bip39Input) (m : MultiTapKeyboard) : Bip39Input :=
  mkBip39 (button self) (button_suggestion self) (textbox self) m (options self) (suggested_word self).

(** The content is the word: it can only be confirmed. *)
Definition is_complete (word : list Z) (num : Z) (text : list Z) : bool :=
  ((num =? 1) && starts_with word text) || ((1 <? num) && bool_decide (word = text)).

(* src: ui/model_tt/component/keyboard/bip39.rs 282-314 (Bip39Input::complete_word_from_dictionary) *)
Definition complete_word_from_dictionary (self : Bip39Input) (ctx : EventCtx) : ui (Bip39Input * EventCtx) :=
  let text := Keyboard.content (textbox self) in
  num ← options_num BIP39_WORDLIST_ENGLISH text;
  word ← complete_word BIP39_WORDLIST_ENGLISH text;
  let '(button, suggestion, ctx) :=
    match word, num with
    | Some w, Some n =>
      let '(b, ctx) := enable (button self) ctx in
      if is_complete w n text then
        let '(b, ctx) := set_stylesheet b ctx button_pin_confirm in
        let '(b, ctx) := set_content b ctx (Icon_ ICON_LIST_CHECK) in
        let '(s, ctx) := set_stylesheet (button_suggestion self) ctx button_suggestion_confirm in
        (b, s, ctx)
      else
        let '(b, ctx) := set_stylesheet b ctx button_pin_autocomplete in
        let '(b, ctx) := set_content b ctx (Icon_ ICON_CLICK) in
        let '(s, ctx) := set_stylesheet (button_suggestion self) ctx button_suggestion_autocomplete in
        (b, s, ctx)
    | _, _ =>
      let '(b, ctx) := disable (button self) ctx in
      let '(b, ctx) := set_stylesheet b ctx button_pin in
      let '(b, ctx) := set_content b ctx (Text []) in
      (b, button_suggestion self, ctx)
    end in
  Ok (mkBip39 button suggestion (textbox self) (multi_tap self) num word, ctx).

(* src: ui/model_tt/component/keyboard/bip39.rs 210-219 (Bip39Input::new) *)
Definition bip39_new : Bip39Input := mkBip39 button_empty button_empty textbox_empty multi_tap_new None None.

(* src: ui/model_tt/component/keyboard/bip39.rs 221-236 (Bip39Input::prefilled_word) *)
Definition prefilled_word (word : list Z) : ui Bip39Input :=
  if bool_decide (word = []) then Ok bip39_new
  else
    t ← textbox_new word;
    num ← options_num BIP39_WORDLIST_ENGLISH word;
    suggestion ← complete_word BIP39_WORDLIST_ENGLISH word;
    Ok (mkBip39 (styled (with_icon ICON_LIST_CHECK) button_pin_confirm) (styled button_empty button_suggestion_confirm)
          t multi_tap_new num suggestion).

(* src: ui/model_tt/component/keyboard/bip39.rs 43-50 (Bip39Input::can_key_press_lead_to_a_valid_word) *)
Definition can_key_press (self : Bip39Input) (key : Z) : ui bool :=
  let key_is_pending := bool_decide (pending_key (multi_tap self) = Some key) in
  mask ← key_mask key;
  let key_matches_mask :=
    negb (Z.land (word_completion_mask BIP39_WORDLIST_ENGLISH (Keyboard.content (textbox self))) mask =? 0) in
  Ok (key_is_pending || key_matches_mask).

(* src: ui/model_tt/component/keyboard/bip39.rs 55-59 (Bip39Input::on_key_click) *)
Definition key_click (self : Bip39Input) (ctx : EventCtx) (key : Z) : ui (Bip39Input * EventCtx) :=
  key_text ← or_panic (getZ keys key);
  '(m, ctx, edit) ← click_key (multi_tap self) ctx key key_text;
  let '(t, ctx) := apply_edit (textbox self) ctx edit in
  complete_word_from_dictionary (with_textbox (with_multi_tap self m) t) ctx.

(* src: ui/model_tt/component/keyboard/bip39.rs 63-67 (Bip39Input::on_backspace_click) *)
Definition backspace_click (self : Bip39Input) (ctx : EventCtx) : ui (Bip39Input * EventCtx) :=
  let '(m, ctx) := clear_pending_state (multi_tap self) ctx in
  let '(t, ctx) := delete_last (textbox self) ctx in
  complete_word_from_dictionary (with_textbox (with_multi_tap self m) t) ctx.

(* src: ui/model_tt/component/keyboard/bip39.rs 71-75 (Bip39Input::on_backspace_long_press) *)
Definition backspace_long_press (self : Bip39Input) (ctx : EventCtx) : ui (Bip39Input * EventCtx) :=
  let '(m, ctx) := clear_pending_state (multi_tap self) ctx in
  let '(t, ctx) := clear (textbox self) ctx in
  complete_word_from_dictionary (with_textbox (with_multi_tap self m) t) ctx.

(* src: ui/model_tt/component/keyboard/bip39.rs 252-268 (Bip39Input::on_input_click) *)
Definition on_input_click (self : Bip39Input) (ctx : EventCtx) : ui (Bip39Input * EventCtx * option MnemonicInputMsg) :=
  match suggested_word self, options self with
  | Some word, Some num =>
    if is_complete word num (Keyboard.content (textbox self)) then
      let '(t, ctx) := clear (textbox self) ctx in
      Ok (with_textbox self t, ctx, Some Confirmed)
    else
      let '(t, ctx) := replace (textbox self) ctx word in
      '(self, ctx) ← complete_word_from_dictionary (with_textbox self t) ctx;
      Ok (self, ctx, Some Completed)
  | _, _ => Ok (self, ctx, None)
  end.

(* src: ui/model_tt/component/keyboard/bip39.rs 273-280 (Bip39Input::on_timeout) *)
Definition on_timeout (self : Bip39Input) (ctx : EventCtx) : ui (Bip39Input * EventCtx * option MnemonicInputMsg) :=
  let '(m, ctx) := clear_pending_state (multi_tap self) ctx in
  let self := with_multi_tap self m in
  '(self, ctx) ←
    (if bool_decide (suggested_word self = None) then
       let '(t, ctx) := delete_last (textbox self) ctx in
       complete_word_from_dictionary (with_textbox self t) ctx
     else Ok (self, ctx));
  Ok (self, ctx, Some TimedOut).

(* src: ui/model_tt/component/keyboard/bip39.rs 94-103 (Bip39Input::event) *)
Definition bip39_event (self : Bip39Input) (ctx : EventCtx) (ev : Event)
  : ui (Bip39Input * EventCtx * option MnemonicInputMsg) :=
  let '(suggestion, ctx, _) := button_event (button_suggestion self) ctx ev in
  let self := mkBip39 (button self) suggestion (textbox self) (multi_tap self) (options self) (suggested_word self) in
  if is_timeout_event (multi_tap self) ev then on_timeout self ctx
  else
    let '(b, ctx, msg) := button_event (button self) ctx ev in
    let self := mkBip39 b (button_suggestion self) (textbox self) (multi_tap self) (options self) (suggested_word self) in
    match msg with
    | Some Clicked => on_input_click self ctx
    | _ => Ok (self, ctx, None)
    end.

(* src: ui/model_tt/component/keyboard/bip39.rs 86-92 (Component for Bip39Input) *)
#[export] Instance bip39_component : Component Bip39Input MnemonicInputMsg := {
  place self bounds :=
    Ok (mkBip39 (button_place (button self) bounds) (button_place (button_suggestion self) bounds) (textbox self)
          (multi_tap self) (options self) (suggested_word self), bounds);
  event := bip39_event
}.

(* src: ui/model_tt/component/keyboard/bip39.rs 77-84 (MnemonicInput for Bip39Input) *)
#[export] Instance bip39_input : MnemonicInput Bip39Input := {
  keys_of := keys;
  can_key_press_lead_to_a_valid_word := can_key_press;
  on_key_click := key_click;
  on_backspace_click := backspace_click;
  on_backspace_long_press := backspace_long_press;
  is_empty self := textbox_is_empty (textbox self);
  mnemonic := suggested_word
}.
