(* ===== verification/Slip39.v ===== *)
(** * Words of SLIP-39, entered by their keys

    [ui/model_tt/component/keyboard/slip39.rs]. *)
From S2P Require Import Prelude Time StrUtil Geometry Words Wordlist Component Theme Button Keyboard.
Local Open Scope Z_scope.

(** A mask of keys. *)
(* src: ui/model_tt/component/keyboard/slip39.rs 369-369 (Slip39Mask) *)
Definition Slip39Mask : Type := Z.

(* src: ui/model_tt/component/keyboard/slip39.rs 373-375 (Slip39Mask::full) *)
Definition full_mask : Slip39Mask := 0x1FF.

(* src: ui/model_tt/component/keyboard/slip39.rs 378-380 (Slip39Mask::contains_key) *)
Definition contains_key (self : Slip39Mask) (key : Z) : bool :=
  negb (Z.land self (wrapu 16 (Z.shiftl 1 (key `mod` 16))) =? 0).

(** [u16::count_ones]. *)
Definition count_ones (z : Z) : Z := len (filter (λ i, Z.testbit z i = true) (range 16)).

(* src: ui/model_tt/component/keyboard/slip39.rs 383-385 (Slip39Mask::is_final) *)
Definition is_final (self : Slip39Mask) : bool := count_ones self <=? 1.

(* src: ui/model_tt/component/keyboard/slip39.rs 30-36 (Slip39Input) *)
Record Slip39Input := mkSlip39 {
  button : Button;
  textbox : TextBox;
  multi_tap : MultiTapKeyboard;
  final_word : option (list Z);
  input_mask : Slip39Mask
}.

(** The letters of the keys: "ab", "cd", "ef", "ghij", "klm", "nopq", "rs",
    "tuv" and "wxyz". *)
(* src: ui/model_tt/component/keyboard/slip39.rs 41-43 (Slip39Input::keys) *)
Definition keys : list (list Z) :=
  [[97; 98]; [99; 100]; [101; 102]; [103; 104; 105; 106]; [107; 108; 109]; [110; 111; 112; 113];
   [114; 115]; [116; 117; 118]; [119; 120; 121; 122]].

(* src: ui/model_tt/component/keyboard/slip39.rs 334-337 (Slip39Input::key_digit) *)
Definition key_digit (key : Z) : ui (list Z) := or_panic (from_digit (key + 1)).

(** The mask and the word for the keys entered. *)
Definition lookup_keys (text : list Z) : ui (Slip39Mask * option (list Z)) :=
  let sequence := parse_u16 text in
  mask ← match sequence with
         | Some s => slip39_completion_mask words_button_seq s
         | None => Ok None
         end;
  let input_mask := default full_mask mask in
  final_word ← (if is_final input_mask then
                  match sequence with
                  | Some s => button_sequence_to_word SLIP39_WORDLIST words_button_seq s
                  | None => Ok None
                  end
                else Ok None);
  Ok (input_mask, final_word).

(* src: ui/model_tt/component/keyboard/slip39.rs 339-366 (Slip39Input::complete_word_from_dictionary, input_sequence) *)
Definition complete_word_from_dictionary (self : Slip39Input) (ctx : EventCtx) : ui (Slip39Input * EventCtx) :=
  '(input_mask, final_word) ← lookup_keys (Keyboard.content (textbox self));
  let '(button, ctx) :=
    match final_word with
    | Some _ => let '(b, ctx) := enable (button self) ctx in set_content b ctx (Icon_ ICON_LIST_CHECK)
    | None => let '(b, ctx) := disable (button self) ctx in set_content b ctx (Text [])
    end in
  Ok (mkSlip39 button (textbox self) (multi_tap self) final_word input_mask, ctx).

(* src: ui/model_tt/component/keyboard/slip39.rs 260-269 (Slip39Input::new) *)
Definition slip39_new : Slip39Input :=
  mkSlip39 (styled button_empty button_pin_confirm) textbox_empty multi_tap_new None full_mask.

(** The key of a letter, the first one when no key has it. *)
Definition key_of (ch : list Z) : Z :=
  match list_find (λ key, ch ∈ chars key) keys with Some (i, _) => Z.of_nat i | None => 0 end.

(* src: ui/model_tt/component/keyboard/slip39.rs 289-323 (Slip39Input::setup_from_prefilled_word) *)
Fixpoint setup_loop (buff : ShortString) (word : list (list Z)) : ui (ShortString * Slip39Mask * option (list Z)) :=
  match word with
  | [] => Ok (buff, full_mask, None)
  | ch :: word =>
    digit ← key_digit (key_of ch);
    let buff := push_or_drop buff digit in
    '(input_mask, final_word) ← lookup_keys buff;
    match final_word with
    | Some _ => Ok (buff, input_mask, final_word)
    | None => setup_loop buff word
    end
  end.
Definition setup_from_prefilled_word (word : list Z) : ui (ShortString * Slip39Mask * option (list Z)) :=
  setup_loop [] (chars word).

(* src: ui/model_tt/component/keyboard/slip39.rs 271-287 (Slip39Input::prefilled_word) *)
Definition prefilled_word (word : list Z) : ui Slip39Input :=
  if bool_decide (word = []) then Ok slip39_new
  else
    '(buff, input_mask, final_word) ← setup_from_prefilled_word word;
    t ← textbox_new buff;
    Ok (mkSlip39 (styled button_empty button_pin_confirm) t multi_tap_new final_word input_mask).

Definition with_input (self : Slip39Input) (m : MultiTapKeyboard) (t : TextBox) : Slip39Input :=
  mkSlip39 (button self) t m (final_word self) (input_mask self).

(* src: ui/model_tt/component/keyboard/slip39.rs 47-55 (Slip39Input::can_key_press_lead_to_a_valid_word) *)
Definition can_key_press (self : Slip39Input) (key : Z) : ui bool :=
  if is_final (input_mask self) then Ok false
  else Ok (bool_decide (pending_key (multi_tap self) = Some key) || contains_key (input_mask self) key).

(* src: ui/model_tt/component/keyboard/slip39.rs 60-74 (Slip39Input::on_key_click) *)
Definition key_click (self : Slip39Input) (ctx : EventCtx) (key : Z) : ui (Slip39Input * EventCtx) :=
  key_text ← or_panic (getZ keys key);
  '(m, ctx, edit) ← click_key (multi_tap self) ctx key key_text;
  '(t, ctx) ←
    match edit with
    | Append _ => digit ← key_digit key; Ok (append (textbox self) ctx digit)
    | ReplaceLast _ => Ok (textbox self, request_paint ctx)
    end;
  complete_word_from_dictionary (with_input self m t) ctx.

(* src: ui/model_tt/component/keyboard/slip39.rs 78-82 (Slip39Input::on_backspace_click) *)
Definition backspace_click (self : Slip39Input) (ctx : EventCtx) : ui (Slip39Input * EventCtx) :=
  let '(m, ctx) := clear_pending_state (multi_tap self) ctx in
  let '(t, ctx) := delete_last (textbox self) ctx in
  complete_word_from_dictionary (with_input self m t) ctx.

(* src: ui/model_tt/component/keyboard/slip39.rs 86-90 (Slip39Input::on_backspace_long_press) *)
Definition backspace_long_press (self : Slip39Input) (ctx : EventCtx) : ui (Slip39Input * EventCtx) :=
  let '(m, ctx) := clear_pending_state (multi_tap self) ctx in
  let '(t, ctx) := clear (textbox self) ctx in
  complete_word_from_dictionary (with_input self m t) ctx.

(* src: ui/model_tt/component/keyboard/slip39.rs 108-122 (Slip39Input::event) *)
Definition slip39_event (self : Slip39Input) (ctx : EventCtx) (ev : Event)
  : Slip39Input * EventCtx * option MnemonicInputMsg :=
  if is_timeout_event (multi_tap self) ev then
    let '(m, ctx) := clear_pending_state (multi_tap self) ctx in
    (with_input self m (textbox self), ctx, Some TimedOut)
  else
    let '(b, ctx, msg) := button_event (button self) ctx ev in
    let self := mkSlip39 b (textbox self) (multi_tap self) (final_word self) (input_mask self) in
    match msg with
    | Some Clicked => if is_final (input_mask self) then (self, ctx, Some Confirmed) else (self, ctx, None)
    | _ => (self, ctx, None)
    end.

(* src: ui/model_tt/component/keyboard/slip39.rs 101-106 (Component for Slip39Input) *)
#[export] Instance slip39_component : Component Slip39Input MnemonicInputMsg := {
  place self bounds :=
    Ok (mkSlip39 (button_place (button self) bounds) (textbox self) (multi_tap self) (final_word self) (input_mask self),
        bounds);
  event self ctx ev := Ok (slip39_event self ctx ev)
}.

(* src: ui/model_tt/component/keyboard/slip39.rs 92-99 (MnemonicInput for Slip39Input) *)
#[export] Instance slip39_input : MnemonicInput Slip39Input := {
  keys_of := keys;
  can_key_press_lead_to_a_valid_word := can_key_press;
  on_key_click := key_click;
  on_backspace_click := backspace_click;
  on_backspace_long_press := backspace_long_press;
  is_empty self := textbox_is_empty (textbox self);
  mnemonic := final_word
}.
