(* ===== verification/MnemonicKeyboard.v ===== *)
(** * The keyboard around an input of words

    [ui/model_tt/component/keyboard/mnemonic.rs]. *)
From S2P Require Import Prelude Time StrUtil Geometry Words Wordlist Component Theme Button Keyboard.
From S2P Require Import Fonts TextLayout Keyboard.
Local Open Scope Z_scope.

(* src: ui/model_tt/component/keyboard/mnemonic.rs 16-19 (MnemonicKeyboardMsg) *)
Inductive MnemonicKeyboardMsg := KConfirmed | Previous.

(* src: ui/model_tt/component/keyboard/mnemonic.rs 21-34 (MnemonicKeyboard) *)
Record MnemonicKeyboard (T : Type) := mkKeyboard {
  prompt : Child (Maybe Label);
  back : Child (Maybe Button);
  input : Child (Maybe T);
  keys : list (Child Button);
  swipe : Swipe;
  can_go_back : bool
}.
Arguments mkKeyboard {T} prompt back input keys swipe can_go_back.
Arguments prompt {T} m.
Arguments back {T} m.
Arguments input {T} m.
Arguments keys {T} m.
Arguments swipe {T} m.
Arguments can_go_back {T} m.

Section Keyboard.
Context `{MnemonicInput T} `{FontDriver} `{DisplayConstants} `{Icons}.

(* src: ui/model_tt/component/keyboard/mnemonic.rs 40-68 (MnemonicKeyboard::new) *)
Definition keyboard_new (input : T) (prompt_text : list Z) (can_go_back : bool) : MnemonicKeyboard T :=
  let prompt_visible := is_empty input in
  mkKeyboard
    (child_new (maybe_new BG (centered prompt_text label_keyboard_prompt) prompt_visible))
    (child_new (maybe_new BG
       (with_long_press (styled (with_icon_blend IMAGE_BG_BACK_BTN_TALL ICON_BACK (mkOffset 30 17)) button_reset)
          ERASE_HOLD_DURATION) (negb prompt_visible)))
    (child_new (maybe_new BG input (negb prompt_visible)))
    ((λ t, child_new (styled (with_text t) button_pin)) <$> keys_of)
    (allow_swipe_right swipe_new) can_go_back.

(** The keys from number [i] on, each enabled or disabled. *)
Fixpoint toggle_loop (input : T) (i : Z) (keys : list (Child Button)) (ctx : EventCtx) : ui (list (Child Button) * EventCtx) :=
  match keys with
  | [] => Ok ([], ctx)
  | btn :: keys =>
    enabled ← can_key_press_lead_to_a_valid_word input i;
    '(btn, ctx) ← mutate_ btn ctx (λ ctx b, enable_if b ctx enabled);
    '(keys, ctx) ← toggle_loop input (i + 1) keys ctx;
    Ok (btn :: keys, ctx)
  end.

(* src: ui/model_tt/component/keyboard/mnemonic.rs 75-86 (MnemonicKeyboard::toggle_key_buttons) *)
Definition toggle_key_buttons (self : MnemonicKeyboard T) (ctx : EventCtx) : ui (MnemonicKeyboard T * EventCtx) :=
  '(keys, ctx) ← toggle_loop (inside (input self)) 0 (keys self) ctx;
  Ok (mkKeyboard (prompt self) (back self) (input self) keys (swipe self) (can_go_back self), ctx).

(* src: ui/model_tt/component/keyboard/mnemonic.rs 88-98 (MnemonicKeyboard::toggle_prompt_or_input) *)
Definition toggle_prompt_or_input (self : MnemonicKeyboard T) (ctx : EventCtx) : ui (MnemonicKeyboard T * EventCtx) :=
  let prompt_visible := is_empty (inside (input self)) in
  '(prompt, ctx, _) ← mutate (prompt self) ctx (λ ctx p, show_if p ctx prompt_visible);
  '(input, ctx, _) ← mutate (input self) ctx (λ ctx i, show_if i ctx (negb prompt_visible));
  '(back, ctx, _) ← mutate (back self) ctx (λ ctx b, show_if b ctx (negb prompt_visible));
  Ok (mkKeyboard prompt back input (keys self) (swipe self) (can_go_back self), ctx).

(* src: ui/model_tt/component/keyboard/mnemonic.rs 70-73 (MnemonicKeyboard::on_input_change) *)
Definition on_input_change (self : MnemonicKeyboard T) (ctx : EventCtx) : ui (MnemonicKeyboard T * EventCtx) :=
  '(self, ctx) ← toggle_key_buttons self ctx;
  toggle_prompt_or_input self ctx.

(* src: ui/model_tt/component/keyboard/mnemonic.rs 100-102 (MnemonicKeyboard::mnemonic) *)
Definition keyboard_mnemonic (self : MnemonicKeyboard T) : option (list Z) := mnemonic (inside (input self)).

(** A method of the input behind its wrappers, then the update of the keyboard. *)
Definition edit_input (self : MnemonicKeyboard T) (ctx : EventCtx) (f : T → EventCtx → ui (T * EventCtx))
  : ui (MnemonicKeyboard T * EventCtx * option MnemonicKeyboardMsg) :=
  '(i, ctx, _) ← mutate (input self) ctx (λ ctx i, with_inner i (λ c, '(c, ctx) ← f c ctx; Ok (c, ctx, tt)));
  '(self, ctx) ← on_input_change (mkKeyboard (prompt self) (back self) i (keys self) (swipe self) (can_go_back self)) ctx;
  Ok (self, ctx, None).

(** The event is offered to the keys in order, up to the first that is
    clicked; the result has its number. *)
Fixpoint keys_event (i : Z) (keys : list (Child Button)) (ctx : EventCtx) (ev : Event)
  : ui (list (Child Button) * EventCtx * option Z) :=
  match keys with
  | [] => Ok ([], ctx, None)
  | btn :: keys =>
    '(btn, ctx, msg) ← event btn ctx ev;
    match msg with
    | Some Clicked => Ok (btn :: keys, ctx, Some i)
    | _ => '(keys, ctx, clicked) ← keys_event (i + 1) keys ctx ev; Ok (btn :: keys, ctx, clicked)
    end
  end.

(* src: ui/model_tt/component/keyboard/mnemonic.rs 133-178 (MnemonicKeyboard::event) *)
Definition keyboard_event (self : MnemonicKeyboard T) (ctx : EventCtx) (ev : Event)
  : ui (MnemonicKeyboard T * EventCtx * option MnemonicKeyboardMsg) :=
  let '(swipe, direction) := if can_go_back self then swipe_event (swipe self) ev else (swipe self, None) in
  let self := mkKeyboard (prompt self) (back self) (input self) (keys self) swipe (can_go_back self) in
  if bool_decide (direction = Some SwipeRight) then Ok (self, ctx, Some Previous)
  else
    '(i, ctx, msg) ← event (input self) ctx ev;
    let self := mkKeyboard (prompt self) (back self) i (keys self) swipe (can_go_back self) in
    match msg with
    | Some Confirmed => Ok (self, ctx, Some KConfirmed)
    | Some _ => '(self, ctx) ← on_input_change self ctx; Ok (self, ctx, None)
    | None =>
      '(b, ctx, msg) ← event (back self) ctx ev;
      let self := mkKeyboard (prompt self) b (input self) (keys self) swipe (can_go_back self) in
      match msg with
      | Some Clicked => edit_input self ctx on_backspace_click
      | Some LongPressed => edit_input self ctx on_backspace_long_press
      | _ =>
        '(ks, ctx, clicked) ← keys_event 0 (keys self) ctx ev;
        let self := mkKeyboard (prompt self) (back self) (input self) ks swipe (can_go_back self) in
        match clicked with
        | Some key => edit_input self ctx (λ c ctx, on_key_click c ctx key)
        | None => Ok (self, ctx, None)
        end
      end
    end.

(** The keys are placed in the grid from its second row on. *)
Fixpoint place_keys (grid : Grid) (i : Z) (keys : list (Child Button)) : ui (list (Child Button)) :=
  match keys with
  | [] => Ok []
  | btn :: keys =>
    area ← cell grid (i + cols grid);
    '(btn, _) ← place btn area;
    keys ← place_keys grid (i + 1) keys;
    Ok (btn :: keys)
  end.

(* src: ui/model_tt/component/keyboard/mnemonic.rs 111-131 (MnemonicKeyboard::place) *)
Definition keyboard_place (self : MnemonicKeyboard T) (bounds : Rect) : ui (MnemonicKeyboard T * Rect) :=
  let '(_, bounds) :=
    split_bottom (inset bounds borders) (i16 (4 * MNEMONIC_BUTTON_HEIGHT + 3 * KEYBOARD_SPACING)) in
  let grid := grid_with_spacing (grid_new bounds 4 3) KEYBOARD_SPACING in
  back_area ← row_col grid 0 0;
  right ← row_col grid 0 1;
  corner ← row_col grid 0 3;
  let input_area := rect_union right corner in
  let prompt_center := rect_center (rect_union back_area corner) in
  let prompt_size := max_size (inside (prompt self)) in
  let prompt_area := rect_snap prompt_center prompt_size (Center, Center) in
  '(swipe, _) ← place (swipe self) bounds;
  '(prompt, _) ← place (prompt self) prompt_area;
  '(back, _) ← place (back self) back_area;
  '(input, _) ← place (input self) input_area;
  keys ← place_keys grid 0 (keys self);
  Ok (mkKeyboard prompt back input keys swipe (can_go_back self), bounds).
End Keyboard.
