(* ===== verification/MnemonicSpec.v ===== *)
(** * Properties of the entry of recovery words

    The laws of [MnemonicInput], that both inputs satisfy them, and what the
    keyboard guarantees for any input with these laws. *)
From S2P Require Import Prelude Time StrUtil Geometry Words Wordlist WordSpec Component Theme Button Keyboard.
From S2P Require Import ComponentSpec Fonts TextLayout Keyboard MnemonicKeyboard.
Local Open Scope Z_scope.

(** ** Text

    Text edits keep the text in ASCII. *)
Lemma ascii_app s1 s2 : ascii (s1 ++ s2) ↔ ascii s1 ∧ ascii s2.
Proof. apply Forall_app. Qed.

Lemma push_or_drop_ascii s1 s2 : ascii s1 → ascii s2 → ascii (push_or_drop s1 s2).
Proof.
  intros. unfold push_or_drop, push_str. destruct (_ <=? _); cbn; [by apply ascii_app|done].
Qed.

Lemma pop_keeps_ascii s : ascii s → ascii (snd (pop s)).
Proof.
  intros Ha. rewrite (proj1 (pop_ascii s Ha)). destruct s as [|b s _] using rev_ind; [done|].
  rewrite removelast_last. by apply ascii_app in Ha as [? _].
Qed.

Lemma delete_last_ascii t ctx : ascii (Keyboard.content t) → ascii (Keyboard.content (fst (delete_last t ctx))).
Proof. intros Ha. unfold delete_last. pose proof (pop_keeps_ascii _ Ha). by destruct (pop _). Qed.

Lemma replace_ascii t ctx s : ascii (Keyboard.content t) → ascii s → ascii (Keyboard.content (fst (replace t ctx s))).
Proof. intros. unfold replace. case_bool_decide; cbn; [apply push_or_drop_ascii; [constructor|done]|done]. Qed.

Lemma apply_edit_ascii t ctx c : ascii (Keyboard.content t) → ascii c →
  ascii (Keyboard.content (fst (apply_edit t ctx (ReplaceLast c)))) ∧ ascii (Keyboard.content (fst (apply_edit t ctx (Append c)))).
Proof.
  intros Ha Hc. split; cbn; [|by apply push_or_drop_ascii]. unfold replace_last.
  pose proof (pop_keeps_ascii _ Ha). destruct (pop _) as [o l]. cbn in *. by apply push_or_drop_ascii.
Qed.

(** A click on a key with ASCII letters: its first letter, or the next one for
    the last letter while it is pending. *)
Lemma click_key_char m ctx k kt : kt ≠ [] → ascii kt →
  ∃ m' ctx' edit b n, click_key m ctx k kt = Ok (m', ctx', edit) ∧ getZ kt (n `mod` len kt) = Some b ∧
    ((∃ p, pending m = Some p ∧ pkey p = k ∧ n = wrapu usize_bits (press p + 1) ∧ edit = ReplaceLast [b]) ∨
     pending_key m ≠ Some k ∧ n = 0 ∧ edit = Append [b]) ∧
    ∃ token, pending m' = if 1 <? len kt then Some (mkPending k n token) else None.
Proof.
  intros Hne Ha. unfold click_key. rewrite bool_decide_eq_false_2 by done.
  assert (∀ n, ∃ b, cycle_nth kt n = Some [b] ∧ getZ kt (n `mod` len kt) = Some b) as Hc.
  { intros n. unfold cycle_nth. rewrite chars_ascii by done. rewrite length_fmap.
    destruct (proj2 (getZ_is_Some kt (n `mod` len kt))) as [b Hb].
    { apply Z.mod_pos_bound. destruct kt; [done|]. cbn [length]. lia. }
    exists b. split; [|done]. apply getZ_Some in Hb as [Hn Hb]. apply getZ_Some. split; [done|].
    by rewrite list_lookup_fmap, Hb. }
  unfold pending_key. destruct (pending m) as [p|] eqn:Hp; [destruct (Z.eqb_spec (pkey p) k) as [Hk|Hk]|];
    destruct (1 <? len kt); try destruct (request_timer ctx (timeout m)) as [tok ctx1];
    match goal with |- context [cycle_nth _ ?n] => destruct (Hc n) as (b & -> & Hb) end;
    cbn [or_panic mbind outcome_bind];
    eexists _, _, _, b, _; (split; [reflexivity|]); (split; [exact Hb|]); cbn [pending];
    (split; [|by eexists || by exists 0]); naive_solver.
Qed.

Lemma click_key_ends m ctx k key_text : key_text ≠ [] → ascii key_text →
  ∃ m' ctx' edit, click_key m ctx k key_text = Ok (m', ctx', edit) ∧
    ∃ b, b ∈ key_text ∧ (edit = ReplaceLast [b] ∧ pending_key m = Some k ∨ edit = Append [b] ∧ pending_key m ≠ Some k).
Proof.
  intros Hne Ha. destruct (click_key_char m ctx k key_text Hne Ha) as (m' & ctx' & edit & b & n & Hc & Hb & Hedit & _).
  exists m', ctx', edit. split; [done|]. exists b. split; [apply getZ_Some in Hb as [_ Hb]; by eapply list_elem_of_lookup_2|].
  unfold pending_key in *. destruct Hedit as [(p & -> & <- & _ & ->)|(Hk & _ & ->)]; auto.
Qed.

(** ** The laws of an input *)

(** [inv] is kept by every operation, none of which aborts; a confirmed word is
    valid; an event without a message changes neither what is shown nor which
    keys are allowed. *)
Class MnemonicLaws (T : Type) `{MnemonicInput T} (inv : T → Prop) (valid : list Z → Prop) : Prop := {
  law_keys : len (keys_of (T := T)) = MNEMONIC_KEY_COUNT;
  law_can t k : inv t → 0 <= k < MNEMONIC_KEY_COUNT → ∃ b, can_key_press_lead_to_a_valid_word t k = Ok b;
  law_click t ctx k : inv t → 0 <= k < MNEMONIC_KEY_COUNT → ∃ t' ctx', on_key_click t ctx k = Ok (t', ctx') ∧ inv t';
  law_back t ctx : inv t → ∃ t' ctx', on_backspace_click t ctx = Ok (t', ctx') ∧ inv t';
  law_long t ctx : inv t → ∃ t' ctx', on_backspace_long_press t ctx = Ok (t', ctx') ∧ inv t';
  law_repaint t ctx : inv t → ∃ ctx', event t ctx RequestPaint = Ok (t, ctx', None);
  law_event t ctx ev : inv t → ∃ t' ctx' msg, event t ctx ev = Ok (t', ctx', msg) ∧
    match msg with
    | Some Confirmed => ∃ w, mnemonic t' = Some w ∧ valid w
    | Some _ => inv t'
    | None => inv t' ∧ is_empty t' = is_empty t ∧
        ∀ k, can_key_press_lead_to_a_valid_word t' k = can_key_press_lead_to_a_valid_word t k
    end
}.

(** ** The keyboard, for any input *)
Section Keyboard.
Context {T : Type} `{Hlaws : MnemonicLaws T inv valid} `{FontDriver} `{DisplayConstants} `{Icons}.
Implicit Types kb : MnemonicKeyboard T.

(** Exactly the keys that lead to a word are enabled; the input and the
    backspace button are shown when there is something to show, the prompt
    otherwise. *)
Record keyboard_ok kb : Prop := {
  ok_input : inv (inside (input kb));
  ok_count : len (keys kb) = MNEMONIC_KEY_COUNT;
  ok_prompt : shown (prompt kb) = is_empty (inside (input kb));
  ok_shown : shown (input kb) = negb (is_empty (inside (input kb)));
  ok_back : shown (back kb) = negb (is_empty (inside (input kb)));
  ok_keys : ∀ i btn, getZ (keys kb) i = Some btn →
    can_key_press_lead_to_a_valid_word (inside (input kb)) i = Ok (is_enabled (inner btn))
}.

Lemma toggle_loop_spec t i bs ctx : inv t → 0 <= i → i + len bs <= MNEMONIC_KEY_COUNT →
  ∃ bs' ctx', toggle_loop t i bs ctx = Ok (bs', ctx') ∧ length bs' = length bs ∧
    ∀ j btn, bs' !! j = Some btn → can_key_press_lead_to_a_valid_word t (i + Z.of_nat j) = Ok (is_enabled (inner btn)).
Proof.
  intros Ht. revert i ctx. induction bs as [|b bs IH]; intros i ctx Hi Hl; [by exists [], ctx|].
  cbn [toggle_loop length] in *. destruct (law_can t i Ht) as [en Hen]; [lia|]. rewrite Hen. cbn [mbind outcome_bind].
  unfold mutate_. destruct (mutate_runs b ctx (λ ctx c, let '(c, ctx) := enable_if c ctx en in Ok (c, ctx, tt))
    (λ c _, is_enabled c = en)) as (b' & ctx1 & [] & -> & Hb).
  { intros ctx1. pose proof (enable_if_enabled (inner b) ctx1 en). destruct (enable_if (inner b) ctx1 en) as [c' ctx2].
    by exists c', ctx2, tt. }
  cbn [mbind outcome_bind]. destruct (IH (i + 1) ctx1) as (bs' & ctx2 & -> & Hlen & Hk); [lia|lia|]. cbn [mbind outcome_bind].
  exists (b' :: bs'), ctx2. split; [done|]. split; [simpl; lia|]. intros [|j] btn Hj.
  - injection Hj as <-. by rewrite Z.add_0_r, Hb.
  - replace (i + Z.of_nat (S j)) with (i + 1 + Z.of_nat j) by lia. by apply Hk.
Qed.

Lemma on_input_change_spec kb ctx : inv (inside (input kb)) → len (keys kb) = MNEMONIC_KEY_COUNT →
  ∃ kb' ctx', on_input_change kb ctx = Ok (kb', ctx') ∧ keyboard_ok kb' ∧ can_go_back kb' = can_go_back kb.
Proof.
  intros Hi Hlen. unfold on_input_change, toggle_key_buttons.
  destruct (toggle_loop_spec (inside (input kb)) 0 (keys kb) ctx) as (bs & ctx1 & -> & Hbl & Hbs); [done|lia|lia|].
  cbn [mbind outcome_bind]. unfold toggle_prompt_or_input. cbn [prompt input back keys].
  assert (repaints (inside (prompt kb))) as Hrp by (intros ctx2; by exists ctx2).
  destruct (child_show_if (prompt kb) ctx1 (is_empty (inside (input kb))) Hrp) as (pr & ctx2 & -> & Hp & Hpv).
  cbn [mbind outcome_bind].
  destruct (child_show_if (input kb) ctx2 (negb (is_empty (inside (input kb)))) (λ ctx, law_repaint _ ctx Hi))
    as (inp & ctx3 & -> & Hin & Hiv). cbn [mbind outcome_bind].
  destruct (child_show_if (back kb) ctx3 (negb (is_empty (inside (input kb)))) (button_repaints _))
    as (bk & ctx4 & -> & Hb & Hbv). cbn [mbind outcome_bind].
  eexists _, _. split; [done|]. split; [|done]. split; cbn [input keys prompt back]; rewrite ?Hin; try done; [lia|].
  intros i btn [Hi0 Hbtn]%getZ_Some. specialize (Hbs _ _ Hbtn). by rewrite Z2Nat.id in Hbs by lia.
Qed.

Lemma keys_event_spec i bs ctx ev :
  ∃ bs' ctx' clicked, keys_event i bs ctx ev = Ok (bs', ctx', clicked) ∧ length bs' = length bs ∧
    (∀ j b', bs' !! j = Some b' → ∃ b, bs !! j = Some b ∧ is_enabled (inner b') = is_enabled (inner b)) ∧
    match clicked with Some k => i <= k < i + len bs | None => True end.
Proof.
  revert i ctx. induction bs as [|b bs IH]; intros i ctx; [by exists [], ctx, None|]. cbn [keys_event].
  destruct (mutate_runs b ctx (λ ctx c,
      let ctx := match ev with RequestPaint => request_paint ctx | _ => ctx end in Ok (button_event c ctx ev))
    (λ c _, is_enabled c = is_enabled (inner b))) as (b' & ctx1 & msg & Hb & Hen).
  { intros ctx1. cbv zeta. set (ctx2 := match ev with RequestPaint => _ | _ => _ end).
    pose proof (button_event_enabled (inner b) ctx2 ev) as He. destruct (button_event (inner b) ctx2 ev) as [[c ctx3] m].
    by exists c, ctx3, m. }
  assert (event b ctx ev = Ok (b', ctx1, msg)) as -> by exact Hb. cbn [mbind outcome_bind].
  destruct (decide (msg = Some Clicked)) as [->|Hm].
  - exists (b' :: bs), ctx1, (Some i). split; [done|]. split; [done|]. split; [|simpl; lia].
    intros [|j] c Hc; [injection Hc as <-; by exists b|by exists c].
  - destruct (IH (i + 1) ctx1) as (bs' & ctx2 & clicked & He & Hl & Hk & Hr). rewrite He. cbn [mbind outcome_bind].
    exists (b' :: bs'), ctx2, clicked. split; [by destruct msg as [[]|]|]. split; [simpl; lia|]. split.
    + intros [|j] c Hc; [injection Hc as <-; by exists b|by apply Hk].
    + destruct clicked; simpl; [lia|done].
Qed.

(** What an event may change without a change of the input. *)
Lemma keyboard_ok_change kb b i ks sw :
  keyboard_ok kb → inv (inside i) → is_empty (inside i) = is_empty (inside (input kb)) →
  (∀ k, can_key_press_lead_to_a_valid_word (inside i) k = can_key_press_lead_to_a_valid_word (inside (input kb)) k) →
  shown i = shown (input kb) → shown b = shown (back kb) → length ks = length (keys kb) →
  (∀ j b', ks !! j = Some b' → ∃ b, keys kb !! j = Some b ∧ is_enabled (inner b') = is_enabled (inner b)) →
  keyboard_ok (mkKeyboard (prompt kb) b i ks sw (can_go_back kb)).
Proof.
  intros [Hi Hc Hp Hs Hb Hk] Hi' He Hcan Hsi Hsb Hl Hks. split; cbn; rewrite ?He, ?Hl; try done; try congruence.
  intros k b' [Hk0 Hb']%getZ_Some. destruct (Hks _ _ Hb') as (b0 & Hb0 & ->). rewrite Hcan. apply Hk.
  by apply getZ_Some.
Qed.

Lemma edit_input_spec kb ctx (f : T → EventCtx → ui (T * EventCtx)) :
  keyboard_ok kb → (∀ ctx, ∃ t' ctx', f (inside (input kb)) ctx = Ok (t', ctx') ∧ inv t') →
  ∃ kb' ctx', edit_input kb ctx f = Ok (kb', ctx', None) ∧ keyboard_ok kb' ∧ can_go_back kb' = can_go_back kb.
Proof.
  intros Hok Hf. unfold edit_input.
  destruct (mutate_runs (input kb) ctx (λ ctx i, with_inner i (λ c, '(c, ctx) ← f c ctx; Ok (c, ctx, tt)))
    (λ m _, inv (maybe_inner m))) as (i & ctx1 & u & -> & Hi).
  { intros ctx1. destruct (Hf ctx1) as (t' & ctx2 & Ht & Hi). unfold with_inner. rewrite Ht. cbn [mbind outcome_bind].
    eexists _, _, _. by split. }
  cbn [mbind outcome_bind].
  destruct (on_input_change_spec (mkKeyboard (prompt kb) (back kb) i (keys kb) (swipe kb) (can_go_back kb)) ctx1 Hi)
    as (kb' & ctx2 & -> & Hok' & Hg); [apply Hok|]. cbn [mbind outcome_bind]. by exists kb', ctx2.
Qed.

Definition keyboard_outcome kb kb' (msg : option MnemonicKeyboardMsg) : Prop :=
  can_go_back kb' = can_go_back kb ∧
  match msg with
  | Some KConfirmed => ∃ w, keyboard_mnemonic kb' = Some w ∧ valid w
  | Some Previous => can_go_back kb = true ∧ keyboard_ok kb'
  | None => keyboard_ok kb'
  end.

Lemma keyboard_event_spec kb ctx ev :
  keyboard_ok kb → ∃ kb' ctx' msg, keyboard_event kb ctx ev = Ok (kb', ctx', msg) ∧ keyboard_outcome kb kb' msg.
Proof.
  intros Hok. unfold keyboard_event, keyboard_outcome.
  destruct (if can_go_back kb then swipe_event (swipe kb) ev else (swipe kb, None)) as [sw dir] eqn:Hsw.
  assert (∀ kb, keyboard_ok kb → ∀ sw, keyboard_ok (mkKeyboard (prompt kb) (back kb) (input kb) (keys kb) sw (can_go_back kb))) as Hsame.
  { clear. intros kb Hok sw. apply keyboard_ok_change; try done; [apply Hok|eauto]. }
  cbn [prompt back input keys can_go_back]. case_bool_decide as Hd.
  { eexists _, _, _. split; [done|]. split; [done|]. split; [|by apply Hsame]. destruct (can_go_back kb); [done|congruence]. }
  destruct (wrapped_event_runs (input kb) ctx ev (λ t' msg,
    match msg with
    | Some Confirmed => ∃ w, mnemonic t' = Some w ∧ valid w
    | Some _ => inv t'
    | None => inv t' ∧ is_empty t' = is_empty (inside (input kb)) ∧
        ∀ k, can_key_press_lead_to_a_valid_word t' k = can_key_press_lead_to_a_valid_word (inside (input kb)) k
    end)) as (i & ctx1 & msg & -> & Hsi & Hi).
  { intros ctx1. apply law_event, Hok. }
  { split; [apply Hok|done]. }
  cbn [mbind outcome_bind]. destruct msg as [m|].
  { destruct (decide (m = Confirmed)) as [->|Hm]; [eexists _, _, _; by split|].
    assert (inv (inside i)) as Hinv by (by destruct m).
    destruct (on_input_change_spec (mkKeyboard (prompt kb) (back kb) i (keys kb) sw (can_go_back kb)) ctx1 Hinv)
      as (kb' & ctx2 & Hch & Hok' & Hg); [apply Hok|].
    exists kb', ctx2, None. split; [|done]. destruct m; try done; by rewrite Hch. }
  destruct Hi as (Hinv & Hemp & Hcan). cbn [mbind outcome_bind prompt back input keys can_go_back].
  destruct (wrapped_event_runs (back kb) ctx1 ev (λ _ _, True)) as (b & ctx2 & bmsg & -> & Hsb & _); [|done|].
  { intros ctx2. cbn [event button_component]. destruct (button_event _ _ _) as [[b' ctx3] m]. by exists b', ctx3, m. }
  cbn [mbind outcome_bind]. cbn [prompt back input keys can_go_back].
  assert (keyboard_ok (mkKeyboard (prompt kb) b i (keys kb) sw (can_go_back kb))) as Hok2.
  { apply keyboard_ok_change; try done. eauto. }
  assert (∀ f, (∀ ctx, ∃ t' ctx', f (inside i) ctx = Ok (t', ctx') ∧ inv t') →
    ∃ kb' ctx' msg, edit_input (mkKeyboard (prompt kb) b i (keys kb) sw (can_go_back kb)) ctx2 f = Ok (kb', ctx', msg) ∧
    can_go_back kb' = can_go_back kb ∧ match msg with
      | Some KConfirmed => ∃ w, keyboard_mnemonic kb' = Some w ∧ valid w
      | Some Previous => can_go_back kb = true ∧ keyboard_ok kb' | None => keyboard_ok kb' end) as Hedit.
  { intros f Hf. destruct (edit_input_spec _ ctx2 f Hok2 Hf) as (kb' & ctx' & He & ? & ?). exists kb', ctx', None. by rewrite He. }
  assert (bmsg = Some Clicked ∨ bmsg = Some LongPressed ∨ bmsg ≠ Some Clicked ∧ bmsg ≠ Some LongPressed) as [->|[->|Hbm]]
    by (destruct bmsg as [[]|]; auto).
  { apply Hedit. intros. by apply law_back. }
  { apply Hedit. intros. by apply law_long. }
  destruct (keys_event_spec 0 (keys kb) ctx2 ev) as (ks & ctx3 & clicked & Hke & Hkl & Hks & Hclicked).
  assert (keyboard_ok (mkKeyboard (prompt kb) b i ks sw (can_go_back kb))) as Hok3.
  { apply keyboard_ok_change; done. }
  assert (∀ A (x : A) y z, match bmsg with Some Clicked => x | Some LongPressed => y | _ => z end = z) as Hmatch.
  { intros. destruct bmsg as [[]|]; naive_solver. }
  rewrite Hmatch, Hke. cbn [mbind outcome_bind prompt back input keys can_go_back]. destruct clicked as [k|].
  - destruct (edit_input_spec _ ctx3 (λ c ctx, on_key_click c ctx k) Hok3) as (kb' & ctx' & He & ? & ?).
    { intros ctx4. apply law_click; [done|]. pose proof (ok_count _ Hok). lia. }
    exists kb', ctx', None. by rewrite He.
  - eexists _, _, _. by split.
Qed.

(** The keyboard after some events, each with a context, up to the first
    message. *)
Fixpoint keyboard_run kb (events : list (EventCtx * Event)) : ui (MnemonicKeyboard T * option MnemonicKeyboardMsg) :=
  match events with
  | [] => Ok (kb, None)
  | (ctx, ev) :: events =>
    '(kb, _, msg) ← keyboard_event kb ctx ev;
    match msg with Some m => Ok (kb, Some m) | None => keyboard_run kb events end
  end.

Lemma keyboard_new_ok t text back :
  inv t → (∀ k, 0 <= k < MNEMONIC_KEY_COUNT → can_key_press_lead_to_a_valid_word t k = Ok true) →
  keyboard_ok (keyboard_new t text back).
Proof.
  intros Ht Hk. split; try done; cbn; [rewrite length_fmap; apply law_keys|].
  intros i btn Hi. pose proof (getZ_lt _ _ _ Hi) as Hlt. rewrite length_fmap, law_keys in Hlt.
  rewrite (Hk i Hlt). apply getZ_Some in Hi as [_ Hi]. apply list_lookup_fmap_Some in Hi as (x & -> & _). done.
Qed.

Lemma keyboard_run_spec kb events :
  keyboard_ok kb → ∃ kb' msg, keyboard_run kb events = Ok (kb', msg) ∧ keyboard_outcome kb kb' msg.
Proof.
  revert kb. induction events as [|[ctx ev] events IH]; intros kb Hok; [by exists kb, None|]. cbn [keyboard_run].
  destruct (keyboard_event_spec kb ctx ev Hok) as (kb' & ctx' & msg & -> & Hg & Hm). cbn [mbind outcome_bind].
  destruct msg as [m|]; [by exists kb', (Some m)|]. destruct (IH kb' Hm) as (kb2 & msg & -> & Hg2 & Hm2).
  exists kb2, msg. split; [done|]. unfold keyboard_outcome. by rewrite <- Hg.
Qed.
End Keyboard.
