(* ===== verification/PassphraseT.v ===== *)
(** * The passphrase keyboard of the model T

    [ui/model_tt/component/keyboard/passphrase.rs]: four pages of keys with
    several characters each, which swipes turn.  The backlight and painting are
    not modelled. *)
From S2P Require Import Prelude Time StrUtil Geometry Component Theme Button PageT Keyboard.
Local Open Scope Z_scope.

(* src: ui/model_tt/component/keyboard/passphrase.rs 23-26 (PassphraseKeyboardMsg) *)
Inductive PassphraseKeyboardMsg := PassConfirmed | PassCancelled.

(* src: ui/model_tt/component/keyboard/passphrase.rs 38-40 (STARTING_PAGE, PAGE_COUNT, KEY_COUNT) *)
Definition STARTING_PAGE : Z := 1.
Definition PAGE_COUNT : Z := 4.
Definition KEY_COUNT : Z := 10.

(* src: ui/model_tt/component/keyboard/passphrase.rs 42-47 (KEYBOARD) *)
Definition KEYBOARD : list (list (list Z)) :=
  [[[49]; [50]; [51]; [52]; [53]; [54]; [55]; [56]; [57]; [48]];
   [[32]; [97; 98; 99]; [100; 101; 102]; [103; 104; 105]; [106; 107; 108]; [109; 110; 111]; [112; 113; 114; 115]; [116; 117; 118]; [119; 120; 121; 122]; [42; 35]];
   [[32]; [65; 66; 67]; [68; 69; 70]; [71; 72; 73]; [74; 75; 76]; [77; 78; 79]; [80; 81; 82; 83]; [84; 85; 86]; [87; 88; 89; 90]; [42; 35]];
   [[95; 60; 62]; [46; 58; 64]; [47; 124; 92]; [33; 40; 41]; [43; 37; 38]; [45; 91; 93]; [63; 123; 125]; [44; 39; 96]; [59; 34; 126]; [36; 94; 61]]].

(* src: ui/model_tt/component/keyboard/passphrase.rs 49-50 (MAX_LENGTH, INPUT_AREA_HEIGHT) *)
Definition MAX_LENGTH : Z := 50.
Definition INPUT_AREA_HEIGHT : Z := DOT_SIZE + 9.

(** [KEYBOARD[page][i]]. *)
Definition keyboard_text (page i : Z) : ui (list Z) :=
  row ← or_panic (getZ KEYBOARD page);
  or_panic (getZ row i).

(** ** The text that is entered *)

(* src: ui/model_tt/component/keyboard/passphrase.rs 330-334 (Input) *)
Record Input := mkInput { in_area : Rect; textbox : TextBox; multi_tap : MultiTapKeyboard }.

(* src: ui/model_tt/component/keyboard/passphrase.rs 337-343 (Input::new) *)
Definition input_new : Input := mkInput rect_zero textbox_empty multi_tap_new.

(* src: ui/model_tt/component/keyboard/passphrase.rs 346-356 (Component for Input) *)
#[export] Instance input_component : Component Input Empty_set := {
  place self bounds := Ok (mkInput bounds (textbox self) (multi_tap self), bounds);
  event self ctx ev := Ok (self, ctx, None)
}.

(* src: ui/model_tt/component/keyboard/passphrase.rs 104-105 (PassphraseKeyboard::on_page_swipe) *)
Definition input_clear_pending (self : Input) (ctx : EventCtx) : Input * EventCtx :=
  let '(m, ctx) := clear_pending_state (multi_tap self) ctx in (mkInput (in_area self) (textbox self) m, ctx).

(** ** The keyboard *)

(* src: ui/model_tt/component/keyboard/passphrase.rs 28-36 (PassphraseKeyboard) *)
Record PassphraseKeyboard := mkPassphrase {
  page_swipe : Swipe;
  pk_input : Child Input;
  pk_back : Child Button;
  pk_confirm : Child Button;
  pk_keys : list (Child Button);
  pk_scrollbar : ScrollBar
}.

(* src: ui/model_tt/component/keyboard/passphrase.rs 77-85 (PassphraseKeyboard::key_text) *)
Definition key_text (c : ButtonContent) : list Z :=
  match c with
  | Text text => text
  | Icon_ _ | IconAndText _ _ => [32]
  | Empty | IconBlend _ _ _ => []
  end.

(* src: ui/model_tt/component/keyboard/passphrase.rs 87-92 (PassphraseKeyboard::key_content) *)
Definition key_content (text : list Z) : ButtonContent :=
  if bool_decide (text = [32]) then Icon_ ICON_SPACE else Text text.

(* src: ui/model_tt/component/keyboard/passphrase.rs 53-75 (PassphraseKeyboard::new) *)
Definition passphrase_keyboard_new : ui PassphraseKeyboard :=
  row ← or_panic (getZ KEYBOARD STARTING_PAGE);
  Ok (mkPassphrase swipe_horizontal (child_new input_new)
        (child_new (with_long_press
           (initially_enabled (styled (with_icon_blend IMAGE_BG_BACK_BTN ICON_BACK (mkOffset 30 12)) button_reset) false)
           ERASE_HOLD_DURATION))
        (child_new (styled (with_icon ICON_CONFIRM) button_confirm))
        ((λ text, child_new (styled (button_new (key_content text)) button_pin)) <$> row)
        scrollbar_horizontal).

Section Keyboard.
Implicit Types self : PassphraseKeyboard.

Definition set_input self (i : Child Input) : PassphraseKeyboard :=
  mkPassphrase (page_swipe self) i (pk_back self) (pk_confirm self) (pk_keys self) (pk_scrollbar self).
Definition set_back self (b : Child Button) : PassphraseKeyboard :=
  mkPassphrase (page_swipe self) (pk_input self) b (pk_confirm self) (pk_keys self) (pk_scrollbar self).
Definition set_keys self (ks : list (Child Button)) : PassphraseKeyboard :=
  mkPassphrase (page_swipe self) (pk_input self) (pk_back self) (pk_confirm self) ks (pk_scrollbar self).

(** The text and the characters of a key that is tapped again and again. *)
Definition input_text self : list Z := Keyboard.content (textbox (inner (pk_input self))).
Definition input_pending self : option Pending := pending (multi_tap (inner (pk_input self))).

(* src: ui/model_tt/component/keyboard/passphrase.rs 177-179 (PassphraseKeyboard::passphrase) *)
Definition passphrase self : list Z := input_text self.

(* src: ui/model_tt/component/keyboard/passphrase.rs 165-175 (PassphraseKeyboard::is_button_active) *)
Definition is_button_active self (key : Z) : bool :=
  let textbox_not_full := len (input_text self) <? MAX_LENGTH in
  let key_is_pending := match pkey <$> input_pending self with Some pending => pending =? key | None => false end in
  textbox_not_full || key_is_pending.

(* src: ui/model_tt/component/keyboard/passphrase.rs 155-161 (PassphraseKeyboard::get_buttons_active_states) *)
Definition get_buttons_active_states self : list bool := is_button_active self <$> range KEY_COUNT.

(** Keys that are enabled or disabled as told. *)
Fixpoint enable_keys (states : list bool) (keys : list (Child Button)) (ctx : EventCtx) : ui (list (Child Button) * EventCtx) :=
  match states, keys with
  | s :: states, btn :: keys =>
    '(btn, ctx) ← mutate_ btn ctx (λ ctx b, if s : bool then enable b ctx else disable b ctx);
    '(keys, ctx) ← enable_keys states keys ctx;
    Ok (btn :: keys, ctx)
  | _, [] => Ok ([], ctx)
  | [], _ :: _ => Panic
  end.

(* src: ui/model_tt/component/keyboard/passphrase.rs 140-151 (PassphraseKeyboard::update_input_btns_state) *)
Definition update_input_btns_state self (ctx : EventCtx) : ui (PassphraseKeyboard * EventCtx) :=
  '(keys, ctx) ← enable_keys (get_buttons_active_states self) (pk_keys self) ctx;
  Ok (set_keys self keys, ctx).

(* src: ui/model_tt/component/keyboard/passphrase.rs 131-137 (PassphraseKeyboard::update_back_btn_state) *)
Definition update_back_btn_state self (ctx : EventCtx) : ui (PassphraseKeyboard * EventCtx) :=
  '(b, ctx) ← mutate_ (pk_back self) ctx (λ ctx b,
    if textbox_is_empty (textbox (inner (pk_input self))) then disable b ctx else enable b ctx);
  Ok (set_back self b, ctx).

(* src: ui/model_tt/component/keyboard/passphrase.rs 125-128 (PassphraseKeyboard::after_edit) *)
Definition after_edit self (ctx : EventCtx) : ui (PassphraseKeyboard * EventCtx) :=
  '(self, ctx) ← update_back_btn_state self ctx;
  update_input_btns_state self ctx.

(** The keys from number [i] on show the texts of a page. *)
Fixpoint replace_contents (page i : Z) (keys : list (Child Button)) (ctx : EventCtx) : ui (list (Child Button) * EventCtx) :=
  match keys with
  | [] => Ok ([], ctx)
  | btn :: keys =>
    text ← keyboard_text page i;
    '(btn, ctx) ← mutate_ btn ctx (λ ctx b, set_content b ctx (key_content text));
    '(btn, ctx) ← request_complete_repaint btn ctx;
    '(keys, ctx) ← replace_contents page (i + 1) keys ctx;
    Ok (btn :: keys, ctx)
  end.

(* src: ui/model_tt/component/keyboard/passphrase.rs 115-122 (PassphraseKeyboard::replace_button_content) *)
Definition replace_button_content self (ctx : EventCtx) (page : Z) : ui (PassphraseKeyboard * EventCtx) :=
  '(keys, ctx) ← replace_contents page 0 (pk_keys self) ctx;
  Ok (set_keys self keys, ctx).

(** The page before the first one is the last one: the number wraps around in
    [usize], whose range is a multiple of the number of pages. *)
(* src: ui/model_tt/component/keyboard/passphrase.rs 94-113 (PassphraseKeyboard::on_page_swipe) *)
Definition on_page_swipe self (ctx : EventCtx) (swipe : SwipeDirection) : ui (PassphraseKeyboard * EventCtx) :=
  let key_page := active_page (pk_scrollbar self) in
  let key_page :=
    match swipe with
    | SwipeLeft => wrapu usize_bits (key_page + 1) `mod` PAGE_COUNT
    | SwipeRight => wrapu usize_bits (key_page - 1) `mod` PAGE_COUNT
    | _ => key_page
    end in
  let sb := go_to (pk_scrollbar self) key_page in
  '(i, ctx) ← mutate_ (pk_input self) ctx (λ ctx i, input_clear_pending i ctx);
  let self := mkPassphrase (page_swipe self) i (pk_back self) (pk_confirm self) (pk_keys self) sb in
  '(self, ctx) ← replace_button_content self ctx key_page;
  update_input_btns_state self ctx.

(** The text is changed, and then the buttons. *)
Definition edit_text self (ctx : EventCtx) (f : TextBox → EventCtx → TextBox * EventCtx) : ui (PassphraseKeyboard * EventCtx) :=
  '(i, ctx) ← mutate_ (pk_input self) ctx (λ ctx i,
    let '(i, ctx) := input_clear_pending i ctx in
    let '(t, ctx) := f (textbox i) ctx in
    (mkInput (in_area i) t (multi_tap i), ctx));
  after_edit (set_input self i) ctx.

(** The keys that are active get the event, up to the first that is clicked. *)
(* src: ui/model_tt/component/keyboard/passphrase.rs 269-275 (PassphraseKeyboard::event) *)
Fixpoint active_keys_event (states : list bool) (i : Z) (keys : list (Child Button)) (ctx : EventCtx) (ev : Event)
    : ui (list (Child Button) * EventCtx * option (Z * list Z)) :=
  match states, keys with
  | s :: states, btn :: keys =>
    '(btn, ctx, msg) ← (if s : bool then event btn ctx ev else Ok (btn, ctx, None));
    match msg with
    | Some Clicked => Ok (btn :: keys, ctx, Some (i, key_text (Button.content (inner btn))))
    | _ => '(keys, ctx, clicked) ← active_keys_event states (i + 1) keys ctx ev; Ok (btn :: keys, ctx, clicked)
    end
  | _, [] => Ok ([], ctx, None)
  | [], _ :: _ => Panic
  end.

(* src: ui/model_tt/component/keyboard/passphrase.rs 276-284 (PassphraseKeyboard::event) *)
Definition key_clicked self (ctx : EventCtx) (key : Z) (text : list Z) : ui (PassphraseKeyboard * EventCtx) :=
  '(i, ctx, _) ← mutate (pk_input self) ctx (λ ctx i,
    '(m, ctx, edit) ← click_key (multi_tap i) ctx key text;
    let '(t, ctx) := apply_edit (textbox i) ctx edit in
    Ok (mkInput (in_area i) t m, ctx, tt));
  after_edit (set_input self i) ctx.

(* src: ui/model_tt/component/keyboard/passphrase.rs 239-263 (PassphraseKeyboard::event) *)
Definition back_event self (ctx : EventCtx) (msg : ButtonMsg) : ui (PassphraseKeyboard * EventCtx * option PassphraseKeyboardMsg) :=
  match msg with
  | Clicked =>
    if textbox_is_empty (textbox (inner (pk_input self))) then Ok (self, ctx, Some PassCancelled)
    else '(self, ctx) ← edit_text self ctx delete_last; Ok (self, ctx, None)
  | _ => '(self, ctx) ← edit_text self ctx clear; Ok (self, ctx, None)
  end.

(* src: ui/model_tt/component/keyboard/passphrase.rs 223-288 (PassphraseKeyboard::event) *)
Definition passphrase_keyboard_event self (ctx : EventCtx) (ev : Event)
    : ui (PassphraseKeyboard * EventCtx * option PassphraseKeyboardMsg) :=
  if is_timeout_event (multi_tap (inner (pk_input self))) ev then
    '(i, ctx) ← mutate_ (pk_input self) ctx (λ ctx i, input_clear_pending i ctx);
    Ok (set_input self i, ctx, None)
  else
    let '(s, swipe) := swipe_event (page_swipe self) ev in
    let self := mkPassphrase s (pk_input self) (pk_back self) (pk_confirm self) (pk_keys self) (pk_scrollbar self) in
    match swipe with
    | Some swipe => '(self, ctx) ← on_page_swipe self ctx swipe; Ok (self, ctx, None)
    | None =>
      '(c, ctx, msg) ← event (pk_confirm self) ctx ev;
      let self := mkPassphrase (page_swipe self) (pk_input self) (pk_back self) c (pk_keys self) (pk_scrollbar self) in
      if bool_decide (msg = Some Clicked) then Ok (self, ctx, Some PassConfirmed)
      else
        '(b, ctx, msg) ← event (pk_back self) ctx ev;
        let self := set_back self b in
        match msg with
        | Some Clicked => back_event self ctx Clicked
        | Some LongPressed => back_event self ctx LongPressed
        | _ =>
          '(ks, ctx, clicked) ← active_keys_event (get_buttons_active_states self) 0 (pk_keys self) ctx ev;
          let self := set_keys self ks in
          match clicked with
          | Some (key, text) => '(self, ctx) ← key_clicked self ctx key text; Ok (self, ctx, None)
          | None => Ok (self, ctx, None)
          end
        end
    end.

(** The first nine keys are on the first three rows of the grid, the last one
    below in the middle. *)
Fixpoint place_character_keys (grid : Grid) (key : Z) (keys : list (Child Button)) : ui (list (Child Button)) :=
  match keys with
  | [] => Ok []
  | btn :: keys =>
    area ← cell grid (if key <? 9 then key else key + 1);
    '(btn, _) ← place btn area;
    keys ← place_character_keys grid (key + 1) keys;
    Ok (btn :: keys)
  end.

(* src: ui/model_tt/component/keyboard/passphrase.rs 185-221 (PassphraseKeyboard::place) *)
Definition passphrase_keyboard_place self (bounds : Rect) : ui (PassphraseKeyboard * Rect) :=
  let bounds := inset bounds borders in
  let '(input_area, key_grid_area) := split_bottom bounds (i16 (4 * PIN_BUTTON_HEIGHT + 3 * BUTTON_SPACING)) in
  let '(input_area, scroll_area) := split_bottom input_area INPUT_AREA_HEIGHT in
  let '(scroll_area, _) := split_top scroll_area DOT_SIZE in
  let key_grid := grid_with_spacing (grid_new key_grid_area 4 3) BUTTON_SPACING in
  confirm_btn_area ← cell key_grid 11;
  back_btn_area ← cell key_grid 9;
  '(s, _) ← place (page_swipe self) bounds;
  '(i, _) ← place (pk_input self) input_area;
  '(c, _) ← place (pk_confirm self) confirm_btn_area;
  '(b, _) ← place (pk_back self) back_btn_area;
  let sb := set_count_and_active_page (scrollbar_place (pk_scrollbar self) scroll_area) PAGE_COUNT STARTING_PAGE in
  keys ← place_character_keys key_grid 0 (pk_keys self);
  Ok (mkPassphrase s i b c keys sb, bounds).

#[export] Instance passphrase_component : Component PassphraseKeyboard PassphraseKeyboardMsg := {
  place := passphrase_keyboard_place;
  event := passphrase_keyboard_event
}.
End Keyboard.
