(* ===== verification/PassphraseSpec.v ===== *)
(** * Properties of the passphrase keyboard of the model T

    Its invariant and what events do to its text, for any events; and where on
    the display the keys are tapped and the pages are turned to enter a text. *)
From S2P Require Import Prelude Time StrUtil Geometry Component Theme Button ComponentSpec PageT Keyboard MnemonicSpec PassphraseT.
Local Open Scope Z_scope.

(** ** The keys *)

(** A printable character. *)
Abbreviation printable b := (32 <= b <= 126).

Lemma printable_ascii s : Forall (λ b, printable b) s → ascii s.
Proof. intros Hs. apply (Forall_impl _ _ _ Hs). lia. Qed.

(** Each page has ten keys, whose texts are of printable characters, and the
    texts are read back from the buttons. *)
Definition key_good (t : list Z) : bool :=
  bool_decide (t ≠ []) && forallb (λ b, (32 <=? b) && (b <=? 126)) t && bool_decide (key_text (key_content t) = t).

Lemma keyboard_good : forallb (λ row, (len row =? KEY_COUNT) && forallb key_good row) KEYBOARD = true.
Proof. by vm_compute. Qed.

Lemma row_good page row : getZ KEYBOARD page = Some row →
  len row = KEY_COUNT ∧ Forall (λ t, t ≠ [] ∧ Forall (λ b, printable b) t ∧ key_text (key_content t) = t) row.
Proof.
  intros Hrow. apply getZ_Some in Hrow as [_ Hrow].
  pose proof (proj1 (forallb_forall _ _) keyboard_good row) as Hg. cbn beta in Hg.
  rewrite andb_true_iff in Hg. destruct Hg as [Hl Hg]; [by apply list_elem_of_In, list_elem_of_lookup_2 with (Z.to_nat page)|].
  split; [lia|]. apply Forall_forall. intros t Ht. apply list_elem_of_In in Ht.
  pose proof (proj1 (forallb_forall _ _) Hg t Ht) as Hk. unfold key_good in Hk.
  rewrite !andb_true_iff, !bool_decide_eq_true, forallb_forall in Hk. destruct Hk as [[Hne Hp] Hr].
  split_and!; [done| |done]. apply Forall_forall. intros b Hb%list_elem_of_In%Hp. lia.
Qed.

(** Every printable character is on a key. *)
Lemma keyboard_complete b : printable b → ∃ page key kt, keyboard_text page key = Ok kt ∧ b ∈ kt.
Proof.
  intros Hb. set (found := λ b, existsb (λ page, existsb (λ key,
    match keyboard_text page key with Ok kt => bool_decide (b ∈ kt) | _ => false end) (range KEY_COUNT)) (range PAGE_COUNT)).
  assert (forallb found (Z.add 32 <$> range 95) = true) as Hall by by vm_compute.
  pose proof (proj1 (forallb_forall _ _) Hall b) as Hf. destruct (proj1 (existsb_exists _ _) (Hf ltac:(
    apply list_elem_of_In, list_elem_of_fmap; exists (b - 32); split; [lia|]; apply list_elem_of_fmap; exists (Z.to_nat (b - 32));
    split; [lia|]; apply elem_of_seq; lia))) as (page & _ & Hp).
  apply existsb_exists in Hp as (key & _ & Hk). destruct (keyboard_text page key) as [kt| | |] eqn:Hkt; try done.
  apply bool_decide_eq_true in Hk. by exists page, key, kt.
Qed.

(** ** The keyboard *)
Section Keyboard.
Implicit Types kb : PassphraseKeyboard.

Definition page kb : Z := active_page (pk_scrollbar kb).

(** The keys show the texts of the page; the button to go back can be used when
    there is a text; the pending key gave the last character. *)
Record pass_ok kb : Prop := {
  pa_page : 0 <= page kb < PAGE_COUNT;
  pa_keys : ∃ row, getZ KEYBOARD (page kb) = Some row ∧ (λ b, Button.content (inner b)) <$> pk_keys kb = key_content <$> row;
  pa_text : Forall (λ b, printable b) (passphrase kb) ∧ len (passphrase kb) <= MAX_LENGTH;
  pa_back : is_enabled (inner (pk_back kb)) = bool_decide (passphrase kb ≠ []);
  pa_pending : ∀ p, input_pending kb = Some p → ∃ kt b, keyboard_text (page kb) (pkey p) = Ok kt ∧
    getZ kt (press p `mod` len kt) = Some b ∧ last (passphrase kb) = Some b
}.

(** What an event does to the text: the last character is deleted, or all of
    it; the first character of a key is added, if there is room; or the next
    character of the pending key takes the place of the last one. *)
Inductive entered kb : list Z → Prop :=
| entered_same : entered kb (passphrase kb)
| entered_deleted : passphrase kb ≠ [] → entered kb (removelast (passphrase kb))
| entered_cleared : entered kb []
| entered_added key kt b :
    keyboard_text (page kb) key = Ok kt → getZ kt 0 = Some b → len (passphrase kb) < MAX_LENGTH →
    pkey <$> input_pending kb ≠ Some key → entered kb (passphrase kb ++ [b])
| entered_next p kt b :
    input_pending kb = Some p → keyboard_text (page kb) (pkey p) = Ok kt →
    getZ kt (wrapu usize_bits (press p + 1) `mod` len kt) = Some b → entered kb (removelast (passphrase kb) ++ [b]).

(** *** The buttons *)

(** What the enabling of a button keeps. *)
Definition shape (b : Button) : Rect * option Insets * option Duration * option TimerToken := (area b, touch_expand b, long_press b, long_timer b).

Definition state_if (s : bool) : State := if s then Initial_ else Disabled.

Lemma enable_if_shape b ctx (s : bool) : let b' := fst (if s then enable b ctx else disable b ctx) in
  Button.content b' = Button.content b ∧ shape b' = shape b ∧ state b' = state_if s.
Proof. unfold enable, disable, set. destruct s; case_bool_decide as Hs; try done; by apply dec_stable in Hs. Qed.

Lemma enable_keys_spec states (keys : list (Child Button)) ctx : length states = length keys →
  ∃ keys' ctx', enable_keys states keys ctx = Ok (keys', ctx') ∧
    (λ b, Button.content (inner b)) <$> keys' = (λ b, Button.content (inner b)) <$> keys ∧
    (λ b, shape (inner b)) <$> keys' = (λ b, shape (inner b)) <$> keys ∧
    (λ b, state (inner b)) <$> keys' = state_if <$> states.
Proof.
  revert keys ctx. induction states as [|s states IH]; intros [|b keys] ctx Hl; try done; [by eexists _, _|].
  cbn [enable_keys]. destruct (mutate_ends b ctx (λ ctx b, if s then enable b ctx else disable b ctx)
    (λ b', Button.content b' = Button.content (inner b) ∧ shape b' = shape (inner b) ∧ state b' = state_if s))
    as (b' & ctx1 & -> & Hb & Hsh & Hst).
  { intros ctx1. apply (enable_if_shape (inner b) ctx1 s). }
  cbn [mbind outcome_bind]. destruct (IH keys ctx1) as (keys' & ctx2 & -> & Hk & Hks & Hkst); [by injection Hl|].
  cbn [mbind outcome_bind]. eexists _, _. split; [done|]. by rewrite !fmap_cons, Hb, Hk, Hsh, Hks, Hst, Hkst.
Qed.

Lemma keys_length kb : pass_ok kb → length (pk_keys kb) = 10%nat.
Proof.
  intros Hok. destruct (pa_keys kb Hok) as (row & Hrow & Hk). apply (f_equal length) in Hk. rewrite !length_fmap in Hk.
  destruct (row_good _ _ Hrow) as [Hl _]. unfold KEY_COUNT in Hl. lia.
Qed.

(** Contents of the keys that fit another page. *)
Lemma replace_contents_row pg row (keys : list (Child Button)) i ctx : getZ KEYBOARD pg = Some row → 0 <= i →
  i + len keys = KEY_COUNT →
  ∃ keys' ctx', replace_contents pg i keys ctx = Ok (keys', ctx') ∧
    (λ b, Button.content (inner b)) <$> keys' = key_content <$> drop (Z.to_nat i) row ∧
    (λ b, shape (inner b)) <$> keys' = (λ b, shape (inner b)) <$> keys.
Proof.
  intros Hrow. destruct (row_good _ _ Hrow) as [Hl _]. revert i ctx.
  induction keys as [|b keys IH]; intros i ctx Hi Hlen.
  { eexists _, _. split; [done|]. rewrite drop_ge by (unfold KEY_COUNT in *; cbn in Hlen; lia). done. }
  cbn [length] in Hlen. cbn [replace_contents]. unfold keyboard_text. rewrite Hrow. cbn [or_panic mbind outcome_bind].
  destruct (proj2 (getZ_is_Some row i)) as [t Ht]; [lia|]. rewrite Ht. cbn [or_panic mbind outcome_bind].
  destruct (mutate_ends b ctx (λ ctx b, set_content b ctx (key_content t))
    (λ b', Button.content b' = key_content t ∧ shape b' = shape (inner b))) as (b' & ctx1 & -> & Hb & Hsh).
  { intros ctx1. unfold set_content. by case_bool_decide. }
  cbn [mbind outcome_bind]. destruct (child_repaint b' ctx1 (button_repaints _)) as (b2 & ctx2 & -> & Hb2).
  cbn [mbind outcome_bind]. destruct (IH (i + 1) ctx2) as (keys' & ctx3 & -> & Hk & Hks); [lia..|].
  cbn [mbind outcome_bind]. eexists _, _. split; [done|]. apply getZ_Some in Ht as [_ Ht].
  rewrite (drop_S _ _ _ Ht), !fmap_cons, Hk, Hks, Hb2, Hb, Hsh. split; [|done]. by replace (Z.to_nat (i + 1)) with (S (Z.to_nat i)) by lia.
Qed.

Lemma active_states_length kb : length (get_buttons_active_states kb) = 10%nat.
Proof. unfold get_buttons_active_states, range. by rewrite !length_fmap, length_seq. Qed.

(** The update of the buttons. *)
Record updated kb kb' : Prop := {
  up_input : pk_input kb' = pk_input kb;
  up_scrollbar : pk_scrollbar kb' = pk_scrollbar kb;
  up_swipe : page_swipe kb' = page_swipe kb;
  up_confirm : pk_confirm kb' = pk_confirm kb;
  up_content : (λ b, Button.content (inner b)) <$> pk_keys kb' = (λ b, Button.content (inner b)) <$> pk_keys kb;
  up_shape : (λ b, shape (inner b)) <$> pk_keys kb' = (λ b, shape (inner b)) <$> pk_keys kb;
  up_state : (λ b, state (inner b)) <$> pk_keys kb' = state_if <$> get_buttons_active_states kb';
  up_back : shape (inner (pk_back kb')) = shape (inner (pk_back kb)) ∧
    (state (inner (pk_back kb')) = state (inner (pk_back kb)) ∨ state (inner (pk_back kb')) ∈ [Initial_; Disabled])
}.

Lemma update_input_btns_ok kb ctx : length (pk_keys kb) = 10%nat → ∃ kb' ctx',
  update_input_btns_state kb ctx = Ok (kb', ctx') ∧ updated kb kb' ∧ pk_back kb' = pk_back kb.
Proof.
  intros Hl. unfold update_input_btns_state.
  destruct (enable_keys_spec (get_buttons_active_states kb) (pk_keys kb) ctx) as (ks & ctx' & -> & Hk & Hsh & Hst).
  { by rewrite active_states_length. }
  cbn [mbind outcome_bind]. eexists _, _. split; [done|]. split; [|done]. split; try done. split; [done|by left].
Qed.

Lemma after_edit_ok kb ctx : length (pk_keys kb) = 10%nat → ∃ kb' ctx',
  after_edit kb ctx = Ok (kb', ctx') ∧ updated kb kb' ∧ is_enabled (inner (pk_back kb')) = bool_decide (passphrase kb ≠ []).
Proof.
  intros Hl. unfold after_edit, update_back_btn_state.
  destruct (mutate_ends (pk_back kb) ctx (λ ctx b, if textbox_is_empty (textbox (inner (pk_input kb))) then disable b ctx
      else enable b ctx) (λ b, is_enabled b = bool_decide (passphrase kb ≠ []) ∧ shape b = shape (inner (pk_back kb)) ∧
        state b ∈ [Initial_; Disabled])) as (b & ctx1 & -> & Hb & Hsh & Hst).
  { intros ctx1. pose proof (enable_if_shape (inner (pk_back kb)) ctx1 (negb (textbox_is_empty (textbox (inner (pk_input kb)))))) as Hs.
    unfold textbox_is_empty, passphrase, input_text in *.
    case_bool_decide as He; cbn [negb] in Hs; destruct Hs as (_ & Hsh & Hst); rewrite ?disable_enabled, ?enable_enabled, Hst.
    - split_and!; [symmetry; by apply bool_decide_eq_false_2; auto|done|set_solver].
    - split_and!; [symmetry; by apply bool_decide_eq_true_2|done|set_solver]. }
  cbn [mbind outcome_bind]. destruct (update_input_btns_ok (set_back kb b) ctx1 Hl) as (kb' & ctx2 & -> & [] & Hbk).
  eexists _, _. split; [done|]. rewrite Hbk. split; [|done]. split; try done. rewrite Hbk. auto.
Qed.

(** A keyboard with the keys of its page and a text of its own. *)
Lemma pass_ok_edit kb kb' : pass_ok kb → pk_scrollbar kb' = pk_scrollbar kb →
  (λ b, Button.content (inner b)) <$> pk_keys kb' = (λ b, Button.content (inner b)) <$> pk_keys kb →
  is_enabled (inner (pk_back kb')) = bool_decide (passphrase kb' ≠ []) →
  Forall (λ b, printable b) (passphrase kb') → len (passphrase kb') <= MAX_LENGTH →
  (∀ p, input_pending kb' = Some p → ∃ kt b, keyboard_text (page kb) (pkey p) = Ok kt ∧
    getZ kt (press p `mod` len kt) = Some b ∧ last (passphrase kb') = Some b) → pass_ok kb'.
Proof.
  intros [Hp Hk Ht Hb Hpe] Hs Hk' Hb' Ht' Hl' Hpe'. unfold page in *. split; unfold page; rewrite ?Hs; try done. by rewrite Hk'.
Qed.

Lemma printable_removelast s : Forall (λ b, printable b) s → Forall (λ b, printable b) (removelast s).
Proof. destruct s as [|b s _] using rev_ind; [done|]. rewrite removelast_last. by intros [? _]%Forall_app. Qed.

Lemma len_removelast {A} (s : list A) : len (removelast s) <= len s.
Proof. destruct s as [|b s _] using rev_ind; [done|]. rewrite removelast_last, length_app. lia. Qed.

(** The changes of the text with the button to go back. *)
Lemma edit_text_ok kb ctx f s : pass_ok kb → (∀ t ctx, Keyboard.content t = passphrase kb → Keyboard.content (fst (f t ctx)) = s) →
  Forall (λ b, printable b) s → len s <= MAX_LENGTH →
  ∃ kb' ctx', edit_text kb ctx f = Ok (kb', ctx') ∧ pass_ok kb' ∧ passphrase kb' = s.
Proof.
  intros Hok Hf Hs Hl. unfold edit_text.
  destruct (mutate_ends (pk_input kb) ctx (λ ctx i, let '(i, ctx) := input_clear_pending i ctx in
    let '(t, ctx) := f (textbox i) ctx in (mkInput (in_area i) t (multi_tap i), ctx))
    (λ i, Keyboard.content (textbox i) = s ∧ pending (multi_tap i) = None)) as (i & ctx1 & -> & Hi & Hpe).
  { intros ctx1. unfold input_clear_pending, clear_pending_state.
    destruct (pending (multi_tap (inner (pk_input kb)))) eqn:Hp; cbn;
      (match goal with |- context [f ?t ?c] => pose proof (Hf t c eq_refl); destruct (f t c) as [t' c'] end); by cbn in *; split. }
  cbn [mbind outcome_bind].
  destruct (after_edit_ok (set_input kb i) ctx1) as (kb' & ctx2 & -> & Hup & Hb); [exact (keys_length kb Hok)|].
  pose proof Hup as [Hin Hsb _ _ Hks _ _ _].
  assert (passphrase kb' = s) as Hps by (unfold passphrase, input_text; rewrite Hin; done).
  assert (passphrase (set_input kb i) = s) as Hps1 by done. rewrite Hps1 in Hb.
  eexists _, _. split; [done|]. split; [|done].
  apply (pass_ok_edit kb); rewrite ?Hps; try done.
  unfold input_pending. rewrite Hin. cbn. by rewrite Hpe.
Qed.

Lemma push_fits s b : len s < MAX_LENGTH → push_or_drop s [b] = s ++ [b].
Proof. intros Hl. unfold push_or_drop. by rewrite (proj2 (push_str_Some s [b] (s ++ [b]))) by (split; [unfold CAPACITY, MAX_LENGTH in *; cbn [length]; lia|done]). Qed.

Lemma replace_last_text (t : TextBox) ctx b : ascii (Keyboard.content t) → Keyboard.content t ≠ [] →
  len (Keyboard.content t) <= MAX_LENGTH →
  Keyboard.content (fst (replace_last t ctx [b])) = removelast (Keyboard.content t) ++ [b].
Proof.
  intros Ha Hne Hl. unfold replace_last. pose proof (proj1 (pop_ascii _ Ha)) as Hp.
  destruct (pop (Keyboard.content t)) as [prev s]. cbn [snd] in Hp. subst s. cbn [fst Keyboard.content]. apply push_fits.
  destruct (Keyboard.content t) as [|c s _] using rev_ind; [done|]. rewrite removelast_last. rewrite length_app in Hl. cbn [length] in Hl. lia.
Qed.

Lemma last_snoc_removelast {A} (s : list A) b : last (removelast s ++ [b]) = Some b.
Proof. by rewrite last_snoc. Qed.

(** A click on a key that is active. *)
Lemma key_clicked_ok kb ctx key kt : pass_ok kb → keyboard_text (page kb) key = Ok kt → is_button_active kb key = true →
  ∃ kb' ctx' b n token, key_clicked kb ctx key kt = Ok (kb', ctx') ∧ pass_ok kb' ∧ entered kb (passphrase kb') ∧
    getZ kt (n `mod` len kt) = Some b ∧
    ((∃ p, input_pending kb = Some p ∧ pkey p = key ∧ n = wrapu usize_bits (press p + 1) ∧
        passphrase kb' = removelast (passphrase kb) ++ [b]) ∨
     pkey <$> input_pending kb ≠ Some key ∧ n = 0 ∧ passphrase kb' = passphrase kb ++ [b]) ∧
    input_pending kb' = (if 1 <? len kt then Some (mkPending key n token) else None) ∧
    ∃ i, updated (set_input kb i) kb'.
Proof.
  intros Hok Hkt Hact. pose proof Hok as [Hpg (row & Hrow & Hks) [Htext Hlen] Hback Hpend].
  assert (kt ≠ [] ∧ Forall (λ b, printable b) kt) as [Hne Hpr].
  { unfold keyboard_text in Hkt. rewrite Hrow in Hkt. cbn [or_panic mbind outcome_bind] in Hkt.
    apply or_panic_Ok in Hkt. destruct (row_good _ _ Hrow) as [_ Hall].
    by destruct (getZ_Forall _ _ _ _ Hkt Hall) as (? & ? & _). }
  unfold key_clicked.
  destruct (mutate_runs (pk_input kb) ctx (λ ctx i, '(m, ctx, edit) ← click_key (multi_tap i) ctx key kt;
      let '(t, ctx) := apply_edit (textbox i) ctx edit in Ok (mkInput (in_area i) t m, ctx, tt))
    (λ i _, ∃ b n token, entered kb (Keyboard.content (textbox i)) ∧ Forall (λ b, printable b) (Keyboard.content (textbox i)) ∧
       len (Keyboard.content (textbox i)) <= MAX_LENGTH ∧ getZ kt (n `mod` len kt) = Some b ∧
       last (Keyboard.content (textbox i)) = Some b ∧
       ((∃ p, input_pending kb = Some p ∧ pkey p = key ∧ n = wrapu usize_bits (press p + 1) ∧
           Keyboard.content (textbox i) = removelast (passphrase kb) ++ [b]) ∨
        pkey <$> input_pending kb ≠ Some key ∧ n = 0 ∧ Keyboard.content (textbox i) = passphrase kb ++ [b]) ∧
       pending (multi_tap i) = (if 1 <? len kt then Some (mkPending key n token) else None)))
    as (i & ctx1 & u & -> & b & n & token & Hent & Hpr' & Hlen' & Hb & Hlast' & Hhow & Hpend').
  { intros ctx1. destruct (click_key_char (multi_tap (inner (pk_input kb))) ctx1 key kt Hne (printable_ascii _ Hpr))
      as (m' & ctx2 & edit & b & n & -> & Hb & Hedit & token & Hm'). cbn [mbind outcome_bind].
    assert (printable b) as Hpb by (apply getZ_Some in Hb as [_ Hb]; exact (Forall_lookup_1 _ _ _ _ Hpr Hb)).
    assert (∃ s, Keyboard.content (fst (apply_edit (textbox (inner (pk_input kb))) ctx2 edit)) = s ++ [b] ∧
      entered kb (s ++ [b]) ∧ Forall (λ b, printable b) s ∧ len s < MAX_LENGTH ∧
      ((∃ p, input_pending kb = Some p ∧ pkey p = key ∧ n = wrapu usize_bits (press p + 1) ∧ s = removelast (passphrase kb)) ∨
       pkey <$> input_pending kb ≠ Some key ∧ n = 0 ∧ s = passphrase kb)) as (s & Hs & Hent & Hps & Hls & Hhow).
    { destruct Hedit as [(p & Hp & Hk & -> & ->)|(Hk & -> & ->)].
      - destruct (Hpend p Hp) as (kt' & b' & Hkt' & _ & Hlast). assert (kt' = kt) as -> by congruence.
        assert (passphrase kb ≠ []) as Hnil by by intros Hnil; rewrite Hnil in Hlast.
        exists (removelast (passphrase kb)). split_and!; [| | | |left; by exists p].
        + by apply replace_last_text; [apply printable_ascii| |].
        + by eapply entered_next.
        + by apply printable_removelast.
        + destruct (passphrase kb) as [|c s _] using rev_ind; [done|]. rewrite removelast_last. rewrite length_app in Hlen.
          cbn [length] in Hlen. lia.
      - assert (len (passphrase kb) < MAX_LENGTH) as Hroom.
        { unfold is_button_active in Hact. apply orb_true_iff in Hact as [Hact|Hact]; [by apply Z.ltb_lt in Hact|].
          unfold pending_key, input_pending in *. destruct (pkey <$> pending _); [|done]. apply Z.eqb_eq in Hact. congruence. }
        exists (passphrase kb). split_and!; [by apply push_fits| |done|done|by right].
        by eapply entered_added. }
    destruct (apply_edit (textbox (inner (pk_input kb))) ctx2 edit) as [t' ctx3]. cbn [fst] in Hs.
    eexists _, _, _. split; [done|]. cbn [textbox multi_tap]. rewrite Hs. exists b, n, token. split_and!; try done.
    - apply Forall_app. by split; [|constructor].
    - rewrite length_app. cbn [length]. lia.
    - by rewrite last_snoc.
    - destruct Hhow as [(p & ? & ? & ? & ->)|(? & ? & ->)]; [left; by exists p|by right]. }
  cbn [mbind outcome_bind].
  destruct (after_edit_ok (set_input kb i) ctx1) as (kb' & ctx2 & -> & Hup & Hb'); [exact (keys_length kb Hok)|].
  pose proof Hup as [Hin Hsb _ _ Hks' _ _ _].
  assert (passphrase kb' = Keyboard.content (textbox (inner i))) as Hps by (unfold passphrase, input_text; by rewrite Hin).
  assert (input_pending kb' = pending (multi_tap (inner i))) as Hpe by (unfold input_pending; by rewrite Hin).
  eexists _, _, b, n, token. split; [done|]. rewrite Hps, Hpe, Hpend'. split_and!; try done; [|by exists i].
  apply (pass_ok_edit kb); rewrite ?Hps; try done.
  rewrite Hpe, Hpend'. destruct (1 <? len kt); [|done]. intros p [= <-]. by exists kt, b.
Qed.

(** The page that a swipe leads to. *)
Definition turned_to (pg : Z) (dir : SwipeDirection) : Z :=
  match dir with
  | SwipeLeft => wrapu usize_bits (pg + 1) `mod` PAGE_COUNT
  | SwipeRight => wrapu usize_bits (pg - 1) `mod` PAGE_COUNT
  | _ => pg
  end.

(** Another page: nothing is pending any more. *)
Lemma on_page_swipe_ok kb ctx dir : pass_ok kb → ∃ kb' ctx', on_page_swipe kb ctx dir = Ok (kb', ctx') ∧ pass_ok kb' ∧
  passphrase kb' = passphrase kb ∧ input_pending kb' = None ∧ page kb' = turned_to (page kb) dir ∧
  ∃ kb1, updated kb1 kb' ∧ page_swipe kb1 = page_swipe kb ∧ pk_confirm kb1 = pk_confirm kb ∧ pk_back kb1 = pk_back kb ∧
    (λ b, shape (inner b)) <$> pk_keys kb1 = (λ b, shape (inner b)) <$> pk_keys kb.
Proof.
  intros Hok. pose proof Hok as [Hpg (row & Hrow & Hks) [Htext Hlen] Hback Hpend]. unfold on_page_swipe.
  change (match dir with SwipeLeft => _ | SwipeRight => _ | _ => _ end) with (turned_to (page kb) dir).
  set (pg := turned_to (page kb) dir). assert (0 <= pg < PAGE_COUNT) as Hpg'.
  { unfold pg, turned_to. destruct dir; try exact Hpg; apply Z.mod_pos_bound; done. }
  destruct (mutate_ends (pk_input kb) ctx (λ ctx i, input_clear_pending i ctx)
    (λ i, textbox i = textbox (inner (pk_input kb)) ∧ pending (multi_tap i) = None)) as (i & ctx1 & -> & Hi & Hp).
  { intros ctx1. unfold input_clear_pending, clear_pending_state. by destruct (pending (multi_tap (inner (pk_input kb)))) eqn:E. }
  cbn [mbind outcome_bind]. unfold replace_button_content. cbn [pk_keys].
  destruct (proj2 (getZ_is_Some KEYBOARD pg)) as [row' Hrow']; [exact Hpg'|].
  destruct (replace_contents_row pg row' (pk_keys kb) 0 ctx1 Hrow') as (ks & ctx2 & -> & Hk & Hksh); [done| |].
  { rewrite (keys_length kb Hok). done. }
  cbn [mbind outcome_bind]. rewrite drop_0 in Hk.
  match goal with |- context [update_input_btns_state ?k ctx2] => set (kb1 := k) end.
  destruct (update_input_btns_ok kb1 ctx2) as (kb' & ctx3 & -> & Hup & Hbk).
  { apply (f_equal length) in Hk. rewrite !length_fmap in Hk. destruct (row_good _ _ Hrow') as [Hl _].
    unfold KEY_COUNT in Hl. cbn. lia. }
  pose proof Hup as [Hin Hsb _ _ Hcont _ _ _].
  assert (passphrase kb' = passphrase kb) as Hps by (unfold passphrase, input_text; by rewrite Hin, <- Hi).
  assert (input_pending kb' = None) as Hpe by (unfold input_pending; by rewrite Hin).
  assert (page kb' = pg) as Hpge by (unfold page; by rewrite Hsb).
  eexists _, _. split; [done|]. split_and!; try done; [|by exists kb1].
  split; rewrite ?Hps, ?Hpge, ?Hpe; try done.
  - exists row'. split; [done|]. by rewrite Hcont.
  - by rewrite Hbk.
Qed.

(** The keys that get an event, and the one that is clicked. *)
Lemma active_keys_event_ok states (keys : list (Child Button)) i ctx ev : length states = length keys →
  ∃ keys' ctx' clicked, active_keys_event states i keys ctx ev = Ok (keys', ctx', clicked) ∧
    (λ b, Button.content (inner b)) <$> keys' = (λ b, Button.content (inner b)) <$> keys ∧
    ∀ k t, clicked = Some (k, t) → ∃ (n : nat) b, k = i + Z.of_nat n ∧ states !! n = Some true ∧ keys !! n = Some b ∧
      t = key_text (Button.content (inner b)).
Proof.
  revert keys i ctx. induction states as [|s states IH]; intros [|b keys] i ctx Hl; try done; [by eexists _, _, None|].
  cbn [active_keys_event].
  assert (∃ b' ctx1 msg, (if s then event b ctx ev else Ok (b, ctx, None) : ui (Child Button * EventCtx * option ButtonMsg)) = Ok (b', ctx1, msg) ∧
    Button.content (inner b') = Button.content (inner b) ∧ (msg ≠ None → s = true)) as (b' & ctx1 & msg & -> & Hb & Hs).
  { destruct s; [|by eexists _, _, _].
    destruct (child_event_runs b ctx ev _ (λ ctx, button_event_runs (inner b) ctx ev)) as (b' & ctx1 & msg & -> & _ & Hc & _).
    by eexists _, _, _. }
  cbn [mbind outcome_bind]. destruct (IH keys (i + 1) ctx1) as (keys' & ctx2 & clicked & Hrest & Hk & Hcl); [by injection Hl|].
  assert (∀ k t, clicked = Some (k, t) → ∃ (n : nat) c, k = i + Z.of_nat n ∧ (s :: states) !! n = Some true ∧
    (b :: keys) !! n = Some c ∧ t = key_text (Button.content (inner c))) as Hlater.
  { intros k t Hkt. destruct (Hcl k t Hkt) as (n & c & -> & Hst & Hc & ->). exists (S n), c. split_and!; [lia|done..]. }
  assert (∃ keys'' ctx'' clicked', (match msg with
    | Some Clicked => Ok (b' :: keys, ctx1, Some (i, key_text (Button.content (inner b'))))
    | _ => '(keys, ctx, clicked) ← active_keys_event states (i + 1) keys ctx1 ev; Ok (b' :: keys, ctx, clicked)
    end : ui (list (Child Button) * EventCtx * option (Z * list Z))) = Ok (keys'', ctx'', clicked') ∧
    (λ b, Button.content (inner b)) <$> keys'' = (λ b, Button.content (inner b)) <$> (b :: keys) ∧
    (clicked' = clicked ∨ s = true ∧ clicked' = Some (i, key_text (Button.content (inner b))))) as (k2 & c2 & cl2 & -> & Hk2 & Hc2).
  { destruct (decide (msg = Some Clicked)) as [->|Hm].
    - eexists _, _, _. split; [done|]. rewrite !fmap_cons, Hb. split; [done|]. right. split; [by apply Hs|done].
    - exists (b' :: keys'), ctx2, clicked. rewrite Hrest. split; [by destruct msg as [[]|]|].
      rewrite !fmap_cons, Hb, Hk. auto. }
  eexists _, _, _. split; [done|]. split; [done|]. intros k t Hkt. destruct Hc2 as [->|[-> ->]]; [by apply Hlater|].
  injection Hkt as <- <-. exists 0%nat, b. split_and!; [lia|done..].
Qed.

Lemma clicked_key kb (n : nat) b : pass_ok kb → pk_keys kb !! n = Some b →
  keyboard_text (page kb) (Z.of_nat n) = Ok (key_text (Button.content (inner b))).
Proof.
  intros [_ (row & Hrow & Hks) _ _ _] Hb. unfold keyboard_text. rewrite Hrow. cbn [or_panic mbind outcome_bind].
  assert (((λ b, Button.content (inner b)) <$> pk_keys kb) !! n = Some (Button.content (inner b))) as Hl
    by by rewrite list_lookup_fmap, Hb.
  rewrite Hks, list_lookup_fmap in Hl. destruct (row !! n) as [t|] eqn:Ht; [|done]. cbn in Hl. injection Hl as <-.
  rewrite getZ_nat, Ht. cbn. destruct (row_good _ _ Hrow) as [_ Hall].
  by destruct (Forall_lookup_1 _ _ _ _ Hall Ht) as (_ & _ & ->).
Qed.

Lemma active_state kb (n : nat) : get_buttons_active_states kb !! n = Some true → is_button_active kb (Z.of_nat n) = true.
Proof.
  unfold get_buttons_active_states, range. rewrite list_lookup_fmap. intros Hs.
  destruct ((Z.of_nat <$> seq 0 (Z.to_nat KEY_COUNT)) !! n) as [z|] eqn:Hz; [|done]. cbn in Hs. injection Hs as Hs.
  rewrite list_lookup_fmap in Hz. destruct (seq 0 (Z.to_nat KEY_COUNT) !! n) as [m|] eqn:Hm; [|done].
  apply lookup_seq in Hm as [-> _]. cbn in Hz. by injection Hz as <-.
Qed.

(** The keyboard with other parts, but the same text, page and keys. *)
Lemma pass_ok_parts kb s (i : Child Input) b c ks : pass_ok kb → textbox (inner i) = textbox (inner (pk_input kb)) →
  (pending (multi_tap (inner i)) = None ∨ inner i = inner (pk_input kb)) →
  (λ b, Button.content (inner b)) <$> ks = (λ b, Button.content (inner b)) <$> pk_keys kb →
  is_enabled (inner b) = is_enabled (inner (pk_back kb)) →
  pass_ok (mkPassphrase s i b c ks (pk_scrollbar kb)).
Proof.
  intros Hok Hi Hp Hk Hb. pose proof Hok as [_ _ [Ht Hl] Hback Hpend].
  assert (passphrase (mkPassphrase s i b c ks (pk_scrollbar kb)) = passphrase kb) as Hps.
  { unfold passphrase, input_text. cbn. by rewrite Hi. }
  apply (pass_ok_edit kb); rewrite ?Hps; try done; [cbn; congruence|].
  unfold input_pending. cbn. destruct Hp as [->|Hp]; [done|]. unfold input_pending in Hpend. by rewrite Hp.
Qed.

Definition pass_outcome kb kb' (msg : option PassphraseKeyboardMsg) : Prop :=
  pass_ok kb' ∧ entered kb (passphrase kb') ∧ msg ≠ Some PassCancelled ∧ (msg = Some PassConfirmed → passphrase kb' = passphrase kb).

Lemma entered_parts kb s b c ks t : entered (mkPassphrase s (pk_input kb) b c ks (pk_scrollbar kb)) t → entered kb t.
Proof.
  intros [| | |key kt ch Hkt Hch Hl Hp|p kt ch Hp Hkt Hch];
    [exact (entered_same kb)|exact (entered_deleted kb H)|exact (entered_cleared kb)
    |exact (entered_added kb key kt ch Hkt Hch Hl Hp)|exact (entered_next kb p kt ch Hp Hkt Hch)].
Qed.

(** The button to go back, which is only clicked when there is a text. *)
Lemma back_event_ok kb ctx msg : pass_ok kb → (msg = Clicked → passphrase kb ≠ []) →
  ∃ kb' ctx', back_event kb ctx msg = Ok (kb', ctx', None) ∧ pass_ok kb' ∧ entered kb (passphrase kb').
Proof.
  intros Hok Hne. pose proof (pa_text kb Hok) as [Ht Hl].
  assert (∃ kb' ctx', edit_text kb ctx delete_last = Ok (kb', ctx') ∧ pass_ok kb' ∧ passphrase kb' = removelast (passphrase kb)) as Hdel.
  { apply edit_text_ok; [done| |by apply printable_removelast|].
    - intros t c Hc. unfold delete_last. rewrite Hc. pose proof (proj1 (pop_ascii _ (printable_ascii _ Ht))) as Hpop.
      by destruct (pop (passphrase kb)).
    - pose proof (len_removelast (passphrase kb)). lia. }
  assert (∃ kb' ctx', edit_text kb ctx clear = Ok (kb', ctx') ∧ pass_ok kb' ∧ passphrase kb' = []) as Hclr.
  { apply edit_text_ok; [done| |done|done]. intros t c _. unfold clear, replace. by case_bool_decide. }
  unfold back_event. destruct Hdel as (k1 & c1 & -> & Hok1 & Hp1), Hclr as (k2 & c2 & -> & Hok2 & Hp2).
  cbn [mbind outcome_bind]. destruct msg; try (eexists _, _; split; [done|]; rewrite Hp2; by split; [|constructor]).
  unfold textbox_is_empty. change (Keyboard.content (textbox (inner (pk_input kb)))) with (passphrase kb).
  rewrite bool_decide_eq_false_2 by auto. eexists _, _. split; [done|]. rewrite Hp1. split; [done|]. constructor. auto.
Qed.

Lemma event_ok kb ctx ev : pass_ok kb → runs (passphrase_keyboard_event kb ctx ev) (pass_outcome kb).
Proof.
  intros Hok. unfold passphrase_keyboard_event. destruct (is_timeout_event (multi_tap (inner (pk_input kb))) ev).
  { destruct (mutate_ends (pk_input kb) ctx (λ ctx i, input_clear_pending i ctx)
      (λ i, textbox i = textbox (inner (pk_input kb)) ∧ pending (multi_tap i) = None)) as (i & ctx1 & -> & Hi & Hp).
    { intros ctx1. unfold input_clear_pending, clear_pending_state. by destruct (pending (multi_tap (inner (pk_input kb)))) eqn:E. }
    cbn [mbind outcome_bind]. eexists _, _, _. split; [done|]. split; [by apply pass_ok_parts; auto|].
    assert (passphrase (set_input kb i) = passphrase kb) as Hps by (unfold passphrase, input_text; cbn; by rewrite Hi).
    rewrite Hps. by split; [constructor|]. }
  destruct (swipe_event (page_swipe kb) ev) as [s dir].
  set (k0 := mkPassphrase s (pk_input kb) _ _ _ _). assert (pass_ok k0) as Hok0 by (apply pass_ok_parts; auto).
  destruct dir as [dir|].
  { destruct (on_page_swipe_ok k0 ctx dir Hok0) as (kb' & ctx' & -> & Hok' & Hps & _). cbn [mbind outcome_bind].
    eexists _, _, _. split; [done|]. split; [done|]. rewrite Hps. by split; [exact (entered_same kb)|]. }
  destruct (child_event_runs (pk_confirm k0) ctx ev _ (λ ctx, button_event_runs (inner (pk_confirm k0)) ctx ev))
    as (c & ctx1 & m1 & -> & _). cbn [mbind outcome_bind].
  set (k1 := mkPassphrase (page_swipe k0) (pk_input k0) (pk_back k0) c (pk_keys k0) (pk_scrollbar k0)).
  assert (pass_ok k1) as Hok1 by (apply (pass_ok_parts kb); auto).
  case_bool_decide as Hm1.
  { eexists _, _, _. split; [done|]. split; [done|]. by split; [exact (entered_same kb)|]. }
  destruct (child_event_runs (pk_back k1) ctx1 ev _ (λ ctx, button_event_runs (inner (pk_back k1)) ctx ev))
    as (b & ctx2 & m2 & -> & Hen & _ & Hm2). cbn [mbind outcome_bind]. cbv zeta.
  set (k2 := set_back k1 b). assert (pass_ok k2) as Hok2 by (apply (pass_ok_parts kb); auto).
  assert (∀ msg, (msg = Clicked → passphrase k2 ≠ []) → runs (back_event k2 ctx2 msg) (pass_outcome kb)) as Hbe.
  { intros msg Hmsg. destruct (back_event_ok k2 ctx2 msg Hok2 Hmsg) as (kb' & ctx' & -> & Hok' & Hent).
    eexists _, _, _. split; [done|]. split_and!; try done. exact (entered_parts kb s b c (pk_keys kb) _ Hent). }
  assert (m2 = Some Clicked → passphrase k2 ≠ []) as Hne.
  { intros Hm. apply Hm2 in Hm. rewrite (pa_back k1 Hok1) in Hm. by apply bool_decide_eq_true in Hm. }
  destruct (active_keys_event_ok (get_buttons_active_states k2) (pk_keys k2) 0 ctx2 ev) as (ks & ctx3 & clicked & Hks & Hk & Hcl).
  { by rewrite active_states_length, (keys_length k2 Hok2). }
  set (k3 := set_keys k2 ks). assert (pass_ok k3) as Hok3 by (apply (pass_ok_parts kb); auto).
  assert (runs ('(ks, ctx, clicked) ← active_keys_event (get_buttons_active_states k2) 0 (pk_keys k2) ctx2 ev;
     match clicked with
     | Some (key, text) => '(self, ctx) ← key_clicked (set_keys k2 ks) ctx key text; Ok (self, ctx, None)
     | None => Ok (set_keys k2 ks, ctx, None)
     end) (pass_outcome kb)) as Hkeys.
  { rewrite Hks. cbn [mbind outcome_bind]. destruct clicked as [[key t]|].
    - destruct (Hcl key t eq_refl) as (n & btn & -> & Hst & Hbtn & ->). rewrite Z.add_0_l.
      destruct (key_clicked_ok k3 ctx3 (Z.of_nat n) (key_text (Button.content (inner btn))) Hok3) as (kb' & ctx' & _ & _ & _ & Hkc & Hok' & Hent & _).
      { exact (clicked_key k2 n btn Hok2 Hbtn). }
      { exact (active_state k2 n Hst). }
      subst k3. rewrite Hkc. cbn [mbind outcome_bind]. eexists _, _, _. split; [done|]. split_and!; try done. exact (entered_parts kb s b c ks _ Hent).
    - eexists _, _, _. split; [done|]. split; [done|]. by split; [exact (entered_same kb)|]. }
  destruct m2 as [[]|]; [exact Hkeys|exact Hkeys|by apply Hbe; auto|by apply Hbe|exact Hkeys].
Qed.
End Keyboard.

(** ** Taps and swipes *)

(** A button without a long press on a part of the display, in one of some states. *)
Definition plain_at (a : Rect) (sts : list State) (b : Button) : Prop :=
  area b = a ∧ touch_expand b = None ∧ long_press b = None ∧ long_timer b = None ∧ state b ∈ sts.

(** The wrapper does not change what a button does. *)
Lemma child_button_event (b : Child Button) ctx ev c m : (∀ ctx, ∃ ctx', button_event (inner b) ctx ev = (c, ctx', m)) →
  ∃ b' ctx', event b ctx ev = Ok (b', ctx', m) ∧ inner b' = c.
Proof.
  intros He. destruct (child_event_runs b ctx ev (λ b' m', b' = c ∧ m' = m)) as (b' & ctx' & m' & -> & Hb & ->).
  - intros ctx1. destruct (He ctx1) as [ctx2 Hev]. cbn [event button_component]. rewrite Hev. by eexists _, _, _.
  - by exists b', ctx'.
Qed.

Section Taps.
Context (a : Rect) (pos : Point).

Lemma tap_elsewhere (b : Child Button) ctx e : touch_expand (inner b) = None → state (inner b) ∈ [Initial_; Disabled] →
  (e = TouchStart pos ∧ contains (area (inner b)) pos = false ∨ e = TouchEnd pos) →
  ∃ b' ctx', event b ctx (Touch e) = Ok (b', ctx', None) ∧ inner b' = inner b.
Proof.
  intros Ht Hs He. apply child_button_event. intros ctx1. exists ctx1. unfold button_event, touch_area. rewrite Ht.
  rewrite !elem_of_cons, elem_of_nil in Hs. destruct He as [[-> Hc]| ->]; destruct Hs as [Hs|[Hs|[]]]; rewrite Hs; try done; by rewrite Hc.
Qed.

Lemma tap_begins (b : Child Button) ctx : plain_at a [Initial_] (inner b) → contains a pos = true →
  ∃ b' ctx' m, event b ctx (Touch (TouchStart pos)) = Ok (b', ctx', m) ∧ m ≠ Some Clicked ∧
    plain_at a [Pressed] (inner b') ∧ Button.content (inner b') = Button.content (inner b).
Proof.
  intros (Ha & Ht & Hl & Htm & Hs) Hc. apply list_elem_of_singleton in Hs.
  destruct (child_button_event b ctx (Touch (TouchStart pos)) (with_state (inner b) Pressed) (Some Pressed_)) as (b' & ctx' & -> & Hb).
  { intros ctx1. destruct (inner b). cbn in *. subst. unfold button_event, touch_area. cbn. rewrite Hc. by eexists. }
  eexists _, _, _. split; [done|]. split; [done|]. rewrite Hb. split; [|done]. split_and!; try done. cbn. set_solver.
Qed.

Lemma tap_ends (b : Child Button) ctx : plain_at a [Pressed] (inner b) → contains a pos = true →
  ∃ b' ctx', event b ctx (Touch (TouchEnd pos)) = Ok (b', ctx', Some Clicked) ∧
    plain_at a [Initial_] (inner b') ∧ Button.content (inner b') = Button.content (inner b).
Proof.
  intros (Ha & Ht & Hl & Htm & Hs) Hc. apply list_elem_of_singleton in Hs.
  destruct (child_button_event b ctx (Touch (TouchEnd pos)) (with_state (inner b) Initial_) (Some Clicked)) as (b' & ctx' & -> & Hb).
  { intros ctx1. destruct (inner b). cbn in *. subst. unfold button_event, touch_area. cbn. rewrite Hc. by eexists. }
  eexists _, _. split; [done|]. rewrite Hb. split; [|done]. split_and!; try done. cbn. set_solver.
Qed.
End Taps.

(** The keys that a tap does not hit. *)
Definition elsewhere (pos : Point) (b : Button) : Prop :=
  touch_expand b = None ∧ state b ∈ [Initial_; Disabled] ∧ contains (area b) pos = false.

Section KeyTaps.
Context (pos : Point).

Lemma keys_elsewhere states (keys : list (Child Button)) base ctx e : length states = length keys →
  e = TouchStart pos ∨ e = TouchEnd pos → Forall (λ b, elsewhere pos (inner b)) keys →
  ∃ keys' ctx', active_keys_event states base keys ctx (Touch e) = Ok (keys', ctx', None) ∧ inner <$> keys' = inner <$> keys.
Proof.
  intros Hl He Hall. revert keys base ctx Hl Hall. induction states as [|s states IH]; intros [|b keys] base ctx Hl Hall; try done;
    [by eexists _, _|]. cbn [active_keys_event]. apply Forall_cons in Hall as [(Ht & Hs & Hc) Hall].
  assert (∃ b' ctx1, (if s then event b ctx (Touch e) else Ok (b, ctx, None) : ui (Child Button * EventCtx * option ButtonMsg)) = Ok (b', ctx1, None) ∧
    inner b' = inner b) as (b' & ctx1 & -> & Hb).
  { destruct s; [|by eexists _, _]. apply (tap_elsewhere pos); [done|done|]. destruct He as [->| ->]; auto. }
  cbn [mbind outcome_bind]. destruct (IH keys (base + 1) ctx1) as (keys' & ctx2 & -> & Hk); [by injection Hl|done|].
  cbn [mbind outcome_bind]. eexists _, _. split; [done|]. by rewrite !fmap_cons, Hb, Hk.
Qed.

Context (a : Rect) (Hpos : contains a pos = true).

(** A tap on key [i]: it gets pressed, and at the end it is clicked. *)
Lemma keys_tap (ends : bool) states (keys : list (Child Button)) base ctx i b : length states = length keys →
  states !! i = Some true → keys !! i = Some b → plain_at a [if ends then Pressed else Initial_] (inner b) →
  (∀ j c, keys !! j = Some c → j ≠ i → elsewhere pos (inner c)) →
  ∃ keys' ctx' c,
    active_keys_event states base keys ctx (Touch (if ends then TouchEnd pos else TouchStart pos)) =
      Ok (keys', ctx', if ends then Some (base + Z.of_nat i, key_text (Button.content (inner b))) else None) ∧
    inner <$> keys' = <[i := c]> (inner <$> keys) ∧ plain_at a [if ends then Initial_ else Pressed] c ∧
    Button.content c = Button.content (inner b).
Proof.
  revert keys base ctx i. induction states as [|s states IH]; intros [|k keys] base ctx i Hl Hst Hb Hp Hother; try done.
  cbn [active_keys_event]. destruct i as [|i].
  - cbn in Hst, Hb. injection Hst as ->. injection Hb as ->.
    assert (Forall (λ b, elsewhere pos (inner b)) keys) as Hall.
    { apply Forall_forall. intros c Hc. apply list_elem_of_lookup in Hc as [j Hj]. by apply (Hother (S j)). }
    destruct ends.
    + destruct (tap_ends a pos b ctx Hp Hpos) as (b' & ctx1 & -> & Hp' & Hc). cbn [mbind outcome_bind].
      rewrite Z.add_0_r, Hc. by eexists _, _, (inner b').
    + destruct (tap_begins a pos b ctx Hp Hpos) as (b' & ctx1 & m & -> & Hm & Hp' & Hc). cbn [mbind outcome_bind].
      destruct (keys_elsewhere states keys (base + 1) ctx1 (TouchStart pos)) as (keys' & ctx2 & Hev & Hk); [by injection Hl|auto|done|].
      exists (b' :: keys'), ctx2, (inner b'). split; [|split; [by rewrite !fmap_cons, Hk|done]].
      rewrite Hev. by destruct m as [[]|].
  - cbn in Hst, Hb. assert (elsewhere pos (inner k)) as (Ht & Hs & Hc) by by apply (Hother 0%nat).
    assert (∃ k' ctx1, (if s then event k ctx (Touch (if ends then TouchEnd pos else TouchStart pos)) else Ok (k, ctx, None)
      : ui (Child Button * EventCtx * option ButtonMsg)) = Ok (k', ctx1, None) ∧ inner k' = inner k) as (k' & ctx1 & -> & Hk).
    { destruct s; [|by eexists _, _]. apply (tap_elsewhere pos); [done|done|]. destruct ends; auto. }
    cbn [mbind outcome_bind].
    destruct (IH keys (base + 1) ctx1 i) as (keys' & ctx2 & c & -> & Hk' & Hp' & Hc'); [by injection Hl|done|done|done| |].
    { intros j d Hj Hne. apply (Hother (S j)); [done|congruence]. }
    cbn [mbind outcome_bind]. exists (k' :: keys'), ctx2, c. split; [|split; [by rewrite !fmap_cons, Hk, Hk'|done]].
    destruct ends; [|done]. by replace (base + 1 + Z.of_nat i) with (base + Z.of_nat (S i)) by lia.
Qed.
End KeyTaps.

(** ** The keyboard on the display *)

Definition display : Rect := from_top_left_and_size point_zero (mkOffset 240 240).
Definition keyboard_area : Rect := inset display borders.

(** The cells of the buttons. *)
Definition area_at (i : Z) : Rect :=
  let '(_, keys) := split_bottom keyboard_area (i16 (4 * PIN_BUTTON_HEIGHT + 3 * BUTTON_SPACING)) in
  match cell (grid_with_spacing (grid_new keys 4 3) BUTTON_SPACING) i with Ok r => r | _ => rect_zero end.
Definition key_area (i : nat) : Rect := area_at (if Z.of_nat i <? 9 then Z.of_nat i else Z.of_nat i + 1).

(** Where a key is tapped: there is no other button. *)
Definition key_point (i : nat) : Point := rect_center (key_area i).

Definition swipe_at (o : option Point) : Swipe := mkSwipe keyboard_area false false true true o.

Lemma key_points (i : nat) : (i < 10)%nat →
  contains (key_area i) (key_point i) = true ∧ contains (area_at 11) (key_point i) = false ∧
  contains (area_at 9) (key_point i) = false ∧ contains keyboard_area (key_point i) = true ∧
  ∀ j : nat, (j < 10)%nat → j ≠ i → contains (key_area j) (key_point i) = false.
Proof.
  intros Hi. assert (∀ j : nat, (j < 10)%nat → contains (key_area j) (key_point i) = bool_decide (j = i)) as Hj.
  { intros j Hj. do 10 (destruct i as [|i]; [by do 10 (destruct j as [|j]; [by vm_compute|]); lia|]). lia. }
  split_and!; [by rewrite Hj, bool_decide_eq_true_2| | | |intros j ??; by rewrite Hj, bool_decide_eq_false_2];
    do 10 (destruct i as [|i]; [by vm_compute|]); lia.
Qed.

Lemma tap_no_swipe (i : nat) : (i < 10)%nat →
  swipe_event (swipe_at (Some (key_point i))) (Touch (TouchEnd (key_point i))) = (swipe_at None, None).
Proof. intros Hi. do 10 (destruct i as [|i]; [by vm_compute|]). lia. Qed.

(** Where a swipe to the left begins and ends, and where the confirm button is
    tapped. *)
Definition swipe_begin : Point := mkPoint 200 8.
Definition swipe_end : Point := mkPoint 20 8.
Definition confirm_point : Point := rect_center (area_at 11).

Lemma other_points pos : pos ∈ [swipe_begin; confirm_point] →
  contains keyboard_area pos = true ∧ contains (area_at 9) pos = false ∧
  ∀ j : nat, (j < 10)%nat → contains (key_area j) pos = false.
Proof.
  intros Hpos. rewrite !elem_of_cons, elem_of_nil in Hpos.
  destruct Hpos as [->|[->|[]]]; (split_and!; [by vm_compute..|]); intros j Hj;
    do 10 (destruct j as [|j]; [by vm_compute|]); lia.
Qed.

Lemma confirm_swipe : contains (area_at 11) swipe_begin = false ∧ contains (area_at 11) confirm_point = true ∧
  swipe_event (swipe_at (Some swipe_begin)) (Touch (TouchEnd swipe_end)) = (swipe_at None, Some SwipeLeft) ∧
  swipe_event (swipe_at (Some confirm_point)) (Touch (TouchEnd confirm_point)) = (swipe_at None, None).
Proof. by vm_compute. Qed.

(** What the layout is does not matter from here on. *)
#[local] Opaque area_at key_area key_point swipe_begin swipe_end confirm_point.

(** A button that is not touched. *)
Definition rests_at (a : Rect) (b : Button) : Prop := area b = a ∧ touch_expand b = None ∧ state b ∈ [Initial_; Disabled].

Record laid_out (kb : PassphraseKeyboard) : Prop := {
  la_keys : ∀ i b, pk_keys kb !! i = Some b → plain_at (key_area i) [Initial_; Disabled] (inner b) ∧
    (is_button_active kb (Z.of_nat i) = true → state (inner b) = Initial_);
  la_confirm : plain_at (area_at 11) [Initial_] (inner (pk_confirm kb));
  la_back : rests_at (area_at 9) (inner (pk_back kb));
  la_swipe : page_swipe kb = swipe_at None
}.

Lemma updated_laid_out kb kb' : updated kb kb' →
  (∀ i b, pk_keys kb !! i = Some b → ∃ sts, plain_at (key_area i) sts (inner b)) →
  plain_at (area_at 11) [Initial_] (inner (pk_confirm kb)) → rests_at (area_at 9) (inner (pk_back kb)) →
  page_swipe kb = swipe_at None → laid_out kb'.
Proof.
  intros [Hin _ Hsw Hcf _ Hsh Hst [Hbsh Hbst]] Hk Hc (Ha & Ht & Hs) Hswipe. split; [| |split_and!|]; try congruence.
  - intros i b Hb. assert (((λ b, shape (inner b)) <$> pk_keys kb') !! i = Some (shape (inner b))) as Hi
      by by rewrite list_lookup_fmap, Hb.
    rewrite Hsh, list_lookup_fmap in Hi. destruct (pk_keys kb !! i) as [b0|] eqn:Hb0; [|done]. cbn in Hi.
    destruct (Hk i b0 Hb0) as (sts & Ha0 & Ht0 & Hl0 & Htm0 & _). unfold shape in Hi. injection Hi as Ha1 Ht1 Hl1 Htm1.
    assert (((λ b, state (inner b)) <$> pk_keys kb') !! i = Some (state (inner b))) as Hi
      by by rewrite list_lookup_fmap, Hb.
    rewrite Hst, list_lookup_fmap in Hi. destruct (get_buttons_active_states kb' !! i) as [s|] eqn:Hs0; [|done]. cbn in Hi.
    injection Hi as Hi. split; [split_and!; try congruence; rewrite <- Hi; destruct s; cbn; set_solver|].
    intros Hact. destruct s; [done|]. exfalso.
    unfold get_buttons_active_states, range in Hs0. rewrite !list_lookup_fmap in Hs0.
    destruct (seq 0 (Z.to_nat KEY_COUNT) !! i) as [m|] eqn:Hm; [|done]. apply lookup_seq in Hm as [-> _]. cbn in Hs0. congruence.
  - unfold shape in Hbsh. congruence.
  - unfold shape in Hbsh. congruence.
  - destruct Hbst as [->|?]; done.
Qed.

(** *** A tap on a key *)

(** The keys, of which one may be pressed. *)
Definition keys_at (i : nat) (sts : list State) (keys : list (Child Button)) : Prop :=
  ∀ j c, keys !! j = Some c → plain_at (key_area j) (if decide (j = i) then sts else [Initial_; Disabled]) (inner c).

(** One touch of a tap: the other buttons ignore it. *)
Lemma touch_key kb ctx (ends : bool) i b : (i < 10)%nat → pass_ok kb → pk_keys kb !! i = Some b →
  is_button_active kb (Z.of_nat i) = true → keys_at i [if ends then Pressed else Initial_] (pk_keys kb) →
  plain_at (area_at 11) [Initial_] (inner (pk_confirm kb)) → rests_at (area_at 9) (inner (pk_back kb)) →
  page_swipe kb = swipe_at (if ends then Some (key_point i) else None) →
  ∃ bk cf ks ctx', inner bk = inner (pk_back kb) ∧ inner cf = inner (pk_confirm kb) ∧
    keys_at i [if ends then Initial_ else Pressed] ks ∧
    (λ b, Button.content (inner b)) <$> ks = (λ b, Button.content (inner b)) <$> pk_keys kb ∧
    let kb' := mkPassphrase (swipe_at (if ends then None else Some (key_point i))) (pk_input kb) bk cf ks (pk_scrollbar kb) in
    passphrase_keyboard_event kb ctx (Touch (if ends then TouchEnd (key_point i) else TouchStart (key_point i))) =
    if ends then '(self, ctx) ← key_clicked kb' ctx' (Z.of_nat i) (key_text (Button.content (inner b))); Ok (self, ctx, None)
    else Ok (kb', ctx', None).
Proof.
  intros Hi Hok Hb Hact Hks (Hca & Hct & _ & _ & Hcs) (Hba & Hbt & Hbs) Hsw.
  destruct (key_points i Hi) as (Hin & Hnc & Hnb & Hkb & Hoth).
  set (e := if ends then TouchEnd (key_point i) else TouchStart (key_point i)).
  assert (∀ (c : Child Button) ctx, touch_expand (inner c) = None → state (inner c) ∈ [Initial_; Disabled] →
    contains (area (inner c)) (key_point i) = false → ∃ c' ctx', event c ctx (Touch e) = Ok (c', ctx', None) ∧ inner c' = inner c) as Helse.
  { intros c ctx1 Ht Hs Hc. apply (tap_elsewhere (key_point i)); [done|done|]. unfold e. destruct ends; auto. }
  assert (swipe_event (page_swipe kb) (Touch e) = (swipe_at (if ends then None else Some (key_point i)), None)) as Hse.
  { rewrite Hsw. unfold e. destruct ends; [by apply tap_no_swipe|]. unfold swipe_event, swipe_at. cbn [is_active negb allow_up allow_down allow_left allow_right orb].
    cbn. by rewrite Hkb. }
  destruct (Helse (pk_confirm kb) ctx) as (cf & ctx1 & Hcf & Hcfi); [exact Hct| |rewrite Hca; exact Hnc|].
  { apply list_elem_of_singleton in Hcs. rewrite Hcs. left. }
  destruct (Helse (pk_back kb) ctx1) as (bk & ctx2 & Hbk & Hbki); [exact Hbt|exact Hbs|rewrite Hba; exact Hnb|].
  destruct (keys_tap (key_point i) (key_area i) Hin ends (get_buttons_active_states kb) (pk_keys kb) 0 ctx2 i b)
    as (ks & ctx3 & c & Hev & Hkeys & Hcp & Hcc).
  { by rewrite active_states_length, (keys_length kb Hok). }
  { unfold get_buttons_active_states, range. rewrite !list_lookup_fmap, lookup_seq_lt by (unfold KEY_COUNT; lia). cbn. by rewrite Hact. }
  { done. }
  { specialize (Hks i b Hb). by rewrite decide_True in Hks. }
  { intros j k Hj Hne. specialize (Hks j k Hj). rewrite decide_False in Hks by done. destruct Hks as (Ha & Ht & _ & _ & Hs).
    split_and!; [done|done|]. rewrite Ha. apply Hoth; [|done]. apply lookup_lt_Some in Hj. by rewrite (keys_length kb Hok) in Hj. }
  exists bk, cf, ks, ctx3. split_and!; [done|done| | |].
  - intros j k Hj. assert ((inner <$> ks) !! j = Some (inner k)) as Hl by by rewrite list_lookup_fmap, Hj.
    rewrite Hkeys in Hl. destruct (decide (j = i)) as [->|Hne].
    + rewrite list_lookup_insert_eq in Hl by (rewrite length_fmap, (keys_length kb Hok); lia). by injection Hl as <-.
    + rewrite list_lookup_insert_ne, list_lookup_fmap in Hl by done. destruct (pk_keys kb !! j) as [k0|] eqn:Hk0; [|done].
      cbn in Hl. injection Hl as <-. specialize (Hks j k0 Hk0). by rewrite decide_False in Hks.
  - rewrite !(list_fmap_compose inner Button.content), Hkeys, list_fmap_insert, Hcc. apply list_insert_id.
    by rewrite !list_lookup_fmap, Hb.
  - cbv zeta. unfold passphrase_keyboard_event. cbn [is_timeout_event]. fold e. rewrite Hse.
    cbn [pk_confirm]. rewrite Hcf. cbn [mbind outcome_bind]. rewrite bool_decide_eq_false_2 by done.
    cbn [pk_back]. rewrite Hbk. cbn [mbind outcome_bind]. unfold set_back. cbn [page_swipe pk_input pk_confirm pk_keys pk_scrollbar].
    match goal with |- context [get_buttons_active_states ?k] => change (get_buttons_active_states k) with (get_buttons_active_states kb) end.
    subst e. rewrite Hev. cbn [mbind outcome_bind]. by destruct ends; rewrite ?Z.add_0_l.
Qed.

(** ** Entry *)

(** The keyboard after some touches, up to the first message. *)
Fixpoint touch_run (kb : PassphraseKeyboard) (ctx : EventCtx) (es : list TouchEvent)
    : ui (PassphraseKeyboard * EventCtx * option PassphraseKeyboardMsg) :=
  match es with
  | [] => Ok (kb, ctx, None)
  | e :: es =>
    '(kb, ctx, msg) ← passphrase_keyboard_event kb ctx (Touch e);
    match msg with Some m => Ok (kb, ctx, Some m) | None => touch_run kb ctx es end
  end.

Lemma touch_step kb ctx e es kb1 ctx1 : passphrase_keyboard_event kb ctx (Touch e) = Ok (kb1, ctx1, None) →
  touch_run kb ctx (e :: es) = touch_run kb1 ctx1 es.
Proof. intros Hev. cbn [touch_run]. by rewrite Hev. Qed.

Lemma touch_run_app kb ctx es1 es2 kb1 ctx1 : touch_run kb ctx es1 = Ok (kb1, ctx1, None) →
  touch_run kb ctx (es1 ++ es2) = touch_run kb1 ctx1 es2.
Proof.
  revert kb ctx. induction es1 as [|e es1 IH]; intros kb ctx Hrun; cbn [app touch_run] in *; [by injection Hrun as <- <-|].
  destruct (passphrase_keyboard_event kb ctx (Touch e)) as [[[kb2 ctx2] msg]| | |]; try done. cbn [mbind outcome_bind] in *.
  destruct msg; [done|by apply IH].
Qed.

(** A keyboard on the display that is not touched. *)
Definition ready kb : Prop := pass_ok kb ∧ laid_out kb.

Lemma ready_keys kb i : ready kb → is_button_active kb (Z.of_nat i) = true → keys_at i [Initial_] (pk_keys kb).
Proof.
  intros [_ Hl] Hact j c Hc. destruct (la_keys kb Hl j c Hc) as [(Ha & Ht & Hlp & Hlt & Hs) Hin].
  destruct (decide (j = i)) as [->|]; [|done]. split_and!; try done. rewrite (Hin Hact). left.
Qed.

(** What a tap on a key enters: its first character, or for the key that was
    tapped last the next one. *)
Lemma tap_ok kb ctx i kt : (i < 10)%nat → ready kb → keyboard_text (page kb) (Z.of_nat i) = Ok kt →
  is_button_active kb (Z.of_nat i) = true →
  ∃ kb' ctx' b n token, touch_run kb ctx [TouchStart (key_point i); TouchEnd (key_point i)] = Ok (kb', ctx', None) ∧ ready kb' ∧
    page kb' = page kb ∧ getZ kt (n `mod` len kt) = Some b ∧
    ((∃ p, input_pending kb = Some p ∧ pkey p = Z.of_nat i ∧ n = wrapu usize_bits (press p + 1) ∧
        passphrase kb' = removelast (passphrase kb) ++ [b]) ∨
     pkey <$> input_pending kb ≠ Some (Z.of_nat i) ∧ n = 0 ∧ passphrase kb' = passphrase kb ++ [b]) ∧
    input_pending kb' = (if 1 <? len kt then Some (mkPending (Z.of_nat i) n token) else None).
Proof.
  intros Hi Hr Hkt Hact. pose proof Hr as [Hok Hl]. pose proof (ready_keys kb i Hr Hact) as Hka.
  destruct (lookup_lt_is_Some_2 (pk_keys kb) i) as [b0 Hb0]; [by rewrite (keys_length kb Hok)|].
  pose proof (clicked_key kb i b0 Hok Hb0) as Hck. assert (key_text (Button.content (inner b0)) = kt) as Hkt0 by congruence.
  destruct (touch_key kb ctx false i b0 Hi Hok Hb0 Hact Hka (la_confirm kb Hl) (la_back kb Hl) (la_swipe kb Hl))
    as (bk & cf & ks & ctx1 & Hbk & Hcf & Hks & Hcont & Hev). cbv zeta in Hev.
  set (k1 := mkPassphrase _ _ bk cf ks _) in Hev.
  assert (pass_ok k1) as Hok1 by (apply pass_ok_parts; auto; congruence).
  destruct (lookup_lt_is_Some_2 ks i) as [b1 Hb1]; [change ks with (pk_keys k1); by rewrite (keys_length k1 Hok1)|].
  assert (keyboard_text (page k1) (Z.of_nat i) = Ok (key_text (Button.content (inner b1)))) as Hck1 by by apply clicked_key.
  assert (key_text (Button.content (inner b1)) = kt) as Hkt1 by (change (page k1) with (page kb) in Hck1; congruence).
  assert (plain_at (area_at 11) [Initial_] (inner cf)) as Hcf1 by (rewrite Hcf; exact (la_confirm kb Hl)).
  assert (rests_at (area_at 9) (inner bk)) as Hbk1 by (rewrite Hbk; exact (la_back kb Hl)).
  destruct (touch_key k1 ctx1 true i b1 Hi Hok1 Hb1 Hact Hks Hcf1 Hbk1 eq_refl)
    as (bk2 & cf2 & ks2 & ctx2 & Hbk2 & Hcf2 & Hks2 & Hcont2 & Hev2).
  cbv zeta in Hev2. set (k2 := mkPassphrase _ _ bk2 cf2 ks2 _) in Hev2. rewrite Hkt1 in Hev2.
  assert (pass_ok k2) as Hok2.
  { apply (pass_ok_parts kb); auto; [by rewrite Hcont2|by rewrite Hbk2; cbn; rewrite Hbk]. }
  destruct (key_clicked_ok k2 ctx2 (Z.of_nat i) kt Hok2 Hkt Hact)
    as (kb' & ctx' & b & n & token & Hkc & Hok' & _ & Hch & Hhow & Hpe & i' & Hup).
  exists kb', ctx', b, n, token. split; [|split; [split; [done|]|split_and!; try done]].
  - rewrite Hkc in Hev2. rewrite (touch_step _ _ _ _ _ _ Hev). by rewrite (touch_step _ _ _ _ _ _ Hev2).
  - apply (updated_laid_out _ _ Hup); cbn [set_input pk_keys pk_confirm pk_back page_swipe k2].
    + intros j c Hj. eexists. exact (Hks2 j c Hj).
    + rewrite Hcf2. exact Hcf1.
    + rewrite Hbk2. exact Hbk1.
    + reflexivity.
  - destruct Hup as [_ Hsb _ _ _ _ _ _]. unfold page. by rewrite Hsb.
Qed.

(** *** Turning the page and confirming *)

(** A touch that begins on no key, and maybe on the button to confirm. *)
Lemma touch_other kb ctx pos : ready kb → pos ∈ [swipe_begin; confirm_point] →
  ∃ kb' ctx', passphrase_keyboard_event kb ctx (Touch (TouchStart pos)) = Ok (kb', ctx', None) ∧ pass_ok kb' ∧
    pk_input kb' = pk_input kb ∧ page kb' = page kb ∧ inner <$> pk_keys kb' = inner <$> pk_keys kb ∧
    inner (pk_back kb') = inner (pk_back kb) ∧ page_swipe kb' = swipe_at (Some pos) ∧
    plain_at (area_at 11) [if contains (area_at 11) pos then Pressed else Initial_] (inner (pk_confirm kb')).
Proof.
  intros [Hok Hl] Hpos. destruct (other_points pos Hpos) as (Hkb & Hnb & Hnk).
  assert (swipe_event (page_swipe kb) (Touch (TouchStart pos)) = (swipe_at (Some pos), None)) as Hse.
  { rewrite (la_swipe kb Hl). unfold swipe_event, swipe_at. cbn. by rewrite Hkb. }
  assert (∃ cf ctx' m, event (pk_confirm kb) ctx (Touch (TouchStart pos)) = Ok (cf, ctx', m) ∧ m ≠ Some Clicked ∧
    plain_at (area_at 11) [if contains (area_at 11) pos then Pressed else Initial_] (inner cf)) as (cf & ctx1 & m & Hcf & Hm & Hcfi).
  { pose proof (la_confirm kb Hl) as Hp. destruct (contains (area_at 11) pos) eqn:Hc.
    - destruct (tap_begins (area_at 11) pos (pk_confirm kb) ctx Hp Hc) as (cf & ctx1 & m & Hev & Hm & Hcp & _). by exists cf, ctx1, m.
    - pose proof Hp as (Ha & Ht & _ & _ & Hs).
      destruct (tap_elsewhere pos (pk_confirm kb) ctx (TouchStart pos) Ht) as (cf & ctx1 & Hev & Hcp).
      + apply list_elem_of_singleton in Hs. rewrite Hs. left.
      + left. by rewrite Ha.
      + exists cf, ctx1, None. by rewrite Hcp. }
  destruct (la_back kb Hl) as (Hba & Hbt & Hbs).
  destruct (tap_elsewhere pos (pk_back kb) ctx1 (TouchStart pos) Hbt Hbs) as (bk & ctx2 & Hbk & Hbki); [left; by rewrite Hba|].
  destruct (keys_elsewhere pos (get_buttons_active_states kb) (pk_keys kb) 0 ctx2 (TouchStart pos)) as (ks & ctx3 & Hks & Hki).
  { by rewrite active_states_length, (keys_length kb Hok). }
  { by left. }
  { apply Forall_forall. intros c Hc. apply list_elem_of_lookup in Hc as [j Hj]. destruct (la_keys kb Hl j c Hj) as [(Ha & Ht & _ & _ & Hs) _].
    split_and!; [done|done|]. rewrite Ha. apply Hnk. apply lookup_lt_Some in Hj. by rewrite (keys_length kb Hok) in Hj. }
  exists (mkPassphrase (swipe_at (Some pos)) (pk_input kb) bk cf ks (pk_scrollbar kb)), ctx3.
  split; [|split; [|split_and!; done]].
  - unfold passphrase_keyboard_event. cbn [is_timeout_event]. rewrite Hse. cbn [pk_confirm]. rewrite Hcf. cbn [mbind outcome_bind].
    rewrite bool_decide_eq_false_2 by done. cbn [pk_back]. rewrite Hbk. cbn [mbind outcome_bind].
    unfold set_back. cbn [page_swipe pk_input pk_confirm pk_keys pk_scrollbar].
    match goal with |- context [get_buttons_active_states ?k] => change (get_buttons_active_states k) with (get_buttons_active_states kb) end.
    by rewrite Hks.
  - apply pass_ok_parts; auto; [|congruence].
    by rewrite !(list_fmap_compose inner Button.content), Hki.
Qed.

(** A swipe to the left turns the page and ends the tapping of a key. *)
Lemma swipe_ok kb ctx : ready kb → ∃ kb' ctx', touch_run kb ctx [TouchStart swipe_begin; TouchEnd swipe_end] = Ok (kb', ctx', None) ∧
  ready kb' ∧ passphrase kb' = passphrase kb ∧ input_pending kb' = None ∧ page kb' = (page kb + 1) `mod` PAGE_COUNT.
Proof.
  intros Hr. destruct (touch_other kb ctx swipe_begin Hr) as (k1 & ctx1 & Hev & Hok1 & Hin & Hpg & Hks & Hbk & Hsw & Hcf); [left|].
  destruct confirm_swipe as (Hnc & _ & Hleft & _). rewrite Hnc in Hcf. destruct Hr as [Hok Hl].
  set (k2 := mkPassphrase (swipe_at None) (pk_input k1) (pk_back k1) (pk_confirm k1) (pk_keys k1) (pk_scrollbar k1)).
  assert (pass_ok k2) as Hok2 by (apply (pass_ok_parts k1); auto).
  destruct (on_page_swipe_ok k2 ctx1 SwipeLeft Hok2) as (kb' & ctx' & Hps & Hok' & Htext & Hpe & Hpg' & k3 & Hup & Hsw3 & Hcf3 & Hbk3 & Hks3).
  assert (passphrase_keyboard_event k1 ctx1 (Touch (TouchEnd swipe_end)) = Ok (kb', ctx', None)) as Hev2.
  { unfold passphrase_keyboard_event. cbn [is_timeout_event]. rewrite Hsw, Hleft. fold k2. by rewrite Hps. }
  exists kb', ctx'. split; [|split; [split; [done|]|split_and!]].
  - by rewrite (touch_step _ _ _ _ _ _ Hev), (touch_step _ _ _ _ _ _ Hev2).
  - apply (updated_laid_out k3 kb' Hup); [|by rewrite Hcf3|rewrite Hbk3; change (pk_back k2) with (pk_back k1); rewrite Hbk; exact (la_back kb Hl)|by rewrite Hsw3].
    intros j c Hj. assert (((λ b, shape (inner b)) <$> pk_keys kb) !! j = Some (shape (inner c))) as Hs.
    { assert ((λ b, shape (inner b)) <$> pk_keys k1 = (λ b, shape (inner b)) <$> pk_keys kb) as Hsame
        by by rewrite !(list_fmap_compose inner shape), Hks.
      rewrite <- Hsame. change (pk_keys k1) with (pk_keys k2). rewrite <- Hks3. by rewrite list_lookup_fmap, Hj. }
    rewrite list_lookup_fmap in Hs. destruct (pk_keys kb !! j) as [c0|] eqn:Hc0; [|done]. cbn in Hs. unfold shape in Hs.
    injection Hs as Ha Ht Hlp Hlt. destruct (la_keys kb Hl j c0 Hc0) as [(? & ? & ? & ? & _) _].
    exists [state (inner c)]. split_and!; [congruence..|left].
  - rewrite Htext. unfold passphrase, input_text. cbn. by rewrite Hin.
  - done.
  - rewrite Hpg'. unfold turned_to. change (page k2) with (page k1). rewrite Hpg, wrapu_small; [done|].
    pose proof (pa_page kb Hok). unfold in_u, PAGE_COUNT in *. lia.
Qed.

(** A tap on the button to confirm gives the text. *)
Lemma confirm_ok kb ctx : ready kb →
  ∃ kb' ctx', touch_run kb ctx [TouchStart confirm_point; TouchEnd confirm_point] = Ok (kb', ctx', Some PassConfirmed) ∧
    passphrase kb' = passphrase kb.
Proof.
  intros Hr. destruct (touch_other kb ctx confirm_point Hr) as (k1 & ctx1 & Hev & Hok1 & Hin & _ & _ & _ & Hsw & Hcf); [right; left|].
  destruct confirm_swipe as (_ & Hc & _ & Hno). rewrite Hc in Hcf.
  destruct (tap_ends (area_at 11) confirm_point (pk_confirm k1) ctx1 Hcf Hc) as (cf & ctx2 & Hcl & _).
  set (k2 := mkPassphrase (swipe_at None) (pk_input k1) (pk_back k1) cf (pk_keys k1) (pk_scrollbar k1)).
  assert (passphrase_keyboard_event k1 ctx1 (Touch (TouchEnd confirm_point)) = Ok (k2, ctx2, Some PassConfirmed)) as Hev2.
  { unfold passphrase_keyboard_event. cbn [is_timeout_event]. rewrite Hsw, Hno. cbn [pk_confirm]. rewrite Hcl.
    cbn [mbind outcome_bind]. by rewrite bool_decide_eq_true_2. }
  exists k2, ctx2. split.
  - rewrite (touch_step _ _ _ _ _ _ Hev). cbn [touch_run]. by rewrite Hev2.
  - unfold passphrase, input_text. cbn. by rewrite Hin.
Qed.

(** Swipes lead to every page. *)
Lemma turn_to kb ctx pg : ready kb → 0 <= pg < PAGE_COUNT → ∃ es kb' ctx', touch_run kb ctx es = Ok (kb', ctx', None) ∧
  ready kb' ∧ passphrase kb' = passphrase kb ∧ input_pending kb' = None ∧ page kb' = pg.
Proof.
  intros Hr Hpg.
  assert (∀ n kb ctx, ready kb → ∃ es kb' ctx', touch_run kb ctx es = Ok (kb', ctx', None) ∧ ready kb' ∧
    passphrase kb' = passphrase kb ∧ input_pending kb' = None ∧ page kb' = (page kb + Z.of_nat (S n)) `mod` PAGE_COUNT) as Hn.
  { clear. intros n. induction n as [|n IH]; intros kb ctx Hr;
      destruct (swipe_ok kb ctx Hr) as (k1 & ctx1 & Hrun & Hr1 & Htext & Hpe & Hpg); [by eexists _, k1, ctx1|].
    destruct (IH k1 ctx1 Hr1) as (es & k2 & ctx2 & Hrun2 & Hr2 & Htext2 & Hpe2 & Hpg2).
    eexists (_ ++ es), k2, ctx2. split; [rewrite (touch_run_app _ _ _ es _ _ Hrun); exact Hrun2|]. split; [done|].
    split; [congruence|]. split; [done|]. rewrite Hpg2, Hpg, Zplus_mod_idemp_l. f_equal. lia. }
  destruct (Hn (Z.to_nat ((pg - page kb - 1) `mod` PAGE_COUNT)) kb ctx Hr) as (es & kb' & ctx' & Hrun & Hr' & Ht & Hp & Hpg').
  exists es, kb', ctx'. split_and!; try done. rewrite Hpg', Nat2Z.inj_succ, Z2Nat.id by (apply Z.mod_pos_bound; done).
  rewrite <- Z.add_1_l, Z.add_assoc, Zplus_mod_idemp_r. replace (page kb + 1 + (pg - page kb - 1)) with pg by lia. by apply Z.mod_small.
Qed.

Lemma key_short pg key kt : keyboard_text pg key = Ok kt → len kt <= 4.
Proof.
  unfold keyboard_text. destruct (getZ KEYBOARD pg) as [row|] eqn:Hrow; [|done]. cbn [or_panic mbind outcome_bind].
  intros Ht%or_panic_Ok. assert (Forall (Forall (λ t : list Z, len t <= 4)) KEYBOARD) as Hall by by repeat constructor.
  exact (getZ_Forall _ _ _ _ Ht (getZ_Forall _ _ _ _ Hrow Hall)).
Qed.

(** Taps on a key enter each of its characters. *)
Lemma taps_ok kb ctx i kt (n : nat) : (i < 10)%nat → ready kb → keyboard_text (page kb) (Z.of_nat i) = Ok kt →
  input_pending kb = None → len (passphrase kb) < MAX_LENGTH → Z.of_nat n < len kt →
  ∃ es kb' ctx' b token, touch_run kb ctx es = Ok (kb', ctx', None) ∧ ready kb' ∧ page kb' = page kb ∧
    getZ kt (Z.of_nat n) = Some b ∧ passphrase kb' = passphrase kb ++ [b] ∧
    input_pending kb' = (if 1 <? len kt then Some (mkPending (Z.of_nat i) (Z.of_nat n) token) else None).
Proof.
  intros Hi Hr Hkt Hnone Hroom. pose proof (key_short _ _ _ Hkt) as Hshort. induction n as [|n IH]; intros Hn.
  - destruct (tap_ok kb ctx i kt Hi Hr Hkt) as (kb' & ctx' & b & n & token & Hrun & Hr' & Hpg & Hb & Hhow & Hpe).
    { unfold is_button_active. change (input_text kb) with (passphrase kb). by rewrite (proj2 (Z.ltb_lt _ _) Hroom). }
    destruct Hhow as [(p & Hp & _)|(_ & -> & Htext)]; [congruence|]. rewrite Z.mod_0_l in Hb by lia.
    by eexists _, kb', ctx', b, token.
  - destruct IH as (es & k1 & ctx1 & b1 & tok1 & Hrun & Hr1 & Hpg & Hb1 & Htext & Hpe); [lia|].
    rewrite (proj2 (Z.ltb_lt 1 (len kt))) in Hpe |- * by lia. rewrite <- Hpg in Hkt.
    destruct (tap_ok k1 ctx1 i kt Hi Hr1 Hkt) as (kb' & ctx' & b & m & token & Hrun2 & Hr' & Hpg' & Hb & Hhow & Hpe').
    { unfold is_button_active. rewrite Hpe. cbn. by rewrite Z.eqb_refl, orb_true_r. }
    rewrite Hpe in Hhow. destruct Hhow as [(p & [= <-] & _ & -> & Ht)|(Hne & _)]; [|by cbn in Hne].
    cbn [press] in *. rewrite wrapu_small in Hb, Hpe' by (unfold in_u; lia). rewrite Z.mod_small in Hb by lia.
    rewrite (proj2 (Z.ltb_lt 1 (len kt))) in Hpe' by lia. replace (Z.of_nat n + 1) with (Z.of_nat (S n)) in * by lia.
    exists (es ++ [TouchStart (key_point i); TouchEnd (key_point i)]), kb', ctx', b, token.
    split; [by rewrite (touch_run_app _ _ _ _ _ _ Hrun)|]. split_and!; try done; [congruence|].
    by rewrite Ht, Htext, removelast_last.
Qed.

(** Every printable character can be added to a text with room for it. *)
Lemma character_ok kb ctx b : ready kb → printable b → len (passphrase kb) < MAX_LENGTH →
  ∃ es kb' ctx', touch_run kb ctx es = Ok (kb', ctx', None) ∧ ready kb' ∧ passphrase kb' = passphrase kb ++ [b].
Proof.
  intros Hr Hb Hroom. destruct (keyboard_complete b Hb) as (pg & key & kt & Hkt & Hin).
  apply list_elem_of_lookup in Hin as [n Hn]. pose proof (lookup_lt_Some _ _ _ Hn) as Hlt.
  assert (0 <= pg < PAGE_COUNT ∧ 0 <= key < KEY_COUNT) as [Hpg Hkey].
  { unfold keyboard_text in Hkt. destruct (getZ KEYBOARD pg) as [row|] eqn:Hrow; [|done]. cbn in Hkt. apply or_panic_Ok in Hkt.
    destruct (row_good _ _ Hrow) as [Hl _]. rewrite <- Hl. split; [|exact (getZ_lt _ _ _ Hkt)].
    exact (getZ_lt _ _ _ Hrow). }
  destruct (turn_to kb ctx pg Hr Hpg) as (es1 & k1 & ctx1 & Hrun1 & Hr1 & Ht1 & Hpe1 & Hpg1).
  destruct (taps_ok k1 ctx1 (Z.to_nat key) kt n) as (es2 & k2 & ctx2 & b' & token & Hrun2 & Hr2 & _ & Hb' & Ht2 & _).
  { unfold KEY_COUNT in Hkey. lia. } { done. } { by rewrite Hpg1, Z2Nat.id by lia. } { done. } { by rewrite Ht1. } { lia. }
  rewrite getZ_nat, Hn in Hb'. injection Hb' as <-.
  exists (es1 ++ es2), k2, ctx2. split; [by rewrite (touch_run_app _ _ _ _ _ _ Hrun1)|]. split; [done|]. by rewrite Ht2, Ht1.
Qed.

Lemma text_ok kb ctx s : ready kb → Forall (λ b, printable b) s → len (passphrase kb ++ s) <= MAX_LENGTH →
  ∃ es kb' ctx', touch_run kb ctx es = Ok (kb', ctx', None) ∧ ready kb' ∧ passphrase kb' = passphrase kb ++ s.
Proof.
  revert kb ctx. induction s as [|b s IH]; intros kb ctx Hr Hs Hl.
  { exists [], kb, ctx. by rewrite app_nil_r. }
  apply Forall_cons in Hs as [Hb Hs].
  destruct (character_ok kb ctx b Hr Hb) as (es1 & k1 & ctx1 & Hrun1 & Hr1 & Ht1); [rewrite length_app in Hl; cbn in Hl; lia|].
  destruct (IH k1 ctx1 Hr1 Hs) as (es2 & k2 & ctx2 & Hrun2 & Hr2 & Ht2); [by rewrite Ht1, <- app_assoc|].
  exists (es1 ++ es2), k2, ctx2. split; [by rewrite (touch_run_app _ _ _ _ _ _ Hrun1)|]. split; [done|].
  by rewrite Ht2, Ht1, <- app_assoc.
Qed.

(** ** The properties *)

(** A new keyboard on an area of the display. *)
Definition new_on (bounds : Rect) : ui (PassphraseKeyboard * Rect) :=
  kb ← passphrase_keyboard_new; passphrase_keyboard_place kb bounds.

Lemma place_keys_content grid key keys keys' : place_character_keys grid key keys = Ok keys' →
  (λ b, Button.content (inner b)) <$> keys' = (λ b, Button.content (inner b)) <$> keys.
Proof.
  revert key keys'. induction keys as [|b keys IH]; intros key keys'; cbn [place_character_keys]; [by intros [= <-]|].
  intros (a & _ & Hp)%bind_Ok. cbn in Hp. apply bind_Ok in Hp as (ks & Hks%IH & [= <-]). by rewrite !fmap_cons, Hks.
Qed.

Lemma new_on_ok bounds kb r : new_on bounds = Ok (kb, r) → pass_ok kb ∧ passphrase kb = [].
Proof.
  unfold new_on, passphrase_keyboard_place. intros (kb0 & [= <-] & Hp)%bind_Ok. cbn [pk_keys pk_input pk_confirm pk_back page_swipe pk_scrollbar] in Hp.
  destruct (split_bottom _ _) as [ia kg]. destruct (split_bottom _ _) as [ia' sa]. destruct (split_top _ _) as [sa' ?].
  apply bind_Ok in Hp as (ca & _ & Hp). apply bind_Ok in Hp as (ba & _ & Hp). cbn [place child_component swipe_component input_component button_component mbind outcome_bind] in Hp.
  apply bind_Ok in Hp as (ks & Hks%place_keys_content & [= <- _]).
  split; [|done]. split; try done.
  eexists. split; [reflexivity|]. cbn [pk_keys]. by rewrite Hks.
Qed.

Lemma new_ready : ∃ kb r, new_on display = Ok (kb, r) ∧ ready kb ∧ passphrase kb = [].
Proof.
  destruct (new_on display) as [[kb r]| | |] eqn:Hn; [|by vm_compute in Hn..]. exists kb, r. split; [done|].
  destruct (new_on_ok _ _ _ Hn) as [Hok Ht]. split; [|done]. split; [done|]. vm_compute in Hn. injection Hn as <- <-.
  split; cbn [pk_keys pk_confirm pk_back page_swipe inner]; unfold plain_at, rests_at.
  - intros i b Hb. do 10 (destruct i as [|i]; [injection Hb as <-; split; [split_and!; [by vm_compute|done..|left]|done]|]). done.
  - split_and!; [by vm_compute|done..|left].
  - split_and!; [by vm_compute|done|right; left].
  - by vm_compute.
Qed.

(** C24. A passphrase of printable characters, at most fifty of them, is all that
    the keyboard ever holds.  A new keyboard, wherever it is placed, shows its
    first page of keys and no text; and on any event a keyboard whose keys show
    their page, and whose button to go back can be used exactly when there is a
    text, does not abort and stays such a keyboard.  The event leaves the text
    as it is, deletes its last character or all of it, adds the first character
    of a key when there is room, or replaces the last character by the next one
    of the key that is pending.  Confirming does not change the text, and the
    keyboard is never cancelled. *)
Theorem passphrase_keyboard_safe :
  (∀ bounds kb r, new_on bounds = Ok (kb, r) → pass_ok kb ∧ passphrase kb = []) ∧
  (∀ kb ctx ev, pass_ok kb → ∃ kb' ctx' msg, passphrase_keyboard_event kb ctx ev = Ok (kb', ctx', msg) ∧
     pass_ok kb' ∧ entered kb (passphrase kb') ∧ msg ≠ Some PassCancelled ∧
     (msg = Some PassConfirmed → passphrase kb' = passphrase kb)).
Proof. split; [exact new_on_ok|exact event_ok]. Qed.

Lemma passphrase_keyboard_safe_witness : ∃ kb r, new_on display = Ok (kb, r) ∧ pass_ok kb ∧
  ∃ kb' ctx' msg, passphrase_keyboard_event kb ctx_new (Touch (TouchStart (key_point 3))) = Ok (kb', ctx', msg) ∧
    pass_ok kb' ∧ entered kb (passphrase kb') ∧ msg ≠ Some PassCancelled ∧
    (msg = Some PassConfirmed → passphrase kb' = passphrase kb).
Proof.
  destruct new_ready as (kb & r & Hn & _). destruct (proj1 passphrase_keyboard_safe _ _ _ Hn) as [Hok _].
  exists kb, r. split; [exact Hn|]. split; [exact Hok|]. exact (proj2 passphrase_keyboard_safe kb _ _ Hok).
Defined.

(** C25. Every passphrase of at most fifty printable characters can be entered:
    on a new keyboard that takes the display there are touches, without any
    waiting for a timer, after which the keyboard is confirmed with it. *)
Theorem passphrase_enterable ctx s : Forall (λ b, printable b) s → len s <= MAX_LENGTH →
  ∃ kb r es kb' ctx', new_on display = Ok (kb, r) ∧ touch_run kb ctx es = Ok (kb', ctx', Some PassConfirmed) ∧ passphrase kb' = s.
Proof.
  intros Hs Hl. destruct new_ready as (kb & r & Hn & Hr & Ht).
  destruct (text_ok kb ctx s Hr Hs) as (es & k1 & ctx1 & Hrun & Hr1 & Ht1); [by rewrite Ht|].
  destruct (confirm_ok k1 ctx1 Hr1) as (kb' & ctx' & Hrun' & Ht').
  exists kb, r, (es ++ [TouchStart confirm_point; TouchEnd confirm_point]), kb', ctx'. split; [done|].
  split; [by rewrite (touch_run_app _ _ _ _ _ _ Hrun)|]. by rewrite Ht', Ht1, Ht.
Qed.

(** The text [aB1 ~], with characters of all four pages. *)
Lemma passphrase_enterable_witness : Forall (λ b, printable b) [97; 66; 49; 32; 126] ∧ len [97; 66; 49; 32; 126] <= MAX_LENGTH ∧
  ∃ kb r es kb' ctx', new_on display = Ok (kb, r) ∧ touch_run kb ctx_new es = Ok (kb', ctx', Some PassConfirmed) ∧
    passphrase kb' = [97; 66; 49; 32; 126].
Proof.
  assert (Forall (λ b, printable b) [97; 66; 49; 32; 126]) as Hs by (repeat constructor; lia).
  split; [exact Hs|]. split; [by vm_compute|]. exact (passphrase_enterable ctx_new _ Hs ltac:(by vm_compute)).
Defined.
