(* ===== verification/Bip39Spec.v ===== *)
(** * Properties of the entry of words by their letters

    [Bip39Input] satisfies the laws of an input: what it suggests always
    belongs to its text, and what it confirms is a word of the list. *)
From S2P Require Import Prelude Time StrUtil Geometry Words Wordlist WordSpec Component Theme Button Keyboard.
From S2P Require Import ComponentSpec Bip39 MnemonicSpec.
Local Open Scope Z_scope.

Abbreviation W := BIP39_WORDLIST_ENGLISH.
Abbreviation text t := (Keyboard.content (textbox t)).

(** The words with the prefix. *)
Definition candidates (p : list Z) : list (list Z) := filter (λ w, p `prefix_of` w) W.

(** What is suggested belongs to the text, and the input takes touches when
    there is a suggestion. *)
Record coherent (t : Bip39Input) : Prop := {
  co_ascii : ascii (text t);
  co_options : options t = if bool_decide (text t = []) then None else Some (len (candidates (text t)));
  co_word : suggested_word t = if bool_decide (text t = []) then None else head (candidates (text t));
  co_enabled : suggested_word t ≠ None → state (button t) ≠ Disabled
}.

Lemma bip39_completes p : ascii p →
  options_num W p = Ok (if bool_decide (p = []) then None else Some (len (candidates p))) ∧
  complete_word W p = Ok (if bool_decide (p = []) then None else head (candidates p)).
Proof.
  intros Hp. unfold options_num, complete_word, wordlist_new.
  rewrite (filter_prefix_spec W bip39_in_order bip39_ascii 0 p Hp). by case_bool_decide.
Qed.

Lemma candidates_elem p w : w ∈ candidates p ↔ p `prefix_of` w ∧ w ∈ W.
Proof. apply list_elem_of_filter. Qed.

Lemma word_ascii w : w ∈ W → ascii w.
Proof. intros Hw. pose proof bip39_ascii as H. by eapply Forall_forall in H. Qed.

Lemma delete_last_text t ctx : ascii (Keyboard.content t) →
  Keyboard.content (fst (delete_last t ctx)) = removelast (Keyboard.content t).
Proof. intros Ha. unfold delete_last. pose proof (proj1 (pop_ascii _ Ha)) as Hpop. by destruct (pop _). Qed.

Lemma set_state b ctx s : state (fst (set b ctx s)) = s.
Proof. unfold set. case_bool_decide as H; [done|]. destruct (decide (state b = s)); [done|by destruct H]. Qed.

Lemma set_stylesheet_state b ctx s : state (fst (set_stylesheet b ctx s)) = state b.
Proof. unfold set_stylesheet. by case_bool_decide. Qed.

Lemma set_content_state b ctx c : state (fst (set_content b ctx c)) = state b.
Proof. unfold set_content. by case_bool_decide. Qed.

(** An event does not disable a button. *)
Lemma event_not_disabled b ctx ev : state b ≠ Disabled → state (fst (fst (button_event b ctx ev))) ≠ Disabled.
Proof.
  intros Hb. pose proof (set_state b ctx) as Hs. unfold button_event.
  destruct ev as [|t| |tok| | | |]; cbn [fst]; try done.
  - destruct t as [pos|pos|pos|]; [..|done].
    + destruct (state b) eqn:E; try done;
        (destruct (contains _ pos); [|cbn [fst]; congruence]);
        (specialize (Hs Pressed); destruct (set b ctx Pressed) as [b' ctx']; cbn [fst] in Hs;
         destruct (long_press b'); [destruct (request_timer ctx' _)|]; cbn; congruence).
    + destruct (state b) eqn:E; cbn [fst]; try congruence.
      destruct (negb _); [|cbn [fst]; congruence].
      specialize (Hs Released). destruct (set b ctx Released) as [b' ctx']. cbn [fst] in *. congruence.
    + destruct (state b) eqn:E; cbn [fst]; try congruence;
        (specialize (Hs Initial_); destruct (set b ctx Initial_) as [b' ctx']; cbn [fst] in *;
         destruct (_ && _); cbn; congruence).
  - destruct (bool_decide _); [|done]. destruct (bool_decide _); [|done].
    specialize (set_state (with_timer b None) ctx Initial_) as Ht.
    destruct (set (with_timer b None) ctx Initial_) as [b' ctx']. cbn [fst] in *. congruence.
Qed.

Lemma complete_coherent t ctx : ascii (text t) →
  ∃ t' ctx', complete_word_from_dictionary t ctx = Ok (t', ctx') ∧ coherent t' ∧ textbox t' = textbox t ∧
    multi_tap t' = multi_tap t.
Proof.
  intros Ha. unfold complete_word_from_dictionary. destruct (bip39_completes (text t) Ha) as [-> ->].
  cbn [mbind outcome_bind].
  match goal with |- context [match ?m with pair _ _ => _ end = Ok _] => destruct m as [[b s] ctx'] eqn:E end.
  eexists _, _. split_and!; [done| |done|done]. split; [done..|]. cbn [suggested_word button].
  case_bool_decide; [done|]. destruct (head (candidates (text t))) as [w|]; [|done]. intros _.
  unfold enable in E. destruct (is_complete _ _ _); repeat match type of E with
    | context [match ?f with pair _ _ => _ end] => destruct f as [? ?] eqn:? end;
    injection E as <- _ _;
    repeat match goal with
    | H : set ?b ?c ?x = _ |- _ => pose proof (set_state b c x); rewrite H in *; clear H
    | H : set_stylesheet ?b ?c ?x = _ |- _ => pose proof (set_stylesheet_state b c x); rewrite H in *; clear H
    | H : set_content ?b ?c ?x = _ |- _ => pose proof (set_content_state b c x); rewrite H in *; clear H
    end; cbn [fst] in *; congruence.
Qed.

(** ** The laws *)

Lemma bip39_key_text k : 0 <= k < MNEMONIC_KEY_COUNT →
  ∃ key_text, getZ keys k = Some key_text ∧ key_text ≠ [] ∧ ascii key_text.
Proof.
  intros Hk. destruct (proj2 (getZ_is_Some keys k)) as [kt Hkt]; [exact Hk|]. exists kt. split; [done|].
  assert (Forall (λ kt, kt ≠ [] ∧ ascii kt) keys) as Hall.
  { unfold keys, ascii. repeat (constructor; [split; [done|repeat constructor; lia]|]). constructor. }
  apply getZ_Some in Hkt as [_ Hkt]. by apply (Forall_lookup_1 _ _ _ _ Hall Hkt).
Qed.

Lemma key_mask_at k key_text : getZ keys k = Some key_text →
  ∃ mask, key_mask k = Ok mask ∧ 0 <= mask < 2 ^ 26 ∧
    ∀ b, 0 <= b < 26 → Z.testbit mask b = bool_decide (97 + b ∈ key_text).
Proof.
  intros Hk. unfold key_mask. rewrite Hk. cbn [or_panic fmap outcome_fmap]. eexists. split; [done|].
  assert (Forall (λ kt, 0 <= letters_mask kt < 2 ^ 26 ∧
    Forall (λ b, Z.testbit (letters_mask kt) b = bool_decide (97 + b ∈ kt)) (range 26)) keys) as Hall.
  { apply (bool_decide_unpack _). vm_compute. exact Logic.I. }
  apply getZ_Some in Hk as [_ Hk]. apply (Forall_lookup_1 _ _ _ _ Hall) in Hk as [Hm Hb]. split; [done|].
  intros b Hb'. rewrite Forall_forall in Hb. apply Hb. by apply elem_of_range.
Qed.

Lemma key_letters k kt : getZ keys k = Some kt → ∀ c, c ∈ kt → 97 <= c <= 122.
Proof.
  intros Hk c Hc. assert (Forall (Forall (λ c, 97 <= c <= 122)) keys) as Hall.
  { apply (bool_decide_unpack _). vm_compute. exact Logic.I. }
  apply getZ_Some in Hk as [_ Hk]. apply (Forall_lookup_1 _ _ _ _ Hall) in Hk. by eapply Forall_forall in Hk.
Qed.

Lemma word_short w : w ∈ W → len w <= CAPACITY.
Proof.
  assert (Forall (λ w, len w <= CAPACITY) W) as H by (apply (bool_decide_unpack _); vm_compute; exact Logic.I).
  intros Hw. by eapply Forall_forall in H.
Qed.

Lemma coherent_same t b s m : coherent t → (suggested_word t ≠ None → state b ≠ Disabled) →
  coherent (mkBip39 b s (textbox t) m (options t) (suggested_word t)).
Proof. intros [Ha Ho Hw He] Hb. by split. Qed.

#[local] Opaque candidates BIP39_WORDLIST_ENGLISH.

(** The words that begin with the letters entered, if there are any letters. *)
Definition matching (t : Bip39Input) : list (list Z) :=
  if bool_decide (text t = []) then [] else candidates (text t).

Lemma coherent_word t : coherent t → suggested_word t = head (matching t).
Proof. intros Hco. rewrite (co_word t Hco). unfold matching. by case_bool_decide. Qed.

Lemma matching_elem t w : w ∈ matching t → w ∈ W.
Proof.
  unfold matching. case_bool_decide; [by intros ?%elem_of_nil|]. by intros [_ ?]%candidates_elem.
Qed.

(** The event ends a touch within the input, which is pressed. *)
Definition clicks (t : Bip39Input) (ev : Event) : Prop :=
  ∃ pos, ev = Touch (TouchEnd pos) ∧ state (button t) = Pressed ∧ contains (touch_area (button t)) pos = true.

(** The event begins a touch within the input. *)
Definition touches (t : Bip39Input) (ev : Event) : Prop :=
  ∃ pos, ev = Touch (TouchStart pos) ∧ contains (touch_area (button t)) pos = true.

(** What the end of the wait for another click on a key does. *)
Definition timeout_outcome (t t' : Bip39Input) (msg : option MnemonicInputMsg) : Prop :=
  msg = Some TimedOut ∧ coherent t' ∧ pending_key (multi_tap t') = None ∧
  text t' = match matching t with [] => removelast (text t) | _ => text t end.

(** What a click on the input does. *)
Definition click_outcome (t t' : Bip39Input) (msg : option MnemonicInputMsg) : Prop :=
  match matching t with
  | [] => msg = None ∧ coherent t' ∧ textbox t' = textbox t ∧ multi_tap t' = multi_tap t
  | w :: ws =>
    if decide (ws = [] ∨ text t = w) then msg = Some Confirmed ∧ suggested_word t' = Some w
    else msg = Some Completed ∧ coherent t' ∧ text t' = w
  end.

(** What an event does. *)
Definition event_outcome (t : Bip39Input) (ev : Event) (t' : Bip39Input) (msg : option MnemonicInputMsg) : Prop :=
  (is_timeout_event (multi_tap t) ev = true → timeout_outcome t t' msg) ∧
  (clicks t ev → click_outcome t t' msg) ∧
  (is_timeout_event (multi_tap t) ev = false → ¬ clicks t ev →
     msg = None ∧ coherent t' ∧ textbox t' = textbox t ∧ multi_tap t' = multi_tap t ∧
     (touches t ev → matching t ≠ [] → state (button t') = Pressed)).

Lemma timeout_runs t ctx : coherent t → runs (on_timeout t ctx) (timeout_outcome t).
Proof.
  intros Hco. unfold on_timeout, timeout_outcome.
  assert (pending_key (fst (clear_pending_state (multi_tap t) ctx)) = None) as Hp.
  { unfold clear_pending_state, pending_key. destruct (pending (multi_tap t)) eqn:E; [done|]. cbn. by rewrite E. }
  destruct (clear_pending_state (multi_tap t) ctx) as [m ctx1]. cbn [fst] in Hp.
  cbn [suggested_word with_multi_tap]. rewrite (coherent_word t Hco).
  destruct (matching t) as [|w ws] eqn:Em; cbn [head].
  - rewrite bool_decide_true by done.
    pose proof (delete_last_ascii (textbox t) ctx1 (co_ascii t Hco)) as Ha.
    pose proof (delete_last_text (textbox t) ctx1 (co_ascii t Hco)) as Hd.
    cbn [textbox with_multi_tap]. destruct (delete_last (textbox t) ctx1) as [tb ctx2].
    destruct (complete_coherent (with_textbox (with_multi_tap t m) tb) ctx2 Ha) as (t' & ctx3 & -> & Hc & Ht & Hm).
    cbn [mbind outcome_bind]. eexists _, _, _. split; [done|]. split_and!; [done|done|by rewrite Hm|by rewrite Ht].
  - rewrite bool_decide_false by done. cbn [mbind outcome_bind]. eexists _, _, _. split; [done|].
    split_and!; [done| |done|done]. apply (coherent_same t); [done|]. apply Hco.
Qed.

Lemma matching_same t b s m o w : matching (mkBip39 b s (textbox t) m o w) = matching t.
Proof. done. Qed.

Lemma is_complete_first w ws t : w :: ws = candidates t →
  is_complete w (len (w :: ws)) t = bool_decide (ws = [] ∨ t = w).
Proof.
  intros Hc. assert (t `prefix_of` w) as Hpre.
  { assert (w ∈ candidates t) as Hin by (rewrite <- Hc; by left). by apply candidates_elem in Hin as [? _]. }
  unfold is_complete. destruct ws as [|w' ws].
  - rewrite (bool_decide_true (_ ∨ _)) by by left. cbn [length Z.of_nat Z.eqb Pos.of_succ_nat Pos.eqb andb].
    apply orb_true_iff. left. by apply bool_decide_eq_true_2.
  - cbn [length]. rewrite (proj2 (Z.eqb_neq _ _)) by lia. rewrite (proj2 (Z.ltb_lt _ _)) by lia. cbn [andb orb].
    apply bool_decide_ext. naive_solver.
Qed.

Lemma click_runs t ctx b s : coherent t → (suggested_word t ≠ None → state b ≠ Disabled) →
  runs (on_input_click (mkBip39 b s (textbox t) (multi_tap t) (options t) (suggested_word t)) ctx) (click_outcome t).
Proof.
  intros Hco Hb. pose proof (coherent_same t b s (multi_tap t) Hco Hb) as Hsame.
  unfold on_input_click, click_outcome. cbn [suggested_word options textbox].
  rewrite (coherent_word t Hco), (co_options t Hco). unfold matching.
  case_bool_decide as Hne; cbn [head].
  { eexists _, _, _; split; [done|]; split_and!; [done| |done|done].
    rewrite (coherent_word t Hco), (co_options t Hco) in Hsame. unfold matching in Hsame.
    by rewrite !bool_decide_true in Hsame. }
  destruct (candidates (text t)) as [|w ws] eqn:Hc; cbn [head].
  { eexists _, _, _; split; [done|]; split_and!; [done| |done|done].
    rewrite (coherent_word t Hco), (co_options t Hco) in Hsame. unfold matching in Hsame.
    rewrite !bool_decide_false, Hc in Hsame by done. done. }
  assert (w ∈ candidates (text t)) as Hin by (rewrite Hc; by left).
  apply candidates_elem in Hin as Hin'. destruct Hin' as [Hpre HW].
  rewrite (is_complete_first w ws) by done.
  case_bool_decide as Hcomp.
  - destruct (clear (textbox t) ctx) as [tb ctx']. eexists _, _, _. split; [done|].
    cbn beta iota. rewrite decide_True by done. by split.
  - assert (Keyboard.content (fst (replace (textbox t) ctx w)) = w) as Hrep.
    { unfold replace. case_bool_decide as Hr; [|exact Hr]. cbn. unfold push_or_drop, push_str.
      pose proof (word_short w HW). rewrite (proj2 (Z.leb_le _ _)); [done|simpl; lia]. }
    destruct (replace (textbox t) ctx w) as [tb ctx1]. cbn [fst] in Hrep.
    match goal with |- context [with_textbox ?x tb] => destruct (complete_coherent (with_textbox x tb) ctx1)
      as (t' & ctx2 & -> & Hco' & Ht & Hm) end; [cbn; rewrite Hrep; by apply word_ascii|].
    cbn [mbind outcome_bind]. eexists _, _, _. split; [done|]. cbn beta iota. rewrite decide_False by done.
    split_and!; [done|done|by rewrite Ht].
Qed.

Lemma clicks_event t ctx ev b ctx' msg :
  button_event (button t) ctx ev = (b, ctx', msg) → (msg = Some Clicked ↔ clicks t ev) .
Proof.
  unfold button_event, clicks. intros E. split.
  - intros ->. destruct ev as [|[p|p|p|]| |tok| | | |]; try done; repeat case_match; simplify_eq;
      exists p; match goal with H : _ && _ = true |- _ => apply andb_true_iff in H as [H ?] end;
      repeat match goal with H : bool_decide _ = true |- _ => apply bool_decide_eq_true in H end;
      split_and!; congruence.
  - intros (p & -> & Hs & Hc). rewrite Hs, Hc in E. destruct (set _ _ _) as [b1 c1]. cbn in E. by injection E.
Qed.

#[export] Instance clicks_dec t ev : Decision (clicks t ev).
Proof.
  destruct ev as [|[p|p|p|]| |tok| | | |]; try (by right; intros (? & ? & _)).
  destruct (decide (state (button t) = Pressed ∧ contains (touch_area (button t)) p = true)) as [[? ?]|Hno].
  - left. by exists p.
  - right. intros (p' & [= <-] & ?). tauto.
Defined.

(** One of the three happens. *)
Lemma event_outcome_cases t ev t' msg : event_outcome t ev t' msg →
  timeout_outcome t t' msg ∨ click_outcome t t' msg ∨
  msg = None ∧ coherent t' ∧ textbox t' = textbox t ∧ multi_tap t' = multi_tap t.
Proof.
  intros (H1 & H2 & H3). destruct (is_timeout_event _ _); [left; by apply H1|right].
  destruct (decide (clicks t ev)) as [Hc|Hc]; [left; by apply H2|right]. naive_solver.
Qed.

(** What the keyboard relies on. *)
Lemma event_outcome_msg t ev t' msg : event_outcome t ev t' msg →
  match msg with
  | Some Confirmed => ∃ w, suggested_word t' = Some w ∧ w ∈ W
  | Some _ => coherent t'
  | None => coherent t' ∧ textbox t' = textbox t ∧ multi_tap t' = multi_tap t
  end.
Proof.
  intros [Ht|[Hc|(-> & ?)]]%event_outcome_cases; [| |done].
  - by destruct Ht as (-> & ? & _).
  - unfold click_outcome in Hc. pose proof (matching_elem t) as He. destruct (matching t) as [|w ws].
    + by destruct Hc as (-> & ? & ? & ?).
    + destruct (decide _); destruct Hc as (-> & Hc); [|by destruct Hc].
      exists w. split; [done|]. apply He. by left.
Qed.

Lemma touches_event t ctx ev : touches t ev → state (button t) ≠ Disabled →
  state (fst (fst (button_event (button t) ctx ev))) = Pressed.
Proof.
  intros (p & -> & Hc) Hs. unfold button_event. rewrite Hc. pose proof (set_state (button t) ctx Pressed) as Hst.
  destruct (set (button t) ctx Pressed) as [b1 c1]. cbn [fst] in Hst.
  destruct (state (button t)); [..|done]; destruct (long_press b1); try destruct (request_timer _ _); done.
Qed.

Lemma coherent_event t ctx ev : coherent t → runs (bip39_event t ctx ev) (event_outcome t ev).
Proof.
  intros Hco. unfold bip39_event, event_outcome.
  destruct (button_event (button_suggestion t) ctx ev) as [[s ctx1] m1].
  cbn [multi_tap button textbox options suggested_word button_suggestion].
  destruct (is_timeout_event (multi_tap t) ev) eqn:Ht.
  - assert (¬ clicks t ev) as Hno by (intros (p & -> & _); done).
    pose proof (coherent_same t (button t) s (multi_tap t) Hco (co_enabled t Hco)) as Hsame.
    eapply runs_weaken; [apply timeout_runs, Hsame|]. intros t' msg Hout. split; [by intros _|]. by split.
  - pose proof (event_not_disabled (button t) ctx1 ev) as Hdis.
    pose proof (clicks_event t ctx1 ev) as Hclick. pose proof (touches_event t ctx1 ev) as Htouch.
    destruct (button_event (button t) ctx1 ev) as [[b ctx2] msg]. cbn [fst] in Hdis, Htouch.
    specialize (Hclick _ _ _ eq_refl).
    assert (suggested_word t ≠ None → state b ≠ Disabled) as Hen by (intros; by apply Hdis, co_enabled).
    destruct (decide (msg = Some Clicked)) as [->|Hm].
    + eapply runs_weaken; [by apply click_runs|]. intros t' m Hout. split; [done|]. split; [done|].
      intros _ []. by apply Hclick.
    + eexists _, _, None. split; [by destruct msg as [[]|]|]. split; [done|]. split; [tauto|].
      intros _ _. split_and!; [done|by apply coherent_same|done|done|]. intros Hto Hma. apply Htouch; [done|].
      apply (co_enabled t Hco). rewrite (coherent_word t Hco). by destruct (matching t).
Qed.

(** The text after a click on the key: a letter of it is added, or takes the
    place of the last letter while the key is pending. *)
Definition typed (t t' : Bip39Input) (k : Z) : Prop :=
  ∃ key_text b, getZ keys k = Some key_text ∧ b ∈ key_text ∧
    text t' = push_or_drop (if bool_decide (pending_key (multi_tap t) = Some k) then removelast (text t) else text t) [b].

Lemma apply_edit_text t ctx k b edit : ascii (text t) →
  (edit = ReplaceLast [b] ∧ pending_key (multi_tap t) = Some k ∨ edit = Append [b] ∧ pending_key (multi_tap t) ≠ Some k) →
  Keyboard.content (fst (apply_edit (textbox t) ctx edit)) =
    push_or_drop (if bool_decide (pending_key (multi_tap t) = Some k) then removelast (text t) else text t) [b].
Proof.
  intros Ha [[-> Hp]|[-> Hp]]; case_bool_decide; try done. cbn. unfold replace_last.
  pose proof (proj1 (pop_ascii _ Ha)) as Hpop. destruct (pop _) as [o l]. cbn in *. congruence.
Qed.

Lemma key_click_coherent t ctx k : coherent t → 0 <= k < MNEMONIC_KEY_COUNT →
  ∃ t' ctx', key_click t ctx k = Ok (t', ctx') ∧ coherent t' ∧ typed t t' k.
Proof.
  intros Hco Hk. unfold key_click, typed. destruct (bip39_key_text k Hk) as (kt & -> & Hne & Hka). cbn [or_panic mbind outcome_bind].
  destruct (click_key_ends (multi_tap t) ctx k kt Hne Hka) as (m & ctx1 & edit & -> & b & Hb & Hedit).
  cbn [mbind outcome_bind]. pose proof (apply_edit_text t ctx1 k b edit (co_ascii t Hco) Hedit) as Htext.
  assert (ascii [b]) as Hab by (apply Forall_singleton; by eapply Forall_forall in Hka).
  pose proof (apply_edit_ascii (textbox t) ctx1 [b] (co_ascii t Hco) Hab) as [Hr Ha].
  assert (ascii (Keyboard.content (fst (apply_edit (textbox t) ctx1 edit)))) as Hasc by (destruct Hedit as [[-> _]|[-> _]]; done).
  destruct (apply_edit (textbox t) ctx1 edit) as [tb ctx2].
  destruct (complete_coherent (with_textbox (with_multi_tap t m) tb) ctx2 Hasc) as (t' & ctx3 & -> & ? & Ht & _).
  exists t', ctx3. split_and!; [done|done|]. exists kt, b. split_and!; [done|done|]. by rewrite Ht.
Qed.

Lemma backspace_coherent t ctx : coherent t →
  ∃ t' ctx', backspace_click t ctx = Ok (t', ctx') ∧ coherent t' ∧ text t' = removelast (text t).
Proof.
  intros Hco. unfold backspace_click. destruct (clear_pending_state (multi_tap t) ctx) as [m ctx1].
  pose proof (delete_last_ascii (textbox t) ctx1 (co_ascii t Hco)) as Ha.
  pose proof (delete_last_text (textbox t) ctx1 (co_ascii t Hco)) as Ht.
  destruct (delete_last (textbox t) ctx1) as [tb ctx2].
  destruct (complete_coherent (with_textbox (with_multi_tap t m) tb) ctx2 Ha) as (t' & ctx3 & -> & ? & Htb & _).
  exists t', ctx3. split_and!; [done|done|]. by rewrite Htb.
Qed.

Lemma long_press_coherent t ctx : coherent t →
  ∃ t' ctx', backspace_long_press t ctx = Ok (t', ctx') ∧ coherent t' ∧ text t' = [].
Proof.
  intros Hco. unfold backspace_long_press. destruct (clear_pending_state (multi_tap t) ctx) as [m ctx1].
  assert (Keyboard.content (fst (clear (textbox t) ctx1)) = []) as Ht.
  { unfold clear, replace. by case_bool_decide. }
  destruct (clear (textbox t) ctx1) as [tb ctx2]. cbn [fst] in Ht.
  destruct (complete_coherent (with_textbox (with_multi_tap t m) tb) ctx2) as (t' & ctx3 & -> & ? & Htb & _).
  { cbn. rewrite Ht. constructor. }
  exists t', ctx3. split_and!; [done|done|]. by rewrite Htb.
Qed.

(** A letter of the key continues the text towards a word. *)
Definition leads_to_word (t : Bip39Input) (k : Z) : Prop :=
  ∃ key_text c, getZ keys k = Some key_text ∧ c ∈ key_text ∧ (text t = [] ∨ continues W (text t) c).

Lemma land_nonzero a b : 0 <= b → (Z.land a b =? 0) = false ↔ ∃ i, Z.testbit a i = true ∧ Z.testbit b i = true.
Proof.
  intros Hb. rewrite Z.eqb_neq. split.
  - intros Hne. exists (Z.log2 (Z.land a b)). rewrite <- andb_true_iff, <- Z.land_spec. apply Z.bit_log2.
    assert (0 <= Z.land a b) by (apply Z.land_nonneg; by right). lia.
  - intros (i & Hai & Hbi) H0. apply (f_equal (λ z, Z.testbit z i)) in H0. rewrite Z.land_spec, Hai, Hbi, Z.bits_0 in H0. done.
Qed.

Lemma can_key_spec t k : coherent t → 0 <= k < MNEMONIC_KEY_COUNT →
  ∃ b, can_key_press t k = Ok b ∧ (b = true ↔ pending_key (multi_tap t) = Some k ∨ leads_to_word t k).
Proof.
  intros [Ha _ _] Hk. unfold can_key_press. destruct (bip39_key_text k Hk) as (kt & Hkt & _ & _).
  destruct (key_mask_at k kt Hkt) as (mask & -> & Hm & Hbits). cbn [mbind outcome_bind].
  eexists. split; [done|]. rewrite orb_true_iff, bool_decide_eq_true, negb_true_iff, land_nonzero by lia.
  apply or_iff_compat_l. unfold leads_to_word. split.
  - intros (i & Hw & Hi). assert (0 <= i < 26) as Hir.
    { destruct (Z.lt_ge_cases i 0); [by rewrite Z.testbit_neg_r in Hi by lia|]. split; [done|].
      destruct (Z.lt_ge_cases i 26); [done|]. rewrite Z.bits_above_log2 in Hi; [done|lia|].
      destruct (decide (mask = 0)) as [->|]; [simpl; lia|]. assert (Z.log2 mask < 26); [|lia]. apply Z.log2_lt_pow2; lia. }
    rewrite (Hbits i Hir), bool_decide_eq_true in Hi. exists kt, (97 + i). split_and!; [done|done|].
    destruct (decide (text t = [])) as [|Hne]; [by left|right]. apply (completion_mask_spec W (text t)); [exact bip39_ascii|done|done|done|exact Hw].
  - intros (kt' & c & Hkt' & Hc & Hcont). assert (kt' = kt) as -> by congruence.
    destruct (key_letters k kt Hkt c Hc) as [Hc1 Hc2]. exists (c - 97).
    rewrite Hbits, bool_decide_eq_true by lia. replace (97 + (c - 97)) with c by lia. split; [|done].
    destruct (decide (text t = [])) as [He|Hne].
    + rewrite He. unfold word_completion_mask, mnemonic_word_completion_mask. cbn [length Z.of_nat].
      rewrite (proj2 (Z.leb_le _ _)) by lia. change 0x3ffffff with (Z.ones 26). apply Z.ones_spec_low. lia.
    + destruct Hcont as [|Hcont]; [done|]. apply (completion_mask_spec W (text t)); [exact bip39_ascii|done|done|lia|].
      by replace (97 + (c - 97)) with c by lia.
Qed.

#[export] Instance bip39_laws : MnemonicLaws Bip39Input coherent (λ w, w ∈ W).
Proof.
  split.
  - done.
  - intros t k Ht Hk. destruct (can_key_spec t k Ht Hk) as (b & Hb & _). by exists b.
  - intros t ctx k Ht Hk. destruct (key_click_coherent t ctx k Ht Hk) as (t' & ctx' & ? & ? & _). by exists t', ctx'.
  - intros t ctx Ht. destruct (backspace_coherent t ctx Ht) as (t' & ctx' & ? & ? & _). by exists t', ctx'.
  - intros t ctx Ht. destruct (long_press_coherent t ctx Ht) as (t' & ctx' & ? & ? & _). by exists t', ctx'.
  - intros [] ctx _. by exists ctx.
  - intros t ctx ev Ht. destruct (coherent_event t ctx ev Ht) as (t' & ctx' & msg & He & Hm).
    exists t', ctx', msg. split; [exact He|]. apply event_outcome_msg in Hm. destruct msg as [[]|]; try done.
    destruct Hm as (Hc & Ht' & Hm). split; [done|]. cbn. unfold can_key_press. by rewrite Ht', Hm.
Qed.

(** ** The functions of the input *)

Lemma new_coherent : coherent bip39_new.
Proof. by split; [constructor|..]. Qed.

(** C22. Entering a word by its letters, from a state whose suggestion belongs
    to its text (the empty input is one, and every operation leads to one until
    a word is confirmed): a key is allowed exactly when it is pending or one of
    its letters continues the text towards a word; a click on it adds a letter
    of the key, or takes the place of the last letter while the key is pending;
    backspace removes the last letter and a long press all of them. The end of
    the wait forgets the pending key, and removes the last letter when no word
    begins with the text. The end of a touch within the pressed input confirms
    the first word with the letters entered when it is the only one or equal to
    them, completes the text to this word when there are more, and does nothing
    when there is none; no other event confirms, completes or changes anything,
    and a touch that begins within the input presses it when there is a word. *)
Theorem bip39_entry t ctx : coherent t →
  (∀ k, 0 <= k < MNEMONIC_KEY_COUNT →
    (∃ b, can_key_press t k = Ok b ∧ (b = true ↔ pending_key (multi_tap t) = Some k ∨ leads_to_word t k)) ∧
    ∃ t' ctx', key_click t ctx k = Ok (t', ctx') ∧ coherent t' ∧ typed t t' k) ∧
  (∃ t' ctx', backspace_click t ctx = Ok (t', ctx') ∧ coherent t' ∧ text t' = removelast (text t)) ∧
  (∃ t' ctx', backspace_long_press t ctx = Ok (t', ctx') ∧ coherent t' ∧ text t' = []) ∧
  ∀ ev, ∃ t' ctx' msg, bip39_event t ctx ev = Ok (t', ctx', msg) ∧ event_outcome t ev t' msg.
Proof.
  intros Hco. split_and!.
  - intros k Hk. split; [by apply can_key_spec|by apply key_click_coherent].
  - by apply backspace_coherent.
  - by apply long_press_coherent.
  - intros ev. by apply coherent_event.
Qed.

(** The first key, "abc", on an empty input. *)
Lemma bip39_entry_witness : ∃ t' ctx', key_click bip39_new ctx_new 0 = Ok (t', ctx') ∧ coherent t' ∧ typed bip39_new t' 0.
Proof.
  pose proof (bip39_entry bip39_new ctx_new new_coherent) as [Hk _]. apply Hk. unfold MNEMONIC_KEY_COUNT. lia.
Defined.
