(* ===== verification/Slip39Spec.v ===== *)
(** * Properties of the entry of words by their keys

    [Slip39Input] satisfies the laws of an input: the mask and the word it
    keeps are those of the keys entered, and what it confirms is the only word
    of the list with these keys. *)
From S2P Require Import Prelude Time StrUtil Geometry Words Wordlist WordSpec Component Theme Button ComponentSpec Fonts TextLayout Keyboard Bip39 Slip39 MnemonicKeyboard MnemonicSpec Bip39Spec.
Local Open Scope Z_scope.

Abbreviation keyed t := (Keyboard.content (textbox t)).

(** Digits from 1 to 9. *)
Abbreviation digit_text s := (Forall (λ b, 49 <= b <= 57) s).

(** The mask and the word are those of the keys entered, and the button is
    only enabled for a word. *)
Record matched (t : Slip39Input) : Prop := {
  ma_digits : digit_text (keyed t);
  ma_lookup : lookup_keys (keyed t) = Ok (input_mask t, final_word t);
  ma_button : is_enabled (button t) = true → is_final (input_mask t) = true → final_word t ≠ None
}.

(** ** The number of the keys entered *)

Lemma parse_digits_least acc s r : digit_text s → 0 <= acc → parse_digits acc s = Some r → acc <= r.
Proof.
  revert acc. induction s as [|b s IH]; intros acc Hs Hacc Hp; [injection Hp as ->; lia|].
  apply Forall_cons in Hs as [Hb Hs]. cbn [parse_digits] in Hp.
  destruct (Z.leb_spec 48 b), (Z.leb_spec b 57); try lia. cbn [andb] in Hp.
  destruct (fits_u 16 _); [|done]. apply IH in Hp; [lia|done|lia].
Qed.

Lemma parse_u16_positive s p : digit_text s → parse_u16 s = Some p → 1 <= p.
Proof.
  intros Hs Hp. assert (∃ b s', s = b :: s') as (b & s' & ->) by (destruct s; [done|eauto]).
  apply Forall_cons in Hs as [Hb Hs]. assert (parse_digits 0 (b :: s') = Some p) as Hd.
  { unfold parse_u16 in Hp. destruct (Z.eqb_spec b 43); [lia|]. by destruct s'. }
  cbn [parse_digits] in Hd. destruct (Z.leb_spec 48 b), (Z.leb_spec b 57); try lia. cbn [andb] in Hd.
  destruct (fits_u 16 _); [|done]. apply parse_digits_least in Hd; [lia|done|lia].
Qed.

(** ** Masks *)

Lemma is_final_one mask : is_final mask = true → (∀ i, 16 <= i → Z.testbit mask i = false) →
  ∀ i j, Z.testbit mask i = true → Z.testbit mask j = true → i = j.
Proof.
  unfold is_final, count_ones. intros Hf%Z.leb_le Hw.
  assert (∀ i, Z.testbit mask i = true → i ∈ filter (λ i, Z.testbit mask i = true) (range 16)) as Hin.
  { intros i Hi. apply list_elem_of_filter. split; [done|]. apply elem_of_range.
    destruct (Z.lt_ge_cases i 0); [by rewrite Z.testbit_neg_r in Hi by lia|].
    destruct (Z.lt_ge_cases i 16); [lia|]. by rewrite Hw in Hi. }
  intros i j Hi%Hin Hj%Hin. destruct (filter _ _) as [|x [|y l]]; [by apply not_elem_of_nil in Hi| |simpl in Hf; lia].
  apply list_elem_of_singleton in Hi, Hj. congruence.
Qed.

Lemma no_bits_final mask : (∀ i, 0 <= i → Z.testbit mask i = false) → is_final mask = true.
Proof.
  intros Hb. unfold is_final, count_ones. rewrite filter_none; [done|]. apply Forall_forall. intros i Hi.
  apply elem_of_range in Hi. rewrite Hb by lia. done.
Qed.

Lemma mask_contains_key mask k : 0 <= k < 9 → contains_key mask k = Z.testbit mask k.
Proof.
  intros Hk. unfold contains_key. rewrite Z.mod_small by lia. rewrite Z.shiftl_1_l, wrapu_small.
  2: { unfold in_u. split; [lia|]. apply Z.pow_lt_mono_r; lia. }
  apply eq_bool_prop_intro. rewrite !Is_true_true, negb_true_iff, Z.eqb_neq. split.
  - intros Hne. destruct (Z.testbit mask k) eqn:E; [done|]. exfalso. apply Hne. apply Z.bits_inj_0. intros i.
    rewrite Z.land_spec, Z.pow2_bits_eqb by lia. destruct (Z.eqb_spec k i) as [->|]; [by rewrite E|by rewrite andb_false_r].
  - intros Ht H0. apply (f_equal (λ z, Z.testbit z k)) in H0. rewrite Z.land_spec, Ht, Z.pow2_bits_true, Z.bits_0 in H0 by lia.
    done.
Qed.

(** The words with the keys entered. *)
Definition with_keys (p : Z) : list (Z * Z) := filter (λ e, entered p (fst e)) words_button_seq.

(** The entry at some place: the number of the keys entered, when they are
    between one and four. *)
Definition key_number (text : list Z) : option Z := p ← parse_u16 text; if p <=? 9999 then Some p else None.

(** Some word continues with the key. *)
Definition leads_on (p k : Z) : Prop := ∃ e, e ∈ words_button_seq ∧ entered (10 * p + (k + 1)) (fst e).

#[local] Opaque words_button_seq SLIP39_WORDLIST.

Lemma words_not_empty : words_button_seq ≠ [].
Proof. discriminate. Qed.

Lemma lookup_keys_spec text : digit_text text →
  ∃ mask word, lookup_keys text = Ok (mask, word) ∧
    match key_number text with
    | Some p => word = (if is_final mask then head (with_keys p) ≫= λ e, getZ SLIP39_WORDLIST (snd e) else None) ∧
        (∀ k, 0 <= k < 9 → contains_key mask k = true ↔ leads_on p k) ∧
        (is_final mask = true → ∀ e1 e2, e1 ∈ with_keys p → e2 ∈ with_keys p → e1 = e2) ∧
        (1000 <= p → is_final mask = true)
    | None => mask = full_mask ∧ word = None
    end.
Proof.
  intros Ht. unfold lookup_keys, key_number. destruct (parse_u16 text) as [p|] eqn:Hp; cbn [mbind option_bind].
  2: { exists full_mask, None. by split. }
  apply parse_u16_positive in Hp; [|done]. destruct (Z.leb_spec p 9999) as [Hle|Hgt].
  2: { exists full_mask, None. split; [|done]. unfold slip39_completion_mask. rewrite (proj2 (Z.leb_gt p 9999)) by lia.
       rewrite andb_false_r. done. }
  destruct (completion_mask_keys SLIP39_WORDLIST words_button_seq slip39_keys slip39_four_keys slip39_indices
    words_not_empty p) as (mask & -> & Hbits); [lia|]. cbn [mbind outcome_bind default]. unfold id.
  rewrite (button_sequence_spec SLIP39_WORDLIST words_button_seq slip39_keys slip39_four_keys slip39_indices
    words_not_empty p) by lia.
  exists mask, (if is_final mask then head (with_keys p) ≫= λ e, getZ SLIP39_WORDLIST (snd e) else None).
  split; [by destruct (is_final mask)|]. split_and!; [done| | |].
  - intros k Hk. rewrite mask_contains_key by done. replace k with (k + 1 - 1) at 1 by lia. rewrite Hbits by lia.
    unfold leads_on. split; [by intros [_ ?]|]. intros He. split; [lia|done].
  - intros Hf e1 e2 [He1 H1]%list_elem_of_filter [He2 H2]%list_elem_of_filter.
    apply (mask_distinguishes words_button_seq p mask); try done; [exact slip39_keys|exact slip39_distinguishing|].
    apply is_final_one; [done|]. intros i Hi. apply not_true_iff_false. intros Hb.
    replace i with (i + 1 - 1) in Hb by lia. apply Hbits in Hb as [? _]; lia.
  - intros Hbig. apply no_bits_final. intros i Hi. apply not_true_iff_false. intros Hb.
    replace i with (i + 1 - 1) in Hb by lia. apply Hbits in Hb as (Hi9 & e & Hin & He); [|lia].
    assert (1000 <= fst e <= 9999) by (pose proof slip39_four_keys as Hf; eapply Forall_forall in Hf; [apply Hf|done]).
    revert He. unfold entered. Z.to_euclidean_division_equations. lia.
Qed.

(** ** The operations *)

Lemma complete_matched t ctx : digit_text (keyed t) →
  ∃ t' ctx', complete_word_from_dictionary t ctx = Ok (t', ctx') ∧ matched t' ∧ textbox t' = textbox t ∧
    multi_tap t' = multi_tap t.
Proof.
  intros Ht. unfold complete_word_from_dictionary. destruct (lookup_keys_spec (keyed t) Ht) as (mask & word & Hl & _).
  rewrite Hl. cbn [mbind outcome_bind]. destruct word as [w|].
  - pose proof (enable_enabled (button t) ctx). destruct (enable (button t) ctx) as [b ctx1].
    pose proof (set_content_enabled b ctx1 (Icon_ ICON_LIST_CHECK)). destruct (set_content b ctx1 _) as [b' ctx2].
    eexists _, _. split; [done|]. by split_and!.
  - pose proof (disable_enabled (button t) ctx) as Hd. destruct (disable (button t) ctx) as [b ctx1].
    pose proof (set_content_enabled b ctx1 (Text [])) as Hs. destruct (set_content b ctx1 _) as [b' ctx2].
    eexists _, _. split; [done|]. split_and!; [|done..]. split; [done|done|]. cbn in *. congruence.
Qed.

Lemma slip39_key_text k : 0 <= k < MNEMONIC_KEY_COUNT →
  ∃ key_text, getZ Slip39.keys k = Some key_text ∧ key_text ≠ [] ∧ ascii key_text.
Proof.
  intros Hk. destruct (proj2 (getZ_is_Some Slip39.keys k)) as [kt Hkt]; [exact Hk|]. exists kt. split; [done|].
  assert (Forall (λ kt, kt ≠ [] ∧ ascii kt) Slip39.keys) as Hall.
  { unfold Slip39.keys, ascii. repeat (constructor; [split; [done|repeat constructor; lia]|]). constructor. }
  apply getZ_Some in Hkt as [_ Hkt]. by apply (Forall_lookup_1 _ _ _ _ Hall Hkt).
Qed.

Lemma digit_text_ascii s : digit_text s → ascii s.
Proof. intros Hs. apply (Forall_impl _ _ _ Hs). intros b Hb. cbn in *. lia. Qed.

Lemma push_digit_text s b : digit_text s → 49 <= b <= 57 → digit_text (push_or_drop s [b]).
Proof.
  intros Hs Hb. unfold push_or_drop, push_str. destruct (_ <=? _); cbn; [|done].
  apply Forall_app. split; [done|by apply Forall_singleton].
Qed.

Lemma removelast_digit_text s : digit_text s → digit_text (removelast s).
Proof.
  intros Hs. destruct s as [|b s _] using rev_ind; [done|]. rewrite removelast_last. by apply Forall_app in Hs as [? _].
Qed.

(** The keys after a click: the key is added, unless it is pending. *)
Definition keyed_after (t : Slip39Input) (k : Z) : list Z :=
  if bool_decide (pending_key (multi_tap t) = Some k) then keyed t else push_or_drop (keyed t) [49 + k].

Lemma key_click_matched t ctx k : matched t → 0 <= k < MNEMONIC_KEY_COUNT →
  ∃ t' ctx', key_click t ctx k = Ok (t', ctx') ∧ matched t' ∧ keyed t' = keyed_after t k.
Proof.
  intros [Hd _ _] Hk. unfold key_click, keyed_after. destruct (slip39_key_text k Hk) as (kt & -> & Hne & Hka).
  cbn [or_panic mbind outcome_bind].
  destruct (click_key_ends (multi_tap t) ctx k kt Hne Hka) as (m & ctx1 & edit & -> & b & _ & Hedit).
  cbn [mbind outcome_bind]. unfold MNEMONIC_KEY_COUNT in Hk. unfold key_digit, from_digit.
  rewrite (proj2 (Z.leb_le _ _)), (proj2 (Z.ltb_lt _ _)) by lia.
  destruct Hedit as [[-> Hp]|[-> Hp]]; [rewrite bool_decide_eq_true_2 by done|rewrite bool_decide_eq_false_2 by done];
    cbn [andb or_panic mbind outcome_bind].
  - destruct (complete_matched (with_input t m (textbox t)) (request_paint ctx1)) as (t' & ctx' & -> & ? & Ht & _); [done|].
    exists t', ctx'. split_and!; [done|done|]. by rewrite Ht.
  - unfold append. replace (48 + (k + 1)) with (49 + k) by lia.
    destruct (complete_matched (with_input t m (mkTextBox (push_or_drop (keyed t) [49 + k]))) (request_paint ctx1))
      as (t' & ctx' & -> & ? & Ht & _); [apply push_digit_text; [done|lia]|].
    exists t', ctx'. split_and!; [done|done|]. by rewrite Ht.
Qed.

Lemma backspace_matched t ctx : matched t →
  ∃ t' ctx', backspace_click t ctx = Ok (t', ctx') ∧ matched t' ∧ keyed t' = removelast (keyed t).
Proof.
  intros [Hd _ _]. unfold backspace_click. destruct (clear_pending_state (multi_tap t) ctx) as [m ctx1].
  assert (Keyboard.content (fst (delete_last (textbox t) ctx1)) = removelast (keyed t)) as Ht.
  { unfold delete_last. pose proof (proj1 (pop_ascii _ (digit_text_ascii _ Hd))) as Hpop. by destruct (pop _). }
  destruct (delete_last (textbox t) ctx1) as [tb ctx2].
  destruct (complete_matched (with_input t m tb) ctx2) as (t' & ctx3 & -> & ? & Htb & _).
  { cbn in *. rewrite Ht. by apply removelast_digit_text. }
  exists t', ctx3. split_and!; [done|done|]. by rewrite Htb.
Qed.

Lemma long_press_matched t ctx : matched t →
  ∃ t' ctx', backspace_long_press t ctx = Ok (t', ctx') ∧ matched t' ∧ keyed t' = [].
Proof.
  intros _. unfold backspace_long_press. destruct (clear_pending_state (multi_tap t) ctx) as [m ctx1].
  assert (Keyboard.content (fst (clear (textbox t) ctx1)) = []) as Ht.
  { unfold clear, replace. by case_bool_decide. }
  destruct (clear (textbox t) ctx1) as [tb ctx2]. cbn [fst] in Ht.
  destruct (complete_matched (with_input t m tb) ctx2) as (t' & ctx3 & -> & ? & Htb & _).
  { cbn. rewrite Ht. constructor. }
  exists t', ctx3. split_and!; [done|done|]. by rewrite Htb.
Qed.

(** What an event does to the entry. *)
Definition event_outcome (t t' : Slip39Input) (msg : option MnemonicInputMsg) : Prop :=
  matched t' ∧ textbox t' = textbox t ∧ input_mask t' = input_mask t ∧ final_word t' = final_word t ∧
  match msg with
  | Some Confirmed => ∃ p e w, key_number (keyed t) = Some p ∧ with_keys p = [e] ∧
      getZ SLIP39_WORDLIST (snd e) = Some w ∧ final_word t = Some w
  | Some Completed => False
  | Some TimedOut => pending_key (multi_tap t') = None
  | None => multi_tap t' = multi_tap t
  end.

Lemma NoDup_with_keys p : NoDup (with_keys p).
Proof.
  apply NoDup_filter. apply NoDup_alt. intros i j x Hi Hj.
  destruct (Nat.lt_trichotomy i j) as [Hij|[->|Hij]]; [|done|];
    [pose proof (slip39_keys _ _ _ _ Hij Hi Hj)|pose proof (slip39_keys _ _ _ _ Hij Hj Hi)]; lia.
Qed.

(** A word that is found is the only one. *)
Lemma final_unique t : matched t → is_final (input_mask t) = true → final_word t ≠ None →
  ∃ p e w, key_number (keyed t) = Some p ∧ with_keys p = [e] ∧ getZ SLIP39_WORDLIST (snd e) = Some w ∧
    final_word t = Some w.
Proof.
  intros [Hd Hl _] Hf Hw. destruct (lookup_keys_spec (keyed t) Hd) as (mask & word & Hl' & Hspec).
  rewrite Hl in Hl'. injection Hl' as <- <-. destruct (key_number (keyed t)) as [p|]; [|by destruct Hspec].
  destruct Hspec as (Hword & _ & Hone & _). rewrite Hf in Hword. specialize (Hone Hf). pose proof (NoDup_with_keys p) as Hnd.
  destruct (with_keys p) as [|e [|e' l]] eqn:E; cbn [head mbind option_bind] in Hword; [congruence| |].
  - destruct (getZ SLIP39_WORDLIST (snd e)) as [w|] eqn:Hget; [|congruence]. by exists p, e, w.
  - assert (e = e') as -> by (apply Hone; rewrite !elem_of_cons; auto).
    apply NoDup_cons in Hnd as [[]%not_elem_of_cons _]. done.
Qed.

Lemma event_matched t ctx ev : matched t →
  ∃ t' ctx' msg, event t ctx ev = Ok (t', ctx', msg) ∧ event_outcome t t' msg.
Proof.
  intros Hm. cbn [event slip39_component]. unfold slip39_event.
  destruct (is_timeout_event (multi_tap t) ev).
  - assert (pending_key (fst (clear_pending_state (multi_tap t) ctx)) = None) as Hp.
    { unfold clear_pending_state, pending_key. destruct (pending (multi_tap t)) eqn:E; [done|]. cbn. by rewrite E. }
    destruct (clear_pending_state (multi_tap t) ctx) as [m ctx1]. eexists _, _, _. split; [done|].
    split_and!; try done. by split; apply Hm.
  - pose proof (button_event_enabled (button t) ctx ev) as Hen. pose proof (button_event_clicked (button t) ctx ev) as Hcl.
    destruct (button_event (button t) ctx ev) as [[b ctx1] msg]. cbn [fst snd] in Hen, Hcl.
    assert (matched (mkSlip39 b (textbox t) (multi_tap t) (final_word t) (input_mask t))) as Hm'.
    { split; [apply Hm|apply Hm|]. cbn. rewrite Hen. apply Hm. }
    destruct (decide (msg = Some Clicked)) as [->|Hmsg].
    + cbn [input_mask]. destruct (is_final (input_mask t)) eqn:Hf; (eexists _, _, _; split; [done|]); split_and!; try done.
      apply final_unique; [done|done|]. apply Hm; [by apply Hcl|done].
    + exists (mkSlip39 b (textbox t) (multi_tap t) (final_word t) (input_mask t)), ctx1, None.
      split; [by destruct msg as [[]|]|]. by split_and!.
Qed.

Lemma can_key_matched t k : matched t → 0 <= k < MNEMONIC_KEY_COUNT →
  ∃ b, can_key_press t k = Ok b ∧ (b = true ↔ is_final (input_mask t) = false ∧
    (pending_key (multi_tap t) = Some k ∨ match key_number (keyed t) with Some p => leads_on p k | None => True end)).
Proof.
  intros [Hd Hl _] Hk. unfold can_key_press. destruct (lookup_keys_spec (keyed t) Hd) as (mask & word & Hl' & Hspec).
  rewrite Hl in Hl'. injection Hl' as <- <-. destruct (is_final (input_mask t)).
  { exists false. split; [done|]. by split; [|intros []]. }
  eexists. split; [done|]. rewrite orb_true_iff, bool_decide_eq_true.
  assert (∀ P Q, P ↔ Q → P ↔ false = false ∧ Q) as Htriv by tauto. apply Htriv, or_iff_compat_l.
  destruct (key_number (keyed t)) as [p|].
  - destruct Hspec as (_ & Hbits & _ & _). by apply Hbits.
  - destruct Hspec as [-> _]. split; [done|]. intros _. unfold MNEMONIC_KEY_COUNT in Hk. rewrite mask_contains_key by done.
    change full_mask with (Z.ones 9). apply Z.ones_spec_low. lia.
Qed.

#[export] Instance slip39_laws : MnemonicLaws Slip39Input matched (λ w, w ∈ SLIP39_WORDLIST).
Proof.
  split.
  - done.
  - intros t k Ht Hk. destruct (can_key_matched t k Ht Hk) as (b & Hb & _). by exists b.
  - intros t ctx k Ht Hk. destruct (key_click_matched t ctx k Ht Hk) as (t' & ctx' & ? & ? & _). by exists t', ctx'.
  - intros t ctx Ht. destruct (backspace_matched t ctx Ht) as (t' & ctx' & ? & ? & _). by exists t', ctx'.
  - intros t ctx Ht. destruct (long_press_matched t ctx Ht) as (t' & ctx' & ? & ? & _). by exists t', ctx'.
  - intros [] ctx _. by exists ctx.
  - intros t ctx ev Ht. destruct (event_matched t ctx ev Ht) as (t' & ctx' & msg & He & Hm & Htb & Hmask & Hw & Hmsg).
    exists t', ctx', msg. split; [exact He|]. destruct msg as [[]|]; try done.
    + destruct Hmsg as (p & e & w & _ & _ & Hget & Hfinal). exists w. split; [cbn; congruence|].
      apply getZ_Some in Hget as [_ Hget]. by eapply list_elem_of_lookup_2.
    + split; [done|]. cbn. unfold can_key_press. by rewrite Htb, Hmask, Hmsg.
Qed.

Lemma new_matched : matched slip39_new.
Proof. by split. Qed.

(** C23. Entering a word by its keys, from a state whose mask and word are those
    of the keys entered (the empty input is one, and every operation leads to
    one): while more than one key can follow, a key is allowed exactly when it
    is pending or continues the keys entered towards a word, and no key is
    allowed after that; a click adds the key, unless it is pending; backspace
    removes the last key and a long press all of them. An event confirms a word
    only when it is the one word of the list with the keys entered. *)
Theorem slip39_entry t ctx : matched t →
  (∀ k, 0 <= k < MNEMONIC_KEY_COUNT →
    (∃ b, can_key_press t k = Ok b ∧ (b = true ↔ is_final (input_mask t) = false ∧
      (pending_key (multi_tap t) = Some k ∨ match key_number (keyed t) with Some p => leads_on p k | None => True end))) ∧
    ∃ t' ctx', key_click t ctx k = Ok (t', ctx') ∧ matched t' ∧ keyed t' = keyed_after t k) ∧
  (∃ t' ctx', backspace_click t ctx = Ok (t', ctx') ∧ matched t' ∧ keyed t' = removelast (keyed t)) ∧
  (∃ t' ctx', backspace_long_press t ctx = Ok (t', ctx') ∧ matched t' ∧ keyed t' = []) ∧
  ∀ ev, ∃ t' ctx' msg, event t ctx ev = Ok (t', ctx', msg) ∧ event_outcome t t' msg.
Proof.
  intros Hm. split_and!.
  - intros k Hk. split; [by apply can_key_matched|by apply key_click_matched].
  - by apply backspace_matched.
  - by apply long_press_matched.
  - intros ev. by apply event_matched.
Qed.

(** The last key, "wxyz", on an empty input. *)
Lemma slip39_entry_witness :
  ∃ t' ctx', key_click slip39_new ctx_new 8 = Ok (t', ctx') ∧ matched t' ∧ keyed t' = [57].
Proof.
  pose proof (slip39_entry slip39_new ctx_new new_matched) as [Hk _]. apply (Hk 8). unfold MNEMONIC_KEY_COUNT. lia.
Defined.

(** ** Words that are filled in before *)

(** The four keys of a word. *)
Definition word_keys (w : list Z) : list Z := (λ ch, key_of ch + 1) <$> take 4 (chars w).

(** Each word has its keys in the table. *)
Fixpoint words_ok (i : Z) (ws : list (list Z)) : bool :=
  match ws with
  | [] => true
  | w :: ws =>
    match word_keys w with
    | [a; b; c; d] =>
      if forallb (λ k, if 1 <=? k then k <=? 9 else false) [a; b; c; d] then
        match find (λ e, fst e =? 1000 * a + 100 * b + 10 * c + d) words_button_seq with
        | Some e => if snd e =? i then words_ok (i + 1) ws else false
        | None => false
        end
      else false
    | _ => false
    end
  end.

#[local] Transparent words_button_seq SLIP39_WORDLIST.

Lemma slip39_words_ok : words_ok 0 SLIP39_WORDLIST = true.
Proof. vm_compute. reflexivity. Qed.

#[local] Opaque words_button_seq SLIP39_WORDLIST.

Lemma words_ok_at i ws j w : words_ok i ws = true → ws !! j = Some w →
  ∃ a b c d, word_keys w = [a; b; c; d] ∧ 1 <= a <= 9 ∧ 1 <= b <= 9 ∧ 1 <= c <= 9 ∧ 1 <= d <= 9 ∧
    (1000 * a + 100 * b + 10 * c + d, i + Z.of_nat j) ∈ words_button_seq.
Proof.
  revert i j. induction ws as [|w' ws IH]; intros i j Hok Hj; [done|]. cbn [words_ok] in Hok.
  destruct (word_keys w') as [|a [|b [|c [|d [|]]]]] eqn:Hw; try done.
  destruct (forallb _ _) eqn:Hd; [|done]. destruct (find _ _) as [[s n]|] eqn:Hf; [|done]. cbn [snd] in Hok.
  destruct (Z.eqb_spec n i) as [->|]; [|done]. destruct j as [|j].
  - injection Hj as <-. exists a, b, c, d. split; [done|].
    assert (∀ k, (if 1 <=? k then k <=? 9 else false) = true → 1 <= k <= 9) as Hk.
    { intros k. destruct (Z.leb_spec 1 k); [|done]. intros ?%Z.leb_le. lia. }
    cbn [forallb] in Hd. rewrite !andb_true_iff in Hd. destruct Hd as (Ha & Hb & Hc & Hd & _).
    apply Hk in Ha, Hb, Hc, Hd. split_and!; try lia.
    apply find_some in Hf as [Hin%list_elem_of_In Hs]. cbn [fst] in Hs. apply Z.eqb_eq in Hs as <-.
    by rewrite Z.add_0_r.
  - specialize (IH (i + 1) j Hok Hj). by replace (i + Z.of_nat (S j)) with (i + 1 + Z.of_nat j) by lia.
Qed.

Lemma parse_digits_number acc ds : Forall (λ d, 1 <= d <= 9) ds → 0 <= acc → foldl (λ a d, 10 * a + d) acc ds <= 9999 →
  parse_digits acc ((λ d, 48 + d) <$> ds) = Some (foldl (λ a d, 10 * a + d) acc ds) ∧
  acc <= foldl (λ a d, 10 * a + d) acc ds.
Proof.
  intros Hds. revert acc. induction Hds as [|d ds Hd Hds IH]; intros acc Hacc Hb; [by split|]. cbn in Hb |- *.
  destruct (Z.leb_spec 48 (48 + d)), (Z.leb_spec (48 + d) 57); try lia. cbn [andb].
  replace (acc * 10 + (48 + d - 48)) with (10 * acc + d) by lia. destruct (IH (10 * acc + d)) as [Hp Hle]; [lia|done|].
  rewrite (proj2 (fits_u_spec _ _)) by (unfold in_u; lia). split; [exact Hp|lia].
Qed.

Lemma key_number_digits ds : ds ≠ [] → Forall (λ d, 1 <= d <= 9) ds → foldl (λ a d, 10 * a + d) 0 ds <= 9999 →
  key_number ((λ d, 48 + d) <$> ds) = Some (foldl (λ a d, 10 * a + d) 0 ds).
Proof.
  intros Hne Hds Hb. destruct (parse_digits_number 0 ds Hds) as [Hp _]; [lia|done|].
  unfold key_number. assert (parse_u16 ((λ d, 48 + d) <$> ds) = parse_digits 0 ((λ d, 48 + d) <$> ds)) as ->.
  { destruct Hds as [|d ds Hd Hds]; [done|]. cbn [fmap list_fmap parse_u16]. destruct (Z.eqb_spec (48 + d) 43); [lia|].
    by destruct ds. }
  rewrite Hp. cbn [mbind option_bind]. by rewrite (proj2 (Z.leb_le _ _)).
Qed.

(** The keys of a word, as far as they are entered, lead to the word. *)
Lemma lookup_prefix ds p e w :
  ds ≠ [] → Forall (λ d, 1 <= d <= 9) ds → foldl (λ a d, 10 * a + d) 0 ds = p → p <= 9999 →
  e ∈ words_button_seq → entered p (fst e) → getZ SLIP39_WORDLIST (snd e) = Some w →
  ∃ mask, lookup_keys ((λ d, 48 + d) <$> ds) = Ok (mask, if is_final mask then Some w else None) ∧
    (1000 <= p → is_final mask = true).
Proof.
  intros Hne Hds <- Hp He Hin Hw.
  assert (digit_text ((λ d, 48 + d) <$> ds)) as Hdt.
  { apply Forall_fmap. apply (Forall_impl _ _ _ Hds). intros d Hd. cbn. lia. }
  destruct (lookup_keys_spec _ Hdt) as (mask & word & -> & Hspec). rewrite (key_number_digits ds Hne Hds Hp) in Hspec.
  destruct Hspec as (-> & _ & Hone & Hbig). exists mask. split; [|done]. f_equal. f_equal.
  destruct (is_final mask) eqn:Hf; [|done].
  assert (e ∈ with_keys (foldl (λ a d, 10 * a + d) 0 ds)) as Hmem by (by apply list_elem_of_filter).
  destruct (with_keys _) as [|e' l]; [by apply not_elem_of_nil in Hmem|]. cbn [head mbind option_bind].
  rewrite (Hone eq_refl e' e); [done|by left|done].
Qed.

Lemma setup_loop_word a b c d i w ks ds chs :
  1 <= a <= 9 → 1 <= b <= 9 → 1 <= c <= 9 → 1 <= d <= 9 →
  (1000 * a + 100 * b + 10 * c + d, i) ∈ words_button_seq → getZ SLIP39_WORDLIST i = Some w →
  ds ++ ks = [a; b; c; d] → ks ≠ [] → (λ ch, key_of ch + 1) <$> take (length ks) chs = ks →
  ∃ buff mask, setup_loop ((λ d, 48 + d) <$> ds) chs = Ok (buff, mask, Some w) ∧
    lookup_keys buff = Ok (mask, Some w) ∧ digit_text buff ∧ len buff <= 4.
Proof.
  intros Ha Hb Hc Hd Hin Hw. revert ds chs. induction ks as [|k ks IH]; intros ds chs Hall Hne Hks; [done|].
  destruct chs as [|ch chs]; [done|]. cbn [length take fmap list_fmap] in Hks. injection Hks as Hk Hks.
  assert (Forall (λ d, 1 <= d <= 9) (ds ++ k :: ks)) as Hdig by (rewrite Hall; repeat constructor; lia).
  apply Forall_app in Hdig as [Hds [Hk9 _]%Forall_cons].
  cbn [setup_loop]. unfold key_digit, from_digit. rewrite Hk, (proj2 (Z.leb_le 0 k)), (proj2 (Z.ltb_lt k 10)) by lia.
  cbn [andb or_panic mbind outcome_bind].
  assert (length ds < 4)%nat as Hl.
  { apply (f_equal length) in Hall. rewrite length_app in Hall. cbn in Hall. lia. }
  assert (push_or_drop ((λ d, 48 + d) <$> ds) [48 + k] = (λ d, 48 + d) <$> (ds ++ [k])) as ->.
  { unfold push_or_drop, push_str, CAPACITY. rewrite length_fmap. cbn [length]. rewrite (proj2 (Z.leb_le _ _)) by lia.
    cbn. by rewrite fmap_app. }
  destruct (lookup_prefix (ds ++ [k]) (foldl (λ a d, 10 * a + d) 0 (ds ++ [k])) (1000 * a + 100 * b + 10 * c + d, i) w)
    as (mask & Hlk & Hbig); try done.
  { by intros []%app_nil. }
  { apply Forall_app. split; [done|by apply Forall_singleton]. }
  { destruct ds as [|? [|? [|? [|? ?]]]]; cbn in Hall |- *; simplify_eq/=; lia. }
  { unfold entered. cbn [fst]. destruct ds as [|? [|? [|? [|? ?]]]]; cbn in Hall |- *; simplify_eq/=;
      Z.to_euclidean_division_equations; lia. }
  rewrite Hlk. cbn [mbind outcome_bind]. destruct (is_final mask) eqn:Hf.
  - eexists _, _. split; [done|]. split; [done|]. split.
    + apply Forall_fmap, Forall_app. split; [apply (Forall_impl _ _ _ Hds)|apply Forall_singleton]; intros; cbn in *; lia.
    + rewrite length_fmap, length_app. cbn [length]. lia.
  - apply IH; [by rewrite <- app_assoc| |done]. intros ->.
    destruct ds as [|? [|? [|? [|? ?]]]]; cbn in Hall; simplify_eq/=; lia.
Qed.

(** For every word of the list the input has keys that lead to the word. *)
Lemma prefilled_matched w : w ∈ SLIP39_WORDLIST → ∃ t, prefilled_word w = Ok t ∧ matched t ∧ final_word t = Some w.
Proof.
  intros [j Hj]%list_elem_of_lookup.
  destruct (words_ok_at 0 _ j w slip39_words_ok Hj) as (a & b & c & d & Hkeys & Ha & Hb & Hc & Hd & Hin).
  unfold prefilled_word, setup_from_prefilled_word. rewrite bool_decide_eq_false_2 by (by intros ->).
  assert (getZ SLIP39_WORDLIST (Z.of_nat j) = Some w) as Hget by (apply getZ_Some; split; [lia|by rewrite Nat2Z.id]).
  destruct (setup_loop_word a b c d (Z.of_nat j) w [a; b; c; d] [] (chars w)) as (buff & mask & Hs & Hl & Hdt & Hlen); try done.
  cbn [fmap list_fmap] in Hs. rewrite Hs. cbn [mbind outcome_bind]. unfold textbox_new, push_str, CAPACITY.
  rewrite (proj2 (Z.leb_le _ _)) by (simpl; lia). cbn [or_panic fmap outcome_fmap mbind outcome_bind app].
  eexists. split; [done|]. split; [|done]. by split.
Qed.

(** ** The keyboards for recovery words

    What the keyboard of [mnemonic.rs] guarantees with any input that has the
    laws of [MnemonicSpec], and so with both inputs of the firmware. *)
(** A font of the examples, eight pixels for each byte. *)
#[local] Instance plain_font : FontDriver := {|
  font_text_width _ t := Z.min 1024 (8 * len t);
  font_height _ := 12;
  font_max_height _ := 12;
  font_baseline _ := 2;
  font_get_glyph _ _ := None
|}.
#[local] Instance plain_display : DisplayConstants := {| LINE_SPACE := 4; FONT_BPP := 4 |}.
#[local] Instance plain_icons : Icons := {| icon_width _ := 10 |}.

Lemma bip39_first_keys k : 0 <= k < MNEMONIC_KEY_COUNT → can_key_press_lead_to_a_valid_word Bip39.bip39_new k = Ok true.
Proof.
  intros Hk. cbn. destruct (can_key_spec _ k new_coherent Hk) as (b & -> & Hb). f_equal. apply Hb. right.
  destruct (Bip39Spec.bip39_key_text k Hk) as (kt & Hkt & Hne & _). destruct kt as [|c kt]; [done|].
  exists (c :: kt), c. split_and!; [done|by left|by left].
Qed.

Lemma slip39_first_keys k : 0 <= k < MNEMONIC_KEY_COUNT → can_key_press_lead_to_a_valid_word Slip39.slip39_new k = Ok true.
Proof.
  intros Hk. cbn. destruct (can_key_matched _ k new_matched Hk) as (b & -> & Hb). f_equal. apply Hb. split; [done|]. by right.
Qed.

(** A word that is filled in before: no letter continues "zoo", but all keys are
    enabled until the first change. *)
Lemma prefilled_keys_enabled :
  ∃ t, Bip39.prefilled_word [122; 111; 111] = Ok t ∧ can_key_press_lead_to_a_valid_word t 0 = Ok false ∧
    (is_enabled ∘ inner <$> getZ (MnemonicKeyboard.keys (keyboard_new t [] true)) 0) = Some true.
Proof. eexists. split; [vm_compute; reflexivity|]. split; vm_compute; reflexivity. Qed.

(** C21. The keyboard, with any input that has the laws, from an empty entry:
    whatever events come in whatever order, nothing aborts; between them
    exactly the keys that lead to a word are enabled, and the input and the
    backspace button are shown when something is entered, the prompt otherwise;
    a word that is confirmed is valid, and the keyboard is only left backwards
    when this is allowed. *)
Theorem mnemonic_keyboard_safe {T} `{Hlaws : MnemonicLaws T inv valid} `{FontDriver} `{DisplayConstants} `{Icons} (t : T) text back events :
  inv t → (∀ k, 0 <= k < MNEMONIC_KEY_COUNT → can_key_press_lead_to_a_valid_word t k = Ok true) →
  ∃ kb msg, keyboard_run (keyboard_new t text back) events = Ok (kb, msg) ∧
    match msg with
    | None => keyboard_ok (inv := inv) kb
    | Some KConfirmed => ∃ w, keyboard_mnemonic kb = Some w ∧ valid w
    | Some Previous => back = true
    end.
Proof.
  intros Ht Hk. destruct (keyboard_run_spec (keyboard_new t text back) events) as (kb & msg & Hrun & Hg & Hmsg).
  { by apply keyboard_new_ok. }
  exists kb, msg. split; [done|]. destruct msg as [[]|]; [done| |done]. by destruct Hmsg as [? _].
Qed.

(** Both inputs of the firmware, touched at one place. *)
Lemma mnemonic_keyboard_safe_witness :
  let events := [(ctx_new, Touch (TouchStart (mkPoint 10 10))); (ctx_new, Touch (TouchEnd (mkPoint 10 10)))] in
  (∃ kb msg, keyboard_run (keyboard_new Bip39.bip39_new [] true) events = Ok (kb, msg) ∧
    match msg with Some KConfirmed => ∃ w, keyboard_mnemonic kb = Some w ∧ w ∈ BIP39_WORDLIST_ENGLISH | _ => True end) ∧
  ∃ kb msg, keyboard_run (keyboard_new Slip39.slip39_new [] false) events = Ok (kb, msg) ∧ msg ≠ Some Previous.
Proof.
  intros events. split.
  - destruct (mnemonic_keyboard_safe Bip39.bip39_new [] true events new_coherent bip39_first_keys) as (kb & msg & Hrun & Hm).
    exists kb, msg. split; [exact Hrun|]. by destruct msg as [[]|].
  - destruct (mnemonic_keyboard_safe Slip39.slip39_new [] false events new_matched slip39_first_keys) as (kb & msg & Hrun & Hm).
    exists kb, msg. split; [exact Hrun|]. by destruct msg as [[]|].
Defined.
