(* ===== verification/Pin.v ===== *)
(** * Entering a PIN

    [ui/model_tt/component/keyboard/pin.rs], with the shuffle of
    [trezorhal/random.rs] that places the digits. *)
From S2P Require Import Prelude Time StrUtil Geometry Component Theme Button Fonts TextLayout Keyboard.
Local Open Scope Z_scope.

(** ** Random order *)

(** The C generator: the result of a call with a bound. *)
Class RandomDriver := { random_uniform : Z → Z → Z }.

Section Shuffle.
Context `{RandomDriver} {A : Type}.

(* src: trezorhal/random.rs 1-3 (uniform) *)
Definition uniform (call n : Z) : Z := random_uniform call n.

(** [slice::swap], which aborts out of range. *)
Definition swap (l : list A) (i j : nat) : ui (list A) :=
  a ← or_panic (l !! i);
  b ← or_panic (l !! j);
  Ok (<[j := a]> (<[i := b]> l)).

Fixpoint shuffle_loop (i : nat) (l : list A) : ui (list A) :=
  match i with
  | O => Ok l
  | S i' =>
    let j := uniform (Z.of_nat i) (Z.of_nat i + 1) in
    l ← swap l i (Z.to_nat j);
    shuffle_loop i' l
  end.

(* src: trezorhal/random.rs 5-11 (shuffle) *)
Definition shuffle (l : list A) : ui (list A) := shuffle_loop (length l - 1) l.
End Shuffle.

(** ** The digits entered *)

(* src: ui/model_tt/component/keyboard/pin.rs 31-31 (MAX_LENGTH) *)
Definition MAX_LENGTH : Z := 50.
(* src: ui/model_tt/component/keyboard/pin.rs 32-32 (MAX_VISIBLE_DOTS) *)
Definition MAX_VISIBLE_DOTS : Z := 14.
(* src: ui/model_tt/component/keyboard/pin.rs 34-34 (DIGIT_COUNT) *)
Definition DIGIT_COUNT : Z := 10.
(* src: ui/model_tt/component/keyboard/pin.rs 36-44 (HEADER_PADDING) *)
Definition HEADER_PADDING : Insets := mkInsets (top borders) 5 12 5.

(* src: ui/model_tt/component/keyboard/pin.rs 304-310 (PinDots) *)
Record PinDots := mkDots {
  dots_area : Rect;
  dots_pad : Pad;
  dots_style : TextStyle;
  digits : ShortString;
  display_digits : bool
}.

(* src: ui/model_tt/component/keyboard/pin.rs 317-327 (PinDots::new) *)
Definition dots_new (style : TextStyle) : PinDots :=
  mkDots rect_zero (with_background (style_background_color style)) style [] false.

Section Dots.
Context (self : PinDots).

Definition with_digits (d : ShortString) : PinDots :=
  mkDots (dots_area self) (dots_pad self) (dots_style self) d (display_digits self).

(** Dots are six pixels wide, six pixels apart. *)
(* src: ui/model_tt/component/keyboard/pin.rs 329-334 (PinDots::size) *)
Definition dots_size : Offset :=
  let ndots := Z.min (len (digits self)) MAX_VISIBLE_DOTS in
  mkOffset (i16 (i16 (6 * wraps 16 ndots) + i16 (6 * wraps 16 (Z.max 0 (ndots - 1))))) 6.

(* src: ui/model_tt/component/keyboard/pin.rs 336-338 (PinDots::is_empty) *)
Definition dots_is_empty : bool := bool_decide (digits self = []).

(* src: ui/model_tt/component/keyboard/pin.rs 340-342 (PinDots::is_full) *)
Definition dots_is_full : bool := MAX_LENGTH <=? len (digits self).

(* src: ui/model_tt/component/keyboard/pin.rs 344-347 (PinDots::clear) *)
Definition dots_clear (ctx : EventCtx) : PinDots * EventCtx := (with_digits [], request_paint ctx).

(* src: ui/model_tt/component/keyboard/pin.rs 349-355 (PinDots::push) *)
Definition dots_push (ctx : EventCtx) (text : list Z) : PinDots * EventCtx :=
  (with_digits (push_or_drop (digits self) text), request_paint ctx).

(* src: ui/model_tt/component/keyboard/pin.rs 357-361 (PinDots::pop) *)
Definition dots_pop (ctx : EventCtx) : PinDots * EventCtx :=
  let '(popped, d) := pop (digits self) in
  (with_digits d, match popped with Some _ => request_paint ctx | None => ctx end).

Definition show_digits (ctx : EventCtx) (display : bool) : PinDots * EventCtx :=
  (mkDots (dots_area self) (clear_pad (dots_pad self)) (dots_style self) (digits self) display, request_paint ctx).

(** The digits are shown while the dots are touched. *)
(* src: ui/model_tt/component/keyboard/pin.rs 505-524 (PinDots::event) *)
Definition dots_event (ctx : EventCtx) (ev : Event) : PinDots * EventCtx :=
  match ev with
  | Touch (TouchStart pos) => if contains (dots_area self) pos then show_digits ctx true else (self, ctx)
  | Touch (TouchEnd _) => if display_digits self then show_digits ctx false else (self, ctx)
  | _ => (self, ctx)
  end.
End Dots.

(* src: ui/model_tt/component/keyboard/pin.rs 496-503 (Component for PinDots) *)
#[export] Instance dots_component : Component PinDots Empty_set := {
  place self bounds :=
    Ok (mkDots bounds (pad_place (dots_pad self) bounds) (dots_style self) (digits self) (display_digits self), bounds);
  event self ctx ev := let '(self, ctx) := dots_event self ctx ev in Ok (self, ctx, None)
}.

(** ** The keyboard *)

(* src: ui/model_tt/component/keyboard/pin.rs 26-29 (PinKeyboardMsg) *)
Inductive PinKeyboardMsg := PinConfirmed | PinCancelled.

(* src: ui/model_tt/component/keyboard/pin.rs 46-58 (PinKeyboard) *)
Record PinKeyboard := mkPin {
  allow_cancel : bool;
  major_prompt : Child Label;
  minor_prompt : Child Label;
  major_warning : option (Child Label);
  textbox : Child PinDots;
  textbox_pad : Pad;
  erase_btn : Child (Maybe Button);
  cancel_btn : Child (Maybe Button);
  confirm_btn : Child Button;
  digit_btns : list (Child Button);
  warning_timer : option TimerToken
}.

Section Pin.
Context `{FontDriver} `{DisplayConstants} `{Icons} `{RandomDriver}.

(** The texts "0" to "9". *)
Definition all_digits : list (list Z) := (λ d, [48 + d]) <$> range 10.

(* src: ui/model_tt/component/keyboard/pin.rs 106-114 (PinKeyboard::generate_digit_buttons) *)
Definition generate_digit_buttons : ui (list (Child Button)) :=
  ds ← shuffle all_digits;
  Ok (map (λ c, child_new (styled (with_text c) button_pin)) ds).

(* src: ui/model_tt/component/keyboard/pin.rs 65-104 (PinKeyboard::new) *)
Definition pin_new (major minor : list Z) (warning : option (list Z)) (cancel : bool) : ui PinKeyboard :=
  digit_btns ← generate_digit_buttons;
  let erase :=
    initially_enabled (with_long_press (styled (with_icon_blend IMAGE_BG_BACK_BTN ICON_BACK (mkOffset 30 12)) button_reset)
      ERASE_HOLD_DURATION) false in
  Ok (mkPin cancel
        (child_new (left_aligned major label_keyboard))
        (child_new (right_aligned minor label_keyboard_minor))
        ((λ text, child_new (left_aligned text label_keyboard_warning)) <$> warning)
        (child_new (dots_new label_default))
        (with_background (style_background_color label_default))
        (child_new (maybe_new BG erase false))
        (child_new (maybe_new BG (styled (with_icon ICON_CANCEL) button_cancel) cancel))
        (child_new (initially_enabled (styled (with_icon ICON_CONFIRM) button_confirm) false))
        digit_btns None).

(** All the digits are enabled or disabled. *)
Fixpoint enable_digits (btns : list (Child Button)) (ctx : EventCtx) (enabled : bool) : ui (list (Child Button) * EventCtx) :=
  match btns with
  | [] => Ok ([], ctx)
  | b :: btns =>
    '(b, ctx) ← mutate_ b ctx (λ ctx b, enable_if b ctx enabled);
    '(btns, ctx) ← enable_digits btns ctx enabled;
    Ok (b :: btns, ctx)
  end.

(** A button is shown or hidden, and enabled or disabled. *)
Definition show_and_enable (btn : Child (Maybe Button)) (ctx : EventCtx) (show enabled : bool) : ui (Child (Maybe Button) * EventCtx) :=
  '(btn, ctx, _) ← mutate btn ctx (λ ctx btn,
    '(btn, ctx, _) ← show_if btn ctx show;
    with_inner btn (λ b, let '(b, ctx) := enable_if b ctx enabled in Ok (b, ctx, tt)));
  Ok (btn, ctx).

(* src: ui/model_tt/component/keyboard/pin.rs 116-143 (PinKeyboard::pin_modified) *)
Definition pin_modified (self : PinKeyboard) (ctx : EventCtx) : ui (PinKeyboard * EventCtx) :=
  let is_full := dots_is_full (inner (textbox self)) in
  let is_empty := dots_is_empty (inner (textbox self)) in
  let pad := clear_pad (textbox_pad self) in
  '(dots, ctx) ← request_complete_repaint (textbox self) ctx;
  '(major, minor, warning, ctx) ←
    (if is_empty then
       '(major, ctx) ← request_complete_repaint (major_prompt self) ctx;
       '(minor, ctx) ← request_complete_repaint (minor_prompt self) ctx;
       '(warning, ctx) ← request_complete_repaint (major_warning self) ctx;
       Ok (major, minor, warning, ctx)
     else Ok (major_prompt self, minor_prompt self, major_warning self, ctx));
  let cancel_enabled := is_empty && allow_cancel self in
  '(btns, ctx) ← enable_digits (digit_btns self) ctx (negb is_full);
  '(erase, ctx) ← show_and_enable (erase_btn self) ctx (negb is_empty) (negb is_empty);
  '(cancel, ctx) ← show_and_enable (cancel_btn self) ctx cancel_enabled is_empty;
  '(confirm, ctx) ← mutate_ (confirm_btn self) ctx (λ ctx b, enable_if b ctx (negb is_empty));
  Ok (mkPin (allow_cancel self) major minor warning dots pad erase cancel confirm btns (warning_timer self), ctx).

(* src: ui/model_tt/component/keyboard/pin.rs 145-147 (PinKeyboard::pin) *)
Definition pin (self : PinKeyboard) : list Z := digits (inner (textbox self)).

(** The event is offered to the digits in order, up to the first that is
    clicked; the result has its text. *)
Fixpoint digits_event (btns : list (Child Button)) (ctx : EventCtx) (ev : Event)
  : ui (list (Child Button) * EventCtx * option (list Z)) :=
  match btns with
  | [] => Ok ([], ctx, None)
  | b :: btns =>
    '(b, ctx, msg) ← event b ctx ev;
    match msg, Button.content (inner b) with
    | Some Clicked, Text text => Ok (b :: btns, ctx, Some text)
    | _, _ => '(btns, ctx, clicked) ← digits_event btns ctx ev; Ok (b :: btns, ctx, clicked)
    end
  end.

(** A change of the digits, then the update of the keyboard. *)
Definition edit_dots (self : PinKeyboard) (ctx : EventCtx) (f : PinDots → EventCtx → PinDots * EventCtx)
  : ui (PinKeyboard * EventCtx * option PinKeyboardMsg) :=
  '(dots, ctx) ← mutate_ (textbox self) ctx (λ ctx t, f t ctx);
  '(self, ctx) ← pin_modified (mkPin (allow_cancel self) (major_prompt self) (minor_prompt self) (major_warning self) dots
    (textbox_pad self) (erase_btn self) (cancel_btn self) (confirm_btn self) (digit_btns self) (warning_timer self)) ctx;
  Ok (self, ctx, None).

(** The warning is taken away after two seconds. *)
Definition warning_event (self : PinKeyboard) (ctx : EventCtx) (ev : Event) : ui (PinKeyboard * EventCtx) :=
  match ev with
  | Attach _ =>
    if bool_decide (major_warning self = None) then Ok (self, ctx)
    else
      let '(token, ctx) := request_timer ctx (from_secs 2) in
      Ok (mkPin (allow_cancel self) (major_prompt self) (minor_prompt self) (major_warning self) (textbox self)
            (textbox_pad self) (erase_btn self) (cancel_btn self) (confirm_btn self) (digit_btns self) (Some token), ctx)
  | Timer token =>
    if bool_decide (Some token = warning_timer self) then
      '(minor, ctx) ← request_complete_repaint (minor_prompt self) ctx;
      Ok (mkPin (allow_cancel self) (major_prompt self) minor None (textbox self) (clear_pad (textbox_pad self))
            (erase_btn self) (cancel_btn self) (confirm_btn self) (digit_btns self) (warning_timer self), request_paint ctx)
    else Ok (self, ctx)
  | _ => Ok (self, ctx)
  end.

(* src: ui/model_tt/component/keyboard/pin.rs 200-248 (PinKeyboard::event) *)
Definition pin_event (self : PinKeyboard) (ctx : EventCtx) (ev : Event) : ui (PinKeyboard * EventCtx * option PinKeyboardMsg) :=
  '(self, ctx) ← warning_event self ctx ev;
  '(dots, ctx, _) ← event (textbox self) ctx ev;
  '(confirm, ctx, msg) ← event (confirm_btn self) ctx ev;
  let self := mkPin (allow_cancel self) (major_prompt self) (minor_prompt self) (major_warning self) dots
    (textbox_pad self) (erase_btn self) (cancel_btn self) confirm (digit_btns self) (warning_timer self) in
  if bool_decide (msg = Some Clicked) then Ok (self, ctx, Some PinConfirmed)
  else
    '(cancel, ctx, msg) ← event (cancel_btn self) ctx ev;
    let self := mkPin (allow_cancel self) (major_prompt self) (minor_prompt self) (major_warning self) dots
      (textbox_pad self) (erase_btn self) cancel confirm (digit_btns self) (warning_timer self) in
    if bool_decide (msg = Some Clicked) then Ok (self, ctx, Some PinCancelled)
    else
      '(erase, ctx, msg) ← event (erase_btn self) ctx ev;
      let self := mkPin (allow_cancel self) (major_prompt self) (minor_prompt self) (major_warning self) dots
        (textbox_pad self) erase cancel confirm (digit_btns self) (warning_timer self) in
      match msg with
      | Some Clicked => edit_dots self ctx dots_pop
      | Some LongPressed => edit_dots self ctx dots_clear
      | _ =>
        '(btns, ctx, clicked) ← digits_event (digit_btns self) ctx ev;
        let self := mkPin (allow_cancel self) (major_prompt self) (minor_prompt self) (major_warning self) dots
          (textbox_pad self) erase cancel confirm btns (warning_timer self) in
        match clicked with
        | Some text => edit_dots self ctx (λ t ctx, dots_push t ctx text)
        | None => Ok (self, ctx, None)
        end
      end.

(** The digits are placed in the first three rows and the middle of the last. *)
Fixpoint place_digits (grid : Grid) (i : Z) (btns : list (Child Button)) : ui (list (Child Button)) :=
  match btns with
  | [] => Ok []
  | b :: btns =>
    area ← cell grid (if i <? 9 then i else i + 1);
    '(b, _) ← place b area;
    btns ← place_digits grid (i + 1) btns;
    Ok (b :: btns)
  end.

(* src: ui/model_tt/component/keyboard/pin.rs 153-198 (PinKeyboard::place) *)
Definition pin_place (self : PinKeyboard) (bounds : Rect) : ui (PinKeyboard * Rect) :=
  let borders_no_top := mkInsets 0 (right borders) (bottom borders) (left borders) in
  let '(header, keypad) :=
    split_bottom (inset bounds borders_no_top) (i16 (4 * PIN_BUTTON_HEIGHT + 3 * KEYBOARD_SPACING)) in
  let prompt := inset header HEADER_PADDING in
  let major_area := inset (translate prompt (offset_y 11)) (insets_right (-3)) in
  let minor_area := translate prompt (offset_y 11) in
  let grid := grid_with_spacing (grid_new keypad 4 3) KEYBOARD_SPACING in
  let pad := pad_place (textbox_pad self) header in
  '(dots, _) ← place (textbox self) header;
  '(major, _) ← place (major_prompt self) major_area;
  '(minor, _) ← place (minor_prompt self) minor_area;
  warning ← match major_warning self with
            | Some w => '(w, _) ← place w major_area; Ok (Some w)
            | None => Ok None
            end;
  erase_cancel_area ← row_col grid 3 0;
  '(erase, _) ← place (erase_btn self) erase_cancel_area;
  '(cancel, _) ← place (cancel_btn self) erase_cancel_area;
  confirm_area ← row_col grid 3 2;
  '(confirm, _) ← place (confirm_btn self) confirm_area;
  btns ← place_digits grid 0 (digit_btns self);
  Ok (mkPin (allow_cancel self) major minor warning dots pad erase cancel confirm btns (warning_timer self), bounds).
End Pin.
