(* ===== verification/PinSpec.v ===== *)
(** * Properties of the PIN keyboard *)
From S2P Require Import Prelude Time StrUtil Geometry Component Theme Button ComponentSpec Fonts TextLayout Keyboard.
From S2P Require Import Pin.
Local Open Scope Z_scope.

(** ** The shuffle *)

(** The documented range of the generator. *)
Class RandomLaws `{RandomDriver} : Prop := { uniform_range call n : 0 < n → 0 <= random_uniform call n < n }.

Section Shuffle.
Context `{RandomLaws} {A : Type}.

Lemma swap_permutes (l : list A) i j : (i < length l)%nat → (j < length l)%nat → ∃ l', swap l i j = Ok l' ∧ l' ≡ₚ l.
Proof.
  intros Hi Hj. destruct (lookup_lt_is_Some_2 l i Hi) as [a Ha], (lookup_lt_is_Some_2 l j Hj) as [b Hb].
  unfold swap. rewrite Ha, Hb. cbn [or_panic mbind outcome_bind]. eexists. split; [done|].
  destruct (decide (i = j)) as [->|Hne].
  - assert (a = b) as -> by congruence. assert (<[j:=b]> l = l) as E by (by apply list_insert_id). by rewrite !E.
  - apply Permutation_inj. split; [by rewrite !length_insert|].
    exists (λ k, if decide (k = i) then j else if decide (k = j) then i else k). split.
    + intros k1 k2. repeat case_decide; congruence.
    + intros k. repeat case_decide; subst.
      * rewrite list_lookup_insert_ne, list_lookup_insert_eq by done. done.
      * by rewrite list_lookup_insert_eq by (by rewrite length_insert).
      * by rewrite !list_lookup_insert_ne by done.
Qed.

Lemma shuffle_permutes (l : list A) : ∃ l', shuffle l = Ok l' ∧ l' ≡ₚ l.
Proof.
  unfold shuffle. assert (∀ i (l : list A), (i < length l)%nat ∨ i = 0%nat → ∃ l', shuffle_loop i l = Ok l' ∧ l' ≡ₚ l) as Hloop.
  { clear l. induction i as [|i IH]; intros l Hi; [by exists l|]. cbn [shuffle_loop]. unfold uniform.
    pose proof (uniform_range (Z.of_nat (S i)) (Z.of_nat (S i) + 1)).
    destruct (swap_permutes l (S i) (Z.to_nat (random_uniform (Z.of_nat (S i)) (Z.of_nat (S i) + 1)))) as (l1 & -> & Hp1); [lia..|].
    cbn [mbind outcome_bind]. pose proof (Permutation_length Hp1).
    destruct (IH l1) as (l2 & -> & Hp2); [lia|]. exists l2. split; [done|]. by rewrite Hp2. }
  apply Hloop. destruct l; [by right|left]. simpl. lia.
Qed.
End Shuffle.

(** ** The keyboard *)
Section Pin.
Context `{FontDriver} `{DisplayConstants} `{Icons} `{RandomLaws}.
Implicit Types kb : PinKeyboard.

(** The PIN has at most fifty digits; the buttons that can be used are those
    that make sense for it. *)
Record pin_ok kb : Prop := {
  pin_digits : Forall (λ b, 48 <= b <= 57) (pin kb);
  pin_length : len (pin kb) <= MAX_LENGTH;
  pin_erase : shown (erase_btn kb) = bool_decide (pin kb ≠ []) ∧ is_enabled (inside (erase_btn kb)) = bool_decide (pin kb ≠ []);
  pin_cancel : shown (cancel_btn kb) = bool_decide (pin kb = []) && allow_cancel kb;
  pin_confirm : is_enabled (inner (confirm_btn kb)) = bool_decide (pin kb ≠ []);
  pin_enabled : Forall (λ b, is_enabled (inner b) = bool_decide (len (pin kb) < MAX_LENGTH)) (digit_btns kb);
  pin_buttons : (λ b, Button.content (inner b)) <$> digit_btns kb ≡ₚ Text <$> all_digits
}.

Lemma label_repaints (l : Label) : repaints l.
Proof. intros ctx. by exists ctx. Qed.

Lemma dots_repaints (d : PinDots) : repaints d.
Proof. intros ctx. by exists ctx. Qed.

Lemma show_and_enable_spec (btn : Child (Maybe Button)) ctx show enabled :
  ∃ btn' ctx', show_and_enable btn ctx show enabled = Ok (btn', ctx') ∧ shown btn' = show ∧ is_enabled (inside btn') = enabled.
Proof.
  unfold show_and_enable.
  destruct (mutate_runs btn ctx (λ ctx btn, '(btn, ctx, _) ← show_if btn ctx show;
      with_inner btn (λ b, let '(b, ctx) := enable_if b ctx enabled in Ok (b, ctx, tt)))
    (λ m _, visible m = show ∧ is_enabled (maybe_inner m) = enabled)) as (btn' & ctx' & u & -> & Hs & He).
  - intros ctx1. destruct (show_if_runs (inner btn) ctx1 show (button_repaints _)) as (m & ctx2 & u & -> & _ & Hv).
    cbn [mbind outcome_bind]. pose proof (enable_if_enabled (maybe_inner m) ctx2 enabled) as He.
    unfold with_inner. destruct (enable_if (maybe_inner m) ctx2 enabled) as [b ctx3]. cbn [mbind outcome_bind].
    eexists _, _, _. by split.
  - cbn [mbind outcome_bind]. by exists btn', ctx'.
Qed.

Lemma enable_digits_spec (btns : list (Child Button)) ctx enabled :
  ∃ btns' ctx', enable_digits btns ctx enabled = Ok (btns', ctx') ∧ Forall (λ b, is_enabled (inner b) = enabled) btns' ∧
    (λ b, Button.content (inner b)) <$> btns' = (λ b, Button.content (inner b)) <$> btns.
Proof.
  revert ctx. induction btns as [|b btns IH]; intros ctx; [by exists [], ctx|]. cbn [enable_digits].
  destruct (mutate_ends b ctx (λ ctx b, enable_if b ctx enabled)
    (λ b', is_enabled b' = enabled ∧ Button.content b' = Button.content (inner b))) as (b' & ctx1 & -> & He & Hc).
  { intros ctx1. by rewrite enable_if_enabled, enable_if_content. }
  cbn [mbind outcome_bind]. destruct (IH ctx1) as (btns' & ctx2 & -> & Hes & Hcs). cbn [mbind outcome_bind].
  exists (b' :: btns'), ctx2. split; [done|]. split; [by constructor|]. by rewrite !fmap_cons, Hc, Hcs.
Qed.

(** The update of the keyboard makes it fit the PIN. *)
Lemma pin_modified_spec kb ctx :
  Forall (λ b, 48 <= b <= 57) (pin kb) → len (pin kb) <= MAX_LENGTH →
  (λ b, Button.content (inner b)) <$> digit_btns kb ≡ₚ Text <$> all_digits →
  ∃ kb' ctx', pin_modified kb ctx = Ok (kb', ctx') ∧ pin_ok kb' ∧ pin kb' = pin kb ∧ allow_cancel kb' = allow_cancel kb.
Proof.
  intros Hd Hl Hb. unfold pin_modified.
  destruct (child_repaint (textbox kb) ctx (dots_repaints _)) as (dots & ctx1 & -> & Hdots). cbn [mbind outcome_bind].
  set (empty := dots_is_empty (inner (textbox kb))).
  assert (∃ major minor warning ctx2, (if empty then
       '(major, ctx) ← request_complete_repaint (major_prompt kb) ctx1;
       '(minor, ctx) ← request_complete_repaint (minor_prompt kb) ctx;
       '(warning, ctx) ← request_complete_repaint (major_warning kb) ctx;
       Ok (major, minor, warning, ctx)
     else Ok (major_prompt kb, minor_prompt kb, major_warning kb, ctx1) : ui _) = Ok (major, minor, warning, ctx2))
    as (major & minor & warning & ctx2 & ->).
  { destruct empty; [|by eexists _, _, _, _].
    destruct (child_repaint (major_prompt kb) ctx1 (label_repaints _)) as (? & ? & -> & _). cbn [mbind outcome_bind].
    match goal with |- context [request_complete_repaint (minor_prompt kb) ?c] =>
      destruct (child_repaint (minor_prompt kb) c (label_repaints _)) as (? & ? & -> & _) end. cbn [mbind outcome_bind].
    destruct (major_warning kb) as [w|]; [|by eexists _, _, _, _].
    match goal with |- context [request_complete_repaint (Some w) ?c] =>
      destruct (child_event_runs w c RequestPaint (λ _ _, True)) as (w' & c' & m & Hw & _) end.
    { intros c. by eexists _, c, None. }
    unfold request_complete_repaint. cbn [event option_component]. rewrite Hw. cbn [mbind outcome_bind]. by eexists _, _, _, _. }
  cbn [mbind outcome_bind].
  destruct (enable_digits_spec (digit_btns kb) ctx2 (negb (dots_is_full (inner (textbox kb))))) as (btns & ctx3 & -> & Hen & Hcont).
  cbn [mbind outcome_bind].
  destruct (show_and_enable_spec (erase_btn kb) ctx3 (negb empty) (negb empty)) as (erase & ctx4 & -> & Hes & Hee).
  cbn [mbind outcome_bind].
  destruct (show_and_enable_spec (cancel_btn kb) ctx4 (empty && allow_cancel kb) empty) as (cancel & ctx5 & -> & Hcs & Hce).
  cbn [mbind outcome_bind].
  destruct (mutate_ends (confirm_btn kb) ctx5 (λ ctx b, enable_if b ctx (negb empty)) (λ b, is_enabled b = negb empty))
    as (confirm & ctx6 & -> & Hconf); [intros; apply enable_if_enabled|]. cbn [mbind outcome_bind].
  eexists _, _. split; [done|]. assert (negb empty = bool_decide (pin kb ≠ [])) as Hne.
  { unfold empty, dots_is_empty, pin. by case_bool_decide; case_bool_decide. }
  split; [|split; [unfold pin; cbn; by rewrite Hdots|done]].
  assert (∀ kb', textbox kb' = dots → pin kb' = pin kb) as Hpin by (intros ? Heq; unfold pin; by rewrite Heq, Hdots).
  split; rewrite ?Hpin by done; cbn; try done.
  - by rewrite <- Hne.
  - by rewrite <- Hne.
  - apply (Forall_impl _ _ _ Hen). intros b ->. unfold dots_is_full, pin in *.
    destruct (Z.leb_spec MAX_LENGTH (len (digits (inner (textbox kb))))); symmetry;
      [apply bool_decide_eq_false_2; lia|by apply bool_decide_eq_true_2].
  - by rewrite Hcont.
Qed.

(** *** Events *)

(** What an event can do to the PIN. *)
Definition pin_step (p p' : list Z) : Prop :=
  p' = p ∨ p' = removelast p ∨ p' = [] ∨ ∃ d, 48 <= d <= 57 ∧ len p < MAX_LENGTH ∧ p' = p ++ [d].

Definition pin_outcome kb kb' (msg : option PinKeyboardMsg) : Prop :=
  allow_cancel kb' = allow_cancel kb ∧ pin_ok kb' ∧ pin_step (pin kb) (pin kb') ∧
  match msg with
  | None => True
  | Some PinConfirmed => pin kb' = pin kb ∧ pin kb ≠ []
  | Some PinCancelled => pin kb' = pin kb ∧ pin kb = [] ∧ allow_cancel kb = true
  end.

Lemma edit_dots_spec kb ctx (f : PinDots → EventCtx → PinDots * EventCtx) p :
  (∀ ctx, digits (fst (f (inner (textbox kb)) ctx)) = p) → Forall (λ b, 48 <= b <= 57) p → len p <= MAX_LENGTH →
  (λ b, Button.content (inner b)) <$> digit_btns kb ≡ₚ Text <$> all_digits →
  ∃ kb' ctx', edit_dots kb ctx f = Ok (kb', ctx', None) ∧ pin_ok kb' ∧ pin kb' = p ∧ allow_cancel kb' = allow_cancel kb.
Proof.
  intros Hf Hp Hl Hb. unfold edit_dots.
  destruct (mutate_ends (textbox kb) ctx (λ ctx t, f t ctx) (λ t, digits t = p)) as (dots & ctx1 & -> & Hdots); [done|].
  cbn [mbind outcome_bind]. match goal with |- context [pin_modified ?k ctx1] =>
    destruct (pin_modified_spec k ctx1) as (kb' & ctx2 & -> & Hok & Hpin & Hc) end;
    [unfold pin; cbn; congruence|unfold pin; cbn; congruence|done|].
  cbn [mbind outcome_bind]. exists kb', ctx2. split; [done|]. split; [done|]. split; [|done].
  rewrite Hpin. unfold pin. cbn. done.
Qed.

(** The events of the dots and of the warning leave the PIN. *)
Lemma dots_event_digits d ctx ev : digits (fst (dots_event d ctx ev)) = digits d.
Proof. unfold dots_event, show_digits. destruct ev as [| [p|p|p|] | | | | | |]; try done; by case_match. Qed.

Lemma warning_event_spec kb ctx ev :
  ∃ kb' ctx', warning_event kb ctx ev = Ok (kb', ctx') ∧ textbox kb' = textbox kb ∧ erase_btn kb' = erase_btn kb ∧
    cancel_btn kb' = cancel_btn kb ∧ confirm_btn kb' = confirm_btn kb ∧ digit_btns kb' = digit_btns kb ∧
    allow_cancel kb' = allow_cancel kb.
Proof.
  unfold warning_event. destruct ev; try by eexists _, _.
  - case_bool_decide; [|by eexists _, _].
    destruct (child_repaint (minor_prompt kb) ctx (label_repaints _)) as (? & ? & -> & _). by eexists _, _.
  - case_bool_decide; [by eexists _, _|]. destruct (request_timer ctx (from_secs 2)). by eexists _, _.
Qed.

Lemma digits_event_spec (btns : list (Child Button)) ctx ev :
  ∃ btns' ctx' clicked, digits_event btns ctx ev = Ok (btns', ctx', clicked) ∧
    (λ b, Button.content (inner b)) <$> btns' = (λ b, Button.content (inner b)) <$> btns ∧
    (∀ e, Forall (λ b, is_enabled (inner b) = e) btns → Forall (λ b, is_enabled (inner b) = e) btns') ∧
    match clicked with
    | Some text => ∃ b, b ∈ btns ∧ Button.content (inner b) = Text text ∧ is_enabled (inner b) = true
    | None => True
    end.
Proof.
  revert ctx. induction btns as [|b btns IH]; intros ctx; [by exists [], ctx, None|]. cbn [digits_event].
  destruct (child_event_runs b ctx ev _ (λ ctx, button_event_runs (inner b) ctx ev)) as (b' & ctx1 & msg & -> & He & Hc & Hm).
  cbn [mbind outcome_bind]. destruct (IH ctx1) as (btns' & ctx2 & clicked & Hev & Hcs & Hes & Hcl).
  assert (∃ text, msg = Some Clicked ∧ Button.content (inner b') = Text text ∨ (∀ text, ¬ (msg = Some Clicked ∧ Button.content (inner b') = Text text)))
    as [text [[-> Ht]|Hno]].
  { destruct (decide (msg = Some Clicked)) as [->|]; [|exists []; right; naive_solver].
    destruct (Button.content (inner b')) as [|t| | |]; [exists []; right; naive_solver|by exists t; left|exists []; right; naive_solver..]. }
  - rewrite Ht. exists (b' :: btns), ctx1, (Some text). split; [done|]. split; [by rewrite !fmap_cons, Hc|]. split.
    + intros e [??]%Forall_cons. constructor; [congruence|done].
    + exists b. split; [by left|]. split; [congruence|by apply Hm].
  - exists (b' :: btns'), ctx2, clicked. split.
    { rewrite Hev. destruct msg as [[]|]; try done. destruct (Button.content (inner b')) as [|t| | |]; try done.
      by destruct (Hno t). }
    split; [by rewrite !fmap_cons, Hc, Hcs|]. split.
    + intros e [??]%Forall_cons. constructor; [congruence|by apply Hes].
    + destruct clicked; [|done]. destruct Hcl as (b0 & ? & ?). exists b0. split; [by right|done].
Qed.

Lemma pin_ok_change kb kb' :
  pin_ok kb → pin kb' = pin kb → allow_cancel kb' = allow_cancel kb →
  shown (erase_btn kb') = shown (erase_btn kb) → is_enabled (inside (erase_btn kb')) = is_enabled (inside (erase_btn kb)) →
  shown (cancel_btn kb') = shown (cancel_btn kb) → is_enabled (inner (confirm_btn kb')) = is_enabled (inner (confirm_btn kb)) →
  (∀ e, Forall (λ b, is_enabled (inner b) = e) (digit_btns kb) → Forall (λ b, is_enabled (inner b) = e) (digit_btns kb')) →
  (λ b, Button.content (inner b)) <$> digit_btns kb' = (λ b, Button.content (inner b)) <$> digit_btns kb →
  pin_ok kb'.
Proof.
  intros [Hd Hl [He1 He2] Hc Hf Hen Hb] Hp Ha Hs1 Hs2 Hs3 Hs4 Hs5 Hs6.
  split; rewrite ?Hp, ?Ha; try done; [split; congruence|congruence|congruence|by apply Hs5|by rewrite Hs6].
Qed.

(** A button that can be hidden. *)
Lemma maybe_event_spec (c : Child (Maybe Button)) ctx ev :
  ∃ c' ctx' msg, event c ctx ev = Ok (c', ctx', msg) ∧ shown c' = shown c ∧ is_enabled (inside c') = is_enabled (inside c) ∧
    (msg = Some Clicked → shown c = true).
Proof.
  destruct (shown c) eqn:Hs.
  - destruct (wrapped_event_runs c ctx ev (λ b _, is_enabled b = is_enabled (inside c))) as (c' & ctx' & msg & -> & Hs' & He).
    { intros ctx1. eapply runs_weaken; [apply button_event_runs|]. by intros ? ? (? & _). }
    { done. }
    exists c', ctx', msg. split; [done|]. split; [congruence|done].
  - destruct (wrapped_event_hidden c ctx ev Hs) as (c' & ctx' & msg & -> & Hs' & Hi & ->).
    exists c', ctx', None. split; [done|]. split; [done|]. split; [congruence|done].
Qed.

Lemma digit_text kb b text : pin_ok kb → b ∈ digit_btns kb → Button.content (inner b) = Text text →
  is_enabled (inner b) = true → len (pin kb) < MAX_LENGTH ∧ ∃ d, 48 <= d <= 57 ∧ text = [d].
Proof.
  intros [_ _ _ _ _ Hen Hb] Hin Ht He. rewrite Forall_forall in Hen. rewrite (Hen b Hin) in He.
  apply bool_decide_eq_true in He. split; [done|].
  assert (Text text ∈ Text <$> all_digits) as Hmem.
  { rewrite <- Hb. apply list_elem_of_fmap. by exists b. }
  apply list_elem_of_fmap in Hmem as (t & [= <-] & Hmem). apply list_elem_of_fmap in Hmem as (d & -> & Hd).
  apply elem_of_range in Hd. exists (48 + d). split; [lia|done].
Qed.

Lemma digits_ascii p : Forall (λ b, 48 <= b <= 57) p → ascii p.
Proof. intros Hp. apply (Forall_impl _ _ _ Hp). intros b Hb. cbn in *. lia. Qed.

Lemma dots_pop_digits d ctx : ascii (digits d) → digits (fst (dots_pop d ctx)) = removelast (digits d).
Proof. intros Ha. unfold dots_pop. pose proof (proj1 (pop_ascii _ Ha)) as Hp. by destruct (StrUtil.pop _). Qed.

Lemma removelast_Forall {A} (P : A → Prop) l : Forall P l → Forall P (removelast l) ∧ len (removelast l) <= len l.
Proof.
  intros Hl. destruct l as [|x l _] using rev_ind; [done|]. rewrite removelast_last, length_app.
  apply Forall_app in Hl as [? _]. split; [done|]. simpl. lia.
Qed.

(** The PIN is that of the dots. *)
Ltac pin_same H :=
  match goal with |- context [pin (mkPin ?a ?b ?c ?d ?t ?e ?f ?g ?h ?i ?j)] =>
    rewrite !(H (mkPin a b c d t e f g h i j)) by done end.

Lemma pin_event_spec kb ctx ev :
  pin_ok kb → ∃ kb' ctx' msg, pin_event kb ctx ev = Ok (kb', ctx', msg) ∧ pin_outcome kb kb' msg.
Proof.
  intros Hok. unfold pin_event, pin_outcome.
  destruct (warning_event_spec kb ctx ev) as (kb1 & ctx1 & -> & Ht & He & Hc & Hf & Hb & Ha). cbn [mbind outcome_bind].
  destruct (child_event_runs (textbox kb1) ctx1 ev (λ t _, digits t = digits (inner (textbox kb1))))
    as (dots & ctx2 & dm & -> & Hdots).
  { intros c. cbn [event dots_component]. pose proof (dots_event_digits (inner (textbox kb1)) c ev).
    destruct (dots_event _ c ev) as [d c']. by eexists _, _, _. }
  cbn [mbind outcome_bind].
  destruct (child_event_runs (confirm_btn kb1) ctx2 ev _ (λ ctx, button_event_runs (inner (confirm_btn kb1)) ctx ev))
    as (confirm & ctx3 & msg & -> & Hce & _ & Hcc). cbn [mbind outcome_bind]. rewrite Ht in Hdots. rewrite Hf in Hce, Hcc.
  assert (∀ kb', textbox kb' = dots → pin kb' = pin kb) as Hpin by (intros k Hk; unfold pin; by rewrite Hk).
  case_bool_decide as Hm1; [subst msg|].
  { eexists _, _, _. split; [done|]. pin_same Hpin. split; [done|].
    split; [apply (pin_ok_change kb); try done; cbn; congruence|]. split; [by left|]. split; [done|].
    pose proof (pin_confirm _ Hok) as Hpc. rewrite Hcc in Hpc by done. symmetry in Hpc. by apply bool_decide_eq_true in Hpc. }
  clear msg Hm1 Hcc. cbn [cancel_btn erase_btn digit_btns confirm_btn].
  destruct (maybe_event_spec (cancel_btn kb1) ctx3 ev) as (cancel & ctx4 & msg & -> & Hcs & _ & Hcm).
  cbn [mbind outcome_bind]. rewrite Hc in Hcs, Hcm. case_bool_decide as Hm2; [subst msg|].
  { eexists _, _, _. split; [done|]. pin_same Hpin. split; [done|].
    split; [apply (pin_ok_change kb); try done; cbn; congruence|]. split; [by left|]. split; [done|].
    pose proof (pin_cancel _ Hok) as Hpc. rewrite Hcm in Hpc by done. symmetry in Hpc.
    apply andb_true_iff in Hpc as [Hpc%bool_decide_eq_true ?]. done. }
  clear msg Hm2 Hcm. cbn [cancel_btn erase_btn digit_btns confirm_btn].
  destruct (maybe_event_spec (erase_btn kb1) ctx4 ev) as (erase & ctx5 & msg & -> & Hes & Hee & _).
  cbn [mbind outcome_bind]. rewrite He in Hes, Hee.
  set (kb2 := mkPin (allow_cancel kb1) (major_prompt kb1) (minor_prompt kb1) (major_warning kb1) dots (textbox_pad kb1)
    erase cancel confirm (digit_btns kb1) (warning_timer kb1)).
  assert (pin_ok kb2) as Hok2.
  { apply (pin_ok_change kb); try done; cbn; congruence. }
  assert (pin kb2 = pin kb) as Hp2 by (by apply Hpin).
  assert (∀ k c f p, pin_ok k → pin k = pin kb → allow_cancel k = allow_cancel kb → pin_step (pin kb) p →
    (∀ ctx, digits (fst (f (inner (textbox k)) ctx)) = p) → Forall (λ b, 48 <= b <= 57) p → len p <= MAX_LENGTH →
    ∃ kb' ctx' msg, edit_dots k c f = Ok (kb', ctx', msg) ∧ allow_cancel kb' = allow_cancel kb ∧ pin_ok kb' ∧
      pin_step (pin kb) (pin kb') ∧ match msg with
        | None => True
        | Some PinConfirmed => pin kb' = pin kb ∧ pin kb ≠ []
        | Some PinCancelled => pin kb' = pin kb ∧ pin kb = [] ∧ allow_cancel kb = true end) as Hedit.
  { intros k c f p Hk Hkp Hka Hstep Hfp Hp Hl.
    destruct (edit_dots_spec k c f p Hfp Hp Hl) as (kb' & c' & Hed & Hok' & Hp' & Ha'); [apply Hk|].
    exists kb', c', None. split; [done|]. split; [congruence|]. split; [done|]. by rewrite Hp'. }
  destruct (removelast_Forall _ _ (pin_digits _ Hok)) as [Hrl Hrlen]. pose proof (pin_length _ Hok) as Hlen.
  assert (msg = Some Clicked ∨ msg = Some LongPressed ∨ msg ≠ Some Clicked ∧ msg ≠ Some LongPressed) as [->|[->|Hm]]
    by (destruct msg as [[]|]; auto).
  { apply (Hedit _ _ _ (removelast (pin kb))); try done; [right; by left| |lia].
    intros c. rewrite <- Hp2. apply dots_pop_digits, digits_ascii, Hok2. }
  { apply (Hedit _ _ _ []); try done. right; right; by left. }
  destruct (digits_event_spec (digit_btns kb1) ctx5 ev) as (btns & ctx6 & clicked & Hde & Hcont & Hen & Hclick).
  assert (∀ A (x : A) y z, match msg with Some Clicked => x | Some LongPressed => y | _ => z end = z) as ->.
  { intros. destruct msg as [[]|]; naive_solver. }
  rewrite Hde. cbn [mbind outcome_bind].
  set (kb3 := mkPin (allow_cancel kb1) (major_prompt kb1) (minor_prompt kb1) (major_warning kb1) dots (textbox_pad kb1)
    erase cancel confirm btns (warning_timer kb1)).
  assert (pin_ok kb3) as Hok3 by by apply (pin_ok_change kb2).
  destruct clicked as [text|].
  - destruct Hclick as (b & Hin & Htext & Hbe).
    destruct (digit_text kb2 b text Hok2 Hin Htext Hbe) as (Hroom & d & Hd & ->). rewrite Hp2 in Hroom.
    apply (Hedit _ _ _ (pin kb ++ [d])); try done.
    + right; right; right. by exists d.
    + intros c. cbn. assert (digits (inner dots) = pin kb) as -> by by apply (Hpin kb3).
      unfold push_or_drop, push_str, CAPACITY. unfold MAX_LENGTH in Hroom. by rewrite (proj2 (Z.leb_le _ _)) by (simpl; lia).
    + apply Forall_app. split; [apply Hok|by apply Forall_singleton].
    + rewrite length_app. unfold MAX_LENGTH in *. simpl. lia.
  - exists kb3, ctx6, None. split; [done|]. rewrite (Hpin kb3) by done. split; [done|]. split; [done|]. by split; [left|].
Qed.

(** *** Sequences of events *)

(** The keyboard after some events, each with a context, up to the first
    message. *)
Fixpoint pin_run kb (events : list (EventCtx * Event)) : ui (PinKeyboard * option PinKeyboardMsg) :=
  match events with
  | [] => Ok (kb, None)
  | (ctx, ev) :: events =>
    '(kb, _, msg) ← pin_event kb ctx ev;
    match msg with Some m => Ok (kb, Some m) | None => pin_run kb events end
  end.

Lemma pin_run_spec kb events : pin_ok kb →
  ∃ kb' msg, pin_run kb events = Ok (kb', msg) ∧ allow_cancel kb' = allow_cancel kb ∧
    match msg with
    | None => pin_ok kb'
    | Some PinConfirmed => pin kb' ≠ [] ∧ Forall (λ b, 48 <= b <= 57) (pin kb') ∧ len (pin kb') <= MAX_LENGTH
    | Some PinCancelled => pin kb' = [] ∧ allow_cancel kb = true
    end.
Proof.
  revert kb. induction events as [|[ctx ev] events IH]; intros kb Hok; [by exists kb, None|]. cbn [pin_run].
  destruct (pin_event_spec kb ctx ev Hok) as (kb1 & ctx1 & msg & -> & Ha & Hok1 & _ & Hm). cbn [mbind outcome_bind].
  destruct msg as [[]|].
  - destruct Hm as [Hp Hne]. eexists _, _. split; [done|]. split; [done|]. rewrite Hp. split; [done|]. split; apply Hok.
  - destruct Hm as (Hp & He & Hc). eexists _, _. split; [done|]. split; [done|]. by rewrite Hp.
  - destruct (IH kb1 Hok1) as (kb2 & msg & -> & Ha2 & Hm2). eexists _, _. split; [done|]. split; [congruence|].
    by rewrite <- Ha.
Qed.

Lemma pin_new_ok major minor warning cancel :
  ∃ kb, pin_new major minor warning cancel = Ok kb ∧ pin_ok kb ∧ pin kb = [] ∧ allow_cancel kb = cancel.
Proof.
  unfold pin_new, generate_digit_buttons. destruct (shuffle_permutes all_digits) as (ds & -> & Hds). cbn [mbind outcome_bind].
  eexists. split; [done|]. split; [|done]. split; try done.
  - cbn [digit_btns]. apply Forall_forall. intros b Hb%list_elem_of_In%in_map_iff. destruct Hb as (c & <- & _). done.
  - cbn [digit_btns]. rewrite <- Hds. clear. induction ds as [|d ds IH]; [done|]. cbn. by constructor.
Qed.
End Pin.

(** C28. The PIN keyboard, with a generator that stays in its range: it is made
    with all ten digits in some order, and whatever events come in whatever
    order nothing aborts. An event adds a digit at the end, while there are
    less than fifty, or removes the last one or all of them, or leaves the PIN;
    between events exactly the buttons that make sense for the PIN can be used;
    a PIN that is confirmed has between one and fifty digits, and the keyboard
    is only cancelled without digits and when this is allowed. *)
Theorem pin_keyboard_safe `{FontDriver} `{DisplayConstants} `{Icons} `{RandomLaws} major minor warning cancel :
  (∃ kb, pin_new major minor warning cancel = Ok kb ∧ pin_ok kb ∧ pin kb = [] ∧
    ∀ events, ∃ kb' msg, pin_run kb events = Ok (kb', msg) ∧
      match msg with
      | None => pin_ok kb'
      | Some PinConfirmed => pin kb' ≠ [] ∧ Forall (λ b, 48 <= b <= 57) (pin kb') ∧ len (pin kb') <= MAX_LENGTH
      | Some PinCancelled => pin kb' = [] ∧ cancel = true
      end) ∧
  ∀ kb ctx ev, pin_ok kb → ∃ kb' ctx' msg, pin_event kb ctx ev = Ok (kb', ctx', msg) ∧ pin_outcome kb kb' msg.
Proof.
  split; [|apply pin_event_spec]. destruct (pin_new_ok major minor warning cancel) as (kb & Hnew & Hok & Hp & Ha).
  exists kb. split; [done|]. split; [done|]. split; [done|]. intros events.
  destruct (pin_run_spec kb events Hok) as (kb' & msg & Hrun & _ & Hm). exists kb', msg. split; [done|].
  destruct msg as [[]|]; try done. rewrite <- Ha. done.
Qed.

(** A font of the examples, and a generator that always answers 0. *)
#[local] Instance pin_font : FontDriver := {|
  font_text_width _ t := Z.min 1024 (8 * len t);
  font_height _ := 12;
  font_max_height _ := 12;
  font_baseline _ := 2;
  font_get_glyph _ _ := None
|}.
#[local] Instance pin_display : DisplayConstants := {| LINE_SPACE := 4; FONT_BPP := 4 |}.
#[local] Instance pin_icons : Icons := {| icon_width _ := 10 |}.
#[local] Instance pin_random : RandomDriver := {| random_uniform _ _ := 0 |}.
#[local] Instance pin_random_laws : RandomLaws.
Proof. constructor. intros call n Hn. cbn. lia. Defined.

(** With this generator the digits are rotated. *)
Lemma pin_keyboard_safe_witness :
  ∃ kb, pin_new [] [] None false = Ok kb ∧ pin_ok kb ∧
    ((λ b, Button.content (inner b)) <$> digit_btns kb) = Text <$> ((λ d, [48 + d]) <$> [1; 2; 3; 4; 5; 6; 7; 8; 9; 0]).
Proof.
  destruct (pin_keyboard_safe [] [] None false) as [(kb & Hnew & Hok & _) _]. exists kb. split; [exact Hnew|].
  split; [exact Hok|]. vm_compute in Hnew. injection Hnew as <-. reflexivity.
Defined.
