(* ===== verification/MessageTypes.v ===== *)
(** * The message types of the client

    [trezor-client/src/protos/generated/messages.rs]: the enumeration that
    tells messages apart on the wire, with its two conversions, as an
    instance of the interface that the transports use. *)
From S2P Require Import Prelude Transport.
Local Open Scope Z_scope.

(* src: rust/trezor-client/src/protos/generated/messages.rs 30-511 (MessageType) *)
Inductive MessageType :=
| MessageType_Initialize | MessageType_Ping | MessageType_Success | MessageType_Failure
| MessageType_ChangePin | MessageType_WipeDevice | MessageType_GetEntropy | MessageType_Entropy
| MessageType_LoadDevice | MessageType_ResetDevice | MessageType_SetBusy | MessageType_Features
| MessageType_PinMatrixRequest | MessageType_PinMatrixAck | MessageType_Cancel
| MessageType_LockDevice | MessageType_ApplySettings | MessageType_ButtonRequest
| MessageType_ButtonAck | MessageType_ApplyFlags | MessageType_GetNonce | MessageType_Nonce
| MessageType_BackupDevice | MessageType_EntropyRequest | MessageType_EntropyAck
| MessageType_PassphraseRequest | MessageType_PassphraseAck | MessageType_RecoveryDevice
| MessageType_WordRequest | MessageType_WordAck | MessageType_GetFeatures | MessageType_SdProtect
| MessageType_ChangeWipeCode | MessageType_EndSession | MessageType_DoPreauthorized
| MessageType_PreauthorizedRequest | MessageType_CancelAuthorization
| MessageType_RebootToBootloader | MessageType_GetFirmwareHash | MessageType_FirmwareHash
| MessageType_UnlockPath | MessageType_UnlockedPathRequest | MessageType_ShowDeviceTutorial
| MessageType_UnlockBootloader | MessageType_AuthenticateDevice | MessageType_AuthenticityProof
| MessageType_ChangeLanguage | MessageType_TranslationDataRequest | MessageType_TranslationDataAck
| MessageType_SetBrightness | MessageType_SetU2FCounter | MessageType_GetNextU2FCounter
| MessageType_NextU2FCounter | MessageType_Deprecated_PassphraseStateRequest
| MessageType_Deprecated_PassphraseStateAck | MessageType_FirmwareErase
| MessageType_FirmwareUpload | MessageType_FirmwareRequest | MessageType_ProdTestT1
| MessageType_GetPublicKey | MessageType_PublicKey | MessageType_SignTx | MessageType_TxRequest
| MessageType_TxAck | MessageType_GetAddress | MessageType_Address
| MessageType_TxAckPaymentRequest | MessageType_SignMessage | MessageType_VerifyMessage
| MessageType_MessageSignature | MessageType_GetOwnershipId | MessageType_OwnershipId
| MessageType_GetOwnershipProof | MessageType_OwnershipProof | MessageType_AuthorizeCoinJoin
| MessageType_CipherKeyValue | MessageType_CipheredKeyValue | MessageType_SignIdentity
| MessageType_SignedIdentity | MessageType_GetECDHSessionKey | MessageType_ECDHSessionKey
| MessageType_DebugLinkDecision | MessageType_DebugLinkGetState | MessageType_DebugLinkState
| MessageType_DebugLinkStop | MessageType_DebugLinkLog | MessageType_DebugLinkMemoryRead
| MessageType_DebugLinkMemory | MessageType_DebugLinkMemoryWrite | MessageType_DebugLinkFlashErase
| MessageType_DebugLinkLayout | MessageType_DebugLinkReseedRandom
| MessageType_DebugLinkRecordScreen | MessageType_DebugLinkEraseSdCard
| MessageType_DebugLinkWatchLayout | MessageType_DebugLinkResetDebugEvents
| MessageType_EthereumGetPublicKey | MessageType_EthereumPublicKey | MessageType_EthereumGetAddress
| MessageType_EthereumAddress | MessageType_EthereumSignTx | MessageType_EthereumSignTxEIP1559
| MessageType_EthereumTxRequest | MessageType_EthereumTxAck | MessageType_EthereumSignMessage
| MessageType_EthereumVerifyMessage | MessageType_EthereumMessageSignature
| MessageType_EthereumSignTypedData | MessageType_EthereumTypedDataStructRequest
| MessageType_EthereumTypedDataStructAck | MessageType_EthereumTypedDataValueRequest
| MessageType_EthereumTypedDataValueAck | MessageType_EthereumTypedDataSignature
| MessageType_EthereumSignTypedHash | MessageType_NEMGetAddress | MessageType_NEMAddress
| MessageType_NEMSignTx | MessageType_NEMSignedTx | MessageType_NEMDecryptMessage
| MessageType_NEMDecryptedMessage | MessageType_TezosGetAddress | MessageType_TezosAddress
| MessageType_TezosSignTx | MessageType_TezosSignedTx | MessageType_TezosGetPublicKey
| MessageType_TezosPublicKey | MessageType_StellarSignTx | MessageType_StellarTxOpRequest
| MessageType_StellarGetAddress | MessageType_StellarAddress | MessageType_StellarCreateAccountOp
| MessageType_StellarPaymentOp | MessageType_StellarPathPaymentStrictReceiveOp
| MessageType_StellarManageSellOfferOp | MessageType_StellarCreatePassiveSellOfferOp
| MessageType_StellarSetOptionsOp | MessageType_StellarChangeTrustOp
| MessageType_StellarAllowTrustOp | MessageType_StellarAccountMergeOp
| MessageType_StellarManageDataOp | MessageType_StellarBumpSequenceOp
| MessageType_StellarManageBuyOfferOp | MessageType_StellarPathPaymentStrictSendOp
| MessageType_StellarClaimClaimableBalanceOp | MessageType_StellarSignedTx
| MessageType_CardanoGetPublicKey | MessageType_CardanoPublicKey | MessageType_CardanoGetAddress
| MessageType_CardanoAddress | MessageType_CardanoTxItemAck
| MessageType_CardanoTxAuxiliaryDataSupplement | MessageType_CardanoTxWitnessRequest
| MessageType_CardanoTxWitnessResponse | MessageType_CardanoTxHostAck
| MessageType_CardanoTxBodyHash | MessageType_CardanoSignTxFinished | MessageType_CardanoSignTxInit
| MessageType_CardanoTxInput | MessageType_CardanoTxOutput | MessageType_CardanoAssetGroup
| MessageType_CardanoToken | MessageType_CardanoTxCertificate | MessageType_CardanoTxWithdrawal
| MessageType_CardanoTxAuxiliaryData | MessageType_CardanoPoolOwner
| MessageType_CardanoPoolRelayParameters | MessageType_CardanoGetNativeScriptHash
| MessageType_CardanoNativeScriptHash | MessageType_CardanoTxMint
| MessageType_CardanoTxCollateralInput | MessageType_CardanoTxRequiredSigner
| MessageType_CardanoTxInlineDatumChunk | MessageType_CardanoTxReferenceScriptChunk
| MessageType_CardanoTxReferenceInput | MessageType_RippleGetAddress | MessageType_RippleAddress
| MessageType_RippleSignTx | MessageType_RippleSignedTx | MessageType_MoneroTransactionInitRequest
| MessageType_MoneroTransactionInitAck | MessageType_MoneroTransactionSetInputRequest
| MessageType_MoneroTransactionSetInputAck | MessageType_MoneroTransactionInputViniRequest
| MessageType_MoneroTransactionInputViniAck | MessageType_MoneroTransactionAllInputsSetRequest
| MessageType_MoneroTransactionAllInputsSetAck | MessageType_MoneroTransactionSetOutputRequest
| MessageType_MoneroTransactionSetOutputAck | MessageType_MoneroTransactionAllOutSetRequest
| MessageType_MoneroTransactionAllOutSetAck | MessageType_MoneroTransactionSignInputRequest
| MessageType_MoneroTransactionSignInputAck | MessageType_MoneroTransactionFinalRequest
| MessageType_MoneroTransactionFinalAck | MessageType_MoneroKeyImageExportInitRequest
| MessageType_MoneroKeyImageExportInitAck | MessageType_MoneroKeyImageSyncStepRequest
| MessageType_MoneroKeyImageSyncStepAck | MessageType_MoneroKeyImageSyncFinalRequest
| MessageType_MoneroKeyImageSyncFinalAck | MessageType_MoneroGetAddress | MessageType_MoneroAddress
| MessageType_MoneroGetWatchKey | MessageType_MoneroWatchKey | MessageType_DebugMoneroDiagRequest
| MessageType_DebugMoneroDiagAck | MessageType_MoneroGetTxKeyRequest
| MessageType_MoneroGetTxKeyAck | MessageType_MoneroLiveRefreshStartRequest
| MessageType_MoneroLiveRefreshStartAck | MessageType_MoneroLiveRefreshStepRequest
| MessageType_MoneroLiveRefreshStepAck | MessageType_MoneroLiveRefreshFinalRequest
| MessageType_MoneroLiveRefreshFinalAck | MessageType_EosGetPublicKey | MessageType_EosPublicKey
| MessageType_EosSignTx | MessageType_EosTxActionRequest | MessageType_EosTxActionAck
| MessageType_EosSignedTx | MessageType_BinanceGetAddress | MessageType_BinanceAddress
| MessageType_BinanceGetPublicKey | MessageType_BinancePublicKey | MessageType_BinanceSignTx
| MessageType_BinanceTxRequest | MessageType_BinanceTransferMsg | MessageType_BinanceOrderMsg
| MessageType_BinanceCancelMsg | MessageType_BinanceSignedTx
| MessageType_WebAuthnListResidentCredentials | MessageType_WebAuthnCredentials
| MessageType_WebAuthnAddResidentCredential | MessageType_WebAuthnRemoveResidentCredential
| MessageType_SolanaGetPublicKey | MessageType_SolanaPublicKey | MessageType_SolanaGetAddress
| MessageType_SolanaAddress | MessageType_SolanaSignTx | MessageType_SolanaTxSignature.

(** The discriminants of the enumeration. *)
(* src: rust/trezor-client/src/protos/generated/messages.rs 516-518 (MessageType::value) *)
Definition value (m : MessageType) : Z :=
  match m with
  | MessageType_Initialize => 0 | MessageType_Ping => 1 | MessageType_Success => 2
  | MessageType_Failure => 3 | MessageType_ChangePin => 4 | MessageType_WipeDevice => 5
  | MessageType_GetEntropy => 9 | MessageType_Entropy => 10 | MessageType_LoadDevice => 13
  | MessageType_ResetDevice => 14 | MessageType_SetBusy => 16 | MessageType_Features => 17
  | MessageType_PinMatrixRequest => 18 | MessageType_PinMatrixAck => 19 | MessageType_Cancel => 20
  | MessageType_LockDevice => 24 | MessageType_ApplySettings => 25
  | MessageType_ButtonRequest => 26 | MessageType_ButtonAck => 27 | MessageType_ApplyFlags => 28
  | MessageType_GetNonce => 31 | MessageType_Nonce => 33 | MessageType_BackupDevice => 34
  | MessageType_EntropyRequest => 35 | MessageType_EntropyAck => 36
  | MessageType_PassphraseRequest => 41 | MessageType_PassphraseAck => 42
  | MessageType_RecoveryDevice => 45 | MessageType_WordRequest => 46 | MessageType_WordAck => 47
  | MessageType_GetFeatures => 55 | MessageType_SdProtect => 79 | MessageType_ChangeWipeCode => 82
  | MessageType_EndSession => 83 | MessageType_DoPreauthorized => 84
  | MessageType_PreauthorizedRequest => 85 | MessageType_CancelAuthorization => 86
  | MessageType_RebootToBootloader => 87 | MessageType_GetFirmwareHash => 88
  | MessageType_FirmwareHash => 89 | MessageType_UnlockPath => 93
  | MessageType_UnlockedPathRequest => 94 | MessageType_ShowDeviceTutorial => 95
  | MessageType_UnlockBootloader => 96 | MessageType_AuthenticateDevice => 97
  | MessageType_AuthenticityProof => 98 | MessageType_ChangeLanguage => 990
  | MessageType_TranslationDataRequest => 991 | MessageType_TranslationDataAck => 992
  | MessageType_SetBrightness => 993 | MessageType_SetU2FCounter => 63
  | MessageType_GetNextU2FCounter => 80 | MessageType_NextU2FCounter => 81
  | MessageType_Deprecated_PassphraseStateRequest => 77
  | MessageType_Deprecated_PassphraseStateAck => 78 | MessageType_FirmwareErase => 6
  | MessageType_FirmwareUpload => 7 | MessageType_FirmwareRequest => 8
  | MessageType_ProdTestT1 => 32 | MessageType_GetPublicKey => 11 | MessageType_PublicKey => 12
  | MessageType_SignTx => 15 | MessageType_TxRequest => 21 | MessageType_TxAck => 22
  | MessageType_GetAddress => 29 | MessageType_Address => 30
  | MessageType_TxAckPaymentRequest => 37 | MessageType_SignMessage => 38
  | MessageType_VerifyMessage => 39 | MessageType_MessageSignature => 40
  | MessageType_GetOwnershipId => 43 | MessageType_OwnershipId => 44
  | MessageType_GetOwnershipProof => 49 | MessageType_OwnershipProof => 50
  | MessageType_AuthorizeCoinJoin => 51 | MessageType_CipherKeyValue => 23
  | MessageType_CipheredKeyValue => 48 | MessageType_SignIdentity => 53
  | MessageType_SignedIdentity => 54 | MessageType_GetECDHSessionKey => 61
  | MessageType_ECDHSessionKey => 62 | MessageType_DebugLinkDecision => 100
  | MessageType_DebugLinkGetState => 101 | MessageType_DebugLinkState => 102
  | MessageType_DebugLinkStop => 103 | MessageType_DebugLinkLog => 104
  | MessageType_DebugLinkMemoryRead => 110 | MessageType_DebugLinkMemory => 111
  | MessageType_DebugLinkMemoryWrite => 112 | MessageType_DebugLinkFlashErase => 113
  | MessageType_DebugLinkLayout => 9001 | MessageType_DebugLinkReseedRandom => 9002
  | MessageType_DebugLinkRecordScreen => 9003 | MessageType_DebugLinkEraseSdCard => 9005
  | MessageType_DebugLinkWatchLayout => 9006 | MessageType_DebugLinkResetDebugEvents => 9007
  | MessageType_EthereumGetPublicKey => 450 | MessageType_EthereumPublicKey => 451
  | MessageType_EthereumGetAddress => 56 | MessageType_EthereumAddress => 57
  | MessageType_EthereumSignTx => 58 | MessageType_EthereumSignTxEIP1559 => 452
  | MessageType_EthereumTxRequest => 59 | MessageType_EthereumTxAck => 60
  | MessageType_EthereumSignMessage => 64 | MessageType_EthereumVerifyMessage => 65
  | MessageType_EthereumMessageSignature => 66 | MessageType_EthereumSignTypedData => 464
  | MessageType_EthereumTypedDataStructRequest => 465
  | MessageType_EthereumTypedDataStructAck => 466
  | MessageType_EthereumTypedDataValueRequest => 467 | MessageType_EthereumTypedDataValueAck => 468
  | MessageType_EthereumTypedDataSignature => 469 | MessageType_EthereumSignTypedHash => 470
  | MessageType_NEMGetAddress => 67 | MessageType_NEMAddress => 68 | MessageType_NEMSignTx => 69
  | MessageType_NEMSignedTx => 70 | MessageType_NEMDecryptMessage => 75
  | MessageType_NEMDecryptedMessage => 76 | MessageType_TezosGetAddress => 150
  | MessageType_TezosAddress => 151 | MessageType_TezosSignTx => 152
  | MessageType_TezosSignedTx => 153 | MessageType_TezosGetPublicKey => 154
  | MessageType_TezosPublicKey => 155 | MessageType_StellarSignTx => 202
  | MessageType_StellarTxOpRequest => 203 | MessageType_StellarGetAddress => 207
  | MessageType_StellarAddress => 208 | MessageType_StellarCreateAccountOp => 210
  | MessageType_StellarPaymentOp => 211 | MessageType_StellarPathPaymentStrictReceiveOp => 212
  | MessageType_StellarManageSellOfferOp => 213
  | MessageType_StellarCreatePassiveSellOfferOp => 214 | MessageType_StellarSetOptionsOp => 215
  | MessageType_StellarChangeTrustOp => 216 | MessageType_StellarAllowTrustOp => 217
  | MessageType_StellarAccountMergeOp => 218 | MessageType_StellarManageDataOp => 220
  | MessageType_StellarBumpSequenceOp => 221 | MessageType_StellarManageBuyOfferOp => 222
  | MessageType_StellarPathPaymentStrictSendOp => 223
  | MessageType_StellarClaimClaimableBalanceOp => 225 | MessageType_StellarSignedTx => 230
  | MessageType_CardanoGetPublicKey => 305 | MessageType_CardanoPublicKey => 306
  | MessageType_CardanoGetAddress => 307 | MessageType_CardanoAddress => 308
  | MessageType_CardanoTxItemAck => 313 | MessageType_CardanoTxAuxiliaryDataSupplement => 314
  | MessageType_CardanoTxWitnessRequest => 315 | MessageType_CardanoTxWitnessResponse => 316
  | MessageType_CardanoTxHostAck => 317 | MessageType_CardanoTxBodyHash => 318
  | MessageType_CardanoSignTxFinished => 319 | MessageType_CardanoSignTxInit => 320
  | MessageType_CardanoTxInput => 321 | MessageType_CardanoTxOutput => 322
  | MessageType_CardanoAssetGroup => 323 | MessageType_CardanoToken => 324
  | MessageType_CardanoTxCertificate => 325 | MessageType_CardanoTxWithdrawal => 326
  | MessageType_CardanoTxAuxiliaryData => 327 | MessageType_CardanoPoolOwner => 328
  | MessageType_CardanoPoolRelayParameters => 329 | MessageType_CardanoGetNativeScriptHash => 330
  | MessageType_CardanoNativeScriptHash => 331 | MessageType_CardanoTxMint => 332
  | MessageType_CardanoTxCollateralInput => 333 | MessageType_CardanoTxRequiredSigner => 334
  | MessageType_CardanoTxInlineDatumChunk => 335 | MessageType_CardanoTxReferenceScriptChunk => 336
  | MessageType_CardanoTxReferenceInput => 337 | MessageType_RippleGetAddress => 400
  | MessageType_RippleAddress => 401 | MessageType_RippleSignTx => 402
  | MessageType_RippleSignedTx => 403 | MessageType_MoneroTransactionInitRequest => 501
  | MessageType_MoneroTransactionInitAck => 502
  | MessageType_MoneroTransactionSetInputRequest => 503
  | MessageType_MoneroTransactionSetInputAck => 504
  | MessageType_MoneroTransactionInputViniRequest => 507
  | MessageType_MoneroTransactionInputViniAck => 508
  | MessageType_MoneroTransactionAllInputsSetRequest => 509
  | MessageType_MoneroTransactionAllInputsSetAck => 510
  | MessageType_MoneroTransactionSetOutputRequest => 511
  | MessageType_MoneroTransactionSetOutputAck => 512
  | MessageType_MoneroTransactionAllOutSetRequest => 513
  | MessageType_MoneroTransactionAllOutSetAck => 514
  | MessageType_MoneroTransactionSignInputRequest => 515
  | MessageType_MoneroTransactionSignInputAck => 516
  | MessageType_MoneroTransactionFinalRequest => 517 | MessageType_MoneroTransactionFinalAck => 518
  | MessageType_MoneroKeyImageExportInitRequest => 530
  | MessageType_MoneroKeyImageExportInitAck => 531
  | MessageType_MoneroKeyImageSyncStepRequest => 532 | MessageType_MoneroKeyImageSyncStepAck => 533
  | MessageType_MoneroKeyImageSyncFinalRequest => 534
  | MessageType_MoneroKeyImageSyncFinalAck => 535 | MessageType_MoneroGetAddress => 540
  | MessageType_MoneroAddress => 541 | MessageType_MoneroGetWatchKey => 542
  | MessageType_MoneroWatchKey => 543 | MessageType_DebugMoneroDiagRequest => 546
  | MessageType_DebugMoneroDiagAck => 547 | MessageType_MoneroGetTxKeyRequest => 550
  | MessageType_MoneroGetTxKeyAck => 551 | MessageType_MoneroLiveRefreshStartRequest => 552
  | MessageType_MoneroLiveRefreshStartAck => 553 | MessageType_MoneroLiveRefreshStepRequest => 554
  | MessageType_MoneroLiveRefreshStepAck => 555 | MessageType_MoneroLiveRefreshFinalRequest => 556
  | MessageType_MoneroLiveRefreshFinalAck => 557 | MessageType_EosGetPublicKey => 600
  | MessageType_EosPublicKey => 601 | MessageType_EosSignTx => 602
  | MessageType_EosTxActionRequest => 603 | MessageType_EosTxActionAck => 604
  | MessageType_EosSignedTx => 605 | MessageType_BinanceGetAddress => 700
  | MessageType_BinanceAddress => 701 | MessageType_BinanceGetPublicKey => 702
  | MessageType_BinancePublicKey => 703 | MessageType_BinanceSignTx => 704
  | MessageType_BinanceTxRequest => 705 | MessageType_BinanceTransferMsg => 706
  | MessageType_BinanceOrderMsg => 707 | MessageType_BinanceCancelMsg => 708
  | MessageType_BinanceSignedTx => 709 | MessageType_WebAuthnListResidentCredentials => 800
  | MessageType_WebAuthnCredentials => 801 | MessageType_WebAuthnAddResidentCredential => 802
  | MessageType_WebAuthnRemoveResidentCredential => 803 | MessageType_SolanaGetPublicKey => 900
  | MessageType_SolanaPublicKey => 901 | MessageType_SolanaGetAddress => 902
  | MessageType_SolanaAddress => 903 | MessageType_SolanaSignTx => 904
  | MessageType_SolanaTxSignature => 905
  end.

(* src: rust/trezor-client/src/protos/generated/messages.rs 520-764 (MessageType::from_i32) *)
Definition from_value (value : Z) : option MessageType :=
  match value with
  | 0 => Some MessageType_Initialize | 1 => Some MessageType_Ping | 2 => Some MessageType_Success
  | 3 => Some MessageType_Failure | 4 => Some MessageType_ChangePin
  | 5 => Some MessageType_WipeDevice | 9 => Some MessageType_GetEntropy
  | 10 => Some MessageType_Entropy | 13 => Some MessageType_LoadDevice
  | 14 => Some MessageType_ResetDevice | 16 => Some MessageType_SetBusy
  | 17 => Some MessageType_Features | 18 => Some MessageType_PinMatrixRequest
  | 19 => Some MessageType_PinMatrixAck | 20 => Some MessageType_Cancel
  | 24 => Some MessageType_LockDevice | 25 => Some MessageType_ApplySettings
  | 26 => Some MessageType_ButtonRequest | 27 => Some MessageType_ButtonAck
  | 28 => Some MessageType_ApplyFlags | 31 => Some MessageType_GetNonce
  | 33 => Some MessageType_Nonce | 34 => Some MessageType_BackupDevice
  | 35 => Some MessageType_EntropyRequest | 36 => Some MessageType_EntropyAck
  | 41 => Some MessageType_PassphraseRequest | 42 => Some MessageType_PassphraseAck
  | 45 => Some MessageType_RecoveryDevice | 46 => Some MessageType_WordRequest
  | 47 => Some MessageType_WordAck | 55 => Some MessageType_GetFeatures
  | 79 => Some MessageType_SdProtect | 82 => Some MessageType_ChangeWipeCode
  | 83 => Some MessageType_EndSession | 84 => Some MessageType_DoPreauthorized
  | 85 => Some MessageType_PreauthorizedRequest | 86 => Some MessageType_CancelAuthorization
  | 87 => Some MessageType_RebootToBootloader | 88 => Some MessageType_GetFirmwareHash
  | 89 => Some MessageType_FirmwareHash | 93 => Some MessageType_UnlockPath
  | 94 => Some MessageType_UnlockedPathRequest | 95 => Some MessageType_ShowDeviceTutorial
  | 96 => Some MessageType_UnlockBootloader | 97 => Some MessageType_AuthenticateDevice
  | 98 => Some MessageType_AuthenticityProof | 990 => Some MessageType_ChangeLanguage
  | 991 => Some MessageType_TranslationDataRequest | 992 => Some MessageType_TranslationDataAck
  | 993 => Some MessageType_SetBrightness | 63 => Some MessageType_SetU2FCounter
  | 80 => Some MessageType_GetNextU2FCounter | 81 => Some MessageType_NextU2FCounter
  | 77 => Some MessageType_Deprecated_PassphraseStateRequest
  | 78 => Some MessageType_Deprecated_PassphraseStateAck | 6 => Some MessageType_FirmwareErase
  | 7 => Some MessageType_FirmwareUpload | 8 => Some MessageType_FirmwareRequest
  | 32 => Some MessageType_ProdTestT1 | 11 => Some MessageType_GetPublicKey
  | 12 => Some MessageType_PublicKey | 15 => Some MessageType_SignTx
  | 21 => Some MessageType_TxRequest | 22 => Some MessageType_TxAck
  | 29 => Some MessageType_GetAddress | 30 => Some MessageType_Address
  | 37 => Some MessageType_TxAckPaymentRequest | 38 => Some MessageType_SignMessage
  | 39 => Some MessageType_VerifyMessage | 40 => Some MessageType_MessageSignature
  | 43 => Some MessageType_GetOwnershipId | 44 => Some MessageType_OwnershipId
  | 49 => Some MessageType_GetOwnershipProof | 50 => Some MessageType_OwnershipProof
  | 51 => Some MessageType_AuthorizeCoinJoin | 23 => Some MessageType_CipherKeyValue
  | 48 => Some MessageType_CipheredKeyValue | 53 => Some MessageType_SignIdentity
  | 54 => Some MessageType_SignedIdentity | 61 => Some MessageType_GetECDHSessionKey
  | 62 => Some MessageType_ECDHSessionKey | 100 => Some MessageType_DebugLinkDecision
  | 101 => Some MessageType_DebugLinkGetState | 102 => Some MessageType_DebugLinkState
  | 103 => Some MessageType_DebugLinkStop | 104 => Some MessageType_DebugLinkLog
  | 110 => Some MessageType_DebugLinkMemoryRead | 111 => Some MessageType_DebugLinkMemory
  | 112 => Some MessageType_DebugLinkMemoryWrite | 113 => Some MessageType_DebugLinkFlashErase
  | 9001 => Some MessageType_DebugLinkLayout | 9002 => Some MessageType_DebugLinkReseedRandom
  | 9003 => Some MessageType_DebugLinkRecordScreen | 9005 => Some MessageType_DebugLinkEraseSdCard
  | 9006 => Some MessageType_DebugLinkWatchLayout
  | 9007 => Some MessageType_DebugLinkResetDebugEvents
  | 450 => Some MessageType_EthereumGetPublicKey | 451 => Some MessageType_EthereumPublicKey
  | 56 => Some MessageType_EthereumGetAddress | 57 => Some MessageType_EthereumAddress
  | 58 => Some MessageType_EthereumSignTx | 452 => Some MessageType_EthereumSignTxEIP1559
  | 59 => Some MessageType_EthereumTxRequest | 60 => Some MessageType_EthereumTxAck
  | 64 => Some MessageType_EthereumSignMessage | 65 => Some MessageType_EthereumVerifyMessage
  | 66 => Some MessageType_EthereumMessageSignature | 464 => Some MessageType_EthereumSignTypedData
  | 465 => Some MessageType_EthereumTypedDataStructRequest
  | 466 => Some MessageType_EthereumTypedDataStructAck
  | 467 => Some MessageType_EthereumTypedDataValueRequest
  | 468 => Some MessageType_EthereumTypedDataValueAck
  | 469 => Some MessageType_EthereumTypedDataSignature
  | 470 => Some MessageType_EthereumSignTypedHash | 67 => Some MessageType_NEMGetAddress
  | 68 => Some MessageType_NEMAddress | 69 => Some MessageType_NEMSignTx
  | 70 => Some MessageType_NEMSignedTx | 75 => Some MessageType_NEMDecryptMessage
  | 76 => Some MessageType_NEMDecryptedMessage | 150 => Some MessageType_TezosGetAddress
  | 151 => Some MessageType_TezosAddress | 152 => Some MessageType_TezosSignTx
  | 153 => Some MessageType_TezosSignedTx | 154 => Some MessageType_TezosGetPublicKey
  | 155 => Some MessageType_TezosPublicKey | 202 => Some MessageType_StellarSignTx
  | 203 => Some MessageType_StellarTxOpRequest | 207 => Some MessageType_StellarGetAddress
  | 208 => Some MessageType_StellarAddress | 210 => Some MessageType_StellarCreateAccountOp
  | 211 => Some MessageType_StellarPaymentOp
  | 212 => Some MessageType_StellarPathPaymentStrictReceiveOp
  | 213 => Some MessageType_StellarManageSellOfferOp
  | 214 => Some MessageType_StellarCreatePassiveSellOfferOp
  | 215 => Some MessageType_StellarSetOptionsOp | 216 => Some MessageType_StellarChangeTrustOp
  | 217 => Some MessageType_StellarAllowTrustOp | 218 => Some MessageType_StellarAccountMergeOp
  | 220 => Some MessageType_StellarManageDataOp | 221 => Some MessageType_StellarBumpSequenceOp
  | 222 => Some MessageType_StellarManageBuyOfferOp
  | 223 => Some MessageType_StellarPathPaymentStrictSendOp
  | 225 => Some MessageType_StellarClaimClaimableBalanceOp
  | 230 => Some MessageType_StellarSignedTx | 305 => Some MessageType_CardanoGetPublicKey
  | 306 => Some MessageType_CardanoPublicKey | 307 => Some MessageType_CardanoGetAddress
  | 308 => Some MessageType_CardanoAddress | 313 => Some MessageType_CardanoTxItemAck
  | 314 => Some MessageType_CardanoTxAuxiliaryDataSupplement
  | 315 => Some MessageType_CardanoTxWitnessRequest
  | 316 => Some MessageType_CardanoTxWitnessResponse | 317 => Some MessageType_CardanoTxHostAck
  | 318 => Some MessageType_CardanoTxBodyHash | 319 => Some MessageType_CardanoSignTxFinished
  | 320 => Some MessageType_CardanoSignTxInit | 321 => Some MessageType_CardanoTxInput
  | 322 => Some MessageType_CardanoTxOutput | 323 => Some MessageType_CardanoAssetGroup
  | 324 => Some MessageType_CardanoToken | 325 => Some MessageType_CardanoTxCertificate
  | 326 => Some MessageType_CardanoTxWithdrawal | 327 => Some MessageType_CardanoTxAuxiliaryData
  | 328 => Some MessageType_CardanoPoolOwner | 329 => Some MessageType_CardanoPoolRelayParameters
  | 330 => Some MessageType_CardanoGetNativeScriptHash
  | 331 => Some MessageType_CardanoNativeScriptHash | 332 => Some MessageType_CardanoTxMint
  | 333 => Some MessageType_CardanoTxCollateralInput
  | 334 => Some MessageType_CardanoTxRequiredSigner
  | 335 => Some MessageType_CardanoTxInlineDatumChunk
  | 336 => Some MessageType_CardanoTxReferenceScriptChunk
  | 337 => Some MessageType_CardanoTxReferenceInput | 400 => Some MessageType_RippleGetAddress
  | 401 => Some MessageType_RippleAddress | 402 => Some MessageType_RippleSignTx
  | 403 => Some MessageType_RippleSignedTx | 501 => Some MessageType_MoneroTransactionInitRequest
  | 502 => Some MessageType_MoneroTransactionInitAck
  | 503 => Some MessageType_MoneroTransactionSetInputRequest
  | 504 => Some MessageType_MoneroTransactionSetInputAck
  | 507 => Some MessageType_MoneroTransactionInputViniRequest
  | 508 => Some MessageType_MoneroTransactionInputViniAck
  | 509 => Some MessageType_MoneroTransactionAllInputsSetRequest
  | 510 => Some MessageType_MoneroTransactionAllInputsSetAck
  | 511 => Some MessageType_MoneroTransactionSetOutputRequest
  | 512 => Some MessageType_MoneroTransactionSetOutputAck
  | 513 => Some MessageType_MoneroTransactionAllOutSetRequest
  | 514 => Some MessageType_MoneroTransactionAllOutSetAck
  | 515 => Some MessageType_MoneroTransactionSignInputRequest
  | 516 => Some MessageType_MoneroTransactionSignInputAck
  | 517 => Some MessageType_MoneroTransactionFinalRequest
  | 518 => Some MessageType_MoneroTransactionFinalAck
  | 530 => Some MessageType_MoneroKeyImageExportInitRequest
  | 531 => Some MessageType_MoneroKeyImageExportInitAck
  | 532 => Some MessageType_MoneroKeyImageSyncStepRequest
  | 533 => Some MessageType_MoneroKeyImageSyncStepAck
  | 534 => Some MessageType_MoneroKeyImageSyncFinalRequest
  | 535 => Some MessageType_MoneroKeyImageSyncFinalAck | 540 => Some MessageType_MoneroGetAddress
  | 541 => Some MessageType_MoneroAddress | 542 => Some MessageType_MoneroGetWatchKey
  | 543 => Some MessageType_MoneroWatchKey | 546 => Some MessageType_DebugMoneroDiagRequest
  | 547 => Some MessageType_DebugMoneroDiagAck | 550 => Some MessageType_MoneroGetTxKeyRequest
  | 551 => Some MessageType_MoneroGetTxKeyAck
  | 552 => Some MessageType_MoneroLiveRefreshStartRequest
  | 553 => Some MessageType_MoneroLiveRefreshStartAck
  | 554 => Some MessageType_MoneroLiveRefreshStepRequest
  | 555 => Some MessageType_MoneroLiveRefreshStepAck
  | 556 => Some MessageType_MoneroLiveRefreshFinalRequest
  | 557 => Some MessageType_MoneroLiveRefreshFinalAck | 600 => Some MessageType_EosGetPublicKey
  | 601 => Some MessageType_EosPublicKey | 602 => Some MessageType_EosSignTx
  | 603 => Some MessageType_EosTxActionRequest | 604 => Some MessageType_EosTxActionAck
  | 605 => Some MessageType_EosSignedTx | 700 => Some MessageType_BinanceGetAddress
  | 701 => Some MessageType_BinanceAddress | 702 => Some MessageType_BinanceGetPublicKey
  | 703 => Some MessageType_BinancePublicKey | 704 => Some MessageType_BinanceSignTx
  | 705 => Some MessageType_BinanceTxRequest | 706 => Some MessageType_BinanceTransferMsg
  | 707 => Some MessageType_BinanceOrderMsg | 708 => Some MessageType_BinanceCancelMsg
  | 709 => Some MessageType_BinanceSignedTx
  | 800 => Some MessageType_WebAuthnListResidentCredentials
  | 801 => Some MessageType_WebAuthnCredentials
  | 802 => Some MessageType_WebAuthnAddResidentCredential
  | 803 => Some MessageType_WebAuthnRemoveResidentCredential
  | 900 => Some MessageType_SolanaGetPublicKey | 901 => Some MessageType_SolanaPublicKey
  | 902 => Some MessageType_SolanaGetAddress | 903 => Some MessageType_SolanaAddress
  | 904 => Some MessageType_SolanaSignTx | 905 => Some MessageType_SolanaTxSignature
  | _ => None
  end.

Lemma from_value_value m : from_value (value m) = Some m.
Proof. by destruct m. Qed.

#[export] Instance generated_types : MessageTypes := {|
  Transport.MessageType := MessageType;
  message_value := value;
  from_i32 := from_value;
  from_i32_value := from_value_value;
|}.

(** [derive(PartialEq)] compares discriminants. *)
Definition message_type_eqb (m1 m2 : MessageType) : bool := value m1 =? value m2.

Lemma message_type_eqb_spec m1 m2 : message_type_eqb m1 m2 = true ↔ m1 = m2.
Proof.
  unfold message_type_eqb. rewrite Z.eqb_eq. split; [|by intros ->]. intros H.
  apply (f_equal from_value) in H. rewrite !from_value_value in H. congruence.
Qed.

Lemma message_type_eqb_refl m : message_type_eqb m m = true.
Proof. by apply message_type_eqb_spec. Qed.

#[export] Instance message_type_eq_dec : EqDecision MessageType.
Proof.
  intros m1 m2. destruct (message_type_eqb m1 m2) eqn:E.
  - left. by apply message_type_eqb_spec.
  - right. intros Heq. apply message_type_eqb_spec in Heq. congruence.
Defined.

Lemma value_range m : in_u 16 (value m).
Proof. unfold in_u. destruct m; cbn [value]; lia. Qed.
