(* ===== verification/Messages.v ===== *)
(** * Messages between the client and the device

    [trezor-client/src/protos/generated/]: the fields of the messages that the
    client sends and receives.  Texts are their bytes, an enumeration the number
    that [EnumOrUnknown] holds; the unknown fields that a message carries along
    are left out.  Reading and writing them is generated code over the protobuf
    library, and a parameter ([Message] in Client). *)
From S2P Require Import Prelude.
Local Open Scope Z_scope.

(* src: rust/trezor-client/src/protos/generated/messages_common.rs 2037-2054 (HDNodeType) *)
Record HDNodeType := mkHDNodeType {
  hdn_depth : option Z; hdn_fingerprint : option Z; hdn_child_num : option Z;
  hdn_chain_code : option (list Z); hdn_private_key : option (list Z);
  hdn_public_key : option (list Z)
}.

(* src: rust/trezor-client/src/protos/generated/messages_bitcoin.rs 263-272 (HDNodePathType) *)
Record HDNodePathType := mkHDNodePathType {
  hdp_node : option HDNodeType; hdp_address_n : list Z
}.

(* src: rust/trezor-client/src/protos/generated/messages_bitcoin.rs 30-45 (MultisigRedeemScriptType) *)
Record MultisigRedeemScriptType := mkMultisigRedeemScriptType {
  mrst_pubkeys : list HDNodePathType; mrst_signatures : list (list Z); mrst_m : option Z;
  mrst_nodes : list HDNodeType; mrst_address_n : list Z
}.

(* src: rust/trezor-client/src/protos/generated/messages_ethereum_definitions.rs 683-692 (EthereumDefinitions) *)
Record EthereumDefinitions := mkEthereumDefinitions {
  ed_encoded_network : option (list Z); ed_encoded_token : option (list Z)
}.

(* src: rust/trezor-client/src/protos/generated/messages_bitcoin.rs 3623-3638 (CoinJoinRequest) *)
Record CoinJoinRequest := mkCoinJoinRequest {
  cjr_fee_rate : option Z; cjr_no_fee_threshold : option Z;
  cjr_min_registrable_amount : option Z; cjr_mask_public_key : option (list Z);
  cjr_signature : option (list Z)
}.

(* src: rust/trezor-client/src/protos/generated/messages_management.rs 7521-7530 (Slip39Group) *)
Record Slip39Group := mkSlip39Group {
  s39g_member_threshold : option Z; s39g_member_count : option Z
}.

(* src: rust/trezor-client/src/protos/generated/messages_common.rs 30-37 (Success) *)
Record Success := mkSuccess {
  success_message : option (list Z)
}.

(* src: rust/trezor-client/src/protos/generated/messages_common.rs 188-197 (Failure) *)
Record Failure := mkFailure {
  failure_code : option Z; failure_message : option (list Z)
}.

(* src: rust/trezor-client/src/protos/generated/messages_common.rs 533-542 (ButtonRequest) *)
Record ButtonRequest := mkButtonRequest {
  br_code : option Z; br_pages : option Z
}.

(* src: rust/trezor-client/src/protos/generated/messages_common.rs 891-895 (ButtonAck) *)
Record ButtonAck := mkButtonAck { }.

(* src: rust/trezor-client/src/protos/generated/messages_common.rs 994-1001 (PinMatrixRequest) *)
Record PinMatrixRequest := mkPinMatrixRequest {
  pmr_type : option Z
}.

(* src: rust/trezor-client/src/protos/generated/messages_common.rs 1225-1232 (PinMatrixAck) *)
Record PinMatrixAck := mkPinMatrixAck {
  pma_pin : option (list Z)
}.

(* src: rust/trezor-client/src/protos/generated/messages_common.rs 1386-1393 (PassphraseRequest) *)
Record PassphraseRequest := mkPassphraseRequest {
  pr_on_device : option bool
}.

(* src: rust/trezor-client/src/protos/generated/messages_common.rs 1527-1538 (PassphraseAck) *)
Record PassphraseAck := mkPassphraseAck {
  pa_passphrase : option (list Z); pa_state : option (list Z); pa_on_device : option bool
}.

(* src: rust/trezor-client/src/protos/generated/messages_management.rs 30-41 (Initialize) *)
Record Initialize := mkInitialize {
  init_session_id : option (list Z); init_skip_passphrase : option bool;
  init_derive_cardano : option bool
}.

(* src: rust/trezor-client/src/protos/generated/messages_management.rs 365-474 (Features) *)
Record Features := mkFeatures {
  feat_vendor : option (list Z); feat_major_version : option Z; feat_minor_version : option Z;
  feat_patch_version : option Z; feat_bootloader_mode : option bool;
  feat_device_id : option (list Z); feat_pin_protection : option bool;
  feat_passphrase_protection : option bool; feat_language : option (list Z);
  feat_label : option (list Z); feat_initialized : option bool;
  feat_revision : option (list Z); feat_bootloader_hash : option (list Z);
  feat_imported : option bool; feat_unlocked : option bool;
  feat_passphrase_cached : option bool; feat_firmware_present : option bool;
  feat_backup_availability : option Z; feat_flags : option Z; feat_model : option (list Z);
  feat_fw_major : option Z; feat_fw_minor : option Z; feat_fw_patch : option Z;
  feat_fw_vendor : option (list Z); feat_unfinished_backup : option bool;
  feat_no_backup : option bool; feat_recovery_status : option Z; feat_capabilities : list Z;
  feat_backup_type : option Z; feat_sd_card_present : option bool;
  feat_sd_protection : option bool; feat_wipe_code_protection : option bool;
  feat_session_id : option (list Z); feat_passphrase_always_on_device : option bool;
  feat_safety_checks : option Z; feat_auto_lock_delay_ms : option Z;
  feat_display_rotation : option Z; feat_experimental_features : option bool;
  feat_busy : option bool; feat_homescreen_format : option Z;
  feat_hide_passphrase_from_host : option bool; feat_internal_model : option (list Z);
  feat_unit_color : option Z; feat_unit_btconly : option bool;
  feat_homescreen_width : option Z; feat_homescreen_height : option Z;
  feat_bootloader_locked : option bool; feat_language_version_matches : option bool;
  feat_unit_packaging : option Z; feat_haptic_feedback : option bool;
  feat_recovery_type : option Z; feat_optiga_sec : option Z
}.

(* src: rust/trezor-client/src/protos/generated/messages_management.rs 5009-5018 (Ping) *)
Record Ping := mkPing {
  ping_message : option (list Z); ping_button_protection : option bool
}.

(* src: rust/trezor-client/src/protos/generated/messages_management.rs 4510-4517 (ChangePin) *)
Record ChangePin := mkChangePin {
  cp_remove : option bool
}.

(* src: rust/trezor-client/src/protos/generated/messages_management.rs 6271-6275 (WipeDevice) *)
Record WipeDevice := mkWipeDevice { }.

(* src: rust/trezor-client/src/protos/generated/messages_management.rs 7970-7993 (RecoveryDevice) *)
Record RecoveryDevice := mkRecoveryDevice {
  rec_word_count : option Z; rec_passphrase_protection : option bool;
  rec_pin_protection : option bool; rec_language : option (list Z);
  rec_label : option (list Z); rec_enforce_wordlist : option bool; rec_input_method : option Z;
  rec_u2f_counter : option Z; rec_type : option Z
}.

(* src: rust/trezor-client/src/protos/generated/messages_management.rs 6843-6868 (ResetDevice) *)
Record ResetDevice := mkResetDevice {
  rd_display_random : option bool; rd_strength : option Z;
  rd_passphrase_protection : option bool; rd_pin_protection : option bool;
  rd_language : option (list Z); rd_label : option (list Z); rd_u2f_counter : option Z;
  rd_skip_backup : option bool; rd_no_backup : option bool; rd_backup_type : option Z
}.

(* src: rust/trezor-client/src/protos/generated/messages_management.rs 7706-7710 (EntropyRequest) *)
Record EntropyRequest := mkEntropyRequest { }.

(* src: rust/trezor-client/src/protos/generated/messages_management.rs 7809-7816 (EntropyAck) *)
Record EntropyAck := mkEntropyAck {
  ea_entropy : option (list Z)
}.

(* src: rust/trezor-client/src/protos/generated/messages_management.rs 7354-7363 (BackupDevice) *)
Record BackupDevice := mkBackupDevice {
  bd_group_threshold : option Z; bd_groups : list Slip39Group
}.

(* src: rust/trezor-client/src/protos/generated/messages_management.rs 3238-3267 (ApplySettings) *)
Record ApplySettings := mkApplySettings {
  as_language : option (list Z); as_label : option (list Z); as_use_passphrase : option bool;
  as_homescreen : option (list Z); as_passphrase_source : option Z;
  as_auto_lock_delay_ms : option Z; as_display_rotation : option Z;
  as_passphrase_always_on_device : option bool; as_safety_checks : option Z;
  as_experimental_features : option bool; as_hide_passphrase_from_host : option bool;
  as_haptic_feedback : option bool
}.

(* src: rust/trezor-client/src/protos/generated/messages_crypto.rs 595-612 (IdentityType) *)
Record IdentityType := mkIdentityType {
  it_proto : option (list Z); it_user : option (list Z); it_host : option (list Z);
  it_port : option (list Z); it_path : option (list Z); it_index : option Z
}.

(* src: rust/trezor-client/src/protos/generated/messages_crypto.rs 1006-1019 (SignIdentity) *)
Record SignIdentity := mkSignIdentity {
  si_identity : option IdentityType; si_challenge_hidden : option (list Z);
  si_challenge_visual : option (list Z); si_ecdsa_curve_name : option (list Z)
}.

(* src: rust/trezor-client/src/protos/generated/messages_crypto.rs 1299-1310 (SignedIdentity) *)
Record SignedIdentity := mkSignedIdentity {
  si_address : option (list Z); si_public_key : option (list Z); si_signature : option (list Z)
}.

(* src: rust/trezor-client/src/protos/generated/messages_crypto.rs 1571-1582 (GetECDHSessionKey) *)
Record GetECDHSessionKey := mkGetECDHSessionKey {
  get_ecdh_identity : option IdentityType; get_ecdh_peer_public_key : option (list Z);
  get_ecdh_ecdsa_curve_name : option (list Z)
}.

(* src: rust/trezor-client/src/protos/generated/messages_crypto.rs 1813-1822 (ECDHSessionKey) *)
Record ECDHSessionKey := mkECDHSessionKey {
  ecdh_session_key : option (list Z); ecdh_public_key : option (list Z)
}.

(* src: rust/trezor-client/src/protos/generated/messages_ethereum.rs 380-393 (EthereumGetAddress) *)
Record EthereumGetAddress := mkEthereumGetAddress {
  ega_address_n : list Z; ega_show_display : option bool;
  ega_encoded_network : option (list Z); ega_chunkify : option bool
}.

(* src: rust/trezor-client/src/protos/generated/messages_ethereum.rs 633-642 (EthereumAddress) *)
Record EthereumAddress := mkEthereumAddress {
  ea_old_address : option (list Z); ea_address : option (list Z)
}.

(* src: rust/trezor-client/src/protos/generated/messages_ethereum.rs 2787-2800 (EthereumSignMessage) *)
Record EthereumSignMessage := mkEthereumSignMessage {
  esm_address_n : list Z; esm_message : option (list Z); esm_encoded_network : option (list Z);
  esm_chunkify : option bool
}.

(* src: rust/trezor-client/src/protos/generated/messages_ethereum.rs 3060-3069 (EthereumMessageSignature) *)
Record EthereumMessageSignature := mkEthereumMessageSignature {
  ems_signature : option (list Z); ems_address : option (list Z)
}.

(* src: rust/trezor-client/src/protos/generated/messages_ethereum.rs 845-874 (EthereumSignTx) *)
Record EthereumSignTx := mkEthereumSignTx {
  est_address_n : list Z; est_nonce : option (list Z); est_gas_price : option (list Z);
  est_gas_limit : option (list Z); est_to : option (list Z); est_value : option (list Z);
  est_data_initial_chunk : option (list Z); est_data_length : option Z;
  est_chain_id : option Z; est_tx_type : option Z;
  est_definitions : option EthereumDefinitions; est_chunkify : option bool
}.

(* src: rust/trezor-client/src/protos/generated/messages_ethereum.rs 2160-2169 (EthereumAccessList) *)
Record EthereumAccessList := mkEthereumAccessList {
  eal_address : option (list Z); eal_storage_keys : list (list Z)
}.

(* src: rust/trezor-client/src/protos/generated/messages_ethereum.rs 1475-1506 (EthereumSignTxEIP1559) *)
Record EthereumSignTxEIP1559 := mkEthereumSignTxEIP1559 {
  est1559_address_n : list Z; est1559_nonce : option (list Z);
  est1559_max_gas_fee : option (list Z); est1559_max_priority_fee : option (list Z);
  est1559_gas_limit : option (list Z); est1559_to : option (list Z);
  est1559_value : option (list Z); est1559_data_initial_chunk : option (list Z);
  est1559_data_length : option Z; est1559_chain_id : option Z;
  est1559_access_list : list EthereumAccessList;
  est1559_definitions : option EthereumDefinitions; est1559_chunkify : option bool
}.

(* src: rust/trezor-client/src/protos/generated/messages_ethereum.rs 2340-2353 (EthereumTxRequest) *)
Record EthereumTxRequest := mkEthereumTxRequest {
  etr_data_length : option Z; etr_signature_v : option Z; etr_signature_r : option (list Z);
  etr_signature_s : option (list Z)
}.

(* src: rust/trezor-client/src/protos/generated/messages_ethereum.rs 2626-2633 (EthereumTxAck) *)
Record EthereumTxAck := mkEthereumTxAck {
  eta_data_chunk : option (list Z)
}.

(* src: rust/trezor-client/src/protos/generated/messages_solana.rs 353-364 (SolanaGetAddress) *)
Record SolanaGetAddress := mkSolanaGetAddress {
  sga_address_n : list Z; sga_show_display : option bool; sga_chunkify : option bool
}.

(* src: rust/trezor-client/src/protos/generated/messages_solana.rs 552-559 (SolanaAddress) *)
Record SolanaAddress := mkSolanaAddress {
  sa_address : option (list Z)
}.

(* src: rust/trezor-client/src/protos/generated/messages_bitcoin.rs 416-433 (GetPublicKey) *)
Record GetPublicKey := mkGetPublicKey {
  gpk_address_n : list Z; gpk_ecdsa_curve_name : option (list Z);
  gpk_show_display : option bool; gpk_coin_name : option (list Z); gpk_script_type : option Z;
  gpk_ignore_xpub_magic : option bool
}.

(* src: rust/trezor-client/src/protos/generated/messages_bitcoin.rs 763-776 (PublicKey) *)
Record PublicKey := mkPublicKey {
  pubkey_node : option HDNodeType; pubkey_xpub : option (list Z);
  pubkey_root_fingerprint : option Z; pubkey_descriptor : option (list Z)
}.

(* src: rust/trezor-client/src/protos/generated/messages_bitcoin.rs 1042-1061 (GetAddress) *)
Record GetAddress := mkGetAddress {
  ga_address_n : list Z; ga_coin_name : option (list Z); ga_show_display : option bool;
  ga_multisig : option MultisigRedeemScriptType; ga_script_type : option Z;
  ga_ignore_xpub_magic : option bool; ga_chunkify : option bool
}.

(* src: rust/trezor-client/src/protos/generated/messages_bitcoin.rs 1396-1405 (Address) *)
Record Address := mkAddress {
  addr_address : option (list Z); addr_mac : option (list Z)
}.

(* src: rust/trezor-client/src/protos/generated/messages_bitcoin.rs 2015-2032 (SignMessage) *)
Record SignMessage := mkSignMessage {
  sm_address_n : list Z; sm_message : option (list Z); sm_coin_name : option (list Z);
  sm_script_type : option Z; sm_no_script_type : option bool; sm_chunkify : option bool
}.

(* src: rust/trezor-client/src/protos/generated/messages_bitcoin.rs 2365-2374 (MessageSignature) *)
Record MessageSignature := mkMessageSignature {
  ms_address : option (list Z); ms_signature : option (list Z)
}.

(* src: rust/trezor-client/src/protos/generated/messages_bitcoin.rs 2949-2984 (SignTx) *)
Record SignTx := mkSignTx {
  st_outputs_count : option Z; st_inputs_count : option Z; st_coin_name : option (list Z);
  st_version : option Z; st_lock_time : option Z; st_expiry : option Z;
  st_overwintered : option bool; st_version_group_id : option Z; st_timestamp : option Z;
  st_branch_id : option Z; st_amount_unit : option Z; st_decred_staking_ticket : option bool;
  st_serialize : option bool; st_coinjoin_request : option CoinJoinRequest;
  st_chunkify : option bool
}.

(* src: rust/trezor-client/src/protos/generated/messages_bitcoin.rs 4140-4153 (TxRequestDetailsType) *)
Record TxRequestDetailsType := mkTxRequestDetailsType {
  trdt_request_index : option Z; trdt_tx_hash : option (list Z);
  trdt_extra_data_len : option Z; trdt_extra_data_offset : option Z
}.

(* src: rust/trezor-client/src/protos/generated/messages_bitcoin.rs 4409-4420 (TxRequestSerializedType) *)
Record TxRequestSerializedType := mkTxRequestSerializedType {
  trst_signature_index : option Z; trst_signature : option (list Z);
  trst_serialized_tx : option (list Z)
}.

(* src: rust/trezor-client/src/protos/generated/messages_bitcoin.rs 3956-3967 (TxRequest) *)
Record TxRequest := mkTxRequest {
  tr_request_type : option Z; tr_details : option TxRequestDetailsType;
  tr_serialized : option TxRequestSerializedType
}.

(* src: rust/trezor-client/src/protos/generated/messages_bitcoin.rs 5483-5522 (TxInputType) *)
Record TxInputType := mkTxInputType {
  tit_address_n : list Z; tit_prev_hash : option (list Z); tit_prev_index : option Z;
  tit_script_sig : option (list Z); tit_sequence : option Z; tit_script_type : option Z;
  tit_multisig : option MultisigRedeemScriptType; tit_amount : option Z;
  tit_decred_tree : option Z; tit_witness : option (list Z);
  tit_ownership_proof : option (list Z); tit_commitment_data : option (list Z);
  tit_orig_hash : option (list Z); tit_orig_index : option Z;
  tit_decred_staking_spend : option Z; tit_script_pubkey : option (list Z);
  tit_coinjoin_flags : option Z
}.

(* src: rust/trezor-client/src/protos/generated/messages_bitcoin.rs 6318-6329 (TxOutputBinType) *)
Record TxOutputBinType := mkTxOutputBinType {
  tobt_amount : option Z; tobt_script_pubkey : option (list Z);
  tobt_decred_script_version : option Z
}.

(* src: rust/trezor-client/src/protos/generated/messages_bitcoin.rs 6556-6579 (TxOutputType) *)
Record TxOutputType := mkTxOutputType {
  tot_address : option (list Z); tot_address_n : list Z; tot_amount : option Z;
  tot_script_type : option Z; tot_multisig : option MultisigRedeemScriptType;
  tot_op_return_data : option (list Z); tot_orig_hash : option (list Z);
  tot_orig_index : option Z; tot_payment_req_index : option Z
}.

(* src: rust/trezor-client/src/protos/generated/messages_bitcoin.rs 4881-4914 (TransactionType) *)
Record TransactionType := mkTransactionType {
  tt_version : option Z; tt_inputs : list TxInputType; tt_bin_outputs : list TxOutputBinType;
  tt_lock_time : option Z; tt_outputs : list TxOutputType; tt_inputs_cnt : option Z;
  tt_outputs_cnt : option Z; tt_extra_data : option (list Z); tt_extra_data_len : option Z;
  tt_expiry : option Z; tt_overwintered : option bool; tt_version_group_id : option Z;
  tt_timestamp : option Z; tt_branch_id : option Z
}.

(* src: rust/trezor-client/src/protos/generated/messages_bitcoin.rs 4751-4758 (TxAck) *)
Record TxAck := mkTxAck {
  ta_tx : option TransactionType
}.

(* src: rust/trezor-client/src/protos/generated/messages_common.rs 716-757 (ButtonRequestType) *)
Inductive ButtonRequestType :=
| ButtonRequest_Other | ButtonRequest_FeeOverThreshold | ButtonRequest_ConfirmOutput
| ButtonRequest_ResetDevice | ButtonRequest_ConfirmWord | ButtonRequest_WipeDevice
| ButtonRequest_ProtectCall | ButtonRequest_SignTx | ButtonRequest_FirmwareCheck
| ButtonRequest_Address | ButtonRequest_PublicKey | ButtonRequest_MnemonicWordCount
| ButtonRequest_MnemonicInput | _Deprecated_ButtonRequest_PassphraseType
| ButtonRequest_UnknownDerivationPath | ButtonRequest_RecoveryHomepage | ButtonRequest_Success
| ButtonRequest_Warning | ButtonRequest_PassphraseEntry | ButtonRequest_PinEntry.

(* src: rust/trezor-client/src/protos/generated/messages_common.rs 762-764 (ButtonRequestType::value) *)
Definition button_request_type_value (m : ButtonRequestType) : Z :=
  match m with
  | ButtonRequest_Other => 1 | ButtonRequest_FeeOverThreshold => 2
  | ButtonRequest_ConfirmOutput => 3 | ButtonRequest_ResetDevice => 4
  | ButtonRequest_ConfirmWord => 5 | ButtonRequest_WipeDevice => 6 | ButtonRequest_ProtectCall => 7
  | ButtonRequest_SignTx => 8 | ButtonRequest_FirmwareCheck => 9 | ButtonRequest_Address => 10
  | ButtonRequest_PublicKey => 11 | ButtonRequest_MnemonicWordCount => 12
  | ButtonRequest_MnemonicInput => 13 | _Deprecated_ButtonRequest_PassphraseType => 14
  | ButtonRequest_UnknownDerivationPath => 15 | ButtonRequest_RecoveryHomepage => 16
  | ButtonRequest_Success => 17 | ButtonRequest_Warning => 18 | ButtonRequest_PassphraseEntry => 19
  | ButtonRequest_PinEntry => 20
  end.

(* src: rust/trezor-client/src/protos/generated/messages_common.rs 766-790 (ButtonRequestType::from_i32) *)
Definition button_request_type_from_i32 (value : Z) : option ButtonRequestType :=
  match value with
  | 1 => Some ButtonRequest_Other | 2 => Some ButtonRequest_FeeOverThreshold
  | 3 => Some ButtonRequest_ConfirmOutput | 4 => Some ButtonRequest_ResetDevice
  | 5 => Some ButtonRequest_ConfirmWord | 6 => Some ButtonRequest_WipeDevice
  | 7 => Some ButtonRequest_ProtectCall | 8 => Some ButtonRequest_SignTx
  | 9 => Some ButtonRequest_FirmwareCheck | 10 => Some ButtonRequest_Address
  | 11 => Some ButtonRequest_PublicKey | 12 => Some ButtonRequest_MnemonicWordCount
  | 13 => Some ButtonRequest_MnemonicInput | 14 => Some _Deprecated_ButtonRequest_PassphraseType
  | 15 => Some ButtonRequest_UnknownDerivationPath | 16 => Some ButtonRequest_RecoveryHomepage
  | 17 => Some ButtonRequest_Success | 18 => Some ButtonRequest_Warning
  | 19 => Some ButtonRequest_PassphraseEntry | 20 => Some ButtonRequest_PinEntry
  | _ => None
  end.

(* src: rust/trezor-client/src/protos/generated/messages_common.rs 1140-1151 (PinMatrixRequestType) *)
Inductive PinMatrixRequestType :=
| PinMatrixRequestType_Current | PinMatrixRequestType_NewFirst | PinMatrixRequestType_NewSecond
| PinMatrixRequestType_WipeCodeFirst | PinMatrixRequestType_WipeCodeSecond.

(* src: rust/trezor-client/src/protos/generated/messages_common.rs 1156-1158 (PinMatrixRequestType::value) *)
Definition pin_matrix_request_type_value (m : PinMatrixRequestType) : Z :=
  match m with
  | PinMatrixRequestType_Current => 1 | PinMatrixRequestType_NewFirst => 2
  | PinMatrixRequestType_NewSecond => 3 | PinMatrixRequestType_WipeCodeFirst => 4
  | PinMatrixRequestType_WipeCodeSecond => 5
  end.

(* src: rust/trezor-client/src/protos/generated/messages_common.rs 1160-1169 (PinMatrixRequestType::from_i32) *)
Definition pin_matrix_request_type_from_i32 (value : Z) : option PinMatrixRequestType :=
  match value with
  | 1 => Some PinMatrixRequestType_Current | 2 => Some PinMatrixRequestType_NewFirst
  | 3 => Some PinMatrixRequestType_NewSecond | 4 => Some PinMatrixRequestType_WipeCodeFirst
  | 5 => Some PinMatrixRequestType_WipeCodeSecond
  | _ => None
  end.

(* src: rust/trezor-client/src/protos/generated/messages_management.rs 8449-8454 (RecoveryDeviceInputMethod) *)
Inductive RecoveryDeviceInputMethod :=
| ScrambledWords | Matrix.

(* src: rust/trezor-client/src/protos/generated/messages_management.rs 8459-8461 (RecoveryDeviceInputMethod::value) *)
Definition recovery_device_input_method_value (m : RecoveryDeviceInputMethod) : Z :=
  match m with
  | ScrambledWords => 0 | Matrix => 1
  end.

(* src: rust/trezor-client/src/protos/generated/messages_management.rs 8463-8469 (RecoveryDeviceInputMethod::from_i32) *)
Definition recovery_device_input_method_from_i32 (value : Z) : option RecoveryDeviceInputMethod :=
  match value with
  | 0 => Some ScrambledWords | 1 => Some Matrix
  | _ => None
  end.

(* src: rust/trezor-client/src/protos/generated/messages_management.rs 11059-11066 (RecoveryType) *)
Inductive RecoveryType :=
| NormalRecovery | DryRun | UnlockRepeatedBackup.

(* src: rust/trezor-client/src/protos/generated/messages_management.rs 11071-11073 (RecoveryType::value) *)
Definition recovery_type_value (m : RecoveryType) : Z :=
  match m with
  | NormalRecovery => 0 | DryRun => 1 | UnlockRepeatedBackup => 2
  end.

(* src: rust/trezor-client/src/protos/generated/messages_management.rs 11075-11082 (RecoveryType::from_i32) *)
Definition recovery_type_from_i32 (value : Z) : option RecoveryType :=
  match value with
  | 0 => Some NormalRecovery | 1 => Some DryRun | 2 => Some UnlockRepeatedBackup
  | _ => None
  end.

(* src: rust/trezor-client/src/protos/generated/messages_bitcoin.rs 4658-4675 (RequestType) *)
Inductive RequestType :=
| TXINPUT | TXOUTPUT | TXMETA | TXFINISHED | TXEXTRADATA | TXORIGINPUT | TXORIGOUTPUT
| TXPAYMENTREQ.

(* src: rust/trezor-client/src/protos/generated/messages_bitcoin.rs 4680-4682 (RequestType::value) *)
Definition request_type_value (m : RequestType) : Z :=
  match m with
  | TXINPUT => 0 | TXOUTPUT => 1 | TXMETA => 2 | TXFINISHED => 3 | TXEXTRADATA => 4
  | TXORIGINPUT => 5 | TXORIGOUTPUT => 6 | TXPAYMENTREQ => 7
  end.

(* src: rust/trezor-client/src/protos/generated/messages_bitcoin.rs 4684-4696 (RequestType::from_i32) *)
Definition request_type_from_i32 (value : Z) : option RequestType :=
  match value with
  | 0 => Some TXINPUT | 1 => Some TXOUTPUT | 2 => Some TXMETA | 3 => Some TXFINISHED
  | 4 => Some TXEXTRADATA | 5 => Some TXORIGINPUT | 6 => Some TXORIGOUTPUT | 7 => Some TXPAYMENTREQ
  | _ => None
  end.

(* src: rust/trezor-client/src/protos/generated/messages_bitcoin.rs 13046-13059 (InputScriptType) *)
Inductive InputScriptType :=
| SPENDADDRESS | SPENDMULTISIG | EXTERNAL | SPENDWITNESS | SPENDP2SHWITNESS | SPENDTAPROOT.

(* src: rust/trezor-client/src/protos/generated/messages_bitcoin.rs 13064-13066 (InputScriptType::value) *)
Definition input_script_type_value (m : InputScriptType) : Z :=
  match m with
  | SPENDADDRESS => 0 | SPENDMULTISIG => 1 | EXTERNAL => 2 | SPENDWITNESS => 3
  | SPENDP2SHWITNESS => 4 | SPENDTAPROOT => 5
  end.

(* src: rust/trezor-client/src/protos/generated/messages_bitcoin.rs 13068-13078 (InputScriptType::from_i32) *)
Definition input_script_type_from_i32 (value : Z) : option InputScriptType :=
  match value with
  | 0 => Some SPENDADDRESS | 1 => Some SPENDMULTISIG | 2 => Some EXTERNAL | 3 => Some SPENDWITNESS
  | 4 => Some SPENDP2SHWITNESS | 5 => Some SPENDTAPROOT
  | _ => None
  end.

(* src: rust/trezor-client/src/protos/generated/messages_bitcoin.rs 13128-13143 (OutputScriptType) *)
Inductive OutputScriptType :=
| PAYTOADDRESS | PAYTOSCRIPTHASH | PAYTOMULTISIG | PAYTOOPRETURN | PAYTOWITNESS | PAYTOP2SHWITNESS
| PAYTOTAPROOT.

(* src: rust/trezor-client/src/protos/generated/messages_bitcoin.rs 13148-13150 (OutputScriptType::value) *)
Definition output_script_type_value (m : OutputScriptType) : Z :=
  match m with
  | PAYTOADDRESS => 0 | PAYTOSCRIPTHASH => 1 | PAYTOMULTISIG => 2 | PAYTOOPRETURN => 3
  | PAYTOWITNESS => 4 | PAYTOP2SHWITNESS => 5 | PAYTOTAPROOT => 6
  end.

(* src: rust/trezor-client/src/protos/generated/messages_bitcoin.rs 13152-13163 (OutputScriptType::from_i32) *)
Definition output_script_type_from_i32 (value : Z) : option OutputScriptType :=
  match value with
  | 0 => Some PAYTOADDRESS | 1 => Some PAYTOSCRIPTHASH | 2 => Some PAYTOMULTISIG
  | 3 => Some PAYTOOPRETURN | 4 => Some PAYTOWITNESS | 5 => Some PAYTOP2SHWITNESS
  | 6 => Some PAYTOTAPROOT
  | _ => None
  end.
