(* ===== verification/Client.v ===== *)
(** * The client's calls

    [trezor-client/src/client/], [error.rs] and [lib.rs]: a [Trezor] sends a
    message over its transport and reads one answer.  The device may answer
    with what was asked for, with a failure, or with a request for an
    interaction, which the caller acknowledges to get the next answer.  The
    client that Rust borrows is the state that every operation returns; after
    an error it is not described. *)
From S2P Require Import Prelude Transport.
From S2P Require Import MessageTypes Messages.
Local Open Scope Z_scope.

(** The errors of the crates that the client uses, and reading and writing the
    generated messages. *)
Class Crates := {
  ProtobufError : Type; Base58Error : Type; EncodeError : Type;
  Secp256k1Error : Type; Bip32Error : Type; AddressError : Type;
}.

Class Message `{Crates} (M : Type) := {
  write_to_bytes : M → outcome ProtobufError (list Z);
  parse_from_bytes : list Z → outcome ProtobufError M;
}.

(** What the protobuf library documents: a written message is parsed again. *)
Class MessageLaws `{Crates} (M : Type) `{!Message M} := {
  parse_written (m : M) bytes : write_to_bytes m = Ok bytes → parse_from_bytes bytes = Ok m;
}.

(* src: rust/trezor-client/src/client/common.rs 23-30 (InteractionType) *)
Inductive InteractionType := Button | PinMatrix | Passphrase | PassphraseState.

(* src: rust/trezor-client/src/error.rs 10-95 (Error) *)
Inductive Error `{Crates} :=
| NoDeviceFound
| DeviceNotUnique
| MalformedSignature
| TransportConnect (e : TransportError)
| TransportBeginSession (e : TransportError)
| TransportEndSession (e : TransportError)
| TransportSendMessage (e : TransportError)
| TransportReceiveMessage (e : TransportError)
| UnexpectedMessageType (mtype : MessageType)
| Protobuf (e : ProtobufError)
| FailureResponse (failure : Failure)
| UnexpectedInteractionRequest (interaction : InteractionType)
| UnsupportedNetwork
| InvalidEntropy
| TxRequestInvalidIndex (index : Z)
| InvalidPsbt (message : list Z)
| Base58 (e : Base58Error)
| TxRequestUnknownTxid (hash : list Z)
| PsbtMissingInputTx (hash : list Z)
| MalformedTxRequest (req : TxRequest)
| BitcoinEncode (e : EncodeError)
| Secp256k1 (e : Secp256k1Error)
| Bip32 (e : Bip32Error)
| AddressError_ (e : AddressError).

Abbreviation cresult := (outcome Error).

(** [Result::map_err]. *)
Definition map_err {E F A} (f : E → F) (m : outcome E A) : outcome F A :=
  match m with
  | Ok a => Ok a
  | Err e => Err (f e)
  | Panic => Panic
  | NoFuel => NoFuel
  end.

(** [messages/generated.rs] gives every message its type. *)
(* src: rust/trezor-client/src/messages/mod.rs 7-15 (TrezorMessage) *)
Class TrezorMessage (M : Type) := { MESSAGE_TYPE : MessageType }.
Arguments MESSAGE_TYPE M {_}.

(* src: rust/trezor-client/src/transport/mod.rs 51-59 (Transport) *)
Class Transport (D : Type) := {
  session_begin : D → tresult D;
  session_end : D → tresult D;
  write_message : D → ProtoMessage → tresult D;
  read_message : D → tresult (ProtoMessage * D);
}.

(* src: rust/trezor-client/src/transport/mod.rs 45-48 (ProtoMessage::into_message) *)
Definition into_message `{Crates} {M} `{!Message M} (self : ProtoMessage) : outcome ProtobufError M :=
  parse_from_bytes (payload self).

(** ** The types of the messages *)
(* src: rust/trezor-client/src/messages/generated.rs 2-2 (Initialize) *)
#[export] Instance Initialize_message : TrezorMessage Initialize := {| MESSAGE_TYPE := MessageType_Initialize |}.
(* src: rust/trezor-client/src/messages/generated.rs 13-13 (Features) *)
#[export] Instance Features_message : TrezorMessage Features := {| MESSAGE_TYPE := MessageType_Features |}.
(* src: rust/trezor-client/src/messages/generated.rs 3-3 (Ping) *)
#[export] Instance Ping_message : TrezorMessage Ping := {| MESSAGE_TYPE := MessageType_Ping |}.
(* src: rust/trezor-client/src/messages/generated.rs 4-4 (Success) *)
#[export] Instance Success_message : TrezorMessage Success := {| MESSAGE_TYPE := MessageType_Success |}.
(* src: rust/trezor-client/src/messages/generated.rs 5-5 (Failure) *)
#[export] Instance Failure_message : TrezorMessage Failure := {| MESSAGE_TYPE := MessageType_Failure |}.
(* src: rust/trezor-client/src/messages/generated.rs 6-6 (ChangePin) *)
#[export] Instance ChangePin_message : TrezorMessage ChangePin := {| MESSAGE_TYPE := MessageType_ChangePin |}.
(* src: rust/trezor-client/src/messages/generated.rs 7-7 (WipeDevice) *)
#[export] Instance WipeDevice_message : TrezorMessage WipeDevice := {| MESSAGE_TYPE := MessageType_WipeDevice |}.
(* src: rust/trezor-client/src/messages/generated.rs 29-29 (RecoveryDevice) *)
#[export] Instance RecoveryDevice_message : TrezorMessage RecoveryDevice := {| MESSAGE_TYPE := MessageType_RecoveryDevice |}.
(* src: rust/trezor-client/src/messages/generated.rs 11-11 (ResetDevice) *)
#[export] Instance ResetDevice_message : TrezorMessage ResetDevice := {| MESSAGE_TYPE := MessageType_ResetDevice |}.
(* src: rust/trezor-client/src/messages/generated.rs 25-25 (EntropyRequest) *)
#[export] Instance EntropyRequest_message : TrezorMessage EntropyRequest := {| MESSAGE_TYPE := MessageType_EntropyRequest |}.
(* src: rust/trezor-client/src/messages/generated.rs 26-26 (EntropyAck) *)
#[export] Instance EntropyAck_message : TrezorMessage EntropyAck := {| MESSAGE_TYPE := MessageType_EntropyAck |}.
(* src: rust/trezor-client/src/messages/generated.rs 24-24 (BackupDevice) *)
#[export] Instance BackupDevice_message : TrezorMessage BackupDevice := {| MESSAGE_TYPE := MessageType_BackupDevice |}.
(* src: rust/trezor-client/src/messages/generated.rs 18-18 (ApplySettings) *)
#[export] Instance ApplySettings_message : TrezorMessage ApplySettings := {| MESSAGE_TYPE := MessageType_ApplySettings |}.
(* src: rust/trezor-client/src/messages/generated.rs 19-19 (ButtonRequest) *)
#[export] Instance ButtonRequest_message : TrezorMessage ButtonRequest := {| MESSAGE_TYPE := MessageType_ButtonRequest |}.
(* src: rust/trezor-client/src/messages/generated.rs 20-20 (ButtonAck) *)
#[export] Instance ButtonAck_message : TrezorMessage ButtonAck := {| MESSAGE_TYPE := MessageType_ButtonAck |}.
(* src: rust/trezor-client/src/messages/generated.rs 14-14 (PinMatrixRequest) *)
#[export] Instance PinMatrixRequest_message : TrezorMessage PinMatrixRequest := {| MESSAGE_TYPE := MessageType_PinMatrixRequest |}.
(* src: rust/trezor-client/src/messages/generated.rs 15-15 (PinMatrixAck) *)
#[export] Instance PinMatrixAck_message : TrezorMessage PinMatrixAck := {| MESSAGE_TYPE := MessageType_PinMatrixAck |}.
(* src: rust/trezor-client/src/messages/generated.rs 27-27 (PassphraseRequest) *)
#[export] Instance PassphraseRequest_message : TrezorMessage PassphraseRequest := {| MESSAGE_TYPE := MessageType_PassphraseRequest |}.
(* src: rust/trezor-client/src/messages/generated.rs 28-28 (PassphraseAck) *)
#[export] Instance PassphraseAck_message : TrezorMessage PassphraseAck := {| MESSAGE_TYPE := MessageType_PassphraseAck |}.
(* src: rust/trezor-client/src/messages/generated.rs 63-63 (SignIdentity) *)
#[export] Instance SignIdentity_message : TrezorMessage SignIdentity := {| MESSAGE_TYPE := MessageType_SignIdentity |}.
(* src: rust/trezor-client/src/messages/generated.rs 64-64 (SignedIdentity) *)
#[export] Instance SignedIdentity_message : TrezorMessage SignedIdentity := {| MESSAGE_TYPE := MessageType_SignedIdentity |}.
(* src: rust/trezor-client/src/messages/generated.rs 65-65 (GetECDHSessionKey) *)
#[export] Instance GetECDHSessionKey_message : TrezorMessage GetECDHSessionKey := {| MESSAGE_TYPE := MessageType_GetECDHSessionKey |}.
(* src: rust/trezor-client/src/messages/generated.rs 66-66 (ECDHSessionKey) *)
#[export] Instance ECDHSessionKey_message : TrezorMessage ECDHSessionKey := {| MESSAGE_TYPE := MessageType_ECDHSessionKey |}.
(* src: rust/trezor-client/src/messages/generated.rs 165-165 (EthereumGetAddress) *)
#[export] Instance EthereumGetAddress_message : TrezorMessage EthereumGetAddress := {| MESSAGE_TYPE := MessageType_EthereumGetAddress |}.
(* src: rust/trezor-client/src/messages/generated.rs 166-166 (EthereumAddress) *)
#[export] Instance EthereumAddress_message : TrezorMessage EthereumAddress := {| MESSAGE_TYPE := MessageType_EthereumAddress |}.
(* src: rust/trezor-client/src/messages/generated.rs 171-171 (EthereumSignMessage) *)
#[export] Instance EthereumSignMessage_message : TrezorMessage EthereumSignMessage := {| MESSAGE_TYPE := MessageType_EthereumSignMessage |}.
(* src: rust/trezor-client/src/messages/generated.rs 173-173 (EthereumMessageSignature) *)
#[export] Instance EthereumMessageSignature_message : TrezorMessage EthereumMessageSignature := {| MESSAGE_TYPE := MessageType_EthereumMessageSignature |}.
(* src: rust/trezor-client/src/messages/generated.rs 167-167 (EthereumSignTx) *)
#[export] Instance EthereumSignTx_message : TrezorMessage EthereumSignTx := {| MESSAGE_TYPE := MessageType_EthereumSignTx |}.
(* src: rust/trezor-client/src/messages/generated.rs 168-168 (EthereumSignTxEIP1559) *)
#[export] Instance EthereumSignTxEIP1559_message : TrezorMessage EthereumSignTxEIP1559 := {| MESSAGE_TYPE := MessageType_EthereumSignTxEIP1559 |}.
(* src: rust/trezor-client/src/messages/generated.rs 169-169 (EthereumTxRequest) *)
#[export] Instance EthereumTxRequest_message : TrezorMessage EthereumTxRequest := {| MESSAGE_TYPE := MessageType_EthereumTxRequest |}.
(* src: rust/trezor-client/src/messages/generated.rs 170-170 (EthereumTxAck) *)
#[export] Instance EthereumTxAck_message : TrezorMessage EthereumTxAck := {| MESSAGE_TYPE := MessageType_EthereumTxAck |}.
(* src: rust/trezor-client/src/messages/generated.rs 245-245 (SolanaGetAddress) *)
#[export] Instance SolanaGetAddress_message : TrezorMessage SolanaGetAddress := {| MESSAGE_TYPE := MessageType_SolanaGetAddress |}.
(* src: rust/trezor-client/src/messages/generated.rs 246-246 (SolanaAddress) *)
#[export] Instance SolanaAddress_message : TrezorMessage SolanaAddress := {| MESSAGE_TYPE := MessageType_SolanaAddress |}.
(* src: rust/trezor-client/src/messages/generated.rs 100-100 (GetPublicKey) *)
#[export] Instance GetPublicKey_message : TrezorMessage GetPublicKey := {| MESSAGE_TYPE := MessageType_GetPublicKey |}.
(* src: rust/trezor-client/src/messages/generated.rs 101-101 (PublicKey) *)
#[export] Instance PublicKey_message : TrezorMessage PublicKey := {| MESSAGE_TYPE := MessageType_PublicKey |}.
(* src: rust/trezor-client/src/messages/generated.rs 105-105 (GetAddress) *)
#[export] Instance GetAddress_message : TrezorMessage GetAddress := {| MESSAGE_TYPE := MessageType_GetAddress |}.
(* src: rust/trezor-client/src/messages/generated.rs 106-106 (Address) *)
#[export] Instance Address_message : TrezorMessage Address := {| MESSAGE_TYPE := MessageType_Address |}.
(* src: rust/trezor-client/src/messages/generated.rs 108-108 (SignMessage) *)
#[export] Instance SignMessage_message : TrezorMessage SignMessage := {| MESSAGE_TYPE := MessageType_SignMessage |}.
(* src: rust/trezor-client/src/messages/generated.rs 110-110 (MessageSignature) *)
#[export] Instance MessageSignature_message : TrezorMessage MessageSignature := {| MESSAGE_TYPE := MessageType_MessageSignature |}.
(* src: rust/trezor-client/src/messages/generated.rs 102-102 (SignTx) *)
#[export] Instance SignTx_message : TrezorMessage SignTx := {| MESSAGE_TYPE := MessageType_SignTx |}.
(* src: rust/trezor-client/src/messages/generated.rs 103-103 (TxRequest) *)
#[export] Instance TxRequest_message : TrezorMessage TxRequest := {| MESSAGE_TYPE := MessageType_TxRequest |}.
(* src: rust/trezor-client/src/messages/generated.rs 104-104 (TxAck) *)
#[export] Instance TxAck_message : TrezorMessage TxAck := {| MESSAGE_TYPE := MessageType_TxAck |}.

(** ** Calls and answers *)

(* src: rust/trezor-client/src/lib.rs 49-56 (Model) *)
Inductive Model := TrezorLegacy | ModelTrezor | TrezorBootloader | TrezorEmulator.

(* src: rust/trezor-client/src/client/mod.rs 30-36 (Trezor) *)
Record Trezor (D : Type) := mkTrezor {
  model : Model;
  features : option Features;
  transport : D;
}.
Arguments mkTrezor {D} _ _ _.
Arguments model {D} _.
Arguments features {D} _.
Arguments transport {D} _.

(* src: rust/trezor-client/src/client/mod.rs 38-41 (trezor_with_transport) *)
Definition trezor_with_transport {D} (model : Model) (transport : D) : Trezor D :=
  mkTrezor model None transport.

Section Calls.
Context `{Crates} {D : Type} `{!Transport D}.

(* src: rust/trezor-client/src/client/common.rs 32-35 (ResultHandler) *)
Definition ResultHandler (T R : Type) : Type := Trezor D → R → cresult (T * Trezor D).

(* src: rust/trezor-client/src/client/common.rs 37-42 (ButtonRequest) *)
Record ButtonRequest (T R : Type) := mkButtonRequest {
  button_message : Messages.ButtonRequest;
  button_handler : ResultHandler T R;
}.

(* src: rust/trezor-client/src/client/common.rs 63-68 (PinMatrixRequest) *)
Record PinMatrixRequest (T R : Type) := mkPinMatrixRequest {
  pin_message : Messages.PinMatrixRequest;
  pin_handler : ResultHandler T R;
}.

(* src: rust/trezor-client/src/client/common.rs 90-95 (PassphraseRequest) *)
Record PassphraseRequest (T R : Type) := mkPassphraseRequest {
  passphrase_message : Messages.PassphraseRequest;
  passphrase_handler : ResultHandler T R;
}.

(* src: rust/trezor-client/src/client/common.rs 127-139 (TrezorResponse) *)
Inductive TrezorResponse (T R : Type) :=
| ResponseOk (m : T)
| ResponseFailure (m : Failure)
| ResponseButton (r : ButtonRequest T R)
| ResponsePinMatrix (r : PinMatrixRequest T R)
| ResponsePassphrase (r : PassphraseRequest T R).

(* src: rust/trezor-client/src/client/mod.rs 54-61 (Trezor::call_raw) *)
Definition call_raw {S} `{!TrezorMessage S, !Message S} (self : Trezor D) (message : S)
    : cresult (ProtoMessage * Trezor D) :=
  bytes ← map_err Protobuf (write_to_bytes message);
  t ← map_err TransportSendMessage
        (write_message (transport self) (mkMessage (MESSAGE_TYPE S) bytes));
  '(m, t) ← map_err TransportReceiveMessage (read_message t);
  Ok (m, mkTrezor (model self) (features self) t).

Context `{!Message Failure, !Message Messages.ButtonRequest, !Message Messages.PinMatrixRequest,
  !Message Messages.PassphraseRequest}.

(* src: rust/trezor-client/src/client/mod.rs 63-122 (Trezor::call) *)
Definition call {T S R} `{!TrezorMessage S, !Message S, !TrezorMessage R, !Message R}
    (self : Trezor D) (message : S) (result_handler : ResultHandler T R)
    : cresult (TrezorResponse T R * Trezor D) :=
  '(resp, self) ← call_raw self message;
  if message_type_eqb (message_type resp) (MESSAGE_TYPE R) then
    resp_msg ← map_err Protobuf (into_message resp);
    '(r, self) ← result_handler self resp_msg;
    Ok (ResponseOk T R r, self)
  else
    match (message_type resp : MessageType) with
    | MessageType_Failure =>
      fail_msg ← map_err Protobuf (into_message resp);
      Ok (ResponseFailure T R fail_msg, self)
    | MessageType_ButtonRequest =>
      req_msg ← map_err Protobuf (into_message resp);
      Ok (ResponseButton T R (mkButtonRequest T R req_msg result_handler), self)
    | MessageType_PinMatrixRequest =>
      req_msg ← map_err Protobuf (into_message resp);
      Ok (ResponsePinMatrix T R (mkPinMatrixRequest T R req_msg result_handler), self)
    | MessageType_PassphraseRequest =>
      req_msg ← map_err Protobuf (into_message resp);
      Ok (ResponsePassphrase T R (mkPassphraseRequest T R req_msg result_handler), self)
    | mtype => Err (UnexpectedMessageType mtype)
    end.

Section Responses.
Context {T R : Type} `{!TrezorMessage R, !Message R}.

(* src: rust/trezor-client/src/client/common.rs 155-170 (TrezorResponse::ok) *)
Definition response_ok (self : TrezorResponse T R) : cresult T :=
  match self with
  | ResponseOk _ _ m => Ok m
  | ResponseFailure _ _ m => Err (FailureResponse m)
  | ResponseButton _ _ _ => Err (UnexpectedInteractionRequest Button)
  | ResponsePinMatrix _ _ _ => Err (UnexpectedInteractionRequest PinMatrix)
  | ResponsePassphrase _ _ _ => Err (UnexpectedInteractionRequest Passphrase)
  end.

(* src: rust/trezor-client/src/client/common.rs 172-185 (TrezorResponse::button_request) *)
Definition button_request (self : TrezorResponse T R) : cresult (ButtonRequest T R) :=
  match self with
  | ResponseButton _ _ r => Ok r
  | ResponseOk _ _ _ => Err (UnexpectedMessageType (MESSAGE_TYPE R))
  | ResponseFailure _ _ m => Err (FailureResponse m)
  | ResponsePinMatrix _ _ _ => Err (UnexpectedInteractionRequest PinMatrix)
  | ResponsePassphrase _ _ _ => Err (UnexpectedInteractionRequest Passphrase)
  end.

(* src: rust/trezor-client/src/client/common.rs 187-200 (TrezorResponse::pin_matrix_request) *)
Definition pin_matrix_request (self : TrezorResponse T R) : cresult (PinMatrixRequest T R) :=
  match self with
  | ResponsePinMatrix _ _ r => Ok r
  | ResponseOk _ _ _ => Err (UnexpectedMessageType (MESSAGE_TYPE R))
  | ResponseFailure _ _ m => Err (FailureResponse m)
  | ResponseButton _ _ _ => Err (UnexpectedInteractionRequest Button)
  | ResponsePassphrase _ _ _ => Err (UnexpectedInteractionRequest Passphrase)
  end.

(* src: rust/trezor-client/src/client/common.rs 202-215 (TrezorResponse::passphrase_request) *)
Definition passphrase_request (self : TrezorResponse T R) : cresult (PassphraseRequest T R) :=
  match self with
  | ResponsePassphrase _ _ r => Ok r
  | ResponseOk _ _ _ => Err (UnexpectedMessageType (MESSAGE_TYPE R))
  | ResponseFailure _ _ m => Err (FailureResponse m)
  | ResponseButton _ _ _ => Err (UnexpectedInteractionRequest Button)
  | ResponsePinMatrix _ _ _ => Err (UnexpectedInteractionRequest PinMatrix)
  end.

(** An enumeration that a message does not set, or sets to an unknown number,
    has its default value. *)
(* src: rust/trezor-client/src/client/common.rs 51-54 (ButtonRequest::request_type) *)
Definition button_request_type (self : ButtonRequest T R) : ButtonRequestType :=
  default ButtonRequest_Other (br_code (button_message _ _ self) ≫= button_request_type_from_i32).

(* src: rust/trezor-client/src/client/common.rs 77-80 (PinMatrixRequest::request_type) *)
Definition pin_request_type (self : PinMatrixRequest T R) : PinMatrixRequestType :=
  default PinMatrixRequestType_Current
    (pmr_type (pin_message _ _ self) ≫= pin_matrix_request_type_from_i32).

(* src: rust/trezor-client/src/client/common.rs 104-107 (PassphraseRequest::on_device) *)
Definition on_device (self : PassphraseRequest T R) : bool :=
  default false (pr_on_device (passphrase_message _ _ self)).

Context `{!Message ButtonAck, !Message PinMatrixAck, !Message PassphraseAck}.

(* src: rust/trezor-client/src/client/common.rs 56-60 (ButtonRequest::ack) *)
Definition button_ack (self : ButtonRequest T R) (client : Trezor D)
    : cresult (TrezorResponse T R * Trezor D) :=
  call client mkButtonAck (button_handler _ _ self).

(* src: rust/trezor-client/src/client/common.rs 82-87 (PinMatrixRequest::ack_pin) *)
Definition ack_pin (self : PinMatrixRequest T R) (client : Trezor D) (pin : list Z)
    : cresult (TrezorResponse T R * Trezor D) :=
  call client (mkPinMatrixAck (Some pin)) (pin_handler _ _ self).

(* src: rust/trezor-client/src/client/common.rs 109-114 (PassphraseRequest::ack_passphrase) *)
Definition ack_passphrase (self : PassphraseRequest T R) (client : Trezor D) (passphrase : list Z)
    : cresult (TrezorResponse T R * Trezor D) :=
  call client (mkPassphraseAck (Some passphrase) None None) (passphrase_handler _ _ self).

(* src: rust/trezor-client/src/client/common.rs 116-124 (PassphraseRequest::ack) *)
Definition passphrase_ack (self : PassphraseRequest T R) (client : Trezor D) (on_device : bool)
    : cresult (TrezorResponse T R * Trezor D) :=
  call client (mkPassphraseAck None None (if on_device then Some on_device else None))
    (passphrase_handler _ _ self).

(** The recursion goes on for as long as the device asks; each turn but the
    first reads an answer. *)
(* src: rust/trezor-client/src/client/common.rs 218-229 (handle_interaction) *)
Fixpoint handle_interaction (fuel : nat) (resp : TrezorResponse T R) (client : Trezor D)
    : cresult (T * Trezor D) :=
  match fuel with
  | O => NoFuel
  | S fuel =>
    match resp with
    | ResponseOk _ _ res => Ok (res, client)
    | ResponseFailure _ _ _ => res ← response_ok resp; Ok (res, client)
    | ResponseButton _ _ req =>
      '(resp, client) ← button_ack req client;
      handle_interaction fuel resp client
    | ResponsePinMatrix _ _ _ => Err UnsupportedNetwork
    | ResponsePassphrase _ _ req =>
      '(resp, client) ← passphrase_ack req client (negb (on_device req));
      handle_interaction fuel resp client
    end
  end.
End Responses.
End Calls.
