(* ===== verification/Commands.v ===== *)
(** * The commands of the client

    [trezor-client/src/client/mod.rs], the rest of [common.rs] and [lib.rs]:
    every command builds its request and calls the device with a handler for
    the answer that it expects.  [UdpTransport] (transport/udp.rs) runs version
    1 of the wire protocol over a link.  Then the calls for Ethereum and Solana
    ([client/ethereum.rs], [client/solana.rs]). *)
From S2P Require Import Prelude Transport MessageTypes Messages Client.
Local Open Scope Z_scope.

(** ** The transport of the emulator *)

(* src: rust/trezor-client/src/transport/udp.rs 93-96 (UdpTransport) *)
Record UdpTransport (L : Type) := mkUdpTransport { link : L }.
Arguments mkUdpTransport {L} _.
Arguments link {L} _.

(* src: rust/trezor-client/src/transport/udp.rs 139-153 (UdpTransport as Transport) *)
#[export] Instance udp_transport {L} `{!Link L} : Transport (UdpTransport L) := {
  session_begin self := Ok self;
  session_end self := Ok self;
  write_message self message := mkUdpTransport <$> v1_write (link self) message;
  read_message self := '(m, l) ← v1_read (link self); Ok (m, mkUdpTransport l);
}.

(** ** Finding a device *)

(* src: rust/trezor-client/src/lib.rs 75-82 (AvailableDevice) *)
Record AvailableDevice (A : Type) := mkAvailableDevice {
  device_model : Model;
  device_debug : bool;
  device_transport : A;
}.
Arguments mkAvailableDevice {A} _ _ _.
Arguments device_model {A} _.
Arguments device_debug {A} _.
Arguments device_transport {A} _.

(* src: rust/trezor-client/src/transport/mod.rs 77-85 (derive_model) *)
Definition derive_model (dev_id : Z * Z) : option Model :=
  if bool_decide (dev_id = (0x534C, 0x0001)) then Some TrezorLegacy
  else if bool_decide (dev_id = (0x1209, 0x53C1)) then Some ModelTrezor
  else if bool_decide (dev_id = (0x1209, 0x53C0)) then Some TrezorBootloader
  else None.

Section Find.
Context `{Crates} {A D : Type}.

(** The listing of USB and UDP devices and connecting to one, which are up to
    the operating system. *)
Context (webusb_devices udp_devices : bool → tresult (list (AvailableDevice A))).
Context (connect_transport : AvailableDevice A → tresult D).

(* src: rust/trezor-client/src/lib.rs 91-95 (AvailableDevice::connect) *)
Definition connect (self : AvailableDevice A) : cresult (Trezor D) :=
  transport ← map_err TransportConnect (connect_transport self);
  Ok (trezor_with_transport (device_model self) transport).

(** A listing that fails is logged, and counts as empty. *)
Definition or_warn (m : tresult (list (AvailableDevice A))) : cresult (list (AvailableDevice A)) :=
  match m with
  | Ok found => Ok found
  | Err _ => Ok []
  | Panic => Panic
  | NoFuel => NoFuel
  end.

(* src: rust/trezor-client/src/lib.rs 98-118 (find_devices) *)
Definition find_devices (debug : bool) : cresult (list (AvailableDevice A)) :=
  usb ← or_warn (webusb_devices debug);
  udp ← or_warn (udp_devices debug);
  Ok (usb ++ udp).

(* src: rust/trezor-client/src/lib.rs 120-135 (unique) *)
Definition unique (debug : bool) : cresult (Trezor D) :=
  devices ← find_devices debug;
  match devices with
  | [] => Err NoDeviceFound
  | [device] => connect device
  | _ => Err DeviceNotUnique
  end.
End Find.

(** ** Requests *)

(* src: rust/trezor-client/src/client/common.rs 16-21 (WordCount) *)
Inductive WordCount := W12 | W18 | W24.

(* src: rust/trezor-client/src/client/common.rs 17-21 (WordCount) *)
Definition word_count_value (w : WordCount) : Z :=
  match w with W12 => 12 | W18 => 18 | W24 => 24 end.

(** The text "english". *)
Definition english : list Z := [101; 110; 103; 108; 105; 115; 104].

(* src: rust/trezor-client/src/client/mod.rs 166-179 (Trezor::recover_device) *)
Definition recovery_request (word_count : WordCount) (passphrase_protection pin_protection : bool)
    (label : list Z) (dry_run : bool) : RecoveryDevice := {|
  rec_word_count := Some (word_count_value word_count);
  rec_passphrase_protection := Some passphrase_protection;
  rec_pin_protection := Some pin_protection;
  rec_language := Some english;
  rec_label := Some label;
  rec_enforce_wordlist := Some true;
  rec_input_method := Some (recovery_device_input_method_value ScrambledWords);
  rec_u2f_counter := None;
  rec_type := Some (recovery_type_value (if dry_run then DryRun else NormalRecovery));
|}.

(** [usize] of the host is cut to 32 bits. *)
(* src: rust/trezor-client/src/client/mod.rs 194-201 (Trezor::reset_device) *)
Definition reset_request (display_random : bool) (strength : Z)
    (passphrase_protection pin_protection : bool) (label : list Z) (skip_backup no_backup : bool)
    : ResetDevice := {|
  rd_display_random := Some display_random;
  rd_strength := Some (wrapu 32 strength);
  rd_passphrase_protection := Some passphrase_protection;
  rd_pin_protection := Some pin_protection;
  rd_language := None;
  rd_label := Some label;
  rd_u2f_counter := None;
  rd_skip_backup := Some skip_backup;
  rd_no_backup := Some no_backup;
  rd_backup_type := None;
|}.

(* src: rust/trezor-client/src/client/mod.rs 219-231 (Trezor::apply_settings) *)
Definition settings_request (label : option (list Z)) (use_passphrase : option bool)
    (homescreen : option (list Z)) (auto_lock_delay_ms : option Z) : ApplySettings := {|
  as_language := None;
  as_label := label;
  as_use_passphrase := use_passphrase;
  as_homescreen := homescreen;
  as_passphrase_source := None;
  as_auto_lock_delay_ms := wrapu 32 <$> auto_lock_delay_ms;
  as_display_rotation := None;
  as_passphrase_always_on_device := None;
  as_safety_checks := None;
  as_experimental_features := None;
  as_hide_passphrase_from_host := None;
  as_haptic_feedback := None;
|}.

(** ** Commands *)
Section Commands.
Context `{Crates} {D : Type} `{!Transport D}.
Context `{!Message Failure, !Message Messages.ButtonRequest, !Message Messages.PinMatrixRequest,
  !Message Messages.PassphraseRequest}.

Abbreviation response T R := (cresult (TrezorResponse (D:=D) T R * Trezor D)).

(** The handlers that drop the answer, and that return it. *)
Definition handle_unit {R} : ResultHandler (D:=D) unit R := λ client _, Ok (tt, client).
Definition handle_message {R} : ResultHandler (D:=D) R R := λ client m, Ok (m, client).

(* src: rust/trezor-client/src/client/mod.rs 130-139 (Trezor::initialize) *)
Definition initialize `{!Message Initialize, !Message Features} (self : Trezor D)
    (session_id : option (list Z)) : response Features Features :=
  call self (mkInitialize session_id None None) handle_message.

(* src: rust/trezor-client/src/client/mod.rs 124-128 (Trezor::init_device) *)
Definition init_device `{!Message Initialize, !Message Features} (self : Trezor D)
    (session_id : option (list Z)) : cresult (Trezor D) :=
  '(resp, self) ← initialize self session_id;
  features ← response_ok resp;
  Ok (mkTrezor (model self) (Some features) (transport self)).

Context `{!Message Success}.

(* src: rust/trezor-client/src/client/mod.rs 141-145 (Trezor::ping) *)
Definition ping `{!Message Ping} (self : Trezor D) (message : list Z) : response unit Success :=
  call self (mkPing (Some message) None) handle_unit.

(* src: rust/trezor-client/src/client/mod.rs 147-151 (Trezor::change_pin) *)
Definition change_pin `{!Message ChangePin} (self : Trezor D) (remove : bool) : response unit Success :=
  call self (mkChangePin (Some remove)) handle_unit.

(* src: rust/trezor-client/src/client/mod.rs 153-156 (Trezor::wipe_device) *)
Definition wipe_device `{!Message WipeDevice} (self : Trezor D) : response unit Success :=
  call self mkWipeDevice handle_unit.

(* src: rust/trezor-client/src/client/mod.rs 158-181 (Trezor::recover_device) *)
Definition recover_device `{!Message RecoveryDevice} (self : Trezor D) (word_count : WordCount)
    (passphrase_protection pin_protection : bool) (label : list Z) (dry_run : bool)
    : response unit Success :=
  call self (recovery_request word_count passphrase_protection pin_protection label dry_run)
    handle_unit.

(** The answer to [reset_device] holds the client, to give the entropy with. *)
(* src: rust/trezor-client/src/client/common.rs 231-234 (EntropyRequest) *)
Record EntropyRequest := mkEntropyRequest { }.

(* src: rust/trezor-client/src/client/mod.rs 183-203 (Trezor::reset_device) *)
Definition reset_device `{!Message ResetDevice, !Message Messages.EntropyRequest} (self : Trezor D)
    (display_random : bool) (strength : Z) (passphrase_protection pin_protection : bool)
    (label : list Z) (skip_backup no_backup : bool)
    : response EntropyRequest Messages.EntropyRequest :=
  call self (reset_request display_random strength passphrase_protection pin_protection label
               skip_backup no_backup)
    (λ client _, Ok (mkEntropyRequest, client)).

(* src: rust/trezor-client/src/client/common.rs 237-246 (EntropyRequest::ack_entropy) *)
Definition ack_entropy `{!Message EntropyAck} (self : EntropyRequest) (client : Trezor D)
    (entropy : list Z) : response unit Success :=
  if negb (len entropy =? 32) then Err InvalidEntropy else
  call client (mkEntropyAck (Some entropy)) handle_unit.

(* src: rust/trezor-client/src/client/mod.rs 205-208 (Trezor::backup) *)
Definition backup `{!Message BackupDevice} (self : Trezor D) : response unit Success :=
  call self (mkBackupDevice None []) handle_unit.

(* src: rust/trezor-client/src/client/mod.rs 212-233 (Trezor::apply_settings) *)
Definition apply_settings `{!Message ApplySettings} (self : Trezor D) (label : option (list Z))
    (use_passphrase : option bool) (homescreen : option (list Z)) (auto_lock_delay_ms : option Z)
    : response unit Success :=
  call self (settings_request label use_passphrase homescreen auto_lock_delay_ms) handle_unit.

(** A field of bytes that is not set reads as empty. *)
(* src: rust/trezor-client/src/client/mod.rs 235-247 (Trezor::sign_identity) *)
Definition sign_identity `{!Message SignIdentity, !Message SignedIdentity} (self : Trezor D)
    (identity : IdentityType) (digest curve : list Z) : response (list Z) SignedIdentity :=
  call self (mkSignIdentity (Some identity) (Some digest) (Some []) (Some curve))
    (λ client m, Ok (default [] (si_signature m), client)).

(* src: rust/trezor-client/src/client/mod.rs 249-260 (Trezor::get_ecdh_session_key) *)
Definition get_ecdh_session_key `{!Message GetECDHSessionKey, !Message ECDHSessionKey}
    (self : Trezor D) (identity : IdentityType) (peer_public_key curve : list Z)
    : response ECDHSessionKey ECDHSessionKey :=
  call self (mkGetECDHSessionKey (Some identity) (Some peer_public_key) (Some curve)) handle_message.
End Commands.

(** ** Signing for Ethereum

    [trezor-client/src/client/ethereum.rs] and [solana.rs]: a transaction is
    sent with the first 1024 bytes of its data, and the device asks for the
    rest in pieces before it answers with a signature. *)
(* src: rust/trezor-client/src/client/ethereum.rs 8-15 (AccessListItem) *)
Record AccessListItem := mkAccessListItem {
  item_address : list Z;
  item_storage_keys : list (list Z);
}.

(* src: rust/trezor-client/src/client/ethereum.rs 17-26 (Signature) *)
Record Signature := mkSignature { r : list Z; s : list Z; v : Z }.

(** [Vec::splice] of at most 1024 bytes at the front: what is cut off, and what
    stays. *)
(* src: rust/trezor-client/src/client/ethereum.rs 86-86 (Trezor::ethereum_sign_tx) *)
Definition next_chunk (data : list Z) : list Z * list Z :=
  let n := Nat.min 1024 (length data) in (take n data, drop n data).

Section Ethereum.
Context `{Crates} {D : Type} `{!Transport D}.
Context `{!Message Failure, !Message Messages.ButtonRequest, !Message Messages.PinMatrixRequest,
  !Message Messages.PassphraseRequest, !Message ButtonAck, !Message PassphraseAck}.

(** [try_into] of a vector into [[u8; 32]]. *)
Definition bytes32 (l : list Z) : option (list Z) := if len l =? 32 then Some l else None.

(** [v + 2 * chain_id + 35] wraps around in [u64]. *)
(* src: rust/trezor-client/src/client/ethereum.rs 157-167 (convert_signature) *)
Definition convert_signature (resp : EthereumTxRequest) (chain_id : option Z) : cresult Signature :=
  let v := default 0 (etr_signature_v resp) in
  let v := match chain_id with
           | Some chain_id => if v <=? 1 then wrapu 64 (v + 2 * chain_id + 35) else v
           | None => v
           end in
  r ← ok_or (bytes32 (default [] (etr_signature_r resp))) MalformedSignature;
  s ← ok_or (bytes32 (default [] (etr_signature_s resp))) MalformedSignature;
  Ok (mkSignature r s v).

(* src: rust/trezor-client/src/client/ethereum.rs 43-55 (Trezor::ethereum_sign_message) *)
Definition message_signature (m : EthereumMessageSignature) : cresult Signature :=
  let signature := default [] (ems_signature m) in
  if negb (len signature =? 65) then Err MalformedSignature else
  r ← or_panic (slice signature 0 32);
  s ← or_panic (slice signature 32 64);
  v ← or_panic (getZ signature 64);
  Ok (mkSignature r s v).

(* src: rust/trezor-client/src/client/ethereum.rs 30-37 (Trezor::ethereum_get_address) *)
Definition ethereum_get_address `{!Message EthereumGetAddress, !Message EthereumAddress}
    (fuel : nat) (self : Trezor D) (path : list Z) : cresult (list Z * Trezor D) :=
  '(resp, self) ← call self (mkEthereumGetAddress path None None None)
    (λ client (m : EthereumAddress), Ok (default [] (ea_address m), client));
  handle_interaction fuel resp self.

(* src: rust/trezor-client/src/client/solana.rs 6-14 (Trezor::solana_get_address) *)
Definition solana_get_address `{!Message SolanaGetAddress, !Message SolanaAddress}
    (fuel : nat) (self : Trezor D) (path : list Z) : cresult (list Z * Trezor D) :=
  '(resp, self) ← call self (mkSolanaGetAddress path (Some true) None)
    (λ client (m : SolanaAddress), Ok (default [] (sa_address m), client));
  handle_interaction fuel resp self.

(* src: rust/trezor-client/src/client/ethereum.rs 39-58 (Trezor::ethereum_sign_message) *)
Definition ethereum_sign_message `{!Message EthereumSignMessage, !Message EthereumMessageSignature}
    (fuel : nat) (self : Trezor D) (message path : list Z) : cresult (Signature * Trezor D) :=
  '(resp, self) ← call self (mkEthereumSignMessage path (Some message) None None)
    (λ client (m : EthereumMessageSignature), sig ← message_signature m; Ok (sig, client));
  handle_interaction fuel resp self.

Context `{!Message EthereumTxRequest, !Message EthereumTxAck}.

(** The loop goes on for as long as the device asks for data. *)
(* src: rust/trezor-client/src/client/ethereum.rs 91-96 (Trezor::ethereum_sign_tx) *)
Fixpoint send_data (fuel : nat) (self : Trezor D) (resp : EthereumTxRequest) (data : list Z)
    : cresult (EthereumTxRequest * Trezor D) :=
  match fuel with
  | O => NoFuel
  | S fuel =>
    if 0 <? default 0 (etr_data_length resp) then
      let '(chunk, data) := next_chunk data in
      '(resp, self) ← call self (mkEthereumTxAck (Some chunk)) handle_message;
      resp ← response_ok (T:=EthereumTxRequest) resp;
      send_data fuel self resp data
    else Ok (resp, self)
  end.

(* src: rust/trezor-client/src/client/ethereum.rs 88-98 (Trezor::ethereum_sign_tx) *)
Definition sign_with {S} `{!TrezorMessage S, !Message S} (fuel : nat) (self : Trezor D) (req : S)
    (data : list Z) (chain_id : option Z) : cresult (Signature * Trezor D) :=
  '(resp, self) ← call self req (handle_message (R:=EthereumTxRequest));
  '(resp, self) ← handle_interaction fuel resp self;
  '(resp, self) ← send_data fuel self resp data;
  signature ← convert_signature resp chain_id;
  Ok (signature, self).

(* src: rust/trezor-client/src/client/ethereum.rs 72-86 (Trezor::ethereum_sign_tx) *)
Definition sign_tx_request (path nonce gas_price gas_limit to value data : list Z)
    (chain_id : option Z) : EthereumSignTx := {|
  est_address_n := path;
  est_nonce := Some nonce;
  est_gas_price := Some gas_price;
  est_gas_limit := Some gas_limit;
  est_to := Some to;
  est_value := Some value;
  est_data_initial_chunk := Some (next_chunk data).1;
  est_data_length := Some (wrapu 32 (len data));
  est_chain_id := chain_id;
  est_tx_type := None;
  est_definitions := None;
  est_chunkify := None;
|}.

(* src: rust/trezor-client/src/client/ethereum.rs 60-99 (Trezor::ethereum_sign_tx) *)
Definition ethereum_sign_tx `{!Message EthereumSignTx} (fuel : nat) (self : Trezor D)
    (path nonce gas_price gas_limit to value data : list Z) (chain_id : option Z)
    : cresult (Signature * Trezor D) :=
  sign_with fuel self (sign_tx_request path nonce gas_price gas_limit to value data chain_id)
    (next_chunk data).2 chain_id.

(** An access list is left out when it is empty. *)
(* src: rust/trezor-client/src/client/ethereum.rs 115-141 (Trezor::ethereum_sign_eip1559_tx) *)
Definition sign_eip1559_request (path nonce gas_limit to value data : list Z)
    (chain_id : option Z) (max_gas_fee max_priority_fee : list Z)
    (access_list : list AccessListItem) : EthereumSignTxEIP1559 := {|
  est1559_address_n := path;
  est1559_nonce := Some nonce;
  est1559_max_gas_fee := Some max_gas_fee;
  est1559_max_priority_fee := Some max_priority_fee;
  est1559_gas_limit := Some gas_limit;
  est1559_to := Some to;
  est1559_value := Some value;
  est1559_data_initial_chunk := Some (next_chunk data).1;
  est1559_data_length := Some (wrapu 32 (len data));
  est1559_chain_id := chain_id;
  est1559_access_list :=
    (λ item, mkEthereumAccessList (Some (item_address item)) (item_storage_keys item)) <$> access_list;
  est1559_definitions := None;
  est1559_chunkify := None;
|}.

(* src: rust/trezor-client/src/client/ethereum.rs 101-154 (Trezor::ethereum_sign_eip1559_tx) *)
Definition ethereum_sign_eip1559_tx `{!Message EthereumSignTxEIP1559} (fuel : nat) (self : Trezor D)
    (path nonce gas_limit to value data : list Z) (chain_id : option Z)
    (max_gas_fee max_priority_fee : list Z) (access_list : list AccessListItem)
    : cresult (Signature * Trezor D) :=
  sign_with fuel self
    (sign_eip1559_request path nonce gas_limit to value data chain_id max_gas_fee max_priority_fee
       access_list)
    (next_chunk data).2 chain_id.
End Ethereum.
