(* ===== verification/ClientSpec.v ===== *)
(** * Conversations with a device

    What a call and the interactions after it come to, when the device has a
    list of answers to give: first over any transport that delivers them, then
    for messages cut into chunks on a link.  The examples have a serialization
    of their own, at the beginning. *)
From S2P Require Import Prelude Transport MessageTypes Messages Client Commands.
Local Open Scope Z_scope.

(** ** Concrete messages on the wire

    A serialization of the messages of the examples, which has the laws that
    the theorems on conversations ask of the protobuf library. *)
(** Serializers that can be put one after the other. *)
Class Serial (A : Type) := {
  put : A → list Z;
  get : list Z → option (A * list Z);
  get_put a l : get (put a ++ l) = Some (a, l);
}.

#[export] Instance serial_Z : Serial Z.
Proof.
  refine {|
    put (z : Z) := [z];
    get l := match l with z :: l => Some (z, l) | [] => None end
  |}.
  done.
Defined.

#[export] Instance serial_unit : Serial unit.
Proof.
  refine {|
    put (_ : unit) := [];
    get l := Some (tt, l)
  |}.
  by intros [] l.
Defined.

#[export] Instance serial_bool : Serial bool.
Proof.
  refine {|
    put (b : bool) := [if b then 1 else 0];
    get l := match l with z :: l => Some (z =? 1, l) | [] => None end
  |}.
  by intros [] l.
Defined.

#[export] Instance serial_option {A} `{!Serial A} : Serial (option A).
Proof.
  refine {|
    put (o : option A) := match o with Some a => 1 :: put a | None => [0] end;
    get l := match l with
             | 1 :: l => '(a, l) ← get l; Some (Some a, l)
             | _ :: l => Some (None, l)
             | [] => None
             end
  |}.
  intros [a|] l; cbn; [|done]. by rewrite get_put.
Defined.

#[export] Instance serial_prod {A B} `{!Serial A, !Serial B} : Serial (A * B).
Proof.
  refine {|
    put (p : A * B) := put p.1 ++ put p.2;
    get l := '(a, l) ← get l; '(b, l) ← get l; Some ((a, b), l)
  |}.
  intros [a b] l. cbn [fst snd]. rewrite <- app_assoc, get_put. cbn [mbind option_bind].
  by rewrite get_put.
Defined.

Fixpoint get_list {A} `{!Serial A} (n : nat) (l : list Z) : option (list A * list Z) :=
  match n with
  | O => Some ([], l)
  | S n => '(a, l) ← get l; '(r, l) ← get_list n l; Some (a :: r, l)
  end.

#[export] Instance serial_list {A} `{!Serial A} : Serial (list A).
Proof.
  refine {|
    put (r : list A) := len r :: flat_map put r;
    get l := match l with n :: l => get_list (Z.to_nat n) l | [] => None end
  |}.
  intros r l. cbn [app]. rewrite Nat2Z.id. induction r as [|a r IH]; [done|].
  cbn [length get_list flat_map]. rewrite <- app_assoc, get_put.
  cbn [mbind option_bind]. by rewrite IH.
Defined.

Lemma put_bytes_length (l : list Z) : length (put l) = S (length l).
Proof.
  assert (length (flat_map (put (A:=Z)) l) = length l) as Hl.
  { induction l as [|z l IH]; [done|]. cbn [flat_map]. rewrite length_app, IH. done. }
  change (S (length (flat_map (put (A:=Z)) l)) = S (length l)). by rewrite Hl.
Qed.

(** A record by the tuple of its fields. *)
Definition serial_via {A B} `{!Serial B} (f : A → B) (g : B → A) (gf : ∀ a, g (f a) = a) : Serial A.
Proof.
  refine {|
    put a := put (f a);
    get l := '(b, l) ← get l; Some (g b, l)
  |}.
  intros a l. rewrite get_put. cbn [mbind option_bind]. by rewrite gf.
Defined.

(** Crates whose errors say nothing. *)
#[export] Instance sample_crates : Crates := {|
  ProtobufError := unit; Base58Error := unit; EncodeError := unit;
  Secp256k1Error := unit; Bip32Error := unit; AddressError := unit;
|}.

#[export] Instance serial_message {A} `{!Serial A} : Message A := {
  write_to_bytes a := Ok (put a);
  parse_from_bytes bytes := match get bytes with Some (a, []) => Ok a | _ => Err tt end;
}.

#[export] Instance serial_message_laws {A} `{!Serial A} : MessageLaws A.
Proof.
  constructor. intros m bytes [= <-]. cbn [parse_from_bytes serial_message].
  pose proof (get_put m []) as Hg. rewrite app_nil_r in Hg. by rewrite Hg.
Qed.

(** ** The messages of the examples *)
#[export] Instance serial_Failure : Serial Failure :=
  serial_via (λ m, (failure_code m, failure_message m)) (λ p, mkFailure p.1 p.2)
    (λ m, match m with mkFailure _ _ => eq_refl end).

#[export] Instance serial_ButtonRequest : Serial Messages.ButtonRequest :=
  serial_via (λ m, (br_code m, br_pages m)) (λ p, Messages.mkButtonRequest p.1 p.2)
    (λ m, match m with Messages.mkButtonRequest _ _ => eq_refl end).

#[export] Instance serial_PinMatrixRequest : Serial Messages.PinMatrixRequest :=
  serial_via pmr_type Messages.mkPinMatrixRequest
    (λ m, match m with Messages.mkPinMatrixRequest _ => eq_refl end).

#[export] Instance serial_PassphraseRequest : Serial Messages.PassphraseRequest :=
  serial_via pr_on_device Messages.mkPassphraseRequest
    (λ m, match m with Messages.mkPassphraseRequest _ => eq_refl end).

#[export] Instance serial_ButtonAck : Serial ButtonAck :=
  serial_via (λ _, tt) (λ _, mkButtonAck) (λ m, match m with mkButtonAck => eq_refl end).

#[export] Instance serial_PassphraseAck : Serial PassphraseAck :=
  serial_via (λ m, (pa_passphrase m, pa_state m, pa_on_device m))
    (λ p, mkPassphraseAck p.1.1 p.1.2 p.2) (λ m, match m with mkPassphraseAck _ _ _ => eq_refl end).

#[export] Instance serial_Ping : Serial Ping :=
  serial_via (λ m, (ping_message m, ping_button_protection m)) (λ p, mkPing p.1 p.2)
    (λ m, match m with mkPing _ _ => eq_refl end).

#[export] Instance serial_Success : Serial Success :=
  serial_via success_message mkSuccess (λ m, match m with mkSuccess _ => eq_refl end).

#[export] Instance serial_EthereumTxAck : Serial EthereumTxAck :=
  serial_via eta_data_chunk mkEthereumTxAck (λ m, match m with mkEthereumTxAck _ => eq_refl end).

#[export] Instance serial_EthereumTxRequest : Serial EthereumTxRequest :=
  serial_via
    (λ m, (etr_data_length m, etr_signature_v m, etr_signature_r m, etr_signature_s m))
    (λ '(l, v, r, s), mkEthereumTxRequest l v r s)
    (λ m, match m with mkEthereumTxRequest _ _ _ _ => eq_refl end).

#[export] Instance serial_EthereumDefinitions : Serial EthereumDefinitions :=
  serial_via (λ m, (ed_encoded_network m, ed_encoded_token m)) (λ p, mkEthereumDefinitions p.1 p.2)
    (λ m, match m with mkEthereumDefinitions _ _ => eq_refl end).

#[export] Instance serial_EthereumSignTx : Serial EthereumSignTx :=
  serial_via
    (λ m, (est_address_n m, est_nonce m, est_gas_price m, est_gas_limit m, est_to m, est_value m,
           est_data_initial_chunk m, est_data_length m, est_chain_id m, est_tx_type m,
           est_definitions m, est_chunkify m))
    (λ '(a, b, c, d, e, f, g, h, i, j, k, l), mkEthereumSignTx a b c d e f g h i j k l)
    (λ m, match m with mkEthereumSignTx _ _ _ _ _ _ _ _ _ _ _ _ => eq_refl end).

(** A message of the examples travels when it is short. *)
Lemma packs_serial {A} `{!Serial A, !TrezorMessage A} (m : A) n :
  Z.of_nat (length (put m)) = n → n < 2 ^ 32 →
  ∃ bytes, write_to_bytes m = Ok bytes ∧ Z.of_nat (length bytes) < 2 ^ 32.
Proof. intros Hn Hlt. exists (put m). split; [done|lia]. Qed.

(** ** Transports with a device that has its answers ready

    [scripted d sent script]: the messages [sent] went out, and [script] is
    what the device will answer. *)
Class Scripted (D : Type) `{!Transport D} := {
  scripted : D → list ProtoMessage → list ProtoMessage → Prop;
  scripted_write d sent script m :
    scripted d sent script → len (payload m) < 2 ^ 32 →
    ∃ d', write_message d m = Ok d' ∧ scripted d' (sent ++ [m]) script;
  scripted_read d sent script m :
    scripted d sent (m :: script) → ∃ d', read_message d = Ok (m, d') ∧ scripted d' sent script;
  scripted_end d sent : scripted d sent [] → ∃ e, read_message d = Err e;
}.

(** The chunks of several messages, one after the other. *)
Definition chunks_of (ms : list ProtoMessage) : list (list Z) := mjoin (v1_chunks <$> ms).

Abbreviation short := (λ m : ProtoMessage, len (payload m) < 2 ^ 32).

Definition wire_scripted (before : list (list Z)) (d : UdpTransport Wire)
    (sent script : list ProtoMessage) : Prop :=
  outgoing (link d) = before ++ chunks_of sent ∧ incoming (link d) = chunks_of script ∧
  Forall short script.

(** The emulator's transport over a link with the chunks of the answers, after
    some chunks that went out before. *)
#[export] Program Instance wire_scripted_laws before : Scripted (UdpTransport Wire) := {
  scripted := wire_scripted before;
}.
Next Obligation.
  intros before [w] sent script m (Hout & Hin & Hall) _. cbn [link] in *.
  cbn [write_message udp_transport]. rewrite v1_write_chunks. eexists. split; [done|].
  split; [|split]; cbn [link outgoing incoming]; [|done..].
  rewrite Hout. unfold chunks_of. rewrite fmap_app, join_app, app_assoc. cbn. by rewrite app_nil_r.
Qed.
Next Obligation.
  intros before [w] sent script m (Hout & Hin & Hall). cbn [link] in *. inversion_clear Hall.
  cbn [read_message udp_transport]. destruct w as [out inc]. cbn [outgoing incoming link] in *. subst.
  cbn [chunks_of fmap list_fmap mjoin list_join].
  rewrite v1_read_chunks; [|apply value_range|done]. cbn [mbind outcome_bind].
  eexists. by repeat split.
Qed.
Next Obligation.
  intros before [[out inc]] sent (Hout & Hin & _). cbn [link incoming outgoing] in *. subst.
  exists DeviceReadTimeout. done.
Qed.

(** ** Messages on the way *)
Section Packing.
Context `{Crates} {M : Type} `{!TrezorMessage M, !Message M}.

(** A message as it travels, and that it can: it is complete and not too large. *)
Definition pack (m : M) : ProtoMessage :=
  mkMessage (MESSAGE_TYPE M) (match write_to_bytes m with Ok bytes => bytes | _ => [] end).

Definition packs (m : M) : Prop :=
  ∃ bytes, write_to_bytes m = Ok bytes ∧ len bytes < 2 ^ 32.

Lemma packs_size m : packs m → len (payload (pack m)) < 2 ^ 32.
Proof. unfold pack, packs. intros (bytes & -> & ?). done. Qed.

Lemma unpack `{!MessageLaws M} m : packs m → into_message (pack m) = Ok m.
Proof. intros (bytes & Hb & _). unfold into_message, pack. rewrite Hb. by apply parse_written. Qed.
End Packing.

Section Conversations.
Context `{Crates} {D : Type} `{!Transport D, !Scripted D}.
Context `{!Message Failure, !Message Messages.ButtonRequest, !Message Messages.PinMatrixRequest,
  !Message Messages.PassphraseRequest, !Message ButtonAck, !Message PassphraseAck}.
Context `{!MessageLaws Failure, !MessageLaws Messages.ButtonRequest,
  !MessageLaws Messages.PinMatrixRequest, !MessageLaws Messages.PassphraseRequest}.
Context {T R : Type} `{!TrezorMessage R, !Message R, !MessageLaws R}.

(** What a device can ask for on the way, and how a conversation can end. *)
Inductive interaction :=
| AsksButton (m : Messages.ButtonRequest)
| AsksPassphrase (m : Messages.PassphraseRequest).

Inductive ending :=
| Answers (m : R)
| Fails (m : Failure)
| AsksPin (m : Messages.PinMatrixRequest)
| Says (m : ProtoMessage).

Definition interaction_message (i : interaction) : ProtoMessage :=
  match i with AsksButton m => pack m | AsksPassphrase m => pack m end.

Definition ending_message (e : ending) : ProtoMessage :=
  match e with Answers m => pack m | Fails m => pack m | AsksPin m => pack m | Says m => m end.

(** A button is acknowledged; a passphrase is to be entered on the device, unless
    it already is. *)
Definition acknowledgment (i : interaction) : ProtoMessage :=
  match i with
  | AsksButton _ => pack mkButtonAck
  | AsksPassphrase m =>
    pack (mkPassphraseAck None None (if default false (pr_on_device m) then None else Some true))
  end.

(** The message types with a meaning of their own. *)
Definition special_types : list MessageType :=
  [MESSAGE_TYPE R; MessageType_Failure; MessageType_ButtonRequest; MessageType_PinMatrixRequest;
   MessageType_PassphraseRequest].

Definition interaction_ok (i : interaction) : Prop :=
  match i with AsksButton m => packs m | AsksPassphrase m => packs m end ∧
  packs mkButtonAck ∧ (∀ o, packs (mkPassphraseAck None None o)).

Definition ending_ok (e : ending) : Prop :=
  match e with
  | Answers m => packs m
  | Fails m => packs m
  | AsksPin m => packs m
  | Says m => (message_type m : MessageType) ∉ special_types
  end.

(** The result of a conversation. *)
Definition conclude (e : ending) (handler : ResultHandler T R) (client : Trezor D)
    : cresult (T * Trezor D) :=
  match e with
  | Answers m => handler client m
  | Fails m => Err (FailureResponse m)
  | AsksPin _ => Err UnsupportedNetwork
  | Says m => Err (UnexpectedMessageType (message_type m))
  end.

(** The client over another state of its transport. *)
Definition over (client : Trezor D) (d : D) : Trezor D := mkTrezor (model client) (features client) d.

Lemma over_over client d1 d2 : over (over client d1) d2 = over client d2.
Proof. done. Qed.

Lemma call_raw_answered {S} `{!TrezorMessage S, !Message S} client (message : S) sent answer script :
  scripted (transport client) sent (answer :: script) → packs message →
  ∃ d, call_raw client message = Ok (answer, over client d) ∧ scripted d (sent ++ [pack message]) script.
Proof.
  intros Hs (bytes & Hb & Hl). unfold call_raw, pack. rewrite Hb. cbn [map_err mbind outcome_bind].
  destruct (scripted_write _ _ _ (@mkMessage generated_types (MESSAGE_TYPE S) bytes) Hs Hl) as (d1 & -> & Hs1).
  cbn [map_err mbind outcome_bind]. destruct (scripted_read _ _ _ _ Hs1) as (d2 & -> & Hs2).
  cbn [map_err mbind outcome_bind]. eauto.
Qed.

Lemma call_raw_silent {S} `{!TrezorMessage S, !Message S} client (message : S) sent :
  scripted (transport client) sent [] → packs message →
  ∃ e, call_raw client message = Err (TransportReceiveMessage e).
Proof.
  intros Hs (bytes & Hb & Hl). unfold call_raw. rewrite Hb. cbn [map_err mbind outcome_bind].
  destruct (scripted_write _ _ _ (@mkMessage generated_types (MESSAGE_TYPE S) bytes) Hs Hl) as (d1 & -> & Hs1).
  cbn [map_err mbind outcome_bind]. destruct (scripted_end _ _ Hs1) as (e & ->). by exists e.
Qed.

Hypothesis types_apart : NoDup special_types.

Lemma type_apart t :
  t ∈ [MessageType_Failure; MessageType_ButtonRequest; MessageType_PinMatrixRequest;
       MessageType_PassphraseRequest] → message_type_eqb t (MESSAGE_TYPE R) = false.
Proof.
  intros Ht. unfold special_types in types_apart. apply NoDup_cons in types_apart as [Hn _].
  destruct (message_type_eqb t (MESSAGE_TYPE R)) eqn:E; [|done].
  apply message_type_eqb_spec in E. by subst.
Qed.

(** One call, by what the device answers. *)
Lemma call_asked {S} `{!TrezorMessage S, !Message S} client (message : S) handler sent i script :
  scripted (transport client) sent (interaction_message i :: script) →
  packs message → interaction_ok i →
  ∃ d, scripted d (sent ++ [pack message]) script ∧
    call (T:=T) (R:=R) client message handler
    = Ok (match i with
          | AsksButton m => ResponseButton T R (mkButtonRequest T R m handler)
          | AsksPassphrase m => ResponsePassphrase T R (mkPassphraseRequest T R m handler)
          end, over client d).
Proof.
  intros Hs Hm (Hi & _). destruct (call_raw_answered client message _ _ _ Hs Hm) as (d & Hc & Hd).
  exists d. split; [done|]. unfold call. rewrite Hc. cbn [mbind outcome_bind].
  destruct i; cbn [interaction_message] in *; cbn [pack message_type];
    rewrite type_apart by set_solver; rewrite unpack by done; done.
Qed.

Lemma call_ended {S} `{!TrezorMessage S, !Message S} client (message : S) handler sent e script :
  scripted (transport client) sent (ending_message e :: script) →
  packs message → ending_ok e →
  ∃ d, scripted d (sent ++ [pack message]) script ∧ ∀ fuel, (0 < fuel)%nat →
    ('(resp, client) ← call (T:=T) (R:=R) client message handler;
     handle_interaction fuel resp client) = conclude e handler (over client d).
Proof.
  intros Hs Hm He. destruct (call_raw_answered client message _ _ _ Hs Hm) as (d & Hc & Hd).
  exists d. split; [done|]. intros [|fuel] Hf; [lia|]. unfold call. rewrite Hc. cbn [mbind outcome_bind].
  destruct e; cbn [ending_message ending_ok conclude] in *; cbn [pack message_type].
  - rewrite message_type_eqb_refl, unpack by done. cbn [map_err mbind outcome_bind].
    by destruct (handler _ _) as [[]| | |].
  - rewrite type_apart by set_solver. by rewrite unpack.
  - rewrite type_apart by set_solver. by rewrite unpack.
  - unfold special_types in He. destruct m as [t body]. cbn [message_type] in *.
    destruct (message_type_eqb t (MESSAGE_TYPE R)) eqn:E.
    { apply message_type_eqb_spec in E. set_solver. }
    destruct t; try done; exfalso; set_solver.
Qed.

Abbreviation run_call fuel client message handler :=
  ('(resp, client) ← call (T:=T) (R:=R) client message handler; handle_interaction fuel resp client)
  (only parsing).

(** The interactions come first, whatever happens in the end: [Last] relates the
    messages that were sent and the result. *)
Lemma interactions_first (Last : Trezor D → list ProtoMessage → cresult (T * Trezor D) → Prop)
    handler last asks :
  (∀ client d sent r, Last (over client d) sent r → Last client sent r) →
  (∀ S `{!TrezorMessage S, !Message S} client (message : S) sent fuel,
     scripted (transport client) sent last → packs message → (0 < fuel)%nat →
     Last client (sent ++ [pack message]) (run_call fuel client message handler)) →
  Forall interaction_ok asks →
  ∀ S `{!TrezorMessage S, !Message S} client (message : S) sent fuel,
    scripted (transport client) sent ((interaction_message <$> asks) ++ last) →
    packs message → (length asks < fuel)%nat →
    Last client (sent ++ pack message :: (acknowledgment <$> asks))
      (run_call fuel client message handler).
Proof.
  intros Hover Hlast. induction asks as [|i asks IH]; intros Hall S ?? client message sent fuel Hs Hm Hf.
  { by apply Hlast. }
  inversion_clear Hall as [|?? Hi Hrest]. destruct fuel as [|fuel]; [lia|]. simpl in Hf.
  destruct (call_asked client message handler sent i _ Hs Hm Hi) as (d & Hd & Hcall).
  destruct Hi as (_ & Hback & Hpack). rewrite Hcall. apply (Hover _ d). cbn [fmap list_fmap].
  rewrite cons_middle, app_assoc. destruct i as [m|m]; cbn [mbind outcome_bind handle_interaction].
  - apply (IH Hrest ButtonAck _ _ (over client d)); [done|done|lia].
  - unfold passphrase_ack, on_device. cbn [passphrase_handler passphrase_message acknowledgment].
    destruct (default false (pr_on_device m)); cbn [negb];
      (apply (IH Hrest PassphraseAck _ _ (over client d)); [done|done|lia]).
Qed.

(** A conversation that the device ends. *)
Lemma conversation_ends {S} `{!TrezorMessage S, !Message S} client (message : S) handler
    sent asks e script fuel :
  scripted (transport client) sent ((interaction_message <$> asks) ++ ending_message e :: script) →
  packs message → Forall interaction_ok asks → ending_ok e → (length asks < fuel)%nat →
  ∃ d, scripted d (sent ++ pack message :: (acknowledgment <$> asks)) script ∧
    run_call fuel client message handler = conclude e handler (over client d).
Proof.
  intros Hs Hm Hall He Hf.
  apply (interactions_first (λ client sent r, ∃ d, scripted d sent script ∧
    r = conclude e handler (over client d)) handler (ending_message e :: script)); [|..|done|done|done|done].
  - naive_solver.
  - clear -He types_apart MessageLaws0 MessageLaws1 MessageLaws2 MessageLaws3 MessageLaws4.
    intros S ?? client message sent fuel Hs Hm Hf.
    destruct (call_ended client message handler sent e script Hs Hm He) as (d & Hd & Hrun).
    exists d. auto.
Qed.

(** A conversation in which the device falls silent. *)
Lemma conversation_silent {S} `{!TrezorMessage S, !Message S} client (message : S) handler
    sent asks fuel :
  scripted (transport client) sent (interaction_message <$> asks) →
  packs message → Forall interaction_ok asks → (length asks < fuel)%nat →
  ∃ e, run_call fuel client message handler = Err (TransportReceiveMessage e).
Proof.
  intros Hs Hm Hall Hf.
  apply (interactions_first (λ _ _ r, ∃ e, r = Err (TransportReceiveMessage e)) handler [] asks)
    with (sent := sent); [|..|done|by rewrite app_nil_r|done|done].
  - done.
  - clear. intros S ?? client message sent fuel Hs Hm Hf.
    destruct (call_raw_silent client message sent Hs Hm) as (e & He). exists e.
    unfold call. by rewrite He.
Qed.
End Conversations.

(** ** Properties *)
Section OnTheWire.
Context `{Crates}.
Context `{!Message Failure, !Message Messages.ButtonRequest, !Message Messages.PinMatrixRequest,
  !Message Messages.PassphraseRequest, !Message ButtonAck, !Message PassphraseAck}.
Context `{!MessageLaws Failure, !MessageLaws Messages.ButtonRequest,
  !MessageLaws Messages.PinMatrixRequest, !MessageLaws Messages.PassphraseRequest}.

(** A client of the emulator, before a conversation and after one. *)
Definition client_over (m : Model) (f : option Features) (w : Wire) : Trezor (UdpTransport Wire) :=
  mkTrezor m f (mkUdpTransport w).

Lemma wire_scripted_is before d sent script :
  wire_scripted before d sent script →
  d = mkUdpTransport (mkWire (before ++ chunks_of sent) (chunks_of script)).
Proof. destruct d as [[out inc]]. intros (Ho & Hi & _). cbn [link outgoing incoming] in *. by subst. Qed.

Lemma interactions_short asks :
  Forall interaction_ok asks → Forall short (interaction_message <$> asks).
Proof.
  intros Ha. apply Forall_fmap. eapply Forall_impl; [exact Ha|].
  intros [m|m] (Hm & _); by apply packs_size.
Qed.

Lemma wire_script w asks script :
  Forall interaction_ok asks → Forall short script →
  incoming w = chunks_of ((interaction_message <$> asks) ++ script) →
  wire_scripted (outgoing w) (mkUdpTransport w) [] ((interaction_message <$> asks) ++ script).
Proof.
  intros Ha Hs Hin. split; [by rewrite app_nil_r|]. split; [done|].
  apply Forall_app. split; [by apply interactions_short|done].
Qed.

(** C11. A call and the interactions after it, with messages cut into chunks on a
    link: when the device asks any number of times for a button or a passphrase
    and then ends the conversation, the client has sent the request and one
    acknowledgment for each question, asking for the passphrase to be entered
    on the device unless it is; it has taken from the link just the chunks that
    it was answered with, and the result is by how the device ended: the
    handler's on the answer, the device's failure, an unsupported network for
    a PIN, and an unexpected message for any other; when the device falls
    silent instead, a transport error comes back.  One turn for each question
    and one more are enough. *)
Theorem wire_conversation {T S R} `{!TrezorMessage S, !Message S, !TrezorMessage R, !Message R,
    !MessageLaws R} mo fe (w : Wire) (message : S) (handler : ResultHandler T R)
    (asks : list interaction) (last : option (ending (R:=R) * list ProtoMessage)) fuel :
  let script := match last with Some (e, rest) => ending_message e :: rest | None => [] end in
  NoDup (special_types (R:=R)) → packs message → Forall interaction_ok asks → Forall short script →
  match last with Some (e, _) => ending_ok e | None => True end →
  incoming w = chunks_of ((interaction_message <$> asks) ++ script) →
  (length asks < fuel)%nat →
  let run := ('(resp, client) ← call (client_over mo fe w) message handler;
              handle_interaction fuel resp client) in
  match last with
  | Some (e, rest) =>
    run = conclude e handler (client_over mo fe
            (mkWire (outgoing w ++ chunks_of (pack message :: (acknowledgment <$> asks)))
                    (chunks_of rest)))
  | None => ∃ e, run = Err (TransportReceiveMessage e)
  end.
Proof.
  intros script Hd Hm Ha Hs He Hin Hf run. subst run.
  pose proof (wire_script w asks script Ha Hs Hin) as Hw.
  destruct last as [[e rest]|]; subst script.
  - destruct (conversation_ends Hd (Scripted0 := wire_scripted_laws (outgoing w))
      (client_over mo fe w) message handler [] asks e rest fuel) as (d & Hd' & Hrun); [done..|].
    rewrite Hrun. apply wire_scripted_is in Hd'. unfold over. by rewrite Hd'.
  - rewrite app_nil_r in Hw.
    by apply (conversation_silent Hd (Scripted0 := wire_scripted_laws (outgoing w))
      (client_over mo fe w) message handler [] asks fuel).
Qed.
End OnTheWire.

(** A ping to a device that wants a button pressed and a passphrase. *)
Definition sample_ping : Ping := mkPing (Some [104; 105]) (Some true).
Definition sample_asks : list interaction :=
  [AsksButton (Messages.mkButtonRequest (Some 1) None);
   AsksPassphrase (Messages.mkPassphraseRequest None)].
Definition sample_end : ending (R:=Success) := Answers (mkSuccess (Some [104; 105])).
Definition sample_wire : Wire :=
  mkWire [] (chunks_of ((interaction_message <$> sample_asks) ++ [ending_message sample_end])).

Lemma wire_conversation_witness :
  ('(resp, client) ← call (client_over TrezorEmulator None sample_wire) sample_ping
                       (handle_unit (R:=Success));
   handle_interaction 3 resp client)
  = Ok (tt, client_over TrezorEmulator None
         (mkWire (chunks_of [pack sample_ping; pack mkButtonAck;
                             pack (mkPassphraseAck None None (Some true))]) [])).
Proof.
  apply (wire_conversation TrezorEmulator None sample_wire sample_ping handle_unit sample_asks
    (Some (sample_end, [])) 3).
  - apply (bool_decide_unpack _). vm_compute. exact I.
  - by eapply packs_serial.
  - repeat constructor; first [by eapply packs_serial|intros o; destruct o; by eapply packs_serial].
  - by repeat constructor.
  - by eapply packs_serial.
  - done.
  - simpl. lia.
Defined.
