(* ===== verification/EthereumSpec.v ===== *)
(** * What signing for Ethereum sends and returns

    The data of a transaction goes out in order and without a gap, however
    often the device asks, and the signature is the device's. *)
From S2P Require Import Prelude Transport.
From S2P Require Import MessageTypes Messages Client Commands.
From S2P Require Import ClientSpec.
Local Open Scope Z_scope.

(** ** The pieces of the data *)
Fixpoint pieces (n : nat) (data : list Z) : list (list Z) :=
  match n with
  | O => []
  | S n => take 1024 data :: pieces n (drop 1024 data)
  end.

Lemma next_chunk_eq data : next_chunk data = (take 1024 data, drop 1024 data).
Proof.
  unfold next_chunk. destruct (Nat.min_spec 1024 (length data)) as [[? ->]|[? ->]]; [done|].
  by rewrite !take_ge, !drop_ge by lia.
Qed.

Lemma pieces_join n data : mjoin (pieces n data) = take (1024 * n) data.
Proof.
  revert data; induction n as [|n IH]; intros data; [done|]. cbn [pieces mjoin list_join].
  rewrite IH. replace (1024 * S n)%nat with (1024 + 1024 * n)%nat by lia. by rewrite <- take_take_drop.
Qed.

Lemma pieces_length n data : length (pieces n data) = n.
Proof. revert data; induction n as [|n IH]; intros data; [done|]. simpl. by rewrite IH. Qed.

Lemma pieces_size n data : Forall (λ c, len c <= 1024) (pieces n data).
Proof.
  revert data; induction n as [|n IH]; intros data; constructor; [|apply IH].
  rewrite length_take. lia.
Qed.

(** A device that has a transaction to sign asks for data, or has done so. *)
Definition wants_data (req : EthereumTxRequest) : Prop := 0 < default 0 (etr_data_length req).

Section Signing.
Context `{Crates} {D : Type} `{!Transport D, !Scripted D}.
Context `{!Message Failure, !Message Messages.ButtonRequest, !Message Messages.PinMatrixRequest,
  !Message Messages.PassphraseRequest, !Message ButtonAck, !Message PassphraseAck,
  !Message EthereumTxRequest, !Message EthereumTxAck}.
Context `{!MessageLaws Failure, !MessageLaws Messages.ButtonRequest,
  !MessageLaws Messages.PinMatrixRequest, !MessageLaws Messages.PassphraseRequest,
  !MessageLaws EthereumTxRequest}.

Definition ack_chunk (chunk : list Z) : EthereumTxAck := mkEthereumTxAck (Some chunk).

Hypothesis acks_pack : ∀ chunk, len chunk <= 1024 → packs (ack_chunk chunk).

(** A call that is answered with what it expects. *)
Lemma call_answers {T S R} `{!TrezorMessage S, !Message S, !TrezorMessage R, !Message R,
    !MessageLaws R} client (message : S) (handler : ResultHandler T R) sent m script :
  scripted (transport client) sent (pack m :: script) → packs message → packs m →
  ∃ d, scripted d (sent ++ [pack message]) script ∧
    call client message handler
    = ('(r, client) ← handler (over client d) m; Ok (ResponseOk T R r, client)).
Proof.
  intros Hs Hm Hr. destruct (call_raw_answered client message _ _ _ Hs Hm) as (d & Hc & Hd).
  exists d. split; [done|]. unfold call. rewrite Hc. cbn [mbind outcome_bind pack message_type].
  by rewrite message_type_eqb_refl, unpack.
Qed.

(** The loop: a piece for each request, until the device asks for nothing. *)
Lemma send_data_run reqs final client resp data sent script fuel :
  scripted (transport client) sent ((pack <$> tail (resp :: reqs ++ [final])) ++ script) →
  Forall wants_data (resp :: reqs) → ¬ wants_data final →
  Forall packs (reqs ++ [final]) → (S (length reqs) < fuel)%nat →
  ∃ d, scripted d (sent ++ (pack ∘ ack_chunk <$> pieces (S (length reqs)) data)) script ∧
    send_data fuel client resp data = Ok (final, over client d).
Proof.
  revert client resp data sent fuel; induction reqs as [|req reqs IH];
    intros client resp data sent fuel Hs Hw Hn Hp Hf; (destruct fuel as [|fuel]; [lia|]);
    inversion_clear Hw as [|?? Hresp Hreqs]; inversion_clear Hp as [|?? Hreq Hrest];
    cbn [tail app fmap list_fmap] in Hs; cbn [send_data]; rewrite next_chunk_eq;
    unfold wants_data in Hresp; (destruct (Z.ltb_spec 0 (default 0 (etr_data_length resp))); [|lia]);
    fold (ack_chunk (take 1024 data));
    (edestruct (call_answers client (ack_chunk (take 1024 data))
       (handle_message (R:=EthereumTxRequest))) as (d & Hd & ->);
     [exact Hs|apply acks_pack; rewrite length_take; lia|done|]); cbn [handle_message mbind outcome_bind response_ok].
  - exists d. split; [done|]. destruct fuel as [|fuel]; [simpl in Hf; lia|]. cbn [send_data].
    unfold wants_data in Hn. by destruct (Z.ltb_spec 0 (default 0 (etr_data_length final))).
  - destruct (IH (over client d) req (drop 1024 data) _ fuel Hd Hreqs Hn Hrest) as (d' & Hd' & ->).
    { simpl in Hf. lia. }
    exists d'. split; [|done]. rewrite <- app_assoc in Hd'. exact Hd'.
Qed.

Lemma tx_request_apart : NoDup (special_types (R:=EthereumTxRequest)).
Proof. apply (bool_decide_unpack _). vm_compute. exact I. Qed.

Lemma sign_with_run {S} `{!TrezorMessage S, !Message S} client (req : S) sent asks reqs final script
    data chain_id fuel :
  scripted (transport client) sent
    ((interaction_message <$> asks) ++ (pack <$> (reqs ++ [final])) ++ script) →
  packs req → Forall interaction_ok asks → Forall wants_data reqs → ¬ wants_data final →
  Forall packs (reqs ++ [final]) → (length asks < fuel)%nat → (length reqs < fuel)%nat →
  ∃ d, scripted d (sent ++ pack req :: (acknowledgment <$> asks)
                     ++ (pack ∘ ack_chunk <$> pieces (length reqs) data)) script ∧
    sign_with fuel client req data chain_id
    = (signature ← convert_signature final chain_id; Ok (signature, over client d)).
Proof.
  intros Hs Hm Ha Hw Hn Hp Hf Hf'.
  assert (∃ first more, reqs ++ [final] = first :: more) as (first & more & Hmore)
    by (destruct reqs; eauto).
  rewrite Hmore in Hs. cbn [fmap list_fmap app] in Hs.
  assert (packs first) as Hfirst by (rewrite Hmore in Hp; by inversion Hp).
  destruct (conversation_ends tx_request_apart client req handle_message sent asks (Answers first) _ fuel
    Hs Hm Ha Hfirst Hf) as (d & Hd & Hrun).
  unfold sign_with. destruct (call client req _) as [[resp c]|?| |]; try done.
  cbn [mbind outcome_bind] in Hrun |- *. rewrite Hrun. cbn [conclude handle_message mbind outcome_bind].
  destruct reqs as [|req1 reqs]; cbn [app] in Hmore; injection Hmore as Hfst Hmore; subst more.
  - exists d. split; [by rewrite app_nil_r|]. destruct fuel as [|fuel]; [lia|]. cbn [send_data].
    rewrite <- Hfst in *. unfold wants_data in Hn.
    by destruct (Z.ltb_spec 0 (default 0 (etr_data_length final))).
  - rewrite <- Hfst in *. inversion_clear Hp as [|?? _ Hp'].
    destruct (send_data_run reqs final (over client d) req1 data _ script fuel Hd Hw Hn Hp')
      as (d' & Hd' & ->); [simpl in Hf'; lia|].
    exists d'. split; [|done]. rewrite <- app_assoc in Hd'. exact Hd'.
Qed.
End Signing.

(** ** Signatures *)
Section Signatures.
Context `{Crates}.

Definition field32 (o : option (list Z)) : Prop := ∃ l, o = Some l ∧ len l = 32.

Lemma bytes32_field o e : bytes32 (default [] o) = Some e ↔ o = Some e ∧ len e = 32.
Proof.
  unfold bytes32. destruct o as [l|]; simpl; [|split; [done|by intros [? _]]].
  destruct (Z.eqb_spec (len l) 32); split; [by intros [= <-]|by intros [[= <-] _]|done|].
  by intros [[= <-] ?].
Qed.

(** What is in a signature: the halves as the device gives them, and the
    device's number, to which the chain is added when it is a parity. *)
Lemma convert_signature_fields resp chain sig :
  convert_signature resp chain = Ok sig →
  let parity := default 0 (etr_signature_v resp) in
  etr_signature_r resp = Some (r sig) ∧ etr_signature_s resp = Some (s sig) ∧
  v sig = match chain with
          | Some chain => if parity <=? 1 then (parity + 2 * chain + 35) `mod` 2 ^ 64 else parity
          | None => parity
          end.
Proof.
  intros Hc. apply bind_Ok in Hc as (r' & Hr & Hc). apply bind_Ok in Hc as (s' & Hs & [= <-]).
  apply ok_or_Ok, bytes32_field in Hr as [Hr _], Hs as [Hs _]. done.
Qed.

(** A signature that a device with a parity of 0 or 1 gives is numbered by the
    chain: both can be read off. *)
Lemma convert_signature_chain resp chain sig :
  convert_signature resp (Some chain) = Ok sig →
  let parity := default 0 (etr_signature_v resp) in
  0 <= parity <= 1 → 0 <= chain → parity + 2 * chain + 35 < 2 ^ 64 →
  (v sig - 35) / 2 = chain ∧ (v sig - 35) `mod` 2 = parity.
Proof.
  intros Hc parity Hp Hr Hmax. apply convert_signature_fields in Hc as (_ & _ & ->). fold parity.
  destruct (Z.leb_spec parity 1); [|lia]. rewrite Z.mod_small by lia.
  replace (parity + 2 * chain + 35 - 35) with (parity + chain * 2) by lia.
  rewrite Z.div_add, Z.mod_add by lia. rewrite Z.div_small, Z.mod_small by lia. lia.
Qed.

(** Beyond, the number wraps around, and reads as that of another chain. *)
Lemma convert_signature_wraps resp :
  field32 (etr_signature_r resp) → field32 (etr_signature_s resp) → etr_signature_v resp = Some 0 →
  convert_signature resp (Some (2 ^ 63)) = convert_signature resp (Some 0).
Proof. intros (r' & Hr & _) (s' & Hs & _) Hv. unfold convert_signature. by rewrite Hv. Qed.

Lemma convert_signature_Ok resp chain :
  (∃ sig, convert_signature resp chain = Ok sig) ↔
  field32 (etr_signature_r resp) ∧ field32 (etr_signature_s resp).
Proof.
  unfold convert_signature, field32. split.
  - intros [sig Hs]. apply bind_Ok in Hs as (r' & Hr & Hs). apply bind_Ok in Hs as (s' & Hs & _).
    apply ok_or_Ok, bytes32_field in Hr, Hs. eauto.
  - intros [Hr Hs]. destruct Hr as (r' & Hr). destruct Hs as (s' & Hs).
    apply bytes32_field in Hr as ->. apply bytes32_field in Hs as ->. by eexists.
Qed.
End Signatures.

(** ** Properties *)

(** C12. Signing a transaction, with messages cut into chunks on a link: when the
    device, after any interactions, asks any number of times for data and then
    answers with a signature, the request holds the length and at most 1024
    bytes at the front of the data, every further piece the next 1024 bytes or
    what is left of them, so that all of them in order are the data as far as
    it was asked for; nothing else is sent, the answers are taken from the
    link, and the result is the signature of the last answer.  It is an error
    just when one of its halves is not of 32 bytes.  Otherwise the result has
    these halves and the number of the last answer, to which, when it is a
    parity of 0 or 1 and a chain is given, twice the chain number and 35 are
    added modulo 2^64; both can be read off the result when that sum is below
    2^64, which it is for every chain number up to 2^63 - 19. *)
Theorem ethereum_sign_sends `{Crates}
    `{!Message Failure, !Message Messages.ButtonRequest, !Message Messages.PinMatrixRequest,
      !Message Messages.PassphraseRequest, !Message ButtonAck, !Message PassphraseAck,
      !Message EthereumTxRequest, !Message EthereumTxAck, !Message EthereumSignTx}
    `{!MessageLaws Failure, !MessageLaws Messages.ButtonRequest,
      !MessageLaws Messages.PinMatrixRequest, !MessageLaws Messages.PassphraseRequest,
      !MessageLaws EthereumTxRequest}
    mo fe (w : Wire) path nonce gas_price gas_limit to value data chain_id
    asks reqs final rest fuel :
  let request := sign_tx_request path nonce gas_price gas_limit to value data chain_id in
  (∀ chunk, len chunk <= 1024 → packs (ack_chunk chunk)) → packs request →
  Forall interaction_ok asks → Forall wants_data reqs → ¬ wants_data final →
  Forall packs (reqs ++ [final]) → Forall short rest →
  incoming w = chunks_of ((interaction_message <$> asks) ++ (pack <$> (reqs ++ [final])) ++ rest) →
  (length asks < fuel)%nat → (length reqs < fuel)%nat →
  ∃ cs, length cs = length reqs ∧ Forall (λ c, len c <= 1024) cs ∧
    default [] (est_data_initial_chunk request) ++ mjoin cs = take (1024 * S (length reqs)) data ∧
    est_data_length request = Some (len data `mod` 2 ^ 32) ∧
    ethereum_sign_tx fuel (client_over mo fe w) path nonce gas_price gas_limit to value data chain_id
    = (signature ← convert_signature final chain_id;
       Ok (signature, client_over mo fe
             (mkWire (outgoing w ++ chunks_of (pack request :: (acknowledgment <$> asks)
                                                 ++ (pack ∘ ack_chunk <$> cs)))
                     (chunks_of rest)))) ∧
    ((∃ signature, convert_signature final chain_id = Ok signature) ↔
       field32 (etr_signature_r final) ∧ field32 (etr_signature_s final)) ∧
    (∀ signature, convert_signature final chain_id = Ok signature →
       let parity := default 0 (etr_signature_v final) in
       etr_signature_r final = Some (r signature) ∧ etr_signature_s final = Some (s signature) ∧
       v signature = match chain_id with
                     | Some chain =>
                       if parity <=? 1 then (parity + 2 * chain + 35) `mod` 2 ^ 64 else parity
                     | None => parity
                     end ∧
       ∀ chain, chain_id = Some chain → 0 <= chain → 0 <= parity <= 1 →
         parity + 2 * chain + 35 < 2 ^ 64 →
         (v signature - 35) / 2 = chain ∧ (v signature - 35) `mod` 2 = parity).
Proof.
  intros request Hacks Hreq Ha Hw Hn Hp Hr Hin Hf Hf'.
  exists (pieces (length reqs) (drop 1024 data)).
  split; [apply pieces_length|]. split; [apply pieces_size|].
  split.
  { cbn [request sign_tx_request est_data_initial_chunk default]. rewrite next_chunk_eq, pieces_join.
    cbn [fst]. replace (1024 * S (length reqs))%nat with (1024 + 1024 * length reqs)%nat by lia.
    by rewrite <- take_take_drop. }
  split; [done|]. split.
  - pose proof (wire_script w asks ((pack <$> (reqs ++ [final])) ++ rest) Ha) as Hs.
    destruct (sign_with_run (Scripted0 := wire_scripted_laws (outgoing w)) Hacks (client_over mo fe w)
      request [] asks reqs final rest (drop 1024 data) chain_id fuel) as (d & Hd & Hrun); try done.
    { apply Hs; [|done]. apply Forall_app. split; [|done]. apply Forall_fmap.
      eapply Forall_impl; [exact Hp|]. intros; by apply packs_size. }
    unfold ethereum_sign_tx. fold request. rewrite next_chunk_eq. cbn [snd]. rewrite Hrun.
    apply wire_scripted_is in Hd as ->. done.
  - split; [apply convert_signature_Ok|].
    intros signature Hok parity.
    destruct (convert_signature_fields _ _ _ Hok) as (Hr' & Hs' & Hv').
    split; [done|]. split; [done|]. split; [done|]. intros chain -> Hc Hv Hmax.
    by apply (convert_signature_chain final).
Qed.

(** Signing with the fees of EIP 1559 sends the data in the same way. *)
Lemma ethereum_sign_eip1559_sends `{Crates}
    `{!Message Failure, !Message Messages.ButtonRequest, !Message Messages.PinMatrixRequest,
      !Message Messages.PassphraseRequest, !Message ButtonAck, !Message PassphraseAck,
      !Message EthereumTxRequest, !Message EthereumTxAck, !Message EthereumSignTxEIP1559}
    `{!MessageLaws Failure, !MessageLaws Messages.ButtonRequest,
      !MessageLaws Messages.PinMatrixRequest, !MessageLaws Messages.PassphraseRequest,
      !MessageLaws EthereumTxRequest} `{!Transport D, !Scripted D}
    (client : Trezor D) sent path nonce gas_limit to value data chain_id fee priority access
    asks reqs final script fuel :
  let request := sign_eip1559_request path nonce gas_limit to value data chain_id fee priority access in
  (∀ chunk, len chunk <= 1024 → packs (ack_chunk chunk)) → packs request →
  scripted (transport client) sent
    ((interaction_message <$> asks) ++ (pack <$> (reqs ++ [final])) ++ script) →
  Forall interaction_ok asks → Forall wants_data reqs → ¬ wants_data final →
  Forall packs (reqs ++ [final]) → (length asks < fuel)%nat → (length reqs < fuel)%nat →
  ∃ d, scripted d (sent ++ pack request :: (acknowledgment <$> asks)
                     ++ (pack ∘ ack_chunk <$> pieces (length reqs) (drop 1024 data))) script ∧
    ethereum_sign_eip1559_tx fuel client path nonce gas_limit to value data chain_id fee priority access
    = (signature ← convert_signature final chain_id; Ok (signature, over client d)).
Proof.
  intros request Hacks Hreq Hs Ha Hw Hn Hp Hf Hf'. unfold ethereum_sign_eip1559_tx.
  rewrite next_chunk_eq. by apply sign_with_run.
Qed.

(** 1100 bytes for chain 1, to a device that wants a button pressed first. *)
Definition sample_data : list Z := repeat 7 1100.
Definition sample_confirm : list interaction := [AsksButton (Messages.mkButtonRequest (Some 8) None)].
Definition sample_more : EthereumTxRequest := mkEthereumTxRequest (Some 76) None None None.
Definition sample_signed : EthereumTxRequest :=
  mkEthereumTxRequest None (Some 1) (Some (repeat 5 32)) (Some (repeat 6 32)).
Definition sample_eth_wire : Wire :=
  mkWire [] (chunks_of ((interaction_message <$> sample_confirm)
                          ++ (pack <$> [sample_more; sample_signed]) ++ [])).

Lemma ethereum_sign_sends_witness :
  ∃ cs w', length cs = 1%nat ∧ take 1024 sample_data ++ mjoin cs = sample_data ∧
    ethereum_sign_tx 2 (client_over TrezorEmulator None sample_eth_wire) [44] [1] [2] [3] [52] [4]
      sample_data (Some 1)
    = Ok (mkSignature (repeat 5 32) (repeat 6 32) 38, client_over TrezorEmulator None w').
Proof.
  destruct (ethereum_sign_sends TrezorEmulator None sample_eth_wire [44] [1] [2] [3] [52] [4]
    sample_data (Some 1) sample_confirm [sample_more] sample_signed [] 2)
    as (cs & Hlen & _ & Hjoin & _ & Hrun & _).
  - intros chunk Hc. exists (1 :: put chunk). split; [done|]. cbn [length].
    rewrite put_bytes_length. lia.
  - by eapply packs_serial.
  - repeat constructor; first [by eapply packs_serial|intros o; destruct o; by eapply packs_serial].
  - by repeat constructor.
  - done.
  - repeat constructor; by eapply packs_serial.
  - constructor.
  - done.
  - simpl; lia.
  - simpl; lia.
  - exists cs. eexists. split; [done|]. split; [exact Hjoin|exact Hrun].
Defined.
