(* ===== verification/Bitcoin.v ===== *)
(** * Signing for Bitcoin

    [trezor-client/src/flows/sign_tx.rs], [client/bitcoin.rs] and [utils.rs]:
    the device asks for the parts of a transaction and of the ones that it
    spends, and the client answers from a PSBT.  The [bitcoin] crate is a
    parameter: its types by the fields and methods that are used, hashes by
    their bytes. *)
From stdpp Require Import pretty.
From Stdlib Require Import Ascii String.
From S2P Require Import Prelude Transport.
From S2P Require Import MessageTypes Messages Client Commands.
Local Open Scope Z_scope.

Class Bitcoin `{Crates} := {
  Script : Type;
  is_p2pkh : Script → bool; is_p2wpkh : Script → bool; is_p2wsh : Script → bool;
  is_p2sh : Script → bool; is_op_return : Script → bool;
  as_bytes : Script → list Z;
  TxIn : Type;
  txid : TxIn → list Z; vout : TxIn → Z; script_sig : TxIn → list Z; sequence : TxIn → Z;
  TxOut : Type;
  to_sat : TxOut → Z; script_pubkey : TxOut → Script;
  Transaction : Type;
  version : Transaction → Z; lock_time : Transaction → Z;
  input : Transaction → list TxIn; output : Transaction → list TxOut;
  PsbtInput : Type;
  witness_utxo : PsbtInput → option TxOut; non_witness_utxo : PsbtInput → option Transaction;
  input_derivation : PsbtInput → list (list Z); input_witness_script : PsbtInput → option Script;
  PsbtOutput : Type;
  output_derivation : PsbtOutput → list (list Z);
  output_witness_script : PsbtOutput → option Script;
  output_redeem_script : PsbtOutput → option Script;
  Psbt : Type;
  unsigned_tx : Psbt → Transaction; inputs : Psbt → list PsbtInput; outputs : Psbt → list PsbtOutput;
  Network : Type;
  is_bitcoin : Network → bool; is_testnet : Network → bool;
  Payload : Type; BtcAddress : Type;
  payload_from_script : Script → option Payload; address_new : Network → Payload → BtcAddress;
  address_to_string : BtcAddress → list Z; address_parse : list Z → outcome AddressError BtcAddress;
  Xpub : Type; xpub_parse : list Z → outcome Bip32Error Xpub;
  RecoveryId : Type; RecoverableSignature : Type;
  InvalidSignature : Secp256k1Error;
  recovery_from_i32 : Z → outcome Secp256k1Error RecoveryId;
  from_compact : list Z → RecoveryId → outcome Secp256k1Error RecoverableSignature;
  is_nfc_quick : list Z → bool; nfc : list Z → list Z;
}.

(** The documented facts that the client relies on: transactions are named by
    hashes of 32 bytes, and a script that returns data starts with an opcode. *)
Class BitcoinLaws `{Bitcoin} := {
  txid_size i : len (txid i) = 32;
  op_return_opcode s : is_op_return s = true → 1 <= len (as_bytes s);
}.

(** A text as its bytes. *)
Definition text (s : string) : list Z := (λ c, Z.of_N (N_of_ascii c)) <$> list_ascii_of_string s.

Section Utils.
Context `{Bitcoin}.

(* src: rust/trezor-client/src/utils.rs 13-17 (address_from_script) *)
Definition address_from_script (script : Script) (network : Network) : option BtcAddress :=
  payload ← payload_from_script script; Some (address_new network payload).

(** [Iterator::position]. *)
Fixpoint position {A} (p : A → bool) (l : list A) : option nat :=
  match l with
  | [] => None
  | x :: l => if p x then Some O else S <$> position p l
  end.

(* src: rust/trezor-client/src/utils.rs 19-27 (psbt_find_input) *)
Definition psbt_find_input (psbt : Psbt) (hash : list Z) : cresult PsbtInput :=
  idx ← ok_or (position (λ tx, bool_decide (txid tx = hash)) (input (unsigned_tx psbt)))
    (TxRequestUnknownTxid hash);
  ok_or (inputs psbt !! idx) (TxRequestInvalidIndex (Z.of_nat idx)).

(** [Hash::from_slice] wants 32 bytes. *)
(* src: rust/trezor-client/src/utils.rs 29-34 (from_rev_bytes) *)
Definition from_rev_bytes (rev_bytes : list Z) : option (list Z) :=
  let bytes := reverse rev_bytes in
  if len bytes =? 32 then Some bytes else None.

(* src: rust/trezor-client/src/utils.rs 36-41 (to_rev_bytes) *)
Definition to_rev_bytes (hash : list Z) : list Z := reverse hash.

(** The subtraction wraps around in a byte. *)
(* src: rust/trezor-client/src/utils.rs 43-59 (parse_recoverable_signature) *)
Definition parse_recoverable_signature (sig : list Z)
    : outcome Secp256k1Error RecoverableSignature :=
  if negb (len sig =? 65) then Err InvalidSignature else
  sig0 ← or_panic (getZ sig 0);
  rec_id ← recovery_from_i32 (if 31 <=? sig0 then sig0 - 31 else wrapu 8 (sig0 - 27));
  rest ← or_panic (slice sig 1 (len sig));
  from_compact rest rec_id.

(* src: rust/trezor-client/src/utils.rs 61-68 (coin_name) *)
Definition coin_name (network : Network) : cresult (list Z) :=
  if is_bitcoin network then Ok (text "Bitcoin")
  else if is_testnet network then Ok (text "Testnet")
  else Err UnsupportedNetwork.
End Utils.

(** ** The parts of a transaction *)
Section Acks.
Context `{Bitcoin}.
Implicit Types (req : TxRequest) (psbt : Psbt).

(** A sub-message that is not set reads as an empty one. *)
Definition no_details : TxRequestDetailsType := mkTxRequestDetailsType None None None None.
Definition details req : TxRequestDetailsType := default no_details (tr_details req).
Definition request_index req : Z := default 0 (trdt_request_index (details req)).

(* src: rust/trezor-client/src/flows/sign_tx.rs 24-26 (ack_input_request) *)
Definition no_index req : bool :=
  bool_decide (tr_details req = None) || bool_decide (trdt_request_index (details req) = None).

(** The transaction of an input that spends it. *)
(* src: rust/trezor-client/src/flows/sign_tx.rs 195-201 (ack_meta_request) *)
Definition dependent_tx req psbt (tx_hash : list Z) : cresult Transaction :=
  req_hash ← ok_or (from_rev_bytes tx_hash) (MalformedTxRequest req);
  inp ← psbt_find_input psbt req_hash;
  ok_or (non_witness_utxo inp) (PsbtMissingInputTx req_hash).

(* src: rust/trezor-client/src/flows/sign_tx.rs 30-42 (ack_input_request) *)
Definition requested_input req psbt : cresult TxIn :=
  let input_index := request_index req in
  match trdt_tx_hash (details req) with
  | Some tx_hash =>
    tx ← dependent_tx req psbt tx_hash;
    ok_or (getZ (input tx) input_index) (TxRequestInvalidIndex input_index)
  | None => ok_or (getZ (input (unsigned_tx psbt)) input_index) (TxRequestInvalidIndex input_index)
  end.

(* src: rust/trezor-client/src/flows/sign_tx.rs 58-68 (ack_input_request) *)
Definition spent_output (psbt_input : PsbtInput) (vout input_index : Z) : cresult TxOut :=
  match witness_utxo psbt_input with
  | Some txout => Ok txout
  | None =>
    match non_witness_utxo psbt_input with
    | Some tx =>
      ok_or (getZ (output tx) vout)
        (InvalidPsbt (text ("invalid utxo for PSBT input " +:+ pretty input_index)))
    | None => Err (InvalidPsbt (text ("no utxo for PSBT input " +:+ pretty input_index)))
    end
  end.

(** The one key path, if there is exactly one. *)
(* src: rust/trezor-client/src/flows/sign_tx.rs 70-74 (ack_input_request) *)
Definition only_path (derivation : list (list Z)) : list Z :=
  match derivation with [path] => path | _ => [] end.

(* src: rust/trezor-client/src/flows/sign_tx.rs 76-90 (ack_input_request) *)
Definition script_type_of (script_pubkey : Script) (psbt_input : PsbtInput) : InputScriptType :=
  if is_p2pkh script_pubkey then SPENDADDRESS
  else if is_p2wpkh script_pubkey || is_p2wsh script_pubkey then SPENDWITNESS
  else if is_p2sh script_pubkey && bool_decide (is_Some (input_witness_script psbt_input))
  then SPENDP2SHWITNESS
  else EXTERNAL.

(** The fields of an input of any transaction. *)
(* src: rust/trezor-client/src/flows/sign_tx.rs 44-49 (ack_input_request) *)
Definition input_data (i : TxIn) (address_n : list Z) (script_type amount : option Z)
    : TxInputType := {|
  tit_address_n := address_n;
  tit_prev_hash := Some (to_rev_bytes (txid i));
  tit_prev_index := Some (vout i);
  tit_script_sig := Some (script_sig i);
  tit_sequence := Some (sequence i);
  tit_script_type := script_type;
  tit_multisig := None;
  tit_amount := amount;
  tit_decred_tree := None; tit_witness := None; tit_ownership_proof := None;
  tit_commitment_data := None; tit_orig_hash := None; tit_orig_index := None;
  tit_decred_staking_spend := None; tit_script_pubkey := None; tit_coinjoin_flags := None;
|}.

(** A transaction with only some parts in it. *)
Definition tx_parts (version : option Z) (inputs : list TxInputType)
    (bin_outputs : list TxOutputBinType) (lock_time : option Z) (outputs : list TxOutputType)
    (inputs_cnt outputs_cnt : option Z) : TransactionType := {|
  tt_version := version; tt_inputs := inputs; tt_bin_outputs := bin_outputs;
  tt_lock_time := lock_time; tt_outputs := outputs; tt_inputs_cnt := inputs_cnt;
  tt_outputs_cnt := outputs_cnt; tt_extra_data := None; tt_extra_data_len := None;
  tt_expiry := None; tt_overwintered := None; tt_version_group_id := None;
  tt_timestamp := None; tt_branch_id := None;
|}.

Definition ack_of (tx : TransactionType) : TxAck := mkTxAck (Some tx).

(* src: rust/trezor-client/src/flows/sign_tx.rs 22-102 (ack_input_request) *)
Definition ack_input_request req psbt : cresult TxAck :=
  if no_index req then Err (MalformedTxRequest req) else
  let input_index := request_index req in
  input ← requested_input req psbt;
  data_input ←
    (if bool_decide (is_Some (trdt_tx_hash (details req))) then Ok (input_data input [] None None) else
     psbt_input ← ok_or (getZ (inputs psbt) input_index)
       (InvalidPsbt (text "not enough psbt inputs"));
     txout ← spent_output psbt_input (vout input) input_index;
     Ok (input_data input (only_path (input_derivation psbt_input))
           (Some (input_script_type_value (script_type_of (script_pubkey txout) psbt_input)))
           (Some (to_sat txout))));
  Ok (ack_of (tx_parts None [data_input] [] None [] None None)).

(* src: rust/trezor-client/src/flows/sign_tx.rs 117-134 (ack_output_request) *)
Definition dependent_output req psbt (tx_hash : list Z) : cresult TxOut :=
  let output_index := request_index req in
  req_hash ← ok_or (from_rev_bytes tx_hash) (MalformedTxRequest req);
  inp ← psbt_find_input psbt req_hash;
  match non_witness_utxo inp with
  | Some tx => ok_or (getZ (output tx) output_index) (TxRequestInvalidIndex output_index)
  | None =>
    match witness_utxo inp with
    | Some utxo => Ok utxo
    | None => Err (InvalidPsbt (text "not all inputs have utxo data"))
    end
  end.

(** The script type of an output with a known key path, and the data that it
    returns. *)
(* src: rust/trezor-client/src/flows/sign_tx.rs 163-176 (ack_output_request) *)
Definition change_type (script_pubkey : Script) (psbt_output : PsbtOutput)
    : cresult (OutputScriptType * option (list Z)) :=
  if is_op_return script_pubkey then
    data ← or_panic (slice (as_bytes script_pubkey) 1 (len (as_bytes script_pubkey)));
    Ok (PAYTOOPRETURN, Some data)
  else if bool_decide (is_Some (output_witness_script psbt_output)) then
    Ok (if bool_decide (is_Some (output_redeem_script psbt_output)) then PAYTOP2SHWITNESS
        else PAYTOWITNESS, None)
  else Ok (PAYTOADDRESS, None).

(* src: rust/trezor-client/src/flows/sign_tx.rs 141-179 (ack_output_request) *)
Definition output_data req psbt (network : Network) : cresult TxOutputType :=
  let output_index := request_index req in
  out ← ok_or (getZ (output (unsigned_tx psbt)) output_index) (TxRequestInvalidIndex output_index);
  let address := address_to_string <$> address_from_script (script_pubkey out) network in
  psbt_output ← ok_or (getZ (outputs psbt) output_index)
    (InvalidPsbt (text "output indices don't match"));
  '(script_type, op_return_data) ←
    (if len (output_derivation psbt_output) =? 1 then
       again ← or_panic (getZ (output (unsigned_tx psbt)) output_index);
       change_type (script_pubkey again) psbt_output
     else Ok (PAYTOADDRESS, None));
  Ok {|
    tot_address := address;
    tot_address_n := only_path (output_derivation psbt_output);
    tot_amount := Some (to_sat out);
    tot_script_type := Some (output_script_type_value script_type);
    tot_multisig := None;
    tot_op_return_data := op_return_data;
    tot_orig_hash := None; tot_orig_index := None; tot_payment_req_index := None;
  |}.

(* src: rust/trezor-client/src/flows/sign_tx.rs 104-185 (ack_output_request) *)
Definition ack_output_request req psbt (network : Network) : cresult TxAck :=
  if no_index req then Err (MalformedTxRequest req) else
  match trdt_tx_hash (details req) with
  | Some tx_hash =>
    output ← dependent_output req psbt tx_hash;
    let bin_output :=
      mkTxOutputBinType (Some (to_sat output)) (Some (as_bytes (script_pubkey output))) None in
    Ok (ack_of (tx_parts None [] [bin_output] None [] None None))
  | None =>
    data_output ← output_data req psbt network;
    Ok (ack_of (tx_parts None [] [] None [data_output] None None))
  end.

(* src: rust/trezor-client/src/flows/sign_tx.rs 208-212 (ack_meta_request) *)
Definition tx_meta (tx : Transaction) : TransactionType :=
  tx_parts (Some (wrapu 32 (version tx))) [] [] (Some (lock_time tx)) []
    (Some (wrapu 32 (len (input tx)))) (Some (wrapu 32 (len (output tx)))).

(* src: rust/trezor-client/src/flows/sign_tx.rs 187-218 (ack_meta_request) *)
Definition ack_meta_request req psbt : cresult TxAck :=
  if bool_decide (tr_details req = None) then Err (MalformedTxRequest req) else
  tx ← match trdt_tx_hash (details req) with
       | Some tx_hash => dependent_tx req psbt tx_hash
       | None => Ok (unsigned_tx psbt)
       end;
  Ok (ack_of (tx_meta tx)).
End Acks.

(** ** The signing flow *)

(* src: rust/trezor-client/src/flows/sign_tx.rs 220-231 (SignTxProgress) *)
Record SignTxProgress := mkSignTxProgress { progress_req : TxRequest }.

Section Progress.
Context `{Bitcoin}.

(* src: rust/trezor-client/src/protos/generated/messages_bitcoin.rs 3982-3987 (TxRequest::request_type) *)
Definition request_type (req : TxRequest) : RequestType :=
  default TXINPUT (tr_request_type req ≫= request_type_from_i32).

(* src: rust/trezor-client/src/flows/sign_tx.rs 239-242 (SignTxProgress::tx_request) *)
Definition tx_request (self : SignTxProgress) : TxRequest := progress_req self.

(* src: rust/trezor-client/src/flows/sign_tx.rs 244-247 (SignTxProgress::finished) *)
Definition finished (self : SignTxProgress) : bool :=
  match request_type (progress_req self) with TXFINISHED => true | _ => false end.

Definition no_serialized : TxRequestSerializedType := mkTxRequestSerializedType None None None.
Definition serialized (self : SignTxProgress) : TxRequestSerializedType :=
  default no_serialized (tr_serialized (progress_req self)).

(* src: rust/trezor-client/src/flows/sign_tx.rs 249-253 (SignTxProgress::has_signature) *)
Definition has_signature (self : SignTxProgress) : bool :=
  bool_decide (is_Some (tr_serialized (progress_req self)))
  && bool_decide (is_Some (trst_signature_index (serialized self)))
  && bool_decide (is_Some (trst_signature (serialized self))).

(* src: rust/trezor-client/src/flows/sign_tx.rs 255-263 (SignTxProgress::get_signature) *)
Definition get_signature (self : SignTxProgress) : option (Z * list Z) :=
  if has_signature self then
    Some (default 0 (trst_signature_index (serialized self)),
          default [] (trst_signature (serialized self)))
  else None.

(* src: rust/trezor-client/src/flows/sign_tx.rs 271-275 (SignTxProgress::has_serialized_tx_part) *)
Definition has_serialized_tx_part (self : SignTxProgress) : bool :=
  bool_decide (is_Some (tr_serialized (progress_req self)))
  && bool_decide (is_Some (trst_serialized_tx (serialized self))).

(* src: rust/trezor-client/src/flows/sign_tx.rs 277-284 (SignTxProgress::get_serialized_tx_part) *)
Definition get_serialized_tx_part (self : SignTxProgress) : option (list Z) :=
  if has_serialized_tx_part self then Some (default [] (trst_serialized_tx (serialized self)))
  else None.

(** Requests that are not implemented abort. *)
(* src: rust/trezor-client/src/flows/sign_tx.rs 308-319 (SignTxProgress::ack_psbt) *)
Definition ack_request (req : TxRequest) (psbt : Psbt) (network : Network) : cresult TxAck :=
  match request_type req with
  | TXINPUT => ack_input_request req psbt
  | TXOUTPUT => ack_output_request req psbt network
  | TXMETA => ack_meta_request req psbt
  | TXEXTRADATA => Panic
  | TXORIGINPUT | TXORIGOUTPUT | TXPAYMENTREQ => Panic
  | TXFINISHED => Panic
  end.

Context {D : Type} `{!Client.Transport D}.
Context `{!Message Failure, !Message Messages.ButtonRequest, !Message Messages.PinMatrixRequest,
  !Message Messages.PassphraseRequest, !Message TxRequest, !Message TxAck}.

Abbreviation response T R := (cresult (TrezorResponse (D:=D) T R * Trezor D)).

Definition handle_progress : ResultHandler (D:=D) SignTxProgress TxRequest :=
  λ client m, Ok (mkSignTxProgress m, client).

(* src: rust/trezor-client/src/flows/sign_tx.rs 286-297 (SignTxProgress::ack_msg) *)
Definition ack_msg (self : SignTxProgress) (client : Trezor D) (ack : TxAck)
    : response SignTxProgress TxRequest :=
  if finished self then Panic else
  call client ack handle_progress.

(* src: rust/trezor-client/src/flows/sign_tx.rs 299-321 (SignTxProgress::ack_psbt) *)
Definition ack_psbt (self : SignTxProgress) (client : Trezor D) (psbt : Psbt) (network : Network)
    : response SignTxProgress TxRequest :=
  if finished self then Panic else
  ack ← ack_request (progress_req self) psbt network;
  ack_msg self client ack.

(** ** Calls *)

(* src: rust/trezor-client/src/client/bitcoin.rs 42-55 (Trezor::sign_tx) *)
Definition sign_tx `{!Message SignTx} (self : Trezor D) (psbt : Psbt) (network : Network)
    : response SignTxProgress TxRequest :=
  let tx := unsigned_tx psbt in
  coin ← coin_name network;
  call self
    {| st_outputs_count := Some (wrapu 32 (len (output tx)));
       st_inputs_count := Some (wrapu 32 (len (input tx)));
       st_coin_name := Some coin;
       st_version := Some (wrapu 32 (version tx));
       st_lock_time := Some (lock_time tx);
       st_expiry := None; st_overwintered := None; st_version_group_id := None;
       st_timestamp := None; st_branch_id := None; st_amount_unit := None;
       st_decred_staking_ticket := None; st_serialize := None; st_coinjoin_request := None;
       st_chunkify := None |}
    handle_progress.

(* src: rust/trezor-client/src/client/bitcoin.rs 11-24 (Trezor::get_public_key) *)
Definition get_public_key `{!Message GetPublicKey, !Message PublicKey} (self : Trezor D)
    (path : list Z) (script_type : InputScriptType) (network : Network) (show_display : bool)
    : response Xpub PublicKey :=
  coin ← coin_name network;
  call self
    (mkGetPublicKey path None (Some show_display) (Some coin)
       (Some (input_script_type_value script_type)) None)
    (λ client m, xpub ← map_err Bip32 (xpub_parse (default [] (pubkey_xpub m))); Ok (xpub, client)).

(* src: rust/trezor-client/src/client/bitcoin.rs 82-85 (parse_address) *)
Definition parse_address (s : list Z) : cresult BtcAddress := map_err AddressError_ (address_parse s).

(* src: rust/trezor-client/src/client/bitcoin.rs 26-40 (Trezor::get_address) *)
Definition get_address `{!Message GetAddress, !Message Address} (self : Trezor D)
    (path : list Z) (script_type : InputScriptType) (network : Network) (show_display : bool)
    : response BtcAddress Address :=
  coin ← coin_name network;
  call self
    (mkGetAddress path (Some coin) (Some show_display) None
       (Some (input_script_type_value script_type)) None None)
    (λ client m, address ← parse_address (default [] (addr_address m)); Ok (address, client)).

(* src: rust/trezor-client/src/client/bitcoin.rs 87-95 (nfc_normalize) *)
Definition nfc_normalize (s : list Z) : list Z := if is_nfc_quick s then s else nfc s.

(* src: rust/trezor-client/src/client/bitcoin.rs 57-79 (Trezor::sign_message) *)
Definition sign_message `{!Message SignMessage, !Message MessageSignature} (self : Trezor D)
    (message path : list Z) (script_type : InputScriptType) (network : Network)
    : response (BtcAddress * RecoverableSignature) MessageSignature :=
  coin ← coin_name network;
  call self
    (mkSignMessage path (Some (nfc_normalize message)) (Some coin)
       (Some (input_script_type_value script_type)) None None)
    (λ client m,
       address ← parse_address (default [] (ms_address m));
       signature ← map_err Secp256k1 (parse_recoverable_signature (default [] (ms_signature m)));
       Ok ((address, signature), client)).
End Progress.
