(* ===== verification/BitcoinSpec.v ===== *)
(** * What the client answers when a transaction is signed

    Which requests are answered, which are refused with an error, and that the
    device finds the transactions that are spent by the hashes that it was
    given. *)
From S2P Require Import Prelude Transport.
From S2P Require Import MessageTypes Messages Client ClientSpec Bitcoin.
Local Open Scope Z_scope.

Section Facts.
Context `{Bitcoin}.

Lemma position_Some {A} (p : A → bool) l i :
  position p l = Some i ↔
  (∃ x, l !! i = Some x ∧ p x = true) ∧ ∀ j x, (j < i)%nat → l !! j = Some x → p x = false.
Proof.
  revert i; induction l as [|y l IH]; intros i; cbn [position].
  { split; [done|]. by intros [(x & Hx & _) _]. }
  destruct (p y) eqn:Ey.
  - split; [intros [= <-]; split; [by exists y|lia]|].
    intros [_ Hfirst]. destruct i as [|i]; [done|]. specialize (Hfirst 0%nat y ltac:(lia) eq_refl). congruence.
  - rewrite fmap_Some. setoid_rewrite IH. split.
    + intros (k & [Hk Hfirst] & ->). split; [done|]. intros [|j] x Hj Hx; [by injection Hx as <-|].
      apply (Hfirst j); [lia|done].
    + intros [(x & Hx & Hp) Hfirst]. destruct i as [|i]; [injection Hx as ->; congruence|].
      exists i. split; [|done]. split; [by exists x|]. intros j z Hj Hz. apply (Hfirst (S j)); [lia|done].
Qed.

Lemma from_to_rev_bytes hash : len hash = 32 → from_rev_bytes (to_rev_bytes hash) = Some hash.
Proof.
  intros Hl. unfold from_rev_bytes, to_rev_bytes. rewrite reverse_involutive.
  by destruct (Z.eqb_spec (len hash) 32).
Qed.

(** The input of the PSBT that the client takes a transaction from: that of the
    first input of the transaction to be signed that spends it. *)
Definition source_of (psbt : Psbt) (hash : list Z) (i : nat) (inp : PsbtInput) : Prop :=
  (∃ t, input (unsigned_tx psbt) !! i = Some t ∧ txid t = hash) ∧
  (∀ j t, (j < i)%nat → input (unsigned_tx psbt) !! j = Some t → txid t ≠ hash) ∧
  inputs psbt !! i = Some inp.

Lemma psbt_find_input_Ok psbt hash inp :
  psbt_find_input psbt hash = Ok inp ↔ ∃ i, source_of psbt hash i inp.
Proof.
  unfold psbt_find_input, source_of. rewrite bind_Ok. split.
  - intros (i & [(t & Ht & Hp) Hfirst]%ok_or_Ok%position_Some & Hi%ok_or_Ok). exists i.
    apply bool_decide_eq_true in Hp. split; [eauto|]. split; [|done].
    intros j t' Hj Ht'. by apply (Hfirst j t') in Ht' as ?%bool_decide_eq_false.
  - intros (i & (t & Ht & Hp) & Hfirst & Hi). exists i. rewrite !ok_or_Ok. split; [|done].
    apply position_Some. split; [exists t; split; [done|by apply bool_decide_eq_true_2]|].
    intros j t' Hj Ht'. apply bool_decide_eq_false_2. by eapply Hfirst.
Qed.

Lemma psbt_find_input_safe psbt hash : safe (psbt_find_input psbt hash).
Proof. apply safe_bind; [apply safe_ok_or|]. intros. apply safe_ok_or. Qed.

(** The transaction that a request is about. *)
Definition has_tx (psbt : Psbt) (tx_hash : option (list Z)) (tx : Transaction) : Prop :=
  match tx_hash with
  | Some h => ∃ hash i inp, from_rev_bytes h = Some hash ∧ source_of psbt hash i inp ∧
                non_witness_utxo inp = Some tx
  | None => tx = unsigned_tx psbt
  end.

(** The output that an input spends is known. *)
Definition spent_known (p : PsbtInput) (vout : Z) : Prop :=
  is_Some (witness_utxo p) ∨ ∃ tx, non_witness_utxo p = Some tx ∧ is_Some (getZ (output tx) vout).

Definition input_available (psbt : Psbt) (tx_hash : option (list Z)) (index : Z) : Prop :=
  ∃ tx i, has_tx psbt tx_hash tx ∧ getZ (input tx) index = Some i ∧
    (tx_hash = None → ∃ p, getZ (inputs psbt) index = Some p ∧ spent_known p (vout i)).

(** An output of a dependent transaction of which only the spent output is known
    stands for all of them. *)
Definition output_available (psbt : Psbt) (tx_hash : option (list Z)) (index : Z) : Prop :=
  match tx_hash with
  | Some h => ∃ hash i inp, from_rev_bytes h = Some hash ∧ source_of psbt hash i inp ∧
      match non_witness_utxo inp with
      | Some tx => is_Some (getZ (output tx) index)
      | None => is_Some (witness_utxo inp)
      end
  | None => is_Some (getZ (output (unsigned_tx psbt)) index) ∧ is_Some (getZ (outputs psbt) index)
  end.

(** The answer with an output of a dependent transaction. *)
Definition utxo_ack (o : TxOut) : TxAck :=
  ack_of (tx_parts None []
    [mkTxOutputBinType (Some (to_sat o)) (Some (as_bytes (script_pubkey o))) None] None [] None None).

(** What a request must say and the PSBT must hold for an answer. *)
Definition available (req : TxRequest) (psbt : Psbt) : Prop :=
  match tr_details req with
  | Some d =>
    match request_type req, trdt_request_index d with
    | TXINPUT, Some index => input_available psbt (trdt_tx_hash d) index
    | TXOUTPUT, Some index => output_available psbt (trdt_tx_hash d) index
    | TXMETA, _ => ∃ tx, has_tx psbt (trdt_tx_hash d) tx
    | _, _ => False
    end
  | None => False
  end.

(** ** Each step: it does not abort, and when it gives something *)
#[local] Hint Resolve safe_ok_or psbt_find_input_safe : safe.
#[local] Hint Extern 1 (safe (Ok _)) => exact I : safe.
#[local] Hint Extern 1 (safe (Err _)) => exact I : safe.

Ltac safe_steps :=
  repeat first [apply safe_bind; [solve [auto with safe]|intros]|solve [auto with safe]].

Lemma dependent_tx_safe req psbt h : safe (dependent_tx req psbt h).
Proof. unfold dependent_tx. safe_steps. Qed.

Lemma dependent_tx_Ok req psbt h tx : dependent_tx req psbt h = Ok tx ↔ has_tx psbt (Some h) tx.
Proof.
  unfold dependent_tx. split.
  - intros (hash & Hh%ok_or_Ok & (inp & [i Hi]%psbt_find_input_Ok & Ht%ok_or_Ok)%bind_Ok)%bind_Ok.
    by exists hash, i, inp.
  - intros (hash & i & inp & Hh & Hi & Ht). rewrite Hh. cbn [ok_or mbind outcome_bind].
    assert (psbt_find_input psbt hash = Ok inp) as -> by (apply psbt_find_input_Ok; eauto).
    cbn [mbind outcome_bind]. by rewrite Ht.
Qed.
#[local] Hint Resolve dependent_tx_safe : safe.

Lemma requested_input_safe req psbt : safe (requested_input req psbt).
Proof. unfold requested_input. destruct (trdt_tx_hash _); safe_steps. Qed.

Lemma requested_input_Ok req psbt i :
  requested_input req psbt = Ok i ↔
  ∃ tx, has_tx psbt (trdt_tx_hash (details req)) tx ∧ getZ (input tx) (request_index req) = Some i.
Proof.
  unfold requested_input. destruct (trdt_tx_hash (details req)) as [h|].
  - rewrite bind_Ok. setoid_rewrite dependent_tx_Ok. by setoid_rewrite ok_or_Ok.
  - rewrite ok_or_Ok. split; [by eexists|]. by intros (tx & -> & ?).
Qed.

Lemma spent_output_safe p vout index : safe (spent_output p vout index).
Proof. unfold spent_output. destruct (witness_utxo p), (non_witness_utxo p); auto with safe. Qed.

Lemma spent_output_Ok p vout index :
  (∃ o, spent_output p vout index = Ok o) ↔ spent_known p vout.
Proof.
  unfold spent_output, spent_known. destruct (witness_utxo p) as [o|].
  { split; [by left|]. by exists o. }
  destruct (non_witness_utxo p) as [tx|].
  - split.
    + intros [o Ho%ok_or_Ok]. right. by exists tx.
    + intros [[? ?]|(tx' & [= <-] & [o Ho])]; [done|]. exists o. by rewrite Ho.
  - split; [by intros [??]|]. by intros [[??]|(? & ? & _)].
Qed.

Context `{!BitcoinLaws}.

Lemma change_type_Ok s p : ∃ t, change_type s p = Ok t.
Proof.
  unfold change_type. destruct (is_op_return s) eqn:E; [|destruct (bool_decide _); by eexists].
  apply op_return_opcode in E.
  assert (is_Some (slice (as_bytes s) 1 (len (as_bytes s)))) as [d ->]; [|by eexists].
  eexists. apply slice_Some. split; [lia|]. split; [lia|done].
Qed.

Lemma output_data_outcome req psbt network :
  safe (output_data req psbt network) ∧
  ((∃ o, output_data req psbt network = Ok o) ↔
   is_Some (getZ (output (unsigned_tx psbt)) (request_index req)) ∧
   is_Some (getZ (outputs psbt) (request_index req))).
Proof.
  unfold output_data. destruct (getZ (output _) _) as [out|] eqn:Eo; cbn [ok_or mbind outcome_bind].
  2:{ split; [done|]. split; [by intros [??]|by intros [[??] _]]. }
  destruct (getZ (outputs psbt) _) as [po|]; cbn [ok_or mbind outcome_bind].
  2:{ split; [done|]. split; [by intros [??]|by intros [_ [??]]]. }
  destruct (change_type_Ok (script_pubkey out) po) as [[t d] Ht].
  destruct (len (output_derivation po) =? 1); cbn [or_panic mbind outcome_bind]; rewrite ?Ht;
    (split; [done|]); split; eauto.
Qed.

(** ** The three kinds of requests *)
Lemma no_index_None req : no_index req = false ↔ ∃ d i, tr_details req = Some d ∧ trdt_request_index d = Some i.
Proof.
  unfold no_index, details. destruct (tr_details req) as [d|]; simpl.
  - destruct (trdt_request_index d) as [i|] eqn:E.
    + split; [intros _; by exists d, i|done].
    + split; [done|]. intros (d' & i & [= <-] & ?). congruence.
  - split; [done|]. by intros (? & ? & ? & _).
Qed.

Lemma indexed req d i :
  tr_details req = Some d → trdt_request_index d = Some i → details req = d ∧ request_index req = i.
Proof. intros Hd Hi. unfold request_index, details. rewrite Hd. simpl. by rewrite Hi. Qed.

Lemma ack_input_safe req psbt : safe (ack_input_request req psbt).
Proof.
  unfold ack_input_request. destruct (no_index req); [done|].
  apply safe_bind; [apply requested_input_safe|]. intros i _. apply safe_bind; [|done].
  destruct (bool_decide _); [done|]. apply safe_bind; [apply safe_ok_or|]. intros p _.
  apply safe_bind; [apply spent_output_safe|done].
Qed.

Lemma ack_input_Ok req psbt :
  (∃ a, ack_input_request req psbt = Ok a) ↔
  ∃ d index, tr_details req = Some d ∧ trdt_request_index d = Some index ∧
    input_available psbt (trdt_tx_hash d) index.
Proof.
  unfold ack_input_request. split.
  - intros [a Ha]. destruct (no_index req) eqn:E; [done|]. apply no_index_None in E as (d & index & Hd & Hi).
    exists d, index. destruct (indexed req d index Hd Hi) as [Hdet Hreq]. rewrite Hdet, Hreq in Ha.
    apply bind_Ok in Ha as (i & Hin & Ha). apply requested_input_Ok in Hin as (tx & Htx & Hget).
    rewrite Hdet, Hreq in *. split; [done|]. split; [done|]. exists tx, i. split; [done|]. split; [done|].
    intros Hnone. rewrite Hnone, bool_decide_eq_false_2 in Ha by by intros [??].
    apply bind_Ok in Ha as (data & Hdata & _). apply bind_Ok in Hdata as (p & Hp%ok_or_Ok & Hdata).
    apply bind_Ok in Hdata as (o & Ho & _). exists p. split; [done|]. apply spent_output_Ok with index. eauto.
  - intros (d & index & Hd & Hi & tx & i & Htx & Hget & Hspent).
    destruct (indexed req d index Hd Hi) as [Hdet Hreq].
    assert (no_index req = false) as -> by (apply no_index_None; eauto).
    assert (requested_input req psbt = Ok i) as ->.
    { apply requested_input_Ok. rewrite Hdet, Hreq. eauto. }
    rewrite Hdet, Hreq. cbn [mbind outcome_bind]. destruct (trdt_tx_hash d) as [h|].
    + rewrite bool_decide_eq_true_2 by done. by eexists.
    + rewrite bool_decide_eq_false_2 by by intros [??]. destruct (Hspent eq_refl) as (p & -> & Hk).
      cbn [ok_or mbind outcome_bind]. apply (spent_output_Ok p _ index) in Hk as [o ->]. by eexists.
Qed.

Lemma dependent_output_outcome req psbt h :
  safe (dependent_output req psbt h) ∧
  ((∃ o, dependent_output req psbt h = Ok o) ↔ output_available psbt (Some h) (request_index req)).
Proof.
  unfold dependent_output. split.
  { apply safe_bind; [apply safe_ok_or|]. intros hash _.
    apply safe_bind; [apply psbt_find_input_safe|]. intros inp _.
    destruct (non_witness_utxo inp); [apply safe_ok_or|]. by destruct (witness_utxo inp). }
  split.
  - intros [o (hash & Hh%ok_or_Ok & (inp & [i Hi]%psbt_find_input_Ok & Ho)%bind_Ok)%bind_Ok].
    exists hash, i, inp. split; [done|]. split; [done|].
    destruct (non_witness_utxo inp); [apply ok_or_Ok in Ho; eauto|]. by destruct (witness_utxo inp).
  - intros (hash & i & inp & Hh & Hi & Ha). rewrite Hh. cbn [ok_or mbind outcome_bind].
    assert (psbt_find_input psbt hash = Ok inp) as -> by (apply psbt_find_input_Ok; eauto).
    cbn [mbind outcome_bind]. destruct (non_witness_utxo inp) as [tx|]; destruct Ha as [o ->]; by exists o.
Qed.

Lemma ack_output_outcome req psbt network :
  safe (ack_output_request req psbt network) ∧
  ((∃ a, ack_output_request req psbt network = Ok a) ↔
   ∃ d index, tr_details req = Some d ∧ trdt_request_index d = Some index ∧
     output_available psbt (trdt_tx_hash d) index).
Proof.
  unfold ack_output_request. destruct (no_index req) eqn:E.
  { split; [done|]. split; [by intros [??]|]. intros (d & index & Hd & Hi & _).
    assert (no_index req = false) by (apply no_index_None; eauto). congruence. }
  apply no_index_None in E as (d & index & Hd & Hi). destruct (indexed req d index Hd Hi) as [Hdet Hreq].
  assert (∀ P : TxRequestDetailsType → Z → Prop,
    (∃ d index, tr_details req = Some d ∧ trdt_request_index d = Some index ∧ P d index) ↔ P d index) as Hone.
  { intros P. split; [|eauto]. intros (? & ? & Hd' & Hi' & HP). congruence. }
  rewrite Hone. rewrite Hdet. destruct (trdt_tx_hash d) as [h|].
  - rewrite <- Hreq. destruct (dependent_output_outcome req psbt h) as [Hs Ho]. rewrite <- Ho.
    destruct (dependent_output req psbt h); try done; (split; [done|]); split; intros [??]; eauto; done.
  - destruct (output_data_outcome req psbt network) as [Hs Ho]. cbn [output_available]. rewrite <- Hreq, <- Ho.
    destruct (output_data req psbt network); try done; (split; [done|]); split; intros [??]; eauto; done.
Qed.

Lemma ack_meta_outcome req psbt :
  safe (ack_meta_request req psbt) ∧
  ((∃ a, ack_meta_request req psbt = Ok a) ↔
   ∃ d tx, tr_details req = Some d ∧ has_tx psbt (trdt_tx_hash d) tx).
Proof.
  unfold ack_meta_request, details. destruct (tr_details req) as [d|]; cbn [default from_option id].
  2:{ rewrite bool_decide_eq_true_2 by done. split; [done|].
      split; [by intros [??]|by intros (? & ? & ? & _)]. }
  rewrite bool_decide_eq_false_2 by done. cbv iota. destruct (trdt_tx_hash d) as [h|] eqn:Eh.
  - split; [apply safe_bind; [apply dependent_tx_safe|done]|]. split.
    + intros [a (tx & Htx%dependent_tx_Ok & _)%bind_Ok]. exists d, tx. by rewrite Eh.
    + intros (? & tx & [= <-] & Htx). rewrite Eh in Htx. eexists. apply bind_Ok. exists tx.
      by rewrite dependent_tx_Ok.
  - split; [done|]. split; [|by eexists]. intros _. exists d, (unsigned_tx psbt). by rewrite Eh.
Qed.

(** ** Requests for a transaction that is spent *)
Lemma position_le {A} (p : A → bool) l i x :
  l !! i = Some x → p x = true → ∃ j, position p l = Some j ∧ (j <= i)%nat.
Proof.
  revert i; induction l as [|y l IH]; intros i Hi Hp; [done|]. cbn [position].
  destruct (p y) eqn:E; [exists 0%nat; split; [done|lia]|]. destruct i as [|i]; [injection Hi as ->; congruence|].
  destruct (IH i Hi Hp) as (j & -> & Hj). exists (S j). split; [done|lia].
Qed.

(** The first input that spends the same transaction as a given one. *)
Lemma source_exists psbt i t p :
  input (unsigned_tx psbt) !! i = Some t → inputs psbt !! i = Some p →
  ∃ j inp, source_of psbt (txid t) j inp ∧ (j <= i)%nat.
Proof.
  intros Ht Hp.
  destruct (position_le (λ x, bool_decide (txid x = txid t)) _ i t Ht) as (j & Hj & Hle).
  { by apply bool_decide_eq_true_2. }
  assert (is_Some (inputs psbt !! j)) as [inp Hinp].
  { apply lookup_lt_is_Some. apply lookup_lt_Some in Hp. lia. }
  exists j, inp. split; [|done]. apply position_Some in Hj as [(x & Hx & Hxp%bool_decide_eq_true) Hfirst].
  split; [by exists x|]. split; [|done]. intros k y Hk Hy. by eapply bool_decide_eq_false, Hfirst.
Qed.

(** When the first input that spends a transaction holds the spent output
    alone, this output is sent whichever output of the transaction is asked for. *)
Lemma witness_utxo_any_index req psbt d h index hash i inp utxo :
  tr_details req = Some d → trdt_tx_hash d = Some h → trdt_request_index d = Some index →
  from_rev_bytes h = Some hash → source_of psbt hash i inp →
  non_witness_utxo inp = None → witness_utxo inp = Some utxo →
  ∀ network, ack_output_request req psbt network = Ok (utxo_ack utxo).
Proof.
  intros Hd Hh Hi Hhash Hs Hn Hw network. destruct (indexed req d index Hd Hi) as [Hdet Hreq].
  unfold ack_output_request, dependent_output.
  assert (no_index req = false) as -> by (apply no_index_None; eauto).
  rewrite Hdet, Hh, Hhash. cbn [ok_or mbind outcome_bind].
  assert (psbt_find_input psbt hash = Ok inp) as -> by (apply psbt_find_input_Ok; eauto).
  cbn [mbind outcome_bind]. by rewrite Hn, Hw.
Qed.

(** What is answered about a transaction that an input holds, or does not. *)
Definition from_source (inp : PsbtInput) (hash : list Z) (f : Transaction → cresult TxAck) : cresult TxAck :=
  match non_witness_utxo inp with Some tx => f tx | None => Err (PsbtMissingInputTx hash) end.

Lemma dependent_tx_source req psbt h hash j inp :
  from_rev_bytes h = Some hash → source_of psbt hash j inp →
  dependent_tx req psbt h = ok_or (non_witness_utxo inp) (PsbtMissingInputTx hash).
Proof.
  intros Hh Hs. unfold dependent_tx. rewrite Hh. cbn [ok_or mbind outcome_bind].
  assert (psbt_find_input psbt hash = Ok inp) as -> by (apply psbt_find_input_Ok; eauto). done.
Qed.

Section Dependent.
Context (req : TxRequest) (d : TxRequestDetailsType) (psbt : Psbt) (h hash : list Z) (j : nat).
Context (inp : PsbtInput).
Hypothesis details_req : tr_details req = Some d.
Hypothesis details_hash : trdt_tx_hash d = Some h.
Hypothesis hash_of : from_rev_bytes h = Some hash.
Hypothesis source : source_of psbt hash j inp.

Lemma dependent_meta : ack_meta_request req psbt = from_source inp hash (λ tx, Ok (ack_of (tx_meta tx))).
Proof.
  unfold ack_meta_request, from_source, details. rewrite details_req. simpl.
  rewrite details_hash, (dependent_tx_source req psbt h hash j inp) by done.
  by destruct (non_witness_utxo inp).
Qed.

Lemma dependent_input index :
  trdt_request_index d = Some index →
  ack_input_request req psbt = from_source inp hash (λ tx,
    i ← ok_or (getZ (input tx) index) (TxRequestInvalidIndex index);
    Ok (ack_of (tx_parts None [input_data i [] None None] [] None [] None None))).
Proof.
  intros Hi. destruct (indexed req d index details_req Hi) as [Hdet Hreq].
  unfold ack_input_request, requested_input, from_source.
  assert (no_index req = false) as -> by (apply no_index_None; eauto).
  rewrite Hdet, Hreq, details_hash, (dependent_tx_source req psbt h hash j inp) by done.
  destruct (non_witness_utxo inp) as [tx|]; [|done]. cbn [ok_or mbind outcome_bind].
  by destruct (getZ (input tx) index).
Qed.
End Dependent.
End Facts.

(** ** Properties *)

(** C13. Which requests of the device are answered: a request for an input, an
    output or the head of a transaction never aborts, every one of them that is
    not answered is an error, and all other kinds of requests abort.  Of the
    transaction to be signed, its head is always there, an input just when its
    number is within it and the PSBT has the output that it spends, and an
    output just when its number is within the outputs of the transaction and of
    the PSBT.  Of any other transaction, named by a hash of 32 bytes, everything
    is taken from the first input that spends it, and from no other: its head,
    and the inputs and outputs with numbers within it, are there just when this
    input of the PSBT holds the transaction; but when this input holds the spent
    output alone, a request for an output is answered with that output, whatever
    number it asks for. *)
Theorem ack_request_outcome `{BitcoinLaws} (req : TxRequest) (psbt : Psbt) (network : Network) :
  match request_type req with
  | TXINPUT | TXOUTPUT | TXMETA => safe (ack_request req psbt network)
  | _ => ack_request req psbt network = Panic
  end ∧
  ((∃ ack, ack_request req psbt network = Ok ack) ↔ available req psbt) ∧
  (∀ d h index hash i inp utxo, request_type req = TXOUTPUT →
     tr_details req = Some d → trdt_tx_hash d = Some h → trdt_request_index d = Some index →
     from_rev_bytes h = Some hash → source_of psbt hash i inp →
     non_witness_utxo inp = None → witness_utxo inp = Some utxo →
     ack_request req psbt network = Ok (utxo_ack utxo)).
Proof.
  apply Logic.and_assoc. split.
  2: { intros. unfold ack_request. replace (request_type req) with TXOUTPUT. by eapply witness_utxo_any_index. }
  pose proof (ack_input_safe req psbt). pose proof (ack_input_Ok req psbt) as Hin.
  pose proof (ack_output_outcome req psbt network) as [Hos Hout].
  pose proof (ack_meta_outcome req psbt) as [Hms Hmeta].
  unfold ack_request, available. destruct (request_type req); (split; [done|]).
  1: rewrite Hin. 2: rewrite Hout. 3: rewrite Hmeta.
  1-3: destruct (tr_details req) as [d|]; [|naive_solver].
  1-2: destruct (trdt_request_index d) as [index|] eqn:E; naive_solver.
  1: naive_solver.
  all: destruct (tr_details req); (split; [by intros [??]|done]).
Qed.

(** C14. The device finds the transactions that are spent: the answer about an
    input of the transaction to be signed names the transaction that it spends
    by a hash, with the number and the amount of the output; whatever the device
    asks later by this hash is answered from the first input that spends the
    same transaction: its head, and each of its inputs, or an error that says
    that the PSBT does not have it. *)
Theorem spent_tx_found `{BitcoinLaws} (psbt : Psbt) (req : TxRequest) d index ack :
  tr_details req = Some d → trdt_tx_hash d = None → trdt_request_index d = Some index →
  ack_input_request req psbt = Ok ack →
  ∃ t p o data h j inp,
    getZ (input (unsigned_tx psbt)) index = Some t ∧ getZ (inputs psbt) index = Some p ∧
    spent_output p (vout t) index = Ok o ∧
    ack = ack_of (tx_parts None [data] [] None [] None None) ∧
    tit_prev_hash data = Some h ∧ tit_prev_index data = Some (vout t) ∧
    tit_amount data = Some (to_sat o) ∧ from_rev_bytes h = Some (txid t) ∧
    source_of psbt (txid t) j inp ∧ Z.of_nat j <= index ∧
    ∀ req' d', tr_details req' = Some d' → trdt_tx_hash d' = Some h →
      ack_meta_request req' psbt = from_source inp (txid t) (λ tx, Ok (ack_of (tx_meta tx))) ∧
      ∀ k, trdt_request_index d' = Some k →
        ack_input_request req' psbt = from_source inp (txid t) (λ tx,
          i ← ok_or (getZ (input tx) k) (TxRequestInvalidIndex k);
          Ok (ack_of (tx_parts None [input_data i [] None None] [] None [] None None))).
Proof.
  intros Hd Hh Hi Hack. destruct (indexed req d index Hd Hi) as [Hdet Hreq].
  unfold ack_input_request in Hack. destruct (no_index req); [done|].
  apply bind_Ok in Hack as (t & Ht & Hack). unfold requested_input in Ht. rewrite Hdet, Hreq, Hh in *.
  apply ok_or_Ok in Ht. apply bind_Ok in Hack as (data & Hdata & [= <-]). cbn in Hdata.
  apply bind_Ok in Hdata as (p & Hp%ok_or_Ok & Hdata). apply bind_Ok in Hdata as (o & Ho & [= <-]).
  pose proof (proj1 (getZ_Some _ _ _) Ht) as [Hpos Htn]. apply getZ_Some in Hp as Hpn. destruct Hpn as [_ Hpn].
  destruct (source_exists psbt _ t p Htn Hpn) as (j & inp & Hsrc & Hle).
  pose proof (from_to_rev_bytes (txid t) (txid_size t)) as Hhash.
  eexists t, p, o, _, (to_rev_bytes (txid t)), j, inp. split; [done|]. split; [done|].
  split; [done|]. do 6 (split; [done|]). split; [lia|].
  intros req' d' Hd' Hh'. split; [by eapply dependent_meta|]. intros. by eapply dependent_input.
Qed.

(** ** An example

    Transactions by their inputs and outputs, an input by a byte of the hash and
    the number of the output that it spends, an output by its amount and script. *)
Definition sample_tx : Type := list (Z * Z) * list (Z * list Z).

#[export] Instance sample_bitcoin : @Bitcoin sample_crates := {|
  Script := list Z;
  is_p2pkh s := len s =? 25; is_p2wpkh s := len s =? 22; is_p2wsh s := len s =? 34;
  is_p2sh s := len s =? 23; is_op_return s := match s with b :: _ => b =? 106 | [] => false end;
  as_bytes s := s;
  TxIn := Z * Z;
  txid i := repeat i.1 32; vout i := i.2; script_sig _ := []; sequence _ := 4294967295;
  TxOut := Z * list Z; to_sat o := o.1; script_pubkey o := o.2;
  Transaction := sample_tx;
  version _ := 2; lock_time _ := 0; input tx := tx.1; output tx := tx.2;
  PsbtInput := option (Z * list Z) * option sample_tx;
  witness_utxo p := p.1; non_witness_utxo p := p.2; input_derivation _ := [[44; 0]];
  input_witness_script _ := None;
  PsbtOutput := list (list Z);
  output_derivation p := p; output_witness_script _ := None; output_redeem_script _ := None;
  Psbt := sample_tx * list (option (Z * list Z) * option sample_tx) * list (list (list Z));
  unsigned_tx p := p.1.1; inputs p := p.1.2; outputs p := p.2;
  Network := bool; is_bitcoin n := n; is_testnet n := negb n;
  Payload := list Z; BtcAddress := list Z;
  payload_from_script s := if len s =? 25 then Some s else None;
  address_new _ s := s; address_to_string s := s; address_parse s := Ok s;
  Xpub := list Z; xpub_parse s := Ok s;
  RecoveryId := Z; RecoverableSignature := Z * list Z; InvalidSignature := tt;
  recovery_from_i32 z := if z <? 4 then Ok z else Err tt;
  from_compact l z := Ok (z, l);
  is_nfc_quick _ := true; nfc l := l;
|}.

#[export] Instance sample_bitcoin_laws : @BitcoinLaws _ sample_bitcoin.
Proof.
  constructor; [done|]. intros [|b s] Hs; [done|]. cbn [length as_bytes sample_bitcoin]. lia.
Qed.

(** Two inputs spend outputs of the same transaction, the first one holds it. *)
Definition sample_spent : sample_tx := ([(9, 1)], [(1000, repeat 0 25); (2000, repeat 0 25)]).
Definition sample_psbt : @Psbt _ sample_bitcoin :=
  ([(7, 0); (7, 1)], [(2900, repeat 0 25)], [(None, Some sample_spent); (None, Some sample_spent)], [[]]).
Definition sample_request (type : Z) (index : option Z) (h : option (list Z)) : TxRequest :=
  mkTxRequest (Some type) (Some (mkTxRequestDetailsType index h None None)) None.

Lemma ack_request_outcome_witness :
  safe (ack_request (sample_request 0 (Some 1) None) sample_psbt true) ∧
  available (sample_request 0 (Some 1) None) sample_psbt.
Proof.
  destruct (ack_request_outcome (H1 := sample_bitcoin_laws) (sample_request 0 (Some 1) None)
    sample_psbt true) as (Hs & Ha & _).
  split; [exact Hs|]. apply Ha. by eexists.
Defined.

Lemma spent_tx_found_witness :
  ∃ data h, ack_input_request (sample_request 0 (Some 1) None) sample_psbt
              = Ok (ack_of (tx_parts None [data] [] None [] None None)) ∧
    tit_prev_hash data = Some h ∧ tit_amount data = Some 2000 ∧
    ack_meta_request (sample_request 2 None (Some h)) sample_psbt
    = Ok (ack_of (tx_meta sample_spent)).
Proof.
  destruct (spent_tx_found (H1 := sample_bitcoin_laws) sample_psbt (sample_request 0 (Some 1) None)
    (mkTxRequestDetailsType (Some 1) None None None) 1 _ eq_refl eq_refl eq_refl eq_refl)
    as (t & p & o & data & h & j & inp & Ht & Hp & Ho & Hack & Hh & _ & Ham & Hrev & Hsrc & Hj & Hlater).
  injection Ht as <-. injection Hp as <-. injection Ho as <-.
  injection Hack as Hdata. exists data, h. split; [by rewrite <- Hdata|].
  split; [exact Hh|]. split; [exact Ham|].
  destruct (Hlater (sample_request 2 None (Some h)) _ eq_refl eq_refl) as [-> _].
  assert (inp = (None, Some sample_spent)) as ->; [|done].
  destruct Hsrc as (_ & _ & Hinp). destruct j as [|[|j]]; [by injection Hinp|by injection Hinp|done].
Defined.

(** An output that returns data is told as such only when the PSBT has a key path
    for it; otherwise it is sent as a payment without an address. *)
Lemma op_return_without_path :
  ack_output_request (sample_request 1 (Some 0) None)
    (([], [(0, [106; 2; 1; 2])], [], [[]]) : @Psbt _ sample_bitcoin) true
  = Ok (ack_of (tx_parts None [] [] None
          [mkTxOutputType None [] (Some 0) (Some (output_script_type_value PAYTOADDRESS))
             None None None None None] None None)).
Proof. done. Qed.

(** With a key path, the data that is sent begins with the length byte of the
    script, which the device writes itself. *)
Lemma op_return_keeps_push :
  ack_output_request (sample_request 1 (Some 0) None)
    (([], [(0, [106; 2; 1; 2])], [], [[[44; 0]]]) : @Psbt _ sample_bitcoin) true
  = Ok (ack_of (tx_parts None [] [] None
          [mkTxOutputType None [44; 0] (Some 0) (Some (output_script_type_value PAYTOOPRETURN))
             None (Some [2; 1; 2]) None None None] None None)).
Proof. done. Qed.
