(* ===== verification/TrButton.v ===== *)
(** * Buttons of the model R

    [ui/model_tr/component/button.rs]: the visual state of a button, what
    describes a button, and the layouts of the three of them at the bottom of
    the screen.  A text is the list of its bytes; how a button is drawn is not
    modelled. *)
From S2P Require Import Prelude Time Geometry Component Theme.
Local Open Scope Z_scope.

(* src: ui/model_tr/component/button.rs 19-24 (ButtonPos) *)
Inductive ButtonPos := PosLeft | PosMiddle | PosRight.

#[export] Instance button_pos_eq_dec : EqDecision ButtonPos.
Proof. solve_decision. Defined.

(* src: ui/model_tr/component/button.rs 26-33 (From<PhysicalButton> for ButtonPos) *)
Definition pos_of (btn : PhysicalButton) : ButtonPos :=
  match btn with LeftButton => PosLeft | RightButton => PosRight end.

(** Icons are the names of their resource files. *)
Inductive TrIcon :=
| TR_ICON_CANCEL
| TR_ICON_ARROW_LEFT
| TR_ICON_ARROW_RIGHT
| TR_ICON_ARROW_UP
| TR_ICON_ARROW_DOWN
| TR_ICON_DELETE
| TR_ICON_EYE
| TR_ICON_TICK
| TR_ICON_SPACE
| TR_ICON_ARROW_BACK_UP.

(** The screen of the model R ([DISPLAY_RESX]). *)
(* src: ui/model_tr/constant.rs 5-5 (WIDTH) *)
Definition WIDTH : Z := 128.
(* src: ui/model_tr/component/button.rs 17-17 (HALF_SCREEN_BUTTON_WIDTH) *)
Definition HALF_SCREEN_BUTTON_WIDTH : Z := WIDTH / 2 - 1.
(* src: ui/model_tr/theme/mod.rs 128-130 (BUTTON_HEIGHT) *)
Definition BUTTON_HEIGHT : Z := 7 + 2 * 3.
(* src: ui/model_tr/theme/mod.rs 131-131 (BUTTON_ICON_WIDTH) *)
Definition BUTTON_ICON_WIDTH : Z := BUTTON_HEIGHT.
(* src: ui/model_tr/component/loader.rs 18-18 (DEFAULT_DURATION_MS) *)
Definition DEFAULT_DURATION_MS : Duration := 1000.

(** ** Styles and descriptions *)

(* src: ui/model_tr/component/button.rs 355-359 (ButtonContent) *)
Inductive ButtonContent := CText (text : list Z) | CIcon (icon : TrIcon).

(* src: ui/model_tr/component/button.rs 366-373 (ButtonStyle) *)
Record ButtonStyle := mkButtonStyle {
  st_font : Font;
  st_text_color : Z;
  st_outline : bool;
  st_arms : bool;
  st_fixed_width : option Z;
  st_offset : Offset
}.

(* src: ui/model_tr/component/button.rs 361-364 (ButtonStyleSheet) *)
Record ButtonStyleSheet := mkStyleSheet { normal : ButtonStyle; active : ButtonStyle }.

(* src: ui/model_tr/component/button.rs 376-403 (ButtonStyleSheet::new) *)
Definition stylesheet_new (font : Font) (normal_color active_color : Z) (with_outline with_arms : bool)
    (fixed_width : option Z) (offset : Offset) : ButtonStyleSheet :=
  mkStyleSheet (mkButtonStyle font normal_color with_outline with_arms fixed_width offset)
    (mkButtonStyle font active_color with_outline with_arms fixed_width offset).

(* src: ui/model_tr/component/button.rs 405-422 (ButtonStyleSheet::default) *)
Definition stylesheet_default (font : Font) (with_outline with_arms : bool) (fixed_width : option Z) (offset : Offset)
    : ButtonStyleSheet :=
  stylesheet_new font WHITE BLACK with_outline with_arms fixed_width offset.

(* src: ui/model_tr/component/button.rs 425-436 (ButtonDetails) *)
Record ButtonDetails := mkDetails {
  bd_content : ButtonContent;
  bd_font : Font;
  bd_duration : option Duration;
  bd_outline : bool;
  bd_arms : bool;
  bd_fixed_width : option Z;
  bd_offset : Offset;
  bd_send_long_press : bool
}.

(* src: ui/model_tr/component/button.rs 439-451 (ButtonDetails::text) *)
Definition text (t : list Z) : ButtonDetails := mkDetails (CText t) NORMAL_UPPER None true false None offset_zero false.

(* src: ui/model_tr/component/button.rs 453-465 (ButtonDetails::icon) *)
Definition icon (i : TrIcon) : ButtonDetails := mkDetails (CIcon i) NORMAL_UPPER None false false None offset_zero false.

Section Details.
Context (d : ButtonDetails).

(* src: ui/model_tr/component/button.rs 517-521 (ButtonDetails::with_outline) *)
Definition with_outline (outline : bool) : ButtonDetails :=
  mkDetails (bd_content d) (bd_font d) (bd_duration d) outline (bd_arms d) (bd_fixed_width d) (bd_offset d) (bd_send_long_press d).

(* src: ui/model_tr/component/button.rs 523-529 (ButtonDetails::with_offset) *)
Definition with_offset (offset : Offset) : ButtonDetails :=
  mkDetails (bd_content d) (bd_font d) (bd_duration d) (bd_outline d) (bd_arms d) (bd_fixed_width d) offset (bd_send_long_press d).

(* src: ui/model_tr/component/button.rs 531-537 (ButtonDetails::with_arms) *)
Definition with_arms : ButtonDetails :=
  mkDetails (bd_content d) (bd_font d) (bd_duration d) false true (bd_fixed_width d) (bd_offset d) (bd_send_long_press d).

(* src: ui/model_tr/component/button.rs 545-549 (ButtonDetails::with_duration) *)
Definition with_duration (duration : Duration) : ButtonDetails :=
  mkDetails (bd_content d) (bd_font d) (Some duration) (bd_outline d) (bd_arms d) (bd_fixed_width d) (bd_offset d) (bd_send_long_press d).

(* src: ui/model_tr/component/button.rs 539-543 (ButtonDetails::with_default_duration) *)
Definition with_default_duration : ButtonDetails := with_duration DEFAULT_DURATION_MS.

(* src: ui/model_tr/component/button.rs 551-555 (ButtonDetails::with_fixed_width) *)
Definition with_fixed_width (width : Z) : ButtonDetails :=
  mkDetails (bd_content d) (bd_font d) (bd_duration d) (bd_outline d) (bd_arms d) (Some width) (bd_offset d) (bd_send_long_press d).

(* src: ui/model_tr/component/button.rs 557-561 (ButtonDetails::with_font) *)
Definition with_font (font : Font) : ButtonDetails :=
  mkDetails (bd_content d) font (bd_duration d) (bd_outline d) (bd_arms d) (bd_fixed_width d) (bd_offset d) (bd_send_long_press d).

(* src: ui/model_tr/component/button.rs 563-572 (ButtonDetails::style) *)
Definition details_style : ButtonStyleSheet :=
  stylesheet_default (bd_font d) (bd_outline d) (bd_arms d) (bd_fixed_width d) (bd_offset d).
End Details.

(* src: ui/model_tr/component/button.rs 477-480 (ButtonDetails::armed_text) *)
Definition armed_text (t : list Z) : ButtonDetails := with_arms (text t).
(* src: ui/model_tr/component/button.rs 482-485 (ButtonDetails::cancel_icon) *)
Definition cancel_icon : ButtonDetails := with_offset (icon TR_ICON_CANCEL) (mkOffset 3 (-3)).
(* src: ui/model_tr/component/button.rs 487-490 (ButtonDetails::left_arrow_icon) *)
Definition left_arrow_icon : ButtonDetails := with_offset (icon TR_ICON_ARROW_LEFT) (mkOffset 4 (-3)).
(* src: ui/model_tr/component/button.rs 492-495 (ButtonDetails::right_arrow_icon) *)
Definition right_arrow_icon : ButtonDetails := with_offset (icon TR_ICON_ARROW_RIGHT) (mkOffset (-4) (-3)).
(* src: ui/model_tr/component/button.rs 497-501 (ButtonDetails::up_arrow_icon) *)
Definition up_arrow_icon : ButtonDetails := with_offset (icon TR_ICON_ARROW_UP) (mkOffset 3 (-4)).
(* src: ui/model_tr/component/button.rs 503-508 (ButtonDetails::down_arrow_icon_wide) *)
Definition down_arrow_icon_wide : ButtonDetails :=
  with_fixed_width (with_outline (icon TR_ICON_ARROW_DOWN) true) HALF_SCREEN_BUTTON_WIDTH.
(* src: ui/model_tr/component/button.rs 510-515 (ButtonDetails::up_arrow_icon_wide) *)
Definition up_arrow_icon_wide : ButtonDetails :=
  with_fixed_width (with_outline (icon TR_ICON_ARROW_UP) true) HALF_SCREEN_BUTTON_WIDTH.
(* src: ui/model_tr/component/button.rs 467-475 (ButtonDetails::from_text_possible_icon) *)
Definition from_text_possible_icon (t : list Z) : ButtonDetails :=
  if bool_decide (t = []) then cancel_icon
  else if bool_decide (t = [60]) then left_arrow_icon
  else if bool_decide (t = [94]) then up_arrow_icon
  else text t.

(** ** Layouts *)

(* src: ui/model_tr/component/button.rs 575-581 (ButtonLayout) *)
Record ButtonLayout := mkLayout {
  btn_left : option ButtonDetails;
  btn_middle : option ButtonDetails;
  btn_right : option ButtonDetails
}.

(* src: ui/model_tr/component/button.rs 596-600 (ButtonLayout::empty) *)
Definition layout_empty : ButtonLayout := mkLayout None None None.

Section Layouts.
Context (t left right : list Z).

(* src: ui/model_tr/component/button.rs 602-609 (ButtonLayout::arrow_armed_arrow) *)
Definition arrow_armed_arrow : ButtonLayout := mkLayout (Some left_arrow_icon) (Some (armed_text t)) (Some right_arrow_icon).
(* src: ui/model_tr/component/button.rs 611-618 (ButtonLayout::cancel_armed_arrow) *)
Definition cancel_armed_arrow : ButtonLayout := mkLayout (Some cancel_icon) (Some (armed_text t)) (Some right_arrow_icon).
(* src: ui/model_tr/component/button.rs 620-627 (ButtonLayout::none_armed_arrow) *)
Definition none_armed_arrow : ButtonLayout := mkLayout None (Some (armed_text t)) (Some right_arrow_icon).
(* src: ui/model_tr/component/button.rs 629-640 (ButtonLayout::text_armed_info) *)
Definition text_armed_info : ButtonLayout := mkLayout (Some (from_text_possible_icon left)) (Some (armed_text t)) (Some (with_font (with_fixed_width (text [105]) BUTTON_ICON_WIDTH) NORMAL)).
(* src: ui/model_tr/component/button.rs 642-653 (ButtonLayout::cancel_armed_info) *)
Definition cancel_armed_info : ButtonLayout := mkLayout (Some cancel_icon) (Some (armed_text t)) (Some (with_font (with_fixed_width (text [105]) BUTTON_ICON_WIDTH) NORMAL)).
(* src: ui/model_tr/component/button.rs 655-662 (ButtonLayout::cancel_armed_none) *)
Definition cancel_armed_none : ButtonLayout := mkLayout (Some cancel_icon) (Some (armed_text t)) None.
(* src: ui/model_tr/component/button.rs 664-671 (ButtonLayout::arrow_armed_none) *)
Definition arrow_armed_none : ButtonLayout := mkLayout (Some left_arrow_icon) (Some (armed_text t)) None.
(* src: ui/model_tr/component/button.rs 673-680 (ButtonLayout::text_none_text) *)
Definition text_none_text : ButtonLayout := mkLayout (Some (from_text_possible_icon left)) None (Some (from_text_possible_icon right)).
(* src: ui/model_tr/component/button.rs 682-689 (ButtonLayout::text_none_arrow) *)
Definition text_none_arrow : ButtonLayout := mkLayout (Some (from_text_possible_icon t)) None (Some right_arrow_icon).
(* src: ui/model_tr/component/button.rs 691-698 (ButtonLayout::text_none_arrow_wide) *)
Definition text_none_arrow_wide : ButtonLayout := mkLayout (Some (from_text_possible_icon t)) None (Some down_arrow_icon_wide).
(* src: ui/model_tr/component/button.rs 700-707 (ButtonLayout::none_none_text) *)
Definition none_none_text : ButtonLayout := mkLayout None None (Some (from_text_possible_icon t)).
(* src: ui/model_tr/component/button.rs 709-716 (ButtonLayout::arrow_none_arrow) *)
Definition arrow_none_arrow : ButtonLayout := mkLayout (Some left_arrow_icon) None (Some right_arrow_icon).
(* src: ui/model_tr/component/button.rs 718-725 (ButtonLayout::arrow_none_text) *)
Definition arrow_none_text : ButtonLayout := mkLayout (Some left_arrow_icon) None (Some (from_text_possible_icon t)).
(* src: ui/model_tr/component/button.rs 727-734 (ButtonLayout::up_arrow_none_text) *)
Definition up_arrow_none_text : ButtonLayout := mkLayout (Some up_arrow_icon) None (Some (from_text_possible_icon t)).
(* src: ui/model_tr/component/button.rs 736-743 (ButtonLayout::cancel_none_arrow) *)
Definition cancel_none_arrow : ButtonLayout := mkLayout (Some cancel_icon) None (Some right_arrow_icon).
(* src: ui/model_tr/component/button.rs 745-752 (ButtonLayout::cancel_none_arrow_wide) *)
Definition cancel_none_arrow_wide : ButtonLayout := mkLayout (Some cancel_icon) None (Some down_arrow_icon_wide).
(* src: ui/model_tr/component/button.rs 754-761 (ButtonLayout::up_arrow_none_arrow_wide) *)
Definition up_arrow_none_arrow_wide : ButtonLayout := mkLayout (Some up_arrow_icon) None (Some down_arrow_icon_wide).
(* src: ui/model_tr/component/button.rs 763-774 (ButtonLayout::up_arrow_armed_info) *)
Definition up_arrow_armed_info : ButtonLayout := mkLayout (Some up_arrow_icon) (Some (armed_text t)) (Some (with_font (with_fixed_width (text [105]) BUTTON_ICON_WIDTH) NORMAL)).
(* src: ui/model_tr/component/button.rs 776-783 (ButtonLayout::cancel_none_arrow_down) *)
Definition cancel_none_arrow_down : ButtonLayout := mkLayout (Some cancel_icon) None (Some down_arrow_icon_wide).
(* src: ui/model_tr/component/button.rs 785-792 (ButtonLayout::cancel_none_text) *)
Definition cancel_none_text : ButtonLayout := mkLayout (Some cancel_icon) None (Some (from_text_possible_icon t)).
(* src: ui/model_tr/component/button.rs 794-801 (ButtonLayout::cancel_none_htc) *)
Definition cancel_none_htc : ButtonLayout := mkLayout (Some cancel_icon) None (Some (with_default_duration (text t))).
(* src: ui/model_tr/component/button.rs 803-810 (ButtonLayout::arrow_none_htc) *)
Definition arrow_none_htc : ButtonLayout := mkLayout (Some left_arrow_icon) None (Some (with_default_duration (text t))).
(* src: ui/model_tr/component/button.rs 812-815 (ButtonLayout::none_armed_none) *)
Definition none_armed_none : ButtonLayout := mkLayout None (Some (armed_text t)) None.
(* src: ui/model_tr/component/button.rs 817-824 (ButtonLayout::htc_none_htc) *)
Definition htc_none_htc : ButtonLayout := mkLayout (Some (with_default_duration (text left))) None (Some (with_default_duration (text right))).
(* src: ui/model_tr/component/button.rs 826-829 (ButtonLayout::arrow_none_none) *)
Definition arrow_none_none : ButtonLayout := mkLayout (Some left_arrow_icon) None None.
(* src: ui/model_tr/component/button.rs 831-834 (ButtonLayout::none_none_arrow_wide) *)
Definition none_none_arrow_wide : ButtonLayout := mkLayout None None (Some down_arrow_icon_wide).
End Layouts.

(** ** Actions *)

(* src: ui/model_tr/component/button.rs 837-856 (ButtonAction) *)
Inductive ButtonAction := NextPage | PrevPage | FirstPage | LastPage | ActCancel | ActConfirm | ActInfo.

(* src: ui/model_tr/component/button.rs 858-864 (ButtonActions) *)
Record ButtonActions := mkActions {
  act_left : option ButtonAction;
  act_middle : option ButtonAction;
  act_right : option ButtonAction
}.

(* src: ui/model_tr/component/button.rs 879-886 (ButtonActions::prev_none_next) *)
Definition prev_none_next : ButtonActions := mkActions (Some PrevPage) None (Some NextPage).
(* src: ui/model_tr/component/button.rs 888-895 (ButtonActions::prev_next_none) *)
Definition prev_next_none : ButtonActions := mkActions (Some PrevPage) (Some NextPage) None.
(* src: ui/model_tr/component/button.rs 897-904 (ButtonActions::prev_none_confirm) *)
Definition prev_none_confirm : ButtonActions := mkActions (Some PrevPage) None (Some ActConfirm).
(* src: ui/model_tr/component/button.rs 906-913 (ButtonActions::prev_confirm_none) *)
Definition prev_confirm_none : ButtonActions := mkActions (Some PrevPage) (Some ActConfirm) None.
(* src: ui/model_tr/component/button.rs 915-918 (ButtonActions::none_confirm_none) *)
Definition none_confirm_none : ButtonActions := mkActions None (Some ActConfirm) None.
(* src: ui/model_tr/component/button.rs 920-927 (ButtonActions::last_none_next) *)
Definition last_none_next : ButtonActions := mkActions (Some LastPage) None (Some NextPage).
(* src: ui/model_tr/component/button.rs 929-937 (ButtonActions::last_confirm_next) *)
Definition last_confirm_next : ButtonActions := mkActions (Some LastPage) (Some ActConfirm) (Some NextPage).
(* src: ui/model_tr/component/button.rs 939-947 (ButtonActions::prev_confirm_next) *)
Definition prev_confirm_next : ButtonActions := mkActions (Some PrevPage) (Some ActConfirm) (Some NextPage).
(* src: ui/model_tr/component/button.rs 949-956 (ButtonActions::cancel_none_next) *)
Definition cancel_none_next : ButtonActions := mkActions (Some ActCancel) None (Some NextPage).
(* src: ui/model_tr/component/button.rs 958-961 (ButtonActions::none_none_next) *)
Definition none_none_next : ButtonActions := mkActions None None (Some NextPage).
(* src: ui/model_tr/component/button.rs 963-966 (ButtonActions::none_next_none) *)
Definition none_next_none : ButtonActions := mkActions None (Some NextPage) None.
(* src: ui/model_tr/component/button.rs 968-971 (ButtonActions::prev_none_none) *)
Definition prev_none_none : ButtonActions := mkActions (Some PrevPage) None None.
(* src: ui/model_tr/component/button.rs 973-980 (ButtonActions::cancel_none_confirm) *)
Definition cancel_none_confirm : ButtonActions := mkActions (Some ActCancel) None (Some ActConfirm).
(* src: ui/model_tr/component/button.rs 982-989 (ButtonActions::cancel_confirm_next) *)
Definition cancel_confirm_next : ButtonActions := mkActions (Some ActCancel) (Some ActConfirm) (Some NextPage).
(* src: ui/model_tr/component/button.rs 991-998 (ButtonActions::cancel_confirm_info) *)
Definition cancel_confirm_info : ButtonActions := mkActions (Some ActCancel) (Some ActConfirm) (Some ActInfo).
(* src: ui/model_tr/component/button.rs 1000-1007 (ButtonActions::beginning_none_confirm) *)
Definition beginning_none_confirm : ButtonActions := mkActions (Some FirstPage) None (Some ActConfirm).
(* src: ui/model_tr/component/button.rs 1009-1016 (ButtonActions::beginning_none_cancel) *)
Definition beginning_none_cancel : ButtonActions := mkActions (Some FirstPage) None (Some ActCancel).

(* src: ui/model_tr/component/button.rs 1018-1025 (ButtonActions::get_action) *)
Definition get_action (self : ButtonActions) (pos : ButtonPos) : option ButtonAction :=
  match pos with PosLeft => act_left self | PosMiddle => act_middle self | PosRight => act_right self end.

(** ** Buttons *)

(* src: ui/model_tr/component/button.rs 349-353 (State) *)
Inductive State := Released | Pressed.

#[export] Instance state_eq_dec : EqDecision State.
Proof. solve_decision. Defined.

(* src: ui/model_tr/component/button.rs 35-41 (Button) *)
Record Button := mkButton {
  b_bounds : Rect;
  b_pos : ButtonPos;
  b_content : ButtonContent;
  b_styles : ButtonStyleSheet;
  b_state : State
}.

(* src: ui/model_tr/component/button.rs 44-52 (Button::new) *)
Definition button_new (pos : ButtonPos) (content : ButtonContent) (styles : ButtonStyleSheet) : Button :=
  mkButton rect_zero pos content styles Released.

(* src: ui/model_tr/component/button.rs 54-69 (Button::from_button_details) *)
Definition button_from_details (pos : ButtonPos) (d : ButtonDetails) : Button :=
  let style := details_style d in
  match bd_content d with
  | CText t => button_new pos (CText t) style
  | CIcon i => button_new pos (CIcon i) style
  end.

(* src: ui/model_tr/component/button.rs 75-80 (Button::style) *)
Definition button_style (self : Button) : ButtonStyle :=
  match b_state self with Released => normal (b_styles self) | Pressed => active (b_styles self) end.

(* src: ui/model_tr/component/button.rs 82-90 (Button::set_icon, Button::set_text) *)
Definition set_content (self : Button) (content : ButtonContent) : Button :=
  mkButton (b_bounds self) (b_pos self) content (b_styles self) (b_state self).

(* src: ui/model_tr/component/button.rs 92-98 (Button::set) *)
Definition button_set (self : Button) (ctx : EventCtx) (state : State) : Button * EventCtx :=
  if bool_decide (b_state self ≠ state) then
    (mkButton (b_bounds self) (b_pos self) (b_content self) (b_styles self) state, request_paint ctx)
  else (self, ctx).

(* src: ui/model_tr/component/button.rs 100-108 (Button::set_pressed) *)
Definition button_set_pressed (self : Button) (ctx : EventCtx) (is_pressed : bool) : Button * EventCtx :=
  button_set self ctx (if is_pressed then Pressed else Released).

(** The area that is returned is that of the drawing. *)
(* src: ui/model_tr/component/button.rs 182-185 (Button::place) *)
Definition button_place (self : Button) (bounds : Rect) : Button :=
  mkButton bounds (b_pos self) (b_content self) (b_styles self) (b_state self).
