(* ===== verification/Hold.v ===== *)
(** * Holding a button to confirm on the model R

    [ui/model_tr/component/loader.rs], [hold_to_confirm.rs] and the texts over
    loaders of [ui/display/mod.rs]: a bar that grows while a button is held,
    shrinks when it is released, and tells when it is full.  The clock stands
    still while an event is handled. *)
From S2P Require Import Prelude Time Geometry Component Theme Fonts TrButton.
Local Open Scope Z_scope.

(** ** Texts over a loader *)

(* src: ui/display/mod.rs 351-358 (TextOverlay) *)
Record TextOverlay := mkOverlay {
  ov_area : Rect;
  ov_text : list Z;
  ov_font : Font;
  ov_max_height : Z;
  ov_baseline : Z
}.

(* src: ui/display/mod.rs 373-375 (TextOverlay::set_text) *)
Definition overlay_set_text (self : TextOverlay) (t : list Z) : TextOverlay :=
  mkOverlay (ov_area self) t (ov_font self) (ov_max_height self) (ov_baseline self).

Section TextOverlay.
Context `{FontDriver}.

(* src: ui/display/mod.rs 361-371 (TextOverlay::new) *)
Definition overlay_new (t : list Z) (font : Font) : TextOverlay :=
  mkOverlay rect_zero t font (text_max_height font) (text_baseline font).

(* src: ui/display/mod.rs 382-391 (TextOverlay::place) *)
Definition overlay_place (self : TextOverlay) (baseline : Point) : TextOverlay :=
  let text_width := font_width (ov_font self) (ov_text self) in
  let text_height := text_height (ov_font self) in
  let text_area_start := ofs baseline (mkOffset (i16 (- Z.quot text_width 2)) (i16 (- text_height))) in
  let text_area_end := ofs baseline (mkOffset (Z.quot text_width 2) 0) in
  mkOverlay (rect_new text_area_start text_area_end) (ov_text self) (ov_font self) (ov_max_height self)
    (ov_baseline self).
End TextOverlay.

(** ** Loaders *)

(* src: ui/model_tr/component/loader.rs 19-19 (SHRINKING_DURATION_MS) *)
Definition SHRINKING_DURATION_MS : Duration := 500.

(* src: ui/model_tr/component/loader.rs 21-24 (LoaderMsg) *)
Inductive LoaderMsg := GrownCompletely | ShrunkCompletely.

(* src: ui/model_tr/component/loader.rs 26-31 (State) *)
Inductive LoaderState := LoadInitial | LoadGrowing (a : Animation) | LoadShrinking (a : Animation) | LoadGrown.

(* src: ui/model_tr/component/loader.rs 301-305 (LoaderStyle) *)
Record LoaderStyle := mkLoaderStyle { ls_font : Font; ls_fg_color : Z; ls_bg_color : Z }.

(** The style sheet has the normal style only. *)
(* src: ui/model_tr/component/loader.rs 297-317 (LoaderStyleSheet, LoaderStyleSheet::default_loader) *)
Definition default_loader : LoaderStyle := mkLoaderStyle NORMAL_UPPER FG BG.

(* src: ui/model_tr/component/loader.rs 33-40 (Loader) *)
Record Loader := mkLoader {
  ld_area : Rect;
  ld_state : LoaderState;
  growing_duration : Duration;
  shrinking_duration : Duration;
  text_overlay : TextOverlay;
  ld_styles : LoaderStyle
}.

Definition with_state (self : Loader) (s : LoaderState) : Loader :=
  mkLoader (ld_area self) s (growing_duration self) (shrinking_duration self) (text_overlay self) (ld_styles self).

(* src: ui/model_tr/component/loader.rs 45-54 (Loader::new) *)
Definition loader_new (text_overlay : TextOverlay) (styles : LoaderStyle) : Loader :=
  mkLoader rect_zero LoadInitial DEFAULT_DURATION_MS SHRINKING_DURATION_MS text_overlay styles.

(* src: ui/model_tr/component/loader.rs 62-70 (Loader::with_growing_duration, Loader::set_duration) *)
Definition with_growing_duration (self : Loader) (d : Duration) : Loader :=
  mkLoader (ld_area self) (ld_state self) d (shrinking_duration self) (text_overlay self) (ld_styles self).

(* src: ui/model_tr/component/loader.rs 76-78 (Loader::get_text) *)
Definition get_text (self : Loader) : list Z := ov_text (text_overlay self).

(* src: ui/model_tr/component/loader.rs 81-83 (Loader::set_text) *)
Definition loader_set_text (self : Loader) (t : list Z) : Loader :=
  mkLoader (ld_area self) (ld_state self) (growing_duration self) (shrinking_duration self)
    (overlay_set_text (text_overlay self) t) (ld_styles self).

(* src: ui/model_tr/component/loader.rs 128-130 (Loader::reset) *)
Definition loader_reset (self : Loader) : Loader := with_state self LoadInitial.

(* src: ui/model_tr/component/loader.rs 132-138 (Loader::animation) *)
Definition animation (self : Loader) : option Animation :=
  match ld_state self with
  | LoadInitial | LoadGrown => None
  | LoadGrowing a | LoadShrinking a => Some a
  end.

(* src: ui/model_tr/component/loader.rs 144-146 (Loader::is_animating) *)
Definition is_animating (self : Loader) : bool := bool_decide (is_Some (animation self)).

Section Loader.
Context `{FontDriver}.

(* src: ui/model_tr/component/loader.rs 56-60 (Loader::text) *)
Definition loader_text (t : list Z) (styles : LoaderStyle) : Loader :=
  loader_new (overlay_new t (ls_font styles)) styles.

(* src: ui/model_tr/component/loader.rs 86-88 (Loader::get_text_width) *)
Definition get_text_width (self : Loader) (t : list Z) : Z := font_width (ls_font (ld_styles self)) t.

(* src: ui/model_tr/component/loader.rs 219-225 (Loader::place) *)
Definition loader_place (self : Loader) (bounds : Rect) : Loader :=
  mkLoader bounds (ld_state self) (growing_duration self) (shrinking_duration self)
    (overlay_place (text_overlay self) (ofs (bottom_center bounds) (mkOffset 1 (-2)))) (ld_styles self).
End Loader.

Section Times.
Context (now : Instant).

(* src: ui/model_tr/component/loader.rs 90-108 (Loader::start_growing) *)
Definition start_growing (self : Loader) (ctx : EventCtx) : Loader * EventCtx :=
  let anim := mkAnimation LOADER_MIN LOADER_MAX (growing_duration self) now in
  let anim := match ld_state self with
              | LoadShrinking shrinking => seek_to_value anim (anim_value shrinking now)
              | _ => anim
              end in
  (with_state self (LoadGrowing anim), request_paint (request_anim_frame ctx)).

(* src: ui/model_tr/component/loader.rs 110-126 (Loader::start_shrinking) *)
Definition start_shrinking (self : Loader) (ctx : EventCtx) : Loader * EventCtx :=
  let anim := mkAnimation LOADER_MAX LOADER_MIN (shrinking_duration self) now in
  let anim := match ld_state self with
              | LoadGrowing growing => seek_to_value anim (wrapu 16 (LOADER_MAX - anim_value growing now))
              | _ => anim
              end in
  (with_state self (LoadShrinking anim), request_paint ctx).

(* src: ui/model_tr/component/loader.rs 140-142 (Loader::progress) *)
Definition progress (self : Loader) : option Z := (λ a, anim_value a now) <$> animation self.

(* src: ui/model_tr/component/loader.rs 148-150 (Loader::is_completely_grown) *)
Definition is_completely_grown (self : Loader) : bool := bool_decide (progress self = Some LOADER_MAX).

(* src: ui/model_tr/component/loader.rs 152-154 (Loader::is_completely_shrunk) *)
Definition is_completely_shrunk (self : Loader) : bool := bool_decide (progress self = Some LOADER_MIN).

(** One animation frame of a loader. *)
Definition loader_frame (self : Loader) (ctx : EventCtx) : Loader * EventCtx * option LoaderMsg :=
  if is_animating self then
    if is_completely_grown self then (with_state self LoadGrown, request_paint ctx, Some GrownCompletely)
    else if is_completely_shrunk self then (with_state self LoadInitial, request_paint ctx, Some ShrunkCompletely)
    else (self, request_paint (request_anim_frame ctx), None)
  else (self, ctx, None).

(** Animations are enabled in builds without the debugging features. *)
(* src: ui/model_tr/component/loader.rs 227-250 (Loader::event) *)
Definition loader_event (self : Loader) (ctx : EventCtx) (ev : Event) : Loader * EventCtx * option LoaderMsg :=
  match ev with
  | Timer token => if token =? ANIM_FRAME_TIMER then loader_frame self ctx else (self, ctx, None)
  | _ => (self, ctx, None)
  end.
End Times.

(** ** Hold to confirm *)

(* src: ui/model_tr/component/hold_to_confirm.rs 17-20 (HoldToConfirmMsg) *)
Inductive HoldToConfirmMsg := HoldConfirmed | FailedToConfirm.

(* src: ui/model_tr/component/hold_to_confirm.rs 22-26 (HoldToConfirm) *)
Record HoldToConfirm := mkHold { htc_pos : ButtonPos; htc_loader : Loader; htc_text_width : Z }.

(* src: ui/model_tr/theme/mod.rs 129-129 (BUTTON_OUTLINE) *)
Definition BUTTON_OUTLINE : Z := 3.

(* src: ui/model_tr/component/hold_to_confirm.rs 64-66 (HoldToConfirm::reset) *)
Definition hold_reset (self : HoldToConfirm) : HoldToConfirm :=
  mkHold (htc_pos self) (loader_reset (htc_loader self)) (htc_text_width self).

(* src: ui/model_tr/component/hold_to_confirm.rs 68-70 (HoldToConfirm::set_duration) *)
Definition hold_set_duration (self : HoldToConfirm) (d : Duration) : HoldToConfirm :=
  mkHold (htc_pos self) (with_growing_duration (htc_loader self) d) (htc_text_width self).

(* src: ui/model_tr/component/hold_to_confirm.rs 80-87 (HoldToConfirm::placement) *)
Definition placement (self : HoldToConfirm) (area : Rect) (pos : ButtonPos) : Rect :=
  let button_width := i16 (htc_text_width self + 2 * BUTTON_OUTLINE) in
  match pos with
  | PosLeft => (split_left area button_width).1
  | PosRight => (split_right area button_width).2
  | PosMiddle => (split_center area button_width).1.2
  end.

Section Hold.
Context `{FontDriver} `{DisplayConstants}.

(* src: ui/model_tr/component/hold_to_confirm.rs 29-42 (HoldToConfirm::text) *)
Definition hold_text (pos : ButtonPos) (t : list Z) (styles : LoaderStyle) (d : Duration) : ui HoldToConfirm :=
  text_width ← visible_text_width (ls_font styles) t;
  Ok (mkHold pos (with_growing_duration (loader_text t styles) d) text_width).

(* src: ui/model_tr/component/hold_to_confirm.rs 44-54 (HoldToConfirm::from_button_details) *)
Definition hold_from_details (pos : ButtonPos) (d : ButtonDetails) : ui HoldToConfirm :=
  let duration := default DEFAULT_DURATION_MS (bd_duration d) in
  match bd_content d with
  | CText t => hold_text pos t default_loader duration
  | CIcon _ => Panic
  end.

(* src: ui/model_tr/component/hold_to_confirm.rs 93-96 (HoldToConfirm::place) *)
Definition hold_place (self : HoldToConfirm) (bounds : Rect) : HoldToConfirm :=
  mkHold (htc_pos self) (loader_place (htc_loader self) (placement self bounds (htc_pos self))) (htc_text_width self).

(* src: ui/model_tr/component/hold_to_confirm.rs 57-62 (HoldToConfirm::set_text) *)
Definition hold_set_text (self : HoldToConfirm) (t : list Z) (button_area : Rect) : HoldToConfirm :=
  hold_place (mkHold (htc_pos self) (loader_set_text (htc_loader self) t) (get_text_width (htc_loader self) t))
    button_area.
End Hold.

Section HoldEvents.
Context `{Clock}.

Definition with_loader (self : HoldToConfirm) (l : Loader * EventCtx) : HoldToConfirm * EventCtx :=
  (mkHold (htc_pos self) l.1 (htc_text_width self), l.2).

(* src: ui/model_tr/component/hold_to_confirm.rs 98-121 (HoldToConfirm::event) *)
Definition hold_event (self : HoldToConfirm) (ctx : EventCtx) (ev : Event)
    : HoldToConfirm * EventCtx * option HoldToConfirmMsg :=
  let '(self, ctx) :=
    match ev with
    | Button_ HoldStarted => with_loader self (start_growing now (htc_loader self) ctx)
    | Button_ HoldEnded =>
      if is_animating (htc_loader self) then with_loader self (start_shrinking now (htc_loader self) ctx)
      else (self, ctx)
    | _ => (self, ctx)
    end in
  let '(loader, ctx, msg) := loader_event now (htc_loader self) ctx ev in
  (mkHold (htc_pos self) loader (htc_text_width self), ctx,
   match msg with
   | Some GrownCompletely => Some HoldConfirmed
   | Some ShrunkCompletely => Some FailedToConfirm
   | None => None
   end).
End HoldEvents.
