(* ===== verification/Controller.v ===== *)
(** * The button controller of the model R, and pages with buttons

    [ui/model_tr/component/button_controller.rs]: two physical buttons make
    three virtual ones, the middle one being both at once.  The controller is a
    state machine over presses and releases, and tells which virtual button was
    triggered, or held.  Painting is not modelled. *)
From S2P Require Import Prelude Time Geometry Component Theme Fonts TrButton Hold.
Local Open Scope Z_scope.

#[export] Instance physical_button_eq_dec : EqDecision PhysicalButton.
Proof. solve_decision. Defined.

(* src: ui/model_tr/component/button_controller.rs 14-39 (ButtonState) *)
Inductive ButtonState :=
| Nothing
| OneDown (which : PhysicalButton)
| BothDown
| OneReleased (which : PhysicalButton)
| HTCNeedsRelease (which : PhysicalButton).

(* src: ui/model_tr/component/button_controller.rs 41-52 (ButtonControllerMsg) *)
Inductive ButtonControllerMsg :=
| MsgPressed (pos : ButtonPos)
| Triggered (pos : ButtonPos) (long : bool)
| LongPressed (pos : ButtonPos)
| ReleasedWithoutLongPress (pos : ButtonPos).

(* src: ui/model_tr/component/button_controller.rs 54-59 (ButtonType) *)
Inductive ButtonType :=
| TypeButton (b : Button)
| TypeHold (h : HoldToConfirm)
| TypeNothing.

(* src: ui/model_tr/component/button_controller.rs 116-129 (ButtonContainer) *)
Record ButtonContainer := mkContainer {
  c_pos : ButtonPos;
  button_type : ButtonType;
  pressed_since : option Instant;
  long_press_ms : Z;
  long_pressed_timer : option TimerToken;
  send_long_press : bool
}.

(* src: ui/model_tr/component/button_controller.rs 619-630 (IgnoreButtonDelay) *)
Record IgnoreButtonDelay := mkIgnore {
  delay : Duration;
  left_clickable : bool;
  right_clickable : bool;
  left_clickable_timer : option TimerToken;
  right_clickable_timer : option TimerToken
}.

(* src: ui/model_tr/component/button_controller.rs 265-279 (ButtonController) *)
Record ButtonController := mkController {
  bc_pad : Pad;
  left_btn : ButtonContainer;
  middle_btn : ButtonContainer;
  right_btn : ButtonContainer;
  state : ButtonState;
  button_area : Rect;
  ignore_btn_delay : option IgnoreButtonDelay;
  handle_middle_button : bool
}.

(** ** Buttons that are held or pressed *)
Section Setters.
Context (c : ButtonContainer).
Definition set_type (t : ButtonType) : ButtonContainer :=
  mkContainer (c_pos c) t (pressed_since c) (long_press_ms c) (long_pressed_timer c) (send_long_press c).
Definition set_press (since : option Instant) (timer : option TimerToken) : ButtonContainer :=
  mkContainer (c_pos c) (button_type c) since (long_press_ms c) timer (send_long_press c).
End Setters.

Section Places.
Context `{FontDriver} `{DisplayConstants}.

(* src: ui/model_tr/component/button_controller.rs 62-72 (ButtonType::from_button_details) *)
Definition type_from_details (pos : ButtonPos) (btn_details : option ButtonDetails) : ui ButtonType :=
  match btn_details with
  | Some d =>
    if bool_decide (is_Some (bd_duration d)) then h ← hold_from_details pos d; Ok (TypeHold h)
    else Ok (TypeButton (button_from_details pos d))
  | None => Ok TypeNothing
  end.

(* src: ui/model_tr/component/button_controller.rs 74-84 (ButtonType::place) *)
Definition type_place (self : ButtonType) (area : Rect) : ButtonType :=
  match self with
  | TypeButton b => TypeButton (button_place b area)
  | TypeHold h => TypeHold (hold_place h area)
  | TypeNothing => TypeNothing
  end.

(** Whether a description asks for [LongPressed]. *)
Definition wants_long_press (btn_details : option ButtonDetails) : bool :=
  match btn_details with Some d => bd_send_long_press d | None => false end.

(* src: ui/model_tr/component/button_controller.rs 134-147 (ButtonContainer::new) *)
Definition container_new (pos : ButtonPos) (btn_details : option ButtonDetails) : ui ButtonContainer :=
  t ← type_from_details pos btn_details;
  Ok (mkContainer pos t None 1000 None (wants_long_press btn_details)).

(* src: ui/model_tr/component/button_controller.rs 152-158 (ButtonContainer::set) *)
Definition container_set (self : ButtonContainer) (btn_details : option ButtonDetails) (area : Rect)
    : ui ButtonContainer :=
  t ← type_from_details (c_pos self) btn_details;
  Ok (mkContainer (c_pos self) (type_place t area) (pressed_since self) (long_press_ms self)
        (long_pressed_timer self) (wants_long_press btn_details)).

(* src: ui/model_tr/component/button_controller.rs 161-163 (ButtonContainer::place) *)
Definition container_place (self : ButtonContainer) (bounds : Rect) : ButtonContainer :=
  set_type self (type_place (button_type self) bounds).
End Places.

(* src: ui/model_tr/component/button_controller.rs 175-179 (ButtonContainer::set_pressed) *)
Definition container_set_pressed (is_pressed : bool) (self : ButtonContainer) (ctx : EventCtx)
    : ButtonContainer * EventCtx :=
  match button_type self with
  | TypeButton b => let '(b, ctx) := button_set_pressed b ctx is_pressed in (set_type self (TypeButton b), ctx)
  | _ => (self, ctx)
  end.

(* src: ui/model_tr/component/button_controller.rs 225-228 (ButtonContainer::reset) *)
Definition container_reset (self : ButtonContainer) : ButtonContainer := set_press self None None.

(* src: ui/model_tr/component/button_controller.rs 231-233 (ButtonContainer::is_timer_token) *)
Definition is_timer_token (self : ButtonContainer) (token : TimerToken) : bool :=
  bool_decide (long_pressed_timer self = Some token).

Section Containers.
Context `{Clock}.

(** An event for the hold-to-confirm button, if it is one. *)
Definition hold_step (ev : Event) (self : ButtonContainer) (ctx : EventCtx)
    : ButtonContainer * EventCtx * option HoldToConfirmMsg :=
  match button_type self with
  | TypeHold h => let '(h, ctx, msg) := hold_event h ctx ev in (set_type self (TypeHold h), ctx, msg)
  | _ => (self, ctx, None)
  end.

(* src: ui/model_tr/component/button_controller.rs 236-240 (ButtonContainer::hold_started) *)
Definition hold_started (self : ButtonContainer) (ctx : EventCtx) : ButtonContainer * EventCtx :=
  (hold_step (Button_ HoldStarted) self ctx).1.

(* src: ui/model_tr/component/button_controller.rs 243-247 (ButtonContainer::hold_ended) *)
Definition hold_ended (self : ButtonContainer) (ctx : EventCtx) : ButtonContainer * EventCtx :=
  (hold_step (Button_ HoldEnded) self ctx).1.

(* src: ui/model_tr/component/button_controller.rs 185-202 (ButtonContainer::maybe_trigger) *)
Definition maybe_trigger (self : ButtonContainer) (ctx : EventCtx)
    : ButtonContainer * EventCtx * option ButtonControllerMsg :=
  match button_type self with
  | TypeButton _ =>
    let long_press :=
      match pressed_since self with
      | Some since => long_press_ms self <? saturating_duration_since now since
      | None => false
      end in
    (set_press self None None, ctx, Some (Triggered (c_pos self) long_press))
  | TypeHold _ => (hold_ended self ctx, Some (ReleasedWithoutLongPress (c_pos self)))
  | TypeNothing => (self, ctx, None)
  end.

(* src: ui/model_tr/component/button_controller.rs 205-212 (ButtonContainer::htc_got_triggered) *)
Definition htc_got_triggered (ev : Event) (self : ButtonContainer) (ctx : EventCtx)
    : ButtonContainer * EventCtx * bool :=
  let '(self, ctx, msg) := hold_step ev self ctx in
  (self, ctx, match msg with Some HoldConfirmed => true | _ => false end).

(* src: ui/model_tr/component/button_controller.rs 216-222 (ButtonContainer::got_pressed) *)
Definition container_got_pressed (self : ButtonContainer) (ctx : EventCtx) : ButtonContainer * EventCtx :=
  if send_long_press self then
    let '(token, ctx) := request_timer ctx (long_press_ms self) in
    (set_press self (Some now) (Some token), ctx)
  else (set_press self (Some now) (long_pressed_timer self), ctx).
End Containers.

(** ** Ignoring a button while the other one is held *)

(* src: ui/model_tr/component/button_controller.rs 633-641 (IgnoreButtonDelay::new) *)
Definition ignore_new (delay_ms : Z) : IgnoreButtonDelay := mkIgnore delay_ms true true None None.

Section Ignore.
Context (self : IgnoreButtonDelay).

(* src: ui/model_tr/component/button_controller.rs 643-655 (IgnoreButtonDelay::make_button_clickable) *)
Definition make_button_clickable (pos : ButtonPos) : IgnoreButtonDelay :=
  match pos with
  | PosLeft => mkIgnore (delay self) true (right_clickable self) None (right_clickable_timer self)
  | PosRight => mkIgnore (delay self) (left_clickable self) true (left_clickable_timer self) None
  | PosMiddle => self
  end.

(* src: ui/model_tr/component/button_controller.rs 657-664 (IgnoreButtonDelay::handle_button_press) *)
Definition handle_button_press (ctx : EventCtx) (button : PhysicalButton) : IgnoreButtonDelay * EventCtx :=
  let '(token, ctx) := request_timer ctx (delay self) in
  match button with
  | LeftButton =>
    (mkIgnore (delay self) (left_clickable self) (right_clickable self) (left_clickable_timer self) (Some token), ctx)
  | RightButton =>
    (mkIgnore (delay self) (left_clickable self) (right_clickable self) (Some token) (right_clickable_timer self), ctx)
  end.

(* src: ui/model_tr/component/button_controller.rs 666-674 (IgnoreButtonDelay::ignore_button) *)
Definition ignore_button (button : PhysicalButton) : bool :=
  match button with
  | LeftButton => negb (left_clickable self)
  | RightButton => negb (right_clickable self)
  end.

(* src: ui/model_tr/component/button_controller.rs 676-685 (IgnoreButtonDelay::handle_timer_token) *)
Definition handle_timer_token (token : TimerToken) : IgnoreButtonDelay :=
  let left := bool_decide (left_clickable_timer self = Some token) in
  let right := bool_decide (right_clickable_timer self = Some token) in
  mkIgnore (delay self) (left_clickable self && negb left) (right_clickable self && negb right)
    (if left then None else left_clickable_timer self) (if right then None else right_clickable_timer self).

(* src: ui/model_tr/component/button_controller.rs 687-692 (IgnoreButtonDelay::reset) *)
Definition ignore_reset : IgnoreButtonDelay := mkIgnore (delay self) true true None None.
End Ignore.

(** ** The controller *)
Section Parts.
Context (self : ButtonController).

Definition btn_at (pos : ButtonPos) : ButtonContainer :=
  match pos with PosLeft => left_btn self | PosMiddle => middle_btn self | PosRight => right_btn self end.

Definition set_btn (pos : ButtonPos) (c : ButtonContainer) : ButtonController :=
  match pos with
  | PosLeft =>
    mkController (bc_pad self) c (middle_btn self) (right_btn self) (state self) (button_area self)
      (ignore_btn_delay self) (handle_middle_button self)
  | PosMiddle =>
    mkController (bc_pad self) (left_btn self) c (right_btn self) (state self) (button_area self)
      (ignore_btn_delay self) (handle_middle_button self)
  | PosRight =>
    mkController (bc_pad self) (left_btn self) (middle_btn self) c (state self) (button_area self)
      (ignore_btn_delay self) (handle_middle_button self)
  end.

Definition set_state (s : ButtonState) : ButtonController :=
  mkController (bc_pad self) (left_btn self) (middle_btn self) (right_btn self) s (button_area self)
    (ignore_btn_delay self) (handle_middle_button self).

Definition set_ignore (i : option IgnoreButtonDelay) : ButtonController :=
  mkController (bc_pad self) (left_btn self) (middle_btn self) (right_btn self) (state self) (button_area self) i
    (handle_middle_button self).

(** [f] applied to one of the buttons. *)
Definition on_btn {A} (pos : ButtonPos) (ctx : EventCtx) (f : ButtonContainer → EventCtx → ButtonContainer * EventCtx * A)
    : ButtonController * EventCtx * A :=
  let '(c, ctx, a) := f (btn_at pos) ctx in (set_btn pos c, ctx, a).
End Parts.

(** The same for an operation without a result. *)
Definition upd (pos : ButtonPos) (f : ButtonContainer → EventCtx → ButtonContainer * EventCtx)
    (s : ButtonController * EventCtx) : ButtonController * EventCtx :=
  (on_btn s.1 pos s.2 (λ c ctx, (f c ctx, tt))).1.

(** The clickable properties of all buttons in [ps] are set, if there are any. *)
Definition make_clickable (ps : list ButtonPos) (self : ButtonController) : ButtonController :=
  set_ignore self ((λ i, foldl make_button_clickable i ps) <$> ignore_btn_delay self).

Section New.
Context `{FontDriver} `{DisplayConstants}.

(* src: ui/model_tr/component/button_controller.rs 282-294 (ButtonController::new) *)
Definition controller_new (l : ButtonLayout) : ui ButtonController :=
  left ← container_new PosLeft (btn_left l);
  middle ← container_new PosMiddle (btn_middle l);
  right ← container_new PosRight (btn_right l);
  Ok (mkController (with_clear (with_background BG)) left middle right Nothing rect_zero None
        (bool_decide (is_Some (btn_middle l)))).

(* src: ui/model_tr/component/button_controller.rs 298-301 (ButtonController::with_ignore_btn_delay) *)
Definition with_ignore_btn_delay (self : ButtonController) (delay_ms : Z) : ButtonController :=
  set_ignore self (Some (ignore_new delay_ms)).

(* src: ui/model_tr/component/button_controller.rs 304-310 (ButtonController::set) *)
Definition controller_set (self : ButtonController) (l : ButtonLayout) : ui ButtonController :=
  left ← container_set (left_btn self) (btn_left l) (button_area self);
  middle ← container_set (middle_btn self) (btn_middle l) (button_area self);
  right ← container_set (right_btn self) (btn_right l) (button_area self);
  Ok (mkController (clear_pad (bc_pad self)) left middle right (state self) (button_area self)
        (ignore_btn_delay self) (bool_decide (is_Some (btn_middle l)))).

(* src: ui/model_tr/component/button_controller.rs 602-613 (ButtonController::place) *)
Definition controller_place (self : ButtonController) (bounds : Rect) : ButtonController :=
  mkController (pad_place (bc_pad self) bounds) (container_place (left_btn self) bounds)
    (container_place (middle_btn self) bounds) (container_place (right_btn self) bounds) (state self) bounds
    (ignore_btn_delay self) (handle_middle_button self).
End New.

(* src: ui/model_tr/component/button_controller.rs 313-317 (ButtonController::set_pressed) *)
Definition set_pressed (left mid right : bool) (s : ButtonController * EventCtx) : ButtonController * EventCtx :=
  upd PosRight (container_set_pressed right)
    (upd PosMiddle (container_set_pressed mid) (upd PosLeft (container_set_pressed left) s)).

(* src: ui/model_tr/component/button_controller.rs 319-325 (ButtonController::highlight_button) *)
Definition highlight_button (pos : ButtonPos) (s : ButtonController * EventCtx) : ButtonController * EventCtx :=
  upd pos (container_set_pressed true) s.

(* src: ui/model_tr/component/button_controller.rs 361-365 (ButtonController::reset_button_presses) *)
Definition reset_button_presses (self : ButtonController) : ButtonController :=
  mkController (bc_pad self) (container_reset (left_btn self)) (container_reset (middle_btn self))
    (container_reset (right_btn self)) (state self) (button_area self) (ignore_btn_delay self)
    (handle_middle_button self).

(* src: ui/model_tr/component/button_controller.rs 383-394 (ButtonController::handle_long_press_timer_token) *)
Definition handle_long_press_timer_token (self : ButtonController) (token : TimerToken) : option ButtonPos :=
  if is_timer_token (left_btn self) token then Some PosLeft
  else if is_timer_token (middle_btn self) token then Some PosMiddle
  else if is_timer_token (right_btn self) token then Some PosRight
  else None.

(* src: ui/model_tr/component/button_controller.rs 397-404 (ButtonController::reset_state) *)
Definition reset_state (self : ButtonController) (ctx : EventCtx) : ButtonController * EventCtx :=
  let '(self, ctx) := set_pressed false false false (reset_button_presses (set_state self Nothing), ctx) in
  (set_ignore self (ignore_reset <$> ignore_btn_delay self), ctx).

Section Controller.
Context `{Clock}.

(* src: ui/model_tr/component/button_controller.rs 329-333 (ButtonController::middle_hold_started) *)
Definition middle_hold_started (s : ButtonController * EventCtx) : ButtonController * EventCtx :=
  upd PosRight hold_ended (upd PosMiddle hold_started (upd PosLeft hold_ended s)).

(* src: ui/model_tr/component/button_controller.rs 367-381 (ButtonController::got_pressed) *)
Definition got_pressed (pos : ButtonPos) (s : ButtonController * EventCtx) : ButtonController * EventCtx :=
  upd pos container_got_pressed (reset_button_presses s.1, s.2).

(** What the expiration of a hold leaves. *)
Definition htc_triggered (s : ButtonController * EventCtx) (new_state : ButtonState) (pos : ButtonPos)
    : ButtonController * EventCtx * option ButtonControllerMsg :=
  (set_pressed false false false (set_state s.1 new_state, s.2), Some (Triggered pos true)).

(* src: ui/model_tr/component/button_controller.rs 340-359 (ButtonController::handle_htc_expiration) *)
Definition handle_htc_expiration (self : ButtonController) (ctx : EventCtx) (ev : Event)
    : ButtonController * EventCtx * option ButtonControllerMsg :=
  let '(s, left) := on_btn self PosLeft ctx (htc_got_triggered ev) in
  if left then htc_triggered s (HTCNeedsRelease LeftButton) PosLeft else
  let '(s, middle) := on_btn s.1 PosMiddle s.2 (htc_got_triggered ev) in
  if middle then htc_triggered s Nothing PosMiddle else
  let '(s, right) := on_btn s.1 PosRight s.2 (htc_got_triggered ev) in
  if right then htc_triggered s (HTCNeedsRelease RightButton) PosRight else
  (s, None).

Definition other_pos (b : PhysicalButton) : ButtonPos :=
  match b with LeftButton => PosRight | RightButton => PosLeft end.

(** The new state and the message of a button event; [None] if the handler
    returns early. *)
(* src: ui/model_tr/component/button_controller.rs 416-550 (ButtonController::event) *)
Definition transition (self : ButtonController) (ctx : EventCtx) (ev : ButtonEvent)
    : ButtonController * EventCtx * option (ButtonState * option ButtonControllerMsg) :=
  let stay := (self, ctx, Some (state self, None)) in
  match state self, ev with
  | Nothing, ButtonPressed which =>
    let s :=
      match ignore_btn_delay self with
      | Some i => let '(i, ctx) := handle_button_press i ctx which in (set_ignore self (Some i), ctx)
      | None => (self, ctx)
      end in
    (upd (pos_of which) hold_started (got_pressed (pos_of which) s),
     Some (OneDown which, Some (MsgPressed (pos_of which))))
  | OneDown which_down, ButtonReleased b =>
    if bool_decide (b = which_down) then
      let self := make_clickable [other_pos which_down] self in
      let '(s, msg) := on_btn self (pos_of which_down) ctx maybe_trigger in
      (s, Some (Nothing, msg))
    else stay
  | OneDown which_down, ButtonPressed b =>
    if bool_decide (b ≠ which_down) then
      if match ignore_btn_delay self with Some i => ignore_button i b | None => false end then (self, ctx, None)
      else if handle_middle_button self then
        (middle_hold_started (got_pressed PosMiddle (self, ctx)), Some (BothDown, Some (MsgPressed PosMiddle)))
      else (got_pressed (pos_of b) (self, ctx), Some (BothDown, Some (MsgPressed (pos_of b))))
    else stay
  | BothDown, ButtonReleased b =>
    (upd PosMiddle hold_ended (self, ctx),
     Some (OneReleased b, if handle_middle_button self then None else Some (Triggered (pos_of b) false)))
  | OneReleased which_up, ButtonPressed b =>
    if bool_decide (b = which_up) then (middle_hold_started (self, ctx), Some (BothDown, None)) else stay
  | OneReleased which_up, ButtonReleased b =>
    if bool_decide (b ≠ which_up) then
      let self := make_clickable [PosLeft; PosRight] self in
      if handle_middle_button self then
        let '(s, msg) := on_btn self PosMiddle ctx maybe_trigger in
        (s, Some (Nothing, msg))
      else (self, ctx, Some (Nothing, Some (Triggered (pos_of b) false)))
    else stay
  | HTCNeedsRelease needs_release, ButtonReleased released =>
    if bool_decide (needs_release = released) then (self, ctx, Some (Nothing, None)) else stay
  | _, _ => stay
  end.

(** The visual state of the buttons. *)
(* src: ui/model_tr/component/button_controller.rs 552-569 (ButtonController::event) *)
Definition show_state (new_state : ButtonState) (s : ButtonController * EventCtx) : ButtonController * EventCtx :=
  match new_state with
  | Nothing | HTCNeedsRelease _ => set_pressed false false false s
  | OneDown LeftButton => set_pressed true false false s
  | OneDown RightButton => set_pressed false false true s
  | BothDown | OneReleased _ => set_pressed false true false s
  end.

(* src: ui/model_tr/component/button_controller.rs 410-586 (ButtonController::event) *)
Definition controller_event (self : ButtonController) (ctx : EventCtx) (ev : Event)
    : ButtonController * EventCtx * option ButtonControllerMsg :=
  match ev with
  | Button_ button_event =>
    match transition self ctx button_event with
    | (s, Some (new_state, msg)) =>
      let '(self, ctx) := show_state new_state s in
      (set_state self new_state, ctx, msg)
    | (s, None) => (s, None)
    end
  | Timer token =>
    let self := set_ignore self ((λ i, handle_timer_token i token) <$> ignore_btn_delay self) in
    match handle_long_press_timer_token self token with
    | Some pos => (self, ctx, Some (LongPressed pos))
    | None => handle_htc_expiration self ctx ev
    end
  | _ => (self, ctx, None)
  end.
End Controller.

Section ControllerComponent.
Context `{FontDriver} `{DisplayConstants} `{Clock}.
#[export] Instance controller_component : Component ButtonController ButtonControllerMsg := {
  place self bounds := Ok (controller_place self bounds, bounds);
  event self ctx ev := Ok (controller_event self ctx ev)
}.
End ControllerComponent.

(** ** Moving through items by holding a button *)

(* src: ui/model_tr/component/button_controller.rs 701-711 (AutomaticMover) *)
Record AutomaticMover := mkMover {
  timer_token : option TimerToken;
  moving_direction : option ButtonPos;
  auto_moved_screens : Z;
  duration_func : Z → Z
}.

(* src: ui/model_tr/component/button_controller.rs 715-721 (default_duration_func) *)
Definition default_duration_func (steps : Z) : Z := if steps <? 3 then 200 else if steps <? 10 then 150 else 100.

(* src: ui/model_tr/component/button_controller.rs 714-729 (AutomaticMover::new) *)
Definition mover_new : AutomaticMover := mkMover None None 0 default_duration_func.

Section Mover.
Context (self : AutomaticMover).

(* src: ui/model_tr/component/button_controller.rs 731-734 (AutomaticMover::with_duration_func) *)
Definition with_duration_func (f : Z → Z) : AutomaticMover :=
  mkMover (timer_token self) (moving_direction self) (auto_moved_screens self) f.

(* src: ui/model_tr/component/button_controller.rs 739-743 (AutomaticMover::get_auto_move_duration) *)
Definition get_auto_move_duration : Duration := duration_func self (auto_moved_screens self).

(* src: ui/model_tr/component/button_controller.rs 751-753 (AutomaticMover::is_moving) *)
Definition is_moving : bool := bool_decide (is_Some (moving_direction self)).

(* src: ui/model_tr/component/button_controller.rs 756-758 (AutomaticMover::was_moving) *)
Definition was_moving : bool := 0 <? auto_moved_screens self.

(* src: ui/model_tr/component/button_controller.rs 766-769 (AutomaticMover::stop_moving) *)
Definition stop_moving : AutomaticMover := mkMover None None (auto_moved_screens self) (duration_func self).
End Mover.

(* src: ui/model_tr/component/button_controller.rs 760-764 (AutomaticMover::start_moving) *)
Definition start_moving (self : AutomaticMover) (ctx : EventCtx) (button : ButtonPos) : AutomaticMover * EventCtx :=
  let '(token, ctx) := request_timer ctx (duration_func self 0) in
  (mkMover (Some token) (Some button) 0 (duration_func self), ctx).

(* src: ui/model_tr/component/button_controller.rs 783-795 (AutomaticMover::event) *)
Definition mover_event (self : AutomaticMover) (ctx : EventCtx) (ev : Event)
    : AutomaticMover * EventCtx * option ButtonPos :=
  match ev with
  | Timer token =>
    if bool_decide (timer_token self = Some token) && is_moving self then
      let '(token, ctx) := request_timer ctx (get_auto_move_duration self) in
      (mkMover (Some token) (moving_direction self) (wrapu usize_bits (auto_moved_screens self + 1))
         (duration_func self), ctx, moving_direction self)
    else (self, ctx, None)
  | _ => (self, ctx, None)
  end.

(** ** Pages with buttons on the model R

    [ui/model_tr/component/page.rs] and [ui/component/paginated.rs]: a content
    of several pages, with a left button that goes back or cancels and a right
    one that goes on or confirms. *)
(* src: ui/component/paginated.rs 1-17 (PageMsg) *)
Inductive PageMsg (Msg : Type) :=
| Content (msg : Msg)
| Confirmed
| Cancelled
| PageSwipeLeft
| PageSwipeRight.
Arguments Content {Msg} msg.
Arguments Confirmed {Msg}.
Arguments Cancelled {Msg}.
Arguments PageSwipeLeft {Msg}.
Arguments PageSwipeRight {Msg}.

(* src: ui/model_tr/component/page.rs 16-33 (ButtonPage) *)
Record ButtonPage (T : Type) := mkPage {
  pg_page_count : Z;
  active_page : Z;
  content : Child T;
  pg_pad : Pad;
  cancel_btn_details : option ButtonDetails;
  confirm_btn_details : option ButtonDetails;
  back_btn_details : option ButtonDetails;
  next_btn_details : option ButtonDetails;
  buttons : Child ButtonController
}.
Arguments mkPage {T} pg_page_count active_page content pg_pad cancel_btn_details confirm_btn_details
  back_btn_details next_btn_details buttons.
Arguments pg_page_count {T} b.
Arguments active_page {T} b.
Arguments content {T} b.
Arguments pg_pad {T} b.
Arguments cancel_btn_details {T} b.
Arguments confirm_btn_details {T} b.
Arguments back_btn_details {T} b.
Arguments next_btn_details {T} b.
Arguments buttons {T} b.

Section Page.
Context {T : Type}.
Implicit Types self : ButtonPage T.

Definition set_content self (c : Child T) : ButtonPage T :=
  mkPage (pg_page_count self) (active_page self) c (pg_pad self) (cancel_btn_details self)
    (confirm_btn_details self) (back_btn_details self) (next_btn_details self) (buttons self).
Definition set_buttons self (b : Child ButtonController) : ButtonPage T :=
  mkPage (pg_page_count self) (active_page self) (content self) (pg_pad self) (cancel_btn_details self)
    (confirm_btn_details self) (back_btn_details self) (next_btn_details self) b.
Definition set_pages self (count : Z) : ButtonPage T :=
  mkPage count (active_page self) (content self) (pg_pad self) (cancel_btn_details self)
    (confirm_btn_details self) (back_btn_details self) (next_btn_details self) (buttons self).
Definition set_active self (p : Z) : ButtonPage T :=
  mkPage (pg_page_count self) p (content self) (pg_pad self) (cancel_btn_details self)
    (confirm_btn_details self) (back_btn_details self) (next_btn_details self) (buttons self).
Definition set_pad self (p : Pad) : ButtonPage T :=
  mkPage (pg_page_count self) (active_page self) (content self) p (cancel_btn_details self)
    (confirm_btn_details self) (back_btn_details self) (next_btn_details self) (buttons self).

(* src: ui/model_tr/component/page.rs 56-59 (ButtonPage::with_cancel_btn) *)
Definition with_cancel_btn self (d : option ButtonDetails) : ButtonPage T :=
  mkPage (pg_page_count self) (active_page self) (content self) (pg_pad self) d
    (confirm_btn_details self) (back_btn_details self) (next_btn_details self) (buttons self).
(* src: ui/model_tr/component/page.rs 61-64 (ButtonPage::with_confirm_btn) *)
Definition with_confirm_btn self (d : option ButtonDetails) : ButtonPage T :=
  mkPage (pg_page_count self) (active_page self) (content self) (pg_pad self) (cancel_btn_details self)
    d (back_btn_details self) (next_btn_details self) (buttons self).
(* src: ui/model_tr/component/page.rs 66-69 (ButtonPage::with_back_btn) *)
Definition with_back_btn self (d : option ButtonDetails) : ButtonPage T :=
  mkPage (pg_page_count self) (active_page self) (content self) (pg_pad self) (cancel_btn_details self)
    (confirm_btn_details self) d (next_btn_details self) (buttons self).
(* src: ui/model_tr/component/page.rs 71-74 (ButtonPage::with_next_btn) *)
Definition with_next_btn self (d : option ButtonDetails) : ButtonPage T :=
  mkPage (pg_page_count self) (active_page self) (content self) (pg_pad self) (cancel_btn_details self)
    (confirm_btn_details self) (back_btn_details self) d (buttons self).

(** The number of the last page, in [usize]. *)
Definition last_page self : Z := wrapu usize_bits (pg_page_count self - 1).

(* src: ui/model_tr/component/page.rs 76-78 (ButtonPage::has_next_page) *)
Definition has_next_page self : bool := active_page self <? last_page self.

(* src: ui/model_tr/component/page.rs 80-82 (ButtonPage::has_previous_page) *)
Definition has_previous_page self : bool := 0 <? active_page self.

(* src: ui/model_tr/component/page.rs 84-86 (ButtonPage::go_to_next_page) *)
Definition go_to_next_page self : ButtonPage T :=
  set_active self (Z.min (Z.min (active_page self + 1) (2 ^ usize_bits - 1)) (last_page self)).

(* src: ui/model_tr/component/page.rs 88-90 (ButtonPage::go_to_previous_page) *)
Definition go_to_previous_page self : ButtonPage T := set_active self (Z.max (active_page self - 1) 0).

(* src: ui/model_tr/component/page.rs 127-133 (ButtonPage::get_left_button_details) *)
Definition get_left_button_details self (is_first : bool) : option ButtonDetails :=
  if is_first then cancel_btn_details self else back_btn_details self.

(* src: ui/model_tr/component/page.rs 137-143 (ButtonPage::get_right_button_details) *)
Definition get_right_button_details self (has_next_page : bool) : option ButtonDetails :=
  if has_next_page then next_btn_details self else confirm_btn_details self.

(* src: ui/model_tr/component/page.rs 120-124 (ButtonPage::get_button_layout) *)
Definition get_button_layout self (has_prev has_next : bool) : ButtonLayout :=
  mkLayout (get_left_button_details self (negb has_prev)) None (get_right_button_details self has_next).

Section Operations.
Context `{FontDriver} `{DisplayConstants} `{Clock}.

(** [confirm] is the text of the translation [buttons__confirm]. *)
(* src: ui/model_tr/component/page.rs 39-54 (ButtonPage::new) *)
Definition page_new (c : T) (background : Z) (confirm : list Z) : ui (ButtonPage T) :=
  b ← controller_new layout_empty;
  Ok (mkPage 0 0 (child_new c) (with_clear (with_background background)) (Some cancel_icon) (Some (text confirm))
        (Some up_arrow_icon) (Some down_arrow_icon_wide) (child_new b)).

(* src: ui/model_tr/component/page.rs 95-98 (ButtonPage::set_buttons_for_initial_page) *)
Definition set_buttons_for_initial_page self (page_count : Z) : ui (ButtonPage T) :=
  b ← controller_new (get_button_layout self false (1 <? page_count));
  Ok (set_buttons self (child_new b)).

(* src: ui/model_tr/component/page.rs 113-118 (ButtonPage::update_buttons) *)
Definition update_buttons self (ctx : EventCtx) : ui (ButtonPage T * EventCtx) :=
  let btn_layout := get_button_layout self (has_previous_page self) (has_next_page self) in
  '(b, ctx, _) ← mutate (buttons self) ctx (λ ctx b, b ← controller_set b btn_layout; Ok (b, ctx, tt));
  Ok (set_buttons self b, ctx).

Context `{Component T Msg} `{Paginate T}.

(* src: ui/model_tr/component/page.rs 103-110 (ButtonPage::change_page) *)
Definition change_page self (ctx : EventCtx) : ui (ButtonPage T * EventCtx) :=
  '(c, ctx, _) ← mutate (content self) ctx (λ ctx c,
    c ← content_change_page c (active_page self);
    '(c, ctx) ← request_complete_repaint c ctx;
    Ok (c, ctx, tt));
  '(self, ctx) ← update_buttons (set_content self c) ctx;
  Ok (set_pad self (clear_pad (pg_pad self)), ctx).

(* src: ui/model_tr/component/page.rs 164-178 (ButtonPage::place) *)
Definition page_place self (bounds : Rect) : ui (ButtonPage T * Rect) :=
  let '(content_area, button_area) := split_bottom bounds BUTTON_HEIGHT in
  let pad := pad_place (pg_pad self) content_area in
  '(c, _) ← place (content self) (inset content_area (insets_top LINE_SPACE));
  '(c', count) ← content_page_count (inner c);
  let self := set_pages (set_content (set_pad self pad) (mkChild c' (marked_for_paint c))) count in
  self ← set_buttons_for_initial_page self count;
  '(b, _) ← place (buttons self) button_area;
  Ok (set_buttons self b, bounds).

(** The turn of a page, or the end, after a button was triggered. *)
Definition page_triggered self (ctx : EventCtx) (pos : ButtonPos) : ui (ButtonPage T * EventCtx * option (PageMsg Msg)) :=
  match pos with
  | PosLeft =>
    if has_previous_page self then
      '(self, ctx) ← change_page (go_to_previous_page self) ctx; Ok (self, ctx, None)
    else Ok (self, ctx, Some Cancelled)
  | PosRight =>
    if has_next_page self then
      '(self, ctx) ← change_page (go_to_next_page self) ctx; Ok (self, ctx, None)
    else Ok (self, ctx, Some Confirmed)
  | PosMiddle => Ok (self, ctx, None)
  end.

(** What is left of an event is for the content. *)
Definition content_event self (ctx : EventCtx) (ev : Event) : ui (ButtonPage T * EventCtx * option (PageMsg Msg)) :=
  '(c, ctx, msg) ← (event (content self) ctx ev : ui (Child T * EventCtx * option Msg));
  Ok (set_content self c, ctx, match msg with Some m => Some (Content m) | None => None end).

(* src: ui/model_tr/component/page.rs 180-212 (ButtonPage::event) *)
Definition page_event self (ctx : EventCtx) (ev : Event) : ui (ButtonPage T * EventCtx * option (PageMsg Msg)) :=
  let ctx := set_page_count ctx (pg_page_count self) in
  '(b, ctx, msg) ← (event (buttons self) ctx ev : ui (Child ButtonController * EventCtx * option ButtonControllerMsg));
  let self := set_buttons self b in
  '(self, ctx, msg) ← (match msg with
                       | Some (Triggered pos _) => page_triggered self ctx pos
                       | _ => Ok (self, ctx, None)
                       end);
  match msg with
  | Some _ => Ok (self, ctx, msg)
  | None => content_event self ctx ev
  end.

#[export] Instance page_component : Component (ButtonPage T) (PageMsg Msg) := {
  place self bounds := page_place self bounds;
  event self ctx ev := page_event self ctx ev
}.
End Operations.
End Page.
