(* ===== verification/ControllerSpec.v ===== *)
(** * What the buttons of the model R tell

    The state machine of the controller against the gestures that the user makes
    with two physical buttons, and the time that a hold takes. *)
From S2P Require Import Prelude Time Geometry Component Theme Fonts TrButton Hold Controller.
Local Open Scope Z_scope.

(** ** Runs: events with the instants at which they are handled *)
Definition step (c : ButtonController) (ctx : EventCtx) (e : Instant * Event)
    : ButtonController * EventCtx * option ButtonControllerMsg :=
  @controller_event {| now := e.1 |} c ctx e.2.

Fixpoint run (c : ButtonController) (ctx : EventCtx) (es : list (Instant * Event))
    : ButtonController * EventCtx * list ButtonControllerMsg :=
  match es with
  | [] => (c, ctx, [])
  | e :: es =>
    let '(c, ctx, msg) := step c ctx e in
    let '(c, ctx, msgs) := run c ctx es in
    (c, ctx, option_list msg ++ msgs)
  end.

(** ** What no event changes *)
Inductive Kind := KButton | KHold | KNothing.
#[export] Instance kind_eq_dec : EqDecision Kind.
Proof. solve_decision. Defined.

Definition kind_of (t : ButtonType) : Kind :=
  match t with TypeButton _ => KButton | TypeHold _ => KHold | TypeNothing => KNothing end.

(** The place and the kind of a button. *)
Definition container_shape (c : ButtonContainer) : ButtonPos * Kind := (c_pos c, kind_of (button_type c)).

(** An operation on a button that keeps its shape. *)
Definition keeps {A} (f : ButtonContainer → EventCtx → ButtonContainer * EventCtx * A) : Prop :=
  ∀ c ctx, container_shape (f c ctx).1.1 = container_shape c.

(** The shape and state of a controller are those of another. *)
Record alike (c c' : ButtonController) : Prop := {
  alike_shape pos : container_shape (btn_at c pos) = container_shape (btn_at c' pos);
  alike_middle : handle_middle_button c = handle_middle_button c';
  alike_ignore : ignore_btn_delay c = ignore_btn_delay c';
  alike_state : state c = state c'
}.

#[export] Instance alike_equiv : Equivalence alike.
Proof.
  split; [by split| |].
  - intros c c' []. by split.
  - intros c c' c'' [] []. split; intros; congruence.
Qed.

#[export] Instance state_proper : Proper (alike ==> eq) state.
Proof. by intros c c' []. Qed.

Lemma on_btn_alike {A} c pos ctx (f : ButtonContainer → EventCtx → ButtonContainer * EventCtx * A) :
  keeps f → alike (on_btn c pos ctx f).1.1 c.
Proof.
  intros Hf. unfold on_btn. specialize (Hf (btn_at c pos) ctx).
  destruct (f (btn_at c pos) ctx) as [[c' ctx'] a]. simpl in Hf.
  destruct pos; split; try done; by intros [].
Qed.

Lemma upd_alike pos f s :
  (∀ c ctx, container_shape (f c ctx).1 = container_shape c) → alike (upd pos f s).1 s.1.
Proof. intros Hf. unfold upd. by apply on_btn_alike. Qed.

Lemma set_pressed_shape p c ctx : container_shape (container_set_pressed p c ctx).1 = container_shape c.
Proof.
  unfold container_set_pressed, container_shape. destruct (button_type c) eqn:E; cbn; rewrite ?E; try done.
  by destruct (button_set_pressed b ctx p).
Qed.

Lemma set_pressed_alike l m r s : alike (set_pressed l m r s).1 s.1.
Proof. unfold set_pressed. by rewrite !upd_alike by (intros; apply set_pressed_shape). Qed.

Lemma show_state_alike st s : alike (show_state st s).1 s.1.
Proof. destruct st as [|[]| | |]; apply set_pressed_alike. Qed.

Section Clock.
Context `{Clock}.

Lemma hold_step_keeps ev : keeps (hold_step ev).
Proof.
  intros c ctx. unfold hold_step, container_shape. destruct (button_type c) as [b|h|] eqn:E; cbn; rewrite ?E; try done.
  by destruct (hold_event h ctx ev) as [[h' ctx'] msg].
Qed.

Lemma htc_keeps ev : keeps (htc_got_triggered ev).
Proof.
  intros c ctx. unfold htc_got_triggered. pose proof (hold_step_keeps ev c ctx) as Hk.
  by destruct (hold_step ev c ctx) as [[c' ctx'] msg].
Qed.

Lemma maybe_trigger_keeps : keeps maybe_trigger.
Proof.
  intros c ctx. unfold maybe_trigger. destruct (button_type c) eqn:E; try done. apply hold_step_keeps.
Qed.

Lemma got_pressed_shape c ctx : container_shape (container_got_pressed c ctx).1 = container_shape c.
Proof. unfold container_got_pressed. by destruct (send_long_press c). Qed.

Lemma got_pressed_alike pos s : alike (got_pressed pos s).1 s.1.
Proof.
  unfold got_pressed. rewrite upd_alike by (intros; apply got_pressed_shape). split; try done. by intros [].
Qed.

Lemma middle_hold_alike s : alike (middle_hold_started s).1 s.1.
Proof. unfold middle_hold_started, hold_started, hold_ended. by rewrite !upd_alike by (intros; apply hold_step_keeps). Qed.

Lemma started_alike pos s : alike (upd pos hold_started s).1 s.1.
Proof. apply upd_alike. intros. apply hold_step_keeps. Qed.

Lemma ended_alike pos s : alike (upd pos hold_ended s).1 s.1.
Proof. apply upd_alike. intros. apply hold_step_keeps. Qed.
End Clock.

(** ** Gestures: which buttons are down, and whether both have been *)
Record Gesture := mkGesture { left_held : bool; right_held : bool; chord : bool }.

Definition no_gesture : Gesture := mkGesture false false false.

Definition other (b : PhysicalButton) : PhysicalButton :=
  match b with LeftButton => RightButton | RightButton => LeftButton end.
Definition held (g : Gesture) (b : PhysicalButton) : bool :=
  match b with LeftButton => left_held g | RightButton => right_held g end.
Definition set_held (g : Gesture) (b : PhysicalButton) (v chord : bool) : Gesture :=
  match b with
  | LeftButton => mkGesture v (right_held g) chord
  | RightButton => mkGesture (left_held g) v chord
  end.

(** A button goes down only when it is up, and up only when it is down. *)
Definition possible (g : Gesture) (ev : Event) : bool :=
  match ev with
  | Button_ (ButtonPressed b) => negb (held g b)
  | Button_ (ButtonReleased b) => held g b
  | _ => true
  end.

Definition layout_at (l : ButtonLayout) (pos : ButtonPos) : option ButtonDetails :=
  match pos with PosLeft => btn_left l | PosMiddle => btn_middle l | PosRight => btn_right l end.
Definition present (l : ButtonLayout) (pos : ButtonPos) : bool := bool_decide (is_Some (layout_at l pos)).

(** What a gesture does: with a middle button, both buttons together are that
    button once the last one is up, and one on its own is itself.  Without a
    middle button, a button is itself when it is up again; after both were down
    even if the layout has no such button. *)
Definition gesture_step (l : ButtonLayout) (g : Gesture) (ev : Event) : Gesture * list ButtonPos :=
  let shown pos := if present l pos then [pos] else [] in
  match ev with
  | Button_ (ButtonPressed b) => (set_held g b true (held g (other b) || chord g), [])
  | Button_ (ButtonReleased b) =>
    if held g (other b) then
      (set_held g b false (chord g), if present l PosMiddle then [] else [pos_of b])
    else
      (set_held g b false false,
       if chord g then if present l PosMiddle then [PosMiddle] else [pos_of b] else shown (pos_of b))
  | _ => (g, [])
  end.

Fixpoint gestures (l : ButtonLayout) (g : Gesture) (evs : list Event) : list ButtonPos :=
  match evs with
  | [] => []
  | ev :: evs => let '(g, out) := gesture_step l g ev in out ++ gestures l g evs
  end.

Fixpoint physical (l : ButtonLayout) (g : Gesture) (evs : list Event) : bool :=
  match evs with
  | [] => true
  | ev :: evs => possible g ev && physical l (gesture_step l g ev).1 evs
  end.

Definition triggered_pos (msg : ButtonControllerMsg) : list ButtonPos :=
  match msg with Triggered pos _ => [pos] | _ => [] end.

(** The state of the controller in the middle of a gesture. *)
Definition gesture_state (g : Gesture) : ButtonState :=
  match left_held g, right_held g with
  | false, false => Nothing
  | true, true => BothDown
  | true, false => if chord g then OneReleased RightButton else OneDown LeftButton
  | false, true => if chord g then OneReleased LeftButton else OneDown RightButton
  end.

(** Both buttons down make a chord, which ends when none is. *)
Definition gesture_ok (g : Gesture) : Prop :=
  (left_held g && right_held g = true → chord g = true) ∧ (left_held g || right_held g = false → chord g = false).

(** ** Layouts of plain buttons *)
Definition plain (l : ButtonLayout) : Prop :=
  ∀ pos d, layout_at l pos = Some d → bd_duration d = None.

(** A controller with the buttons of a layout. *)
Record shows (l : ButtonLayout) (c : ButtonController) : Prop := {
  shows_btn pos : container_shape (btn_at c pos) = (pos, if present l pos then KButton else KNothing);
  shows_middle : handle_middle_button c = present l PosMiddle;
  shows_ignore : ignore_btn_delay c = None
}.

#[export] Instance shows_proper l : Proper (alike ==> iff) (shows l).
Proof.
  intros c c' [Hs Hm Hi _]. split; intros [Hs' Hm' Hi']; split; try congruence; intros pos;
    specialize (Hs pos); specialize (Hs' pos); congruence.
Qed.

Lemma set_state_shows l c st : shows l (set_state c st) ↔ shows l c.
Proof. split; intros [Hs ??]; split; try done; intros pos; specialize (Hs pos); by destruct pos. Qed.

Section New.
Context `{FontDriver} `{DisplayConstants}.

Lemma container_new_plain pos d c :
  (∀ d', d = Some d' → bd_duration d' = None) → container_new pos d = Ok c →
  container_shape c = (pos, if bool_decide (is_Some d) then KButton else KNothing).
Proof.
  intros Hd. unfold container_new, type_from_details. destruct d as [d|]; cbn.
  - rewrite (Hd d) by done. cbn. by intros [= <-].
  - by intros [= <-].
Qed.

Lemma controller_new_shows l c : plain l → controller_new l = Ok c → shows l c ∧ state c = Nothing.
Proof.
  intros Hp. unfold controller_new.
  destruct (container_new PosLeft (btn_left l)) as [cl| | |] eqn:El; try done.
  destruct (container_new PosMiddle (btn_middle l)) as [cm| | |] eqn:Em; try done.
  destruct (container_new PosRight (btn_right l)) as [cr| | |] eqn:Er; try done.
  cbn. intros [= <-]. split; [|done].
  apply container_new_plain in El; [|intros; by apply (Hp PosLeft)].
  apply container_new_plain in Em; [|intros; by apply (Hp PosMiddle)].
  apply container_new_plain in Er; [|intros; by apply (Hp PosRight)].
  split; [|done|done]. by intros [].
Qed.
End New.

(** ** Steps of a controller of plain buttons *)
Section Steps.
Context `{Clock} (l : ButtonLayout).

Lemma clickable_alike ps c : ignore_btn_delay c = None → alike (make_clickable ps c) c.
Proof. intros Hi. unfold make_clickable. rewrite Hi. split; try done. Qed.

Lemma trigger_shows c pos ctx :
  shows l c →
  ∃ c' ctx' msg, on_btn c pos ctx maybe_trigger = (c', ctx', msg) ∧ shows l c' ∧
    option_list msg ≫= triggered_pos = if present l pos then [pos] else [].
Proof.
  intros Hc. pose proof (on_btn_alike c pos ctx maybe_trigger maybe_trigger_keeps) as Ha.
  pose proof (shows_btn l c Hc pos) as Hb. unfold container_shape in Hb.
  destruct (on_btn c pos ctx maybe_trigger) as [[c' ctx'] msg] eqn:E. exists c', ctx', msg.
  split; [done|]. split; [by rewrite Ha|]. revert E. unfold on_btn, maybe_trigger. cbn.
  destruct (present l pos), (button_type (btn_at c pos)); cbn in *; try done; intros [= _ _ <-]; cbn;
    congruence.
Qed.

Lemma expiration_shows c ctx ev :
  shows l c →
  ∃ c' ctx', handle_htc_expiration c ctx ev = (c', ctx', None) ∧ alike c' c.
Proof.
  intros Hc. unfold handle_htc_expiration.
  assert (∀ c pos ctx, shows l c → ∃ c' ctx', on_btn c pos ctx (htc_got_triggered ev) = (c', ctx', false) ∧ alike c' c)
    as Hon.
  { clear c ctx Hc. intros c pos ctx Hc.
    pose proof (on_btn_alike c pos ctx (htc_got_triggered ev) (htc_keeps ev)) as Ha.
    pose proof (shows_btn l c Hc pos) as Hb. unfold container_shape in Hb. revert Ha.
    unfold on_btn, htc_got_triggered, hold_step.
    destruct (present l pos), (button_type (btn_at c pos)); try done; cbn; eauto. }
  destruct (Hon c PosLeft ctx Hc) as (c1 & ctx1 & -> & H1). cbn.
  destruct (Hon c1 PosMiddle ctx1) as (c2 & ctx2 & -> & H2); [by rewrite H1|]. cbn.
  destruct (Hon c2 PosRight ctx2) as (c3 & ctx3 & -> & H3); [by rewrite H2, H1|]. cbn.
  eexists _, _. split; [done|]. by rewrite H3, H2.
Qed.

(** The cases of a gesture that can be, with the buttons compared. *)
Ltac gesture_cases g b :=
  destruct g as [[] [] []], b; try done; cbn in *;
  repeat match goal with
         | H : ?x = ?x → _ |- _ => specialize (H eq_refl)
         | H : true = false → _ |- _ => clear H
         | H : false = true → _ |- _ => clear H
         end; try discriminate;
  rewrite ?(bool_decide_true (_ = _)) by done; rewrite ?(bool_decide_true (_ ≠ _)) by done.

Lemma press_gesture c ctx g b :
  shows l c → gesture_ok g → state c = gesture_state g → held g b = false →
  ∃ s msg, transition c ctx (ButtonPressed b)
           = (s, Some (gesture_state (gesture_step l g (Button_ (ButtonPressed b))).1, msg)) ∧
    shows l s.1 ∧ option_list msg ≫= triggered_pos = [].
Proof.
  intros Hc [Hboth Hnone] Hst Hp. unfold transition. rewrite Hst, (shows_middle l c Hc), (shows_ignore l c Hc).
  gesture_cases g b; try destruct (present l PosMiddle); eexists _, _; (split; [done|]); (split; [|done]);
    by rewrite ?started_alike, ?middle_hold_alike, ?got_pressed_alike.
Qed.

Lemma release_gesture c ctx g b :
  shows l c → gesture_ok g → state c = gesture_state g → held g b = true →
  ∃ s msg, transition c ctx (ButtonReleased b)
           = (s, Some (gesture_state (gesture_step l g (Button_ (ButtonReleased b))).1, msg)) ∧
    shows l s.1 ∧ option_list msg ≫= triggered_pos = (gesture_step l g (Button_ (ButtonReleased b))).2.
Proof.
  intros Hc [Hboth Hnone] Hst Hp. unfold transition. rewrite Hst, (shows_middle l c Hc).
  assert (∀ ps, shows l (make_clickable ps c)) as Hps
    by (intros; by rewrite clickable_alike by apply (shows_ignore l c Hc)).
  gesture_cases g b; rewrite ?(shows_middle l c Hc).
  1,2: eexists _, _; (split; [done|]); (split; [by rewrite ended_alike|by destruct (present l PosMiddle)]).
  1,3: destruct (present l PosMiddle) eqn:Em; [|eexists _, _; split; [done|]; split; [apply Hps|done]].
  all: edestruct trigger_shows as (c' & ctx' & msg & -> & Hs & Hm); [apply Hps|];
    eexists _, _; (split; [done|]); (split; [done|]); rewrite Hm; by rewrite ?Em.
Qed.

Lemma gesture_step_ok g ev : gesture_ok g → possible g ev = true → gesture_ok (gesture_step l g ev).1.
Proof.
  intros [Hboth Hnone] Hp. destruct ev as [[b|b| |]| | | | | | |]; try done; destruct g as [[] [] []], b; try done;
    cbn in *; split; cbn; try done; naive_solver.
Qed.

Lemma event_transition c ctx ev s st msg :
  transition c ctx ev = (s, Some (st, msg)) → shows l s.1 →
  ∃ c' ctx', controller_event c ctx (Button_ ev) = (c', ctx', msg) ∧ shows l c' ∧ state c' = st.
Proof.
  intros Ht Hs. unfold controller_event. rewrite Ht. pose proof (show_state_alike st s) as Ha.
  destruct (show_state st s) as [c' ctx']. eexists _, _. split; [done|]. split; [|done].
  apply set_state_shows. by rewrite Ha.
Qed.

Lemma timer_shows c ctx token :
  shows l c →
  ∃ c' ctx' msg, controller_event c ctx (Timer token) = (c', ctx', msg) ∧ alike c' c ∧
    option_list msg ≫= triggered_pos = [].
Proof.
  intros Hc. unfold controller_event. rewrite (shows_ignore l c Hc).
  assert (alike (set_ignore c None) c) as Ha.
  { split; try done. by rewrite (shows_ignore l c Hc). }
  cbn [fmap option_fmap option_map].
  destruct (handle_long_press_timer_token _ _); [by eexists _, _, _|].
  destruct (expiration_shows (set_ignore c None) ctx (Timer token)) as (c' & ctx' & -> & Hc'); [by rewrite Ha|].
  eexists _, _, _. split; [done|]. by rewrite Hc'.
Qed.

(** One event: the controller goes along with the gesture. *)
Lemma event_gesture c ctx g ev :
  shows l c → gesture_ok g → state c = gesture_state g → possible g ev = true →
  ∃ c' ctx' msg, controller_event c ctx ev = (c', ctx', msg) ∧ shows l c' ∧
    state c' = gesture_state (gesture_step l g ev).1 ∧
    option_list msg ≫= triggered_pos = (gesture_step l g ev).2.
Proof.
  intros Hc Hg Hst Hp. destruct ev as [[b|b| |]|?|?|token|??|?| |?]; try by eexists _, _, _.
  - destruct (press_gesture c ctx g b Hc Hg Hst) as (s & msg & Ht & Hs & Hm); [by apply negb_true_iff|].
    destruct (event_transition _ _ _ _ _ _ Ht Hs) as (c' & ctx' & -> & Hc' & Hst').
    by eexists _, _, _.
  - destruct (release_gesture c ctx g b Hc Hg Hst Hp) as (s & msg & Ht & Hs & Hm).
    destruct (event_transition _ _ _ _ _ _ Ht Hs) as (c' & ctx' & -> & Hc' & Hst').
    by eexists _, _, _.
  - destruct (event_transition c ctx HoldStarted (c, ctx) (state c) None) as (c' & ctx' & -> & Hc' & Hst');
      [unfold transition; by destruct (state c)|done|]. eexists _, _, _. by rewrite Hst'.
  - destruct (event_transition c ctx HoldEnded (c, ctx) (state c) None) as (c' & ctx' & -> & Hc' & Hst');
      [unfold transition; by destruct (state c)|done|]. eexists _, _, _. by rewrite Hst'.
  - destruct (timer_shows c ctx token Hc) as (c' & ctx' & msg & -> & Ha & Hm).
    eexists _, _, _. split; [done|]. by rewrite Ha.
Qed.
End Steps.

Lemma run_gestures l es c ctx g :
  shows l c → gesture_ok g → state c = gesture_state g → physical l g es.*2 = true →
  (run c ctx es).2 ≫= triggered_pos = gestures l g es.*2.
Proof.
  revert c ctx g. induction es as [|[t ev] es IH]; intros c ctx g Hc Hg Hst Hp; [done|].
  cbn in Hp. apply andb_prop in Hp as [Hp Hps]. cbn. unfold step. cbn.
  destruct (@event_gesture {| now := t |} l c ctx g ev Hc Hg Hst Hp) as (c' & ctx' & msg & -> & Hc' & Hst' & Hm).
  specialize (IH c' ctx' (gesture_step l g ev).1 Hc' (gesture_step_ok l g ev Hg Hp) Hst' Hps).
  destruct (run c' ctx' es) as [[c'' ctx''] msgs]. cbn in *. rewrite bind_app, IH, Hm.
  by destruct (gesture_step l g ev).
Qed.

(** ** Time of a hold *)

(** The bar is neither empty nor full in the first second, and full after it. *)
Lemma bar_growing : forallb (λ d, let v := lerp_bounded LOADER_MIN LOADER_MAX (duration_ratio d DEFAULT_DURATION_MS) in
                                  (LOADER_MIN <? v) && (v <? LOADER_MAX)) (seqZ 1 999) = true.
Proof. vm_compute. reflexivity. Qed.

Lemma bar_grown : forallb (λ d, lerp_bounded LOADER_MIN LOADER_MAX (duration_ratio d DEFAULT_DURATION_MS) =? LOADER_MAX)
                    (seqZ 1000 1000) = true.
Proof. vm_compute. reflexivity. Qed.

(** A hold that began at an instant, [d] milliseconds after it. *)
Definition hold_animation (t0 : Instant) : Animation := mkAnimation LOADER_MIN LOADER_MAX DEFAULT_DURATION_MS t0.

Lemma hold_value t0 d :
  in_u 32 t0 → 0 <= d < 2 ^ 31 →
  anim_value (hold_animation t0) (wrapu 32 (t0 + d))
  = lerp_bounded LOADER_MIN LOADER_MAX (duration_ratio d DEFAULT_DURATION_MS).
Proof.
  intros Ht Hd. unfold anim_value, anim_elapsed, saturating_duration_since. cbn [started hold_animation from to duration].
  rewrite checked_duration_since_later by (unfold in_u in *; lia). rewrite max_difference.
  by destruct (Z.leb_spec d (2 ^ 31 - 1)); [|lia].
Qed.

Lemma hold_value_early t0 d :
  in_u 32 t0 → 1 <= d < 1000 → LOADER_MIN < anim_value (hold_animation t0) (wrapu 32 (t0 + d)) < LOADER_MAX.
Proof.
  intros Ht Hd. rewrite hold_value by (done || lia). pose proof bar_growing as H.
  rewrite forallb_forall in H. specialize (H d). cbn beta zeta in H.
  apply andb_prop in H; [lia|]. apply list_elem_of_In, elem_of_seqZ. lia.
Qed.

Lemma hold_value_late t0 d :
  in_u 32 t0 → 1000 <= d < 2000 → anim_value (hold_animation t0) (wrapu 32 (t0 + d)) = LOADER_MAX.
Proof.
  intros Ht Hd. rewrite hold_value by (done || lia). pose proof bar_grown as H.
  rewrite forallb_forall in H. specialize (H d). cbn beta in H. apply Z.eqb_eq, H.
  apply list_elem_of_In, elem_of_seqZ. lia.
Qed.

(** *** Holds of a button *)
Definition the_hold (c : ButtonContainer) : option HoldToConfirm :=
  match button_type c with TypeHold h => Some h | _ => None end.

(** Nothing is being held there. *)
Definition quiet (c : ButtonContainer) : Prop :=
  ∀ h, the_hold c = Some h → is_animating (htc_loader h) = false.

(** It has been held since [t0]. *)
Definition growing (t0 : Instant) (c : ButtonContainer) : Prop :=
  ∃ h, the_hold c = Some h ∧ ld_state (htc_loader h) = LoadGrowing (hold_animation t0).

Lemma set_type_same c h : the_hold c = Some h → set_type c (TypeHold h) = c.
Proof. destruct c as [? []]; by intros [= ->]. Qed.

Lemma mk_hold_same h : mkHold (htc_pos h) (htc_loader h) (htc_text_width h) = h.
Proof. by destruct h. Qed.

(** A frame for a button. *)
Lemma frame_hold `{Clock} c ctx h :
  the_hold c = Some h →
  htc_got_triggered (Timer ANIM_FRAME_TIMER) c ctx
  = let '(l, ctx, msg) := loader_frame now (htc_loader h) ctx in
    (set_type c (TypeHold (mkHold (htc_pos h) l (htc_text_width h))), ctx,
     match msg with Some GrownCompletely => true | _ => false end).
Proof.
  unfold the_hold, htc_got_triggered, hold_step, hold_event. destruct (button_type c); try done. intros [= ->].
  cbn. by destruct (loader_frame now (htc_loader h) ctx) as [[l ctx'] [[]|]].
Qed.

Lemma quiet_frame `{Clock} c ctx :
  quiet c → htc_got_triggered (Timer ANIM_FRAME_TIMER) c ctx = (c, ctx, false).
Proof.
  intros Hq. destruct (the_hold c) as [h|] eqn:E.
  - rewrite (frame_hold c ctx h E). unfold loader_frame. rewrite (Hq h E). by rewrite mk_hold_same, set_type_same.
  - unfold the_hold in E. unfold htc_got_triggered, hold_step. by destruct (button_type c).
Qed.

Lemma frame_early t0 d c ctx :
  in_u 32 t0 → 1 <= d < 1000 → growing t0 c →
  ∃ ctx', @htc_got_triggered {| now := wrapu 32 (t0 + d) |} (Timer ANIM_FRAME_TIMER) c ctx = (c, ctx', false).
Proof.
  intros Ht Hd (h & Hh & Hl). rewrite (frame_hold c ctx h Hh). unfold loader_frame, is_completely_grown, is_completely_shrunk.
  unfold progress, is_animating, animation. rewrite Hl. cbn [fmap option_fmap option_map].
  pose proof (hold_value_early t0 d Ht Hd) as Hv. rewrite bool_decide_true by done. cbn [now].
  rewrite bool_decide_false by (intros [= Heq]; lia). rewrite bool_decide_false by (intros [= Heq]; lia).
  eexists. by rewrite mk_hold_same, set_type_same.
Qed.

Lemma frame_late t0 d c ctx :
  in_u 32 t0 → 1000 <= d < 2000 → growing t0 c →
  ∃ c' ctx', @htc_got_triggered {| now := wrapu 32 (t0 + d) |} (Timer ANIM_FRAME_TIMER) c ctx = (c', ctx', true) ∧
    quiet c' ∧ long_pressed_timer c' = long_pressed_timer c.
Proof.
  intros Ht Hd (h & Hh & Hl). rewrite (frame_hold c ctx h Hh). unfold loader_frame, is_completely_grown.
  unfold progress, is_animating, animation. rewrite Hl. cbn [fmap option_fmap option_map now].
  rewrite (hold_value_late t0 d Ht Hd), !bool_decide_true by done.
  eexists _, _. split; [done|]. split; [|done]. by intros ? [= <-].
Qed.

(** *** Holds of a controller *)

(** The button of [b] has been held since [t0], on its own. *)
Record holding (b : PhysicalButton) (t0 : Instant) (c : ButtonController) : Prop := {
  hold_state : state c = OneDown b;
  hold_ignore : ignore_btn_delay c = None;
  hold_timers pos : long_pressed_timer (btn_at c pos) = None;
  hold_growing : growing t0 (btn_at c (pos_of b));
  hold_quiet pos : pos ≠ pos_of b → quiet (btn_at c pos)
}.

(** Nothing is held, whatever is pressed. *)
Record resting (st : ButtonState) (c : ButtonController) : Prop := {
  rest_state : state c = st;
  rest_ignore : ignore_btn_delay c = None;
  rest_timers pos : long_pressed_timer (btn_at c pos) = None;
  rest_quiet pos : quiet (btn_at c pos)
}.

(** Buttons are shown otherwise, but held alike. *)
Record held_alike (c c' : ButtonController) : Prop := {
  held_ignore : ignore_btn_delay c = ignore_btn_delay c';
  held_timer pos : long_pressed_timer (btn_at c pos) = long_pressed_timer (btn_at c' pos);
  held_hold pos : the_hold (btn_at c pos) = the_hold (btn_at c' pos);
  held_pos pos : c_pos (btn_at c pos) = c_pos (btn_at c' pos)
}.

#[export] Instance held_alike_preorder : PreOrder held_alike.
Proof. split; [by split|]. intros c c' c'' [] []. split; intros; congruence. Qed.

Lemma container_set_pressed_held p c ctx :
  long_pressed_timer (container_set_pressed p c ctx).1 = long_pressed_timer c ∧
  the_hold (container_set_pressed p c ctx).1 = the_hold c ∧ c_pos (container_set_pressed p c ctx).1 = c_pos c.
Proof.
  unfold container_set_pressed, the_hold. destruct (button_type c) eqn:E; cbn; rewrite ?E; try done.
  by destruct (button_set_pressed b ctx p).
Qed.

Lemma upd_pressed_held pos p s : held_alike (upd pos (container_set_pressed p) s).1 s.1.
Proof.
  destruct s as [c ctx]. unfold upd, on_btn. cbn.
  pose proof (container_set_pressed_held p (btn_at c pos) ctx) as (Ht & Hh & Hp).
  destruct (container_set_pressed p (btn_at c pos) ctx) as [c' ctx']. cbn in *.
  split; [by destruct pos|..]; intros pos'; destruct pos, pos'; done.
Qed.

Lemma set_pressed_held l m r s : held_alike (set_pressed l m r s).1 s.1.
Proof.
  unfold set_pressed. etransitivity; [apply upd_pressed_held|]. etransitivity; apply upd_pressed_held.
Qed.

Lemma show_state_held st s : held_alike (show_state st s).1 s.1.
Proof. destruct st as [|[]| | |]; apply set_pressed_held. Qed.

Lemma set_state_held c st : held_alike (set_state c st) c.
Proof. split; try done; by intros []. Qed.

Lemma resting_alike c c' st : held_alike c' c → state c' = st → (∃ st, resting st c) → resting st c'.
Proof.
  intros [Hi Ht Hh] Hs (? & [_ ? Htm Hq]). split; [done|congruence|intros; rewrite Ht; apply Htm|].
  intros pos h. rewrite Hh. apply Hq.
Qed.

Lemma holding_alike c c' b t0 :
  held_alike c' c → state c' = OneDown b → ignore_btn_delay c = None →
  (∀ pos, long_pressed_timer (btn_at c pos) = None) → growing t0 (btn_at c (pos_of b)) →
  (∀ pos, pos ≠ pos_of b → quiet (btn_at c pos)) → holding b t0 c'.
Proof.
  intros [Hi Ht Hh] Hs Hig Htm (h & Hg & Hl) Hq. split; [done|congruence|intros; rewrite Ht; apply Htm| |].
  - exists h. by rewrite Hh.
  - intros pos Hp h'. rewrite Hh. by apply Hq.
Qed.

Lemma on_btn_same {A} c pos ctx ctx' (f : ButtonContainer → EventCtx → ButtonContainer * EventCtx * A) a :
  f (btn_at c pos) ctx = (btn_at c pos, ctx', a) → on_btn c pos ctx f = (c, ctx', a).
Proof. unfold on_btn. intros ->. by destruct c, pos. Qed.

(** A frame goes to the buttons, from left to right. *)
Lemma frame_event `{Clock} c ctx :
  ignore_btn_delay c = None → (∀ pos, long_pressed_timer (btn_at c pos) = None) →
  controller_event c ctx (Timer ANIM_FRAME_TIMER) = handle_htc_expiration c ctx (Timer ANIM_FRAME_TIMER).
Proof.
  intros Hi Ht. unfold controller_event. rewrite Hi. cbn [fmap option_fmap option_map].
  replace (set_ignore c None) with c by (destruct c; by cbn in *; subst).
  unfold handle_long_press_timer_token, is_timer_token.
  by rewrite (Ht PosLeft : long_pressed_timer (left_btn c) = None), (Ht PosMiddle : long_pressed_timer (middle_btn c) = None),
    (Ht PosRight : long_pressed_timer (right_btn c) = None).
Qed.

Lemma frame_resting `{Clock} c ctx st :
  resting st c → controller_event c ctx (Timer ANIM_FRAME_TIMER) = (c, ctx, None).
Proof.
  intros [Hs Hi Ht Hq]. rewrite frame_event by done. unfold handle_htc_expiration.
  by rewrite !(on_btn_same _ _ _ ctx _ false) by (apply quiet_frame, Hq).
Qed.

Lemma frame_holding b t0 d c ctx :
  in_u 32 t0 → 1 <= d < 1000 → holding b t0 c →
  ∃ ctx', step c ctx (wrapu 32 (t0 + d), Timer ANIM_FRAME_TIMER) = (c, ctx', None).
Proof.
  intros Ht0 Hd [Hs Hi Ht Hg Hq]. unfold step. cbn [fst snd]. rewrite frame_event by done. unfold handle_htc_expiration.
  destruct b.
  - destruct (frame_early t0 d _ ctx Ht0 Hd Hg) as [ctx' Hf].
    rewrite (on_btn_same _ PosLeft _ ctx' _ false) by done. cbn.
    rewrite (on_btn_same _ PosMiddle _ ctx' _ false) by (apply quiet_frame, Hq; done). cbn.
    rewrite (on_btn_same _ PosRight _ ctx' _ false) by (apply quiet_frame, Hq; done). eauto.
  - destruct (frame_early t0 d _ ctx Ht0 Hd Hg) as [ctx' Hf].
    rewrite (on_btn_same _ PosLeft _ ctx _ false) by (apply quiet_frame, Hq; done). cbn.
    rewrite (on_btn_same _ PosMiddle _ ctx _ false) by (apply quiet_frame, Hq; done). cbn.
    rewrite (on_btn_same _ PosRight _ ctx' _ false) by done. eauto.
Qed.

(** The frame that ends the hold. *)
Lemma frame_done b t0 d c ctx :
  in_u 32 t0 → 1000 <= d < 2000 → holding b t0 c →
  ∃ c' ctx', step c ctx (wrapu 32 (t0 + d), Timer ANIM_FRAME_TIMER) = (c', ctx', Some (Triggered (pos_of b) true)) ∧
    resting (HTCNeedsRelease b) c'.
Proof.
  intros Ht0 Hd [Hs Hi Ht Hg Hq]. unfold step. cbn [fst snd]. rewrite frame_event by done.
  destruct (frame_late t0 d _ ctx Ht0 Hd Hg) as (cb & ctx' & Hf & Hcb & Htb).
  assert (resting (OneDown b) (set_btn c (pos_of b) cb)) as Hr.
  { split; [by destruct b|by destruct b|..]; intros pos; specialize (Ht pos); specialize (Hq pos);
      destruct b, pos; cbn in *; try done; try congruence; by apply Hq. }
  assert (∀ st, let s := htc_triggered (set_btn c (pos_of b) cb, ctx') st (pos_of b) in
                resting st s.1.1 ∧ s.2 = Some (Triggered (pos_of b) true)) as Hd'.
  { intros st. cbn. split; [|done]. eapply resting_alike; [|by rewrite set_pressed_alike|by eexists].
    etransitivity; [apply set_pressed_held|]. apply set_state_held. }
  unfold handle_htc_expiration. destruct b.
  - unfold on_btn at 1. cbn [pos_of btn_at] in *. rewrite Hf. specialize (Hd' (HTCNeedsRelease LeftButton)). cbn zeta in Hd'.
    destruct (htc_triggered _ _ _) as [[c' ctx''] msg]. exists c', ctx''. destruct Hd' as [? [= ->]]. done.
  - rewrite (on_btn_same _ PosLeft _ ctx _ false) by (apply quiet_frame, Hq; done). cbn [fst snd].
    rewrite (on_btn_same _ PosMiddle _ ctx _ false) by (apply quiet_frame, Hq; done). cbn [fst snd].
    unfold on_btn at 1. cbn [pos_of btn_at] in *. rewrite Hf. specialize (Hd' (HTCNeedsRelease RightButton)). cbn zeta in Hd'.
    destruct (htc_triggered _ _ _) as [[c' ctx''] msg]. exists c', ctx''. destruct Hd' as [? [= ->]]. done.
Qed.

(** The button comes up before. *)
Lemma release_holding b t0 t c ctx :
  (∀ pos, c_pos (btn_at c pos) = pos) → holding b t0 c →
  ∃ c' ctx', step c ctx (t, Button_ (ButtonReleased b)) = (c', ctx', Some (ReleasedWithoutLongPress (pos_of b))) ∧
    state c' = Nothing.
Proof.
  intros Hp [Hs Hi Ht (h & Hh & Hl) Hq]. unfold step, controller_event, transition. cbn [fst snd]. rewrite Hs.
  rewrite bool_decide_true by done. unfold make_clickable. rewrite Hi. cbn [fmap option_fmap option_map].
  unfold on_btn. replace (btn_at (set_ignore c None) (pos_of b)) with (btn_at c (pos_of b)) by (by destruct b).
  unfold maybe_trigger. unfold the_hold in Hh. destruct (button_type (btn_at c (pos_of b))); try done.
  rewrite (Hp (pos_of b)). destruct (hold_ended _ _) as [c' ctx'].
  destruct (show_state _ _) as [c'' ctx'']. by eexists _, _.
Qed.

(** After the confirmation the button comes up for nothing. *)
Lemma release_resting b t c ctx :
  resting (HTCNeedsRelease b) c →
  ∃ c' ctx', step c ctx (t, Button_ (ButtonReleased b)) = (c', ctx', None) ∧ resting Nothing c'.
Proof.
  intros Hr. unfold step, controller_event, transition. cbn [fst snd]. rewrite (rest_state _ _ Hr).
  rewrite bool_decide_true by done. pose proof (show_state_held Nothing (c, ctx)) as Ha.
  destruct (show_state Nothing (c, ctx)) as [c' ctx']. eexists _, _. split; [done|].
  eapply resting_alike; [|done|by eexists]. etransitivity; [apply set_state_held|done].
Qed.

(** *** Whole holds *)
Definition frames (ts : list Instant) : list (Instant * Event) := (λ t, (t, Timer ANIM_FRAME_TIMER)) <$> ts.

Lemma run_app c ctx es es' :
  run c ctx (es ++ es')
  = let '(c', ctx', msgs) := run c ctx es in
    let '(c'', ctx'', msgs') := run c' ctx' es' in (c'', ctx'', msgs ++ msgs').
Proof.
  revert c ctx. induction es as [|e es IH]; intros c ctx; cbn.
  { by destruct (run c ctx es') as [[? ?] ?]. }
  destruct (step c ctx e) as [[c' ctx'] msg]. rewrite IH. destruct (run c' ctx' es) as [[c1 ctx1] msgs].
  destruct (run c1 ctx1 es') as [[? ?] ?]. by rewrite app_assoc.
Qed.

Lemma frames_holding b t0 ds c ctx :
  in_u 32 t0 → Forall (λ d, 1 <= d < 1000) ds → holding b t0 c →
  ∃ ctx', run c ctx (frames ((λ d, wrapu 32 (t0 + d)) <$> ds)) = (c, ctx', []).
Proof.
  intros Ht0 Hds Hc. revert ctx. induction Hds as [|d ds Hd Hds IH]; intros ctx; [by eexists|].
  unfold frames. rewrite !fmap_cons. cbn [run].
  destruct (frame_holding b t0 d c ctx Ht0 Hd Hc) as [ctx' Hf]. unfold step in *. cbn [fst snd] in *. rewrite Hf.
  destruct (IH ctx') as [ctx'' Hr]. unfold frames in Hr. rewrite Hr. by eexists.
Qed.

Lemma frames_resting st ts c ctx : resting st c → run c ctx (frames ts) = (c, ctx, []).
Proof.
  intros Hc. induction ts as [|t ts IH]; [done|]. unfold frames. rewrite fmap_cons. cbn [run]. unfold step. cbn [fst snd].
  rewrite (frame_resting c ctx st Hc). unfold frames in IH. by rewrite IH.
Qed.

(** *** The beginning *)

(** A hold button that is not being held. *)
Definition hold_ready (dur : Duration) (c : ButtonContainer) : Prop :=
  send_long_press c = false ∧
  ∃ h, the_hold c = Some h ∧ ld_state (htc_loader h) = LoadInitial ∧ growing_duration (htc_loader h) = dur.

Lemma hold_started_growing `{Clock} c ctx since :
  hold_ready DEFAULT_DURATION_MS c → growing now (hold_started (set_press c since None) ctx).1.
Proof.
  intros [_ (h & Hh & Hl & Hd)]. unfold hold_started, hold_step, hold_event. unfold the_hold in Hh.
  cbn [button_type set_press]. destruct (button_type c); try done. injection Hh as ->. cbn.
  unfold start_growing. rewrite Hl, Hd. by eexists.
Qed.

Lemma hold_started_timer `{Clock} c ctx : long_pressed_timer (hold_started c ctx).1 = long_pressed_timer c ∧
  c_pos (hold_started c ctx).1 = c_pos c.
Proof.
  unfold hold_started, hold_step. by destruct (button_type c) as [|h|].
Qed.

(** The containers after a press. *)
Lemma press_containers `{Clock} p c ctx :
  send_long_press (btn_at c p) = false →
  let c1 := set_press (btn_at c p) (Some now) None in
  (upd p hold_started (got_pressed p (c, ctx))).1
  = set_btn (set_btn (reset_button_presses c) p c1) p (hold_started c1 ctx).1.
Proof.
  intros Hs. unfold got_pressed, upd, on_btn. cbn [fst snd].
  assert (container_got_pressed (btn_at (reset_button_presses c) p) ctx = (set_press (btn_at c p) (Some now) None, ctx)) as ->.
  { unfold container_got_pressed. replace (send_long_press (btn_at (reset_button_presses c) p)) with false
      by (rewrite <- Hs; by destruct p). by destruct p. }
  cbn [fst snd]. replace (btn_at (set_btn _ p _) p) with (set_press (btn_at c p) (Some now) None) by (by destruct p).
  by destruct (hold_started _ _).
Qed.

Lemma press_holding b t0 c ctx :
  (∀ pos, c_pos (btn_at c pos) = pos) → resting Nothing c → hold_ready DEFAULT_DURATION_MS (btn_at c (pos_of b)) →
  ∃ c' ctx', step c ctx (t0, Button_ (ButtonPressed b)) = (c', ctx', Some (MsgPressed (pos_of b))) ∧
    holding b t0 c' ∧ ∀ pos, c_pos (btn_at c' pos) = pos.
Proof.
  intros Hp [Hs Hi Ht Hq] Hr. unfold step, controller_event, transition. cbn [fst snd]. rewrite Hs, Hi.
  set (k := {| now := t0 |}). set (s := upd (pos_of b) hold_started (got_pressed (pos_of b) (c, ctx))).
  pose proof (press_containers (pos_of b) c ctx (proj1 Hr)) as Hc. cbn zeta in Hc. fold s in Hc.
  pose proof (hold_started_growing (btn_at c (pos_of b)) ctx (Some now) Hr) as Hg.
  pose proof (hold_started_timer (set_press (btn_at c (pos_of b)) (Some now) None) ctx) as [Hst Hsp].
  set (c1 := (hold_started (set_press (btn_at c (pos_of b)) (Some now) None) ctx).1) in *.
  pose proof (show_state_held (OneDown b) s) as Ha. destruct (show_state (OneDown b) s) as [c' ctx'].
  rewrite Hc in Ha. eexists _, _. split; [done|]. split.
  - eapply holding_alike; [etransitivity; [apply set_state_held|exact Ha]|done|by destruct b|..].
    + intros pos. by destruct b, pos.
    + by destruct b.
    + intros pos Hpos. specialize (Hq pos). by destruct b, pos.
  - intros pos. specialize (Hp pos). destruct Ha as [_ _ _ Ha]. specialize (Ha pos). cbn [fst] in Ha.
    destruct b, pos; cbn in *; congruence.
Qed.

(** *** New controllers *)
Section NewHolds.
Context `{FontDriver} `{DisplayConstants}.

Lemma container_new_hold pos d c :
  container_new pos d = Ok c →
  c_pos c = pos ∧ quiet c ∧ long_pressed_timer c = None ∧
  (∀ d' dur, d = Some d' → bd_duration d' = Some dur → bd_send_long_press d' = false → hold_ready dur c).
Proof.
  unfold container_new, type_from_details. destruct d as [d|]; cbn; [|by intros [= <-]].
  destruct (bd_duration d) as [dur|] eqn:Ed; cbn.
  - unfold hold_from_details. destruct (bd_content d) as [t|]; [|done]. unfold hold_text.
    destruct (visible_text_width _ t) as [w| | |]; try done. cbn. intros [= <-].
    split; [done|]. split; [by intros h [= <-]|]. split; [done|]. intros d' dur' [= <-] Hd Hs.
    split; [done|]. eexists. split; [done|]. split; [done|]. cbn. rewrite Ed in *. by injection Hd.
  - intros [= <-]. split; [done|]. split; [by intros h|]. split; [done|]. intros d' dur [= <-]. congruence.
Qed.

Lemma container_place_hold c area :
  c_pos (container_place c area) = c_pos c ∧ (quiet c → quiet (container_place c area)) ∧
  long_pressed_timer (container_place c area) = long_pressed_timer c ∧
  (∀ dur, hold_ready dur c → hold_ready dur (container_place c area)).
Proof.
  unfold container_place, quiet, hold_ready, the_hold. cbn. split; [done|].
  destruct (button_type c) as [|h|]; cbn.
  - split; [done|]. split; [done|]. by intros dur (_ & h & ? & _).
  - split; [intros Hq h' [= <-]; by apply (Hq h)|]. split; [done|].
    intros dur (? & h' & [= <-] & ? & ?). split; [done|]. by eexists.
  - split; [done|]. split; [done|]. by intros dur (_ & h & ? & _).
Qed.

Lemma controller_new_hold l c area :
  controller_new l = Ok c →
  let c := controller_place c area in
  (∀ pos, c_pos (btn_at c pos) = pos) ∧ resting Nothing c ∧
  ∀ pos d dur, layout_at l pos = Some d → bd_duration d = Some dur → bd_send_long_press d = false →
    hold_ready dur (btn_at c pos).
Proof.
  unfold controller_new.
  destruct (container_new PosLeft (btn_left l)) as [cl| | |] eqn:El; try done.
  destruct (container_new PosMiddle (btn_middle l)) as [cm| | |] eqn:Em; try done.
  destruct (container_new PosRight (btn_right l)) as [cr| | |] eqn:Er; try done.
  cbn. intros [= <-].
  apply container_new_hold in El as (Pl & Ql & Tl & Rl), Em as (Pm & Qm & Tm & Rm), Er as (Pr & Qr & Tr & Rr).
  destruct (container_place_hold cl area) as (Pl' & Ql' & Tl' & Rl'),
    (container_place_hold cm area) as (Pm' & Qm' & Tm' & Rm'), (container_place_hold cr area) as (Pr' & Qr' & Tr' & Rr').
  split; [intros []; cbn; congruence|]. split.
  - split; [done|done|intros []; cbn; congruence|intros []; cbn; auto].
  - intros [] d dur Hd; cbn in *; eauto.
Qed.

Lemma container_place_shape c area : container_shape (container_place c area) = container_shape c.
Proof. unfold container_shape, container_place. by destruct c as [? []]. Qed.

Lemma controller_place_shows l c area : shows l c → shows l (controller_place c area).
Proof.
  intros [Hs Hm Hi]. split; [|done|done].
  intros pos. specialize (Hs pos). destruct pos; cbn in *; by rewrite container_place_shape.
Qed.
End NewHolds.

(** ** Properties *)
Section Properties.
Context `{FontDriver} `{DisplayConstants}.

(** C34. Two buttons make three: for every layout of plain buttons and every
    sequence of events in which a button goes down only when it is up and up only
    when it is down, at any instants and with any other events in between, the
    controller triggers what the gestures mean.  With a middle button, both
    buttons together are the middle one, once, when the last of them is up,
    however often one of them is tapped meanwhile, and a button on its own is
    itself, if the layout has it.  Without a middle button, each of the two is
    itself whenever it comes up; once both were down, even one that the layout
    does not have. *)
Theorem controller_gestures l c area ctx es :
  plain l → controller_new l = Ok c → physical l no_gesture es.*2 = true →
  (run (controller_place c area) ctx es).2 ≫= triggered_pos = gestures l no_gesture es.*2.
Proof.
  intros Hp Hc Hes. destruct (controller_new_shows l c Hp Hc) as [Hs Hst].
  by apply run_gestures; [apply controller_place_shows|..].
Qed.

(** C35. A hold takes a second: when the button of a hold-to-confirm is pressed
    and animation frames come at any times from one millisecond after the press
    on (the delay with which the press asks for a frame) and less than a second
    after it, the controller says that it is pressed and nothing else.  If it
    comes up before a frame at a second or later, it is released without
    confirmation; the first frame from one second to less than two seconds after
    the press triggers it, further frames and the release then do nothing, and
    the controller is ready for the next press. *)
Theorem hold_to_confirm l c area ctx b d (t0 : Instant) ds :
  controller_new l = Ok c → layout_at l (pos_of b) = Some d →
  bd_duration d = Some DEFAULT_DURATION_MS → bd_send_long_press d = false →
  in_u 32 t0 → Forall (λ x, 1 <= x < 1000) ds →
  let start := (t0, Button_ (ButtonPressed b)) :: frames ((λ x, wrapu 32 (t0 + x)) <$> ds) in
  let ends es := let '(c', _, msgs) := run (controller_place c area) ctx (start ++ es) in (state c', msgs) in
  (∀ t : Instant, ends [(t, Button_ (ButtonReleased b))]
        = (Nothing, [MsgPressed (pos_of b); ReleasedWithoutLongPress (pos_of b)])) ∧
  (∀ x ts (t : Instant), 1000 <= x < 2000 →
     ends ((wrapu 32 (t0 + x), Timer ANIM_FRAME_TIMER) :: frames ts ++ [(t, Button_ (ButtonReleased b))])
     = (Nothing, [MsgPressed (pos_of b); Triggered (pos_of b) true])).
Proof.
  intros Hc Hl Hd Hs Ht Hds start ends.
  destruct (controller_new_hold l c area Hc) as (Hp & Hr & Hh).
  destruct (press_holding b t0 _ ctx Hp Hr (Hh _ _ _ Hl Hd Hs)) as (c1 & ctx1 & Hstep & Hhold & Hp1).
  destruct (frames_holding b t0 ds c1 ctx1 Ht Hds Hhold) as [ctx2 Hfr].
  assert (∀ es, ends es = let '(c', _, msgs) := run c1 ctx2 es in (state c', MsgPressed (pos_of b) :: msgs)) as Hout.
  { intros es. unfold ends, start. rewrite <- app_comm_cons. cbn [run]. rewrite Hstep, run_app, Hfr.
    by destruct (run c1 ctx2 es) as [[? ?] ?]. }
  split.
  - intros t. rewrite Hout. cbn [run].
    destruct (release_holding b t0 t c1 ctx2 Hp1 Hhold) as (c3 & ctx3 & -> & Hst). cbn. by rewrite Hst.
  - intros x ts t Hx. rewrite Hout. cbn [run].
    destruct (frame_done b t0 x c1 ctx2 Ht Hx Hhold) as (c3 & ctx3 & -> & Hr3).
    rewrite run_app, (frames_resting _ ts c3 ctx3 Hr3). cbn [run].
    destruct (release_resting b t c3 ctx3 Hr3) as (c4 & ctx4 & -> & Hr4). cbn. by rewrite (rest_state _ _ Hr4).
Qed.
End Properties.

(** ** Pages *)
Section Pages.
Context `{FontDriver} `{DisplayConstants} `{Clock} {T Msg : Type} `{Component T Msg} `{Paginate T}.
Implicit Types p : ButtonPage T.

(** [inv_ok], with results that are tuples. *)
Ltac inv_ui := repeat (progress (inv_ok; repeat match goal with x : (_ * _)%type |- _ => destruct x end;
                                 cbn beta iota in *; simplify_eq)).

(** The number of pages and the one that is shown. *)
Definition position p : Z * Z := (pg_page_count p, active_page p).

Lemma set_buttons_position p b : position (set_buttons p b) = position p.
Proof. done. Qed.

Lemma change_page_position p ctx p' ctx' : change_page p ctx = Ok (p', ctx') → position p' = position p.
Proof. unfold change_page, update_buttons. intros Hc. by inv_ui. Qed.

Lemma content_event_position p ctx ev p' ctx' msg :
  content_event p ctx ev = Ok (p', ctx', msg) →
  position p' = position p ∧ msg ≠ Some Confirmed ∧ msg ≠ Some Cancelled.
Proof. unfold content_event. intros Hc. inv_ui. split; [done|]. by destruct o. Qed.

Lemma page_triggered_position p ctx pos p' ctx' msg :
  0 <= active_page p < pg_page_count p → pg_page_count p < 2 ^ usize_bits →
  page_triggered p ctx pos = Ok (p', ctx', msg) →
  pg_page_count p' = pg_page_count p ∧ 0 <= active_page p' < pg_page_count p ∧
  Z.abs (active_page p' - active_page p) <= 1 ∧
  (msg = Some Confirmed → active_page p = pg_page_count p - 1 ∧ active_page p' = active_page p) ∧
  (msg = Some Cancelled → active_page p = 0 ∧ active_page p' = active_page p).
Proof.
  intros Ha Hn. unfold page_triggered, has_previous_page, has_next_page.
  assert (last_page p = pg_page_count p - 1) as Hl by (apply wrapu_small; unfold in_u; lia).
  rewrite Hl. destruct pos.
  - destruct (Z.ltb_spec 0 (active_page p)); intros Hp; inv_ui; [|repeat split; try done; lia].
    match goal with Hc : change_page _ _ = _ |- _ => apply change_page_position in Hc; injection Hc as -> -> end. cbn. repeat split; try done; lia.
  - intros Hp. inv_ui. repeat split; try done; lia.
  - destruct (Z.ltb_spec (active_page p) (pg_page_count p - 1)); intros Hp; inv_ui; [|repeat split; try done; lia].
    match goal with Hc : change_page _ _ = _ |- _ => apply change_page_position in Hc; injection Hc as -> -> end. unfold go_to_next_page. cbn. rewrite Hl.
    repeat split; try done; lia.
Qed.

(** A page stays within its content: one event moves by at most one page, the
    answer that it is confirmed comes on the last page only, and the answer that
    it is cancelled on the first only. *)
Theorem page_event_position p ctx ev p' ctx' msg :
  0 <= active_page p < pg_page_count p → pg_page_count p < 2 ^ usize_bits →
  page_event p ctx ev = Ok (p', ctx', msg) →
  pg_page_count p' = pg_page_count p ∧ 0 <= active_page p' < pg_page_count p ∧
  Z.abs (active_page p' - active_page p) <= 1 ∧
  (msg = Some Confirmed → active_page p = pg_page_count p - 1 ∧ active_page p' = active_page p) ∧
  (msg = Some Cancelled → active_page p = 0 ∧ active_page p' = active_page p).
Proof.
  intros Ha Hn. unfold page_event. intros Hp. apply bind_Ok in Hp as ([[c ctx1] m] & _ & Hp).
  apply bind_Ok in Hp as ([[q ctx2] m2] & Hm & Hlast).
  assert (pg_page_count q = pg_page_count p ∧ 0 <= active_page q < pg_page_count p ∧
          Z.abs (active_page q - active_page p) <= 1 ∧
          (m2 = Some Confirmed → active_page p = pg_page_count p - 1 ∧ active_page q = active_page p) ∧
          (m2 = Some Cancelled → active_page p = 0 ∧ active_page q = active_page p)) as Hq.
  { destruct m as [[]|]; [|by apply page_triggered_position in Hm| | |];
      inv_ui; cbn; repeat split; try done; lia. }
  destruct m2 as [m2|]; [by inv_ui|]. destruct Hq as (Hc & Ha' & Hd & _ & _).
  apply content_event_position in Hlast as (Hpos & Hn1 & Hn2). injection Hpos as -> ->. done.
Qed.
End Pages.

(** ** Examples *)

(** A font of five by seven pixels, and the screen of the model R. *)
Definition sample_font : FontDriver := {|
  font_text_width _ t := 6 * len t;
  font_height _ := 7;
  font_max_height _ := 7;
  font_baseline _ := 0;
  font_get_glyph _ _ := Some [5; 7; 6; 0; 7; 0; 0; 0; 0; 0]
|}.
Definition sample_display : DisplayConstants := {| LINE_SPACE := 1; FONT_BPP := 1 |}.
Definition sample_area : Rect := mkRect 0 51 128 64.

Definition press (t : Instant) (b : PhysicalButton) : Instant * Event := (t, Button_ (ButtonPressed b)).
Definition release (t : Instant) (b : PhysicalButton) : Instant * Event := (t, Button_ (ButtonReleased b)).

(** Both buttons, the right one tapped twice, and then the right one alone. *)
Definition sample_gestures : list (Instant * Event) :=
  [press 0 LeftButton; press 10 RightButton; release 20 RightButton; (25, Timer ANIM_FRAME_TIMER);
   press 30 RightButton; release 40 LeftButton; release 50 RightButton; press 60 RightButton; release 70 RightButton].

Lemma controller_gestures_witness :
  ∃ c, @controller_new sample_font sample_display (arrow_armed_arrow [79; 75]) = Ok c ∧
    (run (@controller_place sample_font c sample_area) ctx_new sample_gestures).2 ≫= triggered_pos
    = [PosMiddle; PosRight].
Proof.
  eexists. split; [reflexivity|].
  rewrite (@controller_gestures sample_font sample_display (arrow_armed_arrow [79; 75])).
  - reflexivity.
  - intros [] d [= <-]; reflexivity.
  - reflexivity.
  - reflexivity.
Defined.

(** A hold on the right, of 1005 milliseconds over the end of the clock. *)
Lemma hold_to_confirm_witness :
  match @controller_new sample_font sample_display (cancel_none_htc [72; 79; 76; 68]) with
  | Ok c =>
    (let '(c', _, msgs) :=
       run (@controller_place sample_font c sample_area) ctx_new
         (((4294967290, Button_ (ButtonPressed RightButton)) :: frames ((λ x, wrapu 32 (4294967290 + x)) <$> [1; 6; 506])) ++
          (wrapu 32 (4294967290 + 1005), Timer ANIM_FRAME_TIMER) :: frames [1000] ++
          [(1001, Button_ (ButtonReleased RightButton))]) in
     (state c', msgs)) = (Nothing, [MsgPressed PosRight; Triggered PosRight true])
  | _ => False
  end.
Proof.
  destruct (@controller_new sample_font sample_display (cancel_none_htc [72; 79; 76; 68])) as [c|?| |] eqn:E;
    [|vm_compute in E; discriminate E..].
  apply (hold_to_confirm _ c sample_area ctx_new RightButton (with_default_duration (text [72; 79; 76; 68])) 4294967290
           [1; 6; 506] E).
  - reflexivity.
  - reflexivity.
  - reflexivity.
  - unfold in_u. lia.
  - repeat constructor; lia.
  - lia.
Defined.

(** A frame in the very millisecond of the press finds the bar empty and ends the
    hold: it is not confirmed, however long the button is held. *)
Lemma frame_at_once_ends_hold :
  match @controller_new sample_font sample_display (cancel_none_htc [72; 79; 76; 68]) with
  | Ok c =>
    (let '(c', _, msgs) :=
       run (@controller_place sample_font c sample_area) ctx_new
         ([(500, Button_ (ButtonPressed RightButton)); (500, Timer ANIM_FRAME_TIMER); (600, Timer ANIM_FRAME_TIMER);
           (1600, Timer ANIM_FRAME_TIMER); (1700, Button_ (ButtonReleased RightButton))]) in
     (state c', msgs)) = (Nothing, [MsgPressed PosRight; ReleasedWithoutLongPress PosRight])
  | _ => False
  end.
Proof. vm_compute. reflexivity. Qed.

(** A content of one page that takes no events. *)
Definition still_component : Component unit Empty_set := {|
  place self bounds := Ok (self, bounds);
  event self ctx ev := Ok (self, ctx, None)
|}.
Definition still_pages : Paginate unit := {|
  content_page_count self := Ok (self, 1);
  content_change_page self _ := Ok self
|}.

(** The messages of a page. *)
Fixpoint page_run (p : ButtonPage unit) (ctx : EventCtx) (es : list (Instant * Event))
    : ui (list (PageMsg Empty_set)) :=
  match es with
  | [] => Ok []
  | (t, ev) :: es =>
    '(p, ctx, msg) ← @page_event unit sample_font sample_display {| now := t |} Empty_set still_component still_pages p ctx ev;
    msgs ← page_run p ctx es;
    Ok (option_list msg ++ msgs)
  end.

(** A page with a left and a right button, on the screen. *)
Definition sample_page (cancel confirm : option ButtonDetails) : ui (ButtonPage unit) :=
  p ← @page_new unit sample_font sample_display tt BG [];
  '(p, _) ← @page_place unit sample_font sample_display {| now := 0 |} Empty_set still_component still_pages
    (with_confirm_btn (with_cancel_btn p cancel) confirm) (mkRect 0 0 128 64);
  Ok p.

Definition sample_hold : ButtonDetails := with_default_duration (text [72; 79; 76; 68]).

(** Without a middle button, a hold-to-confirm is bypassed: both buttons down
    and the right one up is a trigger of the right one, so the page is confirmed
    after twenty milliseconds. *)
Lemma hold_bypassed :
  (p ← sample_page (Some cancel_icon) (Some sample_hold);
   page_run p ctx_new [press 0 RightButton; press 10 LeftButton; release 20 RightButton]) = Ok [Confirmed].
Proof. vm_compute. reflexivity. Qed.

(** A page without a button to cancel it is cancelled. *)
Lemma absent_button_cancels :
  (p ← sample_page None (Some (text [79; 75]));
   page_run p ctx_new [press 0 RightButton; press 10 LeftButton; release 20 LeftButton]) = Ok [Cancelled].
Proof. vm_compute. reflexivity. Qed.

(** The hold goes on after both buttons are up: it is confirmed with no button
    down, and the next press is lost. *)
Lemma hold_without_button :
  ∃ c, @controller_new sample_font sample_display (cancel_none_htc [72; 79; 76; 68]) = Ok c ∧
    (let '(c', _, msgs) :=
       run (@controller_place sample_font c sample_area) ctx_new
         [press 0 RightButton; press 10 LeftButton; release 20 LeftButton; release 30 RightButton;
          (1000, Timer ANIM_FRAME_TIMER); press 1100 RightButton; release 1200 RightButton] in
     (state c', msgs))
    = (Nothing, [MsgPressed PosRight; MsgPressed PosLeft; Triggered PosLeft false; Triggered PosRight false;
                 Triggered PosRight true]).
Proof. eexists. split; [reflexivity|]. vm_compute. reflexivity. Qed.
