(* ===== verification/Choice.v ===== *)
(** * Choosing with two buttons on the model R

    [ui/model_tr/component/changing_text.rs], [input_methods/choice.rs],
    [choice_item.rs], [simple_choice.rs] and [number_input.rs]: a row of items
    with the selected one in the middle, which the outer buttons move and the
    middle one chooses.  The items come from a factory, one by one.  Drawing them
    is not modelled. *)
From S2P Require Import Prelude Time StrUtil Geometry Component Theme Fonts Keyboard Pin TrButton Hold Controller.
Local Open Scope Z_scope.

(** The texts of the translations that the input methods use. *)
Class Texts := {
  buttons__select : list Z;
  buttons__confirm : list Z;
  inputs__delete : list Z;
  inputs__show : list Z;
  inputs__enter : list Z;
  inputs__space : list Z;
  inputs__cancel : list Z;
  inputs__back : list Z;
  inputs__return : list Z;
  inputs__previous : list Z;
  pin__title_wrong_pin : list Z
}.

(** [ShortString::try_from], unwrapped. *)
Definition short (s : list Z) : ui ShortString := or_panic (push_str [] s).

(* src: trezorhal/random.rs 13-17 (uniform_between) *)
Definition uniform_between `{RandomDriver} (call min max : Z) : ui Z :=
  if min <=? max then Ok (wrapu 32 (uniform call (wrapu 32 (max - min + 1)) + min)) else Panic.

(** ** Lines of text that change *)

(* src: ui/model_tr/component/changing_text.rs 17-28 (ChangingTextLine) *)
Record ChangingTextLine := mkLine {
  line_pad : Pad;
  line_text : ShortString;
  line_font : Font;
  show_content : bool;
  line_ellipsis : list Z;
  line_alignment : Alignment;
  text_at_the_top : bool
}.

(* src: ui/model_tr/component/changing_text.rs 31-43 (ChangingTextLine::new) *)
Definition line_new (t : list Z) (font : Font) (alignment : Alignment) : ui ChangingTextLine :=
  t ← short t;
  Ok (mkLine (with_background BG) t font true [46; 46; 46] alignment false).

(* src: ui/model_tr/component/changing_text.rs 45-47 (ChangingTextLine::center_mono) *)
Definition center_mono (t : list Z) : ui ChangingTextLine := line_new t MONO Center.

(* src: ui/model_tr/component/changing_text.rs 49-51 (ChangingTextLine::center_bold) *)
Definition center_bold (t : list Z) : ui ChangingTextLine := line_new t BOLD_UPPER Center.

Section Line.
Context (self : ChangingTextLine).

(* src: ui/model_tr/component/changing_text.rs 54-57 (ChangingTextLine::without_ellipsis) *)
Definition without_ellipsis : ChangingTextLine :=
  mkLine (line_pad self) (line_text self) (line_font self) (show_content self) [] (line_alignment self)
    (text_at_the_top self).

(* src: ui/model_tr/component/changing_text.rs 60-63 (ChangingTextLine::with_text_at_the_top) *)
Definition with_text_at_the_top : ChangingTextLine :=
  mkLine (line_pad self) (line_text self) (line_font self) (show_content self) (line_ellipsis self)
    (line_alignment self) true.

(* src: ui/model_tr/component/changing_text.rs 66-69 (ChangingTextLine::update_text) *)
Definition update_text (t : list Z) : ui ChangingTextLine :=
  t ← short t;
  Ok (mkLine (line_pad self) t (line_font self) (show_content self) (line_ellipsis self) (line_alignment self)
        (text_at_the_top self)).

(* src: ui/model_tr/component/changing_text.rs 77-79 (ChangingTextLine::update_font) *)
Definition update_font (font : Font) : ChangingTextLine :=
  mkLine (line_pad self) (line_text self) font (show_content self) (line_ellipsis self) (line_alignment self)
    (text_at_the_top self).

(* src: ui/model_tr/component/changing_text.rs 84-86 (ChangingTextLine::show_or_not) *)
Definition show_or_not (show : bool) : ChangingTextLine :=
  mkLine (line_pad self) (line_text self) (line_font self) show (line_ellipsis self) (line_alignment self)
    (text_at_the_top self).

Context `{FontDriver} `{DisplayConstants}.

(* src: ui/model_tr/component/changing_text.rs 91-93 (ChangingTextLine::needed_height) *)
Definition needed_height : Z := i16 (font_line_height (line_font self) + 2).

(* src: ui/model_tr/component/changing_text.rs 96-104 (ChangingTextLine::y_baseline) *)
Definition y_baseline : Z :=
  let y_coord := i16 (y0 (pad_area (line_pad self)) + font_line_height (line_font self)) in
  if text_at_the_top self then i16 (y_coord - 2) else y_coord.

(* src: ui/model_tr/component/changing_text.rs 107-109 (ChangingTextLine::text_fits_completely) *)
Definition text_fits_completely : bool :=
  font_width (line_font self) (line_text self) <=? rect_width (pad_area (line_pad self)).
End Line.

(* src: ui/model_tr/component/changing_text.rs 167-177 (Component for ChangingTextLine) *)
#[export] Instance line_component : Component ChangingTextLine Empty_set := {
  place self bounds :=
    Ok (mkLine (pad_place (line_pad self) bounds) (line_text self) (line_font self) (show_content self)
          (line_ellipsis self) (line_alignment self) (text_at_the_top self), bounds);
  event self ctx ev := Ok (self, ctx, None)
}.

(** A line is changed and painted anew. *)
Definition change_line (line : Child ChangingTextLine) (ctx : EventCtx) (f : ChangingTextLine → ui ChangingTextLine)
    : ui (Child ChangingTextLine * EventCtx) :=
  '(line, ctx, _) ← mutate line ctx (λ ctx line,
    line ← f line;
    '(line, ctx) ← request_complete_repaint line ctx;
    Ok (line, ctx, tt));
  Ok (line, ctx).

(** ** Items *)

(* src: ui/model_tr/component/input_methods/choice_item.rs 19-25 (ChoiceItem) *)
Record ChoiceItem := mkItem {
  it_text : ShortString;
  it_icon : option TrIcon;
  btn_layout : ButtonLayout;
  it_font : Font;
  trigger_middle_without_release : bool
}.

(* src: ui/model_tr/component/input_methods/choice_item.rs 28-36 (ChoiceItem::new) *)
Definition item_new (t : list Z) (l : ButtonLayout) : ui ChoiceItem :=
  t ← short t; Ok (mkItem t None l BIG false).

Section Item.
Context (self : ChoiceItem).

Definition set_layout (l : ButtonLayout) : ChoiceItem :=
  mkItem (it_text self) (it_icon self) l (it_font self) (trigger_middle_without_release self).

(* src: ui/model_tr/component/input_methods/choice_item.rs 39-42 (ChoiceItem::with_icon) *)
Definition with_icon (i : TrIcon) : ChoiceItem :=
  mkItem (it_text self) (Some i) (btn_layout self) (it_font self) (trigger_middle_without_release self).

(* src: ui/model_tr/component/input_methods/choice_item.rs 45-48 (ChoiceItem::with_font) *)
Definition item_with_font (font : Font) : ChoiceItem :=
  mkItem (it_text self) (it_icon self) (btn_layout self) font (trigger_middle_without_release self).

(** [ButtonDetails::send_long_press] set. *)
Definition long_pressing (d : ButtonDetails) : ButtonDetails :=
  mkDetails (bd_content d) (bd_font d) (bd_duration d) (bd_outline d) (bd_arms d) (bd_fixed_width d) (bd_offset d) true.

(* src: ui/model_tr/component/input_methods/choice_item.rs 51-57 (ChoiceItem::with_middle_action_without_release) *)
Definition with_middle_action_without_release : ChoiceItem :=
  let l := btn_layout self in
  mkItem (it_text self) (it_icon self) (mkLayout (btn_left l) (long_pressing <$> btn_middle l) (btn_right l))
    (it_font self) true.

(* src: ui/model_tr/component/input_methods/choice_item.rs 60-62 (ChoiceItem::set_left_btn) *)
Definition set_left_btn (d : option ButtonDetails) : ChoiceItem :=
  set_layout (mkLayout d (btn_middle (btn_layout self)) (btn_right (btn_layout self))).

(* src: ui/model_tr/component/input_methods/choice_item.rs 65-67 (ChoiceItem::set_middle_btn) *)
Definition set_middle_btn (d : option ButtonDetails) : ChoiceItem :=
  set_layout (mkLayout (btn_left (btn_layout self)) d (btn_right (btn_layout self))).

(* src: ui/model_tr/component/input_methods/choice_item.rs 70-72 (ChoiceItem::set_right_btn) *)
Definition set_right_btn (d : option ButtonDetails) : ChoiceItem :=
  set_layout (mkLayout (btn_left (btn_layout self)) (btn_middle (btn_layout self)) d).

(* src: ui/model_tr/component/input_methods/choice_item.rs 79-85 (ChoiceItem::side_text) *)
Definition side_text : option ShortString := match it_icon self with Some _ => None | None => Some (it_text self) end.
End Item.

(** The items are all of this one type. *)
(* src: ui/model_tr/component/input_methods/choice.rs 51-57 (ChoiceFactory) *)
Class ChoiceFactory (F A : Type) := {
  count : F → ui Z;
  get : F → Z → ui (ChoiceItem * A)
}.

(** ** Pages of choices *)

(* src: ui/model_tr/constant.rs 24-24 (IGNORE_OTHER_BTN_MS) *)
Definition IGNORE_OTHER_BTN_MS : Z := 200.
(* src: ui/model_tr/component/input_methods/choice.rs 12-12 (DEFAULT_ITEMS_DISTANCE) *)
Definition DEFAULT_ITEMS_DISTANCE : Z := 10.

(* src: ui/model_tr/component/input_methods/choice.rs 72-99 (ChoicePage) *)
Record ChoicePage (F : Type) := mkChoice {
  choices : F;
  ch_pad : Pad;
  ch_buttons : Child ButtonController;
  page_counter : Z;
  items_distance : Z;
  is_carousel : bool;
  show_incomplete : bool;
  show_only_one_item : bool;
  inverse_selected_item : bool;
  holding_mover : AutomaticMover;
  animation_mover : AutomaticMover;
  animated_steps_to_do : Z
}.
Arguments mkChoice {F} choices ch_pad ch_buttons page_counter items_distance is_carousel show_incomplete
  show_only_one_item inverse_selected_item holding_mover animation_mover animated_steps_to_do.
Arguments choices {F} c.
Arguments ch_pad {F} c.
Arguments ch_buttons {F} c.
Arguments page_counter {F} c.
Arguments items_distance {F} c.
Arguments is_carousel {F} c.
Arguments show_incomplete {F} c.
Arguments show_only_one_item {F} c.
Arguments inverse_selected_item {F} c.
Arguments holding_mover {F} c.
Arguments animation_mover {F} c.
Arguments animated_steps_to_do {F} c.

(* src: ui/model_tr/component/input_methods/choice.rs 108-114 (animation_duration_func) *)
Definition animation_duration_func (steps : Z) : Z := if steps =? 0 then 0 else 35.

Section ChoiceSetters.
Context {F : Type}.
Implicit Types self : ChoicePage F.

Definition set_choices self (f : F) (carousel : bool) : ChoicePage F :=
  mkChoice f (ch_pad self) (ch_buttons self) (page_counter self) (items_distance self) carousel
    (show_incomplete self) (show_only_one_item self) (inverse_selected_item self) (holding_mover self)
    (animation_mover self) (animated_steps_to_do self).
Definition set_ch_pad self (p : Pad) : ChoicePage F :=
  mkChoice (choices self) p (ch_buttons self) (page_counter self) (items_distance self) (is_carousel self)
    (show_incomplete self) (show_only_one_item self) (inverse_selected_item self) (holding_mover self)
    (animation_mover self) (animated_steps_to_do self).
Definition set_ch_buttons self (b : Child ButtonController) : ChoicePage F :=
  mkChoice (choices self) (ch_pad self) b (page_counter self) (items_distance self) (is_carousel self)
    (show_incomplete self) (show_only_one_item self) (inverse_selected_item self) (holding_mover self)
    (animation_mover self) (animated_steps_to_do self).
Definition set_counter self (p : Z) : ChoicePage F :=
  mkChoice (choices self) (ch_pad self) (ch_buttons self) p (items_distance self) (is_carousel self)
    (show_incomplete self) (show_only_one_item self) (inverse_selected_item self) (holding_mover self)
    (animation_mover self) (animated_steps_to_do self).
Definition set_inverse self (v : bool) : ChoicePage F :=
  mkChoice (choices self) (ch_pad self) (ch_buttons self) (page_counter self) (items_distance self) (is_carousel self)
    (show_incomplete self) (show_only_one_item self) v (holding_mover self) (animation_mover self)
    (animated_steps_to_do self).
Definition set_holding self (m : AutomaticMover) : ChoicePage F :=
  mkChoice (choices self) (ch_pad self) (ch_buttons self) (page_counter self) (items_distance self) (is_carousel self)
    (show_incomplete self) (show_only_one_item self) (inverse_selected_item self) m (animation_mover self)
    (animated_steps_to_do self).
Definition set_animation self (m : AutomaticMover) (steps : Z) : ChoicePage F :=
  mkChoice (choices self) (ch_pad self) (ch_buttons self) (page_counter self) (items_distance self) (is_carousel self)
    (show_incomplete self) (show_only_one_item self) (inverse_selected_item self) (holding_mover self) m steps.

(* src: ui/model_tr/component/input_methods/choice.rs 148-151 (ChoicePage::with_carousel) *)
Definition with_carousel self (carousel : bool) : ChoicePage F := set_choices self (choices self) carousel.

(* src: ui/model_tr/component/input_methods/choice.rs 154-157 (ChoicePage::with_incomplete) *)
Definition with_incomplete self (v : bool) : ChoicePage F :=
  mkChoice (choices self) (ch_pad self) (ch_buttons self) (page_counter self) (items_distance self) (is_carousel self)
    v (show_only_one_item self) (inverse_selected_item self) (holding_mover self) (animation_mover self)
    (animated_steps_to_do self).

(* src: ui/model_tr/component/input_methods/choice.rs 160-163 (ChoicePage::with_only_one_item) *)
Definition with_only_one_item self (v : bool) : ChoicePage F :=
  mkChoice (choices self) (ch_pad self) (ch_buttons self) (page_counter self) (items_distance self) (is_carousel self)
    (show_incomplete self) v (inverse_selected_item self) (holding_mover self) (animation_mover self)
    (animated_steps_to_do self).

(* src: ui/model_tr/component/input_methods/choice.rs 166-169 (ChoicePage::with_items_distance) *)
Definition with_items_distance self (v : Z) : ChoicePage F :=
  mkChoice (choices self) (ch_pad self) (ch_buttons self) (page_counter self) v (is_carousel self)
    (show_incomplete self) (show_only_one_item self) (inverse_selected_item self) (holding_mover self)
    (animation_mover self) (animated_steps_to_do self).

(* src: ui/model_tr/component/input_methods/choice.rs 302-305 (ChoicePage::clear_and_repaint) *)
Definition clear_and_repaint self (ctx : EventCtx) : ChoicePage F * EventCtx :=
  (set_ch_pad self (clear_pad (ch_pad self)), request_paint ctx).

(* src: ui/model_tr/component/input_methods/choice.rs 313-315 (ChoicePage::has_previous_choice) *)
Definition has_previous_choice self : bool := 0 <? page_counter self.

(** [usize] subtraction and addition of one. *)
(* src: ui/model_tr/component/input_methods/choice.rs 516-518 (ChoicePage::decrease_page_counter) *)
Definition decrease_page_counter self : ChoicePage F := set_counter self (wrapu usize_bits (page_counter self - 1)).

(* src: ui/model_tr/component/input_methods/choice.rs 521-523 (ChoicePage::increase_page_counter) *)
Definition increase_page_counter self : ChoicePage F := set_counter self (wrapu usize_bits (page_counter self + 1)).
End ChoiceSetters.

Section Choice.
Context `{FontDriver} `{DisplayConstants} {F A : Type} `{ChoiceFactory F A}.
Implicit Types self : ChoicePage F.

(** The buttons for an item, which ignore the other one after a while. *)
Definition item_buttons (item : ChoiceItem) : ui (Child ButtonController) :=
  b ← controller_new (btn_layout item);
  Ok (child_new (with_ignore_btn_delay b IGNORE_OTHER_BTN_MS)).

(* src: ui/model_tr/component/input_methods/choice.rs 105-133 (ChoicePage::new) *)
Definition choice_new (f : F) : ui (ChoicePage F) :=
  '(item, _) ← get f 0;
  b ← item_buttons item;
  Ok (mkChoice f (with_background BG) b 0 DEFAULT_ITEMS_DISTANCE false false false false mover_new
        (with_duration_func mover_new animation_duration_func) 0).

(* src: ui/model_tr/component/input_methods/choice.rs 323-325 (ChoicePage::get_current_choice) *)
Definition get_current_choice self : ui (ChoiceItem * A) := get (choices self) (page_counter self).

(* src: ui/model_tr/component/input_methods/choice.rs 328-330 (ChoicePage::get_current_item) *)
Definition get_current_item self : ui ChoiceItem := '(item, _) ← get_current_choice self; Ok item.

(* src: ui/model_tr/component/input_methods/choice.rs 333-335 (ChoicePage::get_current_action) *)
Definition get_current_action self : ui A := '(_, action) ← get_current_choice self; Ok action.

(* src: ui/model_tr/component/input_methods/choice.rs 137-145 (ChoicePage::with_initial_page_counter) *)
Definition with_initial_page_counter self (p : Z) : ui (ChoicePage F) :=
  let self := set_counter self p in
  item ← get_current_item self;
  b ← item_buttons item;
  Ok (set_ch_buttons self b).

(* src: ui/model_tr/component/input_methods/choice.rs 308-310 (ChoicePage::last_page_index) *)
Definition last_page_index self : ui Z := n ← count (choices self); Ok (wrapu usize_bits (n - 1)).

(* src: ui/model_tr/component/input_methods/choice.rs 318-320 (ChoicePage::has_next_choice) *)
Definition has_next_choice self : ui bool := last ← last_page_index self; Ok (page_counter self <? last).

(* src: ui/model_tr/component/input_methods/choice.rs 536-538 (ChoicePage::page_index) *)
Definition page_index self : Z := page_counter self.

(* src: ui/model_tr/component/input_methods/choice.rs 544-554 (ChoicePage::set_buttons) *)
Definition choice_set_buttons self (ctx : EventCtx) : ui (ChoicePage F * EventCtx) :=
  item ← get_current_item self;
  '(b, ctx, _) ← mutate (ch_buttons self) ctx (λ ctx b,
    b ← controller_set b (btn_layout item);
    let '(b, ctx) := match moving_direction (holding_mover self) with
                     | Some pos => highlight_button pos (b, ctx)
                     | None => (b, ctx)
                     end in
    Ok (b, request_paint ctx, tt));
  Ok (set_ch_buttons self b, ctx).

(* src: ui/model_tr/component/input_methods/choice.rs 296-299 (ChoicePage::update) *)
Definition choice_update self (ctx : EventCtx) : ui (ChoicePage F * EventCtx) :=
  '(self, ctx) ← choice_set_buttons self ctx;
  Ok (clear_and_repaint self ctx).

(* src: ui/model_tr/component/input_methods/choice.rs 176-189 (ChoicePage::reset) *)
Definition choice_reset self (ctx : EventCtx) (new_choices : F) (new_page_counter : option Z) (carousel : bool)
    : ui (ChoicePage F * EventCtx) :=
  let self := match new_page_counter with Some p => set_counter self p | None => self end in
  choice_update (set_choices self new_choices carousel) ctx.

(** Animations are enabled in builds without the debugging features. *)
(* src: ui/model_tr/component/input_methods/choice.rs 192-219 (ChoicePage::set_page_counter) *)
Definition set_page_counter self (ctx : EventCtx) (p : Z) (do_animation : bool) : ui (ChoicePage F * EventCtx) :=
  if do_animation then
    n ← count (choices self);
    let diff := i16 (wraps 16 p - wraps 16 (page_counter self)) in
    let steps := if (-3 <=? diff) && (diff <=? 0) then i16 (diff + wraps 16 n)
                 else if (1 <=? diff) && (diff <=? 3) then i16 (diff - wraps 16 n)
                 else diff in
    let '(mover, ctx) := start_moving (animation_mover self) ctx (if 0 <? steps then PosRight else PosLeft) in
    Ok (set_animation self mover steps, ctx)
  else choice_update (set_counter self p) ctx.

(* src: ui/model_tr/component/input_methods/choice.rs 561-569 (ChoicePage::move_left) *)
Definition move_left self (ctx : EventCtx) : ui (ChoicePage F * EventCtx) :=
  if has_previous_choice self then choice_update (decrease_page_counter self) ctx
  else if is_carousel self then last ← last_page_index self; choice_update (set_counter self last) ctx
  else Ok (self, ctx).

(* src: ui/model_tr/component/input_methods/choice.rs 572-580 (ChoicePage::move_right) *)
Definition move_right self (ctx : EventCtx) : ui (ChoicePage F * EventCtx) :=
  next ← has_next_choice self;
  if next : bool then choice_update (increase_page_counter self) ctx
  else if is_carousel self then choice_update (set_counter self 0) ctx
  else Ok (self, ctx).

(** A move into the direction of a button. *)
Definition move_to self (ctx : EventCtx) (pos : ButtonPos) : ui (ChoicePage F * EventCtx) :=
  match pos with
  | PosLeft => move_left self ctx
  | PosRight => move_right self ctx
  | PosMiddle => Ok (self, ctx)
  end.

(* src: ui/model_tr/component/input_methods/choice.rs 584-605 (ChoicePage::animation_event) *)
Definition animation_event self (ctx : EventCtx) (ev : Event) : ChoicePage F * EventCtx * option ButtonPos :=
  let steps := animated_steps_to_do self in
  if steps =? 0 then
    if is_moving (animation_mover self) then (set_animation self (stop_moving (animation_mover self)) steps, ctx, None)
    else (self, ctx, None)
  else
    let '(mover, ctx, result) := mover_event (animation_mover self) ctx ev in
    let steps := match result with
                 | Some _ => if 0 <? steps then i16 (steps - 1) else i16 (steps + 1)
                 | None => steps
                 end in
    (set_animation self mover steps, ctx, result).

Context `{Clock}.

(** The mover of a held button is stopped, or started; [true] if the event is
    spent with that. *)
(* src: ui/model_tr/component/input_methods/choice.rs 654-674 (ChoicePage::event) *)
Definition holding_event self (ctx : EventCtx) (msg : option ButtonControllerMsg) : ChoicePage F * EventCtx * bool :=
  match moving_direction (holding_mover self) with
  | Some moving_direction =>
    if match msg with
       | Some (Triggered pos _) => bool_decide (pos = moving_direction)
       | Some (MsgPressed pos) => bool_decide (pos ≠ moving_direction)
       | _ => false
       end
    then (set_holding self (stop_moving (holding_mover self)), ctx, was_moving (holding_mover self))
    else (self, ctx, false)
  | None =>
    match msg with
    | Some (MsgPressed PosMiddle) => (self, ctx, false)
    | Some (MsgPressed pos) =>
      let '(mover, ctx) := start_moving (holding_mover self) ctx pos in (set_holding self mover, ctx, false)
    | _ => (self, ctx, false)
    end
  end.

(** What the message of the buttons does. *)
(* src: ui/model_tr/component/input_methods/choice.rs 676-715 (ChoicePage::event) *)
Definition choice_message self (ctx : EventCtx) (msg : option ButtonControllerMsg)
    : ui (ChoicePage F * EventCtx * option (A * bool)) :=
  match msg with
  | Some (Triggered PosMiddle long_press) =>
    let '(self, ctx) := clear_and_repaint self ctx in
    action ← get_current_action self;
    Ok (self, ctx, Some (action, long_press))
  | Some (Triggered pos _) => '(self, ctx) ← move_to self ctx pos; Ok (self, ctx, None)
  | Some (LongPressed PosMiddle) =>
    item ← get_current_item self;
    if trigger_middle_without_release item then
      '(b, ctx, _) ← mutate (ch_buttons self) ctx (λ ctx b, let '(b, ctx) := reset_state b ctx in Ok (b, ctx, tt));
      let '(self, ctx) := clear_and_repaint (set_ch_buttons self b) ctx in
      action ← get_current_action self;
      Ok (self, ctx, Some (action, true))
    else Ok (self, ctx, None)
  | Some (MsgPressed PosMiddle) =>
    let '(self, ctx) := clear_and_repaint (set_inverse self true) ctx in Ok (self, ctx, None)
  | _ => Ok (self, ctx, None)
  end.

(* src: ui/model_tr/component/input_methods/choice.rs 621-715 (ChoicePage::event) *)
Definition choice_event self (ctx : EventCtx) (ev : Event) : ui (ChoicePage F * EventCtx * option (A * bool)) :=
  let self := set_inverse self false in
  let '(self, ctx, animation) := animation_event self ctx ev in
  match animation with
  | Some pos => '(self, ctx) ← move_to self ctx pos; Ok (self, ctx, None)
  | None =>
    if is_moving (animation_mover self) then Ok (self, ctx, None) else
    let '(mover, ctx, auto) := mover_event (holding_mover self) ctx ev in
    let self := set_holding self mover in
    match auto with
    | Some pos => '(self, ctx) ← move_to self ctx pos; Ok (self, ctx, None)
    | None =>
      '(b, ctx, msg) ← (event (ch_buttons self) ctx ev : ui (Child ButtonController * EventCtx * option ButtonControllerMsg));
      let '(self, ctx, spent) := holding_event (set_ch_buttons self b) ctx msg in
      if spent then Ok (self, ctx, None) else choice_message self ctx msg
    end
  end.

(* src: ui/model_tr/component/input_methods/choice.rs 614-619 (ChoicePage::place) *)
Definition choice_place self (bounds : Rect) : ui (ChoicePage F * Rect) :=
  let '(content_area, button_area) := split_bottom bounds BUTTON_HEIGHT in
  let self := set_ch_pad self (pad_place (ch_pad self) content_area) in
  '(b, _) ← place (ch_buttons self) button_area;
  Ok (set_ch_buttons self b, bounds).

#[export] Instance choice_component : Component (ChoicePage F) (A * bool) := {
  place self bounds := choice_place self bounds;
  event self ctx ev := choice_event self ctx ev
}.
End Choice.

(** ** Choice of a string *)

(** The string of a [ChoiceFactorySimple] is a text of at most fifty bytes. *)
(* src: ui/model_tr/component/input_methods/simple_choice.rs 18-21 (ChoiceFactorySimple) *)
Record ChoiceFactorySimple := mkSimple { simple_choices : list (list Z); simple_carousel : bool }.

(* src: ui/model_tr/component/input_methods/simple_choice.rs 28-30 (ChoiceFactorySimple::get_string) *)
Definition get_string (self : ChoiceFactorySimple) (i : Z) : ui (list Z) := or_panic (getZ (simple_choices self) i).

(** At the ends of a row that does not go around, there is nothing to go on to. *)
Definition ends_closed (item : ChoiceItem) (i n : Z) : ChoiceItem :=
  let item := if i =? 0 then set_left_btn item None else item in
  if i =? wrapu usize_bits (n - 1) then set_right_btn item None else item.

(* src: ui/model_tr/component/input_methods/simple_choice.rs 33-63 (ChoiceFactory for ChoiceFactorySimple) *)
#[export] Instance simple_factory `{Texts} : ChoiceFactory ChoiceFactorySimple Z := {
  count self := Ok (len (simple_choices self));
  get self i :=
    t ← get_string self i;
    item ← item_new t (arrow_armed_arrow buttons__select);
    Ok (if simple_carousel self then item else ends_closed item i (len (simple_choices self)), i)
}.

(* src: ui/model_tr/component/input_methods/simple_choice.rs 67-70 (SimpleChoice) *)
Record SimpleChoice := mkSimpleChoice { simple_page : ChoicePage ChoiceFactorySimple; return_index : bool }.

Section Simple.
Context `{FontDriver} `{DisplayConstants} `{Texts}.

(** The vector of the choices holds five. *)
(* src: ui/model_tr/component/input_methods/simple_choice.rs 73-79 (SimpleChoice::new) *)
Definition simple_new (str_choices : list (list Z)) (carousel : bool) : ui SimpleChoice :=
  page ← choice_new (mkSimple str_choices carousel);
  Ok (mkSimpleChoice (with_carousel page carousel) false).

(* src: ui/model_tr/component/input_methods/simple_choice.rs 82-85 (SimpleChoice::with_only_one_item) *)
Definition simple_with_only_one_item (self : SimpleChoice) : SimpleChoice :=
  mkSimpleChoice (with_only_one_item (simple_page self) true) (return_index self).

(* src: ui/model_tr/component/input_methods/simple_choice.rs 88-91 (SimpleChoice::with_show_incomplete) *)
Definition with_show_incomplete (self : SimpleChoice) : SimpleChoice :=
  mkSimpleChoice (with_incomplete (simple_page self) true) (return_index self).

(* src: ui/model_tr/component/input_methods/simple_choice.rs 94-97 (SimpleChoice::with_return_index) *)
Definition with_return_index (self : SimpleChoice) : SimpleChoice := mkSimpleChoice (simple_page self) true.

(* src: ui/model_tr/component/input_methods/simple_choice.rs 100-102 (SimpleChoice::result_by_index) *)
Definition result_by_index (self : SimpleChoice) (i : Z) : ui (list Z) := get_string (choices (simple_page self)) i.

Context `{Clock}.
(* src: ui/model_tr/component/input_methods/simple_choice.rs 105-114 (Component for SimpleChoice) *)
#[export] Instance simple_component : Component SimpleChoice Z := {
  place self bounds :=
    '(p, r) ← choice_place (simple_page self) bounds; Ok (mkSimpleChoice p (return_index self), r);
  event self ctx ev :=
    '(p, ctx, msg) ← choice_event (simple_page self) ctx ev;
    Ok (mkSimpleChoice p (return_index self), ctx, match msg with Some (i, _) => Some i | None => None end)
}.
End Simple.

(** ** Choice of a number *)

(** [String::try_from] of a [u32]: its decimal digits. *)
Fixpoint decimal (fuel : nat) (n : Z) : list Z :=
  match fuel with
  | O => []
  | S fuel => (if n <? 10 then [] else decimal fuel (n / 10)) ++ [48 + n `mod` 10]
  end.

(* src: ui/model_tr/component/input_methods/number_input.rs 13-16 (ChoiceFactoryNumberInput) *)
Record ChoiceFactoryNumberInput := mkNumbers { num_min : Z; num_max : Z }.

Definition numbers_count (self : ChoiceFactoryNumberInput) : Z := wrapu 32 (wrapu 32 (num_max self - num_min self) + 1).

(* src: ui/model_tr/component/input_methods/number_input.rs 24-51 (ChoiceFactory for ChoiceFactoryNumberInput) *)
#[export] Instance number_factory `{Texts} : ChoiceFactory ChoiceFactoryNumberInput Z := {
  count self := Ok (numbers_count self);
  get self i :=
    let num := wrapu 32 (num_min self + i) in
    item ← item_new (decimal 10 num) (arrow_armed_arrow buttons__select);
    Ok (ends_closed item i (numbers_count self), num)
}.

(* src: ui/model_tr/component/input_methods/number_input.rs 55-58 (NumberInput) *)
Record NumberInput := mkNumberInput { number_page : ChoicePage ChoiceFactoryNumberInput; input_min : Z }.

Section Number.
Context `{FontDriver} `{DisplayConstants} `{Texts}.

(* src: ui/model_tr/component/input_methods/number_input.rs 61-68 (NumberInput::new) *)
Definition number_new (min max init_value : Z) : ui NumberInput :=
  let initial_page := wrapu 32 (init_value - min) in
  page ← choice_new (mkNumbers min max);
  page ← with_initial_page_counter page initial_page;
  Ok (mkNumberInput page min).

Context `{Clock}.
(* src: ui/model_tr/component/input_methods/number_input.rs 71-80 (Component for NumberInput) *)
#[export] Instance number_component : Component NumberInput Z := {
  place self bounds :=
    '(p, r) ← choice_place (number_page self) bounds; Ok (mkNumberInput p (input_min self), r);
  event self ctx ev :=
    '(p, ctx, msg) ← choice_event (number_page self) ctx ev;
    Ok (mkNumberInput p (input_min self), ctx, match msg with Some (i, _) => Some i | None => None end)
}.
End Number.
