(* ===== verification/TrEntry.v ===== *)
(** * Entering PINs, passphrases and words on the model R

    [ui/model_tr/component/input_methods/pin.rs], [passphrase.rs] and
    [wordlist.rs]: a page of choices with the text that was entered above it.
    Each event has its own draws of random numbers.  Painting is not modelled. *)
From S2P Require Import Prelude Time StrUtil Geometry Words Wordlist Component Theme Fonts Keyboard Pin.
From S2P Require Import TrButton Hold Controller Choice.
Local Open Scope Z_scope.

(* src: ui/model_tr/common_messages.rs 1-4 (CancelConfirmMsg) *)
Inductive CancelConfirmMsg := EntryCancelled | EntryConfirmed.

(** The characters with stars instead, all but possibly the last one. *)
Definition hidden_text (content : list Z) (show_last : bool) : ui ShortString :=
  last_char ← (if show_last then or_panic (last (chars content)) else Ok [42]);
  short (replicate (Z.to_nat (wrapu usize_bits (len content - 1))) 42 ++ last_char).

(** ** PINs *)

(* src: ui/model_tr/component/input_methods/pin.rs 18-24 (PinAction) *)
Inductive PinAction := PinDelete | PinShow | PinEnter | PinDigit (ch : Z).

(* src: ui/model_tr/component/input_methods/pin.rs 26-31 (PinChoice) *)
Record PinChoice := mkPinChoice {
  pc_text : list Z;
  pc_action : PinAction;
  pc_icon : option TrIcon;
  pc_without_release : bool
}.

(* src: ui/model_tr/component/input_methods/pin.rs 49-53 (MAX_PIN_LENGTH, EMPTY_PIN_STR, CHOICE_LENGTH, NUMBER_START_INDEX) *)
Definition MAX_PIN_LENGTH : Z := 50.
Definition EMPTY_PIN_STR : list Z := [95].
Definition CHOICE_LENGTH : Z := 13.
Definition NUMBER_START_INDEX : Z := 3.

(* src: ui/model_tr/component/input_methods/pin.rs 55-85 (CHOICES) *)
Definition CHOICES `{Texts} : list PinChoice :=
  [mkPinChoice inputs__delete PinDelete (Some TR_ICON_DELETE) true;
   mkPinChoice inputs__show PinShow (Some TR_ICON_EYE) false;
   mkPinChoice inputs__enter PinEnter (Some TR_ICON_TICK) false] ++
  ((λ d, mkPinChoice [48 + d] (PinDigit (48 + d)) None false) <$> range 10).

(* src: ui/model_tr/component/input_methods/pin.rs 87-89 (get_random_digit_position) *)
Definition get_random_digit_position `{RandomDriver} : ui Z := uniform_between 0 NUMBER_START_INDEX (CHOICE_LENGTH - 1).

(* src: ui/model_tr/component/input_methods/pin.rs 91-91 (ChoiceFactoryPIN) *)
Inductive ChoiceFactoryPIN := FactoryPIN.

(* src: ui/model_tr/component/input_methods/pin.rs 97-124 (ChoiceFactoryPIN::get) *)
Definition pin_get `{Texts} (choice_index : Z) : ui (ChoiceItem * PinAction) :=
  choice ← or_panic (getZ CHOICES choice_index);
  item ← item_new (pc_text choice) (arrow_armed_arrow buttons__select);
  let item := match pc_action choice with
              | PinDigit _ => item
              | _ => set_middle_btn item (Some (armed_text buttons__confirm))
              end in
  let item := if pc_without_release choice then with_middle_action_without_release item else item in
  let item := match pc_icon choice with Some icon => with_icon item icon | None => item end in
  Ok (item, pc_action choice).

(* src: ui/model_tr/component/input_methods/pin.rs 93-129 (ChoiceFactory for ChoiceFactoryPIN) *)
#[export] Instance pin_factory `{Texts} : ChoiceFactory ChoiceFactoryPIN PinAction := {
  count _ := Ok CHOICE_LENGTH;
  get _ i := pin_get i
}.

(* src: ui/model_tr/component/input_methods/pin.rs 132-143 (PinEntry) *)
Record PinEntry := mkPinEntry {
  pe_page : ChoicePage ChoiceFactoryPIN;
  pe_header : Child ChangingTextLine;
  pe_line : Child ChangingTextLine;
  pe_prompt : list Z;
  pe_subprompt : list Z;
  showing_real_prompt : bool;
  show_real_pin : bool;
  pe_show_last : bool;
  pe_textbox : TextBox
}.

Section PinSetters.
Context (self : PinEntry).
Definition set_pe_page (p : ChoicePage ChoiceFactoryPIN) : PinEntry :=
  mkPinEntry p (pe_header self) (pe_line self) (pe_prompt self) (pe_subprompt self) (showing_real_prompt self)
    (show_real_pin self) (pe_show_last self) (pe_textbox self).
Definition set_pe_header (h : Child ChangingTextLine) (real : bool) : PinEntry :=
  mkPinEntry (pe_page self) h (pe_line self) (pe_prompt self) (pe_subprompt self) real
    (show_real_pin self) (pe_show_last self) (pe_textbox self).
Definition set_pe_line (l : Child ChangingTextLine) : PinEntry :=
  mkPinEntry (pe_page self) (pe_header self) l (pe_prompt self) (pe_subprompt self) (showing_real_prompt self)
    (show_real_pin self) (pe_show_last self) (pe_textbox self).
Definition set_pe_shown (real last : bool) : PinEntry :=
  mkPinEntry (pe_page self) (pe_header self) (pe_line self) (pe_prompt self) (pe_subprompt self)
    (showing_real_prompt self) real last (pe_textbox self).
Definition set_pe_textbox (t : TextBox) : PinEntry :=
  mkPinEntry (pe_page self) (pe_header self) (pe_line self) (pe_prompt self) (pe_subprompt self)
    (showing_real_prompt self) (show_real_pin self) (pe_show_last self) t.

(* src: ui/model_tr/component/input_methods/pin.rs 237-239 (PinEntry::pin) *)
Definition pe_pin : list Z := Keyboard.content (pe_textbox self).

(* src: ui/model_tr/component/input_methods/pin.rs 241-243 (PinEntry::is_full) *)
Definition pe_is_full : bool := MAX_PIN_LENGTH <=? len pe_pin.

(* src: ui/model_tr/component/input_methods/pin.rs 245-247 (PinEntry::is_empty) *)
Definition pe_is_empty : bool := textbox_is_empty (pe_textbox self).

(* src: ui/model_tr/component/input_methods/pin.rs 193-227 (PinEntry::update_pin_line) *)
Definition update_pin_line (ctx : EventCtx) : ui (PinEntry * EventCtx) :=
  let warn := pe_is_empty && bool_decide (pe_subprompt self ≠ []) in
  pin_line_text ← (if warn then short (pe_subprompt self)
                   else if pe_is_empty then short EMPTY_PIN_STR
                   else if show_real_pin self then short pe_pin
                   else hidden_text pe_pin (pe_show_last self));
  '(line, ctx) ← change_line (pe_line self) ctx (λ line,
    update_text (update_font line (if warn then NORMAL else BOLD)) pin_line_text);
  Ok (set_pe_line line, ctx).

(* src: ui/model_tr/component/input_methods/pin.rs 230-235 (PinEntry::show_prompt) *)
Definition show_prompt (ctx : EventCtx) : ui (PinEntry * EventCtx) :=
  '(header, ctx) ← change_line (pe_header self) ctx (λ line, update_text line (pe_prompt self));
  Ok (set_pe_header header true, ctx).
End PinSetters.

(* src: ui/model_tr/component/input_methods/pin.rs 186-189 (PinEntry::update) *)
Definition pe_update (self : PinEntry) (ctx : EventCtx) : ui (PinEntry * EventCtx) :=
  '(self, ctx) ← update_pin_line self ctx; Ok (self, request_paint ctx).

Section PinEntry.
Context `{FontDriver} `{DisplayConstants} `{Texts} `{RandomDriver}.

(* src: ui/model_tr/component/input_methods/pin.rs 146-183 (PinEntry::new) *)
Definition pin_entry_new (prompt subprompt : list Z) : ui PinEntry :=
  let show_subprompt := bool_decide (subprompt ≠ []) in
  let '(real, header_text, line_text) :=
    if show_subprompt then (false, pin__title_wrong_pin, subprompt) else (true, prompt, EMPTY_PIN_STR) in
  pin_line ← center_bold line_text;
  let pin_line := without_ellipsis pin_line in
  let pin_line := if show_subprompt then update_font pin_line NORMAL else pin_line in
  page ← choice_new FactoryPIN;
  pos ← get_random_digit_position;
  page ← with_initial_page_counter page pos;
  header ← center_bold header_text;
  Ok (mkPinEntry (with_carousel page true) (child_new (with_text_at_the_top (without_ellipsis header)))
        (child_new pin_line) prompt subprompt real false false textbox_empty).

Context `{Clock}.

(** What an event hides: the PIN, then the last digit. *)
(* src: ui/model_tr/component/input_methods/pin.rs 265-276 (PinEntry::event) *)
Definition pe_hide (self : PinEntry) (ctx : EventCtx) (ev : Event) : ui (PinEntry * EventCtx) :=
  match ev with
  | Timer _ => Ok (self, ctx)
  | _ =>
    '(self, ctx) ← (if show_real_pin self then pe_update (set_pe_shown self false (pe_show_last self)) ctx
                    else Ok (self, ctx));
    if pe_show_last self then pe_update (set_pe_shown self (show_real_pin self) false) ctx else Ok (self, ctx)
  end.

(** What a chosen action does. *)
(* src: ui/model_tr/component/input_methods/pin.rs 287-314 (PinEntry::event) *)
Definition pe_action (self : PinEntry) (ctx : EventCtx) (action : PinAction) (long_press : bool)
    : ui (PinEntry * EventCtx * option CancelConfirmMsg) :=
  match action with
  | PinDelete =>
    let '(textbox, ctx) := if long_press then clear (pe_textbox self) ctx else delete_last (pe_textbox self) ctx in
    '(self, ctx) ← pe_update (set_pe_textbox self textbox) ctx;
    Ok (self, ctx, None)
  | PinShow =>
    '(self, ctx) ← pe_update (set_pe_shown self true (pe_show_last self)) ctx; Ok (self, ctx, None)
  | PinEnter => Ok (self, ctx, if pe_is_empty self then None else Some EntryConfirmed)
  | PinDigit ch =>
    if pe_is_full self then Ok (self, ctx, None) else
    let '(textbox, ctx) := append (pe_textbox self) ctx [ch] in
    pos ← get_random_digit_position;
    '(page, ctx) ← set_page_counter (pe_page self) ctx pos true;
    let self := set_pe_page (set_pe_textbox self textbox) page in
    '(self, ctx) ← pe_update (set_pe_shown self (show_real_pin self) true) ctx;
    Ok (self, ctx, None)
  end.

(* src: ui/model_tr/component/input_methods/pin.rs 264-317 (PinEntry::event) *)
Definition pin_entry_event (self : PinEntry) (ctx : EventCtx) (ev : Event)
    : ui (PinEntry * EventCtx * option CancelConfirmMsg) :=
  '(self, ctx) ← pe_hide self ctx ev;
  '(self, ctx) ← (match ev with
                  | Button_ _ => if showing_real_prompt self then Ok (self, ctx) else show_prompt self ctx
                  | _ => Ok (self, ctx)
                  end);
  '(page, ctx, msg) ← choice_event (pe_page self) ctx ev;
  let self := set_pe_page self page in
  match msg with
  | Some (action, long_press) => pe_action self ctx action long_press
  | None => Ok (self, ctx, None)
  end.

(* src: ui/model_tr/component/input_methods/pin.rs 253-262 (PinEntry::place) *)
Definition pin_entry_place (self : PinEntry) (bounds : Rect) : ui (PinEntry * Rect) :=
  let '(header_area, rest) := split_top bounds (needed_height (inner (pe_header self))) in
  let '(pin_area, choice_area) := split_top rest (needed_height (inner (pe_line self))) in
  '(header, _) ← place (pe_header self) header_area;
  '(line, _) ← place (pe_line self) pin_area;
  '(page, _) ← choice_place (pe_page self) choice_area;
  Ok (set_pe_page (set_pe_line (set_pe_header self header (showing_real_prompt self)) line) page, bounds).
End PinEntry.

(** ** Passphrases *)

(* src: ui/model_tr/component/input_methods/passphrase.rs 19-27 (ChoiceCategory) *)
Inductive ChoiceCategory := Menu | LowercaseLetter | UppercaseLetter | Digit | SpecialSymbol.

#[export] Instance category_eq_dec : EqDecision ChoiceCategory.
Proof. solve_decision. Defined.

(* src: ui/model_tr/component/input_methods/passphrase.rs 114-122 (PassphraseAction) *)
Inductive PassphraseAction :=
| ActionMenu
| ActionShow
| ActionCancelOrDelete
| ActionEnter
| ActionCategory (c : ChoiceCategory)
| ActionCharacter (ch : Z).

(* src: ui/model_tr/component/input_methods/passphrase.rs 46-53 (MenuItem) *)
Record MenuItem := mkMenuItem {
  mi_text : list Z;
  mi_action : PassphraseAction;
  mi_icon : option TrIcon;
  show_confirm : bool;
  mi_without_release : bool
}.

(* src: ui/model_tr/component/input_methods/passphrase.rs 29-29 (MAX_PASSPHRASE_LENGTH) *)
Definition MAX_PASSPHRASE_LENGTH : Z := 50.

(** The characters of a category, as in its string. *)
(* src: ui/model_tr/component/input_methods/passphrase.rs 31-34 (DIGITS, LOWERCASE_LETTERS, UPPERCASE_LETTERS, SPECIAL_SYMBOLS) *)
Definition category_characters (c : ChoiceCategory) : list Z :=
  match c with
  | Menu => []
  | LowercaseLetter => (λ i, 97 + i) <$> range 26
  | UppercaseLetter => (λ i, 65 + i) <$> range 26
  | Digit => (λ i, 48 + i) <$> range 10
  | SpecialSymbol =>
    [95; 60; 62; 46; 58; 64; 47; 124; 92; 33; 40; 41; 43; 37; 38; 45; 91; 93; 63; 123; 125; 44; 39; 96; 59; 34; 126;
     36; 94; 61; 42; 35]
  end.

(* src: ui/model_tr/component/input_methods/passphrase.rs 36-44 (MENU_LENGTH, LOWERCASE_INDEX, SPECIAL_INDEX, SPACE_INDEX) *)
Definition MENU_LENGTH : Z := 8.
Definition LOWERCASE_INDEX : Z := 3.
Definition SPECIAL_INDEX : Z := 6.

(** The text of the second item is replaced before it is shown. *)
(* src: ui/model_tr/component/input_methods/passphrase.rs 55-112 (MENU) *)
Definition MENU `{Texts} : list MenuItem :=
  [mkMenuItem inputs__show ActionShow (Some TR_ICON_EYE) true false;
   mkMenuItem [] ActionCancelOrDelete None true true;
   mkMenuItem inputs__enter ActionEnter (Some TR_ICON_TICK) true false;
   mkMenuItem [97; 98; 99] (ActionCategory LowercaseLetter) None false false;
   mkMenuItem [65; 66; 67] (ActionCategory UppercaseLetter) None false false;
   mkMenuItem [49; 50; 51] (ActionCategory Digit) None false false;
   mkMenuItem [35; 36; 33] (ActionCategory SpecialSymbol) None false false;
   mkMenuItem inputs__space (ActionCharacter 32) (Some TR_ICON_SPACE) false false].

(* src: ui/model_tr/component/input_methods/passphrase.rs 125-134 (get_char) *)
Definition get_char (current_category : ChoiceCategory) (index : Z) : ui Z :=
  or_panic (getZ (category_characters current_category) index).

(* src: ui/model_tr/component/input_methods/passphrase.rs 138-146 (get_category_length) *)
Definition get_category_length (c : ChoiceCategory) : Z :=
  match c with Menu => MENU_LENGTH | c => len (category_characters c) end.

(* src: ui/model_tr/component/input_methods/passphrase.rs 149-152 (random_category_position) *)
Definition random_category_position `{RandomDriver} (c : ChoiceCategory) : ui Z :=
  uniform_between 0 0 (wrapu 32 (get_category_length c - 1)).

(* src: ui/model_tr/component/input_methods/passphrase.rs 155-161 (is_menu_choice) *)
Definition is_menu_choice (c : ChoiceCategory) (page_index : Z) : ui bool :=
  match c with Menu => Panic | c => Ok (page_index =? get_category_length c) end.

(* src: ui/model_tr/component/input_methods/passphrase.rs 164-166 (random_menu_position) *)
Definition random_menu_position `{RandomDriver} : ui Z := uniform_between 0 LOWERCASE_INDEX SPECIAL_INDEX.

(* src: ui/model_tr/component/input_methods/passphrase.rs 168-172 (ChoiceFactoryPassphrase) *)
Record ChoiceFactoryPassphrase := mkPassphraseFactory { current_category : ChoiceCategory; pf_is_empty : bool }.

Section PassphraseFactory.
Context `{Texts} (self : ChoiceFactoryPassphrase).

(* src: ui/model_tr/component/input_methods/passphrase.rs 183-219 (ChoiceFactoryPassphrase::get_menu_item) *)
Definition get_menu_item (choice_index : Z) : ui (ChoiceItem * PassphraseAction) :=
  current_item ← or_panic (getZ MENU choice_index);
  let '(t, icon) := match mi_action current_item with
                    | ActionCancelOrDelete =>
                      if pf_is_empty self then (inputs__cancel, Some TR_ICON_CANCEL)
                      else (inputs__delete, Some TR_ICON_DELETE)
                    | _ => (mi_text current_item, mi_icon current_item)
                    end in
  item ← item_new t (arrow_armed_arrow buttons__select);
  let item := if show_confirm current_item then set_middle_btn item (Some (armed_text buttons__confirm)) else item in
  let item := if mi_without_release current_item then with_middle_action_without_release item else item in
  let item := match icon with Some icon => with_icon item icon | None => item end in
  Ok (item, mi_action current_item).

(* src: ui/model_tr/component/input_methods/passphrase.rs 223-245 (ChoiceFactoryPassphrase::get_character_item) *)
Definition get_character_item (choice_index : Z) : ui (ChoiceItem * PassphraseAction) :=
  menu ← is_menu_choice (current_category self) choice_index;
  if menu : bool then
    item ← item_new inputs__back (arrow_armed_arrow inputs__return);
    Ok (with_icon item TR_ICON_ARROW_BACK_UP, ActionMenu)
  else
    ch ← get_char (current_category self) choice_index;
    item ← item_new [ch] (arrow_armed_arrow buttons__select);
    Ok (item, ActionCharacter ch).
End PassphraseFactory.

(** A category other than the menu has an item more, which goes back to it. *)
Definition passphrase_count (c : ChoiceCategory) : Z :=
  match c with Menu => MENU_LENGTH | c => get_category_length c + 1 end.

(* src: ui/model_tr/component/input_methods/passphrase.rs 248-266 (ChoiceFactory for ChoiceFactoryPassphrase) *)
#[export] Instance passphrase_factory `{Texts} : ChoiceFactory ChoiceFactoryPassphrase PassphraseAction := {
  count self := Ok (passphrase_count (current_category self));
  get self i := match current_category self with Menu => get_menu_item self i | _ => get_character_item self i end
}.

(* src: ui/model_tr/component/input_methods/passphrase.rs 269-276 (PassphraseEntry) *)
Record PassphraseEntry := mkPassphraseEntry {
  pp_page : ChoicePage ChoiceFactoryPassphrase;
  passphrase_dots : Child ChangingTextLine;
  show_plain_passphrase : bool;
  pp_show_last : bool;
  pp_textbox : TextBox;
  pp_category : ChoiceCategory
}.

Section PassphraseSetters.
Context (self : PassphraseEntry).
Definition set_pp_page (p : ChoicePage ChoiceFactoryPassphrase) : PassphraseEntry :=
  mkPassphraseEntry p (passphrase_dots self) (show_plain_passphrase self) (pp_show_last self) (pp_textbox self)
    (pp_category self).
Definition set_pp_dots (d : Child ChangingTextLine) : PassphraseEntry :=
  mkPassphraseEntry (pp_page self) d (show_plain_passphrase self) (pp_show_last self) (pp_textbox self)
    (pp_category self).
Definition set_pp_shown (plain last : bool) : PassphraseEntry :=
  mkPassphraseEntry (pp_page self) (passphrase_dots self) plain last (pp_textbox self) (pp_category self).
Definition set_pp_textbox (t : TextBox) : PassphraseEntry :=
  mkPassphraseEntry (pp_page self) (passphrase_dots self) (show_plain_passphrase self) (pp_show_last self) t
    (pp_category self).
Definition set_pp_category (c : ChoiceCategory) : PassphraseEntry :=
  mkPassphraseEntry (pp_page self) (passphrase_dots self) (show_plain_passphrase self) (pp_show_last self)
    (pp_textbox self) c.

(* src: ui/model_tr/component/input_methods/passphrase.rs 352-354 (PassphraseEntry::passphrase) *)
Definition passphrase : list Z := Keyboard.content (pp_textbox self).

(* src: ui/model_tr/component/input_methods/passphrase.rs 356-358 (PassphraseEntry::is_empty) *)
Definition pp_is_empty : bool := textbox_is_empty (pp_textbox self).

(* src: ui/model_tr/component/input_methods/passphrase.rs 360-362 (PassphraseEntry::is_full) *)
Definition pp_is_full : bool := MAX_PASSPHRASE_LENGTH <=? len passphrase.

(* src: ui/model_tr/component/input_methods/passphrase.rs 292-320 (PassphraseEntry::update_passphrase_dots) *)
Definition update_passphrase_dots (ctx : EventCtx) : ui (PassphraseEntry * EventCtx) :=
  text_to_show ← (if show_plain_passphrase self then short passphrase
                  else if pp_is_empty then short []
                  else hidden_text passphrase (pp_show_last self));
  '(dots, ctx) ← change_line (passphrase_dots self) ctx (λ line, update_text line text_to_show);
  Ok (set_pp_dots dots, ctx).
End PassphraseSetters.

Section PassphraseEntry.
Context `{FontDriver} `{DisplayConstants} `{Texts} `{RandomDriver}.

(* src: ui/model_tr/component/input_methods/passphrase.rs 279-290 (PassphraseEntry::new) *)
Definition passphrase_new : ui PassphraseEntry :=
  page ← choice_new (mkPassphraseFactory Menu true);
  pos ← random_menu_position;
  page ← with_initial_page_counter (with_carousel page true) pos;
  dots ← center_mono [];
  Ok (mkPassphraseEntry page (child_new dots) false false textbox_empty Menu).

(* src: ui/model_tr/component/input_methods/passphrase.rs 335-339 (PassphraseEntry::show_menu_page) *)
Definition show_menu_page (self : PassphraseEntry) (ctx : EventCtx) : ui (PassphraseEntry * EventCtx) :=
  pos ← random_menu_position;
  '(page, ctx) ← choice_reset (pp_page self) ctx (mkPassphraseFactory Menu (pp_is_empty self)) (Some pos) true;
  Ok (set_pp_page self page, ctx).

(* src: ui/model_tr/component/input_methods/passphrase.rs 342-350 (PassphraseEntry::show_category_page) *)
Definition show_category_page (self : PassphraseEntry) (ctx : EventCtx) : ui (PassphraseEntry * EventCtx) :=
  pos ← random_category_position (pp_category self);
  '(page, ctx) ← choice_reset (pp_page self) ctx (mkPassphraseFactory (pp_category self) (pp_is_empty self))
                   (Some pos) true;
  Ok (set_pp_page self page, ctx).

(* src: ui/model_tr/component/input_methods/passphrase.rs 365-371 (PassphraseEntry::randomize_category_position) *)
Definition randomize_category_position (self : PassphraseEntry) (ctx : EventCtx) : ui (PassphraseEntry * EventCtx) :=
  pos ← random_category_position (pp_category self);
  '(page, ctx) ← set_page_counter (pp_page self) ctx pos true;
  Ok (set_pp_page self page, ctx).

Context `{Clock}.

(** What an event hides: the passphrase, then the last character. *)
(* src: ui/model_tr/component/input_methods/passphrase.rs 386-397 (PassphraseEntry::event) *)
Definition pp_hide (self : PassphraseEntry) (ctx : EventCtx) (ev : Event) : ui (PassphraseEntry * EventCtx) :=
  match ev with
  | Timer _ => Ok (self, ctx)
  | _ =>
    '(self, ctx) ← (if show_plain_passphrase self then
                      update_passphrase_dots (set_pp_shown self false (pp_show_last self)) ctx
                    else Ok (self, ctx));
    if pp_show_last self then update_passphrase_dots (set_pp_shown self (show_plain_passphrase self) false) ctx
    else Ok (self, ctx)
  end.

(** What a chosen action does. *)
(* src: ui/model_tr/component/input_methods/passphrase.rs 400-445 (PassphraseEntry::event) *)
Definition pp_action (self : PassphraseEntry) (ctx : EventCtx) (action : PassphraseAction) (long_press : bool)
    : ui (PassphraseEntry * EventCtx * option CancelConfirmMsg) :=
  match action with
  | ActionCancelOrDelete =>
    if pp_is_empty self then Ok (self, ctx, Some EntryCancelled) else
    let '(textbox, ctx) := if long_press then clear (pp_textbox self) ctx else delete_last (pp_textbox self) ctx in
    '(self, ctx) ← update_passphrase_dots (set_pp_textbox self textbox) ctx;
    '(self, ctx) ← (if pp_is_empty self then show_menu_page self ctx else Ok (self, ctx));
    Ok (self, request_paint ctx, None)
  | ActionEnter => Ok (self, ctx, Some EntryConfirmed)
  | ActionShow =>
    '(self, ctx) ← update_passphrase_dots (set_pp_shown self true (pp_show_last self)) ctx;
    Ok (self, request_paint ctx, None)
  | ActionCategory category =>
    '(self, ctx) ← show_category_page (set_pp_category self category) ctx;
    Ok (self, request_paint ctx, None)
  | ActionMenu =>
    '(self, ctx) ← show_menu_page (set_pp_category self Menu) ctx;
    Ok (self, request_paint ctx, None)
  | ActionCharacter ch =>
    if pp_is_full self then Ok (self, ctx, None) else
    let '(textbox, ctx) := append (pp_textbox self) ctx [ch] in
    let self := set_pp_shown (set_pp_textbox self textbox) (show_plain_passphrase self) true in
    '(self, ctx) ← update_passphrase_dots self ctx;
    '(self, ctx) ← randomize_category_position self ctx;
    Ok (self, request_paint ctx, None)
  end.

(* src: ui/model_tr/component/input_methods/passphrase.rs 385-449 (PassphraseEntry::event) *)
Definition passphrase_event (self : PassphraseEntry) (ctx : EventCtx) (ev : Event)
    : ui (PassphraseEntry * EventCtx * option CancelConfirmMsg) :=
  '(self, ctx) ← pp_hide self ctx ev;
  '(page, ctx, msg) ← choice_event (pp_page self) ctx ev;
  let self := set_pp_page self page in
  match msg with
  | Some (action, long_press) => pp_action self ctx action long_press
  | None => Ok (self, ctx, None)
  end.

(* src: ui/model_tr/component/input_methods/passphrase.rs 377-383 (PassphraseEntry::place) *)
Definition passphrase_place (self : PassphraseEntry) (bounds : Rect) : ui (PassphraseEntry * Rect) :=
  let '(passphrase_area, choice_area) := split_top bounds (needed_height (inner (passphrase_dots self))) in
  '(dots, _) ← place (passphrase_dots self) passphrase_area;
  '(page, _) ← choice_place (pp_page self) choice_area;
  Ok (set_pp_page (set_pp_dots self dots) page, bounds).
End PassphraseEntry.

(** ** Words of a mnemonic *)

(* src: ui/model_tr/component/input_methods/wordlist.rs 15-20 (WordlistAction) *)
Inductive WordlistAction :=
| WordLetter (letter : list Z)
| WordWord (word : list Z)
| WordDelete
| WordPrevious.

(* src: ui/model_tr/component/input_methods/wordlist.rs 22-34 (MAX_WORD_LENGTH, OFFER_WORDS_THRESHOLD, DELETE_INDEX, INITIAL_PAGE_COUNTER, PROMPT) *)
Definition OFFER_WORDS_THRESHOLD : Z := 10.
Definition DELETE_INDEX : Z := 0.
Definition INITIAL_PAGE_COUNTER : Z := DELETE_INDEX + 1.
Definition PROMPT : list Z := [95].

(* src: ui/model_tr/component/input_methods/wordlist.rs 37-39 (get_random_position) *)
Definition get_random_position `{RandomDriver} (call num_choices : Z) : ui Z :=
  uniform_between call INITIAL_PAGE_COUNTER (wrapu 32 (num_choices - 1)).

(* src: ui/model_tr/component/input_methods/wordlist.rs 43-46 (WordlistType) *)
Inductive WordlistType := TypeBip39 | TypeSlip39.

(* src: ui/model_tr/component/input_methods/wordlist.rs 48-56 (ChoiceFactoryWordlist) *)
Record ChoiceFactoryWordlist := mkWordFactory {
  wordlist : Wordlist;
  offer_words : bool;
  word_random_order : list Z;
  empty_input : bool
}.

(* src: ui/model_tr/component/input_methods/wordlist.rs 59-83 (ChoiceFactoryWordlist::new) *)
Definition word_factory_new `{RandomDriver} (wordlist_type : WordlistType) (prefix : list Z) : ui ChoiceFactoryWordlist :=
  wordlist ← filter_prefix (match wordlist_type with
                            | TypeBip39 => wordlist_bip39
                            | TypeSlip39 => wordlist_slip39
                            end) prefix;
  let offer_words := wordlist_len wordlist <? OFFER_WORDS_THRESHOLD in
  word_random_order ← (if offer_words then shuffle (range (wordlist_len wordlist)) else Ok []);
  Ok (mkWordFactory wordlist offer_words word_random_order (bool_decide (prefix = []))).

Section WordFactory.
Context `{Texts}.

(* src: ui/model_tr/component/input_methods/wordlist.rs 90-97 (ChoiceFactoryWordlist::count) *)
Definition word_count (self : ChoiceFactoryWordlist) : ui Z :=
  if offer_words self then Ok (1 + wordlist_len (wordlist self))
  else letters ← get_available_letters (wordlist self); Ok (1 + len letters).

(** [get] and [nth] out of range give an empty word and the character zero. *)
(* src: ui/model_tr/component/input_methods/wordlist.rs 99-154 (ChoiceFactoryWordlist::get) *)
Definition word_get (self : ChoiceFactoryWordlist) (choice_index : Z) : ui (ChoiceItem * WordlistAction) :=
  let item_of t := item_new t (arrow_armed_arrow buttons__select) in
  if choice_index =? DELETE_INDEX then
    item ← item_of (if empty_input self then inputs__previous else inputs__delete);
    Ok (with_middle_action_without_release (with_icon item TR_ICON_DELETE),
        if empty_input self then WordPrevious else WordDelete)
  else if offer_words self then
    index ← or_panic (getZ (word_random_order self) (choice_index - 1));
    let word := default [] (wordlist_get (wordlist self) index) in
    item ← item_of word;
    Ok (item, WordWord word)
  else
    letters ← get_available_letters (wordlist self);
    let letter := default [0] (getZ letters (choice_index - 1)) in
    item ← item_of letter;
    Ok (item, WordLetter letter).

#[export] Instance word_factory : ChoiceFactory ChoiceFactoryWordlist WordlistAction := {
  count := word_count;
  get := word_get
}.
End WordFactory.

(* src: ui/model_tr/component/input_methods/wordlist.rs 158-166 (WordlistEntry) *)
Record WordlistEntry := mkWordEntry {
  we_page : ChoicePage ChoiceFactoryWordlist;
  chosen_letters : Child ChangingTextLine;
  we_textbox : TextBox;
  we_offer_words : bool;
  wordlist_type : WordlistType;
  can_go_back : bool
}.

Section Words.
Context `{FontDriver} `{DisplayConstants} `{Texts} `{RandomDriver}.

(* src: ui/model_tr/component/input_methods/wordlist.rs 169-184 (WordlistEntry::new) *)
Definition word_entry_new (wordlist_type : WordlistType) (can_go_back : bool) : ui WordlistEntry :=
  choices ← word_factory_new wordlist_type [];
  choices_count ← word_count choices;
  page ← choice_new choices;
  pos ← get_random_position 0 choices_count;
  page ← with_initial_page_counter (with_carousel (with_incomplete page true) true) pos;
  letters ← center_mono PROMPT;
  Ok (mkWordEntry page (child_new letters) textbox_empty false wordlist_type can_go_back).

(* src: ui/model_tr/component/input_methods/wordlist.rs 186-204 (WordlistEntry::prefilled_word) *)
Definition prefilled_word (word : list Z) (wordlist_type : WordlistType) (can_go_back : bool) : ui WordlistEntry :=
  if bool_decide (word = []) then word_entry_new wordlist_type can_go_back else
  choices ← word_factory_new wordlist_type word;
  page ← choice_new choices;
  page ← with_initial_page_counter (with_incomplete page true) 1;
  letters ← center_mono word;
  textbox ← textbox_new word;
  Ok (mkWordEntry page (child_new letters) textbox false wordlist_type can_go_back).

Implicit Types self : WordlistEntry.

(* src: ui/model_tr/component/input_methods/wordlist.rs 212-214 (WordlistEntry::get_last_textbox_letter) *)
Definition get_last_textbox_letter self : option (list Z) := last (chars (Keyboard.content (we_textbox self))).

(** A position is drawn until its letter is not the last one of the text. *)
(* src: ui/model_tr/component/input_methods/wordlist.rs 231-245 (WordlistEntry::get_new_page_counter) *)
Fixpoint pick_position (fuel : nat) (call : Z) self (new_choices : ChoiceFactoryWordlist) (choices_count : Z) : ui Z :=
  match fuel with
  | O => NoFuel
  | S fuel =>
    random_position ← get_random_position call choices_count;
    '(_, current_action) ← word_get new_choices random_position;
    match current_action, get_last_textbox_letter self with
    | WordLetter current_letter, Some last_letter =>
      if bool_decide (current_letter = last_letter) then pick_position fuel (call + 1) self new_choices choices_count
      else Ok random_position
    | _, _ => Ok random_position
    end
  end.

(** How many draws are allowed. *)
Definition MAX_DRAWS : nat := 1000.

(* src: ui/model_tr/component/input_methods/wordlist.rs 216-246 (WordlistEntry::get_new_page_counter) *)
Definition get_new_page_counter self (new_choices : ChoiceFactoryWordlist) : ui Z :=
  if we_offer_words self then Ok INITIAL_PAGE_COUNTER else
  choices_count ← word_count new_choices;
  if negb (1 <? choices_count) then Panic
  else if choices_count =? 2 then Ok INITIAL_PAGE_COUNTER
  else pick_position MAX_DRAWS 0 self new_choices choices_count.

(* src: ui/model_tr/component/input_methods/wordlist.rs 262-268 (WordlistEntry::update_chosen_letters) *)
Definition update_chosen_letters self (ctx : EventCtx) : ui (WordlistEntry * EventCtx) :=
  t ← short (Keyboard.content (we_textbox self) ++ PROMPT);
  '(letters, ctx) ← change_line (chosen_letters self) ctx (λ line, update_text line t);
  Ok (mkWordEntry (we_page self) letters (we_textbox self) (we_offer_words self) (wordlist_type self)
        (can_go_back self), ctx).

(* src: ui/model_tr/component/input_methods/wordlist.rs 249-259 (WordlistEntry::update) *)
Definition we_update self (ctx : EventCtx) : ui (WordlistEntry * EventCtx) :=
  '(self, ctx) ← update_chosen_letters self ctx;
  new_choices ← word_factory_new (wordlist_type self) (Keyboard.content (we_textbox self));
  let self := mkWordEntry (we_page self) (chosen_letters self) (we_textbox self) (offer_words new_choices)
                (wordlist_type self) (can_go_back self) in
  new_page_counter ← get_new_page_counter self new_choices;
  '(page, ctx) ← choice_reset (we_page self) ctx new_choices (Some new_page_counter) (negb (we_offer_words self));
  Ok (mkWordEntry page (chosen_letters self) (we_textbox self) (we_offer_words self) (wordlist_type self)
        (can_go_back self), request_paint ctx).

Definition set_we_textbox self (t : TextBox) : WordlistEntry :=
  mkWordEntry (we_page self) (chosen_letters self) t (we_offer_words self) (wordlist_type self) (can_go_back self).
Definition set_we_page self (p : ChoicePage ChoiceFactoryWordlist) : WordlistEntry :=
  mkWordEntry p (chosen_letters self) (we_textbox self) (we_offer_words self) (wordlist_type self) (can_go_back self).

Context `{Clock}.

(** What a chosen action does. *)
(* src: ui/model_tr/component/input_methods/wordlist.rs 284-306 (WordlistEntry::event) *)
Definition we_action self (ctx : EventCtx) (action : WordlistAction) (long_press : bool)
    : ui (WordlistEntry * EventCtx * option (list Z)) :=
  match action with
  | WordPrevious => Ok (self, ctx, if can_go_back self then Some [] else None)
  | WordDelete =>
    let '(textbox, ctx) := if long_press then clear (we_textbox self) ctx else delete_last (we_textbox self) ctx in
    '(self, ctx) ← we_update (set_we_textbox self textbox) ctx;
    Ok (self, ctx, None)
  | WordLetter letter =>
    let '(textbox, ctx) := append (we_textbox self) ctx letter in
    '(self, ctx) ← we_update (set_we_textbox self textbox) ctx;
    Ok (self, ctx, None)
  | WordWord word => Ok (self, ctx, Some word)
  end.

(* src: ui/model_tr/component/input_methods/wordlist.rs 282-309 (WordlistEntry::event) *)
Definition word_entry_event self (ctx : EventCtx) (ev : Event) : ui (WordlistEntry * EventCtx * option (list Z)) :=
  '(page, ctx, msg) ← choice_event (we_page self) ctx ev;
  let self := set_we_page self page in
  match msg with
  | Some (action, long_press) => we_action self ctx action long_press
  | None => Ok (self, ctx, None)
  end.

(* src: ui/model_tr/component/input_methods/wordlist.rs 274-280 (WordlistEntry::place) *)
Definition word_entry_place self (bounds : Rect) : ui (WordlistEntry * Rect) :=
  let '(letters_area, choice_area) := split_top bounds (needed_height (inner (chosen_letters self))) in
  '(letters, _) ← place (chosen_letters self) letters_area;
  '(page, _) ← choice_place (we_page self) choice_area;
  Ok (mkWordEntry page letters (we_textbox self) (we_offer_words self) (wordlist_type self) (can_go_back self), bounds).
End Words.
