(* ===== verification/TrEntrySpec.v ===== *)
(** * What is chosen and entered on the model R

    Pages of choices stay within their items, whatever events come; and so the
    entries of PINs, passphrases and words never abort, and what they confirm is
    what they are for. *)
From S2P Require Import Prelude Time StrUtil Geometry Words Wordlist WordSpec Component Theme ComponentSpec Fonts Keyboard Pin PinSpec.
From S2P Require Import TrButton Hold Controller ControllerSpec Choice TrEntry.
Local Open Scope Z_scope.

(** ** Methods that end *)
Definition ends {A} (m : ui (A * EventCtx)) (Q : A → Prop) : Prop := ∃ a ctx, m = Ok (a, ctx) ∧ Q a.

Lemma ends_weaken {A} (m : ui (A * EventCtx)) (P Q : A → Prop) : ends m P → (∀ a, P a → Q a) → ends m Q.
Proof. intros (a & ctx & Hm & HP) HPQ. exists a, ctx. auto. Qed.

Lemma ends_bind {A B} (m : ui (A * EventCtx)) (f : A → EventCtx → ui (B * EventCtx)) (P : A → Prop) (Q : B → Prop) :
  ends m P → (∀ a ctx, P a → ends (f a ctx) Q) → ends ('(a, ctx) ← m; f a ctx) Q.
Proof. intros (a & ctx & -> & HP) Hf. by apply Hf. Qed.

Lemma runs_bind {A B U} (m : ui (A * EventCtx)) (f : A → EventCtx → ui (B * EventCtx * U)) (P : A → Prop) (Q : B → U → Prop) :
  ends m P → (∀ a ctx, P a → runs (f a ctx) Q) → runs ('(a, ctx) ← m; f a ctx) Q.
Proof. intros (a & ctx & -> & HP) Hf. by apply Hf. Qed.

(** ** Controllers of plain buttons *)
Section Buttons.
Context `{FontDriver} `{DisplayConstants}.

Lemma type_plain pos d : (∀ d', d = Some d' → bd_duration d' = None) → ∃ t, type_from_details pos d = Ok t.
Proof. intros Hd. destruct d as [d|]; cbn; [|by eexists]. rewrite (Hd d) by done. by eexists. Qed.

Lemma controller_new_plain l : plain l → ∃ b, controller_new l = Ok b.
Proof.
  intros Hp. unfold controller_new, container_new.
  destruct (type_plain PosLeft (btn_left l) (Hp PosLeft)) as [? ->].
  destruct (type_plain PosMiddle (btn_middle l) (Hp PosMiddle)) as [? ->].
  destruct (type_plain PosRight (btn_right l) (Hp PosRight)) as [? ->]. by eexists.
Qed.

Lemma controller_set_plain b l : plain l → ∃ b', controller_set b l = Ok b'.
Proof.
  intros Hp. unfold controller_set, container_set.
  destruct (type_plain (c_pos (left_btn b)) (btn_left l) (Hp PosLeft)) as [? ->].
  destruct (type_plain (c_pos (middle_btn b)) (btn_middle l) (Hp PosMiddle)) as [? ->].
  destruct (type_plain (c_pos (right_btn b)) (btn_right l) (Hp PosRight)) as [? ->]. by eexists.
Qed.
End Buttons.

(** ** Pages of choices *)

(** The items before and after one of [n], around the ends in a carousel. *)
Definition before (n : Z) (carousel : bool) (i : Z) : Z := if 0 <? i then i - 1 else if carousel then n - 1 else i.
Definition after (n : Z) (carousel : bool) (i : Z) : Z := if i <? n - 1 then i + 1 else if carousel then 0 else i.
Definition moved (n : Z) (carousel : bool) (pos : ButtonPos) (i : Z) : Z :=
  match pos with PosLeft => before n carousel i | PosRight => after n carousel i | PosMiddle => i end.

Lemma moved_range n carousel pos i : 0 <= i < n → 0 <= moved n carousel pos i < n.
Proof.
  intros. unfold moved, before, after. destruct pos, carousel;
    repeat match goal with |- context [if ?a <? ?b then _ else _] => destruct (Z.ltb_spec a b) end; lia.
Qed.

Section Choice.
Context `{FontDriver} `{DisplayConstants} {F A : Type} `{ChoiceFactory F A}.
Implicit Types p : ChoicePage F.

(** A factory of [n] items with plain buttons. *)
Record factory_ok (f : F) (n : Z) : Prop := {
  factory_count : count f = Ok n;
  factory_range : 1 <= n < 2 ^ 15;
  factory_get i : 0 <= i < n → ∃ item a, get f i = Ok (item, a) ∧ plain (btn_layout item)
}.

Record choice_ok (n : Z) p : Prop := {
  choice_factory : factory_ok (choices p) n;
  choice_counter : 0 <= page_counter p < n
}.

(** All but the pad and the buttons. *)
Record unmoved p p' : Prop := {
  unmoved_choices : choices p' = choices p;
  unmoved_counter : page_counter p' = page_counter p;
  unmoved_carousel : is_carousel p' = is_carousel p;
  unmoved_mover : animation_mover p' = animation_mover p;
  unmoved_steps : animated_steps_to_do p' = animated_steps_to_do p
}.

#[export] Instance unmoved_preorder : PreOrder unmoved.
Proof. split; [by split|]. intros x y z [] []. split; congruence. Qed.

Lemma unmoved_ok n p p' : unmoved p p' → choice_ok n p → choice_ok n p'.
Proof. intros [Hc Hp] [Hf Hr]. split; [by rewrite Hc|by rewrite Hp]. Qed.

Lemma set_buttons_ends n p ctx : choice_ok n p → ends (choice_set_buttons p ctx) (unmoved p).
Proof.
  intros [[Hn Hr Hg] Hc]. unfold choice_set_buttons, get_current_item, get_current_choice.
  destruct (Hg (page_counter p) Hc) as (item & a & -> & Hp). cbn [mbind outcome_bind].
  destruct (mutate_runs (ch_buttons p) ctx (λ ctx b,
    b ← controller_set b (btn_layout item);
    let '(b, ctx) := match moving_direction (holding_mover p) with
                     | Some pos => highlight_button pos (b, ctx)
                     | None => (b, ctx)
                     end in
    Ok (b, request_paint ctx, tt)) (λ _ _, True)) as (b & ctx' & [] & -> & _).
  - intros ctx'. destruct (controller_set_plain (inner (ch_buttons p)) (btn_layout item) Hp) as [b ->].
    cbn [mbind outcome_bind]. destruct (moving_direction (holding_mover p)) as [pos|]; [|by eexists _, _, _].
    destruct (highlight_button pos (b, ctx')). by eexists _, _, _.
  - cbn [mbind outcome_bind]. eexists _, _. by split.
Qed.

Lemma update_ends n p ctx : choice_ok n p → ends (choice_update p ctx) (unmoved p).
Proof.
  intros Hp. unfold choice_update. destruct (set_buttons_ends n p ctx Hp) as (p' & ctx' & -> & Hu).
  cbn [mbind outcome_bind]. eexists _, _. split; [done|]. by etransitivity.
Qed.

Lemma set_counter_ok n p i : choice_ok n p → 0 <= i < n → choice_ok n (set_counter p i).
Proof. intros [] ?. by split. Qed.

Lemma counter_small n p i : choice_ok n p → - 1 <= i <= n → i ≠ -1 → wrapu usize_bits i = i.
Proof. intros [[_ Hr _] _] ??. apply wrapu_small. unfold in_u. lia. Qed.

Lemma last_page_ok n p : choice_ok n p → last_page_index p = Ok (n - 1).
Proof.
  intros Hp. pose proof (choice_factory n p Hp) as [Hn Hr _]. unfold last_page_index. rewrite Hn. cbn [mbind outcome_bind].
  f_equal. apply (counter_small n p); [done|lia..].
Qed.

(** A move by one item. *)
Lemma move_ends n p ctx pos :
  choice_ok n p →
  ends (move_to p ctx pos) (unmoved (set_counter p (moved n (is_carousel p) pos (page_counter p)))).
Proof.
  intros Hp. pose proof (choice_counter n p Hp) as Hc.
  pose proof (set_counter_ok n p _ Hp (moved_range n (is_carousel p) pos _ Hc)) as Hok.
  unfold moved, before, after in *. unfold move_to, move_left, move_right, has_next_choice, has_previous_choice.
  rewrite (last_page_ok n p Hp). unfold decrease_page_counter, increase_page_counter. destruct pos; cbn [mbind outcome_bind].
  - destruct (Z.ltb_spec 0 (page_counter p)) as [Hlt|].
    + rewrite (counter_small n p) by (done || lia). by apply (update_ends n).
    + destruct (is_carousel p); [by apply (update_ends n)|]. eexists _, _. by split.
  - eexists _, _. by split.
  - destruct (Z.ltb_spec (page_counter p) (n - 1)) as [Hlt|].
    + rewrite (counter_small n p) by (done || lia). by apply (update_ends n).
    + destruct (is_carousel p); [by apply (update_ends n)|]. eexists _, _. by split.
Qed.

(** *** One event *)

(** The same items, the same one of them selected. *)
Record kept p p' : Prop := {
  kept_choices : choices p' = choices p;
  kept_counter : page_counter p' = page_counter p;
  kept_carousel : is_carousel p' = is_carousel p
}.

Lemma unmoved_kept p p' : unmoved p p' → kept p p'.
Proof. by intros []. Qed.

Lemma kept_ok n p p' : kept p p' → choice_ok n p → choice_ok n p'.
Proof. intros [Hc Hp] [Hf Hr]. split; [by rewrite Hc|by rewrite Hp]. Qed.

(** The selection moves by at most one item, or is answered. *)
Record chosen (n : Z) p p' (msg : option (A * bool)) : Prop := {
  chosen_choices : choices p' = choices p;
  chosen_carousel : is_carousel p' = is_carousel p;
  chosen_counter : ∃ pos, page_counter p' = moved n (is_carousel p) pos (page_counter p);
  chosen_action a long : msg = Some (a, long) →
    page_counter p' = page_counter p ∧ ∃ item, get (choices p) (page_counter p) = Ok (item, a)
}.

Lemma chosen_ok n p p' msg : choice_ok n p → chosen n p p' msg → choice_ok n p'.
Proof.
  intros [Hf Hc] [Hch _ [pos Hp] _]. split; [by rewrite Hch|]. rewrite Hp. by apply moved_range.
Qed.

Lemma kept_chosen n p p' : kept p p' → chosen n p p' None.
Proof. intros []. split; try done. by exists PosMiddle. Qed.

Lemma chosen_kept n p p1 p2 msg : kept p p1 → chosen n p1 p2 msg → chosen n p p2 msg.
Proof. intros [Hc Hp Hk] [Hc2 Hk2 Hp2 Ha]. rewrite Hc, Hp, Hk in *. by split. Qed.

Lemma move_runs n p ctx pos :
  choice_ok n p →
  runs ('(p, ctx) ← move_to p ctx pos; Ok (p, ctx, None)) (λ p' (msg : option (A * bool)), chosen n p p' msg ∧ msg = None).
Proof.
  intros Hp. eapply runs_bind; [by apply move_ends|]. cbn beta. intros p' ctx' [Hc Hi Hk Hm Hs].
  eexists _, _, _. split; [done|]. split; [|done]. split; [done|done| |done]. by exists pos.
Qed.

Lemma message_runs n p ctx msg : choice_ok n p → runs (choice_message p ctx msg) (chosen n p).
Proof.
  intros Hp. pose proof Hp as [[Hn Hr Hg] Hc]. destruct (Hg _ Hc) as (item & a & Hget & Hpl).
  assert (∀ q long, kept p q → ∀ a', Some (a, long) = Some (a', long) → chosen n p q (Some (a, long))) as Hchosen.
  { intros q long [] a' _. split; [done|done|by exists PosMiddle|]. intros ?? [= <- <-]. split; [done|]. by exists item. }
  assert (∀ q ctx long, kept p q →
    runs (action ← get_current_action q; Ok (q, ctx, Some (action, long))) (chosen n p)) as Hact.
  { intros q ctx' long Hq. pose proof Hq as [Hqc Hqp _]. unfold get_current_action, get_current_choice.
    rewrite Hqc, Hqp, Hget. cbn [mbind outcome_bind]. eexists _, _, _. split; [done|]. by eapply Hchosen. }
  assert (∀ q ctx, kept p q → runs (Ok (q, ctx, None)) (chosen n p)) as Hnone.
  { intros. eexists _, _, _. split; [done|]. by apply kept_chosen. }
  unfold choice_message, clear_and_repaint. destruct msg as [[[]|[] long|[]|pos]|]; try (by apply Hnone);
    try (by apply Hact).
  - eapply runs_weaken; [by apply move_runs|]. by intros p' m [? ->].
  - eapply runs_weaken; [by apply move_runs|]. by intros p' m [? ->].
  - unfold get_current_item, get_current_choice. rewrite Hget. cbn [mbind outcome_bind].
    destruct (trigger_middle_without_release item); [|by apply Hnone].
    destruct (mutate_runs (ch_buttons p) ctx (λ ctx b, let '(b, ctx) := reset_state b ctx in Ok (b, ctx, tt)) (λ _ _, True))
      as (b & ctx' & [] & -> & _).
    { intros ctx'. destruct (reset_state (inner (ch_buttons p)) ctx'). by eexists _, _, _. }
    cbn [mbind outcome_bind]. by apply Hact.
Qed.

Lemma animation_kept p ctx ev : kept p (animation_event p ctx ev).1.1.
Proof.
  unfold animation_event. destruct (animated_steps_to_do p =? 0).
  - by destruct (is_moving (animation_mover p)).
  - by destruct (mover_event (animation_mover p) ctx ev) as [[m ctx'] r].
Qed.

Lemma holding_kept p ctx msg : kept p (holding_event p ctx msg).1.1.
Proof.
  unfold holding_event. destruct (moving_direction (holding_mover p)).
  - by destruct (match msg with Some (Triggered _ _) => _ | _ => _ end).
  - by destruct msg as [[[]|[]|[]|]|].
Qed.

(** Whatever event comes: the page moves by at most one item, and an answer is
    the action of the item that is selected. *)
Lemma choice_event_runs `{Clock} n p ctx ev : choice_ok n p → runs (choice_event p ctx ev) (chosen n p).
Proof.
  intros Hp. unfold choice_event. set (p0 := set_inverse p false).
  assert (kept p p0) as Hi0 by done. pose proof (animation_kept p0 ctx ev) as Hi1.
  destruct (animation_event p0 ctx ev) as [[p1 ctx1] anim]. cbn [fst] in Hi1.
  assert (kept p p1) as Hk1 by (destruct Hi0, Hi1; split; congruence).
  assert (∀ q ctx pos, kept p q → runs ('(self, ctx) ← move_to q ctx pos; Ok (self, ctx, None)) (chosen n p)) as Hmove.
  { intros q ctx' pos Hq. eapply runs_weaken; [apply (move_runs n); by eapply kept_ok|].
    intros p' m [Hm ->]. by eapply chosen_kept. }
  destruct anim as [pos|]; [by apply Hmove|].
  destruct (is_moving (animation_mover p1)); [eexists _, _, _; split; [done|by apply kept_chosen]|].
  destruct (mover_event (holding_mover p1) ctx1 ev) as [[mover ctx2] auto].
  destruct auto as [pos|]; [apply Hmove; by destruct Hk1|].
  destruct (child_event_runs (ch_buttons (set_holding p1 mover)) ctx2 ev (λ _ _, True)) as (b & ctx3 & msg & -> & _).
  { intros ctx'. cbn [event controller_component]. destruct (controller_event _ ctx' ev) as [[b ctx3] msg].
    by eexists _, _, _. }
  cbn [mbind outcome_bind]. set (q := set_ch_buttons (set_holding p1 mover) b).
  assert (kept p q) as Hq by (by destruct Hk1). pose proof (holding_kept q ctx3 msg) as Hh.
  destruct (holding_event q ctx3 msg) as [[q' ctx4] spent]. cbn [fst] in Hh.
  assert (kept p q') as Hq' by (destruct Hq, Hh; split; congruence).
  destruct spent; [eexists _, _, _; split; [done|by apply kept_chosen]|].
  eapply runs_weaken; [apply (message_runs n); by eapply kept_ok|]. intros p' m Hm. by eapply chosen_kept.
Qed.
End Choice.

(** ** Animations *)
Section Animation.
Context `{FontDriver} `{DisplayConstants} {F A : Type} `{ChoiceFactory F A} `{Clock}.
Implicit Types p : ChoicePage F.

Definition steps_pos (steps : Z) : ButtonPos := if 0 <? steps then PosRight else PosLeft.

(** A page that is being moved, and the timer that it waits for. *)
Record animated (n : Z) p (t : TimerToken) : Prop := {
  animated_ok : choice_ok n p;
  animated_carousel : is_carousel p = true;
  animated_range : - 2 ^ 15 < animated_steps_to_do p < 2 ^ 15;
  animated_direction : moving_direction (animation_mover p) = Some (steps_pos (animated_steps_to_do p));
  animated_timer : timer_token (animation_mover p) = Some t
}.

Lemma moved_mod n i pos : 0 <= i < n → pos ≠ PosMiddle →
  moved n true pos i = (i + match pos with PosRight => 1 | _ => -1 end) `mod` n.
Proof.
  intros Hi Hpos. unfold moved, before, after. destruct pos; [| |].
  - destruct (Z.ltb_spec 0 i); [rewrite Z.mod_small; lia|]. assert (i = 0) as -> by lia.
    replace (0 + -1) with (n - 1 + (-1) * n) by lia. rewrite Z.mod_add by lia. rewrite Z.mod_small; lia.
  - done.
  - destruct (Z.ltb_spec i (n - 1)); [rewrite Z.mod_small; lia|]. assert (i = n - 1) as -> by lia.
    replace (n - 1 + 1) with n by lia. by rewrite Z.mod_same by lia.
Qed.

(** The expiration of the timer moves by one item. *)
Lemma animated_tick n p t ctx :
  animated n p t → animated_steps_to_do p ≠ 0 →
  ∃ p' ctx', choice_event p ctx (Timer t) = Ok (p', ctx', None) ∧
    choices p' = choices p ∧
    page_counter p' = moved n true (steps_pos (animated_steps_to_do p)) (page_counter p) ∧
    animated_steps_to_do p' = animated_steps_to_do p - Z.sgn (animated_steps_to_do p) ∧
    (animated_steps_to_do p' = 0 ∨ ∃ t', animated n p' t').
Proof.
  intros [Hok Hk Hr Hd Ht] Hs. unfold choice_event, animation_event. cbn [animated_steps_to_do set_inverse animation_mover].
  destruct (Z.eqb_spec (animated_steps_to_do p) 0); [done|]. unfold mover_event, is_moving. rewrite Ht, Hd.
  rewrite !bool_decide_true by done. cbn [andb]. destruct (request_timer ctx _) as [t' ctx1].
  set (steps := if 0 <? animated_steps_to_do p then _ else _).
  assert (steps = animated_steps_to_do p - Z.sgn (animated_steps_to_do p)) as Hsteps.
  { unfold steps, i16. destruct (Z.ltb_spec 0 (animated_steps_to_do p)); rewrite wraps_small by (unfold in_s; lia); lia. }
  set (q := set_animation _ _ steps).
  assert (choice_ok n q) as Hq by (by destruct Hok).
  destruct (move_ends n q ctx1 (steps_pos (animated_steps_to_do p)) Hq) as (p' & ctx2 & -> & [Hc Hi Hk' Hm Hst]).
  cbn [mbind outcome_bind]. exists p', ctx2. split; [done|]. cbn in Hc, Hi, Hk', Hm, Hst. rewrite Hk in Hi.
  split; [done|]. split; [done|]. split; [congruence|]. destruct (Z.eq_dec steps 0) as [|Hne]; [left; congruence|right].
  exists t'. split.
  - destruct Hok as [Hf Hcnt]. split; [by rewrite Hc|]. rewrite Hi. by apply moved_range.
  - congruence.
  - rewrite Hst. lia.
  - rewrite Hm, Hst. cbn. unfold steps_pos. f_equal.
    destruct (Z.ltb_spec 0 (animated_steps_to_do p)), (Z.ltb_spec 0 steps); (done || lia).
  - by rewrite Hm.
Qed.

(** Meanwhile every other event does nothing. *)
Lemma animated_other n p t ctx ev :
  animated n p t → animated_steps_to_do p ≠ 0 → ev ≠ Timer t →
  choice_event p ctx ev = Ok (set_inverse p false, ctx, None).
Proof.
  intros [Hok Hk Hr Hd Ht] Hs Hev. unfold choice_event, animation_event. cbn [animated_steps_to_do set_inverse animation_mover].
  destruct (Z.eqb_spec (animated_steps_to_do p) 0); [done|].
  assert (mover_event (animation_mover p) ctx ev = (animation_mover p, ctx, None)) as ->.
  { unfold mover_event. destruct ev as [|?|?|t'|??|?| |?]; try done. rewrite Ht.
    rewrite bool_decide_false by congruence. done. }
  cbn [animation_mover set_animation]. unfold is_moving. rewrite Hd. rewrite bool_decide_true by done. by destruct p.
Qed.

(** The timer that a page waits for. *)
Definition own_timer p : Event := Timer (default INVALID (timer_token (animation_mover p))).

Definition event_eq_dec (ev : Event) (t : TimerToken) : {ev = Timer t} + {ev ≠ Timer t}.
Proof. destruct ev as [|?|?|t'|??|?| |?]; try (by right). destruct (decide (t' = t)) as [->|]; [by left|right; congruence]. Defined.

(** Events that are not this timer. *)
Fixpoint others (evs : list Event) p (ctx : EventCtx) : ui (ChoicePage F * EventCtx) :=
  match evs with
  | [] => Ok (p, ctx)
  | ev :: evs =>
    if event_eq_dec ev (default INVALID (timer_token (animation_mover p))) then others evs p ctx
    else '(p, ctx, _) ← choice_event p ctx ev; others evs p ctx
  end.

(** The expirations of the timers that a page waits for, with other events
    before each of them. *)
Fixpoint ticks (noise : list (list Event)) p (ctx : EventCtx) : ui (ChoicePage F * EventCtx) :=
  match noise with
  | [] => Ok (p, ctx)
  | evs :: noise =>
    '(p, ctx) ← others evs p ctx;
    '(p, ctx, _) ← choice_event p ctx (own_timer p);
    ticks noise p ctx
  end.

Lemma animated_inverse n p t v : animated n p t → animated n (set_inverse p v) t.
Proof. intros [[]]. by split. Qed.

Lemma others_still n p t evs ctx : animated n p t → animated_steps_to_do p ≠ 0 →
  ends (others evs p ctx) (λ p', p' = p ∨ p' = set_inverse p false).
Proof.
  intros Ha Hs. revert ctx. assert (∀ evs ctx, ends (others evs (set_inverse p false) ctx) (λ p', p' = set_inverse p false)) as Hinv.
  { induction evs0 as [|ev evs0 IH]; intros ctx; cbn [others]; [by eexists _, _|].
    destruct (event_eq_dec _ _) as [|Hne]; [done|]. rewrite (animated_timer n _ t (animated_inverse n p t false Ha)) in Hne.
    rewrite (animated_other n (set_inverse p false) t ctx ev) by (done || by apply animated_inverse).
    cbn [mbind outcome_bind]. apply IH. }
  induction evs as [|ev evs IH]; intros ctx; cbn [others]; [eexists _, _; split; [done|by left]|].
  destruct (event_eq_dec _ _) as [|Hne]; [done|]. rewrite (animated_timer n p t Ha) in Hne.
  rewrite (animated_other n p t ctx ev) by done. cbn [mbind outcome_bind].
  eapply ends_weaken; [apply Hinv|]. intros p' ->. by right.
Qed.

Lemma ticks_land n p t noise ctx :
  animated n p t → length noise = Z.to_nat (Z.abs (animated_steps_to_do p)) →
  ends (ticks noise p ctx) (λ p',
    choices p' = choices p ∧ animated_steps_to_do p' = 0 ∧
    page_counter p' = (page_counter p + animated_steps_to_do p) `mod` n).
Proof.
  revert p t ctx. induction noise as [|evs noise IH]; intros p t ctx Ha Hk; cbn [length] in Hk.
  { cbn [ticks]. eexists _, _. split; [done|]. split; [done|]. assert (animated_steps_to_do p = 0) as -> by lia.
    split; [done|]. rewrite Z.add_0_r. pose proof (choice_counter n p (animated_ok n p t Ha)).
    by rewrite Z.mod_small. }
  cbn [ticks]. destruct (others_still n p t evs ctx Ha) as (q & ctx0 & -> & Hq); [lia|]. cbn [mbind outcome_bind].
  assert (animated n q t ∧ choices q = choices p ∧ page_counter q = page_counter p ∧
    animated_steps_to_do q = animated_steps_to_do p) as (Hqa & Hqc & Hqi & Hqs).
  { destruct Hq as [->| ->]; [done|]. by split; [apply animated_inverse|]. }
  rewrite <- Hqc, <- Hqi, <- Hqs in *. clear dependent p. rename q into p, Hqa into Ha.
  unfold own_timer. rewrite (animated_timer n p t Ha). cbn [from_option]. change (id t) with t.
  destruct (animated_tick n p t ctx0 Ha) as (p1 & ctx1 & -> & Hc & Hi & Hs & Hnext); [lia|]. cbn [mbind outcome_bind].
  pose proof (choice_counter n p (animated_ok n p t Ha)) as Hrange. pose proof (animated_range n p t Ha) as Hr.
  rewrite moved_mod in Hi; [|done|unfold steps_pos; by destruct (0 <? _)].
  assert (page_counter p1 = (page_counter p + Z.sgn (animated_steps_to_do p)) `mod` n) as Hi1.
  { rewrite Hi. unfold steps_pos. f_equal. f_equal. destruct (Z.ltb_spec 0 (animated_steps_to_do p)); lia. }
  destruct Hnext as [Hz|[t' Ha']].
  - destruct noise as [|]; [|cbn [length] in Hk; lia]. cbn [ticks]. eexists _, _. split; [done|]. split; [done|]. split; [done|].
    rewrite Hi1. f_equal. lia.
  - destruct (IH p1 t' ctx1 Ha') as (p2 & ctx2 & -> & Hc2 & Hs2 & Hi2); [lia|]. eexists _, _. split; [done|].
    split; [congruence|]. split; [done|]. rewrite Hi2, Hi1, Hs, Zplus_mod_idemp_l. f_equal. lia.
Qed.

(** The animation towards an item starts. *)
Lemma set_counter_animated n p ctx target :
  choice_ok n p → is_carousel p = true → 0 <= target < n →
  ends (set_page_counter p ctx target true) (λ p',
    choices p' = choices p ∧ page_counter p' = page_counter p ∧ (∃ t, animated n p' t) ∧
    animated_steps_to_do p' ≠ 0 ∧ (page_counter p + animated_steps_to_do p') `mod` n = target ∧
    Z.abs (animated_steps_to_do p') <= n).
Proof.
  intros Hp Hk Ht. pose proof Hp as [[Hn Hr Hg] Hc]. unfold set_page_counter. rewrite Hn. cbn [mbind outcome_bind].
  set (diff := i16 (wraps 16 target - wraps 16 (page_counter p))).
  assert (diff = target - page_counter p) as Hdiff.
  { unfold diff, i16. rewrite !wraps_small by (unfold in_s; rewrite ?wraps_small by (unfold in_s; lia); lia). done. }
  set (steps := if (-3 <=? diff) && (diff <=? 0) then _ else _).
  assert ((steps = diff + n ∧ diff <= 0) ∨ (steps = diff - n ∧ 1 <= diff) ∨ (steps = diff ∧ diff ≠ 0)) as Hsteps.
  { unfold steps, i16. rewrite (wraps_small 16 n) by (unfold in_s; lia).
    destruct (Z.leb_spec (-3) diff), (Z.leb_spec diff 0), (Z.leb_spec 1 diff), (Z.leb_spec diff 3); cbn [andb];
      rewrite ?wraps_small by (unfold in_s; lia); lia. }
  destruct (start_moving (animation_mover p) ctx _) as [mover ctx'] eqn:Em. eexists _, _. split; [done|].
  unfold start_moving in Em. destruct (request_timer ctx _) as [t ctx1]. injection Em as <- _.
  cbn. split; [done|]. split; [done|]. split.
  - exists t. split; cbn; [by destruct Hp|done|lia|done|done].
  - assert (Z.abs steps <= n) as Hb.
    { unfold steps, i16. rewrite (wraps_small 16 n) by (unfold in_s; lia).
      destruct (Z.leb_spec (-3) diff), (Z.leb_spec diff 0), (Z.leb_spec 1 diff), (Z.leb_spec diff 3); cbn [andb];
        rewrite ?wraps_small by (unfold in_s; lia); lia. }
    split; [lia|]. split; [|done]. destruct Hsteps as [[-> _]|[[-> _]|[-> _]]].
    + replace (page_counter p + (diff + n)) with (target + 1 * n) by lia. rewrite Z.mod_add by lia. by apply Z.mod_small.
    + replace (page_counter p + (diff - n)) with (target + (-1) * n) by lia. rewrite Z.mod_add by lia. by apply Z.mod_small.
    + replace (page_counter p + diff) with target by lia. by apply Z.mod_small.
Qed.

(** The start of an animation, whatever its target. *)
Lemma set_counter_ends n p ctx target :
  choice_ok n p → ends (set_page_counter p ctx target true) (λ p', choice_ok n p' ∧ kept p p').
Proof.
  intros Hp. pose proof Hp as [[Hn _ _] _]. unfold set_page_counter. rewrite Hn. cbn [mbind outcome_bind].
  destruct (start_moving _ _ _) as [mover ctx']. eexists _, _. split; [done|]. by destruct Hp.
Qed.

(** New items, one of them selected. *)
Lemma reset_ends n p ctx (f : F) i carousel :
  factory_ok f n → 0 <= i < n →
  ends (choice_reset p ctx f (Some i) carousel) (λ p', choice_ok n p' ∧ choices p' = f ∧ page_counter p' = i).
Proof.
  intros Hf Hi. unfold choice_reset. assert (choice_ok n (set_choices (set_counter p i) f carousel)) as Hok by (by split).
  eapply ends_weaken; [by apply (update_ends n)|]. intros p' Hu. split; [by eapply unmoved_ok|]. by destruct Hu.
Qed.

(** New pages. *)
Lemma item_buttons_ok item : plain (btn_layout item) → ∃ b, item_buttons item = Ok b.
Proof. intros Hp. unfold item_buttons. destruct (controller_new_plain _ Hp) as [b ->]. by eexists. Qed.

Lemma choice_new_ok n (f : F) :
  factory_ok f n → ∃ p, choice_new f = Ok p ∧ choice_ok n p ∧ choices p = f.
Proof.
  intros Hf. pose proof Hf as [Hn Hr Hg]. unfold choice_new. destruct (Hg 0) as (item & a & -> & Hp); [lia|].
  cbn [mbind outcome_bind]. destruct (item_buttons_ok item Hp) as [b ->]. eexists. split; [done|]. split; [|done].
  split; [done|]. cbn. lia.
Qed.

Lemma initial_counter_ok n p i :
  choice_ok n p → 0 <= i < n → ∃ p', with_initial_page_counter p i = Ok p' ∧ choice_ok n p' ∧ choices p' = choices p ∧ page_counter p' = i.
Proof.
  intros Hp Hi. pose proof Hp as [[Hn Hr Hg] _]. unfold with_initial_page_counter, get_current_item, get_current_choice.
  cbn [choices page_counter set_counter]. destruct (Hg i Hi) as (item & a & -> & Hpl). cbn [mbind outcome_bind].
  destruct (item_buttons_ok item Hpl) as [b ->]. eexists. split; [done|]. split; [|done]. by split.
Qed.
End Animation.

(** ** Runs *)

(** The events of an entry until it answers, each with its own draws. *)
Definition Step E Msg : Type := RandomDriver → E → EventCtx → Event → ui (E * EventCtx * option Msg).

Fixpoint entry_run {E Msg} (step : Step E Msg) (e : E) (events : list (RandomDriver * EventCtx * Event)) : ui (E * option Msg) :=
  match events with
  | [] => Ok (e, None)
  | (rnd, ctx, ev) :: events =>
    '(e, _, msg) ← step rnd e ctx ev;
    match msg with Some m => Ok (e, Some m) | None => entry_run step e events end
  end.

Definition lawful (L : RandomDriver → Prop) (events : list (RandomDriver * EventCtx * Event)) : Prop :=
  Forall (λ x, L x.1.1) events.

Lemma entry_run_spec {E Msg} (L : RandomDriver → Prop) (step : Step E Msg) (ok : E → Prop) (good : E → Msg → Prop) e events :
  (∀ rnd e ctx ev, L rnd → ok e → runs (step rnd e ctx ev) (λ e' msg, ok e' ∧ ∀ m, msg = Some m → good e' m)) →
  ok e → lawful L events →
  ∃ e' msg, entry_run step e events = Ok (e', msg) ∧ ok e' ∧ ∀ m, msg = Some m → good e' m.
Proof.
  intros Hstep. revert e. induction events as [|[[rnd ctx] ev] events IH]; intros e He Hl; [by exists e, None|].
  apply Forall_cons in Hl as [Hr Hl]. cbn [entry_run].
  destruct (Hstep rnd e ctx ev Hr He) as (e1 & ctx1 & msg & -> & He1 & Hm). cbn [mbind outcome_bind].
  destruct msg as [m|]; [by eexists _, _|by apply IH].
Qed.

(** ** Texts that are entered *)

(** Every text of the interface fits into a short string. *)
Class ShortTexts `{Texts} : Prop := {
  short_texts : Forall (λ t, len t <= CAPACITY)
    [inputs__delete; inputs__show; inputs__enter; inputs__space; inputs__cancel; inputs__back; inputs__previous;
     pin__title_wrong_pin]
}.

Lemma short_ok s : len s <= CAPACITY → short s = Ok s.
Proof. intros Hs. unfold short, push_str. by rewrite (proj2 (Z.leb_le _ _)) by (cbn [length]; lia). Qed.

(** A text of at most fifty characters of an alphabet. *)
Record entered_text (alphabet : Z → Prop) (s : list Z) : Prop := {
  entered_alphabet : Forall alphabet s;
  entered_length : len s <= CAPACITY
}.

(** One event leaves the text, adds a character when there is room, or deletes
    the last one or all of them. *)
Inductive edited (alphabet : Z → Prop) (s : list Z) : list Z → Prop :=
| edited_same : edited alphabet s s
| edited_append c : alphabet c → len s < CAPACITY → edited alphabet s (s ++ [c])
| edited_delete : s ≠ [] → edited alphabet s (removelast s)
| edited_clear : edited alphabet s [].

Section Edits.
Context (alphabet : Z → Prop) (Hascii : ∀ c, alphabet c → 0 < c < 128).

Lemma entered_ascii s : entered_text alphabet s → ascii s.
Proof. intros [Hs _]. eapply Forall_impl; [exact Hs|done]. Qed.

Lemma entered_empty : entered_text alphabet [].
Proof. split; [done|]. by unfold CAPACITY. Qed.

Lemma edited_entered s s' : entered_text alphabet s → edited alphabet s s' → entered_text alphabet s'.
Proof.
  intros [Ha Hl] [|c Hc Hr| |]; [done| | |apply entered_empty].
  - split; [by apply Forall_app_2; [|constructor]|]. rewrite length_app. cbn [length]. lia.
  - destruct (removelast_Forall alphabet s Ha). split; [done|lia].
Qed.

(** The operations of the text box. *)
Lemma append_edited t ctx c : alphabet c → len (Keyboard.content t) < CAPACITY →
  edited alphabet (Keyboard.content t) (Keyboard.content (append t ctx [c]).1).
Proof.
  intros Hc Hr. unfold append, push_or_drop, push_str. cbn [fst Keyboard.content length].
  rewrite (proj2 (Z.leb_le _ _)) by lia. by constructor.
Qed.

Lemma delete_edited t ctx long : entered_text alphabet (Keyboard.content t) → Keyboard.content t ≠ [] →
  edited alphabet (Keyboard.content t) (Keyboard.content (if long : bool then clear t ctx else delete_last t ctx).1).
Proof.
  intros Ht Hne. destruct long.
  - unfold clear, replace. rewrite bool_decide_true by done. cbn [fst Keyboard.content push_or_drop].
    change (push_or_drop [] []) with (@nil Z). constructor.
  - unfold delete_last. pose proof (proj1 (pop_ascii _ (entered_ascii _ Ht))) as Hp.
    destruct (pop (Keyboard.content t)) as [o s]. cbn [fst snd Keyboard.content] in *. subst s. by constructor.
Qed.

Lemma hidden_ok s show_last : entered_text alphabet s → s ≠ [] → ∃ h, hidden_text s show_last = Ok h ∧ len h <= CAPACITY.
Proof.
  intros Hs Hne. pose proof (entered_ascii s Hs) as Ha. pose proof (entered_length _ s Hs). unfold hidden_text.
  assert (∃ c, (if show_last then or_panic (last (chars s)) else Ok [42]) = Ok [c]) as [c ->].
  { destruct show_last; [|by exists 42]. rewrite chars_ascii by done.
    destruct s as [|b s _] using rev_ind; [done|]. rewrite fmap_app, fmap_cons, fmap_nil, last_snoc. by exists b. }
  cbn [mbind outcome_bind]. assert (1 <= len s) by (destruct s; [done|simpl; lia]).
  assert (len (replicate (Z.to_nat (wrapu usize_bits (len s - 1))) 42 ++ [c]) <= CAPACITY) as Hl.
  { rewrite length_app, length_replicate, wrapu_small by (unfold in_u, CAPACITY in *; lia). cbn [length]. lia. }
  eexists. split; [by apply short_ok|done].
Qed.
End Edits.

(** A line of text is changed. *)
Lemma change_line_ends line ctx f : (∃ l, f (inner line) = Ok l) → ends (change_line line ctx f) (λ _, True).
Proof.
  intros [l Hf]. unfold change_line.
  destruct (mutate_runs line ctx (λ ctx line,
    line ← f line; '(line, ctx) ← request_complete_repaint line ctx; Ok (line, ctx, tt)) (λ _ _, True))
    as (l' & ctx' & [] & -> & _); [|by eexists _, _].
  intros ctx'. rewrite Hf. by eexists _, _, _.
Qed.

Lemma update_text_ends line ctx g t : len t <= CAPACITY → ends (change_line line ctx (λ l, update_text (g l) t)) (λ _, True).
Proof. intros Ht. apply change_line_ends. unfold update_text. rewrite short_ok by done. by eexists. Qed.

(** *** Drawn positions *)
Lemma uniform_ok `{RandomLaws} call min max : 0 <= min <= max → max < 2 ^ 31 →
  ∃ i, uniform_between call min max = Ok i ∧ min <= i <= max.
Proof.
  intros [Hm Hmax] Hb. unfold uniform_between. rewrite (proj2 (Z.leb_le _ _)) by lia.
  rewrite (wrapu_small 32 (max - min + 1)) by (unfold in_u; lia).
  pose proof (uniform_range call (max - min + 1)). unfold uniform.
  rewrite wrapu_small by (unfold in_u; lia). eexists. split; [done|]. lia.
Qed.

(** *** Items of the factories *)
Lemma item_ok t l : len t <= CAPACITY → item_new t l = Ok (mkItem t None l BIG false).
Proof. intros Ht. unfold item_new. by rewrite short_ok. Qed.

Lemma plain_arrows t : plain (arrow_armed_arrow t).
Proof. intros [] d Hd; by simplify_eq/=. Qed.

Lemma plain_middle item t : plain (btn_layout item) → plain (btn_layout (set_middle_btn item (Some (armed_text t)))).
Proof. intros Hp pos d Hd. destruct pos; cbn in Hd; [by apply (Hp PosLeft)|by simplify_eq|by apply (Hp PosRight)]. Qed.

Lemma plain_without_release item : plain (btn_layout item) → plain (btn_layout (with_middle_action_without_release item)).
Proof.
  intros Hp pos d Hd. destruct pos; cbn in Hd; [by apply (Hp PosLeft)| |by apply (Hp PosRight)].
  destruct (btn_middle (btn_layout item)) as [d'|] eqn:Hm; [|done]. simplify_eq/=. by apply (Hp PosMiddle).
Qed.

Lemma plain_icon item i : plain (btn_layout item) → plain (btn_layout (with_icon item i)).
Proof. done. Qed.

Ltac plain_item := repeat first [apply plain_arrows | apply plain_without_release | apply plain_middle | apply plain_icon].

(** ** PINs *)
Definition pin_digit (c : Z) : Prop := 48 <= c <= 57.
Definition pin_plain (c : Z) : pin_digit c → 0 < c < 128.
Proof. unfold pin_digit. lia. Qed.

Section Pin.
Context `{FontDriver} `{DisplayConstants} `{ShortTexts} `{RandomLaws} `{Clock}.
Implicit Types e : PinEntry.

Lemma choices_texts : Forall (λ c, len (pc_text c) <= CAPACITY ∧ match pc_action c with PinDigit d => pin_digit d | _ => True end) CHOICES.
Proof.
  pose proof short_texts as Ht. repeat (apply Forall_cons in Ht as [? Ht]).
  unfold CHOICES. do 3 (constructor; [by split|]). apply Forall_fmap, Forall_forall.
  intros d Hd%elem_of_range. unfold compose, pin_digit, CAPACITY. cbn. lia.
Qed.

Lemma pin_get_ok i : 0 <= i < CHOICE_LENGTH →
  ∃ item a, pin_get i = Ok (item, a) ∧ plain (btn_layout item) ∧ match a with PinDigit d => pin_digit d | _ => True end.
Proof.
  intros Hi. unfold pin_get. destruct (proj2 (getZ_is_Some CHOICES i)) as [c Hc]; [done|]. rewrite Hc. cbn [or_panic mbind outcome_bind].
  destruct (getZ_Forall _ _ _ _ Hc choices_texts) as [Hl Hd]. rewrite item_ok by done. cbn [mbind outcome_bind].
  eexists _, _. split; [done|]. split; [|done].
  destruct (pc_action c), (pc_without_release c), (pc_icon c); plain_item.
Qed.

Lemma pin_factory_ok : factory_ok FactoryPIN CHOICE_LENGTH.
Proof.
  split; [done|by unfold CHOICE_LENGTH|]. intros i Hi. destruct (pin_get_ok i Hi) as (item & a & ? & ? & _). by exists item, a.
Qed.

Record pe_ok e : Prop := {
  pe_page_ok : choice_ok CHOICE_LENGTH (pe_page e);
  pe_pin_ok : entered_text pin_digit (pe_pin e);
  pe_prompts : len (pe_prompt e) <= CAPACITY ∧ len (pe_subprompt e) <= CAPACITY
}.

(** Changed at most by what is shown. *)
Record pe_repainted e e' : Prop := {
  rp_page : pe_page e' = pe_page e;
  rp_textbox : pe_textbox e' = pe_textbox e;
  rp_prompt : pe_prompt e' = pe_prompt e;
  rp_subprompt : pe_subprompt e' = pe_subprompt e
}.

Lemma pe_repainted_ok e e' : pe_repainted e e' → pe_ok e → pe_ok e'.
Proof. intros [Hp Ht Hq Hs] []. split; unfold pe_pin; by rewrite ?Hp, ?Ht, ?Hq, ?Hs. Qed.

Lemma pe_update_ends e ctx : pe_ok e → ends (pe_update e ctx) (pe_repainted e).
Proof.
  intros [_ Hp [Hq Hs]]. unfold pe_update, update_pin_line. cbv zeta. set (warn := pe_is_empty e && _).
  match goal with |- context [@mbind _ _ (list Z) _ _ ?m] => assert (∃ t, m = Ok t ∧ len t <= CAPACITY) as (t & -> & Hl) end.
  { destruct warn; [exists (pe_subprompt e); by rewrite short_ok|].
    unfold pe_is_empty, textbox_is_empty. case_bool_decide; [by exists EMPTY_PIN_STR|].
    destruct (show_real_pin e); [exists (pe_pin e); pose proof (entered_length _ _ Hp); by rewrite short_ok|].
    by eapply hidden_ok; [apply pin_plain|..]. }
  cbn [mbind outcome_bind].
  destruct (update_text_ends (pe_line e) ctx (λ l, update_font l (if warn then NORMAL else BOLD)) t Hl) as (l & ctx' & -> & _).
  eexists _, _. by split.
Qed.

Lemma pe_hide_ends e ctx ev : pe_ok e → ends (pe_hide e ctx ev) (pe_repainted e).
Proof.
  intros He. unfold pe_hide. assert (∀ e ctx, ends (Ok (e, ctx)) (pe_repainted e)) as Hid by (intros; by eexists _, _).
  assert (ends ('(e, ctx) ← (if show_real_pin e then pe_update (set_pe_shown e false (pe_show_last e)) ctx else Ok (e, ctx));
    if pe_show_last e then pe_update (set_pe_shown e (show_real_pin e) false) ctx else Ok (e, ctx)) (pe_repainted e)) as Hboth.
  { eapply (ends_bind _ _ (pe_repainted e)).
    - destruct (show_real_pin e); [|done]. eapply ends_weaken; [apply pe_update_ends; by destruct He|]. by intros e' [].
    - intros e1 ctx1 Hr. pose proof (pe_repainted_ok e e1 Hr He) as He1. destruct Hr as [Hp Ht Hq Hs].
      destruct (pe_show_last e1); [|by eexists _, _].
      eapply ends_weaken; [apply pe_update_ends; by destruct He1|].
      intros e2 [Hp2 Ht2 Hq2 Hs2]. cbn in *. split; congruence. }
  by destruct ev.
Qed.

Lemma pe_prompt_ends e ctx ev : pe_ok e →
  ends (match ev with Button_ _ => if showing_real_prompt e then Ok (e, ctx) else show_prompt e ctx | _ => Ok (e, ctx) end)
    (pe_repainted e).
Proof.
  intros [_ _ [Hq _]]. destruct ev; try by eexists _, _. destruct (showing_real_prompt e); [by eexists _, _|].
  unfold show_prompt. destruct (update_text_ends (pe_header e) ctx id (pe_prompt e) Hq) as (l & ctx' & Hl & _).
  unfold id in Hl. rewrite Hl. eexists _, _. by split.
Qed.

(** What an event of the entry does. *)
Definition pe_result e e' (msg : option CancelConfirmMsg) : Prop :=
  pe_ok e' ∧ edited pin_digit (pe_pin e) (pe_pin e') ∧
  match msg with
  | None => True
  | Some EntryConfirmed => pe_pin e' = pe_pin e ∧ pe_pin e ≠ []
  | Some EntryCancelled => False
  end.

(** The same PIN, whatever is shown. *)
Lemma pe_repainted_result e e0 e' : pe_ok e → pe_repainted e0 e' → pe_ok e0 → pe_pin e0 = pe_pin e → pe_result e e' None.
Proof.
  intros He Hr Hok0 Hp. split; [by eapply pe_repainted_ok|]. split; [|done].
  assert (pe_pin e' = pe_pin e) as -> by (destruct Hr as [_ Ht _ _]; unfold pe_pin in *; congruence). constructor.
Qed.

Lemma pe_update_result e e0 ctx :
  pe_ok e0 → edited pin_digit (pe_pin e) (pe_pin e0) →
  runs ('(e, ctx) ← pe_update e0 ctx; Ok (e, ctx, None)) (pe_result e).
Proof.
  intros Hok0 Hed. eapply runs_bind; [by apply pe_update_ends|]. intros e' ctx' Hr. eexists _, _, _. split; [done|].
  split; [by eapply pe_repainted_ok|]. split; [|done]. destruct Hr as [_ Ht _ _]. unfold pe_pin in *. by rewrite Ht.
Qed.

Lemma pe_action_runs e ctx action long :
  pe_ok e → match action with PinDigit d => pin_digit d | _ => True end →
  runs (pe_action e ctx action long) (pe_result e).
Proof.
  intros He Ha. pose proof He as [Hpage Hpin Hprompts]. unfold pe_action. destruct action as [| | |d].
  - destruct (decide (pe_pin e = [])) as [Hnil|Hne].
    + assert (Keyboard.content (if long then clear (pe_textbox e) ctx else delete_last (pe_textbox e) ctx).1 = []) as Hc.
      { unfold pe_pin in Hnil. destruct (pe_textbox e) as [c]. cbn in Hnil. subst c. by destruct long. }
      destruct (if long then _ else _) as [t ctx']. cbn [fst] in Hc. apply pe_update_result.
      * split; [done| |done]. unfold pe_pin. cbn. rewrite Hc. apply entered_empty.
      * unfold pe_pin at 2. cbn. rewrite Hc, <- Hnil. constructor.
    + pose proof (delete_edited pin_digit pin_plain (pe_textbox e) ctx long Hpin Hne) as Hed.
      destruct (if long then _ else _) as [t ctx']. cbn [fst] in Hed. apply pe_update_result; [|done].
      split; [done| |done]. by eapply edited_entered.
  - apply pe_update_result; [by split|]. constructor.
  - eexists _, _, _. split; [done|]. split; [done|]. split; [constructor|].
    unfold pe_is_empty, textbox_is_empty. by case_bool_decide.
  - unfold pe_is_full. destruct (Z.leb_spec MAX_PIN_LENGTH (len (pe_pin e))).
    { eexists _, _, _. split; [done|]. split; [done|]. split; [constructor|done]. }
    pose proof (append_edited pin_digit (pe_textbox e) ctx d Ha) as Hed. destruct (append (pe_textbox e) ctx [d]) as [t ctx1].
    cbn [fst] in Hed. assert (edited pin_digit (pe_pin e) (Keyboard.content t)) as Hed' by (apply Hed; by unfold pe_pin in *).
    destruct (uniform_ok 0 NUMBER_START_INDEX (CHOICE_LENGTH - 1)) as (pos & Hpos & _); [done|done|].
    unfold get_random_digit_position. rewrite Hpos. cbn [mbind outcome_bind].
    eapply runs_bind; [by apply (set_counter_ends CHOICE_LENGTH)|]. intros page ctx2 [Hp _]. cbn beta.
    apply pe_update_result; [|done]. split; [done| |done]. by eapply edited_entered.
Qed.

Lemma pin_entry_event_runs e ctx ev : pe_ok e → runs (pin_entry_event e ctx ev) (pe_result e).
Proof.
  intros He. unfold pin_entry_event. eapply runs_bind; [by apply pe_hide_ends|]. intros e1 ctx1 Hr1.
  pose proof (pe_repainted_ok e e1 Hr1 He) as He1. eapply runs_bind; [by apply pe_prompt_ends|]. intros e2 ctx2 Hr2.
  pose proof (pe_repainted_ok e1 e2 Hr2 He1) as He2.
  assert (pe_pin e2 = pe_pin e) as Hp by (destruct Hr1 as [_ Ht1 _ _], Hr2 as [_ Ht2 _ _]; unfold pe_pin; congruence).
  destruct (choice_event_runs CHOICE_LENGTH (pe_page e2) ctx2 ev (pe_page_ok e2 He2)) as (page & ctx3 & msg & -> & Hc).
  cbn [mbind outcome_bind]. assert (pe_ok (set_pe_page e2 page)) as He3.
  { destruct He2 as [Hpage Hpin Hq]. split; [by eapply chosen_ok|done|done]. }
  assert (pe_pin (set_pe_page e2 page) = pe_pin e) as Hp3 by done.
  destruct msg as [[action long]|].
  - destruct Hc as [_ _ _ Hact]. destruct (Hact action long eq_refl) as (_ & item & Hget).
    eapply runs_weaken; [apply pe_action_runs; [done|]|].
    + destruct (pin_get_ok (page_counter (pe_page e2))) as (item' & a & Hget' & _ & Hd); [by destruct He2 as [[] _ _]|].
      change (pin_get (page_counter (pe_page e2)) = Ok (item, action)) in Hget. rewrite Hget' in Hget. by injection Hget as _ <-.
    + intros e' msg. unfold pe_result. by rewrite Hp3.
  - eexists _, _, _. split; [done|]. split; [done|]. split; [rewrite Hp3; constructor|done].
Qed.

Lemma pin_entry_new_ok prompt subprompt :
  len prompt <= CAPACITY → len subprompt <= CAPACITY →
  ∃ e, pin_entry_new prompt subprompt = Ok e ∧ pe_ok e ∧ pe_pin e = [].
Proof.
  intros Hp Hs. unfold pin_entry_new. pose proof short_texts as Ht. repeat (apply Forall_cons in Ht as [? Ht]).
  set (texts := if bool_decide (subprompt ≠ []) then _ else _).
  assert (len texts.1.2 <= CAPACITY ∧ len texts.2 <= CAPACITY) as [Hh Hl] by (unfold texts; by case_bool_decide).
  destruct texts as [[real header] line]. cbn [fst snd] in Hh, Hl. unfold center_bold, line_new. rewrite !short_ok by done.
  cbn [mbind outcome_bind]. destruct (choice_new_ok CHOICE_LENGTH FactoryPIN pin_factory_ok) as (page & -> & Hpage & Hc).
  cbn [mbind outcome_bind].
  destruct (uniform_ok 0 NUMBER_START_INDEX (CHOICE_LENGTH - 1)) as (pos & Hpos & Hr); [done|done|].
  unfold get_random_digit_position. rewrite Hpos. cbn [mbind outcome_bind].
  destruct (initial_counter_ok CHOICE_LENGTH page pos Hpage) as (page' & -> & Hpage' & _); [by unfold NUMBER_START_INDEX in Hr; lia|].
  cbn [mbind outcome_bind]. eexists. split; [done|]. split; [|done]. split; [by destruct Hpage'|apply entered_empty|done].
Qed.
End Pin.

(** ** Passphrases *)
Definition printable (c : Z) : Prop := 32 <= c <= 126.
Definition printable_plain (c : Z) : printable c → 0 < c < 128.
Proof. unfold printable. lia. Qed.

(** Characters that are added are printable. *)
Definition action_printable (a : PassphraseAction) : Prop :=
  match a with ActionCharacter c => printable c | _ => True end.

Lemma category_printable c : Forall printable (category_characters c).
Proof. destruct c; vm_compute; repeat constructor; discriminate. Qed.

Lemma category_length c : c ≠ Menu → 1 <= len (category_characters c) <= 32.
Proof. destruct c; vm_compute; split; congruence. Qed.

Section Passphrase.
Context `{FontDriver} `{DisplayConstants} `{ShortTexts} `{RandomLaws} `{Clock}.
Implicit Types e : PassphraseEntry.
Implicit Types f : ChoiceFactoryPassphrase.

Lemma menu_texts : Forall (λ i, len (mi_text i) <= CAPACITY ∧ action_printable (mi_action i)) MENU.
Proof.
  pose proof short_texts as Ht. repeat (apply Forall_cons in Ht as [? Ht]).
  unfold MENU. repeat constructor; done.
Qed.

Lemma menu_item_ok f i : 0 <= i < MENU_LENGTH →
  ∃ item a, get_menu_item f i = Ok (item, a) ∧ plain (btn_layout item) ∧ action_printable a.
Proof.
  intros Hi. unfold get_menu_item. destruct (proj2 (getZ_is_Some MENU i)) as [c Hc]; [done|]. rewrite Hc. cbn [or_panic mbind outcome_bind].
  destruct (getZ_Forall _ _ _ _ Hc menu_texts) as [Hl Hd].
  set (shown := match mi_action c with ActionCancelOrDelete => _ | _ => _ end).
  assert (len shown.1 <= CAPACITY) as Hs.
  { pose proof short_texts as Ht. repeat (apply Forall_cons in Ht as [? Ht]). unfold shown.
    destruct (mi_action c), (pf_is_empty f); done. }
  destruct shown as [t icon]. cbn [fst] in Hs. rewrite item_ok by done. cbn [mbind outcome_bind].
  eexists _, _. split; [done|]. split; [|done].
  destruct (show_confirm c), (mi_without_release c), icon; plain_item.
Qed.

Lemma character_item_ok f i : current_category f ≠ Menu → 0 <= i <= len (category_characters (current_category f)) →
  ∃ item a, get_character_item f i = Ok (item, a) ∧ plain (btn_layout item) ∧ action_printable a ∧ a ≠ ActionCancelOrDelete.
Proof.
  intros Hc Hi. pose proof short_texts as Ht. repeat (apply Forall_cons in Ht as [? Ht]). unfold get_character_item.
  assert (is_menu_choice (current_category f) i = Ok (i =? len (category_characters (current_category f)))) as ->
    by (by destruct (current_category f)).
  cbn [mbind outcome_bind]. destruct (Z.eqb_spec i (len (category_characters (current_category f)))).
  - rewrite item_ok by done. cbn [mbind outcome_bind]. eexists _, _. split; [done|]. split; [plain_item|done].
  - unfold get_char. destruct (proj2 (getZ_is_Some (category_characters (current_category f)) i)) as [c Hch]; [lia|].
    rewrite Hch. cbn [or_panic mbind outcome_bind]. rewrite item_ok by (by unfold CAPACITY; simpl; lia).
    cbn [mbind outcome_bind]. eexists _, _. split; [done|]. split; [plain_item|]. split; [|done].
    exact (getZ_Forall _ _ _ _ Hch (category_printable _)).
Qed.

Lemma passphrase_get_ok f i : 0 <= i < passphrase_count (current_category f) →
  ∃ item a, get f i = Ok (item, a) ∧ plain (btn_layout item) ∧ action_printable a ∧
    (a = ActionCancelOrDelete → current_category f = Menu).
Proof.
  intros Hi. cbn [get passphrase_factory]. destruct (decide (current_category f = Menu)) as [Hm|Hm].
  - rewrite Hm in *. destruct (menu_item_ok f i Hi) as (item & a & ? & ? & ?). by exists item, a.
  - destruct (character_item_ok f i Hm) as (item & a & Hg & ? & ? & ?); [unfold passphrase_count, get_category_length in Hi; destruct (current_category f); (done || lia)|].
    exists item, a. split; [by destruct (current_category f)|done].
Qed.

Lemma passphrase_factory_ok f : factory_ok f (passphrase_count (current_category f)).
Proof.
  split; [done| |].
  - by destruct (current_category f).
  - intros i Hi. destruct (passphrase_get_ok f i Hi) as (item & a & ? & ? & _). by exists item, a.
Qed.

(** The category that is shown is the one that is remembered. *)
Record pp_ok e : Prop := {
  pp_category_ok : current_category (choices (pp_page e)) = pp_category e;
  pp_page_ok : choice_ok (passphrase_count (pp_category e)) (pp_page e);
  pp_text_ok : entered_text printable (passphrase e)
}.

(** Changed at most by what is shown. *)
Record pp_repainted e e' : Prop := {
  rpp_page : pp_page e' = pp_page e;
  rpp_textbox : pp_textbox e' = pp_textbox e;
  rpp_category : pp_category e' = pp_category e
}.

Lemma pp_repainted_ok e e' : pp_repainted e e' → pp_ok e → pp_ok e'.
Proof. intros [Hp Ht Hc] []. split; unfold passphrase; by rewrite ?Hp, ?Ht, ?Hc. Qed.

(** The dots only need the text. *)
Lemma dots_ends e ctx : entered_text printable (passphrase e) → ends (update_passphrase_dots e ctx) (pp_repainted e).
Proof.
  intros Hp. unfold update_passphrase_dots.
  match goal with |- context [@mbind _ _ (list Z) _ _ ?m] => assert (∃ t, m = Ok t ∧ len t <= CAPACITY) as (t & -> & Hl) end.
  { destruct (show_plain_passphrase e); [exists (passphrase e); pose proof (entered_length _ _ Hp); by rewrite short_ok|].
    unfold pp_is_empty, textbox_is_empty. case_bool_decide; [by exists []|].
    by eapply hidden_ok; [apply printable_plain|..]. }
  cbn [mbind outcome_bind]. destruct (update_text_ends (passphrase_dots e) ctx id t Hl) as (l & ctx' & Hl' & _).
  unfold id in Hl'. rewrite Hl'. eexists _, _. by split.
Qed.

Lemma pp_hide_ends e ctx ev : entered_text printable (passphrase e) → ends (pp_hide e ctx ev) (pp_repainted e).
Proof.
  intros He. unfold pp_hide. assert (∀ e ctx, ends (Ok (e, ctx)) (pp_repainted e)) as Hid by (intros; by eexists _, _).
  assert (ends ('(e, ctx) ← (if show_plain_passphrase e then
      update_passphrase_dots (set_pp_shown e false (pp_show_last e)) ctx else Ok (e, ctx));
    if pp_show_last e then update_passphrase_dots (set_pp_shown e (show_plain_passphrase e) false) ctx else Ok (e, ctx))
    (pp_repainted e)) as Hboth.
  { eapply (ends_bind _ _ (pp_repainted e)).
    - destruct (show_plain_passphrase e); [|done]. eapply ends_weaken; [by apply dots_ends|]. by intros e' [].
    - intros e1 ctx1 [Hp Ht Hc].
      destruct (pp_show_last e1); [|by eexists _, _].
      eapply ends_weaken; [apply dots_ends; unfold passphrase; cbn; by rewrite Ht|].
      intros e2 [Hp2 Ht2 Hc2]. cbn in *. split; congruence. }
  by destruct ev.
Qed.

Definition pp_result e e' (msg : option CancelConfirmMsg) : Prop :=
  pp_ok e' ∧ edited printable (passphrase e) (passphrase e') ∧
  match msg with
  | None => True
  | Some EntryConfirmed => passphrase e' = passphrase e
  | Some EntryCancelled => passphrase e' = passphrase e ∧ passphrase e = []
  end.

Lemma show_menu_ends e ctx : entered_text printable (passphrase e) → pp_category e = Menu →
  ends (show_menu_page e ctx) (λ e', pp_ok e' ∧ passphrase e' = passphrase e).
Proof.
  intros Ht Hc. unfold show_menu_page, random_menu_position.
  destruct (uniform_ok 0 LOWERCASE_INDEX SPECIAL_INDEX) as (pos & -> & Hpos); [done|done|]. cbn [mbind outcome_bind].
  destruct (reset_ends MENU_LENGTH (pp_page e) ctx (mkPassphraseFactory Menu (pp_is_empty e)) pos true) as (page & ctx' & -> & Hp & Hf & _).
  { apply (passphrase_factory_ok (mkPassphraseFactory Menu (pp_is_empty e))). }
  { unfold LOWERCASE_INDEX, SPECIAL_INDEX, MENU_LENGTH in *. lia. }
  cbn [mbind outcome_bind]. eexists _, _. split; [done|]. split; [|done].
  split; cbn [pp_page set_pp_page pp_category]; [by rewrite Hf, Hc|by rewrite Hc|done].
Qed.

(** A drawn position is one of the category. *)
Lemma category_position_ok c : ∃ i, random_category_position c = Ok i ∧ 0 <= i < passphrase_count c.
Proof.
  unfold random_category_position. assert (1 <= get_category_length c <= passphrase_count c ∧ get_category_length c <= 32) as Hl
    by (by destruct c).
  rewrite wrapu_small by (unfold in_u; lia).
  destruct (uniform_ok 0 0 (get_category_length c - 1)) as (i & -> & Hi); [lia|lia|]. exists i. split; [done|lia].
Qed.

Lemma show_category_ends e ctx : entered_text printable (passphrase e) →
  ends (show_category_page e ctx) (λ e', pp_ok e' ∧ passphrase e' = passphrase e).
Proof.
  intros Ht. unfold show_category_page. destruct (category_position_ok (pp_category e)) as (pos & -> & Hpos).
  cbn [mbind outcome_bind].
  destruct (reset_ends (passphrase_count (pp_category e)) (pp_page e) ctx (mkPassphraseFactory (pp_category e) (pp_is_empty e)) pos true)
    as (page & ctx' & -> & Hp & Hf & _); [apply (passphrase_factory_ok (mkPassphraseFactory (pp_category e) (pp_is_empty e)))|done|].
  cbn [mbind outcome_bind]. eexists _, _. split; [done|]. split; [|done].
  split; cbn [pp_page set_pp_page pp_category]; [by rewrite Hf|done|done].
Qed.

Lemma randomize_ends e ctx : pp_ok e →
  ends (randomize_category_position e ctx) (λ e', pp_ok e' ∧ passphrase e' = passphrase e).
Proof.
  intros [Hc Hp Ht]. unfold randomize_category_position. destruct (category_position_ok (pp_category e)) as (pos & -> & _).
  cbn [mbind outcome_bind]. destruct (set_counter_ends _ (pp_page e) ctx pos Hp) as (page & ctx' & -> & Hp' & [Hk _ _]).
  cbn [mbind outcome_bind]. eexists _, _. split; [done|]. split; [|done].
  split; cbn [pp_page set_pp_page pp_category]; [by rewrite Hk|done|done].
Qed.

Lemma pp_cancel_or_delete e ctx long : pp_ok e → pp_category e = Menu → runs (pp_action e ctx ActionCancelOrDelete long) (pp_result e).
Proof.
  intros He Hm. pose proof He as [Hc Hpage Ht]. unfold pp_action, pp_is_empty, textbox_is_empty.
  case_bool_decide as Hnil; [eexists _, _, _; split; [done|split; [done|split; [constructor|done]]]|].
  pose proof (delete_edited printable printable_plain (pp_textbox e) ctx long Ht Hnil) as Hed.
  destruct (if long then _ else _) as [t ctx1]. cbn [fst] in Hed.
  pose proof (edited_entered printable _ _ Ht Hed) as Ht1.
  eapply runs_bind; [by apply dots_ends|]. intros e1 ctx2 [Hp1 Hb1 Hc1]. cbn in Hp1, Hb1, Hc1.
  assert (passphrase e1 = Keyboard.content t) as Htext by (unfold passphrase; by rewrite Hb1).
  eapply (runs_bind _ _ (λ e', pp_ok e' ∧ passphrase e' = passphrase e1)).
  - case_bool_decide; [apply show_menu_ends; [by rewrite Htext|congruence]|].
    eexists _, _. split; [done|]. split; [|done]. split; rewrite ?Hp1, ?Hc1, ?Htext; done.
  - intros e2 ctx3 [He2 Ht2]. eexists _, _, _. split; [done|]. split; [done|]. split; [|done]. by rewrite Ht2, Htext.
Qed.

Lemma pp_action_runs e ctx action long :
  pp_ok e → action_printable action → (action = ActionCancelOrDelete → pp_category e = Menu) →
  runs (pp_action e ctx action long) (pp_result e).
Proof.
  intros He Ha Hm. pose proof He as [Hc Hpage Ht].
  assert (∀ e' (m : ui (PassphraseEntry * EventCtx)), passphrase e' = passphrase e →
    ends m (λ e2, pp_ok e2 ∧ passphrase e2 = passphrase e') →
    runs ('(e, ctx) ← m; Ok (e, request_paint ctx, None)) (pp_result e)) as Hsame.
  { intros e' m He' Hends. eapply runs_bind; [done|]. intros e2 ctx2 [He2 Ht2]. eexists _, _, _. split; [done|].
    split; [done|]. rewrite Ht2, He'. split; [constructor|done]. }
  destruct action as [| | | |category|ch].
  - apply (Hsame (set_pp_category e Menu)); [done|]. by apply show_menu_ends.
  - apply (Hsame e); [done|]. eapply ends_weaken; [by apply dots_ends|].
    intros e' Hr. assert (pp_repainted e e') as Hr' by (by destruct Hr). split; [by eapply pp_repainted_ok|].
    destruct Hr as [_ Hb _]. unfold passphrase. by rewrite Hb.
  - by apply pp_cancel_or_delete, Hm.
  - eexists _, _, _. split; [done|]. split; [done|]. split; [constructor|done].
  - apply (Hsame (set_pp_category e category)); [done|]. by apply show_category_ends.
  - cbn [pp_action]. unfold pp_is_full. destruct (Z.leb_spec MAX_PASSPHRASE_LENGTH (len (passphrase e))).
    { eexists _, _, _. split; [done|]. split; [done|]. split; [constructor|done]. }
    pose proof (append_edited printable (pp_textbox e) ctx ch Ha) as Hed. destruct (append (pp_textbox e) ctx [ch]) as [t ctx1].
    cbn [fst] in Hed. assert (edited printable (passphrase e) (Keyboard.content t)) as Hed' by (apply Hed; by unfold passphrase in *).
    pose proof (edited_entered printable _ _ Ht Hed') as Ht1.
    eapply runs_bind; [by apply dots_ends|]. intros e1 ctx2 Hr.
    assert (passphrase e1 = Keyboard.content t) as Htext by (destruct Hr as [_ Hb _]; unfold passphrase; by rewrite Hb).
    eapply runs_bind; [apply randomize_ends; eapply pp_repainted_ok; [done|by split]|]. intros e2 ctx3 [He2 Ht2].
    eexists _, _, _. split; [done|]. split; [done|]. split; [|done]. by rewrite Ht2, Htext.
Qed.

Lemma passphrase_event_runs e ctx ev : pp_ok e → runs (passphrase_event e ctx ev) (pp_result e).
Proof.
  intros He. unfold passphrase_event. eapply runs_bind; [by apply pp_hide_ends; destruct He|]. intros e1 ctx1 Hr.
  pose proof (pp_repainted_ok e e1 Hr He) as He1. pose proof He1 as [Hc1 Hp1 Ht1].
  assert (passphrase e1 = passphrase e) as Ht by (destruct Hr as [_ Hb _]; unfold passphrase; by rewrite Hb).
  destruct (choice_event_runs _ (pp_page e1) ctx1 ev Hp1) as (page & ctx3 & msg & -> & Hc).
  cbn [mbind outcome_bind]. pose proof (chosen_ok _ _ _ _ Hp1 Hc) as Hpage. destruct Hc as [Hch _ _ Hact].
  assert (pp_ok (set_pp_page e1 page)) as He2 by (split; cbn [pp_page set_pp_page pp_category]; by rewrite ?Hch).
  destruct msg as [[action long]|].
  - destruct (Hact action long eq_refl) as (_ & item & Hget). rewrite <- Hc1 in Hp1.
    destruct (passphrase_get_ok (choices (pp_page e1)) (page_counter (pp_page e1))) as (item' & a & Hget' & _ & Ha & Hm);
      [by destruct Hp1|].
    rewrite Hget' in Hget. injection Hget as -> ->.
    eapply runs_weaken; [apply pp_action_runs; [done|done|intros ->; cbn [pp_category set_pp_page]; rewrite <- Hc1; by apply Hm]|].
    intros e' msg. unfold pp_result. change (passphrase (set_pp_page e1 page)) with (passphrase e1). by rewrite Ht.
  - eexists _, _, _. split; [done|]. split; [done|]. split; [|done].
    change (passphrase (set_pp_page e1 page)) with (passphrase e1). rewrite Ht. constructor.
Qed.

Lemma passphrase_new_ok : ∃ e, passphrase_new = Ok e ∧ pp_ok e ∧ passphrase e = [].
Proof.
  unfold passphrase_new. destruct (choice_new_ok MENU_LENGTH (mkPassphraseFactory Menu true)) as (page & -> & Hpage & Hc);
    [apply (passphrase_factory_ok (mkPassphraseFactory Menu true))|].
  cbn [mbind outcome_bind]. unfold random_menu_position.
  destruct (uniform_ok 0 LOWERCASE_INDEX SPECIAL_INDEX) as (pos & -> & Hr); [done|done|]. cbn [mbind outcome_bind].
  destruct (initial_counter_ok MENU_LENGTH (with_carousel page true) pos) as (page' & -> & Hpage' & Hc' & _);
    [by destruct Hpage|by unfold LOWERCASE_INDEX, SPECIAL_INDEX, MENU_LENGTH in *; lia|].
  cbn [mbind outcome_bind]. unfold center_mono, line_new. rewrite short_ok by done. cbn [mbind outcome_bind].
  eexists. split; [done|]. split; [|done]. split; [|done|apply entered_empty]. cbn [pp_page pp_category].
  rewrite Hc'. cbn. by rewrite Hc.
Qed.
End Passphrase.

(** ** Properties *)

(** The PIN entry of the model R, with generators that stay in their range and
    texts that are not too long: whatever events come, nothing aborts, an event
    adds a digit while there are less than fifty, or deletes the last one or
    all of them, or leaves the PIN; and only a PIN with digits is confirmed. *)
Theorem pin_entry_safe `{FontDriver} `{DisplayConstants} `{ShortTexts} `{Clock} `{RandomLaws} prompt subprompt :
  len prompt <= CAPACITY → len subprompt <= CAPACITY →
  (∃ e, pin_entry_new prompt subprompt = Ok e ∧ pe_pin e = [] ∧
    ∀ events, lawful (λ r, @RandomLaws r) events →
      ∃ e' msg, entry_run (λ r, @pin_entry_event _ _ _ r _) e events = Ok (e', msg) ∧ entered_text pin_digit (pe_pin e') ∧
        ∀ m, msg = Some m → m = EntryConfirmed ∧ pe_pin e' ≠ []) ∧
  ∀ e ctx ev, pe_ok e → runs (pin_entry_event e ctx ev) (pe_result e).
Proof.
  intros Hp Hs. split; [|intros; by apply pin_entry_event_runs].
  destruct (pin_entry_new_ok prompt subprompt Hp Hs) as (e & Hnew & He & Hnil).
  exists e. split; [done|]. split; [done|]. intros events Hl.
  destruct (entry_run_spec (λ r, @RandomLaws r) (λ r, @pin_entry_event _ _ _ r _) pe_ok
    (λ e m, m = EntryConfirmed ∧ pe_pin e ≠ []) e events) as (e' & msg & Hrun & He' & Hm); [|done|done|].
  - intros r e1 ctx ev Hr He1. eapply runs_weaken; [by apply pin_entry_event_runs|].
    intros e2 msg (He2 & _ & Hm). split; [done|]. intros m ->. destruct m; [done|]. destruct Hm as [-> ?]. done.
  - exists e', msg. split; [done|]. split; [by destruct He'|done].
Qed.

(** C37. The passphrase entry of the model R, with generators that stay in their
    range and texts that are not too long: it starts empty, and whatever events
    come in whatever order nothing aborts. An event adds one printable character
    at the end while there are less than fifty, or deletes the last one or all
    of them, or leaves the passphrase; the page shows the category that the
    entry remembers; what is confirmed has at most fifty printable characters,
    and the entry is only cancelled when nothing was entered. *)
Theorem passphrase_entry_safe `{FontDriver} `{DisplayConstants} `{ShortTexts} `{Clock} `{RandomLaws} :
  (∃ e, passphrase_new = Ok e ∧ passphrase e = [] ∧ pp_ok e ∧
    ∀ events, lawful (λ r, @RandomLaws r) events →
      ∃ e' msg, entry_run (λ r, @passphrase_event _ _ _ r _) e events = Ok (e', msg) ∧
        entered_text printable (passphrase e') ∧ (msg = Some EntryCancelled → passphrase e' = [])) ∧
  ∀ e ctx ev, pp_ok e → runs (passphrase_event e ctx ev) (pp_result e).
Proof.
  split; [|intros; by apply passphrase_event_runs]. destruct passphrase_new_ok as (e & Hnew & He & Hnil).
  exists e. split; [done|]. split; [done|]. split; [done|]. intros events Hl.
  destruct (entry_run_spec (λ r, @RandomLaws r) (λ r, @passphrase_event _ _ _ r _) pp_ok
    (λ e m, m = EntryCancelled → passphrase e = []) e events) as (e' & msg & Hrun & He' & Hm); [|done|done|].
  - intros r e1 ctx ev Hr He1. eapply runs_weaken; [by apply passphrase_event_runs|].
    intros e2 msg (He2 & _ & Hm). split; [done|]. intros m -> ->. by destruct Hm as [-> ?].
  - exists e', msg. split; [done|]. split; [by destruct He'|]. intros ->. by eapply Hm.
Qed.

(** Moving to an item with animation: from any page that goes around, with
    between one and 2^15 items, the page goes to the item that was asked for in
    at most as many steps as there are items, one for each expiration of the
    timer that it waits for, and stops there, whatever other events come in
    between. *)
Theorem choice_animation_lands `{FontDriver} `{DisplayConstants} `{ChoiceFactory F A} `{Clock} n (p : ChoicePage F) ctx target :
  choice_ok n p → is_carousel p = true → 0 <= target < n →
  ends (set_page_counter p ctx target true) (λ p', ∃ k, 0 < Z.of_nat k <= n ∧
    ∀ noise ctx, length noise = k → ends (ticks noise p' ctx) (λ p'',
      choices p'' = choices p ∧ page_counter p'' = target ∧ animated_steps_to_do p'' = 0)).
Proof.
  intros Hp Hk Ht. eapply ends_weaken; [by apply (set_counter_animated n)|].
  intros p' (Hc & Hi & (t & Ha) & Hne & Hland & Hbound).
  exists (Z.to_nat (Z.abs (animated_steps_to_do p'))). split; [lia|]. intros noise ctx' Hl.
  eapply ends_weaken; [by apply (ticks_land n p' t)|]. intros p'' (Hc' & Hs & Hi'). split; [congruence|].
  split; [|done]. by rewrite Hi', Hi, Hland.
Qed.

(** ** Examples *)
#[local] Existing Instance sample_font.
#[local] Existing Instance sample_display.
Definition sample_texts : Texts := {|
  buttons__select := [83; 69; 76; 69; 67; 84]; buttons__confirm := [67; 79; 78; 70; 73; 82; 77]; inputs__delete := [68; 69; 76; 69; 84; 69];
  inputs__show := [83; 72; 79; 87]; inputs__enter := [69; 78; 84; 69; 82]; inputs__space := [83; 80; 65; 67; 69];
  inputs__cancel := [67; 65; 78; 67; 69; 76]; inputs__back := [66; 65; 67; 75]; inputs__return := [82; 69; 84; 85; 82; 78];
  inputs__previous := [80; 82; 69; 86; 73; 79; 85; 83]; pin__title_wrong_pin := [87; 114; 111; 110; 103; 32; 80; 73; 78] |}.
#[local] Existing Instance sample_texts.
Lemma sample_short_texts : @ShortTexts sample_texts.
Proof. constructor. apply (bool_decide_unpack _). vm_compute. exact Logic.I. Qed.
#[local] Existing Instance sample_short_texts.
(** A generator that counts. *)
Definition counting : RandomDriver := {| random_uniform call n := call `mod` n |}.
#[local] Existing Instance counting.
Lemma counting_laws : @RandomLaws counting.
Proof. constructor. intros call n Hn. cbn. by apply Z.mod_pos_bound. Qed.
#[local] Existing Instance counting_laws.
Definition sample_clock : Clock := {| now := 0 |}.
#[local] Existing Instance sample_clock.

(** Both buttons at once, and up again. *)
Definition tap_middle : list Event :=
  [Button_ (ButtonPressed LeftButton); Button_ (ButtonPressed RightButton); Button_ (ButtonReleased LeftButton);
   Button_ (ButtonReleased RightButton)].

Definition counted (evs : list Event) : list (RandomDriver * EventCtx * Event) := (λ ev, (counting, ctx_new, ev)) <$> evs.

(** From the menu to the lowercase letters, where a is entered. *)
Lemma passphrase_entry_safe_witness :
  ∃ e e', passphrase_new = Ok e ∧
    entry_run (λ r, @passphrase_event _ _ _ r _) e (counted (tap_middle ++ tap_middle)) = Ok (e', None) ∧
    entered_text printable (passphrase e') ∧ passphrase e' = [97].
Proof.
  destruct passphrase_entry_safe as [(e & Hnew & _ & _ & Hrun) _].
  destruct (Hrun (counted (tap_middle ++ tap_middle))) as (e' & msg & He & Ht & _).
  { repeat (constructor; [exact counting_laws|]). constructor. }
  exists e, e'. split; [exact Hnew|]. vm_compute in Hnew. injection Hnew as <-. vm_compute in He. injection He as <- <-.
  split; [vm_compute; reflexivity|]. split; [exact Ht|]. vm_compute. reflexivity.
Defined.

(** The PIN entry turns to the digit drawn next, from the first item to 9. *)
Lemma choice_animation_lands_witness :
  ∃ p, choice_new FactoryPIN = Ok p ∧
    ends (set_page_counter (with_carousel p true) ctx_new 12 true) (λ p', ∃ k, 0 < Z.of_nat k <= CHOICE_LENGTH ∧
      ∀ noise ctx, length noise = k → ends (ticks noise p' ctx) (λ p'',
        choices p'' = FactoryPIN ∧ page_counter p'' = 12 ∧ animated_steps_to_do p'' = 0)).
Proof.
  destruct (choice_new_ok CHOICE_LENGTH FactoryPIN pin_factory_ok) as (p & Hnew & Hp & Hc). exists p. split; [exact Hnew|].
  rewrite <- Hc. apply (choice_animation_lands CHOICE_LENGTH (with_carousel p true) ctx_new 12).
  - destruct Hp. split; assumption.
  - reflexivity.
  - unfold CHOICE_LENGTH. lia.
Defined.


(** ** What the entries do besides *)

(** After a space the menu still offers to cancel, as it was made for an empty
    passphrase; choosing this deletes the space. *)
Lemma cancel_deletes :
  match passphrase_new with
  | Ok e =>
    match pp_action e ctx_new (ActionCharacter 32) false with
    | Ok (e, ctx, None) =>
      passphrase e = [32] ∧
      (it_text ∘ fst <$> get (choices (pp_page e)) 1) = Ok inputs__cancel ∧
      match pp_action e ctx ActionCancelOrDelete false with
      | Ok (e, _, None) => passphrase e = []
      | _ => False
      end
    | _ => False
    end
  | _ => False
  end.
Proof. vm_compute. repeat split. Qed.
