(* ===== verification/TrWordSpec.v ===== *)
(** * What is entered as a word on the model R

    The items offered for a prefix are exactly those that lead on to words of
    the list, taps of the buttons enter every word, and whatever events come the text
    stays a prefix of a word. *)
From Stdlib Require Import Sorted.
From S2P Require Import Prelude Time StrUtil Geometry Words Wordlist WordSpec Component Theme ComponentSpec Fonts Keyboard MnemonicSpec Pin PinSpec.
From S2P Require Import TrButton Hold Controller ControllerSpec Choice TrEntry TrEntrySpec.
Local Open Scope Z_scope.

(** ** The lists of words *)
Definition list_of (t : WordlistType) : list (list Z) :=
  match t with TypeBip39 => BIP39_WORDLIST_ENGLISH | TypeSlip39 => SLIP39_WORDLIST end.

(** No word starts with the one nine places before. *)
Definition spread (ws : list (list Z)) : bool :=
  forallb (λ '(w, v), negb (bool_decide (take (length w) v = w))) (zip ws (drop 9 ws)).

Lemma list_in_order t : in_order (list_of t).
Proof. apply ascending_in_order. destruct t; vm_compute; reflexivity. Qed.

Lemma list_ascii t : Forall ascii (list_of t).
Proof. destruct t; [exact bip39_ascii|]. apply (bool_decide_unpack _). vm_compute. exact Logic.I. Qed.

Lemma list_short t : Forall (λ w, 1 <= len w <= 8) (list_of t).
Proof. destruct t; apply (bool_decide_unpack _); vm_compute; exact Logic.I. Qed.

Lemma list_spread t : spread (list_of t) = true.
Proof. destruct t; vm_compute; reflexivity. Qed.

Lemma list_length t : len (list_of t) <= 2048.
Proof. destruct t; vm_compute; discriminate. Qed.

(** The words with a prefix. *)
Definition found (t : WordlistType) (p : list Z) : list (list Z) := filter (λ w, p `prefix_of` w) (list_of t).

Definition known_prefix (t : WordlistType) (p : list Z) : Prop := ∃ w, w ∈ list_of t ∧ p `prefix_of` w.

Lemma prefix_ascii t p : known_prefix t p → ascii p.
Proof.
  intros (w & Hw & [k ->]). pose proof (list_ascii t) as Ha. eapply Forall_forall in Ha; [|exact Hw].
  by apply Forall_app in Ha as [? _].
Qed.

Lemma prefix_short t p : known_prefix t p → len p <= 8.
Proof.
  intros (w & Hw & [k ->]). pose proof (list_short t) as Ha. eapply Forall_forall in Ha; [|exact Hw].
  rewrite length_app in Ha. lia.
Qed.

Lemma found_in t p w : w ∈ found t p ↔ p `prefix_of` w ∧ w ∈ list_of t.
Proof. unfold found. by rewrite list_elem_of_filter. Qed.

Lemma found_length t p : len (found t p) <= 2048.
Proof. unfold found. pose proof (length_filter (λ w, p `prefix_of` w) (list_of t)). pose proof (list_length t). lia. Qed.

Lemma empty_known t : known_prefix t [].
Proof.
  destruct (list_of t) as [|w ws] eqn:Hl; [by destruct t|]. exists w. rewrite Hl. split; [by left|apply prefix_nil].
Qed.

Lemma continues_known t p c : continues (list_of t) p c → known_prefix t (p ++ [c]).
Proof. done. Qed.

Lemma known_removelast t p : known_prefix t p → known_prefix t (removelast p).
Proof.
  intros (w & Hw & Hp). exists w. split; [done|]. destruct p as [|c p _] using rev_ind; [done|].
  rewrite removelast_last. by eapply prefix_app_l.
Qed.

(** Of two words with a prefix, one goes on. *)
Lemma found_continue t p w v : w ∈ found t p → v ∈ found t p → w ≠ v → ∃ c, continues (list_of t) p c.
Proof.
  intros [Hw Hw']%found_in [Hv Hv']%found_in Hne.
  destruct (prefix_next p w Hw) as [->|[c Hc]]; [|by exists c, w].
  destruct (prefix_next p v Hv) as [->|[c Hc]]; [done|by exists c, v].
Qed.

Lemma found_many t p : 2 <= len (found t p) → ∃ c, continues (list_of t) p c.
Proof.
  intros Hl. destruct (found t p) as [|w [|v ws]] eqn:Hf; [simpl in Hl; lia..|].
  apply (found_continue t p w v); [rewrite Hf; set_solver..|]. intros ->.
  pose proof (in_order_filter (λ w, p `prefix_of` w) _ (list_in_order t)) as Ho. change (in_order (found t p)) in Ho.
  rewrite Hf in Ho. inversion Ho as [|?? _ Hs]; subst. apply Forall_cons in Hs as [Hlt _].
  clear -Hlt. induction v as [|x v IH]; [done|]. cbn in Hlt. rewrite Z.ltb_irrefl, Z.eqb_refl in Hlt. auto.
Qed.

(** A word of the list is the only short prefix of many: fewer than ten words
    start with it. *)
Lemma spread_at ws i w v : spread ws = true → ws !! i = Some w → ws !! (i + 9)%nat = Some v → ¬ w `prefix_of` v.
Proof.
  intros Hs Hw Hv [k ->]. unfold spread in Hs. rewrite forallb_forall in Hs.
  assert ((w, w ++ k) ∈ zip ws (drop 9 ws)) as Hin.
  { apply list_elem_of_lookup. exists i. rewrite lookup_zip_with, Hw. cbn. rewrite lookup_drop, Nat.add_comm. by rewrite Hv. }
  specialize (Hs _ (proj1 (list_elem_of_In _ _) Hin)). cbn beta iota in Hs.
  rewrite take_app_length in Hs. by rewrite bool_decide_true in Hs.
Qed.

Lemma bytes_lt_prefix w v : bytes_lt w v = true → v `prefix_of` w → False.
Proof.
  intros Hlt [k ->]. induction v as [|x v IH]; [by destruct k|]. cbn in Hlt. rewrite Z.ltb_irrefl, Z.eqb_refl in Hlt. auto.
Qed.

Lemma found_word t w : w ∈ list_of t → len (found t w) < 10.
Proof.
  intros Hw. destruct (decide (len (found t w) < 10)) as [|Hlong]; [done|exfalso].
  pose proof (list_in_order t) as Ho. pose proof (list_spread t) as Hs. unfold found in Hlong.
  pose proof (sorted_ranks _ (prefix_cmp w) (list_of t)
    (λ x y H, prefix_cmp_monotone w x y (proj1 H) (proj1 (proj2 H)) (proj2 (proj2 H)))
    (in_order_ascii _ Ho (list_ascii t))) as Hcut.
  assert (found t w = filter (λ v, prefix_cmp w v = Eq) (list_of t)) as Hf.
  { apply filter_elem_iff. intros v Hv. symmetry. pose proof (list_ascii t) as Ha. rewrite Forall_forall in Ha.
    apply prefix_cmp_Eq; auto. }
  rewrite <- Hf in Hcut. set (A := filter (λ v, prefix_cmp w v = Lt) _) in *. set (C := filter (λ v, prefix_cmp w v = Gt) _) in *.
  destruct (found t w) as [|b bs] eqn:Hb; [simpl in *; unfold found in Hb; rewrite Hb in Hlong; simpl in Hlong; lia|].
  assert (b = w) as ->.
  { assert (w ∈ b :: bs) as Hin by (rewrite <- Hb; apply found_in; by split).
    assert (b ∈ found t w) as Hbin by (rewrite Hb; by left). apply found_in in Hbin as [Hp Hbl].
    destruct (decide (b = w)) as [|Hne]; [done|exfalso].
    assert (in_order (b :: bs)) as Hsort by (rewrite <- Hb; by apply (in_order_filter (λ v, w `prefix_of` v))).
    inversion Hsort as [|?? _ Hall]; subst. apply elem_of_cons in Hin as [|Hin]; [by subst|].
    eapply Forall_forall in Hall; [|exact Hin]. by eapply bytes_lt_prefix. }
  destruct (lookup_lt_is_Some_2 (w :: bs) 9) as [v Hv].
  { unfold found in Hb. rewrite Hb in Hlong. simpl in *. lia. }
  eapply (spread_at (list_of t) (length A) w v); [done|..].
  - rewrite Hcut, lookup_app_r, Nat.sub_diag by lia. done.
  - rewrite Hcut, lookup_app_r by lia. replace (length A + 9 - length A)%nat with 9%nat by lia.
    apply lookup_app_l_Some. exact Hv.
  - assert (v ∈ found t w) as Hin by (rewrite Hb; by eapply list_elem_of_lookup_2). by apply found_in in Hin as [? _].
Qed.

(** No number is drawn a thousand times in a row, when there are others. *)
Class FairDraws `{RandomDriver} : Prop := {
  fair_draws n v : 2 <= n → ∃ call, 0 <= call < Z.of_nat MAX_DRAWS ∧ random_uniform call n ≠ v
}.

(** ** Taps on the buttons of a page of choices *)

(** A layout with all three buttons. *)
Definition all_three (l : ButtonLayout) : Prop := plain l ∧ ∀ pos, present l pos = true.

(** A controller of three plain buttons, in a state in which no button is ignored. *)
Record three_buttons (st : ButtonState) (b : ButtonController) : Prop := {
  three_shape pos : container_shape (btn_at b pos) = (pos, KButton);
  three_middle : handle_middle_button b = true;
  three_clickable i : ignore_btn_delay b = Some i → left_clickable i = true ∧ right_clickable i = true;
  three_state : state b = st
}.

#[export] Instance three_proper st : Proper (alike ==> iff) (three_buttons st).
Proof.
  intros b b' [Hs Hm Hi Ht]. split; intros [Hs' Hm' Hi' Ht']; split; try congruence; intros x; try (by rewrite <- Hs || rewrite Hs);
    intros; apply Hi'; congruence.
Qed.

Lemma three_set_state st st' b : three_buttons st b → three_buttons st' (set_state b st').
Proof. intros [Hs Hm Hi Ht]. by split; [intros []; apply (Hs PosLeft) || apply (Hs PosMiddle) || apply (Hs PosRight)|..]. Qed.

Lemma three_set_ignore st b i : three_buttons st b → left_clickable i = true → right_clickable i = true →
  three_buttons st (set_ignore b (Some i)).
Proof.
  intros [Hs Hm Hi Ht] Hl Hr. split; [|done| |done].
  - intros []; [apply (Hs PosLeft)|apply (Hs PosMiddle)|apply (Hs PosRight)].
  - by intros ? [= <-].
Qed.

Lemma three_clickable_all st b ps : three_buttons st b → three_buttons st (make_clickable ps b).
Proof.
  intros Hb. unfold make_clickable. destruct (ignore_btn_delay b) as [i|] eqn:Ei.
  - apply three_set_ignore; [done|..]; destruct (three_clickable _ _ Hb i Ei) as [Hl Hr]; clear -Hl Hr;
      revert i Hl Hr; induction ps as [|[] ps IH]; intros; cbn; auto.
  - assert (alike (set_ignore b None) b) as Ha by (split; try done; by intros []). cbn. by rewrite Ha.
Qed.

Section Taps.
Context `{Clock}.

Lemma three_event st st' b ctx ev s msg :
  transition b ctx ev = (s, Some (st', msg)) → three_buttons st s.1 →
  ∃ b' ctx', controller_event b ctx (Button_ ev) = (b', ctx', msg) ∧ three_buttons st' b'.
Proof.
  intros Ht Hs. unfold controller_event. rewrite Ht. pose proof (show_state_alike st' s) as Ha.
  destruct (show_state st' s) as [c' ctx']. eexists _, _. split; [done|]. eapply three_set_state. by rewrite Ha.
Qed.

Lemma three_trigger st b ctx pos : three_buttons st b →
  ∃ b' ctx' long, on_btn b pos ctx maybe_trigger = (b', ctx', Some (Triggered pos long)) ∧ three_buttons st b'.
Proof.
  intros Hb. pose proof (on_btn_alike b pos ctx maybe_trigger maybe_trigger_keeps) as Ha.
  pose proof (three_shape _ _ Hb pos) as Hs. unfold container_shape in Hs. revert Ha. unfold on_btn, maybe_trigger.
  destruct (button_type (btn_at b pos)); try done. injection Hs as ->. intros Ha. eexists _, _, _. split; [done|].
  cbn in Ha. by rewrite Ha.
Qed.

Lemma three_press b ctx w : three_buttons Nothing b →
  ∃ b' ctx', controller_event b ctx (Button_ (ButtonPressed w)) = (b', ctx', Some (MsgPressed (pos_of w))) ∧ three_buttons (OneDown w) b'.
Proof.
  intros Hb. eapply three_event with (st := Nothing); [unfold transition; by rewrite (three_state _ _ Hb)|].
  rewrite started_alike, got_pressed_alike. destruct (ignore_btn_delay b) as [i|] eqn:Ei; [|done].
  destruct (three_clickable _ _ Hb i Ei). unfold handle_button_press. destruct (request_timer ctx (delay i)) as [token ctx'].
  destruct w; by apply three_set_ignore.
Qed.

Lemma three_release b ctx w : three_buttons (OneDown w) b →
  ∃ b' ctx' long, controller_event b ctx (Button_ (ButtonReleased w)) = (b', ctx', Some (Triggered (pos_of w) long)) ∧
    three_buttons Nothing b'.
Proof.
  intros Hb. destruct (three_trigger _ (make_clickable [other_pos w] b) ctx (pos_of w) (three_clickable_all _ _ _ Hb))
    as (b1 & ctx1 & long & Ht & Hb1).
  destruct (three_event (OneDown w) Nothing b ctx (ButtonReleased w) (b1, ctx1) (Some (Triggered (pos_of w) long))) as (b' & ctx' & He & Hb');
    [|done|by eexists _, _, _].
  unfold transition. rewrite (three_state _ _ Hb), bool_decide_true by done. by rewrite Ht.
Qed.

Lemma three_both b ctx w : three_buttons (OneDown w) b →
  ∃ b' ctx', controller_event b ctx (Button_ (ButtonPressed (other w))) = (b', ctx', Some (MsgPressed PosMiddle)) ∧ three_buttons BothDown b'.
Proof.
  intros Hb. eapply three_event with (st := OneDown w).
  - unfold transition. rewrite (three_state _ _ Hb), (three_middle _ _ Hb), bool_decide_true by by destruct w.
    replace (match ignore_btn_delay b with Some i => ignore_button i (other w) | None => false end) with false; [done|].
    destruct (ignore_btn_delay b) as [i|] eqn:Ei; [|done]. destruct (three_clickable _ _ Hb i Ei) as [Hl Hr].
    destruct w; cbn; by rewrite ?Hl, ?Hr.
  - by rewrite middle_hold_alike, got_pressed_alike.
Qed.

Lemma three_up b ctx w : three_buttons BothDown b →
  ∃ b' ctx', controller_event b ctx (Button_ (ButtonReleased w)) = (b', ctx', None) ∧ three_buttons (OneReleased w) b'.
Proof.
  intros Hb. eapply three_event with (st := BothDown).
  - unfold transition. by rewrite (three_state _ _ Hb), (three_middle _ _ Hb).
  - by rewrite ended_alike.
Qed.

Lemma three_done b ctx w : three_buttons (OneReleased w) b →
  ∃ b' ctx' long, controller_event b ctx (Button_ (ButtonReleased (other w))) = (b', ctx', Some (Triggered PosMiddle long)) ∧
    three_buttons Nothing b'.
Proof.
  intros Hb. destruct (three_trigger _ (make_clickable [PosLeft; PosRight] b) ctx PosMiddle (three_clickable_all _ _ _ Hb))
    as (b1 & ctx1 & long & Ht & Hb1).
  destruct (three_event (OneReleased w) Nothing b ctx (ButtonReleased (other w)) (b1, ctx1) (Some (Triggered PosMiddle long)))
    as (b' & ctx' & He & Hb'); [|done|by eexists _, _, _].
  unfold transition. rewrite (three_state _ _ Hb), bool_decide_true by by destruct w.
  replace (handle_middle_button (make_clickable [PosLeft; PosRight] b)) with true by (symmetry; apply (three_middle _ _ Hb)).
  by rewrite Ht.
Qed.
End Taps.

Section ThreeNew.
Context `{FontDriver} `{DisplayConstants}.

Lemma three_new l b : all_three l → controller_new l = Ok b → three_buttons Nothing (with_ignore_btn_delay b IGNORE_OTHER_BTN_MS).
Proof.
  intros [Hp Hl] Hb. destruct (controller_new_shows l b Hp Hb) as [[Hs Hm Hi] Ht].
  apply three_set_ignore; [|done|done]. split; [|by rewrite Hm|by rewrite Hi|done].
  intros pos. by rewrite Hs, Hl.
Qed.

Lemma container_set_three c d area c' pos :
  (∀ d', d = Some d' → bd_duration d' = None) → is_Some d → container_set c d area = Ok c' →
  container_shape c = (pos, KButton) → container_shape c' = (pos, KButton).
Proof.
  intros Hp [d' ->]. unfold container_set, type_from_details. rewrite (Hp d') by done. cbn. intros [= <-].
  unfold container_shape. cbn. congruence.
Qed.

Lemma three_set st b l b' : all_three l → controller_set b l = Ok b' → three_buttons st b → three_buttons st b'.
Proof.
  intros [Hp Hl] Hset [Hs Hm Hi Ht]. unfold controller_set in Hset.
  destruct (container_set (left_btn b) _ _) as [cl| | |] eqn:El; try done.
  destruct (container_set (middle_btn b) _ _) as [cm| | |] eqn:Em; try done.
  destruct (container_set (right_btn b) _ _) as [cr| | |] eqn:Er; try done.
  cbn in Hset. injection Hset as <-. split; [|exact (Hl PosMiddle)|done|done].
  intros []; [eapply (container_set_three _ _ _ _ PosLeft)|eapply (container_set_three _ _ _ _ PosMiddle)
    |eapply (container_set_three _ _ _ _ PosRight)]; try eassumption; try apply (Hp PosLeft); try apply (Hp PosMiddle);
    try apply (Hp PosRight); try apply (bool_decide_eq_true _), (Hl PosLeft); try apply (bool_decide_eq_true _), (Hl PosMiddle);
    try apply (bool_decide_eq_true _), (Hl PosRight); try apply (Hs PosLeft); try apply (Hs PosMiddle); apply (Hs PosRight).
Qed.
End ThreeNew.

Section Page.
Context `{FontDriver} `{DisplayConstants} {F A : Type} `{ChoiceFactory F A}.
Implicit Types p : ChoicePage F.

(** A page that waits for the buttons: no animation runs, and the mover of the
    button that is held, if there is one, has not moved yet. *)
Record poised (n : Z) (st : ButtonState) (dir : option ButtonPos) p : Prop := {
  ready_ok : choice_ok n p;
  ready_layouts i item a : get (choices p) i = Ok (item, a) → all_three (btn_layout item);
  ready_still : is_moving (animation_mover p) = false;
  ready_steps : animated_steps_to_do p = 0;
  ready_holding : moving_direction (holding_mover p) = dir;
  ready_fresh : dir ≠ None → auto_moved_screens (holding_mover p) = 0;
  ready_buttons : three_buttons st (inner (ch_buttons p))
}.

Lemma set_buttons_ready n st p ctx : poised n st None p →
  ends (choice_set_buttons p ctx) (λ p', poised n st None p' ∧ unmoved p p').
Proof.
  intros [[[Hn Hr Hg] Hc] Hl Ha Hs Hh Hf Hb]. unfold choice_set_buttons, get_current_item, get_current_choice.
  destruct (Hg (page_counter p) Hc) as (item & a & Hget & Hp). rewrite Hget. cbn [mbind outcome_bind].
  destruct (mutate_runs (ch_buttons p) ctx (λ ctx b,
    b ← controller_set b (btn_layout item);
    let '(b, ctx) := match moving_direction (holding_mover p) with
                     | Some pos => highlight_button pos (b, ctx)
                     | None => (b, ctx)
                     end in
    Ok (b, request_paint ctx, tt)) (λ b _, three_buttons st b)) as (b & ctx' & [] & -> & Hb').
  - intros ctx'. destruct (controller_set_plain (inner (ch_buttons p)) (btn_layout item) Hp) as [b Hset].
    rewrite Hset, Hh. cbn [mbind outcome_bind]. eexists _, _, _. split; [done|]. by eapply (three_set st _ _ _ (Hl _ _ _ Hget)).
  - cbn [mbind outcome_bind]. eexists _, _. split; [done|]. split; [|done]. by split.
Qed.

Lemma update_ready n st p ctx : poised n st None p →
  ends (choice_update p ctx) (λ p', poised n st None p' ∧ unmoved p p').
Proof.
  intros Hp. unfold choice_update. destruct (set_buttons_ready n st p ctx Hp) as (p' & ctx' & -> & [[]] & Hu).
  cbn [mbind outcome_bind]. eexists _, _. split; [done|]. split; [by split|]. by etransitivity.
Qed.

Lemma set_counter_ready n st dir p i : poised n st dir p → 0 <= i < n → poised n st dir (set_counter p i).
Proof. intros [] ?. split; try done. by apply set_counter_ok. Qed.

(** To another item or other items. *)
Lemma reset_ready n n' st p ctx (f : F) i carousel :
  poised n st None p → factory_ok f n' → (∀ i item a, get f i = Ok (item, a) → all_three (btn_layout item)) → 0 <= i < n' →
  ends (choice_reset p ctx f (Some i) carousel) (λ p', poised n' st None p' ∧ choices p' = f ∧ page_counter p' = i).
Proof.
  intros [Hok Hl Ha Hs Hh Hf Hb] Hfo Hl' Hi. unfold choice_reset.
  eapply ends_weaken; [apply (update_ready n' st); by split; [split|..]|]. intros p' [? []]. by split.
Qed.

Lemma move_ready n st p ctx pos : poised n st None p →
  ends (move_to p ctx pos) (λ p', poised n st None p' ∧ unmoved (set_counter p (moved n (is_carousel p) pos (page_counter p))) p').
Proof.
  intros Hp. pose proof (ready_ok _ _ _ _ Hp) as Hok. pose proof (choice_counter n p Hok) as Hc.
  pose proof (set_counter_ready n st None p _ Hp (moved_range n (is_carousel p) pos _ Hc)) as Hr.
  unfold moved, before, after in *. unfold move_to, move_left, move_right, has_next_choice, has_previous_choice.
  rewrite (last_page_ok n p Hok). unfold decrease_page_counter, increase_page_counter. destruct pos; cbn [mbind outcome_bind].
  - destruct (Z.ltb_spec 0 (page_counter p)) as [Hlt|].
    + rewrite (counter_small n p) by (done || lia). by apply update_ready.
    + destruct (is_carousel p); [by apply update_ready|]. eexists _, _. by split.
  - eexists _, _. by split.
  - destruct (Z.ltb_spec (page_counter p) (n - 1)) as [Hlt|].
    + rewrite (counter_small n p) by (done || lia). by apply update_ready.
    + destruct (is_carousel p); [by apply update_ready|]. eexists _, _. by split.
Qed.

Context `{Clock}.

(** An event of a button, once it is known what the controller makes of it. *)
Lemma ready_event n st dir p ctx ev (Q : ButtonController → option ButtonControllerMsg → Prop) :
  poised n st dir p →
  (∀ ctx, ∃ b ctx' msg, controller_event (inner (ch_buttons p)) ctx (Button_ ev) = (b, ctx', msg) ∧ Q b msg) →
  ∃ b ctx' msg, Q (inner b) msg ∧
    choice_event p ctx (Button_ ev) =
      let '(self, ctx, spent) := holding_event (set_ch_buttons (set_inverse p false) b) ctx' msg in
      if spent then Ok (self, ctx, None) else choice_message self ctx msg.
Proof.
  intros [Hok Hl Ha Hs Hh Hf Hb] Hev. unfold choice_event, animation_event.
  cbn [animated_steps_to_do set_inverse animation_mover]. rewrite Hs, Ha. cbn [Z.eqb]. cbn [animation_mover set_inverse holding_mover mover_event].
  rewrite Ha. destruct (child_event_runs (ch_buttons p) ctx (Button_ ev) Q) as (b & ctx' & msg & He & HQ).
  { intros ctx1. cbn [event controller_component]. destruct (Hev ctx1) as (b & ctx' & msg & -> & HQ). by eexists _, _, _. }
  exists b, ctx', msg. split; [done|]. cbn [ch_buttons set_inverse set_holding]. rewrite He. cbn [mbind outcome_bind]. by destruct p.
Qed.

(** A button goes down, and the page would move if it stayed down. *)
Lemma press_ready n p ctx w : poised n Nothing None p →
  runs (choice_event p ctx (Button_ (ButtonPressed w)))
    (λ p' msg, msg = None ∧ poised n (OneDown w) (Some (pos_of w)) p' ∧ kept p p').
Proof.
  intros Hp. destruct (ready_event n Nothing None p ctx (ButtonPressed w)
    (λ b msg, msg = Some (MsgPressed (pos_of w)) ∧ three_buttons (OneDown w) b) Hp) as (b & ctx' & msg & [-> Hb] & ->).
  { intros ctx1. destruct (three_press _ ctx1 w (ready_buttons _ _ _ _ Hp)) as (b & ctx' & -> & Hb). by eexists _, _, _. }
  destruct Hp as [[Hfo Hc] Hl Ha Hs Hh Hf Hb0]. unfold holding_event. cbn [holding_mover set_ch_buttons set_inverse]. rewrite Hh.
  destruct w; cbn [pos_of]; unfold start_moving; destruct (request_timer ctx' _) as [token ctx2]; cbn;
    (eexists _, _, _; split; [done|]; split; [done|]; split; [|done]); by split.
Qed.

(** It comes up again: the page moves by one item. *)
Lemma release_ready n p ctx w : poised n (OneDown w) (Some (pos_of w)) p →
  runs (choice_event p ctx (Button_ (ButtonReleased w)))
    (λ p' msg, msg = None ∧ poised n Nothing None p' ∧ kept (set_counter p (moved n (is_carousel p) (pos_of w) (page_counter p))) p').
Proof.
  intros Hp. destruct (ready_event n _ _ p ctx (ButtonReleased w)
    (λ b msg, (∃ long, msg = Some (Triggered (pos_of w) long)) ∧ three_buttons Nothing b) Hp) as (b & ctx' & msg & [[long ->] Hb] & ->).
  { intros ctx1. destruct (three_release _ ctx1 w (ready_buttons _ _ _ _ Hp)) as (b & ctx' & long & -> & Hb).
    eexists _, _, _. split; [done|]. split; [by exists long|done]. }
  destruct Hp as [[Hfo Hc] Hl Ha Hs Hh Hf Hb0]. unfold holding_event, was_moving. cbn [holding_mover set_ch_buttons set_inverse].
  rewrite Hh, bool_decide_true, Hf by done. cbn [Z.ltb Z.compare]. set (q := set_holding _ _).
  assert (poised n Nothing None q) as Hq by (by split).
  destruct (move_ready n Nothing q ctx' (pos_of w) Hq) as (p' & ctx2 & Hm & Hr & Hu).
  assert (choice_message q ctx' (Some (Triggered (pos_of w) long)) = Ok (p', ctx2, None)) as ->.
  { unfold choice_message. destruct w; cbn [pos_of] in *; by rewrite Hm. }
  eexists _, _, _. split; [done|]. split; [done|]. split; [done|]. by apply unmoved_kept in Hu as [].
Qed.

(** The other one goes down as well: it is neither of the two any more. *)
Lemma both_ready n p ctx w : poised n (OneDown w) (Some (pos_of w)) p →
  runs (choice_event p ctx (Button_ (ButtonPressed (other w))))
    (λ p' msg, msg = None ∧ poised n BothDown None p' ∧ kept p p').
Proof.
  intros Hp. destruct (ready_event n _ _ p ctx (ButtonPressed (other w))
    (λ b msg, msg = Some (MsgPressed PosMiddle) ∧ three_buttons BothDown b) Hp) as (b & ctx' & msg & [-> Hb] & ->).
  { intros ctx1. destruct (three_both _ ctx1 w (ready_buttons _ _ _ _ Hp)) as (b & ctx' & -> & Hb). by eexists _, _, _. }
  destruct Hp as [[Hfo Hc] Hl Ha Hs Hh Hf Hb0]. unfold holding_event, was_moving. cbn [holding_mover set_ch_buttons set_inverse].
  rewrite Hh, bool_decide_true by by destruct w. rewrite Hf by done. cbn.
  eexists _, _, _. split; [done|]. split; [done|]. split; [|done]. by split.
Qed.

Lemma up_ready n p ctx w : poised n BothDown None p →
  runs (choice_event p ctx (Button_ (ButtonReleased w)))
    (λ p' msg, msg = None ∧ poised n (OneReleased w) None p' ∧ kept p p').
Proof.
  intros Hp. destruct (ready_event n _ _ p ctx (ButtonReleased w)
    (λ b msg, msg = None ∧ three_buttons (OneReleased w) b) Hp) as (b & ctx' & msg & [-> Hb] & ->).
  { intros ctx1. destruct (three_up _ ctx1 w (ready_buttons _ _ _ _ Hp)) as (b & ctx' & -> & Hb). by eexists _, _, _. }
  destruct Hp as [[Hfo Hc] Hl Ha Hs Hh Hf Hb0]. unfold holding_event. cbn [holding_mover set_ch_buttons set_inverse]. rewrite Hh. cbn.
  eexists _, _, _. split; [done|]. split; [done|]. split; [|done]. by split.
Qed.

(** The last one comes up: the item is chosen. *)
Lemma done_ready n p ctx w : poised n (OneReleased w) None p →
  runs (choice_event p ctx (Button_ (ButtonReleased (other w))))
    (λ p' msg, poised n Nothing None p' ∧ kept p p' ∧
       ∃ item a long, get (choices p) (page_counter p) = Ok (item, a) ∧ msg = Some (a, long)).
Proof.
  intros Hp. destruct (ready_event n _ _ p ctx (ButtonReleased (other w))
    (λ b msg, (∃ long, msg = Some (Triggered PosMiddle long)) ∧ three_buttons Nothing b) Hp) as (b & ctx' & msg & [[long ->] Hb] & ->).
  { intros ctx1. destruct (three_done _ ctx1 w (ready_buttons _ _ _ _ Hp)) as (b & ctx' & long & -> & Hb).
    eexists _, _, _. split; [done|]. split; [by exists long|done]. }
  destruct Hp as [[[Hn Hr Hg] Hc] Hl Ha Hs Hh Hf Hb0]. unfold holding_event. cbn [holding_mover set_ch_buttons set_inverse]. rewrite Hh.
  cbn [choice_message clear_and_repaint]. unfold get_current_action, get_current_choice. cbn.
  destruct (Hg _ Hc) as (item & a & Hget & _). rewrite Hget. cbn [mbind outcome_bind].
  eexists _, _, _. split; [done|]. split; [by split|]. split; [done|]. by exists item, a, long.
Qed.
End Page.

(** ** The items for a prefix *)
Section Items.
Context `{ShortTexts}.

Record factory_for (t : WordlistType) (p : list Z) (f : ChoiceFactoryWordlist) : Prop := {
  ff_words : wordlist f = mkWordlist (found t p) (len p);
  ff_offer : offer_words f = (len (found t p) <? OFFER_WORDS_THRESHOLD);
  ff_order : offer_words f = true → word_random_order f ≡ₚ range (len (found t p));
  ff_empty : empty_input f = bool_decide (p = [])
}.

Lemma word_factory_ok `{RandomLaws} t p : ascii p → ∃ f, word_factory_new t p = Ok f ∧ factory_for t p f.
Proof.
  intros Hp. unfold word_factory_new.
  assert (filter_prefix (match t with TypeBip39 => wordlist_bip39 | TypeSlip39 => wordlist_slip39 end) p =
    Ok (mkWordlist (found t p) (len p))) as ->.
  { replace (match t with TypeBip39 => wordlist_bip39 | TypeSlip39 => wordlist_slip39 end) with (mkWordlist (list_of t) 0)
      by (by destruct t). apply filter_prefix_spec; [apply list_in_order|apply list_ascii|done]. }
  cbn [mbind outcome_bind]. unfold wordlist_len. cbn [words].
  destruct (len (found t p) <? OFFER_WORDS_THRESHOLD) eqn:Ho.
  - destruct (shuffle_permutes (range (len (found t p)))) as (order & -> & Hperm). cbn [mbind outcome_bind].
    eexists. split; [done|]. by split.
  - cbn [mbind outcome_bind]. eexists. split; [done|]. by split.
Qed.

(** What the action of an item may be. *)
Definition legal (t : WordlistType) (p : list Z) (i : Z) (a : WordlistAction) : Prop :=
  match a with
  | WordPrevious => i = 0 ∧ p = []
  | WordDelete => i = 0 ∧ p ≠ []
  | WordWord w => 1 <= i ∧ w ∈ list_of t ∧ p `prefix_of` w
  | WordLetter l => 1 <= i ∧ ∃ c, l = [c] ∧ continues (list_of t) p c
  end.

Context (t : WordlistType) (p : list Z) (f : ChoiceFactoryWordlist) (Hf : factory_for t p f) (Hp : known_prefix t p).

Lemma first_item : ∃ item a, word_get f 0 = Ok (item, a) ∧ plain (btn_layout item) ∧ legal t p 0 a.
Proof.
  pose proof short_texts as Ht. repeat (apply Forall_cons in Ht as [? Ht]).
  unfold word_get. cbn [Z.eqb DELETE_INDEX]. rewrite (ff_empty t p f Hf).
  case_bool_decide; rewrite item_ok by done; cbn [mbind outcome_bind]; eexists _, _; (split; [done|]); (split; [plain_item|done]).
Qed.

(** Nine words or less are offered themselves. *)
Lemma word_items : offer_words f = true →
  word_count f = Ok (1 + len (found t p)) ∧
  ∀ i, 1 <= i <= len (found t p) → ∃ w item, getZ (word_random_order f) (i - 1) ≫= getZ (found t p) = Some w ∧
    word_get f i = Ok (item, WordWord w) ∧ plain (btn_layout item) ∧ w ∈ found t p.
Proof.
  intros Ho. pose proof (ff_order t p f Hf Ho) as Hperm. unfold word_count, word_get. rewrite Ho, (ff_words t p f Hf).
  split; [done|]. intros i Hi. destruct (Z.eqb_spec i DELETE_INDEX); [unfold DELETE_INDEX in *; lia|].
  destruct (proj2 (getZ_is_Some (word_random_order f) (i - 1))) as [k Hk].
  { rewrite (Permutation_length Hperm). unfold range. rewrite length_fmap, length_seq. lia. }
  rewrite Hk. cbn [or_panic mbind outcome_bind option_bind]. unfold wordlist_get. cbn [words].
  assert (0 <= k < len (found t p)) as Hrange.
  { apply elem_of_range. rewrite <- Hperm. apply getZ_Some in Hk as [_ Hk]. by eapply list_elem_of_lookup_2. }
  destruct (proj2 (getZ_is_Some (found t p) k) Hrange) as [w Hw]. rewrite Hw. cbn [default from_option].
  assert (w ∈ found t p) as Hin by (apply getZ_Some in Hw as [_ Hw]; by eapply list_elem_of_lookup_2).
  apply found_in in Hin as Hin'. destruct Hin' as [_ Hl]. pose proof (list_short t) as Hs. rewrite Forall_forall in Hs.
  specialize (Hs w Hl). unfold id. rewrite item_ok by (unfold CAPACITY; lia). cbn [mbind outcome_bind].
  eexists w, _. split; [done|]. split; [done|]. split; [plain_item|done].
Qed.

(** Otherwise the letters that go on. *)
Lemma letter_items : offer_words f = false →
  ∃ cs, StronglySorted Z.lt cs ∧ (∀ c, c ∈ cs ↔ continues (list_of t) p c) ∧ 1 <= len cs <= 127 ∧
    word_count f = Ok (1 + len cs) ∧
    ∀ i, 1 <= i <= len cs → ∃ c item, getZ cs (i - 1) = Some c ∧ word_get f i = Ok (item, WordLetter [c]) ∧ plain (btn_layout item).
Proof.
  intros Ho. destruct (available_letters_spec (list_of t) p (list_in_order t) (list_ascii t)) as (cs & Hcs & Hsort & Hin).
  exists cs. split; [done|]. split; [done|].
  assert (∀ c, c ∈ cs → 0 < c < 128) as Hascii.
  { intros c (w & Hw & Hc)%Hin. pose proof (list_ascii t) as Ha. rewrite Forall_forall in Ha.
    by apply next_letter in Hc as (_ & _ & ?); [|apply Ha]. }
  unfold word_count, word_get. rewrite Ho, (ff_words t p f Hf). unfold found in *. rewrite Hcs. cbn [mbind outcome_bind].
  rewrite length_fmap. split; [|split; [done|]].
  - split.
    + assert (OFFER_WORDS_THRESHOLD <= len (found t p)) as Hmany.
      { pose proof (ff_offer t p f Hf) as Hoff. rewrite Ho in Hoff. symmetry in Hoff. by apply Z.ltb_ge in Hoff. }
      destruct (found_many t p) as [c Hc%Hin]; [unfold OFFER_WORDS_THRESHOLD in Hmany; lia|].
      destruct cs; [by apply not_elem_of_nil in Hc|simpl; lia].
    + assert (cs ⊆+ (λ i, 1 + i) <$> range 127) as Hsub.
      { apply NoDup_submseteq.
        - clear -Hsort. induction Hsort as [|c cs _ IH Hall]; constructor; [|done]. intros Hc.
          rewrite Forall_forall in Hall. specialize (Hall c Hc). lia.
        - intros c Hc%Hascii. apply list_elem_of_fmap. exists (c - 1). split; [lia|]. apply elem_of_range. lia. }
      apply submseteq_length in Hsub. change (length ((λ i, 1 + i) <$> range 127)) with 127%nat in Hsub. lia.
  - intros i Hi. destruct (Z.eqb_spec i DELETE_INDEX); [unfold DELETE_INDEX in *; lia|].
    destruct (proj2 (getZ_is_Some cs (i - 1))) as [c Hc]; [lia|].
    assert (getZ ((λ c, [c]) <$> cs) (i - 1) = Some [c]) as ->.
    { apply getZ_Some in Hc as [Hi' Hc]. apply getZ_Some. split; [done|]. by rewrite list_lookup_fmap, Hc. }
    cbn [default from_option]. unfold id. rewrite item_ok by (by unfold CAPACITY; simpl; lia). cbn [mbind outcome_bind].
    eexists c, _. split; [done|]. split; [done|plain_item].
Qed.

(** There is always something to choose, and all of it leads to words. *)
Lemma items_ok : ∃ n, word_count f = Ok n ∧ 2 <= n <= 2049 ∧
  ∀ i, 0 <= i < n → ∃ item a, word_get f i = Ok (item, a) ∧ plain (btn_layout item) ∧ legal t p i a.
Proof.
  destruct (offer_words f) eqn:Ho.
  - destruct (word_items Ho) as [Hn Hw]. exists (1 + len (found t p)). split; [done|]. pose proof (found_length t p) as Hl.
    assert (1 <= len (found t p)) as H1.
    { destruct Hp as (w & Hwl & Hpw). assert (w ∈ found t p) as Hin by (by apply found_in).
      destruct (found t p); [by apply not_elem_of_nil in Hin|simpl; lia]. }
    split; [lia|]. intros i Hi. destruct (Z.eq_dec i 0) as [->|]; [apply first_item|].
    destruct (Hw i) as (w & item & _ & Hget & Hpl & Hin); [lia|]. exists item, (WordWord w). split; [done|]. split; [done|].
    apply found_in in Hin as [? ?]. split; [lia|done].
  - destruct (letter_items Ho) as (cs & _ & Hcs & Hl & Hn & Hw). exists (1 + len cs). split; [done|].
    split; [lia|]. intros i Hi. destruct (Z.eq_dec i 0) as [->|]; [apply first_item|].
    destruct (Hw i) as (c & item & Hc & Hget & Hpl); [lia|]. exists item, (WordLetter [c]). split; [done|]. split; [done|].
    split; [lia|]. exists c. split; [done|]. apply Hcs. apply getZ_Some in Hc as [_ Hc]. by eapply list_elem_of_lookup_2.
Qed.

(** Every word with the prefix is offered, or its next letter is. *)
Lemma items_complete w : w ∈ list_of t → p `prefix_of` w →
  ∃ n i item a, word_count f = Ok n ∧ 0 < i < n ∧ word_get f i = Ok (item, a) ∧
    (a = WordWord w ∨ ∃ c, a = WordLetter [c] ∧ (p ++ [c]) `prefix_of` w).
Proof.
  intros Hw Hpw. assert (w ∈ found t p) as Hin by (by apply found_in). destruct (offer_words f) eqn:Ho.
  - destruct (word_items Ho) as [Hn Hitems]. apply list_elem_of_lookup in Hin as [k Hk].
    assert (Z.of_nat k ∈ word_random_order f) as Hin.
    { rewrite (ff_order t p f Hf Ho). apply elem_of_range. apply lookup_lt_Some in Hk. lia. }
    apply list_elem_of_lookup in Hin as [j Hj].
    assert ((j < length (found t p))%nat) as Hlt.
    { apply lookup_lt_Some in Hj. rewrite (Permutation_length (ff_order t p f Hf Ho)) in Hj. unfold range in Hj.
      rewrite length_fmap, length_seq in Hj. lia. }
    destruct (Hitems (1 + Z.of_nat j)) as (v & item & Hv & Hget & _); [lia|].
    replace (1 + Z.of_nat j - 1) with (Z.of_nat j) in Hv by lia. rewrite getZ_nat, Hj in Hv. cbn [mbind option_bind] in Hv.
    rewrite getZ_nat, Hk in Hv. injection Hv as ->.
    exists (1 + len (found t p)), (1 + Z.of_nat j), item, (WordWord v). split; [done|]. split; [lia|]. split; [done|by left].
  - destruct (letter_items Ho) as (cs & _ & Hcs & Hl & Hn & Hitems).
    destruct (prefix_next p w Hpw) as [->|[c Hc]].
    { pose proof (ff_offer t _ f Hf) as Hoff. rewrite Ho in Hoff. symmetry in Hoff. apply Z.ltb_ge in Hoff.
      pose proof (found_word t _ Hw). unfold OFFER_WORDS_THRESHOLD in Hoff. lia. }
    assert (c ∈ cs) as Hin' by (apply Hcs; by exists w). apply list_elem_of_lookup in Hin' as [j Hj].
    apply lookup_lt_Some in Hj as Hlt. destruct (Hitems (1 + Z.of_nat j)) as (c' & item & Hc' & Hget & _); [lia|].
    replace (1 + Z.of_nat j - 1) with (Z.of_nat j) in Hc' by lia. rewrite getZ_nat, Hj in Hc'. injection Hc' as ->.
    exists (1 + len cs), (1 + Z.of_nat j), item, (WordLetter [c']). split; [done|]. split; [lia|]. split; [done|].
    right. by exists c'.
Qed.

(** A letter is offered once. *)
Lemma letter_once i j item1 item2 l n :
  word_count f = Ok n → 0 <= i < n → 0 <= j < n →
  word_get f i = Ok (item1, WordLetter l) → word_get f j = Ok (item2, WordLetter l) → i = j.
Proof.
  intros Hn Hi Hj Hgi Hgj.
  assert (∀ k item, 0 <= k → word_get f k = Ok (item, WordLetter l) → k ≠ 0) as Hne.
  { intros k item Hk Hg ->. destruct first_item as (item' & a & Hfirst & _ & Hlegal). rewrite Hg in Hfirst. injection Hfirst as <- <-.
    destruct Hlegal. lia. }
  pose proof (Hne i item1 (proj1 Hi) Hgi). pose proof (Hne j item2 (proj1 Hj) Hgj). clear Hne.
  destruct (offer_words f) eqn:Ho.
  - destruct (word_items Ho) as [Hn' Hw]. rewrite Hn in Hn'. injection Hn' as ->.
    destruct (Hw i) as (w & ? & _ & Hget & _); [lia|]. rewrite Hgi in Hget. done.
  - destruct (letter_items Ho) as (cs & Hsort & _ & _ & Hn' & Hw). rewrite Hn in Hn'. injection Hn' as ->.
    destruct (Hw i) as (c1 & ? & Hc1 & Hget1 & _); [lia|]. destruct (Hw j) as (c2 & ? & Hc2 & Hget2 & _); [lia|].
    rewrite Hgi in Hget1. rewrite Hgj in Hget2. simplify_eq.
    apply getZ_Some in Hc1 as [? Hc1], Hc2 as [? Hc2].
    assert (NoDup cs) as Hnd.
    { clear -Hsort. induction Hsort as [|c cs _ IH Hall]; constructor; [|done]. intros Hc.
      rewrite Forall_forall in Hall. specialize (Hall c Hc). lia. }
    pose proof (NoDup_lookup _ _ _ _ Hnd Hc1 Hc2). lia.
Qed.

(** A position is drawn in the end. *)
Lemma pick_ok `{RandomLaws} `{!FairDraws} self n :
  word_count f = Ok n → 3 <= n <= 2049 →
  ∃ i, pick_position MAX_DRAWS 0 self f n = Ok i ∧ 1 <= i < n.
Proof.
  intros Hn Hr. destruct items_ok as (n' & Hn' & _ & Hitems). rewrite Hn in Hn'. injection Hn' as <-.
  assert (∀ call, get_random_position call n = Ok (random_uniform call (n - 1) + 1) ∧ 0 <= random_uniform call (n - 1) < n - 1) as Hdraw.
  { intros call. pose proof (uniform_range call (n - 1)) as Hu. unfold get_random_position, uniform_between, INITIAL_PAGE_COUNTER, DELETE_INDEX.
    rewrite (wrapu_small 32 (n - 1)) by (unfold in_u; lia). rewrite (proj2 (Z.leb_le _ _)) by lia.
    unfold uniform. rewrite (wrapu_small 32 (n - 1 - (0 + 1) + 1)) by (unfold in_u; lia).
    replace (n - 1 - (0 + 1) + 1) with (n - 1) by lia. rewrite wrapu_small by (unfold in_u; lia). split; [f_equal; lia|lia]. }
  assert (∀ fuel call, (∃ i, pick_position fuel call self f n = Ok i ∧ 1 <= i < n) ∨
    ∀ c, call <= c < call + Z.of_nat fuel → ∃ item l, word_get f (random_uniform c (n - 1) + 1) = Ok (item, WordLetter l) ∧
      get_last_textbox_letter self = Some l) as Hpick.
  { induction fuel as [|fuel IH]; intros call; [right; lia|]. cbn [pick_position].
    destruct (Hdraw call) as [-> Hc]. cbn [mbind outcome_bind].
    destruct (Hitems (random_uniform call (n - 1) + 1)) as (item & a & Hget & _); [lia|]. rewrite Hget. cbn [mbind outcome_bind].
    destruct a as [l|w| |]; try (left; eexists; split; [done|lia]).
    destruct (get_last_textbox_letter self) as [l'|] eqn:Hlast; [|left; eexists; split; [done|lia]].
    case_bool_decide; [subst l'|left; eexists; split; [done|lia]].
    destruct (IH (call + 1)) as [?|Hv]; [by left|right]. intros c Hcr.
    destruct (Z.eq_dec c call) as [->|]; [by exists item, l|]. apply Hv. lia. }
  destruct (Hpick MAX_DRAWS 0) as [?|Hv]; [done|].
  destruct (Hv 0) as (item & l & Hget & Hlast); [unfold MAX_DRAWS; lia|].
  destruct (fair_draws (n - 1) (random_uniform 0 (n - 1))) as (call & Hc & Hne); [lia|]. destruct Hne.
  destruct (Hv call) as (item' & l' & Hget' & Hlast'); [lia|]. rewrite Hlast in Hlast'. injection Hlast' as <-.
  destruct (Hdraw 0) as [_ H0r], (Hdraw call) as [_ Hcr].
  enough (random_uniform call (n - 1) + 1 = random_uniform 0 (n - 1) + 1) by lia.
  by eapply letter_once; [done|lia|lia|..].
Qed.
End Items.

(** ** The entry *)
Section Words.
Context `{FontDriver} `{DisplayConstants} `{ShortTexts} `{RandomLaws} `{!FairDraws} `{Clock}.
Implicit Types e : WordlistEntry.

Abbreviation entered_letters e := (Keyboard.content (we_textbox e)).

Record we_ok e : Prop := {
  we_text : known_prefix (wordlist_type e) (entered_letters e);
  we_factory : factory_for (wordlist_type e) (entered_letters e) (choices (we_page e));
  we_page_ok : ∃ n, choice_ok n (we_page e)
}.

Lemma factory_ok_for t p f n : factory_for t p f → known_prefix t p → word_count f = Ok n → factory_ok f n.
Proof.
  intros Hf Hp Hn. destruct (items_ok t p f Hf Hp) as (n' & Hn' & Hr & Hget). rewrite Hn in Hn'. injection Hn' as <-.
  split; [done|lia|]. intros i Hi. destruct (Hget i Hi) as (item & a & Hg & Hpl & _). by exists item, a.
Qed.

(** The page for a prefix starts at one of its items. *)
Lemma position_ok self f : factory_for (wordlist_type self) (entered_letters self) f →
  known_prefix (wordlist_type self) (entered_letters self) →
  ∃ n i, word_count f = Ok n ∧ get_new_page_counter self f = Ok i ∧ 0 <= i < n.
Proof.
  intros Hf Hp. destruct (items_ok _ _ f Hf Hp) as (n & Hn & Hr & _). exists n. unfold get_new_page_counter.
  destruct (we_offer_words self); [exists INITIAL_PAGE_COUNTER; split; [done|split; [done|by unfold INITIAL_PAGE_COUNTER, DELETE_INDEX; lia]]|].
  rewrite Hn. cbn [mbind outcome_bind]. rewrite (proj2 (Z.ltb_lt 1 n)) by lia. cbn [negb].
  destruct (Z.eqb_spec n 2); [exists INITIAL_PAGE_COUNTER; split; [done|split; [done|by unfold INITIAL_PAGE_COUNTER, DELETE_INDEX; lia]]|].
  destruct (pick_ok _ _ f Hf Hp self n Hn) as (i & Hi & ?); [lia|]. exists i. split; [done|]. split; [done|lia].
Qed.

(** The text of one entry in another. *)
Record same_entry e e' : Prop := {
  same_text : entered_letters e' = entered_letters e;
  same_type : wordlist_type e' = wordlist_type e;
  same_back : can_go_back e' = can_go_back e
}.

(** All items have the three buttons. *)
Lemma word_layout f i item a : word_get f i = Ok (item, a) → all_three (btn_layout item).
Proof.
  unfold word_get. intros Hi. case_match; [|case_match]; inv_ok;
    match goal with Hn : item_new _ _ = Ok _ |- _ => unfold item_new in Hn; inv_ok end;
    (split; [intros [] d Hd; by simplify_eq/=|intros []; by subst]).
Qed.

(** The page waits for the buttons. *)
Definition we_poised e : Prop := ∃ n, poised n Nothing None (we_page e).

Lemma we_update_ends e ctx : known_prefix (wordlist_type e) (entered_letters e) →
  ends (we_update e ctx) (λ e', we_ok e' ∧ same_entry e e' ∧ (we_poised e → we_poised e')).
Proof.
  intros Hp. pose proof (prefix_ascii _ _ Hp) as Ha. pose proof (prefix_short _ _ Hp) as Hl.
  unfold we_update, update_chosen_letters. rewrite short_ok by (unfold CAPACITY; rewrite length_app; simpl; lia).
  cbn [mbind outcome_bind].
  destruct (update_text_ends (chosen_letters e) ctx id (entered_letters e ++ PROMPT)) as (l & ctx1 & Hl1 & _);
    [unfold CAPACITY; rewrite length_app; simpl; lia|]. unfold id in Hl1. rewrite Hl1. cbn [mbind outcome_bind wordlist_type we_textbox].
  destruct (word_factory_ok (wordlist_type e) (entered_letters e) Ha) as (f & -> & Hf). cbn [mbind outcome_bind].
  match goal with |- context [get_new_page_counter ?s f] => destruct (position_ok s f Hf Hp) as (n & i & Hn & -> & Hi) end.
  cbn [mbind outcome_bind]. pose proof (factory_ok_for _ _ _ _ Hf Hp Hn) as Hfo.
  match goal with |- context [choice_reset ?p ?c f (Some i) ?b] => destruct (reset_ends n p c f i b Hfo Hi) as (page & ctx2 & Hreset & Hpage & Hc & _) end.
  rewrite Hreset. cbn [mbind outcome_bind]. eexists _, _. split; [done|]. split; [split; [done| |by exists n]|split; [done|]].
  - cbn [we_page choices wordlist_type we_textbox]. by rewrite Hc.
  - intros [m Hm]. exists n. destruct (reset_ready m n _ _ ctx1 f i (negb (offer_words f)) Hm Hfo (word_layout f) Hi) as (page' & ctx' & Hreset' & Hpo & _).
    cbn [we_page we_offer_words] in Hreset. rewrite Hreset in Hreset'. by injection Hreset' as -> ->.
Qed.

(** What an event of the entry does. *)
Definition we_result e e' (msg : option (list Z)) : Prop :=
  we_ok e' ∧ wordlist_type e' = wordlist_type e ∧ can_go_back e' = can_go_back e ∧
  edited (λ c, 0 < c < 128) (entered_letters e) (entered_letters e') ∧
  ∀ w, msg = Some w → entered_letters e' = entered_letters e ∧
    (w = [] ∧ can_go_back e = true ∧ entered_letters e = [] ∨
     w ∈ list_of (wordlist_type e) ∧ entered_letters e `prefix_of` w).

Lemma we_text_update e t ctx :
  we_ok e → edited (λ c, 0 < c < 128) (entered_letters e) (Keyboard.content t) → known_prefix (wordlist_type e) (Keyboard.content t) →
  runs ('(e, ctx) ← we_update (set_we_textbox e t) ctx; Ok (e, ctx, None)) (λ e' msg, we_result e e' msg ∧ entered_letters e' = Keyboard.content t).
Proof.
  intros He Hed Hp. eapply runs_bind; [by apply we_update_ends|]. cbn beta. intros e' ctx' (He' & [Ht Hty Hb] & _).
  cbn [set_we_textbox wordlist_type we_textbox can_go_back] in *. eexists _, _, _. split; [done|]. split; [|done].
  split; [done|]. split; [done|]. split; [done|]. split; [by rewrite Ht|done].
Qed.

Lemma letters_entered e : we_ok e → entered_text (λ c, 0 < c < 128) (entered_letters e).
Proof.
  intros [Hp _ _]. split; [by apply (prefix_ascii (wordlist_type e))|]. pose proof (prefix_short _ _ Hp). unfold CAPACITY. lia.
Qed.

Lemma we_action_runs e ctx i a long :
  we_ok e → legal (wordlist_type e) (entered_letters e) i a → runs (we_action e ctx a long) (we_result e).
Proof.
  intros He Ha. pose proof He as [Hp Hf Hpage]. pose proof (letters_entered e He) as Htext.
  assert (∀ msg, (∀ w, msg = Some w → (w = [] ∧ can_go_back e = true ∧ entered_letters e = [] ∨
     w ∈ list_of (wordlist_type e) ∧ entered_letters e `prefix_of` w)) → we_result e e msg) as Hsame.
  { intros msg Hm. split; [done|]. split; [done|]. split; [done|]. split; [constructor|]. intros w Hw. split; [done|auto]. }
  unfold we_action. destruct a as [l|w| |].
  - destruct Ha as [_ (c & -> & Hc)]. assert (0 < c < 128) as Hr.
    { destruct Hc as (w & Hw & Hc). pose proof (list_ascii (wordlist_type e)) as Hall. rewrite Forall_forall in Hall.
      by apply next_letter in Hc as (_ & _ & ?); [|apply Hall]. }
    pose proof (prefix_short _ _ Hp) as Hl.
    pose proof (append_edited (λ c, 0 < c < 128) (we_textbox e) ctx c Hr) as Hed.
    assert (Keyboard.content (append (we_textbox e) ctx [c]).1 = entered_letters e ++ [c]) as Hcont.
    { unfold append, push_or_drop, push_str, CAPACITY. cbn [fst Keyboard.content length]. by rewrite (proj2 (Z.leb_le _ _)) by lia. }
    destruct (append (we_textbox e) ctx [c]) as [t ctx1]. cbn [fst] in *.
    eapply runs_weaken; [apply we_text_update; [done|apply Hed; unfold CAPACITY; lia|by rewrite Hcont]|]. by intros e' msg [? _].
  - eexists _, _, _. split; [done|]. apply Hsame. intros v [= <-]. right. by destruct Ha as (_ & ? & ?).
  - destruct Ha as [_ Hne]. pose proof (delete_edited (λ c, 0 < c < 128) (λ _ H, H) (we_textbox e) ctx long Htext Hne) as Hed.
    assert (known_prefix (wordlist_type e) (Keyboard.content (if long then clear (we_textbox e) ctx else delete_last (we_textbox e) ctx).1)) as Hk.
    { destruct long.
      - unfold clear, replace. rewrite bool_decide_true by done. apply empty_known.
      - unfold delete_last. pose proof (proj1 (pop_ascii _ (prefix_ascii _ _ Hp))) as Hpop.
        destruct (pop (entered_letters e)) as [o s]. cbn [fst snd Keyboard.content] in *. subst s. by apply known_removelast. }
    destruct (if long then _ else _) as [t ctx1]. cbn [fst] in *.
    eapply runs_weaken; [by apply we_text_update|]. by intros e' msg [? _].
  - destruct Ha as [_ Hnil]. eexists _, _, _. split; [done|]. apply Hsame. destruct (can_go_back e) eqn:Hb; [|done].
    intros w [= <-]. by left.
Qed.

Lemma word_entry_event_runs e ctx ev : we_ok e → runs (word_entry_event e ctx ev) (we_result e).
Proof.
  intros He. pose proof He as [Hp Hf [n Hpage]]. unfold word_entry_event.
  destruct (choice_event_runs n (we_page e) ctx ev Hpage) as (page & ctx1 & msg & -> & Hc).
  cbn [mbind outcome_bind]. pose proof (chosen_ok _ _ _ _ Hpage Hc) as Hpage'. destruct Hc as [Hch _ _ Hact].
  assert (we_ok (set_we_page e page)) as He1.
  { split; [done| |by exists n]. cbn [set_we_page we_page wordlist_type we_textbox]. by rewrite Hch. }
  destruct msg as [[a long]|].
  - destruct (Hact a long eq_refl) as (_ & item & Hget). destruct (items_ok _ _ _ Hf Hp) as (n' & Hn & Hr & Hitems).
    assert (n' = n) as -> by (destruct Hpage as [[Hn' _ _] _]; cbn [count word_factory] in Hn'; congruence).
    destruct (Hitems (page_counter (we_page e))) as (item' & a' & Hget' & _ & Hlegal); [by destruct Hpage|].
    cbn [get word_factory] in Hget. rewrite Hget' in Hget. injection Hget as -> ->.
    eapply runs_weaken; [by eapply (we_action_runs (set_we_page e page))|]. done.
  - eexists _, _, _. split; [done|]. split; [done|]. split; [done|]. split; [done|]. split; [constructor|done].
Qed.

Lemma word_entry_new_ok t back :
  ∃ e, word_entry_new t back = Ok e ∧ we_ok e ∧ wordlist_type e = t ∧ can_go_back e = back ∧ entered_letters e = [].
Proof.
  unfold word_entry_new. destruct (word_factory_ok t []) as (f & -> & Hf); [by constructor|]. cbn [mbind outcome_bind].
  destruct (items_ok t [] f Hf (empty_known t)) as (n & Hn & Hr & _). rewrite Hn. cbn [mbind outcome_bind].
  pose proof (factory_ok_for _ _ _ _ Hf (empty_known t) Hn) as Hfo.
  destruct (choice_new_ok n f Hfo) as (page & -> & Hpage & Hc). cbn [mbind outcome_bind].
  destruct (uniform_ok 0 INITIAL_PAGE_COUNTER (wrapu 32 (n - 1))) as (i & Hi & Hir);
    [rewrite wrapu_small by (unfold in_u; lia); unfold INITIAL_PAGE_COUNTER, DELETE_INDEX; lia|rewrite wrapu_small by (unfold in_u; lia); lia|].
  unfold get_random_position. rewrite Hi. cbn [mbind outcome_bind]. rewrite wrapu_small in Hir by (unfold in_u; lia).
  destruct (initial_counter_ok n (with_carousel (with_incomplete page true) true) i) as (page' & -> & Hpage' & Hc' & _);
    [by destruct Hpage|unfold INITIAL_PAGE_COUNTER, DELETE_INDEX in Hir; lia|].
  cbn [mbind outcome_bind]. unfold center_mono, line_new. rewrite short_ok by done. cbn [mbind outcome_bind].
  eexists. split; [done|]. split; [|done]. split; [apply empty_known| |by exists n].
  cbn [we_page wordlist_type we_textbox]. rewrite Hc'. change (factory_for t [] (choices page)). by rewrite Hc.
Qed.

(** An entry of a word that may be changed. *)
Lemma prefilled_ok t back w : known_prefix t w →
  ∃ e, prefilled_word w t back = Ok e ∧ we_ok e ∧ wordlist_type e = t ∧ can_go_back e = back ∧ entered_letters e = w.
Proof.
  intros Hp. unfold prefilled_word. case_bool_decide as Hnil; [subst w; apply word_entry_new_ok|].
  pose proof (prefix_ascii _ _ Hp) as Ha. pose proof (prefix_short _ _ Hp) as Hl.
  destruct (word_factory_ok t w Ha) as (f & -> & Hf). cbn [mbind outcome_bind].
  destruct (items_ok t w f Hf Hp) as (n & Hn & Hr & _). pose proof (factory_ok_for _ _ _ _ Hf Hp Hn) as Hfo.
  destruct (choice_new_ok n f Hfo) as (page & -> & Hpage & Hc). cbn [mbind outcome_bind].
  destruct (initial_counter_ok n (with_incomplete page true) 1) as (page' & -> & Hpage' & Hc' & _); [by destruct Hpage|lia|].
  cbn [mbind outcome_bind]. unfold center_mono, line_new, textbox_new, push_str. rewrite short_ok by (unfold CAPACITY; lia).
  cbn [mbind outcome_bind length]. rewrite (proj2 (Z.leb_le _ _)) by (unfold CAPACITY; lia). cbn [or_panic fmap outcome_fmap mbind outcome_bind].
  eexists. split; [done|]. split; [|done]. split; [done| |by exists n].
  cbn [we_page wordlist_type we_textbox]. rewrite Hc'. change (factory_for t w (choices page)). by rewrite Hc.
Qed.

(** A new entry waits for the buttons. *)
Lemma word_entry_new_poised t back e : word_entry_new t back = Ok e → we_ok e → we_poised e.
Proof.
  unfold word_entry_new, choice_new, with_initial_page_counter, get_current_item, get_current_choice, item_buttons.
  intros Hnew [_ _ [n Hok]]. exists n. inv_ok.
  repeat match goal with x : (_ * _)%type |- _ => destruct x end. cbn beta iota in *. inv_ok.
  repeat match goal with x : (_ * _)%type |- _ => destruct x end. cbn beta iota in *. inv_ok.
  subst. split; try done; [intros ???; apply word_layout|]. cbn. eapply three_new; [|eassumption].
  match goal with Hg : get _ _ = Ok (?c, _) |- all_three (btn_layout ?c) => exact (word_layout _ _ _ _ Hg) end.
Qed.

(** An event for the page that is not answered there. *)
Lemma page_step e ctx ev (Q : ChoicePage ChoiceFactoryWordlist → Prop) :
  runs (choice_event (we_page e) ctx ev) (λ p' msg, msg = None ∧ Q p') →
  ∃ p' ctx', word_entry_event e ctx ev = Ok (set_we_page e p', ctx', None) ∧ Q p'.
Proof.
  intros (p' & ctx' & msg & He & -> & HQ). exists p', ctx'. split; [|done]. unfold word_entry_event. by rewrite He.
Qed.

Lemma set_page_ok e n st dir p : we_ok e → poised n st dir p → choices p = choices (we_page e) → we_ok (set_we_page e p).
Proof. intros [Hp Hf _] Hpo Hc. split; [done| |exists n; by destruct Hpo]. cbn [set_we_page we_page wordlist_type we_textbox]. by rewrite Hc. Qed.

(** A letter that was chosen is entered. *)
Lemma letter_chosen e ctx c long : we_ok e → we_poised e → continues (list_of (wordlist_type e)) (entered_letters e) c →
  ∃ e' ctx', we_action e ctx (WordLetter [c]) long = Ok (e', ctx', None) ∧ we_ok e' ∧ we_poised e' ∧
    wordlist_type e' = wordlist_type e ∧ entered_letters e' = entered_letters e ++ [c].
Proof.
  intros He Hpo Hc. pose proof (prefix_short _ _ (we_text e He)) as Hl. unfold we_action.
  assert (Keyboard.content (append (we_textbox e) ctx [c]).1 = entered_letters e ++ [c]) as Hcont.
  { unfold append, push_or_drop, push_str, CAPACITY. cbn [fst Keyboard.content length]. by rewrite (proj2 (Z.leb_le _ _)) by lia. }
  destruct (append (we_textbox e) ctx [c]) as [t ctx1]. cbn [fst] in Hcont.
  destruct (we_update_ends (set_we_textbox e t) ctx1) as (e' & ctx' & Hu & He' & [Ht Hty _] & Hpo');
    [cbn [set_we_textbox wordlist_type we_textbox]; by rewrite Hcont|].
  rewrite Hu. cbn [mbind outcome_bind]. exists e', ctx'. split; [done|]. split; [done|]. split; [by apply Hpo'|].
  split; [done|]. rewrite Ht. cbn [set_we_textbox we_textbox]. exact Hcont.
Qed.

(** *** Taps *)

(** One button down and up again. *)
Definition tap (b : PhysicalButton) : list Event := [Button_ (ButtonPressed b); Button_ (ButtonReleased b)].

(** The last event of a tap of both buttons, for the item that is selected. *)
Lemma chosen_step e ctx n item a : we_ok e → poised n (OneReleased LeftButton) None (we_page e) →
  word_get (choices (we_page e)) (page_counter (we_page e)) = Ok (item, a) →
  ∃ p' ctx' long, word_entry_event e ctx (Button_ (ButtonReleased RightButton)) = we_action (set_we_page e p') ctx' a long ∧
    poised n Nothing None p' ∧ kept (we_page e) p'.
Proof.
  intros He Hpo Hget. unfold word_entry_event.
  destruct (done_ready n (we_page e) ctx LeftButton Hpo) as (p' & ctx' & msg & Hev & Hpo' & Hk & item' & a' & long & Hget' & ->).
  cbn [get word_factory] in Hget'. rewrite Hget in Hget'. injection Hget' as <- <-. cbn [other] in Hev. rewrite Hev.
  cbn [mbind outcome_bind]. by exists p', ctx', long.
Qed.
End Words.

(** *** Entering a word *)
Section Enter.
Context `{FontDriver} `{DisplayConstants} `{ShortTexts} `{Clock}.
Implicit Types e : WordlistEntry.
Abbreviation entered_letters e := (Keyboard.content (we_textbox e)).

(** Generators that the properties are about. *)
Definition fair_laws (r : RandomDriver) : Prop := @RandomLaws r ∧ @FairDraws r.
Definition word_run : WordlistEntry → list (RandomDriver * EventCtx * Event) → ui (WordlistEntry * option (list Z)) :=
  entry_run (λ r, @word_entry_event _ _ _ r _).

(** Whatever is drawn meanwhile, the word can be brought to be answered with
    taps, each of which may depend on what was drawn before: taps of single
    buttons, and so many of both. *)
Inductive enters (w : list Z) : nat → WordlistEntry → Prop :=
| enters_arrow k e b :
    (∀ events, lawful fair_laws events → events.*2 = tap b →
      ∃ e', word_run e events = Ok (e', None) ∧ enters w k e') →
    enters w k e
| enters_both k e :
    (∀ events, lawful fair_laws events → events.*2 = tap_middle →
      ∃ e' msg, word_run e events = Ok (e', msg) ∧ (msg = Some w ∨ msg = None ∧ enters w k e')) →
    enters w (S k) e.

(** An entry that waits for the buttons with an item of [n] selected. *)
Record at_item (n : Z) e : Prop := { at_ok : we_ok e; at_page : poised n Nothing None (we_page e) }.

(** A tap of one button moves to the next item. *)
Lemma tap_moves n e b events : at_item n e → lawful fair_laws events → events.*2 = tap b →
  ∃ e', word_run e events = Ok (e', None) ∧ at_item n e' ∧ same_entry e e' ∧ choices (we_page e') = choices (we_page e) ∧
    page_counter (we_page e') = moved n (is_carousel (we_page e)) (pos_of b) (page_counter (we_page e)).
Proof.
  intros [He Hpo] Hl Hev. destruct events as [|[[r1 c1] ?] [|[[r2 c2] ?] [|]]]; try done. cbn in Hev. injection Hev as -> ->.
  cbn [word_run entry_run].
  destruct (@page_step _ _ _ r1 _ e c1 _ _ (press_ready n (we_page e) c1 b Hpo)) as (p1 & x1 & -> & Hp1 & [Hk1 Hk2 Hk3]).
  cbn [mbind outcome_bind].
  destruct (@page_step _ _ _ r2 _ (set_we_page e p1) c2 _ _ (release_ready n p1 c2 b Hp1)) as (p2 & x2 & -> & Hp2 & [Hm1 Hm2 Hm3]).
  cbn [mbind outcome_bind]. cbn [choices page_counter is_carousel set_counter] in *. eexists. split; [done|].
  cbn [we_page set_we_page]. split; [|split; [done|split; [congruence|congruence]]].
  split; [|done]. by apply (set_page_ok e n Nothing None); [|done|congruence].
Qed.

(** And so any item is reached. *)
Lemma item_reached w k n i d e : at_item n e → 0 <= i < n → (Z.abs_nat (i - page_counter (we_page e)) <= d)%nat →
  (∀ e', at_item n e' → same_entry e e' → choices (we_page e') = choices (we_page e) → page_counter (we_page e') = i → enters w k e') →
  enters w k e.
Proof.
  revert e. induction d as [|d IH]; intros e He Hi Hd Hend.
  - apply Hend; [done|done|done|lia].
  - destruct (Z.eq_dec i (page_counter (we_page e))) as [->|Hne]; [by apply Hend|].
    pose proof (choice_counter _ _ (ready_ok _ _ _ _ (at_page _ _ He))) as Hc.
    apply (enters_arrow w k e (if page_counter (we_page e) <? i then RightButton else LeftButton)). intros events Hl Hev.
    destruct (tap_moves n e _ events He Hl Hev) as (e' & Hrun & He' & [Ht Hty Hb] & Hch & Hpos). exists e'. split; [done|].
    apply IH; [done|done| |].
    + rewrite Hpos. unfold moved, before, after. destruct (Z.ltb_spec (page_counter (we_page e)) i); cbn [pos_of].
      * rewrite (proj2 (Z.ltb_lt _ _)) by lia. lia.
      * rewrite (proj2 (Z.ltb_lt _ _)) by lia. lia.
    + intros e2 He2 [] Hch2 Hi2. apply Hend; [done|split; congruence|congruence|done].
Qed.

(** A tap of both buttons chooses the item: the word is answered, or its next
    letter is entered. *)
Lemma tap_chooses w k n e item a : at_item n e →
  word_get (choices (we_page e)) (page_counter (we_page e)) = Ok (item, a) →
  (a = WordWord w ∨ ∃ c, a = WordLetter [c] ∧ continues (list_of (wordlist_type e)) (entered_letters e) c ∧
     ∀ e' n', at_item n' e' → wordlist_type e' = wordlist_type e → entered_letters e' = entered_letters e ++ [c] → enters w k e') →
  enters w (S k) e.
Proof.
  intros [He Hpo] Hget Ha. apply enters_both. intros events Hl Hev.
  destruct events as [|[[r1 c1] ?] [|[[r2 c2] ?] [|[[r3 c3] ?] [|[[r4 c4] ?] [|]]]]]; try done. cbn in Hev. injection Hev as -> -> -> ->.
  apply Forall_cons in Hl as [_ Hl]. apply Forall_cons in Hl as [_ Hl]. apply Forall_cons in Hl as [_ Hl].
  apply Forall_cons in Hl as [[Hr Hfair] _]. cbn [word_run entry_run].
  destruct (@page_step _ _ _ r1 _ e c1 _ _ (press_ready n (we_page e) c1 LeftButton Hpo)) as (p1 & x1 & -> & Hp1 & [Hk1 Hk2 Hk3]).
  cbn [mbind outcome_bind].
  destruct (@page_step _ _ _ r2 _ (set_we_page e p1) c2 _ _ (both_ready n p1 c2 LeftButton Hp1)) as (p2 & x2 & Hs2 & Hp2 & [Hl1 Hl2 Hl3]).
  cbn [other] in Hs2. rewrite Hs2. cbn [mbind outcome_bind]. change (set_we_page (set_we_page e p1) p2) with (set_we_page e p2).
  destruct (@page_step _ _ _ r3 _ (set_we_page e p2) c3 _ _ (up_ready n p2 c3 LeftButton Hp2)) as (p3 & x3 & -> & Hp3 & [Hm1 Hm2 Hm3]).
  cbn [mbind outcome_bind]. change (set_we_page (set_we_page e p2) p3) with (set_we_page e p3).
  assert (we_ok (set_we_page e p3)) as He3 by (apply (set_page_ok e n (OneReleased LeftButton) None); [done|done|congruence]).
  destruct (@chosen_step _ _ _ r4 _ (set_we_page e p3) c4 n item a He3 Hp3) as (p4 & x4 & long & -> & Hp4 & [Hn1 Hn2 Hn3]);
    [cbn [we_page set_we_page]; congruence|]. change (set_we_page (set_we_page e p3) p4) with (set_we_page e p4). cbn [we_page set_we_page] in *.
  assert (we_ok (set_we_page e p4)) as He4 by (apply (set_page_ok e n Nothing None); [done|done|congruence]).
  destruct Ha as [->|(c & -> & Hc & Hnext)].
  - cbn [we_action mbind outcome_bind]. eexists _, _. split; [done|by left].
  - destruct (@letter_chosen _ _ _ _ r4 Hr Hfair (set_we_page e p4) x4 c long He4) as (e' & x5 & -> & He' & [n' Hp'] & Hty & Ht);
      [by exists n|done|]. cbn [mbind outcome_bind]. eexists _, _. split; [done|]. right. split; [done|]. by apply (Hnext e' n').
Qed.

(** Every word can be entered with at most one item more than it has letters. *)
Lemma word_enters k e n w : at_item n e → w ∈ list_of (wordlist_type e) → entered_letters e `prefix_of` w →
  (length w - length (entered_letters e) <= k)%nat → enters w (S k) e.
Proof.
  revert e n. induction k as [|k IH]; intros e n He Hw Hp Hk; pose proof (at_ok _ _ He) as [Hkp Hf _];
    destruct (items_complete _ _ _ Hf w Hw Hp) as (n' & i & item & a & Hn & Hi & Hget & Ha);
    pose proof (choice_factory _ _ (ready_ok _ _ _ _ (at_page _ _ He))) as [Hn' _ _]; cbn [count word_factory] in Hn';
    rewrite Hn in Hn'; injection Hn' as ->.
  - apply (item_reached w 1 n i _ e He ltac:(lia) (Nat.le_refl _)). intros e' He' [Ht Hty _] Hch Hpos.
    apply (tap_chooses w 0 n e' item a He'); [by rewrite Hch, Hpos|].
    destruct Ha as [->|(c & -> & Hc)]; [by left|]. apply prefix_length in Hc. rewrite length_app in Hc. simpl in Hc. lia.
  - apply (item_reached w (S (S k)) n i _ e He ltac:(lia) (Nat.le_refl _)). intros e' He' [Ht Hty _] Hch Hpos.
    apply (tap_chooses w (S k) n e' item a He'); [by rewrite Hch, Hpos|].
    destruct Ha as [->|(c & -> & Hc)]; [by left|]. right. exists c. split; [done|]. split; [rewrite Hty, Ht; by exists w|].
    intros e2 n2 He2 Hty2 Ht2. apply (IH e2 n2); [done|congruence|by rewrite Ht2, Ht|].
    rewrite Ht2, Ht, length_app. simpl. lia.
Qed.
End Enter.

(** ** Properties *)

(** C36. The word entry of the model R, for both lists of words, with texts of the
    interface of at most fifty bytes, and generators that stay in their range and
    do not draw the same number a thousand times in a row: whatever events come
    in whatever order, nothing aborts and every event ends. The letters are
    always the beginning of a word of the list, and the items that are offered
    are those for these letters; a word that is answered is one of the list that
    begins with them, or nothing, when going back is allowed and nothing is
    entered. And from a new entry every word of the list can be entered with the
    two buttons, whatever is drawn meanwhile: taps of single buttons bring its
    next letter, or itself, to be selected, and a tap of both chooses it, at most
    once more than the word has letters. *)
Theorem word_entry_safe `{FontDriver} `{DisplayConstants} `{ShortTexts} `{Clock} `{RandomLaws} `{!FairDraws} t back :
  (∃ e, word_entry_new t back = Ok e ∧ we_ok e ∧
    (∀ events, lawful fair_laws events →
      ∃ e' msg, word_run e events = Ok (e', msg) ∧ we_ok e' ∧
        ∀ w, msg = Some w → w ∈ list_of t ∨ w = [] ∧ back = true) ∧
    ∀ w, w ∈ list_of t → enters w (length w + 1) e) ∧
  ∀ e ctx ev, we_ok e → runs (word_entry_event e ctx ev) (we_result e).
Proof.
  split; [|intros; by apply word_entry_event_runs]. destruct (word_entry_new_ok t back) as (e & Hnew & He & Hty & Hb & Hnil).
  exists e. split; [done|]. split; [done|]. split.
  - intros events Hl.
    destruct (entry_run_spec fair_laws (λ r, @word_entry_event _ _ _ r _)
      (λ e, we_ok e ∧ wordlist_type e = t ∧ can_go_back e = back)
      (λ e w, w ∈ list_of t ∨ w = [] ∧ back = true) e events) as (e' & msg & Hrun & [He' _] & Hm); [|done|done|].
    + intros r e1 ctx ev [Hr Hfair] (He1 & Hty1 & Hb1). eapply runs_weaken; [by apply word_entry_event_runs|].
      intros e2 msg (He2 & Hty2 & Hb2 & _ & Hm). split; [split; [done|split; congruence]|]. intros w Hw.
      destruct (Hm w Hw) as [_ [(? & ? & _)|[? _]]]; [right|left]; [split; congruence|congruence].
    + by exists e', msg.
  - intros w Hw. destruct (word_entry_new_poised t back e Hnew He) as [n Hn]. rewrite Nat.add_1_r.
    apply (word_enters _ _ n); [by split|by rewrite Hty|rewrite Hnil; apply prefix_nil|lia].
Qed.

(** ** Examples *)
#[local] Existing Instance sample_font.
#[local] Existing Instance sample_display.
#[local] Existing Instance sample_texts.
#[local] Existing Instance sample_short_texts.
#[local] Existing Instance sample_clock.
#[local] Existing Instance counting.
#[local] Existing Instance counting_laws.
Lemma counting_fair : @FairDraws counting.
Proof.
  constructor. intros n v Hn. destruct (decide (v = 0)) as [->|]; [exists 1|exists 0]; unfold MAX_DRAWS; cbn; (split; [lia|]).
  - rewrite Z.mod_small; lia.
  - by rewrite Z.mod_small by lia.
Qed.
#[local] Existing Instance counting_fair.

(** The word zoo, with at most four taps of both buttons. *)
Lemma word_entry_safe_witness :
  ∃ e, word_entry_new TypeBip39 true = Ok e ∧ [122; 111; 111] ∈ list_of TypeBip39 ∧ enters [122; 111; 111] 4 e.
Proof.
  destruct (word_entry_safe TypeBip39 true) as [(e & Hnew & _ & _ & Hword) _].
  assert ([122; 111; 111] ∈ list_of TypeBip39) as Hzoo by (apply (bool_decide_unpack _); vm_compute; exact Logic.I).
  exists e. split; [exact Hnew|]. split; [exact Hzoo|]. exact (Hword [122; 111; 111] Hzoo).
Defined.

(** Two of them in fact: from a to z in one step to the left and one over the
    item that deletes, and then the third of the words with z. *)
Lemma zoo_entered :
  match word_entry_new TypeBip39 true with
  | Ok e =>
    (λ r, r.2) <$> word_run e (counted (tap LeftButton ++ tap LeftButton ++ tap_middle ++
      tap RightButton ++ tap RightButton ++ tap RightButton ++ tap_middle)) = Ok (Some [122; 111; 111])
  | _ => False
  end.
Proof. vm_compute. reflexivity. Qed.

(** A word that is entered beforehand need not be the one that is shown: the
    words that begin with it come in any order. *)
Lemma another_word_shown :
  match @prefilled_word sample_font sample_display sample_texts pin_random [97; 99; 116] TypeBip39 true with
  | Ok e => page_counter (we_page e) = 1 ∧
      (snd <$> get (choices (we_page e)) 1 : ui WordlistAction) ≠ Ok (WordWord [97; 99; 116])
  | _ => False
  end.
Proof. vm_compute. split; [reflexivity|discriminate]. Qed.
