(* ===== verification/Flow.v ===== *)
(** * Flows of screens that are swiped

    [ui/component/swipe_detect.rs] and [ui/flow/]: the detector that tells a
    swipe from the touches, the screens of a flow with their pages, and the
    machine that goes from screen to screen with the decisions of a flow.
    Animations are enabled, as in builds without the debugging features.
    Rendering is not modelled. *)
From S2P Require Import Prelude Time Geometry Component.
Local Open Scope Z_scope.

(** ** Which swipes are possible *)

(* src: ui/component/swipe_detect.rs 13-16 (SwipeSettings) *)
Record SwipeSettings := mkSettings { settings_duration : Duration }.

(* src: ui/component/swipe_detect.rs 23-27 (SwipeSettings::default) *)
Definition settings_default : SwipeSettings := mkSettings 333.
(* src: ui/component/swipe_detect.rs 29-33 (SwipeSettings::immediate) *)
Definition settings_immediate : SwipeSettings := mkSettings 0.

(* src: ui/component/swipe_detect.rs 36-44 (SwipeConfig) *)
Record SwipeConfig := mkConfig {
  horizontal_pages : bool;
  vertical_pages : bool;
  cfg_up : option SwipeSettings;
  cfg_down : option SwipeSettings;
  cfg_left : option SwipeSettings;
  cfg_right : option SwipeSettings
}.

(* src: ui/component/swipe_detect.rs 47-56 (SwipeConfig::new) *)
Definition config_new : SwipeConfig := mkConfig false false None None None None.

Section Config.
Context (self : SwipeConfig).

(* src: ui/component/swipe_detect.rs 119-130 (Index for SwipeConfig) *)
Definition config_at (dir : SwipeDirection) : option SwipeSettings :=
  match dir with SwipeUp => cfg_up self | SwipeDown => cfg_down self | SwipeLeft => cfg_left self | SwipeRight => cfg_right self end.

(* src: ui/component/swipe_detect.rs 132-141 (IndexMut for SwipeConfig) *)
Definition config_set (dir : SwipeDirection) (v : option SwipeSettings) : SwipeConfig :=
  match dir with
  | SwipeUp => mkConfig (horizontal_pages self) (vertical_pages self) v (cfg_down self) (cfg_left self) (cfg_right self)
  | SwipeDown => mkConfig (horizontal_pages self) (vertical_pages self) (cfg_up self) v (cfg_left self) (cfg_right self)
  | SwipeLeft => mkConfig (horizontal_pages self) (vertical_pages self) (cfg_up self) (cfg_down self) v (cfg_right self)
  | SwipeRight => mkConfig (horizontal_pages self) (vertical_pages self) (cfg_up self) (cfg_down self) (cfg_left self) v
  end.

(* src: ui/component/swipe_detect.rs 58-61 (SwipeConfig::with_swipe) *)
Definition with_swipe (dir : SwipeDirection) (settings : SwipeSettings) : SwipeConfig := config_set dir (Some settings).

(* src: ui/component/swipe_detect.rs 63-65 (SwipeConfig::is_allowed) *)
Definition is_allowed (dir : SwipeDirection) : bool := bool_decide (is_Some (config_at dir)).

(** A coordinate of an absolute value, as [u16]. *)
Definition saturating_sub_u16 (a b : Z) : Z := Z.max 0 (wrapu 16 a - b).

(* src: ui/component/swipe_detect.rs 71-95 (SwipeConfig::progress) *)
Definition config_progress (dir : SwipeDirection) (movement : Offset) (threshold : Z) : Z :=
  if negb (is_allowed dir) then 0 else
  let correct_movement := match dir with
                          | SwipeRight => 0 <? ox movement
                          | SwipeLeft => ox movement <? 0
                          | SwipeDown => 0 <? oy movement
                          | SwipeUp => oy movement <? 0
                          end in
  if negb correct_movement then 0 else
  let movement := offset_abs movement in
  match dir with
  | SwipeRight | SwipeLeft => saturating_sub_u16 (ox movement) threshold
  | SwipeDown | SwipeUp => saturating_sub_u16 (oy movement) threshold
  end.

(* src: ui/component/swipe_detect.rs 97-99 (SwipeConfig::duration) *)
Definition config_duration (dir : SwipeDirection) : option Duration := settings_duration <$> config_at dir.

(* src: ui/component/swipe_detect.rs 108-111 (SwipeConfig::with_horizontal_pages) *)
Definition with_horizontal_pages : SwipeConfig :=
  mkConfig true (vertical_pages self) (cfg_up self) (cfg_down self) (cfg_left self) (cfg_right self).

(* src: ui/component/swipe_detect.rs 113-116 (SwipeConfig::with_vertical_pages) *)
Definition with_vertical_pages : SwipeConfig :=
  mkConfig (horizontal_pages self) true (cfg_up self) (cfg_down self) (cfg_left self) (cfg_right self).
End Config.

(** ** The detector *)

(** [f as i16]. *)
Definition f32_to_i16 (f : f32) : Z :=
  match f with
  | S754_finite s m e => Z.max (- 2 ^ 15) (Z.min (cond_Zopp s (Z.shiftl (Zpos m) e)) (2 ^ 15 - 1))
  | S754_infinity s => if s then - 2 ^ 15 else 2 ^ 15 - 1
  | _ => 0
  end.

(* src: ui/lerp.rs 32-36 (Lerp for i16) *)
Definition lerp_i16 (a b : Z) (t : f32) : Z := f32_to_i16 (f32_add (f32_of a) (f32_mul t (f32_of (i16 (b - a))))).

(** [Animation::value] of an [i16]. *)
(* src: ui/animation.rs 34-41 (Animation::value) *)
Definition anim_value_i16 (self : Animation) (now : Instant) : Z :=
  let t := duration_ratio (anim_elapsed self now) (Time.duration self) in
  if SFltb t (f32_of 0) then from self
  else if SFltb (f32_of 1) t then to self
  else lerp_i16 (from self) (to self) t.

(* src: ui/component/swipe_detect.rs 143-148 (SwipeDetectMsg) *)
Inductive SwipeDetectMsg :=
| SwipeStart (dir : SwipeDirection)
| SwipeMove (dir : SwipeDirection) (progress : Z)
| SwipeTrigger (dir : SwipeDirection).

(* src: ui/component/swipe_detect.rs 150-155 (SwipeDetect) *)
Record SwipeDetect := mkDetect {
  origin : option Point;
  locked : option SwipeDirection;
  final_animation : option Animation;
  sw_moved : Z
}.

(** A tenth and three tenths as [f32]. *)
(* src: ui/component/swipe_detect.rs 158-166 (DISTANCE, PROGRESS_MAX, DURATION_MS, MIN_LOCK, MIN_TRIGGER) *)
Definition SWIPE_DISTANCE : Z := 120.
Definition PROGRESS_MAX : Z := 1000.
Definition SWIPE_DURATION_MS : Duration := 333.
Definition MIN_LOCK : Z := f32_to_u 16 (f32_mul (f32_of SWIPE_DISTANCE) (f32_div (f32_of 1) (f32_of 10))).
Definition MIN_TRIGGER : Z := f32_to_u 16 (f32_mul (f32_of SWIPE_DISTANCE) (f32_div (f32_of 3) (f32_of 10))).

(* src: ui/component/swipe_detect.rs 168-175 (SwipeDetect::new) *)
Definition detect_new : SwipeDetect := mkDetect None None None 0.

(** [SwipeDirection::iter]. *)
(* src: ui/component/swipe.rs 45-58 (SwipeDirectionIterator::next) *)
Definition swipe_directions : list SwipeDirection := [SwipeUp; SwipeDown; SwipeLeft; SwipeRight].

(* src: ui/component/swipe_detect.rs 200-202 (SwipeDetect::progress) *)
Definition detect_progress (val : Z) : Z :=
  f32_to_u 16 (f32_mul (f32_div (f32_of val) (f32_of SWIPE_DISTANCE)) (f32_of PROGRESS_MAX)).

Section Detect.
Context `{Screen} `{Clock}.
Implicit Types self : SwipeDetect.

(* src: ui/component/swipe_detect.rs 185-198 (SwipeDetect::is_lockable) *)
Definition is_lockable self (dir : SwipeDirection) : bool :=
  match origin self with
  | None => false
  | Some origin =>
    let min_distance := MIN_TRIGGER in
    match dir with
    | SwipeUp => min_distance <? py origin
    | SwipeDown => py origin <? i16 (screen_height - min_distance)
    | SwipeLeft => min_distance <? px origin
    | SwipeRight => px origin <? i16 (screen_width - min_distance)
    end
  end.

(* src: ui/component/swipe_detect.rs 202-242 (SwipeDetect::eval_anim_frame) *)
Definition eval_anim_frame self (ctx : EventCtx) : SwipeDetect * EventCtx * option SwipeDetectMsg :=
  match locked self, final_animation self with
  | Some locked, Some animation =>
    if anim_finished animation now then
      (mkDetect (origin self) None None 0, request_paint (request_anim_frame ctx),
       Some (if negb (to animation =? 0) then SwipeTrigger locked else SwipeMove locked 0))
    else
      (self, request_paint (request_anim_frame ctx),
       Some (SwipeMove locked (wrapu 16 (Z.max (anim_value_i16 animation now) 0))))
  | _, _ => (self, ctx, None)
  end.

(* src: ui/component/swipe_detect.rs 244-259 (SwipeDetect::trigger) *)
Definition detect_trigger self (ctx : EventCtx) (dir : SwipeDirection) (config : SwipeConfig) : SwipeDetect * EventCtx :=
  let duration := default SWIPE_DURATION_MS (config_duration config dir) in
  (mkDetect (origin self) (Some dir) (Some (mkAnimation 0 PROGRESS_MAX duration now)) (sw_moved self),
   request_paint (request_anim_frame ctx)).

(* src: ui/component/swipe_detect.rs 261-266 (SwipeDetect::reset) *)
Definition detect_reset self : SwipeDetect := mkDetect None None None 0.

(** The first direction in which the touch has moved and can go on. *)
(* src: ui/component/swipe_detect.rs 297-304 (SwipeDetect::event) *)
Definition lock_direction self (config : SwipeConfig) (movement : Offset) : option SwipeDirection :=
  head (filter (λ dir, 0 < config_progress config dir movement MIN_LOCK ∧ is_lockable self dir = true) swipe_directions).

(** A touch that moves. *)
(* src: ui/component/swipe_detect.rs 289-311 (SwipeDetect::event) *)
Definition detect_move self (config : SwipeConfig) (movement : Offset) : SwipeDetect * option SwipeDetectMsg :=
  match locked self with
  | Some locked =>
    let progress := detect_progress (config_progress config locked movement MIN_LOCK) in
    (mkDetect (origin self) (Some locked) (final_animation self) progress, Some (SwipeMove locked progress))
  | None =>
    match lock_direction self config movement with
    | Some dir => (mkDetect (origin self) (Some dir) (final_animation self) (sw_moved self), Some (SwipeStart dir))
    | None => (self, None)
    end
  end.

(** A touch that ends: the animation goes on to the end, or back. *)
(* src: ui/component/swipe_detect.rs 325-366 (SwipeDetect::event) *)
Definition detect_end self (ctx : EventCtx) (config : SwipeConfig) (movement : Offset) : SwipeDetect * EventCtx :=
  let self := mkDetect None (locked self) (final_animation self) (sw_moved self) in
  match locked self with
  | None => (self, ctx)
  | Some locked =>
    let final_value := if 0 <? config_progress config locked movement MIN_TRIGGER then PROGRESS_MAX else 0 in
    let done := f32_div (f32_of (sw_moved self)) (f32_of PROGRESS_MAX) in
    let ratio := if final_value =? 0 then done else f32_sub (f32_of 1) done in
    let duration := default SWIPE_DURATION_MS (config_duration config locked) in
    let duration := f32_to_u 32 (f32_mul (f32_of duration) ratio) in
    (mkDetect (origin self) (Some locked) (Some (mkAnimation (wraps 16 (sw_moved self)) final_value duration now)) (sw_moved self),
     request_paint (request_anim_frame ctx))
  end.

(* src: ui/component/swipe_detect.rs 268-386 (SwipeDetect::event) *)
Definition detect_event self (ctx : EventCtx) (ev : Event) (config : SwipeConfig)
    : SwipeDetect * EventCtx * option SwipeDetectMsg :=
  match ev, origin self with
  | Touch (TouchStart pos), _ =>
    match final_animation self with
    | None => (mkDetect (Some pos) (locked self) None (sw_moved self), ctx, None)
    | Some _ => eval_anim_frame self ctx
    end
  | Touch (TouchMove pos), Some origin =>
    match final_animation self with
    | None => let '(self, res) := detect_move self config (point_sub pos origin) in (self, ctx, res)
    | Some _ => eval_anim_frame self ctx
    end
  | Touch (TouchEnd pos), Some origin =>
    match final_animation self with
    | None => let '(self, ctx) := detect_end self ctx config (point_sub pos origin) in (self, ctx, None)
    | Some _ => eval_anim_frame self ctx
    end
  | Timer token, _ => if token =? ANIM_FRAME_TIMER then eval_anim_frame self ctx else (self, ctx, None)
  | _, _ => (self, ctx, None)
  end.
End Detect.

(** ** Screens of a flow *)

(* src: ui/flow/base.rs 4-8 (Swipable) *)
Class Swipable (T : Type) := {
  get_swipe_config : T → SwipeConfig;
  get_internal_page_count : T → Z
}.

(* src: ui/flow/base.rs 15-21 (FlowMsg) *)
Inductive FlowMsg := FlowConfirmed | FlowCancelled | FlowInfo | FlowChoice (i : Z).

#[export] Instance flow_msg_eq_dec : EqDecision FlowMsg.
Proof. solve_decision. Defined.

(* src: ui/flow/base.rs 24-36 (Decision) *)
Inductive Decision (Q : Type) :=
| DecisionNothing
| Goto (q : Q) (direction : SwipeDirection)
| Return (msg : FlowMsg).
Arguments DecisionNothing {Q}.
Arguments Goto {Q} q direction.
Arguments Return {Q} msg.

(* src: ui/flow/base.rs 38-45 (Decision::or_else) *)
Definition or_else {Q} (self : Decision Q) (func : unit → Decision Q) : Decision Q :=
  match self with DecisionNothing => func tt | _ => self end.

(** The index of a state is its place among the constructors. *)
(* src: ui/flow/base.rs 49-67 (FlowState) *)
Class FlowState (Q : Type) := {
  index : Q → Z;
  handle_swipe : Q → SwipeDirection → Decision Q;
  handle_event : Q → FlowMsg → Decision Q
}.

(* src: ui/flow/store.rs 21-49 (FlowStore) *)
Class FlowStore (S : Type) := {
  store_place : S → Rect → ui (S * Rect);
  store_event : S → Z → EventCtx → Event → ui (S * EventCtx * option FlowMsg);
  store_config : S → Z → SwipeConfig;
  store_pages : S → Z → ui Z
}.

(** There is no screen at any index. *)
(* src: ui/flow/store.rs 56-57 (FlowEmpty) *)
Inductive FlowEmpty := flow_store.

(* src: ui/flow/store.rs 60-100 (FlowStore for FlowEmpty) *)
#[export] Instance empty_store : FlowStore FlowEmpty := {
  store_place self bounds := Ok (self, bounds);
  store_event _ _ _ _ := Panic;
  store_config _ _ := config_new;
  store_pages _ _ := Ok 1
}.

(** The screens are owned by the store, on the heap of MicroPython. *)
(* src: ui/flow/store.rs 102-108 (FlowComponent2) *)
Record FlowComponent2 (E P : Type) := mkFlow { elem : E; next : P }.
Arguments mkFlow {E P} elem next.
Arguments elem {E P} f.
Arguments next {E P} f.

(** [map_swipable]: the page count of the last, empty store is not reached
    this way. *)
Class MapSwipable (S : Type) := { map_page_counts : S → Z → ui Z }.
#[export] Instance empty_map : MapSwipable FlowEmpty := { map_page_counts _ _ := Panic }.
#[export] Instance component_map {E P} `{Swipable E} `{MapSwipable P} : MapSwipable (FlowComponent2 E P) := {
  map_page_counts self i := if i =? 0 then Ok (get_internal_page_count (elem self)) else map_page_counts (next self) (i - 1)
}.

(* src: ui/flow/store.rs 122-190 (FlowStore for FlowComponent2) *)
#[export] Instance component_store {E P} `{Component E FlowMsg} `{Swipable E} `{FlowStore P} `{MapSwipable P}
    : FlowStore (FlowComponent2 E P) := {
  store_place self bounds :=
    '(e, _) ← place (elem self) bounds;
    '(n, _) ← store_place (next self) bounds;
    Ok (mkFlow e n, bounds);
  store_event self i ctx ev :=
    if i =? 0 then
      '(e, ctx, msg) ← event (elem self) ctx ev; Ok (mkFlow e (next self), ctx, msg)
    else
      '(n, ctx, msg) ← store_event (next self) (i - 1) ctx ev; Ok (mkFlow (elem self) n, ctx, msg);
  store_config self i := if i =? 0 then get_swipe_config (elem self) else store_config (next self) (i - 1);
  store_pages self i := map_page_counts self i
}.

(** ** Pages of a screen *)

(* src: ui/flow/page.rs 10-16 (SwipePage) *)
Record SwipePage (T : Type) := mkSwipePage {
  sp_inner : T;
  sp_bounds : Rect;
  sp_axis : Axis;
  sp_pages : Z;
  sp_current : Z
}.
Arguments mkSwipePage {T} sp_inner sp_bounds sp_axis sp_pages sp_current.
Arguments sp_inner {T} s.
Arguments sp_bounds {T} s.
Arguments sp_axis {T} s.
Arguments sp_pages {T} s.
Arguments sp_current {T} s.

Section SwipePage.
Context {T Msg : Type} `{Component T Msg} `{Paginate T}.
Implicit Types self : SwipePage T.

(* src: ui/flow/page.rs 19-27 (SwipePage::vertical) *)
Definition page_vertical (inner : T) : SwipePage T := mkSwipePage inner rect_zero Vertical 1 0.
(* src: ui/flow/page.rs 29-37 (SwipePage::horizontal) *)
Definition page_horizontal (inner : T) : SwipePage T := mkSwipePage inner rect_zero Horizontal 1 0.

(** A page on, or back, within the pages that there are. *)
(* src: ui/flow/page.rs 55-58 (SwipePage::event) *)
Definition turn_page self (ctx : EventCtx) (current : Z) : ui (SwipePage T * EventCtx) :=
  inner ← content_change_page (sp_inner self) current;
  Ok (mkSwipePage inner (sp_bounds self) (sp_axis self) (sp_pages self) current, request_paint ctx).

(* src: ui/flow/page.rs 49-79 (SwipePage::event) *)
Definition swipe_page_event self (ctx : EventCtx) (ev : Event) : ui (SwipePage T * EventCtx * option Msg) :=
  let ctx := set_page_count ctx (sp_pages self) in
  let on := Z.min (wrapu usize_bits (sp_current self + 1)) (wrapu usize_bits (sp_pages self - 1)) in
  let back := Z.max 0 (sp_current self - 1) in
  '(self, ctx) ← (match ev with
                  | Swipe_ (EndSwipe direction) =>
                    match sp_axis self, direction with
                    | Vertical, SwipeUp | Horizontal, SwipeLeft => turn_page self ctx on
                    | Vertical, SwipeDown | Horizontal, SwipeRight => turn_page self ctx back
                    | _, _ => Ok (self, ctx)
                    end
                  | _ => Ok (self, ctx)
                  end);
  '(inner, ctx, msg) ← event (sp_inner self) ctx ev;
  Ok (mkSwipePage inner (sp_bounds self) (sp_axis self) (sp_pages self) (sp_current self), ctx, msg).

(* src: ui/flow/page.rs 43-47 (SwipePage::place) *)
Definition swipe_page_place self (bounds : Rect) : ui (SwipePage T * Rect) :=
  '(inner, r) ← place (sp_inner self) bounds;
  '(inner, pages) ← content_page_count inner;
  Ok (mkSwipePage inner r (sp_axis self) pages (sp_current self), r).

#[export] Instance swipe_page_component : Component (SwipePage T) Msg := {
  place := swipe_page_place;
  event := swipe_page_event
}.
End SwipePage.

(** ** The flow *)

(* src: ui/flow/swipe.rs 22-38 (SwipeFlow) *)
Record SwipeFlow (Q S : Type) := mkSwipeFlow {
  fl_state : Q;
  fl_store : S;
  fl_swipe : SwipeDetect;
  allow_swipe : bool;
  internal_state : Z;
  internal_pages : Z;
  decision_override : option (Decision Q)
}.
Arguments mkSwipeFlow {Q S} fl_state fl_store fl_swipe allow_swipe internal_state internal_pages decision_override.
Arguments fl_state {Q S} s.
Arguments fl_store {Q S} s.
Arguments fl_swipe {Q S} s.
Arguments allow_swipe {Q S} s.
Arguments internal_state {Q S} s.
Arguments internal_pages {Q S} s.
Arguments decision_override {Q S} s.

Section SwipeFlow.
Context {Q S : Type} `{FlowState Q} `{FlowStore S} `{Screen} `{Clock}.
Implicit Types self : SwipeFlow Q S.

(* src: ui/flow/swipe.rs 41-51 (SwipeFlow::new) *)
Definition flow_new (init : Q) (store : S) : SwipeFlow Q S := mkSwipeFlow init store detect_new true 0 1 None.

Definition set_fl_store self (s : S) : SwipeFlow Q S :=
  mkSwipeFlow (fl_state self) s (fl_swipe self) (allow_swipe self) (internal_state self) (internal_pages self)
    (decision_override self).
Definition set_fl_swipe self (d : SwipeDetect) (allow : bool) : SwipeFlow Q S :=
  mkSwipeFlow (fl_state self) (fl_store self) d allow (internal_state self) (internal_pages self) (decision_override self).
Definition set_fl_page self (i n : Z) : SwipeFlow Q S :=
  mkSwipeFlow (fl_state self) (fl_store self) (fl_swipe self) (allow_swipe self) i n (decision_override self).
Definition set_override self (d : option (Decision Q)) : SwipeFlow Q S :=
  mkSwipeFlow (fl_state self) (fl_store self) (fl_swipe self) (allow_swipe self) (internal_state self)
    (internal_pages self) d.

(* src: ui/flow/swipe.rs 52-76 (SwipeFlow::goto) *)
Definition flow_goto self (ctx : EventCtx) (direction : SwipeDirection) (state : Q) : ui (SwipeFlow Q S * EventCtx) :=
  '(store, ctx, _) ← store_event (fl_store self) (index state) ctx (Attach (AttachSwipe direction));
  pages ← store_pages store (index state);
  let pages := wrapu 16 pages in
  let i := match direction with SwipeUp => 0 | SwipeDown => Z.max 0 (pages - 1) | _ => internal_state self end in
  Ok (mkSwipeFlow state store detect_new true i pages (decision_override self), request_paint ctx).

(** Swipes to the pages before and after the one that is shown. *)
(* src: ui/flow/swipe.rs 119-133 (SwipeFlow::event) *)
Definition page_swipes (config : SwipeConfig) (i pages : Z) : SwipeConfig :=
  let last := wrapu 16 (pages - 1) in
  let config := if vertical_pages config && (0 <? i) then with_swipe config SwipeDown settings_default else config in
  let config := if horizontal_pages config && (0 <? i) then with_swipe config SwipeRight settings_default else config in
  let config := if vertical_pages config && (i <? last) then with_swipe config SwipeUp settings_default else config in
  if horizontal_pages config && (i <? last) then with_swipe config SwipeLeft settings_default else config.

(** The page that a swipe leads to, if it stays on the screen. *)
(* src: ui/flow/swipe.rs 145-171 (SwipeFlow::event) *)
Definition turned_page (config : SwipeConfig) (dir : SwipeDirection) (i pages : Z) : option Z :=
  if negb (0 <? pages) then None else
  match dir with
  | SwipeLeft => if horizontal_pages config && (i <? pages - 1) then Some (i + 1) else None
  | SwipeRight => if horizontal_pages config && (0 <? i) then Some (i - 1) else None
  | SwipeUp => if vertical_pages config && (i <? pages - 1) then Some (i + 1) else None
  | SwipeDown => if vertical_pages config && (0 <? i) then Some (i - 1) else None
  end.

(** A swipe that was made: the decision that waits for it or that of the state,
    unless it turns a page. *)
(* src: ui/flow/swipe.rs 136-174 (SwipeFlow::event) *)
Definition swipe_made self (dir : SwipeDirection) (config : SwipeConfig) : SwipeFlow Q S * Decision Q * bool :=
  let decision := default (handle_swipe (fl_state self) dir) (decision_override self) in
  let self := set_override self None in
  match turned_page config dir (internal_state self) (internal_pages self) with
  | Some i => (set_fl_page self i (internal_pages self), DecisionNothing, true)
  | None => (self, decision, false)
  end.

(** What the detector makes of an event: the event for the screen, the decision,
    whether a page is turned, and the transition. *)
(* src: ui/flow/swipe.rs 114-183 (SwipeFlow::event) *)
Definition flow_detect self (ctx : EventCtx) (ev : Event)
    : ui (SwipeFlow Q S * EventCtx * (Event * Decision Q * bool * AttachType)) :=
  if negb (allow_swipe self) then Ok (self, ctx, (ev, DecisionNothing, false, Initial)) else
  pages ← store_pages (fl_store self) (index (fl_state self));
  let self := set_fl_page self (internal_state self) (wrapu 16 pages) in
  let config := page_swipes (store_config (fl_store self) (index (fl_state self))) (internal_state self) (internal_pages self) in
  let '(swipe, ctx, msg) := detect_event (fl_swipe self) ctx ev config in
  let self := set_fl_swipe self swipe (allow_swipe self) in
  Ok match msg with
     | Some (SwipeTrigger dir) =>
       let '(self, decision, attach) := swipe_made self dir config in
       (self, ctx, (Swipe_ (EndSwipe dir), decision, attach, AttachSwipe dir))
     | Some (SwipeMove dir progress) =>
       (self, ctx, (Swipe_ (MoveSwipe dir (wraps 16 progress)), DecisionNothing, false, Initial))
     | Some (SwipeStart _) => (self, ctx, (Touch TouchAbort, DecisionNothing, false, Initial))
     | None => (self, ctx, (ev, DecisionNothing, false, Initial))
     end.

(** The requests of the screen to allow swipes or not. *)
(* src: ui/flow/swipe.rs 202-209 (SwipeFlow::event) *)
Definition swipe_requests self (ctx : EventCtx) : SwipeFlow Q S :=
  let self := if swipe_disable_req ctx then set_fl_swipe self (detect_reset (fl_swipe self)) false else self in
  if swipe_enable_req ctx then set_fl_swipe self (detect_reset (fl_swipe self)) true else self.

(** An event for the screen, with the decision on its answer: to go to a state
    waits for the animation. *)
(* src: ui/flow/swipe.rs 90-98 (SwipeFlow::handle_event_child) *)
Definition handle_event_child self (ctx : EventCtx) (ev : Event) : ui (SwipeFlow Q S * EventCtx * Decision Q) :=
  '(store, ctx, msg) ← store_event (fl_store self) (index (fl_state self)) ctx ev;
  Ok (set_fl_store self store, ctx, match msg with Some m => handle_event (fl_state self) m | None => DecisionNothing end).

(* src: ui/flow/swipe.rs 187-223 (SwipeFlow::event) *)
Definition flow_child self (ctx : EventCtx) (e : Event) (attach : bool) : ui (SwipeFlow Q S * EventCtx * Decision Q) :=
  '(self, ctx, decision) ← handle_event_child self ctx e;
  '(self, ctx) ← (match attach, e with
                  | true, Swipe_ (EndSwipe dir) =>
                    '(store, ctx, _) ← store_event (fl_store self) (index (fl_state self)) ctx (Attach (AttachSwipe dir));
                    Ok (set_fl_store self store, ctx)
                  | _, _ => Ok (self, ctx)
                  end);
  let self := swipe_requests self ctx in
  let config := store_config (fl_store self) (index (fl_state self)) in
  match decision with
  | Goto _ direction =>
    if is_allowed config direction then
      let '(swipe, ctx) := detect_trigger (fl_swipe self) ctx direction config in
      Ok (set_override (set_fl_swipe self swipe true) (Some decision), ctx, DecisionNothing)
    else Ok (self, ctx, decision)
  | _ => Ok (self, ctx, decision)
  end.

(* src: ui/flow/swipe.rs 108-244 (SwipeFlow::event) *)
Definition flow_event self (ctx : EventCtx) (ev : Event) : ui (SwipeFlow Q S * EventCtx * option FlowMsg) :=
  '(self, ctx, (e, decision, attach, return_transition)) ← flow_detect self ctx ev;
  '(self, ctx, decision) ← (match decision with
                            | DecisionNothing => flow_child self ctx e attach
                            | _ =>
                              '(store, ctx, _) ← store_event (fl_store self) (index (fl_state self)) ctx ev;
                              Ok (set_fl_store self store, ctx, decision)
                            end);
  match decision with
  | Goto next_state direction => '(self, ctx) ← flow_goto self ctx direction next_state; Ok (self, ctx, None)
  | Return msg =>
    Ok (set_fl_swipe self (detect_reset (fl_swipe self)) true, set_transition_out ctx return_transition, Some msg)
  | DecisionNothing => Ok (self, ctx, None)
  end.

(* src: ui/flow/swipe.rs 104-106 (SwipeFlow::place) *)
Definition flow_place self (bounds : Rect) : ui (SwipeFlow Q S * Rect) :=
  '(store, r) ← store_place (fl_store self) bounds; Ok (set_fl_store self store, r).

#[export] Instance flow_component : Component (SwipeFlow Q S) FlowMsg := {
  place := flow_place;
  event := flow_event
}.
End SwipeFlow.
