(* ===== verification/MercuryFlows.v ===== *)
(** * The flows of the model mercury

    [ui/model_mercury/flow/]: the screens of each flow and what a swipe on one,
    or a message from one, leads to.  The screens themselves are the store of the
    flow. *)
From S2P Require Import Prelude Component Flow.
Local Open Scope Z_scope.

(** ** [confirm_action.rs] ([ConfirmAction]) *)

(* src: ui/model_mercury/flow/confirm_action.rs 21-25 (ConfirmAction) *)
Inductive ConfirmAction := CA_Intro | CA_Menu | CA_Confirm.

(* src: ui/model_mercury/flow/confirm_action.rs 36-55 (ConfirmAction::handle_swipe) *)
Definition confirm_action_swipe (self : ConfirmAction) (direction : SwipeDirection) : Decision ConfirmAction :=
  match self, direction with
  | CA_Intro, SwipeLeft => Goto CA_Menu direction
  | CA_Menu, SwipeRight => Goto CA_Intro direction
  | CA_Intro, SwipeUp => Goto CA_Confirm direction
  | CA_Confirm, SwipeDown => Goto CA_Intro direction
  | CA_Confirm, SwipeLeft => Goto CA_Menu direction
  | _, _ => DecisionNothing
  end.

(* src: ui/model_mercury/flow/confirm_action.rs 57-73 (ConfirmAction::handle_event) *)
Definition confirm_action_event (self : ConfirmAction) (msg : FlowMsg) : Decision ConfirmAction :=
  match self, msg with
  | CA_Intro, FlowInfo => Goto CA_Menu SwipeLeft
  | CA_Menu, FlowCancelled => Goto CA_Intro SwipeRight
  | CA_Menu, FlowChoice 0 => Return FlowCancelled
  | CA_Menu, FlowChoice 1 => Return FlowInfo
  | CA_Confirm, FlowConfirmed => Return FlowConfirmed
  | CA_Confirm, FlowInfo => Goto CA_Menu SwipeLeft
  | _, _ => DecisionNothing
  end.

#[export] Instance confirm_action_flow : FlowState ConfirmAction := {
  index self := match self with CA_Intro => 0 | CA_Menu => 1 | CA_Confirm => 2 end;
  handle_swipe := confirm_action_swipe;
  handle_event := confirm_action_event
}.

(** ** [confirm_action.rs] ([ConfirmActionSimple]) *)

(* src: ui/model_mercury/flow/confirm_action.rs 30-33 (ConfirmActionSimple) *)
Inductive ConfirmActionSimple := CS_Intro | CS_Menu.

(* src: ui/model_mercury/flow/confirm_action.rs 77-90 (ConfirmActionSimple::handle_swipe) *)
Definition confirm_action_simple_swipe (self : ConfirmActionSimple) (direction : SwipeDirection) : Decision ConfirmActionSimple :=
  match self, direction with
  | CS_Intro, SwipeLeft => Goto CS_Menu direction
  | CS_Menu, SwipeRight => Goto CS_Intro direction
  | CS_Intro, SwipeUp => Return FlowConfirmed
  | _, _ => DecisionNothing
  end.

(* src: ui/model_mercury/flow/confirm_action.rs 92-104 (ConfirmActionSimple::handle_event) *)
Definition confirm_action_simple_event (self : ConfirmActionSimple) (msg : FlowMsg) : Decision ConfirmActionSimple :=
  match self, msg with
  | CS_Intro, FlowInfo => Goto CS_Menu SwipeLeft
  | CS_Menu, FlowCancelled => Goto CS_Intro SwipeRight
  | CS_Menu, FlowChoice 0 => Return FlowCancelled
  | CS_Menu, FlowChoice 1 => Return FlowInfo
  | _, _ => DecisionNothing
  end.

#[export] Instance confirm_action_simple_flow : FlowState ConfirmActionSimple := {
  index self := match self with CS_Intro => 0 | CS_Menu => 1 end;
  handle_swipe := confirm_action_simple_swipe;
  handle_event := confirm_action_simple_event
}.

(** ** [confirm_output.rs] *)

(* src: ui/model_mercury/flow/confirm_output.rs 23-30 (ConfirmOutput) *)
Inductive ConfirmOutput := CO_Address | CO_Amount | CO_Menu | CO_AccountInfo | CO_CancelTap.

(* src: ui/model_mercury/flow/confirm_output.rs 33-56 (ConfirmOutput::handle_swipe) *)
Definition confirm_output_swipe (self : ConfirmOutput) (direction : SwipeDirection) : Decision ConfirmOutput :=
  match self, direction with
  | (CO_Address | CO_Amount), SwipeLeft => Goto CO_Menu direction
  | CO_Address, SwipeUp => Goto CO_Amount direction
  | CO_Amount, SwipeUp => Return FlowConfirmed
  | CO_Amount, SwipeDown => Goto CO_Address direction
  | CO_Menu, SwipeRight => Goto CO_Address direction
  | CO_Menu, SwipeLeft => Goto CO_AccountInfo direction
  | (CO_AccountInfo | CO_CancelTap), SwipeRight => Goto CO_Menu direction
  | _, _ => DecisionNothing
  end.

(* src: ui/model_mercury/flow/confirm_output.rs 58-74 (ConfirmOutput::handle_event) *)
Definition confirm_output_event (self : ConfirmOutput) (msg : FlowMsg) : Decision ConfirmOutput :=
  match self, msg with
  | _, FlowInfo => Goto CO_Menu SwipeLeft
  | CO_Menu, FlowChoice 0 => Goto CO_AccountInfo SwipeLeft
  | CO_Menu, FlowChoice 1 => Goto CO_CancelTap SwipeLeft
  | CO_Menu, FlowCancelled => Goto CO_Address SwipeRight
  | CO_CancelTap, FlowConfirmed => Return FlowCancelled
  | _, FlowCancelled => Goto CO_Menu SwipeRight
  | _, _ => DecisionNothing
  end.

#[export] Instance confirm_output_flow : FlowState ConfirmOutput := {
  index self := match self with CO_Address => 0 | CO_Amount => 1 | CO_Menu => 2 | CO_AccountInfo => 3 | CO_CancelTap => 4 end;
  handle_swipe := confirm_output_swipe;
  handle_event := confirm_output_event
}.

(** ** [confirm_reset_create.rs] *)

(* src: ui/model_mercury/flow/confirm_reset_create.rs 25-29 (ConfirmResetCreate) *)
Inductive ConfirmResetCreate := RC_Intro | RC_Menu | RC_Confirm.

(* src: ui/model_mercury/flow/confirm_reset_create.rs 32-51 (ConfirmResetCreate::handle_swipe) *)
Definition confirm_reset_create_swipe (self : ConfirmResetCreate) (direction : SwipeDirection) : Decision ConfirmResetCreate :=
  match self, direction with
  | RC_Intro, SwipeLeft => Goto RC_Menu direction
  | RC_Intro, SwipeUp => Goto RC_Confirm direction
  | RC_Menu, SwipeRight => Goto RC_Intro direction
  | RC_Confirm, SwipeDown => Goto RC_Intro direction
  | RC_Confirm, SwipeLeft => Goto RC_Menu direction
  | _, _ => DecisionNothing
  end.

(* src: ui/model_mercury/flow/confirm_reset_create.rs 53-70 (ConfirmResetCreate::handle_event) *)
Definition confirm_reset_create_event (self : ConfirmResetCreate) (msg : FlowMsg) : Decision ConfirmResetCreate :=
  match self, msg with
  | RC_Intro, FlowInfo => Goto RC_Menu SwipeLeft
  | RC_Menu, FlowCancelled => Goto RC_Intro SwipeRight
  | RC_Menu, FlowChoice 0 => Return FlowCancelled
  | RC_Confirm, FlowConfirmed => Return FlowConfirmed
  | RC_Confirm, FlowInfo => Goto RC_Menu SwipeLeft
  | _, _ => DecisionNothing
  end.

#[export] Instance confirm_reset_create_flow : FlowState ConfirmResetCreate := {
  index self := match self with RC_Intro => 0 | RC_Menu => 1 | RC_Confirm => 2 end;
  handle_swipe := confirm_reset_create_swipe;
  handle_event := confirm_reset_create_event
}.

(** ** [confirm_reset_recover.rs] *)

(* src: ui/model_mercury/flow/confirm_reset_recover.rs 20-23 (ConfirmResetRecover) *)
Inductive ConfirmResetRecover := RR_Intro | RR_Menu.

(* src: ui/model_mercury/flow/confirm_reset_recover.rs 26-39 (ConfirmResetRecover::handle_swipe) *)
Definition confirm_reset_recover_swipe (self : ConfirmResetRecover) (direction : SwipeDirection) : Decision ConfirmResetRecover :=
  match self, direction with
  | RR_Intro, SwipeLeft => Goto RR_Menu direction
  | RR_Menu, SwipeRight => Goto RR_Intro direction
  | RR_Intro, SwipeUp => Return FlowConfirmed
  | _, _ => DecisionNothing
  end.

(* src: ui/model_mercury/flow/confirm_reset_recover.rs 41-52 (ConfirmResetRecover::handle_event) *)
Definition confirm_reset_recover_event (self : ConfirmResetRecover) (msg : FlowMsg) : Decision ConfirmResetRecover :=
  match self, msg with
  | RR_Intro, FlowInfo => Goto RR_Menu SwipeLeft
  | RR_Menu, FlowCancelled => Goto RR_Intro SwipeRight
  | RR_Menu, FlowChoice 0 => Return FlowCancelled
  | _, _ => DecisionNothing
  end.

#[export] Instance confirm_reset_recover_flow : FlowState ConfirmResetRecover := {
  index self := match self with RR_Intro => 0 | RR_Menu => 1 end;
  handle_swipe := confirm_reset_recover_swipe;
  handle_event := confirm_reset_recover_event
}.

(** ** [confirm_set_new_pin.rs] *)

(* src: ui/model_mercury/flow/confirm_set_new_pin.rs 23-28 (SetNewPin) *)
Inductive SetNewPin := NP_Intro | NP_Menu | NP_CancelPinIntro | NP_CancelPinConfirm.

(* src: ui/model_mercury/flow/confirm_set_new_pin.rs 31-51 (SetNewPin::handle_swipe) *)
Definition set_new_pin_swipe (self : SetNewPin) (direction : SwipeDirection) : Decision SetNewPin :=
  match self, direction with
  | NP_Intro, SwipeLeft => Goto NP_Menu direction
  | NP_Intro, SwipeUp => Return FlowConfirmed
  | NP_Menu, SwipeRight => Goto NP_Intro direction
  | NP_CancelPinIntro, SwipeUp => Goto NP_CancelPinConfirm direction
  | NP_CancelPinIntro, SwipeRight => Goto NP_Intro direction
  | NP_CancelPinConfirm, SwipeDown => Goto NP_CancelPinIntro direction
  | NP_CancelPinConfirm, SwipeRight => Goto NP_Intro direction
  | _, _ => DecisionNothing
  end.

(* src: ui/model_mercury/flow/confirm_set_new_pin.rs 53-75 (SetNewPin::handle_event) *)
Definition set_new_pin_event (self : SetNewPin) (msg : FlowMsg) : Decision SetNewPin :=
  match self, msg with
  | NP_Intro, FlowInfo => Goto NP_Menu SwipeLeft
  | NP_Menu, FlowChoice 0 => Goto NP_CancelPinIntro SwipeLeft
  | NP_Menu, FlowCancelled => Goto NP_Intro SwipeRight
  | NP_CancelPinIntro, FlowCancelled => Goto NP_Intro SwipeRight
  | NP_CancelPinConfirm, FlowCancelled => Goto NP_CancelPinIntro SwipeRight
  | NP_CancelPinConfirm, FlowConfirmed => Return FlowCancelled
  | _, _ => DecisionNothing
  end.

#[export] Instance set_new_pin_flow : FlowState SetNewPin := {
  index self := match self with NP_Intro => 0 | NP_Menu => 1 | NP_CancelPinIntro => 2 | NP_CancelPinConfirm => 3 end;
  handle_swipe := set_new_pin_swipe;
  handle_event := set_new_pin_event
}.

(** ** [confirm_summary.rs] *)

(* src: ui/model_mercury/flow/confirm_summary.rs 21-28 (ConfirmSummary) *)
Inductive ConfirmSummary := SU_Summary | SU_Hold | SU_Menu | SU_FeeInfo | SU_AccountInfo | SU_CancelTap.

(* src: ui/model_mercury/flow/confirm_summary.rs 31-54 (ConfirmSummary::handle_swipe) *)
Definition confirm_summary_swipe (self : ConfirmSummary) (direction : SwipeDirection) : Decision ConfirmSummary :=
  match self, direction with
  | (SU_Summary | SU_Hold), SwipeLeft => Goto SU_Menu direction
  | SU_Summary, SwipeUp => Goto SU_Hold direction
  | SU_Hold, SwipeDown => Goto SU_Summary direction
  | SU_Menu, SwipeRight => Goto SU_Summary direction
  | SU_Menu, SwipeLeft => Goto SU_FeeInfo direction
  | (SU_AccountInfo | SU_FeeInfo | SU_CancelTap), SwipeRight => Goto SU_Menu direction
  | _, _ => DecisionNothing
  end.

(* src: ui/model_mercury/flow/confirm_summary.rs 56-76 (ConfirmSummary::handle_event) *)
Definition confirm_summary_event (self : ConfirmSummary) (msg : FlowMsg) : Decision ConfirmSummary :=
  match self, msg with
  | _, FlowInfo => Goto SU_Menu SwipeLeft
  | SU_Hold, FlowConfirmed => Return FlowConfirmed
  | SU_Menu, FlowChoice 0 => Goto SU_FeeInfo SwipeLeft
  | SU_Menu, FlowChoice 1 => Goto SU_AccountInfo SwipeLeft
  | SU_Menu, FlowChoice 2 => Goto SU_CancelTap SwipeLeft
  | SU_Menu, FlowCancelled => Goto SU_Summary SwipeRight
  | SU_CancelTap, FlowConfirmed => Return FlowCancelled
  | _, FlowCancelled => Goto SU_Menu SwipeRight
  | _, _ => DecisionNothing
  end.

#[export] Instance confirm_summary_flow : FlowState ConfirmSummary := {
  index self := match self with SU_Summary => 0 | SU_Hold => 1 | SU_Menu => 2 | SU_FeeInfo => 3 | SU_AccountInfo => 4 | SU_CancelTap => 5 end;
  handle_swipe := confirm_summary_swipe;
  handle_event := confirm_summary_event
}.

(** ** [get_address.rs] *)

(* src: ui/model_mercury/flow/get_address.rs 28-37 (GetAddress) *)
Inductive GetAddress := GA_Address | GA_Tap | GA_Confirmed | GA_Menu | GA_QrCode | GA_AccountInfo | GA_Cancel | GA_CancelTap.

(* src: ui/model_mercury/flow/get_address.rs 40-73 (GetAddress::handle_swipe) *)
Definition get_address_swipe (self : GetAddress) (direction : SwipeDirection) : Decision GetAddress :=
  match self, direction with
  | GA_Address, SwipeLeft => Goto GA_Menu direction
  | GA_Address, SwipeUp => Goto GA_Tap direction
  | GA_Tap, SwipeDown => Goto GA_Address direction
  | GA_Tap, SwipeLeft => Goto GA_Menu direction
  | GA_Menu, SwipeRight => Goto GA_Address direction
  | GA_QrCode, SwipeRight => Goto GA_Menu direction
  | GA_AccountInfo, SwipeRight => Goto GA_Menu SwipeRight
  | GA_Cancel, SwipeUp => Goto GA_CancelTap direction
  | GA_Cancel, SwipeRight => Goto GA_Menu direction
  | GA_CancelTap, SwipeDown => Goto GA_Cancel direction
  | GA_CancelTap, SwipeRight => Goto GA_Menu direction
  | _, _ => DecisionNothing
  end.

(* src: ui/model_mercury/flow/get_address.rs 75-127 (GetAddress::handle_event) *)
Definition get_address_event (self : GetAddress) (msg : FlowMsg) : Decision GetAddress :=
  match self, msg with
  | GA_Address, FlowInfo => Goto GA_Menu SwipeLeft
  | GA_Tap, FlowConfirmed => Goto GA_Confirmed SwipeUp
  | GA_Tap, FlowInfo => Goto GA_Menu SwipeLeft
  | GA_Confirmed, _ => Return FlowConfirmed
  | GA_Menu, FlowChoice 0 => Goto GA_QrCode SwipeLeft
  | GA_Menu, FlowChoice 1 => Goto GA_AccountInfo SwipeLeft
  | GA_Menu, FlowChoice 2 => Goto GA_Cancel SwipeLeft
  | GA_Menu, FlowCancelled => Goto GA_Address SwipeRight
  | GA_QrCode, FlowCancelled => Goto GA_Menu SwipeRight
  | GA_AccountInfo, FlowCancelled => Goto GA_Menu SwipeRight
  | GA_Cancel, FlowCancelled => Goto GA_Menu SwipeRight
  | GA_CancelTap, FlowConfirmed => Return FlowCancelled
  | GA_CancelTap, FlowCancelled => Goto GA_Menu SwipeRight
  | _, _ => DecisionNothing
  end.

#[export] Instance get_address_flow : FlowState GetAddress := {
  index self := match self with GA_Address => 0 | GA_Tap => 1 | GA_Confirmed => 2 | GA_Menu => 3 | GA_QrCode => 4 | GA_AccountInfo => 5 | GA_Cancel => 6 | GA_CancelTap => 7 end;
  handle_swipe := get_address_swipe;
  handle_event := get_address_event
}.

(** ** [prompt_backup.rs] *)

(* src: ui/model_mercury/flow/prompt_backup.rs 22-27 (PromptBackup) *)
Inductive PromptBackup := PB_Intro | PB_Menu | PB_SkipBackupIntro | PB_SkipBackupConfirm.

(* src: ui/model_mercury/flow/prompt_backup.rs 30-55 (PromptBackup::handle_swipe) *)
Definition prompt_backup_swipe (self : PromptBackup) (direction : SwipeDirection) : Decision PromptBackup :=
  match self, direction with
  | PB_Intro, SwipeLeft => Goto PB_Menu direction
  | PB_Intro, SwipeUp => Return FlowConfirmed
  | PB_Menu, SwipeRight => Goto PB_Intro direction
  | PB_SkipBackupIntro, SwipeUp => Goto PB_SkipBackupConfirm direction
  | PB_SkipBackupIntro, SwipeRight => Goto PB_Intro direction
  | PB_SkipBackupConfirm, SwipeDown => Goto PB_SkipBackupIntro direction
  | PB_SkipBackupConfirm, SwipeRight => Goto PB_Intro direction
  | _, _ => DecisionNothing
  end.

(* src: ui/model_mercury/flow/prompt_backup.rs 57-79 (PromptBackup::handle_event) *)
Definition prompt_backup_event (self : PromptBackup) (msg : FlowMsg) : Decision PromptBackup :=
  match self, msg with
  | PB_Intro, FlowInfo => Goto PB_Menu SwipeLeft
  | PB_Menu, FlowChoice 0 => Goto PB_SkipBackupIntro SwipeLeft
  | PB_Menu, FlowCancelled => Goto PB_Intro SwipeRight
  | PB_SkipBackupIntro, FlowCancelled => Goto PB_Menu SwipeRight
  | PB_SkipBackupConfirm, FlowCancelled => Goto PB_SkipBackupIntro SwipeRight
  | PB_SkipBackupConfirm, FlowConfirmed => Return FlowCancelled
  | _, _ => DecisionNothing
  end.

#[export] Instance prompt_backup_flow : FlowState PromptBackup := {
  index self := match self with PB_Intro => 0 | PB_Menu => 1 | PB_SkipBackupIntro => 2 | PB_SkipBackupConfirm => 3 end;
  handle_swipe := prompt_backup_swipe;
  handle_event := prompt_backup_event
}.

(** ** [request_number.rs] *)

(* src: ui/model_mercury/flow/request_number.rs 25-29 (RequestNumber) *)
Inductive RequestNumber := RN_Number | RN_Menu | RN_Info.

(* src: ui/model_mercury/flow/request_number.rs 32-45 (RequestNumber::handle_swipe) *)
Definition request_number_swipe (self : RequestNumber) (direction : SwipeDirection) : Decision RequestNumber :=
  match self, direction with
  | RN_Number, SwipeLeft => Goto RN_Menu direction
  | RN_Menu, SwipeRight => Goto RN_Number direction
  | RN_Info, SwipeRight => Goto RN_Menu direction
  | _, _ => DecisionNothing
  end.

(* src: ui/model_mercury/flow/request_number.rs 47-64 (RequestNumber::handle_event) *)
Definition request_number_event (self : RequestNumber) (msg : FlowMsg) : Decision RequestNumber :=
  match self, msg with
  | RN_Number, FlowInfo => Goto RN_Menu SwipeLeft
  | RN_Menu, FlowChoice 0 => Goto RN_Info SwipeLeft
  | RN_Menu, FlowCancelled => Goto RN_Number SwipeRight
  | RN_Info, FlowCancelled => Goto RN_Menu SwipeRight
  | RN_Number, FlowChoice n => Return (FlowChoice n)
  | _, _ => DecisionNothing
  end.

#[export] Instance request_number_flow : FlowState RequestNumber := {
  index self := match self with RN_Number => 0 | RN_Menu => 1 | RN_Info => 2 end;
  handle_swipe := request_number_swipe;
  handle_event := request_number_event
}.

(** ** [show_share_words.rs] *)

(* src: ui/model_mercury/flow/show_share_words.rs 26-31 (ShowShareWords) *)
Inductive ShowShareWords := SW_Instruction | SW_Words | SW_Confirm | SW_CheckBackupIntro.

(* src: ui/model_mercury/flow/show_share_words.rs 34-53 (ShowShareWords::handle_swipe) *)
Definition show_share_words_swipe (self : ShowShareWords) (direction : SwipeDirection) : Decision ShowShareWords :=
  match self, direction with
  | SW_Instruction, SwipeUp => Goto SW_Words direction
  | SW_Confirm, SwipeDown => Goto SW_Words direction
  | SW_Words, SwipeUp => Goto SW_Confirm direction
  | SW_Words, SwipeDown => Goto SW_Instruction direction
  | SW_CheckBackupIntro, SwipeUp => Return FlowConfirmed
  | _, _ => DecisionNothing
  end.

(* src: ui/model_mercury/flow/show_share_words.rs 55-68 (ShowShareWords::handle_event) *)
Definition show_share_words_event (self : ShowShareWords) (msg : FlowMsg) : Decision ShowShareWords :=
  match self, msg with
  | SW_Words, FlowCancelled => Goto SW_Instruction SwipeDown
  | SW_Words, FlowConfirmed => Goto SW_Confirm SwipeUp
  | SW_Confirm, FlowConfirmed => Goto SW_CheckBackupIntro SwipeUp
  | _, _ => DecisionNothing
  end.

#[export] Instance show_share_words_flow : FlowState ShowShareWords := {
  index self := match self with SW_Instruction => 0 | SW_Words => 1 | SW_Confirm => 2 | SW_CheckBackupIntro => 3 end;
  handle_swipe := show_share_words_swipe;
  handle_event := show_share_words_event
}.

(** ** [show_tutorial.rs] *)

(* src: ui/model_mercury/flow/show_tutorial.rs 22-32 (ShowTutorial) *)
Inductive ShowTutorial := TU_StepWelcome | TU_StepBegin | TU_StepNavigation | TU_StepMenu | TU_StepHold | TU_StepDone | TU_Menu | TU_DidYouKnow | TU_HoldToExit.

(* src: ui/model_mercury/flow/show_tutorial.rs 35-67 (ShowTutorial::handle_swipe) *)
Definition show_tutorial_swipe (self : ShowTutorial) (direction : SwipeDirection) : Decision ShowTutorial :=
  match self, direction with
  | TU_StepBegin, SwipeUp => Goto TU_StepNavigation direction
  | TU_StepNavigation, SwipeUp => Goto TU_StepMenu direction
  | TU_StepNavigation, SwipeDown => Goto TU_StepBegin direction
  | TU_StepMenu, SwipeUp => Goto TU_StepHold direction
  | TU_StepMenu, SwipeDown => Goto TU_StepNavigation direction
  | TU_StepMenu, SwipeLeft => Goto TU_Menu direction
  | TU_Menu, SwipeLeft => Goto TU_DidYouKnow direction
  | TU_Menu, SwipeRight => Goto TU_StepBegin direction
  | TU_DidYouKnow, SwipeRight => Goto TU_Menu direction
  | TU_StepDone, SwipeUp => Return FlowConfirmed
  | _, _ => DecisionNothing
  end.

(* src: ui/model_mercury/flow/show_tutorial.rs 69-100 (ShowTutorial::handle_event) *)
Definition show_tutorial_event (self : ShowTutorial) (msg : FlowMsg) : Decision ShowTutorial :=
  match self, msg with
  | TU_StepWelcome, FlowConfirmed => Goto TU_StepBegin SwipeUp
  | TU_StepMenu, FlowInfo => Goto TU_Menu SwipeLeft
  | TU_Menu, FlowChoice 0 => Goto TU_DidYouKnow SwipeLeft
  | TU_Menu, FlowChoice 1 => Goto TU_StepBegin SwipeRight
  | TU_Menu, FlowChoice 2 => Goto TU_HoldToExit SwipeUp
  | TU_Menu, FlowCancelled => Goto TU_StepMenu SwipeRight
  | TU_DidYouKnow, FlowCancelled => Goto TU_Menu SwipeRight
  | TU_StepHold, FlowConfirmed => Goto TU_StepDone SwipeUp
  | TU_HoldToExit, FlowConfirmed => Goto TU_StepDone SwipeUp
  | _, _ => DecisionNothing
  end.

#[export] Instance show_tutorial_flow : FlowState ShowTutorial := {
  index self := match self with TU_StepWelcome => 0 | TU_StepBegin => 1 | TU_StepNavigation => 2 | TU_StepMenu => 3 | TU_StepHold => 4 | TU_StepDone => 5 | TU_Menu => 6 | TU_DidYouKnow => 7 | TU_HoldToExit => 8 end;
  handle_swipe := show_tutorial_swipe;
  handle_event := show_tutorial_event
}.

(** ** [warning_hi_prio.rs] *)

(* src: ui/model_mercury/flow/warning_hi_prio.rs 21-25 (WarningHiPrio) *)
Inductive WarningHiPrio := WH_Message | WH_Menu | WH_Cancelled.

(* src: ui/model_mercury/flow/warning_hi_prio.rs 28-41 (WarningHiPrio::handle_swipe) *)
Definition warning_hi_prio_swipe (self : WarningHiPrio) (direction : SwipeDirection) : Decision WarningHiPrio :=
  match self, direction with
  | WH_Message, SwipeLeft => Goto WH_Menu direction
  | WH_Message, SwipeUp => Goto WH_Cancelled direction
  | WH_Menu, SwipeRight => Goto WH_Message direction
  | _, _ => DecisionNothing
  end.

(* src: ui/model_mercury/flow/warning_hi_prio.rs 43-58 (WarningHiPrio::handle_event) *)
Definition warning_hi_prio_event (self : WarningHiPrio) (msg : FlowMsg) : Decision WarningHiPrio :=
  match self, msg with
  | WH_Message, FlowInfo => Goto WH_Menu SwipeLeft
  | WH_Menu, FlowChoice 1 => Return FlowConfirmed
  | WH_Menu, FlowChoice _ => Goto WH_Cancelled SwipeUp
  | WH_Menu, FlowCancelled => Goto WH_Message SwipeRight
  | WH_Cancelled, _ => Return FlowCancelled
  | _, _ => DecisionNothing
  end.

#[export] Instance warning_hi_prio_flow : FlowState WarningHiPrio := {
  index self := match self with WH_Message => 0 | WH_Menu => 1 | WH_Cancelled => 2 end;
  handle_swipe := warning_hi_prio_swipe;
  handle_event := warning_hi_prio_event
}.
