(* ===== verification/FlowSpec.v ===== *)
(** * What flows answer

    A flow only answers what one of its decisions says, and the decisions come
    from swipes that were made on a screen and from messages of a screen.  So a
    flow with a screen to tap or hold confirms only after this screen did. *)
From S2P Require Import Prelude Time Geometry Component Flow MercuryFlows.
Local Open Scope Z_scope.

(** ** Events that are handled *)
Definition handles {A U} (m : ui (A * EventCtx * U)) (Q : A → U → Prop) : Prop :=
  ∀ a ctx u, m = Ok (a, ctx, u) → Q a u.

(** ** A record of the messages of the screens *)

(** A store that notes which screen sent what. *)
Record Logged (S : Type) := mkLogged { log_store : S; log : list (Z * FlowMsg) }.
Arguments mkLogged {S} log_store log.
Arguments log_store {S} l.
Arguments log {S} l.

#[export] Instance logged_store {S} `{FlowStore S} : FlowStore (Logged S) := {
  store_place self bounds := '(s, r) ← store_place (log_store self) bounds; Ok (mkLogged s (log self), r);
  store_event self i ctx ev :=
    '(s, ctx, msg) ← store_event (log_store self) i ctx ev;
    Ok (mkLogged s (match msg with Some m => (i, m) :: log self | None => log self end), ctx, msg);
  store_config self i := store_config (log_store self) i;
  store_pages self i := store_pages (log_store self) i
}.

(** A flow over a store without the record is the same. *)
Definition unlogged {Q S} (self : SwipeFlow Q (Logged S)) : SwipeFlow Q S :=
  mkSwipeFlow (fl_state self) (log_store (fl_store self)) (fl_swipe self) (allow_swipe self) (internal_state self)
    (internal_pages self) (decision_override self).

(** The events of a flow until it answers. *)
Fixpoint flow_run {Q S} `{FlowState Q} `{FlowStore S} `{Screen} (self : SwipeFlow Q S)
    (events : list (Instant * EventCtx * Event)) : ui (SwipeFlow Q S * option FlowMsg) :=
  match events with
  | [] => Ok (self, None)
  | (t, ctx, ev) :: events =>
    '(self, _, msg) ← flow_event (H2 := {| now := t |}) self ctx ev;
    match msg with Some m => Ok (self, Some m) | None => flow_run self events end
  end.

(** ** Decisions *)
Section Guarded.
Context {Q S : Type} `{FlowState Q} `{FlowStore S} `{Screen}.

(** The answer in question, the states from which it is given without more, and
    the messages that lead there. *)
Context (answer : FlowMsg) (past : Q → bool) (consent : Q → FlowMsg → bool).

(** A decision that does not lead there. *)
Definition harmless (d : Decision Q) : Prop :=
  match d with DecisionNothing => True | Goto q _ => past q = false | Return m => m ≠ answer end.

Record guarded : Prop := {
  guarded_swipe q dir : past q = false → harmless (handle_swipe q dir);
  guarded_event q m : past q = false → consent q m = false → harmless (handle_event q m)
}.

Context (Hg : guarded).
Implicit Types self : SwipeFlow Q (Logged S).

Definition logged self : list (Z * FlowMsg) := log (fl_store self).

Record still self : Prop := {
  still_state : past (fl_state self) = false;
  still_override : ∀ d, decision_override self = Some d → harmless d
}.

Definition consented self : Prop := ∃ q m, consent q m = true ∧ (index q, m) ∈ logged self.

(** The record grows. *)
Definition grows self self' : Prop := ∃ l, logged self' = l ++ logged self.

Lemma grows_refl self : grows self self.
Proof. by exists []. Qed.

Lemma grows_trans self1 self2 self3 : grows self1 self2 → grows self2 self3 → grows self1 self3.
Proof. intros [l1 E1] [l2 E2]. exists (l2 ++ l1). by rewrite E2, E1, app_assoc. Qed.

Lemma grows_consented self self' : grows self self' → consented self → consented self'.
Proof. intros [l Hl] (q & m & ? & ?). exists q, m. rewrite Hl, elem_of_app. auto. Qed.

Lemma store_event_grows s i ctx ev s' ctx' msg :
  store_event s i ctx ev = Ok (s', ctx', msg) →
  ∃ l, log s' = l ++ log s ∧ ∀ m, msg = Some m → (i, m) ∈ log s'.
Proof.
  cbn [store_event logged_store]. destruct (store_event (log_store s) i ctx ev) as [[[s1 ctx1] m]| | |]; [|done..].
  cbn [mbind outcome_bind]. intros [= <- <- <-]. destruct m as [m|].
  - exists [(i, m)]. split; [done|]. intros ? [= <-]. by left.
  - by exists [].
Qed.

Context `{Clock}.

Lemma detect_still self ctx ev : still self →
  handles (flow_detect self ctx ev) (λ self' r,
    still self' ∧ fl_state self' = fl_state self ∧ fl_store self' = fl_store self ∧ harmless (r.1.1.2)).
Proof.
  intros [Hs Ho] self' ctx' r. unfold flow_detect. destruct (negb (allow_swipe self)); [by intros [= <- <- <-]|].
  destruct (store_pages (fl_store self) (index (fl_state self))) as [pages| | |]; [|done..]. cbn [mbind outcome_bind].
  destruct (detect_event _ _ _ _) as [[swipe ctx1] msg]. destruct msg as [[dir|dir p|dir]|]; [by intros [= <- <- <-]..| |by intros [= <- <- <-]].
  unfold swipe_made. cbn [set_fl_swipe set_fl_page set_override fl_state decision_override internal_state internal_pages].
  assert (harmless (default (handle_swipe (fl_state self) dir) (decision_override self))) as Hd.
  { destruct (decision_override self) as [d|]; [by apply Ho|by apply (guarded_swipe Hg)]. }
  destruct (turned_page _ _ _ _); intros [= <- <- <-]; by repeat split.
Qed.

(** A step of the flow that leads no further without consent. *)
Definition careful self self' (Q' : Prop) : Prop := grows self self' ∧ (consented self' ∨ still self' ∧ Q').

Lemma child_event_careful self ctx ev : still self →
  handles (handle_event_child self ctx ev) (λ self' d, careful self self' (harmless d)).
Proof.
  intros [Hs Ho] self' ctx' d (((s & ctx1) & msg) & Hev & Heq)%bind_Ok. injection Heq as <- <- <-.
  destruct (store_event_grows _ _ _ _ _ _ _ Hev) as (l & Hl & Hm). split; [by exists l|].
  destruct msg as [m|]; [|by right].
  destruct (consent (fl_state self) m) eqn:Hc.
  - left. exists (fl_state self), m. split; [done|]. by apply Hm.
  - right. split; [done|]. by apply (guarded_event Hg).
Qed.

(** What neither changes the state nor the decision that waits. *)
Record same_course self self' : Prop := {
  course_state : fl_state self' = fl_state self;
  course_override : decision_override self' = decision_override self;
  course_grows : grows self self'
}.

Lemma same_course_still self self' : same_course self self' → still self → still self'.
Proof. intros [Hs Ho _] [Hp Hd]. split; [by rewrite Hs|by rewrite Ho]. Qed.

Lemma attach_course self ctx (attach : bool) e :
  ∀ self' ctx', (match attach, e with
    | true, Swipe_ (EndSwipe dir) =>
      '(store, ctx, _) ← store_event (fl_store self) (index (fl_state self)) ctx (Attach (AttachSwipe dir));
      Ok (set_fl_store self store, ctx)
    | _, _ => Ok (self, ctx)
    end : ui (SwipeFlow Q (Logged S) * EventCtx)) = Ok (self', ctx') → same_course self self'.
Proof.
  assert (same_course self self) as Hid by (split; [done|done|apply grows_refl]).
  intros self' ctx'. destruct attach; [|by intros [= <- <-]]. destruct e as [| | | | | | |[dir p|dir]]; try (by intros [= <- <-]).
  intros (((s & ctx1) & msg) & Hev & [= <- <-])%bind_Ok.
  destruct (store_event_grows _ _ _ _ _ _ _ Hev) as (l & Hl & _). split; [done|done|by exists l].
Qed.

Lemma requests_course self ctx : same_course self (swipe_requests self ctx).
Proof. unfold swipe_requests. destruct (swipe_disable_req ctx), (swipe_enable_req ctx); split; (done || by exists []). Qed.

Lemma child_careful self ctx e attach : still self →
  handles (flow_child self ctx e attach) (λ self' d, careful self self' (harmless d)).
Proof.
  intros Hst self' ctx' d (((self1 & ctx1) & d1) & Hev & Hrest)%bind_Ok.
  destruct (child_event_careful self ctx e Hst _ _ _ Hev) as [Hg1 Hc1].
  apply bind_Ok in Hrest as ((self2 & ctx2) & Hat & Hrest).
  pose proof (attach_course self1 ctx1 attach e self2 ctx2 Hat) as Ha.
  pose proof (requests_course self2 ctx2) as Hr.
  set (self3 := swipe_requests self2 ctx2) in *.
  assert (grows self self3) as Hg3 by (eapply grows_trans; [exact Hg1|]; eapply grows_trans; [apply Ha|apply Hr]).
  assert (consented self3 ∨ still self3 ∧ harmless d1) as Hc3.
  { destruct Hc1 as [Hc1|[Hs1 Hd1]]; [left|right].
    - eapply grows_consented; [|exact Hc1]. eapply grows_trans; [apply Ha|apply Hr].
    - split; [|done]. by eapply same_course_still, same_course_still. }
  assert (∀ self4, fl_state self4 = fl_state self3 → fl_store self4 = fl_store self3 →
    (decision_override self4 = decision_override self3 ∧ d = d1 ∨ decision_override self4 = Some d1 ∧ d = DecisionNothing) →
    careful self self4 (harmless d)) as Hend.
  { intros self4 Hst4 Hs4 Hd4. assert (logged self4 = logged self3) as Hl by (unfold logged; by rewrite Hs4).
    split; [destruct Hg3 as [l Hg3]; exists l; by rewrite Hl|].
    destruct Hc3 as [(q & m & ? & ?)|[[Hp Ho] Hd1]]; [left; exists q, m; by rewrite Hl|right].
    destruct Hd4 as [[Ho4 ->]|[Ho4 ->]]; (split; [split; [by rewrite Hst4|]|done]); rewrite Ho4; [done|]. by intros ? [= <-]. }
  destruct d1 as [|q dir|m]; [injection Hrest as <- <- <-; by apply Hend; [..|left]| |injection Hrest as <- <- <-; by apply Hend; [..|left]].
  cbv zeta in Hrest. destruct (is_allowed (store_config (fl_store self3) (index (fl_state self3))) dir).
  - destruct (detect_trigger (fl_swipe self3) ctx2 dir (store_config (fl_store self3) (index (fl_state self3)))) as [sw ctx3]. injection Hrest as <- <- <-. by apply Hend; [..|right].
  - injection Hrest as <- <- <-. by apply Hend; [..|left].
Qed.

(** One event: without consent the flow stays where it does not answer. *)
Lemma event_careful self ctx ev : still self →
  handles (flow_event self ctx ev) (λ self' r, careful self self' (r ≠ Some answer)).
Proof.
  intros Hst self' ctx' r (((self1 & ctx1) & (((e & d) & attach) & tr)) & Hdet & Hrest)%bind_Ok.
  destruct (detect_still self ctx ev Hst _ _ _ Hdet) as (Hst1 & Hs1 & Hstore & Hd). cbn [fst snd] in Hd.
  assert (grows self self1) as Hg1 by (exists []; unfold logged; by rewrite Hstore).
  apply bind_Ok in Hrest as (((self2 & ctx2) & d2) & Hmid & Hend).
  assert (careful self self2 (harmless d2)) as [Hg2 Hc2].
  { assert (careful self1 self2 (harmless d2)) as [Hg2 Hc2]; [|split; [by eapply grows_trans|done]].
    destruct d as [|q dir|m]; [by eapply child_careful| |];
      apply bind_Ok in Hmid as (((s & ctx3) & msg) & Hev & [= <- <- <-]);
      destruct (store_event_grows _ _ _ _ _ _ _ Hev) as (l & Hl & _); (split; [by exists l|]); right; (split; [|done]); by destruct Hst1. }
  destruct d2 as [|q dir|m].
  - injection Hend as <- <- <-. split; [done|]. destruct Hc2 as [?|[? _]]; [by left|by right].
  - apply bind_Ok in Hend as ((self3 & ctx3) & Hgo & [= <- <- <-]).
    apply bind_Ok in Hgo as (((s & ctx4) & msg) & Hev & Hgo). apply bind_Ok in Hgo as (pages & _ & [= <- <-]).
    destruct (store_event_grows _ _ _ _ _ _ _ Hev) as (l & Hl & _).
    split; [eapply grows_trans; [exact Hg2|by exists l]|].
    destruct Hc2 as [Hc2|[[Hp Ho] Hq]]; [left; eapply grows_consented; [|exact Hc2]; by exists l|by right].
  - injection Hend as <- <- <-. split; [done|]. destruct Hc2 as [?|[[Hp Ho] Hm]]; [by left|right; split; [done|congruence]].
Qed.
End Guarded.

(** The record grows in any case. *)
Section Grows.
Context {Q S : Type} `{FlowState Q} `{FlowStore S} `{Screen} `{Clock}.
Implicit Types self : SwipeFlow Q (Logged S).

Lemma detect_store self ctx ev : handles (flow_detect self ctx ev) (λ self' r, fl_store self' = fl_store self).
Proof.
  intros self' ctx' r. unfold flow_detect. destruct (negb (allow_swipe self)); [by intros [= <- <- <-]|].
  intros (pages & _ & Hr)%bind_Ok. destruct (detect_event _ _ _ _) as [[swipe ctx1] msg].
  destruct msg as [[dir|dir p|dir]|]; [by injection Hr as <- <- <-..| |by injection Hr as <- <- <-].
  unfold swipe_made in Hr. destruct (turned_page _ _ _ _); by injection Hr as <- <- <-.
Qed.

Lemma child_grows self ctx e attach : handles (flow_child self ctx e attach) (λ self' _, grows self self').
Proof.
  intros self' ctx' d (((self1 & ctx1) & d1) & Hev & Hrest)%bind_Ok.
  apply bind_Ok in Hev as (((s & ctx3) & msg) & Hev & [= <- <- <-]).
  destruct (store_event_grows _ _ _ _ _ _ _ Hev) as (l & Hl & _).
  apply bind_Ok in Hrest as ((self2 & ctx2) & Hat & Hrest).
  pose proof (course_grows _ _ (attach_course _ _ attach e self2 ctx2 Hat)) as Ha.
  pose proof (course_grows _ _ (requests_course self2 ctx2)) as Hr. cbv zeta in Hrest.
  assert (grows self (swipe_requests self2 ctx2)) as Hg.
  { eapply grows_trans; [|exact Hr]. eapply grows_trans; [|exact Ha]. by exists l. }
  destruct Hg as [l' Hg]. exists l'. rewrite <- Hg.
  destruct (match msg with Some m => _ | None => _ end) as [|q dir|m]; [by injection Hrest as <- _ _| |by injection Hrest as <- _ _].
  destruct (is_allowed _ dir); [|by injection Hrest as <- _ _].
  destruct (detect_trigger _ _ _ _) as [sw ctx4]. by injection Hrest as <- _ _.
Qed.

Lemma event_grows self ctx ev : handles (flow_event self ctx ev) (λ self' _, grows self self').
Proof.
  intros self' ctx' r (((self1 & ctx1) & (((e & d) & attach) & tr)) & Hdet & Hrest)%bind_Ok.
  pose proof (detect_store self ctx ev _ _ _ Hdet) as Hs.
  apply bind_Ok in Hrest as (((self2 & ctx2) & d2) & Hmid & Hend).
  assert (grows self1 self2) as [l1 Hg1].
  { destruct d as [|q0 dir0|m0]; [by eapply child_grows|..]; apply bind_Ok in Hmid as (((s & ctx3) & msg) & Hev & [= <- <- <-]);
      destruct (store_event_grows _ _ _ _ _ _ _ Hev) as (l & Hl & _); by exists l. }
  assert (grows self2 self') as [l2 Hg2].
  { destruct d2 as [|q dir|m]; [injection Hend as <- <- <-; by exists []| |injection Hend as <- <- <-; by exists []].
    apply bind_Ok in Hend as ((self3 & ctx3) & Hgo & [= <- <- <-]).
    apply bind_Ok in Hgo as (((s & ctx4) & msg) & Hev & Hgo). apply bind_Ok in Hgo as (pages & _ & [= <- <-]).
    destruct (store_event_grows _ _ _ _ _ _ _ Hev) as (l & Hl & _). by exists l. }
  exists (l2 ++ l1). rewrite Hg2, Hg1, <- app_assoc. unfold logged. by rewrite Hs.
Qed.
End Grows.

(** ** Runs *)
Section Runs.
Context {Q S : Type} `{FlowState Q} `{FlowStore S} `{Screen}.

(** An answer comes after consent to it. *)
Lemma run_consented answer past consent (self : SwipeFlow Q (Logged S)) events self' :
  guarded answer past consent → still answer past self → flow_run self events = Ok (self', Some answer) →
  consented consent self'.
Proof.
  intros Hg. revert self. induction events as [|[[t ctx] ev] events IH]; intros self Hst; [done|]. cbn [flow_run].
  intros (((self1 & ctx1) & msg) & Hev & Hrest)%bind_Ok.
  destruct (event_careful answer past consent Hg self ctx ev Hst _ _ _ Hev) as [_ Hc].
  destruct msg as [m|]; [|].
  - injection Hrest as <- ->. destruct Hc as [|[_ Hne]]; done.
  - destruct Hc as [Hc|[Hst1 _]]; [|by apply (IH self1)].
    (* what is noted stays *)
    clear IH Hst Hev. revert self1 Hc Hrest. induction events as [|[[t1 ctx2] ev1] events IH]; intros self1 Hc; [done|].
    cbn [flow_run]. intros (((self2 & ctx3) & msg) & Hev & Hrest)%bind_Ok.
    assert (grows self1 self2) as Hgr by (by eapply event_grows).
    pose proof (grows_consented consent self1 self2 Hgr Hc) as Hc2.
    destruct msg; [by injection Hrest as <- _|by eapply IH].
Qed.
End Runs.

(** ** What an answer comes from *)

(** A touch that ends far enough in a direction from where it began. *)
Definition far (dir : SwipeDirection) (p q : Point) : Prop :=
  let movement := point_sub q p in
  match dir with
  | SwipeUp => 36 < - oy movement
  | SwipeDown => 36 < oy movement
  | SwipeLeft => 36 < - ox movement
  | SwipeRight => 36 < ox movement
  end.

(** There is such a touch among the events. *)
Definition drawn (events : list Event) (dir : SwipeDirection) : Prop :=
  ∃ before p between q after,
    events = before ++ Touch (TouchStart p) :: between ++ Touch (TouchEnd q) :: after ∧ far dir p q.

Lemma drawn_later h1 h2 dir : drawn h1 dir → drawn (h1 ++ h2) dir.
Proof.
  intros (b & p & m & q & a & -> & Hf). exists b, p, m, q, (a ++ h2). split; [|done].
  by rewrite <- !app_assoc, <- !app_comm_cons, <- !app_assoc.
Qed.

Lemma progress_far config dir p q : 0 < config_progress config dir (point_sub q p) MIN_TRIGGER → far dir p q.
Proof.
  assert (MIN_TRIGGER = 36) as -> by (vm_compute; reflexivity).
  assert (∀ x, saturating_sub_u16 (i16 (Z.abs x)) 36 > 0 → in_s 16 x → 36 < Z.abs x) as Habs.
  { intros x. unfold saturating_sub_u16, i16, in_s. intros Hs Hx. destruct (Z.eq_dec x (- 2 ^ 15)) as [->|]; [lia|].
    rewrite wraps_small, wrapu_small in Hs by (unfold in_s, in_u; lia). lia. }
  assert (in_s 16 (ox (point_sub q p)) ∧ in_s 16 (oy (point_sub q p))) as [Hx Hy] by (split; apply wraps_range; lia).
  unfold config_progress, far, offset_abs. destruct (negb (is_allowed config dir)); [lia|].
  destruct dir; cbn [ox oy];
    match goal with |- context [negb (?a <? ?b)] => destruct (Z.ltb_spec a b); cbn [negb]; [|lia] end; intros Hs.
  - specialize (Habs (oy (point_sub q p)) ltac:(lia) Hy). lia.
  - specialize (Habs (oy (point_sub q p)) ltac:(lia) Hy). lia.
  - specialize (Habs (ox (point_sub q p)) ltac:(lia) Hx). lia.
  - specialize (Habs (ox (point_sub q p)) ltac:(lia) Hx). lia.
Qed.

(** *** The detector *)
Section Detector.
Context `{Screen} `{Clock}.
Implicit Types D : SwipeDetect.

(** What it holds comes from the events so far, or from a decision that waits. *)
Record from_touches (h : list Event) (waits : Prop) D : Prop := {
  touches_origin p : origin D = Some p → Touch (TouchStart p) ∈ h;
  touches_animation a dir : final_animation D = Some a → locked D = Some dir → to a ≠ 0 → waits ∨ drawn h dir
}.

Lemma touches_later h1 h2 (w1 w2 : Prop) D : (w1 → w2) → from_touches h1 w1 D → from_touches (h1 ++ h2) w2 D.
Proof.
  intros Hw [Ho Ha]. split.
  - intros p Hp. apply elem_of_app. left. by apply Ho.
  - intros a dir Hf Hl Ht. destruct (Ha a dir Hf Hl Ht) as [|Hd]; [left; auto|right; by apply drawn_later].
Qed.

(** The detector looks after its animation. *)
Definition looks_after D (ev : Event) : Prop :=
  match ev with
  | Timer token => token = ANIM_FRAME_TIMER
  | Touch (TouchStart _) => True
  | Touch (TouchMove _) | Touch (TouchEnd _) => is_Some (origin D)
  | _ => False
  end.

(** The animation of a swipe has come to its end. *)
Record finished D (ev : Event) (dir : SwipeDirection) : Prop := {
  finished_locked : locked D = Some dir;
  finished_over : ∃ a, final_animation D = Some a ∧ to a ≠ 0 ∧ anim_finished a now = true;
  finished_asked : looks_after D ev
}.

Lemma eval_finished D ctx ev : looks_after D ev → ∀ dir,
  (eval_anim_frame D ctx).2 = Some (SwipeTrigger dir) ↔ finished D ev dir.
Proof.
  intros Hl dir. unfold eval_anim_frame. split.
  - destruct (locked D) as [d|] eqn:Ed, (final_animation D) as [a|] eqn:Ea; try done.
    destruct (anim_finished a now) eqn:Ef; [|done]. destruct (Z.eqb_spec (to a) 0); [done|]. intros [= <-].
    split; [done| |done]. by exists a.
  - intros [-> (a & -> & Ht & ->) _]. by destruct (Z.eqb_spec (to a) 0).
Qed.

Lemma detect_finished D ctx ev config dir :
  (detect_event D ctx ev config).2 = Some (SwipeTrigger dir) ↔ finished D ev dir.
Proof.
  assert (final_animation D = None → ¬ finished D ev dir) as Hno by (intros Hf [_ (a & Ha & _) _]; congruence).
  assert (¬ looks_after D ev → ¬ finished D ev dir) as Hasks by (intros Hf [_ _ ?]; done).
  unfold detect_event. destruct ev as [|[p|p|p|]|?|token|? ?|?| |?]; try (split; [done|by intros []]).
  - destruct (final_animation D) eqn:Ef; [by apply eval_finished|]. split; [done|intros Hf; by destruct Hno].
  - destruct (origin D) as [o|] eqn:Eo; [|split; [done|intros [_ _ Hl]; cbn in Hl; rewrite Eo in Hl; by destruct Hl]].
    destruct (final_animation D) eqn:Ef; [apply eval_finished; cbn; by rewrite Eo|].
    split; [|intros Hf; by destruct Hno]. unfold detect_move. destruct (locked D); [done|].
    by destruct (lock_direction _ _ _).
  - destruct (origin D) as [o|] eqn:Eo; [|split; [done|intros [_ _ Hl]; cbn in Hl; rewrite Eo in Hl; by destruct Hl]].
    destruct (final_animation D) eqn:Ef; [apply eval_finished; cbn; by rewrite Eo|].
    split; [|intros Hf; by destruct Hno]. by destruct (detect_end _ _ _ _).
  - destruct (Z.eqb_spec token ANIM_FRAME_TIMER) as [->|]; [by apply eval_finished|]. split; [done|by intros [_ _ ?]].
Qed.

(** Every event keeps what the detector holds. *)
Lemma eval_touches h w D ctx : from_touches h w D → from_touches h w (eval_anim_frame D ctx).1.1.
Proof.
  intros HD. unfold eval_anim_frame. destruct (locked D) eqn:El, (final_animation D) as [a|] eqn:Ea; try exact HD.
  destruct (anim_finished a now); [|exact HD]. split; [apply (touches_origin _ _ _ HD)|done].
Qed.

Lemma detect_touches h w D ctx ev config : from_touches h w D → from_touches (h ++ [ev]) w (detect_event D ctx ev config).1.1.
Proof.
  intros HD. pose proof (touches_later h [ev] w w D (λ x, x) HD) as HD'. unfold detect_event.
  destruct ev as [|[p|p|p|]|?|token|? ?|?| |?]; try exact HD'.
  - destruct (final_animation D); [by apply eval_touches|]. split; [|done]. intros ? [= <-]. apply elem_of_app. right. by left.
  - destruct (origin D) as [o|] eqn:Eo; [|done]. destruct (final_animation D) eqn:Ef; [by apply eval_touches|].
    destruct HD' as [Ho Ha]. unfold detect_move. destruct (locked D); [by split; cbn; rewrite ?Ef|].
    destruct (lock_direction _ _ _); by split; cbn; rewrite ?Ef.
  - destruct (origin D) as [o|] eqn:Eo; [|done]. destruct (final_animation D) eqn:Ef; [by apply eval_touches|].
    unfold detect_end. cbn [locked sw_moved origin]. destruct (locked D) as [dir|] eqn:El; [|by split; cbn; rewrite ?Ef].
    split; [done|]. cbn. intros a dir' [= <-] [= <-]. cbn [to].
    destruct (Z.ltb_spec 0 (config_progress config dir (point_sub p o) MIN_TRIGGER)) as [Hpr|]; [|done]. intros _. right.
    apply progress_far in Hpr. pose proof (touches_origin _ _ _ HD o Eo) as (h1 & h2 & ->)%list_elem_of_split.
    exists h1, o, h2, p, []. split; [|done]. by rewrite <- app_assoc, <- app_comm_cons.
  - destruct (token =? ANIM_FRAME_TIMER); [by apply eval_touches|done].
Qed.

(** After the end of a swipe nothing is held any more. *)
Lemma trigger_empty D ctx ev config dir : (detect_event D ctx ev config).2 = Some (SwipeTrigger dir) →
  final_animation (detect_event D ctx ev config).1.1 = None.
Proof.
  intros Ht. apply detect_finished in Ht as Hf. destruct Hf as [Hl (a & Ha & Hto & Hover) Hasked].
  unfold detect_event, eval_anim_frame. rewrite Hl, Ha, Hover.
  destruct ev as [|[p|p|p|]|?|token|? ?|?| |?]; try done; cbn in Hasked; try (destruct Hasked as [o ->]; done); by subst.
Qed.
End Detector.

(** *** The flow *)
Section Answers.
Context {Q S : Type} `{FlowState Q} `{FlowStore S} `{Screen}.
Implicit Types self : SwipeFlow Q S.

(** Only decisions to go to a state wait. *)
Definition waiting self : Prop := ∀ d, decision_override self = Some d → ∃ q dir, d = Goto q dir.

(** A flow after some events. *)
Record on_course (h : list Event) self : Prop := {
  course_waiting : waiting self;
  course_page : 0 <= internal_state self;
  course_touches : from_touches h (decision_override self ≠ None) (fl_swipe self)
}.

(** No page is left in a direction. *)
Definition no_page self (dir : SwipeDirection) : Prop :=
  ∃ pages, store_pages (fl_store self) (index (fl_state self)) = Ok pages ∧
    let config := store_config (fl_store self) (index (fl_state self)) in
    match dir with
    | SwipeUp => vertical_pages config = true → wrapu 16 pages <= internal_state self + 1
    | SwipeLeft => horizontal_pages config = true → wrapu 16 pages <= internal_state self + 1
    | SwipeDown => vertical_pages config = true → wrapu 16 pages = 0 ∨ internal_state self <= 0
    | SwipeRight => horizontal_pages config = true → wrapu 16 pages = 0 ∨ internal_state self <= 0
    end.

Lemma page_swipes_pages config i pages :
  horizontal_pages (page_swipes config i pages) = horizontal_pages config ∧
  vertical_pages (page_swipes config i pages) = vertical_pages config.
Proof.
  unfold page_swipes. destruct config as [[] [] u d l r], (0 <? i), (i <? wrapu 16 (pages - 1)); done.
Qed.

Lemma turned_page_None config dir i pages : 0 <= pages → 0 <= i → turned_page config dir i pages = None ↔
  match dir with
  | SwipeUp => vertical_pages config = true → pages <= i + 1
  | SwipeLeft => horizontal_pages config = true → pages <= i + 1
  | SwipeDown => vertical_pages config = true → pages = 0 ∨ i <= 0
  | SwipeRight => horizontal_pages config = true → pages = 0 ∨ i <= 0
  end.
Proof.
  intros Hp Hi. unfold turned_page. destruct (Z.ltb_spec 0 pages); cbn [negb]; [|destruct dir; split; intros; (done || lia)].
  destruct dir; (destruct (vertical_pages config), (horizontal_pages config); cbn [andb]);
    repeat match goal with |- context [if ?a <? ?b then _ else _] => destruct (Z.ltb_spec a b) end;
    (split; [intros; (done || lia)|intros Ht; try specialize (Ht eq_refl); (done || lia)]).
Qed.

Section Event.
Context `{Clock}.

(** A swipe that leaves the screen is finished. *)
Record swiped self (ev : Event) (dir : SwipeDirection) : Prop := {
  swiped_allowed : allow_swipe self = true;
  swiped_finished : finished (fl_swipe self) ev dir;
  swiped_page : no_page self dir
}.

(** What is decided on it: what waits, or what the state says. *)
Definition swipe_decision self (dir : SwipeDirection) : Decision Q :=
  default (handle_swipe (fl_state self) dir) (decision_override self).

(** The event that the screen gets, in the stead of one that is part of a swipe. *)
Definition given self (ctx : EventCtx) (ev e : Event) (ctx1 : EventCtx) : Prop :=
  if allow_swipe self then
    ∃ pages, store_pages (fl_store self) (index (fl_state self)) = Ok pages ∧
      let config := page_swipes (store_config (fl_store self) (index (fl_state self))) (internal_state self) (wrapu 16 pages) in
      (detect_event (fl_swipe self) ctx ev config).1.2 = ctx1 ∧
      e = match (detect_event (fl_swipe self) ctx ev config).2 with
          | None => ev
          | Some (SwipeStart _) => Touch TouchAbort
          | Some (SwipeMove dir progress) => Swipe_ (MoveSwipe dir (wraps 16 progress))
          | Some (SwipeTrigger dir) => Swipe_ (EndSwipe dir)
          end
  else e = ev ∧ ctx1 = ctx.

(** The message with which the screen answers this event. *)
Definition told self ctx ev (m : FlowMsg) : Prop :=
  ∃ e ctx1 s ctx2, given self ctx ev e ctx1 ∧
    store_event (fl_store self) (index (fl_state self)) ctx1 e = Ok (s, ctx2, Some m).

Lemma given_once self ctx ev e1 c1 e2 c2 : given self ctx ev e1 c1 → given self ctx ev e2 c2 → e1 = e2 ∧ c1 = c2.
Proof.
  unfold given. destruct (allow_swipe self); [|by intros [-> ->] [-> ->]].
  intros (p1 & Hp1 & <- & ->) (p2 & Hp2 & <- & ->). rewrite Hp1 in Hp2. by injection Hp2 as ->.
Qed.

Lemma told_once self ctx ev m1 m2 : told self ctx ev m1 → told self ctx ev m2 → m1 = m2.
Proof.
  intros (e1 & c1 & s1 & x1 & Hg1 & Hs1) (e2 & c2 & s2 & x2 & Hg2 & Hs2).
  destruct (given_once _ _ _ _ _ _ _ Hg1 Hg2) as [-> ->]. rewrite Hs1 in Hs2. by injection Hs2.
Qed.

(** What an event decides: a swipe out of the screen that is finished comes
    first, and otherwise the message of the screen. *)
Inductive decides self ctx ev : Decision Q → Prop :=
| decides_swipe dir :
    swiped self ev dir → swipe_decision self dir ≠ DecisionNothing → decides self ctx ev (swipe_decision self dir)
| decides_screen msg :
    (∀ dir, swiped self ev dir → swipe_decision self dir = DecisionNothing) → told self ctx ev msg →
    decides self ctx ev (handle_event (fl_state self) msg).

Lemma no_page_turned self dir pages : 0 <= internal_state self →
  store_pages (fl_store self) (index (fl_state self)) = Ok pages →
  turned_page (page_swipes (store_config (fl_store self) (index (fl_state self))) (internal_state self) (wrapu 16 pages))
    dir (internal_state self) (wrapu 16 pages) = None ↔ no_page self dir.
Proof.
  intros Hi Hpages. pose proof (wrapu_range 16 pages ltac:(lia)) as Hr. unfold in_u in Hr.
  destruct (page_swipes_pages (store_config (fl_store self) (index (fl_state self))) (internal_state self) (wrapu 16 pages)) as [Hh Hv].
  rewrite turned_page_None by lia. rewrite Hh, Hv. unfold no_page. split.
  - intros Hd. by exists pages.
  - intros (pages' & Hp & Hd). rewrite Hpages in Hp. by injection Hp as <-.
Qed.

(** What the detector adds to an event. *)
Lemma detect_decides h self ctx ev : on_course h self →
  handles (flow_detect self ctx ev) (λ self' r,
    fl_state self' = fl_state self ∧ fl_store self' = fl_store self ∧ on_course (h ++ [ev]) self' ∧
    ((∃ dir, swiped self ev dir ∧ r.1.1.2 = swipe_decision self dir) ∨ (∀ dir, ¬ swiped self ev dir) ∧ r.1.1.2 = DecisionNothing)) ∧
  ∀ self' ctx' r, flow_detect self ctx ev = Ok (self', ctx', r) → given self ctx ev r.1.1.1 ctx'.
Proof.
  intros [Hw Hi Ht]. unfold flow_detect, given, handles. destruct (allow_swipe self) eqn:Hal; cbn [negb].
  2: { split; [|by intros ??? [= <- <- <-]]. intros ??? [= <- <- <-]. split; [done|]. split; [done|]. split.
       - split; [done|done|]. by apply (touches_later h [ev] (decision_override self ≠ None)).
       - right. split; [|done]. intros dir [Hs _ _]. congruence. }
  destruct (store_pages (fl_store self) (index (fl_state self))) as [pages| | |] eqn:Hpages; [|by split..].
  cbn [mbind outcome_bind set_fl_page internal_state internal_pages fl_swipe fl_store fl_state].
  set (config := page_swipes _ _ _). pose proof (λ dir, detect_finished (fl_swipe self) ctx ev config dir) as Hfin.
  pose proof (detect_touches h _ (fl_swipe self) ctx ev config Ht) as Ht'.
  pose proof (λ dir, trigger_empty (fl_swipe self) ctx ev config dir) as Hempty.
  destruct (detect_event (fl_swipe self) ctx ev config) as [[D ctx1] msg] eqn:Hdet. cbn [fst snd] in *.
  destruct msg as [[dir|dir p|dir]|].
  1,2,4: split; [intros ??? [= <- <- <-]|intros ??? [= <- <- <-]; exists pages; (split; [done|]); fold config; by rewrite Hdet];
    (split; [done|]); (split; [done|]); (split; [by split|]); right; (split; [|done]);
    intros dir' [_ Hf _]; apply Hfin in Hf; done.
  unfold swipe_made. cbn [set_fl_swipe set_fl_page set_override fl_state decision_override internal_state internal_pages].
  pose proof (no_page_turned self dir pages Hi Hpages) as Hno. fold config in Hno.
  assert (from_touches (h ++ [ev]) False D) as Ht2.
  { split; [apply (touches_origin _ _ _ Ht')|]. intros a ? Ha. by rewrite (Hempty dir eq_refl) in Ha. }
  destruct (turned_page config dir (internal_state self) (wrapu 16 pages)) as [i|] eqn:Hturn.
  - split; [intros ??? [= <- <- <-]|intros ??? [= <- <- <-]; exists pages; (split; [done|]); fold config; by rewrite Hdet].
    split; [done|]. split; [done|]. split.
    + split; [done| |eapply (touches_later _ []) in Ht2; [rewrite app_nil_r in Ht2; exact Ht2|done]].
      cbn [internal_state set_fl_page]. unfold turned_page in Hturn. destruct (0 <? _); [|done]. cbn [negb] in Hturn.
      destruct dir; repeat match type of Hturn with context [if ?b then _ else _] => destruct b eqn:? end; simplify_eq; [lia| |lia|];
        match goal with E : _ && (0 <? _) = true |- _ => apply andb_true_iff in E as [_ E%Z.ltb_lt]; lia end.
    + right. split; [|done]. intros dir' [_ Hf Hp]. apply Hfin in Hf. injection Hf as ->. apply Hno in Hp. done.
  - split; [intros ??? [= <- <- <-]|intros ??? [= <- <- <-]; exists pages; (split; [done|]); fold config; by rewrite Hdet].
    split; [done|]. split; [done|]. split.
    + split; [done|done|]. eapply (touches_later _ []) in Ht2; [rewrite app_nil_r in Ht2; exact Ht2|done].
    + left. exists dir. split; [|done]. split; [done|by apply Hfin|by apply Hno].
Qed.

(** What the message of the screen adds. *)
Lemma child_decides h self ctx e attach : on_course h self →
  handles (flow_child self ctx e attach) (λ self' d,
    fl_state self' = fl_state self ∧ on_course h self' ∧
    ∃ s ctx1 msg, store_event (fl_store self) (index (fl_state self)) ctx e = Ok (s, ctx1, msg) ∧
      let d1 := match msg with Some m => handle_event (fl_state self) m | None => DecisionNothing end in
      d = d1 ∨ d = DecisionNothing ∧ ∃ q dir, d1 = Goto q dir).
Proof.
  intros [Hw Hi Ht] self' ctx' d (((self1 & ctx1) & d1) & Hev & Hrest)%bind_Ok.
  apply bind_Ok in Hev as (((s & ctx3) & msg) & Hev & [= <- <- <-]).
  set (d1 := match msg with Some m => handle_event (fl_state self) m | None => DecisionNothing end) in *.
  apply bind_Ok in Hrest as ((self2 & ctx2) & Hat & Hrest).
  assert (decision_override self2 = decision_override self ∧ fl_state self2 = fl_state self ∧ internal_state self2 = internal_state self ∧
    fl_swipe self2 = fl_swipe self) as (Ho2 & Hs2 & Hi2 & Hd2).
  { destruct attach; [|by injection Hat as <- _]. destruct e as [| | | | | | |[dir p|dir]]; try (by injection Hat as <- _).
    by apply bind_Ok in Hat as (((s' & ctx4) & msg') & _ & [= <- _]). }
  cbv zeta in Hrest. set (self3 := swipe_requests self2 ctx2) in *.
  assert (decision_override self3 = decision_override self ∧ fl_state self3 = fl_state self ∧ internal_state self3 = internal_state self ∧
    (fl_swipe self3 = fl_swipe self ∨ fl_swipe self3 = detect_new)) as (Ho & Hs & Hi3 & HD).
  { unfold self3, swipe_requests. destruct (swipe_disable_req ctx2), (swipe_enable_req ctx2); cbn; auto. }
  assert (on_course h self3) as Hc3.
  { split; [unfold waiting; by rewrite Ho|by rewrite Hi3|]. rewrite Ho. destruct HD as [->| ->]; [done|by split]. }
  assert (∀ d', d' = d1 ∨ d' = DecisionNothing ∧ (∃ q dir, d1 = Goto q dir) → ∃ s ctx1 msg,
    store_event (fl_store self) (index (fl_state self)) ctx e = Ok (s, ctx1, msg) ∧
    let d1 := match msg with Some m => handle_event (fl_state self) m | None => DecisionNothing end in
    d' = d1 ∨ d' = DecisionNothing ∧ ∃ q dir, d1 = Goto q dir) as Hmsg by (intros d' Hd'; by exists s, ctx3, msg).
  clearbody self3 d1. clear Hat Hev.
  destruct d1 as [|q dir|m]; [injection Hrest as <- <- <-; (split; [done|]); (split; [done|]); apply Hmsg; by left| |
    injection Hrest as <- <- <-; (split; [done|]); (split; [done|]); apply Hmsg; by left].
  destruct (is_allowed _ dir); [|injection Hrest as <- <- <-; (split; [done|]); (split; [done|]); apply Hmsg; by left].
  destruct (detect_trigger _ _ _ _) as [sw ctx4] eqn:Htr. injection Hrest as <- <- <-. split; [done|].
  split; [|apply Hmsg; right; split; [done|by exists q, dir]].
  split; [intros d' [= <-]; by exists q, dir|by rewrite <- Hi3 in Hi|]. cbn [fl_swipe decision_override set_override set_fl_swipe].
  injection Htr as <- _. split; [apply (touches_origin _ _ _ (course_touches _ _ Hc3))|]. intros; by left.
Qed.

(** One event: the flow answers what it decides, and goes only where it does. *)
Lemma event_decides h self ctx ev : on_course h self →
  handles (flow_event self ctx ev) (λ self' r,
    on_course (h ++ [ev]) self' ∧
    (∀ m, r = Some m ↔ decides self ctx ev (Return m)) ∧
    (fl_state self' = fl_state self ∨ ∃ dir, decides self ctx ev (Goto (fl_state self') dir))).
Proof.
  intros Hc self' ctx' r (((self1 & ctx1) & (((e & d) & attach) & tr)) & Hdet & Hrest)%bind_Ok.
  destruct (detect_decides h self ctx ev Hc) as [Hspec Hgiven].
  destruct (Hspec _ _ _ Hdet) as (Hs1 & Hst1 & Hc1 & Hd). specialize (Hgiven _ _ _ Hdet). cbn [fst snd] in Hd, Hgiven.
  apply bind_Ok in Hrest as (((self2 & ctx2) & d2) & Hmid & Hend).
  assert (∀ dir dir', swiped self ev dir → swiped self ev dir' → dir = dir') as Honce.
  { intros dir dir' [_ [Hl _ _] _] [_ [Hl' _ _] _]. congruence. }
  assert (fl_state self2 = fl_state self ∧ on_course (h ++ [ev]) self2 ∧
    (∀ m, d2 = Return m ↔ decides self ctx ev (Return m)) ∧ (∀ q dir, d2 = Goto q dir → decides self ctx ev (Goto q dir))) as (Hs2 & Hc2 & Hret & Hgo).
  { assert (d = DecisionNothing ∨ d ≠ DecisionNothing) as [->|Hd0] by (destruct d; [by left|by right..]).
    - destruct (child_decides _ _ _ _ _ Hc1 _ _ _ Hmid) as (Hs2 & Hc2 & s & ctx3 & msg & Hev & Hd2).
      rewrite Hs1, Hst1 in Hev. rewrite Hs1 in Hd2, Hs2. split; [done|]. split; [done|].
      assert (∀ dir, swiped self ev dir → swipe_decision self dir = DecisionNothing) as Hno.
      { intros dir Hsw. destruct Hd as [(dir' & Hsw' & ->)|[Hn _]]; [by rewrite (Honce _ _ Hsw Hsw')|by destruct (Hn dir)]. }
      assert (∀ m, msg = Some m → decides self ctx ev (handle_event (fl_state self) m)) as Hsay.
      { intros m ->. apply decides_screen; [done|]. by exists e, ctx1, s, ctx3. }
      split.
      + intros m. split.
        * intros ->. destruct Hd2 as [Hd2|[? _]]; [|done]. destruct msg as [m1|]; [|done]. rewrite Hd2. by apply Hsay.
        * intros Hdec. inversion Hdec as [dir Hsw Hne Heq|m1 _ Htold Heq]; [by destruct Hne; apply Hno|].
          destruct Htold as (e' & c' & s' & x' & Hg' & Hev'). destruct (given_once _ _ _ _ _ _ _ Hgiven Hg') as [<- <-].
          rewrite Hev in Hev'. injection Hev' as <- <- ->. cbn zeta beta iota in Hd2. rewrite Heq in Hd2. destruct Hd2 as [Hd2|(_ & q & dir & Hd2)]; [congruence|discriminate Hd2].
      + intros q dir ->. destruct Hd2 as [Hd2|[? _]]; [|done]. destruct msg as [m1|]; [|done]. rewrite Hd2. by apply Hsay.
    - destruct Hd as [(dir & Hsw & ->)|[_ ?]]; [|done].
      assert (fl_state self2 = fl_state self ∧ on_course (h ++ [ev]) self2 ∧ d2 = swipe_decision self dir) as (Hs2 & Hc2 & ->).
      { destruct (swipe_decision self dir); [done|..]; apply bind_Ok in Hmid as (((s & ctx3) & ?) & _ & [= <- <- <-]);
          (split; [done|]); (split; [|done]); by destruct Hc1. }
      pose proof (decides_swipe self ctx ev dir Hsw Hd0) as Hdec. split; [done|]. split; [done|]. split.
      + intros m. split; [by intros <-|]. intros Hdec'. inversion Hdec' as [dir' Hsw' Hne Heq|m1 Hno Htold Heq].
        * by rewrite (Honce _ _ Hsw Hsw').
        * by destruct Hd0; apply Hno.
      + by intros q dir' <-. }
  destruct d2 as [|q dir|m].
  - injection Hend as <- <- <-. split; [done|]. split; [|by left]. intros m. rewrite <- Hret. by split.
  - apply bind_Ok in Hend as ((self3 & ctx3) & Hgoto & [= <- <- <-]).
    apply bind_Ok in Hgoto as (((s & ctx4) & msg) & _ & Hgoto). apply bind_Ok in Hgoto as (pages & _ & [= <- <-]).
    split; [|split; [intros m; rewrite <- Hret; by split|right; exists dir; by apply Hgo]].
    split; [apply (course_waiting _ _ Hc2)| |by split]. cbn [internal_state]. pose proof (course_page _ _ Hc2). destruct dir; lia.
  - injection Hend as <- <- <-. split; [|split; [intros m'; rewrite <- Hret; split; congruence|by left]].
    split; [apply (course_waiting _ _ Hc2)|apply (course_page _ _ Hc2)|by split].
Qed.
End Event.

(** A flow that has not answered yet. *)
Lemma run_course h self events self' : on_course h self → flow_run self events = Ok (self', None) →
  on_course (h ++ events.*2) self'.
Proof.
  revert h self. induction events as [|[[t ctx] ev] events IH]; intros h self Hc; cbn [flow_run].
  - intros [= <-]. by rewrite app_nil_r.
  - intros (((self1 & ctx1) & msg) & Hev & Hrest)%bind_Ok. destruct msg as [m|]; [done|].
    destruct (event_decides h self ctx ev Hc _ _ _ Hev) as [Hc1 _]. cbn. specialize (IH _ _ Hc1 Hrest).
    by rewrite <- app_assoc in IH.
Qed.

Lemma new_course (init : Q) (s : S) : on_course [] (flow_new init s).
Proof. by split. Qed.
End Answers.
(** ** The record does not matter *)
Section Unlogged.
Context {Q S : Type} `{FlowState Q} `{FlowStore S} `{Screen} `{Clock}.
Implicit Types self : SwipeFlow Q (Logged S).

Definition drop1 {U} (r : SwipeFlow Q (Logged S) * EventCtx * U) : SwipeFlow Q S * EventCtx * U := (unlogged r.1.1, r.1.2, r.2).

Lemma store_event_unlogged s i ctx ev :
  store_event (log_store s) i ctx ev = (λ r, (log_store r.1.1, r.1.2, r.2)) <$> store_event s i ctx ev.
Proof.
  cbn [store_event logged_store]. by destruct (store_event (log_store s) i ctx ev) as [[[s1 ctx1] m]| | |].
Qed.

Lemma detect_unlogged self ctx ev : flow_detect (unlogged self) ctx ev = drop1 <$> flow_detect self ctx ev.
Proof.
  unfold flow_detect, unlogged. cbn [allow_swipe fl_store fl_state internal_state internal_pages fl_swipe store_pages store_config logged_store].
  destruct (negb (allow_swipe self)); [done|].
  destruct (store_pages (log_store (fl_store self)) (index (fl_state self))); [|done..].
  cbn [mbind outcome_bind fmap outcome_fmap set_fl_page internal_state internal_pages fl_swipe fl_store fl_state].
  destruct (detect_event _ _ _ _) as [[swipe ctx1] msg]. destruct msg as [[dir|dir p|dir]|]; [done..| |done].
  unfold swipe_made. cbn [set_fl_swipe set_fl_page set_override internal_state internal_pages fl_state decision_override].
  by destruct (turned_page _ _ _ _).
Qed.

Lemma requests_unlogged self ctx : swipe_requests (unlogged self) ctx = unlogged (swipe_requests self ctx).
Proof. unfold swipe_requests. by destruct (swipe_disable_req ctx), (swipe_enable_req ctx). Qed.

Lemma attach_unlogged self ctx dir :
  ('(store, ctx, _) ← store_event (log_store (fl_store self)) (index (fl_state self)) ctx (Attach (AttachSwipe dir));
   Ok (set_fl_store (unlogged self) store, ctx) : ui (SwipeFlow Q S * EventCtx)) =
  (λ r, (unlogged r.1, r.2)) <$> ('(store, ctx, _) ← store_event (fl_store self) (index (fl_state self)) ctx (Attach (AttachSwipe dir));
   Ok (set_fl_store self store, ctx) : ui (SwipeFlow Q (Logged S) * EventCtx)).
Proof.
  rewrite store_event_unlogged. by destruct (store_event (fl_store self) _ ctx _) as [[[s1 ctx1] m]| | |].
Qed.

Lemma child_unlogged self ctx e attach : flow_child (unlogged self) ctx e attach = drop1 <$> flow_child self ctx e attach.
Proof.
  unfold flow_child, handle_event_child. cbn [unlogged fl_store fl_state]. rewrite store_event_unlogged.
  destruct (store_event (fl_store self) (index (fl_state self)) ctx e) as [[[s1 ctx1] m]| | |]; [|done..].
  cbn [mbind outcome_bind fmap outcome_fmap fst snd]. set (d := match m with Some m => _ | None => _ end).
  set (self1 := set_fl_store self s1). change (set_fl_store (unlogged self) (log_store s1)) with (unlogged self1).
  match goal with |- (_ ← ?m1; _) = _ <$> (_ ← ?m2; _) => assert (m1 = (λ r, (unlogged r.1, r.2)) <$> m2) as -> end.
  { destruct attach; [|done]. destruct e as [| | | | | | |[dir p|dir]]; try done. apply attach_unlogged. }
  match goal with |- context [(λ r, (unlogged r.1, r.2)) <$> ?m2] => destruct m2 as [[self2 ctx2]| | |]; [|done..] end.
  cbn [mbind outcome_bind fmap outcome_fmap fst snd]. rewrite requests_unlogged. set (self3 := swipe_requests self2 ctx2).
  cbv zeta. cbn [unlogged fl_store fl_state store_config logged_store]. destruct d as [|q dir|r]; [done| |done].
  destruct (is_allowed _ dir); [|done]. cbn [fl_swipe]. by destruct (detect_trigger _ _ _ _).
Qed.

Lemma goto_unlogged self ctx dir q :
  flow_goto (unlogged self) ctx dir q = (λ r, (unlogged r.1, r.2)) <$> flow_goto self ctx dir q.
Proof.
  unfold flow_goto. cbn [unlogged fl_store]. rewrite store_event_unlogged.
  destruct (store_event (fl_store self) (index q) ctx (Attach (AttachSwipe dir))) as [[[s1 ctx1] m]| | |]; [|done..].
  cbn [mbind outcome_bind fmap outcome_fmap fst snd store_pages logged_store]. by destruct (store_pages (log_store s1) (index q)).
Qed.

Lemma event_unlogged self ctx ev : flow_event (unlogged self) ctx ev = drop1 <$> flow_event self ctx ev.
Proof.
  unfold flow_event. rewrite detect_unlogged.
  destruct (flow_detect self ctx ev) as [[[self1 ctx1] (((e & d) & attach) & tr)]| | |]; [|done..].
  cbn [mbind outcome_bind fmap outcome_fmap drop1 fst snd].
  match goal with |- (_ ← ?m1; _) = _ <$> (_ ← ?m2; _) => assert (m1 = drop1 <$> m2) as -> end.
  { destruct d; [apply child_unlogged| |]; cbn [unlogged fl_store fl_state]; rewrite store_event_unlogged;
      by destruct (store_event (fl_store self1) (index (fl_state self1)) ctx1 ev) as [[[s1 ctx2] m]| | |]. }
  match goal with |- context [drop1 <$> ?m2] => destruct m2 as [[[self2 ctx2] d2]| | |]; [|done..] end.
  cbn [mbind outcome_bind fmap outcome_fmap drop1 fst snd]. destruct d2 as [|q dir|m]; [done| |done].
  rewrite goto_unlogged. by destruct (flow_goto self2 ctx2 dir q) as [[]| | |].
Qed.
End Unlogged.

Lemma run_unlogged {Q S} `{FlowState Q} `{FlowStore S} `{Screen} (self : SwipeFlow Q (Logged S)) events :
  flow_run (unlogged self) events = (λ r, (unlogged r.1, r.2)) <$> flow_run self events.
Proof.
  revert self. induction events as [|[[t ctx] ev] events IH]; intros self; [done|]. cbn [flow_run].
  rewrite event_unlogged. destruct (flow_event self ctx ev) as [[[self1 ctx1] [m|]]| | |]; [done| |done..]. apply IH.
Qed.

(** The messages of the screens on the way. *)
Definition messages {Q S} `{FlowState Q} `{FlowStore S} `{Screen} (s : S) (init : Q) events : list (Z * FlowMsg) :=
  match flow_run (flow_new init (mkLogged s [])) events with Ok (f, _) => logged f | _ => [] end.

(** Whenever this is answered, one of these messages came before. *)
Definition answers_after {Q S} `{FlowState Q} `{FlowStore S} `{Screen} (s : S) (init : Q) (answer : FlowMsg) (consents : list (Z * FlowMsg)) : Prop :=
  ∀ events f, flow_run (flow_new init s) events = Ok (f, Some answer) → ∃ c, c ∈ consents ∧ c ∈ messages s init events.

Lemma answers_after_intro {Q S} `{FlowState Q} `{FlowStore S} `{Screen} (s : S) (init : Q) answer past consents :
  guarded answer past (λ q m, bool_decide ((index q, m) ∈ consents)) → past init = false →
  answers_after s init answer consents.
Proof.
  intros Hg Hp events f Hrun. change (flow_new init s) with (unlogged (flow_new init (mkLogged s []))) in Hrun.
  rewrite run_unlogged in Hrun. unfold messages.
  destruct (flow_run (flow_new init (mkLogged s [])) events) as [[f' r]| | |] eqn:Hl; [|done..].
  cbn [fmap outcome_fmap] in Hrun. injection Hrun as _ Hr. cbn [snd] in Hr. subst r.
  assert (still answer past (flow_new init (mkLogged s []))) as Hst by (by split).
  destruct (run_consented _ _ _ _ _ _ Hg Hst Hl) as (q & m & Hc%bool_decide_eq_true & Hin).
  by exists (index q, m).
Qed.

(** ** Properties *)

Ltac guarded :=
  split; [intros [] []; (done || by vm_compute)
         |intros [] [| | |i]; cbn; intros; repeat case_match; simplify_eq; try done; try by (exfalso; set_solver)].

Ltac ask := apply (answers_after_intro _ _ _ (λ _, false)); [guarded|done].

(** C38. What has to be tapped or held: whatever the screens are and whatever
    events come, a flow confirms only after the screen to tap or hold did: the
    confirmation of an action, of the summary of a transaction, of the creation
    of a wallet, of an address and of the words of a share, and the end of the
    tutorial; a warning is only passed with the second item of its menu; and
    giving up a PIN, a backup, an address or a transaction has to be tapped. *)
Theorem flows_ask_consent {S} `{FlowStore S} `{Screen} (s : S) :
  answers_after s CA_Intro FlowConfirmed [(2, FlowConfirmed)] ∧
  answers_after s SU_Summary FlowConfirmed [(1, FlowConfirmed)] ∧
  answers_after s SU_Summary FlowCancelled [(5, FlowConfirmed)] ∧
  answers_after s RC_Intro FlowConfirmed [(2, FlowConfirmed)] ∧
  answers_after s GA_Address FlowConfirmed [(1, FlowConfirmed)] ∧
  answers_after s GA_Address FlowCancelled [(7, FlowConfirmed)] ∧
  answers_after s SW_Instruction FlowConfirmed [(2, FlowConfirmed)] ∧
  answers_after s TU_StepWelcome FlowConfirmed [(4, FlowConfirmed); (8, FlowConfirmed)] ∧
  answers_after s WH_Message FlowConfirmed [(1, FlowChoice 1)] ∧
  answers_after s NP_Intro FlowCancelled [(3, FlowConfirmed)] ∧
  answers_after s PB_Intro FlowCancelled [(3, FlowConfirmed)] ∧
  answers_after s CO_Address FlowCancelled [(4, FlowConfirmed)].
Proof.
  split_and!; [ask|ask|ask|ask| |ask| | |ask|ask|ask|ask].
  - by apply (answers_after_intro _ _ _ (λ q, match q with GA_Confirmed => true | _ => false end)); [guarded|].
  - by apply (answers_after_intro _ _ _ (λ q, match q with SW_CheckBackupIntro => true | _ => false end)); [guarded|].
  - by apply (answers_after_intro _ _ _ (λ q, match q with TU_StepDone => true | _ => false end)); [guarded|].
Qed.


(** ** Examples *)

(** Screens of three pages that are swiped to all sides, and say what they are
    told to. *)
Record Script := mkScript { script : list FlowMsg }.

#[export] Instance script_store : FlowStore Script := {
  store_place s bounds := Ok (s, bounds);
  store_event s i ctx ev :=
    Ok match ev, script s with
       | USB _, m :: ms => (mkScript ms, ctx, Some m)
       | _, _ => (s, ctx, None)
       end;
  store_config s i :=
    mkConfig false true (Some settings_default) (Some settings_default) (Some settings_default) (Some settings_default);
  store_pages s i := Ok 3
}.

#[export] Instance sample_screen : Screen := {| screen_width := 240; screen_height := 240 |}.

(** A swipe upwards, that takes half a second. *)
Definition swipe_up (t : Instant) : list (Instant * EventCtx * Event) :=
  [(t, ctx_new, Touch (TouchStart (mkPoint 120 200))); (t + 20, ctx_new, Touch (TouchMove (mkPoint 120 150)));
   (t + 40, ctx_new, Touch (TouchEnd (mkPoint 120 100))); (t + 500, ctx_new, Timer ANIM_FRAME_TIMER)].

Definition told_at (t : Instant) : Instant * EventCtx * Event := (t, ctx_new, USB (Connected true)).

(** Three swipes to the screen to tap, which then confirms. *)
Definition sample_events : list (Instant * EventCtx * Event) :=
  swipe_up 0 ++ swipe_up 1000 ++ swipe_up 2000 ++ [told_at 3000].

Example flow_confirms :
  match flow_run (flow_new CA_Intro (mkScript [FlowConfirmed])) sample_events with
  | Ok (f, r) => r = Some FlowConfirmed ∧ messages (mkScript [FlowConfirmed]) CA_Intro sample_events = [(2, FlowConfirmed)]
  | _ => False
  end.
Proof. vm_compute. split; reflexivity. Qed.

Lemma flows_ask_consent_witness :
  (∃ f, flow_run (flow_new CA_Intro (mkScript [FlowConfirmed])) sample_events = Ok (f, Some FlowConfirmed)) ∧
  ∃ c, c ∈ messages (mkScript [FlowConfirmed]) CA_Intro sample_events ∧ c ∈ [(2, FlowConfirmed)].
Proof.
  assert (∃ f, flow_run (flow_new CA_Intro (mkScript [FlowConfirmed])) sample_events = Ok (f, Some FlowConfirmed)) as Hrun
    by (eexists; vm_compute; reflexivity).
  split; [exact Hrun|]. destruct Hrun as [f Hrun].
  destruct (flows_ask_consent (mkScript [FlowConfirmed])) as [Hask _].
  destruct (Hask _ _ Hrun) as (c & Hc & Hin). exists c. exact (conj Hin Hc).
Defined.

(** A message too early does nothing. *)
Example flow_waits :
  match flow_run (flow_new CA_Intro (mkScript [FlowConfirmed])) (told_at 0 :: sample_events) with
  | Ok (f, r) => r = None ∧ fl_state f = CA_Confirm
  | _ => False
  end.
Proof. vm_compute. split; reflexivity. Qed.

(** The third swipe upwards on a screen of three pages confirms. *)
Definition sample_swipes : list (Instant * EventCtx * Event) := swipe_up 0 ++ swipe_up 1000 ++ take 3 (swipe_up 2000).


(** ** Pages of another screen *)

(** Which page is shown is only told anew by a swipe up or down: after a way
    through a menu, the pages of a screen are counted from those of the first
    one. *)
Lemma pages_carried {Q S} `{FlowState Q} `{FlowStore S} `{Screen} (self self' : SwipeFlow Q S) ctx ctx' dir q :
  dir = SwipeLeft ∨ dir = SwipeRight → flow_goto self ctx dir q = Ok (self', ctx') → internal_state self' = internal_state self.
Proof.
  intros Hdir (((s & ctx1) & msg) & _ & Hgo)%bind_Ok. apply bind_Ok in Hgo as (pages & _ & [= <- _]).
  by destruct Hdir as [->| ->].
Qed.

(** So on its first page of three, after two pages of an address, a swipe to the
    others is not possible. *)
Lemma pages_unreachable :
  is_allowed (page_swipes (with_horizontal_pages config_new) 2 3) SwipeLeft = false ∧
  is_allowed (page_swipes (with_horizontal_pages config_new) 0 3) SwipeLeft = true.
Proof. split; reflexivity. Qed.
