(* ===== verification/Layout.v ===== *)
(** * Layouts: components as Python objects

    [ui/layout/obj.rs]: a layout keeps a component, the context of its events,
    the function for timers and the number of pages, and Python calls its
    methods; with the values that the messages of components become
    ([ui/model_tt/layout.rs], [ui/model_tr/layout.rs], [ui/flow/swipe.rs]).

    A method takes and returns the layout and the state of Python's side, which
    the function for timers changes.  It cannot call the layout again: that is
    borrowed while a method runs.  The layout is drawn by [render], which does
    not change components. *)
From S2P Require Import Prelude Obj Crypto Blob Flash TString Time Geometry Component Containers.
Local Open Scope Z_scope.

(** ** Python *)

(** The function for timers, which can raise and can change the state of
    Python's side, and [mp_obj_get_int_maybe], that gives no number for other
    objects, and raises for numbers that do not fit. *)
Class Python (Callback World : Type) := {
  call_with_n_args : Callback → list Obj → World → World * option Obj;
  mp_obj_get_int_maybe : Obj → option (option Z)
}.

(** What Python gets: the objects of the library, the three results, and
    tuples. *)
(* src: ui/layout/result.rs 3-9 (CONFIRMED, CANCELLED, INFO) *)
Inductive UiObj := UObj (o : Obj) | CONFIRMED | CANCELLED | INFO | UTuple (l : list UiObj).

Definition const_none : UiObj := UObj ONone.

(** A method returns a value or raises. *)
Inductive Reply := Value (o : UiObj) | Raised (e : Error).

(** The reply for a Rust result; an abort stays an abort. *)
Definition reply_of (r : result UiObj) : ui Reply :=
  match r with Ok o => Ok (Value o) | Err e => Ok (Raised e) | Panic => Panic | NoFuel => NoFuel end.

Section Conversions.
Context {Callback World : Type} `{Python Callback World}.

(* src: micropython/obj.rs 149-168 (TryFrom<Obj> for i32) *)
Definition obj_to_i32 (obj : Obj) : result Z :=
  match mp_obj_get_int_maybe obj with
  | None => Err CaughtException
  | Some None => Err TypeError
  | Some (Some int) => if fits_s 32 int then Ok int else Err Obj.OutOfRange
  end.

(* src: micropython/obj.rs 364-372 (TryFrom<Obj> for u8) *)
Definition obj_to_u8 (obj : Obj) : result Z := val ← obj_to_i32 obj; if fits_u 8 val then Ok val else Err Obj.OutOfRange.

(* src: micropython/obj.rs 374-382 (TryFrom<Obj> for u16) *)
Definition obj_to_u16 (obj : Obj) : result Z := val ← obj_to_i32 obj; if fits_u 16 val then Ok val else Err Obj.OutOfRange.

(* src: micropython/obj.rs 384-392 (TryFrom<Obj> for u32) *)
Definition obj_to_u32 (obj : Obj) : result Z := val ← obj_to_i64 obj; if fits_u 32 val then Ok val else Err Obj.OutOfRange.

(* src: micropython/buffer.rs 115-138 (TryFrom<Obj> for StrBuffer) *)
Definition obj_to_str (obj : Obj) : result StrBuffer :=
  match obj with
  | OStr mem => new ← from_ptr_and_len mem; bytes ← sb_as_bytes new; if utf8_valid bytes then Ok new else Err TypeError
  | _ => Err TypeError
  end.

Definition swipe_to_u8 (d : SwipeDirection) : Z := match d with SwipeUp => 0 | SwipeDown => 1 | SwipeLeft => 2 | SwipeRight => 3 end.
Definition swipe_from_u8 (z : Z) : option SwipeDirection :=
  if z =? 0 then Some SwipeUp else if z =? 1 then Some SwipeDown else if z =? 2 then Some SwipeLeft
  else if z =? 3 then Some SwipeRight else None.

(** Devices with a touch display, or with buttons. *)
Class Features := { touch : bool; button : bool }.

(* src: ui/layout/obj.rs 41-47 (AttachType::to_obj) *)
Definition attach_to_obj (t : AttachType) : UiObj :=
  match t with Initial => const_none | AttachSwipe dir => UObj (obj_of_int (swipe_to_u8 dir)) end.

(* src: ui/layout/obj.rs 48-61 (AttachType::try_from_obj) *)
Definition attach_try_from_obj `{Features} (obj : Obj) : result AttachType :=
  match obj with
  | ONone => Ok Initial
  | _ =>
    if touch then dir ← obj_to_u8 obj; d ← ok_or (swipe_from_u8 dir) TypeError; Ok (AttachSwipe d)
    else Err TypeError
  end.

(** The errors of the constructors of events. *)
Definition event_error {A} (m : outcome EventError A) : result A :=
  match m with Ok a => Ok a | Err _ => Err Obj.OutOfRange | Panic => Panic | NoFuel => NoFuel end.
End Conversions.

(** A component whose messages become objects. *)
(* src: ui/layout/obj.rs 66-68 (ComponentMsgObj) *)
Class ComponentMsgObj (T Msg : Type) := { msg_try_into_obj : T → Msg → result UiObj }.

(** ** The layout *)

(** [None] is the function of a layout that none was attached to. *)
(* src: ui/layout/obj.rs 160-165 (LayoutObjInner) *)
Record LayoutObj (T Callback : Type) := mkLayout {
  root : Root T;
  event_ctx : EventCtx;
  timer_fn : option Callback;
  lo_page_count : Z
}.
Arguments mkLayout {T Callback} root event_ctx timer_fn lo_page_count.
Arguments root {T Callback} l.
Arguments event_ctx {T Callback} l.
Arguments timer_fn {T Callback} l.
Arguments lo_page_count {T Callback} l.

Section Layout.
Context {T Msg Callback World : Type} `{Component T Msg} `{!ComponentMsgObj T Msg} `{Python Callback World} `{Screen} `{Features}.
Implicit Types self : LayoutObj T Callback.

(* src: ui/layout/obj.rs 170-190 (LayoutObj::new) *)
Definition layout_new (c : T) : LayoutObj T Callback := mkLayout (root_new c) ctx_new None 1.

Definition set_root self (r : Root T) : LayoutObj T Callback := mkLayout r (event_ctx self) (timer_fn self) (lo_page_count self).
Definition set_ctx self (ctx : EventCtx) : LayoutObj T Callback := mkLayout (root self) ctx (timer_fn self) (lo_page_count self).

(** [constant::screen()]. *)
Definition the_screen : Rect := from_top_left_and_size point_zero (mkOffset screen_width screen_height).

(** The call of the function for a timer; [None] cannot be called. *)
Definition call_timer_fn self (args : list Obj) (w : World) : World * option Obj :=
  match timer_fn self with Some f => call_with_n_args f args w | None => (w, None) end.

(** The timers are handed out from the last one; the queue gets shorter by one
    each turn. *)
(* src: ui/layout/obj.rs 235-244 (LayoutObj::obj_event) *)
Fixpoint drain_timers (fuel : nat) self (w : World) : ui (LayoutObj T Callback * World * option Error) :=
  match pop_timer (event_ctx self) with
  | (None, ctx) => Ok (set_ctx self ctx, w, None)
  | (Some (token, deadline), ctx) =>
    match fuel with
    | O => NoFuel
    | S fuel =>
      let self := set_ctx self ctx in
      match call_timer_fn self [obj_of_int token; obj_of_int deadline] w with
      | (w, Some _) => drain_timers fuel self w
      | (w, None) => Ok (self, w, Some CaughtException)
      end
    end
  end.

(* src: ui/layout/obj.rs 96-102 (Root::obj_event) *)
Definition root_obj_event (r : Root T) (ctx : EventCtx) (ev : Event) : ui (Root T * EventCtx * Reply) :=
  '(r, ctx, msg) ← event r ctx ev;
  match msg with
  | Some msg => c ← or_panic (root_inner r); rep ← reply_of (msg_try_into_obj (inner c) msg); Ok (r, ctx, rep)
  | None => Ok (r, ctx, Value const_none)
  end.

(** The component is placed before the event when that was asked for. *)
Definition place_if_requested self : ui (LayoutObj T Callback) :=
  if place_requested (event_ctx self) then '(r, _) ← place (root self) the_screen; Ok (set_root self r) else Ok self.

(* src: ui/layout/obj.rs 216-251 (LayoutObj::obj_event) *)
Definition obj_event self (w : World) (ev : Event) : ui (LayoutObj T Callback * World * Reply) :=
  self ← place_if_requested self;
  '(r, ctx, rep) ← root_obj_event (root self) (ctx_clear (event_ctx self)) ev;
  let self := mkLayout r ctx (timer_fn self) (lo_page_count self) in
  match rep with
  | Raised e => Ok (self, w, Raised e)
  | Value msg =>
    '(self, w, err) ← drain_timers (length (timers (event_ctx self))) self w;
    match err with
    | Some e => Ok (self, w, Raised e)
    | None =>
      let self := match page_count (event_ctx self) with
                  | Some count => mkLayout (root self) (event_ctx self) (timer_fn self) (wrapu 16 count)
                  | None => self
                  end in
      Ok (self, w, Value msg)
    end
  end.

(* src: ui/layout/obj.rs 104-123 (Root::obj_paint) *)
Definition obj_paint (r : Root T) : ui (Root T * bool) :=
  c ← or_panic (root_inner r);
  let will_paint := marked_for_paint c in
  let c := if will_paint then skip_paint c else c in
  Ok (mkRoot (Some c) (marked_for_clear r) (root_transition_out r), will_paint).

(* src: ui/layout/obj.rs 261-274 (LayoutObj::obj_paint_if_requested) *)
Definition obj_paint_if_requested self : ui (LayoutObj T Callback * bool) :=
  self ← place_if_requested self;
  '(r, painted) ← obj_paint (root self);
  Ok (set_root self r, painted).

(* src: ui/layout/obj.rs 253-257 (LayoutObj::obj_request_clear) *)
Definition obj_request_clear self : LayoutObj T Callback :=
  set_root self (mkRoot (root_inner (root self)) true (root_transition_out (root self))).

(* src: ui/layout/obj.rs 192-197 (LayoutObj::obj_delete) *)
Definition obj_delete self : LayoutObj T Callback := set_root self (root_delete (root self)).

(* src: ui/layout/obj.rs 199-204 (LayoutObj::skip_first_paint) *)
Definition skip_first_paint self : ui (LayoutObj T Callback) :=
  c ← or_panic (root_inner (root self));
  Ok (set_root self (mkRoot (Some (skip_paint c)) (marked_for_clear (root self)) (root_transition_out (root self)))).

(* src: ui/layout/obj.rs 208-210 (LayoutObj::obj_set_timer_fn) *)
Definition obj_set_timer_fn self (f : option Callback) : LayoutObj T Callback :=
  mkLayout (root self) (event_ctx self) f (lo_page_count self).

(* src: ui/layout/obj.rs 300-302 (LayoutObj::obj_page_count) *)
Definition obj_page_count self : UiObj := UObj (obj_of_int (lo_page_count self)).

(* src: ui/layout/obj.rs 315-321 (LayoutObj::obj_get_transition_out) *)
Definition obj_get_transition_out self : UiObj :=
  match root_transition_out (root self) with Some t => attach_to_obj t | None => const_none end.

(** *** Python's methods *)

Context `{Primitives} `{Build} `{FlashDriver} (untranslated : Z → list Z).

(** The text of the request is looked up in the translations, as they are. *)
(* src: ui/layout/obj.rs 304-313 (LayoutObj::obj_button_request) *)
Definition obj_button_request self (st : FlashState) : LayoutObj T Callback * result UiObj :=
  let '(req, ctx) := take_button_request (event_ctx self) in
  (set_ctx self ctx,
   match req with
   | None => Ok const_none
   | Some r => t ← text untranslated st (br_type r); Ok (UTuple [UObj (obj_of_int (code r)); UObj (OStr t)])
   end).

(** The calls of Python, with their arguments after the layout. *)
Inductive PyCall :=
| AttachTimerFn (f : option Callback) (attach_type : Obj)
| CallTouchEvent (args : list Obj)
| CallButtonEvent (args : list Obj)
| CallProgressEvent (args : list Obj)
| CallUsbEvent (args : list Obj)
| CallTimer (token : Obj)
| CallPaint
| CallRequestCompleteRepaint
| CallPageCount
| CallButtonRequest (st : FlashState)
| CallGetTransitionOut
| CallDelete.

(** An event from arguments that may not make one. *)
Definition event_of self (w : World) (ev : result Event) : ui (LayoutObj T Callback * World * Reply) :=
  match ev with
  | Ok ev => obj_event self w ev
  | Err e => Ok (self, w, Raised e)
  | Panic => Panic
  | NoFuel => NoFuel
  end.

Context `{MicroPython}.

(* src: ui/layout/obj.rs 437-452 (ui_layout_touch_event) *)
Definition touch_args (args : list Obj) : result Event :=
  match args with
  | [e; x; y] => e ← obj_to_u32 e; x ← obj_to_u32 x; y ← obj_to_u32 y; Touch <$> event_error (touch_event_new e x y)
  | _ => Err TypeError
  end.

(* src: ui/layout/obj.rs 460-471 (ui_layout_button_event) *)
Definition button_args (args : list Obj) : result Event :=
  match args with
  | [e; b] => e ← obj_to_u32 e; b ← obj_to_u32 b; Button_ <$> event_error (button_event_new e b)
  | _ => Err TypeError
  end.

(* src: ui/layout/obj.rs 478-490 (ui_layout_progress_event) *)
Definition progress_args (args : list Obj) : result Event :=
  match args with
  | [v; d] => value ← obj_to_u16 v; description ← obj_to_str d; Ok (Progress value (Allocated description))
  | _ => Err TypeError
  end.

(* src: ui/layout/obj.rs 492-503 (ui_layout_usb_event) *)
Definition usb_args (args : list Obj) : result Event :=
  match args with
  | [c] => c ← obj_to_bool c; Ok (USB (Connected c))
  | _ => Err TypeError
  end.

(** A message on attachment aborts. *)
(* src: ui/layout/obj.rs 424-434 (ui_layout_attach_timer_fn) *)
Definition attach_timer_fn self (w : World) (f : option Callback) (attach_type : Obj) : ui (LayoutObj T Callback * World * Reply) :=
  let self := obj_set_timer_fn self f in
  '(self, w, rep) ← event_of self w (Attach <$> attach_try_from_obj attach_type);
  match rep with
  | Value (UObj ONone) | Raised _ => Ok (self, w, rep)
  | Value _ => Panic
  end.

(* src: ui/layout/obj.rs 505-513 (ui_layout_timer) *)
Definition layout_timer self (w : World) (token : Obj) : ui (LayoutObj T Callback * World * Reply) :=
  event_of self w (Timer <$> obj_to_u32 token).

(* src: ui/layout/obj.rs 515-522 (ui_layout_paint) *)
Definition layout_paint self (w : World) : ui (LayoutObj T Callback * World * Reply) :=
  '(self, painted) ← obj_paint_if_requested self;
  Ok (self, w, Value (UObj (obj_of_bool painted))).

(** A message on the request is not told. *)
(* src: ui/layout/obj.rs 524-539 (ui_layout_request_complete_repaint) *)
Definition layout_request_complete_repaint self (w : World) : ui (LayoutObj T Callback * World * Reply) :=
  '(self, w, rep) ← obj_event self w RequestPaint;
  match rep with
  | Raised e => Ok (self, w, Raised e)
  | Value _ => Ok (obj_request_clear self, w, Value const_none)
  end.

(* src: ui/layout/obj.rs 341-359 (LayoutObj::obj_type) *)
Definition layout_call self (w : World) (call : PyCall) : ui (LayoutObj T Callback * World * Reply) :=
  match call with
  | AttachTimerFn f t => attach_timer_fn self w f t
  | CallTouchEvent args => if touch then event_of self w (touch_args args) else Ok (self, w, Value const_none)
  | CallButtonEvent args => if button then event_of self w (button_args args) else Ok (self, w, Value const_none)
  | CallProgressEvent args => event_of self w (progress_args args)
  | CallUsbEvent args => event_of self w (usb_args args)
  | CallTimer token => layout_timer self w token
  | CallPaint => layout_paint self w
  | CallRequestCompleteRepaint => layout_request_complete_repaint self w
  | CallPageCount => Ok (self, w, Value (obj_page_count self))
  | CallButtonRequest st => let '(self, r) := obj_button_request self st in rep ← reply_of r; Ok (self, w, rep)
  | CallGetTransitionOut => Ok (self, w, Value (obj_get_transition_out self))
  | CallDelete => Ok (obj_delete self, w, Value const_none)
  end.

(** A session: the calls in order, with their replies. *)
Fixpoint layout_session self (w : World) (calls : list PyCall) : ui (LayoutObj T Callback * World * list Reply) :=
  match calls with
  | [] => Ok (self, w, [])
  | call :: calls =>
    '(self, w, rep) ← layout_call self w call;
    '(self, w, reps) ← layout_session self w calls;
    Ok (self, w, rep :: reps)
  end.
End Layout.

(** ** The messages of components

    The components of the model T, of the model R and of flows. *)
From S2P Require Import Theme PageT Fonts Keyboard MnemonicKeyboard PassphraseT Pin Controller Choice TrEntry Flow.

(** A Rust string becomes a new Python string. *)
(* src: micropython/obj.rs 273-282 (TryFrom<&str> for Obj) *)
Definition obj_of_str (s : list Z) : result UiObj := Ok (UObj (OStr s)).

(** A component method in a conversion. *)
Definition ui_result {A} (m : ui A) : result A :=
  match m with Ok a => Ok a | Err e => match e with end | Panic => Panic | NoFuel => NoFuel end.

(* src: ui/model_tt/layout.rs 145-152 (ComponentMsgObj for PinKeyboard) *)
#[export] Instance pin_keyboard_msg : ComponentMsgObj PinKeyboard PinKeyboardMsg := {
  msg_try_into_obj self msg := match msg with PinConfirmed => obj_of_str (pin self) | PinCancelled => Ok CANCELLED end
}.

(* src: ui/model_tt/layout.rs 154-161 (ComponentMsgObj for PassphraseKeyboard) *)
#[export] Instance passphrase_keyboard_msg : ComponentMsgObj PassphraseKeyboard PassphraseKeyboardMsg := {
  msg_try_into_obj self msg :=
    match msg with PassConfirmed => obj_of_str (PassphraseT.passphrase self) | PassCancelled => Ok CANCELLED end
}.

(* src: ui/model_tt/layout.rs 163-179 (ComponentMsgObj for MnemonicKeyboard) *)
#[export] Instance mnemonic_keyboard_msg `{MnemonicInput T} : ComponentMsgObj (MnemonicKeyboard T) MnemonicKeyboardMsg := {
  msg_try_into_obj self msg :=
    match msg with
    | KConfirmed => match keyboard_mnemonic self with Some word => obj_of_str word | None => Panic end
    | Previous => obj_of_str []
    end
}.

(* src: ui/model_tt/layout.rs 193-206 (ComponentMsgObj for ButtonPage) *)
#[export] Instance tt_page_msg {T Msg} : ComponentMsgObj (PageT.ButtonPage T) (PageT.PageMsg Msg) := {
  msg_try_into_obj self msg :=
    match msg with
    | PageT.Content _ => Err TypeError
    | PageT.PageConfirmed => Ok CONFIRMED
    | PageT.PageCancelled => Ok CANCELLED
    | PageT.PageSwipeLeft => Ok INFO
    | PageT.PageSwipeRight => Ok CANCELLED
    end
}.

(* src: ui/model_tt/layout.rs 284-295 (ComponentMsgObj for SimplePage) *)
#[export] Instance simple_page_msg {T Msg} `{ComponentMsgObj T Msg} : ComponentMsgObj (SimplePage T) (PageT.PageMsg Msg) := {
  msg_try_into_obj self msg :=
    match msg with
    | PageT.Content inner_msg => msg_try_into_obj (sp_content self) inner_msg
    | PageT.PageCancelled => Ok CANCELLED
    | _ => Err TypeError
    end
}.

(* src: ui/model_tt/layout.rs 274-282 (ComponentMsgObj for (Timeout, T)) *)
#[export] Instance timeout_msg {T} : ComponentMsgObj (Timeout * T) unit := { msg_try_into_obj self _msg := Ok CANCELLED }.

(* src: ui/model_tr/layout.rs 90-101 (ComponentMsgObj for ButtonPage) *)
#[export] Instance tr_page_msg {T Msg} : ComponentMsgObj (Controller.ButtonPage T) (Controller.PageMsg Msg) := {
  msg_try_into_obj self msg :=
    match msg with Controller.Confirmed => Ok CONFIRMED | Controller.Cancelled => Ok CANCELLED | _ => Err TypeError end
}.

(* src: ui/model_tr/layout.rs 122-129 (ComponentMsgObj for PinEntry) *)
#[export] Instance pin_entry_msg : ComponentMsgObj PinEntry CancelConfirmMsg := {
  msg_try_into_obj self msg := match msg with EntryConfirmed => obj_of_str (pe_pin self) | EntryCancelled => Ok CANCELLED end
}.

(* src: ui/model_tr/layout.rs 152-156 (ComponentMsgObj for NumberInput) *)
#[export] Instance number_input_msg : ComponentMsgObj Choice.NumberInput Z := {
  msg_try_into_obj self msg := Ok (UTuple [CONFIRMED; UObj (obj_of_int msg)])
}.

(* src: ui/model_tr/layout.rs 158-167 (ComponentMsgObj for SimpleChoice) *)
#[export] Instance simple_choice_msg : ComponentMsgObj SimpleChoice Z := {
  msg_try_into_obj self msg :=
    if return_index self then Ok (UObj (obj_of_int msg))
    else t ← ui_result (result_by_index self msg); obj_of_str t
}.

(* src: ui/model_tr/layout.rs 169-173 (ComponentMsgObj for WordlistEntry) *)
#[export] Instance wordlist_msg : ComponentMsgObj WordlistEntry (list Z) := { msg_try_into_obj self msg := obj_of_str msg }.

(* src: ui/model_tr/layout.rs 175-182 (ComponentMsgObj for PassphraseEntry) *)
#[export] Instance passphrase_entry_msg : ComponentMsgObj PassphraseEntry CancelConfirmMsg := {
  msg_try_into_obj self msg :=
    match msg with EntryConfirmed => obj_of_str (TrEntry.passphrase self) | EntryCancelled => Ok CANCELLED end
}.

(* src: ui/flow/swipe.rs 260-275 (ComponentMsgObj for SwipeFlow) *)
#[export] Instance flow_msg_obj {Q S} : ComponentMsgObj (SwipeFlow Q S) FlowMsg := {
  msg_try_into_obj self msg :=
    match msg with
    | FlowConfirmed => Ok CONFIRMED
    | FlowCancelled => Ok CANCELLED
    | FlowInfo => Ok INFO
    | FlowChoice i => Ok (UTuple [CONFIRMED; UObj (obj_of_int i)])
    end
}.
