(* ===== verification/LayoutSpec.v ===== *)
(** * Properties of layouts

    What Python can rely on, whatever it calls: for any component with some
    laws, that the passphrase keyboard has; and that all timers are told. *)
From S2P Require Import Prelude Obj Crypto Blob Flash TString TransSpec Time Geometry Component Containers ComponentSpec Layout.
From S2P Require Import StrUtil Theme Button PageT Keyboard MnemonicSpec PassphraseT PassphraseSpec.
Local Open Scope Z_scope.

(** ** What components leave alone

    No component asks for a placement or for a repaint of the root, and the
    keyboards send no requests. *)
Definition calm (ctx ctx' : EventCtx) : Prop :=
  place_requested ctx' = place_requested ctx ∧ root_repaint_requested ctx' = root_repaint_requested ctx ∧
  button_request ctx' = button_request ctx.

#[export] Instance calm_preorder : PreOrder calm.
Proof. split; [done|]. intros ??? (?&?&?) (?&?&?). unfold calm. split_and!; congruence. Qed.

(** ** Any component *)
Section Layout.
Context {T Msg Callback World : Type} `{Component T Msg} `{!ComponentMsgObj T Msg} `{Python Callback World} `{Screen} `{Features}.
Context `{Primitives} `{Build} `{FlashDriver} (untranslated : Z → list Z) `{MicroPython}.
Implicit Types (self : LayoutObj T Callback) (w : World).

(** The laws of a component: before its first event it can be placed on the
    screen, any number of times; after that [inv] is kept by every event, none
    of which aborts; attaching it gives no message, and messages become
    objects in [out]. *)
Class LayoutLaws (fresh inv : T → Prop) (out : UiObj → Prop) : Prop := {
  ll_place t : fresh t → ∃ t' r, place t the_screen = Ok (t', r) ∧ fresh t' ∧ inv t';
  ll_event t ctx ev : inv t → ∃ t' ctx' m, event t ctx ev = Ok (t', ctx', m) ∧ inv t' ∧ calm ctx ctx' ∧
    match m with
    | Some msg => (∀ a, ev ≠ Attach a) ∧
        match msg_try_into_obj t' msg with Ok o => out o | Err _ => True | Panic | NoFuel => False end
    | None => True
    end
}.

(** *** Timers *)

(** The queue told to Python from its end: what is left of it after the first
    call that raises, Python's side, and whether one raised. *)
Fixpoint tell (f : list Obj → World → World * option Obj) (told : list (TimerToken * Duration)) w
    : list (TimerToken * Duration) * World * bool :=
  match told with
  | [] => ([], w, false)
  | (t, d) :: told =>
    match f [obj_of_int t; obj_of_int d] w with
    | (w, Some _) => tell f told w
    | (w, None) => (told, w, true)
    end
  end.

Lemma drain_tell (told : list (TimerToken * Duration)) self w : timers (event_ctx self) = reverse told →
  ∀ left w' raised, tell (call_timer_fn self) told w = (left, w', raised) →
  drain_timers (length told) self w =
    Ok (set_ctx self (set_timers (event_ctx self) (reverse left)), w', if raised then Some CaughtException else None).
Proof.
  revert self w. induction told as [|[t d] told IH]; intros self w Hq left w' raised Htell; cbn [tell length drain_timers] in *.
  - injection Htell as <- <- <-. unfold pop_timer. by rewrite Hq.
  - unfold pop_timer. rewrite Hq, reverse_cons, last_snoc, removelast_last.
    set (self1 := set_ctx self _). change (call_timer_fn self) with (call_timer_fn self1) in *.
    destruct (call_timer_fn self1 _ w) as [w1 [o|]].
    + rewrite (IH self1 w1 eq_refl left w' raised Htell). by destruct self as [? [] ? ?].
    + by injection Htell as <- <- <-.
Qed.

Lemma drain_ok self w : ∃ self' w' err, drain_timers (length (timers (event_ctx self))) self w = Ok (self', w', err) ∧
  root self' = root self ∧ calm (event_ctx self) (event_ctx self').
Proof.
  destruct (tell (call_timer_fn self) (reverse (timers (event_ctx self))) w) as [[left w'] raised] eqn:Ht.
  pose proof (drain_tell (reverse (timers (event_ctx self))) self w) as Hd. rewrite length_reverse in Hd.
  rewrite (Hd (eq_sym (reverse_involutive _)) _ _ _ Ht). by eexists _, _, _.
Qed.

(** *** Sessions *)

Context {fresh inv : T → Prop} {out : UiObj → Prop} `{!LayoutLaws fresh inv out}.

(** A layout before its first event, or after it. *)
Record layout_ok self : Prop := {
  lo_root : ∃ c, root_inner (root self) = Some c ∧
    if place_requested (event_ctx self) then fresh (inner c) else inv (inner c);
  lo_repaint : root_repaint_requested (event_ctx self) = false;
  lo_request : button_request (event_ctx self) = None
}.

(** What is told by an event, and by the other methods. *)
Definition event_reply (rep : Reply) : Prop :=
  match rep with Value o => o = const_none ∨ out o | Raised _ => True end.

Lemma place_ok self : layout_ok self → ∃ self' c, place_if_requested self = Ok self' ∧
  root_inner (root self') = Some c ∧ inv (inner c) ∧ layout_ok self' ∧ event_ctx self' = event_ctx self.
Proof.
  intros [(c & Hc & Hinv) Hr Hb]. unfold place_if_requested. destruct (place_requested (event_ctx self)) eqn:Hp.
  - cbn [place root_component]. rewrite Hc. cbn [or_panic mbind outcome_bind place child_component].
    destruct (ll_place (inner c) Hinv) as (t & r & -> & Hf & Hi). cbn [mbind outcome_bind].
    eexists _, (mkChild t (marked_for_paint c)). split; [done|]. split; [done|]. split; [done|]. split; [|done].
    split; [|done..]. eexists. split; [done|]. cbn [set_root event_ctx]. by rewrite Hp.
  - exists self, c. split_and!; try done. split; [|done..]. exists c. by rewrite Hp.
Qed.

Lemma mutate_calm {A U} (c : Child A) ctx (f : EventCtx → A → ui (A * EventCtx * U)) c' ctx' u :
  (∀ ctx a' ctx' u, f ctx (inner c) = Ok (a', ctx', u) → calm ctx ctx') → mutate c ctx f = Ok (c', ctx', u) → calm ctx ctx'.
Proof.
  intros Hf. unfold mutate. intros (((a & ctx1) & u1) & Ha%Hf & Hm)%bind_Ok. cbn beta iota in Hm.
  destruct Ha as (? & ? & ?). by destruct (paint_requested ctx1); injection Hm as <- <- <-.
Qed.

Lemma root_event_ok (r : Root T) c ctx ev : root_inner r = Some c → inv (inner c) → root_repaint_requested ctx = false →
  ∃ r' c' ctx' rep, root_obj_event r ctx ev = Ok (r', ctx', rep) ∧ root_inner r' = Some c' ∧ inv (inner c') ∧ calm ctx ctx' ∧
    event_reply rep ∧ (∀ a, ev = Attach a → rep = Value const_none ∨ ∃ e, rep = Raised e).
Proof.
  intros Hc Hi Hr. unfold root_obj_event. cbn [event root_component]. rewrite Hc. cbn [or_panic mbind outcome_bind].
  destruct (mutate_runs c ctx (λ ctx t, let ctx := match ev with RequestPaint => request_paint ctx | _ => ctx end in event t ctx ev)
    (λ t' m, inv t' ∧ match m with
      | Some msg => (∀ a, ev ≠ Attach a) ∧
          match msg_try_into_obj t' msg with Ok o => out o | Err _ => True | Panic | NoFuel => False end
      | None => True end)) as (c' & ctx1 & m & Hev & Hi' & Hm).
  { intros ctx1. cbv zeta. destruct (ll_event (inner c) (match ev with RequestPaint => request_paint ctx1 | _ => ctx1 end) ev Hi)
      as (t' & ctx2 & m & -> & Hi' & _ & Hm). by eexists _, _, _. }
  assert (calm ctx ctx1) as Hcalm.
  { refine (mutate_calm _ _ _ _ _ _ _ Hev). intros ctx2 a' ctx3 u. cbv zeta.
    destruct (ll_event (inner c) (match ev with RequestPaint => request_paint ctx2 | _ => ctx2 end) ev Hi)
      as (t' & ctx4 & m' & -> & _ & Hcm & _). intros [= _ <- _]. by destruct ev. }
  assert (event c ctx ev = Ok (c', ctx1, m)) as -> by exact Hev. cbn [mbind outcome_bind].
  destruct Hcalm as (Hpl & Hrr & Hbr). rewrite Hrr, Hr. cbn [mbind outcome_bind].
  destruct m as [msg|].
  - destruct Hm as [Hatt Hm]. cbn [root_inner or_panic mbind outcome_bind].
    destruct (msg_try_into_obj (inner c') msg) as [o|e| |]; try done; cbn [reply_of mbind outcome_bind];
      eexists _, c', _, _; (split; [done|]); split_and!; try done; [by right|intros a ->; by destruct (Hatt a)..].
  - eexists _, c', _, _. split; [done|]. split_and!; try done; by left.
Qed.

Lemma obj_event_ok self w ev : layout_ok self → ∃ self' w' rep, obj_event self w ev = Ok (self', w', rep) ∧ layout_ok self' ∧
  event_reply rep ∧ (∀ a, ev = Attach a → rep = Value const_none ∨ ∃ e, rep = Raised e).
Proof.
  intros Hok. unfold obj_event. destruct (place_ok self Hok) as (self1 & c & -> & Hc & Hi & [_ Hr Hb] & Hctx).
  cbn [mbind outcome_bind].
  destruct (root_event_ok (root self1) c (ctx_clear (event_ctx self1)) ev Hc Hi eq_refl)
    as (r & c' & ctx' & rep & -> & Hc' & Hi' & (Hpl & Hrr & Hbr) & Hrep & Hatt). cbn [mbind outcome_bind].
  set (self2 := mkLayout r ctx' (timer_fn self1) (lo_page_count self1)).
  assert (layout_ok self2) as Hok2.
  { split; [|exact Hrr|exact Hbr]. exists c'. split; [done|]. cbn. by rewrite Hpl. }
  destruct rep as [o|e]; [|by eexists _, _, _].
  destruct (drain_ok self2 w) as (self3 & w' & err & -> & Hroot & (Hpl3 & Hrr3 & Hbr3)). cbn [mbind outcome_bind].
  assert (layout_ok self3) as Hok3.
  { destruct Hok2 as [(c2 & Hc2 & Hi2) Hr2 Hb2]. split; [|congruence..]. exists c2. rewrite Hroot, Hpl3. done. }
  destruct err as [e|].
  - eexists _, _, _. split; [done|]. split; [done|]. split; [done|]. intros _ _. right. by eexists.
  - eexists _, _, _. split; [done|]. split; [|done].
    destruct (page_count (event_ctx self3)); [|done]. destruct Hok3. by split.
Qed.

(** The calls that are not excluded: nothing can be asked of a deleted layout,
    and texts have less than 2^16 bytes. *)
Definition call_ok (call : PyCall (Callback := Callback)) : Prop :=
  match call with
  | CallDelete => False
  | CallProgressEvent args => Forall (λ o, match o with OStr s => len s < 2 ^ 16 | _ => True end) args
  | _ => True
  end.

(** What a call replies. *)
Definition call_reply (call : PyCall (Callback := Callback)) (rep : Reply) : Prop :=
  match call with
  | CallTouchEvent _ | CallButtonEvent _ | CallProgressEvent _ | CallUsbEvent _ | CallTimer _ => event_reply rep
  | AttachTimerFn _ _ | CallRequestCompleteRepaint => rep = Value const_none ∨ ∃ e, rep = Raised e
  | CallPaint => ∃ b, rep = Value (UObj (OBool b))
  | CallPageCount => ∃ n, rep = Value (UObj (OInt n))
  | CallButtonRequest _ => rep = Value const_none
  | CallGetTransitionOut => rep = Value const_none ∨ ∃ d, rep = Value (UObj (OInt (swipe_to_u8 d)))
  | CallDelete => True
  end.

Lemma safe_fmap {A B} (m : result A) (f : A → B) : safe m → safe (f <$> m).
Proof. by destruct m. Qed.

Lemma obj_to_i32_safe o : safe (obj_to_i32 o).
Proof. unfold obj_to_i32. destruct (mp_obj_get_int_maybe o) as [[z|]|]; try done. by destruct (fits_s 32 z). Qed.

Lemma obj_to_u32_safe o : safe (obj_to_u32 o).
Proof.
  unfold obj_to_u32. apply safe_bind; [|intros; by destruct (fits_u 32 _)].
  unfold obj_to_i64. destruct o; try done. by destruct (_ <? _).
Qed.

Lemma event_of_ok self w (ev : result Event) : layout_ok self → safe ev →
  ∃ self' w' rep, event_of self w ev = Ok (self', w', rep) ∧ layout_ok self' ∧ event_reply rep ∧
    ((∀ e, ev = Ok e → ∃ a, e = Attach a) → rep = Value const_none ∨ ∃ e, rep = Raised e).
Proof.
  intros Hok Hs. destruct ev as [ev|e| |]; try done; cbn [event_of].
  - destruct (obj_event_ok self w ev Hok) as (self' & w' & rep & -> & Hok' & Hrep & Hatt).
    eexists _, _, _. split; [done|]. split; [done|]. split; [done|]. intros Ha. destruct (Ha ev eq_refl) as [a ->]. by apply (Hatt a).
  - eexists _, _, _. split; [done|]. split; [done|]. split; [done|]. intros _. right. by exists e.
Qed.

Lemma event_error_safe {A} (m : outcome EventError A) : safe m → safe (event_error m).
Proof. by destruct m. Qed.

Lemma touch_args_safe args : safe (touch_args args).
Proof.
  destruct args as [|e [|x [|y [|? ?]]]]; try done. unfold touch_args.
  repeat (apply safe_bind; [apply obj_to_u32_safe|]; intros ? _). apply safe_fmap, event_error_safe.
  unfold touch_event_new, try_i16. repeat (apply safe_bind; [by destruct (_ <? _)|]; intros ? _).
  by repeat case_match.
Qed.

Lemma button_args_safe args : safe (button_args args).
Proof.
  destruct args as [|e [|b [|? ?]]]; try done. unfold button_args.
  repeat (apply safe_bind; [apply obj_to_u32_safe|]; intros ? _). apply safe_fmap, event_error_safe.
  unfold button_event_new. apply safe_bind; [by repeat case_match|]. intros ? _. by repeat case_match.
Qed.

Lemma progress_args_safe args : call_ok (CallProgressEvent args) → safe (progress_args args).
Proof.
  destruct args as [|v [|d [|? ?]]]; try done. intros Hd. unfold progress_args. apply safe_bind.
  { unfold obj_to_u16. apply safe_bind; [apply obj_to_i32_safe|]. intros z _. by destruct (fits_u 16 z). }
  intros value _. apply safe_bind; [|done]. destruct d as [| | | |mem| |]; try done. unfold obj_to_str, from_ptr_and_len.
  assert (len mem < 2 ^ 16) as Hl by by apply Forall_cons in Hd as [_ [Hd _]%Forall_cons].
  rewrite (proj2 (fits_u_spec 16 (len mem))) by (unfold in_u; lia). cbn [or_panic mbind outcome_bind].
  unfold sb_as_bytes. cbn [sb_ptr sb_off sb_len]. rewrite Z.add_0_l.
  destruct (slice mem 0 (len mem)) as [t|] eqn:Ht.
  - cbn [or_panic mbind outcome_bind]. by destruct (utf8_valid t).
  - exfalso. assert (slice mem 0 (len mem) = Some mem) as Hs; [|congruence]. apply slice_Some. split; [lia|]. split; [lia|].
    rewrite drop_0, take_ge; [done|lia].
Qed.

Lemma usb_args_safe args : safe (usb_args args).
Proof. by destruct args as [|c [|? ?]]. Qed.

Lemma attach_safe o : safe (attach_try_from_obj o).
Proof.
  unfold attach_try_from_obj. destruct o; try done; destruct touch; try done; unfold obj_to_u8;
    (apply safe_bind; [|intros ? _; apply safe_bind; [apply safe_ok_or|done]]);
    (apply safe_bind; [apply obj_to_i32_safe|]; intros ? _; by destruct (fits_u 8 _)).
Qed.

Lemma layout_call_ok self w call : layout_ok self → call_ok call → ∃ self' w' rep,
  layout_call untranslated self w call = Ok (self', w', rep) ∧ layout_ok self' ∧ call_reply call rep.
Proof.
  intros Hok Hcall.
  assert (∀ ev, safe ev → ∃ self' w' rep, event_of self w ev = Ok (self', w', rep) ∧ layout_ok self' ∧ event_reply rep) as Hev.
  { intros ev Hs. destruct (event_of_ok self w ev Hok Hs) as (self' & w' & rep & He & Hok' & Hrep & _). by exists self', w', rep. }
  assert (∃ self' w' rep, (Ok (self, w, Value const_none) : ui (LayoutObj T Callback * World * Reply)) = Ok (self', w', rep) ∧
    layout_ok self' ∧ event_reply rep) as Hnone.
  { eexists _, _, _. split; [done|]. split; [done|]. by left. }
  destruct call as [f t|args|args|args|args|token| | | |st| |]; cbn [layout_call call_reply].
  - unfold attach_timer_fn.
    destruct (event_of_ok (obj_set_timer_fn self f) w (Attach <$> attach_try_from_obj t)) as (self' & w' & rep & -> & Hok' & _ & Hatt).
    + destruct Hok. by split.
    + apply safe_fmap, attach_safe.
    + cbn [mbind outcome_bind]. destruct Hatt as [->|[e ->]].
      * intros e. destruct (attach_try_from_obj t); try done. intros [= <-]. by eexists.
      * eexists _, _, _. split; [done|]. split; [done|]. by left.
      * eexists _, _, _. split; [done|]. split; [done|]. right. by eexists.
  - destruct touch; [by apply Hev, touch_args_safe|exact Hnone].
  - destruct button; [by apply Hev, button_args_safe|exact Hnone].
  - by apply Hev, progress_args_safe.
  - by apply Hev, usb_args_safe.
  - by apply Hev, safe_fmap, obj_to_u32_safe.
  - unfold layout_paint, obj_paint_if_requested. destruct (place_ok self Hok) as (self1 & c & -> & Hc & Hi & Hok1 & Hctx).
    cbn [mbind outcome_bind]. unfold obj_paint. rewrite Hc. cbn [or_panic mbind outcome_bind].
    eexists _, _, _. split; [done|]. split; [|by eexists]. destruct Hok1 as [(c1 & Hc1 & Hi1) Hr Hb].
    assert (c1 = c) as -> by congruence. split; [|done..]. eexists. split; [done|]. cbn [set_root event_ctx].
    by destruct (marked_for_paint c).
  - unfold layout_request_complete_repaint. destruct (obj_event_ok self w RequestPaint Hok) as (self' & w' & rep & -> & Hok' & _).
    cbn [mbind outcome_bind]. destruct rep as [o|e].
    + eexists _, _, _. split; [done|]. split; [|by left]. destruct Hok'. by split.
    + eexists _, _, _. split; [done|]. split; [done|]. right. by eexists.
  - eexists _, _, _. split; [done|]. split; [done|]. by eexists.
  - destruct Hok as [Hc Hr Hb]. unfold obj_button_request, take_button_request. rewrite Hb. cbn [reply_of mbind outcome_bind].
    eexists _, _, _. split; [done|]. split; [by split|done].
  - eexists _, _, _. split; [done|]. split; [done|]. unfold obj_get_transition_out, attach_to_obj.
    destruct (root_transition_out (root self)) as [[|d]|]; [by left|right; by exists d|by left].
  - done.
Qed.

Lemma session_ok self w calls : layout_ok self → Forall call_ok calls → ∃ self' w' reps,
  layout_session untranslated self w calls = Ok (self', w', reps) ∧ layout_ok self' ∧ Forall2 call_reply calls reps.
Proof.
  intros Hok Hcalls. revert self w Hok. induction Hcalls as [|call calls Hc Hcs IH]; intros self w Hok; [by eexists _, _, []|].
  cbn [layout_session]. destruct (layout_call_ok self w call Hok Hc) as (self1 & w1 & rep & -> & Hok1 & Hrep).
  cbn [mbind outcome_bind]. destruct (IH self1 w1 Hok1) as (self2 & w2 & reps & -> & Hok2 & Hreps). cbn [mbind outcome_bind].
  eexists _, _, _. split; [done|]. split; [done|]. by constructor.
Qed.

Lemma layout_new_ok c : fresh c → layout_ok (layout_new c).
Proof. intros Hf. split; [|done..]. by exists (child_new c). Qed.
End Layout.

(** ** The passphrase keyboard leaves the rest of the context alone *)

Lemma register_timer_calm ctx t d : calm ctx (register_timer ctx t d).
Proof. unfold register_timer. by destruct (_ <? _). Qed.

Lemma request_timer_calm ctx d : calm ctx (snd (request_timer ctx d)).
Proof. unfold request_timer, next_timer_token. cbn. etrans; [|apply register_timer_calm]. done. Qed.

Lemma set_calm b ctx s : calm ctx (snd (set b ctx s)).
Proof. unfold set. by case_bool_decide. Qed.

Lemma button_event_calm b ctx ev b' ctx' m : button_event b ctx ev = (b', ctx', m) → calm ctx ctx'.
Proof.
  assert (calm ctx (snd (fst (button_event b ctx ev)))) as Hc; [|by intros Hb; rewrite Hb in Hc].
  pose proof (set_calm b ctx) as Hs. pose proof (set_calm (with_timer b None) ctx Initial_) as Ht.
  unfold button_event. destruct ev as [|[pos|pos|pos|]| |token| | | |]; try done.
  - assert (calm ctx (snd (fst (let '(self, ctx) := set b ctx Pressed in
      match long_press self with
      | Some duration => let '(token, ctx) := request_timer ctx duration in (with_timer self (Some token), ctx, Some Pressed_)
      | None => (self, ctx, Some Pressed_) end)))) as Hp.
    { specialize (Hs Pressed). destruct (set b ctx Pressed) as [b1 ctx1]. destruct (long_press b1) as [d|]; [|done].
      pose proof (request_timer_calm ctx1 d). destruct (request_timer ctx1 d). etrans; [exact Hs|done]. }
    destruct (state b); try done; by destruct (contains _ pos).
  - specialize (Hs Released). destruct (state b); try done. destruct (contains _ pos); [done|]. by destruct (set b ctx Released).
  - specialize (Hs Initial_). destruct (state b) eqn:E; try done; destruct (set b ctx Initial_); by case_match.
  - case_bool_decide; [|done]. case_bool_decide; [|done]. by destruct (set (with_timer b None) ctx Initial_).
Qed.

Lemma mutate__calm {A} (c : Child A) ctx f c' ctx' : (∀ ctx, calm ctx (snd (f ctx (inner c)))) →
  mutate_ c ctx f = Ok (c', ctx') → calm ctx ctx'.
Proof.
  intros Hf. unfold mutate_. intros (((c1 & ctx1) & u) & Hm & [= <- <-])%bind_Ok. refine (mutate_calm _ _ _ _ _ _ _ Hm).
  intros ctx2 a' ctx3 v. specialize (Hf ctx2). destruct (f ctx2 (inner c)). by intros [= <- <- <-].
Qed.

Lemma button_child_calm (c : Child Button) ctx ev c' ctx' m : event c ctx ev = Ok (c', ctx', m) → calm ctx ctx'.
Proof.
  apply mutate_calm. intros ctx1 a' ctx2 u. cbv zeta. intros Hb. cbn [event button_component] in Hb.
  injection Hb as Hb. apply button_event_calm in Hb. by destruct ev.
Qed.

Lemma repaint_calm (c : Child Button) ctx c' ctx' : request_complete_repaint c ctx = Ok (c', ctx') → calm ctx ctx'.
Proof. unfold request_complete_repaint. intros (((c1 & ctx1) & m) & Hev%button_child_calm & [= <- <-])%bind_Ok. done. Qed.

Lemma enable_keys_calm states keys ctx keys' ctx' : enable_keys states keys ctx = Ok (keys', ctx') → calm ctx ctx'.
Proof.
  revert keys ctx keys' ctx'. induction states as [|s states IH]; intros [|b keys] ctx keys' ctx'; cbn [enable_keys]; try by intros [= <- <-].
  intros ((b1 & ctx1) & Hb & ((ks & ctx2) & Hks & [= <- <-])%bind_Ok)%bind_Ok.
  apply mutate__calm in Hb; [etrans; [exact Hb|by eapply IH]|]. intros. destruct s; apply set_calm.
Qed.

Lemma replace_contents_calm pg i keys ctx keys' ctx' : replace_contents pg i keys ctx = Ok (keys', ctx') → calm ctx ctx'.
Proof.
  revert i ctx keys' ctx'. induction keys as [|b keys IH]; intros i ctx keys' ctx'; cbn [replace_contents]; [by intros [= <- <-]|].
  intros (t & _ & ((b1 & ctx1) & Hb & ((b2 & ctx2) & Hr%repaint_calm & ((ks & ctx3) & Hks%IH & [= <- <-])%bind_Ok)%bind_Ok)%bind_Ok)%bind_Ok.
  apply mutate__calm in Hb; [by etrans; [exact Hb|etrans]|]. intros. unfold set_content. by case_bool_decide.
Qed.

Lemma update_input_calm kb ctx kb' ctx' : update_input_btns_state kb ctx = Ok (kb', ctx') → calm ctx ctx'.
Proof. unfold update_input_btns_state. by intros ((ks & ctx1) & Hk%enable_keys_calm & [= <- <-])%bind_Ok. Qed.

Lemma after_edit_calm kb ctx kb' ctx' : after_edit kb ctx = Ok (kb', ctx') → calm ctx ctx'.
Proof.
  unfold after_edit, update_back_btn_state. intros ((kb1 & ctx1) & ((b & ctx2) & Hb & [= <- <-])%bind_Ok & Hu%update_input_calm)%bind_Ok.
  apply mutate__calm in Hb; [by etrans|]. intros. by destruct (textbox_is_empty _); apply set_calm.
Qed.

Lemma clear_pending_calm i ctx : calm ctx (snd (input_clear_pending i ctx)).
Proof. unfold input_clear_pending, clear_pending_state. by destruct (pending (multi_tap i)). Qed.

Lemma on_page_swipe_calm kb ctx dir kb' ctx' : on_page_swipe kb ctx dir = Ok (kb', ctx') → calm ctx ctx'.
Proof.
  unfold on_page_swipe, replace_button_content.
  intros ((i & ctx1) & Hi & ((kb1 & ctx2) & ((ks & ctx3) & Hk%replace_contents_calm & [= <- <-])%bind_Ok & Hu%update_input_calm)%bind_Ok)%bind_Ok.
  apply mutate__calm in Hi; [by etrans; [exact Hi|etrans]|]. intros. apply clear_pending_calm.
Qed.

Lemma edit_text_calm kb ctx f kb' ctx' : (∀ t ctx, calm ctx (snd (f t ctx))) → edit_text kb ctx f = Ok (kb', ctx') → calm ctx ctx'.
Proof.
  intros Hf. unfold edit_text. intros ((i & ctx1) & Hi & Ha%after_edit_calm)%bind_Ok.
  apply mutate__calm in Hi; [by etrans|]. intros ctx2. pose proof (clear_pending_calm (inner (pk_input kb)) ctx2) as Hc.
  destruct (input_clear_pending _ ctx2) as [i1 ctx3]. specialize (Hf (textbox i1) ctx3).
  destruct (f (textbox i1) ctx3). by etrans.
Qed.

Lemma active_keys_calm states i keys ctx ev keys' ctx' clicked :
  active_keys_event states i keys ctx ev = Ok (keys', ctx', clicked) → calm ctx ctx'.
Proof.
  revert i keys ctx keys' ctx' clicked. induction states as [|s states IH]; intros i [|b keys] ctx keys' ctx' clicked;
    cbn [active_keys_event]; try by intros [= <- <- <-].
  intros (((b1 & ctx1) & m) & Hb & Hk)%bind_Ok.
  assert (calm ctx ctx1) as Hc by (destruct s; [by eapply button_child_calm|by injection Hb as <- <- <-]).
  assert ((∃ ks c, active_keys_event states (i + 1) keys ctx1 ev = Ok (ks, ctx', c)) ∨ ctx' = ctx1) as [(ks & c & Hr%IH)| ->]; [|by etrans|done].
  destruct m as [[]|]; try (apply bind_Ok in Hk as (((ks & c2) & cl) & Hk & [= <- <- <-]); left; by eexists _, _).
  injection Hk as <- <- <-. by right.
Qed.

Lemma click_key_calm m ctx k kt m' ctx' edit : click_key m ctx k kt = Ok (m', ctx', edit) → calm ctx ctx'.
Proof.
  unfold click_key. destruct (match pending m with Some _ => _ | None => _ end) as [p n].
  pose proof (request_timer_calm ctx (timeout m)) as Ht. destruct (1 <? len kt); [destruct (request_timer ctx (timeout m))|];
    (case_bool_decide; [done|]); by intros (ch & _ & [= _ <- _])%bind_Ok.
Qed.

Lemma key_clicked_calm kb ctx k kt kb' ctx' : key_clicked kb ctx k kt = Ok (kb', ctx') → calm ctx ctx'.
Proof.
  unfold key_clicked. intros (((i & ctx1) & u) & Hi & Ha%after_edit_calm)%bind_Ok. etrans; [|exact Ha].
  refine (mutate_calm _ _ _ _ _ _ _ Hi). intros ctx2 a' ctx3 v (((m & ctx4) & edit) & Hm%click_key_calm & He)%bind_Ok.
  assert (calm ctx4 (snd (apply_edit (textbox (inner (pk_input kb))) ctx4 edit))) as Hc.
  { destruct edit as [ch|ch]; cbn; [|done]. unfold replace_last. destruct (pop _). cbn. by case_bool_decide. }
  destruct (apply_edit _ ctx4 edit) as [t ctx5]. injection He as _ <- _. by etrans.
Qed.

Lemma back_event_calm kb ctx msg kb' ctx' m : back_event kb ctx msg = Ok (kb', ctx', m) → calm ctx ctx'.
Proof.
  assert (∀ t ctx, calm ctx (snd (delete_last t ctx))) as Hd by (intros; unfold delete_last; by destruct (pop _) as [[]]).
  assert (∀ t ctx, calm ctx (snd (clear t ctx))) as Hc by (intros; unfold clear, replace; by case_bool_decide).
  unfold back_event. destruct msg; [| |destruct (textbox_is_empty _); [by intros [= <- <- <-]|]|];
    intros ((kb1 & ctx1) & He%edit_text_calm & [= <- <- <-])%bind_Ok; done.
Qed.

Lemma passphrase_calm kb ctx ev kb' ctx' m : passphrase_keyboard_event kb ctx ev = Ok (kb', ctx', m) → calm ctx ctx'.
Proof.
  unfold passphrase_keyboard_event. destruct (is_timeout_event _ ev).
  { intros ((i & ctx1) & Hi & [= <- <- <-])%bind_Ok. apply mutate__calm in Hi; [done|]. intros. apply clear_pending_calm. }
  destruct (swipe_event (page_swipe kb) ev) as [s [dir|]].
  { by intros ((kb1 & ctx1) & Hs%on_page_swipe_calm & [= <- <- <-])%bind_Ok. }
  intros (((c & ctx1) & m1) & Hc%button_child_calm & Hrest)%bind_Ok. etrans; [exact Hc|]. clear Hc. revert Hrest.
  case_bool_decide; [by intros [= <- <- <-]|].
  intros (((b & ctx2) & m2) & Hb%button_child_calm & Hrest)%bind_Ok. etrans; [exact Hb|]. clear Hb. revert Hrest. cbv zeta.
  assert (∀ k, ('(ks, ctx, clicked) ← active_keys_event (get_buttons_active_states k) 0 (pk_keys k) ctx2 ev;
     match clicked with
     | Some (key, text) => '(self, ctx) ← key_clicked (set_keys k ks) ctx key text; Ok (self, ctx, None)
     | None => Ok (set_keys k ks, ctx, None)
     end) = Ok (kb', ctx', m) → calm ctx2 ctx') as Hkeys.
  { intros k (((ks & ctx3) & clicked) & Hk%active_keys_calm & Hrest)%bind_Ok. etrans; [exact Hk|].
    destruct clicked as [[key t]|]; [|by injection Hrest as _ <- _].
    by apply bind_Ok in Hrest as ((kb2 & ctx4) & Hkc%key_clicked_calm & [= _ <- _]). }
  destruct m2 as [[]|]; [apply Hkeys|apply Hkeys|apply back_event_calm|apply back_event_calm|apply Hkeys].
Qed.

(** Attaching clicks on nothing. *)
Lemma attach_child (c : Child Button) ctx a c' ctx' m : event c ctx (Attach a) = Ok (c', ctx', m) → m = None.
Proof.
  cbn [event child_component]. unfold mutate. cbn [event button_component button_event mbind outcome_bind].
  by destruct (paint_requested _); intros [= _ _ <-].
Qed.

Lemma passphrase_attach kb ctx a kb' ctx' m : passphrase_keyboard_event kb ctx (Attach a) = Ok (kb', ctx', m) → m = None.
Proof.
  unfold passphrase_keyboard_event. cbn [is_timeout_event].
  assert (swipe_event (page_swipe kb) (Attach a) = (page_swipe kb, None)) as ->.
  { unfold swipe_event. destruct (negb _); [done|]. by destruct (origin (page_swipe kb)). }
  intros (((c & ctx1) & m1) & ->%attach_child & Hrest)%bind_Ok. rewrite bool_decide_eq_false_2 in Hrest by done.
  apply bind_Ok in Hrest as (((b & ctx2) & m2) & ->%attach_child & Hrest).
  apply bind_Ok in Hrest as (((ks & ctx3) & clicked) & _ & Hrest).
  destruct clicked as [[key t]|]; [|by injection Hrest]. by apply bind_Ok in Hrest as ((kb2 & ctx4) & _ & [= _ _ <-]).
Qed.

(** ** Its laws *)

#[local] Instance model_t_screen : Screen := {| screen_width := 240; screen_height := 240 |}.

(** A keyboard without events: with the keys of its first page and no text. *)
Definition untouched (kb : PassphraseKeyboard) : Prop :=
  ∃ row, getZ KEYBOARD STARTING_PAGE = Some row ∧ (λ b, Button.content (inner b)) <$> pk_keys kb = key_content <$> row ∧
    PassphraseT.passphrase kb = [] ∧ is_enabled (inner (pk_back kb)) = false ∧ input_pending kb = None.

(** What the layout replies: a text that can be entered. *)
Definition entered_text (o : UiObj) : Prop := ∃ s, o = UObj (OStr s) ∧ Forall (λ b, printable b) s ∧ len s <= MAX_LENGTH.

Lemma untouched_place kb : untouched kb → ∃ kb' r, passphrase_keyboard_place kb the_screen = Ok (kb', r) ∧ untouched kb' ∧ pass_ok kb'.
Proof.
  intros (row & Hrow & Hk & Ht & Hb & Hp).
  assert (∃ keys, place_character_keys (grid_with_spacing (grid_new (snd (split_bottom (inset the_screen borders)
    (i16 (4 * PIN_BUTTON_HEIGHT + 3 * BUTTON_SPACING)))) 4 3) BUTTON_SPACING) 0 (pk_keys kb) = Ok keys) as [keys Hkeys].
  { apply (f_equal length) in Hk. rewrite !length_fmap in Hk. vm_compute in Hrow. injection Hrow as <-. cbn in Hk.
    destruct (pk_keys kb) as [|k0 [|k1 [|k2 [|k3 [|k4 [|k5 [|k6 [|k7 [|k8 [|k9 [|? ?]]]]]]]]]]]; try done. by eexists. }
  pose proof (place_keys_content _ _ _ _ Hkeys) as Hc. rewrite Hk in Hc.
  unfold passphrase_keyboard_place. cbv zeta.
  destruct (split_bottom (inset the_screen borders) _) as [ia kg] eqn:Hs1. cbn [snd] in Hkeys.
  destruct (split_bottom ia INPUT_AREA_HEIGHT) as [ia' sa]. destruct (split_top sa DOT_SIZE) as [sa' rest].
  assert (∃ ca ba, cell (grid_with_spacing (grid_new kg 4 3) BUTTON_SPACING) 11 = Ok ca ∧
    cell (grid_with_spacing (grid_new kg 4 3) BUTTON_SPACING) 9 = Ok ba) as (ca & ba & -> & ->) by by eexists _, _.
  cbn [mbind outcome_bind place child_component swipe_component input_component button_component]. rewrite Hkeys.
  cbn [mbind outcome_bind]. eexists _, _. split; [done|]. split.
  - exists row. split_and!; done.
  - match goal with |- pass_ok ?k => assert (PassphraseT.passphrase k = []) as Ht' by exact Ht; assert (input_pending k = None) as Hp' by exact Hp end.
    split; rewrite ?Ht', ?Hp'; try done. by exists row.
Qed.

#[export] Instance passphrase_laws : LayoutLaws (T := PassphraseKeyboard) (Msg := PassphraseKeyboardMsg) untouched pass_ok entered_text.
Proof.
  split.
  - intros kb Hu. exact (untouched_place kb Hu).
  - intros kb ctx ev Hok. destruct (event_ok kb ctx ev Hok) as (kb' & ctx' & msg & He & Hok' & Hent & Hne & Hc).
    exists kb', ctx', msg. split; [exact He|]. split; [done|]. split; [by eapply passphrase_calm|].
    destruct msg as [msg|]; [|done]. split.
    + intros a ->. by apply passphrase_attach in He.
    + destruct msg; [|done]. cbn. exists (PassphraseT.passphrase kb'). split; [done|]. apply Hok'.
Qed.

(** ** The properties *)

(** C29. A layout, whatever Python calls on it: for a component that can be
    placed, whose events keep an invariant without an abort, that gives no
    message when it is attached and asks for nothing from the root, any session
    on a new layout ends without an abort, as long as the layout is not deleted
    and texts are shorter than 2^16 bytes.  An event is answered by None or by
    what the messages of the component stand for, or raises; attaching and
    repainting are answered by None, and each other method by its kind of
    object. *)
Theorem layout_session_safe {T Msg Callback World} `{Component T Msg} `{!ComponentMsgObj T Msg} `{Python Callback World} `{Screen}
    `{Features} `{Primitives} `{Build} `{FlashDriver} (untranslated : Z → list Z) `{MicroPython}
    {fresh inv : T → Prop} {out : UiObj → Prop} `{!LayoutLaws fresh inv out} c (w : World) calls :
  fresh c → Forall call_ok calls → ∃ self' w' reps,
    layout_session untranslated (layout_new c) w calls = Ok (self', w', reps) ∧
    Forall2 (call_reply (out := out)) calls reps.
Proof.
  intros Hf Hcalls. destruct (session_ok untranslated (layout_new c) w calls (layout_new_ok c Hf) Hcalls) as (self' & w' & reps & Hs & _ & Hr).
  by exists self', w', reps.
Qed.

(** Python's side of the examples: the function for timers notes its calls. *)
#[local] Instance noting : Python unit (list (list Obj)) := {|
  call_with_n_args _ args w := (w ++ [args], Some ONone);
  mp_obj_get_int_maybe o := Some (match o with OInt z => Some z | OBool b => Some (if b then 1 else 0) | _ => None end)
|}.
#[local] Instance model_t_features : Features := {| touch := true; button := false |}.
#[local] Existing Instances toy toy_build toy_flash assoc_python.

Definition new_keyboard : PassphraseKeyboard := match passphrase_keyboard_new with Ok kb => kb | _ => mkPassphrase swipe_new
  (child_new input_new) (child_new button_empty) (child_new button_empty) [] scrollbar_horizontal end.

Lemma new_untouched : untouched new_keyboard.
Proof. eexists. split; [reflexivity|]. by vm_compute. Qed.

(** A session with the passphrase keyboard: the letter "a" is entered and
    confirmed; a wrong number of arguments and a direction that is none raise. *)
Definition typing : list PyCall :=
  [AttachTimerFn (Some tt) ONone; CallPaint;
   CallTouchEvent (OInt <$> [1; px (key_point 1); py (key_point 1)]); CallTouchEvent (OInt <$> [4; px (key_point 1); py (key_point 1)]);
   CallTimer (OInt 2); CallTouchEvent []; AttachTimerFn None (OInt 7); CallButtonEvent []; CallGetTransitionOut;
   CallTouchEvent (OInt <$> [1; px confirm_point; py confirm_point]); CallTouchEvent (OInt <$> [4; px confirm_point; py confirm_point])].

Lemma typing_replies : ∃ self' w', layout_session (λ _, []) (layout_new new_keyboard) [] typing =
  Ok (self', w', [Value const_none; Value (UObj (OBool true)); Value const_none; Value const_none; Value const_none;
    Raised TypeError; Raised TypeError; Value const_none; Value const_none; Value const_none; Value (UObj (OStr [97]))]) ∧
  w' = [[OInt 2; OInt 1000]].
Proof. eexists _, _. split; [by vm_compute|done]. Qed.

Lemma layout_session_safe_witness : untouched new_keyboard ∧ Forall call_ok typing ∧ ∃ self' w' reps,
  layout_session (λ _, []) (layout_new new_keyboard) [] typing = Ok (self', w', reps) ∧
  Forall2 (call_reply (out := entered_text)) typing reps.
Proof.
  assert (Forall (call_ok (Callback := unit)) typing) as Hc by (repeat (constructor; [exact I|]); constructor).
  split; [exact new_untouched|]. split; [exact Hc|].
  exact (layout_session_safe (λ _, []) new_keyboard [] typing new_untouched Hc).
Defined.

(** C30. The timers of a layout.  After the event was given to the component,
    which happens once it is placed if that was asked for, each timer that was
    requested is told to Python, from the last one and once.  When the message
    has no object no timer is told and all of them stay; when the function
    raises, the timers after it stay.  Otherwise the queue is empty, the reply
    is that of the component, and the number of pages is the last one it told,
    in 16 bits. *)
Theorem layout_timers_told {T Msg Callback World} `{Component T Msg} `{!ComponentMsgObj T Msg} `{Python Callback World} `{Screen}
    (self : LayoutObj T Callback) (w : World) ev self' w' rep :
  obj_event self w ev = Ok (self', w', rep) →
  ∃ self1 r ctx answer, place_if_requested self = Ok self1 ∧
    root_obj_event (root self1) (ctx_clear (event_ctx self1)) ev = Ok (r, ctx, answer) ∧ root self' = r ∧
    match answer with
    | Raised e => rep = Raised e ∧ w' = w ∧ timers (event_ctx self') = timers ctx
    | Value o => ∃ left raised, tell (call_timer_fn self) (reverse (timers ctx)) w = (left, w', raised) ∧
        timers (event_ctx self') = reverse left ∧
        if raised then rep = Raised CaughtException
        else left = [] ∧ rep = Value o ∧ lo_page_count self' = default (lo_page_count self) (wrapu 16 <$> page_count ctx)
    end.
Proof.
  unfold obj_event. intros (self1 & Hpl & He)%bind_Ok. apply bind_Ok in He as (((r & ctx) & answer) & Hev & He).
  exists self1, r, ctx, answer. split; [done|]. split; [done|].
  assert (timer_fn self1 = timer_fn self ∧ lo_page_count self1 = lo_page_count self) as [Hfn Hpc].
  { unfold place_if_requested in Hpl. destruct (place_requested _); [|by injection Hpl as <-].
    by apply bind_Ok in Hpl as ((r1 & a) & _ & [= <-]). }
  destruct answer as [o|e]; [|by injection He as <- <- <-]. set (self2 := mkLayout r ctx (timer_fn self1) (lo_page_count self1)) in He.
  assert (call_timer_fn self2 = call_timer_fn self) as Hcall by (unfold call_timer_fn; cbn [self2 timer_fn]; by rewrite Hfn).
  destruct (tell (call_timer_fn self) (reverse (timers ctx)) w) as [[left w1] raised] eqn:Ht. rewrite <- Hcall in Ht.
  pose proof (drain_tell (reverse (timers ctx)) self2 w (eq_sym (reverse_involutive _)) _ _ _ Ht) as Hd.
  rewrite length_reverse in Hd. cbn [self2 event_ctx] in He. rewrite Hd in He. cbn [mbind outcome_bind] in He.
  assert (tell_done : raised = false → left = []).
  { intros ->. clear -Ht. revert w Ht. generalize (reverse (timers ctx)) as q. induction q as [|[t d] q IH]; intros w; cbn [tell]; [by intros [= <-]|].
    destruct (call_timer_fn self2 _ w) as [w2 [x|]]; [apply IH|done]. }
  destruct raised.
  - injection He as <- <- <-. split; [done|]. by exists left, true.
  - injection He as <- <- <-. rewrite (tell_done eq_refl) in *. cbn [set_ctx event_ctx set_timers page_count root self2].
    split; [by destruct (page_count ctx)|]. exists [], false. split; [done|].
    split; [by destruct (page_count ctx)|]. split; [done|]. split; [done|]. rewrite <- Hpc. by destruct (page_count ctx).
Qed.

(** A touch of a key asks for the timer that ends its characters. *)
Lemma layout_timers_told_witness :
  match layout_session (λ _, []) (layout_new new_keyboard) [] (take 3 typing) with
  | Ok (self, w, _) => match obj_event self w (Touch (TouchEnd (key_point 1))) with
    | Ok (self', w', rep) => timers (event_ctx self') = [] ∧ w' = [[OInt 2; OInt 1000]] ∧
        ∃ self1 r ctx answer, place_if_requested self = Ok self1 ∧
          root_obj_event (root self1) (ctx_clear (event_ctx self1)) (Touch (TouchEnd (key_point 1))) = Ok (r, ctx, answer) ∧ root self' = r
    | _ => False
    end
  | _ => False
  end.
Proof.
  destruct (layout_session (λ _, []) (layout_new new_keyboard) [] (take 3 typing)) as [[[self w] reps]| | |] eqn:Hs; [|by vm_compute in Hs..].
  destruct (obj_event self w (Touch (TouchEnd (key_point 1)))) as [[[self' w'] rep]| | |] eqn:He;
    [|vm_compute in Hs; injection Hs as <- <- <-; by vm_compute in He..].
  destruct (layout_timers_told self w _ self' w' rep He) as (self1 & r & ctx & answer & H1 & H2 & H3 & _).
  vm_compute in Hs. injection Hs as <- <- <-. vm_compute in He. injection He as <- <- <-.
  split; [reflexivity|]. split; [reflexivity|]. by exists self1, r, ctx, answer.
Defined.
